(* ===== verification/_CoqProject ===== *)
-Q . S2P
Prelude.v
Kube.v
GoErrors.v
Regex.v
ApiV1beta1.v
ApiV1alpha1.v
Conversion.v
ConversionProps.v
Lock.v
SecretRef.v
TLSCert.v
Workload.v
Conditions.v
Coordination.v
CoordinationProps.v
Endpoint.v
MetricInputs.v
Validators.v
PipelineMetrics.v
SelfMonitor.v
CommonStatus.v
Reconcile.v
SampleCluster.v
TraceReconciler.v
TraceReconcilerProps.v
MetricReconciler.v
MetricReconcilerProps.v
GoStrings.v
LogOtelReconciler.v
LogOtelReconcilerProps.v
FluentBitReconciler.v
FluentBitReconcilerProps.v
Webhook.v
WebhookProps.v
LogReconciler.v
ValidatorInstances.v
ApiOperator.v
GoFormat.v
MetricAgentTypes.v
CollectorTypes.v
CollectorBuilder.v
MetricAgentReceivers.v
MetricReceiverProps.v
CollectorProcessors.v
CollectorExporter.v
GatewayConfig.v
CollectorBuilderProps.v
CollectorExporterProps.v
GatewayConfigProps.v
GatewayIsolation.v
GatewayTheorems.v
LogAgentConfig.v
FluentBitConfigBuilder.v
FluentBitSections.v
FluentBitConfigProps.v
FluentBitConfigTheorems.v
LogAgentTheorems.v
K8sUtils.v
TelemetryUtils.v
MetricAgentConfig.v
MetricAgentProps.v
MetricAgentTheorems.v
MetricRuntimeExact.v
OtlpGatewayReconciler.v
GatewayEndToEnd.v
SecretWatch.v
TelemetryReconciler.v
TelemetryReconcilerProps.v
WebhookCert.v
WebhookCertProps.v
SelfMonitorRules.v
Resources.v
OtelResources.v
FluentBitResources.v
ResourcesProps.v
NetworkPolicies.v
Maintenance.v
MaintenanceProps.v
Controllers.v
ControllersProps.v
