(* ===== verification/Prelude.v ===== *)
(** * Verification of the Kyma telemetry manager

    The telemetry manager is a Kubernetes operator. Users describe pipelines for
    logs, metrics and traces (custom resources in two API versions); the manager
    validates them, limits how many are active, publishes the accepted ones for the
    OTLP gateway, deploys agents, and reports the state of each pipeline in its
    status conditions. This development models that logic from the Go sources under
    src/ and proves the properties that make it correct.

    ** The parts of the program and the files that model them

    - Prelude.v: Go results and early returns, slices (a nil slice is [None], an
      empty one [Some []]), the tactics [split_matches] and [split_hyp], the hint
      database [go] and the lemmas every file shares.
    - Kube.v: the objects of the Kubernetes API the manager reads and writes and the
      API server itself, as classes: [ConfigMapClient] with its laws (optimistic
      concurrency by resource version, creation of absent objects only, frames),
      [SecretReader], [StatusSetter]; [RefStore] is a concrete store that keeps the
      laws.
    - GoErrors.v: the errors of all modelled packages as one inductive type, with
      their texts, [errors_is], [errors_as], [errors_join].
    - Regex.v: regular expressions by derivatives, for internal/namespaces.
    - ApiV1alpha1.v, ApiV1beta1.v: the Go structs under apis/telemetry as records.
    - Conversion.v, ConversionProps.v: the conversion webhook's functions
      (apis/telemetry/v1alpha1/*_conversion.go and the generated conversions). The
      annotation maps live in a heap because source and destination share them.
    - Lock.v: internal/resourcelock. A call is a read, a decision ([decide_acquire])
      and a write ([perform]); [Lock.step] interleaves the calls of several callers.
    - SecretRef.v, TLSCert.v, Endpoint.v, Validators.v, MetricInputs.v:
      internal/validators/{secretref,tlscert,endpoint,ottl,runtimemetrics},
      internal/utils/{sharedtypes,metricpipeline} and the metric tables of
      internal/otelcollector/config/metricagent.
    - Workload.v: internal/workloadstatus (Pods, DaemonSets, Deployments and their
      ReplicaSets).
    - Conditions.v, CommonStatus.v: internal/conditions and
      internal/reconciler/commonstatus.
    - Coordination.v, CoordinationProps.v: the ConfigMap through which the pipeline
      controllers and the OTLP gateway controller communicate
      (internal/resources/coordinationconfig).
    - SelfMonitor.v: rule matching, flow-health probers and the alert webhook;
      SelfMonitorRules.v: the Prometheus configuration and the alert rules, with a
      meaning for their expressions (internal/selfmonitor).
    - Reconcile.v: what the reconcilers share: their collaborators as the class
      [PipelineCluster], the meaning of a validation error.
    - PipelineMetrics.v: the information metrics about the pipelines
      (internal/metrics).
    - TraceReconciler.v, MetricReconciler.v and their Props files:
      internal/reconciler/{tracepipeline,metricpipeline} (validator.go, status.go
      and reconciler.go).
    - LogOtelReconciler.v, FluentBitReconciler.v and their Props files:
      internal/reconciler/logpipeline/{otel,fluentbit}, with internal/utils/logpipeline
      and the parser of custom sections (internal/fluentbit/config); LogReconciler.v:
      internal/reconciler/logpipeline/reconciler.go, which chooses between the two.
    - GoStrings.v: the functions of Go's package strings that parser uses, on bytes.
    - ValidatorInstances.v: the validators above as instances of the interface
      [PipelineValidators] through which the reconcilers call them, with the proof
      that they keep its laws.
    - SampleCluster.v: a concrete cluster for the concrete runs.
    - Webhook.v, WebhookProps.v: the defaulting and validating webhooks of both API
      versions (webhook/). WebhookCert.v, WebhookCertProps.v: the certificates of the
      webhook server (internal/webhookcert).
    - FluentBitConfigBuilder.v: internal/fluentbit/config/builder; FluentBitSections.v
      reads sections back, FluentBitConfigProps.v and FluentBitConfigTheorems.v are the
      theory.
    - ApiOperator.v: the Telemetry resource (apis/operator/v1beta1).
    - CollectorTypes.v, CollectorBuilder.v, CollectorProcessors.v, CollectorExporter.v
      and their Props files: internal/otelcollector/config/common, the configuration
      of a collector and the functions that add components to it. The Go builders
      share a pointer to the configuration; here it is the state [builder].
      CollectorBuilderProps.v has the vocabulary of the theorems: [closed]
      configurations, [adds] (what a function appends to its service pipeline),
      [preserves] and [registered] (invariants of a construction).
    - GatewayConfig.v, GatewayConfigProps.v, GatewayIsolation.v, GatewayTheorems.v:
      the configuration of the OTLP gateway (internal/otelcollector/config/otlpgateway).
    - LogAgentConfig.v, LogAgentTheorems.v: the log agent (config/logagent).
    - MetricAgentTypes.v, MetricAgentReceivers.v, MetricAgentConfig.v: the metric agent
      (config/metricagent); MetricReceiverProps.v (what the runtime receivers collect),
      MetricAgentProps.v, MetricAgentTheorems.v (pipelines and routing) and
      MetricRuntimeExact.v (which runtime metrics reach a pipeline) are its theory.
      GoFormat.v has the parts of packages time and path/filepath it uses.
    - K8sUtils.v: internal/utils/k8s (create-or-update with its merge of metadata);
      TelemetryUtils.v: internal/utils/telemetry.
    - OtlpGatewayReconciler.v: the reconciler of the gateway; GatewayEndToEnd.v composes
      it with the TracePipeline reconciler through the coordination ConfigMap.
    - SecretWatch.v: internal/secretwatch.
    - TelemetryReconciler.v, TelemetryReconcilerProps.v: internal/reconciler/telemetry.
    - Resources.v: internal/config, internal/resources/common (labels, Pod
      specifications, network policies), the labelling client (internal/k8sclients) and
      internal/configchecksum; OtelResources.v: internal/resources/otelcollector, the
      resources of the gateway and of the two agents; FluentBitResources.v:
      internal/resources/{fluentbit,selfmonitor}. Applying and deleting is a list of
      steps on a cluster with one [ObjectClient] per kind. ResourcesProps.v joins the
      kinds into one store ([ClusterLaws]; [Api] is a server that keeps the laws);
      NetworkPolicies.v gives the policies their meaning.
    - Maintenance.v, MaintenanceProps.v: the background work (internal/{nodesize,
      overrides,storagemigration,labelupdater,istiostatus,vpastatus,cliflags,
      featureflags}) and the directory size exporter.
    - Controllers.v, ControllersProps.v: the watches of the controllers, their mapping
      functions, locks and cache scopes (controllers/, internal/utils/predicate), and
      the settings that main.go derives from its flags and environment.

    ** How the code is translated

    A function that returns [(T, error)] returns [result T goerror]; one that returns
    [error] returns [option goerror] ([None] is nil); where the code can panic (a nil
    pointer, a nil function, an empty text) the result is wrapped in another [option]
    whose [None] is the panic. Code that changes the cluster takes a state [W] and
    returns the new state. Loops are structural recursions on the slice they range
    over. The functions with fuel are [GoStrings.trim_front], which drops leading
    white space (each step drops at least a byte, so the length of the text is enough),
    [MetricAgentTheorems.deliveries], which follows routing connectors (three
    pipelines in a row are enough, as its theorem states), and [Maintenance.Start], the
    retry loop of the runnables (one run more than there are failures is enough,
    [MaintenanceProps.Start_returns]). A [float64] is the integer nearest to the exact
    value with 53 significant bits ([Maintenance.float64]).
    Times and counters are integers [Z]; [time_sub] saturates at the width of a Go duration, as the Go library does.
    The order of checks, the texts of the messages and every early return are those
    of the code.

    Parameters stand for code outside the repository: the API server, encoding/json
    and yaml.v3 (with their round-trip laws), crypto/x509 and pem, url.Parse, the
    OTTL parsers, the deep equality of Pod templates, and SHA-256. The reconcilers are
    modelled against interfaces: their collaborators (override handler, appliers of
    resources, configuration builders) are parameters of them, with frame laws where a
    theorem needs them, and are modelled in files of their own. How the collector evaluates a routing statement and which metrics its runtime
    receivers emit by default are classes with the documented laws.

    ** What the theorems show

    - Conversion: a LogPipeline survives the way to the other version and back; an
      edited one is not overwritten by the preserved data; names are sanitised
      exactly; what the opposite way normalises.
    - Lock: bounded number of owners, no holder loses its slot, errors on every
      branch, and safety under every interleaving of concurrent callers.
    - Coordination ConfigMap: refinement of an abstract registry by any sequence of
      updates, failed ones included, and atomicity under concurrent writers.
    - Validators: exact acceptance conditions, the classes of errors, absence of
      panics on admitted input; composed into the exact acceptance condition of a
      whole TracePipeline or MetricPipeline.
    - Workload status and self monitor: exact readiness conditions, alerts concern
      one pipeline, and the webhook reconciles the pipelines whose probe changes.
    - Reconcilers: what is published is what was accepted, the reported condition
      agrees with what the reconciler does, deletion cleans up, the status is
      complete and current, the metric agent is deployed with exactly the pipelines that
      need it, and custom Fluent Bit filters that pass are safe.
    - Collector configurations: every component that is used is defined; the service
      pipelines are exactly those the pipelines ask for; a pipeline's exporter sends to
      its own endpoint and its user-defined processors are its own; the order of the
      pipelines is irrelevant; the operators of the log agent form no loop; a metric of
      the metric agent reaches exactly the pipelines that enable its input, and of the
      runtime metrics exactly those the pipeline asks for.
    - Gateway, secrets and Telemetry: the gateway is applied with exactly the current
      pipelines, an accepted TracePipeline is served by it; the secret watcher refines a
      relation between Secrets and pipelines, and its goroutines route exactly the changes
      between the list and the end of a watch; the Telemetry resource is ready only when its components are healthy and keeps its
      finalizer while pipelines exist.
    - Fluent Bit and webhooks: a sections file reads back as the sections that were
      asked for and (without match_regex) handles the records of its pipeline only; defaulting completes a
      pipeline and commutes with conversion; the certificates that serve the webhooks
      are valid, and match when the authority was made here.
    - Self-monitor: the verdicts of the probers are what the series say, and the network
      policies let it scrape exactly the metrics ports of the components.
    - Resources: what a component applies is in place afterwards, with the checksum of its
      configuration in the Pod template; it is watched by its controller (but for what
      belongs to an Istio or VPA installed later), is in the scope of the cache and is
      removed by its deletion (but for the environment Secret of an agent, which stays).
      Reads and lists may come from a cache; where a theorem needs them to be up to date
      it says so ([reads_current], [lists_current] of ResourcesProps.v). The memory of the gateway stays within its bounds on every
      node size.
    - Background work and controllers: the old storage version is dropped only after
      every object in the scope of the cache was rewritten; a change of the lock wakes every pipeline of its kind;
      the exporter reports the sizes of directories.
    - Behaviours that surprise are proved as they are: a certificate about to expire
      hides later checks, an exclude list of invalid names selects every namespace, an
      empty CA value passes, a container in creation hides later ones, an empty
      endpoint stops all pipelines of its kind, a failed read of the lock drops a
      Fluent Bit pipeline, a custom section with match_regex handles the records of others,
      a Telemetry resource outside the target namespace is not migrated, a rejected custom section is reported as a TLS problem, and
      a change of the smallest node reaches one of three controllers.

    ** What is not modelled

    Generated deep copies, the demonstration programs under dependencies/ other than the
    directory size exporter, test code and tooling. Of the modelled parts: logging, the
    Prometheus registry and the metrics about the manager itself, the HTTP client of the
    self-monitor prober, the start of the manager and the registration of its runnables
    and webhooks in main.go, and the passing of collaborators to the reconcilers in the
    constructors of the controllers. The network, Prometheus, the collector and Fluent
    Bit are described only by the documented meaning of the configuration they get. *)

From stdpp Require Import base gmap strings list pretty.
From Stdlib Require Import OrdersEx.

(** ** Go results *)

(** A Go function that returns [(T, error)]: the value on success, the error
    otherwise. A function that returns only [error] is a [result unit E], or an
    [option E] where the code treats [nil] as a value. *)
Inductive result (T E : Type) : Type :=
| Ok (t : T)
| Err (e : E).
Arguments Ok {T E} t.
Arguments Err {T E} e.

Definition is_ok {T E} (r : result T E) : bool :=
  match r with Ok _ => true | Err _ => false end.

Definition rbind {T U E} (r : result T E) (k : T -> result U E) : result U E :=
  match r with Ok t => k t | Err e => Err e end.

Definition rmap_err {T E F} (f : E -> F) (r : result T E) : result T F :=
  match r with Ok t => Ok t | Err e => Err (f e) end.

(** The early return on a non-nil error. *)
Definition or_return {E} (e : option E) (k : option E) : option E :=
  match e with Some _ => e | None => k end.

Declare Scope go_scope.
Delimit Scope go_scope with go.
Notation "x <- r ;; k" := (rbind r (fun x => k))
  (at level 100, r at next level, right associativity) : go_scope.
Notation "e ?;; k" := (or_return e k)
  (at level 100, right associativity) : go_scope.

(** ** Go slices

    A Go slice is [nil] or holds elements; [len(nil) = 0] and ranging over [nil]
    does nothing, but [s == nil] tells the two apart, which some of the
    conversions do. *)
Definition slice (A : Type) : Type := option (list A).

Definition elems {A} (s : slice A) : list A := default [] s.
Definition slen {A} (s : slice A) : nat := length (elems s).
Definition is_nil {A} (s : slice A) : bool := match s with None => true | Some _ => false end.

(** The elements converted one by one, nil kept nil. *)
Definition smap {A B} (f : A -> B) (s : slice A) : slice B :=
  match s with None => None | Some l => Some (List.map f l) end.

(** [var out []A; for _, x := range in { if p(x) { out = append(out, x) } }] *)
Definition filter_slice {A} (p : A -> bool) (l : list A) : slice A :=
  match List.filter p l with [] => None | ys => Some ys end.

(** [ptr.Deref(p, def)] *)
Definition deref {A} (p : option A) (def : A) : A := default def p.

(** [if *p == nil { *p = v }] *)
Definition or_default {A} (p : option A) (v : A) : option A :=
  match p with Some _ => p | None => Some v end.

Definition isSome {A} (o : option A) : bool := match o with Some _ => true | None => false end.

(** String equality as a boolean, for conditions of the code. *)
Definition str_eqb (a b : string) : bool := bool_decide (a = b).

(** [a < b] on Go strings: bytewise lexicographic. *)
Definition str_ltb (a b : string) : bool :=
  match String_as_OT.compare a b with Lt => true | _ => false end.

(** A slice or map after an encoder that omits empty ones and a decoder. *)
Definition snil {T} (s : slice T) : slice T := match s with Some [] => None | _ => s end.
Definition mnil (m : option (gmap string string)) : option (gmap string string) :=
  match m with Some m => if bool_decide (m = ∅) then None else Some m | None => None end.

(** ** Association tables: a Go map literal used only for lookup *)
Fixpoint assoc {V} (k : string) (t : list (string * V)) : option V :=
  match t with
  | [] => None
  | (k', v) :: t' => if str_eqb k k' then Some v else assoc k t'
  end.

(** ** Automation *)

Create HintDb go.

(** Case analysis on every match or conditional of the goal. *)
Ltac split_matches :=
  repeat (case_match || case_decide); simplify_eq/=; try done.

(** The same for a hypothesis that equates a computation with its outcome. *)
Ltac split_hyp H :=
  repeat (first
    [ match type of H with
      | context [ match ?x with _ => _ end ] => destruct x eqn:?
      | context [ if ?x then _ else _ ] => destruct x eqn:?
      end ]; simplify_eq/=); try done.

(** ** Shared lemmas *)

Lemma str_eqb_true a b : str_eqb a b = true <-> a = b.
Proof. unfold str_eqb. apply bool_decide_eq_true. Qed.

Lemma str_eqb_false a b : str_eqb a b = false <-> a <> b.
Proof. unfold str_eqb. apply bool_decide_eq_false. Qed.

Lemma str_eqb_refl a : str_eqb a a = true.
Proof. by apply str_eqb_true. Qed.

Lemma str_ltb_lt a b : str_ltb a b = true <-> String_as_OT.lt a b.
Proof. unfold str_ltb, String_as_OT.lt. destruct (String_as_OT.compare a b); naive_solver. Qed.

Lemma str_ltb_irrefl a : str_ltb a a = false.
Proof.
  destruct (str_ltb a a) eqn:H; [|done]. apply str_ltb_lt in H.
  exfalso. by eapply (StrictOrder_Irreflexive (R := String_as_OT.lt)).
Qed.

Lemma str_ltb_trans a b c : str_ltb a b = true -> str_ltb b c = true -> str_ltb a c = true.
Proof. rewrite !str_ltb_lt. apply (StrictOrder_Transitive (R := String_as_OT.lt)). Qed.

Lemma str_ltb_total a b : str_ltb a b = true \/ a = b \/ str_ltb b a = true.
Proof.
  rewrite !str_ltb_lt. destruct (String_as_OT.compare_spec a b); auto.
Qed.

Lemma str_ltb_asym a b : str_ltb a b = true -> str_ltb b a = false.
Proof.
  intros H. destruct (str_ltb b a) eqn:H'; [|done].
  pose proof (str_ltb_trans _ _ _ H H') as Hc. by rewrite str_ltb_irrefl in Hc.
Qed.

Lemma or_default_some {A} (p : option A) v : is_Some (or_default p v).
Proof. destruct p; simpl; eauto. Qed.

Lemma or_default_idem {A} (p : option A) v w : or_default (or_default p v) w = or_default p v.
Proof. by destruct p. Qed.

Lemma or_default_set {A} (x : A) v : or_default (Some x) v = Some x.
Proof. done. Qed.

Lemma elems_filter_slice {A} (p : A -> bool) l :
  elems (filter_slice p l) = List.filter p l.
Proof. unfold filter_slice, elems. by destruct (List.filter p l). Qed.

Lemma elems_snil {T} (s : slice T) : elems (snil s) = elems s.
Proof. by destruct s as [[|]|]. Qed.

Lemma default_mnil m : default ∅ (mnil m) = default ∅ m.
Proof. destruct m as [m|]; simpl; [|done]. by case_bool_decide as H; [rewrite H|]. Qed.

Lemma list_filter_all {A} (p : A -> bool) l :
  Forall (fun x => p x = true) l -> List.filter p l = l.
Proof. induction 1 as [|x l Hx _ IH]; simpl; [done|]. by rewrite Hx, IH. Qed.

Lemma list_filter_Forall {A} (p : A -> bool) l :
  Forall (fun x => p x = true) (List.filter p l).
Proof.
  induction l as [|x l IH]; simpl; [constructor|].
  destruct (p x) eqn:Hx; [constructor|]; done.
Qed.

Lemma list_filter_filter {T} (p q : T -> bool) l :
  List.filter q (List.filter p l) = List.filter (fun x => p x && q x) l.
Proof.
  induction l as [|x l IH]; simpl; [done|].
  destruct (p x); simpl; [destruct (q x); simpl; by rewrite IH|done].
Qed.

Lemma filter_slice_idem {A} (p : A -> bool) l :
  filter_slice p (elems (filter_slice p l)) = filter_slice p l.
Proof.
  rewrite elems_filter_slice. unfold filter_slice.
  by rewrite (list_filter_all p _ (list_filter_Forall p l)).
Qed.

Lemma smap_inv {A B} (f : A -> B) (g : B -> A) :
  (forall x, g (f x) = x) -> forall s, smap g (smap f s) = s.
Proof.
  intros H [l|]; simpl; [|done]. f_equal. rewrite List.map_map.
  induction l as [|x l IH]; simpl; congruence.
Qed.

Lemma fmap_inv {A B} (f : A -> B) (g : B -> A) :
  (forall x, g (f x) = x) -> forall o : option A, g <$> (f <$> o) = o.
Proof. intros H [x|]; simpl; [by rewrite H|done]. Qed.

Lemma Ok_inj {T E} (a b : T) : @Ok T E a = Ok b -> a = b.
Proof. congruence. Qed.

Lemma append_assoc (a b c : string) : ((a +:+ b) +:+ c = a +:+ b +:+ c)%string.
Proof. induction a as [|x a IH]; [done|]. exact (f_equal (String x) IH). Qed.

Lemma append_cancel (p s t : string) : p +:+ s = p +:+ t -> s = t.
Proof. induction p as [|c p IH]; simpl; [done|]. intros [= He]. auto. Qed.

Lemma or_return_none {E} (e k : option E) :
  or_return e k = None <-> e = None /\ k = None.
Proof. destruct e; simpl; naive_solver. Qed.

Lemma or_return_some {E} (e k : option E) x :
  or_return e k = Some x <-> e = Some x \/ (e = None /\ k = Some x).
Proof. destruct e; simpl; naive_solver. Qed.

#[export] Hint Rewrite @or_default_idem @filter_slice_idem @elems_snil default_mnil str_eqb_refl : go.
#[export] Hint Resolve or_default_some : go.
