(* ===== verification/Kube.v ===== *)
(** * The Kubernetes API as the manager sees it

    The API server, its client library and apimachinery are not part of the
    repository. This file holds the data the repository's code reads and writes
    through them, and the interfaces ([Class]es) that stand for the calls, each
    with the documented behaviour the theorems rely on as a separate class of
    laws. The instances at the end are reference stores that satisfy the laws;
    they are used only to exhibit concrete runs. *)
From stdpp Require Import base gmap strings list.
From S2P Require Import Prelude.

(** ** Object data *)

Record NamespacedName := mkNN { nn_Namespace : string; nn_Name : string }.

#[export] Instance NamespacedName_eq_dec : EqDecision NamespacedName.
Proof. solve_decision. Defined.

#[export] Program Instance NamespacedName_countable : Countable NamespacedName :=
  inj_countable' (fun n => (nn_Namespace n, nn_Name n)) (fun p => mkNN p.1 p.2) _.
Next Obligation. by intros []. Qed.

(** [metav1.OwnerReference], the fields the code compares. *)
Record OwnerReference := mkOwnerRef { or_Name : string; or_UID : string }.

#[export] Instance OwnerReference_eq_dec : EqDecision OwnerReference.
Proof. solve_decision. Defined.

#[export] Program Instance OwnerReference_countable : Countable OwnerReference :=
  inj_countable' (fun o => (or_Name o, or_UID o)) (fun p => mkOwnerRef p.1 p.2) _.
Next Obligation. by intros []. Qed.

(** [metav1.ObjectMeta], the fields the code reads. [om_Annotations] is [None]
    for a nil map. *)
Record ObjectMeta := mkMeta {
  om_Name : string;
  om_UID : string;
  om_Generation : Z;
  om_Annotations : option (gmap string string);
  om_Deleted : bool  (* DeletionTimestamp != nil *)
}.

Inductive ConditionStatus := ConditionTrue | ConditionFalse | ConditionUnknown.

#[export] Instance ConditionStatus_eq_dec : EqDecision ConditionStatus.
Proof. solve_decision. Defined.

(** [metav1.Condition] without [LastTransitionTime], which apimachinery sets. *)
Record Condition := mkCondition {
  c_Type : string;
  c_Status : ConditionStatus;
  c_Reason : string;
  c_Message : string;
  c_ObservedGeneration : Z
}.

(** [corev1.Secret] *)
Record Secret := mkSecret {
  sec_Data : gmap string string;
  sec_ResourceVersion : string
}.

(** [corev1.ConfigMap] with the metadata the lock and the coordination code use.
    [cm_ResourceVersion] is 0 for the empty version of an object that was not read
    from the API server. *)
Record ConfigMap := mkConfigMap {
  cm_Key : NamespacedName;
  cm_ResourceVersion : Z;
  cm_OwnerReferences : list OwnerReference;
  cm_Data : option (gmap string string)
}.

(** ** Errors of the API client *)

Inductive apierror :=
| NotFound
| AlreadyExists
| Conflict
| OtherApiError (msg : string).

(** [apierrors.IsNotFound] *)
Definition IsNotFound (e : apierror) : bool :=
  match e with NotFound => true | _ => false end.

(** [client.IgnoreNotFound] *)
Definition IgnoreNotFound (e : apierror) : option apierror :=
  if IsNotFound e then None else Some e.

(** The error texts of the client (not part of the repository) are irrelevant to
    the claims; this gives one for messages that embed them. *)
Definition apierror_text (e : apierror) : string :=
  match e with
  | NotFound => "not found"
  | AlreadyExists => "already exists"
  | Conflict => "the object has been modified; please apply your changes to the latest version and try again"
  | OtherApiError m => m
  end.

(** ** Reading Secrets *)

(** [client.Reader.Get] on Secrets, at the cluster state of one reconciliation. *)
Class SecretReader := get_secret : NamespacedName -> result Secret apierror.

(** ** ConfigMaps *)

(** [client.Client] on ConfigMaps over a cluster state [W]. *)
Class ConfigMapClient (W : Type) := {
  cm_get : W -> NamespacedName -> result ConfigMap apierror;
  cm_create : W -> ConfigMap -> W * option apierror;
  cm_update : W -> ConfigMap -> W * option apierror
}.

(** Documented behaviour of the API server: writes are atomic and bump the
    object's resourceVersion past every version handed out before; create fails
    on an existing object; update fails on an absent object and, when it carries
    a resourceVersion, on any other version than the stored one; a failed call
    changes nothing; a call touches only its own object. *)
Class ConfigMapLaws (W : Type) `{ConfigMapClient W} := {
  cm_revision : W -> Z;
  cm_get_key w k cm : cm_get w k = Ok cm -> cm_Key cm = k;
  cm_get_version w k cm :
    cm_get w k = Ok cm -> (0 < cm_ResourceVersion cm <= cm_revision w)%Z;
  cm_create_ok w cm w' :
    cm_create w cm = (w', None) ->
    cm_get w (cm_Key cm) = Err NotFound /\
    cm_get w' (cm_Key cm) =
      Ok (mkConfigMap (cm_Key cm) (cm_revision w') (cm_OwnerReferences cm) (cm_Data cm));
  cm_create_err w cm w' e : cm_create w cm = (w', Some e) -> w' = w;
  cm_update_ok w cm w' :
    cm_update w cm = (w', None) ->
    (exists old, cm_get w (cm_Key cm) = Ok old /\
       (cm_ResourceVersion cm = 0 \/ cm_ResourceVersion old = cm_ResourceVersion cm)%Z) /\
    cm_get w' (cm_Key cm) =
      Ok (mkConfigMap (cm_Key cm) (cm_revision w') (cm_OwnerReferences cm) (cm_Data cm));
  cm_update_err w cm w' e : cm_update w cm = (w', Some e) -> w' = w;
  cm_create_revision w cm w' : cm_create w cm = (w', None) -> (cm_revision w < cm_revision w')%Z;
  cm_update_revision w cm w' : cm_update w cm = (w', None) -> (cm_revision w < cm_revision w')%Z;
  cm_create_frame w cm w' e k :
    cm_create w cm = (w', e) -> k <> cm_Key cm -> cm_get w' k = cm_get w k;
  cm_update_frame w cm w' e k :
    cm_update w cm = (w', e) -> k <> cm_Key cm -> cm_get w' k = cm_get w k
}.

(** ** Status conditions *)

(** [meta.SetStatusCondition] of apimachinery. *)
Class StatusSetter := SetStatusCondition : list Condition -> Condition -> list Condition.

Definition find_condition (t : string) (cs : list Condition) : option Condition :=
  List.find (fun c => str_eqb (c_Type c) t) cs.

(** Its documented behaviour: it sets the condition of its type and leaves the
    conditions of the other types alone. *)
Class StatusSetterLaws `{StatusSetter} := {
  set_condition_same cs c : find_condition (c_Type c) (SetStatusCondition cs c) = Some c;
  set_condition_other cs c t :
    t <> c_Type c -> find_condition t (SetStatusCondition cs c) = find_condition t cs
}.

(** [meta.RemoveStatusCondition] of apimachinery, and its documented behaviour. *)
Class StatusRemover := RemoveStatusCondition : list Condition -> string -> list Condition.

Class StatusRemoverLaws `{StatusRemover} := {
  remove_condition_same cs t : find_condition t (RemoveStatusCondition cs t) = None;
  remove_condition_other cs t t' :
    t' <> t -> find_condition t' (RemoveStatusCondition cs t) = find_condition t' cs
}.

(** ** Reference instances *)

Module RefStore.

(** A ConfigMap store: the stored objects, the latest write first. The revision is
    the highest version handed out. *)
Definition store : Type := list ConfigMap.

Definition revision (s : store) : Z :=
  foldr (fun cm r => Z.max (cm_ResourceVersion cm) r) 0%Z s.

Definition put (s : store) (cm : ConfigMap) : store :=
  mkConfigMap (cm_Key cm) (1 + revision s) (cm_OwnerReferences cm) (cm_Data cm) :: s.

Definition get (s : store) (k : NamespacedName) : result ConfigMap apierror :=
  match List.find (fun cm => bool_decide (cm_Key cm = k /\ (0 < cm_ResourceVersion cm)%Z)) s with
  | Some cm => Ok cm
  | None => Err NotFound
  end.

Definition create (s : store) (cm : ConfigMap) : store * option apierror :=
  match get s (cm_Key cm) with
  | Ok _ => (s, Some AlreadyExists)
  | Err _ => (put s cm, None)
  end.

Definition update (s : store) (cm : ConfigMap) : store * option apierror :=
  match get s (cm_Key cm) with
  | Err e => (s, Some e)
  | Ok old =>
      if bool_decide (cm_ResourceVersion cm = 0 \/ cm_ResourceVersion old = cm_ResourceVersion cm)%Z
      then (put s cm, None) else (s, Some Conflict)
  end.

Lemma revision_nonneg s : (0 <= revision s)%Z.
Proof. induction s; simpl; lia. Qed.

Lemma revision_bound s cm : In cm s -> (cm_ResourceVersion cm <= revision s)%Z.
Proof. induction s as [|x s IH]; simpl; [done|]. intros [->|?%IH]; lia. Qed.

Lemma revision_put s cm : revision (put s cm) = (1 + revision s)%Z.
Proof. unfold put; simpl. pose proof (revision_nonneg s). lia. Qed.

Lemma get_put s cm :
  get (put s cm) (cm_Key cm) =
    Ok (mkConfigMap (cm_Key cm) (revision (put s cm)) (cm_OwnerReferences cm) (cm_Data cm)).
Proof.
  rewrite revision_put. unfold get, put; simpl. pose proof (revision_nonneg s).
  by rewrite bool_decide_true by (split; [done|lia]).
Qed.

Lemma get_put_ne s cm k : k <> cm_Key cm -> get (put s cm) k = get s k.
Proof. intros Hk. unfold get, put; simpl. by rewrite bool_decide_false by naive_solver. Qed.

Lemma get_ok s k cm : get s k = Ok cm -> cm_Key cm = k /\ (0 < cm_ResourceVersion cm <= revision s)%Z.
Proof.
  unfold get. intros Hg. destruct (List.find _ s) as [x|] eqn:Hf; simplify_eq.
  apply List.find_some in Hf as [Hin Hb%bool_decide_eq_true]. pose proof (revision_bound _ _ Hin). naive_solver.
Qed.

Lemma get_err s k e : get s k = Err e -> e = NotFound.
Proof. unfold get. intros H. by split_hyp H. Qed.

End RefStore.

#[export] Instance ref_cm_client : ConfigMapClient RefStore.store :=
  {| cm_get := RefStore.get; cm_create := RefStore.create; cm_update := RefStore.update |}.

Ltac ref_store :=
  unfold RefStore.create, RefStore.update in *;
  repeat case_match; simplify_eq.

#[export] Program Instance ref_cm_laws : ConfigMapLaws RefStore.store :=
  {| cm_revision := RefStore.revision |}.
Next Obligation. intros w k cm. simpl. by intros [Hk _]%RefStore.get_ok. Qed.
Next Obligation. intros w k cm. simpl. by intros [_ Hv]%RefStore.get_ok. Qed.
Next Obligation.
  intros w cm w'; simpl; intros H. ref_store. split; [|apply RefStore.get_put].
  match goal with Hg : RefStore.get _ _ = Err ?e |- _ =>
    pose proof (RefStore.get_err _ _ _ Hg); congruence end.
Qed.
Next Obligation. intros w cm w' e; simpl; intros H. by ref_store. Qed.
Next Obligation.
  intros w cm w'; simpl; intros H. ref_store. split; [|apply RefStore.get_put].
  eexists; split; [done|].
  match goal with Hb : bool_decide _ = true |- _ => by apply bool_decide_eq_true in Hb end.
Qed.
Next Obligation. intros w cm w' e; simpl; intros H. by ref_store. Qed.
Next Obligation.
  intros w cm w'; simpl; intros H. ref_store. rewrite RefStore.revision_put. lia.
Qed.
Next Obligation.
  intros w cm w'; simpl; intros H. ref_store. rewrite RefStore.revision_put. lia.
Qed.
Next Obligation.
  intros w cm w' e k; simpl; intros H Hk. ref_store; [done|by apply RefStore.get_put_ne].
Qed.
Next Obligation.
  intros w cm w' e k; simpl; intros H Hk. ref_store; try done; by apply RefStore.get_put_ne.
Qed.

(** A condition list in which the condition of the type is replaced in place or
    appended. *)
#[export] Instance ref_status_setter : StatusSetter :=
  fix set cs c :=
    match cs with
    | [] => [c]
    | x :: xs => if str_eqb (c_Type x) (c_Type c) then c :: xs else x :: set xs c
    end.

#[export] Instance ref_status_laws : StatusSetterLaws.
Proof.
  constructor.
  - intros cs c. unfold find_condition, SetStatusCondition.
    induction cs as [|x xs IH]; simpl; [by rewrite str_eqb_refl|].
    destruct (str_eqb (c_Type x) (c_Type c)) eqn:E; simpl; [by rewrite str_eqb_refl|].
    by rewrite E.
  - intros cs c t Ht. unfold find_condition, SetStatusCondition.
    assert (Hf : str_eqb (c_Type c) t = false) by (by apply str_eqb_false).
    induction cs as [|x xs IH]; simpl; [by rewrite Hf|].
    destruct (str_eqb (c_Type x) (c_Type c)) eqn:E; simpl.
    + apply str_eqb_true in E. by rewrite E, Hf.
    + destruct (str_eqb (c_Type x) t); [done|]. apply IH.
Qed.

#[export] Instance ref_status_remover : StatusRemover :=
  fun cs t => List.filter (fun c => negb (str_eqb (c_Type c) t)) cs.

#[export] Instance ref_remover_laws : StatusRemoverLaws.
Proof.
  constructor; unfold find_condition, RemoveStatusCondition, ref_status_remover.
  - intros cs t. induction cs as [|x xs IH]; simpl; [done|].
    destruct (str_eqb (c_Type x) t) eqn:E; simpl; [done|]. by rewrite E.
  - intros cs t t' Ht. induction cs as [|x xs IH]; simpl; [done|].
    destruct (str_eqb (c_Type x) t) eqn:E; simpl; [|by rewrite IH].
    apply str_eqb_true in E. rewrite IH, E. by rewrite (proj2 (str_eqb_false t t') (not_eq_sym Ht)).
Qed.
