(* ===== verification/GoErrors.v ===== *)
(** * Go errors

    The error values of the repository: sentinel errors ([errors.New] in a [var]
    block), the struct error types with the fields they carry, and the wrapping
    done by [fmt.Errorf] with [%w] and by [errors.Join]. [Error] renders the text,
    [errors_is] and [errors_as] walk the chain as package errors does: through
    [Unwrap] where the type has it and not through the types that lack it. *)
From stdpp Require Import base strings list pretty.
From S2P Require Import Prelude Kube.
Local Open Scope string_scope.

(** ** Sentinels *)

Inductive sentinel :=
| ErrMaxPipelinesExceeded
| ErrSecretKeyNotFound
| ErrSecretRefNotFound
| ErrSecretRefMissingFields
| ErrNoPodsDeployed
| ErrDaemonSetNotFound
| ErrDaemonSetFetching
| ErrDeploymentNotFound
| ErrDeploymentFetching
| ErrFailedToGetLatestReplicaSet
| ErrCertDecodeFailed
| ErrCertParseFailed
| ErrKeyDecodeFailed
| ErrCADecodeFailed
| ErrCAParseFailed
| ErrMissingCertKeyPair
| ErrTLSValueResolveFailed
| ErrInvalidCertificateKeyPair
| ErrCertIsNotCA
| ErrEndpointValueResolveFailed
| ErrPortMissing
| ErrUnsupportedScheme
| ErrGRPCOAuth2NoTLS
| ErrHTTPWithTLS
| ErrGRPCWithPath
| ErrValueOrSecretRefUndefined.

#[export] Instance sentinel_eq_dec : EqDecision sentinel.
Proof. solve_decision. Defined.

Definition sentinel_text (s : sentinel) : string :=
  match s with
  | ErrMaxPipelinesExceeded => "maximum pipeline count limit exceeded"
  | ErrSecretKeyNotFound => "one or more keys in a referenced Secret are missing"
  | ErrSecretRefNotFound => "one or more referenced Secrets are missing"
  | ErrSecretRefMissingFields => "secret reference is missing field/s"
  | ErrNoPodsDeployed => "no Pods deployed"
  | ErrDaemonSetNotFound => "DaemonSet is not yet created"
  | ErrDaemonSetFetching => "failed to get DaemonSet"
  | ErrDeploymentNotFound => "deployment is not yet created"
  | ErrDeploymentFetching => "failed to get Deployment"
  | ErrFailedToGetLatestReplicaSet => "failed to get latest ReplicaSets"
  | ErrCertDecodeFailed => "failed to decode PEM block containing certificate"
  | ErrCertParseFailed => "failed to parse certificate"
  | ErrKeyDecodeFailed => "failed to decode PEM block containing private key"
  | ErrCADecodeFailed => "failed to decode PEM block containing CA certificate"
  | ErrCAParseFailed => "failed to parse CA certificate"
  | ErrMissingCertKeyPair =>
      "a certificate and private key must either both be provided or both be missing"
  | ErrTLSValueResolveFailed => "failed to resolve value"
  | ErrInvalidCertificateKeyPair => "certificate and private key do not match"
  | ErrCertIsNotCA => "not a CA certificate"
  | ErrEndpointValueResolveFailed => "failed to resolve value"
  | ErrPortMissing => "missing port"
  | ErrUnsupportedScheme => "missing or unsupported protocol scheme"
  | ErrGRPCOAuth2NoTLS => "OAuth2 requires TLS when using gRPC protocol"
  | ErrHTTPWithTLS => "HTTP scheme with TLS not allowed"
  | ErrGRPCWithPath => "gRPC endpoints cannot contain paths"
  | ErrValueOrSecretRefUndefined => "either value or secret key reference must be defined"
  end.

(** ** Time

    A [time.Time] is the number of nanoseconds since the Unix epoch, UTC; a
    [time.Duration] a number of nanoseconds in 64 bits. *)

Definition nanosecond : Z := 1.
Definition second : Z := (1000000000 * nanosecond)%Z.
Definition hour : Z := (3600 * second)%Z.

Definition max_duration : Z := (2 ^ 63 - 1)%Z.
Definition min_duration : Z := (- 2 ^ 63)%Z.

(** [t.Sub(u)]: the difference, saturated at the extreme durations. *)
Definition time_sub (t u : Z) : Z := Z.max min_duration (Z.min max_duration (t - u)).

(** [t.After(u)] *)
Definition time_after (t u : Z) : bool := (u <? t)%Z.

(** The civil date of a day number since 1970-01-01 (proleptic Gregorian). *)
Definition civil_of_days (z0 : Z) : Z * Z * Z :=
  let z := (z0 + 719468)%Z in
  let era := (z / 146097)%Z in
  let doe := (z - era * 146097)%Z in
  let yoe := ((doe - doe / 1460 + doe / 36524 - doe / 146096) / 365)%Z in
  let doy := (doe - (365 * yoe + yoe / 4 - yoe / 100))%Z in
  let mp := ((5 * doy + 2) / 153)%Z in
  let d := (doy - (153 * mp + 2) / 5 + 1)%Z in
  let m := (if mp <? 10 then mp + 3 else mp - 9)%Z in
  let y := (yoe + era * 400 + (if m <=? 2 then 1 else 0))%Z in
  (y, m, d).

Definition pad (w : nat) (s : string) : string :=
  String.concat "" (repeat "0" (w - String.length s)) +:+ s.

(** [t.Format(time.DateOnly)] for the years 0 to 9999. *)
Definition format_date_only (t : Z) : string :=
  let '(y, m, d) := civil_of_days (t / (86400 * second))%Z in
  pad 4 (pretty y) +:+ "-" +:+ pad 2 (pretty m) +:+ "-" +:+ pad 2 (pretty d).

Example format_date_only_ex :
  format_date_only (1709210096 * second)%Z = "2024-02-29".
Proof. vm_compute. reflexivity. Qed.

(** ** Error values *)

Inductive goerror :=
| Sentinel (s : sentinel)
| NewError (msg : string)
| ApiError (e : apierror)
| Wrapf (prefix : string) (e : goerror) (suffix : string)
| Join1 (e : goerror)
| Join2 (e1 e2 : goerror)
| APIRequestFailedError (e : goerror)
| EndpointInvalidError (e : goerror)
| InvalidOTTLSpecError (e : goerror)
| InvalidAdditionalMetricError (e : goerror)
| CertExpiredError (expiry : Z) (is_ca : bool)
| CertAboutToExpireError (expiry : Z) (is_ca : bool)
| PodIsNotScheduledError (message : string)
| PodIsPendingError (container reason message : string)
| PodIsFailingError (message : string)
| FailedToListReplicaSetError (e : goerror)
| FailedToFetchReplicaSetError (e : goerror)
| RolloutInProgressError.

(** [err.Error()] *)
Fixpoint Error (e : goerror) : string :=
  match e with
  | Sentinel s => sentinel_text s
  | NewError m => m
  | ApiError a => apierror_text a
  | Wrapf p e s => p +:+ Error e +:+ s
  | Join1 e => Error e
  | Join2 e1 e2 => Error e1 +:+ String (Ascii.ascii_of_nat 10) "" +:+ Error e2
  | APIRequestFailedError e => Error e
  | EndpointInvalidError e => Error e
  | InvalidOTTLSpecError e => Error e
  | InvalidAdditionalMetricError e => Error e
  | CertExpiredError t ca =>
      (if ca then "TLS CA certificate expired on " else "TLS certificate expired on ")
        +:+ format_date_only t
  | CertAboutToExpireError t ca =>
      (if ca
       then "TLS CA certificate is about to expire, configured certificate is valid until "
       else "TLS certificate is about to expire, configured certificate is valid until ")
        +:+ format_date_only t
  | PodIsNotScheduledError m => "Pod is not scheduled: " +:+ m
  | PodIsPendingError _ r m =>
      "Pod is in the pending state: reason: " +:+ r +:+ ", message: " +:+ m
  | PodIsFailingError m => "Pod has failed: " +:+ m
  | FailedToListReplicaSetError e => "failed to list ReplicaSets: " +:+ Error e
  | FailedToFetchReplicaSetError e => "failed to fetch ReplicaSets: " +:+ Error e
  | RolloutInProgressError => "Rollout is in progress"
  end.

(** [errors.Is(err, target)] for a sentinel target. *)
Fixpoint errors_is (e : goerror) (t : sentinel) : bool :=
  match e with
  | Sentinel s => bool_decide (s = t)
  | Wrapf _ e _ | Join1 e | EndpointInvalidError e => errors_is e t
  | Join2 e1 e2 => errors_is e1 t || errors_is e2 t
  | _ => false
  end.

(** [errors.As]: the first error of the chain, in pre-order, that [f] accepts. *)
Fixpoint errors_as {A} (f : goerror -> option A) (e : goerror) : option A :=
  match f e with
  | Some a => Some a
  | None =>
      match e with
      | Wrapf _ e _ | Join1 e | EndpointInvalidError e => errors_as f e
      | Join2 e1 e2 =>
          match errors_as f e1 with Some a => Some a | None => errors_as f e2 end
      | _ => None
      end
  end.

(** [errors.Join(acc, err)] for a non-nil [err]. *)
Definition errors_join (acc : option goerror) (e : goerror) : option goerror :=
  match acc with None => Some (Join1 e) | Some a => Some (Join2 a e) end.

(** ** The [errors.As] probes of the code *)

Definition as_endpoint_invalid (e : goerror) : option goerror :=
  match e with EndpointInvalidError e => Some e | _ => None end.
Definition as_api_request_failed (e : goerror) : option goerror :=
  match e with APIRequestFailedError e => Some e | _ => None end.
Definition as_invalid_ottl (e : goerror) : option goerror :=
  match e with InvalidOTTLSpecError e => Some e | _ => None end.
Definition as_invalid_additional_metric (e : goerror) : option goerror :=
  match e with InvalidAdditionalMetricError e => Some e | _ => None end.
Definition as_cert_expired (e : goerror) : option (Z * bool) :=
  match e with CertExpiredError t ca => Some (t, ca) | _ => None end.
Definition as_cert_about_to_expire (e : goerror) : option (Z * bool) :=
  match e with CertAboutToExpireError t ca => Some (t, ca) | _ => None end.
Definition as_pod_not_scheduled (e : goerror) : option string :=
  match e with PodIsNotScheduledError m => Some m | _ => None end.
Definition as_pod_pending (e : goerror) : option (string * string * string) :=
  match e with PodIsPendingError c r m => Some (c, r, m) | _ => None end.
Definition as_pod_failing (e : goerror) : option string :=
  match e with PodIsFailingError m => Some m | _ => None end.
Definition as_list_replicaset (e : goerror) : option goerror :=
  match e with FailedToListReplicaSetError e => Some e | _ => None end.
Definition as_fetch_replicaset (e : goerror) : option goerror :=
  match e with FailedToFetchReplicaSetError e => Some e | _ => None end.
Definition as_rollout (e : goerror) : option unit :=
  match e with RolloutInProgressError => Some tt | _ => None end.

Definition IsEndpointInvalidError (e : goerror) : bool := isSome (errors_as as_endpoint_invalid e).
Definition IsInvalidOTTLSpecError (e : goerror) : bool := isSome (errors_as as_invalid_ottl e).
Definition IsInvalidAdditionalMetricError (e : goerror) : bool :=
  isSome (errors_as as_invalid_additional_metric e).
Definition IsCertExpiredError (e : goerror) : bool := isSome (errors_as as_cert_expired e).
Definition IsCertAboutToExpireError (e : goerror) : bool :=
  isSome (errors_as as_cert_about_to_expire e).
Definition IsPodIsNotScheduledError (e : goerror) : bool := isSome (errors_as as_pod_not_scheduled e).
Definition IsPodIsPendingError (e : goerror) : bool := isSome (errors_as as_pod_pending e).
Definition IsPodFailedError (e : goerror) : bool := isSome (errors_as as_pod_failing e).
Definition IsFailedToListReplicaSetErr (e : goerror) : bool := isSome (errors_as as_list_replicaset e).
Definition IsFailedToFetchReplicaSetError (e : goerror) : bool := isSome (errors_as as_fetch_replicaset e).
Definition IsRolloutInProgressError (e : goerror) : bool := isSome (errors_as as_rollout e).

(** ** Lemmas *)

Lemma time_sub_le t u d :
  (min_duration < d < max_duration)%Z -> ((time_sub t u <=? d)%Z = true <-> (t - u <= d)%Z).
Proof. unfold time_sub. rewrite Z.leb_le. lia. Qed.

Lemma time_after_true t u : time_after t u = true <-> (u < t)%Z.
Proof. unfold time_after. apply Z.ltb_lt. Qed.

Lemma errors_is_wrapf p e s t : errors_is (Wrapf p e s) t = errors_is e t.
Proof. done. Qed.

Lemma append_nil_inv (a b : string) : a +:+ b = "" -> a = "" /\ b = "".
Proof. destruct a; simpl; naive_solver. Qed.
