(* ===== verification/Regex.v ===== *)
(** * Regular expressions

    The fragment of package regexp that the repository's patterns use, anchored
    at both ends: an inductive semantics, the matcher by derivatives that the
    model runs, and their agreement. The Kubernetes namespace pattern of
    internal/namespaces/regex.go is the instance. *)
From stdpp Require Import base strings list.
From S2P Require Import Prelude.
From Stdlib Require Import Ascii String.

Inductive re :=
| REmpty
| REps
| RClass (p : ascii -> bool)
| RSeq (r1 r2 : re)
| RAlt (r1 r2 : re)
| RStar (r : re).

Definition ROpt (r : re) : re := RAlt r REps.

Inductive matches : re -> list ascii -> Prop :=
| m_eps : matches REps []
| m_class p c : p c = true -> matches (RClass p) [c]
| m_seq r1 r2 s1 s2 : matches r1 s1 -> matches r2 s2 -> matches (RSeq r1 r2) (s1 ++ s2)
| m_alt_l r1 r2 s : matches r1 s -> matches (RAlt r1 r2) s
| m_alt_r r1 r2 s : matches r2 s -> matches (RAlt r1 r2) s
| m_star_nil r : matches (RStar r) []
| m_star_cons r c s1 s2 :
    matches r (c :: s1) -> matches (RStar r) s2 -> matches (RStar r) (c :: s1 ++ s2).

#[export] Hint Constructors matches : go.

Fixpoint nullable (r : re) : bool :=
  match r with
  | REmpty => false
  | REps => true
  | RClass _ => false
  | RSeq r1 r2 => nullable r1 && nullable r2
  | RAlt r1 r2 => nullable r1 || nullable r2
  | RStar _ => true
  end.

Fixpoint deriv (c : ascii) (r : re) : re :=
  match r with
  | REmpty => REmpty
  | REps => REmpty
  | RClass p => if p c then REps else REmpty
  | RSeq r1 r2 =>
      if nullable r1 then RAlt (RSeq (deriv c r1) r2) (deriv c r2) else RSeq (deriv c r1) r2
  | RAlt r1 r2 => RAlt (deriv c r1) (deriv c r2)
  | RStar r => RSeq (deriv c r) (RStar r)
  end.

Fixpoint re_match (r : re) (s : list ascii) : bool :=
  match s with
  | [] => nullable r
  | c :: s => re_match (deriv c r) s
  end.

Lemma nullable_spec r : nullable r = true <-> matches r [].
Proof.
  induction r as [| |p|r1 IH1 r2 IH2|r1 IH1 r2 IH2|r IH]; simpl.
  - split; [done|inversion 1].
  - split; [constructor|done].
  - split; [done|inversion 1].
  - rewrite andb_true_iff, IH1, IH2. split.
    + intros [H1 H2]. change (@nil ascii) with (@nil ascii ++ []). by constructor.
    + inversion 1 as [| |? ? s1 s2 H1 H2 Heq Hnil| | | |]; subst.
      apply app_nil in Hnil as [-> ->]. done.
  - rewrite orb_true_iff, IH1, IH2. split.
    + intros [H|H]; [by apply m_alt_l|by apply m_alt_r].
    + inversion 1; auto.
  - split; [constructor|done].
Qed.

Lemma deriv_sound c r s : matches (deriv c r) s -> matches r (c :: s).
Proof.
  revert s. induction r as [| |p|r1 IH1 r2 IH2|r1 IH1 r2 IH2|r IH]; simpl; intros s H.
  - inversion H.
  - inversion H.
  - destruct (p c) eqn:Hp; inversion H; subst. by constructor.
  - destruct (nullable r1) eqn:Hn.
    + inversion H as [| | |? ? ? Hl|? ? ? Hr| |]; subst.
      * inversion Hl; subst. rewrite app_comm_cons. constructor; auto.
      * change (c :: s) with ([] ++ c :: s). constructor; [by apply nullable_spec|auto].
    + inversion H; subst. rewrite app_comm_cons. constructor; auto.
  - inversion H; subst; [apply m_alt_l|apply m_alt_r]; auto.
  - inversion H; subst. constructor; auto.
Qed.

Lemma deriv_complete c r s : matches r (c :: s) -> matches (deriv c r) s.
Proof.
  revert s. induction r as [| |p|r1 IH1 r2 IH2|r1 IH1 r2 IH2|r IH]; simpl; intros s H.
  - inversion H.
  - inversion H.
  - inversion H; subst. rewrite H2. constructor.
  - inversion H as [| |? ? s1 s2 H1 H2 Heq Hs| | | |]; subst.
    destruct s1 as [|c' s1]; simpl in Hs; simplify_eq.
    + apply nullable_spec in H1. rewrite H1. apply m_alt_r. auto.
    + destruct (nullable r1); [apply m_alt_l|]; constructor; auto.
  - inversion H; subst; [apply m_alt_l|apply m_alt_r]; auto.
  - inversion H; subst. constructor; auto.
Qed.

Theorem re_match_spec r s : re_match r s = true <-> matches r s.
Proof.
  revert r. induction s as [|c s IH]; intros r; simpl.
  - apply nullable_spec.
  - rewrite IH. split; [apply deriv_sound|apply deriv_complete].
Qed.

(** [re.MatchString(s)] *)
Definition MatchString (r : re) (s : string) : bool := re_match r (list_ascii_of_string s).

(** ** [namespaces.ValidNameRegexp]: ^[a-z0-9]([-a-z0-9]*[a-z0-9])?$ *)

Definition in_range (lo hi : nat) (c : ascii) : bool :=
  (lo <=? nat_of_ascii c)%nat && (nat_of_ascii c <=? hi)%nat.

Definition lower_alnum (c : ascii) : bool := in_range 97 122 c || in_range 48 57 c.
Definition lower_alnum_dash (c : ascii) : bool := Ascii.eqb c "-"%char || lower_alnum c.

Definition ValidNameRegexp : re :=
  RSeq (RClass lower_alnum)
       (ROpt (RSeq (RStar (RClass lower_alnum_dash)) (RClass lower_alnum))).

Lemma matches_class_star p s :
  matches (RStar (RClass p)) s <-> Forall (fun c => p c = true) s.
Proof.
  split.
  - intros H. remember (RStar (RClass p)) as r eqn:Hr.
    induction H; simplify_eq; [constructor|].
    match goal with H : matches (RClass _) _ |- _ => inversion H; subst end.
    simpl. constructor; auto.
  - induction 1 as [|c s Hc _ IH]; [constructor|].
    change (c :: s) with (c :: [] ++ s). apply m_star_cons; [by constructor|done].
Qed.

(** The pattern accepts exactly the names that start and end with a lower case
    letter or digit and hold only those and dashes in between. *)
Lemma ValidNameRegexp_spec s :
  MatchString ValidNameRegexp s = true <->
  let l := list_ascii_of_string s in
  (exists c, l = [c] /\ lower_alnum c = true) \/
  (exists c mid d, l = c :: mid ++ [d] /\ lower_alnum c = true /\ lower_alnum d = true /\
     Forall (fun x => lower_alnum_dash x = true) mid).
Proof.
  unfold MatchString. rewrite re_match_spec. simpl. generalize (list_ascii_of_string s). intros l.
  unfold ValidNameRegexp, ROpt. split.
  - inversion 1 as [| |? ? s1 s2 H1 H2| | | |]; subst. inversion H1; subst.
    inversion H2 as [| | |? ? ? Hs|? ? ? He| |]; subst.
    + inversion Hs as [| |? ? m d Hm Hd| | | |]; subst. inversion Hd; subst. right.
      apply matches_class_star in Hm. simpl. eauto 8.
    + inversion He; subst. left. simpl. eauto.
  - intros [(c & -> & Hc)|(c & mid & d & -> & Hc & Hd & Hm)].
    + change [c] with ([c] ++ []). apply m_seq; [by apply m_class|]. apply m_alt_r, m_eps.
    + change (c :: mid ++ [d]) with ([c] ++ (mid ++ [d])). apply m_seq; [by apply m_class|].
      apply m_alt_l, m_seq; [by apply matches_class_star|by apply m_class].
Qed.
