(* ===== verification/ApiV1beta1.v ===== *)
(** * The v1beta1 pipeline API (apis/telemetry/v1beta1)

    The structs of the hub version, one record per Go struct with the fields in
    the source's order. A pointer is an [option], a slice a [slice] (nil and empty
    differ), an embedded struct a field of its own. The string enums keep their
    Go representation, a string, because the code compares them with [""]. *)
From stdpp Require Import base gmap strings list.
From S2P Require Import Prelude Kube.
Local Open Scope string_scope.

(** ** Shared types (shared_types.go) *)

Record SecretKeyRef := mkSecretKeyRef {
  skr_Name : string; skr_Namespace : string; skr_Key : string }.

Record ValueFromSource := mkValueFromSource { vfs_SecretKeyRef : option SecretKeyRef }.

Record ValueType := mkValueType {
  vt_Value : string; vt_ValueFrom : option ValueFromSource }.

Definition OTLPProtocol := string.
Definition OTLPProtocolHTTP : OTLPProtocol := "http".
Definition OTLPProtocolGRPC : OTLPProtocol := "grpc".

Definition OTLPCompressionEncoding := string.

Record BasicAuthOptions := mkBasicAuthOptions {
  ba_User : ValueType; ba_Password : ValueType }.

Record OAuth2Options := mkOAuth2Options {
  oa_TokenURL : ValueType; oa_ClientID : ValueType; oa_ClientSecret : ValueType;
  oa_Scopes : slice string; oa_Params : option (gmap string string) }.

Record AuthenticationOptions := mkAuthenticationOptions {
  ao_Basic : option BasicAuthOptions; ao_OAuth2 : option OAuth2Options }.

Record Header := mkHeader {
  hd_ValueType : ValueType; hd_Name : string; hd_Prefix : string }.

Record OutputTLS := mkOutputTLS {
  tls_Insecure : bool; tls_InsecureSkipVerify : bool;
  tls_CA : option ValueType; tls_Cert : option ValueType; tls_Key : option ValueType }.

Record OTLPOutput := mkOTLPOutput {
  oo_Protocol : OTLPProtocol; oo_Endpoint : ValueType; oo_Path : string;
  oo_Authentication : option AuthenticationOptions; oo_Headers : slice Header;
  oo_TLS : option OutputTLS; oo_Compression : OTLPCompressionEncoding }.

Record NamespaceSelector := mkNamespaceSelector {
  ns_Include : slice string; ns_Exclude : slice string }.

Record OTLPInput := mkOTLPInput {
  oi_Enabled : option bool; oi_Namespaces : option NamespaceSelector }.

Record TransformSpec := mkTransformSpec {
  ts_Conditions : slice string; ts_Statements : slice string }.

Record FilterSpec := mkFilterSpec { fs_Conditions : slice string }.

(** ** MetricPipeline (metricpipeline_types.go) *)

Definition TemporalityType := string.
Definition TemporalityPreserve : TemporalityType := "preserve".
Definition TemporalityDelta : TemporalityType := "delta".

Record MetricPipelineRuntimeInputResource := mkRuntimeResource { rr_Enabled : option bool }.

Record MetricPipelineRuntimeInputResources := mkRuntimeResources {
  rrs_Pod : option MetricPipelineRuntimeInputResource;
  rrs_Container : option MetricPipelineRuntimeInputResource;
  rrs_Node : option MetricPipelineRuntimeInputResource;
  rrs_Volume : option MetricPipelineRuntimeInputResource;
  rrs_DaemonSet : option MetricPipelineRuntimeInputResource;
  rrs_Deployment : option MetricPipelineRuntimeInputResource;
  rrs_StatefulSet : option MetricPipelineRuntimeInputResource;
  rrs_Job : option MetricPipelineRuntimeInputResource }.

Record MetricPipelineRuntimeInput := mkMetricRuntimeInput {
  mri_Enabled : option bool; mri_Namespaces : option NamespaceSelector;
  mri_Resources : option MetricPipelineRuntimeInputResources;
  mri_AdditionalMetrics : slice string }.

Record MetricPipelineIstioInputDiagnosticMetrics := mkDiagnosticMetrics { dm_Enabled : option bool }.

Record EnvoyMetrics := mkEnvoyMetrics { em_Enabled : option bool }.

Record MetricPipelinePrometheusInput := mkPrometheusInput {
  pi_Enabled : option bool; pi_Namespaces : option NamespaceSelector;
  pi_DiagnosticMetrics : option MetricPipelineIstioInputDiagnosticMetrics }.

Record MetricPipelineIstioInput := mkIstioInput {
  ii_Enabled : option bool; ii_Namespaces : option NamespaceSelector;
  ii_DiagnosticMetrics : option MetricPipelineIstioInputDiagnosticMetrics;
  ii_EnvoyMetrics : option EnvoyMetrics }.

Record MetricPipelineInput := mkMetricInput {
  mi_Prometheus : option MetricPipelinePrometheusInput;
  mi_Runtime : option MetricPipelineRuntimeInput;
  mi_Istio : option MetricPipelineIstioInput;
  mi_OTLP : option OTLPInput }.

Record MetricPipelineOTLPOutput := mkMetricOTLPOutput {
  mo_OTLPOutput : OTLPOutput; mo_Temporality : option TemporalityType }.

Record MetricPipelineOutput := mkMetricOutput { mout_OTLP : option MetricPipelineOTLPOutput }.

Record MetricPipelineSpec := mkMetricSpec {
  ms_Input : MetricPipelineInput; ms_Output : MetricPipelineOutput;
  ms_Transforms : slice TransformSpec; ms_Filters : slice FilterSpec }.

Record MetricPipelineStatus := mkMetricStatus { mst_Conditions : list Condition }.

Record MetricPipeline := mkMetricPipeline {
  mp_ObjectMeta : ObjectMeta; mp_Spec : MetricPipelineSpec; mp_Status : MetricPipelineStatus }.

(** ** TracePipeline (tracepipeline_types.go) *)

Record TracePipelineOutput := mkTraceOutput { tout_OTLP : option OTLPOutput }.

Record TracePipelineSpec := mkTraceSpec {
  tps_Output : TracePipelineOutput;
  tps_Transforms : slice TransformSpec; tps_Filters : slice FilterSpec }.

Record TracePipelineStatus := mkTraceStatus { tst_Conditions : list Condition }.

Record TracePipeline := mkTracePipeline {
  tp_ObjectMeta : ObjectMeta; tp_Spec : TracePipelineSpec; tp_Status : TracePipelineStatus }.

(** ** LogPipeline (logpipeline_types.go) *)

Record LogPipelineContainerSelector := mkContainerSelector {
  cs_Include : slice string; cs_Exclude : slice string }.

Record LogPipelineRuntimeInput := mkLogRuntimeInput {
  lri_Enabled : option bool; lri_Namespaces : option NamespaceSelector;
  lri_Containers : option LogPipelineContainerSelector;
  lri_FluentBitKeepAnnotations : option bool; lri_FluentBitDropLabels : option bool;
  lri_KeepOriginalBody : option bool }.

Record LogPipelineInput := mkLogInput {
  li_Runtime : option LogPipelineRuntimeInput; li_OTLP : option OTLPInput }.

Record FluentBitHTTPOutput := mkFluentBitHTTPOutput {
  ho_Host : ValueType; ho_User : option ValueType; ho_Password : option ValueType;
  ho_URI : string; ho_Port : string; ho_Compress : string; ho_Format : string;
  ho_TLS : OutputTLS; ho_Dedot : bool }.

Record LogPipelineOutput := mkLogOutput {
  lo_FluentBitCustom : string; lo_FluentBitHTTP : option FluentBitHTTPOutput;
  lo_OTLP : option OTLPOutput }.

Record FluentBitFilter := mkFluentBitFilter { fbf_Custom : string }.
Record FluentBitFile := mkFluentBitFile { fbfile_Name : string; fbfile_Content : string }.
Record FluentBitVariable := mkFluentBitVariable {
  fbv_Name : string; fbv_ValueFrom : ValueFromSource }.

Record LogPipelineSpec := mkLogSpec {
  ls_Input : LogPipelineInput; ls_FluentBitFilters : slice FluentBitFilter;
  ls_Output : LogPipelineOutput; ls_FluentBitFiles : slice FluentBitFile;
  ls_FluentBitVariables : slice FluentBitVariable;
  ls_Transforms : slice TransformSpec; ls_Filters : slice FilterSpec }.

Record LogPipelineStatus := mkLogStatus {
  lst_Conditions : list Condition; lst_UnsupportedMode : option bool }.

Record LogPipeline := mkLogPipeline {
  lp_ObjectMeta : ObjectMeta; lp_Spec : LogPipelineSpec; lp_Status : LogPipelineStatus }.
