(* ===== verification/ApiV1alpha1.v ===== *)
(** * The v1alpha1 pipeline API (apis/telemetry/v1alpha1)

    The structs of the older version that the conversion webhook serves. The
    structs differ from v1beta1 in the OTLP input ([Disabled]), the OTLP output (no
    [Compression], a TLS struct of its own name), the log application input and the
    HTTP output's TLS; the others are the same field for field. *)
From stdpp Require Import base gmap strings list.
From S2P Require Import Prelude Kube.
Local Open Scope string_scope.

(** ** Shared types (shared_types.go) *)

Record SecretKeyRef := mkSecretKeyRef {
  skr_Name : string; skr_Namespace : string; skr_Key : string }.

Record ValueFromSource := mkValueFromSource { vfs_SecretKeyRef : option SecretKeyRef }.

Record ValueType := mkValueType {
  vt_Value : string; vt_ValueFrom : option ValueFromSource }.

Record BasicAuthOptions := mkBasicAuthOptions {
  ba_User : ValueType; ba_Password : ValueType }.

Record OAuth2Options := mkOAuth2Options {
  oa_TokenURL : ValueType; oa_ClientID : ValueType; oa_ClientSecret : ValueType;
  oa_Scopes : slice string; oa_Params : option (gmap string string) }.

Record AuthenticationOptions := mkAuthenticationOptions {
  ao_Basic : option BasicAuthOptions; ao_OAuth2 : option OAuth2Options }.

Record Header := mkHeader {
  hd_ValueType : ValueType; hd_Name : string; hd_Prefix : string }.

Record OTLPTLS := mkOTLPTLS {
  tls_Insecure : bool; tls_InsecureSkipVerify : bool;
  tls_CA : option ValueType; tls_Cert : option ValueType; tls_Key : option ValueType }.

Record OTLPOutput := mkOTLPOutput {
  oo_Protocol : string; oo_Endpoint : ValueType; oo_Path : string;
  oo_Authentication : option AuthenticationOptions; oo_Headers : slice Header;
  oo_TLS : option OTLPTLS }.

Record NamespaceSelector := mkNamespaceSelector {
  ns_Include : slice string; ns_Exclude : slice string }.

Record OTLPInput := mkOTLPInput {
  oi_Disabled : bool; oi_Namespaces : option NamespaceSelector }.

Record TransformSpec := mkTransformSpec {
  ts_Conditions : slice string; ts_Statements : slice string }.

Record FilterSpec := mkFilterSpec { fs_Conditions : slice string }.

(** ** LogPipeline (logpipeline_types.go) *)

Record LogPipelineContainerSelector := mkContainerSelector {
  cs_Include : slice string; cs_Exclude : slice string }.

Record LogPipelineNamespaceSelector := mkLogNamespaceSelector {
  lns_Include : slice string; lns_Exclude : slice string; lns_System : bool }.

Record LogPipelineApplicationInput := mkApplicationInput {
  ai_Enabled : option bool; ai_Namespaces : LogPipelineNamespaceSelector;
  ai_Containers : LogPipelineContainerSelector;
  ai_FluentBitKeepAnnotations : option bool; ai_FluentBitDropLabels : option bool;
  ai_KeepOriginalBody : option bool }.

Record LogPipelineInput := mkLogInput {
  li_Application : option LogPipelineApplicationInput; li_OTLP : option OTLPInput }.

Record FluentBitHTTPOutputTLS := mkHTTPOutputTLS {
  htls_Disabled : bool; htls_SkipCertificateValidation : bool;
  htls_CA : option ValueType; htls_Cert : option ValueType; htls_Key : option ValueType }.

Record FluentBitHTTPOutput := mkFluentBitHTTPOutput {
  ho_Host : ValueType; ho_User : option ValueType; ho_Password : option ValueType;
  ho_URI : string; ho_Port : string; ho_Compress : string; ho_Format : string;
  ho_TLS : FluentBitHTTPOutputTLS; ho_Dedot : bool }.

Record LogPipelineOutput := mkLogOutput {
  lo_FluentBitCustom : string; lo_FluentBitHTTP : option FluentBitHTTPOutput;
  lo_OTLP : option OTLPOutput }.

Record FluentBitFilter := mkFluentBitFilter { fbf_Custom : string }.
Record FluentBitFile := mkFluentBitFile { fbfile_Name : string; fbfile_Content : string }.
Record FluentBitVariable := mkFluentBitVariable {
  fbv_Name : string; fbv_ValueFrom : ValueFromSource }.

Record LogPipelineSpec := mkLogSpec {
  ls_Input : LogPipelineInput; ls_FluentBitFilters : slice FluentBitFilter;
  ls_Output : LogPipelineOutput; ls_FluentBitFiles : slice FluentBitFile;
  ls_FluentBitVariables : slice FluentBitVariable;
  ls_Transforms : slice TransformSpec; ls_Filters : slice FilterSpec }.

Record LogPipelineStatus := mkLogStatus {
  lst_Conditions : list Condition; lst_UnsupportedMode : option bool }.

(** ** MetricPipeline (metricpipeline_types.go) *)

Record MetricPipelineRuntimeInputResource := mkRuntimeResource { rr_Enabled : option bool }.

Record MetricPipelineRuntimeInputResources := mkRuntimeResources {
  rrs_Pod : option MetricPipelineRuntimeInputResource;
  rrs_Container : option MetricPipelineRuntimeInputResource;
  rrs_Node : option MetricPipelineRuntimeInputResource;
  rrs_Volume : option MetricPipelineRuntimeInputResource;
  rrs_DaemonSet : option MetricPipelineRuntimeInputResource;
  rrs_Deployment : option MetricPipelineRuntimeInputResource;
  rrs_StatefulSet : option MetricPipelineRuntimeInputResource;
  rrs_Job : option MetricPipelineRuntimeInputResource }.

Record MetricPipelineRuntimeInput := mkMetricRuntimeInput {
  mri_Enabled : option bool; mri_Namespaces : option NamespaceSelector;
  mri_Resources : option MetricPipelineRuntimeInputResources;
  mri_AdditionalMetrics : slice string }.

Record MetricPipelineIstioInputDiagnosticMetrics := mkDiagnosticMetrics { dm_Enabled : option bool }.

Record EnvoyMetrics := mkEnvoyMetrics { em_Enabled : option bool }.

Record MetricPipelinePrometheusInput := mkPrometheusInput {
  pi_Enabled : option bool; pi_Namespaces : option NamespaceSelector;
  pi_DiagnosticMetrics : option MetricPipelineIstioInputDiagnosticMetrics }.

Record MetricPipelineIstioInput := mkIstioInput {
  ii_Enabled : option bool; ii_Namespaces : option NamespaceSelector;
  ii_DiagnosticMetrics : option MetricPipelineIstioInputDiagnosticMetrics;
  ii_EnvoyMetrics : option EnvoyMetrics }.

Record MetricPipelineInput := mkMetricInput {
  mi_Prometheus : option MetricPipelinePrometheusInput;
  mi_Runtime : option MetricPipelineRuntimeInput;
  mi_Istio : option MetricPipelineIstioInput;
  mi_OTLP : option OTLPInput }.

Record MetricPipelineOTLPOutput := mkMetricOTLPOutput {
  mo_OTLPOutput : OTLPOutput; mo_Temporality : option string }.

Record MetricPipelineOutput := mkMetricOutput { mout_OTLP : option MetricPipelineOTLPOutput }.

Record MetricPipelineSpec := mkMetricSpec {
  ms_Input : MetricPipelineInput; ms_Output : MetricPipelineOutput;
  ms_Transforms : slice TransformSpec; ms_Filters : slice FilterSpec }.

Record MetricPipelineStatus := mkMetricStatus { mst_Conditions : list Condition }.

Record MetricPipeline := mkMetricPipeline {
  mp_ObjectMeta : ObjectMeta; mp_Spec : MetricPipelineSpec; mp_Status : MetricPipelineStatus }.

(** ** TracePipeline (tracepipeline_types.go) *)

Record TracePipelineOutput := mkTraceOutput { tout_OTLP : option OTLPOutput }.

Record TracePipelineSpec := mkTraceSpec {
  tps_Output : TracePipelineOutput;
  tps_Transforms : slice TransformSpec; tps_Filters : slice FilterSpec }.

Record TracePipelineStatus := mkTraceStatus { tst_Conditions : list Condition }.

Record TracePipeline := mkTracePipeline {
  tp_ObjectMeta : ObjectMeta; tp_Spec : TracePipelineSpec; tp_Status : TracePipelineStatus }.

(** ** LogPipeline (logpipeline_types.go) *)

Record LogPipeline := mkLogPipeline {
  lp_ObjectMeta : ObjectMeta; lp_Spec : LogPipelineSpec; lp_Status : LogPipelineStatus }.
