(* ===== verification/Conversion.v ===== *)
(** * Conversion between v1alpha1 and v1beta1

    The conversion webhook's functions: the hand written ones of
    apis/telemetry/v1alpha1 (logpipeline_conversion.go, metricpipeline_conversion.go,
    shared_types_conversion.go) and the generated ones of zz_generated.conversion.go
    they call. The generated casts through [unsafe.Pointer] reinterpret a struct
    whose fields are the same on both sides: here they copy field by field. They
    also share the pointed-to data between source and destination; where the hand
    written code then writes through a shared reference the model keeps the sharing:
    the runtime namespaces of MetricPipelines and the annotations map of
    LogPipelines, which is a location of a heap. *)
From stdpp Require Import base gmap strings list.
From S2P Require Import Prelude Kube GoErrors Regex.
From S2P Require ApiV1alpha1 ApiV1beta1.
Local Open Scope string_scope.

Module A := ApiV1alpha1.
Module B := ApiV1beta1.

(** ** Namespace names *)

(** [namespaces.System()] *)
Definition System : list string := ["kyma-system"; "kube-system"; "istio-system"].

Definition valid_namespace_name (n : string) : bool :=
  (String.length n <=? 63)%nat && MatchString ValidNameRegexp n.

Definition sanitizeNamespaceNames (names : slice string) : slice string :=
  filter_slice valid_namespace_name (elems names).

(** ** Generated conversions of the shared structs *)


Definition autoConvert_v1alpha1_SecretKeyRef (x : A.SecretKeyRef) : B.SecretKeyRef :=
  B.mkSecretKeyRef (A.skr_Name x) (A.skr_Namespace x) (A.skr_Key x).
Definition autoConvert_v1alpha1_ValueFromSource (x : A.ValueFromSource) : B.ValueFromSource :=
  B.mkValueFromSource (autoConvert_v1alpha1_SecretKeyRef <$> A.vfs_SecretKeyRef x).
Definition autoConvert_v1alpha1_ValueType (x : A.ValueType) : B.ValueType :=
  B.mkValueType (A.vt_Value x) (autoConvert_v1alpha1_ValueFromSource <$> A.vt_ValueFrom x).
Definition autoConvert_v1alpha1_BasicAuthOptions (x : A.BasicAuthOptions) : B.BasicAuthOptions :=
  B.mkBasicAuthOptions (autoConvert_v1alpha1_ValueType (A.ba_User x)) (autoConvert_v1alpha1_ValueType (A.ba_Password x)).
Definition autoConvert_v1alpha1_OAuth2Options (x : A.OAuth2Options) : B.OAuth2Options :=
  B.mkOAuth2Options (autoConvert_v1alpha1_ValueType (A.oa_TokenURL x)) (autoConvert_v1alpha1_ValueType (A.oa_ClientID x))
    (autoConvert_v1alpha1_ValueType (A.oa_ClientSecret x)) (A.oa_Scopes x) (A.oa_Params x).
Definition autoConvert_v1alpha1_AuthenticationOptions (x : A.AuthenticationOptions) : B.AuthenticationOptions :=
  B.mkAuthenticationOptions (autoConvert_v1alpha1_BasicAuthOptions <$> A.ao_Basic x) (autoConvert_v1alpha1_OAuth2Options <$> A.ao_OAuth2 x).
Definition autoConvert_v1alpha1_Header (x : A.Header) : B.Header :=
  B.mkHeader (autoConvert_v1alpha1_ValueType (A.hd_ValueType x)) (A.hd_Name x) (A.hd_Prefix x).
Definition autoConvert_v1alpha1_OTLPTLS (x : A.OTLPTLS) : B.OutputTLS :=
  B.mkOutputTLS (A.tls_Insecure x) (A.tls_InsecureSkipVerify x)
    (autoConvert_v1alpha1_ValueType <$> A.tls_CA x) (autoConvert_v1alpha1_ValueType <$> A.tls_Cert x) (autoConvert_v1alpha1_ValueType <$> A.tls_Key x).
(** The destination's [Compression] keeps the zero value. *)
Definition autoConvert_v1alpha1_OTLPOutput (x : A.OTLPOutput) : B.OTLPOutput :=
  B.mkOTLPOutput (A.oo_Protocol x) (autoConvert_v1alpha1_ValueType (A.oo_Endpoint x)) (A.oo_Path x)
    (autoConvert_v1alpha1_AuthenticationOptions <$> A.oo_Authentication x) (smap autoConvert_v1alpha1_Header (A.oo_Headers x))
    (autoConvert_v1alpha1_OTLPTLS <$> A.oo_TLS x) "".
Definition autoConvert_v1alpha1_NamespaceSelector (x : A.NamespaceSelector) : B.NamespaceSelector :=
  B.mkNamespaceSelector (A.ns_Include x) (A.ns_Exclude x).
Definition autoConvert_v1alpha1_TransformSpec (x : A.TransformSpec) : B.TransformSpec :=
  B.mkTransformSpec (A.ts_Conditions x) (A.ts_Statements x).
Definition autoConvert_v1alpha1_FilterSpec (x : A.FilterSpec) : B.FilterSpec := B.mkFilterSpec (A.fs_Conditions x).
Definition autoConvert_v1alpha1_FluentBitFilter (x : A.FluentBitFilter) : B.FluentBitFilter :=
  B.mkFluentBitFilter (A.fbf_Custom x).
Definition autoConvert_v1alpha1_FluentBitFile (x : A.FluentBitFile) : B.FluentBitFile :=
  B.mkFluentBitFile (A.fbfile_Name x) (A.fbfile_Content x).
Definition autoConvert_v1alpha1_FluentBitVariable (x : A.FluentBitVariable) : B.FluentBitVariable :=
  B.mkFluentBitVariable (A.fbv_Name x) (autoConvert_v1alpha1_ValueFromSource (A.fbv_ValueFrom x)).



Definition autoConvert_v1beta1_SecretKeyRef (x : B.SecretKeyRef) : A.SecretKeyRef :=
  A.mkSecretKeyRef (B.skr_Name x) (B.skr_Namespace x) (B.skr_Key x).
Definition autoConvert_v1beta1_ValueFromSource (x : B.ValueFromSource) : A.ValueFromSource :=
  A.mkValueFromSource (autoConvert_v1beta1_SecretKeyRef <$> B.vfs_SecretKeyRef x).
Definition autoConvert_v1beta1_ValueType (x : B.ValueType) : A.ValueType :=
  A.mkValueType (B.vt_Value x) (autoConvert_v1beta1_ValueFromSource <$> B.vt_ValueFrom x).
Definition autoConvert_v1beta1_BasicAuthOptions (x : B.BasicAuthOptions) : A.BasicAuthOptions :=
  A.mkBasicAuthOptions (autoConvert_v1beta1_ValueType (B.ba_User x)) (autoConvert_v1beta1_ValueType (B.ba_Password x)).
Definition autoConvert_v1beta1_OAuth2Options (x : B.OAuth2Options) : A.OAuth2Options :=
  A.mkOAuth2Options (autoConvert_v1beta1_ValueType (B.oa_TokenURL x)) (autoConvert_v1beta1_ValueType (B.oa_ClientID x))
    (autoConvert_v1beta1_ValueType (B.oa_ClientSecret x)) (B.oa_Scopes x) (B.oa_Params x).
Definition autoConvert_v1beta1_AuthenticationOptions (x : B.AuthenticationOptions) : A.AuthenticationOptions :=
  A.mkAuthenticationOptions (autoConvert_v1beta1_BasicAuthOptions <$> B.ao_Basic x) (autoConvert_v1beta1_OAuth2Options <$> B.ao_OAuth2 x).
Definition autoConvert_v1beta1_Header (x : B.Header) : A.Header :=
  A.mkHeader (autoConvert_v1beta1_ValueType (B.hd_ValueType x)) (B.hd_Name x) (B.hd_Prefix x).
Definition autoConvert_v1beta1_OutputTLS (x : B.OutputTLS) : A.OTLPTLS :=
  A.mkOTLPTLS (B.tls_Insecure x) (B.tls_InsecureSkipVerify x)
    (autoConvert_v1beta1_ValueType <$> B.tls_CA x) (autoConvert_v1beta1_ValueType <$> B.tls_Cert x) (autoConvert_v1beta1_ValueType <$> B.tls_Key x).
(** [Compression] is dropped. *)
Definition autoConvert_v1beta1_OTLPOutput (x : B.OTLPOutput) : A.OTLPOutput :=
  A.mkOTLPOutput (B.oo_Protocol x) (autoConvert_v1beta1_ValueType (B.oo_Endpoint x)) (B.oo_Path x)
    (autoConvert_v1beta1_AuthenticationOptions <$> B.oo_Authentication x) (smap autoConvert_v1beta1_Header (B.oo_Headers x))
    (autoConvert_v1beta1_OutputTLS <$> B.oo_TLS x).
Definition autoConvert_v1beta1_NamespaceSelector (x : B.NamespaceSelector) : A.NamespaceSelector :=
  A.mkNamespaceSelector (B.ns_Include x) (B.ns_Exclude x).
Definition autoConvert_v1beta1_TransformSpec (x : B.TransformSpec) : A.TransformSpec :=
  A.mkTransformSpec (B.ts_Conditions x) (B.ts_Statements x).
Definition autoConvert_v1beta1_FilterSpec (x : B.FilterSpec) : A.FilterSpec := A.mkFilterSpec (B.fs_Conditions x).
Definition autoConvert_v1beta1_FluentBitFilter (x : B.FluentBitFilter) : A.FluentBitFilter :=
  A.mkFluentBitFilter (B.fbf_Custom x).
Definition autoConvert_v1beta1_FluentBitFile (x : B.FluentBitFile) : A.FluentBitFile :=
  A.mkFluentBitFile (B.fbfile_Name x) (B.fbfile_Content x).
Definition autoConvert_v1beta1_FluentBitVariable (x : B.FluentBitVariable) : A.FluentBitVariable :=
  A.mkFluentBitVariable (B.fbv_Name x) (autoConvert_v1beta1_ValueFromSource (B.fbv_ValueFrom x)).


(** Going down after up loses nothing of a shared struct. *)
Lemma SecretKeyRef_up_down x : autoConvert_v1beta1_SecretKeyRef (autoConvert_v1alpha1_SecretKeyRef x) = x.
Proof. by destruct x. Qed.

Lemma ValueFromSource_up_down x : autoConvert_v1beta1_ValueFromSource (autoConvert_v1alpha1_ValueFromSource x) = x.
Proof. destruct x; unfold autoConvert_v1beta1_ValueFromSource; simpl. by rewrite (fmap_inv _ _ SecretKeyRef_up_down). Qed.

Lemma ValueType_up_down x : autoConvert_v1beta1_ValueType (autoConvert_v1alpha1_ValueType x) = x.
Proof. destruct x; unfold autoConvert_v1beta1_ValueType; simpl. by rewrite (fmap_inv _ _ ValueFromSource_up_down). Qed.

Lemma BasicAuth_up_down x : autoConvert_v1beta1_BasicAuthOptions (autoConvert_v1alpha1_BasicAuthOptions x) = x.
Proof. destruct x; unfold autoConvert_v1beta1_BasicAuthOptions; simpl. by rewrite !ValueType_up_down. Qed.

Lemma OAuth2_up_down x : autoConvert_v1beta1_OAuth2Options (autoConvert_v1alpha1_OAuth2Options x) = x.
Proof. destruct x; unfold autoConvert_v1beta1_OAuth2Options; simpl. by rewrite !ValueType_up_down. Qed.

Lemma Authentication_up_down x : autoConvert_v1beta1_AuthenticationOptions (autoConvert_v1alpha1_AuthenticationOptions x) = x.
Proof.
  destruct x; unfold autoConvert_v1beta1_AuthenticationOptions; simpl.
  by rewrite (fmap_inv _ _ BasicAuth_up_down), (fmap_inv _ _ OAuth2_up_down).
Qed.

Lemma Header_up_down x : autoConvert_v1beta1_Header (autoConvert_v1alpha1_Header x) = x.
Proof. destruct x; unfold autoConvert_v1beta1_Header; simpl. by rewrite ValueType_up_down. Qed.

Lemma OTLPTLS_up_down x : autoConvert_v1beta1_OutputTLS (autoConvert_v1alpha1_OTLPTLS x) = x.
Proof. destruct x; unfold autoConvert_v1beta1_OutputTLS; simpl. by rewrite !(fmap_inv _ _ ValueType_up_down). Qed.

Lemma OTLPOutput_up_down x : autoConvert_v1beta1_OTLPOutput (autoConvert_v1alpha1_OTLPOutput x) = x.
Proof.
  destruct x; unfold autoConvert_v1beta1_OTLPOutput; simpl.
  by rewrite ValueType_up_down, (fmap_inv _ _ Authentication_up_down), (smap_inv _ _ Header_up_down),
    (fmap_inv _ _ OTLPTLS_up_down).
Qed.

(** ** Hand written conversions of the shared structs *)

Definition Convert_v1alpha1_OTLPInput_To_v1beta1_OTLPInput (x : A.OTLPInput) : B.OTLPInput :=
  B.mkOTLPInput (Some (negb (A.oi_Disabled x)))
    (match A.oi_Namespaces x with
     | Some ns => Some (B.mkNamespaceSelector (sanitizeNamespaceNames (A.ns_Include ns))
                                              (sanitizeNamespaceNames (A.ns_Exclude ns)))
     | None => None
     end).

Definition Convert_v1beta1_OTLPInput_To_v1alpha1_OTLPInput (x : B.OTLPInput) : A.OTLPInput :=
  A.mkOTLPInput (isSome (B.oi_Enabled x) && negb (deref (B.oi_Enabled x) false))
    (match B.oi_Namespaces x with
     | Some ns => Some (A.mkNamespaceSelector (sanitizeNamespaceNames (B.ns_Include ns))
                                              (sanitizeNamespaceNames (B.ns_Exclude ns)))
     | None => None
     end).

(** ** LogPipeline *)

Definition Convert_v1alpha1_FluentBitHTTPOutputTLS_To_v1beta1_OutputTLS
    (x : A.FluentBitHTTPOutputTLS) : B.OutputTLS :=
  B.mkOutputTLS (A.htls_Disabled x) (A.htls_SkipCertificateValidation x)
    (autoConvert_v1alpha1_ValueType <$> A.htls_CA x) (autoConvert_v1alpha1_ValueType <$> A.htls_Cert x) (autoConvert_v1alpha1_ValueType <$> A.htls_Key x).

Definition Convert_v1beta1_OutputTLS_To_v1alpha1_FluentBitHTTPOutputTLS
    (x : B.OutputTLS) : A.FluentBitHTTPOutputTLS :=
  A.mkHTTPOutputTLS (B.tls_Insecure x) (B.tls_InsecureSkipVerify x)
    (autoConvert_v1beta1_ValueType <$> B.tls_CA x) (autoConvert_v1beta1_ValueType <$> B.tls_Cert x) (autoConvert_v1beta1_ValueType <$> B.tls_Key x).

Definition autoConvert_v1alpha1_FluentBitHTTPOutput (x : A.FluentBitHTTPOutput) : B.FluentBitHTTPOutput :=
  B.mkFluentBitHTTPOutput (autoConvert_v1alpha1_ValueType (A.ho_Host x)) (autoConvert_v1alpha1_ValueType <$> A.ho_User x)
    (autoConvert_v1alpha1_ValueType <$> A.ho_Password x) (A.ho_URI x) (A.ho_Port x) (A.ho_Compress x) (A.ho_Format x)
    (Convert_v1alpha1_FluentBitHTTPOutputTLS_To_v1beta1_OutputTLS (A.ho_TLS x)) (A.ho_Dedot x).

Definition autoConvert_v1beta1_FluentBitHTTPOutput (x : B.FluentBitHTTPOutput) : A.FluentBitHTTPOutput :=
  A.mkFluentBitHTTPOutput (autoConvert_v1beta1_ValueType (B.ho_Host x)) (autoConvert_v1beta1_ValueType <$> B.ho_User x)
    (autoConvert_v1beta1_ValueType <$> B.ho_Password x) (B.ho_URI x) (B.ho_Port x) (B.ho_Compress x) (B.ho_Format x)
    (Convert_v1beta1_OutputTLS_To_v1alpha1_FluentBitHTTPOutputTLS (B.ho_TLS x)) (B.ho_Dedot x).

Definition Convert_v1alpha1_LogPipelineInput_To_v1beta1_LogPipelineInput
    (x : A.LogPipelineInput) : B.LogPipelineInput :=
  B.mkLogInput
    (match A.li_Application x with
     | None => None
     | Some app =>
         let ns := A.ai_Namespaces app in
         let excludes :=
           if (slen (A.lns_Include ns) =? 0)%nat && (slen (A.lns_Exclude ns) =? 0)%nat
              && negb (A.lns_System ns)
           then Some System
           else sanitizeNamespaceNames (A.lns_Exclude ns) in
         let cs := A.ai_Containers app in
         Some (B.mkLogRuntimeInput (A.ai_Enabled app)
           (Some (B.mkNamespaceSelector (sanitizeNamespaceNames (A.lns_Include ns)) excludes))
           (if negb (is_nil (A.cs_Include cs)) || negb (is_nil (A.cs_Exclude cs))
            then Some (B.mkContainerSelector (A.cs_Include cs) (A.cs_Exclude cs))
            else None)
           (A.ai_FluentBitKeepAnnotations app) (A.ai_FluentBitDropLabels app)
           (A.ai_KeepOriginalBody app))
     end)
    (Convert_v1alpha1_OTLPInput_To_v1beta1_OTLPInput <$> A.li_OTLP x).

Definition Convert_v1beta1_LogPipelineInput_To_v1alpha1_LogPipelineInput
    (x : B.LogPipelineInput) : A.LogPipelineInput :=
  A.mkLogInput
    (match B.li_Runtime x with
     | None => None
     | Some rt =>
         Some (A.mkApplicationInput (B.lri_Enabled rt)
           (match B.lri_Namespaces rt with
            | None => A.mkLogNamespaceSelector None None false
            | Some ns =>
                if (slen (B.ns_Include ns) =? 0)%nat && (slen (B.ns_Exclude ns) =? 0)%nat
                then A.mkLogNamespaceSelector None None true
                else A.mkLogNamespaceSelector (B.ns_Include ns) (B.ns_Exclude ns) false
            end)
           (match B.lri_Containers rt with
            | None => A.mkContainerSelector None None
            | Some cs => A.mkContainerSelector (B.cs_Include cs) (B.cs_Exclude cs)
            end)
           (B.lri_FluentBitKeepAnnotations rt) (B.lri_FluentBitDropLabels rt)
           (B.lri_KeepOriginalBody rt))
     end)
    (Convert_v1beta1_OTLPInput_To_v1alpha1_OTLPInput <$> B.li_OTLP x).

Definition autoConvert_v1alpha1_LogPipelineOutput (x : A.LogPipelineOutput) : B.LogPipelineOutput :=
  B.mkLogOutput (A.lo_FluentBitCustom x)
    (autoConvert_v1alpha1_FluentBitHTTPOutput <$> A.lo_FluentBitHTTP x)
    (autoConvert_v1alpha1_OTLPOutput <$> A.lo_OTLP x).

Definition autoConvert_v1beta1_LogPipelineOutput (x : B.LogPipelineOutput) : A.LogPipelineOutput :=
  A.mkLogOutput (B.lo_FluentBitCustom x)
    (autoConvert_v1beta1_FluentBitHTTPOutput <$> B.lo_FluentBitHTTP x)
    (autoConvert_v1beta1_OTLPOutput <$> B.lo_OTLP x).

Definition autoConvert_v1alpha1_LogPipelineSpec (x : A.LogPipelineSpec) : B.LogPipelineSpec :=
  B.mkLogSpec (Convert_v1alpha1_LogPipelineInput_To_v1beta1_LogPipelineInput (A.ls_Input x))
    (smap autoConvert_v1alpha1_FluentBitFilter (A.ls_FluentBitFilters x))
    (autoConvert_v1alpha1_LogPipelineOutput (A.ls_Output x))
    (smap autoConvert_v1alpha1_FluentBitFile (A.ls_FluentBitFiles x))
    (smap autoConvert_v1alpha1_FluentBitVariable (A.ls_FluentBitVariables x))
    (smap autoConvert_v1alpha1_TransformSpec (A.ls_Transforms x)) (smap autoConvert_v1alpha1_FilterSpec (A.ls_Filters x)).

Definition autoConvert_v1beta1_LogPipelineSpec (x : B.LogPipelineSpec) : A.LogPipelineSpec :=
  A.mkLogSpec (Convert_v1beta1_LogPipelineInput_To_v1alpha1_LogPipelineInput (B.ls_Input x))
    (smap autoConvert_v1beta1_FluentBitFilter (B.ls_FluentBitFilters x))
    (autoConvert_v1beta1_LogPipelineOutput (B.ls_Output x))
    (smap autoConvert_v1beta1_FluentBitFile (B.ls_FluentBitFiles x))
    (smap autoConvert_v1beta1_FluentBitVariable (B.ls_FluentBitVariables x))
    (smap autoConvert_v1beta1_TransformSpec (B.ls_Transforms x)) (smap autoConvert_v1beta1_FilterSpec (B.ls_Filters x)).

Definition autoConvert_v1alpha1_LogPipelineStatus (x : A.LogPipelineStatus) : B.LogPipelineStatus :=
  B.mkLogStatus (A.lst_Conditions x) (A.lst_UnsupportedMode x).

Definition autoConvert_v1beta1_LogPipelineStatus (x : B.LogPipelineStatus) : A.LogPipelineStatus :=
  A.mkLogStatus (B.lst_Conditions x) (B.lst_UnsupportedMode x).

(** ** LogPipeline objects with their annotations

    [out.ObjectMeta = in.ObjectMeta] copies the annotations map by reference, and
    [marshalData] and [unmarshalData] write through it. The annotations of an object
    are therefore a location of a heap of maps, [None] for a nil map. *)

Abbreviation heap := (gmap nat (gmap string string)).

Record MetaRef := mkMetaRef {
  mr_Name : string; mr_UID : string; mr_Generation : Z;
  mr_Annotations : option nat; mr_Deleted : bool }.

Record LogPipelineA := mkLogPipelineA {
  a_Meta : MetaRef; a_Spec : A.LogPipelineSpec; a_Status : A.LogPipelineStatus }.

Record LogPipelineB := mkLogPipelineB {
  b_Meta : MetaRef; b_Spec : B.LogPipelineSpec; b_Status : B.LogPipelineStatus }.

Definition annotations (h : heap) (m : MetaRef) : option (gmap string string) :=
  l ← mr_Annotations m; h !! l.

(** The metadata with the map it refers to. *)
Definition load_meta (h : heap) (m : MetaRef) : ObjectMeta :=
  mkMeta (mr_Name m) (mr_UID m) (mr_Generation m) (annotations h m) (mr_Deleted m).

Definition set_annotations (m : MetaRef) (l : nat) : MetaRef :=
  mkMetaRef (mr_Name m) (mr_UID m) (mr_Generation m) (Some l) (mr_Deleted m).

Definition dataAnnotation : string := "telemetry.kyma-project.io/conversion-data".

Definition errSrcTypeUnsupportedLogPipeline : goerror :=
  NewError "source type is not LogPipeline v1alpha1".
Definition errDstTypeUnsupportedLogPipeline : goerror :=
  NewError "destination type is not LogPipeline v1beta1".

(** The JSON text of a v1alpha1 LogPipeline without its status, as the converter
    of apimachinery and encoding/json produce and read it. *)
Class LogPipelineJSON := {
  json_encode : ObjectMeta -> A.LogPipelineSpec -> result string goerror;
  json_decode : string -> result (ObjectMeta * A.LogPipelineSpec) goerror;
  (** every string of the spec is valid UTF-8 *)
  json_text : A.LogPipelineSpec -> Prop
}.

Section Convert.
Context `{LogPipelineJSON}.

(** [marshalData(src, dst)]: the heap after it and the destination's metadata. *)
Definition marshalData (h : heap) (src : LogPipelineA) (dst : MetaRef) :
    result (heap * MetaRef) goerror :=
  match json_encode (load_meta h (a_Meta src)) (a_Spec src) with
  | Err e => Err e
  | Ok data =>
      match mr_Annotations dst with
      | Some l => Ok (<[l := <[dataAnnotation := data]> (default ∅ (h !! l))]> h, dst)
      | None =>
          let l := fresh (dom h) in
          Ok (<[l := {[dataAnnotation := data]}]> h, set_annotations dst l)
      end
  end.

(** [unmarshalData(from, to)]: the decoded object when the annotation is there,
    and the heap with the annotation removed. *)
Definition unmarshalData (h : heap) (from : MetaRef) :
    result (heap * option (ObjectMeta * A.LogPipelineSpec)) goerror :=
  match mr_Annotations from with
  | None => Ok (h, None)
  | Some l =>
      match default ∅ (h !! l) !! dataAnnotation with
      | None => Ok (h, None)
      | Some data =>
          match json_decode data with
          | Err e => Err e
          | Ok obj => Ok (<[l := delete dataAnnotation (default ∅ (h !! l))]> h, Some obj)
          end
      end
  end.

(** [(lp *LogPipeline) ConvertTo(dstRaw)]; [hub_ok] tells whether the hub object
    is a v1beta1 LogPipeline. *)
Definition ConvertTo (hub_ok : bool) (h : heap) (src : LogPipelineA) :
    result (heap * LogPipelineB) goerror :=
  if negb hub_ok then Err errDstTypeUnsupportedLogPipeline
  else
    match marshalData h src (a_Meta src) with
    | Err e => Err e
    | Ok (h', meta) =>
        Ok (h', mkLogPipelineB meta (autoConvert_v1alpha1_LogPipelineSpec (a_Spec src))
                  (autoConvert_v1alpha1_LogPipelineStatus (a_Status src)))
    end.

(** [(lp *LogPipeline) ConvertFrom(srcRaw)] *)
Definition ConvertFrom (hub_ok : bool) (h : heap) (src : LogPipelineB) :
    result (heap * LogPipelineA) goerror :=
  if negb hub_ok then Err errSrcTypeUnsupportedLogPipeline
  else
    let spec := autoConvert_v1beta1_LogPipelineSpec (b_Spec src) in
    let status := autoConvert_v1beta1_LogPipelineStatus (b_Status src) in
    match unmarshalData h (b_Meta src) with
    | Err e => Err (Wrapf "failed to unmarshal data from annotation: " e "")
    | Ok (h', restored) =>
        let spec' :=
          match restored with
          | Some (m, s) => if bool_decide (om_Generation m = mr_Generation (b_Meta src)) then s else spec
          | None => spec
          end in
        Ok (h', mkLogPipelineA (b_Meta src) spec' status)
    end.

End Convert.

(** ** MetricPipeline *)


Definition autoConvert_v1alpha1_MetricPipelineRuntimeInputResource (x : A.MetricPipelineRuntimeInputResource) : B.MetricPipelineRuntimeInputResource :=
  B.mkRuntimeResource (A.rr_Enabled x).
Definition autoConvert_v1alpha1_MetricPipelineRuntimeInputResources (x : A.MetricPipelineRuntimeInputResources) : B.MetricPipelineRuntimeInputResources :=
  B.mkRuntimeResources (autoConvert_v1alpha1_MetricPipelineRuntimeInputResource <$> A.rrs_Pod x) (autoConvert_v1alpha1_MetricPipelineRuntimeInputResource <$> A.rrs_Container x)
    (autoConvert_v1alpha1_MetricPipelineRuntimeInputResource <$> A.rrs_Node x) (autoConvert_v1alpha1_MetricPipelineRuntimeInputResource <$> A.rrs_Volume x) (autoConvert_v1alpha1_MetricPipelineRuntimeInputResource <$> A.rrs_DaemonSet x)
    (autoConvert_v1alpha1_MetricPipelineRuntimeInputResource <$> A.rrs_Deployment x) (autoConvert_v1alpha1_MetricPipelineRuntimeInputResource <$> A.rrs_StatefulSet x) (autoConvert_v1alpha1_MetricPipelineRuntimeInputResource <$> A.rrs_Job x).
Definition autoConvert_v1alpha1_MetricPipelineIstioInputDiagnosticMetrics (x : A.MetricPipelineIstioInputDiagnosticMetrics) :
    B.MetricPipelineIstioInputDiagnosticMetrics := B.mkDiagnosticMetrics (A.dm_Enabled x).
Definition autoConvert_v1alpha1_EnvoyMetrics (x : A.EnvoyMetrics) : B.EnvoyMetrics := B.mkEnvoyMetrics (A.em_Enabled x).
Definition autoConvert_v1alpha1_MetricPipelinePrometheusInput (x : A.MetricPipelinePrometheusInput) : B.MetricPipelinePrometheusInput :=
  B.mkPrometheusInput (A.pi_Enabled x) (autoConvert_v1alpha1_NamespaceSelector <$> A.pi_Namespaces x)
    (autoConvert_v1alpha1_MetricPipelineIstioInputDiagnosticMetrics <$> A.pi_DiagnosticMetrics x).
Definition autoConvert_v1alpha1_MetricPipelineIstioInput (x : A.MetricPipelineIstioInput) : B.MetricPipelineIstioInput :=
  B.mkIstioInput (A.ii_Enabled x) (autoConvert_v1alpha1_NamespaceSelector <$> A.ii_Namespaces x)
    (autoConvert_v1alpha1_MetricPipelineIstioInputDiagnosticMetrics <$> A.ii_DiagnosticMetrics x) (autoConvert_v1alpha1_EnvoyMetrics <$> A.ii_EnvoyMetrics x).



Definition autoConvert_v1beta1_MetricPipelineRuntimeInputResource (x : B.MetricPipelineRuntimeInputResource) : A.MetricPipelineRuntimeInputResource :=
  A.mkRuntimeResource (B.rr_Enabled x).
Definition autoConvert_v1beta1_MetricPipelineRuntimeInputResources (x : B.MetricPipelineRuntimeInputResources) : A.MetricPipelineRuntimeInputResources :=
  A.mkRuntimeResources (autoConvert_v1beta1_MetricPipelineRuntimeInputResource <$> B.rrs_Pod x) (autoConvert_v1beta1_MetricPipelineRuntimeInputResource <$> B.rrs_Container x)
    (autoConvert_v1beta1_MetricPipelineRuntimeInputResource <$> B.rrs_Node x) (autoConvert_v1beta1_MetricPipelineRuntimeInputResource <$> B.rrs_Volume x) (autoConvert_v1beta1_MetricPipelineRuntimeInputResource <$> B.rrs_DaemonSet x)
    (autoConvert_v1beta1_MetricPipelineRuntimeInputResource <$> B.rrs_Deployment x) (autoConvert_v1beta1_MetricPipelineRuntimeInputResource <$> B.rrs_StatefulSet x) (autoConvert_v1beta1_MetricPipelineRuntimeInputResource <$> B.rrs_Job x).
Definition autoConvert_v1beta1_MetricPipelineIstioInputDiagnosticMetrics (x : B.MetricPipelineIstioInputDiagnosticMetrics) :
    A.MetricPipelineIstioInputDiagnosticMetrics := A.mkDiagnosticMetrics (B.dm_Enabled x).
Definition autoConvert_v1beta1_EnvoyMetrics (x : B.EnvoyMetrics) : A.EnvoyMetrics := A.mkEnvoyMetrics (B.em_Enabled x).
Definition autoConvert_v1beta1_MetricPipelinePrometheusInput (x : B.MetricPipelinePrometheusInput) : A.MetricPipelinePrometheusInput :=
  A.mkPrometheusInput (B.pi_Enabled x) (autoConvert_v1beta1_NamespaceSelector <$> B.pi_Namespaces x)
    (autoConvert_v1beta1_MetricPipelineIstioInputDiagnosticMetrics <$> B.pi_DiagnosticMetrics x).
Definition autoConvert_v1beta1_MetricPipelineIstioInput (x : B.MetricPipelineIstioInput) : A.MetricPipelineIstioInput :=
  A.mkIstioInput (B.ii_Enabled x) (autoConvert_v1beta1_NamespaceSelector <$> B.ii_Namespaces x)
    (autoConvert_v1beta1_MetricPipelineIstioInputDiagnosticMetrics <$> B.ii_DiagnosticMetrics x) (autoConvert_v1beta1_EnvoyMetrics <$> B.ii_EnvoyMetrics x).


(** The generated function makes [out.Namespaces] the same pointer as
    [in.Namespaces], so the two assignments that follow write into both objects:
    the result is the destination and the source as it is afterwards. *)
Definition Convert_v1alpha1_MetricPipelineRuntimeInput_To_v1beta1_MetricPipelineRuntimeInput
    (x : A.MetricPipelineRuntimeInput) :
    A.MetricPipelineRuntimeInput * B.MetricPipelineRuntimeInput :=
  let shared :=
    match A.mri_Namespaces x with
    | Some ns => Some (sanitizeNamespaceNames (A.ns_Include ns), sanitizeNamespaceNames (A.ns_Exclude ns))
    | None => None
    end in
  (A.mkMetricRuntimeInput (A.mri_Enabled x)
     ((fun p => A.mkNamespaceSelector p.1 p.2) <$> shared) (A.mri_Resources x) (A.mri_AdditionalMetrics x),
   B.mkMetricRuntimeInput (A.mri_Enabled x)
     ((fun p => B.mkNamespaceSelector p.1 p.2) <$> shared)
     (autoConvert_v1alpha1_MetricPipelineRuntimeInputResources <$> A.mri_Resources x) (A.mri_AdditionalMetrics x)).

Definition autoConvert_v1beta1_MetricPipelineRuntimeInput (x : B.MetricPipelineRuntimeInput) :
    A.MetricPipelineRuntimeInput :=
  A.mkMetricRuntimeInput (B.mri_Enabled x) (autoConvert_v1beta1_NamespaceSelector <$> B.mri_Namespaces x)
    (autoConvert_v1beta1_MetricPipelineRuntimeInputResources <$> B.mri_Resources x) (B.mri_AdditionalMetrics x).

Definition autoConvert_v1alpha1_MetricPipelineInput (x : A.MetricPipelineInput) : B.MetricPipelineInput :=
  B.mkMetricInput (autoConvert_v1alpha1_MetricPipelinePrometheusInput <$> A.mi_Prometheus x)
    ((fun r => (Convert_v1alpha1_MetricPipelineRuntimeInput_To_v1beta1_MetricPipelineRuntimeInput r).2)
       <$> A.mi_Runtime x)
    (autoConvert_v1alpha1_MetricPipelineIstioInput <$> A.mi_Istio x)
    (Convert_v1alpha1_OTLPInput_To_v1beta1_OTLPInput <$> A.mi_OTLP x).

Definition autoConvert_v1beta1_MetricPipelineInput (x : B.MetricPipelineInput) : A.MetricPipelineInput :=
  A.mkMetricInput (autoConvert_v1beta1_MetricPipelinePrometheusInput <$> B.mi_Prometheus x)
    (autoConvert_v1beta1_MetricPipelineRuntimeInput <$> B.mi_Runtime x)
    (autoConvert_v1beta1_MetricPipelineIstioInput <$> B.mi_Istio x)
    (Convert_v1beta1_OTLPInput_To_v1alpha1_OTLPInput <$> B.mi_OTLP x).

Definition autoConvert_v1alpha1_MetricPipelineOTLPOutput (x : A.MetricPipelineOTLPOutput) :
    B.MetricPipelineOTLPOutput :=
  B.mkMetricOTLPOutput (autoConvert_v1alpha1_OTLPOutput (A.mo_OTLPOutput x)) (A.mo_Temporality x).

Definition autoConvert_v1beta1_MetricPipelineOTLPOutput (x : B.MetricPipelineOTLPOutput) :
    A.MetricPipelineOTLPOutput :=
  A.mkMetricOTLPOutput (autoConvert_v1beta1_OTLPOutput (B.mo_OTLPOutput x)) (B.mo_Temporality x).

Definition autoConvert_v1alpha1_MetricPipelineSpec (x : A.MetricPipelineSpec) : B.MetricPipelineSpec :=
  B.mkMetricSpec (autoConvert_v1alpha1_MetricPipelineInput (A.ms_Input x))
    (B.mkMetricOutput (autoConvert_v1alpha1_MetricPipelineOTLPOutput <$> A.mout_OTLP (A.ms_Output x)))
    (smap autoConvert_v1alpha1_TransformSpec (A.ms_Transforms x)) (smap autoConvert_v1alpha1_FilterSpec (A.ms_Filters x)).

Definition autoConvert_v1beta1_MetricPipelineSpec (x : B.MetricPipelineSpec) : A.MetricPipelineSpec :=
  A.mkMetricSpec (autoConvert_v1beta1_MetricPipelineInput (B.ms_Input x))
    (A.mkMetricOutput (autoConvert_v1beta1_MetricPipelineOTLPOutput <$> B.mout_OTLP (B.ms_Output x)))
    (smap autoConvert_v1beta1_TransformSpec (B.ms_Transforms x)) (smap autoConvert_v1beta1_FilterSpec (B.ms_Filters x)).

(** ** Conversion of whole objects

    The conversions of TracePipelines (generated, zz_generated.conversion.go), and of
    MetricPipelines as objects (metricpipeline_conversion.go); the metadata of these kinds
    is copied and not written afterwards, so it is a value here. *)

(** ** TracePipeline *)

Definition autoConvert_v1alpha1_TracePipelineOutput (x : A.TracePipelineOutput) : B.TracePipelineOutput :=
  B.mkTraceOutput (autoConvert_v1alpha1_OTLPOutput <$> A.tout_OTLP x).
Definition autoConvert_v1beta1_TracePipelineOutput (x : B.TracePipelineOutput) : A.TracePipelineOutput :=
  A.mkTraceOutput (autoConvert_v1beta1_OTLPOutput <$> B.tout_OTLP x).

Definition autoConvert_v1alpha1_TracePipelineSpec (x : A.TracePipelineSpec) : B.TracePipelineSpec :=
  B.mkTraceSpec (autoConvert_v1alpha1_TracePipelineOutput (A.tps_Output x))
    (smap autoConvert_v1alpha1_TransformSpec (A.tps_Transforms x)) (smap autoConvert_v1alpha1_FilterSpec (A.tps_Filters x)).
Definition autoConvert_v1beta1_TracePipelineSpec (x : B.TracePipelineSpec) : A.TracePipelineSpec :=
  A.mkTraceSpec (autoConvert_v1beta1_TracePipelineOutput (B.tps_Output x))
    (smap autoConvert_v1beta1_TransformSpec (B.tps_Transforms x)) (smap autoConvert_v1beta1_FilterSpec (B.tps_Filters x)).

Definition autoConvert_v1alpha1_TracePipelineStatus (x : A.TracePipelineStatus) : B.TracePipelineStatus :=
  B.mkTraceStatus (A.tst_Conditions x).
Definition autoConvert_v1beta1_TracePipelineStatus (x : B.TracePipelineStatus) : A.TracePipelineStatus :=
  A.mkTraceStatus (B.tst_Conditions x).

Definition autoConvert_v1alpha1_TracePipeline (x : A.TracePipeline) : B.TracePipeline :=
  B.mkTracePipeline (A.tp_ObjectMeta x) (autoConvert_v1alpha1_TracePipelineSpec (A.tp_Spec x))
    (autoConvert_v1alpha1_TracePipelineStatus (A.tp_Status x)).
Definition autoConvert_v1beta1_TracePipeline (x : B.TracePipeline) : A.TracePipeline :=
  A.mkTracePipeline (B.tp_ObjectMeta x) (autoConvert_v1beta1_TracePipelineSpec (B.tp_Spec x))
    (autoConvert_v1beta1_TracePipelineStatus (B.tp_Status x)).

(** ** MetricPipeline *)

Definition autoConvert_v1alpha1_MetricPipelineStatus (x : A.MetricPipelineStatus) : B.MetricPipelineStatus :=
  B.mkMetricStatus (A.mst_Conditions x).
Definition autoConvert_v1beta1_MetricPipelineStatus (x : B.MetricPipelineStatus) : A.MetricPipelineStatus :=
  A.mkMetricStatus (B.mst_Conditions x).

Definition autoConvert_v1alpha1_MetricPipeline (x : A.MetricPipeline) : B.MetricPipeline :=
  B.mkMetricPipeline (A.mp_ObjectMeta x) (autoConvert_v1alpha1_MetricPipelineSpec (A.mp_Spec x))
    (autoConvert_v1alpha1_MetricPipelineStatus (A.mp_Status x)).
Definition autoConvert_v1beta1_MetricPipeline (x : B.MetricPipeline) : A.MetricPipeline :=
  A.mkMetricPipeline (B.mp_ObjectMeta x) (autoConvert_v1beta1_MetricPipelineSpec (B.mp_Spec x))
    (autoConvert_v1beta1_MetricPipelineStatus (B.mp_Status x)).

Definition errSrcTypeUnsupportedMetricPipeline : goerror := NewError "source type is not MetricPipeline v1alpha1".
Definition errDstTypeUnsupportedMetricPipeline : goerror := NewError "destination type is not MetricPipeline v1beta1".

(** [hub_ok] tells whether the hub object is a v1beta1 MetricPipeline. *)
Definition MetricPipeline_ConvertTo (hub_ok : bool) (src : A.MetricPipeline) : result B.MetricPipeline goerror :=
  if negb hub_ok then Err errDstTypeUnsupportedMetricPipeline else Ok (autoConvert_v1alpha1_MetricPipeline src).
Definition MetricPipeline_ConvertFrom (hub_ok : bool) (src : B.MetricPipeline) : result A.MetricPipeline goerror :=
  if negb hub_ok then Err errSrcTypeUnsupportedMetricPipeline else Ok (autoConvert_v1beta1_MetricPipeline src).
