(* ===== verification/ConversionProps.v ===== *)
(** * Properties of the conversion between v1alpha1 and v1beta1

    The round trip of LogPipelines through the hub version with the annotation
    that retains the v1alpha1 object, what happens after an edit in v1beta1, the
    round trip the other way, and the sanitised namespace names. *)
From stdpp Require Import base gmap strings list.
From S2P Require Import Prelude Kube GoErrors Regex.
From S2P Require ApiV1alpha1 ApiV1beta1.
From S2P Require Import Conversion.
Local Open Scope string_scope.

(** ** Sanitised namespace names *)

Lemma sanitize_elems names :
  elems (sanitizeNamespaceNames names) = List.filter valid_namespace_name (elems names).
Proof. apply elems_filter_slice. Qed.

Lemma sanitize_idem names :
  sanitizeNamespaceNames (sanitizeNamespaceNames names) = sanitizeNamespaceNames names.
Proof. unfold sanitizeNamespaceNames. by rewrite filter_slice_idem. Qed.

#[export] Hint Rewrite sanitize_idem : go.

(** sanitizeNamespaceNames keeps exactly the names that are valid Kubernetes
    namespace names: at most 63 characters, lower-case alphanumerics or dashes,
    beginning and ending alphanumeric. *)
Theorem sanitize_exact names n :
  n ∈ elems (sanitizeNamespaceNames names) <->
  n ∈ elems names /\ String.length n <= 63 /\
  (let l := String.list_ascii_of_string n in
   (exists c, l = [c] /\ lower_alnum c = true) \/
   (exists c mid d, l = c :: (mid ++ [d])%list /\ lower_alnum c = true /\ lower_alnum d = true /\
      Forall (fun x => lower_alnum_dash x = true) mid)).
Proof.
  rewrite sanitize_elems, !list_elem_of_In, List.filter_In.
  unfold valid_namespace_name. rewrite andb_true_iff, Nat.leb_le, ValidNameRegexp_spec. done.
Qed.

(** ** JSON

    encoding/json drops empty slices and maps of fields marked omitempty, so a
    decoded spec has nil where the encoded one had an empty slice. *)

Definition json_OAuth2 (x : A.OAuth2Options) : A.OAuth2Options :=
  A.mkOAuth2Options (A.oa_TokenURL x) (A.oa_ClientID x) (A.oa_ClientSecret x)
    (snil (A.oa_Scopes x)) (mnil (A.oa_Params x)).
Definition json_Auth (x : A.AuthenticationOptions) : A.AuthenticationOptions :=
  A.mkAuthenticationOptions (A.ao_Basic x) (json_OAuth2 <$> A.ao_OAuth2 x).
Definition json_OTLPOutput (x : A.OTLPOutput) : A.OTLPOutput :=
  A.mkOTLPOutput (A.oo_Protocol x) (A.oo_Endpoint x) (A.oo_Path x)
    (json_Auth <$> A.oo_Authentication x) (snil (A.oo_Headers x)) (A.oo_TLS x).
Definition json_NS (x : A.NamespaceSelector) : A.NamespaceSelector :=
  A.mkNamespaceSelector (snil (A.ns_Include x)) (snil (A.ns_Exclude x)).
Definition json_App (x : A.LogPipelineApplicationInput) : A.LogPipelineApplicationInput :=
  let ns := A.ai_Namespaces x in
  let cs := A.ai_Containers x in
  A.mkApplicationInput (A.ai_Enabled x)
    (A.mkLogNamespaceSelector (snil (A.lns_Include ns)) (snil (A.lns_Exclude ns)) (A.lns_System ns))
    (A.mkContainerSelector (snil (A.cs_Include cs)) (snil (A.cs_Exclude cs)))
    (A.ai_FluentBitKeepAnnotations x) (A.ai_FluentBitDropLabels x) (A.ai_KeepOriginalBody x).
Definition json_OTLPInput (x : A.OTLPInput) : A.OTLPInput :=
  A.mkOTLPInput (A.oi_Disabled x) (json_NS <$> A.oi_Namespaces x).

(** The spec that decoding gives back. *)
Definition json_spec (x : A.LogPipelineSpec) : A.LogPipelineSpec :=
  A.mkLogSpec
    (A.mkLogInput (json_App <$> A.li_Application (A.ls_Input x))
                  (json_OTLPInput <$> A.li_OTLP (A.ls_Input x)))
    (snil (A.ls_FluentBitFilters x))
    (A.mkLogOutput (A.lo_FluentBitCustom (A.ls_Output x)) (A.lo_FluentBitHTTP (A.ls_Output x))
       (json_OTLPOutput <$> A.lo_OTLP (A.ls_Output x)))
    (snil (A.ls_FluentBitFiles x)) (snil (A.ls_FluentBitVariables x))
    (snil (smap (fun t => A.mkTransformSpec (snil (A.ts_Conditions t)) (snil (A.ts_Statements t)))
                (A.ls_Transforms x)))
    (snil (smap (fun f => A.mkFilterSpec (snil (A.fs_Conditions f))) (A.ls_Filters x))).

(** Documented behaviour of the encoder and decoder: decoding an encoded object
    gives its metadata and its spec back, up to omitted empty slices. *)
Class LogPipelineJSONLaws `{LogPipelineJSON} := {
  json_roundtrip m s d :
    json_text s -> json_encode m s = Ok d ->
    exists m', json_decode d = Ok (m', json_spec s) /\ om_Generation m' = om_Generation m
}.

(** ** The heap of annotations *)

Lemma annotations_insert h l m r :
  annotations (<[l := m]> h) r =
    if bool_decide (mr_Annotations r = Some l) then Some m else annotations h r.
Proof.
  unfold annotations. destruct (mr_Annotations r) as [l'|]; simpl; [|done].
  rewrite lookup_insert. repeat case_decide; case_bool_decide; congruence.
Qed.

Section Props.
Context `{LogPipelineJSONLaws}.

(** What [marshalData] leaves behind: the annotation holds the encoded source and
    every other annotation is as before. *)
Lemma marshalData_spec h src dst h' dst' :
  marshalData h src dst = Ok (h', dst') ->
  exists d, json_encode (load_meta h (a_Meta src)) (a_Spec src) = Ok d /\
    annotations h' dst' = Some (<[dataAnnotation := d]> (default ∅ (annotations h dst))) /\
    mr_Generation dst' = mr_Generation dst /\ is_Some (mr_Annotations dst').
Proof.
  unfold marshalData. intros Hm. destruct (json_encode _ _) as [d|] eqn:He; [|done].
  exists d. split; [done|]. destruct (mr_Annotations dst) as [l|] eqn:Ha; simplify_eq.
  - rewrite annotations_insert, bool_decide_true by done.
    unfold annotations at 1. rewrite Ha. simpl. eauto.
  - rewrite annotations_insert, bool_decide_true by done. simpl.
    unfold annotations. rewrite Ha. simpl. eauto.
Qed.

Lemma unmarshalData_present h from m d obj :
  annotations h from = Some m -> m !! dataAnnotation = Some d -> json_decode d = Ok obj ->
  exists h', unmarshalData h from = Ok (h', Some obj) /\
    annotations h' from = Some (delete dataAnnotation m).
Proof.
  unfold unmarshalData, annotations at 1. intros Ha Hd Hj.
  destruct (mr_Annotations from) as [l|] eqn:Hl; [|done]. simpl in Ha. rewrite Ha. simpl.
  rewrite Hd, Hj. eexists. split; [done|].
  by rewrite annotations_insert, bool_decide_true by done.
Qed.

(** The down conversion of an object the up conversion produced, whose spec may
    have been edited since. *)
Lemma convert_back h src h1 b b' :
  json_text (a_Spec src) ->
  ConvertTo true h src = Ok (h1, b) ->
  b_Meta b' = mkMetaRef (mr_Name (b_Meta b)) (mr_UID (b_Meta b)) (mr_Generation (b_Meta b'))
                (mr_Annotations (b_Meta b)) (mr_Deleted (b_Meta b)) ->
  exists h2 a, ConvertFrom true h1 b' = Ok (h2, a) /\
    a_Spec a = (if bool_decide (mr_Generation (a_Meta src) = mr_Generation (b_Meta b'))
                then json_spec (a_Spec src)
                else autoConvert_v1beta1_LogPipelineSpec (b_Spec b')) /\
    a_Status a = autoConvert_v1beta1_LogPipelineStatus (b_Status b') /\
    a_Meta a = b_Meta b' /\
    annotations h2 (a_Meta a) = Some (delete dataAnnotation (default ∅ (annotations h (a_Meta src)))).
Proof.
  intros Htext Hto Hmeta. unfold ConvertTo in Hto. simpl in Hto.
  destruct (marshalData h src (a_Meta src)) as [[h' meta]|] eqn:Hm; [|done]. simplify_eq/=.
  apply marshalData_spec in Hm as (d & He & Ha & Hg & _).
  destruct (json_roundtrip _ _ _ Htext He) as (m' & Hj & Hgen).
  assert (Hb : annotations h1 (b_Meta b') = annotations h1 meta).
  { unfold annotations. by rewrite Hmeta. }
  rewrite Ha in Hb.
  destruct (unmarshalData_present _ _ _ _ _ Hb (lookup_insert_eq _ _ _) Hj) as (h2 & Hu & Ha2).
  unfold ConvertFrom. simpl. rewrite Hu. do 2 eexists. split; [done|]. simpl.
  rewrite Hgen. simpl. repeat split; try done.
  by rewrite Ha2, delete_insert_eq.
Qed.

Lemma ConvertTo_meta h src h1 b :
  ConvertTo true h src = Ok (h1, b) ->
  mr_Generation (b_Meta b) = mr_Generation (a_Meta src) /\
  b_Status b = autoConvert_v1alpha1_LogPipelineStatus (a_Status src) /\
  b_Spec b = autoConvert_v1alpha1_LogPipelineSpec (a_Spec src).
Proof.
  unfold ConvertTo; simpl. intros Hto.
  destruct (marshalData h src (a_Meta src)) as [[h' meta]|] eqn:Hmd; simplify_eq/=.
  by apply marshalData_spec in Hmd as (_ & _ & _ & Hg & _).
Qed.

(** C13. Converting a v1alpha1 LogPipeline up to the hub version and back,
    unedited, restores its spec (as JSON renders it), status and generation
    exactly, and its annotations without the data annotation, although the up-
    conversion sanitises names and merges namespace selectors. *)
Theorem LogPipeline_roundtrip h src h1 b :
  json_text (a_Spec src) ->
  ConvertTo true h src = Ok (h1, b) ->
  exists h2 a, ConvertFrom true h1 b = Ok (h2, a) /\
    a_Spec a = json_spec (a_Spec src) /\ a_Status a = a_Status src /\
    mr_Generation (a_Meta a) = mr_Generation (a_Meta src) /\
    annotations h2 (a_Meta a) = Some (delete dataAnnotation (default ∅ (annotations h (a_Meta src)))).
Proof.
  intros Htext Hto.
  destruct (convert_back h src h1 b b Htext Hto) as (h2 & a & Hf & Hs & Hst & Hm & Ha).
  { by destruct (b_Meta b). }
  exists h2, a. apply ConvertTo_meta in Hto as (Hg & HbSt & _).
  rewrite bool_decide_true in Hs by done. split; [done|]. split; [done|].
  split; [|split; [by rewrite Hm, Hg|done]].
  rewrite Hst, HbSt. by destruct (a_Status src).
Qed.

(** A v1beta1 LogPipeline whose generation differs from the one recorded by
    ConvertTo is converted down from its own spec: the preserved v1alpha1 data
    is not restored over the edit, and the annotation that carried it is gone. *)
Theorem LogPipeline_edited_not_restored h src h1 b spec g :
  json_text (a_Spec src) ->
  ConvertTo true h src = Ok (h1, b) ->
  g <> mr_Generation (a_Meta src) ->
  let m := b_Meta b in
  let edited := mkLogPipelineB
    (mkMetaRef (mr_Name m) (mr_UID m) g (mr_Annotations m) (mr_Deleted m)) spec (b_Status b) in
  exists h2 a, ConvertFrom true h1 edited = Ok (h2, a) /\
    a_Spec a = autoConvert_v1beta1_LogPipelineSpec spec /\
    (forall an, annotations h2 (a_Meta a) = Some an -> an !! dataAnnotation = None).
Proof.
  intros Htext Hto Hg m edited.
  destruct (convert_back h src h1 b edited Htext Hto) as (h2 & a & Hf & Hs & _ & _ & Ha); [done|].
  exists h2, a. split; [done|]. split.
  - rewrite bool_decide_false in Hs by done. done.
  - intros an Han. rewrite Ha in Han. simplify_eq. apply lookup_delete_eq.
Qed.

End Props.

(** ** Down and up again *)

Lemma SecretKeyRef_down_up x : autoConvert_v1alpha1_SecretKeyRef (autoConvert_v1beta1_SecretKeyRef x) = x.
Proof. by destruct x. Qed.

Lemma ValueFromSource_down_up x : autoConvert_v1alpha1_ValueFromSource (autoConvert_v1beta1_ValueFromSource x) = x.
Proof. destruct x; unfold autoConvert_v1alpha1_ValueFromSource; simpl. by rewrite (fmap_inv _ _ SecretKeyRef_down_up). Qed.

Lemma ValueType_down_up x : autoConvert_v1alpha1_ValueType (autoConvert_v1beta1_ValueType x) = x.
Proof. destruct x; unfold autoConvert_v1alpha1_ValueType; simpl. by rewrite (fmap_inv _ _ ValueFromSource_down_up). Qed.

Lemma BasicAuth_down_up x : autoConvert_v1alpha1_BasicAuthOptions (autoConvert_v1beta1_BasicAuthOptions x) = x.
Proof. destruct x; unfold autoConvert_v1alpha1_BasicAuthOptions; simpl. by rewrite !ValueType_down_up. Qed.

Lemma OAuth2_down_up x : autoConvert_v1alpha1_OAuth2Options (autoConvert_v1beta1_OAuth2Options x) = x.
Proof. destruct x; unfold autoConvert_v1alpha1_OAuth2Options; simpl. by rewrite !ValueType_down_up. Qed.

Lemma Authentication_down_up x : autoConvert_v1alpha1_AuthenticationOptions (autoConvert_v1beta1_AuthenticationOptions x) = x.
Proof.
  destruct x; unfold autoConvert_v1alpha1_AuthenticationOptions; simpl.
  by rewrite (fmap_inv _ _ BasicAuth_down_up), (fmap_inv _ _ OAuth2_down_up).
Qed.

Lemma Header_down_up x : autoConvert_v1alpha1_Header (autoConvert_v1beta1_Header x) = x.
Proof. destruct x; unfold autoConvert_v1alpha1_Header; simpl. by rewrite ValueType_down_up. Qed.

Lemma OutputTLS_down_up x : autoConvert_v1alpha1_OTLPTLS (autoConvert_v1beta1_OutputTLS x) = x.
Proof. destruct x; unfold autoConvert_v1alpha1_OTLPTLS; simpl. by rewrite !(fmap_inv _ _ ValueType_down_up). Qed.

Lemma TransformSpec_down_up x : autoConvert_v1alpha1_TransformSpec (autoConvert_v1beta1_TransformSpec x) = x.
Proof. by destruct x. Qed.

Lemma FilterSpec_down_up x : autoConvert_v1alpha1_FilterSpec (autoConvert_v1beta1_FilterSpec x) = x.
Proof. by destruct x. Qed.

Definition drop_compression (o : B.OTLPOutput) : B.OTLPOutput :=
  B.mkOTLPOutput (B.oo_Protocol o) (B.oo_Endpoint o) (B.oo_Path o) (B.oo_Authentication o)
    (B.oo_Headers o) (B.oo_TLS o) "".

Lemma OTLPOutput_down_up x : autoConvert_v1alpha1_OTLPOutput (autoConvert_v1beta1_OTLPOutput x) = drop_compression x.
Proof.
  destruct x; unfold autoConvert_v1alpha1_OTLPOutput, drop_compression; simpl.
  by rewrite ValueType_down_up, (fmap_inv _ _ Authentication_down_up), (smap_inv _ _ Header_down_up),
    (fmap_inv _ _ OutputTLS_down_up).
Qed.

(** What survives of an OTLP input: an unset [Enabled] becomes [true], and invalid
    namespace names are gone. *)
Definition normal_otlp_input (x : B.OTLPInput) : B.OTLPInput :=
  B.mkOTLPInput (Some (deref (B.oi_Enabled x) true))
    ((fun ns => B.mkNamespaceSelector (sanitizeNamespaceNames (B.ns_Include ns))
                                      (sanitizeNamespaceNames (B.ns_Exclude ns)))
       <$> B.oi_Namespaces x).

Lemma OTLPInput_down_up x :
  Convert_v1alpha1_OTLPInput_To_v1beta1_OTLPInput
    (Convert_v1beta1_OTLPInput_To_v1alpha1_OTLPInput x) = normal_otlp_input x.
Proof.
  destruct x as [[[]|] [ns|]]; unfold Convert_v1alpha1_OTLPInput_To_v1beta1_OTLPInput,
    Convert_v1beta1_OTLPInput_To_v1alpha1_OTLPInput, normal_otlp_input; simpl;
    by rewrite ?sanitize_idem.
Qed.

(** What survives of a log runtime input. *)
Definition normal_runtime_namespaces (ns : option B.NamespaceSelector) : B.NamespaceSelector :=
  match ns with
  | None => B.mkNamespaceSelector None (Some System)
  | Some ns =>
      if (slen (B.ns_Include ns) =? 0)%nat && (slen (B.ns_Exclude ns) =? 0)%nat
      then B.mkNamespaceSelector None None
      else B.mkNamespaceSelector (sanitizeNamespaceNames (B.ns_Include ns))
                                 (sanitizeNamespaceNames (B.ns_Exclude ns))
  end.

Definition normal_containers (cs : option B.LogPipelineContainerSelector) :
    option B.LogPipelineContainerSelector :=
  match cs with
  | Some (B.mkContainerSelector None None) => None
  | _ => cs
  end.

Definition normal_runtime_input (x : B.LogPipelineRuntimeInput) : B.LogPipelineRuntimeInput :=
  B.mkLogRuntimeInput (B.lri_Enabled x) (Some (normal_runtime_namespaces (B.lri_Namespaces x)))
    (normal_containers (B.lri_Containers x)) (B.lri_FluentBitKeepAnnotations x)
    (B.lri_FluentBitDropLabels x) (B.lri_KeepOriginalBody x).

(** Converting a v1beta1 LogPipeline input down to v1alpha1 and up again gives
    the input in normal form: a missing namespace selector becomes the exclusion
    of the system namespaces, one without names selects all namespaces, invalid
    names are dropped, an empty container selector disappears, and an unset
    enabled flag of the OTLP input becomes true. *)
Theorem LogPipelineInput_down_up x :
  Convert_v1alpha1_LogPipelineInput_To_v1beta1_LogPipelineInput
    (Convert_v1beta1_LogPipelineInput_To_v1alpha1_LogPipelineInput x) =
  B.mkLogInput (normal_runtime_input <$> B.li_Runtime x) (normal_otlp_input <$> B.li_OTLP x).
Proof.
  destruct x as [rt otlp].
  unfold Convert_v1alpha1_LogPipelineInput_To_v1beta1_LogPipelineInput,
    Convert_v1beta1_LogPipelineInput_To_v1alpha1_LogPipelineInput; simpl. f_equal.
  - destruct rt as [[en ns cs ka dl kb]|]; simpl; [|done]. unfold normal_runtime_input; simpl.
    do 2 f_equal.
    + destruct ns as [[inc exc]|]; simpl; [|done].
      destruct (slen inc =? 0)%nat eqn:Hi, (slen exc =? 0)%nat eqn:He; simpl;
        by rewrite ?Hi, ?He.
    + by destruct cs as [[[] []]|].
  - destruct otlp; simpl; [|done]. by rewrite OTLPInput_down_up.
Qed.

(** A v1alpha1 application input that excludes only invalid namespace names and
    does not ask for system namespaces converts to an input that, converted
    back, collects from the system namespaces too. *)
Theorem invalid_excludes_enable_system_namespaces app :
  let ns := A.ai_Namespaces app in
  elems (A.lns_Include ns) = [] -> elems (A.lns_Exclude ns) <> [] ->
  elems (sanitizeNamespaceNames (A.lns_Exclude ns)) = [] -> A.lns_System ns = false ->
  let back := Convert_v1beta1_LogPipelineInput_To_v1alpha1_LogPipelineInput
    (Convert_v1alpha1_LogPipelineInput_To_v1beta1_LogPipelineInput (A.mkLogInput (Some app) None)) in
  exists app', A.li_Application back = Some app' /\ A.lns_System (A.ai_Namespaces app') = true.
Proof.
  intros ns Hi He Hs Hsys back. subst back ns.
  unfold Convert_v1alpha1_LogPipelineInput_To_v1beta1_LogPipelineInput; simpl.
  assert (Hlen : (slen (A.lns_Exclude (A.ai_Namespaces app)) =? 0)%nat = false).
  { unfold slen. apply Nat.eqb_neq. by intros ?%nil_length_inv. }
  rewrite Hlen, andb_false_r. simpl. eexists. split; [done|]. simpl.
  unfold slen. rewrite sanitize_elems, Hi, Hs. done.
Qed.

(** ** MetricPipeline *)

(** Converting a v1beta1 MetricPipeline spec down and up again loses only the
    compression setting, normalises the OTLP input and sanitises the namespace
    names of the runtime input; every other field is preserved. *)
Theorem MetricPipelineSpec_down_up x :
  autoConvert_v1alpha1_MetricPipelineSpec (autoConvert_v1beta1_MetricPipelineSpec x) =
  B.mkMetricSpec
    (B.mkMetricInput (B.mi_Prometheus (B.ms_Input x))
       ((fun r => B.mkMetricRuntimeInput (B.mri_Enabled r)
           ((fun ns => B.mkNamespaceSelector (sanitizeNamespaceNames (B.ns_Include ns))
                                             (sanitizeNamespaceNames (B.ns_Exclude ns)))
              <$> B.mri_Namespaces r)
           (B.mri_Resources r) (B.mri_AdditionalMetrics r)) <$> B.mi_Runtime (B.ms_Input x))
       (B.mi_Istio (B.ms_Input x))
       (normal_otlp_input <$> B.mi_OTLP (B.ms_Input x)))
    (B.mkMetricOutput ((fun o => B.mkMetricOTLPOutput (drop_compression (B.mo_OTLPOutput o))
                                                      (B.mo_Temporality o))
                         <$> B.mout_OTLP (B.ms_Output x)))
    (B.ms_Transforms x) (B.ms_Filters x).
Proof.
  destruct x as [[prom rt istio otlp] [out] tr fi].
  unfold autoConvert_v1alpha1_MetricPipelineSpec, autoConvert_v1alpha1_MetricPipelineInput; simpl.
  rewrite (smap_inv _ _ TransformSpec_down_up), (smap_inv _ _ FilterSpec_down_up).
  f_equal; [|unfold autoConvert_v1alpha1_MetricPipelineOTLPOutput; destruct out; simpl;
             [by rewrite OTLPOutput_down_up|done]].
  f_equal.
  - by destruct prom as [[? [[]|] [[]|]]|].
  - destruct rt as [[? [[]|] [[[[]|] [[]|] [[]|] [[]|] [[]|] [[]|] [[]|] [[]|]]|] ?]|]; done.
  - destruct istio as [[? [[]|] [[]|] [[]|]]|]; done.
  - destruct otlp; simpl; [by rewrite OTLPInput_down_up|done].
Qed.

(** The up-conversion writes the sanitised selector through the pointer it shares with
    its source. *)
Lemma metric_conversion_rewrites_source x :
  let '(src, dst) := Convert_v1alpha1_MetricPipelineRuntimeInput_To_v1beta1_MetricPipelineRuntimeInput x in
  A.mri_Namespaces src =
    ((fun ns => A.mkNamespaceSelector (sanitizeNamespaceNames (A.ns_Include ns))
                                      (sanitizeNamespaceNames (A.ns_Exclude ns))) <$> A.mri_Namespaces x) /\
  (autoConvert_v1alpha1_NamespaceSelector <$> A.mri_Namespaces src) = B.mri_Namespaces dst.
Proof. destruct x as [? [ns|] ? ?]; done. Qed.

(** ** Concrete runs *)

Module Sample.

Definition app : A.LogPipelineApplicationInput :=
  A.mkApplicationInput None (A.mkLogNamespaceSelector None (Some ["Foo_Bar"]) false)
    (A.mkContainerSelector None None) None None None.

Definition spec : A.LogPipelineSpec :=
  A.mkLogSpec (A.mkLogInput (Some app) None) None
    (A.mkLogOutput "" None (Some (A.mkOTLPOutput "grpc" (A.mkValueType "https://backend:4317" None) ""
       None None None))) None None None None.

Definition meta : MetaRef := mkMetaRef "backend" "uid-1" 3 None false.

Definition pipeline : LogPipelineA := mkLogPipelineA meta spec (A.mkLogStatus [] None).

(** A codec that knows the objects of generation 3 with this spec. *)
#[global] Instance codec : LogPipelineJSON := {|
  json_encode m _ := if bool_decide (om_Generation m = 3%Z) then Ok "backend@3" else Err (NewError "unsupported");
  json_decode d := if str_eqb d "backend@3"
                   then Ok (mkMeta "backend" "uid-1" 3 None false, json_spec spec)
                   else Err (NewError "unsupported");
  json_text s := s = spec
|}.

#[global] Instance codec_laws : LogPipelineJSONLaws.
Proof.
  constructor. intros m s d Hs He. simpl in Hs, He. subst s. case_bool_decide as Hg; simplify_eq.
  eexists. split; [reflexivity|]. by rewrite Hg.
Qed.

Definition stored_heap : heap := <[0 := {[dataAnnotation := "backend@3"]}]> ∅.
Definition stored : LogPipelineB :=
  mkLogPipelineB (set_annotations meta 0) (autoConvert_v1alpha1_LogPipelineSpec spec)
    (B.mkLogStatus [] None).

End Sample.

Lemma LogPipeline_roundtrip_witness :
  ConvertTo true ∅ Sample.pipeline = Ok (Sample.stored_heap, Sample.stored) /\
  exists h2 a, ConvertFrom true Sample.stored_heap Sample.stored = Ok (h2, a) /\
    a_Spec a = Sample.spec.
Proof.
  assert (H : ConvertTo true ∅ Sample.pipeline = Ok (Sample.stored_heap, Sample.stored))
    by (vm_compute; reflexivity).
  split; [exact H|].
  assert (Ht : json_text (a_Spec Sample.pipeline)) by reflexivity.
  destruct (LogPipeline_roundtrip ∅ Sample.pipeline _ _ Ht H) as (h2 & a & Hf & Hs & _).
  exists h2, a. split; [exact Hf|]. rewrite Hs. reflexivity.
Defined.

Lemma LogPipeline_edited_witness :
  exists h2 a,
    ConvertFrom true Sample.stored_heap
      (mkLogPipelineB (mkMetaRef "backend" "uid-1" 4 (Some 0) false)
         (autoConvert_v1alpha1_LogPipelineSpec Sample.spec) (B.mkLogStatus [] None)) = Ok (h2, a) /\
    a_Spec a = autoConvert_v1beta1_LogPipelineSpec (autoConvert_v1alpha1_LogPipelineSpec Sample.spec).
Proof.
  assert (H : ConvertTo true ∅ Sample.pipeline = Ok (Sample.stored_heap, Sample.stored))
    by (vm_compute; reflexivity).
  assert (Ht : json_text (a_Spec Sample.pipeline)) by reflexivity.
  destruct (LogPipeline_edited_not_restored ∅ Sample.pipeline _ _
              (autoConvert_v1alpha1_LogPipelineSpec Sample.spec) 4 Ht H ltac:(discriminate))
    as (h2 & a & Hf & Hs & _).
  exists h2, a. split; [exact Hf|exact Hs].
Defined.

Lemma invalid_excludes_witness :
  exists app', A.li_Application
    (Convert_v1beta1_LogPipelineInput_To_v1alpha1_LogPipelineInput
      (Convert_v1alpha1_LogPipelineInput_To_v1beta1_LogPipelineInput (A.mkLogInput (Some Sample.app) None)))
    = Some app' /\ A.lns_System (A.ai_Namespaces app') = true.
Proof.
  apply (invalid_excludes_enable_system_namespaces Sample.app);
    [reflexivity|discriminate|vm_compute; reflexivity|reflexivity].
Defined.
