(* ===== verification/Lock.v ===== *)
(** * The pipeline lock (internal/resourcelock/lock.go)

    A ConfigMap whose owner references are the pipelines that hold the lock. The
    lock bounds how many pipelines are configured, the syncer (no bound) registers
    every pipeline. [TryAcquireLock] reads the ConfigMap, decides what to do, and
    performs at most one write; the decision is a function of its own because two
    reconcilers can interleave between the read and the write. *)
From stdpp Require Import base gmap strings list.
From S2P Require Import Prelude Kube GoErrors.
Local Open Scope string_scope.

Definition MaxPipelineCount : Z := 5.
Definition UnlimitedPipelineCount : Z := -1.

(** [Checker]; the client is the [ConfigMapClient] of the cluster state. *)
Record Checker := mkChecker { ck_lockName : NamespacedName; ck_maxOwners : Z }.

(** [strings.HasSuffix(s, suf)] *)
Definition HasSuffix (s suf : string) : bool :=
  (String.length suf <=? String.length s)%nat &&
  str_eqb (String.substring (String.length s - String.length suf) (String.length suf) s) suf.

Definition newChecker (lockName : NamespacedName) (maxOwners : Z) (suffix : string) : Checker :=
  let name :=
    if HasSuffix (nn_Name lockName) ("-" +:+ suffix) then nn_Name lockName
    else nn_Name lockName +:+ "-" +:+ suffix in
  mkChecker (mkNN (nn_Namespace lockName) name) maxOwners.

Definition NewLocker (lockName : NamespacedName) (maxOwners : Z) : Checker :=
  newChecker lockName maxOwners "lock".

Definition NewSyncer (lockName : NamespacedName) : Checker := newChecker lockName 0 "syncer".

(** The owner as the lock compares it: name and UID. *)
Definition is_ref (owner ref : OwnerReference) : bool :=
  str_eqb (or_Name ref) (or_Name owner) && str_eqb (or_UID ref) (or_UID owner).

Definition canAddOwner (numOwners maxOwners : Z) : bool :=
  if (maxOwners =? UnlimitedPipelineCount)%Z then true else (numOwners <? maxOwners)%Z.

(** [controllerutil.SetOwnerReference(owner, obj, scheme)] on the object's owner
    references. *)
Class OwnerSetter := SetOwnerReference :
  OwnerReference -> list OwnerReference -> result (list OwnerReference) goerror.

(** Documented behaviour: the object ends up with a reference to the owner; a
    reference to the same owner is overwritten; the other references stay; its errors
    are the library's own. *)
Class OwnerSetterLaws `{OwnerSetter} := {
  sor_owner o rs rs' : SetOwnerReference o rs = Ok rs' -> o ∈ rs';
  sor_length o rs rs' : SetOwnerReference o rs = Ok rs' -> length rs' <= S (length rs);
  sor_keeps o rs rs' r :
    SetOwnerReference o rs = Ok rs' -> r ∈ rs -> or_Name r <> or_Name o -> r ∈ rs';
  sor_err o rs e : SetOwnerReference o rs = Err e -> exists m, e = NewError m
}.

(** What [TryAcquireLock] does after reading the lock. *)
Inductive action :=
| Return (err : option goerror)
| DoCreate (cm : ConfigMap)
| DoUpdate (cm : ConfigMap).

Section Lock.
Context `{OwnerSetter}.

(** The labels of the new ConfigMap are not part of [ConfigMap]; nothing here reads them. *)
Definition createLock (c : Checker) (owner : OwnerReference) : action :=
  match SetOwnerReference owner [] with
  | Err e => Return (Some (Wrapf "failed to set owner reference: " e ""))
  | Ok refs => DoCreate (mkConfigMap (ck_lockName c) 0 refs None)
  end.

Definition decide_acquire (c : Checker) (read : result ConfigMap apierror) (owner : OwnerReference) :
    action :=
  match read with
  | Err e =>
      if IsNotFound e then createLock c owner
      else Return (Some (Wrapf "failed to get lock: " (ApiError e) ""))
  | Ok lock =>
      if existsb (is_ref owner) (cm_OwnerReferences lock) then Return None
      else if (ck_maxOwners c =? 0)%Z
              || canAddOwner (Z.of_nat (length (cm_OwnerReferences lock))) (ck_maxOwners c)
      then
        match SetOwnerReference owner (cm_OwnerReferences lock) with
        | Err e => Return (Some (Wrapf "failed to set owner reference: " e ""))
        | Ok refs =>
            DoUpdate (mkConfigMap (cm_Key lock) (cm_ResourceVersion lock) refs (cm_Data lock))
        end
      else Return (Some (Sentinel ErrMaxPipelinesExceeded))
  end.

Context {W : Type} `{ConfigMapClient W}.

Definition perform (w : W) (a : action) : W * option goerror :=
  match a with
  | Return err => (w, err)
  | DoCreate cm =>
      match cm_create w cm with
      | (w', Some e) => (w', Some (Wrapf "failed to create lock: " (ApiError e) ""))
      | (w', None) => (w', None)
      end
  | DoUpdate cm =>
      match cm_update w cm with
      | (w', Some e) => (w', Some (Wrapf "failed to update lock: " (ApiError e) ""))
      | (w', None) => (w', None)
      end
  end.

(** [(c *Checker) TryAcquireLock(ctx, owner)] *)
Definition TryAcquireLock (c : Checker) (w : W) (owner : OwnerReference) : W * option goerror :=
  perform w (decide_acquire c (cm_get w (ck_lockName c)) owner).

(** [(c *Checker) IsLockHolder(ctx, obj)] *)
Definition IsLockHolder (c : Checker) (w : W) (obj : OwnerReference) : option goerror :=
  match cm_get w (ck_lockName c) with
  | Err e => Some (APIRequestFailedError (Wrapf "failed to get lock: " (ApiError e) ""))
  | Ok lock =>
      if existsb (is_ref obj) (cm_OwnerReferences lock) then None
      else Some (Sentinel ErrMaxPipelinesExceeded)
  end.

End Lock.

(** ** Properties of the pipeline lock

    Sequential behaviour of [TryAcquireLock] and [IsLockHolder], and the safety of
    the lock when reconcilers interleave between the read and the write: no more
    than the configured number of pipelines hold it and no holder loses it to
    another pipeline. *)

Lemma is_ref_true o r : is_ref o r = true <-> r = o.
Proof.
  unfold is_ref. rewrite andb_true_iff, !str_eqb_true.
  destruct o, r; simpl. naive_solver.
Qed.

Lemma existsb_is_ref o rs : existsb (is_ref o) rs = true <-> o ∈ rs.
Proof.
  rewrite existsb_exists. setoid_rewrite is_ref_true. rewrite list_elem_of_In. naive_solver.
Qed.

Lemma existsb_is_ref_false o rs : existsb (is_ref o) rs = false <-> o ∉ rs.
Proof. rewrite <- existsb_is_ref. by destruct (existsb (is_ref o) rs). Qed.

(** The number of owners a lock may have: none when it is unbounded. *)
Definition within (c : Checker) (n : nat) : Prop :=
  (0 < ck_maxOwners c)%Z -> (Z.of_nat n <= ck_maxOwners c)%Z.

Definition lock_bounded {W} `{ConfigMapClient W} (c : Checker) (w : W) : Prop :=
  forall lock, cm_get w (ck_lockName c) = Ok lock -> within c (length (cm_OwnerReferences lock)).

Section Sequential.
Context `{OwnerSetterLaws} {W : Type} `{ConfigMapLaws W}.

(** A decision to write always writes an owner list that contains the owner, keeps
    the owners it read and stays within the bound. *)
Lemma decide_update c w o cm :
  decide_acquire c (cm_get w (ck_lockName c)) o = DoUpdate cm ->
  exists lock, cm_get w (ck_lockName c) = Ok lock /\
    cm_Key cm = ck_lockName c /\ cm_ResourceVersion cm = cm_ResourceVersion lock /\
    SetOwnerReference o (cm_OwnerReferences lock) = Ok (cm_OwnerReferences cm) /\
    o ∉ cm_OwnerReferences lock /\
    (lock_bounded c w -> within c (length (cm_OwnerReferences cm))).
Proof.
  unfold decide_acquire, createLock. intros Hd.
  destruct (cm_get w (ck_lockName c)) as [lock|e] eqn:Hg; [|by split_hyp Hd].
  destruct (existsb (is_ref o) _) eqn:Hx; [done|].
  destruct (_ || _) eqn:Hcan; [|done].
  destruct (SetOwnerReference o _) as [refs|] eqn:Hs; simplify_eq/=.
  exists lock. pose proof (cm_get_key _ _ _ Hg). apply existsb_is_ref_false in Hx.
  repeat split; try done. intros Hb Hpos. pose proof (sor_length _ _ _ Hs).
  apply orb_true_iff in Hcan as [Hz|Hc]; [apply Z.eqb_eq in Hz; lia|].
  unfold canAddOwner in Hc. case_match eqn:Hu; [apply Z.eqb_eq in Hu; unfold UnlimitedPipelineCount in Hu; lia|].
  apply Z.ltb_lt in Hc. lia.
Qed.

Lemma decide_create c w o cm :
  decide_acquire c (cm_get w (ck_lockName c)) o = DoCreate cm ->
  cm_get w (ck_lockName c) = Err NotFound /\ cm_Key cm = ck_lockName c /\
  SetOwnerReference o [] = Ok (cm_OwnerReferences cm) /\
  within c (length (cm_OwnerReferences cm)).
Proof.
  unfold decide_acquire, createLock. intros Hd.
  destruct (cm_get w (ck_lockName c)) as [lock|e] eqn:Hg; [by split_hyp Hd|].
  destruct e; simpl in Hd; try done.
  destruct (SetOwnerReference o []) as [refs|] eqn:Hs; simplify_eq/=.
  repeat split; try done. intros Hpos. pose proof (sor_length _ _ _ Hs). simpl in *. lia.
Qed.

Lemma decide_return_none c w o :
  decide_acquire c (cm_get w (ck_lockName c)) o = Return None ->
  exists lock, cm_get w (ck_lockName c) = Ok lock /\ o ∈ cm_OwnerReferences lock.
Proof.
  unfold decide_acquire, createLock. intros Hd.
  destruct (cm_get w (ck_lockName c)) as [lock|e]; [|by split_hyp Hd].
  destruct (existsb (is_ref o) _) eqn:Hx; [|by split_hyp Hd].
  exists lock. by apply existsb_is_ref in Hx.
Qed.

(** A successful write leaves the object of the written key with the owners written. *)
Lemma perform_update_ok (w : W) cm w' :
  perform w (DoUpdate cm) = (w', None) -> cm_update w cm = (w', None).
Proof. simpl. destruct (cm_update w cm) as [w1 [e|]]; intros; simplify_eq; done. Qed.

Lemma perform_create_ok (w : W) cm w' :
  perform w (DoCreate cm) = (w', None) -> cm_create w cm = (w', None).
Proof. simpl. destruct (cm_create w cm) as [w1 [e|]]; intros; simplify_eq; done. Qed.

Lemma perform_err (w : W) a w' e : perform w a = (w', Some e) -> w' = w.
Proof.
  destruct a as [err|cm|cm]; simpl; intros Hp; [by simplify_eq| |].
  - destruct (cm_create w cm) as [w1 [e1|]] eqn:Hc; simplify_eq. by eapply cm_create_err.
  - destruct (cm_update w cm) as [w1 [e1|]] eqn:Hc; simplify_eq. by eapply cm_update_err.
Qed.

(** Only the lock's ConfigMap is written. *)
Lemma TryAcquireLock_frame c (w : W) o w' r k :
  TryAcquireLock c w o = (w', r) -> k <> ck_lockName c -> cm_get w' k = cm_get w k.
Proof.
  unfold TryAcquireLock. intros Hp Hk. destruct (decide_acquire _ _ _) as [err|cm|cm] eqn:Hd.
  - simpl in Hp. by simplify_eq.
  - apply decide_create in Hd as (_ & Hkey & _). simpl in Hp.
    destruct (cm_create w cm) as [w1 [e1|]] eqn:Hc; simplify_eq; eapply cm_create_frame; by rewrite ?Hkey.
  - apply decide_update in Hd as (_ & _ & Hkey & _). simpl in Hp.
    destruct (cm_update w cm) as [w1 [e1|]] eqn:Hc; simplify_eq; eapply cm_update_frame; by rewrite ?Hkey.
Qed.

(** A lock holder is an owner of the lock. *)
Lemma IsLockHolder_none c (w : W) o :
  IsLockHolder c w o = None <->
  exists lock, cm_get w (ck_lockName c) = Ok lock /\ o ∈ cm_OwnerReferences lock.
Proof.
  unfold IsLockHolder. destruct (cm_get w (ck_lockName c)) as [lock|]; [|naive_solver].
  destruct (existsb (is_ref o) (cm_OwnerReferences lock)) eqn:Hx.
  - apply existsb_is_ref in Hx. naive_solver.
  - apply existsb_is_ref_false in Hx. naive_solver.
Qed.

(** The lock after a successful call. *)
Lemma TryAcquireLock_ok c (w : W) o w' :
  TryAcquireLock c w o = (w', None) ->
  exists lock, cm_get w' (ck_lockName c) = Ok lock /\ o ∈ cm_OwnerReferences lock /\
    (lock_bounded c w -> within c (length (cm_OwnerReferences lock))) /\
    (forall q, or_Name q <> or_Name o -> IsLockHolder c w q = None -> q ∈ cm_OwnerReferences lock).
Proof.
  unfold TryAcquireLock. intros Hp. destruct (decide_acquire _ _ _) as [err|cm|cm] eqn:Hd.
  - simpl in Hp; simplify_eq. apply decide_return_none in Hd as (lock & Hg & Ho).
    exists lock. split; [done|]. split; [done|]. split; [intros Hb; by apply Hb|].
    intros q _ (lock' & Hg' & Hq)%IsLockHolder_none. congruence.
  - apply perform_create_ok in Hp. apply decide_create in Hd as (Hg & Hk & Hs & Hw).
    apply cm_create_ok in Hp as [_ Hp]. rewrite Hk in Hp. eexists. split; [exact Hp|]. simpl.
    split; [by eapply sor_owner|]. split; [done|].
    intros q _ (lock' & Hg' & _)%IsLockHolder_none. congruence.
  - apply perform_update_ok in Hp. apply decide_update in Hd as (lock & Hg & Hk & _ & Hs & _ & Hw).
    apply cm_update_ok in Hp as [_ Hp]. rewrite Hk in Hp. eexists. split; [exact Hp|]. simpl.
    split; [by eapply sor_owner|]. split; [done|].
    intros q Hn (lock' & Hg' & Hq)%IsLockHolder_none. assert (lock' = lock) as -> by congruence. by eapply sor_keeps.
Qed.

Lemma TryAcquireLock_err c (w : W) o w' e : TryAcquireLock c w o = (w', Some e) -> w' = w.
Proof. apply perform_err. Qed.

(** The errors of a call: the limit, or a wrapped error of the API or the library. *)
Lemma TryAcquireLock_error c (w : W) o w' e :
  TryAcquireLock c w o = (w', Some e) ->
  e = Sentinel ErrMaxPipelinesExceeded \/
  exists pre, (exists a, e = Wrapf pre (ApiError a) "") \/ (exists m, e = Wrapf pre (NewError m) "").
Proof.
  unfold TryAcquireLock, decide_acquire, createLock. intros Hp.
  destruct (cm_get w (ck_lockName c)) as [lock|a].
  - destruct (existsb _ _); [done|]. destruct (_ || _); [|simpl in Hp; simplify_eq; by left].
    destruct (SetOwnerReference _ _) as [refs|e'] eqn:Hs.
    + simpl in Hp. destruct (cm_update _ _) as [w1 [e1|]]; simplify_eq. eauto 6.
    + simpl in Hp. simplify_eq. destruct (sor_err _ _ _ Hs) as [m ->]. eauto 6.
  - destruct (IsNotFound a); [|simpl in Hp; simplify_eq; eauto 6].
    destruct (SetOwnerReference _ _) as [refs|e'] eqn:Hs.
    + simpl in Hp. destruct (cm_create _ _) as [w1 [e1|]]; simplify_eq. eauto 6.
    + simpl in Hp. simplify_eq. destruct (sor_err _ _ _ Hs) as [m ->]. eauto 6.
Qed.

Lemma TryAcquireLock_not_cert c (w : W) o w' e :
  TryAcquireLock c w o = (w', Some e) -> IsCertAboutToExpireError e = false.
Proof. by intros [->|(pre & [(a & ->)|(m & ->)])]%TryAcquireLock_error. Qed.

Lemma TryAcquireLock_bounded c (w : W) o w' r :
  lock_bounded c w -> TryAcquireLock c w o = (w', r) -> lock_bounded c w'.
Proof.
  intros Hb Hp. destruct r as [e|]; [by apply TryAcquireLock_err in Hp as ->|].
  apply TryAcquireLock_ok in Hp as (lock & Hg & _ & Hw & _). intros lock' Hg'. assert (lock' = lock) as -> by congruence. by apply Hw.
Qed.

Lemma TryAcquireLock_holds c (w : W) o w' : TryAcquireLock c w o = (w', None) -> IsLockHolder c w' o = None.
Proof. intros (lock & Hg & Ho & _)%TryAcquireLock_ok. apply IsLockHolder_none. eauto. Qed.

Lemma TryAcquireLock_others c (w : W) o w' r q :
  TryAcquireLock c w o = (w', r) -> or_Name q <> or_Name o ->
  IsLockHolder c w q = None -> IsLockHolder c w' q = None.
Proof.
  intros Hp Hn Hq. destruct r as [e|]; [by apply TryAcquireLock_err in Hp as ->|].
  apply TryAcquireLock_ok in Hp as (lock & Hg & _ & _ & Ho). apply IsLockHolder_none. eauto.
Qed.

(** TryAcquireLock keeps the number of owners within the limit; when it succeeds
    the caller is a lock holder, when it fails nothing was written, and no other
    pipeline (of another name) loses the lock. *)
Theorem TryAcquireLock_correct c (w : W) o w' r :
  lock_bounded c w -> TryAcquireLock c w o = (w', r) ->
  lock_bounded c w' /\
  match r with
  | None => IsLockHolder c w' o = None
  | Some e => w' = w
  end /\
  (forall q, or_Name q <> or_Name o -> IsLockHolder c w q = None -> IsLockHolder c w' q = None).
Proof.
  intros Hb Hp. split; [by eapply TryAcquireLock_bounded|].
  split; [|intros q; by eapply TryAcquireLock_others].
  destruct r; [by eapply TryAcquireLock_err|by eapply TryAcquireLock_holds].
Qed.

(** A pipeline that is not among the owners of a full lock is refused with
    ErrMaxPipelinesExceeded, by TryAcquireLock without a write and by
    IsLockHolder. *)
Theorem TryAcquireLock_full c (w : W) o lock :
  cm_get w (ck_lockName c) = Ok lock ->
  o ∉ cm_OwnerReferences lock ->
  (0 < ck_maxOwners c)%Z ->
  (ck_maxOwners c <= Z.of_nat (length (cm_OwnerReferences lock)))%Z ->
  TryAcquireLock c w o = (w, Some (Sentinel ErrMaxPipelinesExceeded)) /\
  IsLockHolder c w o = Some (Sentinel ErrMaxPipelinesExceeded).
Proof.
  intros Hg Ho Hpos Hfull. unfold TryAcquireLock, decide_acquire, IsLockHolder. rewrite Hg.
  rewrite (proj2 (existsb_is_ref_false _ _) Ho). split; [|done].
  assert (Hz : (ck_maxOwners c =? 0)%Z = false) by (apply Z.eqb_neq; lia).
  rewrite Hz. simpl. unfold canAddOwner.
  assert (Hu : (ck_maxOwners c =? UnlimitedPipelineCount)%Z = false)
    by (apply Z.eqb_neq; unfold UnlimitedPipelineCount; lia).
  rewrite Hu. assert (Hl : (Z.of_nat (length (cm_OwnerReferences lock)) <? ck_maxOwners c)%Z = false)
    by (apply Z.ltb_ge; lia).
  by rewrite Hl.
Qed.

End Sequential.

(** ** Interleaved reconcilers *)

(** A cluster in which several reconcilers try to acquire the lock at the same
    time: the cluster state, the write each reconciler decided on between its read
    and its write, and the owners that were told they hold the lock. *)
Record system (W : Type) := mkSystem {
  sys_world : W;
  sys_pending : list (OwnerReference * action);
  sys_held : gset OwnerReference
}.
Arguments mkSystem {W} _ _ _.
Arguments sys_world {W} _.
Arguments sys_pending {W} _.
Arguments sys_held {W} _.

(** An owner that acquires the lock takes the place of an earlier owner of its
    name, which was deleted before: the names of live objects are unique. *)
Definition hold (o : OwnerReference) (held : gset OwnerReference) : gset OwnerReference :=
  {[o]} ∪ filter (fun q => or_Name q <> or_Name o) held.

Section Interleaving.
Context `{OwnerSetterLaws} {W : Type} `{ConfigMapLaws W}.

Inductive step (c : Checker) : system W -> system W -> Prop :=
| step_return w pend held o err :
    decide_acquire c (cm_get w (ck_lockName c)) o = Return err ->
    step c (mkSystem w pend held)
           (mkSystem w pend (if err then held else {[o]} ∪ held))
| step_read w pend held o a :
    decide_acquire c (cm_get w (ck_lockName c)) o = a -> (forall err, a <> Return err) ->
    step c (mkSystem w pend held) (mkSystem w ((o, a) :: pend) held)
| step_write w pend1 pend2 held o a w' err :
    perform w a = (w', err) ->
    step c (mkSystem w (pend1 ++ (o, a) :: pend2) held)
           (mkSystem w' (pend1 ++ pend2) (if err then held else hold o held))
| step_collect w pend held w' lock lock' gone :
    (* the garbage collector removes the reference to a deleted owner *)
    cm_get w (ck_lockName c) = Ok lock -> cm_get w' (ck_lockName c) = Ok lock' ->
    (forall r, r ∈ cm_OwnerReferences lock' <-> r ∈ cm_OwnerReferences lock /\ r <> gone) ->
    length (cm_OwnerReferences lock') <= length (cm_OwnerReferences lock) ->
    (cm_revision w < cm_ResourceVersion lock')%Z -> (cm_revision w < cm_revision w')%Z ->
    step c (mkSystem w pend held) (mkSystem w' pend (held ∖ {[gone]}))
| step_delete w pend held w' :
    (* the lock is deleted with its last owner *)
    cm_get w' (ck_lockName c) = Err NotFound -> (cm_revision w < cm_revision w')%Z ->
    step c (mkSystem w pend held) (mkSystem w' pend ∅).

(** What a pending write may still rely on. *)
Definition pending_ok (c : Checker) (w : W) (p : OwnerReference * action) : Prop :=
  match p.2 with
  | Return _ => False
  | DoCreate cm =>
      cm_Key cm = ck_lockName c /\ SetOwnerReference p.1 [] = Ok (cm_OwnerReferences cm) /\
      within c (length (cm_OwnerReferences cm))
  | DoUpdate cm =>
      cm_Key cm = ck_lockName c /\ (0 < cm_ResourceVersion cm <= cm_revision w)%Z /\
      within c (length (cm_OwnerReferences cm)) /\ p.1 ∈ cm_OwnerReferences cm /\
      forall lock, cm_get w (ck_lockName c) = Ok lock ->
        cm_ResourceVersion lock = cm_ResourceVersion cm ->
        forall r, r ∈ cm_OwnerReferences lock -> or_Name r <> or_Name p.1 ->
          r ∈ cm_OwnerReferences cm
  end.

Record lock_inv (c : Checker) (s : system W) : Prop := {
  inv_held q : q ∈ sys_held s ->
    exists lock, cm_get (sys_world s) (ck_lockName c) = Ok lock /\ q ∈ cm_OwnerReferences lock;
  inv_bounded : lock_bounded c (sys_world s);
  inv_pending p : p ∈ sys_pending s -> pending_ok c (sys_world s) p
}.

(** Once the lock object changed, an older pending write stays harmless. *)
Lemma pending_ok_newer c w w' p :
  pending_ok c w p -> (cm_revision w < cm_revision w')%Z ->
  (forall lock, cm_get w' (ck_lockName c) = Ok lock -> (cm_revision w < cm_ResourceVersion lock)%Z) ->
  pending_ok c w' p.
Proof.
  unfold pending_ok. destruct p as [o [err|cm|cm]]; simpl; try done.
  intros (Hk & Hrv & Hw & Hown & _) Hrev Hnew. repeat split; try done; try lia.
  intros lock Hg Heq. pose proof (Hnew _ Hg). lia.
Qed.

Lemma inv_write c w pend1 pend2 held o a w' err :
  lock_inv c (mkSystem w (pend1 ++ (o, a) :: pend2) held) ->
  perform w a = (w', err) ->
  lock_inv c (mkSystem w' (pend1 ++ pend2) (if err then held else hold o held)).
Proof.
  intros [Hheld Hbnd Hpend] Hp. simpl in *.
  assert (Hrest : forall p, p ∈ (pend1 ++ pend2)%list -> pending_ok c w p).
  { intros p. rewrite elem_of_app. intros Hin. apply Hpend.
    rewrite elem_of_app, elem_of_cons. tauto. }
  destruct err as [e|].
  { apply perform_err in Hp as ->. by constructor. }
  assert (Hmine : pending_ok c w (o, a)).
  { apply Hpend. rewrite elem_of_app, elem_of_cons. auto. }
  unfold pending_ok in Hmine. destruct a as [err|cm|cm]; simpl in Hmine; [done| |].
  - destruct Hmine as (Hk & Hs & Hw). apply perform_create_ok in Hp.
    pose proof (cm_create_revision _ _ _ Hp) as Hrev.
    apply cm_create_ok in Hp as [Hg Hg']. rewrite Hk in Hg, Hg'.
    assert (Hempty : held ⊆ ∅).
    { intros q Hq. destruct (Hheld q Hq) as (lock & Hl & _). congruence. }
    constructor; simpl.
    + intros q Hq. eexists. split; [exact Hg'|]. simpl. unfold hold in Hq.
      assert (q = o) as -> by set_solver. by eapply sor_owner.
    + intros lock Hl. rewrite Hg' in Hl. by simplify_eq.
    + intros p Hin. eapply pending_ok_newer; [by apply Hrest|done|].
      intros lock Hl. rewrite Hg' in Hl. by simplify_eq/=.
  - destruct Hmine as (Hk & Hrv & Hw & Hown & Hkeep). apply perform_update_ok in Hp.
    pose proof (cm_update_revision _ _ _ Hp) as Hrev.
    apply cm_update_ok in Hp as [(old & Hold & Hver) Hg']. rewrite Hk in Hold, Hg'.
    assert (cm_ResourceVersion old = cm_ResourceVersion cm) as Heq by (destruct Hver; [lia|done]).
    constructor; simpl.
    + intros q Hq. eexists. split; [exact Hg'|]. simpl. unfold hold in Hq.
      apply elem_of_union in Hq as [Hq|Hq]; [assert (q = o) as -> by set_solver; done|].
      apply elem_of_filter in Hq as [Hn Hq]. destruct (Hheld q Hq) as (lock & Hl & Hin).
      rewrite Hold in Hl. simplify_eq. by apply (Hkeep lock).
    + intros lock Hl. rewrite Hg' in Hl. by simplify_eq.
    + intros p Hin. eapply pending_ok_newer; [by apply Hrest|done|].
      intros lock Hl. rewrite Hg' in Hl. by simplify_eq/=.
Qed.

Lemma inv_read c w pend held o a :
  lock_inv c (mkSystem w pend held) ->
  decide_acquire c (cm_get w (ck_lockName c)) o = a -> (forall err, a <> Return err) ->
  lock_inv c (mkSystem w ((o, a) :: pend) held).
Proof.
  intros [Hheld Hbnd Hpend] Hd Hnr. constructor; simpl in *; try done.
  intros p Hin. apply elem_of_cons in Hin as [->|Hin]; [|by apply Hpend].
  unfold pending_ok; simpl. destruct a as [err|cm|cm]; [by destruct (Hnr err)| |].
  - by apply decide_create in Hd as (_ & ? & ? & ?).
  - apply decide_update in Hd as (lock & Hg & Hk & Hrv & Hs & _ & Hw).
    rewrite Hrv. pose proof (cm_get_version _ _ _ Hg). repeat split; try done; try lia.
    + by apply Hw.
    + by eapply sor_owner.
    + intros lock' Hl _ r Hr Hn. rewrite Hg in Hl. assert (lock' = lock) as -> by congruence. by eapply sor_keeps.
Qed.

Lemma lock_inv_step c s s' : lock_inv c s -> step c s s' -> lock_inv c s'.
Proof.
  intros Hinv Hst.
  destruct Hst as [w pend held o err Hd|w pend held o a Hd Hnr|w pend1 pend2 held o a w' err Hp
    |w pend held w' lock lock' gone Hg Hg' Hrefs Hlen Hrv Hrev|w pend held w' Hg' Hrev].
  - destruct err; [done|]. apply decide_return_none in Hd as (lock & Hg & Ho).
    destruct Hinv as [Hheld Hbnd Hpend]. constructor; simpl in *; try done.
    intros q Hq. apply elem_of_union in Hq as [Hq|Hq]; [|by apply Hheld].
    assert (q = o) as -> by set_solver. eauto.
  - by apply inv_read.
  - by eapply inv_write.
  - destruct Hinv as [Hheld Hbnd Hpend]. constructor; simpl in *.
    + intros q Hq. apply elem_of_difference in Hq as [Hq Hn]. exists lock'. split; [done|].
      apply Hrefs. destruct (Hheld q Hq) as (l & Hl & Hin). rewrite Hg in Hl. simplify_eq. set_solver.
    + intros l Hl Hpos. rewrite Hg' in Hl. simplify_eq. specialize (Hbnd _ Hg Hpos). lia.
    + intros p Hin. eapply pending_ok_newer; [by apply Hpend|done|].
      intros l Hl. rewrite Hg' in Hl. by simplify_eq.
  - destruct Hinv as [Hheld Hbnd Hpend]. constructor; simpl in *.
    + set_solver.
    + intros l Hl. congruence.
    + intros p Hin. eapply pending_ok_newer; [by apply Hpend|done|]. intros l Hl. congruence.
Qed.

Lemma lock_inv_reachable c s s' :
  lock_inv c s -> rtc (step c) s s' -> lock_inv c s'.
Proof. intros Hinv. induction 1; [done|]. eauto using lock_inv_step. Qed.

Lemma held_size (held : gset OwnerReference) refs :
  (forall q, q ∈ held -> q ∈ refs) -> size held <= length refs.
Proof.
  intros Hin. transitivity (size (list_to_set refs : gset OwnerReference)).
  - apply subseteq_size. intros q Hq. apply elem_of_list_to_set. auto.
  - clear Hin. induction refs as [|r rs IH]; simpl; [done|].
    rewrite size_union_alt, size_singleton.
    assert (size (list_to_set rs ∖ {[r]} : gset OwnerReference) <= size (list_to_set rs : gset OwnerReference))
      by (apply subseteq_size; set_solver). lia.
Qed.

(** C2. Whatever the interleaving of the reads and writes of concurrent
    TryAcquireLock calls on an API server with optimistic concurrency (each call
    a process that reads the lock and later writes), starting without a lock
    object, never more owners than maxOwners have been told they hold the lock,
    and each of them is still an owner in the lock ConfigMap. *)
Theorem lock_safe_under_interleaving c (w : W) s :
  (0 < ck_maxOwners c)%Z ->
  cm_get w (ck_lockName c) = Err NotFound ->
  rtc (step c) (mkSystem w [] ∅) s ->
  (Z.of_nat (size (sys_held s)) <= ck_maxOwners c)%Z /\
  (forall q, q ∈ sys_held s -> IsLockHolder c (sys_world s) q = None).
Proof.
  intros Hpos Hg Hr.
  assert (Hinv : lock_inv c s).
  { eapply lock_inv_reachable; [|exact Hr]. constructor; simpl.
    - set_solver.
    - intros lock Hl. congruence.
    - intros p Hp. by apply not_elem_of_nil in Hp. }
  destruct Hinv as [Hheld Hbnd _]. split.
  - destruct (decide (sys_held s = ∅)) as [->|Hne]; [rewrite size_empty; lia|].
    apply set_choose_L in Hne as [q Hq]. destruct (Hheld q Hq) as (lock & Hl & _).
    specialize (Hbnd lock Hl Hpos).
    assert (size (sys_held s) <= length (cm_OwnerReferences lock)); [|lia].
    apply held_size. intros q' Hq'. destruct (Hheld q' Hq') as (l & Hl' & Hin). congruence.
  - intros q Hq. destruct (Hheld q Hq) as (lock & Hl & Hin). unfold IsLockHolder. rewrite Hl.
    by rewrite (proj2 (existsb_is_ref _ _) Hin).
Qed.

End Interleaving.

(** ** Concrete runs *)

Module Sample.

(** The owner's entry replaced in place or appended. *)
Definition upsert (o : OwnerReference) : list OwnerReference -> list OwnerReference :=
  fix go rs :=
    match rs with
    | [] => [o]
    | r :: rs' => if str_eqb (or_Name r) (or_Name o) then o :: rs' else r :: go rs'
    end.

#[global] Instance owner_setter : OwnerSetter := fun o rs => Ok (upsert o rs).

#[global] Instance owner_setter_laws : OwnerSetterLaws.
Proof.
  constructor; unfold SetOwnerReference, owner_setter; intros o rs rs'; [| |intros r|done]; intros [= <-].
  - induction rs as [|x rs IH]; simpl; [by left|]. case_match; [by left|]. by right.
  - induction rs as [|x rs IH]; simpl; [lia|]. case_match; simpl; lia.
  - intros Hr Hn. induction rs as [|x rs IH]; simpl; [by apply not_elem_of_nil in Hr|].
    destruct (str_eqb (or_Name x) (or_Name o)) eqn:E.
    + apply elem_of_cons in Hr as [->|Hr]; [by apply str_eqb_true in E|by right].
    + apply elem_of_cons in Hr as [->|Hr]; [by left|]. right. auto.
Qed.

Definition name : NamespacedName := mkNN "kyma-system" "telemetry-tracepipeline".
Definition locker : Checker := NewLocker name 1.
Definition first : OwnerReference := mkOwnerRef "first" "uid-1".
Definition second : OwnerReference := mkOwnerRef "second" "uid-2".

Definition lock_of (v : Z) : ConfigMap := mkConfigMap (ck_lockName locker) v [first] None.
Definition empty : RefStore.store := [].
Definition cluster : RefStore.store := [lock_of 1].

End Sample.

Lemma TryAcquireLock_correct_witness :
  TryAcquireLock Sample.locker Sample.empty Sample.first = (Sample.cluster, None) /\
  IsLockHolder Sample.locker Sample.cluster Sample.first = None.
Proof.
  assert (H : TryAcquireLock Sample.locker Sample.empty Sample.first
              = (Sample.cluster, None)) by (vm_compute; reflexivity).
  split; [exact H|].
  assert (Hb : lock_bounded Sample.locker Sample.empty).
  { intros lock Hl. vm_compute in Hl. discriminate Hl. }
  exact (proj1 (proj2 (TryAcquireLock_correct Sample.locker Sample.empty Sample.first _ _ Hb H))).
Defined.

Lemma TryAcquireLock_full_witness :
  TryAcquireLock Sample.locker Sample.cluster Sample.second
    = (Sample.cluster, Some (Sentinel ErrMaxPipelinesExceeded)).
Proof.
  apply (TryAcquireLock_full Sample.locker Sample.cluster Sample.second (Sample.lock_of 1)).
  - vm_compute. reflexivity.
  - simpl. intros H. apply list_elem_of_singleton in H. discriminate H.
  - reflexivity.
  - vm_compute. discriminate.
Defined.

Lemma lock_safe_witness :
  exists s, rtc (step Sample.locker) (mkSystem Sample.empty [] ∅) s /\
    sys_held s = {[Sample.first]} /\ (Z.of_nat (size (sys_held s)) <= 1)%Z.
Proof.
  set (s := mkSystem Sample.cluster [] (hold Sample.first ∅)).
  assert (Hr : rtc (step Sample.locker) (mkSystem Sample.empty [] ∅) s).
  { eapply rtc_l; [apply step_read with (o := Sample.first); [reflexivity|discriminate]|].
    eapply rtc_l; [|apply rtc_refl].
    apply (step_write Sample.locker Sample.empty [] [] ∅ Sample.first _ Sample.cluster None).
    vm_compute. reflexivity. }
  exists s. split; [exact Hr|]. split; [vm_compute; reflexivity|].
  exact (proj1 (lock_safe_under_interleaving Sample.locker Sample.empty s eq_refl eq_refl Hr)).
Defined.
