(* ===== verification/SecretRef.v ===== *)
(** * Secret references (internal/validators/secretref/secret_ref.go,
      internal/utils/sharedtypes/sharedtypes.go)

    Which Secrets a pipeline refers to, the validator that checks they exist, and
    the resolution of a value. The code dereferences the OTLP output of trace and
    metric pipelines without a nil check (the CRD requires it): there [None] stands
    for the panic. *)
From stdpp Require Import base gmap strings list.
From S2P Require Import Prelude Kube GoErrors.
From S2P Require Import ApiV1beta1.
Local Open Scope string_scope.

(** ** Collecting references *)

Definition appendIfSecretRef (secretKeyRefs : list SecretKeyRef) (valueType : option ValueType) :
    list SecretKeyRef :=
  match valueType with
  | Some v =>
      if str_eqb (vt_Value v) "" then
        match vt_ValueFrom v with
        | Some src =>
            match vfs_SecretKeyRef src with
            | Some ref => (secretKeyRefs ++ [ref])%list
            | None => secretKeyRefs
            end
        | None => secretKeyRefs
        end
      else secretKeyRefs
  | None => secretKeyRefs
  end.

Definition getSecretRefsInOTLPOutput (otlpOut : OTLPOutput) : list SecretKeyRef :=
  let refs := appendIfSecretRef [] (Some (oo_Endpoint otlpOut)) in
  let refs :=
    match oo_Authentication otlpOut with
    | Some a =>
        match ao_Basic a with
        | Some b => appendIfSecretRef (appendIfSecretRef refs (Some (ba_User b))) (Some (ba_Password b))
        | None => refs
        end
    | None => refs
    end in
  let refs :=
    match oo_Authentication otlpOut with
    | Some a =>
        match ao_OAuth2 a with
        | Some o =>
            appendIfSecretRef
              (appendIfSecretRef (appendIfSecretRef refs (Some (oa_TokenURL o))) (Some (oa_ClientID o)))
              (Some (oa_ClientSecret o))
        | None => refs
        end
    | None => refs
    end in
  let refs := fold_left (fun rs h => appendIfSecretRef rs (Some (hd_ValueType h)))
                        (elems (oo_Headers otlpOut)) refs in
  match oo_TLS otlpOut with
  | Some tls =>
      if negb (tls_Insecure tls) then
        appendIfSecretRef (appendIfSecretRef (appendIfSecretRef refs (tls_CA tls)) (tls_Cert tls)) (tls_Key tls)
      else refs
  | None => refs
  end.

Definition getSecretRefsInHTTPOutput (httpOutput : option FluentBitHTTPOutput) : list SecretKeyRef :=
  match httpOutput with
  | Some o =>
      let refs := appendIfSecretRef [] (Some (ho_Host o)) in
      let refs := appendIfSecretRef refs (ho_User o) in
      let refs := appendIfSecretRef refs (ho_Password o) in
      let tls := ho_TLS o in
      let refs := appendIfSecretRef refs (tls_CA tls) in
      let refs := appendIfSecretRef refs (tls_Cert tls) in
      appendIfSecretRef refs (tls_Key tls)
  | None => []
  end.

Definition getSecretRefsFluentBitLogPipeline (lp : LogPipeline) : list SecretKeyRef :=
  let refs :=
    fold_left (fun rs v => match vfs_SecretKeyRef (fbv_ValueFrom v) with
                           | Some ref => (rs ++ [ref])%list
                           | None => rs
                           end)
              (elems (ls_FluentBitVariables (lp_Spec lp))) [] in
  (refs ++ getSecretRefsInHTTPOutput (lo_FluentBitHTTP (ls_Output (lp_Spec lp))))%list.

Definition GetSecretRefsTracePipeline (tp : TracePipeline) : option (list SecretKeyRef) :=
  getSecretRefsInOTLPOutput <$> tout_OTLP (tps_Output (tp_Spec tp)).

Definition GetSecretRefsMetricPipeline (mp : MetricPipeline) : option (list SecretKeyRef) :=
  (fun o => getSecretRefsInOTLPOutput (mo_OTLPOutput o)) <$> mout_OTLP (ms_Output (mp_Spec mp)).

Definition GetSecretRefsLogPipeline (lp : LogPipeline) : list SecretKeyRef :=
  match lo_OTLP (ls_Output (lp_Spec lp)) with
  | Some o => getSecretRefsInOTLPOutput o
  | None => getSecretRefsFluentBitLogPipeline lp
  end.

(** [RefsToSecretNames]: the Secrets of the references, each once, in the order of
    their first reference; [seen] is the map of the loop. *)
Fixpoint refs_to_names (seen : gset NamespacedName) (refs : list SecretKeyRef) : list NamespacedName :=
  match refs with
  | [] => []
  | ref :: rest =>
      let nn := mkNN (skr_Namespace ref) (skr_Name ref) in
      if bool_decide (nn ∈ seen) then refs_to_names seen rest
      else nn :: refs_to_names ({[nn]} ∪ seen) rest
  end.

Definition RefsToSecretNames (refs : list SecretKeyRef) : list NamespacedName := refs_to_names ∅ refs.

(** ** Reading values *)

Definition checkForMissingFields (ref : SecretKeyRef) : option goerror :=
  let missingAttributes :=
    ((if str_eqb (skr_Name ref) "" then ["Name"] else []) ++
     (if str_eqb (skr_Namespace ref) "" then ["Namespace"] else []) ++
     (if str_eqb (skr_Key ref) "" then ["Key"] else []))%list in
  match missingAttributes with
  | [] => None
  | _ => Some (Wrapf "" (Sentinel ErrSecretRefMissingFields)
                 (": " +:+ String.concat ", " missingAttributes))
  end.

Section Reader.
Context `{SecretReader}.

Definition GetValue (ref : SecretKeyRef) : result string goerror :=
  match checkForMissingFields ref with
  | Some e => Err e
  | None =>
      match get_secret (mkNN (skr_Namespace ref) (skr_Name ref)) with
      | Err e =>
          if IsNotFound e then
            Err (Wrapf "" (Sentinel ErrSecretRefNotFound)
              (": Secret '" +:+ skr_Name ref +:+ "' of Namespace '" +:+ skr_Namespace ref +:+ "'"))
          else
            Err (APIRequestFailedError
              (Wrapf ("failed to get Secret '" +:+ skr_Name ref +:+ "' of Namespace '"
                        +:+ skr_Namespace ref +:+ "': ") (ApiError e) ""))
      | Ok secret =>
          match sec_Data secret !! skr_Key ref with
          | Some v => Ok v
          | None =>
              Err (Wrapf "" (Sentinel ErrSecretKeyNotFound)
                (": Key '" +:+ skr_Key ref +:+ "' in Secret '" +:+ skr_Name ref +:+ "' of Namespace '"
                   +:+ skr_Namespace ref +:+ "'"))
          end
      end
  end.

(** [(v *Validator) validate(ctx, refs)] *)
Fixpoint validate_refs (refs : list SecretKeyRef) : option goerror :=
  match refs with
  | [] => None
  | ref :: rest => match GetValue ref with Err e => Some e | Ok _ => validate_refs rest end
  end.

Definition ValidateTracePipeline (tp : TracePipeline) : option (option goerror) :=
  validate_refs <$> GetSecretRefsTracePipeline tp.
Definition ValidateMetricPipeline (mp : MetricPipeline) : option (option goerror) :=
  validate_refs <$> GetSecretRefsMetricPipeline mp.
Definition ValidateLogPipeline (lp : LogPipeline) : option goerror :=
  validate_refs (GetSecretRefsLogPipeline lp).

(** [sharedtypesutils.ResolveValue]; a nil [ValueFrom] is dereferenced: [None]. *)
Definition ResolveValue (value : ValueType) : option (result string goerror) :=
  if negb (str_eqb (vt_Value value) "") then Some (Ok (vt_Value value))
  else
    match vt_ValueFrom value with
    | None => None
    | Some src =>
        match vfs_SecretKeyRef src with
        | Some ref => Some (GetValue ref)
        | None => Some (Err (Sentinel ErrValueOrSecretRefUndefined))
        end
    end.

End Reader.

(** [sharedtypesutils.IsValid] *)
Definition IsValid (v : option ValueType) : bool :=
  match v with
  | None => false
  | Some v =>
      if negb (str_eqb (vt_Value v) "") then true
      else
        match vt_ValueFrom v with
        | Some src =>
            match vfs_SecretKeyRef src with
            | Some r => negb (str_eqb (skr_Name r) "") && negb (str_eqb (skr_Key r) "")
                        && negb (str_eqb (skr_Namespace r) "")
            | None => false
            end
        | None => false
        end
  end.

Definition IsFilterDefined (filters : slice FilterSpec) : bool := (0 <? slen filters)%nat.
Definition IsTransformDefined (transforms : slice TransformSpec) : bool := (0 <? slen transforms)%nat.
Definition IsOTLPInputEnabled (input : option OTLPInput) : bool :=
  match input with None => true | Some i => deref (oi_Enabled i) true end.

(** ** Properties of the secret references

    The references collected from an output are exactly those of its values, the
    validator accepts exactly the pipelines whose Secrets and keys exist, and each
    rejection names its cause. *)

(** The reference a value makes: a plain text value makes none. *)
Definition value_ref (v : ValueType) : option SecretKeyRef :=
  if str_eqb (vt_Value v) "" then s ← vt_ValueFrom v; vfs_SecretKeyRef s else None.

(** The values an OTLP output uses: TLS material only when TLS is on. *)
Definition otlp_values (o : OTLPOutput) : list ValueType :=
  ([oo_Endpoint o]
  ++ match oo_Authentication o ≫= ao_Basic with Some b => [ba_User b; ba_Password b] | None => [] end
  ++ match oo_Authentication o ≫= ao_OAuth2 with
     | Some a => [oa_TokenURL a; oa_ClientID a; oa_ClientSecret a] | None => [] end
  ++ (hd_ValueType <$> elems (oo_Headers o))
  ++ match oo_TLS o with
     | Some t => if tls_Insecure t then [] else option_list (tls_CA t) ++ option_list (tls_Cert t) ++ option_list (tls_Key t)
     | None => [] end)%list.

#[local] Arguments appendIfSecretRef : simpl never.

Lemma appendIfSecretRef_some rs v :
  appendIfSecretRef rs (Some v) = (rs ++ omap value_ref [v])%list.
Proof.
  unfold appendIfSecretRef, value_ref. simpl.
  destruct (str_eqb (vt_Value v) ""); simpl; [|by rewrite app_nil_r].
  destruct (vt_ValueFrom v) as [[[r|]]|]; simpl; by rewrite ?app_nil_r.
Qed.

Lemma appendIfSecretRef_option rs v :
  appendIfSecretRef rs v = (rs ++ omap value_ref (option_list v))%list.
Proof.
  destruct v; [apply appendIfSecretRef_some|]. unfold appendIfSecretRef; simpl. by rewrite app_nil_r.
Qed.

Lemma fold_headers hs rs :
  fold_left (fun rs h => appendIfSecretRef rs (Some (hd_ValueType h))) hs rs =
  (rs ++ omap value_ref (hd_ValueType <$> hs))%list.
Proof.
  revert rs. induction hs as [|h hs IH]; intros rs; simpl; [by rewrite app_nil_r|].
  rewrite IH, appendIfSecretRef_some, <- app_assoc. f_equal. simpl.
  by destruct (value_ref (hd_ValueType h)).
Qed.

(** The Secret references of an OTLP output are those of its endpoint, basic
    authentication, OAuth2, headers and (unless insecure) TLS values that are
    given by reference, in that order and none other. *)
Theorem OTLP_refs_exact o :
  getSecretRefsInOTLPOutput o = omap value_ref (otlp_values o).
Proof.
  unfold getSecretRefsInOTLPOutput, otlp_values.
  rewrite !omap_app, appendIfSecretRef_some, app_nil_l.
  destruct (oo_Authentication o) as [[basic oauth]|]; simpl;
    [destruct basic as [b|], oauth as [a|]; simpl|]; rewrite ?appendIfSecretRef_some, fold_headers;
    (destruct (oo_TLS o) as [tls|]; [destruct (tls_Insecure tls)|]); simpl;
    rewrite ?appendIfSecretRef_option, ?omap_app, ?app_nil_r, <- ?app_assoc;
    repeat (case_match; simpl); rewrite <- ?app_assoc, ?app_nil_r; done.
Qed.

Lemma refs_to_names_spec refs seen :
  NoDup (refs_to_names seen refs) /\
  forall n, n ∈ refs_to_names seen refs <->
    n ∉ seen /\ n ∈ ((fun r => mkNN (skr_Namespace r) (skr_Name r)) <$> refs).
Proof.
  revert seen. induction refs as [|r rs IH]; intros seen; simpl.
  - split; [constructor|]. intros n. split; [by intros ?%not_elem_of_nil|].
    by intros [_ ?%not_elem_of_nil].
  - case_bool_decide as Hs.
    + destruct (IH seen) as [Hn He]. split; [done|]. intros n. rewrite He, elem_of_cons.
      split; [naive_solver|]. intros [Hni [->|Hin]]; done.
    + destruct (IH ({[mkNN (skr_Namespace r) (skr_Name r)]} ∪ seen)) as [Hn He]. split.
      * constructor; [|done]. rewrite He. set_solver.
      * intros n. rewrite !elem_of_cons, He, not_elem_of_union, not_elem_of_singleton.
        destruct (decide (n = mkNN (skr_Namespace r) (skr_Name r))); naive_solver.
Qed.

(** The Secrets of the references, each once. *)
Lemma RefsToSecretNames_exact refs :
  NoDup (RefsToSecretNames refs) /\
  forall n, n ∈ RefsToSecretNames refs <->
    exists r, r ∈ refs /\ n = mkNN (skr_Namespace r) (skr_Name r).
Proof.
  unfold RefsToSecretNames. destruct (refs_to_names_spec refs ∅) as [Hn He].
  split; [done|]. intros n. rewrite He, list_elem_of_fmap. set_solver.
Qed.

Section Validate.
Context `{SecretReader}.

(** A reference that resolves: complete, and the Secret has the key. *)
Definition resolvable (ref : SecretKeyRef) : Prop :=
  skr_Name ref <> "" /\ skr_Namespace ref <> "" /\ skr_Key ref <> "" /\
  exists s v, get_secret (mkNN (skr_Namespace ref) (skr_Name ref)) = Ok s /\
              sec_Data s !! skr_Key ref = Some v.

Lemma checkForMissingFields_none ref :
  checkForMissingFields ref = None <->
  skr_Name ref <> "" /\ skr_Namespace ref <> "" /\ skr_Key ref <> "".
Proof.
  unfold checkForMissingFields.
  destruct (str_eqb (skr_Name ref) "") eqn:H1, (str_eqb (skr_Namespace ref) "") eqn:H2,
    (str_eqb (skr_Key ref) "") eqn:H3; simpl;
    rewrite ?str_eqb_true, ?str_eqb_false in *; naive_solver.
Qed.

Lemma GetValue_ok ref : (exists v, GetValue ref = Ok v) <-> resolvable ref.
Proof.
  unfold GetValue, resolvable. pose proof (checkForMissingFields_none ref) as Hm.
  destruct (checkForMissingFields ref).
  - split; [by intros [? ?]|]. intros (Hn & Hs & Hk & _). discriminate (proj2 Hm (conj Hn (conj Hs Hk))).
  - destruct (proj1 Hm eq_refl) as (Hn & Hs & Hk).
    destruct (get_secret _) as [s|e] eqn:Hg.
    + destruct (sec_Data s !! skr_Key ref) as [v|] eqn:Hv; naive_solver.
    + split; [intros [? ?]; by destruct (IsNotFound e)|]. by intros (_ & _ & _ & ? & ? & ? & _).
Qed.

(** The text a value stands for: its own, or the one of the Secret key it refers to. *)
Definition value_text (v : ValueType) (t : string) : Prop :=
  if str_eqb (vt_Value v) "" then
    exists ref s, vt_ValueFrom v = Some (mkValueFromSource (Some ref)) /\
      skr_Name ref <> "" /\ skr_Namespace ref <> "" /\ skr_Key ref <> "" /\
      get_secret (mkNN (skr_Namespace ref) (skr_Name ref)) = Ok s /\ sec_Data s !! skr_Key ref = Some t
  else t = vt_Value v.

Lemma GetValue_exact ref t :
  GetValue ref = Ok t <->
  skr_Name ref <> "" /\ skr_Namespace ref <> "" /\ skr_Key ref <> "" /\
  exists s, get_secret (mkNN (skr_Namespace ref) (skr_Name ref)) = Ok s /\ sec_Data s !! skr_Key ref = Some t.
Proof.
  unfold GetValue. pose proof (checkForMissingFields_none ref) as Hm.
  destruct (checkForMissingFields ref).
  - split; [done|]. intros (Hn & Hs & Hk & _). discriminate (proj2 Hm (conj Hn (conj Hs Hk))).
  - destruct (proj1 Hm eq_refl) as (Hn & Hs & Hk). destruct (get_secret _) as [s|e] eqn:Hg.
    + destruct (sec_Data s !! skr_Key ref) as [v|] eqn:Hv; naive_solver.
    + split; [by destruct (IsNotFound e)|]. by intros (_ & _ & _ & ? & ? & _).
Qed.

(** The resolution that the validators share, whatever error they give. *)
Lemma resolved_text (v : ValueType) {A} (g : string -> A) (err : goerror) (x : A) :
  (if negb (str_eqb (vt_Value v) "") then Ok (g (vt_Value v))
   else match vt_ValueFrom v ≫= vfs_SecretKeyRef with
        | None => Err err
        | Some ref => match GetValue ref with Err _ => Err err | Ok t => Ok (g t) end
        end) = Ok x <-> exists t, value_text v t /\ x = g t.
Proof.
  unfold value_text. destruct (str_eqb (vt_Value v) ""); cbn; [|naive_solver].
  destruct (vt_ValueFrom v) as [[[ref|]]|]; cbn; [|naive_solver..].
  trans (exists t, GetValue ref = Ok t /\ x = g t).
  - destruct (GetValue ref) as [t|e]; [|naive_solver]. split; [intros [= <-]; by exists t|]. by intros (? & [= <-] & ->).
  - apply exist_proper. intros t. rewrite GetValue_exact. split.
    + intros [(H1 & H2 & H3 & s & Hs) ->]. split; [|done]. by exists ref, s.
    + intros [(ref' & s & [= <-] & Hs) ->]. split; [|done]. destruct Hs as (? & ? & ? & ?). split_and!; try done. by exists s.
Qed.

(** The classes of errors a reference can give. *)
Definition secret_missing (e : goerror) : bool :=
  errors_is e ErrSecretRefNotFound || errors_is e ErrSecretKeyNotFound
  || errors_is e ErrSecretRefMissingFields.

Lemma GetValue_err ref e :
  GetValue ref = Err e ->
  secret_missing e = true \/ exists e', e = APIRequestFailedError e'.
Proof.
  unfold GetValue. intros Hg. destruct (checkForMissingFields ref) as [e'|] eqn:Hm; simplify_eq.
  - left. unfold checkForMissingFields in Hm. case_match; by simplify_eq.
  - destruct (get_secret _) as [s|a]; [|destruct (IsNotFound a)]; simplify_eq; eauto.
    destruct (sec_Data s !! skr_Key ref); simplify_eq. by left.
Qed.

Lemma validate_refs_none refs : validate_refs refs = None <-> Forall resolvable refs.
Proof.
  induction refs as [|r rs IH]; simpl; [by split|]. rewrite Forall_cons, <- IH, <- GetValue_ok.
  destruct (GetValue r) as [v|e]; split; eauto; [by intros [_ ?]|done|by intros [[? ?] _]].
Qed.

(** The validation of Secret references passes exactly when all resolve;
    otherwise it reports the first reference that does not, as a missing Secret,
    key or field, or as a failed API request. *)
Lemma validate_refs_exact refs :
  (validate_refs refs = None <-> Forall resolvable refs) /\
  (forall e, validate_refs refs = Some e ->
     exists pre ref post, refs = (pre ++ ref :: post)%list /\ Forall resolvable pre /\
       ~ resolvable ref /\ GetValue ref = Err e /\
       (secret_missing e = true \/ exists e', e = APIRequestFailedError e')).
Proof.
  split; [apply validate_refs_none|]. intros e. induction refs as [|r rs IH]; simpl; [done|].
  pose proof (GetValue_ok r) as Hok. destruct (GetValue r) as [v|e'] eqn:Hg.
  - intros He. destruct (IH He) as (pre & ref & post & -> & Hp & Hrest).
    exists (r :: pre), ref, post. split; [done|]. split; [|done].
    constructor; [|done]. apply Hok. eauto.
  - intros [= <-]. exists [], r, rs. repeat split; try done.
    + intros Hr. apply Hok in Hr as [v Hv]. done.
    + by eapply GetValue_err.
Qed.

End Validate.
