(* ===== verification/TLSCert.v ===== *)
(** * TLS certificate validation (internal/validators/tlscert/tls_cert_validator.go)

    The checks of a pipeline's client certificate, key and CA. PEM and X.509
    decoding are parameters: functions of the bytes. Byte slices are [option
    string], [None] for nil, because the parsers skip a nil slice and an empty one
    becomes nil on the way. The validator reads its clock once for the certificate
    and once per CA certificate: [clock i] is the time of the [i]-th reading. *)
From stdpp Require Import base gmap strings list.
From S2P Require Import Prelude Kube GoErrors.
From S2P Require Import ApiV1beta1 SecretRef.
Local Open Scope string_scope.

(** [x509.Certificate], the fields the code reads. *)
Record Certificate := mkCertificate { cert_NotAfter : Z; cert_IsCA : bool }.

Record TLSValidationParams := mkTLSParams {
  tp_Cert : option ValueType; tp_Key : option ValueType; tp_CA : option ValueType }.

Definition twoWeeks : Z := (hour * 24 * 7 * 2)%Z.

(** [pem.Decode], [x509.ParseCertificate], [x509.ParseCertificates] and
    [tls.X509KeyPair], as far as their results matter. *)
Class CryptoLib := {
  pem_decode : string -> option string;
  parse_x509 : string -> option Certificate;
  parse_x509s : string -> option (list Certificate);
  x509_key_pair : string -> string -> bool
}.

(** [bytes.ReplaceAll] of the two characters backslash and n by a newline. *)
Fixpoint replace_newlines (s : string) : string :=
  match s with
  | String a (String b rest as tl) =>
      if Ascii.eqb a (Ascii.ascii_of_nat 92) && Ascii.eqb b (Ascii.ascii_of_nat 110)
      then String (Ascii.ascii_of_nat 10) (replace_newlines rest)
      else String a (replace_newlines tl)
  | _ => s
  end.

(** [bytes.ReplaceAll] copies with append onto nil: an empty slice becomes nil. *)
Definition sanitizeValue (valuePEM : option string) : option string :=
  match valuePEM with
  | Some s => if str_eqb s "" then None else Some (replace_newlines s)
  | None => None
  end.

Definition validateCertificate (cert : Certificate) (now : Z) : option goerror :=
  let certExpiry := cert_NotAfter cert in
  if time_after now certExpiry then Some (CertExpiredError certExpiry false)
  else if (time_sub certExpiry now <=? twoWeeks)%Z then Some (CertAboutToExpireError certExpiry false)
  else None.

Definition validateCA (ca : Certificate) (now : Z) : option goerror :=
  if negb (cert_IsCA ca) then Some (Sentinel ErrCertIsNotCA)
  else
    let caExpiry := cert_NotAfter ca in
    if time_after now caExpiry then Some (CertExpiredError caExpiry true)
    else if (time_sub caExpiry now <=? twoWeeks)%Z then Some (CertAboutToExpireError caExpiry true)
    else None.

Fixpoint validateCAs (clock : nat -> Z) (i : nat) (cas : list Certificate) : option goerror :=
  match cas with
  | [] => None
  | ca :: rest => or_return (validateCA ca (clock i)) (validateCAs clock (S i) rest)
  end.

Section Validate.
Context `{SecretReader} `{CryptoLib}.

Definition parseCertificate (certPEM : option string) : result Certificate goerror :=
  match certPEM with
  | None => Ok (mkCertificate 0 false)
  | Some pem =>
      match pem_decode pem with
      | None => Err (Sentinel ErrCertDecodeFailed)
      | Some block =>
          match parse_x509 block with
          | None => Err (Sentinel ErrCertParseFailed)
          | Some cert => Ok cert
          end
      end
  end.

Definition parsePrivateKey (keyPEM : option string) : option goerror :=
  match keyPEM with
  | None => None
  | Some pem => match pem_decode pem with None => Some (Sentinel ErrKeyDecodeFailed) | Some _ => None end
  end.

Definition parseCA (caPEM : option string) : result (list Certificate) goerror :=
  match caPEM with
  | None => Ok []
  | Some pem =>
      match pem_decode pem with
      | None => Err (Sentinel ErrCADecodeFailed)
      | Some block =>
          match parse_x509s block with
          | None => Err (Sentinel ErrCAParseFailed)
          | Some certs => Ok certs
          end
      end
  end.

Definition validateCertKeyPair (sanitizedCert sanitizedKey : option string) : option goerror :=
  if x509_key_pair (deref sanitizedCert "") (deref sanitizedKey "") then None
  else Some (Sentinel ErrInvalidCertificateKeyPair).

(** [resolveValue] of this package: every failure is the same error. *)
Definition resolveValue (value : ValueType) : result (option string) goerror :=
  if negb (str_eqb (vt_Value value) "") then Ok (Some (vt_Value value))
  else
    match vt_ValueFrom value ≫= vfs_SecretKeyRef with
    | None => Err (Sentinel ErrTLSValueResolveFailed)
    | Some ref =>
        match GetValue ref with
        | Err _ => Err (Sentinel ErrTLSValueResolveFailed)
        | Ok v => Ok (Some v)
        end
    end.

Definition resolve_optional (v : option ValueType) : result (option string) goerror :=
  match v with None => Ok None | Some v => resolveValue v end.

Definition resolveValues (tls : TLSValidationParams) :
    result (option string * option string * option string) goerror :=
  rbind (resolve_optional (tp_Cert tls)) (fun certPEM =>
  rbind (resolve_optional (tp_Key tls)) (fun keyPEM =>
  rbind (resolve_optional (tp_CA tls)) (fun caPEM =>
  Ok (certPEM, keyPEM, caPEM)))).

(** [(v *Validator) Validate(ctx, tls)] *)
Definition Validate (clock : nat -> Z) (tls : TLSValidationParams) : option goerror :=
  if xorb (isSome (tp_Cert tls)) (isSome (tp_Key tls)) then Some (Sentinel ErrMissingCertKeyPair)
  else
    match resolveValues tls with
    | Err e => Some e
    | Ok (certPEM, keyPEM, caPEM) =>
        let sanitizedCert := sanitizeValue certPEM in
        let sanitizedKey := sanitizeValue keyPEM in
        let sanitizedCA := sanitizeValue caPEM in
        match parseCertificate sanitizedCert with
        | Err e => Some e
        | Ok parsedCert =>
            or_return (parsePrivateKey sanitizedKey)
              (match parseCA sanitizedCA with
               | Err e => Some e
               | Ok parsedCA =>
                   or_return
                     (if isSome (tp_Cert tls) && isSome (tp_Key tls) then
                        or_return (validateCertKeyPair sanitizedCert sanitizedKey)
                                  (validateCertificate parsedCert (clock 0))
                      else None)
                     (if isSome (tp_CA tls) then validateCAs clock 1 parsedCA else None)
               end)
        end
    end.

End Validate.

(** ** Properties of TLS certificate validation

    What an accepted configuration guarantees, the expiry windows, and the empty
    CA that passes. *)

Lemma twoWeeks_duration : (min_duration < twoWeeks < max_duration)%Z.
Proof. by vm_compute. Qed.

Lemma validateCertificate_cases cert now :
  (validateCertificate cert now = None <-> (cert_NotAfter cert - now > twoWeeks)%Z) /\
  (validateCertificate cert now = Some (CertAboutToExpireError (cert_NotAfter cert) false) <->
     (0 <= cert_NotAfter cert - now <= twoWeeks)%Z) /\
  (validateCertificate cert now = Some (CertExpiredError (cert_NotAfter cert) false) <->
     (cert_NotAfter cert < now)%Z).
Proof.
  unfold validateCertificate.
  pose proof (time_after_true now (cert_NotAfter cert)) as Ha.
  pose proof (time_sub_le (cert_NotAfter cert) now _ twoWeeks_duration) as Hs.
  pose proof twoWeeks_duration.
  assert (0 < twoWeeks)%Z by done.
  destruct (time_after now (cert_NotAfter cert)), (time_sub (cert_NotAfter cert) now <=? twoWeeks)%Z;
    destruct Ha as [Ha1 Ha2], Hs as [Hs1 Hs2];
    try specialize (Ha1 eq_refl); try specialize (Hs1 eq_refl);
    repeat split; intros; try done; try lia;
    exfalso; try (assert (false = true) by (apply Ha2; lia); done);
    try (assert (false = true) by (apply Hs2; lia); done).
Qed.

(** The validity window of a certificate: accepted with more than two weeks
    left, about to expire from two weeks down to the expiry instant inclusive,
    expired after it; a CA certificate must have the CA flag and obeys the same
    window. *)
Theorem validateCertificate_window cert now :
  (validateCertificate cert now = None <-> (cert_NotAfter cert - now > twoWeeks)%Z) /\
  (validateCertificate cert now = Some (CertAboutToExpireError (cert_NotAfter cert) false) <->
     (0 <= cert_NotAfter cert - now <= twoWeeks)%Z) /\
  (validateCertificate cert now = Some (CertExpiredError (cert_NotAfter cert) false) <->
     (cert_NotAfter cert < now)%Z) /\
  (validateCA (mkCertificate (cert_NotAfter cert) false) now = Some (Sentinel ErrCertIsNotCA)) /\
  (validateCA (mkCertificate (cert_NotAfter cert) true) now = None <->
     validateCertificate cert now = None).
Proof.
  pose proof (validateCertificate_cases cert now) as (H1 & H2 & H3).
  repeat (split; [done|]). unfold validateCA, validateCertificate; simpl. by repeat case_match.
Qed.

Lemma validateCA_none ca now :
  validateCA ca now = None <-> cert_IsCA ca = true /\ (cert_NotAfter ca - now > twoWeeks)%Z.
Proof.
  unfold validateCA. pose proof (validateCertificate_cases (mkCertificate (cert_NotAfter ca) false) now) as [Hw _].
  unfold validateCertificate in Hw. simpl in Hw. destruct (cert_IsCA ca); simpl; [|naive_solver].
  destruct (time_after now (cert_NotAfter ca)); [naive_solver|].
  destruct (time_sub (cert_NotAfter ca) now <=? twoWeeks)%Z; naive_solver.
Qed.

Lemma validateCAs_none clock i cas :
  validateCAs clock i cas = None <->
  forall k ca, cas !! k = Some ca ->
    cert_IsCA ca = true /\ (cert_NotAfter ca - clock (i + k)%nat > twoWeeks)%Z.
Proof.
  revert i. induction cas as [|c cs IH]; intros i; simpl; [done|].
  rewrite or_return_none, validateCA_none, IH. split.
  - intros [Hc Hcs] [|k] ca Hk; simplify_eq/=; [by rewrite Nat.add_0_r|].
    specialize (Hcs k ca Hk). by rewrite <- Nat.add_succ_comm.
  - intros Hall. split; [specialize (Hall 0 c eq_refl); by rewrite Nat.add_0_r in Hall|].
    intros k ca Hk. specialize (Hall (S k) ca Hk). by rewrite <- Nat.add_succ_comm in Hall.
Qed.

Section Props.
Context `{SecretReader} `{CryptoLib}.

(** TLS material that Validate accepts is sound: certificate and key come
    together, all values resolve, the certificate parses, matches its key and is
    valid for more than two weeks, and every certificate of the CA bundle is a
    CA certificate valid for more than two weeks at the time it is checked. *)
Theorem Validate_accepts clock tls :
  Validate clock tls = None ->
  (isSome (tp_Cert tls) = isSome (tp_Key tls)) /\
  exists cert key ca, resolveValues tls = Ok (cert, key, ca) /\
    (forall v, tp_Cert tls = Some v ->
       exists c pem, cert = Some pem /\ parseCertificate (sanitizeValue cert) = Ok c /\
         x509_key_pair (deref (sanitizeValue cert) "") (deref (sanitizeValue key) "") = true /\
         (cert_NotAfter c - clock 0%nat > twoWeeks)%Z) /\
    (forall v, tp_CA tls = Some v ->
       exists cas, parseCA (sanitizeValue ca) = Ok cas /\
         forall k c, cas !! k = Some c ->
           cert_IsCA c = true /\ (cert_NotAfter c - clock (S k) > twoWeeks)%Z).
Proof.
  unfold Validate. intros Hv. destruct (xorb _ _) eqn:Hx; [done|].
  apply xorb_eq in Hx. split; [done|].
  destruct (resolveValues tls) as [[[cert key] ca]|] eqn:Hr; [|done].
  exists cert, key, ca. split; [done|].
  destruct (parseCertificate _) as [c|] eqn:Hc; [|done].
  apply or_return_none in Hv as [Hk Hv].
  destruct (parseCA _) as [cas|] eqn:Hca; [|done].
  apply or_return_none in Hv as [Hpair Hcas]. split.
  - intros v Hvc. rewrite Hvc in Hx, Hpair. simpl in Hx. rewrite <- Hx in Hpair. simpl in Hpair.
    apply or_return_none in Hpair as [Hkp Hcert].
    apply (validateCertificate_cases c (clock 0%nat)) in Hcert.
    unfold validateCertKeyPair in Hkp. destruct (x509_key_pair _ _) eqn:Hkp'; [|done].
    assert (exists pem, cert = Some pem) as [pem ->].
    { unfold resolveValues, resolve_optional, resolveValue in Hr. rewrite Hvc in Hr.
      destruct (negb (str_eqb (vt_Value v) "")); simpl in Hr; [by split_hyp Hr; eauto|].
      destruct (vt_ValueFrom v ≫= vfs_SecretKeyRef) as [ref|]; simpl in Hr; [|done].
      destruct (GetValue ref); simpl in Hr; [|done]. by split_hyp Hr; eauto. }
    exists c, pem. done.
  - intros v Hvc. rewrite Hvc in Hcas. simpl in Hcas. exists cas. split; [done|].
    intros k x Hx'. apply (proj1 (validateCAs_none _ _ _) Hcas k x Hx').
Qed.

(** [tls.X509KeyPair] finds no PEM data in an empty certificate or key. *)
Definition key_pair_needs_data : Prop :=
  (forall k, x509_key_pair "" k = false) /\ (forall c, x509_key_pair c "" = false).

(** A certificate that has more than two weeks left. *)
Definition long_valid (now : Z) (c : Certificate) : Prop := (cert_NotAfter c - now > 14 * 24 * hour)%Z.

(** A certificate and its key: both resolve and decode, they belong together and the certificate has
    more than two weeks left. *)
Definition good_pair (clock : nat -> Z) (cert key : ValueType) : Prop :=
  exists ct kt block c, value_text cert ct /\ value_text key kt /\
    pem_decode (replace_newlines ct) = Some block /\ parse_x509 block = Some c /\
    is_Some (pem_decode (replace_newlines kt)) /\
    x509_key_pair (replace_newlines ct) (replace_newlines kt) = true /\ long_valid (clock 0%nat) c.

(** A bundle of CA certificates: empty, or each of them a CA that has more than two weeks left. *)
Definition good_bundle (clock : nat -> Z) (ca : ValueType) : Prop :=
  exists at', value_text ca at' /\
    (at' = "" \/ exists block cas, pem_decode (replace_newlines at') = Some block /\ parse_x509s block = Some cas /\
       forall k c, cas !! k = Some c -> cert_IsCA c = true /\ long_valid (clock (S k)) c).

Definition good_material (clock : nat -> Z) (tls : TLSValidationParams) : Prop :=
  match tp_Cert tls, tp_Key tls with
  | None, None => True
  | Some cert, Some key => good_pair clock cert key
  | _, _ => False
  end /\ (forall ca, tp_CA tls = Some ca -> good_bundle clock ca).

Lemma TLS_resolveValue_exact v x : resolveValue v = Ok x <-> exists t, value_text v t /\ x = Some t.
Proof. apply (resolved_text v Some). Qed.

Lemma sanitize_some t : t <> "" -> sanitizeValue (Some t) = Some (replace_newlines t).
Proof. unfold sanitizeValue. by intros ->%str_eqb_false. Qed.

Definition bundle_check (clock : nat -> Z) (ca : option ValueType) : option goerror :=
  match resolve_optional ca with
  | Err e => Some e
  | Ok pem => match parseCA (sanitizeValue pem) with
              | Err e => Some e
              | Ok cas => if isSome ca then validateCAs clock 1 cas else None
              end
  end.

Lemma bundle_check_none clock ca :
  bundle_check clock ca = None <-> forall v, ca = Some v -> good_bundle clock v.
Proof.
  unfold bundle_check. destruct ca as [v|]; [|naive_solver]. cbn [resolve_optional isSome].
  trans (good_bundle clock v); [|naive_solver]. unfold good_bundle. pose proof (TLS_resolveValue_exact v) as Hr.
  destruct (resolveValue v) as [x|e]; cycle 1.
  { split; [done|]. intros (t & Hv & _). discriminate (proj2 (Hr (Some t)) (ex_intro _ t (conj Hv eq_refl))). }
  destruct (proj1 (Hr x) eq_refl) as (t & Hv & ->).
  assert (Hu : forall t', value_text v t' -> t' = t).
  { intros t' Hv'. by pose proof (proj2 (Hr (Some t')) (ex_intro _ t' (conj Hv' eq_refl))) as [= <-]. }
  destruct (decide (t = "")) as [->|Hne]; [naive_solver|]. rewrite sanitize_some by done. cbn [parseCA].
  destruct (pem_decode (replace_newlines t)) as [block|] eqn:Hb; [|naive_solver].
  destruct (parse_x509s block) as [cas|] eqn:Hc; [|naive_solver]. rewrite validateCAs_none. unfold long_valid.
  split; [naive_solver|]. intros (t' & Ht'%Hu & [?|(block' & cas' & ? & ? & Hk)]) k c; [naive_solver|].
  assert (cas' = cas) as -> by naive_solver. apply Hk.
Qed.

Definition pair_check (clock : nat -> Z) (cert key : ValueType) : option goerror :=
  match resolveValue cert, resolveValue key with
  | Ok c, Ok k =>
      match parseCertificate (sanitizeValue c) with
      | Err e => Some e
      | Ok parsed =>
          or_return (parsePrivateKey (sanitizeValue k))
            (or_return (validateCertKeyPair (sanitizeValue c) (sanitizeValue k)) (validateCertificate parsed (clock 0%nat)))
      end
  | Err e, _ | _, Err e => Some e
  end.

Lemma sanitize_deref t : deref (sanitizeValue (Some t)) "" = replace_newlines t.
Proof. unfold sanitizeValue. destruct (str_eqb t "") eqn:He; [|done]. by apply str_eqb_true in He as ->. Qed.

Lemma pair_check_none clock cert key :
  key_pair_needs_data -> pair_check clock cert key = None <-> good_pair clock cert key.
Proof.
  intros [Hc0 Hk0]. unfold pair_check, good_pair.
  pose proof (TLS_resolveValue_exact cert) as Hc. pose proof (TLS_resolveValue_exact key) as Hk.
  destruct (resolveValue cert) as [x|e]; cycle 1.
  { split; [done|]. intros (t & ? & ? & ? & Hv & _). discriminate (proj2 (Hc (Some t)) (ex_intro _ t (conj Hv eq_refl))). }
  destruct (proj1 (Hc x) eq_refl) as (ct & Hct & ->). destruct (resolveValue key) as [y|e]; cycle 1.
  { split; [done|]. intros (? & t & ? & ? & _ & Hv & _). discriminate (proj2 (Hk (Some t)) (ex_intro _ t (conj Hv eq_refl))). }
  destruct (proj1 (Hk y) eq_refl) as (kt & Hkt & ->).
  trans (exists block c, pem_decode (replace_newlines ct) = Some block /\ parse_x509 block = Some c /\
    is_Some (pem_decode (replace_newlines kt)) /\
    x509_key_pair (replace_newlines ct) (replace_newlines kt) = true /\ long_valid (clock 0%nat) c); cycle 1.
  { split; [intros (block & c & Hx); by exists ct, kt, block, c|]. intros (ct' & kt' & block & c & Hv & Hv' & Hx).
    pose proof (proj2 (Hc (Some ct')) (ex_intro _ ct' (conj Hv eq_refl))) as [= <-].
    pose proof (proj2 (Hk (Some kt')) (ex_intro _ kt' (conj Hv' eq_refl))) as [= <-]. by exists block, c. }
  unfold validateCertKeyPair. rewrite !sanitize_deref.
  destruct (x509_key_pair (replace_newlines ct) (replace_newlines kt)) eqn:Hp; cycle 1.
  { split; [|naive_solver]. intros Hn. split_hyp Hn; by apply or_return_none in Hn as [_ ?]. }
  rewrite !sanitize_some by (intros ->; cbn in Hp; congruence). cbn [parseCertificate parsePrivateKey].
  destruct (pem_decode (replace_newlines ct)) as [block|]; [|naive_solver].
  destruct (parse_x509 block) as [c|] eqn:Hx; [|naive_solver].
  destruct (pem_decode (replace_newlines kt)); [|by split; [|intros (? & ? & _ & _ & [? ?] & _)]].
  cbn [or_return]. rewrite (proj1 (validateCertificate_cases c (clock 0%nat))). unfold long_valid. naive_solver.
Qed.

(** Material is accepted exactly when it is good. *)
Lemma TLS_Validate_exact clock tls :
  key_pair_needs_data -> Validate clock tls = None <-> good_material clock tls.
Proof.
  intros Hd. unfold good_material, Validate, resolveValues. rewrite <- bundle_check_none. unfold bundle_check.
  destruct tls as [[cert|] [key|] ca]; cbn -[parseCertificate parsePrivateKey parseCA validateCAs or_return]; [|naive_solver..|].
  - rewrite <- pair_check_none by done. unfold pair_check.
    destruct (resolveValue cert) as [c|]; [|naive_solver]. destruct (resolveValue key) as [k|]; cbn; [|naive_solver].
    destruct (resolve_optional ca) as [a|]; cbn; [|naive_solver].
    destruct (parseCertificate _); [|naive_solver]. rewrite !or_return_none.
    destruct (parseCA _); rewrite ?or_return_none; naive_solver.
  - destruct (resolve_optional ca) as [a|]; cbn; [|naive_solver]. destruct (parseCA _); cbn; naive_solver.
Qed.

(** A CA given by a Secret whose value is the empty text passes TLS
    validation without a single certificate being parsed. *)
Lemma empty_CA_accepted clock ref :
  GetValue ref = Ok "" ->
  Validate clock (mkTLSParams None None (Some (mkValueType "" (Some (mkValueFromSource (Some ref)))))) = None.
Proof.
  intros Hg. unfold Validate, resolveValues, resolve_optional, resolveValue. simpl.
  cbn. rewrite Hg. done.
Qed.

End Props.

(** ** Concrete runs *)

Module Sample.

Definition secret_ref : SecretKeyRef := mkSecretKeyRef "tls" "default" "ca.crt".

(** A cluster with one Secret whose CA value is empty. *)
#[export] Instance reader : SecretReader := fun n =>
  if bool_decide (n = mkNN "default" "tls") then Ok (mkSecret {[ "ca.crt" := "" ]} "1")
  else Err NotFound.

(** A library for which the text CERT is a certificate valid for 30 days, CA a CA
    certificate and KEY its key. *)
#[export] Instance crypto : CryptoLib := {|
  pem_decode s := if str_eqb s "" then None else Some s;
  parse_x509 s := if str_eqb s "CERT" then Some (mkCertificate (30 * 24 * hour) false) else None;
  parse_x509s s := if str_eqb s "CA" then Some [mkCertificate (60 * 24 * hour) true] else None;
  x509_key_pair c k := str_eqb c "CERT" && str_eqb k "KEY"
|}.

Definition params : TLSValidationParams :=
  mkTLSParams (Some (mkValueType "CERT" None)) (Some (mkValueType "KEY" None)) (Some (mkValueType "CA" None)).

End Sample.
#[local] Existing Instance Sample.reader.
#[local] Existing Instance Sample.crypto.

Lemma Validate_accepts_witness :
  Validate (fun _ => 0%Z) Sample.params = None /\
  exists cas, parseCA (Some "CA") = Ok cas /\
    forall k c, cas !! k = Some c -> cert_IsCA c = true /\ (cert_NotAfter c > twoWeeks)%Z.
Proof.
  assert (H : Validate (fun _ => 0%Z) Sample.params = None) by (vm_compute; reflexivity).
  split; [exact H|].
  destruct (Validate_accepts (fun _ => 0%Z) Sample.params H) as (_ & cert & key & ca & Hr & _ & Hca).
  assert (Hv : (cert, key, ca) = (Some "CERT", Some "KEY", Some "CA"))
    by (vm_compute in Hr; congruence).
  injection Hv as -> -> ->.
  destruct (Hca _ eq_refl) as (cas & Hp & Hall). exists cas. split; [exact Hp|].
  intros k c Hk. destruct (Hall k c Hk) as [Hi Ht]. split; [exact Hi|lia].
Defined.

Lemma empty_CA_witness :
  Validate (fun _ => 0%Z) (mkTLSParams None None
    (Some (mkValueType "" (Some (mkValueFromSource (Some Sample.secret_ref)))))) = None.
Proof. apply (empty_CA_accepted (fun _ => 0%Z) Sample.secret_ref). vm_compute. reflexivity. Defined.
