(* ===== verification/Workload.v ===== *)
(** * Workload status (internal/workloadstatus)

    Whether the DaemonSet or the Deployment of an agent or a gateway is ready, and
    if not, the error that says why: from the Pods' phases, conditions and container
    states. The API reads of a probe are parameters; the Deployment prober reads its
    Deployment twice and the reads may differ. *)
From stdpp Require Import base gmap strings list.
From stdpp Require Import sorting.
From S2P Require Import Prelude Kube GoErrors.
Local Open Scope string_scope.

(** ** Pods (pods.go) *)

Record PodCondition := mkPodCondition { pc_Type : string; pc_Status : string; pc_Message : string }.

Record WaitingState := mkWaiting { ws_Reason : string; ws_Message : string }.

Record ContainerStatus := mkContainerStatus {
  ctr_Name : string;
  ctr_Waiting : option WaitingState;          (* State.Waiting *)
  ctr_LastTerminated : option string          (* LastTerminationState.Terminated.Reason *)
}.

Record PodStatus := mkPodStatus {
  ps_Phase : string;
  ps_Message : string;
  ps_Conditions : list PodCondition;
  ps_ContainerStatuses : list ContainerStatus
}.

Definition PodPending : string := "Pending".
Definition PodRunning : string := "Running".
Definition PodFailed : string := "Failed".
Definition PodReady : string := "Ready".
Definition PodScheduled : string := "PodScheduled".

Definition findPodCondition (conditions : list PodCondition) (s : string) : PodCondition :=
  match List.find (fun c => str_eqb (pc_Type c) s) conditions with
  | Some c => c
  | None => mkPodCondition "" "" ""
  end.

(** The loop of [checkPodPendingState] over the container statuses. *)
Fixpoint pending_containers (cs : list ContainerStatus) : option goerror :=
  match cs with
  | [] => None
  | c :: rest =>
      match ctr_Waiting c with
      | None => pending_containers rest
      | Some w =>
          if str_eqb (ws_Reason w) "PodInitializing" || str_eqb (ws_Reason w) "ContainerCreating" then None
          else if negb (str_eqb (ws_Reason w) "")
          then Some (PodIsPendingError (ctr_Name c) (ws_Reason w) (ws_Message w))
          else Some (PodIsPendingError (ctr_Name c) "" (ws_Message w))
      end
  end.

Definition checkPodPendingState (status : PodStatus) : option goerror :=
  if negb (str_eqb (ps_Phase status) PodPending) then None
  else
    let condition := findPodCondition (ps_Conditions status) PodScheduled in
    if str_eqb (pc_Status condition) "False"
    then Some (PodIsPendingError "" "" (pc_Message condition))
    else pending_containers (ps_ContainerStatuses status).

Definition checkPodFailedState (status : PodStatus) : option goerror :=
  if negb (str_eqb (ps_Phase status) PodFailed) then None
  else Some (PodIsFailingError (ps_Message status)).

Definition checkPodsWaitingState (status : PodStatus) (c : ContainerStatus) : option goerror :=
  if negb (str_eqb (ps_Phase status) PodRunning) then None
  else
    match ctr_Waiting c with
    | None => None
    | Some w =>
        match ctr_LastTerminated c with
        | Some reason => Some (PodIsPendingError (ctr_Name c) reason (ws_Message w))
        | None => Some (PodIsPendingError (ctr_Name c) "" (ws_Message w))
        end
    end.

Fixpoint check_containers (status : PodStatus) (cs : list ContainerStatus) : option goerror :=
  match cs with
  | [] => None
  | c :: rest => or_return (checkPodsWaitingState status c) (check_containers status rest)
  end.

(** One round of the loop of [checkPodStatus]. *)
Definition check_pod (status : PodStatus) : option goerror :=
  let ready := findPodCondition (ps_Conditions status) PodReady in
  if str_eqb (ps_Phase status) PodRunning && str_eqb (pc_Status ready) "True" then None
  else
    or_return (checkPodPendingState status)
      (or_return (checkPodFailedState status)
        (check_containers status (ps_ContainerStatuses status))).

Fixpoint check_pods (pods : list PodStatus) : option goerror :=
  match pods with
  | [] => None
  | p :: rest => or_return (check_pod p) (check_pods rest)
  end.

Definition checkPodStatus (pods : result (list PodStatus) apierror) : option goerror :=
  match pods with
  | Err e => Some (ApiError e)
  | Ok [] => Some (Sentinel ErrNoPodsDeployed)
  | Ok ps => check_pods ps
  end.

(** ** DaemonSets (daemonset.go) *)

(** The int32 counters of a DaemonSet's status. *)
Record DaemonSet := mkDaemonSet {
  ds_Updated : Z; ds_Desired : Z; ds_Ready : Z }.

(** [(dsp *DaemonSetProber) IsReady(ctx, name)]; the arguments are the results of
    the reads of the DaemonSet and of its Pods. *)
Definition DaemonSet_IsReady (ds : result DaemonSet apierror) (pods : result (list PodStatus) apierror) :
    option goerror :=
  match ds with
  | Err e => if IsNotFound e then Some (Sentinel ErrDaemonSetNotFound) else Some (Sentinel ErrDaemonSetFetching)
  | Ok ds =>
      if (ds_Updated ds =? ds_Desired ds)%Z && (ds_Desired ds <=? ds_Ready ds)%Z then None
      else or_return (checkPodStatus pods) (Some RolloutInProgressError)
  end.

(** ** Deployments (deployment.go) *)

(** [corev1.PodTemplateSpec]: the labels and the rest of the template. *)
Record PodTemplate := mkTemplate { pt_Labels : gmap string string; pt_Rest : string }.

Record ReplicaSet := mkReplicaSet {
  rs_Name : string;
  rs_CreationTimestamp : Z;
  rs_ControllerUID : option string;
  rs_Template : PodTemplate;
  rs_ReadyReplicas : Z
}.

Record Deployment := mkDeployment {
  dep_UID : string;
  dep_Replicas : option Z;
  dep_Template : PodTemplate
}.

Definition DefaultDeploymentUniqueLabelKey : string := "pod-template-hash".

(** [apiequality.Semantic.DeepEqual] on Pod templates. *)
Class TemplateEquality := semantic_equal : PodTemplate -> PodTemplate -> bool.

(** [o[i].Less(o[j])] of [replicaSetsByCreationTimestamp] *)
Definition rs_less (a b : ReplicaSet) : bool :=
  if (rs_CreationTimestamp a =? rs_CreationTimestamp b)%Z
  then str_ltb (rs_Name a) (rs_Name b)
  else (rs_CreationTimestamp a <? rs_CreationTimestamp b)%Z.

(** [sort.Sort]: the element goes before the first one that is not less than it. *)
Fixpoint rs_insert (x : ReplicaSet) (l : list ReplicaSet) : list ReplicaSet :=
  match l with
  | [] => [x]
  | y :: l' => if rs_less y x then y :: rs_insert x l' else x :: y :: l'
  end.

Definition rs_sort (l : list ReplicaSet) : list ReplicaSet := fold_right rs_insert [] l.

(** [metav1.IsControlledBy(rs, deployment)] *)
Definition IsControlledBy (rs : ReplicaSet) (d : Deployment) : bool :=
  match rs_ControllerUID rs with Some uid => str_eqb uid (dep_UID d) | None => false end.

Section Deployments.
Context `{TemplateEquality}.

Definition equalIgnoreHash (t1 t2 : PodTemplate) : bool :=
  semantic_equal
    (mkTemplate (delete DefaultDeploymentUniqueLabelKey (pt_Labels t1)) (pt_Rest t1))
    (mkTemplate (delete DefaultDeploymentUniqueLabelKey (pt_Labels t2)) (pt_Rest t2)).

Definition findNewReplicaSet (d : Deployment) (rsList : list ReplicaSet) : option ReplicaSet :=
  List.find (fun rs => equalIgnoreHash (rs_Template rs) (dep_Template d)) (rs_sort rsList).

Definition getLatestReplicaSet (d : Deployment) (allReplicaSets : list ReplicaSet) : option ReplicaSet :=
  match List.filter (fun rs => IsControlledBy rs d) allReplicaSets with
  | [] => None
  | owned => findNewReplicaSet d owned
  end.

(** [(dp *DeploymentProber) IsReady(ctx, name)] with the results of its four reads;
    [None] is the panic on a Deployment without replicas. *)
Definition Deployment_IsReady (first : result Deployment apierror)
    (replicaSets : result (list ReplicaSet) apierror) (second : result Deployment apierror)
    (pods : result (list PodStatus) apierror) : option (option goerror) :=
  match first with
  | Err e =>
      Some (if IsNotFound e then Some (Sentinel ErrDeploymentNotFound)
            else Some (Sentinel ErrDeploymentFetching))
  | Ok d =>
      match dep_Replicas d with
      | None => None
      | Some desiredReplicas =>
          Some match replicaSets with
          | Err e => Some (FailedToListReplicaSetError (ApiError e))
          | Ok allReplicaSets =>
              match second with
              | Err e => Some (FailedToFetchReplicaSetError (ApiError e))
              | Ok d' =>
                  match getLatestReplicaSet d' allReplicaSets with
                  | None => Some (Sentinel ErrFailedToGetLatestReplicaSet)
                  | Some replicaSet =>
                      if (desiredReplicas <=? rs_ReadyReplicas replicaSet)%Z then None
                      else or_return (checkPodStatus pods) (Some RolloutInProgressError)
                  end
              end
          end
      end
  end.

End Deployments.

(** ** Properties of the workload status *)

(** ** Pods *)

Lemma check_pods_none ps : check_pods ps = None <-> Forall (fun p => check_pod p = None) ps.
Proof.
  induction ps as [|p ps IH]; simpl; [by split|]. by rewrite or_return_none, IH, Forall_cons.
Qed.

(** The errors of a Pod check: pending or failing. *)
Definition pod_problem (e : goerror) : bool := IsPodIsPendingError e || IsPodFailedError e.

Lemma pending_containers_problem cs e : pending_containers cs = Some e -> IsPodIsPendingError e = true.
Proof.
  induction cs as [|c cs IH]; simpl; [done|].
  destruct (ctr_Waiting c); [|done]. repeat case_match; by intros; simplify_eq.
Qed.

Lemma check_containers_problem st cs e : check_containers st cs = Some e -> IsPodIsPendingError e = true.
Proof.
  induction cs as [|c cs IH]; simpl; [done|].
  rewrite or_return_some. intros [Hc|[_ Hc]]; [|auto].
  unfold checkPodsWaitingState in Hc. repeat case_match; by simplify_eq.
Qed.

Lemma check_pod_problem p e : check_pod p = Some e -> pod_problem e = true.
Proof.
  unfold check_pod, pod_problem. case_match; [done|]. rewrite !or_return_some.
  intros [Hp|[_ [Hf|[_ Hc]]]].
  - unfold checkPodPendingState in Hp. repeat case_match; simplify_eq; try done.
    apply pending_containers_problem in Hp. by rewrite Hp.
  - unfold checkPodFailedState in Hf. case_match; by simplify_eq.
  - apply check_containers_problem in Hc. by rewrite Hc.
Qed.

Lemma check_pods_problem ps e : check_pods ps = Some e -> pod_problem e = true.
Proof.
  induction ps as [|p ps IH]; simpl; [done|].
  rewrite or_return_some. intros [Hc|[_ Hc]]; [by eapply check_pod_problem|auto].
Qed.

Lemma check_pod_failed p : ps_Phase p = PodFailed -> check_pod p <> None.
Proof.
  intros Hp. unfold check_pod, checkPodPendingState, checkPodFailedState. rewrite Hp. done.
Qed.

Lemma check_containers_not_running st cs : ps_Phase st <> PodRunning -> check_containers st cs = None.
Proof.
  intros Hp. induction cs as [|c cs IH]; simpl; [done|].
  unfold checkPodsWaitingState. by rewrite (proj2 (str_eqb_false _ _) Hp).
Qed.

Lemma checkPodStatus_none ps :
  checkPodStatus (Ok ps) = None <-> ps <> [] /\ Forall (fun p => check_pod p = None) ps.
Proof. destruct ps as [|p ps]; [naive_solver|]. unfold checkPodStatus. rewrite check_pods_none. naive_solver. Qed.

(** The Pod check passes exactly when there are Pods and each passes, fails
    with ErrNoPodsDeployed for no Pods and otherwise with a pending or failing
    Pod error, and never passes with a failed Pod. *)
Lemma checkPodStatus_exact ps :
  (checkPodStatus (Ok ps) = None <-> ps <> [] /\ Forall (fun p => check_pod p = None) ps) /\
  (forall e, checkPodStatus (Ok ps) = Some e ->
     (ps = [] /\ e = Sentinel ErrNoPodsDeployed) \/ (ps <> [] /\ pod_problem e = true)) /\
  (forall p, p ∈ ps -> ps_Phase p = PodFailed -> checkPodStatus (Ok ps) <> None).
Proof.
  split; [apply checkPodStatus_none|].
  unfold checkPodStatus. destruct ps as [|p ps]; [naive_solver|]. split.
  - intros e He%check_pods_problem. right. done.
  - intros q Hq Hf Hn. rewrite check_pods_none, Forall_forall in Hn.
    by apply (check_pod_failed q Hf), Hn.
Qed.

(** A container that is being created ends the check of its pending Pod:
    whatever the containers after it report, the Pod passes unless it is
    unschedulable. *)
Lemma creating_container_hides_later_error ph msg c w rest :
  ctr_Waiting c = Some w -> ws_Reason w = "ContainerCreating" ->
  check_pod (mkPodStatus PodPending msg ph (c :: rest)) =
    (if str_eqb (pc_Status (findPodCondition ph PodScheduled)) "False"
     then Some (PodIsPendingError "" "" (pc_Message (findPodCondition ph PodScheduled)))
     else None).
Proof.
  intros Hc Hr. unfold check_pod, checkPodPendingState, checkPodFailedState. simpl.
  destruct (str_eqb _ "False"); [done|].
  simpl pending_containers. rewrite Hc, Hr.
  by rewrite check_containers_not_running.
Qed.

(** ** DaemonSets *)

(** The DaemonSet prober reports readiness exactly when all scheduled Pods are
    updated and ready, and a rollout in progress exactly when they are not but
    no Pod has a problem. *)
Theorem DaemonSet_IsReady_exact ds pods :
  (DaemonSet_IsReady ds pods = None <->
     exists d, ds = Ok d /\ ds_Updated d = ds_Desired d /\ (ds_Desired d <= ds_Ready d)%Z) /\
  (DaemonSet_IsReady ds pods = Some RolloutInProgressError <->
     exists d ps, ds = Ok d /\ (ds_Updated d <> ds_Desired d \/ (ds_Ready d < ds_Desired d)%Z) /\
       pods = Ok ps /\ ps <> [] /\ Forall (fun p => check_pod p = None) ps).
Proof.
  unfold DaemonSet_IsReady. destruct ds as [d|e]; [|destruct (IsNotFound e); naive_solver].
  destruct (_ && _) eqn:Hready.
  - apply andb_true_iff in Hready as [Hu%Z.eqb_eq Hr%Z.leb_le]. split; [naive_solver|].
    split; [done|]. intros (d' & ps & [= <-] & [?|?] & _); [done|lia].
  - assert (ds_Updated d <> ds_Desired d \/ (ds_Ready d < ds_Desired d)%Z) as Hnr.
    { apply andb_false_iff in Hready as [?%Z.eqb_neq|?%Z.leb_gt]; auto. }
    split.
    + split; [by rewrite or_return_none; intros [_ ?]|].
      intros (d' & [= <-] & Hu & Hr). destruct Hnr; [done|lia].
    + rewrite or_return_some. split.
      * intros [Hp|[Hp _]].
        -- unfold checkPodStatus in Hp. destruct pods as [[|p ps]|]; simplify_eq.
           by apply check_pods_problem in Hp.
        -- destruct pods as [ps|]; [|done]. apply checkPodStatus_none in Hp as [Hne Hall].
           exists d, ps. done.
      * intros (d' & ps & [= <-] & _ & -> & Hne & Hall). right. split; [|done].
        by apply checkPodStatus_none.
Qed.

(** ** Deployments *)

Lemma rs_less_asym a b : rs_less a b = true -> rs_less b a = false.
Proof.
  unfold rs_less. rewrite (Z.eqb_sym (rs_CreationTimestamp b)).
  destruct (Z.eqb_spec (rs_CreationTimestamp a) (rs_CreationTimestamp b)).
  - apply str_ltb_asym.
  - rewrite Z.ltb_lt, Z.ltb_ge. lia.
Qed.

(** [le]: not less the other way round. *)
Definition rs_le (a b : ReplicaSet) : Prop := rs_less b a = false.

Lemma rs_le_trans a b c : rs_le a b -> rs_le b c -> rs_le a c.
Proof.
  unfold rs_le, rs_less. intros H1 H2.
  destruct (Z.eqb_spec (rs_CreationTimestamp b) (rs_CreationTimestamp a)),
    (Z.eqb_spec (rs_CreationTimestamp c) (rs_CreationTimestamp b)),
    (Z.eqb_spec (rs_CreationTimestamp c) (rs_CreationTimestamp a));
    rewrite ?Z.ltb_ge in *; try lia.
  destruct (str_ltb (rs_Name c) (rs_Name a)) eqn:H; [|done].
  destruct (str_ltb_total (rs_Name b) (rs_Name a)) as [Hb|[Hb|Hb]]; try congruence.
  pose proof (str_ltb_trans _ _ _ H Hb). congruence.
Qed.

Lemma rs_insert_perm x l : rs_insert x l ≡ₚ x :: l.
Proof.
  induction l as [|y l IH]; simpl; [done|]. destruct (rs_less y x); [|done].
  rewrite IH. apply Permutation_swap.
Qed.

Lemma rs_sort_perm l : rs_sort l ≡ₚ l.
Proof. induction l as [|x l IH]; simpl; [done|]. by rewrite rs_insert_perm, IH. Qed.

Lemma rs_insert_sorted x l : StronglySorted rs_le l -> StronglySorted rs_le (rs_insert x l).
Proof.
  induction 1 as [|y l Hs IH Hall]; simpl; [by repeat constructor|].
  destruct (rs_less y x) eqn:Hl.
  - constructor; [done|]. rewrite rs_insert_perm. constructor; [|done].
    by apply rs_less_asym.
  - constructor; [by constructor|]. constructor; [done|].
    eapply Forall_impl; [exact Hall|]. intros z Hz. by eapply rs_le_trans.
Qed.

Lemma rs_sort_sorted l : StronglySorted rs_le (rs_sort l).
Proof. induction l as [|x l IH]; simpl; [constructor|]. by apply rs_insert_sorted. Qed.

Lemma find_sorted (p : ReplicaSet -> bool) l x :
  StronglySorted rs_le l -> List.find p l = Some x ->
  forall y, y ∈ l -> p y = true -> y = x \/ rs_le x y.
Proof.
  induction 1 as [|z l Hs IH Hall]; simpl; [done|]. destruct (p z) eqn:Hp.
  - intros [= ->] y Hy _. apply elem_of_cons in Hy as [->|Hy]; [by left|].
    right. by eapply Forall_forall in Hall.
  - intros Hf y Hy Hpy. apply elem_of_cons in Hy as [->|Hy]; [congruence|]. by apply IH.
Qed.

Section DeploymentProps.
Context `{TemplateEquality}.

(** getLatestReplicaSet returns an oldest ReplicaSet (by creation time, then
    name) among those the Deployment controls whose template matches up to the
    pod-template-hash label, and nothing only when there is no such ReplicaSet. *)
Theorem getLatestReplicaSet_oldest d all :
  let candidate rs := rs ∈ all /\ IsControlledBy rs d = true /\
                      equalIgnoreHash (rs_Template rs) (dep_Template d) = true in
  match getLatestReplicaSet d all with
  | Some rs => candidate rs /\ forall rs', candidate rs' -> rs_less rs' rs = false
  | None => forall rs, ~ candidate rs
  end.
Proof.
  intros candidate. unfold getLatestReplicaSet.
  set (owned := List.filter (fun rs => IsControlledBy rs d) all).
  assert (Howned : forall rs, rs ∈ owned <-> rs ∈ all /\ IsControlledBy rs d = true).
  { intros rs. unfold owned. by rewrite !list_elem_of_In, List.filter_In. }
  assert (Hin : forall rs, rs ∈ rs_sort owned <-> rs ∈ owned).
  { intros rs. by rewrite rs_sort_perm. }
  destruct owned as [|o os] eqn:Ho.
  { intros rs (Ha & Hc & _). by apply (not_elem_of_nil rs), Howned. }
  rewrite <- Ho in *. unfold findNewReplicaSet.
  destruct (List.find _ _) as [rs|] eqn:Hf.
  - pose proof (find_sorted _ _ _ (rs_sort_sorted _) Hf) as Hmin.
    apply List.find_some in Hf as [Hrs Heq]. apply list_elem_of_In, Hin, Howned in Hrs as [Ha Hc].
    split; [done|]. intros rs' (Ha' & Hc' & Heq').
    assert (rs' ∈ rs_sort owned) as Hrs' by (apply Hin, Howned; done).
    destruct (Hmin rs' Hrs' Heq') as [->|Hle]; [|done].
    destruct (rs_less rs rs) eqn:Hrr; [|done]. by rewrite (rs_less_asym _ _ Hrr) in Hrr.
  - intros rs (Ha & Hc & Heq).
    assert (rs ∈ rs_sort owned) as Hrs by (apply Hin, Howned; done).
    apply list_elem_of_In in Hrs. pose proof (List.find_none _ _ Hf rs Hrs) as Hn. simpl in Hn. congruence.
Qed.

(** The Deployment prober reports readiness exactly when both reads of the
    Deployment and the list of ReplicaSets succeed and the latest ReplicaSet has
    at least the desired number of ready replicas. *)
Theorem Deployment_IsReady_exact first rss second pods :
  Deployment_IsReady first rss second pods = Some None <->
  exists d n all d' rs, first = Ok d /\ dep_Replicas d = Some n /\ rss = Ok all /\ second = Ok d' /\
    getLatestReplicaSet d' all = Some rs /\ (n <= rs_ReadyReplicas rs)%Z.
Proof.
  unfold Deployment_IsReady. split.
  - intros Hr. destruct first as [d|e]; [|by destruct (IsNotFound e)].
    destruct (dep_Replicas d) as [n|] eqn:Hn; [|done].
    destruct rss as [all|]; [|done]. destruct second as [d'|]; [|done].
    destruct (getLatestReplicaSet d' all) as [rs|] eqn:Hl; [|done].
    destruct (Z.leb_spec n (rs_ReadyReplicas rs)).
    + exists d, n, all, d', rs. done.
    + simplify_eq. by apply or_return_none in Hr as [_ ?].
  - intros (d & n & all & d' & rs & -> & Hn & -> & -> & Hl & Hle).
    rewrite Hn, Hl. by rewrite (proj2 (Z.leb_le _ _) Hle).
Qed.

End DeploymentProps.

Lemma creating_container_witness :
  check_pod (mkPodStatus PodPending "" []
    [mkContainerStatus "init" (Some (mkWaiting "ContainerCreating" "")) None;
     mkContainerStatus "collector" (Some (mkWaiting "ImagePullBackOff" "no such image")) None]) = None.
Proof.
  rewrite (creating_container_hides_later_error [] ""
    (mkContainerStatus "init" (Some (mkWaiting "ContainerCreating" "")) None)
    (mkWaiting "ContainerCreating" "")); reflexivity.
Defined.
