(* ===== verification/Conditions.v ===== *)
(** * Status conditions (internal/conditions)

    The condition types, reasons and messages, the conversion of errors to
    messages, and the mapping of TLS errors to a condition. A conversion that
    indexes the first byte of an empty text panics: [None]. *)
From stdpp Require Import base gmap strings list.
From Stdlib Require Import Ascii.
From S2P Require Import Prelude Kube GoErrors.
Local Open Scope string_scope.

(** ** Links, types and reasons (conditions.go) *)

Definition LinkNoDataArriveAtBackend : string := "https://kyma-project.io/external-content/telemetry-manager/docs/user/troubleshooting.html#no-data-arrive-at-the-backend".
Definition LinkNotAllDataArriveAtBackend : string := "https://kyma-project.io/external-content/telemetry-manager/docs/user/troubleshooting.html#not-all-data-arrive-at-the-backend".
Definition LinkGatewayThrottling : string := "https://kyma-project.io/external-content/telemetry-manager/docs/user/troubleshooting.html#gateway-throttling".
Definition LinkOTTLSpecInvalid : string := "https://kyma-project.io/external-content/telemetry-manager/docs/user/troubleshooting.html#ottl-spec-invalid-with-unspecific-error-message".
Definition LinkFluentBitNoLogsArriveAtBackend : string := "https://kyma-project.io/#/telemetry-manager/user/02-logs?id=no-logs-arrive-at-the-backend".
Definition LinkFluentBitNotAllLogsArriveAtBackend : string := "https://kyma-project.io/#/telemetry-manager/user/02-logs?id=not-all-logs-arrive-at-the-backend".
Definition LinkFluenBitBufferFillingUp : string := "https://kyma-project.io/#/telemetry-manager/user/02-logs?id=agent-buffer-filling-up".
Definition TypeAgentHealthy : string := "AgentHealthy".
Definition TypeConfigurationGenerated : string := "ConfigurationGenerated".
Definition TypeFlowHealthy : string := "TelemetryFlowHealthy".
Definition TypeGatewayHealthy : string := "GatewayHealthy".
Definition TypeLogComponentsHealthy : string := "LogComponentsHealthy".
Definition TypeMetricComponentsHealthy : string := "MetricComponentsHealthy".
Definition TypeTraceComponentsHealthy : string := "TraceComponentsHealthy".
Definition ReasonAgentNotReady : string := "AgentNotReady".
Definition ReasonAgentReady : string := "AgentReady".
Definition ReasonEndpointInvalid : string := "EndpointInvalid".
Definition ReasonGatewayConfigured : string := "GatewayConfigured".
Definition ReasonGatewayNotReady : string := "GatewayNotReady".
Definition ReasonGatewayReady : string := "GatewayReady".
Definition ReasonMaxPipelinesExceeded : string := "MaxPipelinesExceeded".
Definition ReasonReferencedSecretMissing : string := "ReferencedSecretMissing".
Definition ReasonSelfMonFlowHealthy : string := "FlowHealthy".
Definition ReasonSelfMonGatewayAllDataDropped : string := "GatewayAllTelemetryDataDropped".
Definition ReasonSelfMonAgentAllDataDropped : string := "AgentAllTelemetryDataDropped".
Definition ReasonSelfMonGatewaySomeDataDropped : string := "GatewaySomeTelemetryDataDropped".
Definition ReasonSelfMonAgentSomeDataDropped : string := "AgentSomeTelemetryDataDropped".
Definition ReasonSelfMonAgentBufferFillingUp : string := "AgentBufferFillingUp".
Definition ReasonSelfMonGatewayProbingFailed : string := "GatewayProbingFailed".
Definition ReasonSelfMonAgentProbingFailed : string := "AgentProbingFailed".
Definition ReasonSelfMonGatewayThrottling : string := "GatewayThrottling".
Definition ReasonSelfMonConfigNotGenerated : string := "ConfigurationNotGenerated".
Definition ReasonGatewayConfigurationNotGenerated : string := "GatewayConfigurationNotGenerated".
Definition ReasonTLSCertificateAboutToExpire : string := "TLSCertificateAboutToExpire".
Definition ReasonTLSCertificateExpired : string := "TLSCertificateExpired".
Definition ReasonTLSConfigurationInvalid : string := "TLSConfigurationInvalid".
Definition ReasonValidationFailed : string := "ValidationFailed".
Definition ReasonRolloutInProgress : string := "RolloutInProgress".
Definition ReasonOTTLSpecInvalid : string := "OTTLSpecInvalid".
Definition ReasonRuntimeAdditionalMetricInvalid : string := "RuntimeAdditionalMetricInvalid".
Definition ReasonComponentsRunning : string := "ComponentsRunning".
Definition ReasonNoPipelineDeployed : string := "NoPipelineDeployed".
Definition ReasonResourceBlocksDeletion : string := "ResourceBlocksDeletion".
Definition ReasonNoFluentbitInFipsMode : string := "FipsModeEnabled".
Definition ReasonAgentConfigured : string := "AgentConfigured".
Definition ReasonSelfMonAgentNoLogsDelivered : string := "AgentNoLogsDelivered".
Definition ReasonLogAgentNotRequired : string := "AgentNotRequired".
Definition ReasonMetricAgentNotRequired : string := "AgentNotRequired".

Definition podIsNotScheduled : string := "Pod is not scheduled: %s".
Definition podIsPending : string := "Pod is in the pending state because container: %s is not running due to: %s. Please check the container: %s logs.".
Definition podIsFailed : string := "Pod is in the failed state due to: %s".
Definition podRolloutInProgress : string := "Pods are being started/updated".

(** ** Message tables *)

Definition commonMessages : list (string * string) :=
  [
   (ReasonTLSConfigurationInvalid, "TLS configuration invalid: %s");
   (ReasonValidationFailed, "Pipeline validation failed due to an error from the Kubernetes API server");
   (ReasonOTTLSpecInvalid, "OTTL specification is invalid, %s. Fix the syntax error indicated by the message or see troubleshooting: " +:+ LinkOTTLSpecInvalid);
   (ReasonGatewayNotReady, "OTLP Gateway DaemonSet is not ready");
   (ReasonGatewayReady, "OTLP Gateway DaemonSet is ready");
   (ReasonNoPipelineDeployed, "No pipelines have been deployed");
   (ReasonSelfMonFlowHealthy, "No problems detected in the telemetry flow");
   (ReasonSelfMonGatewayProbingFailed, "Could not determine the health of the telemetry flow because the self monitor probing of gateway failed");
   (ReasonSelfMonAgentProbingFailed, "Could not determine the health of the telemetry flow because the self monitor probing of agent failed")
  ].

Definition commonLogPipelineMessages : list (string * string) :=
  [
   (ReasonAgentConfigured, "LogPipeline specification is successfully applied to the configuration of Log Agent");
   (ReasonAgentNotReady, "Log Agent DaemonSet is not ready");
   (ReasonAgentReady, "Log Agent DaemonSet is ready");
   (ReasonComponentsRunning, "All log components are running");
   (ReasonNoFluentbitInFipsMode, "HTTP/custom output types are not supported when FIPS mode is enabled")
  ].

Definition fluentBitLogPipelineMessages : list (string * string) :=
  [
   (ReasonEndpointInvalid, "HTTP output host invalid: %s");
   (ReasonSelfMonAgentAllDataDropped, "Backend is not reachable or rejecting logs. All logs are dropped. See troubleshooting: " +:+ LinkFluentBitNoLogsArriveAtBackend);
   (ReasonSelfMonAgentBufferFillingUp, "Buffer nearing capacity. Incoming log rate exceeds export rate. See troubleshooting: " +:+ LinkFluenBitBufferFillingUp);
   (ReasonSelfMonConfigNotGenerated, "No logs delivered to backend because LogPipeline specification is not applied to the configuration of Log Agent. Check the 'ConfigurationGenerated' condition for more details");
   (ReasonSelfMonAgentNoLogsDelivered, "Backend is not reachable or rejecting logs. Logs are buffered and not yet dropped. See troubleshooting: " +:+ LinkFluentBitNoLogsArriveAtBackend);
   (ReasonSelfMonAgentSomeDataDropped, "Backend is reachable, but rejecting logs. Some logs are dropped. See troubleshooting: " +:+ LinkFluentBitNotAllLogsArriveAtBackend)
  ].

Definition otelLogPipelineMessages : list (string * string) :=
  [
   (ReasonEndpointInvalid, "OTLP output endpoint invalid: %s");
   (ReasonGatewayConfigured, "LogPipeline specification is successfully applied to the configuration of OTLP Gateway");
   (ReasonGatewayConfigurationNotGenerated, "This LogPipeline's specification is not applied to the configuration of the OTLP gateway. Check the 'ConfigurationGenerated' condition for more details");
   (ReasonSelfMonAgentAllDataDropped, "Backend is not reachable or rejecting logs. All logs are dropped in Log Agent. See troubleshooting: " +:+ LinkNoDataArriveAtBackend);
   (ReasonSelfMonAgentSomeDataDropped, "Backend is reachable, but rejecting logs. Some logs are dropped in Log Agent. See troubleshooting: " +:+ LinkNotAllDataArriveAtBackend);
   (ReasonSelfMonConfigNotGenerated, "No logs delivered to backend because LogPipeline specification is not applied to the configuration of Log Agent and OTLP Gateway. Check the 'ConfigurationGenerated' condition for more details");
   (ReasonSelfMonGatewayAllDataDropped, "Backend is not reachable or rejecting logs. All logs are dropped in OTLP Gateway. See troubleshooting: " +:+ LinkNoDataArriveAtBackend);
   (ReasonSelfMonGatewaySomeDataDropped, "Backend is reachable, but rejecting logs. Some logs are dropped in OTLP Gateway. See troubleshooting: " +:+ LinkNotAllDataArriveAtBackend);
   (ReasonSelfMonGatewayThrottling, "OTLP Gateway is unable to receive logs at current rate. See troubleshooting: " +:+ LinkGatewayThrottling)
  ].

Definition tracePipelineMessages : list (string * string) :=
  [
   (ReasonEndpointInvalid, "OTLP output endpoint invalid: %s");
   (ReasonComponentsRunning, "All trace components are running");
   (ReasonGatewayConfigured, "TracePipeline specification is successfully applied to the configuration of OTLP Gateway");
   (ReasonGatewayConfigurationNotGenerated, "This TracePipeline's specification is not applied to the configuration of the OTLP gateway. Check the 'ConfigurationGenerated' condition for more details");
   (ReasonSelfMonConfigNotGenerated, "No spans delivered to backend because TracePipeline specification is not applied to the configuration of OTLP Gateway. Check the 'ConfigurationGenerated' condition for more details");
   (ReasonSelfMonGatewayAllDataDropped, "Backend is not reachable or rejecting spans. All spans are dropped in OTLP Gateway. See troubleshooting: " +:+ LinkNoDataArriveAtBackend);
   (ReasonSelfMonGatewaySomeDataDropped, "Backend is reachable, but rejecting spans. Some spans are dropped in OTLP Gateway. See troubleshooting: " +:+ LinkNotAllDataArriveAtBackend);
   (ReasonSelfMonGatewayThrottling, "OTLP Gateway is unable to receive spans at current rate. See troubleshooting: " +:+ LinkGatewayThrottling)
  ].

Definition metricPipelineMessages : list (string * string) :=
  [
   (ReasonEndpointInvalid, "OTLP output endpoint invalid: %s");
   (ReasonAgentNotReady, "Metric Agent DaemonSet is not ready");
   (ReasonAgentReady, "Metric Agent DaemonSet is ready");
   (ReasonComponentsRunning, "All metric components are running");
   (ReasonGatewayConfigured, "MetricPipeline specification is successfully applied to the configuration of OTLP Gateway");
   (ReasonGatewayConfigurationNotGenerated, "This MetricPipeline's specification is not applied to the configuration of the OTLP gateway. Check the 'ConfigurationGenerated' condition for more details");
   (ReasonSelfMonAgentAllDataDropped, "Backend is not reachable or rejecting metrics. All metrics are dropped in Metric Agent. See troubleshooting: " +:+ LinkNoDataArriveAtBackend);
   (ReasonSelfMonAgentSomeDataDropped, "Backend is reachable, but rejecting metrics. Some metrics are dropped in Metric Agent. See troubleshooting: " +:+ LinkNotAllDataArriveAtBackend);
   (ReasonSelfMonConfigNotGenerated, "No metrics delivered to backend because MetricPipeline specification is not applied to the configuration of OTLP Gateway. Check the 'ConfigurationGenerated' condition for more details");
   (ReasonSelfMonGatewayAllDataDropped, "Backend is not reachable or rejecting metrics. All metrics are dropped in OTLP Gateway. See troubleshooting: " +:+ LinkNoDataArriveAtBackend);
   (ReasonSelfMonGatewaySomeDataDropped, "Backend is reachable, but rejecting metrics. Some metrics are dropped in OTLP Gateway. See troubleshooting: " +:+ LinkNotAllDataArriveAtBackend);
   (ReasonSelfMonGatewayThrottling, "OTLP Gateway is unable to receive metrics at current rate. See troubleshooting: " +:+ LinkGatewayThrottling)
  ].

(** ** Message lookup *)

Definition messageForLogPipelines (reason : string) (specializedMessages : list (string * string)) : string :=
  match assoc reason commonMessages with
  | Some m => m
  | None =>
      match assoc reason commonLogPipelineMessages with
      | Some m => m
      | None => match assoc reason specializedMessages with Some m => m | None => "" end
      end
  end.

Definition message (reason : string) (specializedMessages : list (string * string)) : string :=
  match assoc reason commonMessages with
  | Some m => m
  | None => match assoc reason specializedMessages with Some m => m | None => "" end
  end.

Definition MessageForOtelLogPipeline (reason : string) : string :=
  messageForLogPipelines reason otelLogPipelineMessages.
Definition MessageForFluentBitLogPipeline (reason : string) : string :=
  messageForLogPipelines reason fluentBitLogPipelineMessages.
Definition MessageForTracePipeline (reason : string) : string := message reason tracePipelineMessages.
Definition MessageForMetricPipeline (reason : string) : string := message reason metricPipelineMessages.

(** ** fmt.Sprintf for formats whose only verb is %s and string arguments *)

Definition extra_args (args : list string) : string :=
  match args with
  | [] => ""
  | _ => "%!(EXTRA " +:+ String.concat ", " (List.map (fun a => "string=" +:+ a) args) +:+ ")"
  end.

Fixpoint Sprintf (fmt : string) (args : list string) : string :=
  match fmt with
  | EmptyString => extra_args args
  | String a rest =>
      match rest with
      | String b rest' =>
          if Ascii.eqb a (ascii_of_nat 37) && Ascii.eqb b (ascii_of_nat 115) then
            match args with
            | x :: xs => x +:+ Sprintf rest' xs
            | [] => "%!s(MISSING)" +:+ Sprintf rest' []
            end
          else String a (Sprintf rest args)
      | EmptyString => String a (extra_args args)
      end
  end.

(** ** Errors to messages *)

(** [strings.ToUpper] of one byte: a byte that is no ASCII character is invalid
    UTF-8 on its own and becomes the replacement character. *)
Definition upper_byte (c : ascii) : string :=
  let n := nat_of_ascii c in
  if (97 <=? n)%nat && (n <=? 122)%nat then String (ascii_of_nat (n - 32)) ""
  else if (n <? 128)%nat then String c ""
  else String (ascii_of_nat 239) (String (ascii_of_nat 191) (String (ascii_of_nat 189) "")).

(** [ConvertErrToMsg(err)] *)
Definition ConvertErrToMsg (err : goerror) : option string :=
  match Error err with
  | EmptyString => None
  | String c rest => Some (upper_byte c +:+ rest)
  end.

(** [(etc *ErrorToMessageConverter) Convert(err)] (error_to_message.go) *)
Definition Convert (err : goerror) : option string :=
  match errors_as as_pod_not_scheduled err with
  | Some m => Some (Sprintf podIsNotScheduled [m])
  | None =>
      match errors_as as_pod_pending err with
      | Some (c, r, m) =>
          Some (if str_eqb r "" then Sprintf podIsPending [c; m; c] else Sprintf podIsPending [c; r; c])
      | None =>
          match errors_as as_pod_failing err with
          | Some m => Some (Sprintf podIsFailed [m])
          | None =>
              match errors_as as_rollout err with
              | Some _ => Some podRolloutInProgress
              | None =>
                  match errors_as as_list_replicaset err with
                  | Some e => ConvertErrToMsg e
                  | None =>
                      match errors_as as_fetch_replicaset err with
                      | Some e => ConvertErrToMsg e
                      | None => ConvertErrToMsg err
                      end
                  end
              end
          end
      end
  end.

(** [EvaluateTLSCertCondition(errValidation)] (tls_cert_conditions.go) *)
Definition EvaluateTLSCertCondition (errValidation : goerror) : ConditionStatus * string * string :=
  match errors_as as_cert_expired errValidation with
  | Some (t, ca) => (ConditionFalse, ReasonTLSCertificateExpired, Error (CertExpiredError t ca))
  | None =>
      match errors_as as_cert_about_to_expire errValidation with
      | Some (t, ca) =>
          (ConditionTrue, ReasonTLSCertificateAboutToExpire, Error (CertAboutToExpireError t ca))
      | None =>
          (ConditionFalse, ReasonTLSConfigurationInvalid,
           Sprintf (deref (assoc ReasonTLSConfigurationInvalid commonMessages) "") [Error errValidation])
      end
  end.
