(* ===== verification/Coordination.v ===== *)
(** * The OTLP Gateway coordination ConfigMap
    (internal/resources/coordinationconfig/otlp_gateway.go)

    The three pipeline controllers publish the pipelines they accept in one
    ConfigMap; the gateway controller reads it. The value is a YAML text whose
    encoder and decoder (gopkg.in/yaml.v3) are parameters. *)
From stdpp Require Import base gmap strings list.
From S2P Require Import Prelude Kube GoErrors.
From S2P Require Import ApiV1beta1.
Local Open Scope string_scope.
Local Open Scope go_scope.

(** [pipelines.SignalType] *)
Inductive SignalType := SignalTypeTrace | SignalTypeMetric | SignalTypeLog | SignalTypeLogFluentBit.

#[export] Instance SignalType_eq_dec : EqDecision SignalType.
Proof. solve_decision. Defined.

Definition signal_text (s : SignalType) : string :=
  match s with
  | SignalTypeTrace => "trace"
  | SignalTypeMetric => "metric"
  | SignalTypeLog => "log"
  | SignalTypeLogFluentBit => "log-fluentbit"
  end.

Definition ConfigMapDataKey : string := "pipelines.yaml".
Definition OTLPGatewayCoordinationConfigMap : string := "telemetry-otlp-gateway-coordination".

(** [SecretVersions] is [None] for a nil map. *)
Record PipelineReference := mkPipelineReference {
  ref_Name : string;
  ref_Generation : Z;
  ref_SecretVersions : option (gmap string string)
}.

Record OTLPGatewayConfigMap := mkGatewayConfig {
  gw_Trace : slice PipelineReference;
  gw_Log : slice PipelineReference;
  gw_Metric : slice PipelineReference
}.

Definition empty_config : OTLPGatewayConfigMap := mkGatewayConfig None None None.

(** [yaml.Marshal] and [yaml.Unmarshal] on the configuration. *)
Class GatewayYAML := {
  yaml_marshal : OTLPGatewayConfigMap -> result string goerror;
  yaml_unmarshal : string -> result OTLPGatewayConfigMap goerror
}.

(** [getPipelineSlice]: the field of the signal; [set_pipeline_slice] writes through
    the pointer it returns. *)
Definition getPipelineSlice (config : OTLPGatewayConfigMap) (t : SignalType) :
    option (slice PipelineReference) :=
  match t with
  | SignalTypeTrace => Some (gw_Trace config)
  | SignalTypeLog => Some (gw_Log config)
  | SignalTypeMetric => Some (gw_Metric config)
  | SignalTypeLogFluentBit => None
  end.

Definition set_pipeline_slice (config : OTLPGatewayConfigMap) (t : SignalType)
    (s : slice PipelineReference) : OTLPGatewayConfigMap :=
  match t with
  | SignalTypeTrace => mkGatewayConfig s (gw_Log config) (gw_Metric config)
  | SignalTypeLog => mkGatewayConfig (gw_Trace config) s (gw_Metric config)
  | SignalTypeMetric => mkGatewayConfig (gw_Trace config) (gw_Log config) s
  | SignalTypeLogFluentBit => config
  end.

Definition invalid_type (t : SignalType) : goerror :=
  NewError ("invalid pipeline type: " +:+ signal_text t).

(** The loop of [AddPipelineReference]: the first reference of the name is updated
    in place, otherwise the reference is appended. *)
Fixpoint upsert_reference (input : PipelineReference) (l : list PipelineReference) :
    list PipelineReference :=
  match l with
  | [] => [input]
  | r :: rest =>
      if str_eqb (ref_Name r) (ref_Name input)
      then mkPipelineReference (ref_Name r) (ref_Generation input) (ref_SecretVersions input) :: rest
      else r :: upsert_reference input rest
  end.

Definition add_reference (t : SignalType) (input : PipelineReference) (config : OTLPGatewayConfigMap) :
    result OTLPGatewayConfigMap goerror :=
  match getPipelineSlice config t with
  | None => Err (invalid_type t)
  | Some s => Ok (set_pipeline_slice config t (Some (upsert_reference input (elems s))))
  end.

Definition remove_reference (t : SignalType) (name : string) (config : OTLPGatewayConfigMap) :
    result OTLPGatewayConfigMap goerror :=
  match getPipelineSlice config t with
  | None => Err (invalid_type t)
  | Some s =>
      Ok (set_pipeline_slice config t
            (Some (List.filter (fun r => negb (str_eqb (ref_Name r) name)) (elems s))))
  end.

Section Coordination.
Context {W : Type} `{ConfigMapClient W} `{GatewayYAML}.

Definition coordination_key (namespace : string) : NamespacedName :=
  mkNN namespace OTLPGatewayCoordinationConfigMap.

(** The text of the data key: absent and empty are the same. *)
Definition config_text (cm : ConfigMap) : option string :=
  match default ∅ (cm_Data cm) !! ConfigMapDataKey with
  | None => None
  | Some t => if str_eqb t "" then None else Some t
  end.

Definition ReadOTLPGatewayConfig (w : W) (namespace : string) : result OTLPGatewayConfigMap goerror :=
  match cm_get w (coordination_key namespace) with
  | Err e =>
      if IsNotFound e then Ok empty_config
      else Err (Wrapf "failed to get OTLP Gateway coordination ConfigMap: " (ApiError e) "")
  | Ok cm =>
      match config_text cm with
      | None => Ok empty_config
      | Some text => rmap_err (fun e => Wrapf "failed to unmarshal ConfigMap data: " e "") (yaml_unmarshal text)
      end
  end.

(** [getConfigMap]: [None] when the ConfigMap does not exist. *)
Definition getConfigMap (w : W) (namespace : string) : result (option ConfigMap) goerror :=
  match cm_get w (coordination_key namespace) with
  | Err e => if IsNotFound e then Ok None else Err (Wrapf "failed to get ConfigMap: " (ApiError e) "")
  | Ok cm => Ok (Some cm)
  end.

Definition parseConfig (cm : option ConfigMap) : result OTLPGatewayConfigMap goerror :=
  match cm with
  | None => Ok empty_config
  | Some cm =>
      match config_text cm with
      | None => Ok empty_config
      | Some text => rmap_err (fun e => Wrapf "failed to unmarshal ConfigMap: " e "") (yaml_unmarshal text)
      end
  end.

Definition createConfigMap (w : W) (namespace yamlData : string) : W * option goerror :=
  let '(w', err) := cm_create w (mkConfigMap (coordination_key namespace) 0 []
                                   (Some {[ConfigMapDataKey := yamlData]})) in
  (w', (fun e => Wrapf "failed to create ConfigMap: " (ApiError e) "") <$> err).

Definition updateConfigMap (w : W) (cm : ConfigMap) (yamlData : string) : W * option goerror :=
  let data := default ∅ (cm_Data cm) in
  let '(w', err) := cm_update w (mkConfigMap (cm_Key cm) (cm_ResourceVersion cm) (cm_OwnerReferences cm)
                                   (Some (<[ConfigMapDataKey := yamlData]> data))) in
  (w', (fun e => Wrapf "failed to update ConfigMap: " (ApiError e) "") <$> err).

(** [applyConfigUpdate]: read, modify, write. *)
Definition applyConfigUpdate (w : W) (namespace : string)
    (updateFn : OTLPGatewayConfigMap -> result OTLPGatewayConfigMap goerror) : W * option goerror :=
  match getConfigMap w namespace with
  | Err e => (w, Some e)
  | Ok cm =>
      match parseConfig cm with
      | Err e => (w, Some e)
      | Ok config =>
          match updateFn config with
          | Err e => (w, Some (Wrapf "update function failed: " e ""))
          | Ok config' =>
              match yaml_marshal config' with
              | Err e => (w, Some (Wrapf "failed to marshal config: " e ""))
              | Ok yamlData =>
                  match cm with
                  | None => createConfigMap w namespace yamlData
                  | Some cm => updateConfigMap w cm yamlData
                  end
              end
          end
      end
  end.

Definition AddPipelineReference (w : W) (namespace : string) (t : SignalType) (input : PipelineReference) :
    W * option goerror :=
  applyConfigUpdate w namespace (add_reference t input).

Definition RemovePipelineReference (w : W) (namespace : string) (t : SignalType) (name : string) :
    W * option goerror :=
  applyConfigUpdate w namespace (remove_reference t name).

End Coordination.

(** [CollectSecretVersions]: the loop with its [versions] and [seen] maps. *)
Section SecretVersions.
Context `{SecretReader}.

Fixpoint collect_versions (versions : gmap string string) (seen : gset NamespacedName)
    (refs : list SecretKeyRef) : result (gmap string string) goerror :=
  match refs with
  | [] => Ok versions
  | ref :: rest =>
      let key := mkNN (skr_Namespace ref) (skr_Name ref) in
      if bool_decide (key ∈ seen) then collect_versions versions seen rest
      else
        match get_secret key with
        | Err e =>
            if IsNotFound e then collect_versions versions ({[key]} ∪ seen) rest
            else Err (Wrapf ("failed to get secret " +:+ skr_Namespace ref +:+ "/" +:+ skr_Name ref +:+ ": ")
                        (ApiError e) "")
        | Ok secret =>
            collect_versions
              (<[skr_Namespace ref +:+ "/" +:+ skr_Name ref := sec_ResourceVersion secret]> versions)
              ({[key]} ∪ seen) rest
        end
  end.

Definition CollectSecretVersions (refs : list SecretKeyRef) : result (gmap string string) goerror :=
  collect_versions ∅ ∅ refs.

End SecretVersions.
