(* ===== verification/CoordinationProps.v ===== *)
(** * Properties of the coordination ConfigMap

    The abstract contract: per signal type a map from pipeline names to the
    generation and the Secret versions published for it. Adding is an insertion,
    removing a deletion, also when controllers interleave: a read-modify-write
    that succeeds took effect atomically. *)
From stdpp Require Import base gmap strings list relations.
From S2P Require Import Prelude Kube GoErrors.
From S2P Require Import ApiV1beta1 Coordination.
Local Open Scope string_scope.

(** ** The abstract contract *)

Definition entry : Type := Z * gmap string string.

(** The published pipelines of each signal type. *)
Definition registry : Type := SignalType -> gmap string entry.

Inductive reg_op :=
| RegAdd (t : SignalType) (name : string) (generation : Z) (versions : gmap string string)
| RegRemove (t : SignalType) (name : string).

Definition reg_step (r : registry) (o : reg_op) : registry := fun t =>
  match o with
  | RegAdd t' n g v => if bool_decide (t = t') then <[n := (g, v)]> (r t) else r t
  | RegRemove t' n => if bool_decide (t = t') then delete n (r t) else r t
  end.

(** ** Abstraction of a configuration *)

Definition references (c : OTLPGatewayConfigMap) (t : SignalType) : list PipelineReference :=
  match getPipelineSlice c t with Some s => elems s | None => [] end.

Definition entry_of (r : PipelineReference) : string * entry :=
  (ref_Name r, (ref_Generation r, default ∅ (ref_SecretVersions r))).

Definition registry_of (c : OTLPGatewayConfigMap) : registry := fun t =>
  list_to_map (entry_of <$> references c t).

(** A pipeline is listed at most once per signal type. *)
Definition config_wf (c : OTLPGatewayConfigMap) : Prop :=
  forall t, NoDup (ref_Name <$> references c t).

Lemma names_of_entries l : (entry_of <$> l).*1 = ref_Name <$> l.
Proof. by rewrite <- list_fmap_compose. Qed.

Lemma references_set c t t' s :
  t <> SignalTypeLogFluentBit ->
  references (set_pipeline_slice c t s) t' = if bool_decide (t' = t) then elems s else references c t'.
Proof. unfold references. destruct t, t'; simpl; done. Qed.

(** ** The list operations *)

Lemma upsert_names input l :
  ref_Name <$> upsert_reference input l =
    if existsb (fun r => str_eqb (ref_Name r) (ref_Name input)) l
    then ref_Name <$> l else ((ref_Name <$> l) ++ [ref_Name input])%list.
Proof.
  induction l as [|r l IH]; csimpl; [done|].
  destruct (str_eqb (ref_Name r) (ref_Name input)); csimpl; [done|]. rewrite IH.
  by destruct (existsb _ l).
Qed.

Lemma existsb_name n l :
  existsb (fun r => str_eqb (ref_Name r) n) l = true <-> n ∈ ref_Name <$> l.
Proof.
  rewrite existsb_exists, list_elem_of_fmap. setoid_rewrite str_eqb_true.
  setoid_rewrite list_elem_of_In. naive_solver.
Qed.

Lemma upsert_NoDup input l : NoDup (ref_Name <$> l) -> NoDup (ref_Name <$> upsert_reference input l).
Proof.
  intros Hn. rewrite upsert_names. destruct (existsb _ l) eqn:He; [done|].
  apply NoDup_app. split; [done|]. split; [|apply NoDup_singleton].
  intros x Hx Hx'. apply list_elem_of_singleton in Hx' as ->.
  apply existsb_name in Hx. congruence.
Qed.

Lemma upsert_map input l :
  NoDup (ref_Name <$> l) ->
  (list_to_map (entry_of <$> upsert_reference input l) : gmap string entry) =
  <[ref_Name input := (ref_Generation input, default ∅ (ref_SecretVersions input))]>
    (list_to_map (entry_of <$> l)).
Proof.
  induction l as [|r l IH]; csimpl; [done|]. intros Hn. apply NoDup_cons in Hn as [Hr Hn].
  destruct (str_eqb (ref_Name r) (ref_Name input)) eqn:He; csimpl.
  - apply str_eqb_true in He. rewrite He. by rewrite insert_insert_eq.
  - apply str_eqb_false in He. rewrite IH by done. by rewrite insert_insert_ne.
Qed.

Lemma filter_map name l :
  (list_to_map (entry_of <$> List.filter (fun r => negb (str_eqb (ref_Name r) name)) l) : gmap string entry) =
  delete name (list_to_map (entry_of <$> l)).
Proof.
  induction l as [|r l IH]; csimpl; [by rewrite delete_empty|].
  destruct (str_eqb (ref_Name r) name) eqn:He; csimpl.
  - apply str_eqb_true in He. rewrite He, IH. by rewrite delete_insert_eq.
  - apply str_eqb_false in He. rewrite IH. by rewrite delete_insert_ne.
Qed.

Lemma filter_NoDup (p : PipelineReference -> bool) l :
  NoDup (ref_Name <$> l) -> NoDup (ref_Name <$> List.filter p l).
Proof.
  induction l as [|r l IH]; csimpl; [done|]. intros [Hr Hn]%NoDup_cons.
  destruct (p r); csimpl; [|auto]. apply NoDup_cons. split; [|auto]. intros Hin. apply Hr.
  apply list_elem_of_fmap in Hin as (x & -> & Hx). apply list_elem_of_fmap. exists x. split; [done|].
  apply list_elem_of_In in Hx. apply List.filter_In in Hx as [Hx _]. by apply list_elem_of_In.
Qed.

(** ** One update *)

(** What an operation does to a configuration. *)
Definition op_fn (o : reg_op) : OTLPGatewayConfigMap -> result OTLPGatewayConfigMap goerror :=
  match o with
  | RegAdd t n g v => add_reference t (mkPipelineReference n g (Some v))
  | RegRemove t n => remove_reference t n
  end.

Lemma op_fn_refines o c c' :
  config_wf c -> op_fn o c = Ok c' ->
  config_wf c' /\ forall t, registry_of c' t = reg_step (registry_of c) o t.
Proof.
  intros Hwf. destruct o as [t n g v|t n]; simpl; unfold add_reference, remove_reference;
    (destruct (getPipelineSlice c t) as [s|] eqn:Hs; [|done]); intros [= <-];
    (assert (Ht : t <> SignalTypeLogFluentBit) by (by intros ->));
    (assert (Hr : references c t = elems s) by (by unfold references; rewrite Hs));
    (pose proof (Hwf t) as Hwt; rewrite Hr in Hwt); split;
    try (intros t'; rewrite references_set by done; case_bool_decide; [|apply Hwf]);
    try (intros t'; unfold registry_of, reg_step; rewrite references_set by done;
         case_bool_decide; [subst; rewrite Hr; simpl elems|done]).
  - by apply upsert_NoDup.
  - by apply upsert_map.
  - by apply filter_NoDup.
  - by apply filter_map.
Qed.

(** ** The YAML codec *)

Definition yaml_ref (r : PipelineReference) : PipelineReference :=
  mkPipelineReference (ref_Name r) (ref_Generation r) (mnil (ref_SecretVersions r)).

(** The configuration that decoding gives back: empty lists and maps are omitted. *)
Definition yaml_norm (c : OTLPGatewayConfigMap) : OTLPGatewayConfigMap :=
  mkGatewayConfig (snil (smap yaml_ref (gw_Trace c))) (snil (smap yaml_ref (gw_Log c)))
    (snil (smap yaml_ref (gw_Metric c))).

(** Documented behaviour of the codec: it decodes what it encoded, and no text it
    encodes is empty. *)
Class GatewayYAMLLaws `{GatewayYAML} := {
  yaml_roundtrip c d : yaml_marshal c = Ok d -> yaml_unmarshal d = Ok (yaml_norm c) /\ d <> ""
}.

Lemma references_norm c t : references (yaml_norm c) t = yaml_ref <$> references c t.
Proof.
  unfold references. destruct c as [tr lo me].
  destruct t; simpl; rewrite ?elems_snil; [destruct tr|destruct me|destruct lo|]; done.
Qed.

Lemma registry_norm c t : registry_of (yaml_norm c) t = registry_of c t.
Proof.
  unfold registry_of. rewrite references_norm, <- list_fmap_compose. f_equal.
  apply list_fmap_ext. intros _ r _. unfold entry_of; simpl. by rewrite default_mnil.
Qed.

Lemma config_wf_norm c : config_wf c -> config_wf (yaml_norm c).
Proof. intros Hwf t. rewrite references_norm, <- list_fmap_compose. apply (Hwf t). Qed.

(** ** Read, modify, write *)

Section Store.
Context {W : Type} `{ConfigMapLaws W} `{GatewayYAMLLaws}.

#[local] Arguments parseConfig : simpl never.

(** The write an update decides on from what it read. *)
Inductive write := WriteCreate (cm : ConfigMap) | WriteUpdate (cm : ConfigMap).

Definition read_config (read : result ConfigMap apierror) : result (option ConfigMap) goerror :=
  match read with
  | Err e => if IsNotFound e then Ok None else Err (Wrapf "failed to get ConfigMap: " (ApiError e) "")
  | Ok cm => Ok (Some cm)
  end.

Definition plan (ns : string) (read : result ConfigMap apierror)
    (f : OTLPGatewayConfigMap -> result OTLPGatewayConfigMap goerror) : option write :=
  match read_config read with
  | Err _ => None
  | Ok cm =>
      match parseConfig cm with
      | Err _ => None
      | Ok c =>
          match f c with
          | Err _ => None
          | Ok c' =>
              match yaml_marshal c' with
              | Err _ => None
              | Ok d =>
                  Some match cm with
                  | None => WriteCreate (mkConfigMap (coordination_key ns) 0 [] (Some {[ConfigMapDataKey := d]}))
                  | Some cm => WriteUpdate (mkConfigMap (cm_Key cm) (cm_ResourceVersion cm)
                      (cm_OwnerReferences cm) (Some (<[ConfigMapDataKey := d]> (default ∅ (cm_Data cm)))))
                  end
              end
          end
      end
  end.

Definition commit (w : W) (x : write) : W * option apierror :=
  match x with WriteCreate cm => cm_create w cm | WriteUpdate cm => cm_update w cm end.

(** An update is its plan, from the state it reads, and then the write. *)
Lemma applyConfigUpdate_commit w ns f w' :
  applyConfigUpdate w ns f = (w', None) <->
  exists x, plan ns (cm_get w (coordination_key ns)) f = Some x /\ commit w x = (w', None).
Proof.
  unfold applyConfigUpdate, plan, getConfigMap, read_config, updateConfigMap, createConfigMap.
  assert (Habsurd : forall (e : goerror) (P : write -> Prop),
    (w, Some e) = (w', None) <-> exists x, None = Some x /\ P x) by (split; [done|naive_solver]).
  destruct (cm_get w (coordination_key ns)) as [cm|e]; [|destruct (IsNotFound e); [|apply Habsurd]].
  - destruct (parseConfig (Some cm)) as [c|]; [|apply Habsurd].
    destruct (f c) as [c'|]; [|apply Habsurd]. destruct (yaml_marshal c') as [d|]; [|apply Habsurd].
    destruct (cm_update _ _) as [w1 [e1|]] eqn:Hu; simpl;
      (split; [intros ?; simplify_eq; eauto|intros (x & [= <-] & Hc); simpl in Hc; congruence]).
  - destruct (parseConfig None) as [c|]; [|apply Habsurd].
    destruct (f c) as [c'|]; [|apply Habsurd]. destruct (yaml_marshal c') as [d|]; [|apply Habsurd].
    destruct (cm_create _ _) as [w1 [e1|]] eqn:Hu; simpl;
      (split; [intros ?; simplify_eq; eauto|intros (x & [= <-] & Hc); simpl in Hc; congruence]).
Qed.

Lemma applyConfigUpdate_err w ns f w' e : applyConfigUpdate w ns f = (w', Some e) -> w' = w.
Proof.
  unfold applyConfigUpdate, updateConfigMap, createConfigMap. intros Ha.
  destruct (getConfigMap w ns) as [cm|]; [|congruence].
  destruct (parseConfig cm) as [c|]; [|congruence].
  destruct (f c) as [c'|]; [|congruence].
  destruct (yaml_marshal c') as [d|]; [|congruence].
  destruct cm as [cm|].
  - destruct (cm_update _ _) as [w1 [e1|]] eqn:Hu; simplify_eq/=. by eapply cm_update_err.
  - destruct (cm_create _ _) as [w1 [e1|]] eqn:Hu; simplify_eq/=. by eapply cm_create_err.
Qed.

(** The configuration the plan starts from is the one a reader sees. *)
Lemma read_is_parse w ns c :
  ReadOTLPGatewayConfig w ns = Ok c <->
  exists cm, read_config (cm_get w (coordination_key ns)) = Ok cm /\ parseConfig cm = Ok c.
Proof.
  unfold ReadOTLPGatewayConfig, read_config, parseConfig.
  destruct (cm_get w (coordination_key ns)) as [cm|e].
  - split; [intros Hx; exists (Some cm); split; [done|]|intros (cm' & [= <-] & Hx)];
      (destruct (config_text cm) as [t|]; [destruct (yaml_unmarshal t)|]); simpl in *; congruence.
  - destruct (IsNotFound e); (split; [intros Hx|intros (cm' & Hcm & Hx)]); simplify_eq; eauto.
Qed.

Lemma read_after cm key v os d c' data :
  cm = mkConfigMap key v os (Some (<[ConfigMapDataKey := d]> data)) ->
  yaml_marshal c' = Ok d -> parseConfig (Some cm) = Ok (yaml_norm c').
Proof.
  intros -> Hd. apply yaml_roundtrip in Hd as [Hd Hne].
  unfold parseConfig, config_text; simpl. rewrite lookup_insert_eq.
  apply str_eqb_false in Hne. rewrite Hne. by rewrite Hd.
Qed.

(** A successful update stores what the function made of what was there. *)
Lemma applyConfigUpdate_ok w ns f w' :
  applyConfigUpdate w ns f = (w', None) ->
  exists c c', ReadOTLPGatewayConfig w ns = Ok c /\ f c = Ok c' /\
    ReadOTLPGatewayConfig w' ns = Ok (yaml_norm c').
Proof.
  intros Ha. apply applyConfigUpdate_commit in Ha as (x & Hp & Hc). unfold plan in Hp.
  destruct (read_config _) as [cm|] eqn:Hr; [|done].
  destruct (parseConfig cm) as [c|] eqn:Hpc; [|done].
  destruct (f c) as [c'|] eqn:Hf; [|done].
  destruct (yaml_marshal c') as [d|] eqn:Hd; [|done].
  exists c, c'. split; [apply read_is_parse; eauto|]. split; [done|]. apply read_is_parse.
  destruct cm as [cm|]; simplify_eq; simpl in Hc.
  - apply cm_update_ok in Hc as [_ Hg]. simpl in Hg.
    assert (Hk : cm_Key cm = coordination_key ns).
    { unfold read_config in Hr. destruct (cm_get w (coordination_key ns)) as [cm0|e] eqn:Hg0;
        [|destruct (IsNotFound e)]; simplify_eq. by eapply cm_get_key. }
    rewrite Hk in Hg. rewrite Hg. eexists; split; [done|]. by eapply read_after.
  - apply cm_create_ok in Hc as [_ Hg]. simpl in Hg. rewrite Hg.
    eexists; split; [done|]. eapply read_after; [|done]. done.
Qed.

(** Runs an operation on the cluster. *)
Definition run_op (w : W) (ns : string) (o : reg_op) : W * option goerror :=
  match o with
  | RegAdd t n g v => AddPipelineReference w ns t (mkPipelineReference n g (Some v))
  | RegRemove t n => RemovePipelineReference w ns t n
  end.

Lemma run_op_apply w ns o : run_op w ns o = applyConfigUpdate w ns (op_fn o).
Proof. by destruct o. Qed.

Fixpoint run_ops (w : W) (ns : string) (os : list reg_op) : W * list bool :=
  match os with
  | [] => (w, [])
  | o :: os' =>
      let '(w1, e) := run_op w ns o in
      let '(w2, rs) := run_ops w1 ns os' in
      (w2, (if e then false else true) :: rs)
  end.

(** The operations that were reported successful. *)
Definition succeeded (os : list reg_op) (rs : list bool) : list reg_op :=
  omap (fun p : reg_op * bool => if p.2 then Some p.1 else None) (zip os rs).

Lemma run_op_refines w ns o c w' e :
  ReadOTLPGatewayConfig w ns = Ok c -> config_wf c -> run_op w ns o = (w', e) ->
  exists c', ReadOTLPGatewayConfig w' ns = Ok c' /\ config_wf c' /\
    forall t, registry_of c' t = (if e then registry_of c t else reg_step (registry_of c) o t).
Proof.
  intros Hc Hwf. rewrite run_op_apply. destruct e as [e|].
  - intros ->%applyConfigUpdate_err. eauto.
  - intros (c0 & c' & Hr & Hf & Hr')%applyConfigUpdate_ok. rewrite Hc in Hr. simplify_eq.
    apply op_fn_refines in Hf as [Hwf' Hreg]; [|done].
    exists (yaml_norm c'). split; [done|]. split; [by apply config_wf_norm|].
    intros t. by rewrite registry_norm, Hreg.
Qed.

(** What a controller publishes: the entry of one pipeline is [x] and all others
    are as before. *)
Definition publishes (c c' : OTLPGatewayConfigMap) (t : SignalType) (n : string) (x : option entry) : Prop :=
  registry_of c' t !! n = x /\
  forall t' n', (t', n') <> (t, n) -> registry_of c' t' !! n' = registry_of c t' !! n'.

Lemma publishes_add c c' t n g v :
  (forall t', registry_of c' t' = reg_step (registry_of c) (RegAdd t n g v) t') ->
  publishes c c' t n (Some (g, v)).
Proof.
  intros Hr. split.
  - rewrite Hr. simpl. rewrite bool_decide_true by done. apply lookup_insert_eq.
  - intros t' n' Hne. rewrite Hr. simpl. case_bool_decide; [|done]. subst.
    apply lookup_insert_ne. congruence.
Qed.

Lemma publishes_remove c c' t n :
  (forall t', registry_of c' t' = reg_step (registry_of c) (RegRemove t n) t') ->
  publishes c c' t n None.
Proof.
  intros Hr. split.
  - rewrite Hr. simpl. rewrite bool_decide_true by done. apply lookup_delete_eq.
  - intros t' n' Hne. rewrite Hr. simpl. case_bool_decide; [|done]. subst.
    apply lookup_delete_ne. congruence.
Qed.

Lemma AddPipelineReference_publishes w ns t n g v c w' :
  ReadOTLPGatewayConfig w ns = Ok c -> config_wf c ->
  AddPipelineReference w ns t (mkPipelineReference n g (Some v)) = (w', None) ->
  exists c', ReadOTLPGatewayConfig w' ns = Ok c' /\ config_wf c' /\ publishes c c' t n (Some (g, v)).
Proof.
  intros Hc Hwf Ha. destruct (run_op_refines w ns (RegAdd t n g v) c w' None Hc Hwf Ha) as (c' & Hr & Hwf' & Hreg).
  exists c'. split; [done|]. split; [done|]. by apply publishes_add.
Qed.

Lemma RemovePipelineReference_publishes w ns t n c w' :
  ReadOTLPGatewayConfig w ns = Ok c -> config_wf c ->
  RemovePipelineReference w ns t n = (w', None) ->
  exists c', ReadOTLPGatewayConfig w' ns = Ok c' /\ config_wf c' /\ publishes c c' t n None.
Proof.
  intros Hc Hwf Ha. destruct (run_op_refines w ns (RegRemove t n) c w' None Hc Hwf Ha) as (c' & Hr & Hwf' & Hreg).
  exists c'. split; [done|]. split; [done|]. by apply publishes_remove.
Qed.

(** A reader sees the same configuration when the ConfigMap is the same. *)
Lemma ReadOTLPGatewayConfig_frame w w' ns :
  cm_get w' (coordination_key ns) = cm_get w (coordination_key ns) ->
  ReadOTLPGatewayConfig w' ns = ReadOTLPGatewayConfig w ns.
Proof. unfold ReadOTLPGatewayConfig. by intros ->. Qed.

Lemma reg_step_ext r r' o : (forall t, r t = r' t) -> forall t, reg_step r o t = reg_step r' o t.
Proof. intros Hr t. destruct o; simpl; by rewrite Hr. Qed.

Lemma foldl_reg_ext os r r' : (forall t, r t = r' t) -> forall t, foldl reg_step r os t = foldl reg_step r' os t.
Proof. revert r r'. induction os as [|o os IH]; intros r r' Hr; [done|]. simpl. apply IH. by apply reg_step_ext. Qed.

(** C1. The coordination ConfigMap implements an abstract registry (for each
    signal a finite map from pipeline name to generation and Secret versions):
    after any sequence of AddPipelineReference and RemovePipelineReference
    calls, failed ones included, reading the ConfigMap back gives exactly the
    registry reached by the calls that succeeded, and the list of each signal
    names a pipeline at most once. *)
Theorem coordination_refines_registry w ns c os w' rs :
  ReadOTLPGatewayConfig w ns = Ok c -> config_wf c -> run_ops w ns os = (w', rs) ->
  exists c', ReadOTLPGatewayConfig w' ns = Ok c' /\ config_wf c' /\
    forall t, registry_of c' t = foldl reg_step (registry_of c) (succeeded os rs) t.
Proof.
  revert w c w' rs. induction os as [|o os IH]; intros w c w' rs Hc Hwf; simpl.
  { intros [= <- <-]. eauto. }
  destruct (run_op w ns o) as [w1 e] eqn:Ho. destruct (run_ops w1 ns os) as [w2 rs'] eqn:Hos.
  intros [= <- <-]. destruct (run_op_refines _ _ _ _ _ _ Hc Hwf Ho) as (c1 & Hc1 & Hwf1 & Hr1).
  destruct (IH _ _ _ _ Hc1 Hwf1 Hos) as (c2 & Hc2 & Hwf2 & Hr2).
  exists c2. repeat split; try done. intros t. rewrite Hr2. unfold succeeded. simpl.
  destruct e; simpl; by apply foldl_reg_ext.
Qed.

(** ** Interleaving *)

(** Successful writes of any client, to any ConfigMap. *)
Inductive api_step : relation W :=
| api_create w cm w' : cm_create w cm = (w', None) -> api_step w w'
| api_update w cm w' : cm_update w cm = (w', None) -> api_step w w'.

(** An object is unchanged, or carries a version past every earlier one. *)
Definition newer_or_same (w w' : W) (k : NamespacedName) : Prop :=
  cm_get w' k = cm_get w k \/
  exists cm, cm_get w' k = Ok cm /\ (cm_revision w < cm_ResourceVersion cm)%Z.

Lemma api_step_newer w w' k :
  api_step w w' -> newer_or_same w w' k /\ (cm_revision w < cm_revision w')%Z.
Proof.
  destruct 1 as [w cm w' Hc|w cm w' Hc]; (destruct (decide (k = cm_Key cm)) as [->|Hk]); split;
    eauto using cm_create_revision, cm_update_revision.
  - right. pose proof (cm_create_revision _ _ _ Hc). apply cm_create_ok in Hc as [_ ->]. eexists; split; [done|]. done.
  - left. by eapply cm_create_frame.
  - right. pose proof (cm_update_revision _ _ _ Hc). apply cm_update_ok in Hc as [_ ->]. eexists; split; [done|]. done.
  - left. by eapply cm_update_frame.
Qed.

Lemma api_steps_newer w w' k :
  rtc api_step w w' -> newer_or_same w w' k /\ (cm_revision w <= cm_revision w')%Z.
Proof.
  induction 1 as [w|w w1 w' Hs1 _ [IH Hle]]; [split; [by left|lia]|].
  apply (api_step_newer _ _ k) in Hs1 as [Hn Hlt]. split; [|lia].
  destruct IH as [IH|(cm & Hg & Hv)]; [|right; exists cm; split; [done|lia]].
  unfold newer_or_same. by rewrite IH.
Qed.

(** A write that succeeds finds the object as it was read. *)
Lemma commit_unchanged w0 w1 ns f x w2 :
  rtc api_step w0 w1 ->
  plan ns (cm_get w0 (coordination_key ns)) f = Some x -> commit w1 x = (w2, None) ->
  cm_get w1 (coordination_key ns) = cm_get w0 (coordination_key ns).
Proof.
  intros Hs Hp Hc. apply (api_steps_newer _ _ (coordination_key ns)) in Hs as [Hs _].
  unfold plan, read_config in Hp.
  destruct (cm_get w0 (coordination_key ns)) as [cm|e] eqn:Hg.
  - destruct (parseConfig (Some cm)) as [c|]; [|done]. destruct (f c) as [c'|]; [|done].
    destruct (yaml_marshal c'); [|done]. simplify_eq. simpl in Hc.
    apply cm_update_ok in Hc as [(old & Hold & Hv) _]. simpl in Hold, Hv.
    rewrite (cm_get_key _ _ _ Hg) in Hold. pose proof (cm_get_version _ _ _ Hg).
    destruct Hs as [Hs|(cm' & Hg' & Hv')]; [congruence|]. rewrite Hold in Hg'. simplify_eq. lia.
  - destruct (IsNotFound e) eqn:He; [|done]. simpl in Hp. destruct (f empty_config) as [c'|]; [|done].
    destruct (yaml_marshal c'); [|done]. simplify_eq. simpl in Hc.
    apply cm_create_ok in Hc as [Hn _]. simpl in Hn. rewrite Hn. by destruct e.
Qed.

(** C38. Updates of the coordination ConfigMap are atomic under interleaving: if
    an update was planned on an older state and its write succeeds after any
    other API calls, the result is the one of running the whole read-modify-
    write at the moment of the write, so no concurrent update is lost. *)
Theorem coordination_update_atomic w0 w1 ns o x w2 :
  rtc api_step w0 w1 ->
  plan ns (cm_get w0 (coordination_key ns)) (op_fn o) = Some x ->
  commit w1 x = (w2, None) ->
  run_op w1 ns o = (w2, None).
Proof.
  intros Hs Hp Hc. rewrite run_op_apply. apply applyConfigUpdate_commit.
  exists x. rewrite (commit_unchanged _ _ _ _ _ _ Hs Hp Hc). done.
Qed.

End Store.

(** ** Concrete runs *)

#[export] Instance PipelineReference_eq_dec : EqDecision PipelineReference.
Proof. solve_decision. Defined.
#[export] Instance OTLPGatewayConfigMap_eq_dec : EqDecision OTLPGatewayConfigMap.
Proof. solve_decision. Defined.

(** ** The versions of the Secrets *)

Section SecretVersions.
Context `{SecretReader}.

Definition slash : Ascii.ascii := Ascii.ascii_of_nat 47.
Definition secret_of (ref : SecretKeyRef) : NamespacedName := mkNN (skr_Namespace ref) (skr_Name ref).
Definition secret_text (n : NamespacedName) : string := nn_Namespace n +:+ "/" +:+ nn_Name n.

(** Kubernetes: the name of a namespace is a DNS label, so that no Secret lies in a namespace with a slash. *)
Definition namespaces_named : Prop :=
  forall n s, get_secret n = Ok s -> slash ∉ String.list_ascii_of_string (nn_Namespace n).

(** The versions recorded for some references: one for each Secret that exists, its current one. *)
Definition versions_of (refs : list SecretKeyRef) (versions : gmap string string) : Prop :=
  forall k v, versions !! k = Some v <->
    exists ref s, ref ∈ refs /\ k = secret_text (secret_of ref) /\
      get_secret (secret_of ref) = Ok s /\ v = sec_ResourceVersion s.

(** What the loop has recorded of the Secrets seen so far. *)
Definition recorded (seen : gset NamespacedName) (versions : gmap string string) : Prop :=
  forall k v, versions !! k = Some v <->
    exists n s, n ∈ seen /\ k = secret_text n /\ get_secret n = Ok s /\ v = sec_ResourceVersion s.

Lemma string_app_slash (a b a' b' : string) :
  slash ∉ String.list_ascii_of_string a -> slash ∉ String.list_ascii_of_string a' ->
  a +:+ "/" +:+ b = a' +:+ "/" +:+ b' -> a = a' /\ b = b'.
Proof.
  revert a'. induction a as [|c a IH]; intros [|c' a']; cbn; rewrite ?not_elem_of_cons; intros Ha Ha' He; simplify_eq;
    naive_solver.
Qed.

Lemma recorded_missing seen versions n :
  recorded seen versions -> (forall s, get_secret n <> Ok s) -> recorded ({[n]} ∪ seen) versions.
Proof.
  intros Hr Hn k v. rewrite (Hr k v). split; intros (m & s & Hm & Hk & Hg & Hv); exists m, s; [set_solver|].
  apply elem_of_union in Hm as [->%elem_of_singleton|Hm]; [by apply Hn in Hg|done].
Qed.

Lemma recorded_found seen versions n s :
  namespaces_named -> recorded seen versions -> get_secret n = Ok s ->
  recorded ({[n]} ∪ seen) (<[secret_text n := sec_ResourceVersion s]> versions).
Proof.
  intros Hnames Hr Hg k v. destruct (decide (k = secret_text n)) as [->|Hk].
  - rewrite lookup_insert_eq. split; [intros [= <-]; exists n, s; set_solver|].
    intros (m & s' & _ & Ht & Hg' & ->). assert (m = n) as ->; [|congruence].
    destruct n as [a b], m as [a' b']. pose proof (Hnames _ _ Hg). pose proof (Hnames _ _ Hg').
    destruct (string_app_slash a b a' b') as [-> ->]; [done..|exact Ht|done].
  - rewrite lookup_insert_ne by congruence. rewrite (Hr k v). split; intros (m & s' & Hm & Ht & Hg' & Hv); exists m, s'; [set_solver|].
    apply elem_of_union in Hm as [->%elem_of_singleton|Hm]; [by destruct Hk|done].
Qed.

Lemma collect_versions_exact refs : forall versions seen versions',
  namespaces_named -> recorded seen versions -> collect_versions versions seen refs = Ok versions' ->
  recorded (list_to_set (secret_of <$> refs) ∪ seen) versions'.
Proof.
  induction refs as [|ref refs IH]; intros versions seen versions' Hn Hr Hc; cbn in Hc |- *.
  - simplify_eq. by rewrite union_empty_l_L.
  - fold (secret_of ref) in Hc. rewrite (union_comm_L {[_]}), <- union_assoc_L. case_bool_decide as Hs.
    + assert ({[secret_of ref]} ∪ seen = seen) as -> by set_solver. by eapply IH.
    + destruct (get_secret (secret_of ref)) as [s|e] eqn:Hg.
      * eapply IH; [done| |done]. by apply (recorded_found seen versions (secret_of ref) s).
      * destruct (IsNotFound e); [|done]. eapply IH; [done| |done]. apply recorded_missing; [done|].
        intros s. by rewrite Hg.
Qed.

(** The collected versions are the current versions of all referenced Secrets that exist. *)
Lemma CollectSecretVersions_exact refs versions :
  namespaces_named -> CollectSecretVersions refs = Ok versions -> versions_of refs versions.
Proof.
  intros Hn Hc k v. assert (Hr : recorded ∅ ∅).
  { intros k' v'. rewrite lookup_empty. split; [done|]. intros (n & s & Hn' & _). set_solver. }
  rewrite (collect_versions_exact refs ∅ ∅ versions Hn Hr Hc k v), union_empty_r_L. split.
  - intros (n & s & Hn' & -> & Hg & ->). apply elem_of_list_to_set, list_elem_of_fmap in Hn' as (ref & -> & Href).
    by exists ref, s.
  - intros (ref & s & Href & -> & Hg & ->). exists (secret_of ref), s. split; [|done].
    apply elem_of_list_to_set, list_elem_of_fmap. by exists ref.
Qed.

End SecretVersions.

Module Sample.

Definition one : OTLPGatewayConfigMap :=
  mkGatewayConfig (Some [mkPipelineReference "backend" 2 (Some ∅)]) None None.

(** These render as three omitted lists. *)
Definition none : OTLPGatewayConfigMap := mkGatewayConfig (Some []) None None.

Definition no_metrics : OTLPGatewayConfigMap := mkGatewayConfig None None (Some []).
Definition no_logs : OTLPGatewayConfigMap := mkGatewayConfig None (Some []) None.

(** A codec that knows three configurations. *)
#[global] Instance yaml : GatewayYAML := {|
  yaml_marshal c := if bool_decide (c = one) then Ok "backend@2"
                    else if bool_decide (c = none \/ c = no_metrics \/ c = no_logs) then Ok "none" else Err (NewError "unsupported");
  yaml_unmarshal d := if str_eqb d "backend@2" then Ok (yaml_norm one)
                      else if str_eqb d "none" then Ok (yaml_norm none) else Err (NewError "unsupported")
|}.

#[global] Instance yaml_laws : GatewayYAMLLaws.
Proof.
  constructor. intros c d Hm. simpl in Hm. case_bool_decide; [simplify_eq; by split|].
  case_bool_decide as Hc; simplify_eq. destruct Hc as [->|[->| ->]]; by split.
Qed.

Definition op : reg_op := RegAdd SignalTypeTrace "backend" 2 ∅.

Definition empty : RefStore.store := [].

Definition published : RefStore.store :=
  [ mkConfigMap (coordination_key "kyma-system") 1 []
       (Some {[ConfigMapDataKey := "backend@2"]}) ].

(** Another client writes another ConfigMap in between. *)
Definition other : ConfigMap := mkConfigMap (mkNN "kyma-system" "other") 0 [] None.
Definition between : RefStore.store := RefStore.put empty other.

Definition first_write : write :=
  WriteCreate (mkConfigMap (coordination_key "kyma-system") 0 [] (Some {[ConfigMapDataKey := "backend@2"]})).

End Sample.

Lemma coordination_refines_witness :
  run_ops Sample.empty "kyma-system" [Sample.op] = (Sample.published, [true]) /\
  exists c', ReadOTLPGatewayConfig Sample.published "kyma-system" = Ok c' /\
    registry_of c' SignalTypeTrace = {[ "backend" := (2%Z, ∅) ]}.
Proof.
  assert (H : run_ops Sample.empty "kyma-system" [Sample.op]
              = (Sample.published, [true])) by (vm_compute; reflexivity).
  split; [exact H|].
  assert (Hr : ReadOTLPGatewayConfig Sample.empty "kyma-system" = Ok empty_config)
    by (vm_compute; reflexivity).
  assert (Hwf : config_wf empty_config) by (intros []; constructor).
  destruct (coordination_refines_registry _ _ _ _ _ _ Hr Hwf H) as (c' & Hc & _ & Hreg).
  exists c'. split; [exact Hc|]. rewrite Hreg. vm_compute. reflexivity.
Defined.

Lemma coordination_atomic_witness :
  exists w2, run_op Sample.between "kyma-system" Sample.op = (w2, None).
Proof.
  assert (Hs : rtc api_step Sample.empty Sample.between).
  { apply rtc_once. apply (api_create _ Sample.other). vm_compute. reflexivity. }
  assert (Hp : plan "kyma-system" (cm_get Sample.empty (coordination_key "kyma-system"))
                 (op_fn Sample.op) = Some Sample.first_write) by (vm_compute; reflexivity).
  assert (Hc : commit Sample.between Sample.first_write = ((commit Sample.between Sample.first_write).1, None))
    by (vm_compute; reflexivity).
  eexists. exact (coordination_update_atomic _ _ _ _ _ _ Hs Hp Hc).
Defined.
