(* ===== verification/Endpoint.v ===== *)
(** * Endpoint validation (internal/validators/endpoint/endpoint_validator.go)

    The checks of a backend endpoint: it resolves, it parses as a URL, it has a
    port where one is required, and its scheme, path and TLS settings fit the
    protocol. [url.Parse] of package net/url is a parameter; [net.SplitHostPort],
    [strconv.Atoi] and [strings.Contains] are modelled. [None] is the panic of a
    call through a nil function value. *)
From stdpp Require Import base gmap strings list pretty.
From Stdlib Require Import Ascii.
From S2P Require Import Prelude Kube GoErrors.
From S2P Require Import ApiV1beta1 SecretRef.
Local Open Scope string_scope.

Definition FluentdProtocolHTTP : string := "fluentd-http".
Definition OTLPProtocolGRPC : string := "grpc".
Definition OTLPProtocolHTTP : string := "http".

Record EndpointValidationParams := mkEndpointParams {
  ep_Endpoint : option ValueType;
  ep_Protocol : string;
  ep_OutputTLS : option OutputTLS;
  ep_OTLPOAuth2 : option OAuth2Options
}.

(** [url.URL], the fields the code reads. *)
Record URL := mkURL { u_Scheme : string; u_Opaque : string; u_Host : string; u_Path : string }.

(** The parser, with the text of its error. *)
Class URLLib := url_parse : string -> result URL string.

(** ** Package strings, strconv and net *)

Fixpoint has_prefix (p s : string) : bool :=
  match p, s with
  | EmptyString, _ => true
  | String a p', String b s' => Ascii.eqb a b && has_prefix p' s'
  | _, _ => false
  end.

(** [strings.Contains(s, sub)] *)
Fixpoint Contains (s sub : string) : bool :=
  has_prefix sub s || match s with EmptyString => false | String _ s' => Contains s' sub end.

(** [strings.Replace(s, old, "", 1)] for a non-empty [old] *)
Fixpoint remove_first (s old : string) : string :=
  if has_prefix old s then String.substring (String.length old) (String.length s - String.length old) s
  else match s with EmptyString => "" | String a s' => String a (remove_first s' old) end.

(** [strings.IndexByte] on bytes *)
Fixpoint index_byte (c : ascii) (l : list ascii) : option nat :=
  match l with
  | [] => None
  | x :: l' => if Ascii.eqb x c then Some 0 else S <$> index_byte c l'
  end.

Fixpoint last_index_byte (c : ascii) (l : list ascii) : option nat :=
  match l with
  | [] => None
  | x :: l' =>
      match last_index_byte c l' with
      | Some i => Some (S i)
      | None => if Ascii.eqb x c then Some 0 else None
      end
  end.

Definition colon : ascii := ascii_of_nat 58.
Definition lbracket : ascii := ascii_of_nat 91.
Definition rbracket : ascii := ascii_of_nat 93.

(** [*net.AddrError] *)
Definition addr_error (addr why : string) : goerror :=
  NewError (if str_eqb addr "" then why else "address " +:+ addr +:+ ": " +:+ why).

Definition missingPort : string := "missing port in address".
Definition tooManyColons : string := "too many colons in address".

(** The checks of [net.SplitHostPort] on stray brackets, from positions [j] and
    [k]; [i] is the position of the last colon. *)
Definition split_rest (s : string) (l host : list ascii) (i j k : nat) :
    result (string * string) goerror :=
  if isSome (index_byte lbracket (drop j l)) then Err (addr_error s "unexpected '[' in address")
  else if isSome (index_byte rbracket (drop k l)) then Err (addr_error s "unexpected ']' in address")
  else Ok (String.string_of_list_ascii host, String.string_of_list_ascii (drop (S i) l)).

(** [net.SplitHostPort(hostport)] *)
Definition SplitHostPort (hostport : string) : result (string * string) goerror :=
  let l := String.list_ascii_of_string hostport in
  match last_index_byte colon l with
  | None => Err (addr_error hostport missingPort)
  | Some i =>
      match l with
      | [] => Err (addr_error hostport missingPort)
      | c :: _ =>
          if Ascii.eqb c lbracket then
            match index_byte rbracket l with
            | None => Err (addr_error hostport "missing ']' in address")
            | Some e =>
                if (S e =? length l)%nat then Err (addr_error hostport missingPort)
                else if (S e =? i)%nat then
                  split_rest hostport l (take (e - 1) (drop 1 l)) i 1 (S e)
                else
                  match l !! S e with
                  | Some d => if Ascii.eqb d colon then Err (addr_error hostport tooManyColons)
                              else Err (addr_error hostport missingPort)
                  | None => Err (addr_error hostport missingPort)
                  end
            end
          else if isSome (index_byte colon (take i l)) then Err (addr_error hostport tooManyColons)
          else split_rest hostport l (take i l) i 0 0
      end
  end.

Definition is_digit (c : ascii) : bool :=
  (48 <=? nat_of_ascii c)%nat && (nat_of_ascii c <=? 57)%nat.

Definition digit_value (c : ascii) : Z := Z.of_nat (nat_of_ascii c) - 48.

Fixpoint digits_value (acc : Z) (l : list ascii) : Z :=
  match l with [] => acc | c :: l' => digits_value (10 * acc + digit_value c) l' end.

(** [strconv.Atoi(s)] on a 64-bit platform: an optional sign, digits, in range. *)
Definition Atoi (s : string) : option Z :=
  let l := String.list_ascii_of_string s in
  let '(neg, ds) :=
    match l with
    | c :: l' => if Ascii.eqb c (ascii_of_nat 45) then (true, l')
                 else if Ascii.eqb c (ascii_of_nat 43) then (false, l') else (false, l)
    | [] => (false, l)
    end in
  if (0 <? length ds)%nat && forallb is_digit ds then
    let v := digits_value 0 ds in
    let v := if neg : bool then (- v)%Z else v in
    if bool_decide (- 2 ^ 63 <= v < 2 ^ 63)%Z then Some v else None
  else None.

(** ** The validator *)

Definition invalid (s : sentinel) : goerror := EndpointInvalidError (Sentinel s).

Definition validatePort (hostport : string) (allowMissing : bool) : option goerror :=
  match SplitHostPort hostport with
  | Err e =>
      if Contains (Error e) missingPort
      then (if negb allowMissing then Some (invalid ErrPortMissing) else None)
      else Some (EndpointInvalidError e)
  | Ok (_, port) =>
      if allowMissing then None
      else if str_eqb port "" || negb (isSome (Atoi port)) then Some (invalid ErrPortMissing)
      else None
  end.

Definition validateSchemeHTTP (scheme : string) : option goerror :=
  if negb (str_eqb scheme "http") && negb (str_eqb scheme "https")
  then Some (invalid ErrUnsupportedScheme) else None.

Definition validateGRPCPath (path : string) : option goerror :=
  if negb (str_eqb path "") then Some (invalid ErrGRPCWithPath) else None.

Definition validateGRPCWithOAuth2 (scheme : string) (tls : option OutputTLS) : option goerror :=
  if match tls with Some t => tls_Insecure t | None => false end
  then Some (invalid ErrGRPCOAuth2NoTLS)
  else if str_eqb scheme "http"
  then Some (EndpointInvalidError (NewError (sentinel_text ErrGRPCOAuth2NoTLS +:+ ": HTTP scheme not allowed")))
  else None.

Definition isTLSConfigured (tls : option OutputTLS) : bool :=
  match tls with
  | None => false
  | Some t => if tls_Insecure t then false
              else isSome (tls_CA t) || isSome (tls_Cert t) || isSome (tls_Key t)
  end.

Definition validateHTTPWithOAuth2 (scheme : string) (tls : option OutputTLS) : option goerror :=
  if str_eqb scheme "http" && isTLSConfigured tls then Some (invalid ErrHTTPWithTLS) else None.

Section Endpoint.
Context `{SecretReader} `{URLLib}.

Definition resolveValue (value : ValueType) : result string goerror :=
  if negb (str_eqb (vt_Value value) "") then Ok (vt_Value value)
  else
    match vt_ValueFrom value ≫= vfs_SecretKeyRef with
    | None => Err (invalid ErrEndpointValueResolveFailed)
    | Some ref =>
        match GetValue ref with
        | Err _ => Err (invalid ErrEndpointValueResolveFailed)
        | Ok v => Ok v
        end
    end.

Definition parseEndpoint (endpoint : string) : result URL goerror :=
  match url_parse endpoint with
  | Err e => Err (EndpointInvalidError (NewError e))
  | Ok u =>
      if negb (str_eqb (u_Opaque u) "") || str_eqb (u_Scheme u) "" || str_eqb (u_Host u) "" then
        match url_parse ("plhd://" +:+ endpoint) with
        | Err e => Err (EndpointInvalidError (NewError (remove_first e "plhd://")))
        | Ok u' => Ok (mkURL "" (u_Opaque u') (u_Host u') (u_Path u'))
        end
      else Ok u
  end.

(** The check of the OAuth2 settings: [None] when the protocol is neither gRPC nor
    HTTP, for which the function value is nil. *)
Definition validate_oauth2 (params : EndpointValidationParams) (scheme : string) : option (option goerror) :=
  if str_eqb (ep_Protocol params) OTLPProtocolGRPC
  then Some (validateGRPCWithOAuth2 scheme (ep_OutputTLS params))
  else if str_eqb (ep_Protocol params) OTLPProtocolHTTP
  then Some (validateHTTPWithOAuth2 scheme (ep_OutputTLS params))
  else None.

(** [(v *Validator) Validate(ctx, params)] *)
Definition Validate (params : EndpointValidationParams) : option (option goerror) :=
  match ep_Endpoint params with
  | None => Some (Some (invalid ErrEndpointValueResolveFailed))
  | Some endpoint =>
      match resolveValue endpoint with
      | Err e => Some (Some e)
      | Ok endpointValue =>
          match parseEndpoint endpointValue with
          | Err e => Some (Some e)
          | Ok u =>
              let grpc := str_eqb (ep_Protocol params) OTLPProtocolGRPC in
              let http := str_eqb (ep_Protocol params) OTLPProtocolHTTP in
              match validatePort (u_Host u) (negb grpc) with
              | Some e => Some (Some e)
              | None =>
                  if str_eqb (ep_Protocol params) FluentdProtocolHTTP then Some None
                  else
                    match (if http then validateSchemeHTTP (u_Scheme u) else None) with
                    | Some e => Some (Some e)
                    | None =>
                        match (if grpc then validateGRPCPath (u_Path u) else None) with
                        | Some e => Some (Some e)
                        | None =>
                            match ep_OTLPOAuth2 params with
                            | Some _ => validate_oauth2 params (u_Scheme u)
                            | None => Some None
                            end
                        end
                    end
              end
          end
      end
  end.

End Endpoint.

Example split_host_port_ipv6 : SplitHostPort "[::1]:4317" = Ok ("::1", "4317").
Proof. reflexivity. Qed.
Example split_host_port_plain : SplitHostPort "backend:4317" = Ok ("backend", "4317").
Proof. reflexivity. Qed.
Example split_host_port_missing : SplitHostPort "backend" = Err (addr_error "backend" missingPort).
Proof. reflexivity. Qed.

(** ** Properties of endpoint validation *)

(** ** Splitting host and port *)

Lemma index_byte_lookup c l i : index_byte c l = Some i -> l !! i = Some c.
Proof.
  revert i. induction l as [|x l IH]; intros i; simpl; [done|].
  destruct (Ascii.eqb x c) eqn:Hx.
  - intros [= <-]. by apply Ascii.eqb_eq in Hx as ->.
  - destruct (index_byte c l) as [j|]; simpl; [|done]. intros [= <-]. by apply IH.
Qed.

Lemma last_index_byte_split c l i :
  last_index_byte c l = Some i -> l = (take i l ++ c :: drop (S i) l)%list /\ c ∉ drop (S i) l.
Proof.
  revert i. induction l as [|x l IH]; intros i; simpl; [done|].
  destruct (last_index_byte c l) as [j|] eqn:Hj.
  - intros [= <-]. simpl. destruct (IH j eq_refl) as [Hl Hn]. by rewrite Hl at 1.
  - destruct (Ascii.eqb x c) eqn:Hx; [|done]. intros [= <-]. apply Ascii.eqb_eq in Hx as ->. simpl.
    split; [by rewrite drop_0|]. rewrite drop_0. clear IH. induction l as [|y l IHl]; [apply not_elem_of_nil|].
    simpl in Hj. destruct (last_index_byte c l); [done|].
    destruct (Ascii.eqb y c) eqn:Hy; [done|]. apply Ascii.eqb_neq in Hy.
    apply not_elem_of_cons. split; [congruence|]. by apply IHl.
Qed.

Lemma string_of_app a b :
  String.string_of_list_ascii (a ++ b)%list = String.string_of_list_ascii a +:+ String.string_of_list_ascii b.
Proof. induction a as [|x a IH]; simpl; [done|]. by rewrite IH. Qed.

Lemma split_rest_ok s l host i j k h p :
  split_rest s l host i j k = Ok (h, p) ->
  h = String.string_of_list_ascii host /\ p = String.string_of_list_ascii (drop (S i) l).
Proof. unfold split_rest. intros Hs. split_hyp Hs. Qed.

Lemma SplitHostPort_err s e : SplitHostPort s = Err e -> exists m, e = NewError m.
Proof.
  unfold SplitHostPort, split_rest, addr_error. intros Hs.
  repeat case_match; simplify_eq; eauto.
Qed.

(** A split host and port joins to the input, with brackets for an IPv6 host. *)
Lemma SplitHostPort_join s h p :
  SplitHostPort s = Ok (h, p) ->
  (s = h +:+ ":" +:+ p \/ s = "[" +:+ h +:+ "]:" +:+ p) /\ colon ∉ String.list_ascii_of_string p.
Proof.
  unfold SplitHostPort. intros Hs. pose proof (String.string_of_list_ascii_of_string s) as Es.
  remember (String.list_ascii_of_string s) as l eqn:El0. rewrite <- Es. clear El0.
  destruct (last_index_byte colon l) as [i|] eqn:Hi; [|done].
  apply last_index_byte_split in Hi as [Hl Hn].
  destruct l as [|c l'] eqn:El; [done|]. destruct (Ascii.eqb c lbracket) eqn:Hc.
  - apply Ascii.eqb_eq in Hc as ->.
    destruct (index_byte rbracket (lbracket :: l')) as [e|] eqn:He; [|done].
    destruct (S e =? length (lbracket :: l'))%nat; [done|].
    destruct (Nat.eqb_spec (S e) i) as [<-|]; [|by split_hyp Hs].
    apply split_rest_ok in Hs as [-> ->].
    simpl in He. destruct (index_byte rbracket l') as [e'|] eqn:He'; [|done]. injection He as <-.
    rewrite String.list_ascii_of_string_of_list_ascii. split; [right|done].
    apply index_byte_lookup in He'. simpl in Hl. injection Hl as Hl.
    simpl. rewrite Nat.sub_0_r. rewrite Hl at 1.
    pose proof (take_S_r _ _ _ He') as Ht.
    rewrite Ht, <- app_assoc, drop_0, string_of_app. done.
  - destruct (isSome _); [done|]. apply split_rest_ok in Hs as [-> ->].
    rewrite String.list_ascii_of_string_of_list_ascii. split; [left|done].
    rewrite Hl at 1. by rewrite string_of_app.
Qed.

(** ** The validator *)

Lemma validatePort_required host :
  validatePort host false = None <->
  exists h p n, SplitHostPort host = Ok (h, p) /\ Atoi p = Some n.
Proof.
  unfold validatePort. destruct (SplitHostPort host) as [[h p]|e].
  - destruct (str_eqb p "") eqn:Hp; simpl.
    + apply str_eqb_true in Hp as ->. split; [done|]. by intros (h' & p' & n & [= <- <-] & Hn).
    + destruct (Atoi p) as [n|] eqn:Hn; simpl; (split; [try done|try done]).
      * intros _. by exists h, p, n.
      * intros (h' & p' & n' & [= <- <-] & Hn'). congruence.
  - destruct (Contains (Error e) missingPort); simpl; (split; [done|]);
      by intros (h' & p' & n & ? & _).
Qed.

Lemma validateGRPCWithOAuth2_none scheme tls :
  validateGRPCWithOAuth2 scheme tls = None <->
  (forall t, tls = Some t -> tls_Insecure t = false) /\ scheme <> "http".
Proof.
  unfold validateGRPCWithOAuth2. destruct (str_eqb scheme "http") eqn:Hs.
  - apply str_eqb_true in Hs. split; [by intros ?; repeat case_match|by intros [_ ?]].
  - apply str_eqb_false in Hs. destruct tls as [t|]; [destruct (tls_Insecure t) eqn:Ht|].
    + split; [done|]. intros [Hi _]. specialize (Hi t eq_refl). congruence.
    + split; [|done]. intros _. split; [|done]. by intros ? [= <-].
    + done.
Qed.

Lemma protocols_distinct :
  str_eqb OTLPProtocolGRPC OTLPProtocolGRPC = true /\
  str_eqb OTLPProtocolGRPC OTLPProtocolHTTP = false /\
  str_eqb OTLPProtocolGRPC FluentdProtocolHTTP = false /\
  str_eqb OTLPProtocolHTTP OTLPProtocolHTTP = true /\
  str_eqb OTLPProtocolHTTP OTLPProtocolGRPC = false.
Proof. by vm_compute. Qed.

Section Props.
Context `{SecretReader} `{URLLib}.

(** A resolved and parsed gRPC endpoint is accepted exactly when its host has a
    numeric port, it has no path, and with OAuth2 neither an insecure TLS
    setting nor the http scheme is used. *)
Theorem Endpoint_grpc_exact endpoint tls oauth v u :
  resolveValue endpoint = Ok v -> parseEndpoint v = Ok u ->
  Validate (mkEndpointParams (Some endpoint) OTLPProtocolGRPC tls oauth) = Some None <->
  (exists h p n, SplitHostPort (u_Host u) = Ok (h, p) /\ Atoi p = Some n) /\
  u_Path u = "" /\
  (is_Some oauth -> (forall t, tls = Some t -> tls_Insecure t = false) /\ u_Scheme u <> "http").
Proof.
  intros Hv Hu. unfold Validate. simpl ep_Endpoint. cbv iota. rewrite Hv, Hu. unfold validate_oauth2. simpl ep_Protocol.
  destruct protocols_distinct as (-> & -> & -> & _). simpl ep_OTLPOAuth2. simpl ep_OutputTLS. cbn [negb].
  rewrite <- validatePort_required. unfold validateGRPCPath.
  destruct (validatePort (u_Host u) false) as [e|]; [by split; [|intros [? _]]|].
  destruct (str_eqb (u_Path u) "") eqn:Hp; simpl negb; cbv iota;
    [|apply str_eqb_false in Hp; by split; [|intros (_ & ? & _)]].
  apply str_eqb_true in Hp. destruct oauth as [o|].
  - pose proof (validateGRPCWithOAuth2_none (u_Scheme u) tls) as Ho.
    destruct (validateGRPCWithOAuth2 _ _); split.
    + done.
    + intros (_ & _ & Hx). destruct (proj2 Ho (Hx (mk_is_Some _ _ eq_refl))). done.
    + intros _. split; [done|]. split; [done|]. intros _. by apply Ho.
    + done.
  - split; [|done]. intros _. split; [done|]. split; [done|]. by intros [? ?].
Qed.

(** The URL of an endpoint text; a text without a scheme or a host is read as host and path. *)
Definition endpoint_url (t : string) (u : URL) : Prop :=
  exists u0, url_parse t = Ok u0 /\
    ((u_Opaque u0 = "" /\ u_Scheme u0 <> "" /\ u_Host u0 <> "" /\ u = u0) \/
     ((u_Opaque u0 <> "" \/ u_Scheme u0 = "" \/ u_Host u0 = "") /\
      exists u1, url_parse ("plhd://" +:+ t) = Ok u1 /\ u = mkURL "" (u_Opaque u1) (u_Host u1) (u_Path u1))).

Definition has_numeric_port (host : string) : Prop :=
  exists h p n, SplitHostPort host = Ok (h, p) /\ Atoi p = Some n.
Definition port_may_be_missing (host : string) : Prop :=
  (exists h p, SplitHostPort host = Ok (h, p)) \/
  (exists e, SplitHostPort host = Err e /\ Contains (Error e) "missing port in address" = true).

(** The endpoints of the OTLP protocols: gRPC needs a numeric port and has no path, and with OAuth2
    it must be encrypted; HTTP needs the scheme http or https, and with OAuth2 TLS material excludes http. *)
Definition grpc_endpoint (tls : option OutputTLS) (oauth : option OAuth2Options) (u : URL) : Prop :=
  has_numeric_port (u_Host u) /\ u_Path u = "" /\
  (is_Some oauth -> (forall t, tls = Some t -> tls_Insecure t = false) /\ u_Scheme u <> "http").
Definition http_endpoint (tls : option OutputTLS) (oauth : option OAuth2Options) (u : URL) : Prop :=
  port_may_be_missing (u_Host u) /\ (u_Scheme u = "http" \/ u_Scheme u = "https") /\
  (is_Some oauth -> u_Scheme u = "http" -> forall t, tls = Some t ->
     tls_Insecure t = true \/ (tls_CA t = None /\ tls_Cert t = None /\ tls_Key t = None)).

Lemma parseEndpoint_exact t u : parseEndpoint t = Ok u <-> endpoint_url t u.
Proof.
  unfold parseEndpoint, endpoint_url. destruct (url_parse t) as [u0|e]; [|naive_solver].
  destruct (str_eqb (u_Opaque u0) "") eqn:Ho, (str_eqb (u_Scheme u0) "") eqn:Hs, (str_eqb (u_Host u0) "") eqn:Hh;
    rewrite ?str_eqb_true, ?str_eqb_false in *; cbn [negb orb]; destruct (url_parse ("plhd://" +:+ t)); naive_solver.
Qed.

Lemma validatePort_optional host : validatePort host true = None <-> port_may_be_missing host.
Proof.
  unfold validatePort, port_may_be_missing. destruct (SplitHostPort host) as [[h p]|e].
  - split; [|done]. intros _. left. by exists h, p.
  - change missingPort with "missing port in address".
    destruct (Contains (Error e) "missing port in address") eqn:Hc; cbn [negb]; split; try done.
    + intros _. right. by exists e.
    + intros [(? & ? & ?)|(? & [= <-] & ?)]; [done|congruence].
Qed.

Lemma validateSchemeHTTP_none scheme : validateSchemeHTTP scheme = None <-> scheme = "http" \/ scheme = "https".
Proof.
  unfold validateSchemeHTTP. destruct (str_eqb scheme "http") eqn:Hh, (str_eqb scheme "https") eqn:Hs;
    rewrite ?str_eqb_true, ?str_eqb_false in *; cbn; naive_solver.
Qed.

Lemma validateHTTPWithOAuth2_none scheme tls :
  validateHTTPWithOAuth2 scheme tls = None <->
  (scheme = "http" -> forall t, tls = Some t ->
     tls_Insecure t = true \/ (tls_CA t = None /\ tls_Cert t = None /\ tls_Key t = None)).
Proof.
  unfold validateHTTPWithOAuth2, isTLSConfigured. destruct (str_eqb scheme "http") eqn:Hh;
    rewrite ?str_eqb_true, ?str_eqb_false in *; cbn [andb]; [|naive_solver].
  destruct tls as [t|]; [|naive_solver].
  destruct (tls_Insecure t) eqn:Hi; [naive_solver|].
  destruct (tls_CA t) eqn:H1, (tls_Cert t) eqn:H2, (tls_Key t) eqn:H3; cbn; split; intros Hx; try done;
    try (intros ? ? [= <-]; right; done); exfalso; destruct (Hx Hh t eq_refl) as [?|(? & ? & ?)]; congruence.
Qed.

Lemma Validate_exact endpoint protocol tls oauth :
  protocol = OTLPProtocolGRPC \/ protocol = OTLPProtocolHTTP ->
  Validate (mkEndpointParams (Some endpoint) protocol tls oauth) = Some None <->
  exists t u, value_text endpoint t /\ endpoint_url t u /\
    if str_eqb protocol "grpc" then grpc_endpoint tls oauth u else http_endpoint tls oauth u.
Proof.
  intros Hp. assert (Hr : forall x, resolveValue endpoint = Ok x <-> exists t, value_text endpoint t /\ x = t)
    by exact (resolved_text endpoint (fun t => t) (invalid ErrEndpointValueResolveFailed)). destruct (resolveValue endpoint) as [t|e] eqn:Ht; cycle 1.
  { unfold Validate. cbn [ep_Endpoint]. rewrite Ht. split; [done|]. intros (t & u & Hv & _).
    discriminate (proj2 (Hr t) (ex_intro _ t (conj Hv eq_refl))). }
  destruct (parseEndpoint t) as [u|e] eqn:Hu; cycle 1.
  { unfold Validate. cbn [ep_Endpoint]. rewrite Ht, Hu. split; [done|]. intros (t' & u & Hv & Hu' & _).
    pose proof (proj2 (Hr t') (ex_intro _ t' (conj Hv eq_refl))) as [= <-].
    apply parseEndpoint_exact in Hu'. congruence. }
  trans (if str_eqb protocol "grpc" then grpc_endpoint tls oauth u else http_endpoint tls oauth u).
  - destruct Hp as [->| ->].
    + change (str_eqb OTLPProtocolGRPC "grpc") with true. apply (Endpoint_grpc_exact endpoint tls oauth t u Ht Hu).
    + change (str_eqb OTLPProtocolHTTP "grpc") with false. unfold Validate, validate_oauth2, http_endpoint.
      cbn [ep_Endpoint ep_Protocol ep_OTLPOAuth2 ep_OutputTLS]. rewrite Ht, Hu.
      destruct protocols_distinct as (_ & _ & _ & -> & ->). change (str_eqb OTLPProtocolHTTP FluentdProtocolHTTP) with false.
      cbn [negb]. rewrite <- validatePort_optional, <- validateSchemeHTTP_none, <- validateHTTPWithOAuth2_none.
      destruct (validatePort _ _); [naive_solver|]. destruct (validateSchemeHTTP _); [naive_solver|].
      destruct oauth as [o|]; [|by split; [intros _; split_and!; [..|intros [? ?]]|]].
      destruct (validateHTTPWithOAuth2 _ _); split; [done|intros (_ & _ & Hx); by destruct (Hx (mk_is_Some _ _ eq_refl))|done|done].
  - apply parseEndpoint_exact in Hu as Hu'. split.
    + intros Hx. exists t, u. split_and!; [|done..]. by destruct (proj1 (Hr t) eq_refl) as (t' & Hv & ->).
    + intros (t' & u' & Hv & Hpe & Hx). pose proof (proj2 (Hr t') (ex_intro _ t' (conj Hv eq_refl))) as [= <-].
      apply parseEndpoint_exact in Hpe. assert (u' = u) as -> by congruence. done.
Qed.

(** An error of the endpoint validator. *)
Definition endpoint_sentinels : list sentinel :=
  [ErrEndpointValueResolveFailed; ErrPortMissing; ErrUnsupportedScheme; ErrGRPCOAuth2NoTLS;
   ErrHTTPWithTLS; ErrGRPCWithPath].

Definition is_endpoint_error (e : goerror) : Prop :=
  (exists s, e = EndpointInvalidError (Sentinel s) /\ s ∈ endpoint_sentinels) \/
  (exists m, e = EndpointInvalidError (NewError m)).

Lemma invalid_endpoint_error s : s ∈ endpoint_sentinels -> is_endpoint_error (invalid s).
Proof. left. eauto. Qed.

Lemma text_endpoint_error m : is_endpoint_error (EndpointInvalidError (NewError m)).
Proof. right. eauto. Qed.

#[local] Hint Resolve text_endpoint_error : core.
#[local] Hint Extern 1 (is_endpoint_error (invalid _)) =>
  apply invalid_endpoint_error, (bool_decide_unpack _); exact I : core.

Lemma resolveValue_err value e : resolveValue value = Err e -> is_endpoint_error e.
Proof. unfold resolveValue. intros Hr. split_hyp Hr; auto. Qed.

Lemma parseEndpoint_err s e : parseEndpoint s = Err e -> is_endpoint_error e.
Proof. unfold parseEndpoint. intros Hr. split_hyp Hr; auto. Qed.

Lemma validatePort_err host b e : validatePort host b = Some e -> is_endpoint_error e.
Proof.
  unfold validatePort. intros Hr. destruct (SplitHostPort host) as [[h p]|e'] eqn:Hs.
  - split_hyp Hr; auto.
  - apply SplitHostPort_err in Hs as [m ->]. split_hyp Hr; auto.
Qed.

Lemma Validate_err params e : Validate params = Some (Some e) -> is_endpoint_error e.
Proof.
  unfold Validate. intros Hv.
  destruct (ep_Endpoint params) as [v|]; [|simplify_eq; auto].
  destruct (resolveValue v) as [s|e'] eqn:Hr; [|simplify_eq; by eapply resolveValue_err].
  destruct (parseEndpoint s) as [u|e'] eqn:Hu; [|simplify_eq; by eapply parseEndpoint_err].
  destruct (validatePort _ _) as [e'|] eqn:Hport; [simplify_eq; by eapply validatePort_err|].
  unfold validateSchemeHTTP, validateGRPCPath, validate_oauth2, validateGRPCWithOAuth2,
    validateHTTPWithOAuth2 in Hv.
  split_hyp Hv; auto; repeat (case_match; simplify_eq); auto.
Qed.

Lemma Validate_returns params :
  ep_Protocol params ∈ [OTLPProtocolGRPC; OTLPProtocolHTTP; FluentdProtocolHTTP] ->
  is_Some (Validate params).
Proof.
  intros Hp. unfold Validate, validate_oauth2. rewrite !elem_of_cons in Hp.
  destruct protocols_distinct as (Hgg & _ & _ & Hhh & Hhg).
  destruct Hp as [->|[->|[->|?%not_elem_of_nil]]]; [..|done]; rewrite ?Hgg, ?Hhh, ?Hhg;
    rewrite ?str_eqb_refl; repeat case_match; eauto.
Qed.

(** For the protocols of the CRDs the endpoint validator always returns, and
    every error it returns is an EndpointInvalidError around one of its
    sentinels or a parse error. *)
Theorem Endpoint_never_panics params :
  ep_Protocol params ∈ [OTLPProtocolGRPC; OTLPProtocolHTTP; FluentdProtocolHTTP] ->
  exists r, Validate params = Some r /\ forall e, r = Some e -> is_endpoint_error e.
Proof.
  intros [r Hr]%Validate_returns. exists r. split; [done|]. intros e ->. by eapply Validate_err.
Qed.

End Props.

(** ** Concrete runs *)

Module Sample.

#[export] Instance reader : SecretReader := fun _ => Err NotFound.

(** A parser that knows one URL. *)
#[export] Instance urls : URLLib := fun s =>
  if str_eqb s "https://backend:4317" then Ok (mkURL "https" "" "backend:4317" "")
  else Err "unsupported".

Definition endpoint : ValueType := mkValueType "https://backend:4317" None.

End Sample.
#[local] Existing Instance Sample.reader.
#[local] Existing Instance Sample.urls.

Lemma Endpoint_grpc_witness :
  Validate (mkEndpointParams (Some Sample.endpoint) OTLPProtocolGRPC None None) = Some None.
Proof.
  apply (Endpoint_grpc_exact Sample.endpoint None None "https://backend:4317"
           (mkURL "https" "" "backend:4317" "")); [reflexivity|reflexivity|].
  split; [exists "backend", "4317", 4317%Z; split; vm_compute; reflexivity|].
  split; [reflexivity|]. intros [? Ho]. discriminate Ho.
Defined.

Lemma Endpoint_never_panics_witness :
  exists r, Validate (mkEndpointParams (Some Sample.endpoint) OTLPProtocolHTTP None
                        (Some (mkOAuth2Options Sample.endpoint Sample.endpoint Sample.endpoint None None)))
            = Some r.
Proof.
  destruct (Endpoint_never_panics (mkEndpointParams (Some Sample.endpoint) OTLPProtocolHTTP None
    (Some (mkOAuth2Options Sample.endpoint Sample.endpoint Sample.endpoint None None)))) as (r & Hr & _).
  - apply list_elem_of_further, list_elem_of_here.
  - exists r. exact Hr.
Defined.
