(* ===== verification/MetricInputs.v ===== *)
(** * Metric inputs

    Which inputs of a MetricPipeline are enabled (internal/utils/metricpipeline), the
    runtime metrics the agent's receivers emit
    (internal/otelcollector/config/metricagent), the validator of the additional
    runtime metrics (internal/validators/runtimemetrics) and the split of these
    metrics over the two receivers. Where the code dereferences the runtime, istio or
    prometheus input without a nil check the input is an argument. *)
From stdpp Require Import base gmap strings list.
From S2P Require Import Prelude Kube GoErrors.
From S2P Require Import ApiV1beta1.
Local Open Scope string_scope.

(** ** Enabled inputs *)

Definition is_true (b : option bool) : bool := match b with Some b => b | None => false end.

Definition IsIstioInputEnabled (input : MetricPipelineInput) : bool :=
  match mi_Istio input with Some i => is_true (ii_Enabled i) | None => false end.
Definition IsPrometheusInputEnabled (input : MetricPipelineInput) : bool :=
  match mi_Prometheus input with Some p => is_true (pi_Enabled p) | None => false end.
Definition IsRuntimeInputEnabled (input : MetricPipelineInput) : bool :=
  match mi_Runtime input with Some r => is_true (mri_Enabled r) | None => false end.

Definition IsEnvoyMetricsEnabled (istio : MetricPipelineIstioInput) : bool :=
  match ii_EnvoyMetrics istio with Some e => is_true (em_Enabled e) | None => false end.
Definition IsPrometheusDiagnosticInputEnabled (prometheus : MetricPipelinePrometheusInput) : bool :=
  match pi_DiagnosticMetrics prometheus with Some d => is_true (dm_Enabled d) | None => false end.
Definition IsIstioDiagnosticInputEnabled (istio : MetricPipelineIstioInput) : bool :=
  match ii_DiagnosticMetrics istio with Some d => is_true (dm_Enabled d) | None => false end.

(** A runtime resource: [def] when any of the fields is nil. *)
Definition resource_enabled (def : bool) (runtime : MetricPipelineRuntimeInput)
    (f : MetricPipelineRuntimeInputResources -> option MetricPipelineRuntimeInputResource) : bool :=
  match mri_Resources runtime with
  | None => def
  | Some rs => match f rs with None => def | Some r => deref (rr_Enabled r) def end
  end.

Definition IsRuntimePodInputEnabled r := resource_enabled true r rrs_Pod.
Definition IsRuntimeContainerInputEnabled r := resource_enabled true r rrs_Container.
Definition IsRuntimeNodeInputEnabled r := resource_enabled true r rrs_Node.
Definition IsRuntimeVolumeInputEnabled r := resource_enabled true r rrs_Volume.
Definition IsRuntimeStatefulSetInputEnabled r := resource_enabled true r rrs_StatefulSet.
Definition IsRuntimeDeploymentInputEnabled r := resource_enabled true r rrs_Deployment.
Definition IsRuntimeDaemonSetInputEnabled r := resource_enabled true r rrs_DaemonSet.
Definition IsRuntimeJobInputEnabled r := resource_enabled true r rrs_Job.

(** [IsDeltaTemporality] dereferences the output and its temporality: [None]. *)
Definition IsDeltaTemporality (output : MetricPipelineOutput) : option bool :=
  otlp ← mout_OTLP output;
  temporality ← mo_Temporality otlp;
  Some (str_eqb temporality TemporalityDelta).

(** ** Metrics of the receivers *)

(** *** kubeletstats_metrics.go *)

Definition metricContainerCPUTime : string := "container.cpu.time".
Definition metricContainerCPUUsage : string := "container.cpu.usage".
Definition metricContainerFSAvailable : string := "container.filesystem.available".
Definition metricContainerFSCapacity : string := "container.filesystem.capacity".
Definition metricContainerFSUsage : string := "container.filesystem.usage".
Definition metricContainerMemoryAvailable : string := "container.memory.available".
Definition metricContainerMemoryMajorPageFault : string := "container.memory.major_page_faults".
Definition metricContainerMemoryPageFaults : string := "container.memory.page_faults".
Definition metricContainerMemoryRSS : string := "container.memory.rss".
Definition metricContainerMemoryUsage : string := "container.memory.usage".
Definition metricContainerMemoryWorkingSet : string := "container.memory.working_set".
Definition metricK8sNodeCPUTime : string := "k8s.node.cpu.time".
Definition metricK8sNodeCPUUsage : string := "k8s.node.cpu.usage".
Definition metricK8sNodeFSAvailable : string := "k8s.node.filesystem.available".
Definition metricK8sNodeFSCapacity : string := "k8s.node.filesystem.capacity".
Definition metricK8sNodeFSUsage : string := "k8s.node.filesystem.usage".
Definition metricK8sNodeMemoryAvailable : string := "k8s.node.memory.available".
Definition metricK8sNodeMemoryMajorPageFaults : string := "k8s.node.memory.major_page_faults".
Definition metricK8sNodeMemoryPageFaults : string := "k8s.node.memory.page_faults".
Definition metricK8sNodeMemoryRSS : string := "k8s.node.memory.rss".
Definition metricK8sNodeMemoryUsage : string := "k8s.node.memory.usage".
Definition metricK8sNodeMemoryWorkingSet : string := "k8s.node.memory.working_set".
Definition metricK8sNodeNetworkErrors : string := "k8s.node.network.errors".
Definition metricK8sNodeNetworkIO : string := "k8s.node.network.io".
Definition metricK8sPodCPUTime : string := "k8s.pod.cpu.time".
Definition metricK8sPodCPUUsage : string := "k8s.pod.cpu.usage".
Definition metricK8sPodFSAvailable : string := "k8s.pod.filesystem.available".
Definition metricK8sPodFSCapacity : string := "k8s.pod.filesystem.capacity".
Definition metricK8sPodFSUsage : string := "k8s.pod.filesystem.usage".
Definition metricK8sPodMemoryAvailable : string := "k8s.pod.memory.available".
Definition metricK8sPodMemoryMajorPageFaults : string := "k8s.pod.memory.major_page_faults".
Definition metricK8sPodMemoryPageFaults : string := "k8s.pod.memory.page_faults".
Definition metricK8sPodMemoryRSS : string := "k8s.pod.memory.rss".
Definition metricK8sPodMemoryUsage : string := "k8s.pod.memory.usage".
Definition metricK8sPodMemoryWorkingSet : string := "k8s.pod.memory.working_set".
Definition metricK8sPodNetworkErrors : string := "k8s.pod.network.errors".
Definition metricK8sPodNetworkIO : string := "k8s.pod.network.io".
Definition metricK8sVolumeAvailable : string := "k8s.volume.available".
Definition metricK8sVolumeCapacity : string := "k8s.volume.capacity".
Definition metricK8sVolumeInodes : string := "k8s.volume.inodes".
Definition metricK8sVolumeInodesFree : string := "k8s.volume.inodes.free".
Definition metricK8sVolumeInodesUsed : string := "k8s.volume.inodes.used".
Definition metricContainerUptime : string := "container.uptime".
Definition metricK8sContainerCPUNodeUtilization : string := "k8s.container.cpu.node.utilization".
Definition metricK8sContainerCPULimitUtilization : string := "k8s.container.cpu_limit_utilization".
Definition metricK8sContainerCPURequestUtilization : string := "k8s.container.cpu_request_utilization".
Definition metricK8sContainerEphemeralStorageUsage : string := "k8s.container.ephemeral_storage.usage".
Definition metricK8sContainerMemNodeUtilization : string := "k8s.container.memory.node.utilization".
Definition metricK8sContainerMemLimitUtilization : string := "k8s.container.memory_limit_utilization".
Definition metricK8sContainerMemRequestUtilization : string := "k8s.container.memory_request_utilization".
Definition metricK8sNodeSystemContainerCPUTime : string := "k8s.node.system_container.cpu.time".
Definition metricK8sNodeSystemContainerCPUUsage : string := "k8s.node.system_container.cpu.usage".
Definition metricK8sNodeSystemContainerMemoryUsage : string := "k8s.node.system_container.memory.usage".
Definition metricK8sNodeSystemContainerMemoryWorkingSet : string := "k8s.node.system_container.memory.working_set".
Definition metricK8sNodeUptime : string := "k8s.node.uptime".
Definition metricK8sPodCPUNodeUtilization : string := "k8s.pod.cpu.node.utilization".
Definition metricK8sPodCPULimitUtilization : string := "k8s.pod.cpu_limit_utilization".
Definition metricK8sPodCPURequestUtilization : string := "k8s.pod.cpu_request_utilization".
Definition metricK8sPodMemNodeUtilization : string := "k8s.pod.memory.node.utilization".
Definition metricK8sPodMemLimitUtilization : string := "k8s.pod.memory_limit_utilization".
Definition metricK8sPodMemRequestUtilization : string := "k8s.pod.memory_request_utilization".
Definition metricK8sPodUptime : string := "k8s.pod.uptime".
Definition metricK8sPodVolumeUsage : string := "k8s.pod.volume.usage".

Definition kubeletStatsReceiverContainerMetrics : list string :=
  [metricContainerCPUTime;
   metricContainerCPUUsage;
   metricContainerFSAvailable;
   metricContainerFSCapacity;
   metricContainerFSUsage;
   metricContainerMemoryAvailable;
   metricContainerMemoryMajorPageFault;
   metricContainerMemoryPageFaults;
   metricContainerMemoryRSS;
   metricContainerMemoryUsage;
   metricContainerMemoryWorkingSet].

Definition kubeletStatsReceiverNodeMetrics : list string :=
  [metricK8sNodeCPUUsage;
   metricK8sNodeFSAvailable;
   metricK8sNodeFSCapacity;
   metricK8sNodeFSUsage;
   metricK8sNodeMemoryAvailable;
   metricK8sNodeMemoryRSS;
   metricK8sNodeMemoryUsage;
   metricK8sNodeMemoryWorkingSet;
   metricK8sNodeNetworkErrors;
   metricK8sNodeNetworkIO].

Definition kubeletStatsReceiverPodMetrics : list string :=
  [metricK8sPodCPUTime;
   metricK8sPodCPUUsage;
   metricK8sPodFSAvailable;
   metricK8sPodFSCapacity;
   metricK8sPodFSUsage;
   metricK8sPodMemoryAvailable;
   metricK8sPodMemoryMajorPageFaults;
   metricK8sPodMemoryPageFaults;
   metricK8sPodMemoryRSS;
   metricK8sPodMemoryUsage;
   metricK8sPodMemoryWorkingSet;
   metricK8sPodNetworkErrors;
   metricK8sPodNetworkIO].

Definition kubeletStatsReceiverVolumeMetrics : list string :=
  [metricK8sVolumeAvailable;
   metricK8sVolumeCapacity;
   metricK8sVolumeInodes;
   metricK8sVolumeInodesFree;
   metricK8sVolumeInodesUsed].

Definition kubeletStatsReceiverExtraMetrics : list string :=
  [metricK8sNodeCPUTime;
   metricK8sNodeMemoryMajorPageFaults;
   metricK8sNodeMemoryPageFaults;
   metricContainerUptime;
   metricK8sContainerCPUNodeUtilization;
   metricK8sContainerCPULimitUtilization;
   metricK8sContainerCPURequestUtilization;
   metricK8sContainerEphemeralStorageUsage;
   metricK8sContainerMemNodeUtilization;
   metricK8sContainerMemLimitUtilization;
   metricK8sContainerMemRequestUtilization;
   metricK8sNodeSystemContainerCPUTime;
   metricK8sNodeSystemContainerCPUUsage;
   metricK8sNodeSystemContainerMemoryUsage;
   metricK8sNodeSystemContainerMemoryWorkingSet;
   metricK8sNodeUptime;
   metricK8sPodCPUNodeUtilization;
   metricK8sPodCPULimitUtilization;
   metricK8sPodCPURequestUtilization;
   metricK8sPodMemNodeUtilization;
   metricK8sPodMemLimitUtilization;
   metricK8sPodMemRequestUtilization;
   metricK8sPodUptime;
   metricK8sPodVolumeUsage].

Definition KubeletStatsReceiverMetrics : list string :=
  (kubeletStatsReceiverContainerMetrics
   ++ kubeletStatsReceiverNodeMetrics
   ++ kubeletStatsReceiverPodMetrics
   ++ kubeletStatsReceiverVolumeMetrics
   ++ kubeletStatsReceiverExtraMetrics)%list.

(** *** k8scluster_metrics.go *)

Definition metricK8sContainerCPULimit : string := "k8s.container.cpu_limit".
Definition metricK8sContainerCPURequest : string := "k8s.container.cpu_request".
Definition metricK8sContainerEphemeralStorageLimit : string := "k8s.container.ephemeralstorage_limit".
Definition metricK8sContainerEphemeralStorageRequest : string := "k8s.container.ephemeralstorage_request".
Definition metricK8sContainerMemoryLimit : string := "k8s.container.memory_limit".
Definition metricK8sContainerMemoryRequest : string := "k8s.container.memory_request".
Definition metricK8sContainerReady : string := "k8s.container.ready".
Definition metricK8sContainerRestarts : string := "k8s.container.restarts".
Definition metricK8sContainerStorageLimit : string := "k8s.container.storage_limit".
Definition metricK8sContainerStorageRequest : string := "k8s.container.storage_request".
Definition metricK8sCronJobActiveJobs : string := "k8s.cronjob.active_jobs".
Definition metricK8sDaemonSetCurrentScheduledNodes : string := "k8s.daemonset.current_scheduled_nodes".
Definition metricK8sDaemonSetDesiredScheduledNodes : string := "k8s.daemonset.desired_scheduled_nodes".
Definition metricK8sDaemonSetMisscheduledNodes : string := "k8s.daemonset.misscheduled_nodes".
Definition metricK8sDaemonSetReadyNodes : string := "k8s.daemonset.ready_nodes".
Definition metricK8sDeploymentAvailable : string := "k8s.deployment.available".
Definition metricK8sDeploymentDesired : string := "k8s.deployment.desired".
Definition metricK8sHPACurrentReplicas : string := "k8s.hpa.current_replicas".
Definition metricK8sHPADesiredReplicas : string := "k8s.hpa.desired_replicas".
Definition metricK8sHPAMaxReplicas : string := "k8s.hpa.max_replicas".
Definition metricK8sHPAMinReplicas : string := "k8s.hpa.min_replicas".
Definition metricK8sJobActivePods : string := "k8s.job.active_pods".
Definition metricK8sJobDesiredSuccessfulPods : string := "k8s.job.desired_successful_pods".
Definition metricK8sJobFailedPods : string := "k8s.job.failed_pods".
Definition metricK8sJobMaxParallelPods : string := "k8s.job.max_parallel_pods".
Definition metricK8sJobSuccessfulPods : string := "k8s.job.successful_pods".
Definition metricK8sNamespacePhase : string := "k8s.namespace.phase".
Definition metricK8sPodPhase : string := "k8s.pod.phase".
Definition metricK8sReplicaSetAvailable : string := "k8s.replicaset.available".
Definition metricK8sReplicaSetDesired : string := "k8s.replicaset.desired".
Definition metricK8sReplicationControllerAvailable : string := "k8s.replication_controller.available".
Definition metricK8sReplicationControllerDesired : string := "k8s.replication_controller.desired".
Definition metricK8sResourceQuotaHardLimit : string := "k8s.resource_quota.hard_limit".
Definition metricK8sResourceQuotaUsed : string := "k8s.resource_quota.used".
Definition metricK8sStatefulSetCurrentPods : string := "k8s.statefulset.current_pods".
Definition metricK8sStatefulSetDesiredPods : string := "k8s.statefulset.desired_pods".
Definition metricK8sStatefulSetReadyPods : string := "k8s.statefulset.ready_pods".
Definition metricK8sStatefulSetUpdatedPods : string := "k8s.statefulset.updated_pods".
Definition metricK8sContainerStatusReason : string := "k8s.container.status.reason".
Definition metricK8sContainerStatusState : string := "k8s.container.status.state".
Definition metricK8sNodeCondition : string := "k8s.node.condition".
Definition metricK8sPersistentVolumeStatusPhase : string := "k8s.persistentvolume.status.phase".
Definition metricK8sPersistentVolumeStorageCapacity : string := "k8s.persistentvolume.storage.capacity".
Definition metricK8sPersistentVolumeClaimStatusPhase : string := "k8s.persistentvolumeclaim.status.phase".
Definition metricK8sPersistentVolumeClaimStorageCapacity : string := "k8s.persistentvolumeclaim.storage.capacity".
Definition metricK8sPersistentVolumeClaimStorageRequest : string := "k8s.persistentvolumeclaim.storage.request".
Definition metricK8sPodStatusReason : string := "k8s.pod.status_reason".
Definition metricK8sServiceEndpointCount : string := "k8s.service.endpoint.count".
Definition metricK8sServiceLBIngressCount : string := "k8s.service.load_balancer.ingress.count".

Definition k8sClusterReceiverPodMetrics : list string :=
  [metricK8sPodPhase].

Definition k8sClusterReceiverContainerMetrics : list string :=
  [metricK8sContainerCPURequest;
   metricK8sContainerCPULimit;
   metricK8sContainerMemoryRequest;
   metricK8sContainerMemoryLimit;
   metricK8sContainerRestarts].

Definition k8sClusterReceiverStatefulSetMetrics : list string :=
  [metricK8sStatefulSetCurrentPods;
   metricK8sStatefulSetDesiredPods;
   metricK8sStatefulSetReadyPods;
   metricK8sStatefulSetUpdatedPods].

Definition k8sClusterReceiverJobMetrics : list string :=
  [metricK8sJobActivePods;
   metricK8sJobDesiredSuccessfulPods;
   metricK8sJobFailedPods;
   metricK8sJobMaxParallelPods;
   metricK8sJobSuccessfulPods].

Definition k8sClusterReceiverDeploymentMetrics : list string :=
  [metricK8sDeploymentAvailable;
   metricK8sDeploymentDesired].

Definition k8sClusterReceiverDaemonSetMetrics : list string :=
  [metricK8sDaemonSetCurrentScheduledNodes;
   metricK8sDaemonSetDesiredScheduledNodes;
   metricK8sDaemonSetMisscheduledNodes;
   metricK8sDaemonSetReadyNodes].

Definition k8sClusterReceiverExtraMetrics : list string :=
  [metricK8sContainerStorageRequest;
   metricK8sContainerStorageLimit;
   metricK8sContainerEphemeralStorageRequest;
   metricK8sContainerEphemeralStorageLimit;
   metricK8sContainerReady;
   metricK8sNamespacePhase;
   metricK8sHPACurrentReplicas;
   metricK8sHPADesiredReplicas;
   metricK8sHPAMinReplicas;
   metricK8sHPAMaxReplicas;
   metricK8sReplicaSetAvailable;
   metricK8sReplicaSetDesired;
   metricK8sReplicationControllerAvailable;
   metricK8sReplicationControllerDesired;
   metricK8sResourceQuotaHardLimit;
   metricK8sResourceQuotaUsed;
   metricK8sCronJobActiveJobs;
   metricK8sContainerStatusReason;
   metricK8sContainerStatusState;
   metricK8sNodeCondition;
   metricK8sPersistentVolumeStatusPhase;
   metricK8sPersistentVolumeStorageCapacity;
   metricK8sPersistentVolumeClaimStatusPhase;
   metricK8sPersistentVolumeClaimStorageCapacity;
   metricK8sPersistentVolumeClaimStorageRequest;
   metricK8sPodStatusReason;
   metricK8sServiceEndpointCount;
   metricK8sServiceLBIngressCount].

Definition K8sClusterReceiverMetrics : list string :=
  (k8sClusterReceiverPodMetrics
   ++ k8sClusterReceiverContainerMetrics
   ++ k8sClusterReceiverStatefulSetMetrics
   ++ k8sClusterReceiverJobMetrics
   ++ k8sClusterReceiverDeploymentMetrics
   ++ k8sClusterReceiverDaemonSetMetrics
   ++ k8sClusterReceiverExtraMetrics)%list.

(** ** Additional runtime metrics *)

(** [slices.Contains] *)
Definition contains (l : list string) (m : string) : bool := existsb (str_eqb m) l.

Definition validRuntimeMetrics : list string :=
  (KubeletStatsReceiverMetrics ++ K8sClusterReceiverMetrics)%list.

Definition docuLink : string := "https://kyma-project.io/external-content/telemetry-manager/docs/user/collecting-metrics/runtime-metrics.html#runtime-additional-metrics".

Fixpoint validate_metrics (ms : list string) : option goerror :=
  match ms with
  | [] => None
  | m :: rest =>
      if negb (contains validRuntimeMetrics m) then
        Some (InvalidAdditionalMetricError (NewError ("invalid runtime additional metric: " +:+ m
          +:+ ". For the list of valid runtime additional metrics, check documentation: " +:+ docuLink)))
      else validate_metrics rest
  end.

(** [(v *Validator) Validate(mp)] of package runtimemetrics *)
Definition ValidateAdditionalMetrics (mp : MetricPipeline) : option goerror :=
  let input := ms_Input (mp_Spec mp) in
  if negb (IsRuntimeInputEnabled input) then None
  else
    match mi_Runtime input with
    | None => None
    | Some runtime => validate_metrics (elems (mri_AdditionalMetrics runtime))
    end.

(** The state of the loops of [getRuntimeAdditionalMetrics]: for each receiver the
    metrics collected so far and the set of those seen. *)
Record collected := mkCollected {
  col_k8sCluster : list string; col_seenK8sCluster : gset string;
  col_kubeletStats : list string; col_seenKubeletStats : gset string }.

Definition collect_metric (s : collected) (m : string) : collected :=
  let s :=
    if contains K8sClusterReceiverMetrics m && negb (bool_decide (m ∈ col_seenK8sCluster s))
    then mkCollected (col_k8sCluster s ++ [m])%list ({[m]} ∪ col_seenK8sCluster s)
           (col_kubeletStats s) (col_seenKubeletStats s)
    else s in
  if contains KubeletStatsReceiverMetrics m && negb (bool_decide (m ∈ col_seenKubeletStats s))
  then mkCollected (col_k8sCluster s) (col_seenK8sCluster s)
         (col_kubeletStats s ++ [m])%list ({[m]} ∪ col_seenKubeletStats s)
  else s.

Definition collect_pipeline (s : collected) (mp : MetricPipeline) : collected :=
  let input := ms_Input (mp_Spec mp) in
  if negb (IsRuntimeInputEnabled input) then s
  else
    match mi_Runtime input with
    | None => s
    | Some runtime => fold_left collect_metric (elems (mri_AdditionalMetrics runtime)) s
    end.

Definition getRuntimeAdditionalMetrics (pipelines : list MetricPipeline) : list string * list string :=
  let s := fold_left collect_pipeline pipelines (mkCollected [] ∅ [] ∅) in
  (col_k8sCluster s, col_kubeletStats s).

(** ** Properties of the additional runtime metrics

    Every additional metric of validated pipelines is configured exactly once, in
    the receiver that emits it. *)

Lemma contains_spec l m : contains l m = true <-> m ∈ l.
Proof.
  unfold contains. rewrite existsb_exists, list_elem_of_In. setoid_rewrite str_eqb_true. naive_solver.
Qed.

#[local] Arguments contains : simpl never.

(** The additional metrics the pipelines ask for. *)
Definition pipeline_metrics (mp : MetricPipeline) : list string :=
  let input := ms_Input (mp_Spec mp) in
  if negb (IsRuntimeInputEnabled input) then []
  else match mi_Runtime input with None => [] | Some r => elems (mri_AdditionalMetrics r) end.

Definition requested (ps : list MetricPipeline) : list string := concat (pipeline_metrics <$> ps).

(** One receiver's list holds the metrics [p] of those processed, each once. *)
Definition receiver_ok (p : list string) (ms l : list string) (seen : gset string) : Prop :=
  NoDup l /\ (forall m, m ∈ l <-> m ∈ ms /\ m ∈ p) /\ (forall m, m ∈ seen <-> m ∈ l).

Definition collected_ok (ms : list string) (s : collected) : Prop :=
  receiver_ok K8sClusterReceiverMetrics ms (col_k8sCluster s) (col_seenK8sCluster s) /\
  receiver_ok KubeletStatsReceiverMetrics ms (col_kubeletStats s) (col_seenKubeletStats s).

Lemma receiver_step p ms l seen m :
  receiver_ok p ms l seen ->
  if contains p m && negb (bool_decide (m ∈ seen))
  then receiver_ok p (ms ++ [m])%list (l ++ [m])%list ({[m]} ∪ seen)
  else receiver_ok p (ms ++ [m])%list l seen.
Proof.
  intros (Hn & Hl & Hs). destruct (contains p m) eqn:Hc; simpl.
  - apply contains_spec in Hc. case_bool_decide as Hm; simpl.
    + apply Hs in Hm. split; [done|]. split; [|done]. intros x. rewrite elem_of_app, list_elem_of_singleton.
      rewrite Hl. split; [naive_solver|]. intros [[?| ->] ?]; [done|]. by apply Hl.
    + rewrite Hs in Hm. split.
      * apply NoDup_app. split; [done|]. split; [|apply NoDup_singleton].
        intros x Hx Hx'. apply list_elem_of_singleton in Hx' as ->. done.
      * split; intros x; [|rewrite elem_of_union, elem_of_singleton, elem_of_app, list_elem_of_singleton, Hs; tauto].
        rewrite !elem_of_app, !list_elem_of_singleton, Hl. naive_solver.
  - split; [done|]. split; [|done]. intros x. rewrite elem_of_app, list_elem_of_singleton, Hl.
    split; [naive_solver|]. intros [[?| ->] Hp]; [done|]. apply contains_spec in Hp. congruence.
Qed.

Lemma collect_metric_ok ms s m :
  collected_ok ms s -> collected_ok (ms ++ [m])%list (collect_metric s m).
Proof.
  intros [H1 H2]. apply (receiver_step _ _ _ _ m) in H1, H2. unfold collect_metric, collected_ok.
  destruct (contains K8sClusterReceiverMetrics m && negb (bool_decide (m ∈ col_seenK8sCluster s)));
    cbn [col_k8sCluster col_seenK8sCluster col_kubeletStats col_seenKubeletStats];
    destruct (contains KubeletStatsReceiverMetrics m && negb (bool_decide (m ∈ col_seenKubeletStats s)));
    split; assumption.
Qed.

Lemma collect_metrics_ok l ms s :
  collected_ok ms s -> collected_ok (ms ++ l)%list (fold_left collect_metric l s).
Proof.
  revert ms s. induction l as [|m l IH]; intros ms s Hs; simpl; [by rewrite app_nil_r|].
  rewrite (cons_middle m ms l), app_assoc. by apply IH, collect_metric_ok.
Qed.

Lemma collect_pipeline_ok ms s mp :
  collected_ok ms s -> collected_ok (ms ++ pipeline_metrics mp)%list (collect_pipeline s mp).
Proof.
  unfold pipeline_metrics, collect_pipeline. intros Hs.
  destruct (negb _); [by rewrite app_nil_r|].
  destruct (mi_Runtime _); [by apply collect_metrics_ok|by rewrite app_nil_r].
Qed.

Lemma collect_pipelines_ok ps ms s :
  collected_ok ms s -> collected_ok (ms ++ requested ps)%list (fold_left collect_pipeline ps s).
Proof.
  unfold requested. revert ms s. induction ps as [|p ps IH]; intros ms s Hs; simpl; [by rewrite app_nil_r|].
  rewrite app_assoc. by apply IH, collect_pipeline_ok.
Qed.

Lemma collected_ok_empty : collected_ok [] (mkCollected [] ∅ [] ∅).
Proof. by repeat split; try apply NoDup_nil_2; set_solver. Qed.

(** The receivers' metrics are pairwise different. *)
Lemma receiver_metrics_NoDup : NoDup validRuntimeMetrics.
Proof. apply (bool_decide_unpack _). vm_compute. exact I. Qed.

Lemma receivers_disjoint m : m ∈ KubeletStatsReceiverMetrics -> m ∈ K8sClusterReceiverMetrics -> False.
Proof. pose proof receiver_metrics_NoDup as Hn. apply NoDup_app in Hn as (_ & Hd & _). intros. by eapply Hd. Qed.

Lemma validate_metrics_none ms :
  validate_metrics ms = None <-> Forall (fun m => m ∈ validRuntimeMetrics) ms.
Proof.
  induction ms as [|m ms IH]; simpl; [by split|]. rewrite Forall_cons, <- IH, <- contains_spec.
  destruct (contains validRuntimeMetrics m); simpl; [|by split; [|intros [? _]]].
  split; [done|by intros [_ ?]].
Qed.

Lemma ValidateAdditionalMetrics_none mp :
  ValidateAdditionalMetrics mp = None <-> Forall (fun m => m ∈ validRuntimeMetrics) (pipeline_metrics mp).
Proof.
  unfold ValidateAdditionalMetrics, pipeline_metrics. destruct (negb _); [by split|].
  destruct (mi_Runtime _); [apply validate_metrics_none|by split].
Qed.

(** For pipelines that pass validation, getRuntimeAdditionalMetrics distributes
    the requested additional metrics completely between the two runtime
    receivers: each requested metric goes to exactly one receiver that knows it,
    and none is listed twice. *)
Theorem runtime_metrics_partition ps :
  Forall (fun mp => ValidateAdditionalMetrics mp = None) ps ->
  let '(k8sCluster, kubeletStats) := getRuntimeAdditionalMetrics ps in
  NoDup k8sCluster /\ NoDup kubeletStats /\
  (forall m, m ∈ k8sCluster -> m ∈ K8sClusterReceiverMetrics) /\
  (forall m, m ∈ kubeletStats -> m ∈ KubeletStatsReceiverMetrics) /\
  (forall m, m ∈ requested ps <-> (m ∈ k8sCluster \/ m ∈ kubeletStats)) /\
  (forall m, m ∈ k8sCluster -> m ∈ kubeletStats -> False).
Proof.
  intros Hv. unfold getRuntimeAdditionalMetrics.
  destruct (collect_pipelines_ok ps _ _ collected_ok_empty) as [(Hn1 & Hl1 & _) (Hn2 & Hl2 & _)].
  rewrite app_nil_l in Hl1, Hl2.
  assert (Hreq : forall m, m ∈ requested ps -> m ∈ validRuntimeMetrics).
  { intros m Hm. unfold requested in Hm. apply list_elem_of_In, in_concat in Hm as (l & Hl & Hm).
    apply list_elem_of_In, list_elem_of_fmap in Hl as (mp & -> & Hmp). apply list_elem_of_In in Hm.
    rewrite Forall_forall in Hv. specialize (Hv mp Hmp).
    apply ValidateAdditionalMetrics_none in Hv. rewrite Forall_forall in Hv. auto. }
  split; [done|]. split; [done|]. split; [intros m ?%Hl1; tauto|]. split; [intros m ?%Hl2; tauto|].
  split; intros m; rewrite Hl1, Hl2.
  - split; [|tauto]. intros Hm. specialize (Hreq m Hm). apply elem_of_app in Hreq. tauto.
  - intros [_ H1] [_ H2]. by eapply receivers_disjoint.
Qed.

(** ** Concrete runs *)

Module MetricInputsSample.

Definition pipeline (metrics : list string) : MetricPipeline :=
  mkMetricPipeline (mkMeta "backend" "uid" 1 None false)
    (mkMetricSpec (mkMetricInput None (Some (mkMetricRuntimeInput (Some true) None None (Some metrics))) None None)
       (mkMetricOutput None) None None)
    (mkMetricStatus []).

End MetricInputsSample.

Lemma runtime_metrics_witness :
  getRuntimeAdditionalMetrics [MetricInputsSample.pipeline [metricK8sPodUptime; metricK8sNodeCondition];
                               MetricInputsSample.pipeline [metricK8sPodUptime]]
    = ([metricK8sNodeCondition], [metricK8sPodUptime]) /\
  (metricK8sPodUptime ∈ [metricK8sNodeCondition] \/ metricK8sPodUptime ∈ [metricK8sPodUptime]).
Proof.
  assert (H : getRuntimeAdditionalMetrics [MetricInputsSample.pipeline [metricK8sPodUptime; metricK8sNodeCondition];
                               MetricInputsSample.pipeline [metricK8sPodUptime]]
    = ([metricK8sNodeCondition], [metricK8sPodUptime])) by (vm_compute; reflexivity).
  split; [exact H|].
  pose proof (runtime_metrics_partition [MetricInputsSample.pipeline [metricK8sPodUptime; metricK8sNodeCondition];
                               MetricInputsSample.pipeline [metricK8sPodUptime]]) as Hp.
  rewrite H in Hp. apply Hp.
  - repeat constructor; vm_compute; reflexivity.
  - apply list_elem_of_here.
Defined.
