(* ===== verification/Validators.v ===== *)
(** * The validators of a pipeline

    The OTTL validators (internal/validators/ottl) over a parameter for the OTTL
    parser, the collections of parsers they are built with (at the end), and the interfaces through which the pipeline reconcilers call their
    validators (interfaces.go of the reconciler packages): [PipelineValidators] are
    the calls, [PipelineValidatorLaws] the error types each may return. The lemmas
    after them give the error types of the validators of this development; they
    discharge the laws in ValidatorInstances.v. *)
From stdpp Require Import base gmap strings list.
From S2P Require Import Prelude Kube GoErrors.
From S2P Require Import ApiV1beta1 SecretRef Lock Endpoint TLSCert Coordination.
Local Open Scope string_scope.

(** ** OTTL *)

(** A parser collection of the OTTL library: the text of the parse error, if any. *)
Record OTTLParser := mkOTTLParser {
  ParseStatements : list string -> list string -> option string;
  ParseConditions : list string -> option string
}.

Definition parseStatementsWithConditions (p : OTTLParser) (statements conditions : list string) :
    option goerror := NewError <$> ParseStatements p statements conditions.

Definition parseConditions (p : OTTLParser) (conditions : list string) : option goerror :=
  match conditions with
  | [] => None
  | _ => NewError <$> ParseConditions p conditions
  end.

Definition ValidateStatementsAndConditions (p : OTTLParser) (statements conditions : list string) :
    option goerror :=
  or_return ((fun e => InvalidOTTLSpecError (Wrapf "invalid TransformSpec: " e ""))
               <$> parseStatementsWithConditions p statements conditions)
            ((fun e => InvalidOTTLSpecError (Wrapf "invalid TransformSpec: " e ""))
               <$> parseConditions p conditions).

Fixpoint validate_transforms (p : OTTLParser) (ts : list TransformSpec) : option goerror :=
  match ts with
  | [] => None
  | t :: rest =>
      or_return (ValidateStatementsAndConditions p (elems (ts_Statements t)) (elems (ts_Conditions t)))
                (validate_transforms p rest)
  end.

(** [(v *TransformSpecValidator) Validate(transforms)] *)
Definition TransformSpecValidator_Validate (p : OTTLParser) (transforms : slice TransformSpec) :
    option goerror := validate_transforms p (elems transforms).

Definition ValidateConditions (p : OTTLParser) (conditions : list string) : option goerror :=
  (fun e => InvalidOTTLSpecError (Wrapf "invalid FilterSpec: " e "")) <$> parseConditions p conditions.

Fixpoint validate_filters (p : OTTLParser) (fs : list FilterSpec) : option goerror :=
  match fs with
  | [] => None
  | f :: rest => or_return (ValidateConditions p (elems (fs_Conditions f))) (validate_filters p rest)
  end.

(** [(v *FilterSpecValidator) Validate(filters)] *)
Definition FilterSpecValidator_Validate (p : OTTLParser) (filters : slice FilterSpec) : option goerror :=
  validate_filters p (elems filters).

(** ** The interfaces *)

(** The validators a reconciler of pipelines [P] calls on a cluster state [W]. *)
Class PipelineValidators (W P : Type) := {
  SecretRefValidator : W -> P -> option goerror;
  EndpointValidator : W -> EndpointValidationParams -> option goerror;
  TLSCertValidator : W -> TLSValidationParams -> option goerror;
  PipelineLock_IsLockHolder : W -> P -> option goerror;
  TransformSpecValidator : slice TransformSpec -> option goerror;
  FilterSpecValidator : slice FilterSpec -> option goerror
}.

(** The errors of the Secret references: an incomplete or unresolved reference. *)
Definition is_secret_error (e : goerror) : Prop :=
  exists s suffix, e = Wrapf "" (Sentinel s) suffix /\
    s ∈ [ErrSecretRefNotFound; ErrSecretKeyNotFound; ErrSecretRefMissingFields].

Definition is_api_error (e : goerror) : Prop := exists e', e = APIRequestFailedError e'.

Definition is_endpoint_invalid (e : goerror) : Prop :=
  (exists s, e = EndpointInvalidError (Sentinel s) /\
     s ∉ [ErrMaxPipelinesExceeded; ErrSecretRefNotFound; ErrSecretKeyNotFound; ErrSecretRefMissingFields]) \/
  (exists m, e = EndpointInvalidError (NewError m)).

Definition tls_sentinels : list sentinel :=
  [ErrCertDecodeFailed; ErrCertParseFailed; ErrKeyDecodeFailed; ErrCADecodeFailed; ErrCAParseFailed;
   ErrMissingCertKeyPair; ErrTLSValueResolveFailed; ErrInvalidCertificateKeyPair; ErrCertIsNotCA].

Definition is_tls_error (e : goerror) : Prop :=
  (exists s, e = Sentinel s /\ s ∈ tls_sentinels) \/
  (exists t ca, e = CertExpiredError t ca) \/ (exists t ca, e = CertAboutToExpireError t ca).

Definition is_ottl_error (e : goerror) : Prop := exists e', e = InvalidOTTLSpecError e'.

Definition is_lock_error (e : goerror) : Prop := e = Sentinel ErrMaxPipelinesExceeded \/ is_api_error e.

(** What the reconcilers rely on: each validator rejects with errors of its kind. *)
Class PipelineValidatorLaws (W P : Type) `{PipelineValidators W P} := {
  SecretRefValidator_err w p e :
    SecretRefValidator w p = Some e -> is_secret_error e \/ is_api_error e;
  EndpointValidator_err w params e : EndpointValidator w params = Some e -> is_endpoint_invalid e;
  TLSCertValidator_err w params e : TLSCertValidator w params = Some e -> is_tls_error e;
  IsLockHolder_err w p e : PipelineLock_IsLockHolder w p = Some e -> is_lock_error e;
  TransformSpecValidator_err ts e : TransformSpecValidator ts = Some e -> is_ottl_error e;
  FilterSpecValidator_err fs e : FilterSpecValidator fs = Some e -> is_ottl_error e
}.

(** ** The error types of the validators *)

Lemma ValidateStatementsAndConditions_err p ss cs e :
  ValidateStatementsAndConditions p ss cs = Some e -> is_ottl_error e.
Proof.
  unfold ValidateStatementsAndConditions. rewrite or_return_some, !fmap_Some.
  intros [(x & _ & ->)|[_ (x & _ & ->)]]; by eexists.
Qed.

Lemma validate_transforms_err p ts e : validate_transforms p ts = Some e -> is_ottl_error e.
Proof.
  induction ts as [|t ts IH]; simpl; [done|]. rewrite or_return_some.
  intros [Ht|[_ Ht]]; [by eapply ValidateStatementsAndConditions_err|auto].
Qed.

Lemma validate_filters_err p fs e : validate_filters p fs = Some e -> is_ottl_error e.
Proof.
  induction fs as [|f fs IH]; simpl; [done|]. rewrite or_return_some.
  intros [Ht|[_ Ht]]; [|auto]. apply fmap_Some in Ht as (x & _ & ->). by eexists.
Qed.

Lemma checkForMissingFields_err ref e : checkForMissingFields ref = Some e -> is_secret_error e.
Proof.
  unfold checkForMissingFields. intros He. case_match; simplify_eq.
  do 2 eexists. split; [done|]. set_solver.
Qed.

Section Errors.
Context `{SecretReader} `{CryptoLib}.

Lemma GetValue_kind ref e : GetValue ref = Err e -> is_secret_error e \/ is_api_error e.
Proof.
  unfold GetValue. destruct (checkForMissingFields ref) as [e'|] eqn:Hm.
  - intros [= <-]. left. by eapply checkForMissingFields_err.
  - destruct (get_secret _) as [s|a].
    + destruct (sec_Data s !! skr_Key ref); [done|]. intros [= <-]. left.
      do 2 eexists. split; [done|]. set_solver.
    + destruct (IsNotFound a); intros [= <-]; [left|right; by eexists].
      do 2 eexists. split; [done|]. set_solver.
Qed.

Lemma validate_refs_kind refs e : validate_refs refs = Some e -> is_secret_error e \/ is_api_error e.
Proof.
  induction refs as [|r refs IH]; simpl; [done|]. destruct (GetValue r) as [v|e'] eqn:Hg; [done|].
  intros [= <-]. by eapply GetValue_kind.
Qed.

Lemma tls_sentinel_error s : s ∈ tls_sentinels -> is_tls_error (Sentinel s).
Proof. left. eauto. Qed.

#[local] Hint Extern 1 (is_tls_error (Sentinel _)) =>
  apply tls_sentinel_error, (bool_decide_unpack _); exact I : core.

Lemma expired_tls_error t ca : is_tls_error (CertExpiredError t ca).
Proof. right. left. eauto. Qed.
Lemma about_to_expire_tls_error t ca : is_tls_error (CertAboutToExpireError t ca).
Proof. right. right. eauto. Qed.
#[local] Hint Resolve expired_tls_error about_to_expire_tls_error : core.

Lemma validateCertificate_err c now e : validateCertificate c now = Some e -> is_tls_error e.
Proof. unfold validateCertificate. intros He. split_hyp He; auto. Qed.

Lemma validateCAs_err clock i cas e : validateCAs clock i cas = Some e -> is_tls_error e.
Proof.
  revert i. induction cas as [|c cas IH]; intros i; simpl; [done|]. rewrite or_return_some.
  intros [Hc|[_ Hc]]; [|by eapply IH]. unfold validateCA in Hc. split_hyp Hc; auto.
Qed.

Lemma resolve_optional_err v e : resolve_optional v = Err e -> is_tls_error e.
Proof. unfold resolve_optional, TLSCert.resolveValue. intros He. split_hyp He; auto. Qed.

Lemma resolveValues_err tls e : resolveValues tls = Err e -> is_tls_error e.
Proof.
  unfold resolveValues. intros He.
  destruct (resolve_optional (tp_Cert tls)) eqn:H1; simpl in He; [|simplify_eq; by eapply resolve_optional_err].
  destruct (resolve_optional (tp_Key tls)) eqn:H2; simpl in He; [|simplify_eq; by eapply resolve_optional_err].
  destruct (resolve_optional (tp_CA tls)) eqn:H3; simpl in He; [done|simplify_eq; by eapply resolve_optional_err].
Qed.

Lemma TLS_Validate_err clock tls e : TLSCert.Validate clock tls = Some e -> is_tls_error e.
Proof.
  unfold TLSCert.Validate. destruct (xorb _ _); [intros [= <-]; auto|].
  destruct (resolveValues tls) as [[[cert key] ca]|e'] eqn:Hr; [|intros [= <-]; by eapply resolveValues_err].
  destruct (parseCertificate _) as [c|e'] eqn:Hc.
  2:{ intros [= <-]. unfold parseCertificate in Hc. split_hyp Hc; auto. }
  rewrite or_return_some. intros [Hk|[_ Hrest]].
  { unfold parsePrivateKey in Hk. split_hyp Hk; auto. }
  destruct (parseCA _) as [cas|e'] eqn:Hca.
  2:{ injection Hrest as <-. unfold parseCA in Hca. split_hyp Hca; auto. }
  apply or_return_some in Hrest as [Hp|[_ Hcas]].
  - destruct (_ && _); [|done]. apply or_return_some in Hp as [Hp|[_ Hp]].
    + unfold validateCertKeyPair in Hp. split_hyp Hp; auto.
    + by eapply validateCertificate_err.
  - destruct (isSome (tp_CA tls)); [|done]. by eapply validateCAs_err.
Qed.

End Errors.

Lemma Lock_IsLockHolder_err {W} `{ConfigMapClient W} c (w : W) o e :
  IsLockHolder c w o = Some e -> is_lock_error e.
Proof.
  unfold IsLockHolder. destruct (cm_get w (ck_lockName c)).
  - case_match; [done|]. intros [= <-]. by left.
  - intros [= <-]. right. by eexists.
Qed.

(** ** The parser collections (common.go, transform_spec_validator.go, filter_spec_validator.go)

    The library is a parameter; a collection is given by its options: the context of a parser,
    the functions it knows, and whether it takes statements besides conditions. *)

Inductive ottl_context := LogContext | DataPointContext | MetricContext | SpanEventContext | SpanContext | ResourceContext | ScopeContext.
#[export] Instance ottl_context_eq_dec : EqDecision ottl_context.
Proof. solve_decision. Defined.

(** The sets of functions of the library: of the two processors for a context, and the
    standard ones with and without editors. *)
Inductive ottl_functions := TransformProcessorDefault | FilterProcessorDefault | StandardFuncs | StandardConverters.

Record ParserOption := mkParserOption { po_context : ottl_context; po_functions : ottl_functions; po_statements : bool }.

Definition newTransformParserCollectionOpts (signalType : SignalType) : list ParserOption :=
  (match signalType with
   | SignalTypeLog => [mkParserOption LogContext TransformProcessorDefault true]
   | SignalTypeMetric =>
       [mkParserOption MetricContext TransformProcessorDefault true; mkParserOption DataPointContext TransformProcessorDefault true]
   | SignalTypeTrace =>
       [mkParserOption SpanContext TransformProcessorDefault true; mkParserOption SpanEventContext TransformProcessorDefault true]
   | SignalTypeLogFluentBit => []
   end
   ++ [mkParserOption ResourceContext StandardFuncs true; mkParserOption ScopeContext StandardFuncs true])%list.

Definition newFilterParserCollectionOpts (signalType : SignalType) : list ParserOption :=
  (match signalType with
   | SignalTypeTrace => [mkParserOption SpanContext FilterProcessorDefault false]
   | SignalTypeLog => [mkParserOption LogContext FilterProcessorDefault false]
   | SignalTypeMetric =>
       [mkParserOption MetricContext StandardConverters false; mkParserOption DataPointContext FilterProcessorDefault false]
   | SignalTypeLogFluentBit => []
   end
   ++ [mkParserOption ResourceContext StandardConverters false; mkParserOption ScopeContext StandardConverters false])%list.

Section Collections.
Context (Parser : Type) (NewParser : ottl_context -> ottl_functions -> result Parser goerror)
  (WithParserCollectionContext : ottl_context -> Parser -> bool -> option goerror)
  (collection : list (ottl_context * Parser * bool) -> OTTLParser).

(** The options are applied in order, and the first error ends [NewParserCollection]. *)
Fixpoint apply_options (opts : list ParserOption) : result (list (ottl_context * Parser * bool)) goerror :=
  match opts with
  | [] => Ok []
  | o :: rest =>
      match NewParser (po_context o) (po_functions o) with
      | Err err => Err err
      | Ok parser =>
          match WithParserCollectionContext (po_context o) parser (po_statements o) with
          | Some err => Err err
          | None =>
              match apply_options rest with
              | Err err => Err err
              | Ok parsers => Ok ((po_context o, parser, po_statements o) :: parsers)
              end
          end
      end
  end.

Definition newGenericParserCollection (opts : list ParserOption) : result OTTLParser goerror :=
  match apply_options opts with Err err => Err err | Ok parsers => Ok (collection parsers) end.

(** [SignalType.Validate] accepts the four constants. *)
Definition NewTransformSpecValidator (signalType : SignalType) : result OTTLParser goerror :=
  newGenericParserCollection (newTransformParserCollectionOpts signalType).
Definition NewFilterSpecValidator (signalType : SignalType) : result OTTLParser goerror :=
  newGenericParserCollection (newFilterParserCollectionOpts signalType).

Lemma apply_options_ok opts parsers :
  apply_options opts = Ok parsers ->
  Forall2 (fun o p => p.1.1 = po_context o /\ p.2 = po_statements o /\ NewParser (po_context o) (po_functions o) = Ok p.1.2) opts parsers.
Proof.
  revert parsers. induction opts as [|o rest IH]; intros parsers Ha; cbn in Ha; [by injection Ha as <-|].
  destruct (NewParser (po_context o) (po_functions o)) as [p|] eqn:Hp; [|done].
  destruct (WithParserCollectionContext _ p _); [done|]. destruct (apply_options rest) as [ps|]; [|done].
  injection Ha as <-. constructor; [done|]. by apply IH.
Qed.

(** The two validators of a signal: each context has one parser, those for conditions are
    parsers for transformations too, and a filter knows no editors of the standard set. *)
Theorem ottl_collections signalType :
  NoDup (map po_context (newTransformParserCollectionOpts signalType)) /\
  NoDup (map po_context (newFilterParserCollectionOpts signalType)) /\
  (forall o, In o (newFilterParserCollectionOpts signalType) ->
     po_statements o = false /\ po_functions o <> StandardFuncs /\
     exists o', In o' (newTransformParserCollectionOpts signalType) /\ po_context o' = po_context o /\ po_statements o' = true) /\
  (forall p, NewFilterSpecValidator signalType = Ok p ->
     exists parsers, p = collection parsers /\
       map (fun x => x.1.1) parsers = map po_context (newFilterParserCollectionOpts signalType)).
Proof.
  split; [|split; [|split]].
  - apply (bool_decide_unpack _). by destruct signalType.
  - apply (bool_decide_unpack _). by destruct signalType.
  - intros o Ho. destruct signalType; cbn in Ho; repeat destruct Ho as [<-|Ho]; try done;
      (split; [done|]; split; [done|]);
      (eexists (mkParserOption _ _ true); split; [|split; reflexivity]; cbn; repeat first [left; reflexivity | right]).
  - intros p. unfold NewFilterSpecValidator, newGenericParserCollection.
    destruct (apply_options _) as [parsers|] eqn:Ha; [|done]. intros [= <-]. exists parsers. split; [done|].
    apply apply_options_ok in Ha. generalize dependent (newFilterParserCollectionOpts signalType). intros opts Ha.
    induction Ha as [|o x opts ps [H1 _] _ IH]; [done|]. cbn. by rewrite H1, IH.
Qed.

End Collections.
