(* ===== verification/PipelineMetrics.v ===== *)
(** * The info metrics of the pipelines (internal/metrics/metrics.go)

    Every reconciliation records, for all pipelines of the kind, a gauge with the
    pipeline's name, its endpoint and its features. The gauge has no reader in the
    manager, but resolving the endpoint can panic, and then the reconciliation of
    every pipeline of the kind panics: the label values are modelled, with [None] for
    the panic. *)
From stdpp Require Import base gmap strings list.
From S2P Require Import Prelude Kube GoErrors.
From S2P Require Import ApiV1beta1 SecretRef.
Local Open Scope string_scope.

Definition LabelEndpoint : string := "endpoint".
Definition LabelPipelineName : string := "name".
Definition FeatureTransform : string := "transform".
Definition FeatureFilter : string := "filter".
Definition FeatureInputOTLP : string := "input-otlp".
Definition FeatureInputRuntime : string := "input-runtime".
Definition FeatureInputPrometheus : string := "input-prometheus".
Definition FeatureInputIstio : string := "input-istio".
Definition FeatureOutputDeltaTemporality : string := "output-delta-temporality".
Definition FeatureOutputHTTP : string := "output-http".
Definition FeatureOutputCustom : string := "output-custom".
Definition FeatureFiles : string := "files".
Definition FeatureVariables : string := "variables".
Definition FeatureFilters : string := "filters-custom".

Definition GeneralPipelineLabels : list string := [LabelPipelineName; LabelEndpoint].

Definition MetricPipelineFeatures : list string :=
  [FeatureTransform; FeatureFilter; FeatureInputOTLP; FeatureInputRuntime; FeatureInputPrometheus;
   FeatureInputIstio; FeatureOutputDeltaTemporality].

Definition LogPipelineFeatures : list string :=
  [FeatureTransform; FeatureFilter; FeatureInputOTLP; FeatureInputRuntime; FeatureFilters;
   FeatureOutputCustom; FeatureOutputHTTP; FeatureVariables; FeatureFiles].

Definition TracePipelineFeatures : list string := [FeatureTransform; FeatureFilter].

(** [recordPipelineInfo]: the label values of the gauge. *)
Definition recordPipelineInfo (allFeatures : list string) (pipelineName endpoint : string)
    (features : list string) : list string :=
  pipelineName :: endpoint ::
    map (fun f => if existsb (str_eqb f) features then "true" else "false") allFeatures.

Definition RecordMetricPipelineInfo := recordPipelineInfo MetricPipelineFeatures.
Definition RecordLogPipelineInfo := recordPipelineInfo LogPipelineFeatures.
Definition RecordTracePipelineInfo := recordPipelineInfo TracePipelineFeatures.

(** A feature of a pipeline that has it. *)
Definition feature (b : bool) (f : string) : list string := if b then [f] else [].

(** [getEndpoint] of the reconcilers: a value that does not resolve is recorded as
    empty, a nil [ValueFrom] is dereferenced. *)
Definition resolve_endpoint `{SecretReader} (endpoint : ValueType) : option string :=
  (fun r => match r with Ok v => v | Err _ => "" end) <$> ResolveValue endpoint.

(** ** Lemmas *)

(** A value that can be resolved without a panic. *)
Definition value_given (v : ValueType) : Prop := vt_Value v <> "" \/ is_Some (vt_ValueFrom v).

Lemma resolve_endpoint_defined `{SecretReader} v : is_Some (resolve_endpoint v) <-> value_given v.
Proof.
  unfold resolve_endpoint, ResolveValue, value_given. rewrite fmap_is_Some.
  destruct (str_eqb (vt_Value v) "") eqn:Hv; simpl.
  - apply str_eqb_true in Hv. destruct (vt_ValueFrom v) as [src|]; [|naive_solver].
    split; [eauto|]. intros _. destruct (vfs_SecretKeyRef src); by eexists.
  - apply str_eqb_false in Hv. split; [eauto|]. intros _. by eexists.
Qed.

(** The gauge gets as many label values as it has labels (otherwise the library
    panics). *)
Lemma recordPipelineInfo_length fs n e features :
  length (recordPipelineInfo fs n e features) = length (GeneralPipelineLabels ++ fs)%list.
Proof. unfold recordPipelineInfo. simpl. by rewrite length_map. Qed.

(** A loop that records for every pipeline panics at the first that does. *)
Fixpoint record_all {A} (record : A -> option (list string)) (l : list A) : option (list (list string)) :=
  match l with
  | [] => Some []
  | x :: rest => r ← record x; rs ← record_all record rest; Some (r :: rs)
  end.

Lemma record_all_defined {A} (record : A -> option (list string)) l :
  is_Some (record_all record l) <-> Forall (fun x => is_Some (record x)) l.
Proof.
  induction l as [|x l IH]; simpl; [split; [done|by eexists]|]. rewrite Forall_cons, <- IH.
  destruct (record x); simpl; [|by split; [intros [? ?]|intros [[? ?] _]]].
  destruct (record_all record l); simpl; split; [eauto|by eexists|by intros [? ?]|by intros [_ [? ?]]].
Qed.
