(* ===== verification/SelfMonitor.v ===== *)
(** * The self monitor's verdicts (internal/selfmonitor)

    Matching of Prometheus alerts to pipelines (config/rules.go), the probers that
    turn firing alerts into the health of a pipeline's data flow (prober/), and the
    webhook that turns alerts into reconcile events (webhook/handler.go). Prometheus'
    answer is an argument. *)
From stdpp Require Import base gmap strings list.
From S2P Require Import Prelude Kube GoErrors.
From S2P Require Import ApiV1beta1.
Local Open Scope string_scope.

(** ** Rules (config/rules.go) *)

Definition RuleNameGatewayAllDataDropped : string := "GatewayAllDataDropped".
Definition RuleNameGatewaySomeDataDropped : string := "GatewaySomeDataDropped".
Definition RuleNameGatewayThrottling : string := "GatewayThrottling".
Definition RuleNameAgentAllDataDropped : string := "AgentAllDataDropped".
Definition RuleNameAgentSomeDataDropped : string := "AgentSomeDataDropped".
Definition RuleNameLogFluentBitAllDataDropped : string := "FluentBitAllDataDropped".
Definition RuleNameLogFluentBitSomeDataDropped : string := "FluentBitSomeDataDropped".
Definition RuleNameLogFluentBitBufferInUse : string := "FluentBitBufferInUse".
Definition RuleNameLogFluentBitNoLogsDelivered : string := "FluentBitNoLogsDelivered".
Definition labelPipelineName : string := "pipeline_name".
Definition labelPipelineType : string := "pipeline_type".
Definition AlertNameLabel : string := "alertname".
Definition RulesAny : string := "any".

Inductive pipelineType := typeMetricPipeline | typeTracePipeline | typeLogPipeline.

#[export] Instance pipelineType_eq_dec : EqDecision pipelineType.
Proof. solve_decision. Defined.

Definition ruleNamePrefix (t : pipelineType) : string :=
  match t with
  | typeMetricPipeline => "Metric"
  | typeTracePipeline => "Trace"
  | typeLogPipeline => "Log"
  end.

Definition pipelineComponentType (t : pipelineType) : string :=
  match t with
  | typeMetricPipeline => "metricpipeline"
  | typeTracePipeline => "tracepipeline"
  | typeLogPipeline => "logpipeline"
  end.

Abbreviation labels := (gmap string string).

(** [strings.HasPrefix(s, p)] *)
Fixpoint HasPrefix (s p : string) : bool :=
  match p, s with
  | EmptyString, _ => true
  | String a p', String b s' => Ascii.eqb a b && HasPrefix s' p'
  | _, _ => false
  end.

Definition matchesRuleName (labelSet : labels) (unprefixedRuleName : string) (t : pipelineType) : bool :=
  match labelSet !! AlertNameLabel with
  | None => false
  | Some ruleName =>
      if negb (HasPrefix ruleName (ruleNamePrefix t)) then false
      else if negb (str_eqb unprefixedRuleName RulesAny)
              && negb (str_eqb ruleName (ruleNamePrefix t +:+ unprefixedRuleName)) then false
      else true
  end.

Definition matchesRule (labelSet : labels) (unprefixedRuleName pipelineName : string) (t : pipelineType) : bool :=
  if negb (matchesRuleName labelSet unprefixedRuleName t) then false
  else
    match labelSet !! labelPipelineName with
    | None => true
    | Some pipelineNameLabel =>
        match labelSet !! labelPipelineType with
        | Some pipelineTypeLabel =>
            if negb (str_eqb pipelineTypeLabel (pipelineComponentType t)) then false
            else str_eqb pipelineNameLabel pipelineName
        | None => str_eqb pipelineNameLabel pipelineName
        end
    end.

Definition MatchesMetricPipelineRule (l : labels) (r n : string) : bool := matchesRule l r n typeMetricPipeline.
Definition MatchesTracePipelineRule (l : labels) (r n : string) : bool := matchesRule l r n typeTracePipeline.
Definition MatchesLogPipelineRule (l : labels) (r n : string) : bool := matchesRule l r n typeLogPipeline.

(** ** Probers (prober/) *)

(** [promv1.Alert]: its labels and whether its state is firing. *)
Record Alert := mkAlert { al_Labels : labels; al_Firing : bool }.

Definition matcherFunc : Type := labels -> string -> string -> bool.

(** [promv1.API.Alerts]: the alerts, or the query error. *)
Definition alertGetter : Type := result (list Alert) goerror.

Definition retrieveAlerts (getter : alertGetter) : result (list Alert) goerror :=
  rmap_err (fun e => Wrapf "failed to query Prometheus alerts: " e "") getter.

Definition isFiringWithMatcher (alerts : list Alert) (ruleName pipelineName : string) (mf : matcherFunc) : bool :=
  existsb (fun a => al_Firing a && mf (al_Labels a) ruleName pipelineName) alerts.

Record PipelineProbeResult := mkProbeResult {
  pr_AllDataDropped : bool; pr_SomeDataDropped : bool; pr_Healthy : bool }.

Record OTelGatewayProbeResult := mkGatewayProbe { gp_Result : PipelineProbeResult; gp_Throttling : bool }.
Record OTelAgentProbeResult := mkAgentProbe { ap_Result : PipelineProbeResult }.
Record FluentBitProbeResult := mkFluentBitProbe {
  fp_Result : PipelineProbeResult; fp_NoLogsDelivered : bool; fp_BufferFillingUp : bool }.

Definition probe_failed (e : goerror) : goerror := Wrapf "failed to retrieve alerts: " e "".

(** [(p *OTelGatewayProber) Probe(ctx, pipelineName)] *)
Definition OTelGatewayProber_Probe (matcher : matcherFunc) (getter : alertGetter) (pipelineName : string) :
    result OTelGatewayProbeResult goerror :=
  match retrieveAlerts getter with
  | Err e => Err (probe_failed e)
  | Ok alerts =>
      let allDropped := isFiringWithMatcher alerts RuleNameGatewayAllDataDropped pipelineName matcher in
      let someDropped := isFiringWithMatcher alerts RuleNameGatewaySomeDataDropped pipelineName matcher in
      let throttling := isFiringWithMatcher alerts RuleNameGatewayThrottling pipelineName matcher in
      Ok (mkGatewayProbe (mkProbeResult allDropped someDropped
            (negb allDropped && negb someDropped && negb throttling)) throttling)
  end.

(** [(p *OTelAgentProber) Probe(ctx, pipelineName)] *)
Definition OTelAgentProber_Probe (matcher : matcherFunc) (getter : alertGetter) (pipelineName : string) :
    result OTelAgentProbeResult goerror :=
  match retrieveAlerts getter with
  | Err e => Err (probe_failed e)
  | Ok alerts =>
      let allDropped := isFiringWithMatcher alerts RuleNameAgentAllDataDropped pipelineName matcher in
      let someDropped := isFiringWithMatcher alerts RuleNameAgentSomeDataDropped pipelineName matcher in
      Ok (mkAgentProbe (mkProbeResult allDropped someDropped (negb allDropped && negb someDropped)))
  end.

(** [(p *FluentBitProber) Probe(ctx, pipelineName)] *)
Definition FluentBitProber_Probe (getter : alertGetter) (pipelineName : string) :
    result FluentBitProbeResult goerror :=
  match retrieveAlerts getter with
  | Err e => Err (probe_failed e)
  | Ok alerts =>
      let firing r := isFiringWithMatcher alerts r pipelineName MatchesLogPipelineRule in
      let allDropped := firing RuleNameLogFluentBitAllDataDropped in
      let someDropped := firing RuleNameLogFluentBitSomeDataDropped in
      let bufferFillingUp := firing RuleNameLogFluentBitBufferInUse in
      let noLogs := firing RuleNameLogFluentBitNoLogsDelivered in
      Ok (mkFluentBitProbe (mkProbeResult allDropped someDropped
            (negb allDropped && negb someDropped && negb bufferFillingUp && negb noLogs)) noLogs bufferFillingUp)
  end.

(** ** Webhook (webhook/handler.go) *)

(** The reconcile events for the listed pipelines, one per matching alert. *)
Definition to_events (matcher : matcherFunc) (pipelines : result (list string) apierror)
    (alerts : list labels) : list string :=
  match pipelines with
  | Err _ => []
  | Ok names =>
      names ≫= (fun n => omap (fun l => if matcher l RulesAny n then Some n else None) alerts)
  end.

Definition toMetricPipelineReconcileEvents (ps : result (list MetricPipeline) apierror) (alerts : list labels) :
    list string :=
  to_events MatchesMetricPipelineRule
    (match ps with Ok l => Ok ((fun p => om_Name (mp_ObjectMeta p)) <$> l) | Err e => Err e end) alerts.
Definition toTracePipelineReconcileEvents (ps : result (list TracePipeline) apierror) (alerts : list labels) :
    list string :=
  to_events MatchesTracePipelineRule
    (match ps with Ok l => Ok ((fun p => om_Name (tp_ObjectMeta p)) <$> l) | Err e => Err e end) alerts.
Definition toLogPipelineReconcileEvents (ps : result (list LogPipeline) apierror) (alerts : list labels) :
    list string :=
  to_events MatchesLogPipelineRule
    (match ps with Ok l => Ok ((fun p => om_Name (lp_ObjectMeta p)) <$> l) | Err e => Err e end) alerts.

Inductive http_status := StatusMethodNotAllowed | StatusBadRequest | StatusOK.

(** [(h *Handler) ServeHTTP(w, r)]: the status, and the names sent to the metric,
    trace and log subscribers. [body] is the decoded request, [None] when decoding
    fails. *)
Definition ServeHTTP (is_post : bool) (body : option (list labels))
    (mps : result (list MetricPipeline) apierror) (tps : result (list TracePipeline) apierror)
    (lps : result (list LogPipeline) apierror) :
    http_status * (list string * list string * list string) :=
  if negb is_post then (StatusMethodNotAllowed, ([], [], []))
  else
    match body with
    | None => (StatusBadRequest, ([], [], []))
    | Some alerts =>
        (StatusOK, (toMetricPipelineReconcileEvents mps alerts,
                    toTracePipelineReconcileEvents tps alerts,
                    toLogPipelineReconcileEvents lps alerts))
    end.

(** ** Properties of the self monitor's verdicts *)

Lemma isFiring_spec alerts r n mf :
  isFiringWithMatcher alerts r n mf = true <->
  exists a, a ∈ alerts /\ al_Firing a = true /\ mf (al_Labels a) r n = true.
Proof.
  unfold isFiringWithMatcher. rewrite existsb_exists. setoid_rewrite andb_true_iff.
  setoid_rewrite list_elem_of_In. done.
Qed.

(** A rule that matches by its name also matches any rule. *)
Lemma matchesRule_any l r n t : matchesRule l r n t = true -> matchesRule l RulesAny n t = true.
Proof.
  unfold matchesRule, matchesRuleName. destruct (l !! AlertNameLabel) as [a|]; [|done].
  destruct (HasPrefix a (ruleNamePrefix t)); simpl; [|done].
  destruct (negb (str_eqb r RulesAny) && _); simpl; [done|].
  done.
Qed.

(** The prefixes tell the pipeline types apart. *)
Lemma prefix_unique s t t' :
  HasPrefix s (ruleNamePrefix t) = true -> HasPrefix s (ruleNamePrefix t') = true -> t = t'.
Proof.
  assert (Hfirst : forall a p, HasPrefix s (String a p) = true -> String.get 0 s = Some a).
  { intros a p. destruct s as [|c s]; [done|]. cbn [HasPrefix].
    by intros [->%Ascii.eqb_eq _]%andb_true_iff. }
  destruct t, t'; cbn [ruleNamePrefix]; intros H1%Hfirst H2%Hfirst; congruence.
Qed.

Lemma matchesRule_prefix l r n t :
  matchesRule l r n t = true ->
  exists a, l !! AlertNameLabel = Some a /\ HasPrefix a (ruleNamePrefix t) = true.
Proof.
  unfold matchesRule, matchesRuleName. destruct (l !! AlertNameLabel) as [a|]; [|done].
  intros Hm. exists a. split; [done|]. by destruct (HasPrefix a (ruleNamePrefix t)).
Qed.

(** An alert concerns one kind of pipeline only, and one pipeline when it
    carries a pipeline label: two rules of any name that match the same labels
    agree on the pipeline type and on the pipeline name. *)
Theorem alert_matches_one_pipeline l r r' n n' t t' :
  matchesRule l r n t = true -> matchesRule l r' n' t' = true ->
  t = t' /\ (l !! labelPipelineName <> None -> n = n').
Proof.
  intros H1 H2. destruct (matchesRule_prefix _ _ _ _ H1) as (a & Ha & Hp).
  destruct (matchesRule_prefix _ _ _ _ H2) as (a' & Ha' & Hp'). simplify_eq.
  split; [by eapply prefix_unique|]. intros Hn. unfold matchesRule in H1, H2.
  destruct (l !! labelPipelineName) as [pn|]; [|done].
  assert (Hname : forall r n t, (if negb (matchesRuleName l r t) then false
    else match l !! labelPipelineType with
         | Some pt => if negb (str_eqb pt (pipelineComponentType t)) then false else str_eqb pn n
         | None => str_eqb pn n end) = true -> pn = n).
  { intros r0 n0 t0 Hm. repeat case_match; try done; by apply str_eqb_true. }
  apply Hname in H1, H2. congruence.
Qed.

(** What the gateway prober reports of the firing alerts. *)
Lemma gateway_probe_exact mf alerts n p :
  OTelGatewayProber_Probe mf (Ok alerts) n = Ok p ->
  let firing r := exists a, a ∈ alerts /\ al_Firing a = true /\ mf (al_Labels a) r n = true in
  (pr_AllDataDropped (gp_Result p) = true <-> firing RuleNameGatewayAllDataDropped) /\
  (pr_SomeDataDropped (gp_Result p) = true <-> firing RuleNameGatewaySomeDataDropped) /\
  (gp_Throttling p = true <-> firing RuleNameGatewayThrottling) /\
  (pr_Healthy (gp_Result p) = true <->
     ~ firing RuleNameGatewayAllDataDropped /\ ~ firing RuleNameGatewaySomeDataDropped /\
     ~ firing RuleNameGatewayThrottling).
Proof.
  unfold OTelGatewayProber_Probe; simpl. intros [= <-]. simpl.
  rewrite !andb_true_iff, !negb_true_iff, <- !not_true_iff_false, !isFiring_spec. tauto.
Qed.

Lemma to_events_spec mf names alerts n :
  n ∈ to_events mf (Ok names) alerts <-> n ∈ names /\ exists l, l ∈ alerts /\ mf l RulesAny n = true.
Proof.
  unfold to_events. rewrite list_elem_of_bind. split.
  - intros (m & Hm & Hin). apply list_elem_of_omap in Hm as (l & Hl & Hmf).
    destruct (mf l RulesAny m) eqn:E; simplify_eq. eauto.
  - intros (Hn & l & Hl & Hmf). exists n. split; [|done]. apply list_elem_of_omap.
    exists l. by rewrite Hmf.
Qed.

(** When the self-monitor reports an alert that makes a flow-health probe of a
    MetricPipeline fire, the webhook handler answers OK and triggers a
    reconciliation of that pipeline. *)
Theorem webhook_triggers_affected_pipelines alerts mps tps lps mp r :
  let '(status, (metrics, traces, logs)) :=
    ServeHTTP true (Some (al_Labels <$> alerts)) (Ok mps) (Ok tps) (Ok lps) in
  mp ∈ mps ->
  isFiringWithMatcher alerts r (om_Name (mp_ObjectMeta mp)) MatchesMetricPipelineRule = true ->
  status = StatusOK /\ om_Name (mp_ObjectMeta mp) ∈ metrics.
Proof.
  simpl. intros Hmp Hf. split; [done|]. apply to_events_spec. split.
  - apply list_elem_of_fmap. eauto.
  - apply isFiring_spec in Hf as (a & Ha & _ & Hm). exists (al_Labels a). split.
    + apply list_elem_of_fmap. eauto.
    + by eapply matchesRule_any.
Qed.

(** ** Concrete runs *)

Module SelfMonitorSample.

Definition alert : Alert :=
  mkAlert {[ AlertNameLabel := "MetricGatewayThrottling"; labelPipelineName := "backend" ]} true.

Definition pipeline : MetricPipeline :=
  mkMetricPipeline (mkMeta "backend" "uid" 1 None false)
    (mkMetricSpec (mkMetricInput None None None None) (mkMetricOutput None) None None) (mkMetricStatus []).

End SelfMonitorSample.

Lemma alert_isolation_witness :
  typeMetricPipeline = typeMetricPipeline /\
  (al_Labels SelfMonitorSample.alert !! labelPipelineName <> None -> "backend" = "backend").
Proof.
  apply (alert_matches_one_pipeline (al_Labels SelfMonitorSample.alert) RuleNameGatewayThrottling RulesAny);
    vm_compute; reflexivity.
Defined.

Lemma webhook_witness :
  "backend" ∈ (ServeHTTP true (Some [al_Labels SelfMonitorSample.alert]) (Ok [SelfMonitorSample.pipeline]) (Ok []) (Ok [])).2.1.1.
Proof.
  apply (webhook_triggers_affected_pipelines [SelfMonitorSample.alert] [SelfMonitorSample.pipeline] [] [] SelfMonitorSample.pipeline
           RuleNameGatewayThrottling).
  - apply list_elem_of_here.
  - vm_compute. reflexivity.
Defined.
