(* ===== verification/CommonStatus.v ===== *)
(** * Health conditions of the gateway and the agents
    (internal/reconciler/commonstatus/checker.go)

    The prober's answer is an argument. [None] is the panic of [ConvertErrToMsg] on
    an error with an empty text. *)
From stdpp Require Import base gmap strings list.
From S2P Require Import Prelude Kube GoErrors.
From S2P Require Import Workload Coordination Conditions.
Local Open Scope string_scope.

(** The message of a reason, chosen by signal type as the gateway check does. *)
Definition gateway_message (signalType : SignalType) (reason : string) : string :=
  match signalType with
  | SignalTypeMetric => MessageForMetricPipeline reason
  | SignalTypeLog => MessageForOtelLogPipeline reason
  | _ => MessageForTracePipeline reason
  end.

Definition agent_message (signalType : SignalType) (reason : string) : string :=
  match signalType with
  | SignalTypeMetric => MessageForMetricPipeline reason
  | SignalTypeLog => MessageForOtelLogPipeline reason
  | _ => MessageForFluentBitLogPipeline reason
  end.

Definition GetGatewayHealthyCondition (probe : option goerror) (signalType : SignalType)
    (configGeneratedStatus : ConditionStatus) : option Condition :=
  if bool_decide (configGeneratedStatus = ConditionFalse) then
    Some (mkCondition TypeGatewayHealthy ConditionFalse ReasonGatewayConfigurationNotGenerated
            (gateway_message signalType ReasonGatewayConfigurationNotGenerated) 0)
  else
    match probe with
    | None =>
        Some (mkCondition TypeGatewayHealthy ConditionTrue ReasonGatewayReady
                (gateway_message signalType ReasonGatewayReady) 0)
    | Some err =>
        if IsRolloutInProgressError err then
          (fun msg => mkCondition TypeGatewayHealthy ConditionTrue ReasonRolloutInProgress msg 0) <$> Convert err
        else
          (fun msg => mkCondition TypeGatewayHealthy ConditionFalse ReasonGatewayNotReady msg 0) <$> Convert err
    end.

Definition GetAgentHealthyCondition (probe : option goerror) (signalType : SignalType) : option Condition :=
  match probe with
  | None =>
      Some (mkCondition TypeAgentHealthy ConditionTrue ReasonAgentReady
              (agent_message signalType ReasonAgentReady) 0)
  | Some err =>
      if IsRolloutInProgressError err then
        (fun msg => mkCondition TypeAgentHealthy ConditionTrue ReasonRolloutInProgress msg 0) <$> Convert err
      else
        (fun msg => mkCondition TypeAgentHealthy ConditionFalse ReasonAgentNotReady msg 0) <$> Convert err
  end.

(** [condition.ObservedGeneration = generation] *)
Definition with_generation (c : Condition) (g : Z) : Condition :=
  mkCondition (c_Type c) (c_Status c) (c_Reason c) (c_Message c) g.

(** ** Lemmas *)

Lemma GetGatewayHealthyCondition_type probe t s c :
  GetGatewayHealthyCondition probe t s = Some c -> c_Type c = TypeGatewayHealthy.
Proof.
  unfold GetGatewayHealthyCondition. intros H. repeat case_match; simplify_eq/=; try done;
    by apply fmap_Some in H as (m & _ & ->).
Qed.

Lemma GetAgentHealthyCondition_type probe t c :
  GetAgentHealthyCondition probe t = Some c -> c_Type c = TypeAgentHealthy.
Proof.
  unfold GetAgentHealthyCondition. intros H. repeat case_match; simplify_eq/=; try done;
    by apply fmap_Some in H as (m & _ & ->).
Qed.

Lemma GetGatewayHealthyCondition_status probe t s c :
  GetGatewayHealthyCondition probe t s = Some c ->
  (c_Status c = ConditionTrue <->
     s <> ConditionFalse /\ (probe = None \/ exists e, probe = Some e /\ IsRolloutInProgressError e = true)).
Proof.
  unfold GetGatewayHealthyCondition. case_bool_decide as Hs.
  - intros [= <-]. simpl. naive_solver.
  - destruct probe as [e|]; [|intros [= <-]; simpl; naive_solver].
    destruct (IsRolloutInProgressError e) eqn:He; intros (m & _ & ->)%fmap_Some; simpl; [naive_solver|].
    split; [done|]. intros [_ [?|(e' & [= <-] & He')]]; congruence.
Qed.

Lemma GetGatewayHealthyCondition_defined probe t s :
  (forall e, probe = Some e -> is_Some (Convert e)) -> is_Some (GetGatewayHealthyCondition probe t s).
Proof.
  intros Hp. unfold GetGatewayHealthyCondition. case_bool_decide; [by eexists|].
  destruct probe as [e|]; [|by eexists]. destruct (Hp e eq_refl) as [m ->]. case_match; by eexists.
Qed.

Lemma GetAgentHealthyCondition_defined probe t :
  (forall e, probe = Some e -> is_Some (Convert e)) -> is_Some (GetAgentHealthyCondition probe t).
Proof.
  intros Hp. unfold GetAgentHealthyCondition.
  destruct probe as [e|]; [|by eexists]. destruct (Hp e eq_refl) as [m ->]. case_match; by eexists.
Qed.

(** The DaemonSet prober of this development answers with errors that convert, as
    long as the text of a failed read of the Pods is not empty. *)
Lemma Convert_pod_problem e : pod_problem e = true -> is_Some (Convert e).
Proof.
  unfold pod_problem, IsPodIsPendingError, IsPodFailedError, Convert. intros Hp.
  destruct (errors_as as_pod_not_scheduled e); [by eexists|].
  destruct (errors_as as_pod_pending e) as [[[? ?] ?]|]; [by eexists|].
  destruct (errors_as as_pod_failing e); [by eexists|done].
Qed.

Lemma DaemonSet_IsReady_convertible ds pods e :
  (forall a, pods = Err a -> Error (ApiError a) <> "") ->
  DaemonSet_IsReady ds pods = Some e -> is_Some (Convert e).
Proof.
  intros Ha. unfold DaemonSet_IsReady, checkPodStatus.
  destruct ds as [d|a]; [|destruct (IsNotFound a); intros [= <-]; by eexists].
  destruct (_ && _); [done|]. rewrite or_return_some. intros [Hc|[_ [= <-]]]; [|by eexists].
  destruct pods as [[|p ps]|a]; simplify_eq.
  - by eexists.
  - by eapply Convert_pod_problem, check_pods_problem.
  - specialize (Ha a eq_refl). unfold Convert. simpl in *. unfold ConvertErrToMsg. simpl.
    case_match; [done|by eexists].
Qed.
