(* ===== verification/Reconcile.v ===== *)
(** * What the pipeline reconcilers share

    The collaborators every reconciler calls through interfaces (interfaces.go of
    the reconciler packages), the configuration of a reconciler, the evaluation of a
    validation error as a status condition, and the result of a reconciliation.

    A reconciliation is a function of the cluster state: it returns the state after
    it and the error, or [None] when the code panics. *)
From stdpp Require Import base gmap strings list.
From S2P Require Import Prelude Kube GoErrors.
From S2P Require Import ApiV1beta1 SecretRef Lock Coordination Conditions SelfMonitor.
From S2P Require Import TLSCert Validators.
Local Open Scope string_scope.

(** The parts of a reconciler that are data: its lock, its syncer and the target
    namespace of its globals. *)
Record ReconcilerConfig := mkReconcilerConfig {
  rc_pipelineLock : Checker;
  rc_pipelineSync : Checker;
  rc_TargetNamespace : string
}.

(** The collaborators of a reconciler of pipelines [P]: the API client on [P] (get,
    list, status update), the reader of Secrets, the override handler's pause flag of
    the signal, the secret watcher, the probers and the clock. *)
Class PipelineCluster (W P : Type) := {
  pl_get : W -> string -> result P apierror;
  pl_list : W -> result (list P) apierror;
  pl_status_update : W -> P -> W * option apierror;
  pl_secrets : W -> SecretReader;
  LoadOverrides_Paused : W -> result bool goerror;
  RemoveFromWatchers : W -> string -> W * option goerror;
  SyncWatchers : W -> P -> list NamespacedName -> W * option goerror;
  gatewayProber : W -> option goerror;
  agentProber : W -> option goerror;
  gatewayFlowHealthProber : W -> string -> result OTelGatewayProbeResult goerror;
  agentFlowHealthProber : W -> string -> result OTelAgentProbeResult goerror;
  time_now : W -> Z
}.

(** The calls that are not on ConfigMaps leave the ConfigMaps alone. *)
Class PipelineClusterLaws (W P : Type) `{PipelineCluster W P} `{ConfigMapClient W} := {
  status_update_frame (w : W) (p : P) w' e k : pl_status_update w p = (w', e) -> cm_get w' k = cm_get w k;
  remove_watchers_frame (w : W) n w' e k : RemoveFromWatchers w n = (w', e) -> cm_get w' k = cm_get w k;
  sync_watchers_frame (w : W) (p : P) ns w' e k : SyncWatchers w p ns = (w', e) -> cm_get w' k = cm_get w k
}.

(** The calls that are not on pipelines leave the list of pipelines alone. *)
Class PipelineListLaws (W P : Type) `{PipelineCluster W P} `{ConfigMapClient W} := {
  create_list (w : W) cm w' e : cm_create w cm = (w', e) -> pl_list (P:=P) w' = pl_list w;
  update_list (w : W) cm w' e : cm_update w cm = (w', e) -> pl_list (P:=P) w' = pl_list w;
  sync_watchers_list (w : W) (p : P) ns w' e : SyncWatchers w p ns = (w', e) -> pl_list (P:=P) w' = pl_list w
}.

Lemma TryAcquireLock_list `{PipelineListLaws W P} `{OwnerSetter} c (w : W) o w' e :
  TryAcquireLock c w o = (w', e) -> pl_list (P:=P) w' = pl_list w.
Proof.
  unfold TryAcquireLock, perform. intros Hp. destruct (decide_acquire _ _ _); simplify_eq; [done|..].
  - destruct (cm_create w cm) as [w1 [e1|]] eqn:Hc; simplify_eq; by eapply create_list.
  - destruct (cm_update w cm) as [w1 [e1|]] eqn:Hc; simplify_eq; by eapply update_list.
Qed.

(** [ctrl.Result]: the delay of a requeue, if any. *)
Record ctrl_Result := mkResult { RequeueAfter : option Z }.

Definition owner_of (m : ObjectMeta) : OwnerReference := mkOwnerRef (om_Name m) (om_UID m).

(** [errors.Join(allErrors, fmt.Errorf(prefix+"%w", err))] when [err] is not nil. *)
Definition join_if (all : option goerror) (prefix : string) (err : option goerror) : option goerror :=
  match err with
  | None => all
  | Some e => errors_join all (Wrapf prefix e "")
  end.

(** The three sentinels of a Secret reference. *)
Definition is_secret_ref_missing (err : goerror) : bool :=
  errors_is err ErrSecretRefNotFound || errors_is err ErrSecretKeyNotFound
  || errors_is err ErrSecretRefMissingFields.

(** ** The outcome of a validation *)

(** [isReconcilable] of the three reconcilers, after the deletion check: the result
    of [validate] decides. *)
Definition reconcilable_of (err : option goerror) : result bool goerror :=
  match err with
  | None => Ok true
  | Some err =>
      if IsCertAboutToExpireError err then Ok true
      else
        match errors_as as_api_request_failed err with
        | Some e => Err e
        | None => Ok false
        end
  end.

Lemma reconcilable_of_true err :
  reconcilable_of err = Ok true <-> err = None \/ exists e, err = Some e /\ IsCertAboutToExpireError e = true.
Proof.
  unfold reconcilable_of. destruct err as [e|]; [|naive_solver].
  destruct (IsCertAboutToExpireError e) eqn:He; [naive_solver|].
  split; [by intros H; case_match|]. intros [?|(e' & [= <-] & ?)]; congruence.
Qed.

(** ** Error classification

    The order in which an error of each kind is recognised. *)

Lemma secret_error_class e :
  is_secret_error e ->
  errors_is e ErrMaxPipelinesExceeded = false /\ is_secret_ref_missing e = true /\
  IsCertAboutToExpireError e = false /\ errors_as as_api_request_failed e = None.
Proof.
  intros (s & suf & -> & Hs). rewrite !elem_of_cons in Hs.
  by destruct Hs as [->|[->|[->|?%not_elem_of_nil]]].
Qed.

Lemma api_error_class e :
  is_api_error e ->
  errors_is e ErrMaxPipelinesExceeded = false /\ is_secret_ref_missing e = false /\
  IsEndpointInvalidError e = false /\ IsInvalidOTTLSpecError e = false /\
  IsInvalidAdditionalMetricError e = false /\ IsCertAboutToExpireError e = false /\
  is_Some (errors_as as_api_request_failed e).
Proof. intros (e' & ->). by repeat split. Qed.

Lemma endpoint_error_class e :
  is_endpoint_invalid e ->
  errors_is e ErrMaxPipelinesExceeded = false /\ is_secret_ref_missing e = false /\
  IsEndpointInvalidError e = true /\ IsCertAboutToExpireError e = false /\
  errors_as as_api_request_failed e = None.
Proof.
  intros [(s & -> & Hs)|(m & ->)]; [|done]. unfold is_secret_ref_missing. cbn [errors_is].
  rewrite !not_elem_of_cons in Hs. rewrite !bool_decide_false by naive_solver. done.
Qed.

Lemma tls_error_class e :
  is_tls_error e ->
  errors_is e ErrMaxPipelinesExceeded = false /\ is_secret_ref_missing e = false /\
  IsEndpointInvalidError e = false /\ IsInvalidOTTLSpecError e = false /\
  IsInvalidAdditionalMetricError e = false /\ errors_as as_api_request_failed e = None.
Proof.
  intros [(s & -> & Hs)|[(t & ca & ->)|(t & ca & ->)]]; [|done|done].
  unfold is_secret_ref_missing. cbn [errors_is].
  unfold tls_sentinels in Hs. rewrite !elem_of_cons in Hs.
  repeat destruct Hs as [->|Hs]; try (by repeat split). by apply not_elem_of_nil in Hs.
Qed.

Lemma ottl_error_class e :
  is_ottl_error e ->
  errors_is e ErrMaxPipelinesExceeded = false /\ is_secret_ref_missing e = false /\
  IsEndpointInvalidError e = false /\ IsInvalidOTTLSpecError e = true /\
  IsCertAboutToExpireError e = false /\ errors_as as_api_request_failed e = None.
Proof. intros (e' & ->). done. Qed.

(** The kinds of errors a validation ends with. *)
Inductive validation_error : goerror -> Prop :=
| ve_secret e : is_secret_error e -> validation_error e
| ve_api e : is_api_error e -> validation_error e
| ve_endpoint e : is_endpoint_invalid e -> validation_error e
| ve_tls e : is_tls_error e -> validation_error e
| ve_limit : validation_error (Sentinel ErrMaxPipelinesExceeded)
| ve_ottl e : is_ottl_error e -> validation_error e.

Lemma validation_error_not_metric e : validation_error e -> IsInvalidAdditionalMetricError e = false.
Proof.
  intros [? (s & suf & -> & _)|? He|? [(s & -> & _)|(m & ->)]|? He| |? (e' & ->)]; try done.
  - apply api_error_class in He. tauto.
  - apply tls_error_class in He. tauto.
Qed.

(** The ConfigurationGenerated condition of a verdict, as the trace and the log
    reconciler evaluate it, with the message table of the kind. *)
Definition config_condition (messageFor : string -> string) (verdict : option goerror) :
    ConditionStatus * string * option string :=
  match verdict with
  | None => (ConditionTrue, ReasonGatewayConfigured, Some (messageFor ReasonGatewayConfigured))
  | Some err =>
      if errors_is err ErrMaxPipelinesExceeded then
        (ConditionFalse, ReasonMaxPipelinesExceeded, ConvertErrToMsg err)
      else if is_secret_ref_missing err then
        (ConditionFalse, ReasonReferencedSecretMissing, ConvertErrToMsg err)
      else if IsEndpointInvalidError err then
        (ConditionFalse, ReasonEndpointInvalid, Some (Sprintf (messageFor ReasonEndpointInvalid) [Error err]))
      else if IsInvalidOTTLSpecError err then
        (ConditionFalse, ReasonOTTLSpecInvalid, Some (Sprintf (messageFor ReasonOTTLSpecInvalid) [Error err]))
      else if isSome (errors_as as_api_request_failed err) then
        (ConditionFalse, ReasonValidationFailed, Some (messageFor ReasonValidationFailed))
      else
        let '(s, r, m) := EvaluateTLSCertCondition err in (s, r, Some m)
  end.

Lemma config_condition_agrees messageFor verdict :
  (forall e, verdict = Some e -> validation_error e) ->
  let '(status, reason, message) := config_condition messageFor verdict in
  (status = ConditionTrue <-> reconcilable_of verdict = Ok true) /\
  (status = ConditionFalse <-> reconcilable_of verdict <> Ok true) /\
  (reason = ReasonValidationFailed <-> exists e, reconcilable_of verdict = Err e) /\
  is_Some message.
Proof.
  intros Hv. unfold config_condition. destruct verdict as [e|]; [|by repeat split; naive_solver].
  specialize (Hv e eq_refl). unfold reconcilable_of.
  destruct Hv as [e He|e He|e He|e He| |e He].
  - destruct (secret_error_class _ He) as (-> & -> & -> & ->). destruct He as (s & suf & -> & Hs).
    repeat split; try done; try naive_solver.
    rewrite !elem_of_cons in Hs. by destruct Hs as [->|[->|[->|?%not_elem_of_nil]]].
  - destruct (api_error_class _ He) as (-> & -> & -> & -> & _ & -> & [x ->]).
    repeat split; try done; naive_solver.
  - destruct (endpoint_error_class _ He) as (-> & -> & -> & -> & ->).
    repeat split; try done; naive_solver.
  - destruct (tls_error_class _ He) as (-> & -> & -> & -> & _ & ->). simpl.
    unfold EvaluateTLSCertCondition, IsCertAboutToExpireError.
    destruct He as [(s & -> & Hs)|[(t & ca & ->)|(t & ca & ->)]]; simpl; repeat split; try done; naive_solver.
  - repeat split; try done; naive_solver.
  - destruct (ottl_error_class _ He) as (-> & -> & -> & -> & -> & ->).
    repeat split; try done; naive_solver.
Qed.

Lemma config_condition_message messageFor verdict :
  (forall e, verdict = Some e -> validation_error e) -> is_Some (config_condition messageFor verdict).2.
Proof.
  intros Hv. pose proof (config_condition_agrees messageFor verdict Hv) as Ha.
  destruct (config_condition messageFor verdict) as [[? ?] ?]. apply Ha.
Qed.

(** ** Early returns *)

(** A chain of checks: the error of the first that fails. *)
Fixpoint first_error (checks : list (option goerror)) : option goerror :=
  match checks with
  | [] => None
  | c :: rest => or_return c (first_error rest)
  end.

Lemma first_error_none cs : first_error cs = None <-> Forall (fun c => c = None) cs.
Proof. induction cs as [|c cs IH]; simpl; [by split|]. by rewrite or_return_none, IH, Forall_cons. Qed.

Lemma first_error_some cs e :
  first_error cs = Some e ->
  exists i, cs !! i = Some (Some e) /\ forall j c, j < i -> cs !! j = Some c -> c = None.
Proof.
  induction cs as [|c cs IH]; simpl; [done|]. rewrite or_return_some. intros [->|[-> He]].
  - exists 0. split; [done|]. lia.
  - destruct (IH He) as (i & Hi & Hbefore). exists (S i). split; [done|].
    intros [|j] c Hj Hc; simplify_eq/=; [done|]. apply (Hbefore j c); [lia|done].
Qed.

Lemma first_error_at cs i e :
  cs !! i = Some (Some e) -> (forall j c, j < i -> cs !! j = Some c -> c = None) ->
  first_error cs = Some e.
Proof.
  revert i. induction cs as [|c cs IH]; intros i Hi Hb; [done|]. simpl. destruct i as [|i]; simplify_eq/=.
  - done.
  - rewrite (Hb 0 c) by (lia || done). simpl. apply (IH i Hi). intros j x Hj Hx. apply (Hb (S j) x); [lia|done].
Qed.
