(* ===== verification/SampleCluster.v ===== *)
(** * A concrete cluster

    A cluster state for concrete runs of the reconcilers: the ConfigMap store of
    Kube.v and a list of pipelines. The validators accept every pipeline unless a
    verdict is given. *)
From stdpp Require Import base gmap strings list.
From S2P Require Import Prelude Kube GoErrors.
From S2P Require Import SecretRef Lock SelfMonitor Validators Reconcile.
Local Open Scope string_scope.

Record cluster (P : Type) := mkCluster { cl_store : RefStore.store; cl_pipelines : list P }.
Arguments mkCluster {P} _ _.
Arguments cl_store {P} _.
Arguments cl_pipelines {P} _.

Definition lift {P} (w : cluster P) (r : RefStore.store * option apierror) : cluster P * option apierror :=
  (mkCluster r.1 (cl_pipelines w), r.2).

#[export] Instance cluster_cm_client {P} : ConfigMapClient (cluster P) := {|
  cm_get w k := RefStore.get (cl_store w) k;
  cm_create w cm := lift w (RefStore.create (cl_store w) cm);
  cm_update w cm := lift w (RefStore.update (cl_store w) cm)
|}.

Lemma lift_inv {P} (w : cluster P) r w' e :
  lift w r = (w', e) -> r = (cl_store w', e) /\ cl_pipelines w' = cl_pipelines w.
Proof. unfold lift. intros [= <- <-]. by destruct r. Qed.

Lemma cluster_ext {P} (w w' : cluster P) :
  cl_store w' = cl_store w -> cl_pipelines w' = cl_pipelines w -> w' = w.
Proof. destruct w, w'; simpl; congruence. Qed.

#[export] Instance cluster_cm_laws {P} : ConfigMapLaws (cluster P).
Proof.
  refine {| cm_revision w := RefStore.revision (cl_store w) |}; cbn [cm_get cm_create cm_update cluster_cm_client].
  - intros w k cm. exact (cm_get_key (cl_store w) k cm).
  - intros w k cm. exact (cm_get_version (cl_store w) k cm).
  - intros w cm w' [Hc _]%lift_inv. exact (cm_create_ok _ _ _ Hc).
  - intros w cm w' e [Hc Hp]%lift_inv. apply cluster_ext; [|done]. exact (cm_create_err _ _ _ _ Hc).
  - intros w cm w' [Hc _]%lift_inv. exact (cm_update_ok _ _ _ Hc).
  - intros w cm w' e [Hc Hp]%lift_inv. apply cluster_ext; [|done]. exact (cm_update_err _ _ _ _ Hc).
  - intros w cm w' [Hc _]%lift_inv. exact (cm_create_revision _ _ _ Hc).
  - intros w cm w' [Hc _]%lift_inv. exact (cm_update_revision _ _ _ Hc).
  - intros w cm w' e k [Hc _]%lift_inv. exact (cm_create_frame _ _ _ _ _ Hc).
  - intros w cm w' e k [Hc _]%lift_inv. exact (cm_update_frame _ _ _ _ _ Hc).
Defined.

(** The pipeline of a name, and its replacement. *)
Definition find_pipeline {P} (name_of : P -> string) (n : string) (ps : list P) : option P :=
  List.find (fun p => str_eqb (name_of p) n) ps.

Fixpoint put_pipeline {P} (name_of : P -> string) (p : P) (ps : list P) : list P :=
  match ps with
  | [] => []
  | q :: rest => if str_eqb (name_of q) (name_of p) then p :: rest else q :: put_pipeline name_of p rest
  end.

Definition sample_cluster {P} (name_of : P -> string) : PipelineCluster (cluster P) P := {|
  pl_get w n := match find_pipeline name_of n (cl_pipelines w) with Some p => Ok p | None => Err NotFound end;
  pl_list w := Ok (cl_pipelines w);
  pl_status_update w p :=
    match find_pipeline name_of (name_of p) (cl_pipelines w) with
    | Some _ => (mkCluster (cl_store w) (put_pipeline name_of p (cl_pipelines w)), None)
    | None => (w, Some NotFound)
    end;
  pl_secrets _ := fun _ => Err NotFound;
  LoadOverrides_Paused _ := Ok false;
  RemoveFromWatchers w _ := (w, None);
  SyncWatchers w _ _ := (w, None);
  gatewayProber _ := None;
  agentProber _ := None;
  gatewayFlowHealthProber _ _ := Ok (mkGatewayProbe (mkProbeResult false false true) false);
  agentFlowHealthProber _ _ := Ok (mkAgentProbe (mkProbeResult false false true));
  time_now _ := 0%Z
|}.

Lemma sample_cluster_laws {P} (name_of : P -> string) :
  @PipelineClusterLaws (cluster P) P (sample_cluster name_of) _.
Proof.
  constructor; simpl; intros; [|by simplify_eq..]. case_match; by simplify_eq.
Qed.

Lemma sample_list_laws {P} (name_of : P -> string) :
  @PipelineListLaws (cluster P) P (sample_cluster name_of) _.
Proof.
  constructor; simpl.
  - intros w cm w' e [_ Hp]%lift_inv. by rewrite Hp.
  - intros w cm w' e [_ Hp]%lift_inv. by rewrite Hp.
  - by intros; simplify_eq.
Qed.

Lemma find_put {P} (name_of : P -> string) p ps :
  is_Some (find_pipeline name_of (name_of p) ps) ->
  find_pipeline name_of (name_of p) (put_pipeline name_of p ps) = Some p.
Proof.
  unfold find_pipeline. induction ps as [|q ps IH]; simpl; [by intros [? ?]|].
  destruct (str_eqb (name_of q) (name_of p)) eqn:E; simpl; [by rewrite str_eqb_refl|].
  rewrite E. apply IH.
Qed.

(** Validators with fixed verdicts of the certificate, lock and OTTL checks. *)
Definition sample_validators {P} (tls lock ottl : option goerror) : PipelineValidators (cluster P) P := {|
  SecretRefValidator _ _ := None;
  EndpointValidator _ _ := None;
  TLSCertValidator _ _ := tls;
  PipelineLock_IsLockHolder _ _ := lock;
  TransformSpecValidator _ := ottl;
  FilterSpecValidator _ := None
|}.

Lemma sample_validator_laws {P} tls lock ottl :
  (forall e, tls = Some e -> is_tls_error e) ->
  (forall e, lock = Some e -> is_lock_error e) ->
  (forall e, ottl = Some e -> is_ottl_error e) ->
  @PipelineValidatorLaws (cluster P) P (sample_validators tls lock ottl).
Proof. by constructor; simpl; intros; simplify_eq; auto. Qed.
