(* ===== verification/TraceReconciler.v ===== *)
(** * The TracePipeline reconciler (internal/reconciler/tracepipeline)

    validator.go, status.go and reconciler.go. Logging is left out. [None] as the
    result of a reconciliation is a panic. *)
From stdpp Require Import base gmap strings list.
From S2P Require Import Prelude Kube GoErrors.
From S2P Require Import ApiV1beta1 SecretRef Lock Coordination Conditions CommonStatus SelfMonitor.
From S2P Require Import Endpoint TLSCert Validators PipelineMetrics Reconcile.
Local Open Scope string_scope.
Local Open Scope go_scope.

(** ** validator.go *)

Definition tlsValidationRequired (pipeline : TracePipeline) : bool :=
  match tout_OTLP (tps_Output (tp_Spec pipeline)) with
  | None => false
  | Some otlp =>
      match oo_TLS otlp with
      | None => false
      | Some tls => isSome (tls_Cert tls) || isSome (tls_Key tls) || isSome (tls_CA tls)
      end
  end.

(** [flowHealthReasonFor(probeResult)] (status.go) *)
Definition flowHealthReasonFor (probeResult : OTelGatewayProbeResult) : string :=
  if pr_AllDataDropped (gp_Result probeResult) then ReasonSelfMonGatewayAllDataDropped
  else if pr_SomeDataDropped (gp_Result probeResult) then ReasonSelfMonGatewaySomeDataDropped
  else if gp_Throttling probeResult then ReasonSelfMonGatewayThrottling
  else ReasonSelfMonFlowHealthy.

Section Trace.
Context {W : Type} `{PipelineValidators W TracePipeline} `{PipelineCluster W TracePipeline}.
Context `{ConfigMapClient W} `{GatewayYAML} `{OwnerSetter} `{StatusSetter}.

Definition endpoint_check (w : W) (pipeline : TracePipeline) : option goerror :=
  match tout_OTLP (tps_Output (tp_Spec pipeline)) with
  | None => None
  | Some otlp =>
      let oauth2 := match oo_Authentication otlp with Some a => ao_OAuth2 a | None => None end in
      EndpointValidator w (mkEndpointParams (Some (oo_Endpoint otlp)) (oo_Protocol otlp) (oo_TLS otlp) oauth2)
  end.

Definition tls_check (w : W) (pipeline : TracePipeline) : option goerror :=
  if tlsValidationRequired pipeline then
    match tout_OTLP (tps_Output (tp_Spec pipeline)) ≫= oo_TLS with
    | Some tls => TLSCertValidator w (mkTLSParams (tls_Cert tls) (tls_Key tls) (tls_CA tls))
    | None => None
    end
  else None.

(** [(v *Validator) validate(ctx, pipeline)] *)
Definition validate (w : W) (pipeline : TracePipeline) : option goerror :=
  SecretRefValidator w pipeline ?;;
  endpoint_check w pipeline ?;;
  tls_check w pipeline ?;;
  PipelineLock_IsLockHolder w pipeline ?;;
  TransformSpecValidator (tps_Transforms (tp_Spec pipeline)) ?;;
  FilterSpecValidator (tps_Filters (tp_Spec pipeline)) ?;;
  None.

(** ** status.go *)

(** The status, the reason, and the message ([None]: panic). *)
Definition evaluateConfigGeneratedCondition (w : W) (pipeline : TracePipeline) :
    ConditionStatus * string * option string :=
  match validate w pipeline with
  | None => (ConditionTrue, ReasonGatewayConfigured, Some (MessageForTracePipeline ReasonGatewayConfigured))
  | Some err =>
      if errors_is err ErrMaxPipelinesExceeded then
        (ConditionFalse, ReasonMaxPipelinesExceeded, ConvertErrToMsg err)
      else if is_secret_ref_missing err then
        (ConditionFalse, ReasonReferencedSecretMissing, ConvertErrToMsg err)
      else if IsEndpointInvalidError err then
        (ConditionFalse, ReasonEndpointInvalid,
         Some (Sprintf (MessageForTracePipeline ReasonEndpointInvalid) [Error err]))
      else if IsInvalidOTTLSpecError err then
        (ConditionFalse, ReasonOTTLSpecInvalid,
         Some (Sprintf (MessageForTracePipeline ReasonOTTLSpecInvalid) [Error err]))
      else if isSome (errors_as as_api_request_failed err) then
        (ConditionFalse, ReasonValidationFailed, Some (MessageForTracePipeline ReasonValidationFailed))
      else
        let '(s, r, m) := EvaluateTLSCertCondition err in (s, r, Some m)
  end.

Definition evaluateFlowHealthCondition (w : W) (pipeline : TracePipeline) :
    ConditionStatus * string * option goerror :=
  let '(configGeneratedStatus, _, _) := evaluateConfigGeneratedCondition w pipeline in
  if bool_decide (configGeneratedStatus = ConditionFalse) then
    (ConditionFalse, ReasonSelfMonConfigNotGenerated, None)
  else
    match gatewayFlowHealthProber w (om_Name (tp_ObjectMeta pipeline)) with
    | Err e => (ConditionUnknown, ReasonSelfMonGatewayProbingFailed, Some (Wrapf "failed to probe flow health: " e ""))
    | Ok probeResult =>
        let reason := flowHealthReasonFor probeResult in
        if pr_Healthy (gp_Result probeResult) then (ConditionTrue, reason, None)
        else (ConditionFalse, reason, None)
    end.

Definition set_condition (pipeline : TracePipeline) (c : Condition) : TracePipeline :=
  mkTracePipeline (tp_ObjectMeta pipeline) (tp_Spec pipeline)
    (mkTraceStatus (SetStatusCondition (tst_Conditions (tp_Status pipeline)) c)).

Definition setGatewayHealthyCondition (w : W) (pipeline : TracePipeline) : option TracePipeline :=
  let '(configStatus, _, _) := evaluateConfigGeneratedCondition w pipeline in
  (fun c => set_condition pipeline (with_generation c (om_Generation (tp_ObjectMeta pipeline))))
    <$> GetGatewayHealthyCondition (gatewayProber w) SignalTypeTrace configStatus.

Definition setGatewayConfigGeneratedCondition (w : W) (pipeline : TracePipeline) : option TracePipeline :=
  let '(status, reason, message) := evaluateConfigGeneratedCondition w pipeline in
  (fun m => set_condition pipeline (mkCondition TypeConfigurationGenerated status reason m
                                      (om_Generation (tp_ObjectMeta pipeline)))) <$> message.

Definition setFlowHealthCondition (w : W) (pipeline : TracePipeline) : TracePipeline * option goerror :=
  let '(status, reason, err) := evaluateFlowHealthCondition w pipeline in
  (set_condition pipeline (mkCondition TypeFlowHealthy status reason (MessageForTracePipeline reason)
                             (om_Generation (tp_ObjectMeta pipeline))), err).

(** [(r *Reconciler) updateStatus(ctx, pipelineName)] *)
Definition updateStatus (w : W) (pipelineName : string) : option (W * option goerror) :=
  match pl_get w pipelineName with
  | Err e =>
      if IsNotFound e then Some (w, None)
      else Some (w, Some (Wrapf "failed to get TracePipeline: " (ApiError e) ""))
  | Ok pipeline =>
      if om_Deleted (tp_ObjectMeta pipeline) then Some (w, None)
      else
        pipeline ← setGatewayHealthyCondition w pipeline;
        pipeline ← setGatewayConfigGeneratedCondition w pipeline;
        let '(pipeline, err) := setFlowHealthCondition w pipeline in
        let allErrors := match err with None => None | Some e => errors_join None e end in
        let '(w', uerr) := pl_status_update w pipeline in
        Some (w', join_if allErrors "failed to update TracePipeline status: " (ApiError <$> uerr))
  end.

(** ** reconciler.go *)

Definition isReconcilable (w : W) (pipeline : TracePipeline) : result bool goerror :=
  if om_Deleted (tp_ObjectMeta pipeline) then Ok false
  else reconcilable_of (validate w pipeline).

Definition getEndpoint (w : W) (pipeline : TracePipeline) : option string :=
  match tout_OTLP (tps_Output (tp_Spec pipeline)) with
  | None => Some ""
  | Some otlp => @resolve_endpoint (pl_secrets w) (oo_Endpoint otlp)
  end.

(** [trackPipelineInfoMetric]: the label values recorded. *)
Definition trackPipelineInfoMetric (w : W) (pipelines : list TracePipeline) : option (list (list string)) :=
  record_all (fun pipeline =>
    let features :=
      (feature (IsTransformDefined (tps_Transforms (tp_Spec pipeline))) FeatureTransform ++
       feature (IsFilterDefined (tps_Filters (tp_Spec pipeline))) FeatureFilter)%list in
    endpoint ← getEndpoint w pipeline;
    Some (RecordTracePipelineInfo (om_Name (tp_ObjectMeta pipeline)) endpoint features)) pipelines.

(** [(r *Reconciler) doReconcile(ctx, pipeline)] *)
Definition doReconcile (r : ReconcilerConfig) (w : W) (pipeline : TracePipeline) :
    option (W * option goerror) :=
  match TryAcquireLock (rc_pipelineLock r) w (owner_of (tp_ObjectMeta pipeline)) with
  | (w, Some err) => Some (w, if errors_is err ErrMaxPipelinesExceeded then None else Some err)
  | (w, None) =>
      match pl_list w with
      | Err e => Some (w, Some (Wrapf "failed to list trace pipelines: " (ApiError e) ""))
      | Ok allPipelines =>
          _ ← trackPipelineInfoMetric w allPipelines;
          match isReconcilable w pipeline with
          | Err e => Some (w, Some (Wrapf "failed to validate pipeline: " e ""))
          | Ok true =>
              secretRefs ← GetSecretRefsTracePipeline pipeline;
              match @CollectSecretVersions (pl_secrets w) secretRefs with
              | Err e => Some (w, Some (Wrapf "failed to collect secret versions: " e ""))
              | Ok secretVersions =>
                  let '(w, err) :=
                    AddPipelineReference w (rc_TargetNamespace r) SignalTypeTrace
                      (mkPipelineReference (om_Name (tp_ObjectMeta pipeline))
                         (om_Generation (tp_ObjectMeta pipeline)) (Some secretVersions)) in
                  Some (w, (fun e => Wrapf "failed to write pipeline reference to ConfigMap: " e "") <$> err)
              end
          | Ok false =>
              let '(w, err) :=
                RemovePipelineReference w (rc_TargetNamespace r) SignalTypeTrace
                  (om_Name (tp_ObjectMeta pipeline)) in
              Some (w, (fun e => Wrapf "failed to remove pipeline reference from OTLP Gateway Coordination ConfigMap: " e "")
                         <$> err)
          end
      end
  end.

Definition calculateRequeueAfterDuration (w : W) (pipeline : TracePipeline) : option Z :=
  match validate w pipeline with
  | None => None
  | Some err => (fun p => time_sub p.1 (time_now w)) <$> errors_as as_cert_about_to_expire err
  end.

Definition syncSecretWatchers (w : W) (pipeline : TracePipeline) : option (W * option goerror) :=
  refs ← GetSecretRefsTracePipeline pipeline;
  Some (SyncWatchers w pipeline (RefsToSecretNames refs)).

(** [(r *Reconciler) Reconcile(ctx, req)] *)
Definition Reconcile (r : ReconcilerConfig) (w : W) (name : string) :
    option (W * result ctrl_Result goerror) :=
  match LoadOverrides_Paused w with
  | Err e => Some (w, Err e)
  | Ok true => Some (w, Ok (mkResult None))
  | Ok false =>
      match pl_get w name with
      | Err e =>
          if negb (IsNotFound e) then Some (w, Err (ApiError e))
          else
            match RemoveFromWatchers w name with
            | (w, Some err) => Some (w, Err err)
            | (w, None) =>
                match RemovePipelineReference w (rc_TargetNamespace r) SignalTypeTrace name with
                | (w, Some err) =>
                    Some (w, Err (Wrapf "failed to remove pipeline reference from OTLP Gateway Coordination ConfigMap: " err ""))
                | (w, None) => Some (w, Ok (mkResult None))
                end
            end
      | Ok tracePipeline =>
          sync ← syncSecretWatchers w tracePipeline;
          match sync with
          | (w, Some err) => Some (w, Err err)
          | (w, None) =>
              match TryAcquireLock (rc_pipelineSync r) w (owner_of (tp_ObjectMeta tracePipeline)) with
              | (w, Some err) =>
                  Some (w, if errors_is err ErrMaxPipelinesExceeded then Ok (mkResult None) else Err err)
              | (w, None) =>
                  rec ← doReconcile r w tracePipeline;
                  let '(w, err1) := rec in
                  let allErrors := join_if None "failed to reconcile: " err1 in
                  upd ← updateStatus w (om_Name (tp_ObjectMeta tracePipeline));
                  let '(w, err2) := upd in
                  let allErrors := join_if allErrors "failed to update status: " err2 in
                  match allErrors with
                  | Some e => Some (w, Err e)
                  | None => Some (w, Ok (mkResult (calculateRequeueAfterDuration w tracePipeline)))
                  end
              end
          end
      end
  end.

End Trace.
