(* ===== verification/TraceReconcilerProps.v ===== *)
(** * Properties of the TracePipeline reconciler

    The reported condition agrees with what the reconciler does, a reconciliation
    publishes exactly the pipelines it accepts, deleted pipelines disappear, and the
    status carries the current generation. *)
From stdpp Require Import base gmap strings list.
From S2P Require Import Prelude Kube GoErrors.
From S2P Require Import ApiV1beta1 SecretRef Lock Coordination CoordinationProps.
From S2P Require Import Conditions CommonStatus SelfMonitor Endpoint TLSCert Validators PipelineMetrics Reconcile.
From S2P Require Import SampleCluster TraceReconciler.
Local Open Scope string_scope.

Section Validation.
Context {W : Type} `{PipelineValidatorLaws W TracePipeline}.

Definition checks (w : W) (p : TracePipeline) : list (option goerror) :=
  [SecretRefValidator w p; endpoint_check w p; tls_check w p; PipelineLock_IsLockHolder w p;
   TransformSpecValidator (tps_Transforms (tp_Spec p)); FilterSpecValidator (tps_Filters (tp_Spec p))].

Lemma trace_validate_checks w p : validate w p = first_error (checks w p).
Proof. done. Qed.

Lemma trace_endpoint_check_err w p e : endpoint_check w p = Some e -> is_endpoint_invalid e.
Proof. unfold endpoint_check. case_match; [|done]. apply EndpointValidator_err. Qed.

Lemma trace_tls_check_err w p e : tls_check w p = Some e -> is_tls_error e.
Proof. unfold tls_check. case_match; [|done]. case_match; [|done]. apply TLSCertValidator_err. Qed.

Lemma trace_validate_error w p e : validate w p = Some e -> validation_error e.
Proof.
  rewrite trace_validate_checks. intros (i & Hi & _)%first_error_some. unfold checks in Hi.
  destruct i as [|[|[|[|[|[|i]]]]]]; simpl in Hi; simplify_eq.
  - destruct (SecretRefValidator_err _ _ _ Hi); by constructor.
  - eapply ve_endpoint, trace_endpoint_check_err, Hi.
  - eapply ve_tls, trace_tls_check_err, Hi.
  - destruct (IsLockHolder_err _ _ _ Hi) as [->|?]; by constructor.
  - eapply ve_ottl, TransformSpecValidator_err, Hi.
  - eapply ve_ottl, FilterSpecValidator_err, Hi.
Qed.

Lemma evaluateConfig_verdict w p :
  evaluateConfigGeneratedCondition w p = config_condition MessageForTracePipeline (validate w p).
Proof. done. Qed.

Lemma evaluateConfig_message w p : is_Some (evaluateConfigGeneratedCondition w p).2.
Proof. rewrite evaluateConfig_verdict. apply config_condition_message, trace_validate_error. Qed.

(** C15. The ConfigurationGenerated condition of a TracePipeline not in deletion
    tells what the reconciler does: it is True exactly when isReconcilable
    accepts the pipeline and False exactly when it does not, its reason is
    ValidationFailed exactly when the reconciliation fails with an API error,
    and building its message never panics. *)
Theorem trace_condition_agrees_with_reconciliation w p :
  om_Deleted (tp_ObjectMeta p) = false ->
  let '(status, reason, message) := evaluateConfigGeneratedCondition w p in
  (status = ConditionTrue <-> isReconcilable w p = Ok true) /\
  (status = ConditionFalse <-> isReconcilable w p <> Ok true) /\
  (reason = ReasonValidationFailed <-> exists e, isReconcilable w p = Err e) /\
  is_Some message.
Proof.
  intros Hd. rewrite evaluateConfig_verdict. unfold isReconcilable. rewrite Hd.
  apply config_condition_agrees, trace_validate_error.
Qed.

End Validation.

(** ** Publishing *)

Section Publish.
Context {W : Type} `{PipelineValidators W TracePipeline} `{PipelineCluster W TracePipeline}.
Context `{ConfigMapLaws W} `{GatewayYAMLLaws} `{OwnerSetterLaws} `{StatusSetter}.

(** What a successful reconciliation publishes. *)
Lemma trace_reconciliation_publishes r (w : W) p w' c :
  ck_lockName (rc_pipelineLock r) <> coordination_key (rc_TargetNamespace r) ->
  ReadOTLPGatewayConfig w (rc_TargetNamespace r) = Ok c -> config_wf c ->
  doReconcile r w p = Some (w', None) ->
  let '(w1, acquired) := TryAcquireLock (rc_pipelineLock r) w (owner_of (tp_ObjectMeta p)) in
  match acquired with
  | Some err => errors_is err ErrMaxPipelinesExceeded = true /\ w' = w
  | None =>
      exists reconcilable x c',
        isReconcilable w1 p = Ok reconcilable /\
        ReadOTLPGatewayConfig w' (rc_TargetNamespace r) = Ok c' /\ config_wf c' /\
        publishes c c' SignalTypeTrace (om_Name (tp_ObjectMeta p)) x /\
        (if reconcilable then
           exists o versions, tout_OTLP (tps_Output (tp_Spec p)) = Some o /\
             @CollectSecretVersions (pl_secrets w1) (omap value_ref (otlp_values o)) = Ok versions /\
             x = Some (om_Generation (tp_ObjectMeta p), versions)
         else x = None)
  end.
Proof.
  intros Hkey Hc Hwf. unfold doReconcile.
  destruct (TryAcquireLock _ w _) as [w1 [err|]] eqn:Hl.
  { intros [= <- Herr]. split; [by destruct (errors_is err _)|by eapply perform_err]. }
  assert (Hc1 : ReadOTLPGatewayConfig w1 (rc_TargetNamespace r) = Ok c).
  { rewrite <- Hc. apply ReadOTLPGatewayConfig_frame. eapply TryAcquireLock_frame; [done|]. congruence. }
  destruct (pl_list w1) as [all|]; [|done]. destruct (trackPipelineInfoMetric w1 all); [|done]. cbn [mbind option_bind].
  destruct (isReconcilable w1 p) as [[]|]; [| |done].
  - destruct (GetSecretRefsTracePipeline p) as [refs|] eqn:Hrefs; simpl; [|done].
    destruct (@CollectSecretVersions _ refs) as [versions|] eqn:Hcv; [|done].
    destruct (AddPipelineReference _ _ _ _) as [w2 [e2|]] eqn:Ha; simpl; [done|]. intros [= <-].
    destruct (AddPipelineReference_publishes _ _ _ _ _ _ _ _ Hc1 Hwf Ha) as (c' & Hr & Hwf' & Hp).
    exists true, (Some (om_Generation (tp_ObjectMeta p), versions)), c'. repeat split; try done; [apply Hp..|].
    unfold GetSecretRefsTracePipeline in Hrefs. destruct (tout_OTLP _) as [o|]; [|done]. injection Hrefs as <-.
    exists o, versions. rewrite OTLP_refs_exact in Hcv. done.
  - destruct (RemovePipelineReference _ _ _ _) as [w2 [e2|]] eqn:Ha; simpl; [done|]. intros [= <-].
    destruct (RemovePipelineReference_publishes _ _ _ _ _ _ Hc1 Hwf Ha) as (c' & Hr & Hwf' & Hp).
    exists false, None, c'. repeat split; try done; apply Hp.
Qed.

(** C12. A successful doReconcile of a TracePipeline, on a coordination
    ConfigMap that can be read, publishes exactly what was decided: when the
    lock is refused, the limit is the reason and the cluster is unchanged;
    otherwise the trace entry of the pipeline carries its generation and, for
    every Secret that a value of its output refers to and no other, the resource
    version of that Secret when isReconcilable accepted it, is absent when it
    did not, and every other entry of every signal is unchanged. (No Secret is
    in a namespace whose name has a slash, as Kubernetes guarantees.) *)
Theorem trace_doReconcile_publishes r (w : W) p w' c :
  (forall w1 : W, @namespaces_named (pl_secrets w1)) ->
  ck_lockName (rc_pipelineLock r) <> coordination_key (rc_TargetNamespace r) ->
  ReadOTLPGatewayConfig w (rc_TargetNamespace r) = Ok c -> config_wf c ->
  doReconcile r w p = Some (w', None) ->
  let '(w1, acquired) := TryAcquireLock (rc_pipelineLock r) w (owner_of (tp_ObjectMeta p)) in
  match acquired with
  | Some err => errors_is err ErrMaxPipelinesExceeded = true /\ w' = w
  | None =>
      exists reconcilable x c',
        isReconcilable w1 p = Ok reconcilable /\
        ReadOTLPGatewayConfig w' (rc_TargetNamespace r) = Ok c' /\ config_wf c' /\
        publishes c c' SignalTypeTrace (om_Name (tp_ObjectMeta p)) x /\
        (if reconcilable then
           exists o versions, tout_OTLP (tps_Output (tp_Spec p)) = Some o /\
             @versions_of (pl_secrets w1) (omap value_ref (otlp_values o)) versions /\
             x = Some (om_Generation (tp_ObjectMeta p), versions)
         else x = None)
  end.
Proof.
  intros Hnames Hkey Hc Hwf Hr. pose proof (trace_reconciliation_publishes r w p w' c Hkey Hc Hwf Hr) as Hp.
  destruct (TryAcquireLock _ w _) as [w1 [err|]]; [done|].
  destruct Hp as (b & x & c' & Hb & Hc' & Hwf' & Hp & Hx). exists b, x, c'. split_and!; [done..|]. destruct b; [|done].
  destruct Hx as (o & versions & Ho & Hv & ->). exists o, versions. split_and!; [done| |done].
  exact (@CollectSecretVersions_exact (pl_secrets w1) _ _ (Hnames w1) Hv).
Qed.

(** Reconciling a TracePipeline that no longer exists removes its trace entry
    from the coordination ConfigMap and changes no other entry. *)
Theorem trace_Reconcile_deleted `{!PipelineClusterLaws W TracePipeline} r (w : W) name w' res c :
  pl_get w name = Err NotFound ->
  ReadOTLPGatewayConfig w (rc_TargetNamespace r) = Ok c -> config_wf c ->
  Reconcile r w name = Some (w', Ok res) ->
  LoadOverrides_Paused w = Ok false ->
  exists c', ReadOTLPGatewayConfig w' (rc_TargetNamespace r) = Ok c' /\ config_wf c' /\
    publishes c c' SignalTypeTrace name None.
Proof.
  intros Hg Hc Hwf Hr Hp. unfold Reconcile in Hr. rewrite Hp, Hg in Hr. simpl in Hr.
  destruct (RemoveFromWatchers w name) as [w1 [e1|]] eqn:Hw; [done|].
  destruct (RemovePipelineReference w1 _ _ _) as [w2 [e2|]] eqn:Hrm; simplify_eq.
  eapply RemovePipelineReference_publishes; [|done|done].
  rewrite <- Hc. apply ReadOTLPGatewayConfig_frame. by eapply remove_watchers_frame.
Qed.

End Publish.

(** ** Status *)

(** The validators read the metadata and the spec of a pipeline, not its status. *)
Class TraceStatusIrrelevant (W : Type) `{PipelineValidators W TracePipeline} := {
  secretref_status (w : W) m s st st' :
    SecretRefValidator w (mkTracePipeline m s st) = SecretRefValidator w (mkTracePipeline m s st');
  lock_status (w : W) m s st st' :
    PipelineLock_IsLockHolder w (mkTracePipeline m s st) = PipelineLock_IsLockHolder w (mkTracePipeline m s st')
}.

(** A successful status update stores the object. *)
Class TraceStatusStored (W : Type) `{PipelineCluster W TracePipeline} := {
  trace_status_stored (w : W) p w' :
    pl_status_update w p = (w', None) -> pl_get w' (om_Name (tp_ObjectMeta p)) = Ok p
}.

Section Status.
Context {W : Type} `{TraceStatusIrrelevant W} `{TraceStatusStored W} `{StatusSetterLaws}.

Lemma validate_set_condition (w : W) p c : validate w (set_condition p c) = validate w p.
Proof.
  destruct p as [m s st]. unfold set_condition, validate; simpl.
  by rewrite (secretref_status w m s _ st), (lock_status w m s _ st).
Qed.

Lemma evaluateConfig_set_condition (w : W) p c :
  evaluateConfigGeneratedCondition w (set_condition p c) = evaluateConfigGeneratedCondition w p.
Proof. unfold evaluateConfigGeneratedCondition. by rewrite validate_set_condition. Qed.

Lemma evaluateFlow_set_condition (w : W) p c :
  evaluateFlowHealthCondition w (set_condition p c) = evaluateFlowHealthCondition w p.
Proof. unfold evaluateFlowHealthCondition. by rewrite evaluateConfig_set_condition. Qed.

(** A successful updateStatus stores the three conditions of a TracePipeline
    (gateway health, configuration, flow health) as evaluated on the state read,
    each with the generation of the pipeline, keeps its spec and leaves
    conditions of other types alone. *)
Theorem trace_updateStatus_complete (w : W) p w' :
  pl_get w (om_Name (tp_ObjectMeta p)) = Ok p -> om_Deleted (tp_ObjectMeta p) = false ->
  updateStatus w (om_Name (tp_ObjectMeta p)) = Some (w', None) ->
  let g := om_Generation (tp_ObjectMeta p) in
  let '(config, config_reason, config_msg) := evaluateConfigGeneratedCondition w p in
  let '(flow, flow_reason, flow_err) := evaluateFlowHealthCondition w p in
  exists p' gw msg, pl_get w' (om_Name (tp_ObjectMeta p)) = Ok p' /\ tp_Spec p' = tp_Spec p /\
    GetGatewayHealthyCondition (gatewayProber w) SignalTypeTrace config = Some gw /\
    config_msg = Some msg /\ flow_err = None /\
    let cs := tst_Conditions (tp_Status p') in
    find_condition TypeGatewayHealthy cs = Some (with_generation gw g) /\
    find_condition TypeConfigurationGenerated cs =
      Some (mkCondition TypeConfigurationGenerated config config_reason msg g) /\
    find_condition TypeFlowHealthy cs =
      Some (mkCondition TypeFlowHealthy flow flow_reason (MessageForTracePipeline flow_reason) g) /\
    (forall t, t ∉ [TypeGatewayHealthy; TypeConfigurationGenerated; TypeFlowHealthy] ->
       find_condition t cs = find_condition t (tst_Conditions (tp_Status p))).
Proof.
  intros Hg Hd Hu g. unfold updateStatus in Hu. rewrite Hg, Hd in Hu.
  unfold setGatewayHealthyCondition in Hu.
  destruct (evaluateConfigGeneratedCondition w p) as [[config creason] cmsg] eqn:Hcfg.
  destruct (GetGatewayHealthyCondition _ _ config) as [gw|] eqn:Hgw; [|done]. cbn [mbind option_bind fmap option_fmap option_map] in Hu.
  unfold setGatewayConfigGeneratedCondition in Hu. rewrite evaluateConfig_set_condition, Hcfg in Hu.
  destruct cmsg as [msg|]; [|done]. cbn [mbind option_bind fmap option_fmap option_map] in Hu.
  unfold setFlowHealthCondition in Hu. rewrite !evaluateFlow_set_condition in Hu.
  destruct (evaluateFlowHealthCondition w p) as [[flow freason] ferr] eqn:Hflow.
  cbn [om_Generation tp_ObjectMeta set_condition] in Hu.
  destruct (pl_status_update w _) as [w2 uerr] eqn:Hst.
  destruct uerr as [ue|]; [by destruct ferr|]. destruct ferr as [fe|]; [done|].
  simpl in Hu. injection Hu as <-.
  apply trace_status_stored in Hst. cbn [tp_ObjectMeta set_condition] in Hst.
  eexists _, gw, msg. split; [exact Hst|]. split; [done|]. split; [done|]. split; [done|]. split; [done|].
  pose proof (GetGatewayHealthyCondition_type _ _ _ _ Hgw) as Hty. cbn [tp_Status set_condition tst_Conditions].
  repeat split.
  - rewrite !set_condition_other by done.
    rewrite <- Hty. apply (set_condition_same _ (with_generation gw g)).
  - rewrite set_condition_other by done. apply (set_condition_same _ (mkCondition _ _ _ _ _)).
  - apply (set_condition_same _ (mkCondition _ _ _ _ _)).
  - intros t Ht. rewrite !not_elem_of_cons in Ht. destruct Ht as (H1' & H2' & H3' & _).
    rewrite !set_condition_other by (simpl; congruence). done.
Qed.

End Status.

(** ** No panic *)

Section NoPanic.
Context {W : Type} `{PipelineValidatorLaws W TracePipeline} `{PipelineCluster W TracePipeline}.
Context `{!ConfigMapClient W} `{!PipelineListLaws W TracePipeline} `{GatewayYAML} `{OwnerSetter} `{StatusSetter}.

(** A pipeline whose endpoint can be recorded. *)
Definition endpoint_given (p : TracePipeline) : Prop :=
  forall otlp, tout_OTLP (tps_Output (tp_Spec p)) = Some otlp -> value_given (oo_Endpoint otlp).

Lemma track_defined (w : W) ps : is_Some (trackPipelineInfoMetric w ps) <-> Forall endpoint_given ps.
Proof.
  unfold trackPipelineInfoMetric. rewrite record_all_defined. apply Forall_iff. intros p.
  unfold endpoint_given, getEndpoint. destruct (tout_OTLP _) as [otlp|].
  - pose proof (@resolve_endpoint_defined (pl_secrets w) (oo_Endpoint otlp)) as Hr.
    destruct (resolve_endpoint _) as [e|]; simpl; split.
    + intros _ o [= <-]. apply Hr. by eexists.
    + by eexists.
    + by intros [? ?].
    + intros Ho. destruct (proj2 Hr (Ho otlp eq_refl)). done.
  - simpl. split; [done|by eexists].
Qed.

Lemma doReconcile_returns r (w : W) p :
  is_Some (tout_OTLP (tps_Output (tp_Spec p))) ->
  (forall ps, pl_list w = Ok ps -> Forall endpoint_given ps) ->
  is_Some (doReconcile r w p).
Proof.
  intros [o Ho] Hl. unfold doReconcile, GetSecretRefsTracePipeline. rewrite Ho.
  destruct (TryAcquireLock _ _ _) as [w1 [e|]] eqn:Hlock; [by eexists|].
  apply TryAcquireLock_list in Hlock.
  destruct (pl_list w1) as [ps|] eqn:Hps; [|by eexists].
  destruct (proj2 (track_defined w1 ps)) as [rs ->]; [apply Hl; congruence|]. simpl.
  destruct (isReconcilable w1 p) as [[]|]; [..|by eexists].
  - destruct (CollectSecretVersions _); [|by eexists]. destruct (AddPipelineReference _ _ _ _). by eexists.
  - destruct (RemovePipelineReference _ _ _ _). by eexists.
Qed.

Lemma updateStatus_returns (w : W) name :
  (forall e, gatewayProber w = Some e -> is_Some (Convert e)) -> is_Some (updateStatus w name).
Proof.
  intros Hg. unfold updateStatus. destruct (pl_get w name) as [p|e]; [|destruct (IsNotFound e); by eexists].
  destruct (om_Deleted _); [by eexists|]. unfold setGatewayHealthyCondition.
  destruct (evaluateConfigGeneratedCondition w p) as [[s ?] ?].
  destruct (GetGatewayHealthyCondition_defined (gatewayProber w) SignalTypeTrace s Hg) as [c ->]. simpl.
  unfold setGatewayConfigGeneratedCondition.
  pose proof (evaluateConfig_message w (set_condition p (with_generation c (om_Generation (tp_ObjectMeta p))))) as Hm.
  destruct (evaluateConfigGeneratedCondition w _) as [[? ?] m]. destruct Hm as [m' Hm]. simpl in Hm. subst m. simpl.
  unfold setFlowHealthCondition. destruct (evaluateFlowHealthCondition w _) as [[? ?] ?].
  destruct (pl_status_update w _). by eexists.
Qed.

(** Reconcile of a TracePipeline returns for every cluster state, API failures
    included, when the stored pipeline has an OTLP output, the endpoints of all
    listed pipelines are given, and the errors of the gateway prober convert to
    a message (the errors of the DaemonSet prober do). *)
Theorem trace_Reconcile_never_panics r (w : W) name :
  (forall p, pl_get w name = Ok p -> is_Some (tout_OTLP (tps_Output (tp_Spec p)))) ->
  (forall ps, pl_list w = Ok ps -> Forall endpoint_given ps) ->
  (forall w' e, gatewayProber w' = Some e -> is_Some (Convert e)) ->
  is_Some (Reconcile r w name).
Proof.
  intros Hp Hl Hg. unfold Reconcile. destruct (LoadOverrides_Paused w) as [[]|]; [by eexists| |by eexists].
  destruct (pl_get w name) as [p|e] eqn:Hget.
  - destruct (Hp p eq_refl) as [o Ho]. unfold syncSecretWatchers, GetSecretRefsTracePipeline. rewrite Ho. simpl.
    destruct (SyncWatchers _ _ _) as [w1 [e|]] eqn:Hs; [by eexists|]. apply sync_watchers_list in Hs.
    destruct (TryAcquireLock _ _ _) as [w2 [e|]] eqn:Hlock; [by eexists|].
    apply TryAcquireLock_list in Hlock.
    destruct (doReconcile_returns r w2 p) as [[w3 e1] ->]; [by eexists|intros ps Hps; apply Hl; congruence|].
    simpl.
    destruct (updateStatus_returns w3 (om_Name (tp_ObjectMeta p)) (Hg w3)) as [[w4 e2] ->]. simpl.
    destruct (join_if _ _ e2); by eexists.
  - destruct (negb _); [by eexists|]. destruct (RemoveFromWatchers _ _) as [w1 [e'|]]; [by eexists|].
    destruct (RemovePipelineReference _ _ _ _) as [w2 [e'|]]; by eexists.
Qed.

(** One TracePipeline whose endpoint has neither a value nor a reference stops
    all of them: once the pipelines are listed after a granted lock, doReconcile
    of every TracePipeline panics while it records the information metrics of
    the list. *)
Theorem empty_endpoint_panics_all r (w w1 : W) p q ps otlp :
  TryAcquireLock (rc_pipelineLock r) w (owner_of (tp_ObjectMeta p)) = (w1, None) ->
  pl_list w1 = Ok ps -> q ∈ ps ->
  tout_OTLP (tps_Output (tp_Spec q)) = Some otlp ->
  vt_Value (oo_Endpoint otlp) = "" -> vt_ValueFrom (oo_Endpoint otlp) = None ->
  doReconcile r w p = None.
Proof.
  intros Hlock Hps Hq Ho Hv Hf. unfold doReconcile. rewrite Hlock, Hps.
  destruct (trackPipelineInfoMetric w1 ps) eqn:Ht; [|done].
  pose proof (proj1 (track_defined w1 ps) (mk_is_Some _ _ Ht)) as Hall. rewrite Forall_forall in Hall.
  destruct (Hall q Hq otlp Ho) as [?|[? ?]]; congruence.
Qed.

End NoPanic.

(** ** Concrete runs *)

Module Sample.

Abbreviation world := (cluster TracePipeline).
Definition name_of (p : TracePipeline) : string := om_Name (tp_ObjectMeta p).

#[global] Instance validators : PipelineValidators world TracePipeline := sample_validators None None None.
#[global] Instance validator_laws : PipelineValidatorLaws world TracePipeline.
Proof. by apply sample_validator_laws. Qed.
#[global] Instance pipelines : PipelineCluster world TracePipeline := sample_cluster name_of.
#[global] Instance pipelines_laws : PipelineClusterLaws world TracePipeline.
Proof. apply sample_cluster_laws. Qed.
#[global] Instance pipelines_list : PipelineListLaws world TracePipeline.
Proof. apply sample_list_laws. Qed.
#[global] Instance irrelevant : TraceStatusIrrelevant world.
Proof. by constructor. Qed.
#[global] Instance stored : TraceStatusStored world.
Proof.
  constructor. intros w p w'. simpl.
  destruct (find_pipeline name_of (name_of p) (cl_pipelines w)) as [q|] eqn:Hf; [|done].
  intros [= <-]. simpl. change (om_Name (tp_ObjectMeta p)) with (name_of p).
  rewrite find_put; [done|by eexists].
Qed.

Definition pipeline : TracePipeline :=
  mkTracePipeline (mkMeta "backend" "uid-1" 2 None false)
    (mkTraceSpec (mkTraceOutput (Some (mkOTLPOutput "grpc" (mkValueType "https://backend:4317" None) ""
       None None None ""))) None None) (mkTraceStatus []).

Definition config : ReconcilerConfig :=
  mkReconcilerConfig (NewLocker (mkNN "kyma-system" "telemetry-tracepipeline") MaxPipelineCount)
    (NewSyncer (mkNN "kyma-system" "telemetry-tracepipeline")) "kyma-system".

Definition world0 : world := mkCluster [] [pipeline].

(** A second pipeline with an endpoint that is the empty text. *)
Definition no_endpoint : OTLPOutput :=
  mkOTLPOutput "grpc" (mkValueType "" None) "" None None None "".
Definition unresolved : TracePipeline :=
  mkTracePipeline (mkMeta "unresolved" "uid-2" 1 None false)
    (mkTraceSpec (mkTraceOutput (Some no_endpoint)) None None) (mkTraceStatus []).
Definition world1 : world := mkCluster [] [pipeline; unresolved].

Definition deserted : world := mkCluster [] [].

End Sample.

Lemma trace_condition_witness :
  isReconcilable Sample.world0 Sample.pipeline = Ok true /\
  (evaluateConfigGeneratedCondition Sample.world0 Sample.pipeline).1.1 = ConditionTrue.
Proof.
  assert (H : isReconcilable Sample.world0 Sample.pipeline = Ok true) by (vm_compute; reflexivity).
  split; [exact H|].
  exact (proj2 (proj1 (trace_condition_agrees_with_reconciliation Sample.world0 Sample.pipeline eq_refl)) H).
Defined.

Lemma trace_publish_witness :
  exists w' c' x, doReconcile Sample.config Sample.world0 Sample.pipeline = Some (w', None) /\
    ReadOTLPGatewayConfig w' "kyma-system" = Ok c' /\
    publishes empty_config c' SignalTypeTrace "backend" x.
Proof.
  assert (Hk : ck_lockName (rc_pipelineLock Sample.config)
               <> coordination_key (rc_TargetNamespace Sample.config)) by (vm_compute; discriminate).
  assert (Hr : ReadOTLPGatewayConfig Sample.world0 (rc_TargetNamespace Sample.config) = Ok empty_config)
    by (vm_compute; reflexivity).
  assert (Hwf : config_wf empty_config) by (intros []; constructor).
  destruct (doReconcile Sample.config Sample.world0 Sample.pipeline) as [[w' e]|] eqn:Hd;
    [|vm_compute in Hd; discriminate Hd].
  destruct e as [e|]; [vm_compute in Hd; discriminate Hd|].
  assert (Hn : forall w1 : Sample.world, @namespaces_named (pl_secrets w1)) by (intros w1 n s Hs; discriminate Hs).
  pose proof (trace_doReconcile_publishes Sample.config Sample.world0 Sample.pipeline w' empty_config
                Hn Hk Hr Hwf Hd) as Hp.
  destruct (TryAcquireLock (rc_pipelineLock Sample.config) Sample.world0 (owner_of (tp_ObjectMeta Sample.pipeline)))
    as [w1 a] eqn:Hl.
  destruct a as [err|]; [vm_compute in Hl; discriminate Hl|].
  destruct Hp as (b & x & c' & _ & Hc & _ & Hpub & _).
  exists w', c', x. split; [reflexivity|]. split; [exact Hc|exact Hpub].
Defined.


Lemma trace_deleted_witness :
  exists w' res c', Reconcile Sample.config Sample.deserted "backend" = Some (w', Ok res) /\
    ReadOTLPGatewayConfig w' "kyma-system" = Ok c' /\ publishes empty_config c' SignalTypeTrace "backend" None.
Proof.
  destruct (Reconcile Sample.config Sample.deserted "backend") as [[w' [res|e]]|] eqn:Hr;
    [|vm_compute in Hr; discriminate Hr..].
  assert (Hc : ReadOTLPGatewayConfig Sample.deserted (rc_TargetNamespace Sample.config)
               = Ok empty_config) by (vm_compute; reflexivity).
  assert (Hwf : config_wf empty_config) by (intros []; constructor).
  assert (Hg : pl_get Sample.deserted "backend" = Err NotFound) by reflexivity.
  assert (Hp : LoadOverrides_Paused Sample.deserted = Ok false) by reflexivity.
  destruct (trace_Reconcile_deleted Sample.config Sample.deserted "backend" w' res empty_config Hg Hc Hwf Hr Hp)
    as (c' & Hread & _ & Hpub).
  exists w', res, c'. split; [reflexivity|]. split; [exact Hread|exact Hpub].
Defined.

Lemma trace_update_status_witness :
  exists w' p', updateStatus Sample.world0 "backend" = Some (w', None) /\
    pl_get w' "backend" = Ok p' /\
    find_condition TypeConfigurationGenerated (tst_Conditions (tp_Status p')) =
      Some (mkCondition TypeConfigurationGenerated ConditionTrue ReasonGatewayConfigured
              (MessageForTracePipeline ReasonGatewayConfigured) 2).
Proof.
  destruct (updateStatus Sample.world0 "backend") as [[w' e]|] eqn:Hu; [|vm_compute in Hu; discriminate Hu].
  destruct e as [e|]; [vm_compute in Hu; discriminate Hu|].
  assert (Hp : pl_get Sample.world0 (om_Name (tp_ObjectMeta Sample.pipeline)) = Ok Sample.pipeline) by reflexivity.
  pose proof (trace_updateStatus_complete Sample.world0 Sample.pipeline w' Hp eq_refl Hu) as H.
  destruct H as (p' & gw & msg & Hg & _ & _ & Hm & _ & _ & Hc & _).
  exists w', p'. split; [reflexivity|]. split; [exact Hg|]. rewrite Hc.
  injection Hm as <-. reflexivity.
Defined.

Lemma trace_total_witness : is_Some (Reconcile Sample.config Sample.world0 "backend").
Proof.
  apply trace_Reconcile_never_panics.
  - intros p Hp. vm_compute in Hp. injection Hp as <-. eexists. reflexivity.
  - intros ps Hps. injection Hps as <-. constructor; [|constructor]. intros otlp Ho. injection Ho as <-.
    left. discriminate.
  - intros w' e He. discriminate He.
Defined.

Lemma empty_endpoint_witness : doReconcile Sample.config Sample.world1 Sample.pipeline = None.
Proof.
  destruct (TryAcquireLock (rc_pipelineLock Sample.config) Sample.world1 (owner_of (tp_ObjectMeta Sample.pipeline)))
    as [w1 [e|]] eqn:Hl; [vm_compute in Hl; discriminate Hl|].
  apply (empty_endpoint_panics_all Sample.config Sample.world1 w1 Sample.pipeline Sample.unresolved
           [Sample.pipeline; Sample.unresolved] Sample.no_endpoint); try exact Hl; try reflexivity.
  - vm_compute in Hl. injection Hl as <-. reflexivity.
  - apply list_elem_of_further, list_elem_of_here.
Defined.
