(* ===== verification/MetricReconciler.v ===== *)
(** * The MetricPipeline reconciler (internal/reconciler/metricpipeline)

    validator.go, status.go and reconciler.go. The metric agent's collaborators (VPA
    and Istio checks, cluster identity, configuration builder, resource applier) are
    the interface [MetricAgents]. Logging is left out. [None] as the result of a
    reconciliation is a panic. *)
From stdpp Require Import base gmap strings list.
From S2P Require Import Prelude Kube GoErrors.
From S2P Require Import ApiV1beta1 SecretRef Lock Coordination Conditions CommonStatus SelfMonitor.
From S2P Require Import Endpoint TLSCert MetricInputs Validators PipelineMetrics Reconcile.
Local Open Scope string_scope.
Local Open Scope go_scope.

(** [otelcollector.AgentApplyOptions] *)
Record AgentApplyOptions := mkAgentApplyOptions {
  ao_IstioEnabled : bool;
  ao_VpaCRDExists : bool;
  ao_VpaEnabled : bool;
  ao_VPAMaxAllowedMemory : Z;
  ao_CollectorConfigYAML : string;
  ao_CollectorEnvVars : gmap string string;
  ao_BackendPorts : list string
}.

(** The interfaces of the agent: [Build] gets the pipelines, the Istio and VPA flags
    and the cluster's UID, its other options are read from the cluster; its result
    is the marshalled configuration with the environment variables. *)
Class MetricAgents (W : Type) := {
  VpaCRDExists : W -> result bool goerror;
  IsIstioActive : W -> result bool goerror;
  GetClusterUID : W -> result string goerror;
  IsVpaEnabledInTelemetry : W -> bool;
  AgentConfigBuilder_Build : W -> list MetricPipeline -> bool -> string -> bool ->
    result (string * gmap string string) goerror;
  OTLPOutputPorts : W -> list MetricPipeline -> result (list string) goerror;
  VPAMaxAllowedMemory : W -> Z;
  ApplyResources : W -> MetricPipeline -> AgentApplyOptions -> W * option goerror;
  DeleteResources : W -> bool -> W * option goerror
}.

(** ** validator.go *)

Definition otlp_output (pipeline : MetricPipeline) : option OTLPOutput :=
  mo_OTLPOutput <$> mout_OTLP (ms_Output (mp_Spec pipeline)).

Definition tlsValidationRequired (pipeline : MetricPipeline) : bool :=
  match otlp_output pipeline with
  | None => false
  | Some otlp =>
      match oo_TLS otlp with
      | None => false
      | Some tls => isSome (tls_Cert tls) || isSome (tls_Key tls) || isSome (tls_CA tls)
      end
  end.

(** ** Which agents a pipeline needs (reconciler.go) *)

Definition isMetricAgentRequired (pipeline : MetricPipeline) : bool :=
  let input := ms_Input (mp_Spec pipeline) in
  IsRuntimeInputEnabled input || IsPrometheusInputEnabled input || IsIstioInputEnabled input.

Definition getPipelinesRequiringAgents (allPipelines : list MetricPipeline) : list MetricPipeline :=
  List.filter isMetricAgentRequired allPipelines.

(** [flowHealthReasonFor(gatewayProbeResult, agentProbeResult)] (status.go) *)
Definition flowHealthReasonFor (g : OTelGatewayProbeResult) (a : OTelAgentProbeResult) : string :=
  if pr_AllDataDropped (gp_Result g) then ReasonSelfMonGatewayAllDataDropped
  else if pr_SomeDataDropped (gp_Result g) then ReasonSelfMonGatewaySomeDataDropped
  else if gp_Throttling g then ReasonSelfMonGatewayThrottling
  else if pr_AllDataDropped (ap_Result a) then ReasonSelfMonAgentAllDataDropped
  else if pr_SomeDataDropped (ap_Result a) then ReasonSelfMonAgentSomeDataDropped
  else ReasonSelfMonFlowHealthy.

Section Metric.
Context {W : Type} `{PipelineValidators W MetricPipeline} `{PipelineCluster W MetricPipeline}.
Context `{MetricAgents W} `{ConfigMapClient W} `{GatewayYAML} `{OwnerSetter} `{StatusSetter}.

Definition endpoint_check (w : W) (pipeline : MetricPipeline) : option goerror :=
  match otlp_output pipeline with
  | None => None
  | Some otlp =>
      let oauth2 := match oo_Authentication otlp with Some a => ao_OAuth2 a | None => None end in
      EndpointValidator w (mkEndpointParams (Some (oo_Endpoint otlp)) (oo_Protocol otlp) (oo_TLS otlp) oauth2)
  end.

Definition tls_check (w : W) (pipeline : MetricPipeline) : option goerror :=
  if tlsValidationRequired pipeline then
    match otlp_output pipeline ≫= oo_TLS with
    | Some tls => TLSCertValidator w (mkTLSParams (tls_Cert tls) (tls_Key tls) (tls_CA tls))
    | None => None
    end
  else None.

(** [(v *Validator) validate(ctx, pipeline)] *)
Definition validate (w : W) (pipeline : MetricPipeline) : option goerror :=
  SecretRefValidator w pipeline ?;;
  endpoint_check w pipeline ?;;
  tls_check w pipeline ?;;
  PipelineLock_IsLockHolder w pipeline ?;;
  TransformSpecValidator (ms_Transforms (mp_Spec pipeline)) ?;;
  FilterSpecValidator (ms_Filters (mp_Spec pipeline)) ?;;
  ValidateAdditionalMetrics pipeline ?;;
  None.

(** ** status.go *)

Definition evaluateConfigGeneratedCondition (w : W) (pipeline : MetricPipeline) :
    ConditionStatus * string * option string :=
  match validate w pipeline with
  | None => (ConditionTrue, ReasonGatewayConfigured, Some (MessageForMetricPipeline ReasonGatewayConfigured))
  | Some err =>
      if errors_is err ErrMaxPipelinesExceeded then
        (ConditionFalse, ReasonMaxPipelinesExceeded, ConvertErrToMsg err)
      else if is_secret_ref_missing err then
        (ConditionFalse, ReasonReferencedSecretMissing, ConvertErrToMsg err)
      else if IsEndpointInvalidError err then
        (ConditionFalse, ReasonEndpointInvalid,
         Some (Sprintf (MessageForMetricPipeline ReasonEndpointInvalid) [Error err]))
      else if IsInvalidOTTLSpecError err then
        (ConditionFalse, ReasonOTTLSpecInvalid,
         Some (Sprintf (MessageForMetricPipeline ReasonOTTLSpecInvalid) [Error err]))
      else if IsInvalidAdditionalMetricError err then
        (ConditionFalse, ReasonRuntimeAdditionalMetricInvalid, ConvertErrToMsg err)
      else if isSome (errors_as as_api_request_failed err) then
        (ConditionFalse, ReasonValidationFailed, Some (MessageForMetricPipeline ReasonValidationFailed))
      else
        let '(s, r, m) := EvaluateTLSCertCondition err in (s, r, Some m)
  end.

Definition evaluateFlowHealthCondition (w : W) (pipeline : MetricPipeline) :
    ConditionStatus * string * option goerror :=
  let '(configGeneratedStatus, _, _) := evaluateConfigGeneratedCondition w pipeline in
  if bool_decide (configGeneratedStatus = ConditionFalse) then
    (ConditionFalse, ReasonSelfMonConfigNotGenerated, None)
  else
    let name := om_Name (mp_ObjectMeta pipeline) in
    match gatewayFlowHealthProber w name with
    | Err e => (ConditionUnknown, ReasonSelfMonGatewayProbingFailed,
                Some (Wrapf "failed to probe gateway flow health: " e ""))
    | Ok g =>
        match agentFlowHealthProber w name with
        | Err e => (ConditionUnknown, ReasonSelfMonAgentProbingFailed,
                    Some (Wrapf "failed to probe agent flow health: " e ""))
        | Ok a =>
            let reason := flowHealthReasonFor g a in
            if str_eqb reason ReasonSelfMonFlowHealthy then (ConditionTrue, reason, None)
            else (ConditionFalse, reason, None)
        end
    end.

Definition set_condition (pipeline : MetricPipeline) (c : Condition) : MetricPipeline :=
  mkMetricPipeline (mp_ObjectMeta pipeline) (mp_Spec pipeline)
    (mkMetricStatus (SetStatusCondition (mst_Conditions (mp_Status pipeline)) c)).

Definition setAgentHealthyCondition (w : W) (pipeline : MetricPipeline) : option MetricPipeline :=
  let condition :=
    if isMetricAgentRequired pipeline then GetAgentHealthyCondition (agentProber w) SignalTypeMetric
    else Some (mkCondition TypeAgentHealthy ConditionTrue ReasonMetricAgentNotRequired
                 (MessageForMetricPipeline ReasonMetricAgentNotRequired) 0) in
  (fun c => set_condition pipeline (with_generation c (om_Generation (mp_ObjectMeta pipeline)))) <$> condition.

Definition setGatewayHealthyCondition (w : W) (pipeline : MetricPipeline) : option MetricPipeline :=
  let '(configStatus, _, _) := evaluateConfigGeneratedCondition w pipeline in
  (fun c => set_condition pipeline (with_generation c (om_Generation (mp_ObjectMeta pipeline))))
    <$> GetGatewayHealthyCondition (gatewayProber w) SignalTypeMetric configStatus.

Definition setGatewayConfigGeneratedCondition (w : W) (pipeline : MetricPipeline) : option MetricPipeline :=
  let '(status, reason, message) := evaluateConfigGeneratedCondition w pipeline in
  (fun m => set_condition pipeline (mkCondition TypeConfigurationGenerated status reason m
                                      (om_Generation (mp_ObjectMeta pipeline)))) <$> message.

Definition setFlowHealthCondition (w : W) (pipeline : MetricPipeline) : MetricPipeline * option goerror :=
  let '(status, reason, err) := evaluateFlowHealthCondition w pipeline in
  (set_condition pipeline (mkCondition TypeFlowHealthy status reason (MessageForMetricPipeline reason)
                             (om_Generation (mp_ObjectMeta pipeline))), err).

(** [(r *Reconciler) updateStatus(ctx, pipelineName)] *)
Definition updateStatus (w : W) (pipelineName : string) : option (W * option goerror) :=
  match pl_get w pipelineName with
  | Err e =>
      if IsNotFound e then Some (w, None)
      else Some (w, Some (Wrapf "failed to get MetricPipeline: " (ApiError e) ""))
  | Ok pipeline =>
      if om_Deleted (mp_ObjectMeta pipeline) then Some (w, None)
      else
        pipeline ← setAgentHealthyCondition w pipeline;
        pipeline ← setGatewayHealthyCondition w pipeline;
        pipeline ← setGatewayConfigGeneratedCondition w pipeline;
        let '(pipeline, err) := setFlowHealthCondition w pipeline in
        let allErrors := match err with None => None | Some e => errors_join None e end in
        let '(w', uerr) := pl_status_update w pipeline in
        Some (w', join_if allErrors "failed to update MetricPipeline status: " (ApiError <$> uerr))
  end.

(** ** reconciler.go *)

Definition isReconcilable (w : W) (pipeline : MetricPipeline) : result bool goerror :=
  if om_Deleted (mp_ObjectMeta pipeline) then Ok false
  else reconcilable_of (validate w pipeline).

Fixpoint getReconcilablePipelines (w : W) (allPipelines : list MetricPipeline) :
    result (list MetricPipeline) goerror :=
  match allPipelines with
  | [] => Ok []
  | p :: rest =>
      match isReconcilable w p with
      | Err e => Err e
      | Ok b =>
          match getReconcilablePipelines w rest with
          | Err e => Err e
          | Ok ps => Ok (if b then p :: ps else ps)
          end
      end
  end.

Definition reconcileMetricAgents (w : W) (pipeline : MetricPipeline) (allPipelines : list MetricPipeline) :
    W * option goerror :=
  match IsIstioActive w with
  | Err e => (w, Some (Wrapf "failed to check Istio status: " e ""))
  | Ok isIstioActive =>
      match GetClusterUID w with
      | Err e => (w, Some (Wrapf "failed to get kube-system namespace for cluster UID: " e ""))
      | Ok clusterUID =>
          match VpaCRDExists w with
          | Err e => (w, Some (Wrapf "failed to check VPA status: " e ""))
          | Ok vpaCRDExists =>
              let isVpaEnabled := IsVpaEnabledInTelemetry w in
              match AgentConfigBuilder_Build w allPipelines isIstioActive clusterUID
                      (vpaCRDExists && isVpaEnabled) with
              | Err e => (w, Some (Wrapf "failed to create collector config: " e ""))
              | Ok (agentConfigYAML, collectorEnvVars) =>
                  match OTLPOutputPorts w allPipelines with
                  | Err e => (w, Some (Wrapf "failed to get ports of the backends: " e ""))
                  | Ok backendPorts =>
                      let '(w', err) :=
                        ApplyResources w pipeline
                          (mkAgentApplyOptions isIstioActive vpaCRDExists isVpaEnabled (VPAMaxAllowedMemory w)
                             agentConfigYAML collectorEnvVars backendPorts) in
                      (w', (fun e => Wrapf "failed to apply agent resources: " e "") <$> err)
                  end
              end
          end
      end
  end.

(** The part of [doReconcile] after the reference of the pipeline was written. *)
Definition reconcile_agents (w : W) (pipeline : MetricPipeline) (allPipelines : list MetricPipeline) :
    W * option goerror :=
  match getReconcilablePipelines w allPipelines with
  | Err e => (w, Some (Wrapf "failed to fetch deployable metric pipelines: " e ""))
  | Ok reconcilablePipelines =>
      match getPipelinesRequiringAgents reconcilablePipelines with
      | [] =>
          match VpaCRDExists w with
          | Err e => (w, Some (Wrapf "failed to check VPA status: " e ""))
          | Ok vpaCRDExists =>
              let '(w', err) := DeleteResources w vpaCRDExists in
              (w', (fun e => Wrapf "failed to delete agent resources: " e "") <$> err)
          end
      | requiring =>
          let '(w', err) := reconcileMetricAgents w pipeline requiring in
          (w', (fun e => Wrapf "failed to reconcile metric agents: " e "") <$> err)
      end
  end.

Definition getEndpoint (w : W) (pipeline : MetricPipeline) : option string :=
  match otlp_output pipeline with
  | None => Some ""
  | Some otlp => @resolve_endpoint (pl_secrets w) (oo_Endpoint otlp)
  end.

(** [trackPipelineInfoMetric]: the label values recorded. *)
Definition trackPipelineInfoMetric (w : W) (pipelines : list MetricPipeline) : option (list (list string)) :=
  record_all (fun pipeline =>
    let input := ms_Input (mp_Spec pipeline) in
    delta ← IsDeltaTemporality (ms_Output (mp_Spec pipeline));
    let features :=
      (feature (IsOTLPInputEnabled (mi_OTLP input)) FeatureInputOTLP ++
       feature (IsTransformDefined (ms_Transforms (mp_Spec pipeline))) FeatureTransform ++
       feature (IsFilterDefined (ms_Filters (mp_Spec pipeline))) FeatureFilter ++
       feature (IsRuntimeInputEnabled input) FeatureInputRuntime ++
       feature (IsPrometheusInputEnabled input) FeatureInputPrometheus ++
       feature (IsIstioInputEnabled input) FeatureInputIstio ++
       feature delta FeatureOutputDeltaTemporality)%list in
    endpoint ← getEndpoint w pipeline;
    Some (RecordMetricPipelineInfo (om_Name (mp_ObjectMeta pipeline)) endpoint features)) pipelines.

(** [(r *Reconciler) doReconcile(ctx, pipeline)] *)
Definition doReconcile (r : ReconcilerConfig) (w : W) (pipeline : MetricPipeline) :
    option (W * option goerror) :=
  match TryAcquireLock (rc_pipelineLock r) w (owner_of (mp_ObjectMeta pipeline)) with
  | (w, Some err) => Some (w, if errors_is err ErrMaxPipelinesExceeded then None else Some err)
  | (w, None) =>
      match pl_list w with
      | Err e => Some (w, Some (Wrapf "failed to list metric pipelines: " (ApiError e) ""))
      | Ok allPipelines =>
          _ ← trackPipelineInfoMetric w allPipelines;
          match isReconcilable w pipeline with
          | Err e => Some (w, Some (Wrapf "failed to validate pipeline: " e ""))
          | Ok true =>
              secretRefs ← GetSecretRefsMetricPipeline pipeline;
              match @CollectSecretVersions (pl_secrets w) secretRefs with
              | Err e => Some (w, Some (Wrapf "failed to collect secret versions: " e ""))
              | Ok secretVersions =>
                  match AddPipelineReference w (rc_TargetNamespace r) SignalTypeMetric
                          (mkPipelineReference (om_Name (mp_ObjectMeta pipeline))
                             (om_Generation (mp_ObjectMeta pipeline)) (Some secretVersions)) with
                  | (w, Some e) => Some (w, Some (Wrapf "failed to write pipeline reference to ConfigMap: " e ""))
                  | (w, None) => Some (reconcile_agents w pipeline allPipelines)
                  end
              end
          | Ok false =>
              match RemovePipelineReference w (rc_TargetNamespace r) SignalTypeMetric
                      (om_Name (mp_ObjectMeta pipeline)) with
              | (w, Some e) =>
                  Some (w, Some (Wrapf "failed to remove pipeline reference from OTLP Gateway Coordination ConfigMap: " e ""))
              | (w, None) => Some (reconcile_agents w pipeline allPipelines)
              end
          end
      end
  end.

Definition calculateRequeueAfterDuration (w : W) (pipeline : MetricPipeline) : option Z :=
  match validate w pipeline with
  | None => None
  | Some err => (fun p => time_sub p.1 (time_now w)) <$> errors_as as_cert_about_to_expire err
  end.

Definition syncSecretWatchers (w : W) (pipeline : MetricPipeline) : option (W * option goerror) :=
  refs ← GetSecretRefsMetricPipeline pipeline;
  Some (SyncWatchers w pipeline (RefsToSecretNames refs)).

(** [(r *Reconciler) Reconcile(ctx, req)] *)
Definition Reconcile (r : ReconcilerConfig) (w : W) (name : string) :
    option (W * result ctrl_Result goerror) :=
  match LoadOverrides_Paused w with
  | Err e => Some (w, Err e)
  | Ok true => Some (w, Ok (mkResult None))
  | Ok false =>
      match pl_get w name with
      | Err e =>
          if negb (IsNotFound e) then Some (w, Err (ApiError e))
          else
            match RemoveFromWatchers w name with
            | (w, Some err) => Some (w, Err err)
            | (w, None) =>
                match RemovePipelineReference w (rc_TargetNamespace r) SignalTypeMetric name with
                | (w, Some err) =>
                    Some (w, Err (Wrapf "failed to remove pipeline reference from OTLP Gateway Coordination ConfigMap: " err ""))
                | (w, None) => Some (w, Ok (mkResult None))
                end
            end
      | Ok metricPipeline =>
          sync ← syncSecretWatchers w metricPipeline;
          match sync with
          | (w, Some err) => Some (w, Err err)
          | (w, None) =>
              match TryAcquireLock (rc_pipelineSync r) w (owner_of (mp_ObjectMeta metricPipeline)) with
              | (w, Some err) =>
                  Some (w, if errors_is err ErrMaxPipelinesExceeded then Ok (mkResult None) else Err err)
              | (w, None) =>
                  rec ← doReconcile r w metricPipeline;
                  let '(w, err1) := rec in
                  let allErrors := join_if None "failed to reconcile: " err1 in
                  upd ← updateStatus w (om_Name (mp_ObjectMeta metricPipeline));
                  let '(w, err2) := upd in
                  let allErrors := join_if allErrors "failed to update status: " err2 in
                  match allErrors with
                  | Some e => Some (w, Err e)
                  | None => Some (w, Ok (mkResult (calculateRequeueAfterDuration w metricPipeline)))
                  end
              end
          end
      end
  end.

End Metric.
