(* ===== verification/MetricReconcilerProps.v ===== *)
(** * Properties of the MetricPipeline reconciler

    The reported condition agrees with what the reconciler does, the agents run
    exactly for the accepted pipelines that need them, a reconciliation publishes the
    pipelines it accepts, the flow health is a function of the probes, and a
    certificate that expires soon hides the checks after it. *)
From stdpp Require Import base gmap strings list.
From S2P Require Import Prelude Kube GoErrors.
From S2P Require Import ApiV1beta1 SecretRef Lock Coordination CoordinationProps.
From S2P Require Import Conditions CommonStatus SelfMonitor Endpoint TLSCert MetricInputs Validators Reconcile.
From S2P Require Import SampleCluster MetricReconciler.
Local Open Scope string_scope.

Section Validation.
Context {W : Type} `{PipelineValidators W MetricPipeline}.

Definition checks (w : W) (p : MetricPipeline) : list (option goerror) :=
  [SecretRefValidator w p; endpoint_check w p; tls_check w p; PipelineLock_IsLockHolder w p;
   TransformSpecValidator (ms_Transforms (mp_Spec p)); FilterSpecValidator (ms_Filters (mp_Spec p));
   ValidateAdditionalMetrics p].

Lemma metric_validate_checks w p : validate w p = first_error (checks w p).
Proof. done. Qed.

(** A certificate that is about to expire hides the checks after it: a
    MetricPipeline that holds no lock slot and has an invalid transformation is
    still treated as reconcilable, is handed to the agents and is reported as
    configured. *)
Theorem expiring_certificate_masks_later_checks w p t ca e :
  om_Deleted (mp_ObjectMeta p) = false ->
  SecretRefValidator w p = None -> endpoint_check w p = None ->
  tls_check w p = Some (CertAboutToExpireError t ca) ->
  PipelineLock_IsLockHolder w p = Some (Sentinel ErrMaxPipelinesExceeded) ->
  TransformSpecValidator (ms_Transforms (mp_Spec p)) = Some e ->
  isReconcilable w p = Ok true /\
  (forall before after ps, getReconcilablePipelines w (before ++ p :: after)%list = Ok ps -> p ∈ ps) /\
  (evaluateConfigGeneratedCondition w p).1 = (ConditionTrue, ReasonTLSCertificateAboutToExpire).
Proof.
  intros Hd Hs He Ht _ _.
  assert (Hv : validate w p = Some (CertAboutToExpireError t ca)) by (unfold validate; by rewrite Hs, He, Ht).
  assert (Hr : isReconcilable w p = Ok true) by (unfold isReconcilable; by rewrite Hd, Hv).
  split; [done|]. split; [|unfold evaluateConfigGeneratedCondition; by rewrite Hv].
  induction before as [|q before IH]; intros after ps; simpl.
  - rewrite Hr. destruct (getReconcilablePipelines w after); [|done]. intros [= <-]. by left.
  - destruct (isReconcilable w q) as [b|]; [|done].
    destruct (getReconcilablePipelines w (before ++ p :: after)%list) as [qs|] eqn:Hq; [|done].
    intros [= <-]. specialize (IH _ _ Hq). destruct b; [by right|done].
Qed.

Context `{!PipelineValidatorLaws W MetricPipeline}.

Lemma metric_endpoint_check_err w p e : endpoint_check w p = Some e -> is_endpoint_invalid e.
Proof. unfold endpoint_check. case_match; [|done]. apply EndpointValidator_err. Qed.

Lemma metric_tls_check_err w p e : tls_check w p = Some e -> is_tls_error e.
Proof. unfold tls_check. case_match; [|done]. case_match; [|done]. apply TLSCertValidator_err. Qed.

(** The error of the additional metrics: of its kind, with a text. *)
Definition is_metric_error (e : goerror) : Prop :=
  exists c m, e = InvalidAdditionalMetricError (NewError (String c m)).

Lemma validate_metrics_err ms e : validate_metrics ms = Some e -> is_metric_error e.
Proof.
  induction ms as [|m ms IH]; cbn [validate_metrics]; [done|].
  destruct (negb _); [|done]. intros [= <-]. by do 2 eexists.
Qed.

Lemma ValidateAdditionalMetrics_err p e : ValidateAdditionalMetrics p = Some e -> is_metric_error e.
Proof.
  unfold ValidateAdditionalMetrics. destruct (negb _); [done|].
  destruct (mi_Runtime _); [apply validate_metrics_err|done].
Qed.

Lemma metric_error_class e :
  is_metric_error e ->
  errors_is e ErrMaxPipelinesExceeded = false /\ is_secret_ref_missing e = false /\
  IsEndpointInvalidError e = false /\ IsInvalidOTTLSpecError e = false /\
  IsInvalidAdditionalMetricError e = true /\ IsCertAboutToExpireError e = false /\
  errors_as as_api_request_failed e = None.
Proof. by intros (c & m & ->). Qed.

Lemma metric_validate_error w p e : validate w p = Some e -> validation_error e \/ is_metric_error e.
Proof.
  rewrite metric_validate_checks. intros (i & Hi & _)%first_error_some. unfold checks in Hi.
  destruct i as [|[|[|[|[|[|[|i]]]]]]]; simpl in Hi; simplify_eq.
  - left. destruct (SecretRefValidator_err _ _ _ Hi); by constructor.
  - left. eapply ve_endpoint, metric_endpoint_check_err, Hi.
  - left. eapply ve_tls, metric_tls_check_err, Hi.
  - left. destruct (IsLockHolder_err _ _ _ Hi) as [->|?]; by constructor.
  - left. eapply ve_ottl, TransformSpecValidator_err, Hi.
  - left. eapply ve_ottl, FilterSpecValidator_err, Hi.
  - right. eapply ValidateAdditionalMetrics_err, Hi.
Qed.

(** Any verdict but an invalid additional metric is evaluated as in the other kinds. *)
Lemma evaluateConfig_other w p :
  (forall e, validate w p = Some e -> IsInvalidAdditionalMetricError e = false) ->
  evaluateConfigGeneratedCondition w p = config_condition MessageForMetricPipeline (validate w p).
Proof.
  intros Hm. unfold evaluateConfigGeneratedCondition, config_condition.
  destruct (validate w p) as [e|]; [|done]. by rewrite (Hm e eq_refl).
Qed.

(** The ConfigurationGenerated condition of a MetricPipeline not in deletion
    agrees with isReconcilable in the same way, invalid additional metrics
    included. *)
Theorem metric_condition_agrees_with_reconciliation w p :
  om_Deleted (mp_ObjectMeta p) = false ->
  let '(status, reason, message) := evaluateConfigGeneratedCondition w p in
  (status = ConditionTrue <-> isReconcilable w p = Ok true) /\
  (status = ConditionFalse <-> isReconcilable w p <> Ok true) /\
  (reason = ReasonValidationFailed <-> exists e, isReconcilable w p = Err e) /\
  is_Some message.
Proof.
  intros Hd. unfold isReconcilable. rewrite Hd.
  destruct (validate w p) as [e|] eqn:Hv.
  2:{ rewrite evaluateConfig_other by (intros e He; congruence). rewrite Hv. by apply config_condition_agrees. }
  destruct (metric_validate_error _ _ _ Hv) as [He|He].
  - rewrite evaluateConfig_other, Hv; [apply config_condition_agrees; by intros ? [= <-]|].
    intros e'. rewrite Hv. intros [= <-]. by apply validation_error_not_metric.
  - unfold evaluateConfigGeneratedCondition, reconcilable_of. rewrite Hv.
    destruct (metric_error_class _ He) as (-> & -> & -> & -> & -> & -> & ->).
    destruct He as (c & m & ->). repeat split; try done; naive_solver.
Qed.

End Validation.

(** ** Agents *)

Section Agents.
Context {W : Type} `{PipelineValidators W MetricPipeline} `{MetricAgents W}.

Definition accepted (w : W) (p : MetricPipeline) : bool :=
  match isReconcilable w p with Ok b => b | Err _ => false end.

Lemma getReconcilablePipelines_filter w all ps :
  getReconcilablePipelines w all = Ok ps -> ps = List.filter (accepted w) all.
Proof.
  revert ps. induction all as [|p all IH]; intros ps; simpl; [by intros [= <-]|].
  unfold accepted at 1. destruct (isReconcilable w p) as [b|]; [|done].
  destruct (getReconcilablePipelines w all) as [qs|]; [|done]. intros [= <-].
  rewrite <- (IH qs eq_refl). by destruct b.
Qed.

Lemma reconcileMetricAgents_ok w p ps w' :
  reconcileMetricAgents w p ps = (w', None) ->
  exists istio uid vpa yaml env ports,
    IsIstioActive w = Ok istio /\ GetClusterUID w = Ok uid /\ VpaCRDExists w = Ok vpa /\
    AgentConfigBuilder_Build w ps istio uid (vpa && IsVpaEnabledInTelemetry w) = Ok (yaml, env) /\
    OTLPOutputPorts w ps = Ok ports /\
    ApplyResources w p (mkAgentApplyOptions istio vpa (IsVpaEnabledInTelemetry w) (VPAMaxAllowedMemory w)
                          yaml env ports) = (w', None).
Proof.
  unfold reconcileMetricAgents. intros Hr.
  destruct (IsIstioActive w) as [istio|]; [|done]. destruct (GetClusterUID w) as [uid|]; [|done].
  destruct (VpaCRDExists w) as [vpa|]; [|done].
  destruct (AgentConfigBuilder_Build _ _ _ _ _) as [[yaml env]|] eqn:Hb; [|done].
  destruct (OTLPOutputPorts w ps) as [ports|] eqn:Hp; [|done].
  destruct (ApplyResources _ _ _) as [w2 [e|]] eqn:Ha; simplify_eq/=.
  exists istio, uid, vpa, yaml, env, ports. done.
Qed.

(** A pipeline that needs the agent: it is not in deletion, it passes validation or its certificate is only about to
    expire, and its runtime, Prometheus or Istio input is enabled explicitly. *)
Definition deployable (w : W) (q : MetricPipeline) : bool :=
  negb (om_Deleted (mp_ObjectMeta q)) &&
  match validate w q with None => true | Some e => IsCertAboutToExpireError e end.
Definition enables_agent (q : MetricPipeline) : bool :=
  let i := ms_Input (mp_Spec q) in
  bool_decide ((mi_Runtime i ≫= mri_Enabled) = Some true) || bool_decide ((mi_Prometheus i ≫= pi_Enabled) = Some true)
  || bool_decide ((mi_Istio i ≫= ii_Enabled) = Some true).
Definition needs_agent (w : W) (q : MetricPipeline) : bool := deployable w q && enables_agent q.

Lemma accepted_deployable w q : accepted w q = deployable w q.
Proof.
  unfold accepted, deployable, isReconcilable, reconcilable_of. destruct (om_Deleted _); [done|]. cbn [negb andb].
  destruct (validate w q) as [e|]; [|done]. destruct (IsCertAboutToExpireError e); [done|]. by destruct (errors_as _ e).
Qed.

Lemma enabled_explicitly {I} (i : option I) (enabled : I -> option bool) :
  match i with Some x => is_true (enabled x) | None => false end = bool_decide ((i ≫= enabled) = Some true).
Proof. destruct i as [x|]; [|done]. cbn. by destruct (enabled x) as [[]|]. Qed.

Lemma required_enables q : isMetricAgentRequired q = enables_agent q.
Proof.
  unfold isMetricAgentRequired, enables_agent, IsRuntimeInputEnabled, IsPrometheusInputEnabled, IsIstioInputEnabled.
  by rewrite !enabled_explicitly.
Qed.

(** When reconciling the metric agents succeeds, the agent resources were applied with what the builder made of exactly
    the pipelines that need it, in list order, or deleted when there is none. *)
Lemma agents_reconciled w p all w' :
  reconcile_agents w p all = (w', None) ->
  match List.filter (needs_agent w) all with
  | [] => exists vpa, VpaCRDExists w = Ok vpa /\ DeleteResources w vpa = (w', None)
  | wanted =>
      exists istio uid vpa yaml env ports,
        IsIstioActive w = Ok istio /\ GetClusterUID w = Ok uid /\ VpaCRDExists w = Ok vpa /\
        AgentConfigBuilder_Build w wanted istio uid (vpa && IsVpaEnabledInTelemetry w) = Ok (yaml, env) /\
        OTLPOutputPorts w wanted = Ok ports /\
        ApplyResources w p (mkAgentApplyOptions istio vpa (IsVpaEnabledInTelemetry w) (VPAMaxAllowedMemory w)
                              yaml env ports) = (w', None)
  end.
Proof.
  unfold reconcile_agents. intros Hr.
  destruct (getReconcilablePipelines w all) as [ps|] eqn:Hps; [|done].
  apply getReconcilablePipelines_filter in Hps as ->.
  unfold getPipelinesRequiringAgents in Hr. rewrite list_filter_filter in Hr.
  rewrite (List.filter_ext _ (needs_agent w)) in Hr
    by (intros q; unfold needs_agent; by rewrite accepted_deployable, required_enables).
  destruct (List.filter _ all) as [|q qs].
  - destruct (VpaCRDExists w) as [vpa|]; [|done]. exists vpa. split; [done|].
    destruct (DeleteResources w vpa) as [w2 [e|]]; by simplify_eq/=.
  - apply reconcileMetricAgents_ok.
    destruct (reconcileMetricAgents w p (q :: qs)) as [w2 [e|]]; by simplify_eq/=.
Qed.

End Agents.

(** ** Publishing *)

(** The agent's resources are not the coordination ConfigMap. *)
Class MetricAgentsLaws (W : Type) `{MetricAgents W} `{ConfigMapClient W} (ns : string) := {
  apply_frame (w : W) p o w' e : ApplyResources w p o = (w', e) ->
    cm_get w' (coordination_key ns) = cm_get w (coordination_key ns);
  delete_frame (w : W) b w' e : DeleteResources w b = (w', e) ->
    cm_get w' (coordination_key ns) = cm_get w (coordination_key ns)
}.

Section Publish.
Context {W : Type} `{PipelineValidators W MetricPipeline} `{PipelineCluster W MetricPipeline}.
Context `{MetricAgents W} `{ConfigMapLaws W} `{GatewayYAMLLaws} `{OwnerSetterLaws} `{StatusSetter}.
Context (r : ReconcilerConfig) `{!MetricAgentsLaws W (rc_TargetNamespace r)}.

Lemma reconcile_agents_frame (w : W) p all w' e :
  reconcile_agents w p all = (w', e) ->
  cm_get w' (coordination_key (rc_TargetNamespace r)) = cm_get w (coordination_key (rc_TargetNamespace r)).
Proof.
  unfold reconcile_agents, reconcileMetricAgents. intros Hr.
  destruct (getReconcilablePipelines w all); [|congruence].
  destruct (getPipelinesRequiringAgents _).
  - destruct (VpaCRDExists w); [|congruence].
    destruct (DeleteResources w _) as [w2 e2] eqn:Hd. simplify_eq. by eapply delete_frame.
  - destruct (IsIstioActive w); [|simplify_eq; congruence].
    destruct (GetClusterUID w); [|simplify_eq; congruence].
    destruct (VpaCRDExists w); [|simplify_eq; congruence].
    destruct (AgentConfigBuilder_Build _ _ _ _ _) as [[yaml env]|]; [|simplify_eq; congruence].
    destruct (OTLPOutputPorts w _); [|simplify_eq; congruence].
    destruct (ApplyResources _ _ _) as [w2 e2] eqn:Ha. simplify_eq. by eapply apply_frame.
Qed.

(** A successful doReconcile of a MetricPipeline publishes the pipeline in the
    coordination ConfigMap exactly as decided (entry with generation and Secret
    versions, or no entry, everything else unchanged) and then reconciles the
    agents for the list of all pipelines; a refused lock changes nothing else. *)
Theorem metric_doReconcile_publishes (w : W) p w' c :
  ck_lockName (rc_pipelineLock r) <> coordination_key (rc_TargetNamespace r) ->
  ReadOTLPGatewayConfig w (rc_TargetNamespace r) = Ok c -> config_wf c ->
  doReconcile r w p = Some (w', None) ->
  let '(w1, acquired) := TryAcquireLock (rc_pipelineLock r) w (owner_of (mp_ObjectMeta p)) in
  match acquired with
  | Some err => errors_is err ErrMaxPipelinesExceeded = true /\ w' = w1
  | None =>
      exists reconcilable x c' w2 all,
        isReconcilable w1 p = Ok reconcilable /\
        ReadOTLPGatewayConfig w' (rc_TargetNamespace r) = Ok c' /\ config_wf c' /\
        publishes c c' SignalTypeMetric (om_Name (mp_ObjectMeta p)) x /\
        (if reconcilable then
           exists refs versions, GetSecretRefsMetricPipeline p = Some refs /\
             @CollectSecretVersions (pl_secrets w1) refs = Ok versions /\
             x = Some (om_Generation (mp_ObjectMeta p), versions)
         else x = None) /\
        pl_list w1 = Ok all /\ reconcile_agents w2 p all = (w', None)
  end.
Proof.
  intros Hkey Hc Hwf. unfold doReconcile.
  destruct (TryAcquireLock _ w _) as [w1 [err|]] eqn:Hl.
  { intros [= <- Herr]. split; [by destruct (errors_is err _)|done]. }
  assert (Hc1 : ReadOTLPGatewayConfig w1 (rc_TargetNamespace r) = Ok c).
  { rewrite <- Hc. apply ReadOTLPGatewayConfig_frame. eapply TryAcquireLock_frame; [done|]. congruence. }
  destruct (pl_list w1) as [all|] eqn:Hall; [|done].
  destruct (trackPipelineInfoMetric w1 all); [|done]. cbn [mbind option_bind].
  destruct (isReconcilable w1 p) as [[]|]; [| |done].
  - destruct (GetSecretRefsMetricPipeline p) as [refs|] eqn:Hrefs; simpl; [|done].
    destruct (@CollectSecretVersions _ refs) as [versions|] eqn:Hcv; [|done].
    destruct (AddPipelineReference _ _ _ _) as [w2 [e2|]] eqn:Ha; simpl; [done|]. intros [= Hag].
    destruct (AddPipelineReference_publishes _ _ _ _ _ _ _ _ Hc1 Hwf Ha) as (c' & Hr & Hwf' & Hp).
    exists true, (Some (om_Generation (mp_ObjectMeta p), versions)), c', w2, all.
    split; [done|]. split; [|split; [done|split; [done|split; [by exists refs, versions|done]]]].
    rewrite <- Hr. apply ReadOTLPGatewayConfig_frame. by eapply reconcile_agents_frame.
  - destruct (RemovePipelineReference _ _ _ _) as [w2 [e2|]] eqn:Ha; simpl; [done|]. intros [= Hag].
    destruct (RemovePipelineReference_publishes _ _ _ _ _ _ Hc1 Hwf Ha) as (c' & Hr & Hwf' & Hp).
    exists false, None, c', w2, all. split; [done|]. split; [|done].
    rewrite <- Hr. apply ReadOTLPGatewayConfig_frame. by eapply reconcile_agents_frame.
Qed.

End Publish.

(** ** Flow health *)

Section FlowHealth.
Context {W : Type} `{PipelineValidators W MetricPipeline} `{PipelineCluster W MetricPipeline}.

(** The flow health of a MetricPipeline is True exactly when its configuration
    is not rejected and both probes answer without dropped data or throttling,
    Unknown exactly when a probe failed, and never claims health for a rejected
    configuration. *)
Theorem metric_flow_health_exact (w : W) p :
  let '(config, _, _) := evaluateConfigGeneratedCondition w p in
  let '(status, reason, err) := evaluateFlowHealthCondition w p in
  let name := om_Name (mp_ObjectMeta p) in
  (status = ConditionTrue <->
     config <> ConditionFalse /\
     exists g a, gatewayFlowHealthProber w name = Ok g /\ agentFlowHealthProber w name = Ok a /\
       pr_AllDataDropped (gp_Result g) = false /\ pr_SomeDataDropped (gp_Result g) = false /\
       gp_Throttling g = false /\
       pr_AllDataDropped (ap_Result a) = false /\ pr_SomeDataDropped (ap_Result a) = false) /\
  (status = ConditionUnknown <-> is_Some err) /\
  (config = ConditionFalse -> reason = ReasonSelfMonConfigNotGenerated).
Proof.
  unfold evaluateFlowHealthCondition.
  destruct (evaluateConfigGeneratedCondition w p) as [[config creason] cmsg].
  case_bool_decide as Hc.
  { split; [by split; [|intros [? _]]|]. split; [by split; [|intros [? ?]]|done]. }
  destruct (gatewayFlowHealthProber w _) as [g|e].
  2:{ split; [by split; [|intros (_ & ? & ? & ? & _)]|]. by split; [split; eauto|]. }
  destruct (agentFlowHealthProber w _) as [a|e].
  2:{ split; [by split; [|intros (_ & ? & ? & _ & ? & _)]|]. by split; [split; eauto|]. }
  unfold flowHealthReasonFor.
  destruct (pr_AllDataDropped (gp_Result g)) eqn:E1, (pr_SomeDataDropped (gp_Result g)) eqn:E2,
    (gp_Throttling g) eqn:E3, (pr_AllDataDropped (ap_Result a)) eqn:E4, (pr_SomeDataDropped (ap_Result a)) eqn:E5;
    (split; [split|split; [by split; [|intros [? ?]]|done]]); try done;
    try (intros (_ & g' & a' & [= <-] & [= <-] & ?); intuition congruence).
  intros _. split; [done|]. by exists g, a.
Qed.

End FlowHealth.

(** ** Concrete runs *)

Module Sample.

Abbreviation world := (cluster MetricPipeline).
Definition name_of (p : MetricPipeline) : string := om_Name (mp_ObjectMeta p).

#[global] Instance pipelines : PipelineCluster world MetricPipeline := sample_cluster name_of.

Definition accepting : PipelineValidators world MetricPipeline := sample_validators None None None.
Lemma accepting_laws : @PipelineValidatorLaws world MetricPipeline accepting.
Proof. by apply sample_validator_laws. Qed.

(** A certificate that expires soon, no free slot and an invalid transformation. *)
Definition expiring : PipelineValidators world MetricPipeline :=
  sample_validators (Some (CertAboutToExpireError 0 false)) (Some (Sentinel ErrMaxPipelinesExceeded))
    (Some (InvalidOTTLSpecError (NewError "syntax error"))).

#[global] Instance agents : MetricAgents world := {|
  VpaCRDExists _ := Ok false;
  IsIstioActive _ := Ok false;
  GetClusterUID _ := Ok "uid";
  IsVpaEnabledInTelemetry _ := false;
  AgentConfigBuilder_Build _ _ _ _ _ := Ok ("config", ∅);
  OTLPOutputPorts _ _ := Ok ["4317"];
  VPAMaxAllowedMemory _ := 0%Z;
  ApplyResources w _ _ := (w, None);
  DeleteResources w _ := (w, None)
|}.

#[global] Instance agents_laws ns : MetricAgentsLaws world ns.
Proof. by constructor; simpl; intros; simplify_eq. Qed.

Definition pipeline : MetricPipeline :=
  mkMetricPipeline (mkMeta "backend" "uid-1" 2 None false)
    (mkMetricSpec (mkMetricInput None (Some (mkMetricRuntimeInput (Some true) None None None)) None None)
       (mkMetricOutput (Some (mkMetricOTLPOutput
          (mkOTLPOutput "grpc" (mkValueType "https://backend:4317" None) "" None None
             (Some (mkOutputTLS false false None (Some (mkValueType "CERT" None)) (Some (mkValueType "KEY" None)))) "")
          (Some "preserve")))) None None) (mkMetricStatus []).

(** The same pipeline in deletion. *)
Definition deleted : MetricPipeline :=
  mkMetricPipeline (mkMeta "backend" "uid-1" 2 None true) (mp_Spec pipeline) (mkMetricStatus []).

Definition config : ReconcilerConfig :=
  mkReconcilerConfig (NewLocker (mkNN "kyma-system" "telemetry-metricpipeline") MaxPipelineCount)
    (NewSyncer (mkNN "kyma-system" "telemetry-metricpipeline")) "kyma-system".

Definition world0 : world := mkCluster [] [pipeline].

End Sample.

Lemma expiring_certificate_witness :
  @isReconcilable _ Sample.expiring Sample.world0 Sample.pipeline = Ok true.
Proof.
  apply (@expiring_certificate_masks_later_checks _ Sample.expiring Sample.world0 Sample.pipeline 0 false
           (InvalidOTTLSpecError (NewError "syntax error"))); reflexivity.
Defined.

Lemma metric_condition_witness :
  (@evaluateConfigGeneratedCondition _ Sample.accepting Sample.world0 Sample.pipeline).1.1 = ConditionTrue.
Proof.
  pose proof (@metric_condition_agrees_with_reconciliation _ Sample.accepting Sample.accepting_laws
                Sample.world0 Sample.pipeline eq_refl) as H.
  apply (proj1 H). vm_compute. reflexivity.
Defined.

Lemma metric_publish_witness :
  exists w' c' x, @doReconcile _ Sample.accepting _ _ _ _ _ Sample.config Sample.world0 Sample.deleted
                    = Some (w', None) /\
    ReadOTLPGatewayConfig w' "kyma-system" = Ok c' /\
    publishes empty_config c' SignalTypeMetric "backend" x.
Proof.
  assert (Hk : ck_lockName (rc_pipelineLock Sample.config)
               <> coordination_key (rc_TargetNamespace Sample.config)) by (vm_compute; discriminate).
  assert (Hr : ReadOTLPGatewayConfig Sample.world0 (rc_TargetNamespace Sample.config) = Ok empty_config)
    by (vm_compute; reflexivity).
  assert (Hwf : config_wf empty_config) by (intros []; constructor).
  destruct (@doReconcile _ Sample.accepting _ _ _ _ _ Sample.config Sample.world0 Sample.deleted)
    as [[w' e]|] eqn:Hd; [|vm_compute in Hd; discriminate Hd].
  destruct e as [e|]; [vm_compute in Hd; discriminate Hd|].
  pose proof (@metric_doReconcile_publishes _ Sample.accepting _ _ _ _ _ _ _ _ Sample.config _
                Sample.world0 Sample.deleted w' empty_config Hk Hr Hwf Hd) as Hp.
  destruct (TryAcquireLock (rc_pipelineLock Sample.config) Sample.world0 (owner_of (mp_ObjectMeta Sample.deleted)))
    as [w1 a] eqn:Hl.
  destruct a as [err|]; [vm_compute in Hl; discriminate Hl|].
  destruct Hp as (b & x & c' & w2 & all & _ & Hc & _ & Hpub & _).
  exists w', c', x. split; [reflexivity|]. split; [exact Hc|exact Hpub].
Defined.
