(* ===== verification/GoStrings.v ===== *)
(** * Package strings

    The functions of package strings that the Fluent Bit configuration uses, on the
    bytes of the UTF-8 encoding. *)
From stdpp Require Import base strings list.
From Stdlib Require Import Ascii.
From S2P Require Import Prelude.
Local Open Scope string_scope.

Abbreviation bytes := (list ascii).

Definition to_bytes (s : string) : bytes := String.list_ascii_of_string s.
Definition of_bytes (b : bytes) : string := String.string_of_list_ascii b.

Fixpoint prefixb (p l : bytes) : bool :=
  match p, l with
  | [], _ => true
  | a :: p', b :: l' => Ascii.eqb a b && prefixb p' l'
  | _ :: _, [] => false
  end.

(** [strings.Split(s, "\n")] *)
Fixpoint split_lines (l : bytes) : list bytes :=
  match l with
  | [] => [[]]
  | c :: l' =>
      if Ascii.eqb c (ascii_of_nat 10) then [] :: split_lines l'
      else match split_lines l' with
           | [] => [[c]]
           | line :: rest => (c :: line) :: rest
           end
  end.

(** [strings.Cut(s, sep)] for a one-byte separator; [None]: not found. *)
Fixpoint cut (sep : ascii) (l : bytes) : option (bytes * bytes) :=
  match l with
  | [] => None
  | c :: l' =>
      if Ascii.eqb c sep then Some ([], l')
      else (fun p => (c :: p.1, p.2)) <$> cut sep l'
  end.

(** The encodings of the characters for which [unicode.IsSpace] holds. *)
Definition spaces : list bytes :=
  map (map ascii_of_nat)
    [[9]; [10]; [11]; [12]; [13]; [32]; [194; 133]; [194; 160]; [225; 154; 128];
     [226; 128; 128]; [226; 128; 129]; [226; 128; 130]; [226; 128; 131]; [226; 128; 132];
     [226; 128; 133]; [226; 128; 134]; [226; 128; 135]; [226; 128; 136]; [226; 128; 137];
     [226; 128; 138]; [226; 128; 168]; [226; 128; 169]; [226; 128; 175]; [226; 129; 159];
     [227; 128; 128]].

(** Drop one of [ps] from the front, as long as there is one; every round drops at
    least one byte, so the length is enough fuel. *)
Fixpoint trim_front (fuel : nat) (ps : list bytes) (l : bytes) : bytes :=
  match fuel with
  | O => l
  | S fuel' =>
      match List.find (fun p => prefixb p l) ps with
      | Some p => trim_front fuel' ps (drop (length p) l)
      | None => l
      end
  end.

Definition trim_left (ps : list bytes) (l : bytes) : bytes := trim_front (length l) ps l.

Definition trim_both (ps : list bytes) (l : bytes) : bytes :=
  rev (trim_left (map (@rev ascii) ps) (rev (trim_left ps l))).

(** [strings.TrimSpace] and [strings.Trim(s, " ")] *)
Definition TrimSpace (l : bytes) : bytes := trim_both spaces l.
Definition TrimBlanks (l : bytes) : bytes := trim_both [[ascii_of_nat 32]] l.

Definition lower_ascii (c : ascii) : ascii :=
  let n := nat_of_ascii c in
  if (65 <=? n)%nat && (n <=? 90)%nat then ascii_of_nat (n + 32) else c.

(** [strings.ToLower] as far as the result can be ASCII: the letters A to Z, and the
    two other characters whose lower case is an ASCII letter, U+0130 and U+212A. All
    other characters stay outside ASCII and are kept as they are. *)
Fixpoint ToLower (l : bytes) : bytes :=
  match l with
  | [] => []
  | c :: l1 =>
      match l1 with
      | d :: l2 =>
          if prefixb (map ascii_of_nat [196; 176]) l then ascii_of_nat 105 :: ToLower l2
          else
            match l2 with
            | _ :: l3 =>
                if prefixb (map ascii_of_nat [226; 132; 170]) l then ascii_of_nat 107 :: ToLower l3
                else lower_ascii c :: ToLower l1
            | [] => lower_ascii c :: ToLower l1
            end
      | [] => [lower_ascii c]
      end
  end.

Definition upper_ascii (c : ascii) : ascii :=
  let n := nat_of_ascii c in
  if (97 <=? n)%nat && (n <=? 122)%nat then ascii_of_nat (n - 32) else c.

(** [strings.ToUpper] as far as the result can be ASCII: the letters a to z, and the
    two other characters whose upper case is an ASCII letter, U+0131 and U+017F. All
    other characters stay outside ASCII and are kept as they are. *)
Fixpoint ToUpper (l : bytes) : bytes :=
  match l with
  | [] => []
  | c :: l1 =>
      match l1 with
      | d :: l2 =>
          if prefixb (map ascii_of_nat [196; 177]) l then ascii_of_nat 73 :: ToUpper l2
          else if prefixb (map ascii_of_nat [197; 191]) l then ascii_of_nat 83 :: ToUpper l2
          else upper_ascii c :: ToUpper l1
      | [] => [upper_ascii c]
      end
  end.

(** The representative of a character under simple folding, as far as it can be
    ASCII: the letters, U+212A (folds to k) and U+017F (folds to s). *)
Fixpoint fold_case (l : bytes) : bytes :=
  match l with
  | [] => []
  | c :: l1 =>
      match l1 with
      | d :: l2 =>
          if prefixb (map ascii_of_nat [197; 191]) l then ascii_of_nat 115 :: fold_case l2
          else
            match l2 with
            | _ :: l3 =>
                if prefixb (map ascii_of_nat [226; 132; 170]) l then ascii_of_nat 107 :: fold_case l3
                else lower_ascii c :: fold_case l1
            | [] => lower_ascii c :: fold_case l1
            end
      | [] => [lower_ascii c]
      end
  end.

(** [strings.EqualFold(s, t)] for an ASCII text [t] *)
Definition EqualFold (s t : bytes) : bool := bool_decide (fold_case s = fold_case t).

Example trim_ex : of_bytes (TrimSpace (to_bytes "  a b ")) = "a b".
Proof. reflexivity. Qed.
Example cut_ex : cut " "%char (to_bytes "Name lua") = Some (to_bytes "Name", to_bytes "lua").
Proof. reflexivity. Qed.
Example lower_ex : of_bytes (ToLower (to_bytes "Storage.Total_LIMIT")) = "storage.total_limit".
Proof. reflexivity. Qed.

(** ** Lemmas *)

Lemma split_lines_nonempty l : split_lines l <> [].
Proof.
  destruct l as [|c l]; simpl; [done|]. destruct (Ascii.eqb _ _); [done|]. by destruct (split_lines l).
Qed.

Lemma cut_spec sep l k v : cut sep l = Some (k, v) <-> l = (k ++ sep :: v)%list /\ sep ∉ k.
Proof.
  revert k. induction l as [|c l IH]; intros k; simpl.
  - split; [done|]. intros [He _]. by destruct k.
  - destruct (Ascii.eqb_spec c sep) as [->|Hc].
    + split; [intros [= <- <-]; split; [done|apply not_elem_of_nil]|].
      intros [He Hn]. destruct k as [|x k]; simplify_eq/=; [done|]. by apply not_elem_of_cons in Hn as [? _].
    + rewrite fmap_Some. split.
      * intros ([k' v'] & Hk & [= -> ->]). apply IH in Hk as [-> Hn]. split; [done|].
        apply not_elem_of_cons. split; [congruence|done].
      * intros [He Hn]. destruct k as [|x k]; simplify_eq/=. apply not_elem_of_cons in Hn as [_ Hn].
        exists (k, v). split; [|done]. by apply IH.
Qed.

Local Close Scope string_scope.

(** ** Lemmas about package strings

    Lines, trimming and lower case on bytes, as the readers and writers of Fluent Bit
    sections need them. *)

(** ** Prefixes *)

Lemma prefixb_app p l r : prefixb p l = true -> prefixb p (l ++ r) = true.
Proof. revert l. induction p as [|a p IH]; intros [|b l]; simpl; [done..|]. rewrite !andb_true_iff. naive_solver. Qed.

Lemma prefixb_spec p l : prefixb p l = true <-> exists r, l = p ++ r.
Proof.
  revert l. induction p as [|a p IH]; intros l; simpl; [split; [by exists l|done]|].
  destruct l as [|b l]; [split; [done|by intros [r ?]]|]. rewrite andb_true_iff, IH, Ascii.eqb_eq. split.
  - intros (-> & r & ->). by exists r.
  - intros (r & [= -> ->]). eauto.
Qed.

(** A pattern that begins a text and what follows it, and does not lie in the text. *)
Lemma prefixb_straddle p l c r :
  prefixb p (l ++ c :: r) = true -> prefixb p l = true \/ exists q, p = l ++ c :: q.
Proof.
  revert l. induction p as [|a p IH]; intros l; [by left|]. destruct l as [|b l]; simpl.
  - intros [->%Ascii.eqb_eq _]%andb_true_iff. right. by exists p.
  - intros [->%Ascii.eqb_eq H]%andb_true_iff. destruct (IH _ H) as [H1|[q ->]].
    + left. by rewrite Ascii.eqb_refl.
    + right. by exists q.
Qed.

Definition no_prefix (ps : list bytes) (l : bytes) : bool := forallb (fun p => negb (prefixb p l)) ps.

Lemma no_prefix_spec ps l : no_prefix ps l = true <-> forall p, p ∈ ps -> prefixb p l = false.
Proof.
  unfold no_prefix. rewrite forallb_forall. setoid_rewrite negb_true_iff.
  split; intros H p Hp; apply H; by apply list_elem_of_In.
Qed.

Lemma no_prefix_find ps l : no_prefix ps l = true <-> List.find (fun p => prefixb p l) ps = None.
Proof.
  unfold no_prefix. induction ps as [|p ps IH]; simpl; [done|]. destruct (prefixb p l); simpl; [done|apply IH].
Qed.

Lemma no_prefix_app ps l r : no_prefix ps (l ++ r) = true -> no_prefix ps l = true.
Proof.
  rewrite !no_prefix_spec. intros H p Hp. specialize (H p Hp).
  destruct (prefixb p l) eqn:He; [|done]. by rewrite (prefixb_app _ _ _ He) in H.
Qed.

(** ** Trimming *)

Section Trim.
Context (ps : list bytes) (Hps : Forall (fun p => p <> []) ps).

Lemma trim_left_fixed l : no_prefix ps l = true -> trim_left ps l = l.
Proof. intros H%no_prefix_find. unfold trim_left. destruct l as [|c l]; [done|]. simpl length. cbn [trim_front]. by rewrite H. Qed.

Lemma trim_front_done fuel l : length l <= fuel -> no_prefix ps (trim_front fuel ps l) = true.
Proof.
  revert l. induction fuel as [|fuel IH]; intros l Hl; simpl.
  - destruct l; [|simpl in Hl; lia]. apply no_prefix_spec. intros p Hp.
    rewrite Forall_forall in Hps. specialize (Hps p Hp). by destruct p.
  - destruct (List.find _ ps) as [p|] eqn:Hf; [|by apply no_prefix_find].
    apply IH. rewrite length_drop. apply find_some in Hf as [Hp%list_elem_of_In _].
    rewrite Forall_forall in Hps. specialize (Hps p Hp). destruct p; [done|]. simpl. lia.
Qed.

Lemma trim_left_done l : no_prefix ps (trim_left ps l) = true.
Proof. by apply trim_front_done. Qed.

(** What is dropped is a sequence of the patterns. *)
Lemma trim_front_split fuel l : exists qs, Forall (fun q => q ∈ ps) qs /\ l = concat qs ++ trim_front fuel ps l.
Proof.
  revert l. induction fuel as [|fuel IH]; intros l; simpl; [by exists []|].
  destruct (List.find _ ps) as [p|] eqn:Hf; [|by exists []].
  apply find_some in Hf as [Hp%list_elem_of_In [r ->]%prefixb_spec]. rewrite drop_app_length.
  destruct (IH r) as (qs & Hqs & Hr). exists (p :: qs). split; [by constructor|]. simpl. by rewrite <- app_assoc, <- Hr.
Qed.

Lemma trim_left_split l : exists qs, Forall (fun q => q ∈ ps) qs /\ l = concat qs ++ trim_left ps l.
Proof. apply trim_front_split. Qed.


End Trim.

Lemma spaces_nonempty : Forall (fun p : bytes => p <> []) spaces.
Proof. repeat constructor; discriminate. Qed.
Lemma rspaces_nonempty : Forall (fun p : bytes => p <> []) (map (@rev ascii) spaces).
Proof. repeat constructor; discriminate. Qed.

Lemma trim_left_blank l : trim_left spaces (ascii_of_nat 32 :: l) = trim_left spaces l.
Proof. done. Qed.

Lemma trim_left_blanks n l : trim_left spaces (repeat (ascii_of_nat 32) n ++ l) = trim_left spaces l.
Proof. induction n as [|n IH]; [done|]. cbn [repeat app]. by rewrite trim_left_blank. Qed.

(** Nothing to trim at either end. *)
Definition trimmed (l : bytes) : bool := no_prefix spaces l && no_prefix (map (@rev ascii) spaces) (rev l).

Lemma TrimSpace_fixed l : trimmed l = true -> TrimSpace l = l.
Proof.
  intros [H1 H2]%andb_true_iff. unfold TrimSpace, trim_both.
  by rewrite !trim_left_fixed, rev_involutive by (rewrite ?trim_left_fixed by done; done).
Qed.

Lemma TrimSpace_blanks n l : trimmed l = true -> TrimSpace (repeat (ascii_of_nat 32) n ++ l) = l.
Proof.
  intros H. unfold TrimSpace, trim_both. rewrite trim_left_blanks. by apply TrimSpace_fixed.
Qed.

(** The text with what is trimmed. *)
Lemma TrimSpace_split l :
  exists pre post, Forall (fun q => q ∈ spaces) pre /\ Forall (fun q => q ∈ spaces) post /\
    l = concat pre ++ TrimSpace l ++ concat post.
Proof.
  unfold TrimSpace, trim_both. destruct (trim_left_split spaces l) as (pre & Hpre & Hl).
  set (m := trim_left spaces l) in *.
  destruct (trim_left_split (map (@rev ascii) spaces) (rev m)) as (post & Hpost & Hm).
  exists pre, (rev (map (@rev ascii) post)). split; [done|]. split.
  - apply Forall_forall. intros q Hq. apply list_elem_of_In, in_rev, in_map_iff in Hq as (x & <- & Hx).
    rewrite Forall_forall in Hpost. apply list_elem_of_In, Hpost, list_elem_of_In, in_map_iff in Hx as (y & <- & Hy).
    rewrite rev_involutive. by apply list_elem_of_In.
  - rewrite Hl at 1. f_equal. rewrite <- (rev_involutive m) at 1. rewrite Hm at 1. rewrite rev_app_distr. f_equal.
    clear. induction post as [|x post IH]; [done|]. simpl. rewrite rev_app_distr, IH, concat_app. simpl. by rewrite app_nil_r.
Qed.

Lemma TrimSpace_trimmed l : trimmed (TrimSpace l) = true.
Proof.
  unfold trimmed. apply andb_true_iff. split.
  - unfold TrimSpace, trim_both. set (m := trim_left spaces l).
    destruct (trim_left_split (map (@rev ascii) spaces) (rev m)) as (post & _ & Hm).
    apply (no_prefix_app _ _ (rev (concat post))). rewrite <- rev_app_distr, <- Hm, rev_involutive.
    apply trim_left_done, spaces_nonempty.
  - unfold TrimSpace, trim_both. rewrite rev_involutive. apply trim_left_done, rspaces_nonempty.
Qed.

Lemma TrimSpace_idem l : TrimSpace (TrimSpace l) = TrimSpace l.
Proof. apply TrimSpace_fixed, TrimSpace_trimmed. Qed.

Lemma trimmed_head l p : trimmed l = true -> p ∈ spaces -> prefixb p l = false.
Proof. intros [H _]%andb_true_iff Hp. by apply (proj1 (no_prefix_spec _ _) H). Qed.

Lemma trimmed_last l p r : trimmed l = true -> p ∈ spaces -> l <> r ++ p.
Proof.
  intros [_ H]%andb_true_iff Hp ->. rewrite rev_app_distr in H.
  assert (Hr : rev p ∈ map (@rev ascii) spaces).
  { by apply list_elem_of_In, in_map, list_elem_of_In. }
  pose proof (proj1 (no_prefix_spec _ _) H _ Hr) as He.
  assert (Ht : prefixb (rev p) (rev p ++ rev r) = true); [|congruence]. apply prefixb_spec. by eexists.
Qed.

(** A text all of whose pieces are spaces is trimmed only if it is empty. *)
Lemma spaces_not_trimmed qs : Forall (fun q => q ∈ spaces) qs -> no_prefix spaces (concat qs) = true -> qs = [].
Proof.
  intros Hq Hn. destruct qs as [|q qs]; [done|]. apply Forall_cons in Hq as [Hq _].
  pose proof (proj1 (no_prefix_spec _ _) Hn _ Hq) as He. simpl in He.
  assert (Ht : prefixb q (q ++ concat qs) = true); [|congruence]. apply prefixb_spec. by eexists.
Qed.

(** ** Bytes that belong to no space *)

Definition graphic (c : ascii) : bool := (33 <=? nat_of_ascii c) && (nat_of_ascii c <=? 126).

Lemma graphic_no_space c : graphic c = true -> forall p, p ∈ spaces -> c ∉ p.
Proof.
  intros Hc p Hp Hin.
  assert (Hall : Forall (fun p => Forall (fun c => graphic c = false) p) spaces).
  { apply (bool_decide_unpack _). vm_compute. exact I. }
  rewrite Forall_forall in Hall. specialize (Hall p Hp). rewrite Forall_forall in Hall. specialize (Hall c Hin). congruence.
Qed.

Lemma blank_alone p : p ∈ spaces -> ascii_of_nat 32 ∈ p -> p = [ascii_of_nat 32].
Proof.
  intros Hp Hin.
  assert (Hall : Forall (fun p => ascii_of_nat 32 ∈ p -> p = [ascii_of_nat 32]) spaces).
  { apply (bool_decide_unpack _). vm_compute. exact I. }
  rewrite Forall_forall in Hall. by apply Hall.
Qed.

Lemma no_prefix_graphic ps c l : (forall p, p ∈ ps -> p <> [] /\ c ∉ p) -> no_prefix ps (c :: l) = true.
Proof.
  intros H. apply no_prefix_spec. intros p Hp. destruct (H p Hp) as [Hne Hc].
  destruct p as [|a p]; [done|]. simpl. destruct (Ascii.eqb_spec a c) as [->|]; [|done].
  exfalso. apply Hc. by left.
Qed.

Lemma rspaces_in p : p ∈ map (@rev ascii) spaces -> exists q, q ∈ spaces /\ p = rev q.
Proof. intros (q & <- & Hq)%list_elem_of_In%in_map_iff. exists q. split; [by apply list_elem_of_In|done]. Qed.

Lemma graphic_start c l : graphic c = true -> no_prefix spaces (c :: l) = true.
Proof.
  intros Hc. apply no_prefix_graphic. intros p Hp. split; [|by apply graphic_no_space].
  pose proof spaces_nonempty as Hs. rewrite Forall_forall in Hs. by apply Hs.
Qed.

Lemma graphic_end c l : graphic c = true -> no_prefix (map (@rev ascii) spaces) (c :: l) = true.
Proof.
  intros Hc. apply no_prefix_graphic. intros p Hp.
  pose proof rspaces_nonempty as Hs. rewrite Forall_forall in Hs. split; [by apply Hs|].
  apply rspaces_in in Hp as (q & Hq & ->). intros Hin%list_elem_of_In%in_rev%list_elem_of_In.
  by apply (graphic_no_space c Hc q Hq).
Qed.

(** A blank after a non-empty text without a space in front. *)
Lemma no_prefix_blank l r :
  l <> [] -> no_prefix spaces l = true -> no_prefix spaces (l ++ ascii_of_nat 32 :: r) = true.
Proof.
  intros Hl Hn. apply no_prefix_spec. intros p Hp. destruct (prefixb p _) eqn:He; [|done].
  apply prefixb_straddle in He as [He|[q ->]].
  - by rewrite (proj1 (no_prefix_spec _ _) Hn p Hp) in He.
  - apply blank_alone in Hp; [|by apply elem_of_app; right; left].
    destruct l as [|c [|d l]]; [done| |]; simplify_eq/=.
Qed.

Lemma no_rprefix_blank l r :
  l <> [] -> no_prefix (map (@rev ascii) spaces) l = true ->
  no_prefix (map (@rev ascii) spaces) (l ++ ascii_of_nat 32 :: r) = true.
Proof.
  intros Hl Hn. apply no_prefix_spec. intros p Hp. destruct (prefixb p _) eqn:He; [|done].
  apply prefixb_straddle in He as [He|[q ->]].
  - by rewrite (proj1 (no_prefix_spec _ _) Hn p Hp) in He.
  - apply rspaces_in in Hp as (s & Hs & Hp). apply blank_alone in Hs.
    + subst s. destruct l as [|c [|d l]]; [done| |]; simplify_eq/=.
    + apply list_elem_of_In, in_rev. rewrite <- Hp. apply in_or_app. right. by left.
Qed.

(** ** Lower case *)

(** How [ToLower] replaces the bytes of a text from left to right. *)
Inductive lowers : bytes -> bytes -> Prop :=
| lowers_nil : lowers [] []
| lowers_byte c l m : lowers l m -> lowers (c :: l) (lower_ascii c :: m)
| lowers_dotted l m : lowers l m -> lowers (map ascii_of_nat [196; 176] ++ l) (ascii_of_nat 105 :: m)
| lowers_kelvin l m : lowers l m -> lowers (map ascii_of_nat [226; 132; 170] ++ l) (ascii_of_nat 107 :: m).

Lemma list_strong_ind {T} (P : list T -> Prop) :
  (forall l, (forall m, length m < length l -> P m) -> P l) -> forall l, P l.
Proof.
  intros H l. remember (length l) as n eqn:Hn. revert l Hn.
  induction n as [n IH] using lt_wf_ind. intros l ->. apply H. intros m Hm. by eapply IH.
Qed.

Lemma ToLower_cases c l :
  (exists r, c :: l = map ascii_of_nat [196; 176] ++ r /\ ToLower (c :: l) = ascii_of_nat 105 :: ToLower r) \/
  (exists r, c :: l = map ascii_of_nat [226; 132; 170] ++ r /\ ToLower (c :: l) = ascii_of_nat 107 :: ToLower r) \/
  (prefixb (map ascii_of_nat [196; 176]) (c :: l) = false /\
   prefixb (map ascii_of_nat [226; 132; 170]) (c :: l) = false /\ ToLower (c :: l) = lower_ascii c :: ToLower l).
Proof.
  destruct l as [|d l].
  { right. right. split_and!; [..|done]; simpl; by rewrite ?andb_false_r. }
  destruct (prefixb (map ascii_of_nat [196; 176]) (c :: d :: l)) eqn:H1.
  { left. pose proof (proj1 (prefixb_spec _ _) H1) as [r Hr]. exists r. split; [done|].
    cbn [ToLower]. rewrite H1. by simplify_eq/=. }
  destruct l as [|e l].
  { right. right. split_and!; [done|simpl; by rewrite !andb_false_r|]. cbn [ToLower]. by rewrite H1. }
  destruct (prefixb (map ascii_of_nat [226; 132; 170]) (c :: d :: e :: l)) eqn:H2.
  - right. left. pose proof (proj1 (prefixb_spec _ _) H2) as [r Hr]. exists r. split; [done|].
    cbn [ToLower]. rewrite H1, H2. by simplify_eq/=.
  - right. right. split_and!; [done..|]. cbn [ToLower]. by rewrite H1, H2.
Qed.

Lemma ToLower_lowers l : lowers l (ToLower l).
Proof.
  induction l as [l IH] using list_strong_ind. destruct l as [|c l]; [constructor|].
  destruct (ToLower_cases c l) as [(r & Hr & ->)|[(r & Hr & ->)|(_ & _ & ->)]].
  - rewrite Hr. constructor. apply IH. rewrite Hr, length_app. simpl. lia.
  - rewrite Hr. constructor. apply IH. rewrite Hr, length_app. simpl. lia.
  - constructor. apply IH. simpl. lia.
Qed.

Definition lower_letter (c : ascii) : bool := (97 <=? nat_of_ascii c) && (nat_of_ascii c <=? 122).

(** A statement about all bytes, by computation. *)
Definition all_ascii : list ascii := map ascii_of_nat (seq 0 256).
Lemma all_ascii_spec (P : ascii -> bool) : forallb P all_ascii = true -> forall c, P c = true.
Proof.
  intros H c. rewrite forallb_forall in H. apply H, in_map_iff. exists (nat_of_ascii c).
  split; [apply ascii_nat_embedding|]. apply in_seq. pose proof (nat_ascii_bounded c). lia.
Qed.

Lemma lower_ascii_keeps c : lower_letter (lower_ascii c) = false -> lower_ascii c = c.
Proof.
  pose proof (all_ascii_spec (fun c => lower_letter (lower_ascii c) || Ascii.eqb (lower_ascii c) c)
                ltac:(vm_compute; reflexivity) c) as H.
  cbv beta in H. intros Hl. rewrite Hl in H. by apply Ascii.eqb_eq.
Qed.

Lemma lower_ascii_idem c : lower_ascii (lower_ascii c) = lower_ascii c.
Proof.
  pose proof (all_ascii_spec (fun c => Ascii.eqb (lower_ascii (lower_ascii c)) (lower_ascii c))
                ltac:(vm_compute; reflexivity) c) as H. by apply Ascii.eqb_eq.
Qed.

Lemma lowers_cons_inv l b m : lowers l (b :: m) -> lower_letter b = false -> exists l', l = b :: l' /\ lowers l' m.
Proof.
  inversion 1; subst; intros Hb; [|by vm_compute in Hb..]. rewrite (lower_ascii_keeps _ Hb). eauto.
Qed.

Lemma lowers_snoc_inv l m b :
  lowers l (m ++ [b]) -> lower_letter b = false -> exists l', l = l' ++ [b] /\ lowers l' m.
Proof.
  intros Hl Hb. remember (m ++ [b]) as n eqn:Hn. revert m Hn.
  induction Hl as [|c l n Hl IH|l n Hl IH|l n Hl IH]; intros m Hn; [by destruct m|..];
    destruct m as [|x m]; simplify_eq/=; try by vm_compute in Hb.
  - inversion Hl; subst. exists []. rewrite (lower_ascii_keeps _ Hb). split; [done|constructor].
  - destruct (IH _ eq_refl) as (l' & -> & Hl'). exists (c :: l'). split; [done|by constructor].
  - destruct (IH _ eq_refl) as (l' & -> & Hl'). eexists (_ :: _ :: l'). split; [done|by apply lowers_dotted].
  - destruct (IH _ eq_refl) as (l' & -> & Hl'). eexists (_ :: _ :: _ :: l'). split; [done|by apply lowers_kelvin].
Qed.

Lemma lowers_prefix p l m : Forall (fun b => lower_letter b = false) p -> lowers l (p ++ m) -> exists l', l = p ++ l'.
Proof.
  revert l. induction p as [|b p IH]; intros l Hp Hl; [by exists l|]. apply Forall_cons in Hp as [Hb Hp].
  apply lowers_cons_inv in Hl as (l' & -> & Hl); [|done]. destruct (IH _ Hp Hl) as [r ->]. by exists r.
Qed.

Lemma lowers_suffix p l m : Forall (fun b => lower_letter b = false) p -> lowers l (m ++ p) -> exists l', l = l' ++ p.
Proof.
  revert l m. induction p as [|b p IH] using rev_ind; intros l m Hp Hl; [exists l; by rewrite app_nil_r|].
  apply Forall_app in Hp as [Hp Hb]. apply Forall_cons in Hb as [Hb _]. rewrite app_assoc in Hl.
  apply lowers_snoc_inv in Hl as (l' & -> & Hl); [|done]. destruct (IH _ _ Hp Hl) as [r ->].
  exists r. by rewrite app_assoc.
Qed.

Lemma lowers_elem l m b : lowers l m -> lower_letter b = false -> b ∈ m -> b ∈ l.
Proof.
  intros Hl Hb. induction Hl as [|c l m Hl IH|l m Hl IH|l m Hl IH]; [done|..]; rewrite elem_of_cons.
  - intros [->|H]; [rewrite (lower_ascii_keeps _ Hb); by left|right; auto].
  - intros [->|H]; [by vm_compute in Hb|]. apply elem_of_app. right. auto.
  - intros [->|H]; [by vm_compute in Hb|]. apply elem_of_app. right. auto.
Qed.

Lemma spaces_no_letter p : p ∈ spaces -> Forall (fun b => lower_letter b = false) p.
Proof.
  intros Hp.
  assert (Hall : Forall (fun p => Forall (fun b => lower_letter b = false) p) spaces).
  { apply (bool_decide_unpack _). vm_compute. exact I. }
  rewrite Forall_forall in Hall. by apply Hall.
Qed.

Lemma ToLower_trimmed l : trimmed l = true -> trimmed (ToLower l) = true.
Proof.
  intros Ht. unfold trimmed. apply andb_true_iff. split; apply no_prefix_spec; intros p Hp.
  - destruct (prefixb p _) eqn:He; [|done]. apply prefixb_spec in He as [r He].
    destruct (lowers_prefix p l r) as [l' ->]; [by apply spaces_no_letter|rewrite <- He; apply ToLower_lowers|].
    pose proof (trimmed_head _ _ Ht Hp) as Hn. rewrite <- Hn. symmetry. apply prefixb_spec. by eexists.
  - destruct (prefixb p _) eqn:He; [|done]. apply prefixb_spec in He as [r He].
    apply rspaces_in in Hp as (q & Hq & ->).
    assert (ToLower l = rev r ++ q) as Hl.
    { rewrite <- (rev_involutive (ToLower l)), He, rev_app_distr, rev_involutive. done. }
    destruct (lowers_suffix q l (rev r)) as [l' ->]; [by apply spaces_no_letter|rewrite <- Hl; apply ToLower_lowers|].
    exfalso. by apply (trimmed_last _ q l' Ht Hq).
Qed.

Lemma ToLower_elem l b : lower_letter b = false -> b ∈ ToLower l -> b ∈ l.
Proof. intros Hb. apply lowers_elem; [apply ToLower_lowers|done]. Qed.

Lemma ToLower_nil l : ToLower l = [] -> l = [].
Proof. pose proof (ToLower_lowers l) as H. intros He. rewrite He in H. by inversion H. Qed.

Lemma ToLower_head b l : head (ToLower l) = Some b -> lower_letter b = false -> head l = Some b.
Proof.
  pose proof (ToLower_lowers l) as H. destruct (ToLower l) as [|x m]; [done|]. intros [= ->] Hb.
  by apply lowers_cons_inv in H as (l' & -> & _).
Qed.

(** Lower case is reached after one pass. *)
Lemma ToLower_byte c l :
  (c = ascii_of_nat 196 -> head l <> Some (ascii_of_nat 176)) ->
  (c = ascii_of_nat 226 -> head l = Some (ascii_of_nat 132) -> head (tail l) <> Some (ascii_of_nat 170)) ->
  ToLower (c :: l) = lower_ascii c :: ToLower l.
Proof.
  intros H1 H2. destruct (ToLower_cases c l) as [(r & Hr & _)|[(r & Hr & _)|(_ & _ & ->)]]; [..|done].
  - simplify_eq/=. by destruct H1.
  - simplify_eq/=. by destruct H2.
Qed.

Lemma ToLower_two l a b :
  head (ToLower l) = Some a -> head (tail (ToLower l)) = Some b ->
  lower_letter a = false -> lower_letter b = false -> head l = Some a /\ head (tail l) = Some b.
Proof.
  pose proof (ToLower_lowers l) as H. destruct (ToLower l) as [|x m]; [done|]. intros [= ->] Hb Ha Hb'.
  apply lowers_cons_inv in H as (l' & -> & H); [|done]. simpl in *. split; [done|].
  destruct m as [|y m]; [done|]. injection Hb as ->. by apply lowers_cons_inv in H as (l2 & -> & _).
Qed.

Lemma ToLower_idem l : ToLower (ToLower l) = ToLower l.
Proof.
  induction l as [l IH] using list_strong_ind. destruct l as [|c l]; [done|].
  destruct (ToLower_cases c l) as [(r & Hr & ->)|[(r & Hr & ->)|(H1 & H2 & ->)]].
  - rewrite ToLower_byte by done. f_equal. apply IH. rewrite Hr, length_app. simpl. lia.
  - rewrite ToLower_byte by done. f_equal. apply IH. rewrite Hr, length_app. simpl. lia.
  - assert (Hback : forall n, lower_letter (ascii_of_nat n) = false -> lower_ascii c = ascii_of_nat n -> c = ascii_of_nat n).
    { intros n Hn Hc. rewrite <- Hc. symmetry. apply lower_ascii_keeps. by rewrite Hc. }
    rewrite ToLower_byte, lower_ascii_idem; [f_equal; apply IH; simpl; lia|..].
    + intros ->%Hback Hh; [|done]. apply ToLower_head in Hh; [|done].
      destruct l as [|x l]; [done|]. injection Hh as ->. by vm_compute in H1.
    + intros ->%Hback Hh Ht; [|done]. destruct (ToLower_two _ _ _ Hh Ht eq_refl eq_refl) as [Ha Hb].
      destruct l as [|x [|y l]]; [done..|]. simpl in Ha, Hb. injection Ha as ->. injection Hb as ->. by vm_compute in H2.
Qed.

(** ** Lines *)

Definition nl : ascii := ascii_of_nat 10.

(** Lines, each with its end. *)
Definition unlines (ls : list bytes) : bytes := concat (map (fun l => l ++ [nl]) ls).

Lemma unlines_app a b : unlines (a ++ b) = unlines a ++ unlines b.
Proof. unfold unlines. by rewrite map_app, concat_app. Qed.

Lemma split_lines_line l r : nl ∉ l -> split_lines (l ++ nl :: r) = l :: split_lines r.
Proof.
  induction l as [|c l IH]; intros Hl; [done|]. apply not_elem_of_cons in Hl as [Hc Hl].
  cbn [app split_lines]. destruct (Ascii.eqb_spec c (ascii_of_nat 10)) as [->|_]; [by destruct Hc|]. by rewrite IH.
Qed.

Lemma split_lines_unlines ls r : Forall (fun l => nl ∉ l) ls -> split_lines (unlines ls ++ r) = ls ++ split_lines r.
Proof.
  induction 1 as [|l ls Hl _ IH]; [done|]. unfold unlines in *. cbn [map concat]. rewrite <- !app_assoc.
  change ([nl] ++ ?x) with (nl :: x). rewrite split_lines_line by done. cbn [app]. by rewrite IH.
Qed.

Lemma split_lines_no_newline l : Forall (fun line => nl ∉ line) (split_lines l).
Proof.
  induction l as [|c l IH]; cbn [split_lines]; [repeat constructor; apply not_elem_of_nil|].
  destruct (Ascii.eqb_spec c (ascii_of_nat 10)) as [->|Hc]; [constructor; [apply not_elem_of_nil|done]|].
  pose proof (split_lines_nonempty l). destruct (split_lines l) as [|x xs]; [done|].
  apply Forall_cons in IH as [Hx IH]. constructor; [|done]. rewrite not_elem_of_cons. split; [|done].
  intros He. by apply Hc.
Qed.
