(* ===== verification/LogOtelReconciler.v ===== *)
(** * The reconciler of LogPipelines with OTLP output
    (internal/reconciler/logpipeline/otel, internal/utils/logpipeline)

    validator.go, status.go and reconciler.go. The log agent's collaborators are the
    interface [LogAgents]. Logging is left out. [None] as the result of a
    reconciliation is a panic. *)
From stdpp Require Import base gmap strings list.
From S2P Require Import Prelude Kube GoErrors.
From S2P Require Import ApiV1beta1 SecretRef Lock Coordination Conditions CommonStatus SelfMonitor.
From S2P Require Import Endpoint TLSCert Validators PipelineMetrics Reconcile.
Local Open Scope string_scope.
Local Open Scope go_scope.

(** ** internal/utils/logpipeline *)

Inductive Mode := OTel | FluentBit.

#[export] Instance Mode_eq_dec : EqDecision Mode.
Proof. solve_decision. Defined.

Definition Mode_String (m : Mode) : string :=
  match m with OTel => "OTel" | FluentBit => "FluentBit" end.

Definition GetOutputType (t : LogPipeline) : Mode :=
  match lo_OTLP (ls_Output (lp_Spec t)) with Some _ => OTel | None => FluentBit end.

Definition LogPipeline_IsRuntimeInputEnabled (i : LogPipelineInput) : bool :=
  match li_Runtime i with Some r => deref (lri_Enabled r) true | None => false end.

(** ** The agent *)

Record LogAgentApplyOptions := mkLogAgentApplyOptions {
  lao_IstioEnabled : bool;
  lao_VpaCRDExists : bool;
  lao_VpaEnabled : bool;
  lao_VPAMaxAllowedMemory : Z;
  lao_CollectorConfigYAML : string;
  lao_CollectorEnvVars : gmap string string
}.

(** [log_Build] gets the pipelines, the cluster's UID and the VPA flag, its other
    options are read from the cluster; its result is the configuration, which
    [log_Marshal] renders, and the environment variables. *)
Class LogAgents (W : Type) := {
  log_config : Type;
  log_VpaCRDExists : W -> result bool goerror;
  log_IsIstioActive : W -> result bool goerror;
  log_GetClusterUID : W -> result string goerror;
  log_IsVpaEnabledInTelemetry : W -> bool;
  log_Build : W -> list LogPipeline -> string -> bool -> result (log_config * gmap string string) goerror;
  log_Marshal : log_config -> result string goerror;
  log_VPAMaxAllowedMemory : W -> Z;
  log_ApplyResources : W -> LogPipeline -> LogAgentApplyOptions -> W * option goerror;
  log_DeleteResources : W -> bool -> W * option goerror
}.

(** The two flow-health probers of the reconciler, each possibly nil. *)
Record FlowProbers (W : Type) := mkFlowProbers {
  fp_agent : option (W -> string -> result OTelAgentProbeResult goerror);
  fp_gateway : option (W -> string -> result OTelGatewayProbeResult goerror)
}.
Arguments mkFlowProbers {W} _ _.
Arguments fp_agent {W} _.
Arguments fp_gateway {W} _.

(** ** validator.go *)

Definition tlsValidationRequired (pipeline : LogPipeline) : bool :=
  match lo_OTLP (ls_Output (lp_Spec pipeline)) with
  | None => false
  | Some otlp =>
      match oo_TLS otlp with
      | None => false
      | Some tls => isSome (tls_Cert tls) || isSome (tls_Key tls) || isSome (tls_CA tls)
      end
  end.

(** ** status.go, the reasons *)

Definition requiresGatewayProbing (pipeline : LogPipeline) : bool :=
  isSome (li_OTLP (ls_Input (lp_Spec pipeline))).

Definition requiresAgentProbing (pipeline : LogPipeline) : bool :=
  isSome (li_Runtime (ls_Input (lp_Spec pipeline))).

Definition gatewayFlowHealthReasonFor (probeResult : OTelGatewayProbeResult) : string :=
  if pr_AllDataDropped (gp_Result probeResult) then ReasonSelfMonGatewayAllDataDropped
  else if pr_SomeDataDropped (gp_Result probeResult) then ReasonSelfMonGatewaySomeDataDropped
  else if gp_Throttling probeResult then ReasonSelfMonGatewayThrottling
  else ReasonSelfMonFlowHealthy.

Definition agentFlowHealthReasonFor (agentProbeResult : OTelAgentProbeResult) : string :=
  if pr_AllDataDropped (ap_Result agentProbeResult) then ReasonSelfMonAgentAllDataDropped
  else if pr_SomeDataDropped (ap_Result agentProbeResult) then ReasonSelfMonAgentSomeDataDropped
  else ReasonSelfMonFlowHealthy.

(** [combineFlowHealthReasons]: four loops over the two reasons. *)
Definition combineFlowHealthReasons (agentReason gatewayReason : string) : string :=
  let reasons := [agentReason; gatewayReason] in
  let first (wanted : list string) := List.find (fun r => existsb (str_eqb r) wanted) reasons in
  match first [ReasonSelfMonAgentAllDataDropped; ReasonSelfMonGatewayAllDataDropped] with
  | Some reason => reason
  | None =>
      match first [ReasonSelfMonAgentSomeDataDropped; ReasonSelfMonGatewaySomeDataDropped] with
      | Some reason => reason
      | None =>
          match first [ReasonSelfMonAgentBufferFillingUp] with
          | Some reason => reason
          | None =>
              match first [ReasonSelfMonGatewayThrottling] with
              | Some reason => reason
              | None => ReasonSelfMonFlowHealthy
              end
          end
      end
  end.

(** ** reconciler.go, which pipelines need an agent *)

Definition isLogAgentRequired (pipeline : LogPipeline) : bool :=
  match li_Runtime (ls_Input (lp_Spec pipeline)) with
  | Some r => match lri_Enabled r with Some b => b | None => false end
  | None => false
  end.

Definition getPipelinesRequiringAgents (allPipelines : list LogPipeline) : list LogPipeline :=
  List.filter isLogAgentRequired allPipelines.

Section LogOtel.
Context {W : Type} `{PipelineValidators W LogPipeline} `{PipelineCluster W LogPipeline}.
Context `{LogAgents W} `{ConfigMapClient W} `{GatewayYAML} `{OwnerSetter}.
Context `{StatusSetter} `{StatusRemover} (probers : FlowProbers W).

(** [GetPipelinesForType(ctx, client, mode)] *)
Definition GetPipelinesForType (w : W) (mode : Mode) : result (list LogPipeline) goerror :=
  match pl_list w with
  | Err e => Err (Wrapf "failed to get all log pipelines while syncing Fluent Bit ConfigMaps: " (ApiError e) "")
  | Ok ps => Ok (List.filter (fun lp => bool_decide (GetOutputType lp = mode)) ps)
  end.

Definition endpoint_check (w : W) (pipeline : LogPipeline) : option goerror :=
  match lo_OTLP (ls_Output (lp_Spec pipeline)) with
  | None => None
  | Some otlp =>
      let oauth2 := match oo_Authentication otlp with Some a => ao_OAuth2 a | None => None end in
      EndpointValidator w (mkEndpointParams (Some (oo_Endpoint otlp)) (oo_Protocol otlp) (oo_TLS otlp) oauth2)
  end.

Definition tls_check (w : W) (pipeline : LogPipeline) : option goerror :=
  if tlsValidationRequired pipeline then
    match lo_OTLP (ls_Output (lp_Spec pipeline)) ≫= oo_TLS with
    | Some tls => TLSCertValidator w (mkTLSParams (tls_Cert tls) (tls_Key tls) (tls_CA tls))
    | None => None
    end
  else None.

(** [(v *Validator) Validate(ctx, pipeline)] *)
Definition Validate (w : W) (pipeline : LogPipeline) : option goerror :=
  SecretRefValidator w pipeline ?;;
  endpoint_check w pipeline ?;;
  tls_check w pipeline ?;;
  PipelineLock_IsLockHolder w pipeline ?;;
  TransformSpecValidator (ls_Transforms (lp_Spec pipeline)) ?;;
  FilterSpecValidator (ls_Filters (lp_Spec pipeline)) ?;;
  None.

(** ** status.go *)

Definition evaluateConfigGeneratedCondition (w : W) (pipeline : LogPipeline) :
    ConditionStatus * string * option string :=
  match Validate w pipeline with
  | None => (ConditionTrue, ReasonGatewayConfigured, Some (MessageForOtelLogPipeline ReasonGatewayConfigured))
  | Some err =>
      if errors_is err ErrMaxPipelinesExceeded then
        (ConditionFalse, ReasonMaxPipelinesExceeded, ConvertErrToMsg err)
      else if is_secret_ref_missing err then
        (ConditionFalse, ReasonReferencedSecretMissing, ConvertErrToMsg err)
      else if IsEndpointInvalidError err then
        (ConditionFalse, ReasonEndpointInvalid,
         Some (Sprintf (MessageForOtelLogPipeline ReasonEndpointInvalid) [Error err]))
      else if IsInvalidOTTLSpecError err then
        (ConditionFalse, ReasonOTTLSpecInvalid,
         Some (Sprintf (MessageForOtelLogPipeline ReasonOTTLSpecInvalid) [Error err]))
      else if isSome (errors_as as_api_request_failed err) then
        (ConditionFalse, ReasonValidationFailed, Some (MessageForOtelLogPipeline ReasonValidationFailed))
      else
        let '(s, r, m) := EvaluateTLSCertCondition err in (s, r, Some m)
  end.

(** The reason of one prober: empty when it is not consulted. *)
Definition agent_reason (w : W) (pipeline : LogPipeline) : result string goerror :=
  match fp_agent probers with
  | Some probe =>
      if requiresAgentProbing pipeline then
        match probe w (om_Name (lp_ObjectMeta pipeline)) with
        | Err e => Err e
        | Ok r => Ok (agentFlowHealthReasonFor r)
        end
      else Ok ""
  | None => Ok ""
  end.

Definition gateway_reason (w : W) (pipeline : LogPipeline) : result string goerror :=
  match fp_gateway probers with
  | Some probe =>
      if requiresGatewayProbing pipeline then
        match probe w (om_Name (lp_ObjectMeta pipeline)) with
        | Err e => Err e
        | Ok r => Ok (gatewayFlowHealthReasonFor r)
        end
      else Ok ""
  | None => Ok ""
  end.

Definition evaluateFlowHealthCondition (w : W) (pipeline : LogPipeline) :
    ConditionStatus * string * option goerror :=
  let '(configGeneratedStatus, _, _) := evaluateConfigGeneratedCondition w pipeline in
  if bool_decide (configGeneratedStatus = ConditionFalse) then
    (ConditionFalse, ReasonSelfMonConfigNotGenerated, None)
  else
    match agent_reason w pipeline with
    | Err e => (ConditionUnknown, ReasonSelfMonAgentProbingFailed,
                Some (Wrapf "failed to probe agent flow health: " e ""))
    | Ok agentReason =>
        match gateway_reason w pipeline with
        | Err e => (ConditionUnknown, ReasonSelfMonGatewayProbingFailed,
                    Some (Wrapf "failed to probe gateway flow health: " e ""))
        | Ok gatewayReason =>
            let reason := combineFlowHealthReasons agentReason gatewayReason in
            if str_eqb reason ReasonSelfMonFlowHealthy then (ConditionTrue, reason, None)
            else (ConditionFalse, reason, None)
        end
    end.

Definition with_conditions (pipeline : LogPipeline) (cs : list Condition) : LogPipeline :=
  mkLogPipeline (lp_ObjectMeta pipeline) (lp_Spec pipeline)
    (mkLogStatus cs (lst_UnsupportedMode (lp_Status pipeline))).

Definition set_condition (pipeline : LogPipeline) (c : Condition) : LogPipeline :=
  with_conditions pipeline (SetStatusCondition (lst_Conditions (lp_Status pipeline)) c).

Definition setGatewayHealthyCondition (w : W) (pipeline : LogPipeline) : option LogPipeline :=
  match li_OTLP (ls_Input (lp_Spec pipeline)) with
  | None =>
      Some (with_conditions pipeline
              (RemoveStatusCondition (lst_Conditions (lp_Status pipeline)) TypeGatewayHealthy))
  | Some _ =>
      let '(configStatus, _, _) := evaluateConfigGeneratedCondition w pipeline in
      (fun c => set_condition pipeline (with_generation c (om_Generation (lp_ObjectMeta pipeline))))
        <$> GetGatewayHealthyCondition (gatewayProber w) SignalTypeLog configStatus
  end.

Definition setGatewayConfigGeneratedCondition (w : W) (pipeline : LogPipeline) : option LogPipeline :=
  let '(status, reason, message) := evaluateConfigGeneratedCondition w pipeline in
  (fun m => set_condition pipeline (mkCondition TypeConfigurationGenerated status reason m
                                      (om_Generation (lp_ObjectMeta pipeline)))) <$> message.

Definition setAgentHealthyCondition (w : W) (pipeline : LogPipeline) : option LogPipeline :=
  let condition :=
    if isLogAgentRequired pipeline then GetAgentHealthyCondition (agentProber w) SignalTypeLog
    else Some (mkCondition TypeAgentHealthy ConditionTrue ReasonLogAgentNotRequired
                 (MessageForOtelLogPipeline ReasonLogAgentNotRequired) 0) in
  (fun c => set_condition pipeline (with_generation c (om_Generation (lp_ObjectMeta pipeline)))) <$> condition.

Definition setFlowHealthCondition (w : W) (pipeline : LogPipeline) : LogPipeline * option goerror :=
  let '(status, reason, err) := evaluateFlowHealthCondition w pipeline in
  (set_condition pipeline (mkCondition TypeFlowHealthy status reason (MessageForOtelLogPipeline reason)
                             (om_Generation (lp_ObjectMeta pipeline))), err).

(** [(r *Reconciler) updateStatus(ctx, pipelineName)] *)
Definition updateStatus (w : W) (pipelineName : string) : option (W * option goerror) :=
  match pl_get w pipelineName with
  | Err e =>
      if IsNotFound e then Some (w, None)
      else Some (w, Some (Wrapf "failed to get LogPipeline: " (ApiError e) ""))
  | Ok pipeline =>
      if om_Deleted (lp_ObjectMeta pipeline) then Some (w, None)
      else
        pipeline ← setGatewayHealthyCondition w pipeline;
        pipeline ← setGatewayConfigGeneratedCondition w pipeline;
        pipeline ← setAgentHealthyCondition w pipeline;
        let '(pipeline, err) := setFlowHealthCondition w pipeline in
        let allErrors := match err with None => None | Some e => errors_join None e end in
        let '(w', uerr) := pl_status_update w pipeline in
        Some (w', join_if allErrors "failed to update LogPipeline status: " (ApiError <$> uerr))
  end.

(** ** reconciler.go *)

Definition isReconcilable (w : W) (pipeline : LogPipeline) : result bool goerror :=
  if om_Deleted (lp_ObjectMeta pipeline) then Ok false
  else reconcilable_of (Validate w pipeline).

Fixpoint getReconcilablePipelines (w : W) (allPipelines : list LogPipeline) :
    result (list LogPipeline) goerror :=
  match allPipelines with
  | [] => Ok []
  | p :: rest =>
      match isReconcilable w p with
      | Err e => Err e
      | Ok b =>
          match getReconcilablePipelines w rest with
          | Err e => Err e
          | Ok ps => Ok (if b then p :: ps else ps)
          end
      end
  end.

Definition getEndpoint (w : W) (pipeline : LogPipeline) : option string :=
  match lo_OTLP (ls_Output (lp_Spec pipeline)) with
  | None => Some ""
  | Some otlp => @resolve_endpoint (pl_secrets w) (oo_Endpoint otlp)
  end.

(** [trackPipelineInfoMetric]: the label values recorded. *)
Definition trackPipelineInfoMetric (w : W) (pipelines : list LogPipeline) : option (list (list string)) :=
  record_all (fun pipeline =>
    let input := ls_Input (lp_Spec pipeline) in
    let features :=
      (feature (IsOTLPInputEnabled (li_OTLP input)) FeatureInputOTLP ++
       feature (IsTransformDefined (ls_Transforms (lp_Spec pipeline))) FeatureTransform ++
       feature (IsFilterDefined (ls_Filters (lp_Spec pipeline))) FeatureFilter ++
       feature (LogPipeline_IsRuntimeInputEnabled input) FeatureInputRuntime)%list in
    endpoint ← getEndpoint w pipeline;
    Some (RecordLogPipelineInfo (om_Name (lp_ObjectMeta pipeline)) endpoint features)) pipelines.

Definition reconcileAgent (w : W) (pipeline : LogPipeline) (allPipelines : list LogPipeline) :
    W * option goerror :=
  match log_GetClusterUID w with
  | Err e => (w, Some (Wrapf "failed to get kube-system namespace for cluster UID: " e ""))
  | Ok clusterUID =>
      match log_VpaCRDExists w with
      | Err e => (w, Some (Wrapf "failed to check VPA status: " e ""))
      | Ok vpaCRDExists =>
          let isVpaEnabled := log_IsVpaEnabledInTelemetry w in
          match log_Build w allPipelines clusterUID (vpaCRDExists && isVpaEnabled) with
          | Err e => (w, Some (Wrapf "failed to build agent config: " e ""))
          | Ok (agentConfig, envVars) =>
              match log_Marshal agentConfig with
              | Err e => (w, Some (Wrapf "failed to marshal agent config: " e ""))
              | Ok agentConfigYAML =>
                  match log_IsIstioActive w with
                  | Err e => (w, Some (Wrapf "failed to check Istio status: " e ""))
                  | Ok isIstioActive =>
                      let '(w', err) :=
                        log_ApplyResources w pipeline
                          (mkLogAgentApplyOptions isIstioActive vpaCRDExists isVpaEnabled
                             (log_VPAMaxAllowedMemory w) agentConfigYAML envVars) in
                      (w', (fun e => Wrapf "failed to apply agent resources: " e "") <$> err)
                  end
              end
          end
      end
  end.

(** The part of [doReconcile] after the reference of the pipeline was written. *)
Definition reconcile_agents (w : W) (pipeline : LogPipeline) (allPipelines : list LogPipeline) :
    W * option goerror :=
  match getReconcilablePipelines w allPipelines with
  | Err e => (w, Some (Wrapf "failed to fetch deployable log pipelines: " e ""))
  | Ok reconcilablePipelines =>
      match getPipelinesRequiringAgents reconcilablePipelines with
      | [] =>
          match log_VpaCRDExists w with
          | Err e => (w, Some (Wrapf "failed to check VPA status: " e ""))
          | Ok vpaCRDExists =>
              let '(w', err) := log_DeleteResources w vpaCRDExists in
              (w', (fun e => Wrapf "failed to delete agent resources: " e "") <$> err)
          end
      | requiring =>
          let '(w', err) := reconcileAgent w pipeline requiring in
          (w', (fun e => Wrapf "failed to reconcile Log Agent: " e "") <$> err)
      end
  end.

(** [(r *Reconciler) doReconcile(ctx, pipeline)] *)
Definition doReconcile (r : ReconcilerConfig) (w : W) (pipeline : LogPipeline) :
    option (W * option goerror) :=
  match TryAcquireLock (rc_pipelineLock r) w (owner_of (lp_ObjectMeta pipeline)) with
  | (w, Some err) =>
      Some (w, if errors_is err ErrMaxPipelinesExceeded then None
               else Some (Wrapf "failed to acquire lock: " err ""))
  | (w, None) =>
      match GetPipelinesForType w OTel with
      | Err e => Some (w, Some e)
      | Ok allPipelines =>
          _ ← trackPipelineInfoMetric w allPipelines;
          match isReconcilable w pipeline with
          | Err e => Some (w, Some (Wrapf "failed to validate pipeline: " e ""))
          | Ok true =>
              match @CollectSecretVersions (pl_secrets w) (GetSecretRefsLogPipeline pipeline) with
              | Err e => Some (w, Some (Wrapf "failed to collect secret versions: " e ""))
              | Ok secretVersions =>
                  match AddPipelineReference w (rc_TargetNamespace r) SignalTypeLog
                          (mkPipelineReference (om_Name (lp_ObjectMeta pipeline))
                             (om_Generation (lp_ObjectMeta pipeline)) (Some secretVersions)) with
                  | (w, Some e) => Some (w, Some (Wrapf "failed to write pipeline reference to ConfigMap: " e ""))
                  | (w, None) => Some (reconcile_agents w pipeline allPipelines)
                  end
              end
          | Ok false =>
              match RemovePipelineReference w (rc_TargetNamespace r) SignalTypeLog
                      (om_Name (lp_ObjectMeta pipeline)) with
              | (w, Some e) =>
                  Some (w, Some (Wrapf "failed to remove pipeline reference from OTLP Gateway Coordination ConfigMap: " e ""))
              | (w, None) => Some (reconcile_agents w pipeline allPipelines)
              end
          end
      end
  end.

Definition calculateRequeueAfterDuration (w : W) (pipeline : LogPipeline) : option Z :=
  match Validate w pipeline with
  | None => None
  | Some err => (fun p => time_sub p.1 (time_now w)) <$> errors_as as_cert_about_to_expire err
  end.

(** [(r *Reconciler) Reconcile(ctx, pipeline)] *)
Definition Reconcile (r : ReconcilerConfig) (w : W) (pipeline : LogPipeline) :
    option (W * result ctrl_Result goerror) :=
  rec ← doReconcile r w pipeline;
  let '(w, err1) := rec in
  let allErrors := join_if None "failed to reconcile: " err1 in
  upd ← updateStatus w (om_Name (lp_ObjectMeta pipeline));
  let '(w, err2) := upd in
  let allErrors := join_if allErrors "failed to update status: " err2 in
  match allErrors with
  | Some e => Some (w, Err e)
  | None => Some (w, Ok (mkResult (calculateRequeueAfterDuration w pipeline)))
  end.

End LogOtel.
