(* ===== verification/LogOtelReconcilerProps.v ===== *)
(** * Properties of the reconciler of LogPipelines with OTLP output

    The reported condition agrees with the reconciliation, a reconciliation publishes
    exactly the pipelines it accepts and deploys the agent for exactly those that
    need it, and the flow health reports the worst finding of the two probers. *)
From stdpp Require Import base gmap strings list.
From S2P Require Import Prelude Kube GoErrors.
From S2P Require Import ApiV1beta1 SecretRef Lock Coordination CoordinationProps.
From S2P Require Import Conditions CommonStatus SelfMonitor Endpoint TLSCert Validators PipelineMetrics.
From S2P Require Import Reconcile SampleCluster LogOtelReconciler.
Local Open Scope string_scope.

Section Validation.
Context {W : Type} `{PipelineValidatorLaws W LogPipeline}.

Definition log_checks (w : W) (p : LogPipeline) : list (option goerror) :=
  [SecretRefValidator w p; endpoint_check w p; tls_check w p; PipelineLock_IsLockHolder w p;
   TransformSpecValidator (ls_Transforms (lp_Spec p)); FilterSpecValidator (ls_Filters (lp_Spec p))].

Lemma log_validate_checks w p : Validate w p = first_error (log_checks w p).
Proof. done. Qed.

Lemma log_endpoint_check_err w p e : endpoint_check w p = Some e -> is_endpoint_invalid e.
Proof. unfold endpoint_check. case_match; [|done]. apply EndpointValidator_err. Qed.

Lemma log_tls_check_err w p e : tls_check w p = Some e -> is_tls_error e.
Proof. unfold tls_check. case_match; [|done]. case_match; [|done]. apply TLSCertValidator_err. Qed.

Lemma log_validate_error w p e : Validate w p = Some e -> validation_error e.
Proof.
  rewrite log_validate_checks. intros (i & Hi & _)%first_error_some. unfold log_checks in Hi.
  destruct i as [|[|[|[|[|[|i]]]]]]; simpl in Hi; simplify_eq.
  - destruct (SecretRefValidator_err _ _ _ Hi); by constructor.
  - eapply ve_endpoint, log_endpoint_check_err, Hi.
  - eapply ve_tls, log_tls_check_err, Hi.
  - destruct (IsLockHolder_err _ _ _ Hi) as [->|?]; by constructor.
  - eapply ve_ottl, TransformSpecValidator_err, Hi.
  - eapply ve_ottl, FilterSpecValidator_err, Hi.
Qed.

(** The ConfigurationGenerated condition of an OTel LogPipeline not in deletion tells what
    the reconciler does, as for the other kinds. *)
Lemma log_condition_agrees_with_reconciliation w p :
  om_Deleted (lp_ObjectMeta p) = false ->
  let '(status, reason, message) := evaluateConfigGeneratedCondition w p in
  (status = ConditionTrue <-> isReconcilable w p = Ok true) /\
  (status = ConditionFalse <-> isReconcilable w p <> Ok true) /\
  (reason = ReasonValidationFailed <-> exists e, isReconcilable w p = Err e) /\
  is_Some message.
Proof.
  intros Hd. change (evaluateConfigGeneratedCondition w p)
    with (config_condition MessageForOtelLogPipeline (Validate w p)).
  unfold isReconcilable. rewrite Hd. apply config_condition_agrees, log_validate_error.
Qed.

End Validation.

(** ** Agents *)

Section Agents.
Context {W : Type} `{PipelineValidators W LogPipeline} `{LogAgents W}.

Definition log_accepted (w : W) (p : LogPipeline) : bool :=
  match isReconcilable w p with Ok b => b | Err _ => false end.

Lemma log_reconcilable_filter w all ps :
  getReconcilablePipelines w all = Ok ps -> ps = List.filter (log_accepted w) all.
Proof.
  revert ps. induction all as [|p all IH]; intros ps; simpl; [by intros [= <-]|].
  unfold log_accepted at 1. destruct (isReconcilable w p) as [b|]; [|done].
  destruct (getReconcilablePipelines w all) as [qs|]; [|done]. intros [= <-].
  rewrite <- (IH qs eq_refl). by destruct b.
Qed.

Lemma reconcileAgent_ok w p ps w' :
  reconcileAgent w p ps = (w', None) ->
  exists uid vpa config env yaml istio,
    log_Build w ps uid (vpa && log_IsVpaEnabledInTelemetry w) = Ok (config, env) /\
    log_Marshal config = Ok yaml /\
    log_ApplyResources w p (mkLogAgentApplyOptions istio vpa (log_IsVpaEnabledInTelemetry w)
                              (log_VPAMaxAllowedMemory w) yaml env) = (w', None).
Proof.
  unfold reconcileAgent. intros Hr.
  destruct (log_GetClusterUID w) as [uid|]; [|done]. destruct (log_VpaCRDExists w) as [vpa|]; [|done].
  destruct (log_Build _ _ _ _) as [[config env]|] eqn:Hb; [|done].
  destruct (log_Marshal config) as [yaml|] eqn:Hm; [|done]. destruct (log_IsIstioActive w) as [istio|]; [|done].
  destruct (log_ApplyResources _ _ _) as [w2 [e|]] eqn:Ha; simplify_eq/=.
  exists uid, vpa, config, env, yaml, istio. done.
Qed.

(** A successful reconciliation of the log agents applied a configuration built from exactly
    the accepted pipelines that need an agent, in list order, or deleted the agents when there is none. *)
Lemma log_agents_exact w p all w' :
  reconcile_agents w p all = (w', None) ->
  match List.filter (fun q => log_accepted w q && isLogAgentRequired q) all with
  | [] => exists vpa, log_VpaCRDExists w = Ok vpa /\ log_DeleteResources w vpa = (w', None)
  | wanted =>
      exists uid vpa config env yaml istio,
        log_Build w wanted uid (vpa && log_IsVpaEnabledInTelemetry w) = Ok (config, env) /\
        log_Marshal config = Ok yaml /\
        log_ApplyResources w p (mkLogAgentApplyOptions istio vpa (log_IsVpaEnabledInTelemetry w)
                                  (log_VPAMaxAllowedMemory w) yaml env) = (w', None)
  end.
Proof.
  unfold reconcile_agents. intros Hr.
  destruct (getReconcilablePipelines w all) as [ps|] eqn:Hps; [|done].
  apply log_reconcilable_filter in Hps as ->.
  unfold getPipelinesRequiringAgents in Hr. rewrite list_filter_filter in Hr.
  destruct (List.filter _ all) as [|q qs].
  - destruct (log_VpaCRDExists w) as [vpa|]; [|done]. exists vpa. split; [done|].
    destruct (log_DeleteResources w vpa) as [w2 [e|]]; by simplify_eq/=.
  - apply reconcileAgent_ok. destruct (reconcileAgent w p (q :: qs)) as [w2 [e|]]; by simplify_eq/=.
Qed.

End Agents.

(** ** Publishing *)

(** The agent's resources are not the coordination ConfigMap. *)
Class LogAgentsLaws (W : Type) `{LogAgents W} `{ConfigMapClient W} (ns : string) := {
  log_apply_frame (w : W) p o w' e : log_ApplyResources w p o = (w', e) ->
    cm_get w' (coordination_key ns) = cm_get w (coordination_key ns);
  log_delete_frame (w : W) b w' e : log_DeleteResources w b = (w', e) ->
    cm_get w' (coordination_key ns) = cm_get w (coordination_key ns)
}.

Section Publish.
Context {W : Type} `{PipelineValidators W LogPipeline} `{PipelineCluster W LogPipeline}.
Context `{LogAgents W} `{ConfigMapLaws W} `{GatewayYAMLLaws} `{OwnerSetterLaws}.
Context (r : ReconcilerConfig) `{!LogAgentsLaws W (rc_TargetNamespace r)}.

Lemma log_agents_frame (w : W) p all w' e :
  reconcile_agents w p all = (w', e) ->
  cm_get w' (coordination_key (rc_TargetNamespace r)) = cm_get w (coordination_key (rc_TargetNamespace r)).
Proof.
  unfold reconcile_agents, reconcileAgent. intros Hr.
  destruct (getReconcilablePipelines w all); [|congruence].
  destruct (getPipelinesRequiringAgents _).
  - destruct (log_VpaCRDExists w) as [vpa|]; [|congruence].
    destruct (log_DeleteResources w vpa) as [w2 [e2|]] eqn:Hd; simplify_eq/=; by eapply log_delete_frame.
  - destruct (log_GetClusterUID w); [|congruence]. destruct (log_VpaCRDExists w); [|congruence].
    destruct (log_Build _ _ _ _) as [[? ?]|]; [|congruence]. destruct (log_Marshal _); [|congruence].
    destruct (log_IsIstioActive w); [|congruence].
    destruct (log_ApplyResources _ _ _) as [w2 [e2|]] eqn:Ha; simplify_eq/=; by eapply log_apply_frame.
Qed.

(** A successful doReconcile of an OTel LogPipeline publishes the pipeline in
    the coordination ConfigMap exactly as decided (entry with generation and
    Secret versions, or no entry, everything else unchanged) and then reconciles
    the log agents for the OTel pipelines of the cluster; a refused lock changes
    nothing else. *)
Theorem log_doReconcile_publishes (w : W) p w' c :
  ck_lockName (rc_pipelineLock r) <> coordination_key (rc_TargetNamespace r) ->
  ReadOTLPGatewayConfig w (rc_TargetNamespace r) = Ok c -> config_wf c ->
  doReconcile r w p = Some (w', None) ->
  let '(w1, acquired) := TryAcquireLock (rc_pipelineLock r) w (owner_of (lp_ObjectMeta p)) in
  match acquired with
  | Some err => errors_is err ErrMaxPipelinesExceeded = true /\ w' = w1
  | None =>
      exists reconcilable x c' w2 all,
        isReconcilable w1 p = Ok reconcilable /\
        ReadOTLPGatewayConfig w' (rc_TargetNamespace r) = Ok c' /\ config_wf c' /\
        publishes c c' SignalTypeLog (om_Name (lp_ObjectMeta p)) x /\
        (if reconcilable then
           exists versions,
             @CollectSecretVersions (pl_secrets w1) (GetSecretRefsLogPipeline p) = Ok versions /\
             x = Some (om_Generation (lp_ObjectMeta p), versions)
         else x = None) /\
        GetPipelinesForType w1 OTel = Ok all /\ reconcile_agents w2 p all = (w', None)
  end.
Proof.
  intros Hkey Hc Hwf. unfold doReconcile.
  destruct (TryAcquireLock _ w _) as [w1 [err|]] eqn:Hl.
  { intros [= <- Herr]. split; [by destruct (errors_is err _)|done]. }
  assert (Hc1 : ReadOTLPGatewayConfig w1 (rc_TargetNamespace r) = Ok c).
  { rewrite <- Hc. apply ReadOTLPGatewayConfig_frame. eapply TryAcquireLock_frame; [done|]. congruence. }
  destruct (GetPipelinesForType w1 OTel) as [all|] eqn:Hall; [|done].
  destruct (trackPipelineInfoMetric w1 all); [|done]. cbn [mbind option_bind].
  destruct (isReconcilable w1 p) as [[]|]; [| |done].
  - destruct (@CollectSecretVersions _ _) as [versions|] eqn:Hcv; [|done].
    destruct (AddPipelineReference _ _ _ _) as [w2 [e2|]] eqn:Ha; simpl; [done|]. intros [= Hag].
    destruct (AddPipelineReference_publishes _ _ _ _ _ _ _ _ Hc1 Hwf Ha) as (c' & Hr & Hwf' & Hp).
    exists true, (Some (om_Generation (lp_ObjectMeta p), versions)), c', w2, all.
    split; [done|]. split; [|split; [done|split; [done|split; [by exists versions|done]]]].
    rewrite <- Hr. apply ReadOTLPGatewayConfig_frame. by eapply log_agents_frame.
  - destruct (RemovePipelineReference _ _ _ _) as [w2 [e2|]] eqn:Ha; simpl; [done|]. intros [= Hag].
    destruct (RemovePipelineReference_publishes _ _ _ _ _ _ Hc1 Hwf Ha) as (c' & Hr & Hwf' & Hp).
    exists false, None, c', w2, all. split; [done|]. split; [|done].
    rewrite <- Hr. apply ReadOTLPGatewayConfig_frame. by eapply log_agents_frame.
Qed.

End Publish.

(** ** Flow health *)

(** How bad a reason is. *)
Definition severity (reason : string) : nat :=
  if existsb (str_eqb reason) [ReasonSelfMonAgentAllDataDropped; ReasonSelfMonGatewayAllDataDropped] then 4
  else if existsb (str_eqb reason) [ReasonSelfMonAgentSomeDataDropped; ReasonSelfMonGatewaySomeDataDropped] then 3
  else if existsb (str_eqb reason) [ReasonSelfMonAgentBufferFillingUp] then 2
  else if existsb (str_eqb reason) [ReasonSelfMonGatewayThrottling] then 1
  else 0.

(** The worse of two reasons, the first if they are equally bad. *)
Lemma combine_worst a g :
  combineFlowHealthReasons a g =
    (if (severity a =? 0)%nat && (severity g =? 0)%nat then ReasonSelfMonFlowHealthy
     else if (severity g <=? severity a)%nat then a else g).
Proof.
  unfold combineFlowHealthReasons, severity. cbn [List.find].
  repeat match goal with |- context [existsb (str_eqb ?x) ?l] =>
    destruct (existsb (str_eqb x) l) end; reflexivity.
Qed.

Lemma severity_healthy : severity ReasonSelfMonFlowHealthy = 0.
Proof. reflexivity. Qed.

Lemma combine_severity a g : severity (combineFlowHealthReasons a g) = Nat.max (severity a) (severity g).
Proof.
  rewrite combine_worst. destruct (severity a =? 0)%nat eqn:Ea, (severity g =? 0)%nat eqn:Eg,
    (severity g <=? severity a)%nat eqn:El; simpl;
    rewrite ?Nat.eqb_eq, ?Nat.eqb_neq, ?Nat.leb_le, ?Nat.leb_gt in *; rewrite ?severity_healthy; lia.
Qed.

Lemma combine_healthy a g :
  str_eqb (combineFlowHealthReasons a g) ReasonSelfMonFlowHealthy = true <-> severity a = 0 /\ severity g = 0.
Proof.
  rewrite str_eqb_true. split.
  - intros Hc. pose proof (combine_severity a g) as Hs. rewrite Hc, severity_healthy in Hs. lia.
  - intros [Ha Hg]. by rewrite combine_worst, Ha, Hg.
Qed.

Lemma combine_one_of a g :
  combineFlowHealthReasons a g <> ReasonSelfMonFlowHealthy ->
  combineFlowHealthReasons a g = a \/ combineFlowHealthReasons a g = g.
Proof. rewrite combine_worst. destruct (_ && _); [done|]. destruct (_ <=? _)%nat; eauto. Qed.

Section FlowHealth.
Context {W : Type} `{PipelineValidators W LogPipeline} `{PipelineCluster W LogPipeline}.
Context (probers : FlowProbers W).

(** The flow health of an OTel LogPipeline is that of its worse component: with
    both probes answered, the reason has the larger of the two severities, it is
    one of the two reasons unless healthy, and the condition is True exactly
    when both are healthy; the condition is Unknown exactly when a probe failed,
    and a rejected configuration is never reported as flowing. *)
Theorem log_flow_health_worst (w : W) p :
  let '(config, _, _) := evaluateConfigGeneratedCondition w p in
  let '(status, reason, err) := evaluateFlowHealthCondition probers w p in
  (config = ConditionFalse -> status = ConditionFalse /\ reason = ReasonSelfMonConfigNotGenerated /\ err = None) /\
  (status = ConditionUnknown <-> is_Some err) /\
  (config <> ConditionFalse -> forall a g,
     agent_reason probers w p = Ok a -> gateway_reason probers w p = Ok g ->
     err = None /\ (status = ConditionTrue <-> severity a = 0 /\ severity g = 0) /\
     severity reason = Nat.max (severity a) (severity g) /\
     (status = ConditionFalse -> reason = a \/ reason = g)).
Proof.
  unfold evaluateFlowHealthCondition.
  destruct (evaluateConfigGeneratedCondition w p) as [[config creason] cmsg].
  case_bool_decide as Hc; [by split; [|split; [split; [|intros [? ?]]|]]|].
  destruct (agent_reason probers w p) as [a|e]; [|by split; [|split; [split; eauto|]]].
  destruct (gateway_reason probers w p) as [g|e]; [|by split; [|split; [split; eauto|]]].
  pose proof (combine_healthy a g) as Hh. pose proof (combine_severity a g) as Hs.
  destruct (str_eqb _ _) eqn:He; (split; [done|split; [by split; [|intros [? ?]]|]]);
    intros _ a' g' [= <-] [= <-]; (split; [done|split; [|split; [done|]]]); try done.
  - by split; [intros _; apply Hh|].
  - split; [done|]. intros Hz. by apply Hh in Hz.
  - intros _. apply combine_one_of. by apply str_eqb_false.
Qed.

End FlowHealth.

(** ** Concrete runs *)

Module Sample.

Abbreviation world := (cluster LogPipeline).
Definition name_of (p : LogPipeline) : string := om_Name (lp_ObjectMeta p).

#[global] Instance log_validators : PipelineValidators world LogPipeline := sample_validators None None None.
#[global] Instance log_validator_laws : PipelineValidatorLaws world LogPipeline.
Proof. by apply sample_validator_laws. Qed.
#[global] Instance log_pipelines : PipelineCluster world LogPipeline := sample_cluster name_of.

#[global] Instance log_agents : LogAgents world := {|
  log_config := string;
  log_VpaCRDExists _ := Ok false;
  log_IsIstioActive _ := Ok false;
  log_GetClusterUID _ := Ok "uid";
  log_IsVpaEnabledInTelemetry _ := false;
  log_Build _ _ _ _ := Ok ("config", ∅);
  log_Marshal c := Ok c;
  log_VPAMaxAllowedMemory _ := 0%Z;
  log_ApplyResources w _ _ := (w, None);
  log_DeleteResources w _ := (w, None)
|}.

#[global] Instance log_agents_laws ns : LogAgentsLaws world ns.
Proof. by constructor; simpl; intros; simplify_eq. Qed.

Definition output : OTLPOutput :=
  mkOTLPOutput "grpc" (mkValueType "https://backend:4317" None) "" None None None "".

Definition pipeline_of (deleted : bool) : LogPipeline :=
  mkLogPipeline (mkMeta "backend" "uid-1" 2 None deleted)
    (mkLogSpec (mkLogInput (Some (mkLogRuntimeInput (Some true) None None None None None)) None) None
       (mkLogOutput "" None (Some output)) None None None None) (mkLogStatus [] None).

Definition pipeline : LogPipeline := pipeline_of false.
Definition deleted : LogPipeline := pipeline_of true.

Definition config : ReconcilerConfig :=
  mkReconcilerConfig (NewLocker (mkNN "kyma-system" "telemetry-logpipeline") MaxPipelineCount)
    (NewSyncer (mkNN "kyma-system" "telemetry-logpipeline")) "kyma-system".

Definition world0 : world := mkCluster [] [pipeline].

End Sample.

Lemma log_condition_witness :
  (evaluateConfigGeneratedCondition Sample.world0 Sample.pipeline).1.1 = ConditionTrue.
Proof.
  pose proof (log_condition_agrees_with_reconciliation Sample.world0 Sample.pipeline eq_refl) as H.
  apply (proj1 H). vm_compute. reflexivity.
Defined.

Lemma log_agents_witness :
  exists w', reconcile_agents Sample.world0 Sample.pipeline [Sample.pipeline; Sample.deleted] = (w', None) /\
    exists uid vpa config env yaml istio,
      log_Build Sample.world0 [Sample.pipeline] uid (vpa && false) = Ok (config, env) /\
      log_Marshal config = Ok yaml /\
      log_ApplyResources Sample.world0 Sample.pipeline (mkLogAgentApplyOptions istio vpa false 0 yaml env)
        = (w', None).
Proof.
  exists Sample.world0.
  assert (H : reconcile_agents Sample.world0 Sample.pipeline [Sample.pipeline; Sample.deleted]
              = (Sample.world0, None)) by (vm_compute; reflexivity).
  split; [exact H|]. exact (log_agents_exact Sample.world0 Sample.pipeline _ _ H).
Defined.

Lemma log_publish_witness :
  exists w' c' x, doReconcile Sample.config Sample.world0 Sample.deleted = Some (w', None) /\
    ReadOTLPGatewayConfig w' "kyma-system" = Ok c' /\
    publishes empty_config c' SignalTypeLog "backend" x.
Proof.
  assert (Hk : ck_lockName (rc_pipelineLock Sample.config)
               <> coordination_key (rc_TargetNamespace Sample.config)) by (vm_compute; discriminate).
  assert (Hr : ReadOTLPGatewayConfig Sample.world0 (rc_TargetNamespace Sample.config) = Ok empty_config)
    by (vm_compute; reflexivity).
  assert (Hwf : config_wf empty_config) by (intros []; constructor).
  destruct (doReconcile Sample.config Sample.world0 Sample.deleted) as [[w' e]|] eqn:Hd;
    [|vm_compute in Hd; discriminate Hd].
  destruct e as [e|]; [vm_compute in Hd; discriminate Hd|].
  pose proof (log_doReconcile_publishes Sample.config Sample.world0 Sample.deleted w' empty_config
                Hk Hr Hwf Hd) as Hp.
  destruct (TryAcquireLock (rc_pipelineLock Sample.config) Sample.world0 (owner_of (lp_ObjectMeta Sample.deleted)))
    as [w1 a] eqn:Hl.
  destruct a as [err|]; [vm_compute in Hl; discriminate Hl|].
  destruct Hp as (b & x & c' & w2 & all & _ & Hc & _ & Hpub & _).
  exists w', c', x. split; [reflexivity|]. split; [exact Hc|exact Hpub].
Defined.
