(* ===== verification/FluentBitReconciler.v ===== *)
(** * The reconciler of LogPipelines with Fluent Bit output
    (internal/reconciler/logpipeline/fluentbit, internal/fluentbit/config,
    internal/utils/logpipeline)

    validator.go, status.go and reconciler.go. The validator acquires the pipeline
    lock itself, so that validating changes the cluster. Logging is left out. [None]
    as the result of a reconciliation is a panic. *)
From stdpp Require Import base gmap strings list.
From Stdlib Require Import Ascii.
From S2P Require Import Prelude Kube GoErrors Regex GoStrings.
From S2P Require Import ApiV1beta1 SecretRef Lock Coordination Conditions CommonStatus SelfMonitor.
From S2P Require Import Endpoint TLSCert Validators PipelineMetrics Reconcile LogOtelReconciler.
Local Open Scope string_scope.
Local Open Scope go_scope.

(** ** Custom sections (internal/fluentbit/config) *)

Record SectionParameter := mkParameter { par_Key : bytes; par_Value : bytes }.

Definition ContainsKey (p : list SectionParameter) (key : string) : bool :=
  existsb (fun param => bool_decide (par_Key param = to_bytes key)) p.

Definition GetByKey (p : list SectionParameter) (key : string) : option SectionParameter :=
  List.find (fun param => bool_decide (par_Key param = to_bytes key)) p.

(** The loop of [ParseCustomSection]: [params] are the parameters so far. *)
Fixpoint parse_lines (params : list SectionParameter) (lines : list bytes) : result (list SectionParameter) goerror :=
  match lines with
  | [] => Ok params
  | line :: rest =>
      let line := TrimSpace line in
      if (length line =? 0)%nat || prefixb (to_bytes "#") line then parse_lines params rest
      else
        match cut " "%char line with
        | None => Err (NewError ("invalid line: " +:+ of_bytes line))
        | Some (key, value) =>
            parse_lines (params ++ [mkParameter (ToLower (TrimSpace key)) (TrimSpace value)])%list rest
        end
  end.

Definition ParseCustomSection (section : string) : result (list SectionParameter) goerror :=
  parse_lines [] (split_lines (to_bytes section)).

(** ** internal/utils/logpipeline *)

Definition IsCustomOutputDefined (o : LogPipelineOutput) : bool := negb (str_eqb (lo_FluentBitCustom o) "").

Definition IsHTTPOutputDefined (o : LogPipelineOutput) : bool :=
  match lo_FluentBitHTTP o with Some h => IsValid (Some (ho_Host h)) | None => false end.

Definition IsVariablesDefined (v : slice FluentBitVariable) : bool := (0 <? slen v)%nat.
Definition IsFilesDefined (v : slice FluentBitFile) : bool := (0 <? slen v)%nat.

Definition IsCustomFilterDefined (filters : slice FluentBitFilter) : bool :=
  existsb (fun f => negb (str_eqb (fbf_Custom f) "")) (elems filters).

Definition ContainsCustomPlugin (lp : LogPipeline) : bool :=
  IsCustomOutputDefined (ls_Output (lp_Spec lp)) || IsCustomFilterDefined (ls_FluentBitFilters (lp_Spec lp)).

(** ** validator.go *)

Definition forbiddenFilters : list string := ["kubernetes"; "rewrite_tag"].

Definition alnum (c : ascii) : bool := in_range 97 122 c || in_range 65 90 c || in_range 48 57 c.
Definition alnum_dash (c : ascii) : bool := alnum c || Ascii.eqb c "-"%char.

(** One label of a host name. *)
Definition host_label : re :=
  RAlt (RClass alnum) (RSeq (RClass alnum) (RSeq (RStar (RClass alnum_dash)) (RClass alnum))).

Definition validHostNamePattern : re :=
  RSeq (RStar (RSeq host_label (RClass (fun c => Ascii.eqb c "."%char)))) host_label.

Definition isValidHostname (host : string) : bool :=
  re_match validHostNamePattern (TrimBlanks (to_bytes host)).

Definition fluentbit_tlsValidationRequired (pipeline : LogPipeline) : bool :=
  match lo_FluentBitHTTP (ls_Output (lp_Spec pipeline)) with
  | None => false
  | Some http => isSome (tls_Cert (ho_TLS http)) || isSome (tls_Key (ho_TLS http)) || isSome (tls_CA (ho_TLS http))
  end.

(** [uniqFileMap] is the set of the names. *)
Definition validateFileNames (logpipeline : LogPipeline) : option goerror :=
  let files := elems (ls_FluentBitFiles (lp_Spec logpipeline)) in
  let uniqFileMap : gset string := list_to_set (map fbfile_Name files) in
  if negb (size uniqFileMap =? length files)%nat
  then Some (NewError "duplicate file names detected please review your pipeline")
  else None.

Definition validateCustomFilter (content : string) : option goerror :=
  if str_eqb content "" then None
  else
    match ParseCustomSection content with
    | Err e => Some e
    | Ok section =>
        match GetByKey section "name" with
        | None => Some (NewError "custom filter configuration must have name attribute")
        | Some param =>
            let pluginName := par_Value param in
            if existsb (fun f => EqualFold pluginName (to_bytes f)) forbiddenFilters
            then Some (NewError ("custom filter plugin '" +:+ of_bytes pluginName +:+ "' is not supported. "))
            else if ContainsKey section "match"
            then Some (NewError ("custom filter plugin '" +:+ of_bytes pluginName
                                   +:+ "' contains match condition. Match conditions are forbidden"))
            else None
        end
    end.

Fixpoint validate_custom_filters (filters : list FluentBitFilter) : option goerror :=
  match filters with
  | [] => None
  | f :: rest => or_return (validateCustomFilter (fbf_Custom f)) (validate_custom_filters rest)
  end.

Definition validateFilters (lp : LogPipeline) : option goerror :=
  validate_custom_filters (elems (ls_FluentBitFilters (lp_Spec lp))).

Definition validateCustomOutput (content : string) : option goerror :=
  if str_eqb content "" then None
  else
    match ParseCustomSection content with
    | Err e => Some e
    | Ok section =>
        match GetByKey section "name" with
        | None => Some (NewError "custom output configuration section must have name attribute")
        | Some param =>
            let pluginName := of_bytes (par_Value param) in
            if ContainsKey section "match"
            then Some (NewError ("custom output plugin '" +:+ pluginName
                                   +:+ "' contains match condition. Match conditions are forbidden"))
            else if ContainsKey section "storage.total_limit_size"
            then Some (NewError ("custom output plugin '" +:+ pluginName
                                   +:+ "' contains forbidden configuration key 'storage.total_limit_size'"))
            else None
        end
    end.

(** The last check of [Validate]. *)
Definition hostname_check (pipeline : LogPipeline) : option goerror :=
  match lo_FluentBitHTTP (ls_Output (lp_Spec pipeline)) with
  | Some http =>
      if negb (str_eqb (vt_Value (ho_Host http)) "") && negb (isValidHostname (vt_Value (ho_Host http)))
      then Some (NewError ("invalid hostname '" +:+ vt_Value (ho_Host http) +:+ "'"))
      else None
  | None => None
  end.

(** ** The collaborators *)

(** The locks of the reconciler and of its validator, and the FIPS mode. *)
Record FluentBitConfig := mkFluentBitConfig {
  fc_pipelineLock : Checker;
  fc_validatorLock : Checker;
  fc_OperateInFIPSMode : bool
}.

(** [fb_Build] reads the cluster name from the cluster. *)
Class FluentBitAgents (W : Type) := {
  fb_config : Type;
  fb_Build : W -> list LogPipeline -> result fb_config goerror;
  fb_IsIstioActive : W -> result bool goerror;
  fb_ApplyResources : W -> LogPipeline -> fb_config -> bool -> W * option goerror;
  fb_DeleteResources : W -> W * option goerror;
  fb_flowHealthProber : W -> string -> result FluentBitProbeResult goerror
}.

Definition fluentbit_flowHealthReasonFor (probeResult : FluentBitProbeResult) : string :=
  if pr_AllDataDropped (fp_Result probeResult) then ReasonSelfMonAgentAllDataDropped
  else if pr_SomeDataDropped (fp_Result probeResult) then ReasonSelfMonAgentSomeDataDropped
  else if fp_NoLogsDelivered probeResult then ReasonSelfMonAgentNoLogsDelivered
  else if fp_BufferFillingUp probeResult then ReasonSelfMonAgentBufferFillingUp
  else ReasonSelfMonFlowHealthy.

Section FluentBit.
Context {W : Type} `{PipelineValidators W LogPipeline} `{PipelineCluster W LogPipeline}.
Context `{FluentBitAgents W} `{ConfigMapClient W} `{OwnerSetter} `{StatusSetter} (r : FluentBitConfig).

Definition fluentbit_endpoint_check (w : W) (pipeline : LogPipeline) : option goerror :=
  match lo_FluentBitHTTP (ls_Output (lp_Spec pipeline)) with
  | None => None
  | Some http => EndpointValidator w (mkEndpointParams (Some (ho_Host http)) FluentdProtocolHTTP None None)
  end.

Definition fluentbit_tls_check (w : W) (pipeline : LogPipeline) : option goerror :=
  if fluentbit_tlsValidationRequired pipeline then
    match lo_FluentBitHTTP (ls_Output (lp_Spec pipeline)) with
    | Some http =>
        TLSCertValidator w (mkTLSParams (tls_Cert (ho_TLS http)) (tls_Key (ho_TLS http)) (tls_CA (ho_TLS http)))
    | None => None
    end
  else None.

(** The checks of [Validate] after the lock. *)
Definition checks_after_lock (w : W) (pipeline : LogPipeline) : option goerror :=
  SecretRefValidator w pipeline ?;;
  fluentbit_endpoint_check w pipeline ?;;
  fluentbit_tls_check w pipeline ?;;
  validateFileNames pipeline ?;;
  validateFilters pipeline ?;;
  validateCustomOutput (lo_FluentBitCustom (ls_Output (lp_Spec pipeline))) ?;;
  hostname_check pipeline ?;;
  None.

(** [(v *Validator) Validate(ctx, pipeline)] *)
Definition fluentbit_Validate (w : W) (pipeline : LogPipeline) : W * option goerror :=
  match TryAcquireLock (fc_validatorLock r) w (owner_of (lp_ObjectMeta pipeline)) with
  | (w, Some err) => (w, Some err)
  | (w, None) => (w, checks_after_lock w pipeline)
  end.

(** ** reconciler.go *)

Definition IsReconcilable (w : W) (pipeline : LogPipeline) : W * result bool goerror :=
  if fc_OperateInFIPSMode r then (w, Ok false)
  else if om_Deleted (lp_ObjectMeta pipeline) then (w, Ok false)
  else
    let appInputEnabled :=
      match li_Runtime (ls_Input (lp_Spec pipeline)) with Some rt => lri_Enabled rt | None => None end in
    if match appInputEnabled with Some b => negb b | None => false end then (w, Ok false)
    else let '(w, err) := fluentbit_Validate w pipeline in (w, reconcilable_of err).

Fixpoint fluentbit_getReconcilablePipelines (w : W) (allPipelines : list LogPipeline) :
    W * result (list LogPipeline) goerror :=
  match allPipelines with
  | [] => (w, Ok [])
  | p :: rest =>
      match IsReconcilable w p with
      | (w, Err e) => (w, Err e)
      | (w, Ok b) =>
          match fluentbit_getReconcilablePipelines w rest with
          | (w, Err e) => (w, Err e)
          | (w, Ok ps) => (w, Ok (if b then p :: ps else ps))
          end
      end
  end.

Definition fluentbit_getEndpoint (w : W) (pipeline : LogPipeline) : option string :=
  match lo_FluentBitHTTP (ls_Output (lp_Spec pipeline)) with
  | None => Some ""
  | Some http => @resolve_endpoint (pl_secrets w) (ho_Host http)
  end.

Definition fluentbit_trackPipelineInfoMetric (w : W) (pipelines : list LogPipeline) :
    option (list (list string)) :=
  record_all (fun pipeline =>
    let spec := lp_Spec pipeline in
    let features :=
      (feature (LogPipeline_IsRuntimeInputEnabled (ls_Input spec)) FeatureInputRuntime ++
       feature (IsCustomFilterDefined (ls_FluentBitFilters spec)) FeatureFilters ++
       feature (IsCustomOutputDefined (ls_Output spec)) FeatureOutputCustom ++
       feature (IsHTTPOutputDefined (ls_Output spec)) FeatureOutputHTTP ++
       feature (IsVariablesDefined (ls_FluentBitVariables spec)) FeatureVariables ++
       feature (IsFilesDefined (ls_FluentBitFiles spec)) FeatureFiles)%list in
    endpoint ← fluentbit_getEndpoint w pipeline;
    Some (RecordLogPipelineInfo (om_Name (lp_ObjectMeta pipeline)) endpoint features)) pipelines.

(** The part of [doReconcile] after the list of pipelines was read. *)
Definition fluentbit_deploy (w : W) (pipeline : LogPipeline) (allPipelines : list LogPipeline) :
    W * option goerror :=
  match fluentbit_getReconcilablePipelines w allPipelines with
  | (w, Err e) => (w, Some (Wrapf "failed to fetch reconcilable log pipelines: " e ""))
  | (w, Ok []) =>
      let '(w, err) := fb_DeleteResources w in
      (w, (fun e => Wrapf "failed to delete log pipeline resources: " e "") <$> err)
  | (w, Ok reconcilablePipelines) =>
      match fb_Build w reconcilablePipelines with
      | Err e => (w, Some (Wrapf "failed to build fluentbit config: " e ""))
      | Ok config =>
          match fb_IsIstioActive w with
          | Err e => (w, Some (Wrapf "failed to check Istio status: " e ""))
          | Ok isIstioActive => fb_ApplyResources w pipeline config isIstioActive
          end
      end
  end.

(** [(r *Reconciler) doReconcile(ctx, pipeline)] *)
Definition fluentbit_doReconcile (w : W) (pipeline : LogPipeline) : option (W * option goerror) :=
  match TryAcquireLock (fc_pipelineLock r) w (owner_of (lp_ObjectMeta pipeline)) with
  | (w, Some err) =>
      Some (w, if errors_is err ErrMaxPipelinesExceeded then None
               else Some (Wrapf "failed to acquire lock: " err ""))
  | (w, None) =>
      match GetPipelinesForType w FluentBit with
      | Err e => Some (w, Some e)
      | Ok allPipelines =>
          _ ← fluentbit_trackPipelineInfoMetric w allPipelines;
          Some (fluentbit_deploy w pipeline allPipelines)
      end
  end.

Definition fluentbit_calculateRequeueAfterDuration (w : W) (pipeline : LogPipeline) : W * option Z :=
  let '(w, err) := fluentbit_Validate w pipeline in
  (w, match err with
      | None => None
      | Some err => (fun p => time_sub p.1 (time_now w)) <$> errors_as as_cert_about_to_expire err
      end).

(** ** status.go *)

Definition fluentbit_evaluateConfigGeneratedCondition (w : W) (pipeline : LogPipeline) :
    W * (ConditionStatus * string * option string) :=
  if fc_OperateInFIPSMode r then
    (w, (ConditionFalse, ReasonNoFluentbitInFipsMode,
         Some (MessageForFluentBitLogPipeline ReasonNoFluentbitInFipsMode)))
  else
    let '(w, verdict) := fluentbit_Validate w pipeline in
    (w, match verdict with
        | None => (ConditionTrue, ReasonAgentConfigured,
                   Some (MessageForFluentBitLogPipeline ReasonAgentConfigured))
        | Some err =>
            if errors_is err ErrMaxPipelinesExceeded then
              (ConditionFalse, ReasonMaxPipelinesExceeded, ConvertErrToMsg err)
            else if is_secret_ref_missing err then
              (ConditionFalse, ReasonReferencedSecretMissing, ConvertErrToMsg err)
            else if IsEndpointInvalidError err then
              (ConditionFalse, ReasonEndpointInvalid,
               Some (Sprintf (MessageForFluentBitLogPipeline ReasonEndpointInvalid) [Error err]))
            else if isSome (errors_as as_api_request_failed err) then
              (ConditionFalse, ReasonValidationFailed,
               Some (MessageForFluentBitLogPipeline ReasonValidationFailed))
            else
              let '(s, rs, m) := EvaluateTLSCertCondition err in (s, rs, Some m)
        end).

Definition fluentbit_evaluateFlowHealthCondition (w : W) (pipeline : LogPipeline) :
    W * (ConditionStatus * string * option goerror) :=
  let '(w, (configGeneratedStatus, _, _)) := fluentbit_evaluateConfigGeneratedCondition w pipeline in
  (w, if bool_decide (configGeneratedStatus = ConditionFalse) then
        (ConditionFalse, ReasonSelfMonConfigNotGenerated, None)
      else
        match fb_flowHealthProber w (om_Name (lp_ObjectMeta pipeline)) with
        | Err e => (ConditionUnknown, ReasonSelfMonAgentProbingFailed,
                    Some (Wrapf "failed to probe flow health: " e ""))
        | Ok probeResult =>
            let reason := fluentbit_flowHealthReasonFor probeResult in
            if pr_Healthy (fp_Result probeResult) then (ConditionTrue, reason, None)
            else (ConditionFalse, reason, None)
        end).

Definition updateStatusUnsupportedMode (w : W) (pipeline : LogPipeline) :
    W * LogPipeline * option goerror :=
  let desiredUnsupportedMode := ContainsCustomPlugin pipeline in
  if bool_decide (lst_UnsupportedMode (lp_Status pipeline) = Some desiredUnsupportedMode) then (w, pipeline, None)
  else
    let pipeline := mkLogPipeline (lp_ObjectMeta pipeline) (lp_Spec pipeline)
                      (mkLogStatus (lst_Conditions (lp_Status pipeline)) (Some desiredUnsupportedMode)) in
    let '(w, err) := pl_status_update w pipeline in
    (w, pipeline, (fun e => Wrapf "failed to update LogPipeline unsupported mode status: " (ApiError e) "") <$> err).

Definition fluentbit_setAgentHealthyCondition (w : W) (pipeline : LogPipeline) : option LogPipeline :=
  set_condition pipeline <$> GetAgentHealthyCondition (agentProber w) SignalTypeLogFluentBit.

Definition setFluentBitConfigGeneratedCondition (w : W) (pipeline : LogPipeline) : W * option LogPipeline :=
  let '(w, (status, reason, message)) := fluentbit_evaluateConfigGeneratedCondition w pipeline in
  (w, (fun m => set_condition pipeline (mkCondition TypeConfigurationGenerated status reason m
                                          (om_Generation (lp_ObjectMeta pipeline)))) <$> message).

Definition fluentbit_setFlowHealthCondition (w : W) (pipeline : LogPipeline) : W * LogPipeline * option goerror :=
  let '(w, (status, reason, err)) := fluentbit_evaluateFlowHealthCondition w pipeline in
  (w, set_condition pipeline (mkCondition TypeFlowHealthy status reason (MessageForFluentBitLogPipeline reason)
                                (om_Generation (lp_ObjectMeta pipeline))), err).

(** [errors.Join(allErrors, err)] when [err] is not nil. *)
Definition join_err (all err : option goerror) : option goerror :=
  match err with None => all | Some e => errors_join all e end.

(** [(r *Reconciler) updateStatus(ctx, pipelineName)] *)
Definition fluentbit_updateStatus (w : W) (pipelineName : string) : option (W * option goerror) :=
  match pl_get w pipelineName with
  | Err e =>
      if IsNotFound e then Some (w, None)
      else Some (w, Some (Wrapf "failed to get LogPipeline: " (ApiError e) ""))
  | Ok pipeline =>
      if om_Deleted (lp_ObjectMeta pipeline) then Some (w, None)
      else
        let '(w, pipeline, err) := updateStatusUnsupportedMode w pipeline in
        let allErrors := join_err None err in
        pipeline ← fluentbit_setAgentHealthyCondition w pipeline;
        let '(w, configured) := setFluentBitConfigGeneratedCondition w pipeline in
        pipeline ← configured;
        let '(w, pipeline, err) := fluentbit_setFlowHealthCondition w pipeline in
        let allErrors := join_err allErrors err in
        let '(w, uerr) := pl_status_update w pipeline in
        Some (w, join_if allErrors "failed to update LogPipeline status: " (ApiError <$> uerr))
  end.

(** [(r *Reconciler) Reconcile(ctx, pipeline)] *)
Definition fluentbit_Reconcile (w : W) (pipeline : LogPipeline) :
    option (W * result ctrl_Result goerror) :=
  rec ← fluentbit_doReconcile w pipeline;
  let '(w, err1) := rec in
  let allErrors := join_if None "failed to reconcile: " err1 in
  upd ← fluentbit_updateStatus w (om_Name (lp_ObjectMeta pipeline));
  let '(w, err2) := upd in
  let allErrors := join_if allErrors "failed to update status: " err2 in
  match allErrors with
  | Some e => Some (w, Err e)
  | None =>
      let '(w, requeue) := fluentbit_calculateRequeueAfterDuration w pipeline in
      Some (w, Ok (mkResult requeue))
  end.

End FluentBit.
