(* ===== verification/FluentBitReconcilerProps.v ===== *)
(** * Properties of the Fluent Bit reconciler

    The Fluent Bit configuration never has more pipelines than the lock admits, what
    an accepted custom filter can and cannot contain, and how errors that are not of
    a known kind are taken. *)
From stdpp Require Import base gmap strings list.
From Stdlib Require Import Ascii.
From S2P Require Import Prelude Kube GoErrors Regex GoStrings.
From S2P Require Import ApiV1beta1 SecretRef Lock Coordination Conditions CommonStatus SelfMonitor.
From S2P Require Import Endpoint TLSCert Validators PipelineMetrics Reconcile SampleCluster.
From S2P Require Import LogOtelReconciler FluentBitReconciler.
Local Open Scope string_scope.

(** ** Custom sections *)

(** What a line of a custom section contributes. *)
Definition ignored (line : bytes) : Prop :=
  TrimSpace line = [] \/ prefixb (to_bytes "#") (TrimSpace line) = true.

Definition line_parameter (line : bytes) : option SectionParameter :=
  (fun kv => mkParameter (ToLower (TrimSpace kv.1)) (TrimSpace kv.2)) <$> cut " "%char (TrimSpace line).

Lemma parse_lines_ok lines : forall params ps,
  parse_lines params lines = Ok ps ->
  exists new, ps = (params ++ new)%list /\
    Forall (fun line => ignored line \/ is_Some (line_parameter line)) lines /\
    forall x, x ∈ new <-> exists line, line ∈ lines /\ ~ ignored line /\ line_parameter line = Some x.
Proof.
  induction lines as [|line lines IH]; intros params ps; cbn [parse_lines].
  { intros [= <-]. exists []. rewrite app_nil_r. split; [done|]. split; [constructor|].
    intros x. split; [by intros ?%not_elem_of_nil|]. by intros (? & ?%not_elem_of_nil & _). }
  destruct (_ || _) eqn:Hi.
  - assert (Hign : ignored line).
    { apply orb_true_iff in Hi as [Hl|Hl]; [left|by right]. apply Nat.eqb_eq in Hl. by destruct (TrimSpace line). }
    intros Hp. destruct (IH _ _ Hp) as (new & -> & Hall & Hnew). exists new. split; [done|].
    split; [by constructor; [left|]|]. intros x. rewrite Hnew. split.
    + intros (l & Hl & Hx). exists l. split; [by right|done].
    + intros (l & [->|Hl]%elem_of_cons & Hn & Hx); [done|]. by exists l.
  - assert (Hn : ~ ignored line).
    { apply orb_false_iff in Hi as [Hl Hc]. intros [He|He]; [by rewrite He in Hl|congruence]. }
    destruct (cut _ _) as [[k v]|] eqn:Hc; [|done]. intros Hp.
    assert (Hline : line_parameter line = Some (mkParameter (ToLower (TrimSpace k)) (TrimSpace v)))
      by (unfold line_parameter; by rewrite Hc).
    destruct (IH _ _ Hp) as (new & -> & Hall & Hnew). eexists (_ :: new). rewrite <- app_assoc. simpl.
    split; [done|]. split; [constructor; [right; by eexists|done]|].
    intros x. rewrite elem_of_cons, Hnew. split.
    + intros [->|(l & Hl & Hx)]; [exists line; split; [by left|done]|]. exists l. split; [by right|done].
    + intros (l & [->|Hl]%elem_of_cons & Hn' & Hx); [left; congruence|]. right. by exists l.
Qed.

Lemma GetByKey_some ps key x : GetByKey ps key = Some x -> x ∈ ps /\ par_Key x = to_bytes key.
Proof.
  intros [Hx Hk]%find_some. apply bool_decide_eq_true in Hk. split; [by apply list_elem_of_In|done].
Qed.

Lemma ContainsKey_false ps key x : ContainsKey ps key = false -> x ∈ ps -> par_Key x <> to_bytes key.
Proof.
  intros Hc Hx He. assert (ContainsKey ps key = true); [|congruence].
  apply existsb_exists. exists x. split; [by apply list_elem_of_In|by apply bool_decide_eq_true].
Qed.

(** A custom Fluent Bit filter that passes validation is safe to paste into the
    configuration: every line is blank, a comment, or a key and value; no key is
    match; and there is a name whose value is none of the forbidden filters in
    any letter case. *)
Theorem custom_filter_safe content :
  content <> "" -> validateCustomFilter content = None ->
  let lines := split_lines (to_bytes content) in
  Forall (fun line => ignored line \/ is_Some (line_parameter line)) lines /\
  (forall line x, line ∈ lines -> ~ ignored line -> line_parameter line = Some x ->
     par_Key x <> to_bytes "match") /\
  exists line x, line ∈ lines /\ ~ ignored line /\ line_parameter line = Some x /\
    par_Key x = to_bytes "name" /\
    fold_case (par_Value x) <> to_bytes "kubernetes" /\ fold_case (par_Value x) <> to_bytes "rewrite_tag".
Proof.
  intros Hne Hv. unfold validateCustomFilter in Hv. rewrite (proj2 (str_eqb_false _ _) Hne) in Hv.
  unfold ParseCustomSection in Hv. destruct (parse_lines [] _) as [ps|] eqn:Hp; [|done].
  destruct (parse_lines_ok _ _ _ Hp) as (new & -> & Hall & Hnew). rewrite app_nil_l in Hv.
  destruct (GetByKey new "name") as [x|] eqn:Hg; [|done]. apply GetByKey_some in Hg as [Hx Hk].
  destruct (existsb _ forbiddenFilters) eqn:Hf; [done|].
  destruct (ContainsKey new "match") eqn:Hm; [done|].
  split; [done|]. split.
  - intros line y Hl Hi Hy. apply (ContainsKey_false _ _ _ Hm). apply Hnew. eauto.
  - apply Hnew in Hx as (line & Hl & Hi & Hx). exists line, x.
    cbn [existsb forbiddenFilters] in Hf. rewrite !orb_false_iff in Hf. destruct Hf as (H1 & H2 & _).
    apply bool_decide_eq_false in H1, H2. repeat split; done.
Qed.

(** ** The limit *)

Section Limit.
Context {W : Type} `{PipelineValidators W LogPipeline} `{ConfigMapLaws W} `{OwnerSetterLaws}.
Context (r : FluentBitConfig).

Abbreviation lock := (fc_validatorLock r).
Abbreviation owner p := (owner_of (lp_ObjectMeta p)).
Abbreviation name p := (om_Name (lp_ObjectMeta p)).

Lemma IsReconcilable_lock (w : W) p w' res :
  IsReconcilable r w p = (w', res) ->
  (lock_bounded lock w -> lock_bounded lock w') /\
  (forall q, or_Name q <> name p -> IsLockHolder lock w q = None -> IsLockHolder lock w' q = None) /\
  (res = Ok true -> IsLockHolder lock w' (owner p) = None).
Proof.
  unfold IsReconcilable, fluentbit_Validate. intros Hr.
  destruct (fc_OperateInFIPSMode r); [by simplify_eq|]. destruct (om_Deleted _); [by simplify_eq|].
  destruct (match _ with Some b => negb b | None => false end); [by simplify_eq|].
  destruct (TryAcquireLock _ w _) as [w1 acquired] eqn:Hl.
  assert (w' = w1) as -> by (destruct acquired; by simplify_eq).
  split; [intros Hb; by eapply TryAcquireLock_bounded|].
  split; [intros q Hq; by eapply TryAcquireLock_others|].
  destruct acquired as [e|]; [|intros _; by eapply TryAcquireLock_holds].
  intros ->. simplify_eq. unfold reconcilable_of in *. exfalso.
  assert (Hc : IsCertAboutToExpireError e = false) by (by eapply TryAcquireLock_not_cert).
  rewrite Hc in *. by destruct (errors_as as_api_request_failed e).
Qed.

Lemma reconcilable_lock (all : list LogPipeline) : forall (w w' : W) res,
  fluentbit_getReconcilablePipelines r w all = (w', res) ->
  (lock_bounded lock w -> lock_bounded lock w') /\
  (forall q, or_Name q ∉ map (fun p => name p) all ->
     IsLockHolder lock w q = None -> IsLockHolder lock w' q = None).
Proof.
  induction all as [|p all IH]; intros w w' res; cbn [fluentbit_getReconcilablePipelines]; [by intros [= <- _]|].
  destruct (IsReconcilable r w p) as [w1 [b|e]] eqn:Hr.
  2:{ intros [= <- _]. apply IsReconcilable_lock in Hr as (Hb & Ho & _). split; [done|].
      intros q Hq. apply Ho. simpl in Hq. by apply not_elem_of_cons in Hq as [? _]. }
  destruct (fluentbit_getReconcilablePipelines r w1 all) as [w2 res2] eqn:Hrest.
  intros Hres. assert (w' = w2) as -> by (destruct res2; by simplify_eq).
  apply IH in Hrest as [Hb2 Ho2]. apply IsReconcilable_lock in Hr as (Hb & Ho & _).
  split; [auto|]. intros q Hq Hold. simpl in Hq. apply not_elem_of_cons in Hq as [Hp Hall]. auto.
Qed.

Lemma reconcilable_holders (all : list LogPipeline) : forall (w w' : W) ps,
  NoDup (map (fun p => name p) all) ->
  fluentbit_getReconcilablePipelines r w all = (w', Ok ps) ->
  ps `sublist_of` all /\ forall p, p ∈ ps -> IsLockHolder lock w' (owner p) = None.
Proof.
  induction all as [|p all IH]; intros w w' ps Hnd; cbn [fluentbit_getReconcilablePipelines].
  { intros [= <- <-]. split; [constructor|]. by intros ? ?%not_elem_of_nil. }
  simpl in Hnd. apply NoDup_cons in Hnd as [Hnew Hnd].
  destruct (IsReconcilable r w p) as [w1 [b|e]] eqn:Hr; [|done].
  destruct (fluentbit_getReconcilablePipelines r w1 all) as [w2 [qs|e]] eqn:Hrest; [|done].
  intros [= <- <-]. destruct (IH _ _ _ Hnd Hrest) as [Hsub Hold].
  destruct b; [|split; [by apply sublist_cons|done]]. split; [by apply sublist_skip|].
  intros q [->|Hq]%elem_of_cons; [|auto].
  apply reconcilable_lock in Hrest as [_ Hkeep]. apply Hkeep; [done|].
  by apply IsReconcilable_lock in Hr as (_ & _ & Hh); apply Hh.
Qed.

(** The Fluent Bit pipelines deployed together respect the limit:
    getReconcilablePipelines, which takes a lock slot for each pipeline as it
    validates, selects in list order at most maxOwners pipelines, each of which
    holds the lock in the final state, and keeps the lock within its bound. *)
Theorem fluentbit_limit (w w' : W) all ps :
  NoDup (map (fun p => name p) all) -> lock_bounded lock w -> (0 < ck_maxOwners lock)%Z ->
  fluentbit_getReconcilablePipelines r w all = (w', Ok ps) ->
  ps `sublist_of` all /\ lock_bounded lock w' /\
  (forall p, p ∈ ps -> IsLockHolder lock w' (owner p) = None) /\
  (Z.of_nat (length ps) <= ck_maxOwners lock)%Z.
Proof.
  intros Hnd Hb Hmax Hg. destruct (reconcilable_holders _ _ _ _ Hnd Hg) as [Hsub Hold].
  apply reconcilable_lock in Hg as [Hb' _]. specialize (Hb' Hb).
  split; [done|]. split; [done|]. split; [done|].
  destruct ps as [|p ps]; [simpl; lia|].
  destruct (proj1 (IsLockHolder_none _ _ _) (Hold p (list_elem_of_here _ _))) as (l & Hl & _).
  specialize (Hb' l Hl Hmax). etrans; [|exact Hb']. apply inj_le.
  rewrite <- (length_map (fun p => owner p)). apply submseteq_length, NoDup_submseteq.
  - eapply (NoDup_fmap_1 or_Name). rewrite <- list_fmap_compose.
    eapply sublist_NoDup; [exact Hnd|]. exact (fmap_sublist (fun p => name p) _ _ Hsub).
  - intros o (q & -> & Hq)%list_elem_of_fmap.
    specialize (Hold q Hq). apply IsLockHolder_none in Hold as (l' & Hl' & Ho).
    assert (l' = l) as -> by congruence. done.
Qed.

End Limit.

(** ** Errors that are not of a known kind *)

Section Errors.
Context {W : Type} `{PipelineValidators W LogPipeline} `{ConfigMapLaws W} `{OwnerSetterLaws}.
Context (r : FluentBitConfig).

(** A failed read of the lock ConfigMap drops a Fluent Bit pipeline:
    IsReconcilable answers no without an error, so the pipeline is left out of
    the deployed configuration instead of the reconciliation being repeated, and
    the status blames the TLS configuration. *)
Theorem fluentbit_lock_failure_drops_pipeline (w : W) p rt a :
  fc_OperateInFIPSMode r = false -> om_Deleted (lp_ObjectMeta p) = false ->
  li_Runtime (ls_Input (lp_Spec p)) = Some rt -> lri_Enabled rt = Some true ->
  cm_get w (ck_lockName (fc_validatorLock r)) = Err a -> IsNotFound a = false ->
  IsReconcilable r w p = (w, Ok false) /\
  (fluentbit_evaluateConfigGeneratedCondition r w p).2.1 = (ConditionFalse, ReasonTLSConfigurationInvalid).
Proof.
  intros Hf Hd Hr He Hg Hn.
  assert (Hv : fluentbit_Validate r w p = (w, Some (Wrapf "failed to get lock: " (ApiError a) ""))).
  { unfold fluentbit_Validate, TryAcquireLock, decide_acquire. by rewrite Hg, Hn. }
  unfold IsReconcilable, fluentbit_evaluateConfigGeneratedCondition. rewrite Hf, Hd, Hr, He, Hv. done.
Qed.

(** An error of the custom configuration or of the host name. *)
Definition custom_checks (p : LogPipeline) : option goerror :=
  first_error [validateFileNames p; validateFilters p;
               validateCustomOutput (lo_FluentBitCustom (ls_Output (lp_Spec p))); hostname_check p].

Lemma parse_lines_err lines : forall params e, parse_lines params lines = Err e -> exists m, e = NewError m.
Proof.
  induction lines as [|line lines IH]; intros params e; cbn [parse_lines]; [done|].
  destruct (_ || _); [apply IH|]. destruct (cut _ _) as [[k v]|]; [apply IH|]. intros [= <-]. eauto.
Qed.

Lemma validateCustomFilter_err c e : validateCustomFilter c = Some e -> exists m, e = NewError m.
Proof.
  unfold validateCustomFilter, ParseCustomSection. destruct (str_eqb _ _); [done|].
  destruct (parse_lines _ _) as [ps|e'] eqn:Hp; [|intros [= <-]; by eapply parse_lines_err].
  intros Hv. repeat case_match; simplify_eq; eauto.
Qed.

Lemma validateCustomOutput_err c e : validateCustomOutput c = Some e -> exists m, e = NewError m.
Proof.
  unfold validateCustomOutput, ParseCustomSection. destruct (str_eqb _ _); [done|].
  destruct (parse_lines _ _) as [ps|e'] eqn:Hp; [|intros [= <-]; by eapply parse_lines_err].
  intros Hv. repeat case_match; simplify_eq; eauto.
Qed.

Lemma custom_checks_err p e : custom_checks p = Some e -> exists m, e = NewError m.
Proof.
  intros (i & Hi & _)%first_error_some. destruct i as [|[|[|[|i]]]]; simpl in Hi; simplify_eq.
  - unfold validateFileNames in Hi. case_match; simplify_eq. eauto.
  - unfold validateFilters in Hi. induction (elems _) as [|f fs IH]; simpl in Hi; [done|].
    apply or_return_some in Hi as [Hf|[_ Hf]]; [by eapply validateCustomFilter_err|auto].
  - by eapply validateCustomOutput_err.
  - unfold hostname_check in Hi. repeat case_match; simplify_eq. eauto.
Qed.

(** A rejected custom configuration is reported as an invalid TLS configuration. *)
Lemma custom_error_reported_as_tls (w w1 : W) p e :
  fc_OperateInFIPSMode r = false ->
  TryAcquireLock (fc_validatorLock r) w (owner_of (lp_ObjectMeta p)) = (w1, None) ->
  SecretRefValidator w1 p = None -> fluentbit_endpoint_check w1 p = None -> fluentbit_tls_check w1 p = None ->
  custom_checks p = Some e ->
  (fluentbit_evaluateConfigGeneratedCondition r w p).2.1 = (ConditionFalse, ReasonTLSConfigurationInvalid).
Proof.
  intros Hf Hl Hs He Ht Hc. unfold fluentbit_evaluateConfigGeneratedCondition, fluentbit_Validate.
  rewrite Hf, Hl. unfold checks_after_lock. rewrite Hs, He, Ht. cbn [or_return].
  change (or_return (validateFileNames p) _) with (custom_checks p). rewrite Hc.
  by apply custom_checks_err in Hc as [m ->].
Qed.

End Errors.

(** ** Concrete runs *)

Module Sample.

Abbreviation world := (cluster LogPipeline).

#[global] Instance fb_validators : PipelineValidators world LogPipeline := sample_validators None None None.

Definition pipeline (n : string) : LogPipeline :=
  mkLogPipeline (mkMeta n n 1 None false)
    (mkLogSpec (mkLogInput (Some (mkLogRuntimeInput (Some true) None None None None None)) None) None
       (mkLogOutput "name stdout" None None) None None None None) (mkLogStatus [] None).

Definition config : FluentBitConfig :=
  mkFluentBitConfig (NewLocker (mkNN "kyma-system" "telemetry-logpipeline") 1)
    (NewLocker (mkNN "kyma-system" "telemetry-logpipeline") 1) false.

Definition world0 : world := mkCluster [] [].

(** An API server that does not answer. *)
#[global] Instance down : ConfigMapClient unit := {|
  cm_get _ _ := Err (OtherApiError "timeout");
  cm_create _ _ := (tt, Some (OtherApiError "timeout"));
  cm_update _ _ := (tt, Some (OtherApiError "timeout"))
|}.

#[global] Instance down_validators : PipelineValidators unit LogPipeline := {|
  SecretRefValidator _ _ := None;
  EndpointValidator _ _ := None;
  TLSCertValidator _ _ := None;
  PipelineLock_IsLockHolder _ _ := None;
  TransformSpecValidator _ := None;
  FilterSpecValidator _ := None
|}.

End Sample.

Lemma custom_filter_witness :
  exists line x, line ∈ split_lines (to_bytes "Name lua") /\ line_parameter line = Some x /\
    par_Key x = to_bytes "name".
Proof.
  destruct (custom_filter_safe "Name lua") as (_ & _ & line & x & Hl & _ & Hx & Hk & _).
  - discriminate.
  - vm_compute. reflexivity.
  - exists line, x. split; [exact Hl|]. split; [exact Hx|exact Hk].
Defined.

Lemma fluentbit_limit_witness :
  exists w' ps, fluentbit_getReconcilablePipelines Sample.config Sample.world0
                  [Sample.pipeline "a"; Sample.pipeline "b"] = (w', Ok ps) /\
    (Z.of_nat (length ps) <= 1)%Z.
Proof.
  destruct (fluentbit_getReconcilablePipelines Sample.config Sample.world0
              [Sample.pipeline "a"; Sample.pipeline "b"]) as [w' [ps|e]] eqn:Hg;
    [|vm_compute in Hg; discriminate Hg].
  exists w', ps. split; [reflexivity|].
  apply (fluentbit_limit Sample.config Sample.world0 w' [Sample.pipeline "a"; Sample.pipeline "b"] ps).
  - apply (bool_decide_unpack _). vm_compute. exact I.
  - intros l Hl. discriminate Hl.
  - reflexivity.
  - exact Hg.
Defined.

Lemma fluentbit_lock_failure_witness :
  IsReconcilable Sample.config tt (Sample.pipeline "a") = (tt, Ok false).
Proof.
  apply (fluentbit_lock_failure_drops_pipeline Sample.config tt (Sample.pipeline "a")
           (mkLogRuntimeInput (Some true) None None None None None) (OtherApiError "timeout")); reflexivity.
Defined.
