(* ===== verification/Webhook.v ===== *)
(** * Admission webhooks of the v1beta1 API (webhook/)

    defaulter.go, validator.go and setup.go of the three pipeline kinds, and
    webhook/utils/transformfilter.go. A defaulter fills nil pointers and empty texts of
    the object it is given; the pointers it stores point into its own copy of the
    settings, which nothing writes afterwards, so a stored pointer is its value. *)
From stdpp Require Import base gmap strings list.
From S2P Require Import Prelude Kube GoErrors.
From S2P Require Import Conversion ApiV1beta1 Coordination MetricInputs Validators Conditions FluentBitReconciler.
From S2P Require Import Conversion.
Local Open Scope string_scope.

(** [if output != nil && output.Protocol == "" { output.Protocol = protocol }] *)
Definition with_protocol (protocol : OTLPProtocol) (o : OTLPOutput) : OTLPOutput :=
  if str_eqb (oo_Protocol o) "" then
    mkOTLPOutput protocol (oo_Endpoint o) (oo_Path o) (oo_Authentication o) (oo_Headers o) (oo_TLS o) (oo_Compression o)
  else o.

(** ** TracePipeline *)

Definition TraceDefaulter := OTLPProtocol.
Definition trace_defaulter : TraceDefaulter := OTLPProtocolGRPC.

Definition TraceDefault (td : TraceDefaulter) (pipeline : TracePipeline) : TracePipeline :=
  let s := tp_Spec pipeline in
  mkTracePipeline (tp_ObjectMeta pipeline)
    (mkTraceSpec (mkTraceOutput (with_protocol td <$> tout_OTLP (tps_Output s))) (tps_Transforms s) (tps_Filters s))
    (tp_Status pipeline).

(** ** MetricPipeline *)

Record runtimeInputResourceDefaults := mkRuntimeInputResourceDefaults {
  rd_Pod : bool; rd_Container : bool; rd_Node : bool; rd_Volume : bool;
  rd_DaemonSet : bool; rd_Deployment : bool; rd_StatefulSet : bool; rd_Job : bool
}.

Record MetricDefaulter := mkMetricDefaulter {
  md_ExcludeNamespaces : slice string;
  md_OTLPInputEnabled : bool;
  md_RuntimeInputResources : runtimeInputResourceDefaults;
  md_DefaultOTLPOutputProtocol : OTLPProtocol;
  md_DefaultOTLPOutputTemporality : TemporalityType;
  md_DiagnosticMetricsEnabled : bool;
  md_EnvoyMetricsEnabled : bool
}.

Definition metric_defaulter : MetricDefaulter :=
  mkMetricDefaulter (Some System) true (mkRuntimeInputResourceDefaults true true true true true true true true)
    OTLPProtocolGRPC TemporalityPreserve false false.

Definition excluding (names : slice string) : NamespaceSelector := mkNamespaceSelector None names.

Definition default_prometheus (md : MetricDefaulter) (i : MetricPipelinePrometheusInput) : MetricPipelinePrometheusInput :=
  mkPrometheusInput (pi_Enabled i) (or_default (pi_Namespaces i) (excluding (md_ExcludeNamespaces md)))
    (or_default (pi_DiagnosticMetrics i) (mkDiagnosticMetrics (Some (md_DiagnosticMetricsEnabled md)))).

Definition default_istio (md : MetricDefaulter) (i : MetricPipelineIstioInput) : MetricPipelineIstioInput :=
  mkIstioInput (ii_Enabled i) (or_default (ii_Namespaces i) (excluding (md_ExcludeNamespaces md)))
    (or_default (ii_DiagnosticMetrics i) (mkDiagnosticMetrics (Some (md_DiagnosticMetricsEnabled md))))
    (or_default (ii_EnvoyMetrics i) (mkEnvoyMetrics (Some (md_EnvoyMetricsEnabled md)))).

Definition applyRuntimeInputResourceDefaults (md : MetricDefaulter) (i : MetricPipelineRuntimeInput) :
    MetricPipelineRuntimeInput :=
  let rs := default (mkRuntimeResources None None None None None None None None) (mri_Resources i) in
  let d := md_RuntimeInputResources md in
  let set f (v : bool) := or_default f (mkRuntimeResource (Some v)) in
  mkMetricRuntimeInput (mri_Enabled i) (mri_Namespaces i)
    (Some (mkRuntimeResources (set (rrs_Pod rs) (rd_Pod d)) (set (rrs_Container rs) (rd_Container d))
             (set (rrs_Node rs) (rd_Node d)) (set (rrs_Volume rs) (rd_Volume d))
             (set (rrs_DaemonSet rs) (rd_DaemonSet d)) (set (rrs_Deployment rs) (rd_Deployment d))
             (set (rrs_StatefulSet rs) (rd_StatefulSet d)) (set (rrs_Job rs) (rd_Job d))))
    (mri_AdditionalMetrics i).

Definition default_runtime (md : MetricDefaulter) (i : MetricPipelineRuntimeInput) : MetricPipelineRuntimeInput :=
  let i := applyRuntimeInputResourceDefaults md i in
  mkMetricRuntimeInput (mri_Enabled i) (or_default (mri_Namespaces i) (excluding (md_ExcludeNamespaces md)))
    (mri_Resources i) (mri_AdditionalMetrics i).

(** The common text of the OTLP input defaults of logs and metrics. *)
Definition default_otlp_input (enabled : bool) (i : option OTLPInput) : OTLPInput :=
  let i := default (mkOTLPInput None None) i in
  let on := or_default (oi_Enabled i) enabled in
  mkOTLPInput on
    (if deref on false then or_default (oi_Namespaces i) (mkNamespaceSelector None None) else oi_Namespaces i).

Definition applyOTLPInputDefaults (md : MetricDefaulter) (i : option OTLPInput) : option OTLPInput :=
  Some (default_otlp_input (md_OTLPInputEnabled md) i).

Definition applyOTLPOutputDefaults (md : MetricDefaulter) (o : MetricPipelineOutput) : MetricPipelineOutput :=
  mkMetricOutput
    ((fun x => mkMetricOTLPOutput (with_protocol (md_DefaultOTLPOutputProtocol md) (mo_OTLPOutput x))
                 (or_default (mo_Temporality x) (md_DefaultOTLPOutputTemporality md))) <$> mout_OTLP o).

Definition MetricDefault (md : MetricDefaulter) (pipeline : MetricPipeline) : MetricPipeline :=
  let s := mp_Spec pipeline in
  let i := ms_Input s in
  mkMetricPipeline (mp_ObjectMeta pipeline)
    (mkMetricSpec
       (mkMetricInput
          (if IsPrometheusInputEnabled i then default_prometheus md <$> mi_Prometheus i else mi_Prometheus i)
          (if IsRuntimeInputEnabled i then default_runtime md <$> mi_Runtime i else mi_Runtime i)
          (if IsIstioInputEnabled i then default_istio md <$> mi_Istio i else mi_Istio i)
          (applyOTLPInputDefaults md (mi_OTLP i)))
       (applyOTLPOutputDefaults md (ms_Output s)) (ms_Transforms s) (ms_Filters s))
    (mp_Status pipeline).

(** ** LogPipeline *)

Record LogDefaulter := mkLogDefaulter {
  ld_ExcludeNamespaces : slice string;
  ld_RuntimeInputEnabled : bool;
  ld_RuntimeInputKeepOriginalBody : bool;
  ld_DefaultOTLPOutputProtocol : OTLPProtocol;
  ld_OTLPInputEnabled : bool
}.

Definition log_defaulter : LogDefaulter := mkLogDefaulter (Some System) true true OTLPProtocolGRPC true.

Definition isOTLPPipeline (pipeline : LogPipeline) : bool := isSome (lo_OTLP (ls_Output (lp_Spec pipeline))).

Definition default_log_runtime (ld : LogDefaulter) (runtime : option LogPipelineRuntimeInput) : LogPipelineRuntimeInput :=
  let r := default (mkLogRuntimeInput (Some (ld_RuntimeInputEnabled ld)) None None None None
                      (Some (ld_RuntimeInputKeepOriginalBody ld))) runtime in
  let enabled := or_default (lri_Enabled r) (ld_RuntimeInputEnabled ld) in
  let on := deref enabled false in
  mkLogRuntimeInput enabled
    (if on then or_default (lri_Namespaces r) (excluding (ld_ExcludeNamespaces ld)) else lri_Namespaces r)
    (lri_Containers r) (lri_FluentBitKeepAnnotations r) (lri_FluentBitDropLabels r)
    (if on then or_default (lri_KeepOriginalBody r) (ld_RuntimeInputKeepOriginalBody ld) else lri_KeepOriginalBody r).

Definition LogDefault (ld : LogDefaulter) (pipeline : LogPipeline) : LogPipeline :=
  let s := lp_Spec pipeline in
  let i := ls_Input s in
  let o := ls_Output s in
  mkLogPipeline (lp_ObjectMeta pipeline)
    (mkLogSpec
       (mkLogInput (Some (default_log_runtime ld (li_Runtime i)))
          (if isOTLPPipeline pipeline then Some (default_otlp_input (ld_OTLPInputEnabled ld) (li_OTLP i)) else li_OTLP i))
       (ls_FluentBitFilters s)
       (mkLogOutput (lo_FluentBitCustom o) (lo_FluentBitHTTP o)
          (with_protocol (ld_DefaultOTLPOutputProtocol ld) <$> lo_OTLP o))
       (ls_FluentBitFiles s) (ls_FluentBitVariables s) (ls_Transforms s) (ls_Filters s))
    (lp_Status pipeline).

(** ** Validation *)

(** The OTTL library: the parsers of a signal type, or the error of building them. *)
Class OTTLParsers := {
  NewFilterSpecValidator : SignalType -> result OTTLParser goerror;
  NewTransformSpecValidator : SignalType -> result OTTLParser goerror
}.

Definition errFailedToCreatePipeline : goerror := NewError "failed to create pipeline".

Definition ValidateFilterTransform `{OTTLParsers} (signalType : SignalType) (filterSpec : list FilterSpec)
    (transformSpec : list TransformSpec) : option goerror :=
  match NewFilterSpecValidator signalType with
  | Err _ => Some errFailedToCreatePipeline
  | Ok filterValidator =>
      or_return (validate_filters filterValidator filterSpec)
        match NewTransformSpecValidator signalType with
        | Err _ => Some errFailedToCreatePipeline
        | Ok transformValidator => validate_transforms transformValidator transformSpec
        end
  end.

(** Warnings and an error. *)
Definition admission := (list string * option goerror)%type.

(** [fmt.Errorf(message, err.Error())] *)
Definition ottl_error (message : string) (err : goerror) : goerror := NewError (Sprintf message [Error err]).

Section Validate.
Context `{OTTLParsers}.

Definition trace_validateFilterTransform (fs : list FilterSpec) (ts : list TransformSpec) : option goerror :=
  ottl_error (MessageForTracePipeline ReasonOTTLSpecInvalid) <$> ValidateFilterTransform SignalTypeTrace fs ts.
Definition metric_validateFilterTransform (fs : list FilterSpec) (ts : list TransformSpec) : option goerror :=
  ottl_error (MessageForMetricPipeline ReasonOTTLSpecInvalid) <$> ValidateFilterTransform SignalTypeMetric fs ts.
Definition log_validateFilterTransform (fs : list FilterSpec) (ts : list TransformSpec) : option goerror :=
  ottl_error (MessageForOtelLogPipeline ReasonOTTLSpecInvalid) <$> ValidateFilterTransform SignalTypeLog fs ts.

Definition trace_validate (pipeline : TracePipeline) : admission :=
  ([], trace_validateFilterTransform (elems (tps_Filters (tp_Spec pipeline))) (elems (tps_Transforms (tp_Spec pipeline)))).

Definition metric_validate (pipeline : MetricPipeline) : admission :=
  ([], or_return (metric_validateFilterTransform (elems (ms_Filters (mp_Spec pipeline)))
                    (elems (ms_Transforms (mp_Spec pipeline))))
         (ValidateAdditionalMetrics pipeline)).

Definition migrationGuideLink : string :=
  "https://kyma-project.io/#/telemetry-manager/user/integrate-otlp-backend/migration-to-otlp-logs".

Definition renderDeprecationWarning (pipelineName attribute : string) : string :=
  "LogPipeline '" +:+ pipelineName +:+ "' uses the attribute '" +:+ attribute
  +:+ "' which is based on the deprecated FluentBit technology stack. Please migrate to an Open Telemetry based logPipeline instead. See the documentation: "
  +:+ migrationGuideLink.

(** [if c { warnings = append(warnings, ...) }] *)
Definition warn (c : bool) (warning : string) : list string := if c then [warning] else [].

Definition log_runtime_and (f : LogPipelineRuntimeInput -> bool) (i : LogPipelineInput) : bool :=
  match li_Runtime i with Some r => deref (lri_Enabled r) true && f r | None => false end.

Definition log_warnings (pipeline : LogPipeline) : list string :=
  let name := om_Name (lp_ObjectMeta pipeline) in
  let s := lp_Spec pipeline in
  (warn (IsCustomFilterDefined (ls_FluentBitFilters s)) (renderDeprecationWarning name "filters")
   ++ warn (IsCustomOutputDefined (ls_Output s)) (renderDeprecationWarning name "output.custom")
   ++ warn (IsHTTPOutputDefined (ls_Output s)) (renderDeprecationWarning name "output.http")
   ++ warn (IsVariablesDefined (ls_FluentBitVariables s)) (renderDeprecationWarning name "variables")
   ++ warn (IsFilesDefined (ls_FluentBitFiles s)) (renderDeprecationWarning name "files")
   ++ warn (log_runtime_and (fun r => isSome (lri_FluentBitDropLabels r)) (ls_Input s))
        (renderDeprecationWarning name "input.runtime.dropLabels")
   ++ warn (log_runtime_and (fun r => isSome (lri_FluentBitKeepAnnotations r)) (ls_Input s))
        (renderDeprecationWarning name "input.runtime.keepAnnotations"))%list.

Definition log_validate (pipeline : LogPipeline) : admission :=
  match log_validateFilterTransform (elems (ls_Filters (lp_Spec pipeline))) (elems (ls_Transforms (lp_Spec pipeline))) with
  | Some err => ([], Some err)
  | None => (log_warnings pipeline, None)
  end.

End Validate.

(** ** Admission webhooks of the v1alpha1 API (webhook/)

    The same as Webhook.v for the older version; the validators convert the parts they
    check to v1beta1. *)

Definition with_protocol_alpha (protocol : string) (o : A.OTLPOutput) : A.OTLPOutput :=
  if str_eqb (A.oo_Protocol o) "" then
    A.mkOTLPOutput protocol (A.oo_Endpoint o) (A.oo_Path o) (A.oo_Authentication o) (A.oo_Headers o) (A.oo_TLS o)
  else o.

(** ** TracePipeline *)

Definition trace_defaulter_alpha : string := "grpc".

Definition TraceDefaultAlpha (protocol : string) (pipeline : A.TracePipeline) : A.TracePipeline :=
  let s := A.tp_Spec pipeline in
  A.mkTracePipeline (A.tp_ObjectMeta pipeline)
    (A.mkTraceSpec (A.mkTraceOutput (with_protocol_alpha protocol <$> A.tout_OTLP (A.tps_Output s)))
       (A.tps_Transforms s) (A.tps_Filters s))
    (A.tp_Status pipeline).

(** ** MetricPipeline *)

Record MetricDefaulterAlpha := mkMetricDefaulterAlpha {
  mda_ExcludeNamespaces : slice string;
  mda_RuntimeInputResources : runtimeInputResourceDefaults;
  mda_DefaultOTLPOutputProtocol : string;
  mda_DefaultOTLPOutputTemporality : string;
  mda_DiagnosticMetricsEnabled : bool;
  mda_EnvoyMetricsEnabled : bool
}.

Definition metric_defaulter_alpha : MetricDefaulterAlpha :=
  mkMetricDefaulterAlpha (Some System) (mkRuntimeInputResourceDefaults true true true true true true true true)
    "grpc" B.TemporalityPreserve false false.

Definition prometheusInputEnabled (input : A.MetricPipelineInput) : bool :=
  match A.mi_Prometheus input with Some i => is_true (A.pi_Enabled i) | None => false end.
Definition istioInputEnabled (input : A.MetricPipelineInput) : bool :=
  match A.mi_Istio input with Some i => is_true (A.ii_Enabled i) | None => false end.
Definition runtimeInputEnabled (input : A.MetricPipelineInput) : bool :=
  match A.mi_Runtime input with Some i => is_true (A.mri_Enabled i) | None => false end.

Definition excluding_alpha (names : slice string) : A.NamespaceSelector := A.mkNamespaceSelector None names.

Definition default_prometheus_alpha (md : MetricDefaulterAlpha) (i : A.MetricPipelinePrometheusInput) :
    A.MetricPipelinePrometheusInput :=
  A.mkPrometheusInput (A.pi_Enabled i) (or_default (A.pi_Namespaces i) (excluding_alpha (mda_ExcludeNamespaces md)))
    (or_default (A.pi_DiagnosticMetrics i) (A.mkDiagnosticMetrics (Some (mda_DiagnosticMetricsEnabled md)))).

Definition default_istio_alpha (md : MetricDefaulterAlpha) (i : A.MetricPipelineIstioInput) :
    A.MetricPipelineIstioInput :=
  A.mkIstioInput (A.ii_Enabled i) (or_default (A.ii_Namespaces i) (excluding_alpha (mda_ExcludeNamespaces md)))
    (or_default (A.ii_DiagnosticMetrics i) (A.mkDiagnosticMetrics (Some (mda_DiagnosticMetricsEnabled md))))
    (or_default (A.ii_EnvoyMetrics i) (A.mkEnvoyMetrics (Some (mda_EnvoyMetricsEnabled md)))).

Definition applyRuntimeInputResourceDefaultsAlpha (md : MetricDefaulterAlpha) (i : A.MetricPipelineRuntimeInput) :
    A.MetricPipelineRuntimeInput :=
  let rs := default (A.mkRuntimeResources None None None None None None None None) (A.mri_Resources i) in
  let d := mda_RuntimeInputResources md in
  let set f (v : bool) := or_default f (A.mkRuntimeResource (Some v)) in
  A.mkMetricRuntimeInput (A.mri_Enabled i) (A.mri_Namespaces i)
    (Some (A.mkRuntimeResources (set (A.rrs_Pod rs) (rd_Pod d)) (set (A.rrs_Container rs) (rd_Container d))
             (set (A.rrs_Node rs) (rd_Node d)) (set (A.rrs_Volume rs) (rd_Volume d))
             (set (A.rrs_DaemonSet rs) (rd_DaemonSet d)) (set (A.rrs_Deployment rs) (rd_Deployment d))
             (set (A.rrs_StatefulSet rs) (rd_StatefulSet d)) (set (A.rrs_Job rs) (rd_Job d))))
    (A.mri_AdditionalMetrics i).

Definition default_runtime_alpha (md : MetricDefaulterAlpha) (i : A.MetricPipelineRuntimeInput) :
    A.MetricPipelineRuntimeInput :=
  let i := applyRuntimeInputResourceDefaultsAlpha md i in
  A.mkMetricRuntimeInput (A.mri_Enabled i) (or_default (A.mri_Namespaces i) (excluding_alpha (mda_ExcludeNamespaces md)))
    (A.mri_Resources i) (A.mri_AdditionalMetrics i).

(** The common text of the OTLP input defaults of logs and metrics: whether or not the
    input is disabled. *)
Definition default_otlp_input_alpha (i : option A.OTLPInput) : A.OTLPInput :=
  let i := default (A.mkOTLPInput false None) i in
  A.mkOTLPInput (A.oi_Disabled i) (or_default (A.oi_Namespaces i) (A.mkNamespaceSelector None None)).

Definition applyOTLPInputDefaultsAlpha (i : option A.OTLPInput) : option A.OTLPInput := Some (default_otlp_input_alpha i).

Definition applyOTLPOutputDefaultsAlpha (md : MetricDefaulterAlpha) (o : A.MetricPipelineOutput) :
    A.MetricPipelineOutput :=
  A.mkMetricOutput
    ((fun x => A.mkMetricOTLPOutput (with_protocol_alpha (mda_DefaultOTLPOutputProtocol md) (A.mo_OTLPOutput x))
                 (or_default (A.mo_Temporality x) (mda_DefaultOTLPOutputTemporality md))) <$> A.mout_OTLP o).

Definition MetricDefaultAlpha (md : MetricDefaulterAlpha) (pipeline : A.MetricPipeline) : A.MetricPipeline :=
  let s := A.mp_Spec pipeline in
  let i := A.ms_Input s in
  A.mkMetricPipeline (A.mp_ObjectMeta pipeline)
    (A.mkMetricSpec
       (A.mkMetricInput
          (if prometheusInputEnabled i then default_prometheus_alpha md <$> A.mi_Prometheus i else A.mi_Prometheus i)
          (if runtimeInputEnabled i then default_runtime_alpha md <$> A.mi_Runtime i else A.mi_Runtime i)
          (if istioInputEnabled i then default_istio_alpha md <$> A.mi_Istio i else A.mi_Istio i)
          (applyOTLPInputDefaultsAlpha (A.mi_OTLP i)))
       (applyOTLPOutputDefaultsAlpha md (A.ms_Output s)) (A.ms_Transforms s) (A.ms_Filters s))
    (A.mp_Status pipeline).

(** ** LogPipeline *)

Record LogDefaulterAlpha := mkLogDefaulterAlpha {
  lda_ApplicationInputEnabled : bool;
  lda_ApplicationInputKeepOriginalBody : bool;
  lda_DefaultOTLPProtocol : string
}.

Definition log_defaulter_alpha : LogDefaulterAlpha := mkLogDefaulterAlpha true true "grpc".

Definition isOTLPPipelineAlpha (pipeline : A.LogPipeline) : bool :=
  isSome (A.lo_OTLP (A.ls_Output (A.lp_Spec pipeline))).

Definition default_application (ld : LogDefaulterAlpha) (application : option A.LogPipelineApplicationInput) :
    A.LogPipelineApplicationInput :=
  let a := default (A.mkApplicationInput (Some (lda_ApplicationInputEnabled ld))
                      (A.mkLogNamespaceSelector None None false) (A.mkContainerSelector None None) None None
                      (Some (lda_ApplicationInputKeepOriginalBody ld))) application in
  A.mkApplicationInput (or_default (A.ai_Enabled a) (lda_ApplicationInputEnabled ld)) (A.ai_Namespaces a)
    (A.ai_Containers a) (A.ai_FluentBitKeepAnnotations a) (A.ai_FluentBitDropLabels a)
    (or_default (A.ai_KeepOriginalBody a) (lda_ApplicationInputKeepOriginalBody ld)).

Definition LogDefaultAlpha (ld : LogDefaulterAlpha) (pipeline : A.LogPipeline) : A.LogPipeline :=
  let s := A.lp_Spec pipeline in
  let i := A.ls_Input s in
  let o := A.ls_Output s in
  A.mkLogPipeline (A.lp_ObjectMeta pipeline)
    (A.mkLogSpec
       (A.mkLogInput (Some (default_application ld (A.li_Application i)))
          (if isOTLPPipelineAlpha pipeline then Some (default_otlp_input_alpha (A.li_OTLP i)) else A.li_OTLP i))
       (A.ls_FluentBitFilters s)
       (A.mkLogOutput (A.lo_FluentBitCustom o) (A.lo_FluentBitHTTP o)
          (with_protocol_alpha (lda_DefaultOTLPProtocol ld) <$> A.lo_OTLP o))
       (A.ls_FluentBitFiles s) (A.ls_FluentBitVariables s) (A.ls_Transforms s) (A.ls_Filters s))
    (A.lp_Status pipeline).

(** ** Validation *)

(** The conversions cannot fail. *)
Definition ConvertFilterTransformToBeta (filters : slice A.FilterSpec) (transforms : slice A.TransformSpec) :
    list B.FilterSpec * list B.TransformSpec :=
  (map autoConvert_v1alpha1_FilterSpec (elems filters), map autoConvert_v1alpha1_TransformSpec (elems transforms)).

Section Validate.
Context `{OTTLParsers}.

Definition trace_validate_alpha (pipeline : A.TracePipeline) : admission :=
  let '(fs, ts) :=
    ConvertFilterTransformToBeta (A.tps_Filters (A.tp_Spec pipeline)) (A.tps_Transforms (A.tp_Spec pipeline)) in
  ([], trace_validateFilterTransform fs ts).

Definition metric_validate_alpha (pipeline : A.MetricPipeline) : admission :=
  let '(fs, ts) :=
    ConvertFilterTransformToBeta (A.ms_Filters (A.mp_Spec pipeline)) (A.ms_Transforms (A.mp_Spec pipeline)) in
  ([], or_return (metric_validateFilterTransform fs ts)
         (match MetricPipeline_ConvertTo true pipeline with
          | Err e => Some e
          | Ok v1beta1MetricPipeline => ValidateAdditionalMetrics v1beta1MetricPipeline
          end)).

Definition renderDeprecationWarningAlpha (pipelineName attribute : string) : string :=
  "LogPipeline '" +:+ pipelineName +:+ "' uses the attribute '" +:+ attribute
  +:+ "' which is based on the deprecated FluentBit technology stack. Please migrate to an Open Telemetry based pipeline instead. See the documentation: "
  +:+ migrationGuideLink.

Definition isCustomFilterDefined (filters : slice A.FluentBitFilter) : bool :=
  existsb (fun f => negb (str_eqb (A.fbf_Custom f) "")) (elems filters).
Definition isCustomOutputDefined (o : A.LogPipelineOutput) : bool := negb (str_eqb (A.lo_FluentBitCustom o) "").
Definition isHTTPOutputDefined (o : A.LogPipelineOutput) : bool := isSome (A.lo_FluentBitHTTP o).
Definition isVariablesDefined (v : slice A.FluentBitVariable) : bool := (0 <? slen v)%nat.
Definition isFilesDefined (v : slice A.FluentBitFile) : bool := (0 <? slen v)%nat.

(** [isApplicationInputEnabled(i) && f(i.Application)] *)
Definition application_and (f : A.LogPipelineApplicationInput -> bool) (i : A.LogPipelineInput) : bool :=
  match A.li_Application i with Some a => deref (A.ai_Enabled a) false && f a | None => false end.

Definition log_warnings_alpha (pipeline : A.LogPipeline) : list string :=
  let name := om_Name (A.lp_ObjectMeta pipeline) in
  let s := A.lp_Spec pipeline in
  (warn (isCustomFilterDefined (A.ls_FluentBitFilters s)) (renderDeprecationWarningAlpha name "filters")
   ++ warn (isCustomOutputDefined (A.ls_Output s)) (renderDeprecationWarningAlpha name "output.custom")
   ++ warn (isHTTPOutputDefined (A.ls_Output s)) (renderDeprecationWarningAlpha name "output.http")
   ++ warn (isVariablesDefined (A.ls_FluentBitVariables s)) (renderDeprecationWarningAlpha name "variables")
   ++ warn (isFilesDefined (A.ls_FluentBitFiles s)) (renderDeprecationWarningAlpha name "files")
   ++ warn (application_and (fun a => isSome (A.ai_FluentBitDropLabels a)) (A.ls_Input s))
        (renderDeprecationWarningAlpha name "input.application.dropLabels")
   ++ warn (application_and (fun a => isSome (A.ai_FluentBitKeepAnnotations a)) (A.ls_Input s))
        (renderDeprecationWarningAlpha name "input.application.keepAnnotations"))%list.

Definition log_validate_alpha (pipeline : A.LogPipeline) : admission :=
  let '(fs, ts) :=
    ConvertFilterTransformToBeta (A.ls_Filters (A.lp_Spec pipeline)) (A.ls_Transforms (A.lp_Spec pipeline)) in
  match log_validateFilterTransform fs ts with
  | Some err => ([], Some err)
  | None => (log_warnings_alpha pipeline, None)
  end.

End Validate.
