(* ===== verification/WebhookProps.v ===== *)
(** * Theorems about the admission webhooks

    What an admitted pipeline looks like: the defaults are complete, keep what the user
    set and agree between the two API versions; an accepted pipeline passes the checks
    that the reconcilers make later. *)
From stdpp Require Import base gmap strings list.
From S2P Require Import Prelude Kube GoErrors.
From S2P Require Import Conversion ConversionProps ApiV1beta1 Coordination MetricInputs Validators.
From S2P Require Import Conditions FluentBitReconciler Webhook.
Local Open Scope string_scope.

(** ** Complete specifications *)

(** A field that has to be set when the condition holds. *)
Definition set_when {T} (c : bool) (f : option T) : Prop := c = true -> is_Some f.

Definition complete_output (o : option OTLPOutput) : Prop :=
  match o with Some x => oo_Protocol x <> "" | None => True end.

Definition complete_otlp_input (i : option OTLPInput) : Prop :=
  match i with
  | Some x => is_Some (oi_Enabled x) /\ set_when (deref (oi_Enabled x) false) (oi_Namespaces x)
  | None => False
  end.

Definition complete_prometheus (i : MetricPipelinePrometheusInput) : Prop :=
  set_when (is_true (pi_Enabled i)) (pi_Namespaces i) /\ set_when (is_true (pi_Enabled i)) (pi_DiagnosticMetrics i).

Definition complete_istio (i : MetricPipelineIstioInput) : Prop :=
  set_when (is_true (ii_Enabled i)) (ii_Namespaces i) /\ set_when (is_true (ii_Enabled i)) (ii_DiagnosticMetrics i) /\
  set_when (is_true (ii_Enabled i)) (ii_EnvoyMetrics i).

Definition complete_resources (r : MetricPipelineRuntimeInputResources) : Prop :=
  is_Some (rrs_Pod r) /\ is_Some (rrs_Container r) /\ is_Some (rrs_Node r) /\ is_Some (rrs_Volume r) /\
  is_Some (rrs_DaemonSet r) /\ is_Some (rrs_Deployment r) /\ is_Some (rrs_StatefulSet r) /\ is_Some (rrs_Job r).

Definition complete_runtime (i : MetricPipelineRuntimeInput) : Prop :=
  is_true (mri_Enabled i) = true ->
  is_Some (mri_Namespaces i) /\ from_option complete_resources False (mri_Resources i).

Definition complete_metric (p : MetricPipeline) : Prop :=
  let i := ms_Input (mp_Spec p) in
  from_option complete_prometheus True (mi_Prometheus i) /\ from_option complete_runtime True (mi_Runtime i) /\
  from_option complete_istio True (mi_Istio i) /\ complete_otlp_input (mi_OTLP i) /\
  match mout_OTLP (ms_Output (mp_Spec p)) with
  | Some o => complete_output (Some (mo_OTLPOutput o)) /\ is_Some (mo_Temporality o)
  | None => True
  end.

Definition complete_trace (p : TracePipeline) : Prop := complete_output (tout_OTLP (tps_Output (tp_Spec p))).

Definition complete_log_runtime (i : option LogPipelineRuntimeInput) : Prop :=
  match i with
  | Some r =>
      is_Some (lri_Enabled r) /\ set_when (deref (lri_Enabled r) false) (lri_Namespaces r) /\
      set_when (deref (lri_Enabled r) false) (lri_KeepOriginalBody r)
  | None => False
  end.

Definition complete_log (p : LogPipeline) : Prop :=
  let s := lp_Spec p in
  complete_log_runtime (li_Runtime (ls_Input s)) /\ complete_output (lo_OTLP (ls_Output s)) /\
  (isOTLPPipeline p = true -> complete_otlp_input (li_OTLP (ls_Input s))).

(** ** Lemmas about the pieces *)

Lemma with_protocol_complete protocol o :
  protocol <> "" -> oo_Protocol (with_protocol protocol o) <> "".
Proof. intros Hp. unfold with_protocol. destruct (str_eqb _ _) eqn:He; [done|by apply str_eqb_false in He]. Qed.

Lemma with_protocol_fixed protocol o : oo_Protocol o <> "" -> with_protocol protocol o = o.
Proof. intros Hp. unfold with_protocol. by rewrite (proj2 (str_eqb_false _ _) Hp). Qed.

Lemma or_default_fixed {T} (f : option T) v : is_Some f -> or_default f v = f.
Proof. by intros [x ->]. Qed.

Lemma set_when_default {T} (c : bool) (f : option T) v : set_when c (or_default f v).
Proof. intros _. apply or_default_some. Qed.

#[export] Hint Resolve set_when_default with_protocol_complete : go.
#[export] Hint Rewrite @or_default_fixed with_protocol_fixed using done : go.

Lemma default_otlp_input_complete enabled i : complete_otlp_input (Some (default_otlp_input enabled i)).
Proof.
  unfold default_otlp_input. simpl. split; [apply or_default_some|].
  intros H. rewrite H. apply or_default_some.
Qed.

Lemma default_otlp_input_fixed enabled i : complete_otlp_input i -> Some (default_otlp_input enabled i) = i.
Proof.
  destruct i as [[en ns]|]; [|done]. intros [[b Hb] Hn]. simpl in *. subst en. unfold default_otlp_input. simpl in *.
  destruct b; [|done]. by rewrite or_default_fixed by by apply Hn.
Qed.

Lemma default_runtime_complete md i : complete_runtime (default_runtime md i).
Proof. intros _. simpl. split; [apply or_default_some|]. repeat split; apply or_default_some. Qed.

Lemma default_runtime_fixed md i : is_true (mri_Enabled i) = true -> complete_runtime i -> default_runtime md i = i.
Proof.
  intros He Hc. destruct (Hc He) as [Hn Hr]. destruct i as [en ns [[a b c d e f g h]|] am]; [|done].
  simpl in *. destruct Hr as (?&?&?&?&?&?&?&?). unfold default_runtime, applyRuntimeInputResourceDefaults. simpl in *.
  by rewrite !or_default_fixed by done.
Qed.

Lemma default_prometheus_complete md i : complete_prometheus (default_prometheus md i).
Proof. split; apply set_when_default. Qed.

Lemma default_istio_complete md i : complete_istio (default_istio md i).
Proof. split_and!; apply set_when_default. Qed.

Lemma default_prometheus_fixed md i :
  is_true (pi_Enabled i) = true -> complete_prometheus i -> default_prometheus md i = i.
Proof.
  intros He [H1 H2]. destruct i as [en ns dm]. unfold default_prometheus. simpl in *.
  by rewrite !or_default_fixed by auto.
Qed.

Lemma default_istio_fixed md i :
  is_true (ii_Enabled i) = true -> complete_istio i -> default_istio md i = i.
Proof.
  intros He (H1 & H2 & H3). destruct i as [en ns dm em]. unfold default_istio. simpl in *.
  by rewrite !or_default_fixed by auto.
Qed.

Lemma default_log_runtime_complete ld i : complete_log_runtime (Some (default_log_runtime ld i)).
Proof.
  unfold default_log_runtime. simpl. split_and!; [apply or_default_some| |];
    intros H; rewrite H; apply or_default_some.
Qed.

Lemma default_log_runtime_fixed ld i : complete_log_runtime i -> Some (default_log_runtime ld i) = i.
Proof.
  destruct i as [[en ns cs ka dl kb]|]; [|done]. intros ([b Hb] & Hn & Hk). simpl in *. subst en.
  unfold default_log_runtime. simpl in *. destruct b; [|done]. by rewrite !or_default_fixed by auto.
Qed.

(** ** Defaults are complete, and complete pipelines are left alone *)

Lemma metric_default_complete md p :
  md_DefaultOTLPOutputProtocol md <> "" -> complete_metric (MetricDefault md p).
Proof.
  intros Hp. unfold complete_metric, MetricDefault. simpl. split; [|split; [|split; [|split]]].
  - unfold IsPrometheusInputEnabled. destruct (mi_Prometheus _) as [i|]; simpl; [|done].
    destruct (is_true _) eqn:He; simpl; [apply default_prometheus_complete|]. split; intros H; congruence.
  - unfold IsRuntimeInputEnabled. destruct (mi_Runtime _) as [i|]; simpl; [|done].
    destruct (is_true _) eqn:He; simpl; [apply default_runtime_complete|]. intros H. simpl in H. congruence.
  - unfold IsIstioInputEnabled. destruct (mi_Istio _) as [i|]; simpl; [|done].
    destruct (is_true _) eqn:He; simpl; [apply default_istio_complete|]. split_and!; intros H; congruence.
  - apply default_otlp_input_complete.
  - unfold applyOTLPOutputDefaults. simpl. destruct (mout_OTLP _) as [o|]; simpl; [|done]. split; [by apply with_protocol_complete|apply or_default_some].
Qed.

Lemma metric_default_fixed md p : complete_metric p -> MetricDefault md p = p.
Proof.
  destruct p as [m [[pr rt ist ot] [out] ts fs] st]. unfold complete_metric. simpl.
  intros (Hp & Hr & Hi & Ho & Hout). unfold MetricDefault. simpl. do 2 f_equal; [f_equal|].
  - unfold IsPrometheusInputEnabled. simpl. destruct pr as [i|]; [|done]. destruct (is_true _) eqn:He; [|done].
    simpl. by rewrite default_prometheus_fixed.
  - unfold IsRuntimeInputEnabled. simpl. destruct rt as [i|]; [|done]. destruct (is_true _) eqn:He; [|done].
    simpl. by rewrite default_runtime_fixed.
  - unfold IsIstioInputEnabled. simpl. destruct ist as [i|]; [|done]. destruct (is_true _) eqn:He; [|done].
    simpl. by rewrite default_istio_fixed.
  - by apply default_otlp_input_fixed.
  - unfold applyOTLPOutputDefaults. simpl. destruct out as [[o t]|]; [|done]. simpl in *. destruct Hout as [H1 H2].
    by rewrite with_protocol_fixed, or_default_fixed.
Qed.

Lemma trace_default_complete td p : td <> "" -> complete_trace (TraceDefault td p).
Proof.
  intros Hp. unfold complete_trace, TraceDefault. simpl. destruct (tout_OTLP _); simpl; [|done].
  by apply with_protocol_complete.
Qed.

Lemma trace_default_fixed td p : complete_trace p -> TraceDefault td p = p.
Proof.
  destruct p as [m [[out] ts fs] st]. unfold complete_trace, TraceDefault. simpl. intros Hp.
  destruct out; simpl in *; [|done]. by rewrite with_protocol_fixed.
Qed.

Lemma log_default_complete ld p : ld_DefaultOTLPOutputProtocol ld <> "" -> complete_log (LogDefault ld p).
Proof.
  intros Hp. unfold complete_log, isOTLPPipeline. simpl. split; [|split].
  - apply default_log_runtime_complete.
  - destruct (lo_OTLP _); simpl; [|done]. by apply with_protocol_complete.
  - unfold isOTLPPipeline. destruct (lo_OTLP _); simpl; [|done]. intros _. apply default_otlp_input_complete.
Qed.

Lemma log_default_fixed ld p : complete_log p -> LogDefault ld p = p.
Proof.
  destruct p as [m [[rt ot] ff [cu ht out] fi va ts fs] st]. unfold complete_log, isOTLPPipeline. simpl.
  intros (Hr & Ho & Hi). unfold LogDefault, isOTLPPipeline. simpl. do 2 f_equal; [f_equal|f_equal].
  - by apply default_log_runtime_fixed.
  - destruct out; simpl in *; [|done]. by apply default_otlp_input_fixed, Hi.
  - destruct out; simpl in *; [|done]. by rewrite with_protocol_fixed.
Qed.

(** C22. The defaulting webhooks establish the well-formedness of pipeline
    specifications: what they produce is complete (every field that the enabled
    inputs and the output of the kind need is set), and they leave a pipeline
    alone exactly when it is complete already, so that defaulting is idempotent;
    for Metric-, Trace- and LogPipelines. *)
Theorem admitted_pipelines_complete :
  (forall p, complete_metric (MetricDefault metric_defaulter p) /\
             (MetricDefault metric_defaulter p = p <-> complete_metric p)) /\
  (forall p, complete_trace (TraceDefault trace_defaulter p) /\
             (TraceDefault trace_defaulter p = p <-> complete_trace p)) /\
  (forall p, complete_log (LogDefault log_defaulter p) /\ (LogDefault log_defaulter p = p <-> complete_log p)).
Proof.
  split_and!; intros p; (split; [|split; [intros <-|]]).
  all: first [by apply metric_default_complete | by apply metric_default_fixed
             | by apply trace_default_complete | by apply trace_default_fixed
             | by apply log_default_complete | by apply log_default_fixed].
Qed.

(** ** The two API versions *)

Definition otlp_not_disabled (i : option A.OTLPInput) : bool :=
  match i with Some x => negb (A.oi_Disabled x) | None => true end.
Definition application_not_disabled (i : option A.LogPipelineApplicationInput) : bool :=
  match i with Some x => deref (A.ai_Enabled x) true | None => true end.

Lemma with_protocol_convert protocol o :
  protocol <> "" ->
  with_protocol protocol (autoConvert_v1alpha1_OTLPOutput (with_protocol_alpha protocol o)) =
  with_protocol protocol (autoConvert_v1alpha1_OTLPOutput o).
Proof.
  intros Hp. unfold with_protocol_alpha. destruct (str_eqb (A.oo_Protocol o) "") eqn:He; [|done].
  unfold with_protocol. simpl. by rewrite He, (proj2 (str_eqb_false _ _) Hp).
Qed.

Lemma or_default_convert {S T} (f : S -> T) (x : option S) v w :
  f v = w -> or_default (f <$> or_default x v) w = or_default (f <$> x) w.
Proof. intros <-. by destruct x. Qed.

Lemma system_names_valid : sanitizeNamespaceNames (Some System) = Some System.
Proof. vm_compute. reflexivity. Qed.

Lemma default_prometheus_convert i :
  default_prometheus metric_defaulter
    (autoConvert_v1alpha1_MetricPipelinePrometheusInput (default_prometheus_alpha metric_defaulter_alpha i)) =
  default_prometheus metric_defaulter (autoConvert_v1alpha1_MetricPipelinePrometheusInput i).
Proof.
  unfold default_prometheus, autoConvert_v1alpha1_MetricPipelinePrometheusInput, default_prometheus_alpha. simpl.
  f_equal; by apply or_default_convert.
Qed.

Lemma default_istio_convert i :
  default_istio metric_defaulter
    (autoConvert_v1alpha1_MetricPipelineIstioInput (default_istio_alpha metric_defaulter_alpha i)) =
  default_istio metric_defaulter (autoConvert_v1alpha1_MetricPipelineIstioInput i).
Proof.
  unfold default_istio, autoConvert_v1alpha1_MetricPipelineIstioInput, default_istio_alpha. simpl.
  f_equal; by apply or_default_convert.
Qed.

Abbreviation convert_runtime r :=
  (Convert_v1alpha1_MetricPipelineRuntimeInput_To_v1beta1_MetricPipelineRuntimeInput r).2.

Lemma default_runtime_convert i :
  default_runtime metric_defaulter (convert_runtime (default_runtime_alpha metric_defaulter_alpha i)) =
  default_runtime metric_defaulter (convert_runtime i).
Proof.
  destruct i as [en ns rs am]. unfold default_runtime, applyRuntimeInputResourceDefaults. simpl. f_equal.
  - destruct ns; [done|]. cbn -[sanitizeNamespaceNames System].
    by rewrite system_names_valid.
  - destruct rs as [[[?|] [?|] [?|] [?|] [?|] [?|] [?|] [?|]]|]; done.
Qed.

Lemma default_otlp_input_convert i :
  otlp_not_disabled i = true ->
  default_otlp_input true (Some (Convert_v1alpha1_OTLPInput_To_v1beta1_OTLPInput (default_otlp_input_alpha i))) =
  default_otlp_input true (Convert_v1alpha1_OTLPInput_To_v1beta1_OTLPInput <$> i).
Proof. destruct i as [[[] ns]|]; [done| |done]. by destruct ns. Qed.

Lemma metric_default_convert p :
  otlp_not_disabled (A.mi_OTLP (A.ms_Input (A.mp_Spec p))) = true ->
  MetricDefault metric_defaulter
    (autoConvert_v1alpha1_MetricPipeline (MetricDefaultAlpha metric_defaulter_alpha p)) =
  MetricDefault metric_defaulter (autoConvert_v1alpha1_MetricPipeline p).
Proof.
  destruct p as [m [[pr rt ist ot] [out] ts fs] st]. simpl. intros Ho.
  unfold MetricDefault, autoConvert_v1alpha1_MetricPipeline, autoConvert_v1alpha1_MetricPipelineSpec. simpl.
  do 2 f_equal; [f_equal|].
  - unfold IsPrometheusInputEnabled, prometheusInputEnabled. simpl. destruct pr as [i|]; [|done].
    simpl. destruct (is_true (A.pi_Enabled i)) eqn:He; simpl; rewrite He; [|done]. by rewrite default_prometheus_convert.
  - unfold IsRuntimeInputEnabled, runtimeInputEnabled. simpl. destruct rt as [i|]; [|done].
    simpl. destruct (is_true (A.mri_Enabled i)) eqn:He; simpl; rewrite He; [|done].
    f_equal. apply default_runtime_convert.
  - unfold IsIstioInputEnabled, istioInputEnabled. simpl. destruct ist as [i|]; [|done].
    simpl. destruct (is_true (A.ii_Enabled i)) eqn:He; simpl; rewrite He; [|done]. by rewrite default_istio_convert.
  - unfold applyOTLPInputDefaults. f_equal. by apply (default_otlp_input_convert ot).
  - unfold applyOTLPOutputDefaults. simpl. destruct out as [[o t]|]; [|done].
    unfold autoConvert_v1alpha1_MetricPipelineOTLPOutput. simpl. do 3 f_equal; [|by destruct t].
    by apply (with_protocol_convert "grpc" o).
Qed.

Lemma trace_default_convert p :
  TraceDefault trace_defaulter (autoConvert_v1alpha1_TracePipeline (TraceDefaultAlpha trace_defaulter_alpha p)) =
  TraceDefault trace_defaulter (autoConvert_v1alpha1_TracePipeline p).
Proof.
  destruct p as [m [[out] ts fs] st]. unfold TraceDefault. simpl. destruct out as [o|]; [|done].
  simpl. do 4 f_equal. by apply (with_protocol_convert "grpc" o).
Qed.

Lemma default_application_convert i :
  application_not_disabled i = true ->
  let convert i := li_Runtime (Convert_v1alpha1_LogPipelineInput_To_v1beta1_LogPipelineInput (A.mkLogInput i None)) in
  default_log_runtime log_defaulter (convert (Some (default_application log_defaulter_alpha i))) =
  default_log_runtime log_defaulter (convert i).
Proof.
  destruct i as [[en ns cs ka dl kb]|]; [|done]. simpl. intros He.
  unfold default_log_runtime. destruct en as [[]|]; simpl in *; [|done|]; by destruct kb.
Qed.

Lemma log_default_convert m s st :
  application_not_disabled (A.li_Application (A.ls_Input s)) = true ->
  otlp_not_disabled (A.li_OTLP (A.ls_Input s)) = true ->
  let convert p := mkLogPipeline (A.lp_ObjectMeta p) (autoConvert_v1alpha1_LogPipelineSpec (A.lp_Spec p))
                     (autoConvert_v1alpha1_LogPipelineStatus (A.lp_Status p)) in
  LogDefault log_defaulter (convert (LogDefaultAlpha log_defaulter_alpha (A.mkLogPipeline m s st))) =
  LogDefault log_defaulter (convert (A.mkLogPipeline m s st)).
Proof.
  destruct s as [[app ot] ff [cu ht out] fi va ts fs]. intros Ha Ho. simpl in Ha, Ho.
  unfold LogDefault, LogDefaultAlpha, isOTLPPipeline, isOTLPPipelineAlpha. cbn -[default_log_runtime].
  do 2 f_equal; [f_equal|f_equal].
  - f_equal. by apply (default_application_convert app).
  - destruct out; [|done]. cbn -[default_otlp_input]. f_equal. by apply (default_otlp_input_convert ot).
  - destruct out as [o|]; [|done]. cbn. f_equal. by apply (with_protocol_convert "grpc" o).
Qed.

(** A v1alpha1 pipeline with its defaults converts to a complete one. *)

Lemma convert_protocol_complete o :
  complete_output (Some (autoConvert_v1alpha1_OTLPOutput (with_protocol_alpha "grpc" o))).
Proof.
  unfold with_protocol_alpha. simpl. destruct (str_eqb _ _) eqn:He; [done|]. by apply str_eqb_false in He.
Qed.

Lemma or_default_fmap_some {S T} (f : S -> T) (x : option S) v : is_Some (f <$> or_default x v).
Proof. destruct x; simpl; eauto. Qed.

Lemma set_when_convert {S T} c (f : S -> T) (x : option S) v : set_when c (f <$> or_default x v).
Proof. intros _. apply or_default_fmap_some. Qed.

Lemma convert_otlp_input_complete i :
  complete_otlp_input (Some (Convert_v1alpha1_OTLPInput_To_v1beta1_OTLPInput (default_otlp_input_alpha i))).
Proof. split; [by eexists|]. intros _. destruct i as [[? [?|]]|]; simpl; by eexists. Qed.

Lemma metric_convert_complete p :
  complete_metric (autoConvert_v1alpha1_MetricPipeline (MetricDefaultAlpha metric_defaulter_alpha p)).
Proof.
  destruct p as [m [[pr rt ist ot] [out] ts fs] st]. unfold complete_metric. simpl.
  split; [|split; [|split; [|split]]].
  - unfold prometheusInputEnabled. simpl. destruct pr as [i|]; simpl; [|done].
    destruct (is_true (A.pi_Enabled i)) eqn:He; simpl; [split; apply set_when_convert|].
    split; intros H; simpl in H; congruence.
  - unfold runtimeInputEnabled. simpl. destruct rt as [i|]; simpl; [|done].
    destruct (is_true (A.mri_Enabled i)) eqn:He; simpl; [|intros H; simpl in H; congruence].
    intros _. simpl. split; [destruct (A.mri_Namespaces i); simpl; by eexists|]. repeat split; apply or_default_fmap_some.
  - unfold istioInputEnabled. simpl. destruct ist as [i|]; simpl; [|done].
    destruct (is_true (A.ii_Enabled i)) eqn:He; simpl; [split_and!; apply set_when_convert|].
    split_and!; intros H; simpl in H; congruence.
  - apply convert_otlp_input_complete.
  - destruct out as [[o t]|]; simpl; [|done]. split; [apply convert_protocol_complete|apply or_default_some].
Qed.

Lemma trace_convert_complete p :
  complete_trace (autoConvert_v1alpha1_TracePipeline (TraceDefaultAlpha trace_defaulter_alpha p)).
Proof.
  destruct p as [m [[[o|]] ts fs] st]; [|done]. apply convert_protocol_complete.
Qed.

Abbreviation convert_log p :=
  (mkLogPipeline (A.lp_ObjectMeta p) (autoConvert_v1alpha1_LogPipelineSpec (A.lp_Spec p))
     (autoConvert_v1alpha1_LogPipelineStatus (A.lp_Status p))).

Lemma log_convert_complete p : complete_log (convert_log (LogDefaultAlpha log_defaulter_alpha p)).
Proof.
  destruct p as [m [[app ot] ff [cu ht out] fi va ts fs] st].
  unfold complete_log, isOTLPPipeline, LogDefaultAlpha, isOTLPPipelineAlpha. simpl. split; [|split].
  - split_and!; [apply or_default_some|intros _; by eexists|intros _; apply or_default_some].
  - destruct out; [apply convert_protocol_complete|done].
  - destruct out; [|done]. intros _. apply convert_otlp_input_complete.
Qed.

(** The objects behind the references of the conversion, and a v1alpha1 LogPipeline with its defaults. *)
Definition alpha_object (h : heap) (p : LogPipelineA) : A.LogPipeline :=
  A.mkLogPipeline (load_meta h (a_Meta p)) (a_Spec p) (a_Status p).
Definition hub_object (h : heap) (p : LogPipelineB) : LogPipeline :=
  mkLogPipeline (load_meta h (b_Meta p)) (b_Spec p) (b_Status p).
Definition defaulted (h : heap) (p : LogPipelineA) : LogPipelineA :=
  mkLogPipelineA (a_Meta p) (A.lp_Spec (LogDefaultAlpha log_defaulter_alpha (alpha_object h p))) (a_Status p).

(** An object without the annotation in which [ConvertTo] keeps the source, and what this annotation holds. *)
Definition without_data (p : LogPipeline) : LogPipeline :=
  let m := lp_ObjectMeta p in
  mkLogPipeline (mkMeta (om_Name m) (om_UID m) (om_Generation m) (delete dataAnnotation <$> om_Annotations m) (om_Deleted m))
    (lp_Spec p) (lp_Status p).
Definition kept_data (p : LogPipeline) : option string := om_Annotations (lp_ObjectMeta p) ≫= (.!! dataAnnotation).

Lemma ConvertTo_hub `{LogPipelineJSON} h src h' b :
  ConvertTo true h src = Ok (h', b) ->
  exists d, json_encode (load_meta h (a_Meta src)) (a_Spec src) = Ok d /\
    let m := a_Meta src in
    hub_object h' b =
      mkLogPipeline (mkMeta (mr_Name m) (mr_UID m) (mr_Generation m)
                       (Some (<[dataAnnotation := d]> (default ∅ (annotations h m)))) (mr_Deleted m))
        (autoConvert_v1alpha1_LogPipelineSpec (a_Spec src)) (autoConvert_v1alpha1_LogPipelineStatus (a_Status src)).
Proof.
  unfold ConvertTo. cbn [negb]. intros Hc. destruct (marshalData h src (a_Meta src)) as [[h1 m1]|] eqn:Hm; [|done].
  injection Hc as <- <-. destruct (marshalData_spec _ _ _ _ _ Hm) as (d & Hd & Ha & _). exists d. split; [done|].
  cbn zeta. unfold hub_object, load_meta. cbn [b_Meta b_Spec b_Status]. rewrite Ha.
  assert (mr_Name m1 = mr_Name (a_Meta src) /\ mr_UID m1 = mr_UID (a_Meta src) /\
          mr_Generation m1 = mr_Generation (a_Meta src) /\ mr_Deleted m1 = mr_Deleted (a_Meta src)) as (-> & -> & -> & ->); [|done].
  unfold marshalData in Hm. rewrite Hd in Hm. by destruct (mr_Annotations (a_Meta src)); injection Hm as <- <-.
Qed.

(** C23. Defaulting in the v1alpha1 API and converting gives the same v1beta1
    object as converting and defaulting in the v1beta1 API, for pipelines of all
    three kinds that do not disable the OTLP input (and, for logs, the
    application input). For logs this is ConvertTo with its annotation: the
    objects agree but for the annotation with the conversion data, which holds
    the JSON of the v1alpha1 object that was converted, defaulted or not. *)
Theorem defaults_commute_with_conversion `{LogPipelineJSON} :
  (forall p, otlp_not_disabled (A.mi_OTLP (A.ms_Input (A.mp_Spec p))) = true ->
     autoConvert_v1alpha1_MetricPipeline (MetricDefaultAlpha metric_defaulter_alpha p) =
     MetricDefault metric_defaulter (autoConvert_v1alpha1_MetricPipeline p)) /\
  (forall p, autoConvert_v1alpha1_TracePipeline (TraceDefaultAlpha trace_defaulter_alpha p) =
             TraceDefault trace_defaulter (autoConvert_v1alpha1_TracePipeline p)) /\
  (forall h p h1 b1 h2 b2, application_not_disabled (A.li_Application (A.ls_Input (a_Spec p))) = true ->
     otlp_not_disabled (A.li_OTLP (A.ls_Input (a_Spec p))) = true ->
     ConvertTo true h (defaulted h p) = Ok (h1, b1) -> ConvertTo true h p = Ok (h2, b2) ->
     without_data (hub_object h1 b1) = without_data (LogDefault log_defaulter (hub_object h2 b2)) /\
     (exists d1 d2, kept_data (hub_object h1 b1) = Some d1 /\ kept_data (LogDefault log_defaulter (hub_object h2 b2)) = Some d2 /\
        json_encode (load_meta h (a_Meta p)) (a_Spec (defaulted h p)) = Ok d1 /\
        json_encode (load_meta h (a_Meta p)) (a_Spec p) = Ok d2)).
Proof.
  split; [|split].
  - intros p Ho. rewrite <- (metric_default_fixed metric_defaulter _ (metric_convert_complete p)).
    by apply metric_default_convert.
  - intros p. rewrite <- (trace_default_fixed trace_defaulter _ (trace_convert_complete p)).
    apply trace_default_convert.
  - intros h p h1 b1 h2 b2 Ha Ho (d1 & Hd1 & E1)%ConvertTo_hub (d2 & Hd2 & E2)%ConvertTo_hub. rewrite E1, E2.
    set (m := load_meta h (a_Meta p)). assert (Hs : convert_log (LogDefaultAlpha log_defaulter_alpha (A.mkLogPipeline m (a_Spec p) (a_Status p)))
      = LogDefault log_defaulter (convert_log (A.mkLogPipeline m (a_Spec p) (a_Status p)))).
    { rewrite <- (log_default_fixed log_defaulter _ (log_convert_complete _)). by apply log_default_convert. }
    apply (f_equal lp_Spec) in Hs. split.
    + unfold without_data. f_equal; [|exact Hs]. cbn. by rewrite !delete_insert_eq.
    + exists d1, d2. split_and!; [|..|done|done]; cbn; by rewrite lookup_insert_eq.
Qed.

Lemma defaults_commute_witness :
  exists h1 b1 h2 b2, ConvertTo true ∅ (defaulted ∅ ConversionProps.Sample.pipeline) = Ok (h1, b1) /\
    ConvertTo true ∅ ConversionProps.Sample.pipeline = Ok (h2, b2) /\
    without_data (hub_object h1 b1) = without_data (LogDefault log_defaulter (hub_object h2 b2)).
Proof.
  destruct (ConvertTo true ∅ (defaulted ∅ ConversionProps.Sample.pipeline)) as [[h1 b1]|] eqn:H1; [|discriminate H1].
  destruct (ConvertTo true ∅ ConversionProps.Sample.pipeline) as [[h2 b2]|] eqn:H2; [|discriminate H2].
  exists h1, b1, h2, b2. split; [reflexivity|]. split; [reflexivity|].
  exact (proj1 (proj2 (proj2 defaults_commute_with_conversion) ∅ ConversionProps.Sample.pipeline h1 b1 h2 b2
                  eq_refl eq_refl H1 H2)).
Defined.

(** ** Accepted pipelines pass the checks of the reconcilers *)

Section Admission.
Context `{OTTLParsers} (filters transforms : SignalType -> OTTLParser).
Hypothesis filters_ok : forall t, NewFilterSpecValidator t = Ok (filters t).
Hypothesis transforms_ok : forall t, NewTransformSpecValidator t = Ok (transforms t).

Lemma ValidateFilterTransform_none t fs ts :
  ValidateFilterTransform t fs ts = None <->
  validate_filters (filters t) fs = None /\ validate_transforms (transforms t) ts = None.
Proof.
  unfold ValidateFilterTransform. rewrite filters_ok, transforms_ok. unfold or_return.
  destruct (validate_filters _ _); naive_solver.
Qed.

Lemma metric_webhook_accepts p :
  (metric_validate p).2 = None <->
  FilterSpecValidator_Validate (filters SignalTypeMetric) (ms_Filters (mp_Spec p)) = None /\
  TransformSpecValidator_Validate (transforms SignalTypeMetric) (ms_Transforms (mp_Spec p)) = None /\
  ValidateAdditionalMetrics p = None.
Proof.
  unfold metric_validate, metric_validateFilterTransform, or_return. simpl.
  pose proof (ValidateFilterTransform_none SignalTypeMetric (elems (ms_Filters (mp_Spec p)))
                (elems (ms_Transforms (mp_Spec p)))) as Hv.
  unfold FilterSpecValidator_Validate, TransformSpecValidator_Validate.
  destruct (ValidateFilterTransform _ _ _) eqn:He; simpl; naive_solver.
Qed.

Lemma trace_webhook_accepts p :
  (trace_validate p).2 = None <->
  FilterSpecValidator_Validate (filters SignalTypeTrace) (tps_Filters (tp_Spec p)) = None /\
  TransformSpecValidator_Validate (transforms SignalTypeTrace) (tps_Transforms (tp_Spec p)) = None.
Proof.
  unfold trace_validate, trace_validateFilterTransform. simpl. rewrite fmap_None.
  apply ValidateFilterTransform_none.
Qed.

Lemma log_webhook_accepts p :
  (log_validate p).2 = None <->
  FilterSpecValidator_Validate (filters SignalTypeLog) (ls_Filters (lp_Spec p)) = None /\
  TransformSpecValidator_Validate (transforms SignalTypeLog) (ls_Transforms (lp_Spec p)) = None.
Proof.
  unfold log_validate, log_validateFilterTransform.
  pose proof (ValidateFilterTransform_none SignalTypeLog (elems (ls_Filters (lp_Spec p)))
                (elems (ls_Transforms (lp_Spec p)))) as Hv.
  unfold FilterSpecValidator_Validate, TransformSpecValidator_Validate.
  destruct (ValidateFilterTransform _ _ _) eqn:He; simpl; naive_solver.
Qed.

(** The v1alpha1 webhook judges a pipeline as the v1beta1 webhook judges its conversion. *)

Lemma elems_smap {S T} (f : S -> T) s : elems (smap f s) = map f (elems s).
Proof. by destruct s. Qed.

Lemma metric_webhook_alpha p : metric_validate_alpha p = metric_validate (autoConvert_v1alpha1_MetricPipeline p).
Proof. unfold metric_validate_alpha, metric_validate. simpl. by rewrite !elems_smap. Qed.

Lemma trace_webhook_alpha p : trace_validate_alpha p = trace_validate (autoConvert_v1alpha1_TracePipeline p).
Proof. unfold trace_validate_alpha, trace_validate. simpl. by rewrite !elems_smap. Qed.

Lemma log_webhook_alpha p : (log_validate_alpha p).2 = (log_validate (convert_log p)).2.
Proof.
  unfold log_validate_alpha, log_validate, ConvertFilterTransformToBeta. simpl. rewrite !elems_smap.
  by destruct (log_validateFilterTransform _ _).
Qed.

(** Defaulting does not change the verdict. *)

Lemma additional_metrics_default md p : ValidateAdditionalMetrics (MetricDefault md p) = ValidateAdditionalMetrics p.
Proof.
  destruct p as [m [[pr rt ist ot] out ts fs] st]. unfold ValidateAdditionalMetrics. simpl.
  unfold IsRuntimeInputEnabled. simpl. destruct rt as [i|]; [|done].
  destruct (is_true (mri_Enabled i)) eqn:He; simpl; by rewrite He.
Qed.

Lemma metric_validate_default md p : metric_validate (MetricDefault md p) = metric_validate p.
Proof. unfold metric_validate. by rewrite additional_metrics_default. Qed.

(** The v1alpha1 webhook accepts a MetricPipeline exactly when its converted and
    defaulted form passes the transformation, filter and additional-metric
    checks of the reconciler. *)
Theorem webhook_accepts_iff_checks_pass p :
  (metric_validate_alpha p).2 = None <->
  let q := MetricDefault metric_defaulter (autoConvert_v1alpha1_MetricPipeline p) in
  FilterSpecValidator_Validate (filters SignalTypeMetric) (ms_Filters (mp_Spec q)) = None /\
  TransformSpecValidator_Validate (transforms SignalTypeMetric) (ms_Transforms (mp_Spec q)) = None /\
  ValidateAdditionalMetrics q = None.
Proof.
  cbv zeta. rewrite <- metric_webhook_accepts, metric_validate_default, metric_webhook_alpha. done.
Qed.

End Admission.

(** ** Examples *)

Module WebhookSample.

(** A parser that rejects the empty statement and the empty condition. *)
Definition non_empty (texts : list string) : option string :=
  if existsb (fun c => str_eqb c "") texts then Some "empty" else None.
Definition parser : OTTLParser := mkOTTLParser (fun s c => non_empty (s ++ c)%list) non_empty.
#[global] Instance parsers : OTTLParsers := {|
  NewFilterSpecValidator _ := Ok parser; NewTransformSpecValidator _ := Ok parser |}.

Definition metric (additional : slice string) : A.MetricPipeline :=
  A.mkMetricPipeline (mkMeta "m" "uid" 1 None false)
    (A.mkMetricSpec
       (A.mkMetricInput None (Some (A.mkMetricRuntimeInput (Some true) None None additional)) None None)
       (A.mkMetricOutput None) None (Some [A.mkFilterSpec (Some ["true"])]))
    (A.mkMetricStatus []).

End WebhookSample.

Lemma webhook_accepts_iff_checks_pass_witness :
  ValidateAdditionalMetrics
    (MetricDefault metric_defaulter
       (autoConvert_v1alpha1_MetricPipeline (WebhookSample.metric (Some ["k8s.deployment.desired"])))) = None /\
  (metric_validate_alpha (WebhookSample.metric (Some ["unknown"]))).2 <> None.
Proof.
  pose proof (webhook_accepts_iff_checks_pass (fun _ => WebhookSample.parser) (fun _ => WebhookSample.parser)
                (fun _ => eq_refl) (fun _ => eq_refl)) as Hw.
  split; [|vm_compute; discriminate].
  assert (Ha : (metric_validate_alpha (WebhookSample.metric (Some ["k8s.deployment.desired"]))).2 = None)
    by (vm_compute; reflexivity).
  exact (proj2 (proj2 (proj1 (Hw _) Ha))).
Defined.
