(* ===== verification/LogReconciler.v ===== *)
(** * The LogPipeline reconciler (internal/reconciler/logpipeline/reconciler.go)

    It loads the overrides, cleans up after deleted pipelines, synchronises the
    watched Secrets, acquires the synchronisation lock and hands the pipeline to the
    reconciler of its output type. *)
From stdpp Require Import base gmap strings list.
From S2P Require Import Prelude Kube GoErrors.
From S2P Require Import ApiV1beta1 SecretRef Lock Coordination CoordinationProps.
From S2P Require Import PipelineMetrics SelfMonitor Validators Reconcile SampleCluster.
From S2P Require Import LogOtelReconciler LogOtelReconcilerProps FluentBitReconciler FluentBitReconcilerProps.
Local Open Scope string_scope.

Definition ErrUnsupportedOutputType : string := "unsupported output type".

Section Log.
Context {W : Type} `{PipelineCluster W LogPipeline} `{ConfigMapClient W} `{GatewayYAML} `{OwnerSetter}.

(** [reconcilers]: the reconciler registered for an output type; [secretWatcher]
    tells whether a watcher was given. *)
Context (reconcilers : Mode -> option (W -> LogPipeline -> option (W * result ctrl_Result goerror))).
Context (secretWatcher : bool).

Definition log_syncSecretWatchers (w : W) (pipeline : LogPipeline) : W * option goerror :=
  if negb secretWatcher then (w, None)
  else SyncWatchers w pipeline (RefsToSecretNames (GetSecretRefsLogPipeline pipeline)).

(** [(r *Reconciler) Reconcile(ctx, req)]; a missing watcher is dereferenced when
    the pipeline is gone. *)
Definition log_Reconcile (r : ReconcilerConfig) (w : W) (name : string) :
    option (W * result ctrl_Result goerror) :=
  match LoadOverrides_Paused w with
  | Err e => Some (w, Err e)
  | Ok true => Some (w, Ok (mkResult None))
  | Ok false =>
      match pl_get w name with
      | Err e =>
          if negb (IsNotFound e) then Some (w, Err (ApiError e))
          else if negb secretWatcher then None
          else
            match RemoveFromWatchers w name with
            | (w, Some err) => Some (w, Err err)
            | (w, None) =>
                match RemovePipelineReference w (rc_TargetNamespace r) SignalTypeLog name with
                | (w, Some err) =>
                    Some (w, Err (Wrapf "failed to remove pipeline reference from OTLP Gateway Coordination ConfigMap: " err ""))
                | (w, None) => Some (w, Ok (mkResult None))
                end
            end
      | Ok pipeline =>
          match log_syncSecretWatchers w pipeline with
          | (w, Some err) => Some (w, Err err)
          | (w, None) =>
              match TryAcquireLock (rc_pipelineSync r) w (owner_of (lp_ObjectMeta pipeline)) with
              | (w, Some err) =>
                  Some (w, if errors_is err ErrMaxPipelinesExceeded then Ok (mkResult None) else Err err)
              | (w, None) =>
                  match reconcilers (GetOutputType pipeline) with
                  | None =>
                      Some (w, Err (Wrapf "" (NewError ErrUnsupportedOutputType)
                                      (": " +:+ Mode_String (GetOutputType pipeline))))
                  | Some reconcile => reconcile w pipeline
                  end
              end
          end
      end
  end.

(** A pipeline that is gone disappears from the coordination ConfigMap, and nothing
    else changes there. *)
Lemma log_Reconcile_deleted `{!ConfigMapLaws W} `{!GatewayYAMLLaws} `{!PipelineClusterLaws W LogPipeline}
    r (w : W) name w' res c :
  LoadOverrides_Paused w = Ok false -> pl_get w name = Err NotFound ->
  ReadOTLPGatewayConfig w (rc_TargetNamespace r) = Ok c -> config_wf c ->
  log_Reconcile r w name = Some (w', Ok res) ->
  exists c', ReadOTLPGatewayConfig w' (rc_TargetNamespace r) = Ok c' /\ config_wf c' /\
    publishes c c' SignalTypeLog name None.
Proof.
  intros Hp Hg Hc Hwf Hr. unfold log_Reconcile in Hr. rewrite Hp, Hg in Hr. simpl in Hr.
  destruct (negb secretWatcher); [done|].
  destruct (RemoveFromWatchers w name) as [w1 [e|]] eqn:Hw; [done|].
  destruct (RemovePipelineReference _ _ _ _) as [w2 [e|]] eqn:Hrm; simplify_eq.
  eapply RemovePipelineReference_publishes; [|exact Hwf|exact Hrm].
  rewrite <- Hc. apply ReadOTLPGatewayConfig_frame. by eapply remove_watchers_frame.
Qed.

End Log.

(** ** Isolation from the OTLP gateway *)

Section Isolation.
Context {W : Type} `{PipelineValidators W LogPipeline} `{PipelineCluster W LogPipeline}.
Context `{FluentBitAgents W} `{ConfigMapLaws W} `{GatewayYAML} `{OwnerSetterLaws}.
Context (r : FluentBitConfig).

Lemma IsReconcilable_frame (w : W) p w' res k :
  IsReconcilable r w p = (w', res) -> k <> ck_lockName (fc_validatorLock r) -> cm_get w' k = cm_get w k.
Proof.
  unfold IsReconcilable, fluentbit_Validate. intros Hr Hk.
  destruct (fc_OperateInFIPSMode r); [by simplify_eq|]. destruct (om_Deleted _); [by simplify_eq|].
  destruct (match _ with Some b => negb b | None => false end); [by simplify_eq|].
  destruct (TryAcquireLock _ w _) as [w1 acquired] eqn:Hl.
  assert (w' = w1) as -> by (destruct acquired; by simplify_eq). by eapply TryAcquireLock_frame.
Qed.

Lemma reconcilable_frame all : forall (w w' : W) res k,
  fluentbit_getReconcilablePipelines r w all = (w', res) -> k <> ck_lockName (fc_validatorLock r) ->
  cm_get w' k = cm_get w k.
Proof.
  induction all as [|p all IH]; intros w w' res k; cbn [fluentbit_getReconcilablePipelines]; [by intros [= <- _]|].
  destruct (IsReconcilable r w p) as [w1 [b|e]] eqn:Hr; [|intros [= <- _] Hk; by eapply IsReconcilable_frame].
  destruct (fluentbit_getReconcilablePipelines r w1 all) as [w2 res2] eqn:Hrest.
  intros Hres Hk. assert (w' = w2) as -> by (destruct res2; by simplify_eq).
  rewrite (IH _ _ _ _ Hrest Hk). by eapply IsReconcilable_frame.
Qed.

(** The resources of Fluent Bit are not the coordination ConfigMap. *)
Class FluentBitAgentsLaws (ns : string) := {
  fb_apply_frame (w : W) p c b w' e : fb_ApplyResources w p c b = (w', e) ->
    cm_get w' (coordination_key ns) = cm_get w (coordination_key ns);
  fb_delete_frame (w : W) w' e : fb_DeleteResources w = (w', e) ->
    cm_get w' (coordination_key ns) = cm_get w (coordination_key ns)
}.

(** Reconciling a pipeline with Fluent Bit output leaves what is published for the
    OTLP gateway alone, whatever its outcome. *)
Lemma fluentbit_leaves_coordination `{!FluentBitAgentsLaws ns} (w : W) p w' e :
  ck_lockName (fc_pipelineLock r) <> coordination_key ns ->
  ck_lockName (fc_validatorLock r) <> coordination_key ns ->
  fluentbit_doReconcile r w p = Some (w', e) ->
  ReadOTLPGatewayConfig w' ns = ReadOTLPGatewayConfig w ns.
Proof.
  intros Hk Hv Hr. apply ReadOTLPGatewayConfig_frame. unfold fluentbit_doReconcile in Hr.
  destruct (TryAcquireLock _ w _) as [w1 [err|]] eqn:Hl;
    (rewrite <- (TryAcquireLock_frame _ _ _ _ _ (coordination_key ns) Hl) by congruence); [by simplify_eq|].
  destruct (GetPipelinesForType w1 FluentBit) as [all|]; [|by simplify_eq].
  destruct (fluentbit_trackPipelineInfoMetric w1 all); [|done]. simpl in Hr. injection Hr as Hr.
  unfold fluentbit_deploy in Hr.
  destruct (fluentbit_getReconcilablePipelines r w1 all) as [w2 [ps|]] eqn:Hg;
    apply (reconcilable_frame _ _ _ _ (coordination_key ns)) in Hg; try congruence.
  rewrite <- Hg. destruct ps as [|q qs].
  - destruct (fb_DeleteResources w2) as [w3 err] eqn:Hd. simplify_eq. by eapply fb_delete_frame.
  - destruct (fb_Build w2 (q :: qs)); [|by simplify_eq]. destruct (fb_IsIstioActive w2); [|by simplify_eq].
    by eapply fb_apply_frame.
Qed.

End Isolation.
