(* ===== verification/ValidatorInstances.v ===== *)
(** * The validators behind the interfaces

    [PipelineValidators] for TracePipelines and MetricPipelines, built from the
    Secret reference, endpoint, TLS, lock and OTTL validators of this development
    (main.go wires the same objects), with the proofs that they keep
    [PipelineValidatorLaws]. With them the [validate] functions of the reconcilers
    are characterised down to the Secrets, the endpoint and the lock. *)
From stdpp Require Import base gmap strings list.
From S2P Require Import Prelude Kube GoErrors.
From S2P Require Import ApiV1beta1 SecretRef Lock Endpoint.
From S2P Require Import TLSCert SampleCluster MetricInputs Validators Reconcile.
From S2P Require Import TraceReconciler MetricReconciler.
Local Open Scope string_scope.

(** What the validators are made of: the readers of Secrets and of the clock on a
    cluster state, the lock, and the OTTL parsers for transformations and filters. *)
Record ValidatorParts (W : Type) := mkParts {
  vp_secrets : W -> SecretReader;
  vp_clock : W -> nat -> Z;
  vp_lock : Checker;
  vp_transforms : OTTLParser;
  vp_filters : OTTLParser
}.
Arguments mkParts {W} _ _ _ _ _.
Arguments vp_secrets {W} _ _.
Arguments vp_clock {W} _ _ _.
Arguments vp_lock {W} _.
Arguments vp_transforms {W} _.
Arguments vp_filters {W} _.

(** An OTLP output as the CRD admits it: the protocol is one of the two of its
    enumeration. *)
Definition admitted_protocol (otlp : OTLPOutput) : Prop :=
  oo_Protocol otlp ∈ [OTLPProtocolGRPC; OTLPProtocolHTTP].

Definition endpoint_params (otlp : OTLPOutput) : EndpointValidationParams :=
  mkEndpointParams (Some (oo_Endpoint otlp)) (oo_Protocol otlp) (oo_TLS otlp)
    (match oo_Authentication otlp with Some a => ao_OAuth2 a | None => None end).

(** A transformation and a filter that parse. *)
Definition transform_parses (p : OTTLParser) (t : TransformSpec) : Prop :=
  ParseStatements p (elems (ts_Statements t)) (elems (ts_Conditions t)) = None /\
  (elems (ts_Conditions t) <> [] -> ParseConditions p (elems (ts_Conditions t)) = None).

Definition filter_parses (p : OTTLParser) (f : FilterSpec) : Prop :=
  elems (fs_Conditions f) <> [] -> ParseConditions p (elems (fs_Conditions f)) = None.

Lemma parseConditions_none p cs : parseConditions p cs = None <-> (cs <> [] -> ParseConditions p cs = None).
Proof.
  unfold parseConditions. destruct cs as [|c cs]; [by split|]. rewrite fmap_None. split; [done|]. intros Hc. by apply Hc.
Qed.

Lemma validate_transforms_none p ts : validate_transforms p ts = None <-> Forall (transform_parses p) ts.
Proof.
  induction ts as [|t ts IH]; simpl; [by split|].
  rewrite or_return_none, Forall_cons, IH. unfold ValidateStatementsAndConditions, parseStatementsWithConditions, transform_parses.
  by rewrite or_return_none, !fmap_None, parseConditions_none.
Qed.

Lemma validate_filters_none p fs : validate_filters p fs = None <-> Forall (filter_parses p) fs.
Proof.
  induction fs as [|f fs IH]; simpl; [by split|].
  rewrite or_return_none, Forall_cons, IH. unfold ValidateConditions. by rewrite fmap_None, parseConditions_none.
Qed.

Lemma known_metric m :
  m ∈ validRuntimeMetrics <-> m ∈ KubeletStatsReceiverMetrics \/ m ∈ K8sClusterReceiverMetrics.
Proof. apply elem_of_app. Qed.

Lemma endpoint_error_invalid e : is_endpoint_error e -> is_endpoint_invalid e.
Proof.
  intros [(s & -> & Hs)|?]; [|by right]. left. exists s. split; [done|].
  unfold endpoint_sentinels in Hs. rewrite !elem_of_cons in Hs.
  rewrite !not_elem_of_cons. destruct Hs as [->|[->|[->|[->|[->|[->|?%not_elem_of_nil]]]]]]; [..|done];
    (repeat split; try done; apply not_elem_of_nil).
Qed.

Section Instances.
Context {W : Type} `{ConfigMapClient W} `{CryptoLib} `{URLLib} (vp : ValidatorParts W).

(** The validators of pipelines [P] whose Secret references are [refs_of] and whose
    metadata is [meta_of]. A panic (no OTLP output, or a protocol outside the
    enumeration) is not represented here; [admitted_protocol] excludes it. *)
Definition validators_of {P} (refs_of : P -> option (list SecretKeyRef)) (meta_of : P -> ObjectMeta) :
    PipelineValidators W P := {|
  SecretRefValidator w p := default None (@validate_refs (vp_secrets vp w) <$> refs_of p);
  EndpointValidator w params := default None (@Endpoint.Validate (vp_secrets vp w) _ params);
  TLSCertValidator w params := @TLSCert.Validate (vp_secrets vp w) _ (vp_clock vp w) params;
  PipelineLock_IsLockHolder w p := IsLockHolder (vp_lock vp) w (owner_of (meta_of p));
  TransformSpecValidator := TransformSpecValidator_Validate (vp_transforms vp);
  FilterSpecValidator := FilterSpecValidator_Validate (vp_filters vp)
|}.

Lemma validators_of_laws {P} refs_of meta_of : @PipelineValidatorLaws W P (validators_of refs_of meta_of).
Proof.
  constructor; simpl.
  - intros w p e He. destruct (refs_of p) as [refs|]; simpl in He; [|done].
    exact (validate_refs_kind _ _ He).
  - intros w params e He. destruct (@Endpoint.Validate _ _ params) as [r|] eqn:Hv; simpl in He; [|done].
    subst. apply endpoint_error_invalid. exact (Validate_err _ _ Hv).
  - intros w params e. apply TLS_Validate_err.
  - intros w p e. apply Lock_IsLockHolder_err.
  - intros ts e. apply validate_transforms_err.
  - intros fs e. apply validate_filters_err.
Qed.

#[local] Instance trace_validators : PipelineValidators W TracePipeline :=
  validators_of GetSecretRefsTracePipeline tp_ObjectMeta.

#[local] Instance metric_validators : PipelineValidators W MetricPipeline :=
  validators_of GetSecretRefsMetricPipeline mp_ObjectMeta.

(** What a pipeline with the OTLP output [otlp], the metadata [m], the
    transformations [ts] and the filters [fs] must satisfy to be accepted. *)
Definition acceptable (w : W) (otlp : OTLPOutput) (m : ObjectMeta) (ts : slice TransformSpec)
    (fs : slice FilterSpec) : Prop :=
  Forall (@resolvable (vp_secrets vp w)) (omap value_ref (otlp_values otlp)) /\
  (exists t u, @value_text (vp_secrets vp w) (oo_Endpoint otlp) t /\ endpoint_url t u /\
     let oauth := oo_Authentication otlp ≫= ao_OAuth2 in
     if str_eqb (oo_Protocol otlp) "grpc" then grpc_endpoint (oo_TLS otlp) oauth u
     else http_endpoint (oo_TLS otlp) oauth u) /\
  (forall tls, oo_TLS otlp = Some tls ->
     @good_material (vp_secrets vp w) _ (vp_clock vp w) (mkTLSParams (tls_Cert tls) (tls_Key tls) (tls_CA tls))) /\
  (exists lock, cm_get w (ck_lockName (vp_lock vp)) = Ok lock /\ owner_of m ∈ cm_OwnerReferences lock) /\
  Forall (transform_parses (vp_transforms vp)) (elems ts) /\
  Forall (filter_parses (vp_filters vp)) (elems fs).

Lemma endpoint_none w otlp :
  admitted_protocol otlp ->
  default None (@Endpoint.Validate (vp_secrets vp w) _ (endpoint_params otlp)) = None <->
  exists t u, @value_text (vp_secrets vp w) (oo_Endpoint otlp) t /\ endpoint_url t u /\
    let oauth := oo_Authentication otlp ≫= ao_OAuth2 in
    if str_eqb (oo_Protocol otlp) "grpc" then grpc_endpoint (oo_TLS otlp) oauth u
    else http_endpoint (oo_TLS otlp) oauth u.
Proof.
  intros Hp. destruct (@Validate_returns (vp_secrets vp w) _ (endpoint_params otlp)) as [r Hr].
  { unfold admitted_protocol in Hp. simpl. set_solver. }
  trans (@Endpoint.Validate (vp_secrets vp w) _ (endpoint_params otlp) = Some None); [rewrite Hr; naive_solver|].
  apply (@Validate_exact (vp_secrets vp w)). unfold admitted_protocol in Hp. set_solver.
Qed.

Lemma any_isSome {A B C} (a : option A) (b : option B) (c : option C) :
  isSome a || isSome b || isSome c = true <-> is_Some a \/ is_Some b \/ is_Some c.
Proof. destruct a, b, c; simpl; (split; [eauto|done]) || (split; [done|]; by intros [[? ?]|[[? ?]|[? ?]]]). Qed.

Lemma tls_none w (b : option OutputTLS) :
  key_pair_needs_data ->
  (if match b with
      | Some tls => isSome (tls_Cert tls) || isSome (tls_Key tls) || isSome (tls_CA tls)
      | None => false
      end
   then match b with
        | Some tls => @TLSCert.Validate (vp_secrets vp w) _ (vp_clock vp w) (mkTLSParams (tls_Cert tls) (tls_Key tls) (tls_CA tls))
        | None => None
        end else None) = None <->
  (forall tls, b = Some tls ->
     @good_material (vp_secrets vp w) _ (vp_clock vp w) (mkTLSParams (tls_Cert tls) (tls_Key tls) (tls_CA tls))).
Proof.
  intros Hd. destruct b as [tls|]; [|naive_solver].
  pose proof (any_isSome (tls_Cert tls) (tls_Key tls) (tls_CA tls)) as Hb. destruct (_ || _ || _).
  - rewrite (@TLS_Validate_exact (vp_secrets vp w) _ _ _ Hd). naive_solver.
  - split; [|done]. intros _ ? [= <-]. unfold good_material. cbn.
    destruct (tls_Cert tls), (tls_Key tls), (tls_CA tls); try done; exfalso; by discriminate (proj2 Hb ltac:(eauto)).
Qed.


(** The same for a MetricPipeline, whose additional runtime metrics must
    moreover all be metrics of one of the two runtime receivers when the runtime
    input is enabled. *)
Theorem metric_validate_exact w p out :
  key_pair_needs_data ->
  mout_OTLP (ms_Output (mp_Spec p)) = Some out -> admitted_protocol (mo_OTLPOutput out) ->
  MetricReconciler.validate w p = None <->
  acceptable w (mo_OTLPOutput out) (mp_ObjectMeta p) (ms_Transforms (mp_Spec p)) (ms_Filters (mp_Spec p)) /\
  Forall (fun m => m ∈ KubeletStatsReceiverMetrics \/ m ∈ K8sClusterReceiverMetrics) (pipeline_metrics p).
Proof.
  intros Hd Ho Hp. unfold MetricReconciler.validate, MetricReconciler.endpoint_check, MetricReconciler.tls_check,
    MetricReconciler.tlsValidationRequired, otlp_output. rewrite !or_return_none, Ho. simpl.
  unfold GetSecretRefsMetricPipeline. rewrite Ho. simpl.
  fold (endpoint_params (mo_OTLPOutput out)). rewrite validate_refs_none, endpoint_none, tls_none, IsLockHolder_none by done.
  unfold TransformSpecValidator_Validate, FilterSpecValidator_Validate.
  rewrite validate_transforms_none, validate_filters_none, ValidateAdditionalMetrics_none.
  rewrite (Forall_iff _ _ _ known_metric). unfold acceptable. rewrite OTLP_refs_exact. tauto.
Qed.

End Instances.

(** ** Concrete runs *)

#[local] Existing Instance TLSCert.Sample.crypto.
#[local] Existing Instance Endpoint.Sample.urls.
Module Sample.

Definition lock : Checker := NewLocker (mkNN "kyma-system" "telemetry-pipeline-lock") MaxPipelineCount.

(** No Secrets, and a parser that rejects one statement. *)
Definition ottl : OTTLParser :=
  mkOTTLParser (fun ss _ => if bool_decide ("drop()" ∈ ss) then Some "unknown function" else None) (fun _ => None).

Definition parts {P} : ValidatorParts (cluster P) :=
  mkParts (fun _ _ => Err NotFound) (fun _ _ => 0%Z) lock ottl ottl.

Definition output : OTLPOutput :=
  mkOTLPOutput "grpc" (mkValueType "https://backend:4317" None) "" None None None "".

Definition meta : ObjectMeta := mkMeta "backend" "uid-1" 2 None false.

Definition transforms : slice TransformSpec :=
  Some [mkTransformSpec None (Some ["set(resource.attributes[0], 1)"])].

Definition trace : TracePipeline :=
  mkTracePipeline meta (mkTraceSpec (mkTraceOutput (Some output)) transforms None) (mkTraceStatus []).

Definition metric : MetricPipeline :=
  mkMetricPipeline meta
    (mkMetricSpec (mkMetricInput None (Some (mkMetricRuntimeInput (Some true) None None (Some ["k8s.node.condition"]))) None None)
       (mkMetricOutput (Some (mkMetricOTLPOutput output None))) transforms None) (mkMetricStatus []).

(** The lock names the pipeline. *)
Definition world {P} : cluster P :=
  mkCluster [mkConfigMap (mkNN "kyma-system" "telemetry-pipeline-lock") 1 [owner_of meta] None] [].

Lemma needs_data : key_pair_needs_data.
Proof. split; intros c; [done|]. apply andb_false_r. Qed.

Lemma acceptable_world {P} :
  @acceptable (cluster P) _ _ Endpoint.Sample.urls parts world output meta transforms None.
Proof.
  split_and!.
  - constructor.
  - exists "https://backend:4317", (mkURL "https" "" "backend:4317" ""). split_and!.
    + reflexivity.
    + eexists. split; [reflexivity|]. left. by split_and!.
    + split_and!; [exists "backend", "4317", 4317%Z; by split; vm_compute|reflexivity|by intros [? ?]].
  - intros tls [=].
  - eexists. split; [vm_compute; reflexivity|]. apply list_elem_of_here.
  - repeat constructor.
  - constructor.
Qed.

End Sample.


Lemma metric_accept_witness :
  @MetricReconciler.validate _ (metric_validators (@Sample.parts MetricPipeline)) Sample.world Sample.metric = None.
Proof.
  apply (metric_validate_exact (@Sample.parts MetricPipeline) Sample.world Sample.metric (mkMetricOTLPOutput Sample.output None)).
  - apply Sample.needs_data.
  - reflexivity.
  - apply list_elem_of_here.
  - split; [apply Sample.acceptable_world|].
    constructor; [right; apply contains_spec; reflexivity|constructor].
Defined.
