(* ===== verification/ApiOperator.v ===== *)
(** * The operator API (apis/operator/v1beta1)

    The Telemetry resource: the structs of telemetry_types.go as records. Durations are
    nanoseconds. *)
From stdpp Require Import base gmap strings list.
From S2P Require Import Prelude Kube.
Local Open Scope string_scope.

Record PodLabel := mkPodLabel { pl_Key : string; pl_KeyPrefix : string }.

Record Cluster := mkClusterSpec { cl_Name : string }.

Record EnrichmentSpec := mkEnrichmentSpec {
  en_ExtractPodLabels : slice PodLabel;
  en_Cluster : option Cluster
}.

Record StaticScaling := mkStaticScaling { ss_Replicas : Z }.

Definition ScalingStrategyType := string.
Definition StaticScalingStrategyType : ScalingStrategyType := "Static".

Record Scaling := mkScaling {
  sc_Type : ScalingStrategyType;
  sc_Static : option StaticScaling
}.

Record GatewaySpec := mkGatewaySpec { gs_Scaling : option Scaling }.

Record MetricInputSpec := mkMetricInputSpec { mis_CollectionInterval : option Z }.

Record MetricSpec := mkTelemetryMetricSpec {
  ms_Gateway : GatewaySpec;
  ms_CollectionInterval : option Z;
  ms_Runtime : option MetricInputSpec;
  ms_Prometheus : option MetricInputSpec;
  ms_Istio : option MetricInputSpec
}.

Record TraceSpec := mkTelemetryTraceSpec { ts_Gateway : GatewaySpec }.
Record LogSpec := mkTelemetryLogSpec { lgs_Gateway : GatewaySpec }.

Record TelemetrySpec := mkTelemetrySpec {
  tes_Trace : option TraceSpec;
  tes_Metric : option MetricSpec;
  tes_Log : option LogSpec;
  tes_Enrichments : option EnrichmentSpec
}.

Definition State := string.
Definition StateReady : State := "Ready".
Definition StateDeleting : State := "Deleting".
Definition StateWarning : State := "Warning".

Record OTLPEndpoints := mkOTLPEndpoints { oe_GRPC : string; oe_HTTP : string }.

Record GatewayEndpoints := mkGatewayEndpoints {
  ge_Logs : option OTLPEndpoints;
  ge_Traces : option OTLPEndpoints;
  ge_Metrics : option OTLPEndpoints;
  ge_OTLP : option OTLPEndpoints
}.

Record TelemetryStatus := mkTelemetryStatus {
  test_State : State;
  test_Conditions : list Condition;
  test_Endpoints : GatewayEndpoints
}.

(** [tel_Finalizers] is part of the object's metadata. *)
Record Telemetry := mkTelemetry {
  tel_ObjectMeta : ObjectMeta;
  tel_Finalizers : list string;
  tel_Spec : TelemetrySpec;
  tel_Status : TelemetryStatus
}.
