(* ===== verification/GoFormat.v ===== *)
(** * Texts of durations and paths

    The parts of packages time and path/filepath that the collector configuration uses:
    [Duration.String] and [filepath.Join] (on a system with the separator [/]). *)
From stdpp Require Import base strings list pretty.
From Stdlib Require Import Ascii.
From S2P Require Import Prelude.
Local Open Scope string_scope.

(** ** time.Duration *)

Definition Nanosecond : Z := 1.
Definition Microsecond : Z := 1000.
Definition Millisecond : Z := 1000000.
Definition Second : Z := 1000000000.

(** [fmtFrac]: the last [prec] digits of [v] as a fraction without its trailing zeros, and
    the digits before them. [print] is set once a digit other than zero was seen. *)
Fixpoint fmtFrac (prec : nat) (print : bool) (acc : string) (v : Z) : string * Z :=
  match prec with
  | O => ((if print then "." else "") +:+ acc, v)
  | S prec =>
      let digit := Z.rem v 10 in
      let print := print || negb (digit =? 0)%Z in
      fmtFrac prec print ((if print then pretty digit else "") +:+ acc) (Z.quot v 10)
  end.

Definition micro : string := String (ascii_of_nat 194) (String (ascii_of_nat 181) "s").

Definition Duration_String (d : Z) : string :=
  let u := Z.abs d in
  let text :=
    if (u =? 0)%Z then "0s"
    else if (u <? Second)%Z then
      if (u <? Microsecond)%Z then pretty u +:+ "ns"
      else if (u <? Millisecond)%Z then
        let '(frac, v) := fmtFrac 3 false "" u in pretty v +:+ frac +:+ micro
      else let '(frac, v) := fmtFrac 6 false "" u in pretty v +:+ frac +:+ "ms"
    else
      let '(frac, secs) := fmtFrac 9 false "" u in
      let seconds := pretty (Z.rem secs 60) +:+ frac +:+ "s" in
      let mins := Z.quot secs 60 in
      if (mins =? 0)%Z then seconds
      else
        let minutes := pretty (Z.rem mins 60) +:+ "m" +:+ seconds in
        let hours := Z.quot mins 60 in
        if (hours =? 0)%Z then minutes else pretty hours +:+ "h" +:+ minutes in
  if (d <? 0)%Z then "-" +:+ text else text.

Example Duration_String_samples :
  Duration_String (30 * Second) = "30s" /\ Duration_String (90 * Second) = "1m30s" /\
  Duration_String (3600 * Second) = "1h0m0s" /\ Duration_String (1500 * Millisecond) = "1.5s" /\
  Duration_String (2 * Millisecond) = "2ms" /\ Duration_String 0 = "0s".
Proof. by vm_compute. Qed.

(** ** path/filepath *)

Definition slash : ascii := "/"%char.

Fixpoint split_path (acc : string) (s : string) : list string :=
  match s with
  | EmptyString => [acc]
  | String c rest => if Ascii.eqb c slash then acc :: split_path "" rest else split_path (acc +:+ String c "") rest
  end.

(** One element; [stack] holds the elements kept so far, the last one first. *)
Definition clean_element (rooted : bool) (stack : list string) (e : string) : list string :=
  if str_eqb e "" || str_eqb e "." then stack
  else if str_eqb e ".." then
    match stack with
    | top :: rest => if str_eqb top ".." then e :: stack else rest
    | [] => if rooted then [] else [e]
    end
  else e :: stack.

Definition filepath_Clean (path : string) : string :=
  let rooted := String.prefix "/" path in
  let elements := reverse (fold_left (clean_element rooted) (split_path "" path) []) in
  let text := (if rooted then "/" else "") +:+ String.concat "/" elements in
  if str_eqb text "" then "." else text.

Definition filepath_Join (elem : list string) : string :=
  match List.filter (fun e => negb (str_eqb e "")) elem with
  | [] => ""
  | elem => filepath_Clean (String.concat "/" elem)
  end.

Example filepath_Join_samples :
  filepath_Join ["/etc/istio-output-certs"; "key.pem"] = "/etc/istio-output-certs/key.pem" /\
  filepath_Join ["a//b/../c/"; "./d"] = "a/c/d" /\ filepath_Join [""; ""] = "" /\ filepath_Join ["/.."; "x"] = "/x".
Proof. by vm_compute. Qed.
