(* ===== verification/MetricAgentTypes.v ===== *)
(** * Types of the metric agent (internal/otelcollector/config/metricagent/types.go)

    The configuration of the three receivers of the metric agent. A struct whose fields
    are all of type [*Metric] is the list of its fields, each with its YAML key; a value
    of it is the map of the fields that are not nil. The two structs that embed pointers
    to such structs inline are the lists of the embedded structs. *)
From stdpp Require Import base gmap strings list.
From S2P Require Import Prelude.
Local Open Scope string_scope.

Record Metric := mkMetric { me_Enabled : bool }.

#[export] Instance Metric_eq_dec : EqDecision Metric.
Proof. solve_decision. Defined.

(** ** Structs of metrics *)

Definition KubeletStatsDefaultMetricsToDrop : list (string * string) :=
  [("K8sNodeCPUTime", "k8s.node.cpu.time");
   ("K8sNodeMemoryMajorPageFaults", "k8s.node.memory.major_page_faults");
   ("K8sNodeMemoryPageFaults", "k8s.node.memory.page_faults")].

Definition KubeletStatsPodMetrics : list (string * string) :=
  [("K8sPodCPUTime", "k8s.pod.cpu.time");
   ("K8sPodCPUUsage", "k8s.pod.cpu.usage");
   ("K8sPodFSAvailable", "k8s.pod.filesystem.available");
   ("K8sPodFSCapacity", "k8s.pod.filesystem.capacity");
   ("K8sPodFSUsage", "k8s.pod.filesystem.usage");
   ("K8sPodMemoryAvailable", "k8s.pod.memory.available");
   ("K8sPodMemoryMajorPageFault", "k8s.pod.memory.major_page_faults");
   ("K8sPodMemoryPageFaults", "k8s.pod.memory.page_faults");
   ("K8sPodMemoryRSS", "k8s.pod.memory.rss");
   ("K8sPodMemoryUsage", "k8s.pod.memory.usage");
   ("K8sPodMemoryWorkingSet", "k8s.pod.memory.working_set");
   ("K8sPodNetworkErrors", "k8s.pod.network.errors");
   ("K8sPodNetworkIO", "k8s.pod.network.io")].

Definition KubeletStatsContainerMetrics : list (string * string) :=
  [("ContainerCPUTime", "container.cpu.time");
   ("ContainerCPUUsage", "container.cpu.usage");
   ("ContainerFSAvailable", "container.filesystem.available");
   ("ContainerFSCapacity", "container.filesystem.capacity");
   ("ContainerFSUsage", "container.filesystem.usage");
   ("ContainerMemoryAvailable", "container.memory.available");
   ("ContainerMemoryMajorPageFault", "container.memory.major_page_faults");
   ("ContainerMemoryPageFaults", "container.memory.page_faults");
   ("ContainerMemoryRSS", "container.memory.rss");
   ("ContainerMemoryUsage", "container.memory.usage");
   ("ContainerMemoryWorkingSet", "container.memory.working_set")].

Definition KubeletStatsNodeMetrics : list (string * string) :=
  [("K8sNodeCPUUsage", "k8s.node.cpu.usage");
   ("K8sNodeFSAvailable", "k8s.node.filesystem.available");
   ("K8sNodeFSCapacity", "k8s.node.filesystem.capacity");
   ("K8sNodeFSUsage", "k8s.node.filesystem.usage");
   ("K8sNodeMemoryAvailable", "k8s.node.memory.available");
   ("K8sNodeMemoryRSS", "k8s.node.memory.rss");
   ("K8sNodeMemoryUsage", "k8s.node.memory.usage");
   ("K8sNodeMemoryWorkingSet", "k8s.node.memory.working_set");
   ("K8sNodeNetworkErrors", "k8s.node.network.errors");
   ("K8sNodeNetworkIO", "k8s.node.network.io")].

Definition KubeletStatsVolumeMetrics : list (string * string) :=
  [("K8sVolumeAvailable", "k8s.volume.available");
   ("K8sVolumeCapacity", "k8s.volume.capacity");
   ("K8sVolumeInodes", "k8s.volume.inodes");
   ("K8sVolumeInodesFree", "k8s.volume.inodes.free");
   ("K8sVolumeInodesUsed", "k8s.volume.inodes.used")].

Definition KubeletStatsOptionalMetrics : list (string * string) :=
  [("ContainerUptime", "container.uptime");
   ("K8sContainerCPUNodeUtilization", "k8s.container.cpu.node.utilization");
   ("K8sContainerCPULimitUtilization", "k8s.container.cpu_limit_utilization");
   ("K8sContainerCPURequestUtilization", "k8s.container.cpu_request_utilization");
   ("K8sContainerEphemeralStorageUsage", "k8s.container.ephemeral_storage.usage");
   ("K8sContainerMemNodeUtilization", "k8s.container.memory.node.utilization");
   ("K8sContainerMemLimitUtilization", "k8s.container.memory_limit_utilization");
   ("K8sContainerMemRequestUtilization", "k8s.container.memory_request_utilization");
   ("K8sNodeSystemContainerCPUTime", "k8s.node.system_container.cpu.time");
   ("K8sNodeSystemContainerCPUUsage", "k8s.node.system_container.cpu.usage");
   ("K8sNodeSystemContainerMemoryUsage", "k8s.node.system_container.memory.usage");
   ("K8sNodeSystemContainerMemoryWorkingSet", "k8s.node.system_container.memory.working_set");
   ("K8sNodeUptime", "k8s.node.uptime");
   ("K8sPodCPUNodeUtilization", "k8s.pod.cpu.node.utilization");
   ("K8sPodCPULimitUtilization", "k8s.pod.cpu_limit_utilization");
   ("K8sPodCPURequestUtilization", "k8s.pod.cpu_request_utilization");
   ("K8sPodMemNodeUtilization", "k8s.pod.memory.node.utilization");
   ("K8sPodMemLimitUtilization", "k8s.pod.memory_limit_utilization");
   ("K8sPodMemRequestUtilization", "k8s.pod.memory_request_utilization");
   ("K8sPodUptime", "k8s.pod.uptime");
   ("K8sPodVolumeUsage", "k8s.pod.volume.usage")].

Definition KubeletStatsMetrics : list (string * list (string * string)) :=
  [("KubeletStatsDefaultMetricsToDrop", KubeletStatsDefaultMetricsToDrop);
   ("KubeletStatsPodMetrics", KubeletStatsPodMetrics);
   ("KubeletStatsContainerMetrics", KubeletStatsContainerMetrics);
   ("KubeletStatsNodeMetrics", KubeletStatsNodeMetrics);
   ("KubeletStatsVolumeMetrics", KubeletStatsVolumeMetrics);
   ("KubeletStatsOptionalMetrics", KubeletStatsOptionalMetrics)].

Definition K8sClusterDefaultMetricsToDrop : list (string * string) :=
  [("K8sContainerStorageRequest", "k8s.container.storage_request");
   ("K8sContainerStorageLimit", "k8s.container.storage_limit");
   ("K8sContainerEphemeralStorageRequest", "k8s.container.ephemeralstorage_request");
   ("K8sContainerEphemeralStorageLimit", "k8s.container.ephemeralstorage_limit");
   ("K8sContainerReady", "k8s.container.ready");
   ("K8sNamespacePhase", "k8s.namespace.phase");
   ("K8sHPACurrentReplicas", "k8s.hpa.current_replicas");
   ("K8sHPADesiredReplicas", "k8s.hpa.desired_replicas");
   ("K8sHPAMinReplicas", "k8s.hpa.min_replicas");
   ("K8sHPAMaxReplicas", "k8s.hpa.max_replicas");
   ("K8sReplicaSetAvailable", "k8s.replicaset.available");
   ("K8sReplicaSetDesired", "k8s.replicaset.desired");
   ("K8sReplicationControllerAvailable", "k8s.replication_controller.available");
   ("K8sReplicationControllerDesired", "k8s.replication_controller.desired");
   ("K8sResourceQuotaHardLimit", "k8s.resource_quota.hard_limit");
   ("K8sResourceQuotaUsed", "k8s.resource_quota.used");
   ("K8sCronJobActiveJobs", "k8s.cronjob.active_jobs")].

Definition K8sClusterPodMetrics : list (string * string) :=
  [("K8sPodPhase", "k8s.pod.phase")].

Definition K8sClusterContainerMetrics : list (string * string) :=
  [("K8sContainerCPURequest", "k8s.container.cpu_request");
   ("K8sContainerCPULimit", "k8s.container.cpu_limit");
   ("K8sContainerMemoryRequest", "k8s.container.memory_request");
   ("K8sContainerMemoryLimit", "k8s.container.memory_limit");
   ("K8sContainerRestarts", "k8s.container.restarts")].

Definition K8sClusterStatefulSetMetrics : list (string * string) :=
  [("K8sStatefulSetCurrentPods", "k8s.statefulset.current_pods");
   ("K8sStatefulSetDesiredPods", "k8s.statefulset.desired_pods");
   ("K8sStatefulSetReadyPods", "k8s.statefulset.ready_pods");
   ("K8sStatefulSetUpdatedPods", "k8s.statefulset.updated_pods")].

Definition K8sClusterJobMetrics : list (string * string) :=
  [("K8sJobActivePods", "k8s.job.active_pods");
   ("K8sJobDesiredSuccessfulPods", "k8s.job.desired_successful_pods");
   ("K8sJobFailedPods", "k8s.job.failed_pods");
   ("K8sJobMaxParallelPods", "k8s.job.max_parallel_pods");
   ("K8sJobSuccessfulPods", "k8s.job.successful_pods")].

Definition K8sClusterDeploymentMetrics : list (string * string) :=
  [("K8sDeploymentAvailable", "k8s.deployment.available");
   ("K8sDeploymentDesired", "k8s.deployment.desired")].

Definition K8sClusterDaemonSetMetrics : list (string * string) :=
  [("K8sDaemonSetCurrentScheduledNodes", "k8s.daemonset.current_scheduled_nodes");
   ("K8sDaemonSetDesiredScheduledNodes", "k8s.daemonset.desired_scheduled_nodes");
   ("K8sDaemonSetMisscheduledNodes", "k8s.daemonset.misscheduled_nodes");
   ("K8sDaemonSetReadyNodes", "k8s.daemonset.ready_nodes")].

Definition K8sClusterOptionalMetrics : list (string * string) :=
  [("K8sContainerStatusReason", "k8s.container.status.reason");
   ("K8sContainerStatusState", "k8s.container.status.state");
   ("K8sNodeCondition", "k8s.node.condition");
   ("K8sPersistentVolumeStatusPhase", "k8s.persistentvolume.status.phase");
   ("K8sPersistentVolumeStorageCapacity", "k8s.persistentvolume.storage.capacity");
   ("K8sPersistentVolumeClaimStatusPhase", "k8s.persistentvolumeclaim.status.phase");
   ("K8sPersistentVolumeClaimStorageCapacity", "k8s.persistentvolumeclaim.storage.capacity");
   ("K8sPersistentVolumeClaimStorageRequest", "k8s.persistentvolumeclaim.storage.request");
   ("K8sPodStatusReason", "k8s.pod.status_reason");
   ("K8sServiceEndpointCount", "k8s.service.endpoint.count");
   ("K8sServiceLoadBalancerIngressCount", "k8s.service.load_balancer.ingress.count")].

Definition K8sClusterMetrics : list (string * list (string * string)) :=
  [("K8sClusterDefaultMetricsToDrop", K8sClusterDefaultMetricsToDrop);
   ("K8sClusterPodMetrics", K8sClusterPodMetrics);
   ("K8sClusterContainerMetrics", K8sClusterContainerMetrics);
   ("K8sClusterStatefulSetMetrics", K8sClusterStatefulSetMetrics);
   ("K8sClusterJobMetrics", K8sClusterJobMetrics);
   ("K8sClusterDeploymentMetrics", K8sClusterDeploymentMetrics);
   ("K8sClusterDaemonSetMetrics", K8sClusterDaemonSetMetrics);
   ("K8sClusterOptionalMetrics", K8sClusterOptionalMetrics)].

(** A value of a struct of metrics, and of a struct that embeds such structs by pointer:
    an embedded pointer that is nil has no entry. *)
Abbreviation MetricStruct := (gmap string Metric).
Abbreviation MetricsConfig := (gmap string (gmap string Metric)).

(** ** Receivers *)

Definition MetricGroupType := string.
Definition MetricGroupTypeContainer : MetricGroupType := "container".
Definition MetricGroupTypePod : MetricGroupType := "pod".
Definition MetricGroupTypeNode : MetricGroupType := "node".
Definition MetricGroupTypeVolume : MetricGroupType := "volume".

Record KubeletStatsResourceAttributes := mkKubeletStatsResourceAttributes {
  ra_AWSVolumeID : Metric; ra_FSType : Metric; ra_GCEPDName : Metric;
  ra_GlusterFSEndpointsName : Metric; ra_GlusterFSPath : Metric; ra_Partition : Metric
}.
Record NetworkInterfacesEnabler := mkNetworkInterfacesEnabler { ni_NodeMetrics : bool }.
Record K8sAPIConfig := mkK8sAPIConfig { ka_AuthType : string }.

Record KubeletStatsReceiverConfig := mkKubeletStats {
  ks_CollectionInterval : string; ks_AuthType : string; ks_Endpoint : string; ks_InsecureSkipVerify : bool;
  ks_MetricGroups : list MetricGroupType;
  ks_Metrics : MetricsConfig;
  ks_ResourceAttributes : KubeletStatsResourceAttributes;
  ks_ExtraMetadataLabels : list string;
  ks_CollectAllNetworkInterfaces : NetworkInterfacesEnabler;
  ks_Node : string; ks_K8sApiConfig : K8sAPIConfig
}.

Record K8sClusterReceiverConfig := mkK8sCluster {
  kc_AuthType : string; kc_CollectionInterval : string; kc_NodeConditionsToReport : list string;
  kc_Metrics : MetricsConfig; kc_K8sLeaderElector : string
}.

(** The Prometheus receiver. *)
Definition Role := string.
Definition RoleEndpoints : Role := "endpoints".
Definition RolePod : Role := "pod".
Record K8SDiscoverySelector := mkSelector { sel_Role : Role; sel_Field : string }.
Record KubernetesDiscovery := mkDiscovery { kd_Role : Role; kd_Selectors : list K8SDiscoverySelector }.

Definition RelabelAction := string.
Definition Replace : RelabelAction := "replace".
Definition Keep : RelabelAction := "keep".
Definition Drop : RelabelAction := "drop".
Definition LabelMap : RelabelAction := "labelmap".
Record Relabel := mkRelabel {
  re_SourceLabels : list string; re_Separator : string; re_Regex : string; re_Modulus : Z;
  re_TargetLabel : string; re_Replacement : string; re_Action : RelabelAction
}.

Record ScrapeTLS := mkScrapeTLS {
  st_CAFile : string; st_CertFile : string; st_KeyFile : string; st_InsecureSkipVerify : bool
}.
Record Scrape := mkScrape {
  sc_JobName : string; sc_SampleLimit : Z; sc_BodySizeLimit : string; sc_ScrapeInterval : Z; sc_MetricsPath : string;
  sc_RelabelConfigs : list Relabel; sc_MetricRelabelConfigs : list Relabel;
  sc_KubernetesDiscoveryConfigs : list KubernetesDiscovery; sc_TLS : option ScrapeTLS
}.
Record PrometheusScrape := mkPrometheusScrape { ps_ScrapeConfigs : list Scrape }.
Record PrometheusReceiverConfig := mkPrometheusReceiver { pr_Prometheus : PrometheusScrape }.
