(* ===== verification/CollectorTypes.v ===== *)
(** * The collector configuration (internal/otelcollector/config/common/types.go and
    the types of the packages otlpgateway and logagent)

    The configuration of an OpenTelemetry collector as the builders assemble it. A
    component map holds values of type [any]; here they are the constructors of
    [component], one per configuration struct. Durations are nanoseconds. *)
From stdpp Require Import base gmap strings list.
From Stdlib Require Import QArith.QArith_base.
From S2P Require Import Prelude ApiV1beta1 MetricAgentTypes.
Local Open Scope string_scope.

Definition Sizer := string.
Definition SizerBytes : Sizer := "bytes".
Definition SizerItems : Sizer := "items".
Definition SizerRequests : Sizer := "requests".

(** ** Extensions *)

Record K8sLeaderElectorExtensionConfig := mkLeaderElector {
  le_AuthType : string; le_LeaseName : string; le_LeaseNamespace : string
}.

Record FileStorageExtensionConfig := mkFileStorage { fst_CreateDirectory : bool; fst_Directory : string }.

Record OAuth2ExtensionConfig := mkOAuth2Extension {
  oe_TokenURL : string; oe_ClientID : string; oe_ClientSecret : string;
  oe_Scopes : slice string; oe_Params : option (gmap string string)
}.

Record CGroupRuntimeGoMaxProcs := mkGoMaxProcs { gmp_Enabled : bool }.
Record CGroupRuntimeGoMemLimit := mkGoMemLimit {
  gml_Enabled : bool; gml_Ratio : Q; gml_RefreshInterval : string
}.
Record CGroupRuntimeExtension := mkCGroupRuntime {
  cgr_GoMaxProcs : CGroupRuntimeGoMaxProcs; cgr_GoMemLimit : CGroupRuntimeGoMemLimit
}.

(** ** Service *)

Record PrometheusMetricExporter := mkPrometheusMetricExporter {
  pme_Host : string; pme_Port : Z;
  pme_WithoutScopeInfo : bool; pme_WithoutTypeSuffix : bool; pme_WithoutUnits : bool
}.
Record MetricExporter := mkMetricExporter { me_Prometheus : PrometheusMetricExporter }.
Record PullMetricReader := mkPullMetricReader { pmr_Exporter : MetricExporter }.
Record TelemetryMetricReader := mkTelemetryMetricReader { tmr_Pull : PullMetricReader }.
Record TelemetryMetrics := mkTelemetryMetrics { tm_Readers : list TelemetryMetricReader; tm_Level : string }.
Record Logs := mkServiceLogs { sl_Level : string; sl_Encoding : string }.
Record ServiceTelemetry := mkServiceTelemetry { st_Metrics : TelemetryMetrics; st_Logs : Logs }.

Record ServicePipeline := mkServicePipeline {
  sp_Receivers : list string; sp_Processors : list string; sp_Exporters : list string
}.

Record ServiceConfig := mkServiceConfig {
  svc_Pipelines : gmap string ServicePipeline;
  svc_Telemetry : ServiceTelemetry;
  svc_Extensions : list string
}.

(** ** Receivers *)

Record EndpointConfig := mkEndpointConfig { ep_Endpoint : string }.
Record ReceiverProtocols := mkReceiverProtocols { rp_HTTP : EndpointConfig; rp_GRPC : EndpointConfig }.
Record OTLPReceiverConfig := mkOTLPReceiver { or_Protocols : ReceiverProtocols }.

Record ModuleGVR := mkModuleGVR { gvr_Group : string; gvr_Version : string; gvr_Resource : string }.
Record KymaStatsReceiverConfig := mkKymaStats {
  ks_AuthType : string; ks_CollectionInterval : string; ks_Resources : list ModuleGVR;
  ks_K8sLeaderElector : string
}.

(** ** Exporters *)

Record TLS := mkTLS {
  tlsc_Insecure : bool; tlsc_InsecureSkipVerify : bool;
  tlsc_CertPem : string; tlsc_KeyPem : string; tlsc_CAPem : string
}.
Record Batch := mkBatch { ba_MinSize : Z; ba_MaxSize : Z; ba_FlushTimeout : Z; ba_Sizer : Sizer }.
Record SendingQueue := mkSendingQueue {
  sq_Enabled : bool; sq_QueueSize : Z; sq_Sizer : Sizer; sq_Batch : Batch
}.
Record RetryOnFailure := mkRetryOnFailure {
  rof_Enabled : bool; rof_InitialInterval : string; rof_MaxInterval : string; rof_MaxElapsedTime : string
}.
Record Auth := mkAuth { au_Authenticator : string }.
Record OTLPExporterConfig := mkOTLPExporterConfig {
  ex_MetricsEndpoint : string; ex_TracesEndpoint : string; ex_LogsEndpoint : string;
  ex_Endpoint : string; ex_Headers : gmap string string; ex_TLS : TLS; ex_Compression : string;
  ex_SendingQueue : SendingQueue; ex_RetryOnFailure : RetryOnFailure; ex_Auth : Auth
}.

(** ** Processors *)

Record BatchProcessorConfig := mkBatchProcessor {
  bp_SendBatchSize : Z; bp_Timeout : string; bp_SendBatchMaxSize : Z
}.
Record MemoryLimiterConfig := mkMemoryLimiter {
  ml_CheckInterval : string; ml_LimitPercentage : Z; ml_SpikeLimitPercentage : Z
}.
Record K8sAttributesFilterConfig := mkK8sAttributesFilter { kf_NodeFromEnvVar : string }.
Record ExtractLabel := mkExtractLabel {
  el_From : string; el_Key : string; el_TagName : string; el_KeyRegex : string
}.
Record ExtractK8sMetadata := mkExtract {
  em_Metadata : list string; em_Labels : list ExtractLabel; em_Annotations : slice ExtractLabel;
  em_OTelAnnotations : bool
}.
Record PodAssociation := mkPodAssociation { pa_From : string; pa_Name : string }.
Record PodAssociations := mkPodAssociations { pas_Sources : list PodAssociation }.
Record K8sAttributesProcessorConfig := mkK8sAttributes {
  ka_AuthType : string; ka_Passthrough : bool; ka_Filter : K8sAttributesFilterConfig;
  ka_Extract : ExtractK8sMetadata; ka_PodAssociation : list PodAssociations
}.
Record CumulativeToDeltaProcessorConfig := mkCumulativeToDelta {
  cd_MaxStaleness : Z; cd_InitialValue : string
}.
Record TransformProcessorStatements := mkStatements {
  sta_Statements : slice string; sta_Conditions : slice string
}.
Record TransformProcessorConfig := mkTransform {
  tr_ErrorMode : string;
  tr_LogStatements : slice TransformProcessorStatements;
  tr_MetricStatements : slice TransformProcessorStatements;
  tr_TraceStatements : slice TransformProcessorStatements
}.
Record ServiceEnrichmentProcessorConfig := mkServiceEnrichment { se_ResourceAttributes : list string }.
Record IstioNoiseFilterProcessorConfig := mkIstioNoiseFilter {}.
Record IstioEnrichmentProcessorConfig := mkIstioEnrichment { ie_ScopeVersion : string }.
Record FilterProcessorConfig := mkFilter {
  fi_ErrorMode : string;
  fi_Metrics : slice FilterSpec; fi_Logs : slice FilterSpec; fi_Traces : slice FilterSpec
}.

(** ** Connectors *)

Record RoutingConnectorTableEntry := mkRoutingEntry {
  rt_Statement : string; rt_Pipelines : list string; rt_Context : string
}.
Record RoutingConnectorConfig := mkRouting {
  ro_DefaultPipelines : list string; ro_ErrorMode : string; ro_Table : list RoutingConnectorTableEntry
}.
Record ForwardConnectorConfig := mkForward {}.

(** ** The file log receiver (logagent/types.go) *)

Definition OperatorType := string.
Definition Move : OperatorType := "move".
Definition SeverityParser : OperatorType := "severity_parser".
Definition RegexParser : OperatorType := "regex_parser".
Definition Remove : OperatorType := "remove".
Definition Router : OperatorType := "router".
Definition TraceParser : OperatorType := "trace_parser".
Definition Noop : OperatorType := "noop".
Definition JsonParser : OperatorType := "json_parser".
Definition Container : OperatorType := "container".

Record OperatorAttribute := mkOperatorAttribute { oa_ParseFrom : string }.
Record TraceAttribute := mkTraceAttribute {
  ta_TraceID : OperatorAttribute; ta_SpanID : OperatorAttribute; ta_TraceFlags : OperatorAttribute
}.
Record Route := mkRoute { rou_Expression : string; rou_Output : string }.
Record Operator := mkOperator {
  op_ID : string; op_Type : OperatorType; op_AddMetadataFromFilePath : option bool;
  op_Format : string; op_From : string; op_To : string; op_IfExpr : string;
  op_ParseFrom : string; op_ParseTo : string; op_Field : string;
  op_TraceID : OperatorAttribute; op_SpanID : OperatorAttribute; op_TraceFlags : OperatorAttribute;
  op_Regex : string; op_Trace : TraceAttribute; op_Routes : list Route;
  op_Default : string; op_Output : string
}.
Record FileLogReceiverConfig := mkFileLog {
  fl_Exclude : list string; fl_Include : list string;
  fl_IncludeFileName : option bool; fl_IncludeFilePath : option bool;
  fl_StartAt : string; fl_Storage : string; fl_RetryOnFailure : RetryOnFailure;
  fl_Operators : list Operator
}.

(** ** Component values *)

Inductive component :=
| CEndpoint (c : EndpointConfig)
| CCGroupRuntime (c : CGroupRuntimeExtension)
| CLeaderElector (c : K8sLeaderElectorExtensionConfig)
| CFileStorage (c : FileStorageExtensionConfig)
| COAuth2 (c : OAuth2ExtensionConfig)
| COTLPReceiver (c : OTLPReceiverConfig)
| CKymaStats (c : KymaStatsReceiverConfig)
| CFileLog (c : FileLogReceiverConfig)
| CKubeletStats (c : KubeletStatsReceiverConfig)
| CK8sCluster (c : K8sClusterReceiverConfig)
| CPrometheus (c : PrometheusReceiverConfig)
| COTLPExporter (c : OTLPExporterConfig)
| CBatch (c : BatchProcessorConfig)
| CMemoryLimiter (c : MemoryLimiterConfig)
| CK8sAttributes (c : K8sAttributesProcessorConfig)
| CCumulativeToDelta (c : CumulativeToDeltaProcessorConfig)
| CTransform (c : TransformProcessorConfig)
| CFilter (c : FilterProcessorConfig)
| CServiceEnrichment (c : ServiceEnrichmentProcessorConfig)
| CIstioNoiseFilter (c : IstioNoiseFilterProcessorConfig)
| CIstioEnrichment (c : IstioEnrichmentProcessorConfig)
| CRouting (c : RoutingConnectorConfig)
| CForward (c : ForwardConnectorConfig).

(** [common.Config] *)
Record Config := mkConfig {
  cf_Extensions : gmap string component;
  cf_Service : ServiceConfig;
  cf_Receivers : gmap string component;
  cf_Processors : gmap string component;
  cf_Exporters : gmap string component;
  cf_Connectors : gmap string component
}.

(** [common.EnvVars], the values as texts. *)
Abbreviation EnvVars := (gmap string string).
