(* ===== verification/CollectorBuilder.v ===== *)
(** * Building a collector configuration (internal/otelcollector/config/common)

    component_ids.go, config_builder.go, component_builder.go and internal/pipelines:
    the identifiers of the components, the empty configuration, and the functions that
    add components to service pipelines.

    The builders share a pointer to the configuration and a map of environment
    variables; here both are the state [builder] that every step receives and returns.
    A step can fail with an error or panic ([None]), for example on a nil pointer. *)
From stdpp Require Import base gmap strings list pretty.
From Stdlib Require Import QArith.QArith_base.
From S2P Require Import Prelude Kube GoErrors.
From S2P Require Import ApiV1beta1 Coordination CollectorTypes.
Local Open Scope string_scope.

(** A text in double quotes. *)
Definition dquote : string := String (Ascii.ascii_of_nat 34) EmptyString.
Definition quoted (s : string) : string := dquote +:+ s +:+ dquote.

(** The reference to an environment variable in a configuration. *)
Definition env_ref (name : string) : string := "${" +:+ name +:+ "}".

(** [x, err := m; if err != nil { return err }] *)
Reserved Notation "x <-? m ;; k" (at level 100, m at next level, right associativity).

(** ** References to pipelines (internal/pipelines/pipeline_ref.go) *)

Record PipelineRef := mkPipelineRef { pref_name : string; pref_signalType : SignalType }.

Definition LogPipelineRef (lp : LogPipeline) : PipelineRef :=
  mkPipelineRef (om_Name (lp_ObjectMeta lp)) SignalTypeLog.
Definition MetricPipelineRef (mp : MetricPipeline) : PipelineRef :=
  mkPipelineRef (om_Name (mp_ObjectMeta mp)) SignalTypeMetric.
Definition TracePipelineRef (tp : TracePipeline) : PipelineRef :=
  mkPipelineRef (om_Name (tp_ObjectMeta tp)) SignalTypeTrace.

(** The three constructors above set a signal type, which is never the empty text. *)
Definition TypePrefix (r : PipelineRef) : string := signal_text (pref_signalType r) +:+ "pipeline".

Definition QualifiedName (r : PipelineRef) : string := TypePrefix r +:+ "-" +:+ pref_name r.

(** ** Component identifiers *)

Abbreviation ComponentID := string (only parsing).

Definition InputSourceType := string.
Definition InputSourceRuntime : InputSourceType := "runtime".
Definition InputSourcePrometheus : InputSourceType := "prometheus".
Definition InputSourceIstio : InputSourceType := "istio".
Definition InputSourceOTLP : InputSourceType := "otlp".
Definition InputSourceKyma : InputSourceType := "kyma".
Definition InputSourceK8sCluster : InputSourceType := "k8s_cluster".

Definition ComponentIDOTLPReceiver : ComponentID := "otlp".
Definition ComponentIDKymaStatsReceiver : ComponentID := "kymastats".
Definition ComponentIDK8sClusterReceiver : ComponentID := "k8s_cluster".
Definition ComponentIDKubeletStatsReceiver : ComponentID := "kubelet_stats".
Definition ComponentIDPrometheusAppPodsReceiver : ComponentID := "prometheus/app-pods".
Definition ComponentIDPrometheusAppServicesReceiver : ComponentID := "prometheus/app-services".
Definition ComponentIDPrometheusIstioReceiver : ComponentID := "prometheus/istio".
Definition ComponentIDBatchProcessor : ComponentID := "batch".
Definition ComponentIDMemoryLimiterProcessor : ComponentID := "memory_limiter".
Definition ComponentIDK8sAttributesProcessor : ComponentID := "k8s_attributes".
Definition ComponentIDCumulativeToDeltaProcessor : ComponentID := "cumulativetodelta".
Definition ComponentIDServiceEnrichmentProcessor : ComponentID := "service_enrichment".
Definition ComponentIDIstioNoiseFilterProcessor : ComponentID := "istio_noise_filter".
Definition ComponentIDSetInstrumentationScopeKymaProcessor : ComponentID := "transform/set-instrumentation-scope-kyma".
Definition ComponentIDSetInstrumentationScopeRuntimeProcessor : ComponentID := "transform/set-instrumentation-scope-runtime".
Definition ComponentIDInsertClusterAttributesProcessor : ComponentID := "transform/insert-cluster-attributes".
Definition ComponentIDDropKymaAttributesProcessor : ComponentID := "transform/drop-kyma-attributes".
Definition ComponentIDDropUnknownServiceNameProcessor : ComponentID := "transform/drop-unknown-service-name".
Definition ComponentIDRestoreOtelServiceAttrsProcessor : ComponentID := "transform/restore-otel-service-attrs".
Definition ComponentIDSetKymaInputNameRuntimeProcessor : ComponentID := "transform/set-kyma-input-name-runtime".
Definition ComponentIDSetKymaInputNameIstioProcessor : ComponentID := "transform/set-kyma-input-name-istio".
Definition ComponentIDSetKymaInputNamePrometheusProcessor : ComponentID := "transform/set-kyma-input-name-prometheus".
Definition ComponentIDSetKymaInputNameKymaProcessor : ComponentID := "transform/set-kyma-input-name-kyma".
Definition ComponentIDSetKymaInputNameOTLPProcessor : ComponentID := "transform/set-kyma-input-name-otlp".
Definition ComponentIDSetObservedTimeIfZeroProcessor : ComponentID := "transform/set-observed-time-if-zero".
Definition ComponentIDIstioEnrichmentProcessor : ComponentID := "istio_enrichment".
Definition ComponentIDDropIfInputSourceRuntimeProcessor : ComponentID := "filter/drop-if-input-source-runtime".
Definition ComponentIDDropIfInputSourcePrometheusProcessor : ComponentID := "filter/drop-if-input-source-prometheus".
Definition ComponentIDDropIfInputSourceIstioProcessor : ComponentID := "filter/drop-if-input-source-istio".
Definition ComponentIDDropIfInputSourceOTLPProcessor : ComponentID := "filter/drop-if-input-source-otlp".
Definition ComponentIDDropEnvoyMetricsIfDisabledProcessor : ComponentID := "filter/drop-envoy-metrics-if-disabled".
Definition ComponentIDDropRuntimePodMetricsProcessor : ComponentID := "filter/drop-runtime-pod-metrics".
Definition ComponentIDDropRuntimeContainerMetricsProcessor : ComponentID := "filter/drop-runtime-container-metrics".
Definition ComponentIDDropRuntimeNodeMetricsProcessor : ComponentID := "filter/drop-runtime-node-metrics".
Definition ComponentIDDropRuntimeVolumeMetricsProcessor : ComponentID := "filter/drop-runtime-volume-metrics".
Definition ComponentIDDropRuntimeDeploymentMetricsProcessor : ComponentID := "filter/drop-runtime-deployment-metrics".
Definition ComponentIDDropRuntimeDaemonSetMetricsProcessor : ComponentID := "filter/drop-runtime-daemonset-metrics".
Definition ComponentIDDropRuntimeStatefulSetMetricsProcessor : ComponentID := "filter/drop-runtime-statefulset-metrics".
Definition ComponentIDDropRuntimeJobMetricsProcessor : ComponentID := "filter/drop-runtime-job-metrics".
Definition ComponentIDDropRuntimeAdditionalMetricsProcessor : ComponentID := "filter/drop-runtime-additional-metrics".
Definition ComponentIDDropPrometheusDiagnosticMetricsProcessor : ComponentID := "filter/drop-diagnostic-metrics-if-input-source-prometheus".
Definition ComponentIDDropIstioDiagnosticMetricsProcessor : ComponentID := "filter/drop-diagnostic-metrics-if-input-source-istio".
Definition ComponentIDFilterDropNonPVCVolumesMetricsProcessor : ComponentID := "filter/drop-non-pvc-volumes-metrics".
Definition ComponentIDFilterDropVirtualNetworkInterfacesProcessor : ComponentID := "filter/drop-virtual-network-interfaces".
Definition ComponentIDDropServiceNameProcessor : ComponentID := "transform/drop-service-name".
Definition ComponentIDDropSkipEnrichmentAttributeProcessor : ComponentID := "transform/drop-skip-enrichment-attribute".
Definition ComponentIDSetInstrumentationScopePrometheusProcessor : ComponentID := "transform/set-instrumentation-scope-prometheus".
Definition ComponentIDSetInstrumentationScopeIstioProcessor : ComponentID := "transform/set-instrumentation-scope-istio".
Definition ComponentIDInsertSkipEnrichmentAttributeProcessor : ComponentID := "transform/insert-skip-enrichment-attribute".
Definition ComponentIDDropIstioServiceEnrichmentProcessor : ComponentID := "transform/drop-istio-service-enrichment".
Definition ComponentIDEnrichmentConnector : ComponentID := "forward/enrichment".
Definition ComponentIDInputConnector : ComponentID := "forward/input".
Definition ComponentIDEnrichmentRoutingConnector : ComponentID := "routing/enrichment".
Definition ComponentIDRuntimeInputRoutingConnector : ComponentID := "routing/runtime-input".
Definition ComponentIDPrometheusInputRoutingConnector : ComponentID := "routing/prometheus-input".
Definition ComponentIDIstioInputRoutingConnector : ComponentID := "routing/istio-input".
Definition ComponentIDK8sLeaderElectorExtension : ComponentID := "k8s_leader_elector".
Definition ComponentIDFileStorageExtension : ComponentID := "file_storage".
Definition ComponentIDHealthCheckExtension : ComponentID := "health_check".
Definition ComponentIDPprofExtension : ComponentID := "pprof".
Definition ComponentIDCGroupRuntimeExtension : ComponentID := "cgroup_runtime".

Definition ComponentIDFileLogReceiver (pipelineName : string) : ComponentID := "file_log/" +:+ pipelineName.

Definition ComponentIDUserDefinedFilterProcessor (r : PipelineRef) : ComponentID :=
  "filter/" +:+ TypePrefix r +:+ "-user-defined-" +:+ pref_name r.

Definition ComponentIDUserDefinedTransformProcessor (r : PipelineRef) : ComponentID :=
  "transform/" +:+ TypePrefix r +:+ "-user-defined-" +:+ pref_name r.

Definition ComponentIDNamespaceFilterProcessor (pipelineName : string) : ComponentID :=
  "filter/" +:+ pipelineName +:+ "-filter-by-namespace".

Definition ComponentIDNamespacePerInputFilterProcessor (pipelineName : string) (inputSource : InputSourceType) :
    ComponentID :=
  "filter/" +:+ pipelineName +:+ "-filter-by-namespace-" +:+ inputSource +:+ "-input".

Definition ComponentIDOTLPExporter (protocol : OTLPProtocol) (r : PipelineRef) : ComponentID :=
  if str_eqb protocol OTLPProtocolHTTP then "otlp_http/" +:+ QualifiedName r
  else "otlp_grpc/" +:+ QualifiedName r.

Definition ComponentIDOAuth2Extension (r : PipelineRef) : ComponentID := "oauth2client/" +:+ QualifiedName r.

(** ** The empty configuration (config_builder.go) *)

Definition EnvVarCurrentPodIP : string := "MY_POD_IP".
Definition EnvVarCurrentNodeName : string := "MY_NODE_NAME".

(** Package internal/otelcollector/ports. *)
Definition OTLPHTTP : Z := 4318.
Definition OTLPGRPC : Z := 4317.
Definition Metrics : Z := 8888.
Definition HealthCheck : Z := 13133.
Definition Pprof : Z := 1777.
Definition IstioEnvoyTelemetry : Z := 15090.

Definition defaultService : ServiceConfig :=
  mkServiceConfig ∅
    (mkServiceTelemetry
       (mkTelemetryMetrics
          [mkTelemetryMetricReader (mkPullMetricReader (mkMetricExporter
             (mkPrometheusMetricExporter (env_ref EnvVarCurrentPodIP) Metrics false false false)))]
          "detailed")
       (mkServiceLogs "info" "json"))
    [ComponentIDHealthCheckExtension; ComponentIDPprofExtension; ComponentIDCGroupRuntimeExtension].

Definition defaultExtensions : gmap string component :=
  list_to_map
    [(ComponentIDHealthCheckExtension,
       CEndpoint (mkEndpointConfig (env_ref EnvVarCurrentPodIP +:+ ":" +:+ pretty HealthCheck)));
     (ComponentIDPprofExtension, CEndpoint (mkEndpointConfig ("127.0.0.1:" +:+ pretty Pprof)));
     (ComponentIDCGroupRuntimeExtension,
       CCGroupRuntime (mkCGroupRuntime (mkGoMaxProcs false) (mkGoMemLimit true (4 # 5)%Q "30s")))].

Definition NewConfig : Config := mkConfig defaultExtensions defaultService ∅ ∅ ∅ ∅.

(** ** The component builder (component_builder.go) *)

(** A call that can panic or fail, followed by code that needs its value. *)
Definition attempt {A B} (m : option (result A goerror)) (k : A -> option (result B goerror)) :
    option (result B goerror) :=
  match m with
  | None => None
  | Some (Err e) => Some (Err e)
  | Some (Ok a) => k a
  end.
Notation "x <-? m ;; k" := (attempt m (fun x => k)) : go_scope.

(** The configuration and the environment variables a builder works on. *)
Record builder := mkBuilder { b_Config : Config; b_EnvVars : EnvVars }.

Definition outcome := option (result builder goerror).

Definition BuildComponentFunc (T : Type) := T -> string -> builder -> outcome.
Definition ComponentIDFunc (T : Type) := T -> option string.
(** The inner option is the configuration or nil. *)
Definition ComponentConfigFunc (T : Type) := T -> option (option component).
Definition ExporterComponentConfigFunc (T : Type) := T -> option (result (option component * EnvVars) goerror).

Definition andThen (o : outcome) (k : builder -> outcome) : outcome :=
  match o with Some (Ok b) => k b | _ => o end.

(** [if err := ...; err != nil { return fmt.Errorf(prefix+"%w", err) }] *)
Definition wrap_err (prefix : string) (o : outcome) : outcome :=
  match o with Some (Err e) => Some (Err (Wrapf prefix e "")) | _ => o end.

(** Assignments to fields of the configuration. *)
Definition set_service (c : Config) (s : ServiceConfig) : Config :=
  mkConfig (cf_Extensions c) s (cf_Receivers c) (cf_Processors c) (cf_Exporters c) (cf_Connectors c).
Definition set_extensions (c : Config) (m : gmap string component) : Config :=
  mkConfig m (cf_Service c) (cf_Receivers c) (cf_Processors c) (cf_Exporters c) (cf_Connectors c).
Definition set_receivers (c : Config) (m : gmap string component) : Config :=
  mkConfig (cf_Extensions c) (cf_Service c) m (cf_Processors c) (cf_Exporters c) (cf_Connectors c).
Definition set_processors (c : Config) (m : gmap string component) : Config :=
  mkConfig (cf_Extensions c) (cf_Service c) (cf_Receivers c) m (cf_Exporters c) (cf_Connectors c).
Definition set_exporters (c : Config) (m : gmap string component) : Config :=
  mkConfig (cf_Extensions c) (cf_Service c) (cf_Receivers c) (cf_Processors c) m (cf_Connectors c).
Definition set_connectors (c : Config) (m : gmap string component) : Config :=
  mkConfig (cf_Extensions c) (cf_Service c) (cf_Receivers c) (cf_Processors c) (cf_Exporters c) m.

Definition empty_pipeline : ServicePipeline := mkServicePipeline [] [] [].

(** The service pipeline of an identifier, as Go reads it from the map. *)
Definition pipeline_of (c : Config) (id : string) : ServicePipeline :=
  default empty_pipeline (svc_Pipelines (cf_Service c) !! id).

Definition set_pipeline (c : Config) (id : string) (p : ServicePipeline) : Config :=
  set_service c (mkServiceConfig (<[id := p]> (svc_Pipelines (cf_Service c)))
                   (svc_Telemetry (cf_Service c)) (svc_Extensions (cf_Service c))).

Fixpoint run_components {T} (fs : list (BuildComponentFunc T)) (pipeline : T) (pipelineID : string)
    (b : builder) : outcome :=
  match fs with
  | [] => Some (Ok b)
  | f :: rest => andThen (wrap_err "failed to add component: " (f pipeline pipelineID b))
                   (run_components rest pipeline pipelineID)
  end.

Definition AddServicePipeline {T} (pipeline : T) (pipelineID : string) (fs : list (BuildComponentFunc T))
    (b : builder) : outcome :=
  run_components fs pipeline pipelineID
    (mkBuilder (set_pipeline (b_Config b) pipelineID empty_pipeline) (b_EnvVars b)).

Definition isConnector (componentID : string) : bool :=
  String.prefix "routing" componentID || String.prefix "forward" componentID.

(** [if _, found := m[id]; !found { m[id] = c }] *)
Definition add_if_absent (id : string) (c : component) (m : gmap string component) : gmap string component :=
  match m !! id with Some _ => m | None => <[id := c]> m end.

Definition AddReceiver {T} (componentIDFunc : ComponentIDFunc T) (configFunc : ComponentConfigFunc T) :
    BuildComponentFunc T :=
  fun pipeline pipelineID b =>
    receiverConfig ← configFunc pipeline;
    match receiverConfig with
    | None => Some (Ok b)
    | Some receiverConfig =>
        componentID ← componentIDFunc pipeline;
        let c := b_Config b in
        let c := if isConnector componentID
                 then set_connectors c (add_if_absent componentID receiverConfig (cf_Connectors c))
                 else set_receivers c (add_if_absent componentID receiverConfig (cf_Receivers c)) in
        let p := pipeline_of c pipelineID in
        let p := mkServicePipeline (sp_Receivers p ++ [componentID])%list (sp_Processors p) (sp_Exporters p) in
        Some (Ok (mkBuilder (set_pipeline c pipelineID p) (b_EnvVars b)))
    end.

Definition AddProcessor {T} (componentIDFunc : ComponentIDFunc T) (configFunc : ComponentConfigFunc T) :
    BuildComponentFunc T :=
  fun pipeline pipelineID b =>
    processorConfig ← configFunc pipeline;
    match processorConfig with
    | None => Some (Ok b)
    | Some processorConfig =>
        componentID ← componentIDFunc pipeline;
        let c := b_Config b in
        let c := set_processors c (add_if_absent componentID processorConfig (cf_Processors c)) in
        let p := pipeline_of c pipelineID in
        let p := mkServicePipeline (sp_Receivers p) (sp_Processors p ++ [componentID])%list (sp_Exporters p) in
        Some (Ok (mkBuilder (set_pipeline c pipelineID p) (b_EnvVars b)))
    end.

Definition AddExporter {T} (componentIDFunc : ComponentIDFunc T) (configFunc : ExporterComponentConfigFunc T) :
    BuildComponentFunc T :=
  fun pipeline pipelineID b =>
    r ← configFunc pipeline;
    match r with
    | Err e => Some (Err (Wrapf "failed to create exporter config: " e ""))
    | Ok (None, _) => Some (Ok b)
    | Ok (Some exporterConfig, exporterEnvVars) =>
        componentID ← componentIDFunc pipeline;
        let c := b_Config b in
        let c := if isConnector componentID
                 then set_connectors c (<[componentID := exporterConfig]> (cf_Connectors c))
                 else set_exporters c (<[componentID := exporterConfig]> (cf_Exporters c)) in
        let p := pipeline_of c pipelineID in
        let p := mkServicePipeline (sp_Receivers p) (sp_Processors p) (sp_Exporters p ++ [componentID])%list in
        Some (Ok (mkBuilder (set_pipeline c pipelineID p) (exporterEnvVars ∪ b_EnvVars b)))
    end.

(** [extensionEnvVars] is empty for nil. *)
Definition AddExtension (componentID : string) (extensionConfig : component) (extensionEnvVars : EnvVars)
    (b : builder) : builder :=
  let c := b_Config b in
  let c := set_extensions c (add_if_absent componentID extensionConfig (cf_Extensions c)) in
  let env := extensionEnvVars ∪ b_EnvVars b in
  let extensions := svc_Extensions (cf_Service c) in
  if bool_decide (componentID ∈ extensions) then mkBuilder c env
  else mkBuilder (set_service c (mkServiceConfig (svc_Pipelines (cf_Service c)) (svc_Telemetry (cf_Service c))
                                   (extensions ++ [componentID])%list)) env.

Definition StaticComponentID {T} (componentID : string) : ComponentIDFunc T := fun _ => Some componentID.
