(* ===== verification/MetricAgentReceivers.v ===== *)
(** * Receivers of the metric agent (internal/otelcollector/config/metricagent)

    k8scluster_receiver.go, kubeletstats_receivers.go and prometheus_receiver.go: the
    metrics the two runtime receivers collect, and the scrape jobs of the Prometheus
    receivers. Assigning to a promoted field of a nil embedded struct panics ([None]). *)
From stdpp Require Import base gmap strings list pretty.
From Stdlib Require Import Ascii.
From S2P Require Import Prelude Regex.
From S2P Require Import ApiV1beta1 MetricInputs MetricAgentTypes GoFormat CollectorBuilder.
Local Open Scope string_scope.

(** ** Metric name patterns *)

(** A pattern of config_builder.go: its text and the expression it compiles to. A pattern
    begins with [^] in each alternative and may match a part of the name only, so the
    rest of the name is free. *)
Record metricPattern := mkPattern { pt_Text : string; pt_Regexp : re }.

Definition lit (s : string) : re :=
  foldr (fun c r => RSeq (RClass (Ascii.eqb c)) r) REps (String.list_ascii_of_string s).
Definition dot_star : re := RStar (RClass (fun c => negb (Ascii.eqb c (ascii_of_nat 10)))).
Definition anything : re := RStar (RClass (fun _ => true)).

Definition podMetricPattern : metricPattern :=
  mkPattern "^k8s[.]pod[.].*" (RSeq (lit "k8s.pod.") dot_star).
Definition containerMetricPattern : metricPattern :=
  mkPattern "(^k8s[.]container[.].*)|(^container[.].*)"
    (RAlt (RSeq (lit "k8s.container.") dot_star) (RSeq (lit "container.") dot_star)).
Definition nodeMetricPattern : metricPattern :=
  mkPattern "^k8s[.]node[.].*" (RSeq (lit "k8s.node.") dot_star).
Definition volumeMetricPattern : metricPattern :=
  mkPattern "^k8s[.]volume[.].*" (RSeq (lit "k8s.volume.") dot_star).
Definition deploymentMetricPattern : metricPattern :=
  mkPattern "^k8s[.]deployment[.].*" (RSeq (lit "k8s.deployment.") dot_star).
Definition daemonsetMetricPattern : metricPattern :=
  mkPattern "^k8s[.]daemonset[.].*" (RSeq (lit "k8s.daemonset.") dot_star).
Definition statefulsetMetricPattern : metricPattern :=
  mkPattern "^k8s[.]statefulset[.].*" (RSeq (lit "k8s.statefulset.") dot_star).
Definition jobMetricPattern : metricPattern :=
  mkPattern "^k8s[.]job[.].*" (RSeq (lit "k8s.job.") dot_star).

(** [regexp.MustCompile(p).MatchString(s)] *)
Definition pattern_matches (p : metricPattern) (s : string) : bool :=
  MatchString (RSeq (pt_Regexp p) anything) s.

Definition getRuntimeAdditionalResourceMetrics (additionalMetrics : list string)
    (resourceMetricPattern : metricPattern) : list string :=
  List.filter (pattern_matches resourceMetricPattern) additionalMetrics.

(** [runtimeResourceSources] of config_builder.go. *)
Record runtimeResourceSources := mkRuntimeResources {
  rrs_pod : bool; rrs_container : bool; rrs_node : bool; rrs_volume : bool;
  rrs_statefulset : bool; rrs_deployment : bool; rrs_daemonset : bool; rrs_job : bool
}.

(** ** Setting metrics *)

(** The embedded struct that declares a promoted field. *)
Definition declaring (structs : list (string * list (string * string))) (field : string) : option string :=
  fst <$> List.find (fun s => existsb (fun f => str_eqb f.1 field) s.2) structs.

(** [m.field = v] *)
Definition assign (structs : list (string * list (string * string))) (field : string) (v : Metric)
    (m : MetricsConfig) : option MetricsConfig :=
  name ← declaring structs field; s ← m !! name; Some (<[name := <[field := v]> s]> m).

(** [if m.name == nil { m.name = &name{} }] *)
Definition init_struct (name : string) (m : MetricsConfig) : MetricsConfig :=
  match m !! name with None => <[name := (∅ : MetricStruct)]> m | Some _ => m end.

(** A struct literal that sets every field to [&Metric{Enabled: false}]. *)
Definition all_disabled (fields : list (string * string)) : MetricStruct :=
  list_to_map (map (fun f => (f.1, mkMetric false)) fields).

Definition set_struct (name : string) (s : MetricStruct) (m : MetricsConfig) : MetricsConfig := <[name := s]> m.

Definition enable (structs : list (string * list (string * string))) (init : MetricsConfig -> MetricsConfig)
    (field : string) (m : MetricsConfig) : option MetricsConfig :=
  assign structs field (mkMetric true) (init m).

(** [for _, m := range additionalMetrics { if enabler, ok := enablers[m]; ok { enabler(metrics) } }] *)
Fixpoint enable_all (enablers : list (string * (MetricsConfig -> option MetricsConfig)))
    (additionalMetrics : list string) (metrics : MetricsConfig) : option MetricsConfig :=
  match additionalMetrics with
  | [] => Some metrics
  | m :: rest =>
      match List.find (fun e => str_eqb e.1 m) enablers with
      | Some enabler => metrics ← enabler.2 metrics; enable_all enablers rest metrics
      | None => enable_all enablers rest metrics
      end
  end.

(** ** The cluster receiver (k8scluster_receiver.go) *)

Definition initPodMetrics := init_struct "K8sClusterPodMetrics".
Definition initContainerMetrics := init_struct "K8sClusterContainerMetrics".
Definition initStatefulSetMetrics := init_struct "K8sClusterStatefulSetMetrics".
Definition initJobMetrics := init_struct "K8sClusterJobMetrics".
Definition initDeploymentMetrics := init_struct "K8sClusterDeploymentMetrics".
Definition initDaemonSetMetrics := init_struct "K8sClusterDaemonSetMetrics".
Definition initOptionalMetrics := init_struct "K8sClusterOptionalMetrics".

Definition cluster_enable := enable K8sClusterMetrics (fun m => m).
Definition cluster_enable_in (init : MetricsConfig -> MetricsConfig) := enable K8sClusterMetrics init.

Definition k8sClusterMetricEnablers : list (string * (MetricsConfig -> option MetricsConfig)) :=
  [(metricK8sContainerStorageRequest, cluster_enable "K8sContainerStorageRequest");
   (metricK8sContainerStorageLimit, cluster_enable "K8sContainerStorageLimit");
   (metricK8sContainerEphemeralStorageRequest, cluster_enable "K8sContainerEphemeralStorageRequest");
   (metricK8sContainerEphemeralStorageLimit, cluster_enable "K8sContainerEphemeralStorageLimit");
   (metricK8sContainerReady, cluster_enable "K8sContainerReady");
   (metricK8sNamespacePhase, cluster_enable "K8sNamespacePhase");
   (metricK8sHPACurrentReplicas, cluster_enable "K8sHPACurrentReplicas");
   (metricK8sHPADesiredReplicas, cluster_enable "K8sHPADesiredReplicas");
   (metricK8sHPAMinReplicas, cluster_enable "K8sHPAMinReplicas");
   (metricK8sHPAMaxReplicas, cluster_enable "K8sHPAMaxReplicas");
   (metricK8sReplicaSetAvailable, cluster_enable "K8sReplicaSetAvailable");
   (metricK8sReplicaSetDesired, cluster_enable "K8sReplicaSetDesired");
   (metricK8sReplicationControllerAvailable, cluster_enable "K8sReplicationControllerAvailable");
   (metricK8sReplicationControllerDesired, cluster_enable "K8sReplicationControllerDesired");
   (metricK8sResourceQuotaHardLimit, cluster_enable "K8sResourceQuotaHardLimit");
   (metricK8sResourceQuotaUsed, cluster_enable "K8sResourceQuotaUsed");
   (metricK8sCronJobActiveJobs, cluster_enable "K8sCronJobActiveJobs");
   (metricK8sPodPhase, cluster_enable_in initPodMetrics "K8sPodPhase");
   (metricK8sContainerCPURequest, cluster_enable_in initContainerMetrics "K8sContainerCPURequest");
   (metricK8sContainerCPULimit, cluster_enable_in initContainerMetrics "K8sContainerCPULimit");
   (metricK8sContainerMemoryRequest, cluster_enable_in initContainerMetrics "K8sContainerMemoryRequest");
   (metricK8sContainerMemoryLimit, cluster_enable_in initContainerMetrics "K8sContainerMemoryLimit");
   (metricK8sContainerRestarts, cluster_enable_in initContainerMetrics "K8sContainerRestarts");
   (metricK8sStatefulSetCurrentPods, cluster_enable_in initStatefulSetMetrics "K8sStatefulSetCurrentPods");
   (metricK8sStatefulSetDesiredPods, cluster_enable_in initStatefulSetMetrics "K8sStatefulSetDesiredPods");
   (metricK8sStatefulSetReadyPods, cluster_enable_in initStatefulSetMetrics "K8sStatefulSetReadyPods");
   (metricK8sStatefulSetUpdatedPods, cluster_enable_in initStatefulSetMetrics "K8sStatefulSetUpdatedPods");
   (metricK8sJobActivePods, cluster_enable_in initJobMetrics "K8sJobActivePods");
   (metricK8sJobDesiredSuccessfulPods, cluster_enable_in initJobMetrics "K8sJobDesiredSuccessfulPods");
   (metricK8sJobFailedPods, cluster_enable_in initJobMetrics "K8sJobFailedPods");
   (metricK8sJobMaxParallelPods, cluster_enable_in initJobMetrics "K8sJobMaxParallelPods");
   (metricK8sJobSuccessfulPods, cluster_enable_in initJobMetrics "K8sJobSuccessfulPods");
   (metricK8sDeploymentAvailable, cluster_enable_in initDeploymentMetrics "K8sDeploymentAvailable");
   (metricK8sDeploymentDesired, cluster_enable_in initDeploymentMetrics "K8sDeploymentDesired");
   (metricK8sDaemonSetCurrentScheduledNodes, cluster_enable_in initDaemonSetMetrics "K8sDaemonSetCurrentScheduledNodes");
   (metricK8sDaemonSetDesiredScheduledNodes, cluster_enable_in initDaemonSetMetrics "K8sDaemonSetDesiredScheduledNodes");
   (metricK8sDaemonSetMisscheduledNodes, cluster_enable_in initDaemonSetMetrics "K8sDaemonSetMisscheduledNodes");
   (metricK8sDaemonSetReadyNodes, cluster_enable_in initDaemonSetMetrics "K8sDaemonSetReadyNodes");
   (metricK8sContainerStatusReason, cluster_enable_in initOptionalMetrics "K8sContainerStatusReason");
   (metricK8sContainerStatusState, cluster_enable_in initOptionalMetrics "K8sContainerStatusState");
   (metricK8sNodeCondition, cluster_enable_in initOptionalMetrics "K8sNodeCondition");
   (metricK8sPersistentVolumeStatusPhase, cluster_enable_in initOptionalMetrics "K8sPersistentVolumeStatusPhase");
   (metricK8sPersistentVolumeStorageCapacity, cluster_enable_in initOptionalMetrics "K8sPersistentVolumeStorageCapacity");
   (metricK8sPersistentVolumeClaimStatusPhase, cluster_enable_in initOptionalMetrics "K8sPersistentVolumeClaimStatusPhase");
   (metricK8sPersistentVolumeClaimStorageCapacity, cluster_enable_in initOptionalMetrics "K8sPersistentVolumeClaimStorageCapacity");
   (metricK8sPersistentVolumeClaimStorageRequest, cluster_enable_in initOptionalMetrics "K8sPersistentVolumeClaimStorageRequest");
   (metricK8sPodStatusReason, cluster_enable_in initOptionalMetrics "K8sPodStatusReason");
   (metricK8sServiceEndpointCount, cluster_enable_in initOptionalMetrics "K8sServiceEndpointCount");
   (metricK8sServiceLBIngressCount, cluster_enable_in initOptionalMetrics "K8sServiceLoadBalancerIngressCount")].

Definition disable_unless (enabled : bool) (name : string) (fields : list (string * string)) (m : MetricsConfig) :
    MetricsConfig :=
  if negb enabled then set_struct name (all_disabled fields) m else m.

Definition disableK8sClusterMetrics (metrics : MetricsConfig) (r : runtimeResourceSources) : MetricsConfig :=
  let metrics := set_struct "K8sClusterDefaultMetricsToDrop" (all_disabled K8sClusterDefaultMetricsToDrop) metrics in
  let metrics := disable_unless (rrs_pod r) "K8sClusterPodMetrics" K8sClusterPodMetrics metrics in
  let metrics := disable_unless (rrs_container r) "K8sClusterContainerMetrics" K8sClusterContainerMetrics metrics in
  let metrics :=
    disable_unless (rrs_statefulset r) "K8sClusterStatefulSetMetrics" K8sClusterStatefulSetMetrics metrics in
  let metrics := disable_unless (rrs_job r) "K8sClusterJobMetrics" K8sClusterJobMetrics metrics in
  let metrics := disable_unless (rrs_deployment r) "K8sClusterDeploymentMetrics" K8sClusterDeploymentMetrics metrics in
  disable_unless (rrs_daemonset r) "K8sClusterDaemonSetMetrics" K8sClusterDaemonSetMetrics metrics.

Definition enableK8sClusterAdditionalMetrics (metrics : MetricsConfig) (additionalMetrics : list string) :
    option MetricsConfig := enable_all k8sClusterMetricEnablers additionalMetrics metrics.

Definition k8sClusterMetrics (r : runtimeResourceSources) (additionalMetrics : list string) : option MetricsConfig :=
  enableK8sClusterAdditionalMetrics (disableK8sClusterMetrics ∅ r) additionalMetrics.

Definition k8sClusterReceiver (r : runtimeResourceSources) (additionalMetrics : list string) (collectionInterval : Z) :
    option K8sClusterReceiverConfig :=
  metrics ← k8sClusterMetrics r additionalMetrics;
  Some (mkK8sCluster "serviceAccount" (Duration_String collectionInterval) [] metrics "k8s_leader_elector").

(** ** The kubelet receiver (kubeletstats_receivers.go) *)

Record runtimeAdditionalMetricsResources := mkAdditionalResources {
  amr_pod : bool; amr_container : bool; amr_node : bool; amr_volume : bool
}.

Definition initKubeletStatsPodMetrics := init_struct "KubeletStatsPodMetrics".
Definition initKubeletStatsContainerMetrics := init_struct "KubeletStatsContainerMetrics".
Definition initKubeletStatsNodeMetrics := init_struct "KubeletStatsNodeMetrics".
Definition initKubeletStatsVolumeMetrics := init_struct "KubeletStatsVolumeMetrics".
Definition initKubeletStatsOptionalMetrics := init_struct "KubeletStatsOptionalMetrics".

Definition kubelet_enable := enable KubeletStatsMetrics (fun m => m).
Definition kubelet_enable_in (init : MetricsConfig -> MetricsConfig) := enable KubeletStatsMetrics init.

Definition kubeletStatsMetricEnablers : list (string * (MetricsConfig -> option MetricsConfig)) :=
  [(metricK8sNodeCPUTime, kubelet_enable "K8sNodeCPUTime");
   (metricK8sNodeMemoryMajorPageFaults, kubelet_enable "K8sNodeMemoryMajorPageFaults");
   (metricK8sNodeMemoryPageFaults, kubelet_enable "K8sNodeMemoryPageFaults");
   (metricK8sPodCPUTime, kubelet_enable_in initKubeletStatsPodMetrics "K8sPodCPUTime");
   (metricK8sPodCPUUsage, kubelet_enable_in initKubeletStatsPodMetrics "K8sPodCPUUsage");
   (metricK8sPodFSAvailable, kubelet_enable_in initKubeletStatsPodMetrics "K8sPodFSAvailable");
   (metricK8sPodFSCapacity, kubelet_enable_in initKubeletStatsPodMetrics "K8sPodFSCapacity");
   (metricK8sPodFSUsage, kubelet_enable_in initKubeletStatsPodMetrics "K8sPodFSUsage");
   (metricK8sPodMemoryAvailable, kubelet_enable_in initKubeletStatsPodMetrics "K8sPodMemoryAvailable");
   (metricK8sPodMemoryMajorPageFaults, kubelet_enable_in initKubeletStatsPodMetrics "K8sPodMemoryMajorPageFault");
   (metricK8sPodMemoryPageFaults, kubelet_enable_in initKubeletStatsPodMetrics "K8sPodMemoryPageFaults");
   (metricK8sPodMemoryRSS, kubelet_enable_in initKubeletStatsPodMetrics "K8sPodMemoryRSS");
   (metricK8sPodMemoryUsage, kubelet_enable_in initKubeletStatsPodMetrics "K8sPodMemoryUsage");
   (metricK8sPodMemoryWorkingSet, kubelet_enable_in initKubeletStatsPodMetrics "K8sPodMemoryWorkingSet");
   (metricK8sPodNetworkErrors, kubelet_enable_in initKubeletStatsPodMetrics "K8sPodNetworkErrors");
   (metricK8sPodNetworkIO, kubelet_enable_in initKubeletStatsPodMetrics "K8sPodNetworkIO");
   (metricContainerCPUTime, kubelet_enable_in initKubeletStatsContainerMetrics "ContainerCPUTime");
   (metricContainerCPUUsage, kubelet_enable_in initKubeletStatsContainerMetrics "ContainerCPUUsage");
   (metricContainerFSAvailable, kubelet_enable_in initKubeletStatsContainerMetrics "ContainerFSAvailable");
   (metricContainerFSCapacity, kubelet_enable_in initKubeletStatsContainerMetrics "ContainerFSCapacity");
   (metricContainerFSUsage, kubelet_enable_in initKubeletStatsContainerMetrics "ContainerFSUsage");
   (metricContainerMemoryAvailable, kubelet_enable_in initKubeletStatsContainerMetrics "ContainerMemoryAvailable");
   (metricContainerMemoryMajorPageFault, kubelet_enable_in initKubeletStatsContainerMetrics "ContainerMemoryMajorPageFault");
   (metricContainerMemoryPageFaults, kubelet_enable_in initKubeletStatsContainerMetrics "ContainerMemoryPageFaults");
   (metricContainerMemoryRSS, kubelet_enable_in initKubeletStatsContainerMetrics "ContainerMemoryRSS");
   (metricContainerMemoryUsage, kubelet_enable_in initKubeletStatsContainerMetrics "ContainerMemoryUsage");
   (metricContainerMemoryWorkingSet, kubelet_enable_in initKubeletStatsContainerMetrics "ContainerMemoryWorkingSet");
   (metricK8sNodeCPUUsage, kubelet_enable_in initKubeletStatsNodeMetrics "K8sNodeCPUUsage");
   (metricK8sNodeFSAvailable, kubelet_enable_in initKubeletStatsNodeMetrics "K8sNodeFSAvailable");
   (metricK8sNodeFSCapacity, kubelet_enable_in initKubeletStatsNodeMetrics "K8sNodeFSCapacity");
   (metricK8sNodeFSUsage, kubelet_enable_in initKubeletStatsNodeMetrics "K8sNodeFSUsage");
   (metricK8sNodeMemoryAvailable, kubelet_enable_in initKubeletStatsNodeMetrics "K8sNodeMemoryAvailable");
   (metricK8sNodeMemoryRSS, kubelet_enable_in initKubeletStatsNodeMetrics "K8sNodeMemoryRSS");
   (metricK8sNodeMemoryUsage, kubelet_enable_in initKubeletStatsNodeMetrics "K8sNodeMemoryUsage");
   (metricK8sNodeMemoryWorkingSet, kubelet_enable_in initKubeletStatsNodeMetrics "K8sNodeMemoryWorkingSet");
   (metricK8sNodeNetworkErrors, kubelet_enable_in initKubeletStatsNodeMetrics "K8sNodeNetworkErrors");
   (metricK8sNodeNetworkIO, kubelet_enable_in initKubeletStatsNodeMetrics "K8sNodeNetworkIO");
   (metricK8sVolumeAvailable, kubelet_enable_in initKubeletStatsVolumeMetrics "K8sVolumeAvailable");
   (metricK8sVolumeCapacity, kubelet_enable_in initKubeletStatsVolumeMetrics "K8sVolumeCapacity");
   (metricK8sVolumeInodes, kubelet_enable_in initKubeletStatsVolumeMetrics "K8sVolumeInodes");
   (metricK8sVolumeInodesFree, kubelet_enable_in initKubeletStatsVolumeMetrics "K8sVolumeInodesFree");
   (metricK8sVolumeInodesUsed, kubelet_enable_in initKubeletStatsVolumeMetrics "K8sVolumeInodesUsed");
   (metricContainerUptime, kubelet_enable_in initKubeletStatsOptionalMetrics "ContainerUptime");
   (metricK8sContainerCPUNodeUtilization, kubelet_enable_in initKubeletStatsOptionalMetrics "K8sContainerCPUNodeUtilization");
   (metricK8sContainerCPULimitUtilization, kubelet_enable_in initKubeletStatsOptionalMetrics "K8sContainerCPULimitUtilization");
   (metricK8sContainerCPURequestUtilization, kubelet_enable_in initKubeletStatsOptionalMetrics "K8sContainerCPURequestUtilization");
   (metricK8sContainerEphemeralStorageUsage, kubelet_enable_in initKubeletStatsOptionalMetrics "K8sContainerEphemeralStorageUsage");
   (metricK8sContainerMemNodeUtilization, kubelet_enable_in initKubeletStatsOptionalMetrics "K8sContainerMemNodeUtilization");
   (metricK8sContainerMemLimitUtilization, kubelet_enable_in initKubeletStatsOptionalMetrics "K8sContainerMemLimitUtilization");
   (metricK8sContainerMemRequestUtilization, kubelet_enable_in initKubeletStatsOptionalMetrics "K8sContainerMemRequestUtilization");
   (metricK8sNodeSystemContainerCPUTime, kubelet_enable_in initKubeletStatsOptionalMetrics "K8sNodeSystemContainerCPUTime");
   (metricK8sNodeSystemContainerCPUUsage, kubelet_enable_in initKubeletStatsOptionalMetrics "K8sNodeSystemContainerCPUUsage");
   (metricK8sNodeSystemContainerMemoryUsage, kubelet_enable_in initKubeletStatsOptionalMetrics "K8sNodeSystemContainerMemoryUsage");
   (metricK8sNodeSystemContainerMemoryWorkingSet, kubelet_enable_in initKubeletStatsOptionalMetrics "K8sNodeSystemContainerMemoryWorkingSet");
   (metricK8sNodeUptime, kubelet_enable_in initKubeletStatsOptionalMetrics "K8sNodeUptime");
   (metricK8sPodCPUNodeUtilization, kubelet_enable_in initKubeletStatsOptionalMetrics "K8sPodCPUNodeUtilization");
   (metricK8sPodCPULimitUtilization, kubelet_enable_in initKubeletStatsOptionalMetrics "K8sPodCPULimitUtilization");
   (metricK8sPodCPURequestUtilization, kubelet_enable_in initKubeletStatsOptionalMetrics "K8sPodCPURequestUtilization");
   (metricK8sPodMemNodeUtilization, kubelet_enable_in initKubeletStatsOptionalMetrics "K8sPodMemNodeUtilization");
   (metricK8sPodMemLimitUtilization, kubelet_enable_in initKubeletStatsOptionalMetrics "K8sPodMemLimitUtilization");
   (metricK8sPodMemRequestUtilization, kubelet_enable_in initKubeletStatsOptionalMetrics "K8sPodMemRequestUtilization");
   (metricK8sPodUptime, kubelet_enable_in initKubeletStatsOptionalMetrics "K8sPodUptime");
   (metricK8sPodVolumeUsage, kubelet_enable_in initKubeletStatsOptionalMetrics "K8sPodVolumeUsage")].

Definition kubeletStatsMetricGroups (r : runtimeResourceSources) (a : runtimeAdditionalMetricsResources) :
    list MetricGroupType :=
  ((if rrs_container r || amr_container a then [MetricGroupTypeContainer] else [])
   ++ (if rrs_pod r || amr_pod a then [MetricGroupTypePod] else [])
   ++ (if rrs_node r || amr_node a then [MetricGroupTypeNode] else [])
   ++ (if rrs_volume r || amr_volume a then [MetricGroupTypeVolume] else []))%list.

Definition disableKubeletStatsMetrics (metrics : MetricsConfig) (r : runtimeResourceSources)
    (a : runtimeAdditionalMetricsResources) : MetricsConfig :=
  let metrics := set_struct "KubeletStatsDefaultMetricsToDrop" (all_disabled KubeletStatsDefaultMetricsToDrop) metrics in
  let metrics :=
    if negb (rrs_pod r) && amr_pod a
    then set_struct "KubeletStatsPodMetrics" (all_disabled KubeletStatsPodMetrics) metrics else metrics in
  let metrics :=
    if negb (rrs_container r) && amr_container a
    then set_struct "KubeletStatsContainerMetrics" (all_disabled KubeletStatsContainerMetrics) metrics else metrics in
  let metrics :=
    if negb (rrs_node r) && amr_node a
    then set_struct "KubeletStatsNodeMetrics" (all_disabled KubeletStatsNodeMetrics) metrics else metrics in
  if negb (rrs_volume r) && amr_volume a
  then set_struct "KubeletStatsVolumeMetrics" (all_disabled KubeletStatsVolumeMetrics) metrics else metrics.

Definition enableKubeletStatsAdditionalMetrics (metrics : MetricsConfig) (additionalMetrics : list string) :
    option MetricsConfig := enable_all kubeletStatsMetricEnablers additionalMetrics metrics.

Definition kubeletStatsMetrics (r : runtimeResourceSources) (a : runtimeAdditionalMetricsResources)
    (additionalMetrics : list string) : option MetricsConfig :=
  enableKubeletStatsAdditionalMetrics (disableKubeletStatsMetrics ∅ r a) additionalMetrics.

Definition additional_resources (additionalMetrics : list string) : runtimeAdditionalMetricsResources :=
  let has p := (0 <? length (getRuntimeAdditionalResourceMetrics additionalMetrics p))%nat in
  mkAdditionalResources (has podMetricPattern) (has containerMetricPattern) (has nodeMetricPattern)
    (has volumeMetricPattern).

Definition portKubelet : Z := 10250.

Definition kubeletStatsReceiver (r : runtimeResourceSources) (additionalMetrics : list string)
    (collectionInterval : Z) : option KubeletStatsReceiverConfig :=
  let a := additional_resources additionalMetrics in
  metrics ← kubeletStatsMetrics r a additionalMetrics;
  Some (mkKubeletStats (Duration_String collectionInterval) "serviceAccount"
    ("https://" +:+ env_ref EnvVarCurrentNodeName +:+ ":" +:+ pretty portKubelet) true
    (kubeletStatsMetricGroups r a) metrics
    (mkKubeletStatsResourceAttributes (mkMetric false) (mkMetric false) (mkMetric false) (mkMetric false)
       (mkMetric false) (mkMetric false))
    ["k8s.volume.type"] (mkNetworkInterfacesEnabler true) (env_ref EnvVarCurrentNodeName)
    (mkK8sAPIConfig "serviceAccount")).

(** ** The Prometheus receivers (prometheus_receiver.go) *)

Definition NodeAffiliatedPod : string := "pod".
Definition NodeAffiliatedEndpoint : string := "endpoint".
Definition AnnotatedPod : string := "pod".
Definition AnnotatedService : string := "service".
Definition PodNodeSelectorFieldExpression : string := "spec.nodeName=${MY_NODE_NAME}".
Definition sampleLimit : Z := 50000.
Definition bodySizeLimit : string := "20MB".
Definition appPodsJobName : string := "app-pods".
Definition appServicesJobName : string := "app-services".
Definition appServicesSecureJobName : string := "app-services-secure".

(** A relabel configuration without a separator and a modulus. *)
Definition relabel (sources : list string) (regex target replacement : string) (action : RelabelAction) : Relabel :=
  mkRelabel sources "" regex 0 target replacement action.

Definition keepIfRunningOnSameNode (nodeAffiliated : string) : Relabel :=
  relabel ["__meta_kubernetes_" +:+ nodeAffiliated +:+ "_node_name"] (env_ref EnvVarCurrentNodeName) "" "" Keep.
Definition keepIfScrapingEnabled (annotated : string) : Relabel :=
  relabel ["__meta_kubernetes_" +:+ annotated +:+ "_annotation_prometheus_io_scrape"] "true" "" "" Keep.
Definition keepIfIstioProxy : Relabel := relabel ["__meta_kubernetes_pod_container_name"] "istio-proxy" "" "" Keep.
Definition keepIfContainerWithEnvoyPort : Relabel :=
  relabel ["__meta_kubernetes_pod_container_port_name"] "http-envoy-prom" "" "" Keep.
Definition inferSchemeFromIstioInjectedLabel : Relabel :=
  relabel ["__meta_kubernetes_pod_label_security_istio_io_tlsMode"] "(istio)" "__scheme__" "https" Replace.
Definition inferSchemeFromAnnotation (annotated : string) : Relabel :=
  relabel ["__meta_kubernetes_" +:+ annotated +:+ "_annotation_prometheus_io_scheme"] "(https?)" "__scheme__" ""
    Replace.
Definition inferMetricsPathFromAnnotation (annotated : string) : Relabel :=
  relabel ["__meta_kubernetes_" +:+ annotated +:+ "_annotation_prometheus_io_path"] "(.+)" "__metrics_path__" ""
    Replace.
Definition inferAddressFromAnnotation (annotated : string) : Relabel :=
  relabel ["__address__"; "__meta_kubernetes_" +:+ annotated +:+ "_annotation_prometheus_io_port"]
    "([^:]+)(?::\d+)?;(\d+)" "__address__" "$$1:$$2" Replace.
Definition inferServiceFromMetaLabel : Relabel := relabel ["__meta_kubernetes_service_name"] "" "service" "" Replace.
Definition dropIfPodNotRunning : Relabel :=
  relabel ["__meta_kubernetes_pod_phase"] "Pending|Succeeded|Failed" "" "" Drop.
Definition dropIfInitContainer : Relabel := relabel ["__meta_kubernetes_pod_container_init"] "(true)" "" "" Drop.
Definition dropIfIstioProxy : Relabel := relabel ["__meta_kubernetes_pod_container_name"] "(istio-proxy)" "" "" Drop.
Definition dropIfSchemeHTTP : Relabel := relabel ["__scheme__"] "(http)" "" "" Drop.
Definition dropIfSchemeHTTPS : Relabel := relabel ["__scheme__"] "(https)" "" "" Drop.
Definition inferURLParamFromAnnotation (annotated : string) : Relabel :=
  relabel [] ("__meta_kubernetes_" +:+ annotated +:+ "_annotation_prometheus_io_param_(.+)") "" "__param_$1" LabelMap.

Definition discoveryConfigWithNodeSelector (role : Role) : list KubernetesDiscovery :=
  [mkDiscovery role [mkSelector RolePod PodNodeSelectorFieldExpression]].

Definition prometheusPodsRelabelConfigs : list Relabel :=
  [keepIfRunningOnSameNode NodeAffiliatedPod; keepIfScrapingEnabled AnnotatedPod; dropIfPodNotRunning;
   dropIfInitContainer; inferSchemeFromIstioInjectedLabel; dropIfSchemeHTTPS;
   inferMetricsPathFromAnnotation AnnotatedPod; inferAddressFromAnnotation AnnotatedPod;
   inferURLParamFromAnnotation AnnotatedPod].

Definition prometheusEndpointsRelabelConfigs (requireHTTPS : bool) : list Relabel :=
  ([keepIfRunningOnSameNode NodeAffiliatedEndpoint; keepIfScrapingEnabled AnnotatedService; dropIfPodNotRunning;
    dropIfInitContainer; dropIfIstioProxy; inferSchemeFromIstioInjectedLabel;
    inferSchemeFromAnnotation AnnotatedService; inferURLParamFromAnnotation AnnotatedService]
   ++ [if requireHTTPS then dropIfSchemeHTTP else dropIfSchemeHTTPS]
   ++ [inferMetricsPathFromAnnotation AnnotatedService; inferAddressFromAnnotation AnnotatedService;
       inferServiceFromMetaLabel])%list.

Definition tlsConfig (istioCertPath : string) : ScrapeTLS :=
  mkScrapeTLS (filepath_Join [istioCertPath; "root-cert.pem"]) (filepath_Join [istioCertPath; "cert-chain.pem"])
    (filepath_Join [istioCertPath; "key.pem"]) true.

Definition prometheusPodsReceiverConfig (collectionInterval : Z) : PrometheusReceiverConfig :=
  mkPrometheusReceiver (mkPrometheusScrape
    [mkScrape appPodsJobName sampleLimit bodySizeLimit collectionInterval "" prometheusPodsRelabelConfigs []
       (discoveryConfigWithNodeSelector RolePod) None]).

Definition prometheusServicesReceiverConfig (istioActive : bool) (istioCertPath : string) (collectionInterval : Z) :
    PrometheusReceiverConfig :=
  let job name requireHTTPS tls :=
    mkScrape name sampleLimit bodySizeLimit collectionInterval "" (prometheusEndpointsRelabelConfigs requireHTTPS) []
      (discoveryConfigWithNodeSelector RoleEndpoints) tls in
  mkPrometheusReceiver (mkPrometheusScrape
    (job appServicesJobName false None
     :: if istioActive then [job appServicesSecureJobName true (Some (tlsConfig istioCertPath))] else [])).

Definition prometheusIstioReceiverConfig (envoyMetricsEnabled : bool) (collectionInterval : Z) :
    PrometheusReceiverConfig :=
  let metricNames := "istio_.*" in
  let metricNames := if envoyMetricsEnabled then String.concat "|" ["envoy_.*"; metricNames] else metricNames in
  mkPrometheusReceiver (mkPrometheusScrape
    [mkScrape "istio-proxy" sampleLimit bodySizeLimit collectionInterval "/stats/prometheus"
       [keepIfRunningOnSameNode NodeAffiliatedPod; keepIfIstioProxy; keepIfContainerWithEnvoyPort; dropIfPodNotRunning]
       [relabel ["__name__"] metricNames "" "" Keep] (discoveryConfigWithNodeSelector RolePod) None]).
