(* ===== verification/MetricReceiverProps.v ===== *)
(** * Which runtime metrics the metric agent collects

    The settings of the two runtime receivers, read off the structs of
    MetricAgentTypes.v by YAML key: a metric is switched on exactly when some pipeline
    lists it as an additional metric, and switched off exactly when it is not wanted. *)
From stdpp Require Import base gmap strings list.
From S2P Require Import Prelude Regex ApiV1beta1 MetricInputs MetricAgentTypes MetricAgentReceivers.
Local Open Scope string_scope.

(** ** Settings by YAML key *)

Abbreviation structs := (list (string * list (string * string))) (only parsing).

(** The fields of the embedded structs: struct, field and YAML key. *)
Definition flat (T : structs) : list (string * string * string) :=
  concat (map (fun s => map (fun f => (s.1, f.1, f.2)) s.2) T).

Definition locate (T : structs) (key : string) : option (string * string * string) :=
  List.find (fun x => str_eqb x.2 key) (flat T).

(** What the rendered configuration says about a metric. *)
Definition setting (T : structs) (m : MetricsConfig) (key : string) : option bool :=
  match locate T key with
  | Some (s, f, _) => me_Enabled <$> (m !! s ≫= fun v : MetricStruct => v !! f)
  | None => None
  end.

(** No two fields share a name, and no two share a key. *)
Definition distinct_fields (T : structs) : Prop := NoDup (map (fun x => x.1.2) (flat T)) /\ NoDup (map snd (flat T)).

Lemma locate_some T key s f k : locate T key = Some (s, f, k) -> (s, f, k) ∈ flat T /\ k = key.
Proof. intros [Hin Hk]%find_some. apply list_elem_of_In in Hin. by apply str_eqb_true in Hk. Qed.

Lemma flat_field T x y : distinct_fields T -> x ∈ flat T -> y ∈ flat T -> x.1.2 = y.1.2 -> x = y.
Proof.
  intros [Hd _] [i Hi]%list_elem_of_lookup [j Hj]%list_elem_of_lookup He.
  assert (i = j) as ->; [|congruence].
  eapply (NoDup_lookup (map (fun x => x.1.2) (flat T))); [done|..].
  - rewrite list_lookup_fmap, Hi. done.
  - rewrite list_lookup_fmap, Hj. cbn. by rewrite He.
Qed.

Lemma setting_init T s m key : setting T (init_struct s m) key = setting T m key.
Proof.
  unfold setting, init_struct. destruct (locate T key) as [[[s' f] k]|]; [|done].
  destruct (m !! s) eqn:Hs; [done|]. destruct (decide (s = s')) as [->|Hn].
  - by rewrite lookup_insert_eq, Hs.
  - by rewrite lookup_insert_ne.
Qed.

(** Switching a field on changes the setting of its key only. *)
Lemma setting_enable T s f k m v key :
  distinct_fields T -> (s, f, k) ∈ flat T -> m !! s = Some v ->
  setting T (<[s := <[f := mkMetric true]> v]> m) key = if bool_decide (key = k) then Some true else setting T m key.
Proof.
  intros Hd Hin Hv. unfold setting. destruct (locate T key) as [[[s' f'] k']|] eqn:Hl.
  - apply locate_some in Hl as [Hin' ->]. case_bool_decide as Hk.
    + subst k. assert ((s', f', key) = (s, f, key)) as [= -> ->].
      { destruct Hd as [H1 H2].
        destruct (list_elem_of_lookup_1 _ _ Hin) as [i Hi]. destruct (list_elem_of_lookup_1 _ _ Hin') as [j Hj].
        assert (i = j) as ->; [|congruence]. eapply (NoDup_lookup (map snd (flat T))); [done|..];
        by rewrite list_lookup_fmap, ?Hi, ?Hj. }
      rewrite lookup_insert_eq. cbn. by rewrite lookup_insert_eq.
    + assert (f <> f') as Hf.
      { intros ->. apply Hk. pose proof (flat_field T _ _ Hd Hin Hin' eq_refl) as He. congruence. }
      destruct (decide (s = s')) as [->|Hn].
      * rewrite lookup_insert_eq, Hv. cbn. by rewrite lookup_insert_ne.
      * by rewrite lookup_insert_ne.
  - case_bool_decide as Hk; [|done]. subst k. exfalso.
    unfold locate in Hl. eapply find_none in Hl; [|apply list_elem_of_In, Hin]. cbn in Hl. by rewrite str_eqb_refl in Hl.
Qed.

(** ** Enablers *)

(** The enabler of [key] switches [key] on and nothing else, and keeps the struct
    [base] non-nil. *)
Definition enables (T : structs) (base key : string) (e : MetricsConfig -> option MetricsConfig) : Prop :=
  forall m, is_Some (m !! base) -> exists m', e m = Some m' /\ is_Some (m' !! base) /\
    forall k, setting T m' k = if bool_decide (k = key) then Some true else setting T m k.

Lemma enable_base T base f key :
  distinct_fields T -> declaring T f = Some base -> (base, f, key) ∈ flat T ->
  enables T base key (enable T (fun m => m) f).
Proof.
  intros Hd Ho Hin m [v Hv]. unfold enable, assign. rewrite Ho. cbn. rewrite Hv. cbn. eexists. split; [done|].
  rewrite lookup_insert_eq. split; [eauto|]. intros k. exact (setting_enable T base f key m v k Hd Hin Hv).
Qed.

Lemma enable_init T base s f key :
  distinct_fields T -> declaring T f = Some s -> (s, f, key) ∈ flat T -> s <> base ->
  enables T base key (enable T (init_struct s) f).
Proof.
  intros Hd Ho Hin Hn m Hb. unfold enable, assign. rewrite Ho. cbn.
  assert (exists v, init_struct s m !! s = Some v) as [v Hv].
  { unfold init_struct. destruct (m !! s) eqn:E; [eauto|]. rewrite lookup_insert_eq. eauto. }
  rewrite Hv. cbn. eexists. split; [done|]. split.
  - rewrite lookup_insert_ne by done. unfold init_struct. destruct (m !! s); [done|]. by rewrite lookup_insert_ne.
  - intros k. rewrite (setting_enable T s f key _ v k Hd Hin Hv). by rewrite setting_init.
Qed.

Lemma enable_all_settings T base enablers additional m :
  Forall (fun e => enables T base e.1 e.2) enablers -> is_Some (m !! base) ->
  exists m', enable_all enablers additional m = Some m' /\
    forall k, setting T m' k =
      if bool_decide (k ∈ additional /\ k ∈ map fst enablers) then Some true else setting T m k.
Proof.
  intros He. revert m. induction additional as [|a rest IH]; intros m Hb; cbn.
  { eexists. split; [done|]. intros k. rewrite bool_decide_eq_false_2; [done|]. intros [Hk _]. by apply elem_of_nil in Hk. }
  destruct (List.find _ enablers) as [[a' e]|] eqn:Hf.
  - apply find_some in Hf as [Hin Ha%str_eqb_true]. cbn in Ha. subst a'. apply list_elem_of_In in Hin.
    pose proof (proj1 (Forall_forall _ _) He _ Hin) as Hx. destruct (Hx m Hb) as (m1 & E1 & Hb1 & S1). cbn in E1.
    cbn [snd]. rewrite E1. cbn. destruct (IH m1 Hb1) as (m' & E' & S'). exists m'. split; [done|]. intros k.
    rewrite S', S1. destruct (decide (k = a)) as [->|Hn].
    + rewrite (bool_decide_eq_true_2 (a = a)) by done. rewrite (bool_decide_eq_true_2 (a ∈ a :: rest /\ _)).
      * by destruct (bool_decide _).
      * split; [by left|]. apply list_elem_of_fmap. by exists (a, e).
    + rewrite (bool_decide_eq_false_2 (k = a)) by done. erewrite bool_decide_ext; [done|].
      rewrite elem_of_cons. naive_solver.
  - destruct (IH m Hb) as (m' & E' & S'). exists m'. split; [done|]. intros k. rewrite S'.
    erewrite bool_decide_ext; [done|]. rewrite elem_of_cons. split; [naive_solver|].
    intros [[->|Hk] Hm]; [exfalso|done]. apply list_elem_of_fmap in Hm as ([a' e] & -> & Hin).
    eapply find_none in Hf; [|apply list_elem_of_In, Hin]. cbn in Hf. by rewrite str_eqb_refl in Hf.
Qed.

(** ** The tables *)

Lemma cluster_fields_distinct : distinct_fields K8sClusterMetrics.
Proof. split; by apply (bool_decide_unpack _); vm_compute. Qed.

Lemma kubelet_fields_distinct : distinct_fields KubeletStatsMetrics.
Proof. split; by apply (bool_decide_unpack _); vm_compute. Qed.

Ltac in_table := apply (bool_decide_unpack _); vm_compute; exact I.

(** Every enabler switches on the metric it is listed under. *)
Lemma cluster_enablers :
  Forall (fun e => enables K8sClusterMetrics "K8sClusterDefaultMetricsToDrop" e.1 e.2) k8sClusterMetricEnablers.
Proof.
  repeat (apply Forall_cons; split; [|]); [..|apply Forall_nil_2]; cbn [fst snd];
    first [apply enable_base | apply enable_init];
    first [exact cluster_fields_distinct | reflexivity | done | in_table].
Qed.

Lemma kubelet_enablers :
  Forall (fun e => enables KubeletStatsMetrics "KubeletStatsDefaultMetricsToDrop" e.1 e.2) kubeletStatsMetricEnablers.
Proof.
  repeat (apply Forall_cons; split; [|]); [..|apply Forall_nil_2]; cbn [fst snd];
    first [apply enable_base | apply enable_init];
    first [exact kubelet_fields_distinct | reflexivity | done | in_table].
Qed.

(** ** Resources *)

Inductive resource := Pod | Container | Node | Volume | Deployment | DaemonSet | StatefulSet | Job.

#[export] Instance resource_eq_dec : EqDecision resource.
Proof. solve_decision. Defined.

Definition resources : list resource := [Pod; Container; Node; Volume; Deployment; DaemonSet; StatefulSet; Job].

Lemma elem_of_resources R : R ∈ resources.
Proof. by destruct R; apply (bool_decide_unpack _). Qed.

Definition resource_on (r : runtimeResourceSources) (R : resource) : bool :=
  match R with
  | Pod => rrs_pod r | Container => rrs_container r | Node => rrs_node r | Volume => rrs_volume r
  | Deployment => rrs_deployment r | DaemonSet => rrs_daemonset r | StatefulSet => rrs_statefulset r | Job => rrs_job r
  end.

Definition pattern_of (R : resource) : metricPattern :=
  match R with
  | Pod => podMetricPattern | Container => containerMetricPattern | Node => nodeMetricPattern
  | Volume => volumeMetricPattern | Deployment => deploymentMetricPattern | DaemonSet => daemonsetMetricPattern
  | StatefulSet => statefulsetMetricPattern | Job => jobMetricPattern
  end.

(** The metrics of a resource that are collected when the resource is enabled. *)
Definition cluster_defaults (R : resource) : list string :=
  match R with
  | Pod => k8sClusterReceiverPodMetrics | Container => k8sClusterReceiverContainerMetrics
  | Deployment => k8sClusterReceiverDeploymentMetrics | DaemonSet => k8sClusterReceiverDaemonSetMetrics
  | StatefulSet => k8sClusterReceiverStatefulSetMetrics | Job => k8sClusterReceiverJobMetrics
  | _ => []
  end.
Definition kubelet_defaults (R : resource) : list string :=
  match R with
  | Pod => kubeletStatsReceiverPodMetrics | Container => kubeletStatsReceiverContainerMetrics
  | Node => kubeletStatsReceiverNodeMetrics | Volume => kubeletStatsReceiverVolumeMetrics
  | _ => []
  end.

(** ** The receivers of the collector *)

(** The metrics the receivers emit unless told otherwise, and the group of a metric of
    the kubelet receiver. *)
Class RuntimeReceivers := {
  cluster_default_on : string -> bool;
  kubelet_default_on : string -> bool;
  kubelet_group : string -> MetricGroupType
}.

Definition optional_keys (fields : list (string * string)) : list string := map snd fields.

Definition group_name (R : resource) : option MetricGroupType :=
  match R with
  | Pod => Some MetricGroupTypePod | Container => Some MetricGroupTypeContainer
  | Node => Some MetricGroupTypeNode | Volume => Some MetricGroupTypeVolume | _ => None
  end.

(** Documented by the receivers: every metric is on by default except the optional ones,
    and the metrics of a group carry its name. *)
Class RuntimeReceiversLaws `{RuntimeReceivers} := {
  cluster_default_law m :
    m ∈ K8sClusterReceiverMetrics -> cluster_default_on m = negb (contains (optional_keys K8sClusterOptionalMetrics) m);
  kubelet_default_law m :
    m ∈ KubeletStatsReceiverMetrics ->
    kubelet_default_on m = negb (contains (optional_keys KubeletStatsOptionalMetrics) m);
  kubelet_group_law R g m :
    group_name R = Some g -> m ∈ KubeletStatsReceiverMetrics -> pattern_matches (pattern_of R) m = true ->
    kubelet_group m = g
}.

Definition wanted_by (on : resource -> bool) (defaults : resource -> list string) (m : string) : bool :=
  existsb (fun R => on R && contains (defaults R) m) resources.

Definition effective (s : option bool) (d : bool) : bool := match s with Some b => b | None => d end.

Definition cluster_collects `{RuntimeReceivers} (c : K8sClusterReceiverConfig) (m : string) : bool :=
  effective (setting K8sClusterMetrics (kc_Metrics c) m) (cluster_default_on m).

Definition kubelet_collects `{RuntimeReceivers} (c : KubeletStatsReceiverConfig) (m : string) : bool :=
  contains (ks_MetricGroups c) (kubelet_group m)
  && effective (setting KubeletStatsMetrics (ks_Metrics c) m) (kubelet_default_on m).

(** ** The cluster receiver *)

Lemma contains_bool l m : contains l m = bool_decide (m ∈ l).
Proof. apply eq_true_iff_eq. by rewrite contains_spec, bool_decide_eq_true. Qed.

Lemma forallb_elem {A} (f : A -> bool) l x : forallb f l = true -> x ∈ l -> f x = true.
Proof. intros Hf Hx. eapply forallb_forall in Hf; [done|]. by apply list_elem_of_In. Qed.

(** The embedded struct that declares a key. *)
Definition owner (T : structs) (key : string) : option string := (fun x => x.1.1) <$> locate T key.

(** No two embedded structs share a name. *)
Definition distinct_structs (T : structs) : Prop := NoDup (map fst T).

Lemma elem_of_flat T s f k : (s, f, k) ∈ flat T -> exists F, (s, F) ∈ T /\ (f, k) ∈ F.
Proof.
  unfold flat. rewrite list_elem_of_In, in_concat. intros (l & Hl & Hx).
  apply in_map_iff in Hl as ([s' F] & <- & Hin). apply in_map_iff in Hx as ([f' k'] & [= <- <- <-] & Hf).
  exists F. by rewrite !list_elem_of_In.
Qed.

Lemma struct_unique T s F F' : distinct_structs T -> (s, F) ∈ T -> (s, F') ∈ T -> F = F'.
Proof.
  intros Hd [i Hi]%list_elem_of_lookup [j Hj]%list_elem_of_lookup.
  assert (i = j) as ->; [|congruence].
  eapply (NoDup_lookup (map fst T)); [done|..]; by rewrite list_lookup_fmap, ?Hi, ?Hj.
Qed.

Lemma all_disabled_lookup F f k : (f, k) ∈ F -> all_disabled F !! f = Some (mkMetric false).
Proof.
  unfold all_disabled. induction F as [|[f' k'] F IH]; [by intros ?%elem_of_nil|]. cbn.
  destruct (decide (f' = f)) as [->|Hn]; [by rewrite lookup_insert_eq|]. rewrite lookup_insert_ne by done.
  intros [[= <- <-]|Hf]%elem_of_cons; [done|by apply IH].
Qed.

(** Setting a struct with everything disabled changes the settings of its keys only. *)
Lemma setting_disabled T s F m key :
  distinct_structs T -> (s, F) ∈ T ->
  setting T (set_struct s (all_disabled F) m) key =
    if bool_decide (owner T key = Some s) then Some false else setting T m key.
Proof.
  intros Hd Hs. unfold setting, owner, set_struct. destruct (locate T key) as [[[s' f] k]|] eqn:Hl; [|done]. cbn.
  apply locate_some in Hl as [Hin ->]. case_bool_decide as He.
  - injection He as ->. rewrite lookup_insert_eq. cbn. apply elem_of_flat in Hin as (F' & HF & Hf).
    rewrite (struct_unique _ _ _ _ Hd Hs HF). by rewrite (all_disabled_lookup _ _ _ Hf).
  - rewrite lookup_insert_ne by congruence. done.
Qed.

Lemma setting_empty T key : setting T ∅ key = None.
Proof. unfold setting. by destruct (locate T key) as [[[? ?] ?]|]. Qed.

(** The metrics before the additional ones are switched on: the metrics of the struct
    [dropped] and those of the resources that are off are disabled. *)
Definition start_setting (T : structs) (dropped : string) (res : string -> option resource) (off : resource -> bool)
    (key : string) : option bool :=
  match owner T key with
  | None => None
  | Some s =>
      if str_eqb s dropped then Some false
      else match res s with Some R => if off R then Some false else None | None => None end
  end.

(** A metric belongs to the struct of dropped metrics, to an optional one, or to the
    defaults of exactly one resource. *)
Definition classified (T : structs) (dropped : string) (res : string -> option resource)
    (defaults : resource -> list string) (optional : list string) (m : string) : bool :=
  match owner T m with
  | None => false
  | Some s =>
      if str_eqb s dropped then forallb (fun R => negb (contains (defaults R) m)) resources
      else match res s with
           | Some R0 => negb (contains optional m)
                        && forallb (fun R => Bool.eqb (contains (defaults R) m) (bool_decide (R = R0))) resources
           | None => contains optional m && forallb (fun R => negb (contains (defaults R) m)) resources
           end
  end.

Lemma wanted_none on defaults m :
  forallb (fun R => negb (contains (defaults R) m)) resources = true -> wanted_by on defaults m = false.
Proof.
  intros Hf. apply not_true_iff_false. intros (R & _ & [_ Hc]%andb_prop)%existsb_exists.
  eapply forallb_elem in Hf; [|apply (elem_of_resources R)]. cbn in Hf. by rewrite Hc in Hf.
Qed.

Lemma wanted_one on defaults m R0 :
  forallb (fun R => Bool.eqb (contains (defaults R) m) (bool_decide (R = R0))) resources = true ->
  wanted_by on defaults m = on R0.
Proof.
  intros Hf. assert (Hc : forall R, contains (defaults R) m = bool_decide (R = R0)).
  { intros R. apply Bool.eqb_prop. exact (forallb_elem _ _ R Hf (elem_of_resources R)). }
  apply eq_true_iff_eq. unfold wanted_by. rewrite existsb_exists. split.
  - intros (R & _ & [Ho Hr]%andb_prop). rewrite Hc in Hr. apply bool_decide_eq_true in Hr. by subst.
  - intros Ho. exists R0. split; [apply list_elem_of_In, elem_of_resources|]. rewrite Ho, Hc. by apply bool_decide_eq_true_2.
Qed.

(** ** The cluster receiver *)

Definition cluster_resource (s : string) : option resource :=
  if str_eqb s "K8sClusterPodMetrics" then Some Pod
  else if str_eqb s "K8sClusterContainerMetrics" then Some Container
  else if str_eqb s "K8sClusterStatefulSetMetrics" then Some StatefulSet
  else if str_eqb s "K8sClusterJobMetrics" then Some Job
  else if str_eqb s "K8sClusterDeploymentMetrics" then Some Deployment
  else if str_eqb s "K8sClusterDaemonSetMetrics" then Some DaemonSet
  else None.

Lemma cluster_structs_distinct : distinct_structs K8sClusterMetrics.
Proof. by apply (bool_decide_unpack _); vm_compute. Qed.

(** Disabling a struct under a condition. *)
Lemma setting_disabled_if T (b : bool) s F m key :
  distinct_structs T -> (s, F) ∈ T ->
  setting T (if b then set_struct s (all_disabled F) m else m) key =
    if bool_decide (owner T key = Some s) && b then Some false else setting T m key.
Proof. intros Hd Hs. destruct b; [|by rewrite andb_false_r]. rewrite andb_true_r. by apply setting_disabled. Qed.

Lemma cluster_disabled r key :
  setting K8sClusterMetrics (disableK8sClusterMetrics ∅ r) key =
  start_setting K8sClusterMetrics "K8sClusterDefaultMetricsToDrop" cluster_resource (fun R => negb (resource_on r R)) key.
Proof.
  unfold disableK8sClusterMetrics, disable_unless, start_setting.
  rewrite !setting_disabled_if, setting_disabled, setting_empty by first [exact cluster_structs_distinct | in_table].
  destruct (owner K8sClusterMetrics key) as [s|]; [|done].
  repeat match goal with
  | |- context [bool_decide (Some s = Some ?x)] => destruct (decide (s = x)) as [->|]; [by vm_compute|];
      rewrite (bool_decide_eq_false_2 (Some s = Some x)) by congruence; cbn [andb]
  end.
  unfold cluster_resource, str_eqb. by rewrite !bool_decide_eq_false_2.
Qed.

Lemma disabled_if_some (b : bool) s F (m : MetricsConfig) base :
  is_Some (m !! base) -> is_Some ((if b then set_struct s (all_disabled F) m else m) !! base).
Proof.
  intros Hb. destruct b; [|done]. unfold set_struct. apply lookup_insert_is_Some.
  destruct (decide (s = base)); auto.
Qed.

Lemma cluster_base r : is_Some (disableK8sClusterMetrics ∅ r !! "K8sClusterDefaultMetricsToDrop").
Proof.
  unfold disableK8sClusterMetrics, disable_unless. repeat apply disabled_if_some.
  unfold set_struct. rewrite lookup_insert_eq. eauto.
Qed.

Lemma cluster_classified :
  forallb (classified K8sClusterMetrics "K8sClusterDefaultMetricsToDrop" cluster_resource cluster_defaults
             (optional_keys K8sClusterOptionalMetrics)) K8sClusterReceiverMetrics = true.
Proof. by vm_compute. Qed.

Lemma cluster_table m : m ∈ K8sClusterReceiverMetrics -> m ∈ map fst k8sClusterMetricEnablers.
Proof.
  intros Hm. apply contains_spec.
  assert (H : forallb (contains (map fst k8sClusterMetricEnablers)) K8sClusterReceiverMetrics = true) by by vm_compute.
  by eapply forallb_elem in H.
Qed.

Lemma cluster_receiver_total r additional i : is_Some (k8sClusterReceiver r additional i).
Proof.
  unfold k8sClusterReceiver, k8sClusterMetrics, enableK8sClusterAdditionalMetrics.
  destruct (enable_all_settings _ _ _ additional (disableK8sClusterMetrics ∅ r) cluster_enablers (cluster_base r))
    as (m' & -> & _). by eexists.
Qed.

(** The cluster receiver emits exactly the metrics that are listed as additional or
    belong to a resource that is enabled. *)
Lemma cluster_collects_exactly `{RuntimeReceiversLaws} r additional i c m :
  k8sClusterReceiver r additional i = Some c -> m ∈ K8sClusterReceiverMetrics ->
  cluster_collects c m = bool_decide (m ∈ additional) || wanted_by (resource_on r) cluster_defaults m.
Proof.
  intros Hc Hm. unfold k8sClusterReceiver, k8sClusterMetrics, enableK8sClusterAdditionalMetrics in Hc.
  destruct (enable_all_settings _ _ _ additional (disableK8sClusterMetrics ∅ r) cluster_enablers (cluster_base r))
    as (m' & E & S).
  rewrite E in Hc. injection Hc as <-. unfold cluster_collects. cbn [kc_Metrics]. rewrite S.
  pose proof (cluster_table m Hm) as Ht. destruct (decide (m ∈ additional)) as [Ha|Ha].
  { by rewrite !bool_decide_eq_true_2. }
  rewrite !bool_decide_eq_false_2 by naive_solver. cbn [orb].
  rewrite (cluster_default_law m Hm), cluster_disabled. unfold start_setting.
  pose proof (forallb_elem _ _ m cluster_classified Hm) as Hcl. unfold classified in Hcl.
  destruct (owner K8sClusterMetrics m) as [s|]; [|done]. destruct (str_eqb s _); [by rewrite wanted_none|].
  destruct (cluster_resource s) as [R|]; apply andb_prop in Hcl as [Ho Hf].
  - rewrite (wanted_one _ _ _ _ Hf). destruct (resource_on r R); [exact Ho|done].
  - rewrite (wanted_none _ _ _ Hf), Ho. done.
Qed.

(** ** The kubelet receiver *)

Definition kubelet_resource (s : string) : option resource :=
  if str_eqb s "KubeletStatsPodMetrics" then Some Pod
  else if str_eqb s "KubeletStatsContainerMetrics" then Some Container
  else if str_eqb s "KubeletStatsNodeMetrics" then Some Node
  else if str_eqb s "KubeletStatsVolumeMetrics" then Some Volume
  else None.

Definition additional_has (a : runtimeAdditionalMetricsResources) (R : resource) : bool :=
  match R with
  | Pod => amr_pod a | Container => amr_container a | Node => amr_node a | Volume => amr_volume a | _ => false
  end.

Lemma kubelet_structs_distinct : distinct_structs KubeletStatsMetrics.
Proof. by apply (bool_decide_unpack _); vm_compute. Qed.

Lemma kubelet_disabled r a key :
  setting KubeletStatsMetrics (disableKubeletStatsMetrics ∅ r a) key =
  start_setting KubeletStatsMetrics "KubeletStatsDefaultMetricsToDrop" kubelet_resource
    (fun R => negb (resource_on r R) && additional_has a R) key.
Proof.
  unfold disableKubeletStatsMetrics, start_setting.
  rewrite !setting_disabled_if, setting_disabled, setting_empty by first [exact kubelet_structs_distinct | in_table].
  destruct (owner KubeletStatsMetrics key) as [s|]; [|done].
  repeat match goal with
  | |- context [bool_decide (Some s = Some ?x)] => destruct (decide (s = x)) as [->|]; [by vm_compute|];
      rewrite (bool_decide_eq_false_2 (Some s = Some x)) by congruence; cbn [andb]
  end.
  unfold kubelet_resource, str_eqb. by rewrite !bool_decide_eq_false_2.
Qed.

Lemma kubelet_base r a : is_Some (disableKubeletStatsMetrics ∅ r a !! "KubeletStatsDefaultMetricsToDrop").
Proof.
  unfold disableKubeletStatsMetrics. repeat apply disabled_if_some.
  unfold set_struct. rewrite lookup_insert_eq. eauto.
Qed.

Lemma kubelet_classified :
  forallb (classified KubeletStatsMetrics "KubeletStatsDefaultMetricsToDrop" kubelet_resource kubelet_defaults
             (optional_keys KubeletStatsOptionalMetrics)) KubeletStatsReceiverMetrics = true.
Proof. by vm_compute. Qed.

Lemma kubelet_table m : m ∈ KubeletStatsReceiverMetrics -> m ∈ map fst kubeletStatsMetricEnablers.
Proof.
  intros Hm. apply contains_spec.
  assert (H : forallb (contains (map fst kubeletStatsMetricEnablers)) KubeletStatsReceiverMetrics = true)
    by by vm_compute.
  by eapply forallb_elem in H.
Qed.

(** Every metric of the kubelet receiver belongs to one of four resources by its name,
    and its defaults lists agree. *)
Definition grouped (m : string) : bool :=
  existsb (fun R => pattern_matches (pattern_of R) m
                    && forallb (fun R' => negb (contains (kubelet_defaults R') m) || bool_decide (R' = R)) resources)
    [Pod; Container; Node; Volume].

Lemma kubelet_grouped : forallb grouped KubeletStatsReceiverMetrics = true.
Proof. by vm_compute. Qed.

Lemma kubelet_group_of m :
  m ∈ KubeletStatsReceiverMetrics ->
  exists R g, group_name R = Some g /\ pattern_matches (pattern_of R) m = true /\
    (forall R', contains (kubelet_defaults R') m = true -> R' = R).
Proof.
  intros Hm. pose proof (forallb_elem _ _ m kubelet_grouped Hm) as Hg. unfold grouped in Hg.
  apply existsb_exists in Hg as (R & HR & [Hp Hf]%andb_prop).
  assert (exists g, group_name R = Some g) as [g Hgn] by (cbn in HR; naive_solver).
  exists R, g. split_and!; [done..|]. intros R' Hc.
  pose proof (forallb_elem _ _ R' Hf (elem_of_resources R')) as Hx. cbn in Hx. rewrite Hc in Hx. cbn in Hx.
  by apply bool_decide_eq_true in Hx.
Qed.

Lemma additional_has_spec additional R g :
  group_name R = Some g ->
  (additional_has (additional_resources additional) R = true <->
   exists m, m ∈ additional /\ pattern_matches (pattern_of R) m = true).
Proof.
  intros Hg.
  assert (Hs : additional_has (additional_resources additional) R =
    (0 <? length (getRuntimeAdditionalResourceMetrics additional (pattern_of R)))%nat) by (by destruct R).
  rewrite Hs, Nat.ltb_lt. unfold getRuntimeAdditionalResourceMetrics. split.
  - intros Hl. destruct (List.filter _ additional) as [|m l] eqn:Hf; [cbn in Hl; lia|].
    assert (In m (List.filter (pattern_matches (pattern_of R)) additional)) as [Hi Hp]%filter_In by (rewrite Hf; by left).
    exists m. by rewrite list_elem_of_In.
  - intros (m & Hm & Hp).
    assert (In m (List.filter (pattern_matches (pattern_of R)) additional)).
    { apply filter_In. by rewrite <- list_elem_of_In. }
    destruct (List.filter _ additional); [done|cbn; lia].
Qed.

Lemma group_listed r a R g :
  group_name R = Some g ->
  contains (kubeletStatsMetricGroups r a) g = resource_on r R || additional_has a R.
Proof.
  intros Hg. apply eq_true_iff_eq. rewrite contains_spec. unfold kubeletStatsMetricGroups.
  destruct R; try done; injection Hg as <-; cbn [resource_on additional_has];
    rewrite !elem_of_app; repeat case_match; rewrite ?list_elem_of_singleton, ?elem_of_nil; naive_solver.
Qed.

Lemma kubelet_receiver_total r additional i : is_Some (kubeletStatsReceiver r additional i).
Proof.
  unfold kubeletStatsReceiver, kubeletStatsMetrics, enableKubeletStatsAdditionalMetrics.
  destruct (enable_all_settings _ _ _ additional
    (disableKubeletStatsMetrics ∅ r (additional_resources additional)) kubelet_enablers (kubelet_base _ _))
    as (m' & -> & _). by eexists.
Qed.

(** The same for the kubelet receiver, with its groups of metrics. *)
Lemma kubelet_collects_exactly `{RuntimeReceiversLaws} r additional i c m :
  kubeletStatsReceiver r additional i = Some c -> m ∈ KubeletStatsReceiverMetrics ->
  kubelet_collects c m = bool_decide (m ∈ additional) || wanted_by (resource_on r) kubelet_defaults m.
Proof.
  intros Hc Hm. unfold kubeletStatsReceiver, kubeletStatsMetrics, enableKubeletStatsAdditionalMetrics in Hc.
  set (a := additional_resources additional) in *.
  destruct (enable_all_settings _ _ _ additional (disableKubeletStatsMetrics ∅ r a) kubelet_enablers (kubelet_base _ _))
    as (m' & E & S).
  rewrite E in Hc. injection Hc as <-. unfold kubelet_collects. cbn [ks_Metrics ks_MetricGroups]. rewrite S.
  destruct (kubelet_group_of m Hm) as (R & g & Hg & Hp & Hu). rewrite (kubelet_group_law R g m Hg Hm Hp).
  rewrite (group_listed r a R g Hg). pose proof (kubelet_table m Hm) as Ht.
  destruct (decide (m ∈ additional)) as [Ha|Ha].
  { rewrite !bool_decide_eq_true_2 by done. cbn [effective orb]. rewrite andb_true_r.
    apply orb_true_iff. right. apply (additional_has_spec _ _ _ Hg). eauto. }
  rewrite !bool_decide_eq_false_2 by naive_solver. cbn [orb].
  rewrite (kubelet_default_law m Hm), kubelet_disabled. unfold start_setting.
  pose proof (forallb_elem _ _ m kubelet_classified Hm) as Hcl. unfold classified in Hcl.
  destruct (owner KubeletStatsMetrics m) as [s|]; [|done].
  destruct (str_eqb s _).
  { rewrite (wanted_none _ _ _ Hcl). cbn [effective]. apply andb_false_r. }
  destruct (kubelet_resource s) as [R0|]; apply andb_prop in Hcl as [Ho Hf].
  - rewrite (wanted_one _ _ _ _ Hf). assert (R0 = R) as ->.
    { apply Hu. pose proof (forallb_elem _ _ R0 Hf (elem_of_resources R0)) as Hx. cbv beta in Hx.
      apply Bool.eqb_prop in Hx. rewrite Hx. by apply bool_decide_eq_true_2. }
    destruct (resource_on r R), (additional_has a R); cbn [negb andb orb effective]; done.
  - rewrite (wanted_none _ _ _ Hf), Ho. apply andb_false_r.
Qed.
