(* ===== verification/CollectorProcessors.v ===== *)
(** * Processors of the collector (internal/otelcollector/config/common)

    ottl_expressions.go, processor_builders.go and the attribute tables of constants.go:
    the texts of the OTTL expressions and the configurations of the processors that the
    builders share. *)
From stdpp Require Import base gmap strings list.
From Stdlib Require Import Ascii.
From S2P Require Import Prelude Kube ApiV1beta1 ApiOperator CollectorTypes CollectorBuilder.
Local Open Scope string_scope.

(** ** constants.go *)

Definition InstrumentationScopeRuntime : string := "io.kyma-project.telemetry/runtime".
Definition InstrumentationScopePrometheus : string := "io.kyma-project.telemetry/prometheus".
Definition InstrumentationScopeIstio : string := "io.kyma-project.telemetry/istio".
Definition InstrumentationScopeKyma : string := "io.kyma-project.telemetry/kyma".

Definition InstrumentationScope : list (InputSourceType * string) :=
  [(InputSourceRuntime, InstrumentationScopeRuntime);
   (InputSourcePrometheus, InstrumentationScopePrometheus);
   (InputSourceIstio, InstrumentationScopeIstio);
   (InputSourceKyma, InstrumentationScopeKyma);
   (InputSourceK8sCluster, InstrumentationScopeRuntime)].

Definition InputName : list (InputSourceType * ComponentID) :=
  [(InputSourceRuntime, ComponentIDSetKymaInputNameRuntimeProcessor);
   (InputSourcePrometheus, ComponentIDSetKymaInputNamePrometheusProcessor);
   (InputSourceIstio, ComponentIDSetKymaInputNameIstioProcessor);
   (InputSourceKyma, ComponentIDSetKymaInputNameKymaProcessor);
   (InputSourceOTLP, ComponentIDSetKymaInputNameOTLPProcessor)].

Definition upstreamInstrumentationScopeName : list (InputSourceType * string) :=
  [(InputSourceRuntime, "github.com/open-telemetry/opentelemetry-collector-contrib/receiver/kubeletstatsreceiver");
   (InputSourcePrometheus, "github.com/open-telemetry/opentelemetry-collector-contrib/receiver/prometheusreceiver");
   (InputSourceIstio, "github.com/open-telemetry/opentelemetry-collector-contrib/receiver/prometheusreceiver");
   (InputSourceKyma, "github.com/kyma-project/opentelemetry-collector-components/receiver/kymastatsreceiver");
   (InputSourceK8sCluster, "github.com/open-telemetry/opentelemetry-collector-contrib/receiver/k8sclusterreceiver")].

(** [m[k]] on a map of texts: the empty text when the key is missing. *)
Definition lookup_text (k : string) (t : list (string * string)) : string := default "" (assoc k t).

Definition SkipEnrichmentAttribute : string := "io.kyma-project.telemetry.skip_enrichment".
Definition KymaInputNameAttribute : string := "kyma.input.name".
Definition KymaInputPrometheus : string := "prometheus".
Definition kymaK8sIOAppName : string := "kyma.kubernetes_io_app_name".
Definition kymaAppName : string := "kyma.app_name".
Definition kymaOtelAnnotationServiceName : string := "kyma.otel.annotation.service.name".
Definition kymaOtelAnnotationServiceVersion : string := "kyma.otel.annotation.service.version".
Definition otelAnnotationKeyServiceName : string := "resource.opentelemetry.io/service.name".
Definition otelAnnotationKeyServiceVersion : string := "resource.opentelemetry.io/service.version".
Definition defaultTransformProcessorErrorMode : string := "ignore".
Definition defaultFilterProcessorErrorMode : string := "ignore".
Definition K8sLeaderElectorKymaStats : string := "telemetry-metric-gateway-kymastats".
Definition K8sLeaderElectorK8sCluster : string := "telemetry-metric-agent-k8scluster".
Definition BatchingMaxQueueSize : Z := 256.

(** Annotations of the Telemetry resource (internal/resources/common/annotations.go). *)
Definition AnnotationKeyTelemetryServiceEnrichment : string := "telemetry.kyma-project.io/service-enrichment".
Definition AnnotationValueTelemetryServiceEnrichmentOtel : string := "otel".
Definition AnnotationValueTelemetryServiceEnrichmentKymaLegacy : string := "kyma-legacy".
Definition AnnotationValueTelemetryServiceEnrichmentDefault : string :=
  AnnotationValueTelemetryServiceEnrichmentKymaLegacy.

(** ** ottl_expressions.go *)

Definition K8sNamespaceName : string := "k8s.namespace.name".

Definition ResourceAttribute (key : string) : string := "resource.attributes[" +:+ quoted key +:+ "]".
Definition ResourceAttributeEquals (key value : string) : string :=
  ResourceAttribute key +:+ " == " +:+ quoted value.
Definition ResourceAttributeNotEquals (key value : string) : string :=
  ResourceAttribute key +:+ " != " +:+ quoted value.
Definition NamespaceEquals (name : string) : string := ResourceAttributeEquals K8sNamespaceName name.
Definition ResourceAttributeIsNotNil (key : string) : string := ResourceAttribute key +:+ " != nil".
Definition ResourceAttributeIsNilOrEmpty (key : string) : string :=
  ResourceAttribute key +:+ " == nil or " +:+ ResourceAttribute key +:+ " == " +:+ quoted EmptyString.
Definition ResourceAttributeHasPrefix (key prefix : string) : string :=
  "HasPrefix(resource.attributes[" +:+ quoted key +:+ "], " +:+ quoted prefix +:+ ")".
Definition IsNotNil (key : string) : string := key +:+ " != nil".
Definition IsNil (key : string) : string := key +:+ " == nil".
Definition Attribute (key : string) : string := "attributes[" +:+ quoted key +:+ "]".
Definition AttributeIsNotNil (key : string) : string := IsNotNil (Attribute key).
Definition AttributeIsNil (key : string) : string := IsNil (Attribute key).
Definition MetricNameAttributeEquals (name : string) : string := "metric.name == " +:+ quoted name.
Definition JoinWithOr (parts : list string) : string := "(" +:+ String.concat " or " parts +:+ ")".
Definition JoinWithRegExpOr (parts : list string) : string := "(" +:+ String.concat "|" parts +:+ ")".
Definition JoinWithAnd (parts : list string) : string := String.concat " and " parts.
Definition JoinWithWhere (statement condition : string) : string := statement +:+ " where " +:+ condition.
Definition IsMatch (key regexPattern : string) : string :=
  "IsMatch(" +:+ key +:+ ", " +:+ quoted regexPattern +:+ ")".
Definition HasAttrOnDatapoint (key value : string) : string :=
  "HasAttrOnDatapoint(" +:+ quoted key +:+ ", " +:+ quoted value +:+ ")".
Definition KymaInputNameEquals (sourceType : InputSourceType) : string :=
  ResourceAttributeEquals KymaInputNameAttribute sourceType.
Definition DeleteResourceAttribute (key : string) : string :=
  "delete_key(resource.attributes, " +:+ quoted key +:+ ")".

(** [strings.HasSuffix(s, ")")] *)
Definition ends_with_paren (s : string) : bool :=
  match rev (String.list_ascii_of_string s) with c :: _ => Ascii.eqb c ")"%char | [] => false end.

Definition isWrappedInParentheses (expression : string) : bool :=
  String.prefix "(" expression && ends_with_paren expression.

Definition Not (expression : string) : string :=
  if isWrappedInParentheses expression then "not" +:+ expression else "not(" +:+ expression +:+ ")".

(** ** processor_builders.go *)

Definition extractLabels (useOTelServiceEnrichment : bool) : list ExtractLabel :=
  let labels :=
    [mkExtractLabel "node" "topology.kubernetes.io/region" "cloud.region" "";
     mkExtractLabel "node" "topology.kubernetes.io/zone" "cloud.availability_zone" "";
     mkExtractLabel "node" "node.kubernetes.io/instance-type" "host.type" "";
     mkExtractLabel "node" "kubernetes.io/arch" "host.arch" ""] in
  if negb useOTelServiceEnrichment then
    ([mkExtractLabel "pod" "app.kubernetes.io/name" kymaK8sIOAppName "";
      mkExtractLabel "pod" "app" kymaAppName ""] ++ labels)%list
  else labels.

Definition extractOtelServiceAnnotations (useOTelServiceEnrichment : bool) : slice ExtractLabel :=
  if negb useOTelServiceEnrichment then None
  else Some [mkExtractLabel "pod" otelAnnotationKeyServiceName kymaOtelAnnotationServiceName "";
             mkExtractLabel "pod" otelAnnotationKeyServiceVersion kymaOtelAnnotationServiceVersion ""].

Definition extractPodLabels (enrichments : option EnrichmentSpec) : list ExtractLabel :=
  match enrichments with
  | None => []
  | Some e =>
      map (fun label =>
             mkExtractLabel "pod" "" "k8s.pod.label.$0"
               (if negb (str_eqb (pl_KeyPrefix label) "") then "(" +:+ pl_KeyPrefix label +:+ ".*)"
                else "(^" +:+ pl_Key label +:+ "$)")) (elems (en_ExtractPodLabels e))
  end.

Definition K8sAttributesProcessor (enrichments : option EnrichmentSpec) (useOTelServiceEnrichment : bool) :
    K8sAttributesProcessorConfig :=
  let k8sAttributes :=
    ["k8s.pod.name"; "k8s.node.name"; "k8s.namespace.name"; "k8s.deployment.name"; "k8s.statefulset.name";
     "k8s.daemonset.name"; "k8s.cronjob.name"; "k8s.job.name"] in
  let k8sAttributes :=
    if useOTelServiceEnrichment
    then (k8sAttributes ++ ["service.namespace"; "service.name"; "service.version"; "service.instance.id"])%list
    else k8sAttributes in
  mkK8sAttributes "serviceAccount" false (mkK8sAttributesFilter EnvVarCurrentNodeName)
    (mkExtract k8sAttributes (extractLabels useOTelServiceEnrichment ++ extractPodLabels enrichments)%list
       (extractOtelServiceAnnotations useOTelServiceEnrichment) useOTelServiceEnrichment)
    [mkPodAssociations [mkPodAssociation "resource_attribute" "k8s.pod.ip"];
     mkPodAssociations [mkPodAssociation "resource_attribute" "k8s.pod.uid"];
     mkPodAssociations [mkPodAssociation "connection" ""]].

Definition ResolveServiceName : ServiceEnrichmentProcessorConfig :=
  mkServiceEnrichment [kymaK8sIOAppName; kymaAppName].

Definition LogFilterProcessor (filters : slice FilterSpec) : FilterProcessorConfig :=
  mkFilter defaultFilterProcessorErrorMode None filters None.
Definition MetricFilterProcessor (filters : slice FilterSpec) : FilterProcessorConfig :=
  mkFilter defaultFilterProcessorErrorMode filters None None.
Definition TraceFilterProcessor (filters : slice FilterSpec) : FilterProcessorConfig :=
  mkFilter defaultFilterProcessorErrorMode None None filters.

Definition LogTransformProcessor (statements : list TransformProcessorStatements) : TransformProcessorConfig :=
  mkTransform defaultTransformProcessorErrorMode (Some statements) None None.
Definition MetricTransformProcessor (statements : list TransformProcessorStatements) : TransformProcessorConfig :=
  mkTransform defaultTransformProcessorErrorMode None (Some statements) None.
Definition TraceTransformProcessor (statements : list TransformProcessorStatements) : TransformProcessorConfig :=
  mkTransform defaultTransformProcessorErrorMode None None (Some statements).
Definition AllSignalsTransformProcessor (statements : list TransformProcessorStatements) :
    TransformProcessorConfig :=
  mkTransform defaultTransformProcessorErrorMode (Some statements) (Some statements) (Some statements).

Definition TransformSpecsToProcessorStatements (specs : slice TransformSpec) : list TransformProcessorStatements :=
  map (fun spec => mkStatements (ts_Statements spec) (ts_Conditions spec)) (elems specs).

Record ClusterOptions := mkClusterOptions {
  co_ClusterName : string; co_ClusterUID : string; co_CloudProvider : string
}.

Definition setIfNilOrEmptyStatement (attributeKey attributeValue : string) : string :=
  JoinWithWhere ("set(resource.attributes[" +:+ quoted attributeKey +:+ "], " +:+ quoted attributeValue +:+ ")")
    (ResourceAttributeIsNilOrEmpty attributeKey).

Definition InsertClusterAttributesProcessorStatements (cluster : ClusterOptions) :
    list TransformProcessorStatements :=
  let statements :=
    [setIfNilOrEmptyStatement "k8s.cluster.name" (co_ClusterName cluster);
     setIfNilOrEmptyStatement "k8s.cluster.uid" (co_ClusterUID cluster)] in
  let statements :=
    if negb (str_eqb (co_CloudProvider cluster) "")
    then (statements ++ [setIfNilOrEmptyStatement "cloud.provider" (co_CloudProvider cluster)])%list
    else statements in
  [mkStatements (Some statements) None].

Definition DropKymaAttributesProcessorStatements : list TransformProcessorStatements :=
  [mkStatements (Some ["delete_matching_keys(resource.attributes, " +:+ quoted "kyma.*" +:+ ")"]) None].

Definition DropUnknownServiceNameProcessorStatements : list TransformProcessorStatements :=
  [mkStatements
     (Some [JoinWithWhere (DeleteResourceAttribute "service.name")
              (JoinWithAnd [ResourceAttributeIsNotNil "service.name";
                            ResourceAttributeHasPrefix "service.name" "unknown_service"])]) None].

Definition restoreAndClean (serviceAttr annotationAttr : string) : list string :=
  [JoinWithWhere ("set(" +:+ ResourceAttribute serviceAttr +:+ ", " +:+ ResourceAttribute annotationAttr +:+ ")")
     (JoinWithAnd [ResourceAttributeIsNotNil annotationAttr; ResourceAttributeNotEquals annotationAttr ""]);
   DeleteResourceAttribute annotationAttr].

Definition RestoreOtelServiceAnnotationsProcessorStatements : list TransformProcessorStatements :=
  [mkStatements (Some (restoreAndClean "service.name" kymaOtelAnnotationServiceName ++
                       restoreAndClean "service.version" kymaOtelAnnotationServiceVersion)%list) None].

Definition instrumentationStatement (inputSource : InputSourceType) (instrumentationScopeVersion : string) :
    list string :=
  let upstream := lookup_text inputSource upstreamInstrumentationScopeName in
  ["set(scope.version, " +:+ quoted instrumentationScopeVersion +:+ ") where scope.name == " +:+ quoted upstream;
   "set(scope.name, " +:+ quoted (lookup_text inputSource InstrumentationScope)
     +:+ ") where scope.name == " +:+ quoted upstream].

Definition InstrumentationScopeProcessor (instrumentationScopeVersion : string)
    (inputSource : list InputSourceType) : TransformProcessorConfig :=
  MetricTransformProcessor
    [mkStatements (Some (concat (map (fun i => instrumentationStatement i instrumentationScopeVersion) inputSource)))
       None].

Definition KymaInputNameProcessorStatements (inputSource : InputSourceType) : list TransformProcessorStatements :=
  [mkStatements
     (Some ["set(resource.attributes[" +:+ quoted KymaInputNameAttribute +:+ "], " +:+ quoted inputSource +:+ ")"])
     None].
