(* ===== verification/CollectorExporter.v ===== *)
(** * The OTLP exporter and the OAuth2 extension (internal/otelcollector/config/common)

    env_vars.go, otlpexporter_config_builder.go and oauth2extension_config_builder.go.
    The credentials of a pipeline are resolved into environment variables of the
    collector; the configuration refers to the variables by name. *)
From stdpp Require Import base gmap strings list.
From Stdlib Require Import Ascii.
From S2P Require Import Prelude Kube GoErrors GoStrings.
From S2P Require Import ApiV1beta1 SecretRef TLSCert Coordination.
From S2P Require Import CollectorTypes CollectorBuilder.
Local Open Scope string_scope.
Local Open Scope go_scope.

(** ** Package net/url and path

    [url.Parse], the fields [Path] and [RawQuery], their assignment, [String] and
    [path.Join]. *)
Class URLOps := {
  url_t : Type;
  url_Parse : string -> result url_t goerror;
  url_Path : url_t -> string;
  url_RawQuery : url_t -> string;
  url_with : url_t -> string -> string -> url_t;
  url_String : url_t -> string;
  path_Join : string -> string -> string
}.

(** ** Package encoding/base64 *)

Definition base64_char (n : N) : ascii :=
  if (n <? 26)%N then ascii_of_N (65 + n)
  else if (n <? 52)%N then ascii_of_N (71 + n)
  else if (n <? 62)%N then ascii_of_N (n - 4)
  else if (n =? 62)%N then "+"%char else "/"%char.

(** [base64.StdEncoding.EncodeToString] *)
Fixpoint base64_encode (l : bytes) : bytes :=
  match l with
  | [] => []
  | [a] =>
      let a := N_of_ascii a in
      [base64_char (a / 4); base64_char ((a mod 4) * 16); "="%char; "="%char]
  | [a; b] =>
      let a := N_of_ascii a in let b := N_of_ascii b in
      [base64_char (a / 4); base64_char ((a mod 4) * 16 + b / 16); base64_char ((b mod 16) * 4); "="%char]
  | a :: b :: c :: rest =>
      let a := N_of_ascii a in let b := N_of_ascii b in let c := N_of_ascii c in
      base64_char (a / 4) :: base64_char ((a mod 4) * 16 + b / 16)
        :: base64_char ((b mod 16) * 4 + c / 64) :: base64_char (c mod 64) :: base64_encode rest
  end.

Example base64_ex : of_bytes (base64_encode (to_bytes "user:password")) = "dXNlcjpwYXNzd29yZA==".
Proof. vm_compute. reflexivity. Qed.

(** ** Names of environment variables *)

Definition basicAuthHeaderVariablePrefix : string := "BASIC_AUTH_HEADER".
Definition otlpEndpointVariablePrefix : string := "OTLP_ENDPOINT".
Definition tlsConfigCertVariablePrefix : string := "OTLP_TLS_CERT_PEM".
Definition tlsConfigKeyVariablePrefix : string := "OTLP_TLS_KEY_PEM".
Definition tlsConfigCaVariablePrefix : string := "OTLP_TLS_CA_PEM".
Definition oauth2TokenURLVariablePrefix : string := "OAUTH2_TOKEN_URL".
Definition oauth2ClientIDVariablePrefix : string := "OAUTH2_CLIENT_ID".
Definition oauth2ClientSecretVariablePrefix : string := "OAUTH2_CLIENT_SECRET".

Definition replace_char (old new : ascii) (l : bytes) : bytes :=
  map (fun c => if Ascii.eqb c old then new else c) l.

Definition sanitizeEnvVarName (input : string) : string :=
  let result := ToUpper (to_bytes input) in
  let result := replace_char "."%char "_"%char result in
  let result := replace_char "-"%char "_"%char result in
  of_bytes result.

Definition formatEnvVarKey (prefix : string) (r : PipelineRef) : string :=
  let tp := TypePrefix r in
  if negb (str_eqb tp "") then
    prefix +:+ "_" +:+ sanitizeEnvVarName tp +:+ "_" +:+ sanitizeEnvVarName (pref_name r)
  else prefix +:+ "_" +:+ sanitizeEnvVarName (pref_name r).

Definition formatHeaderEnvVarKey (header : Header) (r : PipelineRef) : string :=
  let tp := TypePrefix r in
  if negb (str_eqb tp "") then
    "HEADER_" +:+ sanitizeEnvVarName tp +:+ "_" +:+ sanitizeEnvVarName (pref_name r) +:+ "_"
      +:+ sanitizeEnvVarName (hd_Name header)
  else "HEADER_" +:+ sanitizeEnvVarName (pref_name r) +:+ "_" +:+ sanitizeEnvVarName (hd_Name header).

Definition formatBasicAuthHeader (username password : string) : string :=
  "Basic " +:+ of_bytes (base64_encode (to_bytes (username +:+ ":" +:+ password))).

Definition prefixHeaderValue (header : Header) (value : string) : string :=
  let prefix := of_bytes (TrimSpace (to_bytes (hd_Prefix header))) in
  if (0 <? String.length prefix)%nat then prefix +:+ " " +:+ value else value.

Definition isBasicAuthEnabled (authOptions : option AuthenticationOptions) : bool :=
  match authOptions with
  | Some a =>
      match ao_Basic a with
      | Some basic => IsValid (Some (ba_User basic)) && IsValid (Some (ba_Password basic))
      | None => false
      end
  | None => false
  end.

(** ** Values of environment variables (env_vars.go) *)

Section EnvVars.
Context `{SecretReader} `{URLOps}.

Definition resolveEndpointURL (output : OTLPOutput) : option (result string goerror) :=
  endpoint <-? ResolveValue (oo_Endpoint output);;
  if (0 <? String.length (oo_Path output))%nat then
    u <-? Some (url_Parse endpoint);;
    pathRef <-? Some (url_Parse (oo_Path output));;
    Some (Ok (url_String (url_with u (path_Join (url_Path u) (url_Path pathRef)) (url_RawQuery pathRef))))
  else Some (Ok endpoint).

Definition makeBasicAuthEnvVar (secretData : EnvVars) (output : OTLPOutput) (r : PipelineRef) :
    option (result EnvVars goerror) :=
  match oo_Authentication output ≫= ao_Basic with
  | Some basic =>
      if isBasicAuthEnabled (oo_Authentication output) then
        username <-? ResolveValue (ba_User basic);;
        password <-? ResolveValue (ba_Password basic);;
        Some (Ok (<[formatEnvVarKey basicAuthHeaderVariablePrefix r := formatBasicAuthHeader username password]>
                    secretData))
      else Some (Ok secretData)
  | None => Some (Ok secretData)
  end.

Definition makeOTLPEndpointEnvVar (secretData : EnvVars) (output : OTLPOutput) (r : PipelineRef) :
    option (result EnvVars goerror) :=
  endpointURL <-? resolveEndpointURL output;;
  Some (Ok (<[formatEnvVarKey otlpEndpointVariablePrefix r := endpointURL]> secretData)).

Fixpoint make_header_vars (headers : list Header) (secretData : EnvVars) (r : PipelineRef) :
    option (result EnvVars goerror) :=
  match headers with
  | [] => Some (Ok secretData)
  | header :: rest =>
      value <-? ResolveValue (hd_ValueType header);;
      make_header_vars rest (<[formatHeaderEnvVarKey header r := prefixHeaderValue header value]> secretData) r
  end.

Definition makeHeaderEnvVar (secretData : EnvVars) (output : OTLPOutput) (r : PipelineRef) :
    option (result EnvVars goerror) :=
  make_header_vars (elems (oo_Headers output)) secretData r.

Definition make_ca_var (secretData : EnvVars) (tls : OutputTLS) (r : PipelineRef) : option (result EnvVars goerror) :=
  match tls_CA tls with
  | Some v =>
      if IsValid (Some v) then
        ca <-? ResolveValue v;;
        Some (Ok (<[formatEnvVarKey tlsConfigCaVariablePrefix r := ca]> secretData))
      else Some (Ok secretData)
  | None => Some (Ok secretData)
  end.

Definition make_cert_vars (secretData : EnvVars) (tls : OutputTLS) (r : PipelineRef) :
    option (result EnvVars goerror) :=
  match tls_Cert tls, tls_Key tls with
  | Some c, Some k =>
      if IsValid (Some c) && IsValid (Some k) then
        cert <-? ResolveValue c;;
        key <-? ResolveValue k;;
        Some (Ok (<[formatEnvVarKey tlsConfigKeyVariablePrefix r := replace_newlines key]>
                    (<[formatEnvVarKey tlsConfigCertVariablePrefix r := replace_newlines cert]> secretData)))
      else Some (Ok secretData)
  | _, _ => Some (Ok secretData)
  end.

Definition makeTLSEnvVar (secretData : EnvVars) (output : OTLPOutput) (r : PipelineRef) :
    option (result EnvVars goerror) :=
  match oo_TLS output with
  | None => Some (Ok secretData)
  | Some tls =>
      secretData <-? make_ca_var secretData tls r;;
      make_cert_vars secretData tls r
  end.

Definition makeOTLPExporterEnvVars (output : OTLPOutput) (r : PipelineRef) : option (result EnvVars goerror) :=
  secretData <-? makeBasicAuthEnvVar ∅ output r;;
  secretData <-? makeOTLPEndpointEnvVar secretData output r;;
  secretData <-? makeHeaderEnvVar secretData output r;;
  makeTLSEnvVar secretData output r.

(** One variable of the OAuth2 extension. *)
Definition make_oauth2_var (prefix : string) (value : ValueType) (secretData : EnvVars) (r : PipelineRef) :
    option (result EnvVars goerror) :=
  if IsValid (Some value) then
    v <-? ResolveValue value;;
    Some (Ok (<[formatEnvVarKey prefix r := v]> secretData))
  else Some (Ok secretData).

Definition makeTokenURLEnvVar (secretData : EnvVars) (o : OAuth2Options) (r : PipelineRef) :=
  make_oauth2_var oauth2TokenURLVariablePrefix (oa_TokenURL o) secretData r.
Definition makeClientIDEnvVar (secretData : EnvVars) (o : OAuth2Options) (r : PipelineRef) :=
  make_oauth2_var oauth2ClientIDVariablePrefix (oa_ClientID o) secretData r.
Definition makeClientSecretEnvVar (secretData : EnvVars) (o : OAuth2Options) (r : PipelineRef) :=
  make_oauth2_var oauth2ClientSecretVariablePrefix (oa_ClientSecret o) secretData r.

Definition makeOAuth2ExtensionEnvVars (o : OAuth2Options) (r : PipelineRef) : option (result EnvVars goerror) :=
  secretData <-? makeTokenURLEnvVar ∅ o r;;
  secretData <-? makeClientIDEnvVar secretData o r;;
  makeClientSecretEnvVar secretData o r.

End EnvVars.

(** ** The exporter (otlpexporter_config_builder.go) *)

Definition empty_batch : Batch := mkBatch 0 0 0 "".

Definition SendingQueueOption := SendingQueue -> SendingQueue.
Definition WithSizer (sizer : Sizer) : SendingQueueOption :=
  fun sq => mkSendingQueue (sq_Enabled sq) (sq_QueueSize sq) sizer (sq_Batch sq).
Definition WithBatch (batch : Batch) : SendingQueueOption :=
  fun sq => mkSendingQueue (sq_Enabled sq) (sq_QueueSize sq) (sq_Sizer sq) batch.

Definition NewSendingQueue (queueSize : Z) (opts : list SendingQueueOption) : SendingQueue :=
  if (queueSize =? 0)%Z then mkSendingQueue false 0 "" empty_batch
  else fold_left (fun sq opt => opt sq) opts (mkSendingQueue true queueSize "" empty_batch).

Definition isInsecureOutput (endpoint : string) : bool :=
  (0 <? length (TrimSpace (to_bytes endpoint)))%nat && String.prefix "http://" endpoint.

Definition tls (output : OTLPOutput) (otlpEndpointValue : string) (r : PipelineRef) : TLS :=
  let insecure := isInsecureOutput otlpEndpointValue in
  match oo_TLS output with
  | None => mkTLS insecure false "" "" ""
  | Some o =>
      mkTLS (if negb insecure then tls_Insecure o else insecure) (tls_InsecureSkipVerify o)
        (if IsValid (tls_Cert o) then env_ref (formatEnvVarKey tlsConfigCertVariablePrefix r) else "")
        (if IsValid (tls_Key o) then env_ref (formatEnvVarKey tlsConfigKeyVariablePrefix r) else "")
        (if IsValid (tls_CA o) then env_ref (formatEnvVarKey tlsConfigCaVariablePrefix r) else "")
  end.

Definition headers (output : OTLPOutput) (r : PipelineRef) : gmap string string :=
  let h : gmap string string :=
    if isBasicAuthEnabled (oo_Authentication output)
    then {["Authorization" := env_ref (formatEnvVarKey basicAuthHeaderVariablePrefix r)]} else ∅ in
  fold_left (fun h header => <[hd_Name header := env_ref (formatHeaderEnvVarKey header r)]> h)
    (elems (oo_Headers output)) h.

Definition OTLPCompressionGzip : OTLPCompressionEncoding := "gzip".

Definition otlpExporter (output : OTLPOutput) (r : PipelineRef) (envVars : EnvVars) (queue : SendingQueue) :
    OTLPExporterConfig :=
  let variable := formatEnvVarKey otlpEndpointVariablePrefix r in
  let value := default "" (envVars !! variable) in
  let compression := if str_eqb (oo_Compression output) "" then OTLPCompressionGzip else oo_Compression output in
  let with_path := (0 <? String.length (oo_Path output))%nat in
  let endpoint_of s := if with_path && bool_decide (s = pref_signalType r) then env_ref variable else "" in
  let own := bool_decide (pref_signalType r ∈ [SignalTypeMetric; SignalTypeTrace; SignalTypeLog]) in
  let auth := match oo_Authentication output ≫= ao_OAuth2 with
              | Some _ => mkAuth (ComponentIDOAuth2Extension r)
              | None => mkAuth ""
              end in
  mkOTLPExporterConfig (endpoint_of SignalTypeMetric) (endpoint_of SignalTypeTrace) (endpoint_of SignalTypeLog)
    (if with_path && own then "" else env_ref variable)
    (headers output r) (tls output value r) compression queue
    (mkRetryOnFailure true "5s" "30s" "300s") auth.

Section Exporter.
Context `{SecretReader} `{URLOps}.

(** [(cb *OTLPExporterConfigBuilder) OTLPExporter(ctx)] *)
Definition OTLPExporter (output : OTLPOutput) (r : PipelineRef) (queue : SendingQueue) :
    option (result (option component * EnvVars) goerror) :=
  match makeOTLPExporterEnvVars output r with
  | None => None
  | Some (Err e) => Some (Err (Wrapf "failed to make env vars: " e ""))
  | Some (Ok envVars) => Some (Ok (Some (COTLPExporter (otlpExporter output r envVars queue)), envVars))
  end.

(** ** The OAuth2 extension (oauth2extension_config_builder.go) *)

Definition oauth2Extension (o : OAuth2Options) (r : PipelineRef) : OAuth2ExtensionConfig :=
  mkOAuth2Extension (env_ref (formatEnvVarKey oauth2TokenURLVariablePrefix r))
    (env_ref (formatEnvVarKey oauth2ClientIDVariablePrefix r))
    (env_ref (formatEnvVarKey oauth2ClientSecretVariablePrefix r))
    (oa_Scopes o) (oa_Params o).

(** [(cb *OAuth2ExtensionConfigBuilder) OAuth2Extension(ctx)] *)
Definition OAuth2Extension (o : OAuth2Options) (r : PipelineRef) :
    option (result (OAuth2ExtensionConfig * EnvVars) goerror) :=
  match makeOAuth2ExtensionEnvVars o r with
  | None => None
  | Some (Err e) => Some (Err (Wrapf "failed to make env vars: " e ""))
  | Some (Ok envVars) => Some (Ok (oauth2Extension o r, envVars))
  end.

End Exporter.
