(* ===== verification/GatewayConfig.v ===== *)
(** * The configuration of the OTLP gateway (internal/otelcollector/config/otlpgateway)

    config_builder.go with its three parts for traces, logs and metrics, and types.go.
    The gateway serves all pipelines with one collector: traces and logs have a service
    pipeline each, metrics run through two input pipelines, an enrichment pipeline and
    one output pipeline each.

    A pointer to a pipeline is the pipeline, except for metrics, where the code passes
    nil for the pipelines that belong to no MetricPipeline: there it is an option, and a
    function that dereferences it panics on [None]. *)
From stdpp Require Import base gmap strings list sorting pretty.
From S2P Require Import Prelude Kube GoErrors.
From S2P Require Import ApiV1beta1 ApiOperator SecretRef MetricInputs Coordination.
From S2P Require Import CollectorTypes CollectorBuilder CollectorProcessors CollectorExporter.
Local Open Scope string_scope.

(** ** Sorting by name *)

Definition by_name {P} (name : P -> string) : relation P := fun a b => str_ltb (name b) (name a) = false.

#[export] Instance by_name_dec {P} (name : P -> string) : RelDecision (by_name name).
Proof. intros a b. unfold by_name. apply _. Defined.

(** [slices.SortFunc(ps, func(a, b P) int { return strings.Compare(a.Name, b.Name) })] *)
Definition sort_by_name {P} (name : P -> string) (ps : list P) : list P := merge_sort (by_name name) ps.

(** ** config_builder.go *)

Record BuildOptions := mkBuildOptions {
  bo_LogPipelines : list LogPipeline;
  bo_TracePipelines : list TracePipeline;
  bo_MetricPipelines : list MetricPipeline;
  bo_Cluster : ClusterOptions;
  bo_Enrichments : option EnrichmentSpec;
  bo_ServiceEnrichment : string;
  bo_ModuleVersion : string;
  bo_GatewayNamespace : string;
  bo_VpaActive : bool
}.

Definition trace_name (p : TracePipeline) : string := om_Name (tp_ObjectMeta p).
Definition log_name (p : LogPipeline) : string := om_Name (lp_ObjectMeta p).
Definition metric_name (p : MetricPipeline) : string := om_Name (mp_ObjectMeta p).

Definition sortPipelinesByName (opts : BuildOptions) : BuildOptions :=
  mkBuildOptions (sort_by_name log_name (bo_LogPipelines opts)) (sort_by_name trace_name (bo_TracePipelines opts))
    (sort_by_name metric_name (bo_MetricPipelines opts)) (bo_Cluster opts) (bo_Enrichments opts)
    (bo_ServiceEnrichment opts) (bo_ModuleVersion opts) (bo_GatewayNamespace opts) (bo_VpaActive opts).

Definition otlpReceiverConfig : component :=
  COTLPReceiver (mkOTLPReceiver (mkReceiverProtocols
    (mkEndpointConfig (env_ref EnvVarCurrentPodIP +:+ ":" +:+ pretty OTLPHTTP))
    (mkEndpointConfig (env_ref EnvVarCurrentPodIP +:+ ":" +:+ pretty OTLPGRPC)))).

Definition memoryLimiterConfig : component := CMemoryLimiter (mkMemoryLimiter "1s" 75 15).

Definition otel_enrichment (opts : BuildOptions) : bool :=
  str_eqb (bo_ServiceEnrichment opts) AnnotationValueTelemetryServiceEnrichmentOtel.

Definition k8sAttributesProcessorConfig (opts : BuildOptions) : component :=
  CK8sAttributes (K8sAttributesProcessor (bo_Enrichments opts) (otel_enrichment opts)).

Definition serviceEnrichmentProcessorConfig (opts : BuildOptions) : option component :=
  if otel_enrichment opts then None else Some (CServiceEnrichment ResolveServiceName).

Definition istioNoiseFilterProcessorConfig : component := CIstioNoiseFilter mkIstioNoiseFilter.

(** The configuration functions that do not depend on the pipeline. *)
Definition const_config {T} (c : option component) : ComponentConfigFunc T := fun _ => Some c.

(** [if opts.ServiceEnrichment != otel { return nil }; return c] *)
Definition if_otel (opts : BuildOptions) (c : component) : option component :=
  if negb (otel_enrichment opts) then None else Some c.

Section Builders.
Context `{SecretReader} `{URLOps}.

(** Builders of components that are the same for the three signals. *)
Section Shared.
Context {T : Type} (opts : BuildOptions).

Definition addOTLPReceiver : BuildComponentFunc T :=
  AddReceiver (StaticComponentID ComponentIDOTLPReceiver) (const_config (Some otlpReceiverConfig)).
Definition addMemoryLimiterProcessor : BuildComponentFunc T :=
  AddProcessor (StaticComponentID ComponentIDMemoryLimiterProcessor) (const_config (Some memoryLimiterConfig)).
Definition addDropUnknownServiceNameProcessor : BuildComponentFunc T :=
  AddProcessor (StaticComponentID ComponentIDDropUnknownServiceNameProcessor)
    (const_config (if_otel opts
       (CTransform (AllSignalsTransformProcessor DropUnknownServiceNameProcessorStatements)))).
Definition addK8sAttributesProcessor : BuildComponentFunc T :=
  AddProcessor (StaticComponentID ComponentIDK8sAttributesProcessor)
    (const_config (Some (k8sAttributesProcessorConfig opts))).
Definition addRestoreOtelServiceAttrsProcessor : BuildComponentFunc T :=
  AddProcessor (StaticComponentID ComponentIDRestoreOtelServiceAttrsProcessor)
    (const_config (if_otel opts
       (CTransform (AllSignalsTransformProcessor RestoreOtelServiceAnnotationsProcessorStatements)))).
Definition addIstioNoiseFilterProcessor : BuildComponentFunc T :=
  AddProcessor (StaticComponentID ComponentIDIstioNoiseFilterProcessor)
    (const_config (Some istioNoiseFilterProcessorConfig)).
Definition addInsertClusterAttributesProcessor : BuildComponentFunc T :=
  AddProcessor (StaticComponentID ComponentIDInsertClusterAttributesProcessor)
    (const_config (Some (CTransform (AllSignalsTransformProcessor
       (InsertClusterAttributesProcessorStatements (bo_Cluster opts)))))).
Definition addServiceEnrichmentProcessor : BuildComponentFunc T :=
  AddProcessor (StaticComponentID ComponentIDServiceEnrichmentProcessor)
    (const_config (serviceEnrichmentProcessorConfig opts)).
Definition addDropKymaAttributesProcessor : BuildComponentFunc T :=
  AddProcessor (StaticComponentID ComponentIDDropKymaAttributesProcessor)
    (const_config (Some (CTransform (AllSignalsTransformProcessor DropKymaAttributesProcessorStatements)))).

End Shared.

(** The OAuth2 extension of a pipeline. *)
Definition add_oauth2_extension (name : string) (o : OAuth2Options) (r : PipelineRef) (b : builder) : outcome :=
  match OAuth2Extension o r with
  | None => None
  | Some (Err e) => Some (Err (Wrapf ("failed to build OAuth2 extension for pipeline " +:+ name +:+ ": ") e ""))
  | Some (Ok (c, env)) => Some (Ok (AddExtension (ComponentIDOAuth2Extension r) (COAuth2 c) env b))
  end.

(** The OAuth2 settings of an output; a nil output is dereferenced. *)
Definition oauth2_of (output : option OTLPOutput) : option (option OAuth2Options) :=
  o ← output; Some (oo_Authentication o ≫= ao_OAuth2).

(** [len(pipelines) > 0]: the share of the queue of one pipeline. *)
Definition queue_size {A} (pipelines : list A) : Z := Z.quot BatchingMaxQueueSize (Z.of_nat (length pipelines)).

(** ** Traces (config_builder_traces.go) *)

Definition trace_output (tp : TracePipeline) : option OTLPOutput := tout_OTLP (tps_Output (tp_Spec tp)).

Definition formatTraceServicePipelineID (tp : TracePipeline) : string := "traces/" +:+ trace_name tp.
Definition formatTraceUserDefinedTransformProcessorID : ComponentIDFunc TracePipeline :=
  fun tp => Some (ComponentIDUserDefinedTransformProcessor (TracePipelineRef tp)).
Definition formatTraceUserDefinedFilterProcessorID : ComponentIDFunc TracePipeline :=
  fun tp => Some (ComponentIDUserDefinedFilterProcessor (TracePipelineRef tp)).
Definition formatTraceOTLPExporterID : ComponentIDFunc TracePipeline :=
  fun tp => o ← trace_output tp; Some (ComponentIDOTLPExporter (oo_Protocol o) (TracePipelineRef tp)).

Definition addDropIstioServiceEnrichmentProcessor (opts : BuildOptions) : BuildComponentFunc TracePipeline :=
  AddProcessor (StaticComponentID ComponentIDDropIstioServiceEnrichmentProcessor)
    (const_config (if_otel opts (CTransform (TraceTransformProcessor
       [mkStatements
          (Some ["delete_matching_keys(resource.attributes, " +:+ quoted "service.*" +:+ ") where span.attributes["
                   +:+ quoted "component" +:+ "] == " +:+ quoted "proxy"]) None])))).

Definition addTraceUserDefinedTransformProcessor : BuildComponentFunc TracePipeline :=
  AddProcessor formatTraceUserDefinedTransformProcessorID
    (fun tp =>
       let transforms := tps_Transforms (tp_Spec tp) in
       Some (if (slen transforms =? 0)%nat then None
             else Some (CTransform (TraceTransformProcessor (TransformSpecsToProcessorStatements transforms))))).

Definition addTraceUserDefinedFilterProcessor : BuildComponentFunc TracePipeline :=
  AddProcessor formatTraceUserDefinedFilterProcessorID
    (fun tp =>
       let filters := tps_Filters (tp_Spec tp) in
       Some (if is_nil filters then None else Some (CFilter (TraceFilterProcessor filters)))).

Definition addTraceBatchProcessor : BuildComponentFunc TracePipeline :=
  AddProcessor (StaticComponentID ComponentIDBatchProcessor)
    (const_config (Some (CBatch (mkBatchProcessor 512 "10s" 512)))).

Definition addTraceOTLPExporter (queueSize : Z) : BuildComponentFunc TracePipeline :=
  AddExporter formatTraceOTLPExporterID
    (fun tp => o ← trace_output tp; OTLPExporter o (TracePipelineRef tp) (NewSendingQueue queueSize [])).

Definition addTraceOAuth2Extension (tp : TracePipeline) (b : builder) : outcome :=
  oauth2 ← oauth2_of (trace_output tp);
  match oauth2 with
  | None => Some (Ok b)
  | Some o => add_oauth2_extension (trace_name tp) o (TracePipelineRef tp) b
  end.

Definition trace_components (opts : BuildOptions) (queueSize : Z) : list (BuildComponentFunc TracePipeline) :=
  [addOTLPReceiver;
   addMemoryLimiterProcessor;
   addDropIstioServiceEnrichmentProcessor opts;
   addDropUnknownServiceNameProcessor opts;
   addK8sAttributesProcessor opts;
   addRestoreOtelServiceAttrsProcessor opts;
   addIstioNoiseFilterProcessor;
   addInsertClusterAttributesProcessor opts;
   addServiceEnrichmentProcessor opts;
   addDropKymaAttributesProcessor;
   addTraceUserDefinedTransformProcessor;
   addTraceUserDefinedFilterProcessor;
   addTraceBatchProcessor;
   addTraceOTLPExporter queueSize].

(** One round of the loop over the pipelines. *)
Definition build_trace_pipeline (opts : BuildOptions) (queueSize : Z) (pipeline : TracePipeline) (b : builder) :
    outcome :=
  andThen (addTraceOAuth2Extension pipeline b) (fun b =>
  wrap_err "failed to add trace service pipeline: "
    (AddServicePipeline pipeline (formatTraceServicePipelineID pipeline) (trace_components opts queueSize) b)).

Fixpoint for_each {P} (f : P -> builder -> outcome) (ps : list P) (b : builder) : outcome :=
  match ps with
  | [] => Some (Ok b)
  | p :: rest => andThen (f p b) (for_each f rest)
  end.

Definition buildTracePipelines (opts : BuildOptions) (b : builder) : outcome :=
  let pipelines := bo_TracePipelines opts in
  if (length pipelines =? 0)%nat then Some (Ok b)
  else for_each (build_trace_pipeline opts (queue_size pipelines)) pipelines b.

(** ** Logs (config_builder_logs.go) *)

Definition log_output (lp : LogPipeline) : option OTLPOutput := lo_OTLP (ls_Output (lp_Spec lp)).

Definition formatLogServicePipelineID (lp : LogPipeline) : string := "logs/" +:+ log_name lp.
Definition formatNamespaceFilterID : ComponentIDFunc LogPipeline :=
  fun lp => Some (ComponentIDNamespaceFilterProcessor (log_name lp)).
Definition formatLogUserDefinedTransformProcessorID : ComponentIDFunc LogPipeline :=
  fun lp => Some (ComponentIDUserDefinedTransformProcessor (LogPipelineRef lp)).
Definition formatLogUserDefinedFilterProcessorID : ComponentIDFunc LogPipeline :=
  fun lp => Some (ComponentIDUserDefinedFilterProcessor (LogPipelineRef lp)).
Definition formatLogOTLPExporterID : ComponentIDFunc LogPipeline :=
  fun lp => o ← log_output lp; Some (ComponentIDOTLPExporter (oo_Protocol o) (LogPipelineRef lp)).

Definition namespacesConditions (namespaces : list string) : list string := map NamespaceEquals namespaces.

Definition shouldFilterByNamespace (namespaceSelector : option NamespaceSelector) : bool :=
  match namespaceSelector with
  | Some s => (0 <? slen (ns_Include s))%nat || (0 <? slen (ns_Exclude s))%nat
  | None => false
  end.

Definition namespaceFilterProcessor (s : NamespaceSelector) : FilterProcessorConfig :=
  let exclude :=
    if (0 <? slen (ns_Exclude s))%nat then [JoinWithOr (namespacesConditions (elems (ns_Exclude s)))] else [] in
  let include :=
    if (0 <? slen (ns_Include s))%nat
    then [JoinWithAnd [ResourceAttributeIsNotNil K8sNamespaceName;
                       Not (JoinWithOr (namespacesConditions (elems (ns_Include s))))]]
    else [] in
  LogFilterProcessor (Some [mkFilterSpec (snil (Some (exclude ++ include)%list))]).

Definition dropIfInputSourceOTLPProcessor : FilterProcessorConfig :=
  LogFilterProcessor
    (Some [mkFilterSpec (Some [JoinWithOr [IsNotNil "log.observed_time"; IsNotNil "log.time"]])]).

Definition addSetObsTimeIfZeroProcessor : BuildComponentFunc LogPipeline :=
  AddProcessor (StaticComponentID ComponentIDSetObservedTimeIfZeroProcessor)
    (const_config (Some (CTransform (LogTransformProcessor
       [mkStatements (Some ["set(log.observed_time, Now())"]) (Some ["log.observed_time_unix_nano == 0"])])))).

Definition addDropIfInputSourceOTLPProcessor : BuildComponentFunc LogPipeline :=
  AddProcessor (StaticComponentID ComponentIDDropIfInputSourceOTLPProcessor)
    (fun lp => Some (if IsOTLPInputEnabled (li_OTLP (ls_Input (lp_Spec lp))) then None
                     else Some (CFilter dropIfInputSourceOTLPProcessor))).

Definition addNamespaceFilterProcessor : BuildComponentFunc LogPipeline :=
  AddProcessor formatNamespaceFilterID
    (fun lp =>
       Some (match li_OTLP (ls_Input (lp_Spec lp)) with
             | None => None
             | Some otlpInput =>
                 if negb (IsOTLPInputEnabled (Some otlpInput))
                    || negb (shouldFilterByNamespace (oi_Namespaces otlpInput)) then None
                 else (fun s => CFilter (namespaceFilterProcessor s)) <$> oi_Namespaces otlpInput
             end)).

Definition addLogIstioAccessLogsEnrichmentProcessor (opts : BuildOptions) : BuildComponentFunc LogPipeline :=
  AddProcessor (StaticComponentID ComponentIDIstioEnrichmentProcessor)
    (const_config (Some (CIstioEnrichment (mkIstioEnrichment (bo_ModuleVersion opts))))).

Definition addLogUserDefinedTransformProcessor : BuildComponentFunc LogPipeline :=
  AddProcessor formatLogUserDefinedTransformProcessorID
    (fun lp =>
       let transforms := ls_Transforms (lp_Spec lp) in
       Some (if (slen transforms =? 0)%nat then None
             else Some (CTransform (LogTransformProcessor (TransformSpecsToProcessorStatements transforms))))).

Definition addLogUserDefinedFilterProcessor : BuildComponentFunc LogPipeline :=
  AddProcessor formatLogUserDefinedFilterProcessorID
    (fun lp =>
       let filters := ls_Filters (lp_Spec lp) in
       Some (if is_nil filters then None else Some (CFilter (LogFilterProcessor filters)))).

Definition addLogBatchProcessor : BuildComponentFunc LogPipeline :=
  AddProcessor (StaticComponentID ComponentIDBatchProcessor)
    (const_config (Some (CBatch (mkBatchProcessor 512 "10s" 512)))).

Definition addLogOTLPExporter (queueSize : Z) : BuildComponentFunc LogPipeline :=
  AddExporter formatLogOTLPExporterID
    (fun lp => o ← log_output lp; OTLPExporter o (LogPipelineRef lp) (NewSendingQueue queueSize [])).

Definition addLogOAuth2Extension (lp : LogPipeline) (b : builder) : outcome :=
  oauth2 ← oauth2_of (log_output lp);
  match oauth2 with
  | None => Some (Ok b)
  | Some o => add_oauth2_extension (log_name lp) o (LogPipelineRef lp) b
  end.

Definition log_components (opts : BuildOptions) (queueSize : Z) : list (BuildComponentFunc LogPipeline) :=
  [addOTLPReceiver;
   addMemoryLimiterProcessor;
   addSetObsTimeIfZeroProcessor;
   addDropUnknownServiceNameProcessor opts;
   addK8sAttributesProcessor opts;
   addRestoreOtelServiceAttrsProcessor opts;
   addIstioNoiseFilterProcessor;
   addDropIfInputSourceOTLPProcessor;
   addNamespaceFilterProcessor;
   addInsertClusterAttributesProcessor opts;
   addServiceEnrichmentProcessor opts;
   addDropKymaAttributesProcessor;
   addLogIstioAccessLogsEnrichmentProcessor opts;
   addLogUserDefinedTransformProcessor;
   addLogUserDefinedFilterProcessor;
   addLogBatchProcessor;
   addLogOTLPExporter queueSize].

Definition build_log_pipeline (opts : BuildOptions) (queueSize : Z) (pipeline : LogPipeline) (b : builder) :
    outcome :=
  andThen (addLogOAuth2Extension pipeline b) (fun b =>
  wrap_err "failed to add log service pipeline: "
    (AddServicePipeline pipeline (formatLogServicePipelineID pipeline) (log_components opts queueSize) b)).

Definition buildLogPipelines (opts : BuildOptions) (b : builder) : outcome :=
  let pipelines := bo_LogPipelines opts in
  if (length pipelines =? 0)%nat then Some (Ok b)
  else for_each (build_log_pipeline opts (queue_size pipelines)) pipelines b.

(** ** Metrics (config_builder_metrics.go) *)

(** [*telemetryv1beta1.MetricPipeline] *)
Definition MP := option MetricPipeline.

(** [&mp.Spec.Output.OTLP.OTLPOutput] *)
Definition metric_output (mp : MetricPipeline) : option OTLPOutput :=
  mo_OTLPOutput <$> mout_OTLP (ms_Output (mp_Spec mp)).

Definition formatMetricOutputServicePipelineID (mp : MetricPipeline) : string :=
  "metrics/" +:+ metric_name mp +:+ "-output".
Definition formatMetricOTLPNamespaceFilterID : ComponentIDFunc MP :=
  fun mp => mp ← mp; Some (ComponentIDNamespacePerInputFilterProcessor (metric_name mp) InputSourceOTLP).
Definition formatMetricOTLPExporterID : ComponentIDFunc MP :=
  fun mp => mp ← mp; o ← metric_output mp;
            Some (ComponentIDOTLPExporter (oo_Protocol o) (MetricPipelineRef mp)).
Definition formatMetricUserDefinedTransformProcessorID : ComponentIDFunc MP :=
  fun mp => mp ← mp; Some (ComponentIDUserDefinedTransformProcessor (MetricPipelineRef mp)).
Definition formatMetricUserDefinedFilterProcessorID : ComponentIDFunc MP :=
  fun mp => mp ← mp; Some (ComponentIDUserDefinedFilterProcessor (MetricPipelineRef mp)).

Definition addMetricKymaStatsReceiver : BuildComponentFunc MP :=
  AddReceiver (StaticComponentID ComponentIDKymaStatsReceiver)
    (const_config (Some (CKymaStats (mkKymaStats "serviceAccount" "30s"
       [mkModuleGVR "operator.kyma-project.io" "v1beta1" "telemetries";
        mkModuleGVR "telemetry.kyma-project.io" "v1beta1" "logpipelines";
        mkModuleGVR "telemetry.kyma-project.io" "v1beta1" "tracepipelines";
        mkModuleGVR "telemetry.kyma-project.io" "v1beta1" "metricpipelines"] "k8s_leader_elector")))).

Definition addMetricSetKymaInputNameProcessor (inputSource : InputSourceType) : BuildComponentFunc MP :=
  AddProcessor (StaticComponentID (lookup_text inputSource InputName))
    (const_config (Some (CTransform (MetricTransformProcessor (KymaInputNameProcessorStatements inputSource))))).

(** An exporter or receiver that is a forward connector. *)
Definition forward_exporter (id : ComponentID) : BuildComponentFunc MP :=
  AddExporter (StaticComponentID id) (fun _ => Some (Ok (Some (CForward mkForward), ∅))).
Definition forward_receiver (id : ComponentID) : BuildComponentFunc MP :=
  AddReceiver (StaticComponentID id) (const_config (Some (CForward mkForward))).

Definition addMetricExporterForInputForwarder : BuildComponentFunc MP := forward_exporter ComponentIDInputConnector.
Definition addMetricReceiverForInputForwarder : BuildComponentFunc MP := forward_receiver ComponentIDInputConnector.
Definition addMetricExporterForEnrichmentForwarder : BuildComponentFunc MP :=
  forward_exporter ComponentIDEnrichmentConnector.
Definition addMetricReceiverForEnrichmentForwarder : BuildComponentFunc MP :=
  forward_receiver ComponentIDEnrichmentConnector.

Definition addMetricSetInstrumentationScopeToKymaProcessor (opts : BuildOptions) : BuildComponentFunc MP :=
  AddProcessor (StaticComponentID ComponentIDSetInstrumentationScopeKymaProcessor)
    (const_config (Some (CTransform (InstrumentationScopeProcessor (bo_ModuleVersion opts) [InputSourceKyma])))).

Definition addMetricDropOTLPIfInputDisabledProcessor : BuildComponentFunc MP :=
  AddProcessor (StaticComponentID ComponentIDDropIfInputSourceOTLPProcessor)
    (fun mp => mp ← mp;
       Some (if IsOTLPInputEnabled (mi_OTLP (ms_Input (mp_Spec mp))) then None
             else Some (CFilter (MetricFilterProcessor
                    (Some [mkFilterSpec (Some [KymaInputNameEquals InputSourceOTLP])]))))).

Definition metricFilterByNamespaceProcessorConfig (s : NamespaceSelector) : FilterProcessorConfig :=
  let notFromKymaStatsReceiver := Not (KymaInputNameEquals InputSourceKyma) in
  let exclude :=
    if (0 <? slen (ns_Exclude s))%nat
    then [JoinWithAnd [notFromKymaStatsReceiver; JoinWithOr (namespacesConditions (elems (ns_Exclude s)))]]
    else [] in
  let include :=
    if (0 <? slen (ns_Include s))%nat
    then [JoinWithAnd [notFromKymaStatsReceiver; ResourceAttributeIsNotNil K8sNamespaceName;
                       Not (JoinWithOr (namespacesConditions (elems (ns_Include s))))]]
    else [] in
  MetricFilterProcessor (Some [mkFilterSpec (snil (Some (exclude ++ include)%list))]).

Definition addMetricOTLPNamespaceFilterProcessor : BuildComponentFunc MP :=
  AddProcessor formatMetricOTLPNamespaceFilterID
    (fun mp => mp ← mp;
       let input := ms_Input (mp_Spec mp) in
       Some (if negb (IsOTLPInputEnabled (mi_OTLP input)) then None
             else
               match mi_OTLP input with
               | None => None
               | Some otlp =>
                   if negb (shouldFilterByNamespace (oi_Namespaces otlp)) then None
                   else (fun s => CFilter (metricFilterByNamespaceProcessorConfig s)) <$> oi_Namespaces otlp
               end)).

Definition addMetricUserDefinedTransformProcessor : BuildComponentFunc MP :=
  AddProcessor formatMetricUserDefinedTransformProcessorID
    (fun mp => mp ← mp;
       let transforms := ms_Transforms (mp_Spec mp) in
       Some (if (slen transforms =? 0)%nat then None
             else Some (CTransform (MetricTransformProcessor (TransformSpecsToProcessorStatements transforms))))).

Definition addMetricUserDefinedFilterProcessor : BuildComponentFunc MP :=
  AddProcessor formatMetricUserDefinedFilterProcessorID
    (fun mp => mp ← mp;
       let filters := ms_Filters (mp_Spec mp) in
       Some (if is_nil filters then None else Some (CFilter (MetricFilterProcessor filters)))).

(** [metricpipelineutils.IsDeltaTemporality] dereferences the output and its temporality. *)
Definition addMetricCumulativeToDeltaProcessor : BuildComponentFunc MP :=
  AddProcessor (StaticComponentID ComponentIDCumulativeToDeltaProcessor)
    (fun mp => mp ← mp; delta ← IsDeltaTemporality (ms_Output (mp_Spec mp));
       Some (if (delta : bool) then Some (CCumulativeToDelta (mkCumulativeToDelta 0 "auto")) else None)).

Definition addMetricBatchProcessor : BuildComponentFunc MP :=
  AddProcessor (StaticComponentID ComponentIDBatchProcessor)
    (const_config (Some (CBatch (mkBatchProcessor 1024 "10s" 1024)))).

Definition addMetricOTLPExporter (queueSize : Z) : BuildComponentFunc MP :=
  AddExporter formatMetricOTLPExporterID
    (fun mp => mp ← mp; o ← metric_output mp;
       OTLPExporter o (MetricPipelineRef mp) (NewSendingQueue queueSize [])).

Definition addMetricOAuth2Extension (mp : MetricPipeline) (b : builder) : outcome :=
  oauth2 ← oauth2_of (metric_output mp);
  match oauth2 with
  | None => Some (Ok b)
  | Some o => add_oauth2_extension (metric_name mp) o (MetricPipelineRef mp) b
  end.

Definition metric_input_otlp : list (BuildComponentFunc MP) :=
  [addOTLPReceiver; addMetricSetKymaInputNameProcessor InputSourceOTLP; addMetricExporterForInputForwarder].

Definition metric_input_kyma : list (BuildComponentFunc MP) :=
  [addMetricKymaStatsReceiver; addMetricSetKymaInputNameProcessor InputSourceKyma;
   addMetricExporterForInputForwarder].

Definition metric_enrichment (opts : BuildOptions) : list (BuildComponentFunc MP) :=
  [addMetricReceiverForInputForwarder;
   addMemoryLimiterProcessor;
   addMetricSetInstrumentationScopeToKymaProcessor opts;
   addDropUnknownServiceNameProcessor opts;
   addK8sAttributesProcessor opts;
   addRestoreOtelServiceAttrsProcessor opts;
   addServiceEnrichmentProcessor opts;
   addInsertClusterAttributesProcessor opts;
   addMetricExporterForEnrichmentForwarder].

Definition metric_output_components (queueSize : Z) : list (BuildComponentFunc MP) :=
  [addMetricReceiverForEnrichmentForwarder;
   addMetricDropOTLPIfInputDisabledProcessor;
   addMetricOTLPNamespaceFilterProcessor;
   addDropKymaAttributesProcessor;
   addMetricUserDefinedTransformProcessor;
   addMetricUserDefinedFilterProcessor;
   addMetricCumulativeToDeltaProcessor;
   addMetricBatchProcessor;
   addMetricOTLPExporter queueSize].

Definition build_metric_pipeline (queueSize : Z) (pipeline : MetricPipeline) (b : builder) : outcome :=
  andThen (addMetricOAuth2Extension pipeline b) (fun b =>
  wrap_err "failed to add metric output service pipeline: "
    (AddServicePipeline (Some pipeline) (formatMetricOutputServicePipelineID pipeline)
       (metric_output_components queueSize) b)).

Definition buildMetricPipelines (opts : BuildOptions) (b : builder) : outcome :=
  let pipelines := bo_MetricPipelines opts in
  if (length pipelines =? 0)%nat then Some (Ok b)
  else
    let b := AddExtension ComponentIDK8sLeaderElectorExtension
               (CLeaderElector (mkLeaderElector "serviceAccount" K8sLeaderElectorKymaStats (bo_GatewayNamespace opts)))
               ∅ b in
    andThen (wrap_err "failed to add metric input-otlp service pipeline: "
               (AddServicePipeline None "metrics/input-otlp" metric_input_otlp b)) (fun b =>
    andThen (wrap_err "failed to add metric input-kyma-stats service pipeline: "
               (AddServicePipeline None "metrics/input-kyma-stats" metric_input_kyma b)) (fun b =>
    andThen (wrap_err "failed to add metric enrichment service pipeline: "
               (AddServicePipeline None "metrics/enrichment" (metric_enrichment opts) b))
      (for_each (build_metric_pipeline (queue_size pipelines)) pipelines))).

(** ** Build *)

Definition Build (opts : BuildOptions) : outcome :=
  let opts := sortPipelinesByName opts in
  andThen (buildTracePipelines opts (mkBuilder NewConfig ∅)) (fun b =>
  andThen (buildLogPipelines opts b) (buildMetricPipelines opts)).

End Builders.
