(* ===== verification/CollectorBuilderProps.v ===== *)
(** * Properties of the component builder

    A configuration is closed when every component that a service pipeline or the
    service names is configured; the builder keeps configurations closed. [adds] states
    what a builder function appends to the service pipeline it works on, and
    [registered] follows the component that an identifier stands for. *)
From stdpp Require Import base gmap strings list.
From S2P Require Import Prelude Kube GoErrors.
From S2P Require Import ApiV1beta1 CollectorTypes CollectorBuilder.
Local Open Scope string_scope.

Abbreviation pipelines_of c := (svc_Pipelines (cf_Service c)) (only parsing).

(** ** Closed configurations *)

Definition receiver_defined (c : Config) (id : string) : Prop :=
  is_Some ((if isConnector id then cf_Connectors c else cf_Receivers c) !! id).
Definition exporter_defined (c : Config) (id : string) : Prop :=
  is_Some ((if isConnector id then cf_Connectors c else cf_Exporters c) !! id).
Definition processor_defined (c : Config) (id : string) : Prop := is_Some (cf_Processors c !! id).

Definition pipeline_closed (c : Config) (p : ServicePipeline) : Prop :=
  Forall (receiver_defined c) (sp_Receivers p) /\ Forall (processor_defined c) (sp_Processors p) /\
  Forall (exporter_defined c) (sp_Exporters p).

Definition closed (c : Config) : Prop :=
  map_Forall (fun _ p => pipeline_closed c p) (pipelines_of c) /\
  Forall (fun e => is_Some (cf_Extensions c !! e)) (svc_Extensions (cf_Service c)).

(** The components of [c] are components of [c']. *)
Definition extends (c c' : Config) : Prop :=
  (forall i, is_Some (cf_Receivers c !! i) -> is_Some (cf_Receivers c' !! i)) /\
  (forall i, is_Some (cf_Processors c !! i) -> is_Some (cf_Processors c' !! i)) /\
  (forall i, is_Some (cf_Exporters c !! i) -> is_Some (cf_Exporters c' !! i)) /\
  (forall i, is_Some (cf_Connectors c !! i) -> is_Some (cf_Connectors c' !! i)) /\
  (forall i, is_Some (cf_Extensions c !! i) -> is_Some (cf_Extensions c' !! i)).

Lemma pipeline_closed_extends c c' p : extends c c' -> pipeline_closed c p -> pipeline_closed c' p.
Proof.
  intros (Hr & Hp & He & Hc & _) (H1 & H2 & H3).
  split; [|split]; eapply Forall_impl; [done|..|done| |done|]; cbn.
  - intros i. unfold receiver_defined. destruct (isConnector i); auto.
  - intros i. apply Hp.
  - intros i. unfold exporter_defined. destruct (isConnector i); auto.
Qed.

Lemma add_if_absent_some id c m i : is_Some (m !! i) -> is_Some (add_if_absent id c m !! i).
Proof.
  unfold add_if_absent. destruct (m !! id) eqn:E; [done|]. intros Hi.
  apply lookup_insert_is_Some. destruct (decide (id = i)); auto.
Qed.

Lemma add_if_absent_same id c m : is_Some (add_if_absent id c m !! id).
Proof. unfold add_if_absent. destruct (m !! id) eqn:E; [by rewrite E|]. rewrite lookup_insert_eq. eauto. Qed.

Lemma insert_some {V} id (c : V) (m : gmap string V) i : is_Some (m !! i) -> is_Some (<[id := c]> m !! i).
Proof. intros Hi. apply lookup_insert_is_Some. destruct (decide (id = i)); auto. Qed.

#[export] Hint Resolve add_if_absent_some add_if_absent_same insert_some : go.

(** ** Invariants of builder functions *)

Definition preserves (I : builder -> Prop) (f : builder -> outcome) : Prop :=
  forall b b', I b -> f b = Some (Ok b') -> I b'.

Lemma andThen_ok o k b' : andThen o k = Some (Ok b') -> exists b, o = Some (Ok b) /\ k b = Some (Ok b').
Proof. destruct o as [[b|e]|]; simpl; naive_solver. Qed.

Lemma wrap_err_ok s o b : wrap_err s o = Some (Ok b) <-> o = Some (Ok b).
Proof. destruct o as [[b'|e]|]; simpl; naive_solver. Qed.

Lemma preserves_andThen I f g : preserves I f -> preserves I g -> preserves I (fun b => andThen (f b) g).
Proof. intros Hf Hg b b' Hb (b1 & H1 & H2)%andThen_ok. eauto. Qed.

Lemma preserves_wrap I s f : preserves I f -> preserves I (fun b => wrap_err s (f b)).
Proof. intros Hf b b' Hb Hw%wrap_err_ok. eauto. Qed.

Lemma preserves_run {T} I (fs : list (BuildComponentFunc T)) t id :
  Forall (fun f => preserves I (f t id)) fs -> preserves I (run_components fs t id).
Proof.
  induction 1 as [|f fs Hf _ IH]; intros b b' Hb; simpl; [by intros [= <-]|].
  intros (b1 & H1%wrap_err_ok & H2)%andThen_ok. eauto.
Qed.

Lemma preserves_pipeline {T} I (t : T) id fs :
  (forall b, I b -> I (mkBuilder (set_pipeline (b_Config b) id empty_pipeline) (b_EnvVars b))) ->
  Forall (fun f => preserves I (f t id)) fs -> preserves I (AddServicePipeline t id fs).
Proof. intros Hi Hf b b' Hb. apply preserves_run; auto. Qed.

#[export] Hint Resolve preserves_andThen preserves_wrap : go.

Definition closed_builder (b : builder) : Prop := closed (b_Config b).

Lemma closed_set_pipeline c id p : closed c -> pipeline_closed c p -> closed (set_pipeline c id p).
Proof.
  intros [Hc He] Hp. split; [|done]. cbn. intros i q. rewrite lookup_insert_Some.
  intros [[_ <-]|[_ Hq]]; [done|]. by apply (Hc i q).
Qed.

Lemma closed_extends c c' :
  extends c c' -> cf_Service c' = cf_Service c -> closed c -> closed c'.
Proof.
  intros Hx Hs [Hc He]. split; rewrite Hs.
  - intros i p Hp. eapply pipeline_closed_extends; [done|]. by apply (Hc i).
  - eapply Forall_impl; [done|]. intros e. apply Hx.
Qed.

Lemma closed_pipeline_of c id : closed c -> pipeline_closed c (pipeline_of c id).
Proof.
  intros [Hc _]. unfold pipeline_of. destruct (_ !! id) as [p|] eqn:Hp; simpl; [by apply (Hc id)|].
  by repeat split.
Qed.

Lemma AddReceiver_closed {T} idf cf (t : T) id : preserves closed_builder (AddReceiver idf cf t id).
Proof.
  intros [c env] b' Hb. unfold AddReceiver. destruct (cf t) as [[x|]|]; simpl; [|by intros [= <-]|done].
  destruct (idf t) as [i|]; simpl; [|done]. intros [= <-]. unfold closed_builder in *. cbn [b_Config] in *.
  set (c1 := if isConnector i then _ else _).
  assert (extends c c1 /\ cf_Service c1 = cf_Service c /\ receiver_defined c1 i) as (Hx & Hs & Hi).
  { subst c1. unfold receiver_defined, extends.
    destruct (isConnector i) eqn:Ei; rewrite ?Ei; cbn; repeat split; eauto with go. }
  assert (Hc1 : closed c1) by (by eapply closed_extends).
  apply closed_set_pipeline; [done|]. destruct (closed_pipeline_of c1 id Hc1) as (H1 & H2 & H3).
  repeat split; cbn; auto. apply Forall_app. auto.
Qed.

Lemma AddProcessor_closed {T} idf cf (t : T) id : preserves closed_builder (AddProcessor idf cf t id).
Proof.
  intros [c env] b' Hb. unfold AddProcessor. destruct (cf t) as [[x|]|]; simpl; [|by intros [= <-]|done].
  destruct (idf t) as [i|]; simpl; [|done]. intros [= <-]. unfold closed_builder in *. cbn [b_Config] in *.
  set (c1 := set_processors _ _).
  assert (extends c c1) by (subst c1; unfold extends; cbn; repeat split; eauto with go).
  assert (Hc1 : closed c1) by (by eapply closed_extends).
  apply closed_set_pipeline; [done|]. destruct (closed_pipeline_of c1 id Hc1) as (H1 & H2 & H3).
  repeat split; cbn; auto. apply Forall_app. split; [done|].
  apply Forall_singleton. apply add_if_absent_same.
Qed.

Lemma AddExporter_closed {T} idf cf (t : T) id : preserves closed_builder (AddExporter idf cf t id).
Proof.
  intros [c env] b' Hb. unfold AddExporter.
  destruct (cf t) as [[[[x|] vars]|]|]; simpl; [|by intros [= <-]|done|done].
  destruct (idf t) as [i|]; simpl; [|done]. intros [= <-]. unfold closed_builder in *. cbn [b_Config] in *.
  set (c1 := if isConnector i then _ else _).
  assert (extends c c1 /\ cf_Service c1 = cf_Service c /\ exporter_defined c1 i) as (Hx & Hs & Hi).
  { subst c1. unfold exporter_defined, extends.
    destruct (isConnector i) eqn:Ei; rewrite ?Ei; cbn; repeat split; eauto with go;
      rewrite lookup_insert_eq; eauto. }
  assert (Hc1 : closed c1) by (by eapply closed_extends).
  apply closed_set_pipeline; [done|]. destruct (closed_pipeline_of c1 id Hc1) as (H1 & H2 & H3).
  repeat split; cbn; auto. apply Forall_app. auto.
Qed.

Lemma AddExtension_closed id x env b : closed_builder b -> closed_builder (AddExtension id x env b).
Proof.
  intros [Hc He]. unfold AddExtension. set (c1 := set_extensions _ _).
  assert (extends (b_Config b) c1) by (subst c1; unfold extends; cbn; repeat split; eauto with go).
  assert (Hc1 : closed c1) by (by eapply closed_extends).
  case_bool_decide as Hin; [done|]. destruct Hc1 as [H1 H2]. split; [done|].
  cbn. apply Forall_app. split; [done|]. apply Forall_singleton. cbn. apply add_if_absent_same.
Qed.

Lemma AddServicePipeline_closed {T} (t : T) id fs :
  Forall (fun f => preserves closed_builder (f t id)) fs -> preserves closed_builder (AddServicePipeline t id fs).
Proof. apply preserves_pipeline. intros b Hb. by apply closed_set_pipeline. Qed.

#[export] Hint Resolve AddReceiver_closed AddProcessor_closed AddExporter_closed AddExtension_closed : go.

Lemma NewConfig_closed : closed NewConfig.
Proof.
  split; [apply map_Forall_empty|]. apply Forall_forall. intros e.
  cbn. rewrite !elem_of_cons, elem_of_nil. intros [->|[->|[->|[]]]]; by vm_compute; eauto.
Qed.

(** ** What a function appends to its service pipeline *)

Definition pipe_app (p q : ServicePipeline) : ServicePipeline :=
  mkServicePipeline (sp_Receivers p ++ sp_Receivers q)%list (sp_Processors p ++ sp_Processors q)%list
    (sp_Exporters p ++ sp_Exporters q)%list.

Lemma pipe_app_nil p : pipe_app p empty_pipeline = p.
Proof. destruct p. unfold pipe_app. cbn. by rewrite !app_nil_r. Qed.

Lemma pipe_app_assoc p q r : pipe_app (pipe_app p q) r = pipe_app p (pipe_app q r).
Proof. unfold pipe_app. cbn. by rewrite !app_assoc. Qed.

Definition pipe_concat (ds : list ServicePipeline) : ServicePipeline := foldr pipe_app empty_pipeline ds.

(** [f] appends [d] to its service pipeline, and changes no other pipeline and no
    extension of the service. *)
Definition adds {T} (f : BuildComponentFunc T) (t : T) (d : ServicePipeline) : Prop :=
  forall id b b', is_Some (pipelines_of (b_Config b) !! id) -> f t id b = Some (Ok b') ->
    pipelines_of (b_Config b') = <[id := pipe_app (pipeline_of (b_Config b) id) d]> (pipelines_of (b_Config b)).

(** What an added component appends: nothing when it is skipped. *)
Definition on_component {T} (idf : ComponentIDFunc T) (cfg : option (option component)) (t : T)
    (k : string -> ServicePipeline) : ServicePipeline :=
  match cfg, idf t with Some (Some _), Some i => k i | _, _ => empty_pipeline end.

Lemma keep_pipeline c id :
  is_Some (pipelines_of c !! id) ->
  pipelines_of c = <[id := pipe_app (pipeline_of c id) empty_pipeline]> (pipelines_of c).
Proof. intros [p Hp]. rewrite pipe_app_nil, insert_id; [done|]. unfold pipeline_of. by rewrite Hp. Qed.

Lemma AddReceiver_adds {T} idf cf (t : T) :
  adds (AddReceiver idf cf) t (on_component idf (cf t) t (fun i => mkServicePipeline [i] [] [])).
Proof.
  intros id [c env] b' Hid. unfold AddReceiver, on_component.
  destruct (cf t) as [[x|]|]; simpl; [|intros [= <-]; by apply keep_pipeline|done].
  destruct (idf t) as [i|]; simpl; [|done]. intros [= <-].
  unfold pipe_app. cbn. rewrite !app_nil_r. by destruct (isConnector i).
Qed.

Lemma AddProcessor_adds {T} idf cf (t : T) :
  adds (AddProcessor idf cf) t (on_component idf (cf t) t (fun i => mkServicePipeline [] [i] [])).
Proof.
  intros id [c env] b' Hid. unfold AddProcessor, on_component.
  destruct (cf t) as [[x|]|]; simpl; [|intros [= <-]; by apply keep_pipeline|done].
  destruct (idf t) as [i|]; simpl; [|done]. intros [= <-]. unfold pipe_app. cbn. by rewrite !app_nil_r.
Qed.

Lemma AddExporter_adds {T} idf cf (t : T) :
  adds (AddExporter idf cf) t
    (on_component idf (match cf t with Some (Ok (c, _)) => Some c | _ => None end) t
       (fun i => mkServicePipeline [] [] [i])).
Proof.
  intros id [c env] b' Hid. unfold AddExporter, on_component.
  destruct (cf t) as [[[[x|] vars]|]|]; simpl; [|intros [= <-]; by apply keep_pipeline|done|done].
  destruct (idf t) as [i|]; simpl; [|done]. intros [= <-].
  unfold pipe_app. cbn. rewrite !app_nil_r. by destruct (isConnector i).
Qed.

Lemma run_adds {T} (fs : list (BuildComponentFunc T)) ds t id b b' :
  Forall2 (fun f d => adds f t d) fs ds -> is_Some (pipelines_of (b_Config b) !! id) ->
  run_components fs t id b = Some (Ok b') ->
  pipelines_of (b_Config b') =
    <[id := pipe_app (pipeline_of (b_Config b) id) (pipe_concat ds)]> (pipelines_of (b_Config b)).
Proof.
  intros Hf. revert b. induction Hf as [|f d fs ds Hf _ IH]; intros b Hid; simpl.
  { intros [= <-]. by apply keep_pipeline. }
  intros (b1 & H1%wrap_err_ok & H2)%andThen_ok. apply Hf in H1; [|done].
  assert (Hp : pipeline_of (b_Config b1) id = pipe_app (pipeline_of (b_Config b) id) d).
  { unfold pipeline_of at 1. by rewrite H1, lookup_insert_eq. }
  apply IH in H2; [|by rewrite H1, lookup_insert_eq; eauto].
  by rewrite H2, H1, Hp, insert_insert_eq, pipe_app_assoc.
Qed.

Lemma AddServicePipeline_adds {T} (fs : list (BuildComponentFunc T)) ds t id b b' :
  Forall2 (fun f d => adds f t d) fs ds -> AddServicePipeline t id fs b = Some (Ok b') ->
  pipelines_of (b_Config b') = <[id := pipe_concat ds]> (pipelines_of (b_Config b)).
Proof.
  intros Hf Hr. eapply run_adds in Hr; [|done|cbn; rewrite lookup_insert_eq; eauto].
  rewrite Hr. cbn. rewrite insert_insert_eq. f_equal.
  unfold pipeline_of. cbn. rewrite lookup_insert_eq. by destruct (pipe_concat ds).
Qed.

#[export] Hint Resolve AddReceiver_adds AddProcessor_adds AddExporter_adds : go.

(** ** The processor an identifier stands for *)

Definition registered (K : string -> component -> Prop) (b : builder) : Prop :=
  map_Forall K (cf_Processors (b_Config b)).

(** The processors a function registers are of the kind [K]. *)
Definition registers {T} (K : string -> component -> Prop) (f : BuildComponentFunc T) (t : T) : Prop :=
  forall id, preserves (registered K) (f t id).

Lemma AddProcessor_registers {T} K idf cf (t : T) :
  (forall i c, idf t = Some i -> cf t = Some (Some c) -> K i c) -> registers K (AddProcessor idf cf) t.
Proof.
  intros Hk id [c env] b' Hb. unfold AddProcessor. destruct (cf t) as [[x|]|]; simpl; [|by intros [= <-]|done].
  destruct (idf t) as [i|]; simpl; [|done]. intros [= <-]. unfold registered in *. cbn in *.
  unfold add_if_absent. destruct (_ !! i); [done|]. apply map_Forall_insert_2; auto.
Qed.

Lemma AddReceiver_registers {T} K idf cf (t : T) : registers K (AddReceiver idf cf) t.
Proof.
  intros id [c env] b' Hb. unfold AddReceiver. destruct (cf t) as [[x|]|]; simpl; [|by intros [= <-]|done].
  destruct (idf t) as [i|]; simpl; [|done]. intros [= <-]. by destruct (isConnector i).
Qed.

Lemma AddExporter_registers {T} K idf cf (t : T) : registers K (AddExporter idf cf) t.
Proof.
  intros id [c env] b' Hb. unfold AddExporter.
  destruct (cf t) as [[[[x|] vars]|]|]; simpl; [|by intros [= <-]|done|done].
  destruct (idf t) as [i|]; simpl; [|done]. intros [= <-]. by destruct (isConnector i).
Qed.

Lemma AddExtension_registered K id x env b : registered K b -> registered K (AddExtension id x env b).
Proof. intros Hb. unfold AddExtension. by case_bool_decide. Qed.

Lemma AddServicePipeline_registers {T} K (t : T) id fs :
  Forall (fun f => registers K f t) fs -> preserves (registered K) (AddServicePipeline t id fs).
Proof.
  intros Hf. apply preserves_pipeline; [done|]. eapply Forall_impl; [done|]. intros f Hr. apply Hr.
Qed.

(** ** Exporters and environment variables *)

(** Every exporter of the configuration satisfies [E] in the environment. *)
Definition exporters_sat (E : EnvVars -> string -> component -> Prop) (b : builder) : Prop :=
  map_Forall (E (b_EnvVars b)) (cf_Exporters (b_Config b)).

Definition env_monotone (E : EnvVars -> string -> component -> Prop) : Prop :=
  forall env env' i c, (forall v, is_Some (env !! v) -> is_Some (env' !! v)) -> E env i c -> E env' i c.

Lemma union_some (m n : EnvVars) v : is_Some (n !! v) -> is_Some ((m ∪ n) !! v).
Proof. intros Hx. apply lookup_union_is_Some. by right. Qed.

Lemma union_some_l (m n : EnvVars) v : is_Some (m !! v) -> is_Some ((m ∪ n) !! v).
Proof. intros Hx. apply lookup_union_is_Some. by left. Qed.

#[export] Hint Resolve union_some union_some_l : go.

Lemma AddReceiver_exporters {T} E idf cf (t : T) id : preserves (exporters_sat E) (AddReceiver idf cf t id).
Proof.
  intros [c env] b' Hb. unfold AddReceiver. destruct (cf t) as [[x|]|]; simpl; [|by intros [= <-]|done].
  destruct (idf t) as [i|]; simpl; [|done]. intros [= <-]. by destruct (isConnector i).
Qed.

Lemma AddProcessor_exporters {T} E idf cf (t : T) id : preserves (exporters_sat E) (AddProcessor idf cf t id).
Proof.
  intros [c env] b' Hb. unfold AddProcessor. destruct (cf t) as [[x|]|]; simpl; [|by intros [= <-]|done].
  destruct (idf t) as [i|]; simpl; [|done]. intros [= <-]. done.
Qed.

Lemma AddExporter_exporters {T} E idf cf (t : T) id :
  env_monotone E ->
  (forall i c env, idf t = Some i -> cf t = Some (Ok (Some c, env)) -> isConnector i = false -> E env i c) ->
  preserves (exporters_sat E) (AddExporter idf cf t id).
Proof.
  intros Hm He [c env] b' Hb. unfold AddExporter.
  destruct (cf t) as [[[[x|] vars]|]|]; simpl; [|by intros [= <-]|done|done].
  destruct (idf t) as [i|]; simpl; [|done]. intros [= <-]. unfold exporters_sat in *.
  assert (Hold : map_Forall (E (vars ∪ env)) (cf_Exporters c)).
  { intros j y Hj. eapply Hm; [|by apply (Hb j y)]. cbn. eauto with go. }
  destruct (isConnector i) eqn:Ei; cbn; [done|]. apply map_Forall_insert_2; [|done].
  eapply Hm; [|by eapply He]. eauto with go.
Qed.

Lemma AddExtension_exporters E id x env b :
  env_monotone E -> exporters_sat E b -> exporters_sat E (AddExtension id x env b).
Proof.
  intros Hm Hb. unfold AddExtension, exporters_sat.
  case_bool_decide; cbn; intros j y Hj; (eapply Hm; [|by apply (Hb j y)]); eauto with go.
Qed.

Lemma AddServicePipeline_exporters {T} E (t : T) id fs :
  Forall (fun f => preserves (exporters_sat E) (f t id)) fs ->
  preserves (exporters_sat E) (AddServicePipeline t id fs).
Proof. by apply preserves_pipeline. Qed.

#[export] Hint Resolve AddReceiver_registers AddExporter_registers AddReceiver_exporters AddProcessor_exporters : go.

(** ** Statements about the environment only *)

Definition env_sat (J : EnvVars -> Prop) (b : builder) : Prop := J (b_EnvVars b).

Lemma AddReceiver_env {T} J idf cf (t : T) id : preserves (env_sat J) (AddReceiver idf cf t id).
Proof.
  intros [c env] b' Hb. unfold AddReceiver. destruct (cf t) as [[x|]|]; simpl; [|by intros [= <-]|done].
  destruct (idf t) as [i|]; simpl; [|done]. by intros [= <-].
Qed.

Lemma AddProcessor_env {T} J idf cf (t : T) id : preserves (env_sat J) (AddProcessor idf cf t id).
Proof.
  intros [c env] b' Hb. unfold AddProcessor. destruct (cf t) as [[x|]|]; simpl; [|by intros [= <-]|done].
  destruct (idf t) as [i|]; simpl; [|done]. by intros [= <-].
Qed.

Lemma AddExporter_env {T} (J : EnvVars -> Prop) idf cf (t : T) id :
  (forall c vars env, cf t = Some (Ok (Some c, vars)) -> J env -> J (vars ∪ env)) ->
  preserves (env_sat J) (AddExporter idf cf t id).
Proof.
  intros Hj [c env] b' Hb. unfold AddExporter.
  destruct (cf t) as [[[[x|] vars]|]|] eqn:Hc; simpl; [|by intros [= <-]|done|done].
  destruct (idf t) as [i|]; simpl; [|done]. intros [= <-]. by eapply Hj.
Qed.

Lemma AddExtension_env (J : EnvVars -> Prop) id x vars b :
  J (vars ∪ b_EnvVars b) -> env_sat J (AddExtension id x vars b).
Proof. intros Hj. unfold AddExtension. by case_bool_decide. Qed.
