(* ===== verification/CollectorExporterProps.v ===== *)
(** * Properties of the OTLP exporter and its environment variables

    Every variable an exporter or an OAuth2 extension refers to is set; the variables of
    two pipelines have different names as long as the pipeline names have no dots and no
    headers are involved. *)
From stdpp Require Import base gmap strings list.
From Stdlib Require Import Ascii.
From S2P Require Import Prelude Kube GoErrors GoStrings.
From S2P Require Import ApiV1beta1 SecretRef TLSCert Coordination.
From S2P Require Import CollectorTypes CollectorBuilder CollectorBuilderProps CollectorExporter.
Local Open Scope string_scope.
Local Open Scope go_scope.

(** A statement about each element of a list that is written out. *)
Ltac split_forall := repeat (apply Forall_cons; split); try apply Forall_nil_2.

(** ** References to variables *)

(** A field that is empty or refers to a variable that is set. *)
Definition var_set (env : EnvVars) (v : string) : Prop :=
  v = "" \/ exists name, v = env_ref name /\ is_Some (env !! name).

Definition exporter_vars_set (env : EnvVars) (ex : OTLPExporterConfig) : Prop :=
  Forall (var_set env) [ex_MetricsEndpoint ex; ex_TracesEndpoint ex; ex_LogsEndpoint ex; ex_Endpoint ex;
                        tlsc_CertPem (ex_TLS ex); tlsc_KeyPem (ex_TLS ex); tlsc_CAPem (ex_TLS ex)] /\
  map_Forall (fun _ v => var_set env v) (ex_Headers ex).

Definition oauth2_vars_set (env : EnvVars) (x : OAuth2ExtensionConfig) : Prop :=
  Forall (var_set env) [oe_TokenURL x; oe_ClientID x; oe_ClientSecret x].

(** Certificate and key are given together. *)
Definition tls_pair (output : OTLPOutput) : Prop :=
  forall o, oo_TLS output = Some o -> IsValid (tls_Cert o) = IsValid (tls_Key o).

(** The three OAuth2 values are given. *)
Definition oauth2_given (o : OAuth2Options) : Prop :=
  IsValid (Some (oa_TokenURL o)) = true /\ IsValid (Some (oa_ClientID o)) = true /\
  IsValid (Some (oa_ClientSecret o)) = true.

Lemma var_set_mono (env env' : EnvVars) v :
  (forall k, is_Some (env !! k) -> is_Some (env' !! k)) -> var_set env v -> var_set env' v.
Proof. intros He [->|(n & -> & Hn)]; [by left|]. right. eauto. Qed.

Lemma exporter_vars_mono (env env' : EnvVars) ex :
  (forall k, is_Some (env !! k) -> is_Some (env' !! k)) -> exporter_vars_set env ex -> exporter_vars_set env' ex.
Proof.
  intros He [H1 H2]. split.
  - eapply Forall_impl; [done|]. intros v. by apply var_set_mono.
  - eapply map_Forall_impl; [done|]. intros i v. by apply var_set_mono.
Qed.

Lemma attempt_ok {A B} (m : option (result A goerror)) (k : A -> option (result B goerror)) b :
  attempt m k = Some (Ok b) -> exists a, m = Some (Ok a) /\ k a = Some (Ok b).
Proof. destruct m as [[a|e]|]; simpl; naive_solver. Qed.

(** A value that is valid resolves or fails, but does not panic. *)
Lemma IsValid_resolves `{SecretReader} v : IsValid (Some v) = true -> is_Some (ResolveValue v).
Proof.
  unfold IsValid, ResolveValue. destruct (negb _); [eauto|]. destruct (vt_ValueFrom v) as [s|]; [|done].
  destruct (vfs_SecretKeyRef s); eauto.
Qed.

Section Vars.
Context `{SecretReader} `{URLOps} (r : PipelineRef).

Lemma set_var (env : EnvVars) k v : var_set (<[k := v]> env) (env_ref k).
Proof. right. exists k. by rewrite lookup_insert_eq. Qed.

Lemma keep_var (env : EnvVars) k v x : var_set env x -> var_set (<[k := v]> env) x.
Proof. apply var_set_mono. intros i Hi. by apply insert_some. Qed.

Lemma basic_auth_vars env output env' :
  makeBasicAuthEnvVar env output r = Some (Ok env') ->
  isBasicAuthEnabled (oo_Authentication output) = true ->
  var_set env' (env_ref (formatEnvVarKey basicAuthHeaderVariablePrefix r)).
Proof.
  unfold makeBasicAuthEnvVar. intros Hm He. unfold isBasicAuthEnabled in *.
  destruct (oo_Authentication output) as [a|]; [|done]. simpl in *. destruct (ao_Basic a); [|done].
  rewrite He in Hm. apply attempt_ok in Hm as (u & _ & Hm). apply attempt_ok in Hm as (p & _ & Hm).
  simplify_eq. apply set_var.
Qed.

(** Each step keeps the variables set before it. *)
Definition env_keeps (env : EnvVars) (o : option (result EnvVars goerror)) : Prop :=
  forall env', o = Some (Ok env') -> forall x, var_set env x -> var_set env' x.

Lemma endpoint_keeps env output : env_keeps env (makeOTLPEndpointEnvVar env output r).
Proof. intros env' (u & _ & He)%attempt_ok x. simplify_eq. apply keep_var. Qed.

Lemma endpoint_vars env output env' :
  makeOTLPEndpointEnvVar env output r = Some (Ok env') ->
  var_set env' (env_ref (formatEnvVarKey otlpEndpointVariablePrefix r)).
Proof. intros (u & _ & He)%attempt_ok. simplify_eq. apply set_var. Qed.

Lemma header_keeps hs : forall env, env_keeps env (make_header_vars hs env r).
Proof.
  induction hs as [|h hs IH]; intros env env'; simpl; [by intros [= <-]|].
  intros (v & _ & Hm)%attempt_ok x Hx. eapply IH; [done|]. by apply keep_var.
Qed.

Lemma header_vars hs : forall env env', make_header_vars hs env r = Some (Ok env') ->
  Forall (fun h => var_set env' (env_ref (formatHeaderEnvVarKey h r))) hs.
Proof.
  induction hs as [|h hs IH]; intros env env'; simpl; [constructor|].
  intros (v & _ & Hm)%attempt_ok. constructor; [|by eapply IH].
  eapply header_keeps; [done|]. apply set_var.
Qed.

Lemma ca_keeps env tls : env_keeps env (make_ca_var env tls r).
Proof.
  intros env' Hm x. unfold make_ca_var in Hm. destruct (tls_CA tls); [|by simplify_eq].
  destruct (IsValid _); [|by simplify_eq]. apply attempt_ok in Hm as (val & _ & Hm). simplify_eq. apply keep_var.
Qed.

Lemma cert_keeps env tls : env_keeps env (make_cert_vars env tls r).
Proof.
  intros env' Hm x. unfold make_cert_vars in Hm. destruct (tls_Cert tls), (tls_Key tls); try by simplify_eq.
  destruct (_ && _); [|by simplify_eq]. apply attempt_ok in Hm as (val1 & _ & Hm).
  apply attempt_ok in Hm as (val2 & _ & Hm). simplify_eq. intros Hx. by do 2 apply keep_var.
Qed.

Lemma ca_vars env tls env' :
  make_ca_var env tls r = Some (Ok env') -> IsValid (tls_CA tls) = true ->
  var_set env' (env_ref (formatEnvVarKey tlsConfigCaVariablePrefix r)).
Proof.
  unfold make_ca_var. intros Hm Hv. destruct (tls_CA tls); [|done]. rewrite Hv in Hm.
  apply attempt_ok in Hm as (val & _ & Hm). simplify_eq. apply set_var.
Qed.

Lemma cert_vars env tls env' :
  make_cert_vars env tls r = Some (Ok env') -> IsValid (tls_Cert tls) = true -> IsValid (tls_Key tls) = true ->
  var_set env' (env_ref (formatEnvVarKey tlsConfigCertVariablePrefix r)) /\
  var_set env' (env_ref (formatEnvVarKey tlsConfigKeyVariablePrefix r)).
Proof.
  unfold make_cert_vars. intros Hm Hc Hk. destruct (tls_Cert tls); [|done]. destruct (tls_Key tls); [|done].
  rewrite Hc, Hk in Hm. apply attempt_ok in Hm as (val1 & _ & Hm). apply attempt_ok in Hm as (val2 & _ & Hm).
  simplify_eq. split; [apply keep_var|]; apply set_var.
Qed.

Lemma tls_keeps env output : env_keeps env (makeTLSEnvVar env output r).
Proof.
  intros env' Hm x Hx. unfold makeTLSEnvVar in Hm. destruct (oo_TLS output) as [t|]; [|by simplify_eq].
  apply attempt_ok in Hm as (e1 & H1 & H2). eapply cert_keeps; [done|]. by eapply ca_keeps.
Qed.

Lemma tls_vars env output env' value :
  makeTLSEnvVar env output r = Some (Ok env') -> tls_pair output ->
  Forall (var_set env') [tlsc_CertPem (tls output value r); tlsc_KeyPem (tls output value r);
                         tlsc_CAPem (tls output value r)].
Proof.
  unfold makeTLSEnvVar, tls. intros Hm Hp. destruct (oo_TLS output) as [t|] eqn:Ht; cbn.
  2:{ split_forall; by left. }
  specialize (Hp t Ht). apply attempt_ok in Hm as (e1 & H1 & H2).
  rewrite <- Hp. destruct (IsValid (tls_Cert t)) eqn:Hc.
  - destruct (cert_vars _ _ _ H2 Hc) as [Ha Hb]; [congruence|]. split_forall; try done.
    destruct (IsValid (tls_CA t)) eqn:Hca; [|by left]. eapply cert_keeps; [done|]. by eapply ca_vars.
  - split_forall; try by left.
    destruct (IsValid (tls_CA t)) eqn:Hca; [|by left]. eapply cert_keeps; [done|]. by eapply ca_vars.
Qed.

Lemma headers_vars env output :
  (isBasicAuthEnabled (oo_Authentication output) = true ->
   var_set env (env_ref (formatEnvVarKey basicAuthHeaderVariablePrefix r))) ->
  Forall (fun h => var_set env (env_ref (formatHeaderEnvVarKey h r))) (elems (oo_Headers output)) ->
  map_Forall (fun _ v => var_set env v) (headers output r).
Proof.
  intros Hb. unfold headers. set (start := if isBasicAuthEnabled _ then _ else _).
  assert (Hs : map_Forall (fun _ v => var_set env v) start).
  { subst start. destruct (isBasicAuthEnabled _); [|apply map_Forall_empty].
    apply map_Forall_singleton. by apply Hb. }
  clearbody start. revert start Hs. induction (elems _) as [|h hs IH]; intros start Hs Hf; simpl; [done|].
  apply Forall_cons in Hf as [Hh Hf]. apply IH; [|done]. by apply map_Forall_insert_2.
Qed.

Lemma endpoint_fields env output vars q value :
  var_set env (env_ref (formatEnvVarKey otlpEndpointVariablePrefix r)) ->
  Forall (var_set env) [tlsc_CertPem (tls output value r); tlsc_KeyPem (tls output value r);
                        tlsc_CAPem (tls output value r)] ->
  value = default "" (vars !! formatEnvVarKey otlpEndpointVariablePrefix r) ->
  let ex := otlpExporter output r vars q in
  Forall (var_set env) [ex_MetricsEndpoint ex; ex_TracesEndpoint ex; ex_LogsEndpoint ex; ex_Endpoint ex;
                        tlsc_CertPem (ex_TLS ex); tlsc_KeyPem (ex_TLS ex); tlsc_CAPem (ex_TLS ex)].
Proof.
  intros He Ht ->. cbn.
  assert (Hif : forall c : bool, var_set env (if c then env_ref (formatEnvVarKey otlpEndpointVariablePrefix r) else ""))
    by (intros []; [done|by left]).
  rewrite !Forall_cons in Ht. destruct Ht as (? & ? & ? & _). split_forall; try done; try apply Hif.
  destruct (_ && _); [by left|done].
Qed.

Lemma exporter_env_complete output q c env :
  OTLPExporter output r q = Some (Ok (Some c, env)) -> tls_pair output ->
  exists ex, c = COTLPExporter ex /\ exporter_vars_set env ex.
Proof.
  unfold OTLPExporter. intros Ho Hp. destruct (makeOTLPExporterEnvVars output r) as [[vars|]|] eqn:Hm; simplify_eq.
  eexists; split; [done|]. unfold makeOTLPExporterEnvVars in Hm.
  apply attempt_ok in Hm as (e1 & H1 & Hm). apply attempt_ok in Hm as (e2 & H2 & Hm).
  apply attempt_ok in Hm as (e3 & H3 & H4).
  assert (Hk : forall x, var_set e2 x -> var_set env x).
  { intros x Hx. eapply tls_keeps; [done|]. by eapply header_keeps. }
  split.
  - eapply endpoint_fields; [|by eapply tls_vars|done]. eapply Hk, endpoint_vars, H2.
  - apply headers_vars.
    + intros Hb. eapply Hk, endpoint_keeps; [done|]. by eapply basic_auth_vars.
    + eapply Forall_impl; [by eapply header_vars|]. intros h Hh. by eapply tls_keeps.
Qed.

Lemma oauth2_var env prefix v env' :
  make_oauth2_var prefix v env r = Some (Ok env') -> IsValid (Some v) = true ->
  var_set env' (env_ref (formatEnvVarKey prefix r)) /\ (forall x, var_set env x -> var_set env' x).
Proof.
  unfold make_oauth2_var. intros Hm Hv. rewrite Hv in Hm. apply attempt_ok in Hm as (x & _ & Hm).
  simplify_eq. split; [apply set_var|intros y; apply keep_var].
Qed.

Lemma oauth2_env_complete o c env :
  OAuth2Extension o r = Some (Ok (c, env)) -> oauth2_given o -> oauth2_vars_set env c.
Proof.
  unfold OAuth2Extension. intros Ho (Ht & Hi & Hs).
  destruct (makeOAuth2ExtensionEnvVars o r) as [[vars|]|] eqn:Hm; simplify_eq.
  apply attempt_ok in Hm as (e1 & H1 & Hm). apply attempt_ok in Hm as (e2 & H2 & H3).
  destruct (oauth2_var _ _ _ _ H1 Ht) as [? _]. destruct (oauth2_var _ _ _ _ H2 Hi) as [? ?].
  destruct (oauth2_var _ _ _ _ H3 Hs) as [? ?]. split_forall; auto.
Qed.

End Vars.

(** ** Names of variables *)

Lemma to_bytes_app s t : to_bytes (s +:+ t) = (to_bytes s ++ to_bytes t)%list.
Proof. unfold to_bytes. induction s as [|c s IH]; simpl; [done|]. by rewrite IH. Qed.

Lemma of_to_bytes s : of_bytes (to_bytes s) = s.
Proof. apply String.string_of_list_ascii_of_string. Qed.

Lemma to_of_bytes l : to_bytes (of_bytes l) = l.
Proof. apply String.list_ascii_of_string_of_list_ascii. Qed.

Lemma to_bytes_inj s t : to_bytes s = to_bytes t -> s = t.
Proof. intros He. by rewrite <- (of_to_bytes s), He, of_to_bytes. Qed.

(** Names without dots: lower-case letters, digits and dashes. *)
Definition label_char (c : ascii) : bool :=
  let n := nat_of_ascii c in
  ((97 <=? n) && (n <=? 122) || (48 <=? n) && (n <=? 57) || (n =? 45))%nat.

Definition label_name (s : string) : Prop := Forall (fun c => label_char c = true) (to_bytes s).

Definition sanitize_char (c : ascii) : ascii :=
  let c := upper_ascii c in
  let c := if Ascii.eqb c "."%char then "_"%char else c in
  if Ascii.eqb c "-"%char then "_"%char else c.

Lemma sanitize_char_inj c d :
  label_char c = true -> label_char d = true -> sanitize_char c = sanitize_char d -> c = d.
Proof.
  assert (Hinv : forall c, label_char c = true ->
            (if Ascii.eqb (sanitize_char c) "_"%char then "-"%char else lower_ascii (sanitize_char c)) = c).
  { intros [[] [] [] [] [] [] [] []]; by vm_compute. }
  intros Hc Hd He. by rewrite <- (Hinv c Hc), <- (Hinv d Hd), He.
Qed.

Lemma ToUpper_label l : Forall (fun c => label_char c = true) l -> ToUpper l = map upper_ascii l.
Proof.
  induction 1 as [|c l Hc Hl IH]; [done|]. destruct l as [|d l]; [done|].
  assert (Hp : forall m n, prefixb (map ascii_of_nat [196; m]) (c :: d :: l) = false /\
                           prefixb (map ascii_of_nat [197; n]) (c :: d :: l) = false).
  { intros m n. cbn. destruct c as [[] [] [] [] [] [] [] []]; done. }
  destruct (Hp 177 191) as [H1 H2].
  change (ToUpper (c :: d :: l)) with
    (if prefixb (map ascii_of_nat [196; 177]) (c :: d :: l) then ascii_of_nat 73 :: ToUpper l
     else if prefixb (map ascii_of_nat [197; 191]) (c :: d :: l) then ascii_of_nat 83 :: ToUpper l
     else upper_ascii c :: ToUpper (d :: l)).
  by rewrite H1, H2, IH.
Qed.

Lemma sanitize_label s : label_name s -> to_bytes (sanitizeEnvVarName s) = map sanitize_char (to_bytes s).
Proof.
  intros Hs. unfold sanitizeEnvVarName. rewrite to_of_bytes, ToUpper_label by done.
  unfold replace_char. rewrite !map_map. done.
Qed.

Lemma sanitize_inj s t :
  label_name s -> label_name t -> sanitizeEnvVarName s = sanitizeEnvVarName t -> s = t.
Proof.
  intros Hs Ht He. apply to_bytes_inj. apply (f_equal to_bytes) in He.
  rewrite !sanitize_label in He by done. revert He.
  unfold label_name in Hs, Ht. revert Ht. induction Hs as [|c l Hc _ IH] in t |- *.
  - destruct (to_bytes t); [done|]. done.
  - intros Ht. generalize (to_bytes t), Ht. clear Ht t. intros [|d m]; [done|].
    intros Hm. apply Forall_cons in Hm as [Hd Hm]. simpl. intros [= H1 H2].
    f_equal; [by apply sanitize_char_inj|]. specialize (IH (of_bytes m)). rewrite to_of_bytes in IH.
    by apply IH.
Qed.

Definition variable_prefixes : list string :=
  [basicAuthHeaderVariablePrefix; otlpEndpointVariablePrefix; tlsConfigCertVariablePrefix;
   tlsConfigKeyVariablePrefix; tlsConfigCaVariablePrefix; oauth2TokenURLVariablePrefix;
   oauth2ClientIDVariablePrefix; oauth2ClientSecretVariablePrefix].

Lemma formatEnvVarKey_eq p r :
  formatEnvVarKey p r =
    p +:+ "_" +:+ sanitizeEnvVarName (TypePrefix r) +:+ "_" +:+ sanitizeEnvVarName (pref_name r).
Proof. unfold formatEnvVarKey. by destruct r as [n []]. Qed.

(** Variables with different prefixes have different names. *)
Lemma variable_prefix_distinct p q r s :
  p ∈ variable_prefixes -> q ∈ variable_prefixes -> formatEnvVarKey p r = formatEnvVarKey q s -> p = q.
Proof.
  intros Hp Hq. rewrite !formatEnvVarKey_eq.
  assert (Hpq : p = q \/ forall x y, p +:+ "_" +:+ x <> q +:+ "_" +:+ y).
  { unfold variable_prefixes in *. rewrite !elem_of_cons, elem_of_nil in Hp, Hq.
    repeat (destruct Hp as [->|Hp]; [repeat (destruct Hq as [->|Hq]; [by auto|]); done|]). done. }
  destruct Hpq as [->|Hne]; [done|]. intros He. by apply Hne in He.
Qed.

(** Variables of pipelines without dots in their names are told apart by the name of the
    variable. *)
Lemma variable_names_distinct p r s :
  label_name (pref_name r) -> label_name (pref_name s) -> formatEnvVarKey p r = formatEnvVarKey p s -> r = s.
Proof.
  intros Hr Hs. rewrite !formatEnvVarKey_eq. destruct r as [n t], s as [m u]. cbn [pref_name] in *.
  intros He%append_cancel.
  assert (Htu : t = u /\ sanitizeEnvVarName n = sanitizeEnvVarName m).
  { destruct t, u; cbn in He; (discriminate He || (split; [done|by injection He])). }
  destruct Htu as [-> Hnm]. f_equal. by apply sanitize_inj.
Qed.

(** The name of a header variable starts differently. *)
Lemma header_variable_distinct p r h s : p ∈ variable_prefixes -> formatEnvVarKey p r <> formatHeaderEnvVarKey h s.
Proof.
  intros Hp. rewrite formatEnvVarKey_eq. unfold formatHeaderEnvVarKey. destruct s as [m []]; cbn [negb str_eqb];
  unfold variable_prefixes in Hp; rewrite !elem_of_cons, elem_of_nil in Hp;
    repeat (destruct Hp as [->|Hp]; [done|]); done.
Qed.


(** ** The endpoint variable *)

(** [o] assigns no endpoint variable. *)
Definition leaves_endpoints (env : EnvVars) (o : option (result EnvVars goerror)) : Prop :=
  forall env' s, o = Some (Ok env') ->
    env' !! formatEnvVarKey otlpEndpointVariablePrefix s = env !! formatEnvVarKey otlpEndpointVariablePrefix s.

Section EndpointVariable.
Context `{SecretReader} `{URLOps} (r : PipelineRef).

Lemma other_prefix (env : EnvVars) p v s :
  p ∈ variable_prefixes -> p <> otlpEndpointVariablePrefix ->
  <[formatEnvVarKey p r := v]> env !! formatEnvVarKey otlpEndpointVariablePrefix s =
  env !! formatEnvVarKey otlpEndpointVariablePrefix s.
Proof.
  intros Hp Hne. apply lookup_insert_ne. intros He. apply Hne. eapply variable_prefix_distinct; [done| |done].
  by apply (bool_decide_unpack _).
Qed.

Tactic Notation "other_variable" := apply other_prefix; [by apply (bool_decide_unpack _)|done].

Lemma basic_auth_endpoints env output : leaves_endpoints env (makeBasicAuthEnvVar env output r).
Proof.
  intros env' s. unfold makeBasicAuthEnvVar. destruct (_ ≫= ao_Basic); [|by intros [= <-]].
  destruct (isBasicAuthEnabled _); [|by intros [= <-]]. intros (u & _ & Hm)%attempt_ok.
  apply attempt_ok in Hm as (p & _ & Hm). simplify_eq. other_variable.
Qed.

Lemma header_endpoints hs : forall env, leaves_endpoints env (make_header_vars hs env r).
Proof.
  induction hs as [|h hs IH]; intros env env' s; simpl; [by intros [= <-]|].
  intros (v & _ & Hm)%attempt_ok. rewrite (IH _ _ _ Hm). apply lookup_insert_ne. intros He.
  symmetry in He. revert He. apply header_variable_distinct. by apply (bool_decide_unpack _).
Qed.

Lemma tls_endpoints env output : leaves_endpoints env (makeTLSEnvVar env output r).
Proof.
  intros env' s. unfold makeTLSEnvVar. destruct (oo_TLS output) as [t|]; [|by intros [= <-]].
  intros (e1 & H1 & H2)%attempt_ok. trans (e1 !! formatEnvVarKey otlpEndpointVariablePrefix s).
  - unfold make_cert_vars in H2. destruct (tls_Cert t), (tls_Key t); try by simplify_eq.
    destruct (_ && _); [|by simplify_eq]. apply attempt_ok in H2 as (c & _ & H2).
    apply attempt_ok in H2 as (k & _ & H2). simplify_eq.
    rewrite other_prefix; [|by apply (bool_decide_unpack _)|done]. other_variable.
  - unfold make_ca_var in H1. destruct (tls_CA t); [|by simplify_eq]. destruct (IsValid _); [|by simplify_eq].
    apply attempt_ok in H1 as (c & _ & H1). simplify_eq. other_variable.
Qed.

(** The only endpoint variable among the variables of an exporter is its own. *)
Lemma exporter_endpoint_var output vars :
  makeOTLPExporterEnvVars output r = Some (Ok vars) ->
  exists endpoint, resolveEndpointURL output = Some (Ok endpoint) /\
    vars !! formatEnvVarKey otlpEndpointVariablePrefix r = Some endpoint /\
    forall s, formatEnvVarKey otlpEndpointVariablePrefix s <> formatEnvVarKey otlpEndpointVariablePrefix r ->
      vars !! formatEnvVarKey otlpEndpointVariablePrefix s = None.
Proof.
  unfold makeOTLPExporterEnvVars. intros (e1 & H1 & Hm)%attempt_ok. apply attempt_ok in Hm as (e2 & H2 & Hm).
  apply attempt_ok in Hm as (e3 & H3 & H4). unfold makeOTLPEndpointEnvVar in H2.
  apply attempt_ok in H2 as (u & Hu & H2). simplify_eq. exists u. split; [done|].
  split; [|intros s Hs]; rewrite (tls_endpoints _ _ _ _ H4), (header_endpoints _ _ _ _ H3).
  - apply lookup_insert_eq.
  - rewrite lookup_insert_ne by congruence. by rewrite (basic_auth_endpoints _ _ _ _ H1).
Qed.

Lemma oauth2_endpoints o c env s :
  OAuth2Extension o r = Some (Ok (c, env)) -> env !! formatEnvVarKey otlpEndpointVariablePrefix s = None.
Proof.
  unfold OAuth2Extension. destruct (makeOAuth2ExtensionEnvVars o r) as [[vars|]|] eqn:Hm; intros; simplify_eq.
  apply attempt_ok in Hm as (e1 & H1 & Hm). apply attempt_ok in Hm as (e2 & H2 & H3).
  assert (Hv : forall p v e, p ∈ variable_prefixes -> p <> otlpEndpointVariablePrefix ->
                             leaves_endpoints e (make_oauth2_var p v e r)).
  { intros p v e Hp Hne env' s' He. unfold make_oauth2_var in He. destruct (IsValid _); [|by simplify_eq].
    apply attempt_ok in He as (x & _ & He). simplify_eq. by apply other_prefix. }
  rewrite (Hv oauth2ClientSecretVariablePrefix _ _ ltac:(by apply (bool_decide_unpack _)) ltac:(done) _ _ H3).
  rewrite (Hv oauth2ClientIDVariablePrefix _ _ ltac:(by apply (bool_decide_unpack _)) ltac:(done) _ _ H2).
  by rewrite (Hv oauth2TokenURLVariablePrefix _ _ ltac:(by apply (bool_decide_unpack _)) ltac:(done) _ _ H1).
Qed.

End EndpointVariable.
