(* ===== verification/GatewayConfigProps.v ===== *)
(** * Properties of the gateway configuration

    The configuration [Build] returns is closed; its service pipelines are exactly those
    of the pipelines it was called for; each exporter and each user-defined processor
    belongs to its own pipeline; the order of the pipelines in the input does not
    matter. *)
From stdpp Require Import base gmap strings list sorting.
From Stdlib Require Import Ascii.
From S2P Require Import Prelude Kube GoErrors GoStrings.
From S2P Require Import ApiV1beta1 SecretRef MetricInputs Coordination.
From S2P Require Import CollectorTypes CollectorBuilder CollectorBuilderProps CollectorProcessors.
From S2P Require Import CollectorExporter CollectorExporterProps GatewayConfig.
Local Open Scope string_scope.

(** A statement about each component of a pipeline, from the lemmas for receivers,
    processors and exporters. *)
Tactic Notation "each_component" uconstr(hr) uconstr(hp) uconstr(he) :=
  unfold trace_components, log_components, metric_input_otlp, metric_input_kyma, metric_enrichment,
    metric_output_components; cbn [app];
  split_forall; first [apply hr | apply hp | apply he].

(** ** Invariants of the whole construction *)

Section Invariants.
Context `{SecretReader} `{URLOps}.

(** What an invariant has to satisfy to hold of the result of [Build], next to holding of
    the empty configuration: every step keeps it. *)
Record build_invariant (I : builder -> Prop) (opts : BuildOptions) : Prop := {
  bi_empty : forall id b, I b -> I (mkBuilder (set_pipeline (b_Config b) id empty_pipeline) (b_EnvVars b));
  bi_extension : forall id x b, I b -> I (AddExtension id x ∅ b);
  bi_trace_oauth2 : forall p, p ∈ bo_TracePipelines opts -> preserves I (addTraceOAuth2Extension p);
  bi_log_oauth2 : forall p, p ∈ bo_LogPipelines opts -> preserves I (addLogOAuth2Extension p);
  bi_metric_oauth2 : forall p, p ∈ bo_MetricPipelines opts -> preserves I (addMetricOAuth2Extension p);
  bi_trace : forall p id q, p ∈ bo_TracePipelines opts ->
    Forall (fun f => preserves I (f p id)) (trace_components opts q);
  bi_log : forall p id q, p ∈ bo_LogPipelines opts ->
    Forall (fun f => preserves I (f p id)) (log_components opts q);
  bi_metric_shared : forall id,
    Forall (fun f => preserves I (f None id)) (metric_input_otlp ++ metric_input_kyma ++ metric_enrichment opts);
  bi_metric : forall p id q, p ∈ bo_MetricPipelines opts ->
    Forall (fun f => preserves I (f (Some p) id)) (metric_output_components q)
}.

Lemma for_each_preserves {P} I (f : P -> builder -> outcome) ps :
  (forall p, p ∈ ps -> preserves I (f p)) -> preserves I (for_each f ps).
Proof.
  induction ps as [|p ps IH]; intros Hf b b' Hb; cbn [for_each]; [by intros [= <-]|].
  intros (b1 & H1 & H2)%andThen_ok. eapply IH; [|by eapply (Hf p); [left|..]|done].
  intros q Hq. apply Hf. by right.
Qed.

Section Phases.
Context (I : builder -> Prop) (opts : BuildOptions) (Hi : build_invariant I opts).

Lemma build_trace_preserves : preserves I (buildTracePipelines opts).
Proof.
  unfold buildTracePipelines. destruct (_ =? _)%nat; [by intros b b' Hb [= <-]|].
  apply for_each_preserves. intros p Hp. apply preserves_andThen; [by apply Hi|].
  apply preserves_wrap, preserves_pipeline; by apply Hi.
Qed.

Lemma build_log_preserves : preserves I (buildLogPipelines opts).
Proof.
  unfold buildLogPipelines. destruct (_ =? _)%nat; [by intros b b' Hb [= <-]|].
  apply for_each_preserves. intros p Hp. apply preserves_andThen; [by apply Hi|].
  apply preserves_wrap, preserves_pipeline; by apply Hi.
Qed.

Lemma build_metric_preserves : preserves I (buildMetricPipelines opts).
Proof.
  unfold buildMetricPipelines. destruct (_ =? _)%nat; [by intros b b' Hb [= <-]|].
  intros b b' Hb. pose proof (fun id => bi_metric_shared I opts Hi id) as Hs.
  assert (Hs1 : forall id, Forall (fun f => preserves I (f None id)) metric_input_otlp)
    by (intros id; specialize (Hs id); rewrite !Forall_app in Hs; tauto).
  assert (Hs2 : forall id, Forall (fun f => preserves I (f None id)) metric_input_kyma)
    by (intros id; specialize (Hs id); rewrite !Forall_app in Hs; tauto).
  assert (Hs3 : forall id, Forall (fun f => preserves I (f None id)) (metric_enrichment opts))
    by (intros id; specialize (Hs id); rewrite !Forall_app in Hs; tauto).
  apply (bi_extension I opts Hi ComponentIDK8sLeaderElectorExtension
    (CLeaderElector (mkLeaderElector "serviceAccount" K8sLeaderElectorKymaStats (bo_GatewayNamespace opts)))) in Hb.
  revert Hb. generalize (AddExtension ComponentIDK8sLeaderElectorExtension
    (CLeaderElector (mkLeaderElector "serviceAccount" K8sLeaderElectorKymaStats (bo_GatewayNamespace opts))) ∅ b).
  clear b. intros b Hb.
  intros (b1 & H1%wrap_err_ok & H2)%andThen_ok. apply andThen_ok in H2 as (b2 & H2%wrap_err_ok & H3).
  apply andThen_ok in H3 as (b3 & H3%wrap_err_ok & H4).
  apply preserves_pipeline with (I := I) in H1; [|apply Hi|apply Hs1|done].
  apply preserves_pipeline with (I := I) in H2; [|apply Hi|apply Hs2|done].
  apply preserves_pipeline with (I := I) in H3; [|apply Hi|apply Hs3|done].
  revert H4. apply for_each_preserves; [|done]. intros p Hp. apply preserves_andThen; [by apply Hi|].
  apply preserves_wrap, preserves_pipeline; by apply Hi.
Qed.

End Phases.

Lemma sort_by_name_perm {P} (name : P -> string) ps : sort_by_name name ps ≡ₚ ps.
Proof. apply merge_sort_Permutation. Qed.

Lemma elem_of_sort {P} (name : P -> string) ps p : p ∈ sort_by_name name ps <-> p ∈ ps.
Proof. by rewrite sort_by_name_perm. Qed.

(** Sorting does not change which pipelines there are. *)
Lemma build_invariant_sort I opts : build_invariant I opts -> build_invariant I (sortPipelinesByName opts).
Proof.
  intros [? ? Ht Hl Hm Ht' Hl' Hs Hm']. split; try done; cbn.
  1-3: intros p; rewrite elem_of_sort; auto.
  - intros p id q. rewrite elem_of_sort. apply Ht'.
  - intros p id q. rewrite elem_of_sort. apply Hl'.
  - intros p id q. rewrite elem_of_sort. apply Hm'.
Qed.

Lemma Build_invariant (I : builder -> Prop) opts b :
  I (mkBuilder NewConfig ∅) -> build_invariant I opts -> Build opts = Some (Ok b) -> I b.
Proof.
  intros Hstart Hi%build_invariant_sort. unfold Build. intros (b1 & H1 & H2)%andThen_ok.
  apply andThen_ok in H2 as (b2 & H2 & H3).
  eapply build_metric_preserves; [done| |done]. eapply build_log_preserves; [done| |done].
  by eapply build_trace_preserves.
Qed.

Lemma add_oauth2_preserves I name o r :
  (forall id x env b, OAuth2Extension o r = Some (Ok (x, env)) -> I b -> I (AddExtension id (COAuth2 x) env b)) ->
  preserves I (add_oauth2_extension name o r).
Proof.
  intros Hx b b' Hb. unfold add_oauth2_extension. destruct (OAuth2Extension o r) as [[[x env]|]|] eqn:Ho; [|done..].
  intros [= <-]. eauto.
Qed.

(** The OAuth2 extension of any of the three kinds of pipelines. *)
Lemma oauth2_preserves I name output r :
  (forall o id x env b, output ≫= (fun v => oo_Authentication v ≫= ao_OAuth2) = Some o ->
     OAuth2Extension o r = Some (Ok (x, env)) -> I b -> I (AddExtension id (COAuth2 x) env b)) ->
  preserves I (fun b => oauth2 ← oauth2_of output;
                        match oauth2 with None => Some (Ok b) | Some o => add_oauth2_extension name o r b end).
Proof.
  intros Hx b b' Hb. unfold oauth2_of. destruct output as [v|]; simpl; [|done].
  destruct (oo_Authentication v ≫= ao_OAuth2) as [o|] eqn:Ho; [|by intros [= <-]].
  apply add_oauth2_preserves; [|done]. intros. eapply Hx; [|done..]. done.
Qed.

(** ** The configuration is closed *)

Lemma closed_invariant opts : build_invariant closed_builder opts.
Proof.
  split.
  - intros id b Hb. by apply closed_set_pipeline.
  - intros. by apply AddExtension_closed.
  - intros p _. apply oauth2_preserves. intros. by apply AddExtension_closed.
  - intros p _. apply oauth2_preserves. intros. by apply AddExtension_closed.
  - intros p _. apply oauth2_preserves. intros. by apply AddExtension_closed.
  - intros. each_component @AddReceiver_closed @AddProcessor_closed @AddExporter_closed.
  - intros. each_component @AddReceiver_closed @AddProcessor_closed @AddExporter_closed.
  - intros. each_component @AddReceiver_closed @AddProcessor_closed @AddExporter_closed.
  - intros. each_component @AddReceiver_closed @AddProcessor_closed @AddExporter_closed.
Qed.

Lemma Build_closed opts b : Build opts = Some (Ok b) -> closed (b_Config b).
Proof. apply (Build_invariant closed_builder); [apply NewConfig_closed|apply closed_invariant]. Qed.

End Invariants.

(** ** The service pipelines *)

(** A component that is there under a condition. *)
Definition when (c : bool) (id : ComponentID) : list ComponentID := if c then [id] else [].

Definition exporter_ids (output : option OTLPOutput) (r : PipelineRef) : list ComponentID :=
  match output with Some o => [ComponentIDOTLPExporter (oo_Protocol o) r] | None => [] end.

Definition trace_service_pipeline (opts : BuildOptions) (tp : TracePipeline) : ServicePipeline :=
  let otel := otel_enrichment opts in
  mkServicePipeline [ComponentIDOTLPReceiver]
    ([ComponentIDMemoryLimiterProcessor]
     ++ when otel ComponentIDDropIstioServiceEnrichmentProcessor
     ++ when otel ComponentIDDropUnknownServiceNameProcessor
     ++ [ComponentIDK8sAttributesProcessor]
     ++ when otel ComponentIDRestoreOtelServiceAttrsProcessor
     ++ [ComponentIDIstioNoiseFilterProcessor; ComponentIDInsertClusterAttributesProcessor]
     ++ when (negb otel) ComponentIDServiceEnrichmentProcessor
     ++ [ComponentIDDropKymaAttributesProcessor]
     ++ when (negb (slen (tps_Transforms (tp_Spec tp)) =? 0)%nat)
          (ComponentIDUserDefinedTransformProcessor (TracePipelineRef tp))
     ++ when (negb (is_nil (tps_Filters (tp_Spec tp)))) (ComponentIDUserDefinedFilterProcessor (TracePipelineRef tp))
     ++ [ComponentIDBatchProcessor])%list
    (exporter_ids (trace_output tp) (TracePipelineRef tp)).

(** The OTLP input of a pipeline is restricted to some namespaces. *)
Definition namespace_filtered (otlp : option OTLPInput) : bool :=
  IsOTLPInputEnabled otlp && shouldFilterByNamespace (otlp ≫= oi_Namespaces).

Definition log_service_pipeline (opts : BuildOptions) (lp : LogPipeline) : ServicePipeline :=
  let otel := otel_enrichment opts in
  let otlp := li_OTLP (ls_Input (lp_Spec lp)) in
  mkServicePipeline [ComponentIDOTLPReceiver]
    ([ComponentIDMemoryLimiterProcessor; ComponentIDSetObservedTimeIfZeroProcessor]
     ++ when otel ComponentIDDropUnknownServiceNameProcessor
     ++ [ComponentIDK8sAttributesProcessor]
     ++ when otel ComponentIDRestoreOtelServiceAttrsProcessor
     ++ [ComponentIDIstioNoiseFilterProcessor]
     ++ when (negb (IsOTLPInputEnabled otlp)) ComponentIDDropIfInputSourceOTLPProcessor
     ++ when (namespace_filtered otlp) (ComponentIDNamespaceFilterProcessor (log_name lp))
     ++ [ComponentIDInsertClusterAttributesProcessor]
     ++ when (negb otel) ComponentIDServiceEnrichmentProcessor
     ++ [ComponentIDDropKymaAttributesProcessor; ComponentIDIstioEnrichmentProcessor]
     ++ when (negb (slen (ls_Transforms (lp_Spec lp)) =? 0)%nat)
          (ComponentIDUserDefinedTransformProcessor (LogPipelineRef lp))
     ++ when (negb (is_nil (ls_Filters (lp_Spec lp)))) (ComponentIDUserDefinedFilterProcessor (LogPipelineRef lp))
     ++ [ComponentIDBatchProcessor])%list
    (exporter_ids (log_output lp) (LogPipelineRef lp)).

(** The pipelines all MetricPipelines share. *)
Definition metric_shared_pipelines (opts : BuildOptions) : list (string * ServicePipeline) :=
  let otel := otel_enrichment opts in
  [("metrics/input-otlp",
     mkServicePipeline [ComponentIDOTLPReceiver] [ComponentIDSetKymaInputNameOTLPProcessor] [ComponentIDInputConnector]);
   ("metrics/input-kyma-stats",
     mkServicePipeline [ComponentIDKymaStatsReceiver] [ComponentIDSetKymaInputNameKymaProcessor]
       [ComponentIDInputConnector]);
   ("metrics/enrichment",
     mkServicePipeline [ComponentIDInputConnector]
       ([ComponentIDMemoryLimiterProcessor; ComponentIDSetInstrumentationScopeKymaProcessor]
        ++ when otel ComponentIDDropUnknownServiceNameProcessor
        ++ [ComponentIDK8sAttributesProcessor]
        ++ when otel ComponentIDRestoreOtelServiceAttrsProcessor
        ++ when (negb otel) ComponentIDServiceEnrichmentProcessor
        ++ [ComponentIDInsertClusterAttributesProcessor])%list
       [ComponentIDEnrichmentConnector])].

Definition metric_service_pipeline (mp : MetricPipeline) : ServicePipeline :=
  let otlp := mi_OTLP (ms_Input (mp_Spec mp)) in
  mkServicePipeline [ComponentIDEnrichmentConnector]
    (when (negb (IsOTLPInputEnabled otlp)) ComponentIDDropIfInputSourceOTLPProcessor
     ++ when (namespace_filtered otlp)
          (ComponentIDNamespacePerInputFilterProcessor (metric_name mp) InputSourceOTLP)
     ++ [ComponentIDDropKymaAttributesProcessor]
     ++ when (negb (slen (ms_Transforms (mp_Spec mp)) =? 0)%nat)
          (ComponentIDUserDefinedTransformProcessor (MetricPipelineRef mp))
     ++ when (negb (is_nil (ms_Filters (mp_Spec mp)))) (ComponentIDUserDefinedFilterProcessor (MetricPipelineRef mp))
     ++ when (bool_decide (IsDeltaTemporality (ms_Output (mp_Spec mp)) = Some true))
          ComponentIDCumulativeToDeltaProcessor
     ++ [ComponentIDBatchProcessor])%list
    (exporter_ids (metric_output mp) (MetricPipelineRef mp)).

Definition gateway_pipelines (opts : BuildOptions) : list (string * ServicePipeline) :=
  (map (fun tp => (formatTraceServicePipelineID tp, trace_service_pipeline opts tp)) (bo_TracePipelines opts)
   ++ map (fun lp => (formatLogServicePipelineID lp, log_service_pipeline opts lp)) (bo_LogPipelines opts)
   ++ (if (length (bo_MetricPipelines opts) =? 0)%nat then [] else metric_shared_pipelines opts)
   ++ map (fun mp => (formatMetricOutputServicePipelineID mp, metric_service_pipeline mp))
        (bo_MetricPipelines opts))%list.

Section Shapes.
Context `{SecretReader} `{URLOps}.

Lemma exporter_adds {T} idf cf (t : T) ids :
  (forall c env, cf t = Some (Ok (c, env)) -> exists x i, c = Some x /\ idf t = Some i /\ ids = [i]) ->
  adds (AddExporter idf cf) t (mkServicePipeline [] [] ids).
Proof.
  intros He id b b' Hid Hb. pose proof Hb as Ha. apply AddExporter_adds in Ha; [|done]. rewrite Ha.
  unfold AddExporter in Hb. destruct (cf t) as [[[c env]|]|] eqn:Hc; try done.
  destruct (He c env) as (x & i & -> & Hi & ->); [done|]. unfold on_component. by rewrite Hi.
Qed.

Lemma otlp_exporter_some output r q c env :
  OTLPExporter output r q = Some (Ok (c, env)) -> exists x, c = Some x.
Proof. unfold OTLPExporter. destruct (makeOTLPExporterEnvVars output r) as [[]|]; naive_solver. Qed.

(** The list of what the components of a pipeline append. *)
Tactic Notation "adds_list" :=
  eexists; split;
  [repeat (apply Forall2_cons; split; [first [apply AddReceiver_adds | apply AddProcessor_adds | idtac]|]);
   try apply Forall2_nil_2|].

Lemma trace_components_adds opts q tp :
  exists ds, Forall2 (fun f d => adds f tp d) (trace_components opts q) ds /\
    pipe_concat ds = trace_service_pipeline opts tp.
Proof.
  adds_list.
  { apply (exporter_adds _ _ _ (exporter_ids (trace_output tp) (TracePipelineRef tp))).
    intros c env. unfold formatTraceOTLPExporterID, exporter_ids. destruct (trace_output tp) as [o|]; simpl; [|done].
    intros Ho. destruct (otlp_exporter_some _ _ _ _ _ Ho) as [x ->]. eauto. }
  unfold trace_service_pipeline, const_config, if_otel, serviceEnrichmentProcessorConfig, exporter_ids.
  destruct (trace_output tp), (otel_enrichment opts), (slen _ =? 0)%nat, (is_nil _); reflexivity.
Qed.

Lemma namespace_config {A} (otlp : option OTLPInput) (f : NamespaceSelector -> A) :
  (match otlp with
   | None => None
   | Some i => if negb (IsOTLPInputEnabled (Some i)) || negb (shouldFilterByNamespace (oi_Namespaces i)) then None
               else f <$> oi_Namespaces i
   end) = (if namespace_filtered otlp then f <$> (otlp ≫= oi_Namespaces) else None).
Proof.
  unfold namespace_filtered. destruct otlp as [i|]; [|done]. simpl.
  destruct (deref (oi_Enabled i) true), (shouldFilterByNamespace _) eqn:Hs; done.
Qed.

Lemma namespace_filtered_some otlp : namespace_filtered otlp = true -> exists s, otlp ≫= oi_Namespaces = Some s.
Proof.
  unfold namespace_filtered. intros [_ Hs]%andb_prop. destruct (otlp ≫= oi_Namespaces) as [s|]; [eauto|done].
Qed.

Lemma log_components_adds opts q lp :
  exists ds, Forall2 (fun f d => adds f lp d) (log_components opts q) ds /\
    pipe_concat ds = log_service_pipeline opts lp.
Proof.
  adds_list.
  { apply (exporter_adds _ _ _ (exporter_ids (log_output lp) (LogPipelineRef lp))).
    intros c env. unfold formatLogOTLPExporterID, exporter_ids. destruct (log_output lp) as [o|]; simpl; [|done].
    intros Ho. destruct (otlp_exporter_some _ _ _ _ _ Ho) as [x ->]. eauto. }
  cbv beta. rewrite namespace_config.
  unfold log_service_pipeline, const_config, if_otel, serviceEnrichmentProcessorConfig, exporter_ids.
  destruct (namespace_filtered _) eqn:Hn.
  - apply namespace_filtered_some in Hn as [s ->].
    destruct (log_output lp), (otel_enrichment opts), (IsOTLPInputEnabled _), (slen _ =? 0)%nat, (is_nil _);
      reflexivity.
  - destruct (log_output lp), (otel_enrichment opts), (IsOTLPInputEnabled _), (slen _ =? 0)%nat, (is_nil _); reflexivity.
Qed.

Lemma metric_components_adds q mp :
  exists ds, Forall2 (fun f d => adds f (Some mp) d) (metric_output_components q) ds /\
    pipe_concat ds = metric_service_pipeline mp.
Proof.
  adds_list.
  { apply (exporter_adds _ _ _ (exporter_ids (metric_output mp) (MetricPipelineRef mp))).
    intros c env. unfold formatMetricOTLPExporterID, exporter_ids. simpl.
    destruct (metric_output mp) as [o|]; simpl; [|done].
    intros Ho. destruct (otlp_exporter_some _ _ _ _ _ Ho) as [x ->]. eauto. }
  cbv beta. cbn [mbind option_bind]. set (otlp := mi_OTLP (ms_Input (mp_Spec mp))).
  assert (Hn : (if negb (IsOTLPInputEnabled otlp) then None
     else match otlp with
          | None => None
          | Some o => if negb (shouldFilterByNamespace (oi_Namespaces o)) then None
                      else (fun s => CFilter (metricFilterByNamespaceProcessorConfig s)) <$> oi_Namespaces o
          end) = (if namespace_filtered otlp
                  then (fun s => CFilter (metricFilterByNamespaceProcessorConfig s)) <$> (otlp ≫= oi_Namespaces)
                  else None)).
  { rewrite <- namespace_config. destruct otlp as [i|]; [|done].
    by destruct (IsOTLPInputEnabled _), (shouldFilterByNamespace _). }
  rewrite Hn. clear Hn. unfold metric_service_pipeline, const_config, exporter_ids. fold otlp.
  destruct (namespace_filtered otlp) eqn:Hn; [apply namespace_filtered_some in Hn as [s ->]|];
    destruct (IsDeltaTemporality _) as [[]|], (metric_output mp), (IsOTLPInputEnabled _), (slen _ =? 0)%nat,
      (is_nil _); reflexivity.
Qed.

Lemma metric_shared_adds opts :
  exists d1 d2 d3,
    Forall2 (fun f d => adds f None d) metric_input_otlp d1 /\
    Forall2 (fun f d => adds f None d) metric_input_kyma d2 /\
    Forall2 (fun f d => adds f None d) (metric_enrichment opts) d3 /\
    metric_shared_pipelines opts =
      [("metrics/input-otlp", pipe_concat d1); ("metrics/input-kyma-stats", pipe_concat d2);
       ("metrics/enrichment", pipe_concat d3)].
Proof.
  do 3 eexists. split; [|split; [|split]].
  1-3: repeat (apply Forall2_cons; split;
                 [first [apply AddReceiver_adds | apply AddProcessor_adds | apply AddExporter_adds]|]);
    apply Forall2_nil_2.
  unfold metric_shared_pipelines, const_config, if_otel, serviceEnrichmentProcessorConfig.
  by destruct (otel_enrichment opts).
Qed.

(** ** Folding the phases *)

(** The pipelines after the pipelines of a list were added in turn. *)
Definition add_pipelines (m : gmap string ServicePipeline) (l : list (string * ServicePipeline)) :=
  fold_left (fun m e => <[e.1 := e.2]> m) l m.

Lemma add_pipelines_app m l k : add_pipelines m (l ++ k) = add_pipelines (add_pipelines m l) k.
Proof. apply fold_left_app. Qed.

Lemma add_pipelines_list l : NoDup l.*1 -> forall m, add_pipelines m l = list_to_map l ∪ m.
Proof.
  induction l as [|[i p] l IH]; intros Hn m; cbn -[union]; [by rewrite (left_id_L ∅ (∪))|].
  apply NoDup_cons in Hn as [Hi Hn]. unfold add_pipelines in IH. rewrite IH by done.
  rewrite <- insert_union_r, insert_union_l; [done|]. by apply not_elem_of_list_to_map_1.
Qed.

(** The OAuth2 extension of a pipeline leaves the service pipelines as they are. *)
Lemma oauth2_pipelines name output r b b' :
  (oauth2 ← oauth2_of output;
   match oauth2 with None => Some (Ok b) | Some o => add_oauth2_extension name o r b end) = Some (Ok b') ->
  pipelines_of (b_Config b') = pipelines_of (b_Config b).
Proof.
  intros Hb. revert b b' Hb. assert (Hp : forall m, preserves (fun b => pipelines_of (b_Config b) = m)
    (fun b => oauth2 ← oauth2_of output;
     match oauth2 with None => Some (Ok b) | Some o => add_oauth2_extension name o r b end)).
  { intros m. apply oauth2_preserves. intros o id x env b _ _ <-. unfold AddExtension. by case_bool_decide. }
  intros b b' Hb. by eapply Hp.
Qed.

Lemma for_each_pipelines {P} (f : P -> builder -> outcome) (e : P -> string * ServicePipeline) ps :
  (forall p b b', f p b = Some (Ok b') ->
     pipelines_of (b_Config b') = <[(e p).1 := (e p).2]> (pipelines_of (b_Config b))) ->
  forall b b', for_each f ps b = Some (Ok b') ->
    pipelines_of (b_Config b') = add_pipelines (pipelines_of (b_Config b)) (map e ps).
Proof.
  intros Hf. induction ps as [|p ps IH]; intros b b'; cbn [for_each map]; [by intros [= <-]|].
  intros (b1 & H1 & H2)%andThen_ok. rewrite (IH _ _ H2), (Hf _ _ _ H1). done.
Qed.

Lemma buildTrace_pipelines opts b b' :
  buildTracePipelines opts b = Some (Ok b') ->
  pipelines_of (b_Config b') = add_pipelines (pipelines_of (b_Config b))
    (map (fun tp => (formatTraceServicePipelineID tp, trace_service_pipeline opts tp)) (bo_TracePipelines opts)).
Proof.
  unfold buildTracePipelines. destruct (bo_TracePipelines opts) as [|p ps]; [by intros [= <-]|]. cbn [length Nat.eqb].
  apply for_each_pipelines. clear b b'. intros tp b b' (b1 & H1 & H2%wrap_err_ok)%andThen_ok.
  destruct (trace_components_adds opts (queue_size (p :: ps)) tp) as (ds & Hf & <-).
  rewrite (AddServicePipeline_adds _ _ _ _ _ _ Hf H2). f_equal. by eapply oauth2_pipelines.
Qed.

Lemma buildLog_pipelines opts b b' :
  buildLogPipelines opts b = Some (Ok b') ->
  pipelines_of (b_Config b') = add_pipelines (pipelines_of (b_Config b))
    (map (fun lp => (formatLogServicePipelineID lp, log_service_pipeline opts lp)) (bo_LogPipelines opts)).
Proof.
  unfold buildLogPipelines. destruct (bo_LogPipelines opts) as [|p ps]; [by intros [= <-]|]. cbn [length Nat.eqb].
  apply for_each_pipelines. clear b b'. intros lp b b' (b1 & H1 & H2%wrap_err_ok)%andThen_ok.
  destruct (log_components_adds opts (queue_size (p :: ps)) lp) as (ds & Hf & <-).
  rewrite (AddServicePipeline_adds _ _ _ _ _ _ Hf H2). f_equal. by eapply oauth2_pipelines.
Qed.

Lemma buildMetric_pipelines opts b b' :
  buildMetricPipelines opts b = Some (Ok b') ->
  pipelines_of (b_Config b') = add_pipelines (pipelines_of (b_Config b))
    ((if (length (bo_MetricPipelines opts) =? 0)%nat then [] else metric_shared_pipelines opts)
     ++ map (fun mp => (formatMetricOutputServicePipelineID mp, metric_service_pipeline mp))
          (bo_MetricPipelines opts)).
Proof.
  unfold buildMetricPipelines. destruct (bo_MetricPipelines opts) as [|p ps]; [by intros [= <-]|].
  cbn [length Nat.eqb]. destruct (metric_shared_adds opts) as (d1 & d2 & d3 & Hd1 & Hd2 & Hd3 & ->).
  intros (b1 & H1%wrap_err_ok & H2)%andThen_ok. apply andThen_ok in H2 as (b2 & H2%wrap_err_ok & H3).
  apply andThen_ok in H3 as (b3 & H3%wrap_err_ok & H4).
  apply (AddServicePipeline_adds _ _ _ _ _ _ Hd1) in H1. apply (AddServicePipeline_adds _ _ _ _ _ _ Hd2) in H2.
  apply (AddServicePipeline_adds _ _ _ _ _ _ Hd3) in H3.
  rewrite add_pipelines_app. eapply for_each_pipelines in H4.
  - rewrite H4, H3, H2, H1. cbn [add_pipelines fold_left fst snd]. do 4 f_equal.
    unfold AddExtension. by case_bool_decide.
  - clear. intros mp b b' (b1 & H1 & H2%wrap_err_ok)%andThen_ok.
    destruct (metric_components_adds (queue_size (p :: ps)) mp) as (ds & Hf & <-).
    rewrite (AddServicePipeline_adds _ _ _ _ _ _ Hf H2). f_equal. by eapply oauth2_pipelines.
Qed.

Lemma Build_pipelines opts b :
  Build opts = Some (Ok b) -> pipelines_of (b_Config b) = add_pipelines ∅ (gateway_pipelines (sortPipelinesByName opts)).
Proof.
  unfold Build. intros (b1 & H1 & H2)%andThen_ok. apply andThen_ok in H2 as (b2 & H2 & H3).
  rewrite (buildMetric_pipelines _ _ _ H3), (buildLog_pipelines _ _ _ H2), (buildTrace_pipelines _ _ _ H1).
  unfold gateway_pipelines. by rewrite !add_pipelines_app.
Qed.

End Shapes.

(** ** Names *)

Definition distinct_names (opts : BuildOptions) : Prop :=
  NoDup (map trace_name (bo_TracePipelines opts)) /\ NoDup (map log_name (bo_LogPipelines opts)) /\
  NoDup (map metric_name (bo_MetricPipelines opts)).

Lemma append_cancel_r (p s t : string) : s +:+ p = t +:+ p -> s = t.
Proof.
  intros He%(f_equal to_bytes). rewrite !to_bytes_app in He. apply app_inv_tail in He. by apply to_bytes_inj.
Qed.

(** The last characters of a text. *)
Lemma suffix_bytes (s t u : string) :
  s +:+ t = u -> take (length (to_bytes t)) (reverse (to_bytes u)) = reverse (to_bytes t).
Proof.
  intros <-. rewrite to_bytes_app, reverse_app. rewrite <- (length_reverse (to_bytes t)). by rewrite take_app_length.
Qed.

Lemma output_id_shared opts mp i :
  i ∈ (metric_shared_pipelines opts).*1 -> formatMetricOutputServicePipelineID mp <> i.
Proof.
  unfold formatMetricOutputServicePipelineID. cbn. rewrite !elem_of_cons, elem_of_nil.
  intros [->|[->|[->|[]]]];
    [change "metrics/input-otlp" with ("metrics/" +:+ "input-otlp")
    |change "metrics/input-kyma-stats" with ("metrics/" +:+ "input-kyma-stats")
    |change "metrics/enrichment" with ("metrics/" +:+ "enrichment")];
    intros He%append_cancel%suffix_bytes; by vm_compute in He.
Qed.

Lemma NoDup_map_inj {A B} (f : A -> string) (g : A -> B) (h : string -> B) l :
  (forall x, g x = h (f x)) -> Inj (=) (=) h -> NoDup (map f l) -> NoDup (map g l).
Proof.
  intros Hg Hh Hn. rewrite (map_ext g (fun x => h (f x))) by done. rewrite <- map_map.
  by apply NoDup_fmap_2.
Qed.

#[local] Instance append_inj p : Inj (=) (=) (fun s : string => p +:+ s).
Proof. intros s t. apply append_cancel. Qed.

Lemma gateway_ids opts : distinct_names opts -> NoDup (gateway_pipelines opts).*1.
Proof.
  intros (Ht & Hl & Hm). change (NoDup (map fst (gateway_pipelines opts))). unfold gateway_pipelines.
  rewrite !map_app, !map_map. cbn [fst].
  rewrite !NoDup_app. split_and!.
  - eapply (NoDup_map_inj trace_name _ (fun s => "traces/" +:+ s)); [done|apply _|done].
  - intros i Hi. apply list_elem_of_In, in_map_iff in Hi as (tp & <- & _). rewrite !elem_of_app. intros [Hi|[Hi|Hi]].
    + by apply list_elem_of_In, in_map_iff in Hi as (lp & He & _).
    + destruct (_ =? _)%nat; cbn in Hi; set_solver.
    + by apply list_elem_of_In, in_map_iff in Hi as (lp & He & _).
  - eapply (NoDup_map_inj log_name _ (fun s => "logs/" +:+ s)); [done|apply _|done].
  - intros i Hi. apply list_elem_of_In, in_map_iff in Hi as (lp & <- & _). rewrite !elem_of_app. intros [Hi|Hi].
    + destruct (_ =? _)%nat; cbn in Hi; set_solver.
    + by apply list_elem_of_In, in_map_iff in Hi as (mp & He & _).
  - destruct (_ =? _)%nat; by apply (bool_decide_unpack _).
  - intros i Hi Hj. apply list_elem_of_In, in_map_iff in Hj as (mp & Hj & _). revert Hj.
    apply (output_id_shared opts). destruct (_ =? _)%nat; [by apply not_elem_of_nil in Hi|done].
  - eapply (NoDup_map_inj metric_name _ (fun s => "metrics/" +:+ s +:+ "-output")); [done| |done].
    intros s t He%append_cancel. by apply append_cancel_r in He.
Qed.

Lemma distinct_names_sort opts : distinct_names opts -> distinct_names (sortPipelinesByName opts).
Proof.
  intros (Ht & Hl & Hm). unfold distinct_names. cbn. repeat split.
  all: rewrite (Permutation_map _ (sort_by_name_perm _ _)); done.
Qed.

Lemma gateway_pipelines_sort opts : gateway_pipelines (sortPipelinesByName opts) ≡ₚ gateway_pipelines opts.
Proof.
  unfold gateway_pipelines. cbn.
  rewrite (Permutation_length (sort_by_name_perm metric_name (bo_MetricPipelines opts))).
  rewrite (Permutation_map _ (sort_by_name_perm trace_name _)), (Permutation_map _ (sort_by_name_perm log_name _)).
  by rewrite (Permutation_map _ (sort_by_name_perm metric_name _)).
Qed.

Lemma Build_service_pipelines `{SecretReader} `{URLOps} opts b :
  distinct_names opts -> Build opts = Some (Ok b) ->
  pipelines_of (b_Config b) = list_to_map (gateway_pipelines opts).
Proof.
  intros Hd Hb. rewrite (Build_pipelines _ _ Hb). pose proof (gateway_ids _ (distinct_names_sort _ Hd)) as Hn.
  rewrite add_pipelines_list by done. rewrite (right_id_L ∅ (∪)).
  apply list_to_map_proper; [done|]. apply gateway_pipelines_sort.
Qed.
