(* ===== verification/GatewayIsolation.v ===== *)
(** * Each pipeline of the gateway has its own backend and its own processors

    The exporter of a pipeline is configured from the output of that pipeline and sends
    to the endpoint of that output; the user-defined transformations of a pipeline are
    those of its specification. One processor is shared by mistake: a LogPipeline and a
    MetricPipeline that both disable the OTLP input use the same identifier, and the
    metrics are not dropped. *)
From stdpp Require Import base gmap strings list sorting.
From Stdlib Require Import Ascii.
From S2P Require Import Prelude Kube GoErrors GoStrings.
From S2P Require Import ApiV1beta1 SecretRef MetricInputs Coordination.
From S2P Require Import CollectorTypes CollectorBuilder CollectorBuilderProps CollectorProcessors.
From S2P Require Import CollectorExporter CollectorExporterProps GatewayConfig GatewayConfigProps.
Local Open Scope string_scope.

(** ** The outputs of all pipelines *)

Definition gateway_outputs (opts : BuildOptions) : list (PipelineRef * OTLPOutput) :=
  (omap (fun tp => pair (TracePipelineRef tp) <$> trace_output tp) (bo_TracePipelines opts)
   ++ omap (fun lp => pair (LogPipelineRef lp) <$> log_output lp) (bo_LogPipelines opts)
   ++ omap (fun mp => pair (MetricPipelineRef mp) <$> metric_output mp) (bo_MetricPipelines opts))%list.

Lemma NoDup_map_eq {A} (f : A -> string) l x y : NoDup (map f l) -> x ∈ l -> y ∈ l -> f x = f y -> x = y.
Proof.
  intros Hn [i Hi]%list_elem_of_lookup [j Hj]%list_elem_of_lookup He.
  assert (i = j) as <-; [|congruence].
  eapply NoDup_lookup; [done|by rewrite list_lookup_fmap, Hi|by rewrite list_lookup_fmap, Hj, He].
Qed.

Lemma elem_of_trace_outputs opts tp o :
  tp ∈ bo_TracePipelines opts -> trace_output tp = Some o -> (TracePipelineRef tp, o) ∈ gateway_outputs opts.
Proof.
  intros Hp Ho. unfold gateway_outputs. rewrite !elem_of_app. left. apply list_elem_of_omap.
  exists tp. by rewrite Ho.
Qed.
Lemma elem_of_log_outputs opts lp o :
  lp ∈ bo_LogPipelines opts -> log_output lp = Some o -> (LogPipelineRef lp, o) ∈ gateway_outputs opts.
Proof.
  intros Hp Ho. unfold gateway_outputs. rewrite !elem_of_app. right; left. apply list_elem_of_omap.
  exists lp. by rewrite Ho.
Qed.
Lemma elem_of_metric_outputs opts mp o :
  mp ∈ bo_MetricPipelines opts -> metric_output mp = Some o -> (MetricPipelineRef mp, o) ∈ gateway_outputs opts.
Proof.
  intros Hp Ho. unfold gateway_outputs. rewrite !elem_of_app. right; right. apply list_elem_of_omap.
  exists mp. by rewrite Ho.
Qed.

(** A reference belongs to one pipeline. *)
Lemma gateway_outputs_inj opts r o o' :
  distinct_names opts -> (r, o) ∈ gateway_outputs opts -> (r, o') ∈ gateway_outputs opts -> o = o'.
Proof.
  intros (Ht & Hl & Hm). unfold gateway_outputs. rewrite !elem_of_app, !list_elem_of_omap.
  intros [(x & Hx & Ex)|[(x & Hx & Ex)|(x & Hx & Ex)]] [(y & Hy & Ey)|[(y & Hy & Ey)|(y & Hy & Ey)]];
    apply fmap_Some in Ex as (ox & Hox & [= -> ->]); apply fmap_Some in Ey as (oy & Hoy & Ey); try done.
  - assert (x = y) as <- by (eapply NoDup_map_eq; [exact Ht|..]; [done|done|naive_solver]). naive_solver.
  - assert (x = y) as <- by (eapply NoDup_map_eq; [exact Hl|..]; [done|done|naive_solver]). naive_solver.
  - assert (x = y) as <- by (eapply NoDup_map_eq; [exact Hm|..]; [done|done|naive_solver]). naive_solver.
Qed.

(** ** Exporters *)

Section Exporters.
Context `{SecretReader} `{URLOps}.

Abbreviation endpoint_key r := (formatEnvVarKey otlpEndpointVariablePrefix r).

(** The exporter under an identifier is the one of a pipeline with that identifier. *)
Definition exporter_of (opts : BuildOptions) (env : EnvVars) (i : string) (c : component) : Prop :=
  exists r o q vars, (r, o) ∈ gateway_outputs opts /\ i = ComponentIDOTLPExporter (oo_Protocol o) r /\
    makeOTLPExporterEnvVars o r = Some (Ok vars) /\ c = COTLPExporter (otlpExporter o r vars q) /\
    is_Some (env !! endpoint_key r) /\
    (tls_pair o -> exporter_vars_set env (otlpExporter o r vars q)).

Lemma exporter_of_mono opts : env_monotone (exporter_of opts).
Proof.
  intros env env' i c He (r & o & q & vars & Hr & -> & Hm & -> & Hk & Hp).
  exists r, o, q, vars. split_and!; auto. intros Ht. eapply exporter_vars_mono; [done|]. auto.
Qed.

(** A builder of an exporter for an output of the configuration. *)
Lemma exporter_of_new opts r o q c env :
  (r, o) ∈ gateway_outputs opts -> OTLPExporter o r q = Some (Ok (Some c, env)) ->
  exporter_of opts env (ComponentIDOTLPExporter (oo_Protocol o) r) c.
Proof.
  intros Hr Ho. pose proof Ho as Hc. unfold OTLPExporter in Ho.
  destruct (makeOTLPExporterEnvVars o r) as [[vars|]|] eqn:Hm; simplify_eq.
  exists r, o, q, env. split_and!; try done.
  - destruct (exporter_endpoint_var _ _ _ Hm) as (e & _ & -> & _). eauto.
  - intros Hp. destruct (exporter_env_complete _ _ _ _ _ Hc Hp) as (ex & [= <-] & Hx). done.
Qed.

Lemma forward_exporter_of opts t id id' :
  isConnector id = true -> preserves (exporters_sat (exporter_of opts)) (forward_exporter id t id').
Proof.
  intros Hi. apply AddExporter_exporters; [apply exporter_of_mono|].
  intros i c env [= <-] _ Hf. congruence.
Qed.

Lemma exporters_invariant opts : build_invariant (exporters_sat (exporter_of opts)) opts.
Proof.
  split; try done.
  - intros. apply AddExtension_exporters; [apply exporter_of_mono|done].
  - intros p _. apply oauth2_preserves. intros. apply AddExtension_exporters; [apply exporter_of_mono|done].
  - intros p _. apply oauth2_preserves. intros. apply AddExtension_exporters; [apply exporter_of_mono|done].
  - intros p _. apply oauth2_preserves. intros. apply AddExtension_exporters; [apply exporter_of_mono|done].
  - intros p id q Hp. each_component @AddReceiver_exporters @AddProcessor_exporters @AddExporter_exporters;
      [apply exporter_of_mono|]. cbn. unfold formatTraceOTLPExporterID. intros i c env Hi Ho _.
    destruct (trace_output p) as [o|] eqn:Hout; [|done]. simpl in *. simplify_eq.
    eapply exporter_of_new; [by eapply elem_of_trace_outputs|done].
  - intros p id q Hp. each_component @AddReceiver_exporters @AddProcessor_exporters @AddExporter_exporters;
      [apply exporter_of_mono|]. cbn. unfold formatLogOTLPExporterID. intros i c env Hi Ho _.
    destruct (log_output p) as [o|] eqn:Hout; [|done]. simpl in *. simplify_eq.
    eapply exporter_of_new; [by eapply elem_of_log_outputs|done].
  - intros id. each_component @AddReceiver_exporters @AddProcessor_exporters forward_exporter_of; done.
  - intros p id q Hp. each_component @AddReceiver_exporters @AddProcessor_exporters @AddExporter_exporters;
      [apply exporter_of_mono|]. cbn. intros i c env Hi Ho _.
    destruct (metric_output p) as [o|] eqn:Hout; [|done]. simpl in *. simplify_eq.
    eapply exporter_of_new; [by eapply elem_of_metric_outputs|done].
Qed.

(** An endpoint variable holds the endpoint of its pipeline. *)
Definition endpoints_own (opts : BuildOptions) (env : EnvVars) : Prop :=
  forall r o v, (r, o) ∈ gateway_outputs opts -> env !! endpoint_key r = Some v ->
    resolveEndpointURL o = Some (Ok v).

(** All pipelines have names without dots. *)
Definition label_names (opts : BuildOptions) : Prop :=
  Forall (fun e => label_name (pref_name e.1)) (gateway_outputs opts).

Lemma endpoints_own_exporter opts r o q c vars env :
  distinct_names opts -> label_names opts -> (r, o) ∈ gateway_outputs opts ->
  OTLPExporter o r q = Some (Ok (Some c, vars)) -> endpoints_own opts env -> endpoints_own opts (vars ∪ env).
Proof.
  intros Hd Hn Hr Ho He s o' v Hs Hv. unfold OTLPExporter in Ho.
  destruct (makeOTLPExporterEnvVars o r) as [[vars'|]|] eqn:Hm; simplify_eq.
  destruct (exporter_endpoint_var _ _ _ Hm) as (e & Hres & Hown & Hother).
  apply lookup_union_Some_raw in Hv as [Hv|[_ Hv]]; [|by eapply He].
  unfold label_names in Hn. rewrite Forall_forall in Hn.
  destruct (decide (endpoint_key s = endpoint_key r)) as [E|E]; [|rewrite Hother in Hv by done; done].
  apply variable_names_distinct in E as ->; [|by apply (Hn (_, _) Hs)|by apply (Hn (_, _) Hr)].
  rewrite Hown in Hv. simplify_eq. by rewrite (gateway_outputs_inj _ _ _ _ Hd Hs Hr).
Qed.

Lemma endpoints_own_oauth2 opts o r c vars env :
  OAuth2Extension o r = Some (Ok (c, vars)) -> endpoints_own opts env -> endpoints_own opts (vars ∪ env).
Proof.
  intros Ho He s o' v Hs Hv. apply lookup_union_Some_raw in Hv as [Hv|[_ Hv]]; [|by eapply He].
  by rewrite (oauth2_endpoints _ _ _ _ _ Ho) in Hv.
Qed.

Lemma endpoints_invariant opts :
  distinct_names opts -> label_names opts -> build_invariant (env_sat (endpoints_own opts)) opts.
Proof.
  intros Hd Hn. split; try done.
  - intros id x b Hb. apply AddExtension_env. by rewrite (left_id_L ∅ (∪)).
  - intros p _. apply oauth2_preserves. intros. apply AddExtension_env. by eapply endpoints_own_oauth2.
  - intros p _. apply oauth2_preserves. intros. apply AddExtension_env. by eapply endpoints_own_oauth2.
  - intros p _. apply oauth2_preserves. intros. apply AddExtension_env. by eapply endpoints_own_oauth2.
  - intros p id q Hp. each_component @AddReceiver_env @AddProcessor_env @AddExporter_env.
    intros c vars env Ho. destruct (trace_output p) as [o|] eqn:Hout; [|done].
    eapply endpoints_own_exporter; [done|done|by eapply elem_of_trace_outputs|done].
  - intros p id q Hp. each_component @AddReceiver_env @AddProcessor_env @AddExporter_env.
    intros c vars env Ho. destruct (log_output p) as [o|] eqn:Hout; [|done].
    eapply endpoints_own_exporter; [done|done|by eapply elem_of_log_outputs|done].
  - intros id. each_component @AddReceiver_env @AddProcessor_env @AddExporter_env;
      intros c vars env [= <- <-]; by rewrite (left_id_L ∅ (∪)).
  - intros p id q Hp. each_component @AddReceiver_env @AddProcessor_env @AddExporter_env.
    intros c vars env Ho. cbn in Ho. destruct (metric_output p) as [o|] eqn:Hout; [|done].
    eapply endpoints_own_exporter; [done|done|by eapply elem_of_metric_outputs|done].
Qed.

(** The endpoint an exporter sends the signal of its pipeline to. *)
Definition exporter_endpoint (s : SignalType) (ex : OTLPExporterConfig) : string :=
  let own := match s with
             | SignalTypeMetric => ex_MetricsEndpoint ex
             | SignalTypeTrace => ex_TracesEndpoint ex
             | SignalTypeLog => ex_LogsEndpoint ex
             | SignalTypeLogFluentBit => ""
             end in
  if str_eqb own "" then ex_Endpoint ex else own.

Lemma exporter_endpoint_eq o r vars q :
  exporter_endpoint (pref_signalType r) (otlpExporter o r vars q) = env_ref (endpoint_key r).
Proof.
  unfold exporter_endpoint, otlpExporter. destruct (0 <? String.length (oo_Path o))%nat, r as [n []]; done.
Qed.

(** An exporter identifier tells its pipeline. *)
Lemma exporter_id_inj p r p' r' : ComponentIDOTLPExporter p r = ComponentIDOTLPExporter p' r' -> r = r'.
Proof.
  unfold ComponentIDOTLPExporter, QualifiedName, TypePrefix. destruct r as [n s], r' as [n' s'].
  destruct (str_eqb p _), (str_eqb p' _), s, s'; cbn; intros He; simplify_eq; done.
Qed.

Lemma exporter_id_not_connector p r : isConnector (ComponentIDOTLPExporter p r) = false.
Proof. unfold ComponentIDOTLPExporter. by destruct (str_eqb _ _). Qed.

(** The exporter of a pipeline is named by a service pipeline. *)
Lemma output_exporter_named opts r o :
  (r, o) ∈ gateway_outputs opts ->
  exists i p, (i, p) ∈ gateway_pipelines opts /\ ComponentIDOTLPExporter (oo_Protocol o) r ∈ sp_Exporters p.
Proof.
  unfold gateway_outputs, gateway_pipelines. rewrite !elem_of_app, !list_elem_of_omap.
  intros [(x & Hx & Ex)|[(x & Hx & Ex)|(x & Hx & Ex)]];
    apply fmap_Some in Ex as (ox & Hox & [= -> ->]).
  - exists (formatTraceServicePipelineID x), (trace_service_pipeline opts x). rewrite !elem_of_app.
    split; [left; apply list_elem_of_fmap; eauto|]. cbn. unfold exporter_ids. rewrite Hox. by left.
  - exists (formatLogServicePipelineID x), (log_service_pipeline opts x). rewrite !elem_of_app.
    split; [right; left; apply list_elem_of_fmap; eauto|]. cbn. unfold exporter_ids. rewrite Hox. by left.
  - exists (formatMetricOutputServicePipelineID x), (metric_service_pipeline x). rewrite !elem_of_app.
    split; [right; right; right; apply list_elem_of_fmap; eauto|]. cbn. unfold exporter_ids. rewrite Hox. by left.
Qed.

Lemma named_exporter_defined opts b r o :
  distinct_names opts -> Build opts = Some (Ok b) -> (r, o) ∈ gateway_outputs opts ->
  is_Some (cf_Exporters (b_Config b) !! ComponentIDOTLPExporter (oo_Protocol o) r).
Proof.
  intros Hd Hb Hr. destruct (output_exporter_named _ _ _ Hr) as (i & p & Hp & Hx).
  destruct (Build_closed _ _ Hb) as [Hc _]. rewrite (Build_service_pipelines _ _ Hd Hb) in Hc.
  apply elem_of_list_to_map_1 in Hp; [|by apply gateway_ids]. destruct (Hc _ _ Hp) as (_ & _ & He).
  rewrite Forall_forall in He. specialize (He _ Hx). unfold exporter_defined in He.
  by rewrite exporter_id_not_connector in He.
Qed.

Lemma Build_exporters opts b r o :
  distinct_names opts -> label_names opts -> Build opts = Some (Ok b) -> (r, o) ∈ gateway_outputs opts ->
  exists ex endpoint,
    cf_Exporters (b_Config b) !! ComponentIDOTLPExporter (oo_Protocol o) r = Some (COTLPExporter ex) /\
    exporter_endpoint (pref_signalType r) ex = env_ref (endpoint_key r) /\
    b_EnvVars b !! endpoint_key r = Some endpoint /\ resolveEndpointURL o = Some (Ok endpoint) /\
    (tls_pair o -> exporter_vars_set (b_EnvVars b) ex).
Proof.
  intros Hd Hn Hb Hr. destruct (named_exporter_defined _ _ _ _ Hd Hb Hr) as [c Hc].
  pose proof (Build_invariant (exporters_sat _) _ _ (map_Forall_empty _) (exporters_invariant opts) Hb _ _ Hc)
    as (s & o' & q & vars & Hs & Hi & Hm & -> & [v Hv] & Hp).
  apply exporter_id_inj in Hi as <-. rewrite <- (gateway_outputs_inj _ _ _ _ Hd Hr Hs) in *.
  exists (otlpExporter o r vars q), v. split_and!; [done|apply exporter_endpoint_eq|done| |done].
  eapply (Build_invariant (env_sat _) _ _ _ (endpoints_invariant opts Hd Hn) Hb); done.
  Unshelve. done.
Qed.

End Exporters.

(** ** User-defined processors *)

(** The user-defined processor of each pipeline, with its identifier. *)
Definition user_transforms (opts : BuildOptions) : list (PipelineRef * component) :=
  (map (fun tp => (TracePipelineRef tp, CTransform (TraceTransformProcessor
          (TransformSpecsToProcessorStatements (tps_Transforms (tp_Spec tp)))))) (bo_TracePipelines opts)
   ++ map (fun lp => (LogPipelineRef lp, CTransform (LogTransformProcessor
          (TransformSpecsToProcessorStatements (ls_Transforms (lp_Spec lp)))))) (bo_LogPipelines opts)
   ++ map (fun mp => (MetricPipelineRef mp, CTransform (MetricTransformProcessor
          (TransformSpecsToProcessorStatements (ms_Transforms (mp_Spec mp)))))) (bo_MetricPipelines opts))%list.

Definition user_filters (opts : BuildOptions) : list (PipelineRef * component) :=
  (map (fun tp => (TracePipelineRef tp, CFilter (TraceFilterProcessor (tps_Filters (tp_Spec tp)))))
     (bo_TracePipelines opts)
   ++ map (fun lp => (LogPipelineRef lp, CFilter (LogFilterProcessor (ls_Filters (lp_Spec lp)))))
     (bo_LogPipelines opts)
   ++ map (fun mp => (MetricPipelineRef mp, CFilter (MetricFilterProcessor (ms_Filters (mp_Spec mp)))))
     (bo_MetricPipelines opts))%list.

(** The filters by namespace have identifiers that start with the name of the pipeline. *)
Definition namespace_filter_ids (opts : BuildOptions) : list ComponentID :=
  (map (fun lp => ComponentIDNamespaceFilterProcessor (log_name lp)) (bo_LogPipelines opts)
   ++ map (fun mp => ComponentIDNamespacePerInputFilterProcessor (metric_name mp) InputSourceOTLP)
        (bo_MetricPipelines opts))%list.

(** No log or metric pipeline has a name that begins like the identifier of a user-defined filter. *)
Definition unreserved (n : string) : Prop :=
  Forall (fun p => String.prefix p n = false)
    ["tracepipeline-user-defined"; "logpipeline-user-defined"; "metricpipeline-user-defined"].
Definition unreserved_names (opts : BuildOptions) : Prop :=
  Forall unreserved (map log_name (bo_LogPipelines opts) ++ map metric_name (bo_MetricPipelines opts))%list.

(** A non-empty end of [q] begins [t]. *)
Fixpoint prefix_continues (q t : string) : bool :=
  match q with EmptyString => false | String _ q' => String.prefix q t || prefix_continues q' t end.

Lemma prefix_app_false q n t :
  String.prefix q n = false -> prefix_continues q t = false -> String.prefix q (n +:+ t) = false.
Proof.
  revert n. induction q as [|c q IH]; intros [|d n] Hn Hc; try done;
    cbn [prefix_continues] in Hc; apply orb_false_elim in Hc as [Hq Hc]; [exact Hq|].
  change (String d n +:+ t) with (String d (n +:+ t)). cbn [String.prefix] in Hn |- *. destruct (Ascii.ascii_dec c d); [|done]. by apply IH.
Qed.

Lemma prefix_app_true p q t : String.prefix (p +:+ q) (p +:+ t) = String.prefix q t.
Proof.
  induction p as [|c p IH]; [done|].
  change (String.prefix (String c (p +:+ q)) (String c (p +:+ t)) = String.prefix q t). cbn [String.prefix].
  by destruct (Ascii.ascii_dec c c).
Qed.

Lemma unreserved_filter n t r :
  pref_signalType r <> SignalTypeLogFluentBit -> unreserved n ->
  t = "-filter-by-namespace" \/ t = "-filter-by-namespace-otlp-input" ->
  "filter/" +:+ n +:+ t <> ComponentIDUserDefinedFilterProcessor r.
Proof.
  unfold unreserved, ComponentIDUserDefinedFilterProcessor. intros Hs Hn Ht He. injection He as He.
  change (n +:+ t = TypePrefix r +:+ "-user-defined-" +:+ pref_name r) in He.
  assert (Hp : String.prefix (TypePrefix r +:+ "-user-defined") (n +:+ t) = false).
  { apply prefix_app_false.
    - rewrite Forall_forall in Hn. apply Hn. destruct r as [m []]; [..|by destruct Hs]; repeat first [apply list_elem_of_here | apply list_elem_of_further].
    - destruct r as [m []], Ht as [->| ->]; reflexivity. }
  rewrite He, prefix_app_true in Hp. discriminate Hp.
Qed.

Definition filter_ids_apart (opts : BuildOptions) : Prop :=
  forall r, pref_signalType r <> SignalTypeLogFluentBit -> ComponentIDUserDefinedFilterProcessor r ∉ namespace_filter_ids opts.

Lemma unreserved_apart opts : unreserved_names opts -> filter_ids_apart opts.
Proof.
  unfold unreserved_names. rewrite Forall_app, !Forall_forall. intros [Hl Hm] r Hs.
  unfold namespace_filter_ids. rewrite elem_of_app, !list_elem_of_In, !in_map_iff.
  intros [(p & He & Hp)|(p & He & Hp)]; revert He.
  - apply unreserved_filter; [done| |by left]. by apply Hl, list_elem_of_In, in_map.
  - apply unreserved_filter; [done| |by right]. by apply Hm, list_elem_of_In, in_map.
Qed.

(** The service pipelines that have user-defined processors, with the pipeline they belong to and what
    its specification says. *)
Definition transforming (opts : BuildOptions) : list (string * (PipelineRef * component)) :=
  (map (fun tp => (formatTraceServicePipelineID tp, (TracePipelineRef tp, CTransform (TraceTransformProcessor
          (TransformSpecsToProcessorStatements (tps_Transforms (tp_Spec tp)))))))
     (List.filter (fun tp => negb (slen (tps_Transforms (tp_Spec tp)) =? 0)%nat) (bo_TracePipelines opts))
   ++ map (fun lp => (formatLogServicePipelineID lp, (LogPipelineRef lp, CTransform (LogTransformProcessor
          (TransformSpecsToProcessorStatements (ls_Transforms (lp_Spec lp)))))))
     (List.filter (fun lp => negb (slen (ls_Transforms (lp_Spec lp)) =? 0)%nat) (bo_LogPipelines opts))
   ++ map (fun mp => (formatMetricOutputServicePipelineID mp, (MetricPipelineRef mp, CTransform (MetricTransformProcessor
          (TransformSpecsToProcessorStatements (ms_Transforms (mp_Spec mp)))))))
     (List.filter (fun mp => negb (slen (ms_Transforms (mp_Spec mp)) =? 0)%nat) (bo_MetricPipelines opts)))%list.

Definition filtering (opts : BuildOptions) : list (string * (PipelineRef * component)) :=
  (map (fun tp => (formatTraceServicePipelineID tp, (TracePipelineRef tp,
          CFilter (TraceFilterProcessor (tps_Filters (tp_Spec tp))))))
     (List.filter (fun tp => negb (is_nil (tps_Filters (tp_Spec tp)))) (bo_TracePipelines opts))
   ++ map (fun lp => (formatLogServicePipelineID lp, (LogPipelineRef lp,
          CFilter (LogFilterProcessor (ls_Filters (lp_Spec lp))))))
     (List.filter (fun lp => negb (is_nil (ls_Filters (lp_Spec lp)))) (bo_LogPipelines opts))
   ++ map (fun mp => (formatMetricOutputServicePipelineID mp, (MetricPipelineRef mp,
          CFilter (MetricFilterProcessor (ms_Filters (mp_Spec mp))))))
     (List.filter (fun mp => negb (is_nil (ms_Filters (mp_Spec mp)))) (bo_MetricPipelines opts)))%list.

Lemma elem_of_when c (i j : ComponentID) : i ∈ when c j <-> c = true /\ i = j.
Proof. unfold when. destruct c; [rewrite list_elem_of_singleton; naive_solver|]. split; [by intros ?%not_elem_of_nil|by intros [? _]]. Qed.

(** Where the user-defined processors stand in the service pipelines. *)
Tactic Notation "processors_of" :=
  cbn [sp_Processors trace_service_pipeline log_service_pipeline metric_service_pipeline];
  repeat first [rewrite elem_of_app | rewrite elem_of_cons | rewrite elem_of_when | rewrite elem_of_nil].
Tactic Notation "not_static" ident(H) ident(r) :=
  repeat match type of H with
  | _ \/ _ => destruct H as [H|H]
  | _ /\ _ => let Hc := fresh in destruct H as [Hc H]
  | False => destruct H
  end; try (exfalso; clear - H; destruct r as [? []]; discriminate H).

Lemma in_table {A X} (f : A -> X) (g : A -> bool) l x : x ∈ map f (List.filter g l) <-> exists a, x = f a /\ a ∈ l /\ g a = true.
Proof. rewrite list_elem_of_In, in_map_iff. setoid_rewrite filter_In. setoid_rewrite list_elem_of_In. naive_solver. Qed.

(** A table of components by pipeline. *)
Lemma table_inj {X} opts (f : TracePipeline -> X) (g : LogPipeline -> X) (h : MetricPipeline -> X) r x y :
  let table := (map (fun p => (TracePipelineRef p, f p)) (bo_TracePipelines opts)
                ++ map (fun p => (LogPipelineRef p, g p)) (bo_LogPipelines opts)
                ++ map (fun p => (MetricPipelineRef p, h p)) (bo_MetricPipelines opts))%list in
  distinct_names opts -> (r, x) ∈ table -> (r, y) ∈ table -> x = y.
Proof.
  intros table (Ht & Hl & Hm). unfold table. rewrite !elem_of_app, !list_elem_of_In, !in_map_iff.
  intros [(p & [= <- <-] & Hp)|[(p & [= <- <-] & Hp)|(p & [= <- <-] & Hp)]]
    [(q & Hq & Hin)|[(q & Hq & Hin)|(q & Hq & Hin)]]; try done; injection Hq as Hn <-;
    rewrite <- list_elem_of_In in Hp, Hin.
  - by rewrite (NoDup_map_eq _ _ _ _ Ht Hin Hp Hn).
  - by rewrite (NoDup_map_eq _ _ _ _ Hl Hin Hp Hn).
  - by rewrite (NoDup_map_eq _ _ _ _ Hm Hin Hp Hn).
Qed.

Lemma user_filters_signal opts r x : (r, x) ∈ user_filters opts -> pref_signalType r <> SignalTypeLogFluentBit.
Proof.
  unfold user_filters. rewrite !elem_of_app, !list_elem_of_In, !in_map_iff.
  by intros [(p & [= <- <-] & _)|[(p & [= <- <-] & _)|(p & [= <- <-] & _)]].
Qed.

Lemma transform_id_inj r s :
  ComponentIDUserDefinedTransformProcessor r = ComponentIDUserDefinedTransformProcessor s -> r = s.
Proof.
  unfold ComponentIDUserDefinedTransformProcessor, TypePrefix. destruct r as [n []], s as [m []]; cbn;
    intros He; by simplify_eq.
Qed.

Lemma filter_id_inj r s :
  ComponentIDUserDefinedFilterProcessor r = ComponentIDUserDefinedFilterProcessor s -> r = s.
Proof.
  unfold ComponentIDUserDefinedFilterProcessor, TypePrefix. destruct r as [n []], s as [m []]; cbn;
    intros He; by simplify_eq.
Qed.

Section UserDefined.
Context `{SecretReader} `{URLOps} (opts : BuildOptions) (Hd : distinct_names opts) (Ha : filter_ids_apart opts).

(** A user-defined identifier stands for the processor of its pipeline. *)
Definition user_defined (i : string) (c : component) : Prop :=
  (forall r x, (r, x) ∈ user_transforms opts -> i = ComponentIDUserDefinedTransformProcessor r -> c = x) /\
  (forall r x, (r, x) ∈ user_filters opts -> i = ComponentIDUserDefinedFilterProcessor r -> c = x).

(** Identifiers that are fixed texts are not user-defined. *)
Lemma static_user_defined id c :
  (forall r, id <> ComponentIDUserDefinedTransformProcessor r) ->
  (forall r, id <> ComponentIDUserDefinedFilterProcessor r) -> user_defined id c.
Proof. intros H1 H2. split; intros r x _ He; [by apply H1 in He|by apply H2 in He]. Qed.

Lemma transform_user_defined r x :
  (r, x) ∈ user_transforms opts -> user_defined (ComponentIDUserDefinedTransformProcessor r) x.
Proof.
  intros Hr. split; intros s y Hs He; [|done]. apply transform_id_inj in He as <-.
  exact (table_inj opts _ _ _ r x y Hd Hr Hs).
Qed.

Lemma filter_user_defined r x :
  (r, x) ∈ user_filters opts -> user_defined (ComponentIDUserDefinedFilterProcessor r) x.
Proof.
  intros Hr. split; intros s y Hs He; [done|]. apply filter_id_inj in He as <-.
  exact (table_inj opts _ _ _ r x y Hd Hr Hs).
Qed.

Lemma namespace_user_defined id c : id ∈ namespace_filter_ids opts -> user_defined id c.
Proof.
  intros Hid. split; intros s y Hs He.
  - exfalso. revert Hid. rewrite He. unfold namespace_filter_ids.
    rewrite elem_of_app, !list_elem_of_In, !in_map_iff. by intros [(p & Hp & _)|(p & Hp & _)].
  - destruct (Ha s); [by eapply user_filters_signal|]. by rewrite <- He.
Qed.

(** A processor with a fixed identifier. *)
Lemma static_registers {T} id cf (t : T) pid :
  (forall r, id <> ComponentIDUserDefinedTransformProcessor r) ->
  (forall r, id <> ComponentIDUserDefinedFilterProcessor r) ->
  preserves (registered user_defined) (AddProcessor (StaticComponentID id) cf t pid).
Proof.
  intros H1 H2. apply AddProcessor_registers. intros i c [= <-] _. by apply static_user_defined.
Qed.

(** The components of a pipeline but for the user-defined ones. *)
Tactic Notation "static_components" :=
  unfold trace_components, log_components, metric_input_otlp, metric_input_kyma, metric_enrichment,
    metric_output_components; cbn [app]; split_forall;
  first [apply AddReceiver_registers | apply AddExporter_registers
        | apply static_registers; intros [n []]; discriminate | apply AddProcessor_registers].

Tactic Notation "configured_processor" :=
  let c := fresh in let Hc := fresh in
  intros ? c [= <-] Hc; cbv beta zeta in Hc; cbn [mbind option_bind] in Hc; case_match; simplify_eq.

Lemma user_defined_invariant : build_invariant (registered user_defined) opts.
Proof.
  assert (Hx : forall id x env b, registered user_defined b -> registered user_defined (AddExtension id x env b))
    by (intros; by apply AddExtension_registered).
  split; try done; try (by intros; apply Hx);
    try (by intros p _; apply oauth2_preserves; intros; apply Hx).
  - intros p id q Hp. static_components.
    + configured_processor. apply transform_user_defined.
      unfold user_transforms. rewrite !elem_of_app. left. apply list_elem_of_fmap. eauto.
    + configured_processor. apply filter_user_defined.
      unfold user_filters. rewrite !elem_of_app. left. apply list_elem_of_fmap. eauto.
  - intros p id q Hp. static_components.
    + intros i c [= <-] _. apply namespace_user_defined. unfold namespace_filter_ids.
      apply elem_of_app. left. apply list_elem_of_fmap. eauto.
    + configured_processor. apply transform_user_defined.
      unfold user_transforms. rewrite !elem_of_app. right; left. apply list_elem_of_fmap. eauto.
    + configured_processor. apply filter_user_defined.
      unfold user_filters. rewrite !elem_of_app. right; left. apply list_elem_of_fmap. eauto.
  - intros id. static_components.
  - intros p id q Hp. static_components.
    + intros i c [= <-] _. apply namespace_user_defined. unfold namespace_filter_ids.
      apply elem_of_app. right. apply list_elem_of_fmap. eauto.
    + configured_processor. apply transform_user_defined.
      unfold user_transforms. rewrite !elem_of_app. right; right. apply list_elem_of_fmap. eauto.
    + configured_processor. apply filter_user_defined.
      unfold user_filters. rewrite !elem_of_app. right; right. apply list_elem_of_fmap. eauto.
Qed.

(** A processor that a service pipeline names is configured. *)
Lemma named_processor_defined b i p id :
  Build opts = Some (Ok b) -> (i, p) ∈ gateway_pipelines opts -> id ∈ sp_Processors p ->
  is_Some (cf_Processors (b_Config b) !! id).
Proof.
  intros Hb Hp Hid. destruct (Build_closed _ _ Hb) as [Hc _].
  rewrite (Build_service_pipelines _ _ Hd Hb) in Hc.
  apply elem_of_list_to_map_1 in Hp; [|by apply gateway_ids]. destruct (Hc _ _ Hp) as (_ & Hpr & _).
  rewrite Forall_forall in Hpr. by apply Hpr.
Qed.

Lemma Build_user_transforms b i p r x :
  Build opts = Some (Ok b) -> (i, p) ∈ gateway_pipelines opts ->
  ComponentIDUserDefinedTransformProcessor r ∈ sp_Processors p -> (r, x) ∈ user_transforms opts ->
  cf_Processors (b_Config b) !! ComponentIDUserDefinedTransformProcessor r = Some x.
Proof.
  intros Hb Hp Hr Hx. destruct (named_processor_defined _ _ _ _ Hb Hp Hr) as [c Hc]. rewrite Hc. f_equal.
  destruct (Build_invariant (registered _) _ _ (map_Forall_empty _) user_defined_invariant Hb _ _ Hc) as [H1 _]. by eapply H1.
Qed.

Lemma Build_user_filters b i p r x :
  Build opts = Some (Ok b) -> (i, p) ∈ gateway_pipelines opts ->
  ComponentIDUserDefinedFilterProcessor r ∈ sp_Processors p -> (r, x) ∈ user_filters opts ->
  cf_Processors (b_Config b) !! ComponentIDUserDefinedFilterProcessor r = Some x.
Proof.
  intros Hb Hp Hr Hx. destruct (named_processor_defined _ _ _ _ Hb Hp Hr) as [c Hc]. rewrite Hc. f_equal.
  destruct (Build_invariant (registered _) _ _ (map_Forall_empty _) user_defined_invariant Hb _ _ Hc) as [_ H1]. by eapply H1.
Qed.

(** The user-defined processors stand in the service pipelines of their own pipelines only. *)
Lemma transforms_located i p r :
  (i, p) ∈ gateway_pipelines opts -> ComponentIDUserDefinedTransformProcessor r ∈ sp_Processors p ->
  exists x, (i, (r, x)) ∈ transforming opts.
Proof.
  unfold gateway_pipelines, transforming. setoid_rewrite elem_of_app. setoid_rewrite elem_of_app. setoid_rewrite in_table.
  intros Hp Hr. rewrite !elem_of_app, !list_elem_of_fmap in Hp.
  destruct Hp as [(q & [= -> ->] & Hq)|[(q & [= -> ->] & Hq)|[Hp|(q & [= -> ->] & Hq)]]].
  - revert Hr. processors_of. intros Hr. not_static Hr r. apply transform_id_inj in Hr as ->. eauto 8.
  - revert Hr. processors_of. intros Hr. not_static Hr r. apply transform_id_inj in Hr as ->. eauto 9.
  - destruct (_ =? _)%nat; [by apply not_elem_of_nil in Hp|]. unfold metric_shared_pipelines in Hp. cbv zeta in Hp.
    rewrite !elem_of_cons, elem_of_nil in Hp. destruct Hp as [[= -> ->]|[[= -> ->]|[[= -> ->]|[]]]];
      revert Hr; processors_of; intros Hr; not_static Hr r.
  - revert Hr. processors_of. intros Hr. not_static Hr r. apply transform_id_inj in Hr as ->. eauto 9.
Qed.

Lemma filters_located i p r :
  pref_signalType r <> SignalTypeLogFluentBit ->
  (i, p) ∈ gateway_pipelines opts -> ComponentIDUserDefinedFilterProcessor r ∈ sp_Processors p ->
  exists x, (i, (r, x)) ∈ filtering opts.
Proof.
  intros Hs. pose proof (Ha r Hs) as Hn. unfold namespace_filter_ids in Hn. rewrite elem_of_app, !list_elem_of_fmap in Hn.
  unfold gateway_pipelines, filtering. setoid_rewrite elem_of_app. setoid_rewrite elem_of_app. setoid_rewrite in_table.
  intros Hp Hr. rewrite !elem_of_app, !list_elem_of_fmap in Hp.
  destruct Hp as [(q & [= -> ->] & Hq)|[(q & [= -> ->] & Hq)|[Hp|(q & [= -> ->] & Hq)]]].
  - revert Hr. processors_of. intros Hr. not_static Hr r. apply filter_id_inj in Hr as ->. eauto 8.
  - revert Hr. processors_of. intros Hr. not_static Hr r; [destruct Hn; eauto|]. apply filter_id_inj in Hr as ->. eauto 9.
  - destruct (_ =? _)%nat; [by apply not_elem_of_nil in Hp|]. unfold metric_shared_pipelines in Hp. cbv zeta in Hp.
    rewrite !elem_of_cons, elem_of_nil in Hp. destruct Hp as [[= -> ->]|[[= -> ->]|[[= -> ->]|[]]]];
      revert Hr; processors_of; intros Hr; not_static Hr r.
  - revert Hr. processors_of. intros Hr. not_static Hr r; [destruct Hn; eauto|]. apply filter_id_inj in Hr as ->. eauto 9.
Qed.

Lemma transforms_listed i r x :
  (i, (r, x)) ∈ transforming opts ->
  (r, x) ∈ user_transforms opts /\
  exists p, (i, p) ∈ gateway_pipelines opts /\ ComponentIDUserDefinedTransformProcessor r ∈ sp_Processors p.
Proof.
  unfold transforming, user_transforms, gateway_pipelines. setoid_rewrite elem_of_app. setoid_rewrite elem_of_app.
  setoid_rewrite elem_of_app. rewrite !in_table, !list_elem_of_fmap. setoid_rewrite list_elem_of_fmap.
  intros [(q & [= -> -> ->] & Hq & Hc)|[(q & [= -> -> ->] & Hq & Hc)|(q & [= -> -> ->] & Hq & Hc)]];
    (split; [eauto 7|]); eexists; (split; [eauto 8|]); processors_of; rewrite Hc; tauto.
Qed.

Lemma filters_listed i r x :
  (i, (r, x)) ∈ filtering opts ->
  (r, x) ∈ user_filters opts /\
  exists p, (i, p) ∈ gateway_pipelines opts /\ ComponentIDUserDefinedFilterProcessor r ∈ sp_Processors p.
Proof.
  unfold filtering, user_filters, gateway_pipelines. setoid_rewrite elem_of_app. setoid_rewrite elem_of_app.
  setoid_rewrite elem_of_app. rewrite !in_table, !list_elem_of_fmap. setoid_rewrite list_elem_of_fmap.
  intros [(q & [= -> -> ->] & Hq & Hc)|[(q & [= -> -> ->] & Hq & Hc)|(q & [= -> -> ->] & Hq & Hc)]];
    (split; [eauto 7|]); eexists; (split; [eauto 8|]); processors_of; rewrite Hc; tauto.
Qed.

Lemma built_service_pipeline b i p :
  Build opts = Some (Ok b) ->
  svc_Pipelines (cf_Service (b_Config b)) !! i = Some p <-> (i, p) ∈ gateway_pipelines opts.
Proof. intros Hb. rewrite (Build_service_pipelines _ _ Hd Hb). symmetry. by apply elem_of_list_to_map, gateway_ids. Qed.

End UserDefined.
