(* ===== verification/GatewayTheorems.v ===== *)
(** * Theorems about the gateway configuration

    The statements of GatewayConfigProps.v and GatewayIsolation.v for the whole
    configuration, with concrete pipelines that satisfy their hypotheses. *)
From stdpp Require Import base gmap strings list sorting.
From S2P Require Import Prelude Kube GoErrors.
From S2P Require Import ApiV1beta1 SecretRef MetricInputs Coordination.
From S2P Require Import CollectorTypes CollectorBuilder CollectorBuilderProps CollectorProcessors.
From S2P Require Import CollectorExporter CollectorExporterProps GatewayConfig GatewayConfigProps GatewayIsolation.
Local Open Scope string_scope.

(** ** The order of the pipelines *)

#[export] Instance by_name_total {P} (name : P -> string) : Total (by_name name).
Proof.
  intros a b. unfold by_name. destruct (str_ltb_total (name a) (name b)) as [Hl|[->|Hl]].
  - left. destruct (str_ltb (name b) (name a)) eqn:E; [|done].
    pose proof (str_ltb_trans _ _ _ Hl E) as Hx. by rewrite str_ltb_irrefl in Hx.
  - left. apply str_ltb_irrefl.
  - right. destruct (str_ltb (name a) (name b)) eqn:E; [|done].
    pose proof (str_ltb_trans _ _ _ Hl E) as Hx. by rewrite str_ltb_irrefl in Hx.
Qed.

#[export] Instance by_name_trans {P} (name : P -> string) : Transitive (by_name name).
Proof.
  intros a b c. unfold by_name. intros H1 H2. destruct (str_ltb (name c) (name a)) eqn:E; [|done].
  destruct (str_ltb_total (name a) (name b)) as [Hl|[He|Hl]]; [|congruence|congruence].
  rewrite (str_ltb_trans _ _ _ E Hl) in H2. done.
Qed.

(** Names that are not smaller than each other are the same. *)
Lemma by_name_antisym {P} (name : P -> string) a b : by_name name a b -> by_name name b a -> name a = name b.
Proof.
  unfold by_name. intros H1 H2. destruct (str_ltb_total (name a) (name b)) as [Hl|[He|Hl]]; congruence.
Qed.

Lemma sort_by_name_unique {P} (name : P -> string) ps qs :
  NoDup (map name ps) -> ps ≡ₚ qs -> sort_by_name name ps = sort_by_name name qs.
Proof.
  intros Hn Hp. apply (StronglySorted_unique_strong (by_name name)).
  - intros x y Hx Hy H1 H2. rewrite elem_of_sort in Hx. rewrite elem_of_sort, <- Hp in Hy.
    eapply NoDup_map_eq; [done..|]. by apply by_name_antisym.
  - apply (StronglySorted_merge_sort _).
  - apply (StronglySorted_merge_sort _).
  - by rewrite !sort_by_name_perm.
Qed.

(** The same pipelines in another order. *)
Definition reordered (opts opts' : BuildOptions) : Prop :=
  bo_LogPipelines opts ≡ₚ bo_LogPipelines opts' /\ bo_TracePipelines opts ≡ₚ bo_TracePipelines opts' /\
  bo_MetricPipelines opts ≡ₚ bo_MetricPipelines opts' /\
  (bo_Cluster opts, bo_Enrichments opts, bo_ServiceEnrichment opts, bo_ModuleVersion opts,
   bo_GatewayNamespace opts, bo_VpaActive opts) =
  (bo_Cluster opts', bo_Enrichments opts', bo_ServiceEnrichment opts', bo_ModuleVersion opts',
   bo_GatewayNamespace opts', bo_VpaActive opts').

Lemma sort_reordered opts opts' :
  distinct_names opts -> reordered opts opts' -> sortPipelinesByName opts = sortPipelinesByName opts'.
Proof.
  intros (Ht & Hl & Hm) (Pl & Pt & Pm & [= ? ? ? ? ? ?]). unfold sortPipelinesByName. f_equal; try done.
  - by apply sort_by_name_unique.
  - by apply sort_by_name_unique.
  - by apply sort_by_name_unique.
Qed.

(** ** The identifier that logs and metrics share *)

Section Shared.
Context `{SecretReader} `{URLOps}.

Abbreviation drop_id := ComponentIDDropIfInputSourceOTLPProcessor.

(** Among traces and logs the identifier stands for the filter of the logs. *)
Definition log_drop (i : string) (c : component) : Prop := i = drop_id -> c = CFilter dropIfInputSourceOTLPProcessor.

Lemma other_id_log_drop {T} idf cf (t : T) id :
  (forall i, idf t = Some i -> i <> drop_id) -> preserves (registered log_drop) (AddProcessor idf cf t id).
Proof. intros Hi. apply AddProcessor_registers. intros i c He _ ->. by apply Hi in He. Qed.

Lemma namespace_filter_id n : ComponentIDNamespaceFilterProcessor n <> drop_id.
Proof.
  unfold ComponentIDNamespaceFilterProcessor. change drop_id with ("filter/" +:+ "drop-if-input-source-otlp").
  intros He%append_cancel%suffix_bytes. by vm_compute in He.
Qed.

(** The steps of traces and logs. *)
Lemma log_drop_invariant opts : bo_MetricPipelines opts = [] -> build_invariant (registered log_drop) opts.
Proof.
  intros Hm. assert (Hx : forall id x env b, registered log_drop b -> registered log_drop (AddExtension id x env b))
    by (intros; by apply AddExtension_registered).
  split; try done; try (by intros; apply Hx); try (by intros p _; apply oauth2_preserves; intros; apply Hx).
  - intros p id q Hp. each_component @AddReceiver_registers @other_id_log_drop @AddExporter_registers;
      intros i [= <-]; done.
  - intros p id q Hp. unfold log_components. split_forall;
      first [apply AddReceiver_registers | apply AddExporter_registers
            | apply other_id_log_drop; intros i [= <-]; first [done | apply namespace_filter_id]
            | apply AddProcessor_registers].
    intros i c [= <-] Hc _. case_match; by simplify_eq.
  - intros id. each_component @AddReceiver_registers @other_id_log_drop @AddExporter_registers;
      intros i [= <-]; done.
  - intros p id q Hp. rewrite Hm in Hp. by apply not_elem_of_nil in Hp.
Qed.

(** Once configured, a processor stays as it is. *)
Definition stays (i : string) (c : component) (b : builder) : Prop := cf_Processors (b_Config b) !! i = Some c.

Lemma AddReceiver_stays {T} i c idf cf (t : T) id : preserves (stays i c) (AddReceiver idf cf t id).
Proof.
  intros [k env] b' Hb. unfold AddReceiver. destruct (cf t) as [[x|]|]; simpl; [|by intros [= <-]|done].
  destruct (idf t) as [j|]; simpl; [|done]. intros [= <-]. by destruct (isConnector j).
Qed.

Lemma AddExporter_stays {T} i c idf cf (t : T) id : preserves (stays i c) (AddExporter idf cf t id).
Proof.
  intros [k env] b' Hb. unfold AddExporter.
  destruct (cf t) as [[[[x|] vars]|]|]; simpl; [|by intros [= <-]|done|done].
  destruct (idf t) as [j|]; simpl; [|done]. intros [= <-]. by destruct (isConnector j).
Qed.

Lemma AddProcessor_stays {T} i c idf cf (t : T) id : preserves (stays i c) (AddProcessor idf cf t id).
Proof.
  intros [k env] b' Hb. unfold AddProcessor. destruct (cf t) as [[x|]|]; simpl; [|by intros [= <-]|done].
  destruct (idf t) as [j|]; simpl; [|done]. intros [= <-]. unfold stays, add_if_absent in *. cbn in *.
  destruct (_ !! j) eqn:Hj; [done|]. rewrite lookup_insert_ne; [done|]. congruence.
Qed.

Lemma stays_invariant i c opts : build_invariant (stays i c) opts.
Proof.
  assert (Hx : forall id x env b, stays i c b -> stays i c (AddExtension id x env b))
    by (intros id x env b Hb; unfold AddExtension; by case_bool_decide).
  split; try done; try (by intros; apply Hx); try (by intros p _; apply oauth2_preserves; intros; apply Hx);
    intros; each_component @AddReceiver_stays @AddProcessor_stays @AddExporter_stays.
Qed.

(** The options without the metric pipelines. *)
Definition without_metrics (opts : BuildOptions) : BuildOptions :=
  mkBuildOptions (bo_LogPipelines opts) (bo_TracePipelines opts) [] (bo_Cluster opts) (bo_Enrichments opts)
    (bo_ServiceEnrichment opts) (bo_ModuleVersion opts) (bo_GatewayNamespace opts) (bo_VpaActive opts).

(** After the logs, the identifier of a LogPipeline without OTLP input stands for the
    filter of the logs. *)
Lemma log_phase_drop opts b1 b2 lp :
  buildTracePipelines opts (mkBuilder NewConfig ∅) = Some (Ok b1) -> buildLogPipelines opts b1 = Some (Ok b2) ->
  lp ∈ bo_LogPipelines opts -> IsOTLPInputEnabled (li_OTLP (ls_Input (lp_Spec lp))) = false ->
  NoDup (map log_name (bo_LogPipelines opts)) ->
  stays drop_id (CFilter dropIfInputSourceOTLPProcessor) b2.
Proof.
  intros H1 H2 Hlp Hoff Hn.
  assert (Hk : registered log_drop b2).
  { eapply (build_log_preserves _ (without_metrics opts)); [by apply log_drop_invariant| |exact H2].
    eapply (build_trace_preserves _ (without_metrics opts)); [by apply log_drop_invariant| |exact H1].
    apply map_Forall_empty. }
  assert (Hc : closed_builder b2).
  { eapply build_log_preserves; [apply closed_invariant| |exact H2].
    eapply build_trace_preserves; [apply closed_invariant| |exact H1]. apply NewConfig_closed. }
  assert (Hp : svc_Pipelines (cf_Service (b_Config b2)) !! formatLogServicePipelineID lp
               = Some (log_service_pipeline opts lp)).
  { rewrite (buildLog_pipelines _ _ _ H2). rewrite add_pipelines_list.
    - apply lookup_union_Some_l, elem_of_list_to_map_1; [|apply list_elem_of_fmap; eauto].
      change (NoDup (map fst (map (fun lp => (formatLogServicePipelineID lp, log_service_pipeline opts lp))
                                (bo_LogPipelines opts)))).
      rewrite map_map. eapply (NoDup_map_inj log_name _ (fun s => "logs/" +:+ s)); [done|apply _|done].
    - change (NoDup (map fst (map (fun lp => (formatLogServicePipelineID lp, log_service_pipeline opts lp))
                                (bo_LogPipelines opts)))).
      rewrite map_map. eapply (NoDup_map_inj log_name _ (fun s => "logs/" +:+ s)); [done|apply _|done]. }
  destruct Hc as [Hc _]. destruct (Hc _ _ Hp) as (_ & Hpr & _). rewrite Forall_forall in Hpr.
  destruct (Hpr drop_id) as [c Hx]; [cbn; rewrite Hoff; set_solver|].
  unfold stays. rewrite Hx. f_equal. by apply (Hk _ _ Hx).
Qed.

Lemma Build_log_drop opts b lp :
  distinct_names opts -> Build opts = Some (Ok b) -> lp ∈ bo_LogPipelines opts ->
  IsOTLPInputEnabled (li_OTLP (ls_Input (lp_Spec lp))) = false ->
  cf_Processors (b_Config b) !! drop_id = Some (CFilter dropIfInputSourceOTLPProcessor).
Proof.
  intros Hd%distinct_names_sort Hb Hlp Hoff. unfold Build in Hb. apply andThen_ok in Hb as (b1 & H1 & Hb).
  apply andThen_ok in Hb as (b2 & H2 & H3).
  eapply (build_metric_preserves (stays drop_id _)); [apply stays_invariant| |exact H3].
  eapply log_phase_drop; [exact H1|exact H2|cbn; by rewrite elem_of_sort|done|apply Hd].
Qed.

End Shared.

(** ** Sample pipelines *)

Module Sample.
#[export] Instance reader : SecretReader := fun _ => Err NotFound.
(** A URL library on texts that appends paths. *)
#[export] Instance urls : URLOps := {|
  url_t := string;
  url_Parse s := Ok s;
  url_Path s := s;
  url_RawQuery _ := "";
  url_with _ p _ := p;
  url_String s := s;
  path_Join a b := a +:+ b
|}.

Definition meta (name : string) : ObjectMeta := mkMeta name ("uid-" +:+ name) 1 None false.
Definition output (endpoint path : string) : OTLPOutput :=
  mkOTLPOutput OTLPProtocolHTTP (mkValueType endpoint None) path None None None "".
Definition disabled : option OTLPInput := Some (mkOTLPInput (Some false) None).
Definition transform : slice TransformSpec :=
  Some [mkTransformSpec None (Some ["set(resource.attributes['a'], 'b')"])].

Definition trace (name endpoint : string) : TracePipeline :=
  mkTracePipeline (meta name) (mkTraceSpec (mkTraceOutput (Some (output endpoint "/v1"))) transform None)
    (mkTraceStatus []).
Definition log (name endpoint : string) (input : option OTLPInput) : LogPipeline :=
  mkLogPipeline (meta name)
    (mkLogSpec (mkLogInput None input) None (mkLogOutput "" None (Some (output endpoint ""))) None None None
       (Some [mkFilterSpec (Some ["IsMatch(body, 'x')"])]))
    (mkLogStatus [] None).
Definition metric (name endpoint : string) (input : option OTLPInput) : MetricPipeline :=
  mkMetricPipeline (meta name)
    (mkMetricSpec (mkMetricInput None None None input)
       (mkMetricOutput (Some (mkMetricOTLPOutput (output endpoint "") (Some TemporalityDelta)))) None None)
    (mkMetricStatus []).

Definition opts : BuildOptions :=
  mkBuildOptions [log "audit" "https://logs" None; log "app" "https://app" disabled]
    [trace "b" "https://b"; trace "a" "https://a"] [metric "m" "https://m" disabled]
    (mkClusterOptions "c" "u" "gcp") None "" "1.0.0" "kyma-system" false.

Definition result : builder :=
  match Build opts with Some (Ok b) => b | _ => mkBuilder NewConfig ∅ end.

Lemma succeeds : (match Build opts with Some (Ok _) => true | _ => false end) = true.
Proof. by vm_compute. Qed.

Lemma built : Build opts = Some (Ok result).
Proof. generalize succeeds. unfold result. by destruct (Build opts) as [[b|e]|]. Qed.

Lemma names : distinct_names opts.
Proof. split; [|split]; by apply (bool_decide_unpack _). Defined.
End Sample.
#[local] Existing Instance Sample.reader.
#[local] Existing Instance Sample.urls.

(** ** The theorems *)

(** C5. Every configuration the gateway builder returns is closed: each
    receiver, processor, exporter, connector and extension named in a service
    pipeline or in the service section is defined, and a connector is defined
    once for both of its ends, so that the collector finds every component it is
    told to use. *)
Theorem gateway_config_closed `{SecretReader} `{URLOps} opts b :
  Build opts = Some (Ok b) -> closed (b_Config b).
Proof. apply Build_closed. Qed.

Lemma gateway_config_closed_witness : closed (b_Config Sample.result).
Proof. exact (gateway_config_closed Sample.opts Sample.result Sample.built). Defined.

(** C9. The service pipelines of the gateway configuration are exactly those of
    the given pipelines: for each trace, log and metric pipeline its own one
    with the processors in the order of the code, and the shared metric input
    and enrichment pipelines when there is a metric pipeline. *)
Theorem gateway_service_pipelines `{SecretReader} `{URLOps} opts b :
  distinct_names opts -> Build opts = Some (Ok b) ->
  svc_Pipelines (cf_Service (b_Config b)) = list_to_map (gateway_pipelines opts).
Proof. apply Build_service_pipelines. Qed.

Lemma gateway_service_pipelines_witness :
  svc_Pipelines (cf_Service (b_Config Sample.result)) = list_to_map (gateway_pipelines Sample.opts).
Proof. exact (gateway_service_pipelines Sample.opts Sample.result Sample.names Sample.built). Defined.

(** C16. When pipeline names are DNS labels, the exporter of every pipeline
    reads its endpoint from its own environment variable, and that variable
    holds the endpoint resolved from the output of this very pipeline (no
    pipeline's data goes to another's backend); every other variable the
    exporter refers to is set too, when the output has its client certificate
    and key both or neither, as the rule of the CRD and the TLS validator
    demand. *)
Theorem gateway_exporter_own_endpoint `{SecretReader} `{URLOps} opts b r o :
  distinct_names opts -> label_names opts -> Build opts = Some (Ok b) -> (r, o) ∈ gateway_outputs opts ->
  exists ex endpoint,
    cf_Exporters (b_Config b) !! ComponentIDOTLPExporter (oo_Protocol o) r = Some (COTLPExporter ex) /\
    exporter_endpoint (pref_signalType r) ex = env_ref (formatEnvVarKey otlpEndpointVariablePrefix r) /\
    b_EnvVars b !! formatEnvVarKey otlpEndpointVariablePrefix r = Some endpoint /\
    resolveEndpointURL o = Some (Ok endpoint) /\
    (tls_pair o -> exporter_vars_set (b_EnvVars b) ex).
Proof. apply Build_exporters. Qed.

Lemma gateway_exporter_own_endpoint_witness :
  exists ex endpoint,
    cf_Exporters (b_Config Sample.result) !! "otlp_http/tracepipeline-a" = Some (COTLPExporter ex) /\
    b_EnvVars Sample.result !! "OTLP_ENDPOINT_TRACEPIPELINE_A" = Some endpoint.
Proof.
  destruct (gateway_exporter_own_endpoint Sample.opts Sample.result
              (TracePipelineRef (Sample.trace "a" "https://a")) (Sample.output "https://a" "/v1"))
    as (ex & e & H1 & _ & H2 & _).
  - apply Sample.names.
  - by apply (bool_decide_unpack _).
  - apply Sample.built.
  - apply (elem_of_trace_outputs _ (Sample.trace "a" "https://a")); [right; left|done].
  - exists ex, e. split; [exact H1|exact H2].
Defined.

(** C17. The transformations and filters of a user run in that user's pipeline
    only and are the user's: when pipelines of a kind have different names, and
    no name of a log or metric pipeline begins with the user-defined prefix of a
    signal (tracepipeline-user-defined, logpipeline-user-defined,
    metricpipeline-user-defined), the user-defined processor of a pipeline
    occurs in a service pipeline of the gateway exactly when that is a service
    pipeline of this pipeline and the pipeline has transformations or filters,
    and the processor is defined with them. *)
Theorem gateway_user_processors `{SecretReader} `{URLOps} opts b i r :
  distinct_names opts -> unreserved_names opts -> Build opts = Some (Ok b) ->
  pref_signalType r <> SignalTypeLogFluentBit ->
  ((exists p, svc_Pipelines (cf_Service (b_Config b)) !! i = Some p /\
              ComponentIDUserDefinedTransformProcessor r ∈ sp_Processors p) <->
   exists x, (i, (r, x)) ∈ transforming opts) /\
  ((exists p, svc_Pipelines (cf_Service (b_Config b)) !! i = Some p /\
              ComponentIDUserDefinedFilterProcessor r ∈ sp_Processors p) <->
   exists x, (i, (r, x)) ∈ filtering opts) /\
  (forall x, (i, (r, x)) ∈ transforming opts ->
     cf_Processors (b_Config b) !! ComponentIDUserDefinedTransformProcessor r = Some x) /\
  (forall x, (i, (r, x)) ∈ filtering opts ->
     cf_Processors (b_Config b) !! ComponentIDUserDefinedFilterProcessor r = Some x).
Proof.
  intros Hd Ha%unreserved_apart Hb Hs. setoid_rewrite (built_service_pipeline opts Hd b i _ Hb). split_and!.
  - split; [intros (p & Hp & Hr); by eapply transforms_located|]. intros (x & Hx). by apply transforms_listed in Hx as [_ ?].
  - split; [intros (p & Hp & Hr); by eapply filters_located|]. intros (x & Hx). by apply filters_listed in Hx as [_ ?].
  - intros x (Hx & p & Hp & Hr)%transforms_listed. by eapply Build_user_transforms.
  - intros x (Hx & p & Hp & Hr)%filters_listed. by eapply Build_user_filters.
Qed.

Lemma gateway_user_processors_witness :
  cf_Processors (b_Config Sample.result) !! "transform/tracepipeline-user-defined-a" =
    Some (CTransform (TraceTransformProcessor (TransformSpecsToProcessorStatements Sample.transform))).
Proof.
  destruct (gateway_user_processors Sample.opts Sample.result "traces/a"
    (TracePipelineRef (Sample.trace "a" "https://a"))) as (_ & _ & Ht & _).
  - apply Sample.names.
  - by repeat constructor.
  - apply Sample.built.
  - done.
  - apply Ht. right; left.
Defined.

(** C18. The gateway configuration does not depend on the order in which the
    pipelines were listed: for pipelines of distinct names Build gives the same
    result, errors included, for any permutation of each list (so that an
    unchanged cluster never causes a new checksum and a restart). *)
Theorem gateway_order_irrelevant `{SecretReader} `{URLOps} opts opts' :
  distinct_names opts -> reordered opts opts' -> Build opts = Build opts'.
Proof. intros Hd Hr. unfold Build. by rewrite (sort_reordered _ _ Hd Hr). Qed.

Lemma gateway_order_irrelevant_witness :
  let opts' := mkBuildOptions (reverse (bo_LogPipelines Sample.opts)) (reverse (bo_TracePipelines Sample.opts))
    (bo_MetricPipelines Sample.opts) (bo_Cluster Sample.opts) None "" "1.0.0" "kyma-system" false in
  Build Sample.opts = Build opts'.
Proof.
  intros opts'. apply (gateway_order_irrelevant Sample.opts opts' Sample.names).
  split; [|split; [|split]]; [symmetry; apply reverse_Permutation|symmetry; apply reverse_Permutation|done|done].
Defined.

(** A log pipeline and a metric pipeline that both disable the OTLP input share
    one processor identifier: the metric pipeline runs the processor that drops
    OTLP data, but its definition is that of the log pipeline and has no
    condition on metrics, so the OTLP metrics are not dropped. *)
Theorem gateway_metrics_not_dropped `{SecretReader} `{URLOps} opts b lp mp :
  distinct_names opts -> Build opts = Some (Ok b) ->
  lp ∈ bo_LogPipelines opts -> IsOTLPInputEnabled (li_OTLP (ls_Input (lp_Spec lp))) = false ->
  mp ∈ bo_MetricPipelines opts -> IsOTLPInputEnabled (mi_OTLP (ms_Input (mp_Spec mp))) = false ->
  exists p f,
    svc_Pipelines (cf_Service (b_Config b)) !! formatMetricOutputServicePipelineID mp = Some p /\
    ComponentIDDropIfInputSourceOTLPProcessor ∈ sp_Processors p /\
    cf_Processors (b_Config b) !! ComponentIDDropIfInputSourceOTLPProcessor = Some (CFilter f) /\
    fi_Metrics f = None.
Proof.
  intros Hd Hb Hlp Hl Hmp Hm. exists (metric_service_pipeline mp), dropIfInputSourceOTLPProcessor. split_and!.
  - rewrite (Build_service_pipelines _ _ Hd Hb). apply elem_of_list_to_map_1; [by apply gateway_ids|].
    unfold gateway_pipelines. rewrite !elem_of_app. do 3 right. apply list_elem_of_fmap. eauto.
  - cbn. rewrite Hm. by left.
  - by eapply Build_log_drop.
  - done.
Qed.

Lemma gateway_metrics_not_dropped_witness :
  exists f, cf_Processors (b_Config Sample.result) !! ComponentIDDropIfInputSourceOTLPProcessor = Some (CFilter f) /\
    fi_Metrics f = None.
Proof.
  destruct (gateway_metrics_not_dropped Sample.opts Sample.result (Sample.log "app" "https://app" Sample.disabled)
              (Sample.metric "m" "https://m" Sample.disabled)) as (p & f & _ & _ & Hf & Hn).
  - apply Sample.names.
  - apply Sample.built.
  - right; left.
  - done.
  - left.
  - done.
  - exists f. split; [exact Hf|exact Hn].
Defined.

(** ** Names with dots

    Two TracePipelines whose names differ in a dot only share the endpoint variable: both
    exporters send to the endpoint of the second one. *)
Definition dotted : BuildOptions :=
  mkBuildOptions [] [Sample.trace "a-b" "https://one"; Sample.trace "a.b" "https://two"] []
    (mkClusterOptions "c" "u" "gcp") None "" "1.0.0" "kyma-system" false.

Definition endpoint_reference (b : builder) (id : string) : option string :=
  match cf_Exporters (b_Config b) !! id with Some (COTLPExporter ex) => Some (ex_TracesEndpoint ex) | _ => None end.

(** Names that differ only in a dot and a dash collide: for two trace pipelines
    a.b and a-b the gateway configuration has two exporters that read the same
    environment variable, which holds the endpoint of one of them. *)
Theorem gateway_dotted_names_collide :
  match Build dotted with
  | Some (Ok b) =>
      endpoint_reference b "otlp_http/tracepipeline-a-b" = Some (env_ref "OTLP_ENDPOINT_TRACEPIPELINE_A_B") /\
      endpoint_reference b "otlp_http/tracepipeline-a.b" = Some (env_ref "OTLP_ENDPOINT_TRACEPIPELINE_A_B") /\
      b_EnvVars b !! "OTLP_ENDPOINT_TRACEPIPELINE_A_B" = Some "https://two/v1"
  | _ => False
  end.
Proof. by vm_compute. Qed.
