(* ===== verification/LogAgentConfig.v ===== *)
(** * The configuration of the log agent (internal/otelcollector/config/logagent)

    config_builder.go and filelog_receiver.go: a collector that reads the log files of
    the containers of a node, with one file log receiver, one service pipeline and one
    exporter per LogPipeline. *)
From stdpp Require Import base gmap strings list pretty.
From Stdlib Require Import Ascii.
From S2P Require Import Prelude Kube GoErrors GoStrings Conversion.
From S2P Require Import ApiV1beta1 ApiOperator SecretRef Coordination.
From S2P Require Import CollectorTypes CollectorBuilder CollectorProcessors CollectorExporter GatewayConfig.
Local Open Scope string_scope.

(** ** [%q] of package fmt *)

Definition hex_digit (n : nat) : ascii :=
  if (n <? 10)%nat then ascii_of_nat (48 + n) else ascii_of_nat (87 + n).

(** One byte of a quoted text. Bytes from 128 on belong to runes that are printed as they
    are, which holds for valid UTF-8 of printable characters. *)
Definition quote_byte (c : ascii) : bytes :=
  let n := nat_of_ascii c in
  if (n =? 34)%nat || (n =? 92)%nat then [ascii_of_nat 92; c]
  else if (n =? 7)%nat then to_bytes "\a"
  else if (n =? 8)%nat then to_bytes "\b"
  else if (n =? 9)%nat then to_bytes "\t"
  else if (n =? 10)%nat then to_bytes "\n"
  else if (n =? 11)%nat then to_bytes "\v"
  else if (n =? 12)%nat then to_bytes "\f"
  else if (n =? 13)%nat then to_bytes "\r"
  else if (n <? 32)%nat || (n =? 127)%nat
  then (to_bytes "\x" ++ [hex_digit (n / 16); hex_digit (n mod 16)])%list
  else [c].

Definition Quote (s : string) : string := quoted (of_bytes (concat (map quote_byte (to_bytes s)))).

(** ** filelog_receiver.go *)

Definition initialInterval : string := "5s".
Definition maxInterval : string := "30s".
Definition maxElapsedTime : string := "300s".
Definition traceParentExpression : string :=
  "^[0-9a-f]{2}-(?P<trace_id>[0-9a-f]{32})-(?P<span_id>[0-9a-f]{16})-(?P<trace_flags>[0-9a-f]{2})$".
Definition attributeKeyLevel : string := "level".
Definition attributeKeyLogLevel : string := "log.level".
Definition attributeKeyStream : string := "stream".
Definition attributeKeyMsg : string := "msg".
Definition attributeKeyMessage : string := "message".
Definition attributeKeyTraceID : string := "trace_id".
Definition attributeKeySpanID : string := "span_id".
Definition attributeKeyTraceFlags : string := "trace_flags".
Definition attributeKeyTraceParent : string := "traceparent".
Definition operatorNoop : string := "noop".

(** Names of packages names and commonresources. *)
Definition names_FluentBit : string := "telemetry-fluent-bit".
Definition names_LogAgent : string := "telemetry-log-agent".
Definition SystemLogCollectorName : string := "system-logs-collector".
Definition SystemLogAgentName : string := "system-logs-agent".

Definition makePath (namespace pod container : string) : string :=
  "/var/log/pods/" +:+ namespace +:+ "_" +:+ pod +:+ "/" +:+ container +:+ "/*.log".

(** The texts of a selector, or all when there are none. *)
Definition createIncludePath (runtime : option LogPipelineRuntimeInput) : list string :=
  let includeNamespaces :=
    match runtime ≫= lri_Namespaces with
    | Some ns => if (0 <? slen (ns_Include ns))%nat then elems (ns_Include ns) else ["*"]
    | None => ["*"]
    end in
  let includeContainers :=
    match runtime ≫= lri_Containers with
    | Some cs => if (0 <? slen (cs_Include cs))%nat then elems (cs_Include cs) else ["*"]
    | None => ["*"]
    end in
  concat (map (fun ns => map (fun container => makePath ns "*" container) includeContainers) includeNamespaces).

Definition createExcludePath (runtime : option LogPipelineRuntimeInput) (collectAgentLogs : bool) : list string :=
  let excludePath :=
    if negb collectAgentLogs
    then [makePath "kyma-system" (names_FluentBit +:+ "-*") "fluent-bit";
          makePath "kyma-system" (names_LogAgent +:+ "-*") "collector"]
    else [] in
  let excludePath :=
    (excludePath ++ [makePath "kyma-system" ("*" +:+ SystemLogAgentName +:+ "-*") "collector";
                     makePath "kyma-system" ("*" +:+ SystemLogCollectorName +:+ "-*") "collector"])%list in
  let excludeNamespaces :=
    match runtime ≫= lri_Namespaces with
    | Some ns => elems (ns_Exclude ns)
    | None => System
    end in
  let excludeContainers :=
    match runtime ≫= lri_Containers with
    | Some cs => elems (cs_Exclude cs)
    | None => []
    end in
  (excludePath
   ++ map (fun ns => "/var/log/pods/" +:+ ns +:+ "_*/*/*.log") excludeNamespaces
   ++ map (fun container => "/var/log/pods/*_*/" +:+ container +:+ "/*.log") excludeContainers)%list.

(** An operator with an identifier and a type, and the assignment of its other fields. *)
Definition no_attribute : OperatorAttribute := mkOperatorAttribute "".
Definition no_trace : TraceAttribute := mkTraceAttribute no_attribute no_attribute no_attribute.
Definition operator (id : string) (type : OperatorType) : Operator :=
  mkOperator id type None "" "" "" "" "" "" "" no_attribute no_attribute no_attribute "" no_trace [] "" "".

Definition op_from_to (from to : string) (o : Operator) : Operator :=
  mkOperator (op_ID o) (op_Type o) (op_AddMetadataFromFilePath o) (op_Format o) from to (op_IfExpr o)
    (op_ParseFrom o) (op_ParseTo o) (op_Field o) (op_TraceID o) (op_SpanID o) (op_TraceFlags o) (op_Regex o)
    (op_Trace o) (op_Routes o) (op_Default o) (op_Output o).
Definition op_if (e : string) (o : Operator) : Operator :=
  mkOperator (op_ID o) (op_Type o) (op_AddMetadataFromFilePath o) (op_Format o) (op_From o) (op_To o) e
    (op_ParseFrom o) (op_ParseTo o) (op_Field o) (op_TraceID o) (op_SpanID o) (op_TraceFlags o) (op_Regex o)
    (op_Trace o) (op_Routes o) (op_Default o) (op_Output o).
Definition op_parse (from to : string) (o : Operator) : Operator :=
  mkOperator (op_ID o) (op_Type o) (op_AddMetadataFromFilePath o) (op_Format o) (op_From o) (op_To o) (op_IfExpr o)
    from to (op_Field o) (op_TraceID o) (op_SpanID o) (op_TraceFlags o) (op_Regex o)
    (op_Trace o) (op_Routes o) (op_Default o) (op_Output o).
Definition op_field (f : string) (o : Operator) : Operator :=
  mkOperator (op_ID o) (op_Type o) (op_AddMetadataFromFilePath o) (op_Format o) (op_From o) (op_To o) (op_IfExpr o)
    (op_ParseFrom o) (op_ParseTo o) f (op_TraceID o) (op_SpanID o) (op_TraceFlags o) (op_Regex o)
    (op_Trace o) (op_Routes o) (op_Default o) (op_Output o).
Definition op_routes (default : string) (routes : list Route) (o : Operator) : Operator :=
  mkOperator (op_ID o) (op_Type o) (op_AddMetadataFromFilePath o) (op_Format o) (op_From o) (op_To o) (op_IfExpr o)
    (op_ParseFrom o) (op_ParseTo o) (op_Field o) (op_TraceID o) (op_SpanID o) (op_TraceFlags o) (op_Regex o)
    (op_Trace o) routes default (op_Output o).

Definition makeContainerParser : Operator :=
  mkOperator "containerd-parser" Container (Some true) "containerd" "" "" "" "" "" "" no_attribute no_attribute
    no_attribute "" no_trace [] "" "".
Definition makeMoveToLogStream : Operator :=
  op_if (AttributeIsNotNil attributeKeyStream)
    (op_from_to (Attribute attributeKeyStream) (Attribute "log.iostream") (operator "move-to-log-stream" Move)).
Definition makeDropAttributeLogTag : Operator :=
  op_field (Attribute "logtag") (operator "drop-attribute-log-tag" Remove).
Definition makeBodyRouter : Operator :=
  op_routes operatorNoop [mkRoute "body matches '^{.*}$'" "json-parser"] (operator "body-router" Router).
Definition makeJSONParser : Operator := op_parse "body" "attributes" (operator "json-parser" JsonParser).
Definition makeMoveBodyToLogOriginal : Operator :=
  op_from_to "body" (Attribute "log.original") (operator "move-body-to-attributes-log-original" Move).
Definition makeRemoveBody : Operator := op_field "body" (operator "remove-body" Remove).
Definition makeMoveMessageToBody : Operator :=
  op_if (AttributeIsNotNil attributeKeyMessage)
    (op_from_to (Attribute attributeKeyMessage) "body" (operator "move-message-to-body" Move)).
Definition makeMoveMsgToBody : Operator :=
  op_if (AttributeIsNotNil attributeKeyMsg)
    (op_from_to (Attribute attributeKeyMsg) "body" (operator "move-msg-to-body" Move)).
Definition makeSeverityParserFromLevel : Operator :=
  op_if (AttributeIsNotNil attributeKeyLevel)
    (op_parse (Attribute attributeKeyLevel) "" (operator "parse-level" SeverityParser)).
Definition makeRemoveLevel : Operator :=
  op_if (AttributeIsNotNil attributeKeyLevel)
    (op_field (Attribute attributeKeyLevel) (operator "remove-level" Remove)).
Definition makeSeverityParserFromLogLevel : Operator :=
  op_if (AttributeIsNotNil attributeKeyLogLevel)
    (op_parse (Attribute attributeKeyLogLevel) "" (operator "parse-log-level" SeverityParser)).
Definition makeRemoveLogLevel : Operator :=
  op_if (AttributeIsNotNil attributeKeyLogLevel)
    (op_field (Attribute attributeKeyLogLevel) (operator "remove-log-level" Remove)).
Definition makeTraceRouter : Operator :=
  op_routes operatorNoop
    [mkRoute (AttributeIsNotNil attributeKeyTraceID) "trace-parser";
     mkRoute (JoinWithAnd [AttributeIsNotNil attributeKeyTraceParent;
                           Attribute attributeKeyTraceParent +:+ " matches '" +:+ traceParentExpression +:+ "'"])
       "trace-parent-parser"]
    (operator "trace-router" Router).
Definition makeTraceParser : Operator :=
  mkOperator "trace-parser" TraceParser None "" "" "" "" "" "" ""
    (mkOperatorAttribute (Attribute attributeKeyTraceID)) (mkOperatorAttribute (Attribute attributeKeySpanID))
    (mkOperatorAttribute (Attribute attributeKeyTraceFlags)) "" no_trace [] "" "remove-trace-id".
Definition makeTraceParentParser : Operator :=
  mkOperator "trace-parent-parser" RegexParser None "" "" "" "" (Attribute attributeKeyTraceParent) "" ""
    no_attribute no_attribute no_attribute traceParentExpression
    (mkTraceAttribute (mkOperatorAttribute (Attribute attributeKeyTraceID))
       (mkOperatorAttribute (Attribute attributeKeySpanID))
       (mkOperatorAttribute (Attribute attributeKeyTraceFlags)))
    [] "" "remove-trace-parent".
Definition makeRemoveTraceParent : Operator :=
  op_field (Attribute attributeKeyTraceParent) (operator "remove-trace-parent" Remove).
Definition makeRemoveTraceID : Operator :=
  op_if (AttributeIsNotNil attributeKeyTraceID)
    (op_field (Attribute attributeKeyTraceID) (operator "remove-trace-id" Remove)).
Definition makeRemoveSpanID : Operator :=
  op_if (AttributeIsNotNil attributeKeySpanID)
    (op_field (Attribute attributeKeySpanID) (operator "remove-span-id" Remove)).
Definition makeRemoveTraceFlags : Operator :=
  op_if (AttributeIsNotNil attributeKeyTraceFlags)
    (op_field (Attribute attributeKeyTraceFlags) (operator "remove-trace-flags" Remove)).
Definition makeNoop : Operator := operator operatorNoop Noop.

(** A nil runtime input or a nil flag is dereferenced. *)
Definition makeOperators (lp : LogPipeline) : option (list Operator) :=
  keepOriginalBody ← li_Runtime (ls_Input (lp_Spec lp)) ≫= lri_KeepOriginalBody;
  Some ([makeContainerParser; makeMoveToLogStream; makeDropAttributeLogTag; makeBodyRouter; makeJSONParser]
        ++ [if (keepOriginalBody : bool) then makeMoveBodyToLogOriginal else makeRemoveBody]
        ++ [makeMoveMessageToBody; makeMoveMsgToBody; makeSeverityParserFromLevel; makeRemoveLevel;
            makeSeverityParserFromLogLevel; makeRemoveLogLevel; makeTraceRouter; makeTraceParentParser;
            makeTraceParser; makeRemoveTraceParent; makeRemoveTraceID; makeRemoveSpanID; makeRemoveTraceFlags;
            makeNoop])%list.

Definition fileLogReceiver (lp : LogPipeline) (collectAgentLogs : bool) : option FileLogReceiverConfig :=
  let runtime := li_Runtime (ls_Input (lp_Spec lp)) in
  operators ← makeOperators lp;
  Some (mkFileLog (createExcludePath runtime collectAgentLogs) (createIncludePath runtime) (Some false) (Some true)
          "beginning" "file_storage" (mkRetryOnFailure true initialInterval maxInterval maxElapsedTime) operators).

(** ** config_builder.go *)

Module LogAgent.

Definition checkpointVolumePathSubdir : string := "telemetry-log-agent/file-log-receiver".
Definition CheckpointVolumePath : string := "/tmp".
Definition exporterQueueSize : Z := 200000000.
Definition exporterBatchMinSize : Z := 2000000.
Definition exporterBatchMaxSize : Z := 4000000.
(** Nanoseconds. *)
Definition exporterBatchFlushTimeout : Z := 10 * 1000000000.

Record BuildOptions := mkBuildOptions {
  bo_Cluster : ClusterOptions;
  bo_InstrumentationScopeVersion : string;
  bo_AgentNamespace : string;
  bo_Enrichments : option EnrichmentSpec;
  bo_ServiceEnrichment : string;
  bo_VpaActive : bool
}.

Definition otel_enrichment (opts : BuildOptions) : bool :=
  str_eqb (bo_ServiceEnrichment opts) AnnotationValueTelemetryServiceEnrichmentOtel.

Definition formatLogServicePipelineID (lp : LogPipeline) : string := "logs/" +:+ log_name lp.
Definition formatFileLogReceiverID : ComponentIDFunc LogPipeline :=
  fun lp => Some (ComponentIDFileLogReceiver (log_name lp)).
Definition formatUserDefinedTransformProcessorID : ComponentIDFunc LogPipeline :=
  fun lp => Some (ComponentIDUserDefinedTransformProcessor (LogPipelineRef lp)).
Definition formatUserDefinedFilterProcessorID : ComponentIDFunc LogPipeline :=
  fun lp => Some (ComponentIDUserDefinedFilterProcessor (LogPipelineRef lp)).
Definition formatOTLPExporterID : ComponentIDFunc LogPipeline :=
  fun lp => o ← log_output lp; Some (ComponentIDOTLPExporter (oo_Protocol o) (LogPipelineRef lp)).

(** A nil output is dereferenced. *)
Definition shouldEnableOAuth2 (lp : LogPipeline) : option bool :=
  o ← log_output lp;
  Some (match oo_Authentication o ≫= ao_OAuth2 with Some _ => true | None => false end).

Section Builder.
Context `{SecretReader} `{URLOps}.

Definition addFileLogReceiver (collectAgentLogs : bool) : BuildComponentFunc LogPipeline :=
  AddReceiver formatFileLogReceiverID
    (fun lp => c ← fileLogReceiver lp collectAgentLogs; Some (Some (CFileLog c))).
Definition addMemoryLimiterProcessor : BuildComponentFunc LogPipeline :=
  AddProcessor (StaticComponentID ComponentIDMemoryLimiterProcessor)
    (const_config (Some (CMemoryLimiter (mkMemoryLimiter "5s" 80 25)))).
Definition addSetInstrumentationScopeToRuntimeProcessor (opts : BuildOptions) : BuildComponentFunc LogPipeline :=
  AddProcessor (StaticComponentID ComponentIDSetInstrumentationScopeRuntimeProcessor)
    (const_config (Some (CTransform (LogTransformProcessor
       [mkStatements (Some ["set(scope.version, " +:+ Quote (bo_InstrumentationScopeVersion opts) +:+ ")";
                            "set(scope.name, " +:+ Quote InstrumentationScopeRuntime +:+ ")"]) None])))).
Definition addDropUnknownServiceNameProcessor (opts : BuildOptions) : BuildComponentFunc LogPipeline :=
  AddProcessor (StaticComponentID ComponentIDDropUnknownServiceNameProcessor)
    (const_config (if negb (otel_enrichment opts) then None
                   else Some (CTransform (LogTransformProcessor DropUnknownServiceNameProcessorStatements)))).
Definition addK8sAttributesProcessor (opts : BuildOptions) : BuildComponentFunc LogPipeline :=
  AddProcessor (StaticComponentID ComponentIDK8sAttributesProcessor)
    (const_config (Some (CK8sAttributes (K8sAttributesProcessor (bo_Enrichments opts) (otel_enrichment opts))))).
Definition addRestoreOtelServiceAttrsProcessor (opts : BuildOptions) : BuildComponentFunc LogPipeline :=
  AddProcessor (StaticComponentID ComponentIDRestoreOtelServiceAttrsProcessor)
    (const_config (if negb (otel_enrichment opts) then None
                   else Some (CTransform (LogTransformProcessor RestoreOtelServiceAnnotationsProcessorStatements)))).
Definition addInsertClusterAttributesProcessor (opts : BuildOptions) : BuildComponentFunc LogPipeline :=
  AddProcessor (StaticComponentID ComponentIDInsertClusterAttributesProcessor)
    (const_config (Some (CTransform (LogTransformProcessor
       (InsertClusterAttributesProcessorStatements (bo_Cluster opts)))))).
Definition addServiceEnrichmentProcessor (opts : BuildOptions) : BuildComponentFunc LogPipeline :=
  AddProcessor (StaticComponentID ComponentIDServiceEnrichmentProcessor)
    (const_config (if otel_enrichment opts then None else Some (CServiceEnrichment ResolveServiceName))).
Definition addDropKymaAttributesProcessor : BuildComponentFunc LogPipeline :=
  AddProcessor (StaticComponentID ComponentIDDropKymaAttributesProcessor)
    (const_config (Some (CTransform (LogTransformProcessor DropKymaAttributesProcessorStatements)))).
Definition addUserDefinedTransformProcessor : BuildComponentFunc LogPipeline :=
  AddProcessor formatUserDefinedTransformProcessorID
    (fun lp =>
       let transforms := ls_Transforms (lp_Spec lp) in
       Some (if (slen transforms =? 0)%nat then None
             else Some (CTransform (LogTransformProcessor (TransformSpecsToProcessorStatements transforms))))).
Definition addUserDefinedFilterProcessor : BuildComponentFunc LogPipeline :=
  AddProcessor formatUserDefinedFilterProcessorID
    (fun lp =>
       let filters := ls_Filters (lp_Spec lp) in
       Some (if is_nil filters then None else Some (CFilter (LogFilterProcessor filters)))).

Definition sending_queue : SendingQueue :=
  NewSendingQueue exporterQueueSize
    [WithSizer SizerBytes;
     WithBatch (mkBatch exporterBatchMinSize exporterBatchMaxSize exporterBatchFlushTimeout "")].

Definition addOTLPExporter : BuildComponentFunc LogPipeline :=
  AddExporter formatOTLPExporterID
    (fun lp => o ← log_output lp; OTLPExporter o (LogPipelineRef lp) sending_queue).

Definition addOAuth2Extension (lp : LogPipeline) (b : builder) : outcome :=
  o ← log_output lp;
  oauth2 ← oo_Authentication o ≫= ao_OAuth2;
  add_oauth2_extension (log_name lp) oauth2 (LogPipelineRef lp) b.

Definition components (collectAgentLogs : bool) (opts : BuildOptions) : list (BuildComponentFunc LogPipeline) :=
  [addFileLogReceiver collectAgentLogs;
   addMemoryLimiterProcessor;
   addSetInstrumentationScopeToRuntimeProcessor opts;
   addDropUnknownServiceNameProcessor opts;
   addK8sAttributesProcessor opts;
   addRestoreOtelServiceAttrsProcessor opts;
   addInsertClusterAttributesProcessor opts;
   addServiceEnrichmentProcessor opts;
   addDropKymaAttributesProcessor;
   addUserDefinedTransformProcessor;
   addUserDefinedFilterProcessor;
   addOTLPExporter].

Definition build_pipeline (collectAgentLogs : bool) (opts : BuildOptions) (pipeline : LogPipeline) (b : builder) :
    outcome :=
  enable ← shouldEnableOAuth2 pipeline;
  andThen (if (enable : bool) then addOAuth2Extension pipeline b else Some (Ok b)) (fun b =>
  wrap_err "failed to add service pipeline: "
    (AddServicePipeline pipeline (formatLogServicePipelineID pipeline) (components collectAgentLogs opts) b)).

(** [(b *Builder) Build]; [collectAgentLogs] is a field of the builder. *)
Definition Build (collectAgentLogs : bool) (pipelines : list LogPipeline) (opts : BuildOptions) : outcome :=
  let pipelines := sort_by_name log_name pipelines in
  let b := AddExtension ComponentIDFileStorageExtension
             (CFileStorage (mkFileStorage true (CheckpointVolumePath +:+ "/" +:+ checkpointVolumePathSubdir)))
             ∅ (mkBuilder NewConfig ∅) in
  for_each (build_pipeline collectAgentLogs opts) pipelines b.

End Builder.
End LogAgent.
