(* ===== verification/FluentBitConfigBuilder.v ===== *)
(** * The Fluent Bit configuration (internal/fluentbit/config/builder)

    The sections file of a pipeline, the files, and the two Secrets with environment
    variables and TLS files. A Go string is the list of its bytes where the code builds
    text from it. *)
From stdpp Require Import base gmap strings list sorting.
From Stdlib Require Import Ascii.
From S2P Require Import Prelude Kube GoErrors GoStrings Conversion.
From S2P Require Import ApiV1beta1 SecretRef TLSCert LogOtelReconciler FluentBitReconciler LogAgentConfig.
Local Open Scope string_scope.

Abbreviation lit := to_bytes.
Definition newline : ascii := ascii_of_nat 10.
Definition blank : ascii := ascii_of_nat 32.

(** ** section_builder.go *)

Record SectionBuilder := mkSectionBuilder {
  sb_params : list SectionParameter;
  sb_keyLen : nat;
  sb_builder : bytes
}.

Definition NewInputSectionBuilder : SectionBuilder := mkSectionBuilder [] 0 (lit "[INPUT]" ++ [newline])%list.
Definition NewFilterSectionBuilder : SectionBuilder := mkSectionBuilder [] 0 (lit "[FILTER]" ++ [newline])%list.
Definition NewOutputSectionBuilder : SectionBuilder := mkSectionBuilder [] 0 (lit "[OUTPUT]" ++ [newline])%list.

Definition bytes_ltb (a b : bytes) : bool := str_ltb (of_bytes a) (of_bytes b).
Definition bytes_eqb (a b : bytes) : bool := bool_decide (a = b).

(** The function given to [sort.Slice]. *)
Definition param_less (i j : SectionParameter) : bool :=
  if negb (bytes_eqb (par_Key i) (par_Key j)) then
    if bytes_eqb (par_Key i) (lit "name") then true
    else if bytes_eqb (par_Key j) (lit "name") then false
    else if bytes_eqb (par_Key i) (lit "match") then true
    else if bytes_eqb (par_Key j) (lit "match") then false
    else bytes_ltb (par_Key i) (par_Key j)
  else bytes_ltb (par_Value i) (par_Value j).

Definition param_le : relation SectionParameter := fun i j => param_less j i = false.
#[export] Instance param_le_dec : RelDecision param_le.
Proof. intros i j. unfold param_le. apply _. Defined.

(** [strings.Repeat(" ", n)] *)
Definition blanks (n : nat) : bytes := repeat blank n.

(** The text of a parameter; the keys are no longer than [keyLen]. *)
Definition param_line (keyLen : nat) (p : SectionParameter) : bytes :=
  (blanks 4 ++ par_Key p ++ blanks (keyLen - length (par_Key p) + 1) ++ par_Value p ++ [newline])%list.

Definition SectionBuilder_Build (sb : SectionBuilder) : bytes :=
  let params := merge_sort param_le (sb_params sb) in
  (sb_builder sb ++ concat (map (param_line (sb_keyLen sb)) params) ++ [newline])%list.

Definition AddConfigParam (key value : bytes) (sb : SectionBuilder) : SectionBuilder :=
  mkSectionBuilder (sb_params sb ++ [mkParameter (ToLower key) value])%list
    (if (sb_keyLen sb <? length key)%nat then length key else sb_keyLen sb) (sb_builder sb).

Definition AddIfNotEmpty (key value : bytes) (sb : SectionBuilder) : SectionBuilder :=
  if negb (bytes_eqb value []) then AddConfigParam key value sb else sb.

Definition AddIfNotEmptyOrDefault (key value defaultValue : bytes) (sb : SectionBuilder) : SectionBuilder :=
  if bytes_eqb value [] then AddConfigParam key defaultValue sb else AddConfigParam key value sb.

Definition add_params (ps : list SectionParameter) (sb : SectionBuilder) : SectionBuilder :=
  fold_left (fun sb p => AddConfigParam (par_Key p) (par_Value p) sb) ps sb.

(** The loop of [parseMultiline]: a line without a blank is skipped. *)
Fixpoint parse_multiline (result : list SectionParameter) (lines : list bytes) : list SectionParameter :=
  match lines with
  | [] => result
  | line :: rest =>
      let line := TrimSpace line in
      if (length line =? 0)%nat || prefixb (lit "#") line then parse_multiline result rest
      else
        match cut " "%char line with
        | None => parse_multiline result rest
        | Some (key, value) =>
            parse_multiline (result ++ [mkParameter (ToLower (TrimSpace key)) (TrimSpace value)])%list rest
        end
  end.

Definition parseMultiline (section : string) : list SectionParameter :=
  parse_multiline [] (split_lines (lit section)).

(** [strings.Join(elems, sep)] *)
Fixpoint join (sep : bytes) (elems : list bytes) : bytes :=
  match elems with
  | [] => []
  | [x] => x
  | x :: rest => (x ++ sep ++ join sep rest)%list
  end.

(** ** input.go *)

Abbreviation name_of p := (lit (om_Name (lp_ObjectMeta p))).

(** [fmt.Sprintf("%s.*", name)] *)
Definition tag_of (name : bytes) : bytes := (name ++ lit ".*")%list.

Definition createInputSection (pipeline : LogPipeline) (includePath excludePath : bytes) : bytes :=
  SectionBuilder_Build
    (AddConfigParam (lit "mem_buf_limit") (lit "5MB")
    (AddConfigParam (lit "read_from_head") (lit "true")
    (AddConfigParam (lit "storage.type") (lit "filesystem")
    (AddConfigParam (lit "db.compare_filename") (lit "on")
    (AddConfigParam (lit "db") (lit "/data/flb_" ++ name_of pipeline ++ lit ".db")%list
    (AddConfigParam (lit "skip_long_lines") (lit "on")
    (AddConfigParam (lit "tag") (tag_of (name_of pipeline))
    (AddConfigParam (lit "multiline.parser") (lit "cri")
    (AddIfNotEmpty (lit "exclude_path") excludePath
    (AddConfigParam (lit "path") includePath
    (AddConfigParam (lit "alias") (name_of pipeline)
    (AddConfigParam (lit "name") (lit "tail") NewInputSectionBuilder)))))))))))).

Definition makeLogPath (namespace pod container : string) : bytes :=
  lit ("/var/log/pods/" +:+ namespace +:+ "_" +:+ pod +:+ "/" +:+ container +:+ "/*.log").

(** [if len(selected) > 0 { names = selected }] *)
Definition nonempty_or (selected : slice string) (names : list string) : list string :=
  if (0 <? slen selected)%nat then elems selected else names.

Definition createIncludePath (pipeline : LogPipeline) : bytes :=
  let runtime := li_Runtime (ls_Input (lp_Spec pipeline)) in
  let includeNamespaces :=
    match runtime ≫= lri_Namespaces with Some ns => nonempty_or (ns_Include ns) ["*"] | None => ["*"] end in
  let includeContainers :=
    match runtime ≫= lri_Containers with Some cs => nonempty_or (cs_Include cs) ["*"] | None => ["*"] end in
  join (lit ",")
    (concat (map (fun ns => map (fun container => makeLogPath ns "*" container) includeContainers) includeNamespaces)).

Definition createExcludePath (pipeline : LogPipeline) (collectAgentLogs : bool) : bytes :=
  let runtime := li_Runtime (ls_Input (lp_Spec pipeline)) in
  let own := if negb collectAgentLogs then [makeLogPath "kyma-system" (names_FluentBit +:+ "-*") "fluent-bit"] else [] in
  let agents :=
    [makeLogPath "kyma-system" ("*" +:+ SystemLogAgentName +:+ "-*") "collector";
     makeLogPath "kyma-system" ("*" +:+ SystemLogCollectorName +:+ "-*") "collector";
     makeLogPath "kyma-system" (names_LogAgent +:+ "-*") "collector"] in
  let excludeNamespaces :=
    match runtime ≫= lri_Namespaces with Some ns => elems (ns_Exclude ns) | None => System end in
  let excludeContainers :=
    match runtime ≫= lri_Containers with Some cs => elems (cs_Exclude cs) | None => [] end in
  join (lit ",")
    (own ++ agents ++ map (fun ns => makeLogPath ns "*" "*") excludeNamespaces
       ++ map (fun container => makeLogPath "*" "*" container) excludeContainers)%list.

(** ** custom_filter.go *)

Definition multilineFilter : string := "multiline".
Definition nonMultilineFilter : string := "non-multiline".

Definition isMultilineFilter (filter : list SectionParameter) : bool :=
  ContainsKey filter "name" &&
  match GetByKey filter "name" with Some p => bytes_eqb (par_Value p) (lit "multiline") | None => false end.

Definition skip_filter (filterType : string) (isMultiline : bool) : bool :=
  (str_eqb filterType multilineFilter && negb isMultiline) || (str_eqb filterType nonMultilineFilter && isMultiline).

Definition custom_filter_section (name : bytes) (params : list SectionParameter) : bytes :=
  SectionBuilder_Build (AddConfigParam (lit "match") (tag_of name) (add_params params NewFilterSectionBuilder)).

Definition custom_filter_params (filters : list FluentBitFilter) (filterType : string) : list (list SectionParameter) :=
  List.filter (fun ps => negb (skip_filter filterType (isMultilineFilter ps)))
    (map (fun filter => parseMultiline (fbf_Custom filter)) filters).

Definition createCustomFilters (pipeline : LogPipeline) (filterType : string) : bytes :=
  join [newline]
    (map (custom_filter_section (name_of pipeline))
       (custom_filter_params (elems (ls_FluentBitFilters (lp_Spec pipeline))) filterType)).

(** ** kubernetes_filter.go *)

Definition fluentBitBool (b : bool) : bytes := if b then lit "on" else lit "off".

Definition createKubernetesFilter (pipeline : LogPipeline) : bytes :=
  let runtimeInput := default (mkLogRuntimeInput None None None None None None) (li_Runtime (ls_Input (lp_Spec pipeline))) in
  let keepAnnotations := match lri_FluentBitKeepAnnotations runtimeInput with Some b => b | None => false end in
  let keepLabels := match lri_FluentBitDropLabels runtimeInput with Some b => negb b | None => true end in
  let keepOriginalBody := match lri_KeepOriginalBody runtimeInput with Some b => b | None => true end in
  SectionBuilder_Build
    (AddConfigParam (lit "keep_log") (fluentBitBool keepOriginalBody)
    (AddConfigParam (lit "buffer_size") (lit "1MB")
    (AddConfigParam (lit "labels") (fluentBitBool keepLabels)
    (AddConfigParam (lit "annotations") (fluentBitBool keepAnnotations)
    (AddConfigParam (lit "regex_parser") (lit "k8s-pods")
    (AddConfigParam (lit "kube_tag_prefix") (name_of pipeline ++ lit ".var.log.pods.")%list
    (AddConfigParam (lit "k8s-logging.exclude") (lit "off")
    (AddConfigParam (lit "k8s-logging.parser") (lit "on")
    (AddConfigParam (lit "merge_log") (lit "on")
    (AddConfigParam (lit "match") (tag_of (name_of pipeline))
    (AddConfigParam (lit "name") (lit "kubernetes") NewFilterSectionBuilder))))))))))).

(** ** env_var.go *)

Definition underscore (c : ascii) : ascii :=
  if Ascii.eqb c "."%char || Ascii.eqb c "-"%char then "_"%char else c.

Definition formatEnvVarName (prefix namespace name key : string) : bytes :=
  map underscore (ToUpper (lit (prefix +:+ "_" +:+ namespace +:+ "_" +:+ name +:+ "_" +:+ key))).

(** ** output.go *)

Definition retryLimit : bytes := lit "300".

Definition resolveValue (value : ValueType) (logPipeline : string) : bytes :=
  if negb (str_eqb (vt_Value value) "") then lit (vt_Value value)
  else
    match vt_ValueFrom value with
    | Some src =>
        match vfs_SecretKeyRef src with
        | Some ref =>
            if IsValid (Some value)
            then (lit "${" ++ formatEnvVarName logPipeline (skr_Namespace ref) (skr_Name ref) (skr_Key ref) ++ lit "}")%list
            else []
        | None => []
        end
    | None => []
    end.

Definition generateCustomOutput (output : LogPipelineOutput) (fsBufferLimit name : bytes) : bytes :=
  let customOutputParams := parseMultiline (lo_FluentBitCustom output) in
  let aliasPresent := ContainsKey customOutputParams "alias" in
  let sb := add_params customOutputParams NewOutputSectionBuilder in
  let sb := if negb aliasPresent then AddConfigParam (lit "alias") name sb else sb in
  SectionBuilder_Build
    (AddConfigParam (lit "retry_limit") retryLimit
    (AddConfigParam (lit "storage.total_limit_size") fsBufferLimit
    (AddConfigParam (lit "match") (tag_of name) sb))).

(** [if sharedtypesutils.IsValid(value) { sb.AddConfigParam(key, resolveValue( *value, name)) }] *)
Definition add_value (key : bytes) (value : option ValueType) (name : string) (sb : SectionBuilder) : SectionBuilder :=
  match value with
  | Some v => if IsValid value then AddConfigParam key (resolveValue v name) sb else sb
  | None => sb
  end.

Definition add_file (key : bytes) (value : option ValueType) (path : bytes) (sb : SectionBuilder) : SectionBuilder :=
  if IsValid value then AddConfigParam key path sb else sb.

Definition tls_dir : bytes := lit "/fluent-bit/etc/output-tls-config/".

Definition generateHTTPOutput (httpOutput : FluentBitHTTPOutput) (fsBufferLimit : bytes) (name : string) : bytes :=
  let n := lit name in
  let tls := ho_TLS httpOutput in
  let tlsEnabled := if tls_Insecure tls then lit "off" else lit "on" in
  let tlsVerify := if tls_InsecureSkipVerify tls then lit "off" else lit "on" in
  SectionBuilder_Build
    (add_file (lit "tls.key_file") (tls_Key tls) (tls_dir ++ n ++ lit "-key.key")%list
    (add_file (lit "tls.crt_file") (tls_Cert tls) (tls_dir ++ n ++ lit "-cert.crt")%list
    (add_file (lit "tls.ca_file") (tls_CA tls) (tls_dir ++ n ++ lit "-ca.crt")%list
    (AddConfigParam (lit "tls.verify") tlsVerify
    (AddConfigParam (lit "tls") tlsEnabled
    (add_value (lit "http_user") (ho_User httpOutput) name
    (add_value (lit "http_passwd") (ho_Password httpOutput) name
    (add_value (lit "host") (Some (ho_Host httpOutput)) name
    (AddConfigParam (lit "json_date_format") (lit "iso8601")
    (AddIfNotEmptyOrDefault (lit "format") (lit (ho_Format httpOutput)) (lit "json")
    (AddIfNotEmptyOrDefault (lit "port") (lit (ho_Port httpOutput)) (lit "443")
    (AddIfNotEmpty (lit "compress") (lit (ho_Compress httpOutput))
    (AddIfNotEmpty (lit "uri") (lit (ho_URI httpOutput))
    (AddConfigParam (lit "retry_limit") retryLimit
    (AddConfigParam (lit "storage.total_limit_size") fsBufferLimit
    (AddConfigParam (lit "alias") n
    (AddConfigParam (lit "match") (tag_of n)
    (AddConfigParam (lit "allow_duplicated_headers") (lit "true")
    (AddConfigParam (lit "name") (lit "http") NewOutputSectionBuilder))))))))))))))))))).

(** ** config_builder.go: settings *)

Record pipelineDefaults := mkPipelineDefaults {
  pd_InputTag : bytes; pd_MemoryBufferLimit : bytes; pd_StorageType : bytes; pd_FsBufferLimit : bytes }.

Record builderConfig := mkBuilderConfig { bc_pipelineDefaults : pipelineDefaults; bc_collectAgentLogs : bool }.

(** The settings of [NewFluentBitConfigBuilder]. *)
Definition builder_config : builderConfig :=
  mkBuilderConfig (mkPipelineDefaults (lit "tele") (lit "10M") (lit "filesystem") (lit "1G")) false.

Definition createOutputSection (pipeline : LogPipeline) (defaults : pipelineDefaults) : bytes :=
  let output := ls_Output (lp_Spec pipeline) in
  if IsCustomOutputDefined output then generateCustomOutput output (pd_FsBufferLimit defaults) (name_of pipeline)
  else if IsHTTPOutputDefined output then
    match lo_FluentBitHTTP output with
    | Some http => generateHTTPOutput http (pd_FsBufferLimit defaults) (om_Name (lp_ObjectMeta pipeline))
    | None => []
    end
  else [].

(** ** sections_config_builder.go *)

Definition errInvalidPipelineDefinition : goerror := NewError "invalid pipeline definition".

Definition createRecordModifierFilter (pipeline : LogPipeline) (clusterName : string) : bytes :=
  SectionBuilder_Build
    (AddConfigParam (lit "record") (lit "cluster_identifier " ++ lit clusterName)%list
    (AddConfigParam (lit "match") (tag_of (name_of pipeline))
    (AddConfigParam (lit "name") (lit "record_modifier") NewFilterSectionBuilder))).

Definition createLuaFilter (logPipeline : LogPipeline) : bytes :=
  let output := ls_Output (lp_Spec logPipeline) in
  if negb (IsHTTPOutputDefined output) then []
  else
    let call :=
      match lo_FluentBitHTTP output with
      | Some http => if ho_Dedot http then lit "dedot_and_enrich_app_name" else lit "enrich_app_name"
      | None => lit "enrich_app_name"
      end in
    SectionBuilder_Build
      (AddConfigParam (lit "call") call
      (AddConfigParam (lit "script") (lit "/fluent-bit/scripts/filter-script.lua")
      (AddConfigParam (lit "match") (tag_of (name_of logPipeline))
      (AddConfigParam (lit "name") (lit "lua") NewFilterSectionBuilder)))).

Definition createTimestampModifyFilter (pipeline : LogPipeline) : bytes :=
  if negb (IsHTTPOutputDefined (ls_Output (lp_Spec pipeline))) then []
  else
    SectionBuilder_Build
      (AddConfigParam (lit "copy") (lit "time @timestamp")
      (AddConfigParam (lit "match") (tag_of (name_of pipeline))
      (AddConfigParam (lit "name") (lit "modify") NewFilterSectionBuilder))).

Fixpoint validate_filter_sections (filters : list FluentBitFilter) : option goerror :=
  match filters with
  | [] => None
  | filter :: rest =>
      match ParseCustomSection (fbf_Custom filter) with
      | Err e => Some e
      | Ok _ => validate_filter_sections rest
      end
  end.

Definition validateCustomSections (pipeline : LogPipeline) : option goerror :=
  let customOutput := lo_FluentBitCustom (ls_Output (lp_Spec pipeline)) in
  or_return
    (if negb (str_eqb customOutput "") then
       match ParseCustomSection customOutput with Err e => Some e | Ok _ => None end
     else None)
    (validate_filter_sections (elems (ls_FluentBitFilters (lp_Spec pipeline)))).

Definition buildFluentBitSectionsConfig (pipeline : LogPipeline) (config : builderConfig) (clusterName : string) :
    result bytes goerror :=
  match GetOutputType pipeline with
  | OTel =>
      Err (Wrapf "" errInvalidPipelineDefinition (": unsupported pipeline mode: " +:+ Mode_String OTel))
  | FluentBit =>
      match validateCustomSections pipeline with
      | Some err => Err err
      | None =>
          let includePath := createIncludePath pipeline in
          let excludePath := createExcludePath pipeline (bc_collectAgentLogs config) in
          Ok (createInputSection pipeline includePath excludePath
              ++ createCustomFilters pipeline multilineFilter
              ++ createRecordModifierFilter pipeline clusterName
              ++ createKubernetesFilter pipeline
              ++ createTimestampModifyFilter pipeline
              ++ createCustomFilters pipeline nonMultilineFilter
              ++ createLuaFilter pipeline
              ++ createOutputSection pipeline (bc_pipelineDefaults config))%list
      end
  end.

(** ** files_config_builder.go *)

Definition buildFluentBitFilesConfig (pipeline : LogPipeline) : gmap string string :=
  fold_left (fun filesConfig file => <[fbfile_Name file := fbfile_Content file]> filesConfig)
    (elems (ls_FluentBitFiles (lp_Spec pipeline))) ∅.

(** ** secrets_config_builder.go

    [maps.Copy(dst, src)] is [src ∪ dst]. A nil pointer that is dereferenced is a panic,
    [None]. *)

Abbreviation EnvSecret := (gmap string string).

Definition shouldCopySecret (value : option ValueType) : bool :=
  match value with
  | Some v =>
      str_eqb (vt_Value v) "" &&
      match vt_ValueFrom v with Some src => isSome (vfs_SecretKeyRef src) | None => false end
  | None => false
  end.

Section Secrets.
Context `{SecretReader}.

Definition getSecretData (ref : SecretKeyRef) (targetKey : string) : result EnvSecret goerror :=
  match get_secret (mkNN (skr_Namespace ref) (skr_Name ref)) with
  | Err e =>
      Err (Wrapf ("unable to read secret '" +:+ skr_Name ref +:+ "' from namespace '" +:+ skr_Namespace ref +:+ "': ")
             (ApiError e) "")
  | Ok source =>
      match sec_Data source !! skr_Key ref with
      | Some val => Ok {[targetKey := val]}
      | None =>
          Err (NewError ("unable to find key '" +:+ skr_Key ref +:+ "' in secret '" +:+ skr_Name ref
                           +:+ "' from namespace '" +:+ skr_Namespace ref +:+ "'"))
      end
  end.

Definition ref_of (value : ValueType) : option SecretKeyRef := vt_ValueFrom value ≫= vfs_SecretKeyRef.

Definition getFromValueOrSecret (value : ValueType) (targetKey : string) : option (result EnvSecret goerror) :=
  if negb (str_eqb (vt_Value value) "") then Some (Ok {[targetKey := vt_Value value]})
  else
    ref ← ref_of value;
    Some (rmap_err (fun e => Wrapf "unable to get secret data: " e "") (getSecretData ref targetKey)).

Definition getEnvConfigSecret (prefix : string) (value : ValueType) : option (result EnvSecret goerror) :=
  ref ← ref_of value;
  let targetKey := of_bytes (formatEnvVarName prefix (skr_Namespace ref) (skr_Name ref) (skr_Key ref)) in
  Some (getSecretData ref targetKey).

(** One value of [extractHTTPSecrets]; [what] names it in the error. *)
Definition extract_value (what prefix : string) (value : option ValueType) (envSecretConfig : EnvSecret) :
    option (result EnvSecret goerror) :=
  if shouldCopySecret value then
    v ← value;
    res ← getEnvConfigSecret prefix v;
    Some (match res with
          | Err e => Err (Wrapf ("failed to get " +:+ what +:+ " secret: ") e "")
          | Ok secret => Ok (secret ∪ envSecretConfig)
          end)
  else Some (Ok envSecretConfig).

(** A step that can panic or fail after another one. *)
Definition then_do {T U} (r : option (result T goerror)) (k : T -> option (result U goerror)) : option (result U goerror) :=
  r ← r; match r with Err e => Some (Err e) | Ok t => k t end.

Definition extractHTTPSecrets (pipeline : LogPipeline) (envSecretConfig : EnvSecret) : option (result EnvSecret goerror) :=
  match lo_FluentBitHTTP (ls_Output (lp_Spec pipeline)) with
  | None => Some (Ok envSecretConfig)
  | Some httpOutput =>
      let prefix := om_Name (lp_ObjectMeta pipeline) in
      then_do (extract_value "host" prefix (Some (ho_Host httpOutput)) envSecretConfig) (fun env =>
      then_do (extract_value "user" prefix (ho_User httpOutput) env)
        (extract_value "password" prefix (ho_Password httpOutput)))
  end.

Fixpoint extract_variables (variables : list FluentBitVariable) (envConfigSecret : EnvSecret) : result EnvSecret goerror :=
  match variables with
  | [] => Ok envConfigSecret
  | ref :: rest =>
      match vfs_SecretKeyRef (fbv_ValueFrom ref) with
      | None => extract_variables rest envConfigSecret
      | Some key =>
          match getSecretData key (fbv_Name ref) with
          | Err e => Err (Wrapf "failed to get variable secret: " e "")
          | Ok variableSecret => extract_variables rest (variableSecret ∪ envConfigSecret)
          end
      end
  end.

Definition extractVariableSecrets (pipeline : LogPipeline) (envConfigSecret : EnvSecret) : result EnvSecret goerror :=
  extract_variables (elems (ls_FluentBitVariables (lp_Spec pipeline))) envConfigSecret.

Fixpoint build_env (envConfigSecret : EnvSecret) (logPipelines : list LogPipeline) : option (result EnvSecret goerror) :=
  match logPipelines with
  | [] => Some (Ok envConfigSecret)
  | p :: rest =>
      then_do (extractHTTPSecrets p envConfigSecret) (fun env =>
      then_do (Some (extractVariableSecrets p env)) (fun env => build_env env rest))
  end.

Definition buildEnvConfigSecret (logPipelines : list LogPipeline) : option (result EnvSecret goerror) :=
  build_env ∅ logPipelines.

Definition tls_value (what : string) (value : ValueType) (targetKey : string) : option (result EnvSecret goerror) :=
  res ← getFromValueOrSecret value targetKey;
  Some (rmap_err (fun e => Wrapf ("failed to get " +:+ what +:+ " secret data: ") e "") res).

(** [m[key] = bytes.ReplaceAll(m[key], "\\n", "\n")] *)
Definition replace_in (key : string) (m : EnvSecret) : EnvSecret :=
  <[key := replace_newlines (default "" (m !! key))]> m.

Definition add_ca (name : string) (tls : OutputTLS) (tlsSecretConfig : EnvSecret) : option (result EnvSecret goerror) :=
  if IsValid (tls_CA tls) then
    ca ← tls_CA tls;
    then_do (tls_value "CA" ca (name +:+ "-ca.crt")) (fun data => Some (Ok (data ∪ tlsSecretConfig)))
  else Some (Ok tlsSecretConfig).

Definition add_cert_and_key (name : string) (tls : OutputTLS) (tlsSecretConfig : EnvSecret) :
    option (result EnvSecret goerror) :=
  if IsValid (tls_Cert tls) && IsValid (tls_Key tls) then
    cert ← tls_Cert tls;
    key ← tls_Key tls;
    let certKey := name +:+ "-cert.crt" in
    let keyKey := name +:+ "-key.key" in
    then_do (tls_value "cert" cert certKey) (fun certData =>
    then_do (tls_value "key" key keyKey) (fun keyData =>
      Some (Ok (replace_in keyKey keyData ∪ (replace_in certKey certData ∪ tlsSecretConfig)))))
  else Some (Ok tlsSecretConfig).

Fixpoint build_tls (tlsSecretConfig : EnvSecret) (logPipelines : list LogPipeline) : option (result EnvSecret goerror) :=
  match logPipelines with
  | [] => Some (Ok tlsSecretConfig)
  | p :: rest =>
      let output := ls_Output (lp_Spec p) in
      let name := om_Name (lp_ObjectMeta p) in
      match lo_FluentBitHTTP output with
      | Some http =>
          if IsHTTPOutputDefined output then
            then_do (add_ca name (ho_TLS http) tlsSecretConfig) (fun m =>
            then_do (add_cert_and_key name (ho_TLS http) m) (fun m => build_tls m rest))
          else build_tls tlsSecretConfig rest
      | None => build_tls tlsSecretConfig rest
      end
  end.

Definition buildTLSFileConfigSecret (logPipelines : list LogPipeline) : option (result EnvSecret goerror) :=
  build_tls ∅ logPipelines.

(** ** config_builder.go *)

Record FluentBitConfig := mkFluentBitConfig {
  SectionsConfig : gmap string bytes;
  FilesConfig : gmap string string;
  EnvConfigSecret : EnvSecret;
  TLSConfigSecret : EnvSecret
}.

Definition wrap_with {T} (message : string) (r : option (result T goerror)) : option (result T goerror) :=
  rmap_err (fun e => Wrapf message e "") <$> r.

(** The loop of [Build]; the Secrets are computed again from all pipelines in each round. *)
Fixpoint build_pipelines (clusterName : string) (allPipelines : list LogPipeline) (config : FluentBitConfig)
    (pipelines : list LogPipeline) : option (result FluentBitConfig goerror) :=
  match pipelines with
  | [] => Some (Ok config)
  | pipeline :: rest =>
      let sectionsConfigMapKey := om_Name (lp_ObjectMeta pipeline) +:+ ".conf" in
      then_do (wrap_with "unable to build section: "
                 (Some (buildFluentBitSectionsConfig pipeline builder_config clusterName))) (fun content =>
      let filesConfig := buildFluentBitFilesConfig pipeline in
      then_do (wrap_with "unable to build env config: " (buildEnvConfigSecret allPipelines)) (fun envConfigSecret =>
      then_do (wrap_with "unable to build tls secret: " (buildTLSFileConfigSecret allPipelines)) (fun tlsConfigSecret =>
        build_pipelines clusterName allPipelines
          (mkFluentBitConfig (<[sectionsConfigMapKey := content]> (SectionsConfig config))
             (filesConfig ∪ FilesConfig config) (envConfigSecret ∪ EnvConfigSecret config)
             (tlsConfigSecret ∪ TLSConfigSecret config)) rest)))
  end.

Definition ConfigBuilder_Build (allPipelines : list LogPipeline) (clusterName : string) :
    option (result FluentBitConfig goerror) :=
  build_pipelines clusterName allPipelines (mkFluentBitConfig ∅ ∅ ∅ ∅) allPipelines.

End Secrets.
