(* ===== verification/FluentBitSections.v ===== *)
(** * Sections of a Fluent Bit file, written and read

    A section is a header and parameters. What the section builder writes reads back as
    the sorted parameters, for parameters without line breaks; those that the parser of
    custom sections produces are of this kind. *)
From stdpp Require Import base gmap strings list sorting.
From Stdlib Require Import Ascii.
From S2P Require Import Prelude GoErrors GoStrings.
From S2P Require Import FluentBitReconciler FluentBitReconcilerProps FluentBitConfigBuilder.

Lemma blank_eq : blank = ascii_of_nat 32.
Proof. done. Qed.

Definition member (c : ascii) (l : bytes) : bool := existsb (Ascii.eqb c) l.

Lemma member_spec c l : member c l = true <-> c ∈ l.
Proof.
  unfold member. rewrite existsb_exists. split.
  - intros (x & Hx & ->%Ascii.eqb_eq). by apply list_elem_of_In.
  - intros Hc. exists c. split; [by apply list_elem_of_In|apply Ascii.eqb_refl].
Qed.

Lemma member_false c l : member c l = false <-> c ∉ l.
Proof. rewrite <- not_true_iff_false, member_spec. done. Qed.

(** ** Clean parameters *)

Definition clean_value (v : bytes) : bool := negb (bytes_eqb v []) && negb (member nl v) && trimmed v.

Definition clean_key (k : bytes) : bool :=
  clean_value k && negb (member blank k) && bytes_eqb (ToLower k) k && negb (prefixb (lit "#") k).

Definition clean_param (p : SectionParameter) : bool := clean_key (par_Key p) && clean_value (par_Value p).

Lemma bytes_eqb_true a b : bytes_eqb a b = true <-> a = b.
Proof. apply bool_decide_eq_true. Qed.

Lemma bytes_eqb_false a b : bytes_eqb a b = false <-> a <> b.
Proof. apply bool_decide_eq_false. Qed.

Lemma clean_value_spec v : clean_value v = true <-> v <> [] /\ nl ∉ v /\ trimmed v = true.
Proof.
  unfold clean_value. rewrite !andb_true_iff, !negb_true_iff, bytes_eqb_false, member_false. tauto.
Qed.

Lemma clean_key_spec k :
  clean_key k = true <-> clean_value k = true /\ blank ∉ k /\ ToLower k = k /\ prefixb (lit "#") k = false.
Proof.
  unfold clean_key. rewrite !andb_true_iff, !negb_true_iff, bytes_eqb_true, member_false. tauto.
Qed.

(** ** Reading one line *)

(** A parameter as it is written. *)
Definition param_text (keyLen : nat) (p : SectionParameter) : bytes :=
  (blanks 4 ++ par_Key p ++ blanks (keyLen - length (par_Key p) + 1) ++ par_Value p)%list.

Lemma param_line_text keyLen p : param_line keyLen p = (param_text keyLen p ++ [nl])%list.
Proof. unfold param_line, param_text. by rewrite <- !app_assoc. Qed.

Lemma blanks_more n : blanks (n + 1) = (blank :: blanks n)%list.
Proof. by rewrite Nat.add_1_r. Qed.

Lemma rev_blanks n : rev (blanks n) = blanks n.
Proof.
  unfold blanks. induction n as [|n IH]; [done|]. cbn [repeat rev]. rewrite IH. by rewrite <- repeat_cons.
Qed.

Lemma trimmed_pair k n v :
  k <> [] -> trimmed k = true -> v <> [] -> trimmed v = true -> trimmed (k ++ blanks (n + 1) ++ v) = true.
Proof.
  intros Hk [Hkl _]%andb_true_iff Hv [_ Hvr]%andb_true_iff. unfold trimmed. apply andb_true_iff. split.
  - rewrite blanks_more. cbn [app]. by apply no_prefix_blank.
  - rewrite !rev_app_distr, rev_blanks, blanks_more, <- app_assoc. cbn [app]. apply no_rprefix_blank; [|done].
    intros He. apply Hv. rewrite <- (rev_involutive v), He. done.
Qed.

Lemma param_text_trim keyLen p :
  clean_param p = true ->
  TrimSpace (param_text keyLen p) = (par_Key p ++ blanks (keyLen - length (par_Key p) + 1) ++ par_Value p)%list.
Proof.
  intros [(( Hk & _ & Htk)%clean_value_spec & _ & _ & _)%clean_key_spec (Hv & _ & Htv)%clean_value_spec]%andb_true_iff.
  unfold param_text. apply (TrimSpace_blanks 4). by apply trimmed_pair.
Qed.

Lemma param_text_read keyLen p : clean_param p = true -> line_parameter (param_text keyLen p) = Some p.
Proof.
  intros Hp. unfold line_parameter. rewrite param_text_trim by done.
  apply andb_true_iff in Hp as [(( Hk & _ & Htk)%clean_value_spec & Hb & Hl & _)%clean_key_spec
                                (Hv & _ & Htv)%clean_value_spec].
  rewrite blanks_more. cbn [app].
  rewrite (proj2 (cut_spec " "%char _ (par_Key p) (blanks (keyLen - length (par_Key p)) ++ par_Value p)%list))
    by (split; [done|exact Hb]).
  cbn [fmap option_fmap option_map fst snd]. rewrite (TrimSpace_fixed _ Htk), Hl.
  rewrite (TrimSpace_blanks _ _ Htv). by destruct p.
Qed.

Lemma prefixb_app_false a p k r : prefixb (a :: p) k = false -> length p < length k -> prefixb (a :: p) (k ++ r) = false.
Proof.
  intros Hf Hl. destruct (prefixb (a :: p) (k ++ r)) eqn:He; [|done]. exfalso.
  apply prefixb_spec in He as [q He]. assert (prefixb (a :: p) k = true); [|congruence].
  apply prefixb_spec. exists (drop (length (a :: p)) k).
  rewrite <- (take_drop (length (a :: p)) k) at 1. f_equal.
  apply (f_equal (take (length (a :: p)))) in He. rewrite take_app_length in He.
  rewrite take_app_le in He by (simpl; lia). exact He.
Qed.

Lemma param_text_kept keyLen p : clean_param p = true -> ~ ignored (param_text keyLen p).
Proof.
  intros Hp. unfold ignored. rewrite param_text_trim by done.
  apply andb_true_iff in Hp as [((Hk & _)%clean_value_spec & _ & _ & Hh)%clean_key_spec _].
  intros [He|He]; [by apply app_eq_nil in He as [? _]|].
  rewrite (prefixb_app_false "#"%char []) in He; [done|exact Hh|]. destruct (par_Key p); [done|simpl; lia].
Qed.

Lemma param_text_newline keyLen p : clean_param p = true -> nl ∉ param_text keyLen p.
Proof.
  intros [((_ & Hk & _)%clean_value_spec & _)%clean_key_spec (_ & Hv & _)%clean_value_spec]%andb_true_iff.
  assert (Hb : forall n, nl ∉ blanks n).
  { intros n Hin%list_elem_of_In%repeat_spec. by vm_compute in Hin. }
  unfold param_text. rewrite !elem_of_app. intros [H|[H|[H|H]]]; [by apply Hb in H|done|by apply Hb in H|done].
Qed.

(** ** Reading a file *)

Abbreviation section := (bytes * list SectionParameter)%type.

(** A line that begins with a bracket starts a section, the other lines are read as the
    lines of a custom section: the parameters before the first header, and the sections. *)
Fixpoint read_conf (lines : list bytes) : option (list SectionParameter * list section) :=
  match lines with
  | [] => Some ([], [])
  | line :: rest =>
      '(ps, ss) ← read_conf rest;
      if prefixb (lit "[") line then Some ([], (line, ps) :: ss)
      else if (length (TrimSpace line) =? 0)%nat || prefixb (lit "#") (TrimSpace line) then Some (ps, ss)
      else p ← line_parameter line; Some (p :: ps, ss)
  end.

Definition read_file (text : bytes) : option (list section) :=
  '(ps, ss) ← read_conf (split_lines text); match ps with [] => Some ss | _ => None end.

Lemma ignored_bool line :
  ((length (TrimSpace line) =? 0)%nat || prefixb (lit "#") (TrimSpace line)) = true <-> ignored line.
Proof. unfold ignored. rewrite orb_true_iff, Nat.eqb_eq, length_zero_iff_nil. done. Qed.

Lemma read_param keyLen p rest ps ss :
  clean_param p = true -> read_conf rest = Some (ps, ss) -> read_conf (param_text keyLen p :: rest) = Some (p :: ps, ss).
Proof.
  intros Hp Hr. cbn [read_conf]. rewrite Hr. cbn [mbind option_bind].
  change (prefixb (lit "[") (param_text keyLen p)) with false. cbv iota.
  destruct (_ || _) eqn:Hi; [by apply ignored_bool, param_text_kept in Hi|].
  by rewrite param_text_read.
Qed.

Lemma read_params keyLen params rest ps ss :
  Forall (fun p => clean_param p = true) params -> read_conf rest = Some (ps, ss) ->
  read_conf (map (param_text keyLen) params ++ rest) = Some (params ++ ps, ss)%list.
Proof. induction 1 as [|p params Hp _ IH]; intros Hr; [done|]. cbn [map app]. apply read_param; auto. Qed.

Lemma read_blank rest : read_conf ([] :: rest) = read_conf rest.
Proof. cbn [read_conf]. by destruct (read_conf rest) as [[]|]. Qed.

Lemma read_header h rest ps ss :
  prefixb (lit "[") h = true -> read_conf rest = Some (ps, ss) -> read_conf (h :: rest) = Some ([], (h, ps) :: ss).
Proof. intros Hh Hr. cbn [read_conf]. rewrite Hr. cbn [mbind option_bind]. by rewrite Hh. Qed.

(** ** What the section builder writes *)

(** A builder for a section with this header. *)
Record builds (h : bytes) (sb : SectionBuilder) : Prop := {
  builds_header : sb_builder sb = (h ++ [nl])%list;
  builds_clean : Forall (fun p => clean_param p = true) (sb_params sb)
}.

(** The lines of a section. *)
Definition section_lines (sb : SectionBuilder) (h : bytes) : list bytes :=
  (h :: map (param_text (sb_keyLen sb)) (merge_sort param_le (sb_params sb)) ++ [[]])%list.

(** The section that is written. *)
Definition section_of (h : bytes) (sb : SectionBuilder) : section := (h, merge_sort param_le (sb_params sb)).

Lemma build_lines h sb : builds h sb -> SectionBuilder_Build sb = unlines (section_lines sb h).
Proof.
  intros [Hh _]. unfold SectionBuilder_Build, section_lines. rewrite Hh. unfold unlines. cbn [map concat].
  f_equal. rewrite map_app, concat_app. f_equal. rewrite map_map. f_equal. apply map_ext. intros p. apply param_line_text.
Qed.

Lemma sorted_clean h sb : builds h sb -> Forall (fun p => clean_param p = true) (merge_sort param_le (sb_params sb)).
Proof. intros [_ Hc]. by rewrite (merge_sort_Permutation param_le). Qed.

Lemma section_newlines h sb : nl ∉ h -> builds h sb -> Forall (fun l => nl ∉ l) (section_lines sb h).
Proof.
  intros Hh Hb. unfold section_lines. constructor; [done|]. apply Forall_app. split.
  - apply Forall_map. eapply Forall_impl; [by eapply sorted_clean|]. intros p. apply param_text_newline.
  - repeat constructor. apply not_elem_of_nil.
Qed.

Lemma section_read h sb rest ss :
  prefixb (lit "[") h = true -> builds h sb -> read_conf rest = Some ([], ss) ->
  read_conf (section_lines sb h ++ rest) = Some ([], section_of h sb :: ss).
Proof.
  intros Hh Hb Hr. unfold section_lines. cbn [app]. rewrite <- app_assoc. apply read_header; [done|].
  rewrite <- (app_nil_r (merge_sort _ _)) at 2. apply read_params; [by eapply sorted_clean|].
  cbn [app]. by rewrite read_blank.
Qed.

(** ** Composing sections *)

(** A text of whole lines that reads as these sections. *)
Definition reads (text : bytes) (ss : list section) : Prop :=
  exists ls, text = unlines ls /\ Forall (fun l => nl ∉ l) ls /\
    forall rest ss', read_conf rest = Some ([], ss') -> read_conf (ls ++ rest) = Some ([], ss ++ ss')%list.

Lemma reads_nil : reads [] [].
Proof. exists []. repeat split; [constructor|done]. Qed.

Lemma reads_app a b sa sb : reads a sa -> reads b sb -> reads (a ++ b) (sa ++ sb).
Proof.
  intros (la & -> & Ha & Hra) (lb & -> & Hb & Hrb). exists (la ++ lb)%list. split; [by rewrite unlines_app|].
  split; [by apply Forall_app|]. intros rest ss' Hr. rewrite <- !app_assoc. auto.
Qed.

Lemma reads_newline : reads [nl] [].
Proof.
  exists [[]]. split; [done|]. split; [repeat constructor; apply not_elem_of_nil|].
  intros rest ss' Hr. cbn [app]. by rewrite read_blank.
Qed.

Lemma reads_section h sb :
  prefixb (lit "[") h = true -> nl ∉ h -> builds h sb -> reads (SectionBuilder_Build sb) [section_of h sb].
Proof.
  intros Hh Hn Hb. exists (section_lines sb h). split; [by apply build_lines|]. split; [by apply section_newlines|].
  intros rest ss' Hr. by apply section_read.
Qed.

Lemma reads_join ts : forall sss,
  Forall2 (fun t ss => reads t ss) ts sss -> reads (join [nl] ts) (concat sss).
Proof.
  induction ts as [|t ts IH]; intros sss Hr; inversion Hr as [|? ss ? sss' Ht Hts]; subst; [apply reads_nil|].
  destruct ts as [|t' ts].
  - inversion Hts; subst. cbn [join concat]. by rewrite app_nil_r.
  - cbn [join concat]. apply reads_app; [done|]. apply (reads_app [nl] _ []); [apply reads_newline|]. by apply IH.
Qed.

Lemma reads_file text ss : reads text ss -> read_file text = Some ss.
Proof.
  intros (ls & -> & Hn & Hr). unfold read_file. rewrite <- (app_nil_r (unlines ls)), split_lines_unlines by done.
  rewrite (Hr (split_lines []) []); [|done]. cbn. by rewrite app_nil_r.
Qed.

(** ** Builders that are filled with clean parameters *)

Lemma builds_add h sb key value :
  clean_key key = true -> clean_value value = true -> builds h sb -> builds h (AddConfigParam key value sb).
Proof.
  intros Hk Hv [Hh Hc]. split; [done|]. simpl. apply Forall_app. split; [done|]. constructor; [|constructor].
  unfold clean_param. simpl. pose proof (proj1 (clean_key_spec _) Hk) as (_ & _ & -> & _). by rewrite Hk, Hv.
Qed.

Lemma builds_add_if h sb key value :
  clean_key key = true -> (value = [] \/ clean_value value = true) -> builds h sb ->
  builds h (AddIfNotEmpty key value sb).
Proof.
  intros Hk Hv Hb. unfold AddIfNotEmpty. destruct (bytes_eqb value []) eqn:He; simpl; [done|].
  apply bytes_eqb_false in He. apply builds_add; [done| |done]. by destruct Hv.
Qed.

Lemma builds_add_or h sb key value def :
  clean_key key = true -> clean_value def = true -> (value = [] \/ clean_value value = true) -> builds h sb ->
  builds h (AddIfNotEmptyOrDefault key value def sb).
Proof.
  intros Hk Hd Hv Hb. unfold AddIfNotEmptyOrDefault. destruct (bytes_eqb value []) eqn:He; simpl.
  - by apply builds_add.
  - apply bytes_eqb_false in He. apply builds_add; [done| |done]. by destruct Hv.
Qed.

Lemma builds_params h sb ps :
  Forall (fun p => clean_param p = true) ps -> builds h sb -> builds h (add_params ps sb).
Proof.
  unfold add_params. intros Hp. revert sb. induction Hp as [|p ps Hp _ IH]; intros sb Hb; [done|].
  simpl. apply IH. apply andb_true_iff in Hp as [Hk Hv]. by apply builds_add.
Qed.

(** ** What the parser of custom sections produces *)

Lemma elem_TrimSpace c l : c ∈ TrimSpace l -> c ∈ l.
Proof.
  destruct (TrimSpace_split l) as (pre & post & _ & _ & Hl). intros Hc. rewrite Hl.
  apply elem_of_app. right. apply elem_of_app. by left.
Qed.

Lemma head_hash l : prefixb (lit "#") l = true <-> head l = Some "#"%char.
Proof.
  destruct l as [|c l]; [done|]. cbn [head]. change (prefixb (lit "#") (c :: l)) with (Ascii.eqb "#" c && true).
  rewrite andb_true_r, Ascii.eqb_eq. naive_solver.
Qed.

(** Trimming a text that does not begin with a space. *)
Lemma TrimSpace_front l :
  l <> [] -> no_prefix spaces l = true -> TrimSpace l <> [] /\ head (TrimSpace l) = head l.
Proof.
  intros Hne Hn. destruct (TrimSpace_split l) as (pre & post & Hpre & Hpost & Hl).
  assert (pre = []) as ->.
  { apply spaces_not_trimmed; [done|]. rewrite Hl in Hn. by apply no_prefix_app in Hn. }
  cbn [concat app] in Hl. assert (Ht : TrimSpace l <> []).
  { intros He. rewrite He in Hl. cbn [app] in Hl. rewrite Hl in Hn.
    apply spaces_not_trimmed in Hn; [|done]. subst post. done. }
  split; [done|]. rewrite Hl at 2. by destruct (TrimSpace l).
Qed.

(** Trimming a text at whose end there is no space. *)
Lemma TrimSpace_back k v :
  trimmed (k ++ blank :: v) = true -> TrimSpace v <> [].
Proof.
  intros Ht He. destruct (TrimSpace_split v) as (pre & post & Hpre & Hpost & Hv). rewrite He in Hv. cbn [app] in Hv.
  assert (Hall : Forall (fun q => q ∈ spaces) (pre ++ post)) by (by apply Forall_app).
  rewrite <- concat_app in Hv. destruct (pre ++ post)%list as [|q qs _] using rev_ind.
  - subst v. apply (trimmed_last _ [blank] k Ht); [|done]. by apply (bool_decide_unpack _).
  - apply Forall_app in Hall as [_ Hq]. apply Forall_cons in Hq as [Hq _]. rewrite concat_app in Hv. simpl in Hv.
    rewrite app_nil_r in Hv. apply (trimmed_last _ q (k ++ blank :: concat qs) Ht Hq). by rewrite Hv, <- app_assoc.
Qed.

Lemma line_parameter_clean line p :
  nl ∉ line -> ~ ignored line -> line_parameter line = Some p -> clean_param p = true.
Proof.
  intros Hn Hi Hp. unfold line_parameter in Hp. apply fmap_Some in Hp as ([k v] & Hc & ->).
  apply cut_spec in Hc as [Hl Hb]. pose proof (TrimSpace_trimmed line) as Ht. rewrite Hl in Ht.
  assert (Hnl : nl ∉ (k ++ blank :: v)%list).
  { intros Hin. apply Hn, elem_TrimSpace. rewrite Hl. exact Hin. }
  apply not_elem_of_app in Hnl as [Hnk [_ Hnv]%not_elem_of_cons].
  pose proof (proj1 (andb_true_iff _ _) Ht) as [Hpre _].
  assert (Hk : k <> []) by (intros ->; by vm_compute in Hpre).
  destruct (TrimSpace_front k Hk (no_prefix_app _ _ _ Hpre)) as [Hkt Hhead].
  unfold clean_param. cbn [par_Key par_Value fst snd]. apply andb_true_iff. split.
  - apply clean_key_spec. split_and!.
    + apply clean_value_spec. split_and!.
      * by intros ?%ToLower_nil.
      * intros Hin%ToLower_elem%elem_TrimSpace; done.
      * apply ToLower_trimmed, TrimSpace_trimmed.
    + intros Hin%ToLower_elem%elem_TrimSpace; [|done]. by apply Hb.
    + apply ToLower_idem.
    + apply not_true_iff_false. rewrite head_hash. intros Hh. apply ToLower_head in Hh; [|done].
      apply Hi. right. rewrite Hl. apply head_hash. rewrite Hhead in Hh. by destruct k.
  - apply clean_value_spec. split_and!; [by eapply TrimSpace_back|by intros ?%elem_TrimSpace|apply TrimSpace_trimmed].
Qed.

Lemma parse_lines_clean lines ps :
  Forall (fun l => nl ∉ l) lines -> parse_lines [] lines = Ok ps -> Forall (fun p => clean_param p = true) ps.
Proof.
  intros Hn Hp. apply parse_lines_ok in Hp as (new & -> & _ & Hnew). rewrite app_nil_l. apply Forall_forall.
  intros p (line & Hl & Hi & Hp)%Hnew. rewrite Forall_forall in Hn. by eapply line_parameter_clean; [apply Hn| |].
Qed.

Lemma ParseCustomSection_clean text ps :
  ParseCustomSection text = Ok ps -> Forall (fun p => clean_param p = true) ps.
Proof. apply parse_lines_clean, split_lines_no_newline. Qed.

(** The two parsers agree where the first succeeds. *)
Lemma parse_multiline_agrees lines : forall acc ps,
  parse_lines acc lines = Ok ps -> parse_multiline acc lines = ps.
Proof.
  induction lines as [|line lines IH]; intros acc ps; cbn [parse_lines parse_multiline]; [by intros [= ->]|].
  destruct (_ || _); [apply IH|]. destruct (cut _ _) as [[k v]|]; [apply IH|done].
Qed.

Lemma parseMultiline_agrees text ps : ParseCustomSection text = Ok ps -> parseMultiline text = ps.
Proof. apply parse_multiline_agrees. Qed.

(** ** The order of the parameters *)

Lemma of_bytes_inj a b : of_bytes a = of_bytes b -> a = b.
Proof.
  intros H. apply (f_equal to_bytes) in H. unfold to_bytes, of_bytes in H.
  by rewrite !String.list_ascii_of_string_of_list_ascii in H.
Qed.

Lemma bytes_ltb_total a b : bytes_ltb a b = false -> bytes_ltb b a = false -> a = b.
Proof.
  unfold bytes_ltb. intros H1 H2. apply of_bytes_inj. destruct (str_ltb_total (of_bytes a) (of_bytes b)) as [H|[H|H]];
    congruence.
Qed.

Lemma bytes_ltb_asym a b : bytes_ltb a b = true -> bytes_ltb b a = false.
Proof. apply str_ltb_asym. Qed.

Lemma bytes_ltb_trans a b c : bytes_ltb a b = true -> bytes_ltb b c = true -> bytes_ltb a c = true.
Proof. apply str_ltb_trans. Qed.

Lemma bytes_ltb_irrefl a : bytes_ltb a a = false.
Proof. apply str_ltb_irrefl. Qed.

(** The name comes first, then the match, then the other keys. *)
Definition rank (p : SectionParameter) : nat :=
  if bytes_eqb (par_Key p) (lit "name") then 0 else if bytes_eqb (par_Key p) (lit "match") then 1 else 2.

Definition param_before (i j : SectionParameter) : Prop :=
  rank i < rank j \/
  rank i = rank j /\ (bytes_ltb (par_Key i) (par_Key j) = true \/
                      par_Key i = par_Key j /\ bytes_ltb (par_Value i) (par_Value j) = true).

Lemma rank_key i j : par_Key i = par_Key j -> rank i = rank j.
Proof. unfold rank. by intros ->. Qed.

Lemma rank_low i j : rank i = rank j -> rank i < 2 -> par_Key i = par_Key j.
Proof.
  unfold rank. repeat case_match; intros; simplify_eq; try lia;
    repeat match goal with H : bytes_eqb _ _ = true |- _ => apply bytes_eqb_true in H end; congruence.
Qed.

Lemma param_less_spec i j : param_less i j = true <-> param_before i j.
Proof.
  unfold param_less, param_before. destruct (bytes_eqb (par_Key i) (par_Key j)) eqn:He; cbn [negb].
  - apply bytes_eqb_true in He. rewrite (rank_key _ _ He), He, bytes_ltb_irrefl. naive_solver lia.
  - pose proof (rank_low i j) as Hlow. apply bytes_eqb_false in He. unfold rank in *.
    destruct (bytes_eqb (par_Key i) (lit "name")), (bytes_eqb (par_Key j) (lit "name")),
      (bytes_eqb (par_Key i) (lit "match")), (bytes_eqb (par_Key j) (lit "match"));
      naive_solver lia.
Qed.

Lemma param_less_irrefl i : param_less i i = false.
Proof.
  apply not_true_iff_false. rewrite param_less_spec. unfold param_before. rewrite !bytes_ltb_irrefl. naive_solver lia.
Qed.

Lemma param_less_trans i j k : param_less i j = true -> param_less j k = true -> param_less i k = true.
Proof.
  rewrite !param_less_spec. unfold param_before.
  intros [H1|(H1 & [H2|[H2 H3]])] [H4|(H4 & [H5|[H5 H6]])]; try (left; lia); right; (split; [congruence|]).
  - left. by eapply bytes_ltb_trans.
  - left. congruence.
  - left. congruence.
  - right. split; [congruence|]. by eapply bytes_ltb_trans.
Qed.

Lemma param_less_total i j : param_less i j = false -> param_less j i = false -> i = j.
Proof.
  rewrite <- !not_true_iff_false, !param_less_spec. unfold param_before. intros H1 H2.
  assert (Hk : par_Key i = par_Key j).
  { apply bytes_ltb_total; apply not_true_iff_false; intros H; [apply H1|apply H2];
      (destruct (Nat.lt_trichotomy (rank i) (rank j)) as [Hr|[Hr|Hr]]; [naive_solver| |naive_solver]); right; auto. }
  pose proof (rank_key _ _ Hk) as Hr.
  assert (Hv : par_Value i = par_Value j).
  { apply bytes_ltb_total; apply not_true_iff_false; intros H; [apply H1|apply H2]; right; auto. }
  destruct i, j. simpl in *. by subst.
Qed.

#[export] Instance param_le_total : Total param_le.
Proof.
  intros i j. unfold param_le. destruct (param_less j i) eqn:H1, (param_less i j) eqn:H2; auto.
  exfalso. pose proof (param_less_trans _ _ _ H1 H2) as H. by rewrite param_less_irrefl in H.
Qed.

#[export] Instance param_le_trans : Transitive param_le.
Proof.
  intros i j k. unfold param_le. intros H1 H2. destruct (param_less k i) eqn:H; [|done].
  destruct (param_less j k) eqn:H3; [by rewrite (param_less_trans _ _ _ H3 H) in H1|].
  rewrite (param_less_total _ _ H2 H3) in H. congruence.
Qed.

#[export] Instance param_le_antisymm : AntiSymm eq param_le.
Proof. intros i j H1 H2. by apply param_less_total. Qed.

(** Whatever the algorithm of [sort.Slice], which need not be stable, does. *)
Lemma sort_unique ps qs : qs ≡ₚ ps -> Sorted param_le qs -> qs = merge_sort param_le ps.
Proof.
  intros Hp Hs. eapply (Sorted_unique param_le); [done|apply Sorted_merge_sort, _|].
  by rewrite Hp, (merge_sort_Permutation param_le).
Qed.

Lemma elem_sorted p ps : p ∈ merge_sort param_le ps <-> p ∈ ps.
Proof. by rewrite (merge_sort_Permutation param_le). Qed.
