(* ===== verification/FluentBitConfigProps.v ===== *)
(** * The sections file of a pipeline

    The text that the builder writes for a pipeline reads back as the sections the
    pipeline asks for; each of them handles only the records of the pipeline. *)
From stdpp Require Import base gmap strings list sorting.
From Stdlib Require Import Ascii.
From S2P Require Import Prelude Kube GoErrors GoStrings Conversion.
From S2P Require Import ApiV1beta1 SecretRef Lock Coordination Validators SampleCluster LogOtelReconciler FluentBitReconciler FluentBitReconcilerProps.
From S2P Require Import LogAgentConfig FluentBitConfigBuilder FluentBitSections.
Local Open Scope string_scope.

(** ** Clean values *)

(** Graphic bytes at both ends and no line break. *)
Definition ends_graphic (v : bytes) : Prop :=
  (exists c w, v = c :: w /\ graphic c = true) /\ (exists d w, v = (w ++ [d])%list /\ graphic d = true) /\ nl ∉ v.

Lemma ends_graphic_clean v : ends_graphic v -> clean_value v = true.
Proof.
  intros ((c & w & Hv & Hc) & (d & w' & Hv' & Hd) & Hn). apply clean_value_spec. split_and!; [by rewrite Hv|done|].
  unfold trimmed. apply andb_true_iff. split.
  - rewrite Hv. by apply graphic_start.
  - rewrite Hv', rev_app_distr. by apply graphic_end.
Qed.

Lemma graphic_not_nl c : graphic c = true -> c <> nl.
Proof. by intros Hc ->. Qed.

Lemma all_graphic_ends v : v <> [] -> forallb graphic v = true -> ends_graphic v.
Proof.
  intros Hne Hg. rewrite forallb_forall in Hg. split; [|split].
  - destruct v as [|c w]; [done|]. exists c, w. split; [done|]. apply Hg. by left.
  - destruct v as [|d w _] using rev_ind; [done|]. exists d, w. split; [done|]. apply Hg, in_or_app. right. by left.
  - intros Hin%list_elem_of_In%Hg. by apply graphic_not_nl in Hin.
Qed.

Lemma all_graphic_clean v : v <> [] -> forallb graphic v = true -> clean_value v = true.
Proof. intros. by apply ends_graphic_clean, all_graphic_ends. Qed.

Lemma ends_graphic_wrap a m b : ends_graphic a -> ends_graphic b -> nl ∉ m -> ends_graphic (a ++ m ++ b)%list.
Proof.
  intros ((c & w & -> & Hc) & _ & Ha) (_ & (d & w' & -> & Hd) & Hb) Hm. split; [|split].
  - by exists c, (w ++ m ++ w' ++ [d])%list.
  - exists d, (c :: w ++ m ++ w')%list. split; [|done]. cbn [app]. by rewrite <- !app_assoc.
  - rewrite !elem_of_app in *. naive_solver.
Qed.

Lemma ends_graphic_join sep vs :
  vs <> [] -> nl ∉ sep -> Forall ends_graphic vs -> ends_graphic (join sep vs).
Proof.
  intros Hne Hs Hv. induction Hv as [|v vs Hv Hvs IH]; [done|]. destruct vs as [|v' vs]; [done|].
  change (join sep (v :: v' :: vs)) with (v ++ sep ++ join sep (v' :: vs))%list.
  by apply ends_graphic_wrap; [|apply IH|].
Qed.

(** ** Texts *)

Lemma lit_app a b : lit (a +:+ b) = (lit a ++ lit b)%list.
Proof. induction a as [|c a IH]; [done|]. change (lit (String c a +:+ b)) with (c :: lit (a +:+ b))%list. by rewrite IH. Qed.

Definition one_line (s : string) : bool := negb (member nl (lit s)).

Lemma one_line_spec s : one_line s = true <-> nl ∉ lit s.
Proof. unfold one_line. rewrite negb_true_iff. apply member_false. Qed.

Lemma makeLogPath_ends ns pod c :
  one_line ns = true -> one_line pod = true -> one_line c = true -> ends_graphic (makeLogPath ns pod c).
Proof.
  rewrite !one_line_spec. intros H1 H2 H3. unfold makeLogPath. rewrite !lit_app.
  assert (He : (lit "/var/log/pods/" ++ lit ns ++ lit "_" ++ lit pod ++ lit "/" ++ lit c ++ lit "/*.log")%list =
               (lit "/var/log/pods/" ++ (lit ns ++ lit "_" ++ lit pod ++ lit "/" ++ lit c) ++ lit "/*.log")%list)
    by (by rewrite <- !app_assoc).
  rewrite He. apply ends_graphic_wrap; [by apply all_graphic_ends..|].
  rewrite !not_elem_of_app. split_and!; try done; by apply one_line_spec.
Qed.

(** Upper case makes no line breaks. *)
Lemma ToUpper_cases c l :
  (exists d r, l = d :: r /\ (ToUpper (c :: l) = ascii_of_nat 73 :: ToUpper r \/
                              ToUpper (c :: l) = ascii_of_nat 83 :: ToUpper r)) \/
  ToUpper (c :: l) = upper_ascii c :: ToUpper l.
Proof.
  destruct l as [|d r]; [by right|]. cbn [ToUpper]. destruct (prefixb _ _); [left; eauto|].
  destruct (prefixb _ _); [left; eauto|by right].
Qed.

Lemma upper_not_nl c : upper_ascii c = nl -> c = nl.
Proof.
  intros H. pose proof (all_ascii_spec (fun c => negb (Ascii.eqb (upper_ascii c) nl) || Ascii.eqb c nl)
    ltac:(vm_compute; reflexivity) c) as Hc.
  cbv beta in Hc. rewrite H in Hc. by apply Ascii.eqb_eq.
Qed.

Lemma ToUpper_newline l : nl ∉ l -> nl ∉ ToUpper l.
Proof.
  induction l as [l IH] using list_strong_ind. intros Hn. destruct l as [|c l]; [done|].
  apply not_elem_of_cons in Hn as [Hc Hn]. destruct (ToUpper_cases c l) as [(d & r & -> & He)| ->].
  - apply not_elem_of_cons in Hn as [_ Hn]. assert (nl ∉ ToUpper r) by (apply IH; [simpl; lia|done]).
    destruct He as [-> | ->]; (apply not_elem_of_cons; split; [by vm_compute|done]).
  - apply not_elem_of_cons. split; [|apply IH; [simpl; lia|done]]. intros He. by apply Hc, eq_sym, upper_not_nl.
Qed.

Lemma underscore_not_nl c : underscore c = nl -> c = nl.
Proof. unfold underscore. by destruct (_ || _). Qed.

Lemma formatEnvVarName_newline prefix ns name key :
  one_line prefix = true -> one_line ns = true -> one_line name = true -> one_line key = true ->
  nl ∉ formatEnvVarName prefix ns name key.
Proof.
  rewrite !one_line_spec. intros H1 H2 H3 H4. unfold formatEnvVarName.
  intros (c & Hc & Hin)%list_elem_of_In%in_map_iff. apply underscore_not_nl in Hc as ->.
  apply list_elem_of_In in Hin. revert Hin. apply ToUpper_newline. rewrite !lit_app, !not_elem_of_app.
  split_and!; try done; by apply one_line_spec.
Qed.

(** ** The sections a pipeline asks for *)

Definition param (key : string) (value : bytes) : SectionParameter := mkParameter (lit key) value.
Definition sorted_section (header : string) (params : list SectionParameter) : section :=
  (lit header, merge_sort param_le params).

Definition when {T} (c : bool) (l : list T) : list T := if c then l else [].

Definition input_params (p : LogPipeline) : list SectionParameter :=
  ([param "name" (lit "tail"); param "alias" (name_of p); param "path" (createIncludePath p)]
   ++ when (negb (bytes_eqb (createExcludePath p false) [])) [param "exclude_path" (createExcludePath p false)]
   ++ [param "multiline.parser" (lit "cri"); param "tag" (tag_of (name_of p)); param "skip_long_lines" (lit "on");
       param "db" (lit "/data/flb_" ++ name_of p ++ lit ".db")%list; param "db.compare_filename" (lit "on");
       param "storage.type" (lit "filesystem"); param "read_from_head" (lit "true"); param "mem_buf_limit" (lit "5MB")])%list.

Abbreviation match_param p := (param "match" (tag_of (name_of p))).

Definition custom_filter_sections (p : LogPipeline) (filterType : string) : list section :=
  map (fun ps => sorted_section "[FILTER]" (ps ++ [match_param p])%list)
    (custom_filter_params (elems (ls_FluentBitFilters (lp_Spec p))) filterType).

Definition record_modifier_params (p : LogPipeline) (clusterName : string) : list SectionParameter :=
  [param "name" (lit "record_modifier"); match_param p; param "record" (lit "cluster_identifier " ++ lit clusterName)%list].

Definition kubernetes_params (p : LogPipeline) : list SectionParameter :=
  let i := default (mkLogRuntimeInput None None None None None None) (li_Runtime (ls_Input (lp_Spec p))) in
  [param "name" (lit "kubernetes"); match_param p; param "merge_log" (lit "on");
   param "k8s-logging.parser" (lit "on"); param "k8s-logging.exclude" (lit "off");
   param "kube_tag_prefix" (name_of p ++ lit ".var.log.pods.")%list; param "regex_parser" (lit "k8s-pods");
   param "annotations" (fluentBitBool (deref (lri_FluentBitKeepAnnotations i) false));
   param "labels" (fluentBitBool (negb (deref (lri_FluentBitDropLabels i) false)));
   param "buffer_size" (lit "1MB"); param "keep_log" (fluentBitBool (deref (lri_KeepOriginalBody i) true))].

Definition modify_params (p : LogPipeline) : list SectionParameter :=
  [param "name" (lit "modify"); match_param p; param "copy" (lit "time @timestamp")].

Definition lua_params (p : LogPipeline) (http : FluentBitHTTPOutput) : list SectionParameter :=
  [param "name" (lit "lua"); match_param p; param "script" (lit "/fluent-bit/scripts/filter-script.lua");
   param "call" (if ho_Dedot http then lit "dedot_and_enrich_app_name" else lit "enrich_app_name")].

Definition custom_output_params (p : LogPipeline) : list SectionParameter :=
  let ps := parseMultiline (lo_FluentBitCustom (ls_Output (lp_Spec p))) in
  (ps ++ when (negb (ContainsKey ps "alias")) [param "alias" (name_of p)]
   ++ [match_param p; param "storage.total_limit_size" (lit "1G"); param "retry_limit" (lit "300")])%list.

Definition value_params (key : string) (value : option ValueType) (name : string) : list SectionParameter :=
  match value with Some v => when (IsValid value) [param key (resolveValue v name)] | None => [] end.

Definition http_output_params (p : LogPipeline) (http : FluentBitHTTPOutput) : list SectionParameter :=
  let n := om_Name (lp_ObjectMeta p) in
  let tls := ho_TLS http in
  ([param "name" (lit "http"); param "allow_duplicated_headers" (lit "true"); match_param p;
    param "alias" (name_of p); param "storage.total_limit_size" (lit "1G"); param "retry_limit" (lit "300")]
   ++ when (negb (str_eqb (ho_URI http) "")) [param "uri" (lit (ho_URI http))]
   ++ when (negb (str_eqb (ho_Compress http) "")) [param "compress" (lit (ho_Compress http))]
   ++ [param "port" (lit (if str_eqb (ho_Port http) "" then "443" else ho_Port http));
       param "format" (lit (if str_eqb (ho_Format http) "" then "json" else ho_Format http));
       param "json_date_format" (lit "iso8601")]
   ++ value_params "host" (Some (ho_Host http)) n ++ value_params "http_passwd" (ho_Password http) n
   ++ value_params "http_user" (ho_User http) n
   ++ [param "tls" (fluentBitBool (negb (tls_Insecure tls))); param "tls.verify" (fluentBitBool (negb (tls_InsecureSkipVerify tls)))]
   ++ when (IsValid (tls_CA tls)) [param "tls.ca_file" (tls_dir ++ name_of p ++ lit "-ca.crt")%list]
   ++ when (IsValid (tls_Cert tls)) [param "tls.crt_file" (tls_dir ++ name_of p ++ lit "-cert.crt")%list]
   ++ when (IsValid (tls_Key tls)) [param "tls.key_file" (tls_dir ++ name_of p ++ lit "-key.key")%list])%list.

(** The HTTP output, when it is defined. *)
Definition http_of (p : LogPipeline) : option FluentBitHTTPOutput :=
  if IsHTTPOutputDefined (ls_Output (lp_Spec p)) then lo_FluentBitHTTP (ls_Output (lp_Spec p)) else None.

Definition output_sections (p : LogPipeline) : list section :=
  if IsCustomOutputDefined (ls_Output (lp_Spec p)) then [sorted_section "[OUTPUT]" (custom_output_params p)]
  else match http_of p with Some http => [sorted_section "[OUTPUT]" (http_output_params p http)] | None => [] end.

Definition http_filter (p : LogPipeline) (f : FluentBitHTTPOutput -> list SectionParameter) : list section :=
  match http_of p with Some http => [sorted_section "[FILTER]" (f http)] | None => [] end.

Definition sections_of (p : LogPipeline) (clusterName : string) : list section :=
  ([sorted_section "[INPUT]" (input_params p)]
   ++ custom_filter_sections p multilineFilter
   ++ [sorted_section "[FILTER]" (record_modifier_params p clusterName)]
   ++ [sorted_section "[FILTER]" (kubernetes_params p)]
   ++ http_filter p (fun _ => modify_params p)
   ++ custom_filter_sections p nonMultilineFilter
   ++ http_filter p (lua_params p)
   ++ output_sections p)%list.

(** ** Pipelines whose texts have no line breaks *)

Definition clean_or_empty (s : string) : bool := str_eqb s "" || clean_value (lit s).

Definition clean_value_type (v : option ValueType) : bool :=
  match v with
  | Some v =>
      if str_eqb (vt_Value v) "" then
        match ref_of v with
        | Some r => one_line (skr_Namespace r) && one_line (skr_Name r) && one_line (skr_Key r)
        | None => true
        end
      else clean_value (lit (vt_Value v))
  | None => true
  end.

Definition clean_http (http : FluentBitHTTPOutput) : bool :=
  clean_or_empty (ho_URI http) && clean_or_empty (ho_Compress http) && clean_or_empty (ho_Port http)
  && clean_or_empty (ho_Format http) && clean_value_type (Some (ho_Host http)) && clean_value_type (ho_Password http)
  && clean_value_type (ho_User http).

Definition all_one_line (names : slice string) : bool := forallb one_line (elems names).

Definition clean_runtime (r : LogPipelineRuntimeInput) : bool :=
  match lri_Namespaces r with Some ns => all_one_line (ns_Include ns) && all_one_line (ns_Exclude ns) | None => true end
  && match lri_Containers r with Some cs => all_one_line (cs_Include cs) && all_one_line (cs_Exclude cs) | None => true end.

Definition clean_pipeline (p : LogPipeline) : bool :=
  negb (str_eqb (om_Name (lp_ObjectMeta p)) "") && forallb graphic (name_of p)
  && match li_Runtime (ls_Input (lp_Spec p)) with Some r => clean_runtime r | None => true end
  && match lo_FluentBitHTTP (ls_Output (lp_Spec p)) with Some http => clean_http http | None => true end.

Lemma lit_nil s : lit s = [] -> s = "".
Proof. by destruct s. Qed.

Lemma clean_or_empty_spec s : clean_or_empty s = true -> lit s = [] \/ clean_value (lit s) = true.
Proof. unfold clean_or_empty. rewrite orb_true_iff, str_eqb_true. intros [->|H]; auto. Qed.

Lemma bytes_eqb_lit s : bytes_eqb (lit s) [] = str_eqb s "".
Proof.
  destruct (str_eqb s "") eqn:H; [apply str_eqb_true in H as ->; done|]. apply bytes_eqb_false.
  intros ->%lit_nil. done.
Qed.

Lemma reads_builder h sb params :
  prefixb (lit "[") (lit h) = true -> nl ∉ lit h -> builds (lit h) sb -> sb_params sb = params ->
  reads (SectionBuilder_Build sb) [sorted_section h params].
Proof. intros H1 H2 Hb <-. by apply reads_section. Qed.

Lemma builds_new_input : builds (lit "[INPUT]") NewInputSectionBuilder.
Proof. by split. Qed.
Lemma builds_new_filter : builds (lit "[FILTER]") NewFilterSectionBuilder.
Proof. by split. Qed.
Lemma builds_new_output : builds (lit "[OUTPUT]") NewOutputSectionBuilder.
Proof. by split. Qed.

Create HintDb clean.
#[export] Hint Resolve builds_new_input builds_new_filter builds_new_output : clean.

Lemma builds_value h sb key v name :
  clean_key key = true -> clean_value_type v = true -> one_line name = true -> builds h sb ->
  builds h (add_value key v name sb).
Proof.
  intros Hk Hv Hn Hb. unfold add_value. destruct v as [v|]; [|done]. destruct (IsValid (Some v)) eqn:Hi; [|done].
  apply builds_add; [done| |done]. simpl in Hv. unfold resolveValue. destruct (str_eqb (vt_Value v) "") eqn:He; [|done].
  cbn [negb]. rewrite Hi. unfold IsValid in Hi. rewrite He in Hi. cbn [negb] in Hi. unfold ref_of in Hv.
  destruct (vt_ValueFrom v) as [src|]; [|done]. cbn in Hv. destruct (vfs_SecretKeyRef src) as [r|]; [|done].
  apply andb_true_iff in Hv as [[H1 H2]%andb_true_iff H3].
  apply ends_graphic_clean, ends_graphic_wrap; [by apply all_graphic_ends..|]. by apply formatEnvVarName_newline.
Qed.

Lemma builds_file h sb key v path :
  clean_key key = true -> clean_value path = true -> builds h sb -> builds h (add_file key v path sb).
Proof. intros Hk Hp Hb. unfold add_file. destruct (IsValid v); [by apply builds_add|done]. Qed.

(** Parameters of a builder. *)
Lemma params_add key value sb :
  ToLower key = key -> sb_params (AddConfigParam key value sb) = (sb_params sb ++ [mkParameter key value])%list.
Proof. simpl. by intros ->. Qed.

Lemma params_add_params ps sb :
  Forall (fun p => clean_param p = true) ps -> sb_params (add_params ps sb) = (sb_params sb ++ ps)%list.
Proof.
  unfold add_params. intros Hp. revert sb. induction Hp as [|p ps Hp _ IH]; intros sb; [by rewrite app_nil_r|].
  simpl. rewrite IH. simpl. rewrite <- app_assoc. apply andb_true_iff in Hp as [(_ & _ & -> & _)%clean_key_spec _].
  by destruct p.
Qed.

Lemma params_value key v name sb :
  ToLower (lit key) = lit key -> sb_params (add_value (lit key) v name sb) = (sb_params sb ++ value_params key v name)%list.
Proof.
  intros Hk. unfold add_value, value_params. destruct v as [v|]; [|by rewrite app_nil_r].
  destruct (IsValid _); simpl; [by rewrite Hk|by rewrite app_nil_r].
Qed.

Lemma params_file key v path sb :
  ToLower (lit key) = lit key ->
  sb_params (add_file (lit key) v path sb) = (sb_params sb ++ when (IsValid v) [param key path])%list.
Proof.
  intros Hk. unfold add_file. destruct (IsValid v); simpl; [by rewrite Hk|by rewrite app_nil_r].
Qed.

Lemma params_if key v sb :
  ToLower (lit key) = lit key ->
  sb_params (AddIfNotEmpty (lit key) v sb) = (sb_params sb ++ when (negb (bytes_eqb v [])) [param key v])%list.
Proof.
  intros Hk. unfold AddIfNotEmpty. destruct (bytes_eqb v []); simpl; [by rewrite app_nil_r|by rewrite Hk].
Qed.

Lemma params_or key v def sb :
  ToLower (lit key) = lit key ->
  sb_params (AddIfNotEmptyOrDefault (lit key) (lit v) (lit def) sb) =
  (sb_params sb ++ [param key (lit (if str_eqb v "" then def else v))])%list.
Proof.
  intros Hk. unfold AddIfNotEmptyOrDefault. rewrite bytes_eqb_lit. destruct (str_eqb v ""); simpl; by rewrite Hk.
Qed.

(** Steps through the calls on a section builder. *)
Ltac fill_section :=
  repeat first
    [ apply builds_add; [vm_compute; reflexivity| |]
    | apply builds_add_if; [vm_compute; reflexivity| |]
    | apply builds_add_or; [vm_compute; reflexivity|vm_compute; reflexivity| |]
    | apply builds_value; [vm_compute; reflexivity| | |]
    | apply builds_file; [vm_compute; reflexivity| |] ];
  auto with clean.

Section Pipeline.
Context (p : LogPipeline) (clusterName : string).
Hypothesis Hclean : clean_pipeline p = true.
Hypothesis Hcluster : clean_value (lit clusterName) = true.

Lemma name_graphic : forallb graphic (name_of p) = true.
Proof. pose proof Hclean as H. unfold clean_pipeline in H. rewrite !andb_true_iff in H. tauto. Qed.

Lemma name_nonempty : name_of p <> [].
Proof.
  pose proof Hclean as H. unfold clean_pipeline in H. rewrite !andb_true_iff, negb_true_iff, str_eqb_false in H.
  destruct H as [[[Hn _] _] _]. by intros ?%lit_nil.
Qed.

Lemma name_one_line : one_line (om_Name (lp_ObjectMeta p)) = true.
Proof. apply one_line_spec. apply all_graphic_ends; [apply name_nonempty|apply name_graphic]. Qed.

(** Any text of graphic bytes around the name. *)
Lemma around_name a b :
  forallb graphic a = true -> forallb graphic b = true -> clean_value (a ++ name_of p ++ b)%list = true.
Proof.
  intros Ha Hb. apply all_graphic_clean.
  - intros [_ [Hn _]%app_eq_nil]%app_eq_nil. by apply name_nonempty.
  - rewrite !forallb_app, name_graphic, Ha, Hb. done.
Qed.

Lemma name_clean : clean_value (name_of p) = true.
Proof. pose proof (around_name [] [] eq_refl eq_refl) as H. cbn [app] in H. by rewrite app_nil_r in H. Qed.

Lemma tag_clean : clean_value (tag_of (name_of p)) = true.
Proof. by apply (around_name [] (lit ".*")). Qed.

Hint Resolve name_clean tag_clean name_one_line : clean.
Hint Extern 1 (clean_value (_ ++ _)%list = true) => (apply around_name; vm_compute; reflexivity) : clean.
Hint Extern 2 (clean_value (lit _) = true) => (vm_compute; reflexivity) : clean.

(** ** The sections one by one *)

Lemma runtime_clean r : li_Runtime (ls_Input (lp_Spec p)) = Some r -> clean_runtime r = true.
Proof. intros Hr. pose proof Hclean as H. unfold clean_pipeline in H. rewrite Hr, !andb_true_iff in H. tauto. Qed.

Lemma http_clean http : lo_FluentBitHTTP (ls_Output (lp_Spec p)) = Some http -> clean_http http = true.
Proof. intros Hr. pose proof Hclean as H. unfold clean_pipeline in H. rewrite Hr, !andb_true_iff in H. tauto. Qed.

Lemma nonempty_or_spec s : all_one_line s = true -> nonempty_or s ["*"] <> [] /\ Forall (fun n => one_line n = true) (nonempty_or s ["*"]).
Proof.
  intros Hs. unfold nonempty_or. destruct (0 <? slen s)%nat eqn:He; [|by repeat constructor].
  apply Nat.ltb_lt in He. unfold slen in He. split; [by destruct (elems s); [simpl in He; lia|]|].
  apply Forall_forall. intros n Hn. unfold all_one_line in Hs. rewrite forallb_forall in Hs. by apply Hs, list_elem_of_In.
Qed.

Lemma star_selected : ["*"] <> [] /\ Forall (fun n => one_line n = true) ["*"].
Proof. by repeat constructor. Qed.

(** The names that the runtime input selects. *)
Definition included {T} (sel : LogPipelineRuntimeInput -> option T) (names : T -> slice string) : list string :=
  match li_Runtime (ls_Input (lp_Spec p)) ≫= sel with Some x => nonempty_or (names x) ["*"] | None => ["*"] end.
Definition excluded {T} (sel : LogPipelineRuntimeInput -> option T) (names : T -> slice string) (def : list string) : list string :=
  match li_Runtime (ls_Input (lp_Spec p)) ≫= sel with Some x => elems (names x) | None => def end.

Lemma included_spec {T} sel (names : T -> slice string) :
  (forall r x, clean_runtime r = true -> sel r = Some x -> all_one_line (names x) = true) ->
  included sel names <> [] /\ Forall (fun n => one_line n = true) (included sel names).
Proof.
  intros H. unfold included. destruct (li_Runtime _) as [r|] eqn:Hr; [|apply star_selected].
  cbn [mbind option_bind]. destruct (sel r) as [x|] eqn:Hx; [|apply star_selected].
  apply nonempty_or_spec. by eapply H; [apply runtime_clean|].
Qed.

Lemma excluded_spec {T} sel (names : T -> slice string) def :
  (forall r x, clean_runtime r = true -> sel r = Some x -> all_one_line (names x) = true) ->
  Forall (fun n => one_line n = true) def -> Forall (fun n => one_line n = true) (excluded sel names def).
Proof.
  intros H Hd. unfold excluded. destruct (li_Runtime _) as [r|] eqn:Hr; [|done].
  cbn [mbind option_bind]. destruct (sel r) as [x|] eqn:Hx; [|done].
  apply Forall_forall. intros n Hn. specialize (H r x (runtime_clean _ Hr) Hx). unfold all_one_line in H.
  rewrite forallb_forall in H. by apply H, list_elem_of_In.
Qed.

Lemma runtime_names r :
  clean_runtime r = true ->
  (forall x, lri_Namespaces r = Some x -> all_one_line (ns_Include x) = true /\ all_one_line (ns_Exclude x) = true) /\
  (forall x, lri_Containers r = Some x -> all_one_line (cs_Include x) = true /\ all_one_line (cs_Exclude x) = true).
Proof. unfold clean_runtime. rewrite andb_true_iff. intros [H1 H2]. split; intros x Hx; rewrite Hx in *; by apply andb_true_iff. Qed.

Lemma include_clean : clean_value (createIncludePath p) = true.
Proof.
  change (createIncludePath p) with
    (join (lit ",") (concat (map (fun ns => map (fun c => makeLogPath ns "*" c) (included lri_Containers cs_Include))
                               (included lri_Namespaces ns_Include)))).
  destruct (included_spec lri_Namespaces ns_Include) as [Hns0 Hns]; [intros r x Hr Hx; by apply (proj1 (runtime_names r Hr))|].
  destruct (included_spec lri_Containers cs_Include) as [Hcs0 Hcs]; [intros r x Hr Hx; by apply (proj2 (runtime_names r Hr))|].
  apply ends_graphic_clean, ends_graphic_join; [|by apply member_false|].
  - destruct (included lri_Namespaces ns_Include) as [|n ns]; [done|]. by destruct (included lri_Containers cs_Include).
  - apply Forall_concat, Forall_map. eapply Forall_impl; [exact Hns|]. intros n Hn. cbv beta.
    apply Forall_map. eapply Forall_impl; [exact Hcs|]. intros c Hc. by apply makeLogPath_ends.
Qed.

Lemma exclude_clean : clean_value (createExcludePath p false) = true.
Proof.
  apply ends_graphic_clean, ends_graphic_join; [done|by apply member_false|].
  cbn [negb app]. do 4 (apply Forall_cons; split; [by apply makeLogPath_ends|]). apply Forall_app. split.
  - apply Forall_map. eapply Forall_impl; [apply (excluded_spec lri_Namespaces ns_Exclude System)|].
    + intros r x Hr Hx. by apply (proj1 (runtime_names r Hr)).
    + by repeat constructor.
    + intros c Hc. by apply makeLogPath_ends.
  - apply Forall_map. eapply Forall_impl; [apply (excluded_spec lri_Containers cs_Exclude [])|].
    + intros r x Hr Hx. by apply (proj2 (runtime_names r Hr)).
    + constructor.
    + intros c Hc. by apply makeLogPath_ends.
Qed.

Hint Resolve include_clean exclude_clean : clean.

Lemma reads_input :
  reads (createInputSection p (createIncludePath p) (createExcludePath p false)) [sorted_section "[INPUT]" (input_params p)].
Proof.
  apply reads_builder; [done|by apply member_false| |].
  - fill_section.
  - unfold input_params. repeat first [rewrite params_add by done | rewrite params_if by done].
    cbn [NewInputSectionBuilder sb_params app]. rewrite <- !app_assoc. done.
Qed.

Lemma cluster_clean : clean_value (lit "cluster_identifier " ++ lit clusterName)%list = true.
Proof.
  pose proof (proj1 (clean_value_spec _) Hcluster) as (Hne & Hn & Ht). apply clean_value_spec. split_and!; [done| |].
  - rewrite not_elem_of_app. split; [by apply member_false|done].
  - unfold trimmed. apply andb_true_iff. split; [by apply graphic_start|].
    rewrite rev_app_distr. change (rev (lit "cluster_identifier ")) with (blank :: rev (lit "cluster_identifier")).
    apply andb_true_iff in Ht as [_ Ht]. apply no_rprefix_blank; [|done].
    intros He. apply Hne. by rewrite <- (rev_involutive (lit clusterName)), He.
Qed.

Hint Resolve cluster_clean : clean.

Lemma reads_filter sb params :
  builds (lit "[FILTER]") sb -> sb_params sb = params ->
  reads (SectionBuilder_Build sb) [sorted_section "[FILTER]" params].
Proof. intros Hb <-. apply reads_builder; [done|by apply member_false|done|done]. Qed.

Lemma reads_output sb params :
  builds (lit "[OUTPUT]") sb -> sb_params sb = params ->
  reads (SectionBuilder_Build sb) [sorted_section "[OUTPUT]" params].
Proof. intros Hb <-. apply reads_builder; [done|by apply member_false|done|done]. Qed.

Lemma reads_record_modifier :
  reads (createRecordModifierFilter p clusterName) [sorted_section "[FILTER]" (record_modifier_params p clusterName)].
Proof. apply reads_filter; [fill_section|done]. Qed.

Lemma fluentBitBool_clean b : clean_value (fluentBitBool b) = true.
Proof. by destruct b. Qed.

Hint Resolve fluentBitBool_clean : clean.

Lemma reads_kubernetes : reads (createKubernetesFilter p) [sorted_section "[FILTER]" (kubernetes_params p)].
Proof.
  apply reads_filter; [fill_section; apply (around_name [] (lit ".var.log.pods.")); done|].
  unfold kubernetes_params. cbv zeta. set (i := default _ _).
  repeat rewrite params_add by done. cbn [NewFilterSectionBuilder sb_params app]. unfold param, deref.
  by destruct (lri_FluentBitKeepAnnotations i), (lri_FluentBitDropLabels i), (lri_KeepOriginalBody i).
Qed.

Lemma http_of_some http : http_of p = Some http -> lo_FluentBitHTTP (ls_Output (lp_Spec p)) = Some http.
Proof. unfold http_of. by destruct (IsHTTPOutputDefined _). Qed.

Lemma reads_modify : reads (createTimestampModifyFilter p) (http_filter p (fun _ => modify_params p)).
Proof.
  unfold createTimestampModifyFilter, http_filter, http_of, IsHTTPOutputDefined.
  destruct (lo_FluentBitHTTP _) as [http|]; [|apply reads_nil]. destruct (IsValid _); [|apply reads_nil].
  apply reads_filter; [fill_section|done].
Qed.

Lemma reads_lua : reads (createLuaFilter p) (http_filter p (lua_params p)).
Proof.
  unfold createLuaFilter, http_filter, http_of, IsHTTPOutputDefined.
  destruct (lo_FluentBitHTTP _) as [http|]; [|apply reads_nil]. destruct (IsValid _); [|apply reads_nil].
  cbn [negb]. apply reads_filter; [fill_section; by destruct (ho_Dedot http)|]. done.
Qed.

(** *** Custom sections *)

Hypothesis Hsections : validateCustomSections p = None.

Lemma filters_parse filters f :
  validate_filter_sections filters = None -> f ∈ filters -> exists ps, ParseCustomSection (fbf_Custom f) = Ok ps.
Proof.
  induction filters as [|g filters IH]; cbn [validate_filter_sections]; [by intros _ ?%not_elem_of_nil|].
  destruct (ParseCustomSection (fbf_Custom g)) as [ps|] eqn:Hp; [|done].
  intros Hv [->|Hf]%elem_of_cons; [by exists ps|auto].
Qed.

Lemma filter_params_clean filterType ps :
  ps ∈ custom_filter_params (elems (ls_FluentBitFilters (lp_Spec p))) filterType ->
  Forall (fun q => clean_param q = true) ps.
Proof.
  unfold custom_filter_params. intros Hps%list_elem_of_In. apply filter_In in Hps as [Hps _].
  apply in_map_iff in Hps as (f & <- & Hf%list_elem_of_In).
  apply or_return_none in Hsections as [_ Hs].
  destruct (filters_parse _ _ Hs Hf) as [ps Hp]. rewrite (parseMultiline_agrees _ _ Hp).
  by eapply ParseCustomSection_clean.
Qed.

Lemma reads_custom_filter ps :
  Forall (fun q => clean_param q = true) ps ->
  reads (custom_filter_section (name_of p) ps) [sorted_section "[FILTER]" (ps ++ [match_param p])%list].
Proof.
  intros Hps. apply reads_filter.
  - apply builds_add; [done|auto with clean|]. apply builds_params; auto with clean.
  - rewrite params_add by done. by rewrite params_add_params.
Qed.

Lemma reads_custom_filters filterType :
  reads (createCustomFilters p filterType) (custom_filter_sections p filterType).
Proof.
  pose proof (filter_params_clean filterType) as Hc. unfold createCustomFilters, custom_filter_sections.
  revert Hc. generalize (custom_filter_params (elems (ls_FluentBitFilters (lp_Spec p))) filterType). intros pss Hc.
  assert (He : map (fun ps => sorted_section "[FILTER]" (ps ++ [match_param p])%list) pss =
               concat (map (fun ps => [sorted_section "[FILTER]" (ps ++ [match_param p])%list]) pss)).
  { clear. induction pss; cbn; [done|]. by f_equal. }
  rewrite He. apply reads_join. clear He. induction pss as [|ps pss IH]; [constructor|]. constructor.
  - apply reads_custom_filter, Hc. by left.
  - apply IH. intros qs Hq. apply Hc. by right.
Qed.

Lemma custom_output_clean :
  IsCustomOutputDefined (ls_Output (lp_Spec p)) = true ->
  Forall (fun q => clean_param q = true) (parseMultiline (lo_FluentBitCustom (ls_Output (lp_Spec p)))).
Proof.
  unfold IsCustomOutputDefined. intros Hd. apply or_return_none in Hsections as [Hs _].
  rewrite Hd in Hs. destruct (ParseCustomSection _) as [ps|] eqn:Hp; [|done].
  rewrite (parseMultiline_agrees _ _ Hp). by eapply ParseCustomSection_clean.
Qed.

Lemma reads_custom_output :
  IsCustomOutputDefined (ls_Output (lp_Spec p)) = true ->
  reads (generateCustomOutput (ls_Output (lp_Spec p)) (lit "1G") (name_of p))
    [sorted_section "[OUTPUT]" (custom_output_params p)].
Proof.
  intros Hd%custom_output_clean. unfold generateCustomOutput, custom_output_params. cbv zeta.
  set (ps := parseMultiline _) in *. apply reads_output.
  - fill_section. destruct (negb _); [fill_section|]; apply builds_params; auto with clean.
  - repeat rewrite params_add by done. destruct (negb _); rewrite ?params_add by done;
      rewrite params_add_params by done; cbn [NewOutputSectionBuilder sb_params app when]; by rewrite <- !app_assoc.
Qed.

Lemma reads_http_output http :
  lo_FluentBitHTTP (ls_Output (lp_Spec p)) = Some http ->
  reads (generateHTTPOutput http (lit "1G") (om_Name (lp_ObjectMeta p)))
    [sorted_section "[OUTPUT]" (http_output_params p http)].
Proof.
  intros Hh%http_clean. unfold clean_http in Hh. rewrite !andb_true_iff in Hh.
  destruct Hh as ((((((Hu & Hc) & Hp) & Hf) & Hho) & Hpw) & Hus).
  apply clean_or_empty_spec in Hu, Hc, Hp, Hf. apply reads_output.
  - fill_section; [by destruct (tls_InsecureSkipVerify _)|by destruct (tls_Insecure _)].
  - unfold http_output_params. cbv zeta.
    repeat first [ rewrite params_add by done | rewrite params_if by done | rewrite params_or by done
                 | rewrite params_value by done | rewrite params_file by done ].
    rewrite !bytes_eqb_lit. cbn [NewOutputSectionBuilder sb_params app]. rewrite <- !app_assoc.
    by destruct (tls_Insecure _), (tls_InsecureSkipVerify _).
Qed.

Lemma reads_outputs : reads (createOutputSection p (bc_pipelineDefaults builder_config)) (output_sections p).
Proof.
  unfold createOutputSection, output_sections. destruct (IsCustomOutputDefined _) eqn:Hd; [by apply reads_custom_output|].
  unfold http_of, IsHTTPOutputDefined. destruct (lo_FluentBitHTTP _) as [http|] eqn:Hh; [|apply reads_nil].
  destruct (IsValid _); [|apply reads_nil]. by apply reads_http_output.
Qed.

Lemma reads_sections_file content :
  buildFluentBitSectionsConfig p builder_config clusterName = Ok content -> reads content (sections_of p clusterName).
Proof.
  unfold buildFluentBitSectionsConfig. destruct (GetOutputType p); [done|]. rewrite Hsections. intros <-%Ok_inj.
  unfold sections_of.
  apply reads_app; [apply reads_input|]. apply reads_app; [apply reads_custom_filters|].
  apply reads_app; [apply reads_record_modifier|]. apply reads_app; [apply reads_kubernetes|].
  apply reads_app; [apply reads_modify|]. apply reads_app; [apply reads_custom_filters|].
  apply reads_app; [apply reads_lua|]. apply reads_outputs.
Qed.

End Pipeline.

Lemma built_sections p config clusterName content :
  buildFluentBitSectionsConfig p config clusterName = Ok content ->
  GetOutputType p = FluentBit /\ validateCustomSections p = None.
Proof.
  unfold buildFluentBitSectionsConfig. destruct (GetOutputType p); [done|]. by destruct (validateCustomSections p).
Qed.

(** C21. The sections file that is written for a Fluent Bit pipeline reads back
    as exactly the sections the pipeline asks for, in order and with all
    parameters (input, multiline filters first, the fixed filters, the other
    custom filters, the output), provided the name is not empty and of graphic
    characters, the inline values of the HTTP output (where given) and the
    cluster name are one line without white space around it, and namespaces,
    containers and Secret names are one line. *)
Theorem fluentbit_file_reads_back p clusterName content :
  clean_pipeline p = true -> clean_value (lit clusterName) = true ->
  buildFluentBitSectionsConfig p builder_config clusterName = Ok content ->
  read_file content = Some (sections_of p clusterName).
Proof.
  intros Hp Hc Hb. destruct (built_sections _ _ _ _ Hb) as [_ Hv]. by eapply reads_file, reads_sections_file.
Qed.

(** ** The sections handle the records of the pipeline only *)

Definition keyed (key : string) (ps : list SectionParameter) : list SectionParameter :=
  List.filter (fun q => bytes_eqb (par_Key q) (lit key)) ps.

Lemma keyed_app key a b : keyed key (a ++ b) = (keyed key a ++ keyed key b)%list.
Proof. apply List.filter_app. Qed.

Lemma keyed_perm key a b : a ≡ₚ b -> keyed key a ≡ₚ keyed key b.
Proof.
  unfold keyed. induction 1 as [|x a b _ IH|x y a|a b c _ IH1 _ IH2]; simpl; [done|..].
  - destruct (bytes_eqb _ _); [by constructor|done].
  - destruct (bytes_eqb _ _), (bytes_eqb _ _); [by constructor|done..].
  - by etrans.
Qed.

Lemma keyed_absent key ps : ContainsKey ps key = false -> keyed key ps = [].
Proof.
  unfold keyed, ContainsKey. induction ps as [|q ps IH]; [done|]. simpl. unfold bytes_eqb at 1.
  rewrite orb_false_iff. intros [-> Hps]. auto.
Qed.

Lemma keyed_when key c q : par_Key q <> lit key -> keyed key (when c [q]) = [].
Proof. intros Hq. destruct c; [|done]. unfold keyed. simpl. by rewrite (proj2 (bytes_eqb_false _ _) Hq). Qed.

Lemma keyed_values key k v n : lit k <> lit key -> keyed key (value_params k v n) = [].
Proof. intros Hk. unfold value_params. destruct v; [|done]. by apply keyed_when. Qed.

(** A filter or an output with the match of the pipeline and no other, nor a match by a regular expression. *)
Definition own_section (p : LogPipeline) (s : section) : Prop :=
  (s.1 = lit "[FILTER]" \/ s.1 = lit "[OUTPUT]") /\
  keyed "match" s.2 = [match_param p] /\ keyed "match_regex" s.2 = [].

(** No custom section of the pipeline selects records by a regular expression. *)
Definition without_match_regex (c : string) : bool :=
  match ParseCustomSection c with Ok ps => negb (ContainsKey ps "match_regex") | Err _ => true end.
Definition no_match_regex (p : LogPipeline) : Prop :=
  Forall (fun c => without_match_regex c = true)
    (lo_FluentBitCustom (ls_Output (lp_Spec p)) :: map fbf_Custom (elems (ls_FluentBitFilters (lp_Spec p)))).

Lemma sorted_keyed h params key : keyed key (sorted_section h params).2 ≡ₚ keyed key params.
Proof. apply keyed_perm. simpl. apply (merge_sort_Permutation param_le). Qed.

Lemma own_sorted p h params :
  h = "[FILTER]" \/ h = "[OUTPUT]" -> keyed "match" params = [match_param p] -> keyed "match_regex" params = [] ->
  own_section p (sorted_section h params).
Proof.
  intros Hh Hk Hr. split; [simpl; naive_solver|]. split.
  - pose proof (sorted_keyed h params "match") as Hp. rewrite Hk in Hp.
    symmetry in Hp. by apply Permutation_length_1_inv in Hp.
  - apply Permutation_nil. symmetry. rewrite <- Hr. apply sorted_keyed.
Qed.

Lemma own_http_output p http : own_section p (sorted_section "[OUTPUT]" (http_output_params p http)).
Proof.
  apply own_sorted; [by right|..]; unfold http_output_params; cbv zeta;
    by rewrite !keyed_app, !keyed_when, !keyed_values by done.
Qed.

Lemma custom_filter_no_match c ps :
  validateCustomFilter c = None -> ParseCustomSection c = Ok ps -> ContainsKey ps "match" = false.
Proof.
  unfold validateCustomFilter. destruct (str_eqb c "") eqn:Hc.
  - apply str_eqb_true in Hc as ->. intros _ Hp. vm_compute in Hp. by injection Hp as <-.
  - intros Hv Hp. rewrite Hp in Hv. destruct (GetByKey _ _); [|done]. destruct (existsb _ _); [done|].
    by destruct (ContainsKey ps "match").
Qed.

Lemma filters_valid filters f : validate_custom_filters filters = None -> f ∈ filters -> validateCustomFilter (fbf_Custom f) = None.
Proof.
  induction filters as [|g filters IH]; cbn [validate_custom_filters]; [by intros _ ?%not_elem_of_nil|].
  intros [Hg Hv]%or_return_none [->|Hf]%elem_of_cons; auto.
Qed.

Lemma without_match_regex_keyed c ps :
  without_match_regex c = true -> ParseCustomSection c = Ok ps -> keyed "match_regex" ps = [].
Proof. unfold without_match_regex. intros Hw Hp. rewrite Hp in Hw. by apply keyed_absent, negb_true_iff. Qed.

Lemma own_custom_filters p filterType :
  validateCustomSections p = None -> validateFilters p = None -> no_match_regex p ->
  Forall (own_section p) (custom_filter_sections p filterType).
Proof.
  intros [_ Hs]%or_return_none Hv [_ Hr]%Forall_cons. unfold custom_filter_sections. apply Forall_map, Forall_forall. intros ps Hps.
  unfold custom_filter_params in Hps. apply list_elem_of_In, filter_In in Hps as [Hps _].
  apply in_map_iff in Hps as (f & <- & Hf%list_elem_of_In).
  destruct (filters_parse _ _ Hs Hf) as [ps Hp]. rewrite (parseMultiline_agrees _ _ Hp).
  rewrite Forall_forall in Hr. apply own_sorted; [by left|..]; rewrite keyed_app.
  - rewrite keyed_absent; [done|]. eapply custom_filter_no_match; [by eapply filters_valid|done].
  - erewrite without_match_regex_keyed; [done| |exact Hp]. apply Hr, list_elem_of_In, in_map, list_elem_of_In, Hf.
Qed.

Lemma own_custom_output p :
  validateCustomSections p = None -> validateCustomOutput (lo_FluentBitCustom (ls_Output (lp_Spec p))) = None ->
  no_match_regex p -> IsCustomOutputDefined (ls_Output (lp_Spec p)) = true ->
  own_section p (sorted_section "[OUTPUT]" (custom_output_params p)).
Proof.
  intros [Hs _]%or_return_none Hv [Hr _]%Forall_cons Hd. unfold IsCustomOutputDefined in Hd. rewrite Hd in Hs.
  unfold validateCustomOutput in Hv. apply negb_true_iff in Hd. rewrite Hd in Hv.
  destruct (ParseCustomSection _) as [ps|] eqn:Hp; [|done].
  apply own_sorted; [by right|..]; unfold custom_output_params; cbv zeta; rewrite !keyed_app, keyed_when by done;
    rewrite (parseMultiline_agrees _ _ Hp).
  - rewrite keyed_absent; [done|]. destruct (GetByKey _ _); [|done]. by destruct (ContainsKey ps "match").
  - by rewrite (without_match_regex_keyed _ _ Hr Hp).
Qed.

Lemma own_http_filter p f :
  (forall http, keyed "match" (f http) = [match_param p]) -> (forall http, keyed "match_regex" (f http) = []) ->
  Forall (own_section p) (http_filter p f).
Proof.
  intros Hf Hr. unfold http_filter. destruct (http_of p); [|constructor].
  constructor; [by apply own_sorted; [left|..]|constructor].
Qed.

Lemma own_sections p clusterName :
  validateCustomSections p = None -> validateFilters p = None ->
  validateCustomOutput (lo_FluentBitCustom (ls_Output (lp_Spec p))) = None -> no_match_regex p ->
  Forall (own_section p) (tail (sections_of p clusterName)).
Proof.
  intros Hs Hf Ho Hr. unfold sections_of. cbn [app tail].
  apply Forall_app_2; [by apply own_custom_filters|].
  apply Forall_cons_2; [by apply own_sorted; [left|..]|]. apply Forall_cons_2; [by apply own_sorted; [left|..]|].
  apply Forall_app_2; [by apply own_http_filter|]. apply Forall_app_2; [by apply own_custom_filters|].
  apply Forall_app_2; [by apply own_http_filter|].
  unfold output_sections. destruct (IsCustomOutputDefined _) eqn:Hd.
  - constructor; [by apply own_custom_output|constructor].
  - destruct (http_of p); [|constructor]. constructor; [apply own_http_output|constructor].
Qed.

(** ** Records and sections *)

(** How Fluent Bit matches the tag of a record, with a wildcard pattern (Match) and with a regular
    expression (Match_Regex), and how the tail input makes the tag of a record from the name of the file. *)
Class TagRouting := {
  tag_match : bytes -> bytes -> bool;
  tag_match_regex : bytes -> bytes -> bool;
  tag_expand : bytes -> bytes -> bytes
}.
Class TagRoutingLaws `{TagRouting} := {
  tag_match_law x t : member "*"%char x = false -> tag_match (x ++ lit ".*")%list t = prefixb (x ++ lit ".")%list t;
  tag_expand_law x f : member "*"%char x = false -> tag_expand (x ++ lit ".*")%list f = (x ++ lit "." ++ f)%list
}.

(** A filter or an output takes the records that its Match or its Match_Regex selects. *)
Definition section_handles `{TagRouting} (s : section) (tag : bytes) : bool :=
  existsb (fun q => bytes_eqb (par_Key q) (lit "match") && tag_match (par_Value q) tag) s.2
  || existsb (fun q => bytes_eqb (par_Key q) (lit "match_regex") && tag_match_regex (par_Value q) tag) s.2.

(** The tag of a record that the input of a pipeline reads from a file. *)
Definition record_tag `{TagRouting} (p : LogPipeline) (file : bytes) : bytes := tag_expand (tag_of (name_of p)) file.

Lemma existsb_conj_filter {T} (a b : T -> bool) l : existsb (fun x => a x && b x) l = existsb b (List.filter a l).
Proof. induction l as [|x l IH]; [done|]. simpl. destruct (a x); simpl; by rewrite IH. Qed.

Lemma own_section_handles `{TagRouting} p s tag :
  own_section p s -> section_handles s tag = tag_match (tag_of (name_of p)) tag.
Proof.
  intros (_ & Hk & Hr). unfold section_handles. rewrite !existsb_conj_filter. unfold keyed in Hk, Hr. rewrite Hk, Hr.
  cbn [existsb par_Value param]. by rewrite !orb_false_r.
Qed.

Section Records.
Context `{TagRoutingLaws}.

(** The records of [q] that the sections of [p] handle. *)
Lemma record_matched p q f :
  member "*"%char (name_of p) = false -> member "*"%char (name_of q) = false ->
  tag_match (tag_of (name_of p)) (record_tag q f) = prefixb (name_of p ++ lit ".")%list (name_of q ++ lit "." ++ f)%list.
Proof. intros Hp Hq. unfold record_tag, tag_of. by rewrite tag_expand_law, tag_match_law. Qed.

Lemma undotted_prefix a b f :
  member "."%char a = false -> member "."%char b = false ->
  prefixb (a ++ lit ".")%list (b ++ lit "." ++ f)%list = bytes_eqb a b.
Proof.
  rewrite !member_false. intros Ha Hb. destruct (bytes_eqb a b) eqn:He.
  - apply bytes_eqb_true in He as ->. apply prefixb_spec. exists f. by rewrite <- app_assoc.
  - apply bytes_eqb_false in He. apply not_true_iff_false. rewrite prefixb_spec. intros [r Hr]. apply He.
    assert (Hc : cut "."%char (b ++ lit "." ++ f)%list = Some (b, f)) by (apply cut_spec; done).
    rewrite Hr in Hc. assert (Hc' : cut "."%char ((a ++ lit ".") ++ r)%list = Some (a, r)).
    { apply cut_spec. split; [by rewrite <- app_assoc|done]. }
    congruence.
Qed.

End Records.

Lemma Validate_custom {W} `{PipelineValidators W LogPipeline} `{ConfigMapClient W} `{OwnerSetter} r (w w' : W) p :
  fluentbit_Validate r w p = (w', None) ->
  validateFilters p = None /\ validateCustomOutput (lo_FluentBitCustom (ls_Output (lp_Spec p))) = None.
Proof.
  unfold fluentbit_Validate. destruct (TryAcquireLock _ _ _) as [w1 [e|]]; [done|]. intros [= _ Hc].
  unfold checks_after_lock in Hc. rewrite !or_return_none in Hc. tauto.
Qed.

(** C19. The sections file of a Fluent Bit pipeline that passed validation and
    whose custom sections have no match_regex (which the validator lets pass),
    custom filters and output included, has one input with the tag of the
    pipeline, and every filter and output section in it handles all records of
    the pipeline and no record of another pipeline, by match or by match_regex.
    Names have no dots or stars and are of graphic characters; the inline values
    of the HTTP output and the cluster name are one line without white space
    around it; namespaces, containers and Secret names are one line. *)
Theorem fluentbit_pipelines_isolated {W} `{PipelineValidators W LogPipeline} `{ConfigMapClient W} `{OwnerSetter}
    `{TagRoutingLaws} r (w w' : W) p q clusterName content :
  fluentbit_Validate r w p = (w', None) -> no_match_regex p -> clean_pipeline p = true -> clean_value (lit clusterName) = true ->
  Forall (fun x => member "*"%char (name_of x) = false /\ member "."%char (name_of x) = false) [p; q] ->
  name_of q <> name_of p ->
  buildFluentBitSectionsConfig p builder_config clusterName = Ok content ->
  exists input rest, read_file content = Some ((lit "[INPUT]", input) :: rest) /\
    keyed "tag" input = [param "tag" (tag_of (name_of p))] /\
    Forall (fun s => forall file, section_handles s (record_tag p file) = true /\
                                  section_handles s (record_tag q file) = false) rest.
Proof.
  intros Hv Hr Hp Hc Hn Hpq Hb. destruct (Validate_custom _ _ _ _ Hv) as [Hf Ho].
  destruct (built_sections _ _ _ _ Hb) as [_ Hs]. do 2 apply Forall_cons in Hn as [[? ?] Hn].
  exists (merge_sort param_le (input_params p)), (tail (sections_of p clusterName)). split; [|split].
  - by eapply reads_file, (reads_sections_file p clusterName).
  - pose proof (sorted_keyed "[INPUT]" (input_params p) "tag") as Hk. unfold input_params in Hk at 2.
    rewrite !keyed_app, keyed_when in Hk by done. symmetry in Hk. by apply Permutation_length_1_inv in Hk.
  - eapply Forall_impl; [by apply own_sections|]. intros s Hs' file.
    rewrite !(own_section_handles p), !record_matched, !undotted_prefix by done.
    split; [by apply bytes_eqb_true|]. apply bytes_eqb_false. congruence.
Qed.

(** The validator forbids a match in custom filters but not a match by a regular expression: a filter of an
    accepted pipeline handles every record whose tag its regular expression matches. *)
Theorem match_regex_reaches_others `{TagRouting} p clusterName content f ps q tag :
  clean_pipeline p = true -> clean_value (lit clusterName) = true ->
  buildFluentBitSectionsConfig p builder_config clusterName = Ok content ->
  f ∈ elems (ls_FluentBitFilters (lp_Spec p)) -> ParseCustomSection (fbf_Custom f) = Ok ps ->
  q ∈ ps -> par_Key q = lit "match_regex" -> tag_match_regex (par_Value q) tag = true ->
  exists sections s, read_file content = Some sections /\ s ∈ sections /\ section_handles s tag = true.
Proof.
  intros Hp Hc Hb Hf Hps Hq Hk Hm. destruct (built_sections _ _ _ _ Hb) as [_ Hs].
  exists (sections_of p clusterName), (sorted_section "[FILTER]" (ps ++ [match_param p])%list). split; [|split].
  - by eapply reads_file, (reads_sections_file p clusterName).
  - assert (exists t, (t = multilineFilter \/ t = nonMultilineFilter) /\
      ps ∈ custom_filter_params (elems (ls_FluentBitFilters (lp_Spec p))) t) as (t & Ht & Hin).
    { rewrite <- (parseMultiline_agrees _ _ Hps).
      exists (if isMultilineFilter (parseMultiline (fbf_Custom f)) then multilineFilter else nonMultilineFilter).
      split; [destruct (isMultilineFilter _); tauto|]. apply list_elem_of_In, filter_In. split.
      - apply in_map_iff. exists f. by rewrite <- list_elem_of_In.
      - by destruct (isMultilineFilter _). }
    unfold sections_of. rewrite !elem_of_app.
    assert (sorted_section "[FILTER]" (ps ++ [match_param p])%list ∈ custom_filter_sections p t) as Hin'.
    { unfold custom_filter_sections. apply list_elem_of_fmap. eauto. }
    destruct Ht as [->| ->]; rewrite ?elem_of_cons; tauto.
  - unfold section_handles. apply orb_true_iff. right. apply existsb_exists. exists q. split.
    + apply list_elem_of_In. cbn [snd sorted_section]. rewrite (merge_sort_Permutation param_le). set_solver.
    + rewrite Hm, Hk. by rewrite (proj2 (bytes_eqb_true _ _) eq_refl).
Qed.
