(* ===== verification/FluentBitConfigTheorems.v ===== *)
(** * The whole Fluent Bit configuration

    The sections files, the environment variables and the TLS files of all pipelines
    together; and pipelines for which the sections are not isolated. *)
From stdpp Require Import base gmap strings list sorting.
From Stdlib Require Import Ascii.
From S2P Require Import Prelude Kube GoErrors GoStrings Conversion.
From S2P Require Import ApiV1beta1 SecretRef TLSCert Lock Coordination Validators SampleCluster LogOtelReconciler.
From S2P Require Import FluentBitReconciler FluentBitReconcilerProps FluentBitConfigBuilder FluentBitSections FluentBitConfigProps.
Local Open Scope string_scope.

Section Build.
Context `{SecretReader}.

Definition secret_value (ref : SecretKeyRef) : option string :=
  match get_secret (mkNN (skr_Namespace ref) (skr_Name ref)) with
  | Ok s => sec_Data s !! skr_Key ref
  | Err _ => None
  end.

Lemma getSecretData_ok ref k m : getSecretData ref k = Ok m -> exists v, secret_value ref = Some v /\ m = {[k := v]}.
Proof.
  unfold getSecretData, secret_value. destruct (get_secret _) as [s|]; [|done].
  destruct (sec_Data s !! skr_Key ref) as [v|]; [|done]. intros [= <-]. eauto.
Qed.

(** ** The environment *)

(** The variables that are filled from Secrets, in the order in which they are. *)
Definition value_pair (prefix : string) (value : option ValueType) : list (string * option string) :=
  if shouldCopySecret value then
    match value ≫= ref_of with
    | Some ref => [(of_bytes (formatEnvVarName prefix (skr_Namespace ref) (skr_Name ref) (skr_Key ref)), secret_value ref)]
    | None => []
    end
  else [].

Definition http_pairs (p : LogPipeline) : list (string * option string) :=
  match lo_FluentBitHTTP (ls_Output (lp_Spec p)) with
  | None => []
  | Some http =>
      let n := om_Name (lp_ObjectMeta p) in
      (value_pair n (Some (ho_Host http)) ++ value_pair n (ho_User http) ++ value_pair n (ho_Password http))%list
  end.

Definition variable_pairs (vs : list FluentBitVariable) : list (string * option string) :=
  concat (map (fun v => match vfs_SecretKeyRef (fbv_ValueFrom v) with Some ref => [(fbv_Name v, secret_value ref)] | None => [] end) vs).

Definition env_pairs (p : LogPipeline) : list (string * option string) :=
  (http_pairs p ++ variable_pairs (elems (ls_FluentBitVariables (lp_Spec p))))%list.

Fixpoint load (pairs : list (string * option string)) (m : EnvSecret) : option EnvSecret :=
  match pairs with
  | [] => Some m
  | (k, value) :: rest => v ← value; load rest (<[k := v]> m)
  end.

Lemma load_app a b m : load (a ++ b) m = (m' ← load a m; load b m').
Proof.
  revert m. induction a as [|[k [v|]] a IH]; intros m; [done| |done]. apply IH.
Qed.

Lemma then_do_ok {T U} (r : option (result T goerror)) (k : T -> option (result U goerror)) u :
  then_do r k = Some (Ok u) -> exists t, r = Some (Ok t) /\ k t = Some (Ok u).
Proof. unfold then_do. destruct r as [[t|e]|]; [|done..]. cbn. eauto. Qed.

Lemma extract_value_load what prefix value m m' :
  extract_value what prefix value m = Some (Ok m') -> load (value_pair prefix value) m = Some m'.
Proof.
  unfold extract_value, value_pair. destruct (shouldCopySecret value); [|by intros [= <-]].
  destruct value as [v|]; [|done]. cbn [mbind option_bind]. unfold getEnvConfigSecret.
  destruct (ref_of v) as [ref|]; [|done]. cbn [mbind option_bind].
  destruct (getSecretData ref _) as [s|] eqn:Hs; [|done]. intros [= <-].
  apply getSecretData_ok in Hs as (x & Hx & ->). cbn [load]. rewrite Hx. cbn [mbind option_bind].
  by rewrite insert_union_singleton_l.
Qed.

Lemma extractHTTPSecrets_load p m m' : extractHTTPSecrets p m = Some (Ok m') -> load (http_pairs p) m = Some m'.
Proof.
  unfold extractHTTPSecrets, http_pairs. destruct (lo_FluentBitHTTP _) as [http|]; [|by intros [= <-]].
  intros (m1 & H1%extract_value_load & (m2 & H2%extract_value_load & H3%extract_value_load)%then_do_ok)%then_do_ok.
  rewrite load_app, H1. cbn [mbind option_bind]. rewrite load_app, H2. done.
Qed.

Lemma extract_variables_load vs m m' : extract_variables vs m = Ok m' -> load (variable_pairs vs) m = Some m'.
Proof.
  revert m. induction vs as [|v vs IH]; intros m; cbn [extract_variables]; [by intros [= <-]|].
  unfold variable_pairs. cbn [map concat]. rewrite load_app. fold (variable_pairs vs).
  destruct (vfs_SecretKeyRef _) as [ref|]; [|apply IH].
  destruct (getSecretData ref _) as [s|] eqn:Hs; [|done]. apply getSecretData_ok in Hs as (x & Hx & ->).
  intros Hv%IH. cbn [load]. rewrite Hx. cbn [mbind option_bind]. by rewrite insert_union_singleton_l.
Qed.

Lemma build_env_load ps m m' : build_env m ps = Some (Ok m') -> load (concat (map env_pairs ps)) m = Some m'.
Proof.
  revert m. induction ps as [|p ps IH]; intros m; cbn [build_env]; [by intros [= <-]|].
  intros (m1 & H1%extractHTTPSecrets_load & (m2 & [= H2%extract_variables_load] & H3%IH)%then_do_ok)%then_do_ok.
  cbn [map concat]. unfold env_pairs at 1. rewrite <- app_assoc, load_app, H1. cbn [mbind option_bind].
  rewrite load_app. unfold extractVariableSecrets in H2. rewrite H2. exact H3.
Qed.

(** What is loaded last under a name stays. *)
Lemma load_lookup pairs m m' :
  load pairs m = Some m' ->
  forall k, (k ∉ pairs.*1 /\ m' !! k = m !! k) \/ (is_Some (m' !! k) /\ (k, m' !! k) ∈ pairs).
Proof.
  revert m. induction pairs as [|[k' [v|]] pairs IH]; intros m; cbn [load]; [|cbn [mbind option_bind]|done].
  { intros [= <-] k. left. split; [apply not_elem_of_nil|done]. }
  intros Hl k. destruct (IH _ Hl k) as [[Hk Hm]|[Hs Hin]]; [|right; split; [done|by right]].
  destruct (decide (k = k')) as [->|Hne].
  - right. rewrite Hm, lookup_insert_eq. split; [by eexists|by left].
  - left. split; [|by rewrite Hm, lookup_insert_ne]. cbn. apply not_elem_of_cons. by split.
Qed.

Lemma NoDup_keys_unique {V} (pairs : list (string * V)) k a b :
  NoDup pairs.*1 -> (k, a) ∈ pairs -> (k, b) ∈ pairs -> a = b.
Proof.
  intros Hn. induction pairs as [|[x r] pairs IH]; [by intros ?%not_elem_of_nil|].
  cbn in Hn. apply NoDup_cons in Hn as [Hx Hn].
  assert (Hout : forall q, (x, q) ∉ pairs) by (intros q Hq; apply Hx, list_elem_of_fmap; by exists (x, q)).
  intros [[= -> ->]|Ha]%elem_of_cons [[= ->]|Hb]%elem_of_cons; [done|by apply Hout in Hb|by apply Hout in Ha|auto].
Qed.

Lemma load_defined pairs m m' k v : load pairs m = Some m' -> (k, v) ∈ pairs -> is_Some (m' !! k) /\ (k, m' !! k) ∈ pairs.
Proof.
  intros Hl Hin. destruct (load_lookup _ _ _ Hl k) as [[Hk _]|Hd]; [|done].
  exfalso. apply Hk, list_elem_of_fmap. by exists (k, v).
Qed.

Lemma load_unique pairs m m' k v :
  load pairs m = Some m' -> NoDup pairs.*1 -> (k, v) ∈ pairs -> m' !! k = v /\ is_Some v.
Proof.
  intros Hl Hn Hin. destruct (load_defined _ _ _ _ _ Hl Hin) as [Hs Hd].
  rewrite (NoDup_keys_unique _ _ _ _ Hn Hin Hd). done.
Qed.

(** ** The TLS files *)

Definition value_data (v : ValueType) : option string :=
  if negb (str_eqb (vt_Value v) "") then Some (vt_Value v) else ref_of v ≫= secret_value.

Definition tls_pairs (p : LogPipeline) : list (string * option string) :=
  match http_of p with
  | None => []
  | Some http =>
      let n := om_Name (lp_ObjectMeta p) in
      let tls := ho_TLS http in
      (when (IsValid (tls_CA tls)) [(n +:+ "-ca.crt", tls_CA tls ≫= value_data)]
       ++ when (IsValid (tls_Cert tls) && IsValid (tls_Key tls))
            [(n +:+ "-cert.crt", replace_newlines <$> (tls_Cert tls ≫= value_data));
             (n +:+ "-key.key", replace_newlines <$> (tls_Key tls ≫= value_data))])%list
  end.

Lemma tls_value_ok what v k m : tls_value what v k = Some (Ok m) -> exists x, value_data v = Some x /\ m = {[k := x]}.
Proof.
  unfold tls_value, getFromValueOrSecret, value_data. destruct (str_eqb (vt_Value v) ""); cbn [negb].
  - destruct (ref_of v) as [ref|]; [|done]. cbn [mbind option_bind].
    destruct (getSecretData ref k) as [s|] eqn:Hs; [|done]. intros [= <-]. by apply getSecretData_ok in Hs.
  - intros [= <-]. eauto.
Qed.

Lemma add_ca_load n tls m m' :
  add_ca n tls m = Some (Ok m') ->
  load (when (IsValid (tls_CA tls)) [(n +:+ "-ca.crt", tls_CA tls ≫= value_data)]) m = Some m'.
Proof.
  unfold add_ca. destruct (IsValid (tls_CA tls)); [|by intros [= <-]]. destruct (tls_CA tls) as [ca|]; [|done].
  cbn [mbind option_bind]. intros (d & (x & Hx & ->)%tls_value_ok & [= <-])%then_do_ok.
  cbn [when load]. rewrite Hx. cbn [mbind option_bind]. by rewrite insert_union_singleton_l.
Qed.

Lemma replace_in_singleton k x : replace_in k {[k := x]} = {[k := replace_newlines x]}.
Proof. unfold replace_in. rewrite lookup_singleton_eq. cbn. apply insert_singleton_eq. Qed.

Lemma add_cert_and_key_load n tls m m' :
  add_cert_and_key n tls m = Some (Ok m') ->
  load (when (IsValid (tls_Cert tls) && IsValid (tls_Key tls))
          [(n +:+ "-cert.crt", replace_newlines <$> (tls_Cert tls ≫= value_data));
           (n +:+ "-key.key", replace_newlines <$> (tls_Key tls ≫= value_data))]) m = Some m'.
Proof.
  unfold add_cert_and_key. destruct (IsValid (tls_Cert tls) && IsValid (tls_Key tls)); [|by intros [= <-]].
  destruct (tls_Cert tls) as [c|]; [|done]. destruct (tls_Key tls) as [k|]; [|done]. cbn [mbind option_bind].
  intros (d & (x & Hx & ->)%tls_value_ok & (e & (y & Hy & ->)%tls_value_ok & He)%then_do_ok)%then_do_ok.
  rewrite !replace_in_singleton in He. injection He as <-. cbn [when load]. rewrite Hx, Hy.
  cbn [fmap option_fmap option_map mbind option_bind load]. by rewrite !insert_union_singleton_l.
Qed.

Lemma build_tls_load ps m m' : build_tls m ps = Some (Ok m') -> load (concat (map tls_pairs ps)) m = Some m'.
Proof.
  revert m. induction ps as [|p ps IH]; intros m; cbn [build_tls]; [by intros [= <-]|].
  cbn [map concat]. rewrite load_app.
  destruct (lo_FluentBitHTTP _) as [http|] eqn:Hh; [destruct (IsHTTPOutputDefined _) eqn:Hd|].
  2,3: assert (tls_pairs p = []) as -> by (unfold tls_pairs, http_of; rewrite ?Hd, ?Hh; by destruct (IsHTTPOutputDefined _));
    apply IH.
  intros (m1 & H1%add_ca_load & (m2 & H2%add_cert_and_key_load & H3%IH)%then_do_ok)%then_do_ok.
  assert (load (tls_pairs p) m = Some m2) as ->; [|exact H3].
  unfold tls_pairs, http_of. rewrite Hd, Hh. cbv zeta. rewrite load_app, H1. exact H2.
Qed.

(** Names of TLS files of different pipelines do not coincide. *)

Definition tls_suffixes : list string := ["-ca.crt"; "-cert.crt"; "-key.key"].

Lemma tls_pairs_keys p k v :
  (k, v) ∈ tls_pairs p -> exists s, s ∈ tls_suffixes /\ k = om_Name (lp_ObjectMeta p) +:+ s.
Proof.
  unfold tls_pairs. destruct (http_of p) as [http|]; [|by intros ?%not_elem_of_nil]. cbv zeta.
  intros [Hin|Hin]%elem_of_app.
  - destruct (IsValid _); [|by apply not_elem_of_nil in Hin]. apply list_elem_of_singleton in Hin as [= -> _].
    exists "-ca.crt". split; [by left|done].
  - destruct (_ && _); [|by apply not_elem_of_nil in Hin].
    apply elem_of_cons in Hin as [[= -> _]|[[= -> _]|[]%not_elem_of_nil]%elem_of_cons].
    + exists "-cert.crt". split; [right; by left|done].
    + exists "-key.key". split; [do 2 right; by left|done].
Qed.

Lemma tls_pairs_nodup p : NoDup (tls_pairs p).*1.
Proof.
  unfold tls_pairs. destruct (http_of p) as [http|]; [|constructor]. cbv zeta.
  set (n := om_Name (lp_ObjectMeta p)).
  assert (Hne : forall a b, a <> b -> n +:+ a <> n +:+ b) by (intros a b Hab He; by apply (inj (String.append n)) in He).
  destruct (IsValid (tls_CA _)), (_ && _); cbn; repeat constructor; rewrite ?elem_of_cons, ?elem_of_nil;
    intros Hin; repeat destruct Hin as [Hin|Hin]; try done; by apply (Hne _ _) in Hin.
Qed.

Lemma lit_inj a b : lit a = lit b -> a = b.
Proof.
  intros He. rewrite <- (String.string_of_list_ascii_of_string a), <- (String.string_of_list_ascii_of_string b).
  unfold to_bytes in He. by rewrite He.
Qed.

Lemma tls_name_inj a b s t :
  s ∈ tls_suffixes -> t ∈ tls_suffixes -> a +:+ s = b +:+ t -> a = b.
Proof.
  intros Hs Ht He. apply (f_equal (fun x => rev (lit x))) in He. rewrite !lit_app, !rev_app_distr in He.
  apply lit_inj. rewrite <- (rev_involutive (lit a)), <- (rev_involutive (lit b)). f_equal.
  unfold tls_suffixes in *. rewrite !elem_of_cons, elem_of_nil in *.
  destruct Hs as [->|[->|[->|[]]]], Ht as [->|[->|[->|[]]]]; cbn [rev to_bytes String.list_ascii_of_string app] in He;
    first [discriminate He | by injection He].
Qed.

Lemma all_tls_nodup ps :
  NoDup (map (fun p => om_Name (lp_ObjectMeta p)) ps) -> NoDup (concat (map tls_pairs ps)).*1.
Proof.
  induction ps as [|p ps IH]; [constructor|]. cbn [map]. rewrite NoDup_cons. intros [Hp Hps]. cbn [concat].
  rewrite fmap_app, NoDup_app. split; [apply tls_pairs_nodup|]. split; [|by apply IH].
  intros k ([k1 v1] & -> & H1)%list_elem_of_fmap ([k2 v2] & Hk & H2)%list_elem_of_fmap. cbn in Hk. subst k2.
  apply list_elem_of_In, in_concat in H2 as (l & Hl & H2). apply in_map_iff in Hl as (q & <- & Hq).
  apply list_elem_of_In in H2. destruct (tls_pairs_keys _ _ _ H1) as (s & Hs & Hk1), (tls_pairs_keys _ _ _ H2) as (t & Ht & Hk2).
  apply Hp. rewrite (tls_name_inj _ _ _ _ Hs Ht (eq_trans (eq_sym Hk1) Hk2)). apply list_elem_of_In, in_map_iff. by exists q.
Qed.

(** ** The loop over the pipelines *)

Lemma wrap_with_ok {T} msg (r : option (result T goerror)) t : wrap_with msg r = Some (Ok t) -> r = Some (Ok t).
Proof. unfold wrap_with. destruct r as [[x|e]|]; [|done..]. by intros [= ->]. Qed.

Abbreviation key_of p := (om_Name (lp_ObjectMeta p) +:+ ".conf").

Lemma build_pipelines_ok clusterName all ps c cfg :
  build_pipelines clusterName all c ps = Some (Ok cfg) ->
  exists contents, Forall2 (fun p t => buildFluentBitSectionsConfig p builder_config clusterName = Ok t) ps contents /\
    SectionsConfig cfg = fold_left (fun m pt => <[key_of pt.1 := pt.2]> m) (zip ps contents) (SectionsConfig c) /\
    FilesConfig cfg = fold_left (fun m p => buildFluentBitFilesConfig p ∪ m) ps (FilesConfig c) /\
    match ps with
    | [] => EnvConfigSecret cfg = EnvConfigSecret c /\ TLSConfigSecret cfg = TLSConfigSecret c
    | _ => exists env tls, buildEnvConfigSecret all = Some (Ok env) /\ buildTLSFileConfigSecret all = Some (Ok tls) /\
             EnvConfigSecret cfg = env ∪ EnvConfigSecret c /\ TLSConfigSecret cfg = tls ∪ TLSConfigSecret c
    end.
Proof.
  revert c. induction ps as [|p ps IH]; intros c; cbn [build_pipelines].
  { intros [= <-]. exists []. repeat split. constructor. }
  intros (t & [= Ht]%wrap_with_ok & (env & He%wrap_with_ok & (tls & Htls%wrap_with_ok & Hr)%then_do_ok)%then_do_ok)%then_do_ok.
  destruct (IH _ Hr) as (ts & Hts & Hs & Hf & Hrest). cbn [SectionsConfig FilesConfig EnvConfigSecret TLSConfigSecret] in *.
  exists (t :: ts). split; [by constructor|]. split; [done|]. split; [done|]. exists env, tls. split_and!; [done..| |].
  - destruct ps; [by destruct Hrest|]. destruct Hrest as (env' & tls' & He' & _ & -> & _).
    assert (env' = env) as -> by congruence. by rewrite (assoc_L (∪)), (idemp_L (∪)).
  - destruct ps; [by destruct Hrest|]. destruct Hrest as (env' & tls' & _ & Ht' & _ & ->).
    assert (tls' = tls) as -> by congruence. by rewrite (assoc_L (∪)), (idemp_L (∪)).
Qed.

Lemma suffix_inj a b s : a +:+ s = b +:+ s -> a = b.
Proof. intros He. apply (f_equal lit) in He. rewrite !lit_app in He. apply app_inv_tail in He. by apply lit_inj. Qed.

Lemma sections_lookup ps ts (m : gmap string bytes) :
  NoDup (map (fun p => om_Name (lp_ObjectMeta p)) ps) -> length ps = length ts ->
  let m' := fold_left (fun m pt => <[key_of pt.1 := pt.2]> m) (zip ps ts) m in
  (forall p t, (p, t) ∈ zip ps ts -> m' !! key_of p = Some t) /\
  (forall k, (forall p, p ∈ ps -> k <> key_of p) -> m' !! k = m !! k).
Proof.
  revert ts m. induction ps as [|p ps IH]; intros [|t ts] m Hn Hl; try done.
  { split; [by intros p t ?%not_elem_of_nil|done]. }
  cbn [map] in Hn. apply NoDup_cons in Hn as [Hp Hn]. injection Hl as Hl. cbn [zip zip_with fold_left fst snd].
  destruct (IH ts (<[key_of p := t]> m) Hn Hl) as [H1 H2]. split.
  - intros q u [[= -> ->]|Hq]%elem_of_cons; [|by apply H1]. rewrite H2; [by rewrite lookup_insert_eq|].
    intros q Hq He%suffix_inj. apply Hp. rewrite He. by apply list_elem_of_In, in_map_iff; exists q; split; [|apply list_elem_of_In].
  - intros k Hk. rewrite H2 by (intros q Hq; apply Hk; by right). apply lookup_insert_ne.
    intros He. by apply (Hk p); [left|].
Qed.

Lemma Forall2_zip {S T} (R : S -> T -> Prop) xs ys x : Forall2 R xs ys -> x ∈ xs -> exists y, (x, y) ∈ zip xs ys /\ R x y.
Proof.
  induction 1 as [|a b xs ys Hab _ IH]; [by intros ?%not_elem_of_nil|]. intros [->|Hx]%elem_of_cons.
  - exists b. split; [by left|done].
  - destruct (IH Hx) as (y & Hy & Hr). exists y. split; [by right|done].
Qed.

Lemma elem_concat_map {S T} (f : S -> list T) xs x y : x ∈ xs -> y ∈ f x -> y ∈ concat (map f xs).
Proof.
  intros Hx Hy. apply list_elem_of_In, in_concat. exists (f x).
  split; [by apply in_map, list_elem_of_In|by apply list_elem_of_In].
Qed.

(** The variable that a reference in the sections file names is one of those loaded. *)
Lemma resolved_pair p v :
  IsValid (Some v) = true -> vt_Value v = "" ->
  exists n ref, resolveValue v (om_Name (lp_ObjectMeta p)) = (lit "${" ++ n ++ lit "}")%list /\
    ref_of v = Some ref /\ value_pair (om_Name (lp_ObjectMeta p)) (Some v) = [(of_bytes n, secret_value ref)].
Proof.
  intros Hi Hv. unfold resolveValue, value_pair, shouldCopySecret, ref_of. cbn [mbind option_bind]. rewrite Hi.
  unfold IsValid in Hi. rewrite Hv in *. cbn [negb str_eqb] in *. rewrite str_eqb_refl in *. cbn [negb andb] in *.
  destruct (vt_ValueFrom v) as [src|]; [|done]. cbn [mbind option_bind]. destruct (vfs_SecretKeyRef src) as [ref|]; [|done].
  cbn [isSome]. eexists _, ref. done.
Qed.

(** The values of an HTTP output that can come from a Secret. *)
Definition http_values (http : FluentBitHTTPOutput) : list ValueType :=
  ([ho_Host http] ++ from_option (fun v => [v]) [] (ho_User http) ++ from_option (fun v => [v]) [] (ho_Password http))%list.

Lemma http_values_pairs p http v x :
  lo_FluentBitHTTP (ls_Output (lp_Spec p)) = Some http -> v ∈ http_values http ->
  x ∈ value_pair (om_Name (lp_ObjectMeta p)) (Some v) -> x ∈ env_pairs p.
Proof.
  intros Hh Hv Hx. unfold env_pairs, http_pairs. rewrite Hh. cbv zeta. rewrite !elem_of_app. unfold http_values in Hv.
  rewrite !elem_of_app in Hv. destruct Hv as [->%list_elem_of_singleton|[Hv|Hv]]; [tauto|..].
  - destruct (ho_User http); [|by apply not_elem_of_nil in Hv]. apply list_elem_of_singleton in Hv as ->. tauto.
  - destruct (ho_Password http); [|by apply not_elem_of_nil in Hv]. apply list_elem_of_singleton in Hv as ->. tauto.
Qed.

Definition env_names (ps : list LogPipeline) : list string := (concat (map env_pairs ps)).*1.

(** C20. A Fluent Bit configuration that is built for pipelines of different
    names has exactly one sections file per pipeline, with the text for that
    pipeline; the variables that stand for host, user and password of an HTTP
    output, and the variables a pipeline declares from Secret keys (the ones its
    custom sections can refer to), are in the environment Secret, with the value
    of the referenced Secret key when no two variables share a name; and every
    TLS file holds the certificate data of its pipeline. *)
Theorem fluentbit_config_exact ps clusterName cfg :
  NoDup (map (fun p => om_Name (lp_ObjectMeta p)) ps) ->
  ConfigBuilder_Build ps clusterName = Some (Ok cfg) ->
  (forall p, p ∈ ps -> exists content,
     buildFluentBitSectionsConfig p builder_config clusterName = Ok content /\
     SectionsConfig cfg !! key_of p = Some content) /\
  (forall k, is_Some (SectionsConfig cfg !! k) -> exists p, p ∈ ps /\ k = key_of p) /\
  (forall p http v, p ∈ ps -> lo_FluentBitHTTP (ls_Output (lp_Spec p)) = Some http -> v ∈ http_values http ->
     IsValid (Some v) = true -> vt_Value v = "" ->
     exists n ref, resolveValue v (om_Name (lp_ObjectMeta p)) = (lit "${" ++ n ++ lit "}")%list /\
       ref_of v = Some ref /\ is_Some (EnvConfigSecret cfg !! of_bytes n) /\
       (NoDup (env_names ps) -> EnvConfigSecret cfg !! of_bytes n = secret_value ref)) /\
  (forall p var ref, p ∈ ps -> var ∈ elems (ls_FluentBitVariables (lp_Spec p)) ->
     vfs_SecretKeyRef (fbv_ValueFrom var) = Some ref ->
     is_Some (EnvConfigSecret cfg !! fbv_Name var) /\
     (NoDup (env_names ps) -> EnvConfigSecret cfg !! fbv_Name var = secret_value ref)) /\
  (forall p k v, p ∈ ps -> (k, v) ∈ tls_pairs p -> TLSConfigSecret cfg !! k = v /\ is_Some v).
Proof.
  intros Hn Hb. unfold ConfigBuilder_Build in Hb. apply build_pipelines_ok in Hb as (ts & Hts & Hs & _ & Hrest).
  destruct (sections_lookup ps ts ∅ Hn (Forall2_length _ _ _ Hts)) as [Hl1 Hl2].
  cbn [SectionsConfig] in Hs. rewrite <- Hs in Hl1, Hl2.
  assert (Henv : forall p n x, p ∈ ps -> (n, x) ∈ env_pairs p ->
    is_Some (EnvConfigSecret cfg !! n) /\ (NoDup (env_names ps) -> EnvConfigSecret cfg !! n = x)).
  { intros p n x Hp Hx. destruct ps as [|p0 ps]; [by apply not_elem_of_nil in Hp|].
    destruct Hrest as (env & tls & Henv%build_env_load & _ & Hec & _).
    cbn [EnvConfigSecret] in Hec. rewrite (right_id_L ∅ (∪)) in Hec. rewrite Hec.
    assert (Hin : (n, x) ∈ concat (map env_pairs (p0 :: ps))) by by eapply elem_concat_map.
    split; [by eapply load_defined|]. intros Hnd. by eapply load_unique. }
  split_and!.
  - intros p Hp. destruct (Forall2_zip _ _ _ _ Hts Hp) as (t & Ht & Hr). eauto.
  - intros k Hk. destruct (decide (Exists (fun p => k = key_of p) ps)) as [(p & Hp & ->)%Exists_exists|Hno]; [eauto|].
    rewrite Hl2 in Hk; [by destruct Hk|]. intros p Hp ->. apply Hno, Exists_exists. eauto.
  - intros p http v Hp Hh Hv Hi He. destruct (resolved_pair p v Hi He) as (n & ref & Hres & Href & Hpair).
    exists n, ref. split; [done|]. split; [done|]. apply (Henv p); [done|].
    eapply http_values_pairs; [done..|]. rewrite Hpair. by left.
  - intros p var ref Hp Hvar Href. apply (Henv p); [done|]. unfold env_pairs. apply elem_of_app. right.
    unfold variable_pairs. eapply elem_concat_map; [done|]. rewrite Href. by left.
  - intros p k v Hp Hin. destruct ps as [|p0 ps]; [by apply not_elem_of_nil in Hp|].
    destruct Hrest as (env & tls & _ & Htls & _ & Htc). cbn [TLSConfigSecret] in Htc. rewrite (right_id_L ∅ (∪)) in Htc.
    rewrite Htc. apply build_tls_load in Htls. eapply load_unique; [done|by apply all_tls_nodup|].
    by eapply elem_concat_map.
Qed.

End Build.

(** ** Concrete pipelines *)

Module FluentBitSample.

Abbreviation world := (cluster LogPipeline).
Definition world0 : world := mkCluster [] [].
Definition config : FluentBitReconciler.FluentBitConfig :=
  FluentBitReconciler.mkFluentBitConfig (NewLocker (mkNN "kyma-system" "telemetry-logpipeline") 5)
    (NewLocker (mkNN "kyma-system" "telemetry-logpipeline") 5) false.

Definition inline (s : string) : ValueType := mkValueType s None.
Definition from_secret (ns name key : string) : ValueType :=
  mkValueType "" (Some (mkValueFromSource (Some (mkSecretKeyRef name ns key)))).
Definition no_tls : OutputTLS := mkOutputTLS false false None None None.

Definition http (host : ValueType) (user : option ValueType) (tls : OutputTLS) : FluentBitHTTPOutput :=
  mkFluentBitHTTPOutput host user None "/ingest" "" "" "" tls false.

Definition pipeline (name : string) (filters : list string) (output : FluentBitHTTPOutput) : LogPipeline :=
  mkLogPipeline (mkMeta name name 1 None false)
    (mkLogSpec (mkLogInput (Some (mkLogRuntimeInput (Some true) None None None None None)) None)
       (Some (map mkFluentBitFilter filters)) (mkLogOutput "" (Some output) None) None None None None) (mkLogStatus [] None).

Definition plain : LogPipeline := pipeline "backend" ["name grep"] (http (inline "logs.example.com") None no_tls).

(** A Secret in every namespace whose key holds the name of the namespace. *)
#[global] Instance secrets : SecretReader :=
  fun nn => Ok (mkSecret {["user" := nn_Namespace nn]} "1").

(** Patterns that end with a star. *)
Definition pattern_match (p t : bytes) : bool :=
  match rev p with
  | c :: p' => if Ascii.eqb c "*"%char then prefixb (rev p') t else bytes_eqb p t
  | [] => bytes_eqb p t
  end.
Definition pattern_expand (p f : bytes) : bytes :=
  match rev p with c :: p' => if Ascii.eqb c "*"%char then (rev p' ++ f)%list else p | [] => p end.

#[global] Instance routing : TagRouting :=
  {| tag_match := pattern_match; tag_match_regex p _ := bytes_eqb p (lit ".*"); tag_expand := pattern_expand |}.
#[global] Instance routing_laws : TagRoutingLaws.
Proof.
  constructor; intros x t _; cbn [tag_match tag_expand routing]; unfold pattern_match, pattern_expand;
    rewrite rev_app_distr; cbn [rev app to_bytes String.list_ascii_of_string Ascii.eqb]; rewrite rev_involutive; [done|].
  by rewrite <- app_assoc.
Qed.

#[global] Instance accepting : PipelineValidators world LogPipeline := sample_validators None None None.

End FluentBitSample.

Lemma fluentbit_file_reads_back_witness :
  exists content, buildFluentBitSectionsConfig FluentBitSample.plain builder_config "test" = Ok content /\
    read_file content = Some (sections_of FluentBitSample.plain "test") /\
    length (sections_of FluentBitSample.plain "test") = 7.
Proof.
  destruct (buildFluentBitSectionsConfig FluentBitSample.plain builder_config "test") as [content|e] eqn:Hb;
    [|vm_compute in Hb; discriminate Hb].
  exists content. split; [reflexivity|]. split; [|vm_compute; reflexivity].
  apply (fluentbit_file_reads_back FluentBitSample.plain "test" content);
    [vm_compute; reflexivity|vm_compute; reflexivity|exact Hb].
Defined.

Lemma fluentbit_pipelines_isolated_witness :
  exists content input rest, buildFluentBitSectionsConfig FluentBitSample.plain builder_config "test" = Ok content /\
    read_file content = Some ((lit "[INPUT]", input) :: rest).
Proof.
  destruct (buildFluentBitSectionsConfig FluentBitSample.plain builder_config "test") as [content|e] eqn:Hb;
    [|vm_compute in Hb; discriminate Hb].
  destruct (fluentbit_Validate FluentBitSample.config FluentBitSample.world0 FluentBitSample.plain)
    as [w' [e|]] eqn:Hv; [vm_compute in Hv; discriminate Hv|].
  destruct (fluentbit_pipelines_isolated FluentBitSample.config FluentBitSample.world0 w' FluentBitSample.plain
              (FluentBitSample.pipeline "other" [] (FluentBitSample.http (FluentBitSample.inline "h") None FluentBitSample.no_tls))
              "test" content Hv) as (input & rest & Hr & _).
  - repeat constructor.
  - vm_compute. reflexivity.
  - vm_compute. reflexivity.
  - repeat constructor.
  - vm_compute. discriminate.
  - exact Hb.
  - exists content, input, rest. split; [reflexivity|exact Hr].
Defined.

Lemma fluentbit_config_exact_witness :
  let p := FluentBitSample.pipeline "backend" []
             (FluentBitSample.http (FluentBitSample.inline "h") (Some (FluentBitSample.from_secret "ns" "creds" "user"))
                FluentBitSample.no_tls) in
  exists cfg, ConfigBuilder_Build [p] "test" = Some (Ok cfg) /\
    EnvConfigSecret cfg !! "BACKEND_NS_CREDS_USER" = Some "ns" /\ is_Some (SectionsConfig cfg !! "backend.conf").
Proof.
  intros p. destruct (ConfigBuilder_Build [p] "test") as [[cfg|e]|] eqn:Hb;
    [|vm_compute in Hb; discriminate Hb|vm_compute in Hb; discriminate Hb].
  exists cfg. split; [reflexivity|].
  destruct (fluentbit_config_exact [p] "test" cfg) as (Hs & _ & He & _);
    [apply (bool_decide_unpack _); vm_compute; exact I|exact Hb|].
  split.
  - destruct (He p (FluentBitSample.http (FluentBitSample.inline "h") (Some (FluentBitSample.from_secret "ns" "creds" "user"))
                FluentBitSample.no_tls) (FluentBitSample.from_secret "ns" "creds" "user")) as (n & ref & Hn & Hr & _ & Hv).
    + by left.
    + reflexivity.
    + right. by left.
    + vm_compute. reflexivity.
    + reflexivity.
    + injection Hr as <-. apply (app_inv_head (lit "${")) in Hn.
      assert (n = lit "BACKEND_NS_CREDS_USER") as ->
        by (apply (app_inv_tail (lit "}")); rewrite <- Hn; vm_compute; reflexivity).
      apply Hv. apply (bool_decide_unpack _). vm_compute. exact I.
  - destruct (Hs p) as (content & _ & Hc); [by left|]. exists content. exact Hc.
Defined.

(** *** Where the sections are not isolated *)

(** Whether the file of a pipeline has a section with this header and parameter. *)
Definition file_has (p : LogPipeline) (header key value : string) : bool :=
  match buildFluentBitSectionsConfig p builder_config "test" with
  | Ok content =>
      match read_file content with
      | Some ss => existsb (fun s => bytes_eqb s.1 (lit header) &&
                                     existsb (fun q => bytes_eqb (par_Key q) (lit key) && bytes_eqb (par_Value q) (lit value)) s.2) ss
      | None => false
      end
  | Err _ => false
  end.

(** A line break in an inline value of an accepted pipeline adds parameters to the
    section: the output matches the records of every pipeline. *)
Lemma line_break_widens_match :
  let user := FluentBitSample.inline (of_bytes (lit "x" ++ [nl] ++ lit "match *")%list) in
  let p := FluentBitSample.pipeline "backend" []
             (FluentBitSample.http (FluentBitSample.inline "logs.example.com") (Some user) FluentBitSample.no_tls) in
  (fluentbit_Validate FluentBitSample.config FluentBitSample.world0 p).2 = None /\
  file_has p "[OUTPUT]" "match" "*" = true.
Proof. split; vm_compute; reflexivity. Qed.

(** The check of the filter name looks at the first name, the builder sorts the names: a
    forbidden filter in a second line is accepted and comes first. *)
Lemma second_name_comes_first :
  let p := FluentBitSample.pipeline "backend" [of_bytes (lit "name lua" ++ [nl] ++ lit "name kubernetes")%list]
             (FluentBitSample.http (FluentBitSample.inline "logs.example.com") None FluentBitSample.no_tls) in
  (fluentbit_Validate FluentBitSample.config FluentBitSample.world0 p).2 = None /\
  custom_filter_sections p nonMultilineFilter =
    [(lit "[FILTER]", [param "name" (lit "kubernetes"); param "name" (lit "lua"); param "match" (lit "backend.*")])].
Proof. split; vm_compute; reflexivity. Qed.

(** An empty custom filter is accepted and becomes a section without a name. *)
Lemma empty_filter_has_no_name :
  let p := FluentBitSample.pipeline "backend" [""]
             (FluentBitSample.http (FluentBitSample.inline "logs.example.com") None FluentBitSample.no_tls) in
  (fluentbit_Validate FluentBitSample.config FluentBitSample.world0 p).2 = None /\
  custom_filter_sections p nonMultilineFilter = [(lit "[FILTER]", [param "match" (lit "backend.*")])].
Proof. split; vm_compute; reflexivity. Qed.

(** A certificate that is about to expire ends the validation before the custom filters
    are looked at, and the pipeline is deployed: its filter handles every record. *)
Lemma expiring_certificate_skips_filter_check :
  let tls := mkOutputTLS false false (Some (FluentBitSample.inline "ca")) None None in
  let p := FluentBitSample.pipeline "backend" [of_bytes (lit "name grep" ++ [nl] ++ lit "match *")%list]
             (FluentBitSample.http (FluentBitSample.inline "logs.example.com") None tls) in
  let validators : PipelineValidators FluentBitSample.world LogPipeline :=
    sample_validators (Some (CertAboutToExpireError 0 true)) None None in
  validateFilters p <> None /\
  (IsReconcilable FluentBitSample.config FluentBitSample.world0 p).2 = Ok true /\
  file_has p "[FILTER]" "match" "*" = true.
Proof. split; [vm_compute; discriminate|]. split; vm_compute; reflexivity. Qed.

(** A custom filter that selects the records of all pipelines by a regular expression is accepted
    and written to the file. *)
Lemma match_regex_accepted :
  let p := FluentBitSample.pipeline "backend" [of_bytes (lit "name grep" ++ [nl] ++ lit "Match_Regex .*")%list]
             (FluentBitSample.http (FluentBitSample.inline "logs.example.com") None FluentBitSample.no_tls) in
  (fluentbit_Validate FluentBitSample.config FluentBitSample.world0 p).2 = None /\
  file_has p "[FILTER]" "match_regex" ".*" = true.
Proof. split; vm_compute; reflexivity. Qed.

(** The records of a pipeline whose name extends another one by a dot are handled by the
    sections of both. *)
Lemma dotted_name_is_captured `{TagRoutingLaws} p q r file :
  om_Name (lp_ObjectMeta q) = om_Name (lp_ObjectMeta p) +:+ "." +:+ r ->
  member "*"%char (name_of p) = false -> member "*"%char (name_of q) = false ->
  forall s, own_section p s -> section_handles s (record_tag q file) = true.
Proof.
  intros Hq Hp Hqs s Hs. rewrite (own_section_handles p), record_matched by done. apply prefixb_spec.
  rewrite Hq, !lit_app. exists (lit r ++ lit "." ++ file)%list. by rewrite <- !app_assoc.
Qed.

(** Two pipelines with Secrets of different namespaces share a variable: each of them
    would need its own value, one of them gets the other's. *)
Lemma env_names_collide :
  let p := FluentBitSample.pipeline "a" []
    (FluentBitSample.http (FluentBitSample.inline "h") (Some (FluentBitSample.from_secret "b-c" "creds" "user")) FluentBitSample.no_tls) in
  let q := FluentBitSample.pipeline "a-b" []
    (FluentBitSample.http (FluentBitSample.inline "h") (Some (FluentBitSample.from_secret "c" "creds" "user")) FluentBitSample.no_tls) in
  env_names [p; q] = ["A_B_C_CREDS_USER"; "A_B_C_CREDS_USER"] /\
  match ConfigBuilder_Build [p; q] "test" with
  | Some (Ok cfg) => EnvConfigSecret cfg !! "A_B_C_CREDS_USER" = Some "c"
  | _ => False
  end.
Proof. split; vm_compute; reflexivity. Qed.
