(* ===== verification/LogAgentTheorems.v ===== *)
(** * Theorems about the log agent configuration

    Every log line that enters the operators of the file log receiver leaves through the
    last operator; the configuration is closed and has one service pipeline for each
    LogPipeline. *)
From stdpp Require Import base gmap strings list.
From S2P Require Import Prelude Kube GoErrors GoStrings Conversion.
From S2P Require Import ApiV1beta1 SecretRef Coordination.
From S2P Require Import CollectorTypes CollectorBuilder CollectorBuilderProps CollectorProcessors.
From S2P Require Import CollectorExporter CollectorExporterProps.
From S2P Require Import GatewayConfig GatewayConfigProps LogAgentConfig.
Local Open Scope string_scope.

(** ** The operators as a graph *)

(** The position of the operator with an identifier. *)
Definition position (ops : list Operator) (id : string) : option nat :=
  fst <$> list_find (fun o => op_ID o = id) ops.

(** Where an entry goes after the operator at a position: a router sends it to one of
    its routes or to its default, an operator with an output to that output, any other
    operator to the next one. [None]: an identifier that no operator has. *)
Definition successors (ops : list Operator) (i : nat) : option (list nat) :=
  o ← ops !! i;
  if str_eqb (op_Type o) Router then mapM (position ops) (map rou_Output (op_Routes o) ++ [op_Default o])%list
  else if negb (str_eqb (op_Output o) "") then (fun j => [j]) <$> position ops (op_Output o)
  else Some (if (S i <? length ops)%nat then [S i] else []).

(** The positions an entry can visit, in the order of the visits. *)
Inductive visits (ops : list Operator) : nat -> list nat -> Prop :=
| visits_last i : successors ops i = Some [] -> visits ops i [i]
| visits_next i js j path :
    successors ops i = Some js -> j ∈ js -> visits ops j path -> visits ops i (i :: path).

Definition forward (ops : list Operator) (i : nat) : bool :=
  match successors ops i with
  | Some js => forallb (fun j => (i <? j) && (j <? length ops))%nat js
               && Bool.eqb (S i =? length ops)%nat (length js =? 0)%nat
  | None => false
  end.

Lemma operators_forward lp ops :
  makeOperators lp = Some ops ->
  forallb (forward ops) (seq 0 (length ops)) = true /\ last ops = Some makeNoop /\ length ops = 20%nat.
Proof.
  unfold makeOperators. destruct (_ ≫= lri_KeepOriginalBody) as [[]|]; simpl; [| |done]; intros [= <-];
    split_and!; by vm_compute.
Qed.

Lemma forward_spec ops i :
  forallb (forward ops) (seq 0 (length ops)) = true -> (i < length ops)%nat ->
  exists js, successors ops i = Some js /\ Forall (fun j => i < j < length ops)%nat js /\
    (js = [] <-> S i = length ops).
Proof.
  intros Hf Hi. rewrite forallb_forall in Hf. specialize (Hf i ltac:(apply in_seq; lia)).
  unfold forward in Hf. destruct (successors ops i) as [js|]; [|done]. exists js. split; [done|].
  apply andb_prop in Hf as [H1 H2]. rewrite forallb_forall in H1. apply Bool.eqb_prop in H2. split.
  - apply Forall_forall. intros j Hj. apply list_elem_of_In in Hj. specialize (H1 j Hj).
    apply andb_prop in H1 as [?%Nat.ltb_lt ?%Nat.ltb_lt]. lia.
  - destruct (S i =? length ops)%nat eqn:E; [apply Nat.eqb_eq in E|apply Nat.eqb_neq in E]; by destruct js.
Qed.

Lemma visits_increasing ops i path :
  forallb (forward ops) (seq 0 (length ops)) = true -> (i < length ops)%nat -> visits ops i path ->
  (i + length path <= length ops)%nat /\ last path = Some (length ops - 1)%nat.
Proof.
  intros Hf Hi Hv. induction Hv as [i Hs|i js j path Hs Hj Hv IH].
  - destruct (forward_spec ops i Hf Hi) as (js & Hs' & _ & He). rewrite Hs in Hs'. simplify_eq.
    destruct He as [He _]. specialize (He eq_refl). cbn. split; [lia|]. f_equal. lia.
  - destruct (forward_spec ops i Hf Hi) as (js' & Hs' & Hlt & _). rewrite Hs in Hs'. simplify_eq.
    rewrite Forall_forall in Hlt. specialize (Hlt j Hj). destruct IH as [IH1 IH2]; [lia|].
    split; [cbn [length]; lia|]. destruct path as [|k path]; [done|]. exact IH2.
Qed.

Lemma visits_exist ops i :
  forallb (forward ops) (seq 0 (length ops)) = true -> (i < length ops)%nat ->
  exists path, visits ops i path.
Proof.
  intros Hf. remember (length ops - i)%nat as n eqn:Hn. revert i Hn.
  induction n as [n IH] using lt_wf_ind. intros i Hn Hi.
  destruct (forward_spec ops i Hf Hi) as (js & Hs & Hlt & _). destruct js as [|j js].
  - exists [i]. by constructor.
  - apply Forall_cons in Hlt as [Hj _]. destruct (IH (length ops - j)%nat) with (i := j) as (path & Hp); [lia..|].
    exists (i :: path). eapply visits_next; [done|by left|done].
Qed.

(** C32. The operators of the file log receiver form no loop: from every
    operator, whatever way the routers choose, the processing of a log line
    visits at most twenty operators in increasing order and ends in the final
    no-operation; every output that an operator names exists. *)
Theorem log_agent_operators_terminate lp ops i :
  makeOperators lp = Some ops -> (i < length ops)%nat ->
  (exists path, visits ops i path) /\
  (forall path, visits ops i path ->
     (i + length path <= 20)%nat /\ exists j, last path = Some j /\ ops !! j = Some makeNoop) /\
  (forall js, successors ops i = Some js -> Forall (fun j => i < j < length ops)%nat js).
Proof.
  intros Ho Hi. destruct (operators_forward _ _ Ho) as (Hf & Hl & Hlen). split_and!.
  - by apply visits_exist.
  - intros path Hp. destruct (visits_increasing _ _ _ Hf Hi Hp) as [H1 H2]. split; [lia|].
    eexists. split; [exact H2|]. rewrite last_lookup in Hl. by rewrite <- Nat.sub_1_r in Hl.
  - intros js Hs. destruct (forward_spec _ _ Hf Hi) as (js' & Hs' & Hlt & _). rewrite Hs in Hs'. by simplify_eq.
Qed.

(** ** The configuration *)

Section Config.
Context `{SecretReader} `{URLOps} (collectAgentLogs : bool) (opts : LogAgent.BuildOptions).

Definition agent_pipeline (lp : LogPipeline) : ServicePipeline :=
  let otel := LogAgent.otel_enrichment opts in
  mkServicePipeline [ComponentIDFileLogReceiver (log_name lp)]
    ([ComponentIDMemoryLimiterProcessor; ComponentIDSetInstrumentationScopeRuntimeProcessor]
     ++ when otel ComponentIDDropUnknownServiceNameProcessor
     ++ [ComponentIDK8sAttributesProcessor]
     ++ when otel ComponentIDRestoreOtelServiceAttrsProcessor
     ++ [ComponentIDInsertClusterAttributesProcessor]
     ++ when (negb otel) ComponentIDServiceEnrichmentProcessor
     ++ [ComponentIDDropKymaAttributesProcessor]
     ++ when (negb (slen (ls_Transforms (lp_Spec lp)) =? 0)%nat)
          (ComponentIDUserDefinedTransformProcessor (LogPipelineRef lp))
     ++ when (negb (is_nil (ls_Filters (lp_Spec lp)))) (ComponentIDUserDefinedFilterProcessor (LogPipelineRef lp)))%list
    (exporter_ids (log_output lp) (LogPipelineRef lp)).

(** The OAuth2 step of the log agent is the one of the gateway. *)
Lemma agent_oauth2 lp b :
  (enable ← LogAgent.shouldEnableOAuth2 lp;
   if (enable : bool) then LogAgent.addOAuth2Extension lp b else Some (Ok b)) = addLogOAuth2Extension lp b.
Proof.
  unfold LogAgent.shouldEnableOAuth2, LogAgent.addOAuth2Extension, addLogOAuth2Extension, oauth2_of.
  destruct (log_output lp) as [o|]; [|done]. simpl. by destruct (oo_Authentication o ≫= ao_OAuth2).
Qed.

Lemma build_pipeline_eq lp b :
  LogAgent.build_pipeline collectAgentLogs opts lp b =
  andThen (addLogOAuth2Extension lp b) (fun b => wrap_err "failed to add service pipeline: "
    (AddServicePipeline lp (LogAgent.formatLogServicePipelineID lp) (LogAgent.components collectAgentLogs opts) b)).
Proof.
  unfold LogAgent.build_pipeline. rewrite <- agent_oauth2. by destruct (LogAgent.shouldEnableOAuth2 lp).
Qed.

Lemma agent_components_adds lp :
  exists ds, Forall2 (fun f d => adds f lp d) (LogAgent.components collectAgentLogs opts) ds /\
    (is_Some (makeOperators lp) -> pipe_concat ds = agent_pipeline lp).
Proof.
  eexists; split.
  { repeat (apply Forall2_cons; split; [first [apply AddReceiver_adds | apply AddProcessor_adds | idtac]|]);
      [|apply Forall2_nil_2].
    apply (exporter_adds _ _ _ (exporter_ids (log_output lp) (LogPipelineRef lp))).
    intros c env. unfold LogAgent.formatOTLPExporterID, exporter_ids. destruct (log_output lp) as [o|]; simpl; [|done].
    intros Ho. destruct (otlp_exporter_some _ _ _ _ _ Ho) as [x ->]. eauto. }
  intros [ops Hops]. unfold agent_pipeline, const_config, exporter_ids, fileLogReceiver. rewrite Hops.
  destruct (log_output lp), (LogAgent.otel_enrichment opts), (slen _ =? 0)%nat, (is_nil _); reflexivity.
Qed.

(** A pipeline is only built when its operators can be made. *)
Lemma built_operators lp b b' :
  AddServicePipeline lp (LogAgent.formatLogServicePipelineID lp) (LogAgent.components collectAgentLogs opts) b
    = Some (Ok b') -> is_Some (makeOperators lp).
Proof.
  unfold AddServicePipeline, LogAgent.components. cbn [run_components].
  intros (b1 & H1%wrap_err_ok & _)%andThen_ok. unfold LogAgent.addFileLogReceiver, AddReceiver, fileLogReceiver in H1.
  destruct (makeOperators lp); [eauto|done].
Qed.

Lemma agent_pipelines ps b :
  LogAgent.Build collectAgentLogs ps opts = Some (Ok b) ->
  svc_Pipelines (cf_Service (b_Config b)) =
    add_pipelines ∅ (map (fun lp => (LogAgent.formatLogServicePipelineID lp, agent_pipeline lp))
                       (sort_by_name log_name ps)).
Proof.
  unfold LogAgent.Build. intros Hb. eapply for_each_pipelines in Hb; [exact Hb|]. clear Hb.
  intros lp b0 b1. rewrite build_pipeline_eq. intros (b2 & H1 & H2%wrap_err_ok)%andThen_ok.
  destruct (agent_components_adds lp) as (ds & Hf & Hds). cbn [fst snd].
  rewrite <- Hds by (by eapply built_operators).
  rewrite (AddServicePipeline_adds _ _ _ _ _ _ Hf H2). f_equal. by eapply oauth2_pipelines.
Qed.

Lemma agent_closed ps b : LogAgent.Build collectAgentLogs ps opts = Some (Ok b) -> closed (b_Config b).
Proof.
  unfold LogAgent.Build. apply (for_each_preserves closed_builder).
  - intros lp _ b0 b1 Hb0. rewrite build_pipeline_eq. apply preserves_andThen; [|apply preserves_wrap|done].
    + apply oauth2_preserves. intros. by apply AddExtension_closed.
    + apply AddServicePipeline_closed. unfold LogAgent.components. split_forall;
        first [apply AddReceiver_closed | apply AddProcessor_closed | apply AddExporter_closed].
  - apply AddExtension_closed, NewConfig_closed.
Qed.

End Config.

(** C33. The configuration of the log agent is closed, and its service pipelines
    are exactly one for each given pipeline, with the receiver, processors and
    exporter of that pipeline, whatever the order of the list. *)
Theorem log_agent_config `{SecretReader} `{URLOps} collect ps opts b :
  NoDup (map log_name ps) -> LogAgent.Build collect ps opts = Some (Ok b) ->
  closed (b_Config b) /\
  svc_Pipelines (cf_Service (b_Config b)) =
    list_to_map (map (fun lp => (LogAgent.formatLogServicePipelineID lp, agent_pipeline opts lp)) ps).
Proof.
  intros Hn Hb. split; [by eapply agent_closed|]. rewrite (agent_pipelines _ _ _ _ Hb).
  assert (Hd : forall qs, NoDup (map log_name qs) ->
            NoDup (map (fun lp => (LogAgent.formatLogServicePipelineID lp, agent_pipeline opts lp)) qs).*1).
  { intros qs Hq. change (NoDup (map fst (map (fun lp =>
      (LogAgent.formatLogServicePipelineID lp, agent_pipeline opts lp)) qs))). rewrite map_map.
    eapply (NoDup_map_inj log_name _ (fun s => "logs/" +:+ s)); [done|apply _|done]. }
  pose proof (sort_by_name_perm log_name ps) as Hp.
  rewrite add_pipelines_list, (right_id_L ∅ (∪)).
  - apply list_to_map_proper; [|by rewrite Hp]. apply Hd. by rewrite Hp.
  - apply Hd. by rewrite Hp.
Qed.

(** ** A sample *)

Module AgentSample.
#[export] Instance reader : SecretReader := fun _ => Err NotFound.
#[export] Instance urls : URLOps := {|
  url_t := string; url_Parse s := Ok s; url_Path s := s; url_RawQuery _ := "";
  url_with _ p _ := p; url_String s := s; path_Join a b := a +:+ b |}.
Definition log (name : string) (keep : bool) : LogPipeline :=
  mkLogPipeline (mkMeta name "" 1 None false)
    (mkLogSpec (mkLogInput (Some (mkLogRuntimeInput (Some true) None None None None (Some keep))) None) None
       (mkLogOutput "" None (Some (mkOTLPOutput OTLPProtocolGRPC (mkValueType "https://b:4317" None) "" None None
                                     None ""))) None None None None)
    (mkLogStatus [] None).
Definition opts : LogAgent.BuildOptions :=
  LogAgent.mkBuildOptions (mkClusterOptions "c" "u" "") "1.0.0" "kyma-system" None "" false.
Definition ps : list LogPipeline := [log "b" true; log "a" false].
Definition result : builder :=
  match LogAgent.Build false ps opts with Some (Ok b) => b | _ => mkBuilder NewConfig ∅ end.
Lemma agent_succeeds : (match LogAgent.Build false ps opts with Some (Ok _) => true | _ => false end) = true.
Proof. by vm_compute. Qed.
Lemma agent_built : LogAgent.Build false ps opts = Some (Ok result).
Proof. generalize agent_succeeds. unfold result. by destruct (LogAgent.Build false ps opts) as [[b|e]|]. Qed.
End AgentSample.
#[local] Existing Instance AgentSample.reader.
#[local] Existing Instance AgentSample.urls.

Lemma log_agent_config_witness : closed (b_Config AgentSample.result).
Proof.
  destruct (log_agent_config false AgentSample.ps AgentSample.opts AgentSample.result) as [Hc _].
  - by apply (bool_decide_unpack _).
  - apply AgentSample.agent_built.
  - exact Hc.
Defined.

Lemma log_agent_operators_terminate_witness :
  exists path, visits (default [] (makeOperators (AgentSample.log "a" true))) 0 path.
Proof.
  destruct (log_agent_operators_terminate (AgentSample.log "a" true)
              (default [] (makeOperators (AgentSample.log "a" true))) 0) as [He _].
  - reflexivity.
  - cbn. lia.
  - exact He.
Defined.
