(* ===== verification/K8sUtils.v ===== *)
(** * Writing and deleting Kubernetes objects (internal/utils/k8s/utils.go)

    The CreateOrUpdate functions read an object, merge the metadata of what they find
    into the desired object, and write it; the delete functions ignore objects that are
    gone. An object is its metadata and a content of any type; the client is the
    interface [ObjectClient] over a cluster state. *)
From stdpp Require Import base gmap strings list.
From S2P Require Import Prelude Kube GoErrors.
Local Open Scope string_scope.

(** ** Objects *)

(** The metadata the functions read and write; nil maps are [None]. *)
Record FullMeta := mkFullMeta {
  fm_Key : NamespacedName;
  fm_ResourceVersion : string;
  fm_Labels : option (gmap string string);
  fm_Annotations : option (gmap string string);
  fm_OwnerReferences : list OwnerReference
}.

Record object (S : Type) := mkObject { ob_Meta : FullMeta; ob_Content : S }.
Arguments mkObject {S} _ _.
Arguments ob_Meta {S} _.
Arguments ob_Content {S} _.

(** [client.Client] on the objects of one kind; a list is filtered by labels. *)
Class ObjectClient (W S : Type) := {
  obj_get : W -> NamespacedName -> result (object S) apierror;
  obj_list : W -> gmap string string -> result (list (object S)) apierror;
  obj_create : W -> object S -> W * option apierror;
  obj_update : W -> object S -> W * option apierror;
  obj_delete : W -> NamespacedName -> W * option apierror
}.

(** ** Merging metadata *)

Definition mergeMapsByPrefix (newMap oldMap : option (gmap string string)) (prefix : string) : gmap string string :=
  let oldMap := default ∅ oldMap in
  let newMap := default ∅ newMap in
  newMap ∪ filter (fun kv => String.prefix prefix kv.1 = true) oldMap.

Definition mergeMaps (newMap oldMap : option (gmap string string)) : gmap string string :=
  mergeMapsByPrefix newMap oldMap "".

Definition ownerSliceContains (owners : list OwnerReference) (owner : OwnerReference) : bool :=
  existsb (fun o => str_eqb (or_UID o) (or_UID owner)) owners.

Definition mergeOwnerReferences (newOwners oldOwners : list OwnerReference) : list OwnerReference :=
  fold_left (fun merged o => if ownerSliceContains oldOwners o then merged else (merged ++ [o])%list)
    newOwners oldOwners.

Definition mergeMetadata (newMeta oldMeta : FullMeta) : FullMeta :=
  mkFullMeta (fm_Key newMeta) (fm_ResourceVersion oldMeta)
    (Some (mergeMaps (fm_Labels newMeta) (fm_Labels oldMeta)))
    (Some (mergeMaps (fm_Annotations newMeta) (fm_Annotations oldMeta)))
    (mergeOwnerReferences (fm_OwnerReferences newMeta) (fm_OwnerReferences oldMeta)).

Definition AnnotationKeyChecksumConfig : string := "checksum/config".

(** On the annotations of a pod template. *)
Definition mergePodAnnotations (new old : option (gmap string string)) : option (gmap string string) :=
  let new := Some (mergeMapsByPrefix new old "kubectl.kubernetes.io/") in
  let new := Some (mergeMapsByPrefix new old AnnotationKeyChecksumConfig) in
  Some (mergeMapsByPrefix new old "istio-operator.kyma-project.io/restartedAt").

(** ** Writing *)

Section Write.
Context {W S : Type} `{ObjectClient W S}.

(** The functions that always write: [prepare] takes over what the existing object
    determines. *)
Definition create_or_update (prepare : S -> S -> S) (w : W) (desired : object S) : W * option apierror :=
  match obj_get w (fm_Key (ob_Meta desired)) with
  | Err e => if negb (IsNotFound e) then (w, Some e) else obj_create w desired
  | Ok existing =>
      obj_update w (mkObject (mergeMetadata (ob_Meta desired) (ob_Meta existing))
                      (prepare (ob_Content desired) (ob_Content existing)))
  end.

(** The functions that compare first ([apiequality.Semantic.DeepEqual]). *)
Definition create_or_update_if_changed (DeepEqual : object S -> object S -> bool) (w : W) (desired : object S) :
    W * option apierror :=
  match obj_get w (fm_Key (ob_Meta desired)) with
  | Err e => if negb (IsNotFound e) then (w, Some e) else obj_create w desired
  | Ok mutated =>
      let desired := mkObject (mergeMetadata (ob_Meta desired) (ob_Meta mutated)) (ob_Content desired) in
      if DeepEqual mutated desired then (w, None) else obj_update w desired
  end.

Definition keep_desired (desired existing : S) : S := desired.

Definition CreateOrUpdateClusterRoleBinding := create_or_update_if_changed.
Definition CreateOrUpdateClusterRole := create_or_update_if_changed.
Definition CreateOrUpdateRoleBinding := create_or_update_if_changed.
Definition CreateOrUpdateRole := create_or_update_if_changed.
Definition CreateOrUpdateServiceAccount := create_or_update_if_changed.
Definition CreateOrUpdateConfigMap := create_or_update_if_changed.
Definition CreateOrUpdateNetworkPolicy := create_or_update_if_changed.
Definition CreateOrUpdateSecret := create_or_update_if_changed.
Definition CreateOrUpdatePeerAuthentication := create_or_update keep_desired.
Definition CreateOrUpdateDestinationRule := create_or_update keep_desired.
Definition CreateOrUpdateValidatingWebhookConfiguration := create_or_update keep_desired.
Definition CreateOrUpdateVPA := create_or_update keep_desired.

(** ** Deleting *)

(** [DeleteObject] *)
Definition DeleteObject (w : W) (key : NamespacedName) : W * option apierror :=
  let '(w, err) := obj_delete w key in (w, err ≫= IgnoreNotFound).

Fixpoint delete_items (items : list (object S)) (w : W) : W * option apierror :=
  match items with
  | [] => (w, None)
  | obj :: rest =>
      match obj_delete w (fm_Key (ob_Meta obj)) with
      | (w, Some err) => (w, IgnoreNotFound err)
      | (w, None) => delete_items rest w
      end
  end.

Definition DeleteObjectsByLabelSelector (w : W) (labelSelector : gmap string string) : W * option apierror :=
  match obj_list w labelSelector with
  | Err err => (w, IgnoreNotFound err)
  | Ok items => delete_items items w
  end.

End Write.

(** A workload: the annotations of its pod template and the rest of its content. *)
Record workload (S : Type) := mkWorkload { wl_PodAnnotations : option (gmap string string); wl_Rest : S }.
Arguments mkWorkload {S} _ _.
Arguments wl_PodAnnotations {S} _.
Arguments wl_Rest {S} _.

Definition merge_workload {S} (desired existing : workload S) : workload S :=
  mkWorkload (mergePodAnnotations (wl_PodAnnotations desired) (wl_PodAnnotations existing)) (wl_Rest desired).

Definition CreateOrUpdateDeployment {W S} `{ObjectClient W (workload S)} := create_or_update (W:=W) (@merge_workload S).
Definition CreateOrUpdateDaemonSet {W S} `{ObjectClient W (workload S)} := create_or_update (W:=W) (@merge_workload S).

(** A service: the fields the API server assigns and the rest of its content. *)
Record service (S : Type) := mkService {
  sv_IPFamilies : list string; sv_IPFamilyPolicy : option string; sv_ClusterIP : string; sv_ClusterIPs : list string;
  sv_Rest : S
}.
Arguments mkService {S} _ _ _ _ _.
Arguments sv_IPFamilies {S} _.
Arguments sv_IPFamilyPolicy {S} _.
Arguments sv_ClusterIP {S} _.
Arguments sv_ClusterIPs {S} _.
Arguments sv_Rest {S} _.

Definition keep_immutable {S} (desired existing : service S) : service S :=
  mkService (sv_IPFamilies existing) (sv_IPFamilyPolicy existing) (sv_ClusterIP existing) (sv_ClusterIPs existing)
    (sv_Rest desired).

Definition CreateOrUpdateService {W S} `{ObjectClient W (service S)} := create_or_update (W:=W) (@keep_immutable S).

(** ** Properties of writing and deleting objects

    A successful write leaves the desired object in the cluster, with the labels,
    annotations and owners of the object that was there before; deleting by label stops
    at an object that is already gone. *)

(** Documented behaviour of the API server: a read returns an object of that key; a
    successful write is visible with a new version, and its metadata and content are the
    ones that were written. *)
Class ObjectLaws (W S : Type) `{ObjectClient W S} := {
  obj_get_key (w : W) k o : obj_get w k = Ok o -> fm_Key (ob_Meta o) = k;
  obj_create_ok (w : W) o w' : obj_create w o = (w', None) ->
    exists v, obj_get w' (fm_Key (ob_Meta o)) =
      Ok (mkObject (mkFullMeta (fm_Key (ob_Meta o)) v (fm_Labels (ob_Meta o)) (fm_Annotations (ob_Meta o))
                      (fm_OwnerReferences (ob_Meta o))) (ob_Content o));
  obj_update_ok (w : W) o w' : obj_update w o = (w', None) ->
    exists v, obj_get w' (fm_Key (ob_Meta o)) =
      Ok (mkObject (mkFullMeta (fm_Key (ob_Meta o)) v (fm_Labels (ob_Meta o)) (fm_Annotations (ob_Meta o))
                      (fm_OwnerReferences (ob_Meta o))) (ob_Content o))
}.

(** ** Merged maps and owners *)

Lemma prefix_empty s : String.prefix "" s = true.
Proof. by destruct s. Qed.

Lemma mergeMaps_lookup new old k :
  mergeMaps new old !! k =
    match default ∅ new !! k with Some v => Some v | None => default ∅ old !! k end.
Proof.
  unfold mergeMaps, mergeMapsByPrefix. rewrite lookup_union, map_lookup_filter.
  destruct (default ∅ new !! k), (default ∅ old !! k); simpl; try done;
    rewrite ?option_guard_True by apply prefix_empty; done.
Qed.

Lemma mergeMaps_new new old : default ∅ new ⊆ mergeMaps new old.
Proof. apply map_subseteq_spec. intros k v Hk. by rewrite mergeMaps_lookup, Hk. Qed.

Lemma mergeMaps_old new old k v :
  default ∅ old !! k = Some v -> default ∅ new !! k = None -> mergeMaps new old !! k = Some v.
Proof. intros Ho Hn. by rewrite mergeMaps_lookup, Hn. Qed.

Lemma mergeMaps_idem new old : mergeMaps new (Some (mergeMaps new old)) = mergeMaps new old.
Proof.
  apply map_eq. intros k. rewrite !mergeMaps_lookup. simpl.
  destruct (default ∅ new !! k) eqn:E; [done|]. by rewrite mergeMaps_lookup, E.
Qed.

Lemma ownerSliceContains_spec os o : ownerSliceContains os o = true <-> exists o', o' ∈ os /\ or_UID o' = or_UID o.
Proof.
  unfold ownerSliceContains. rewrite existsb_exists. split.
  - intros (x & Hx%list_elem_of_In & He%str_eqb_true). eauto.
  - intros (x & Hx & He). exists x. rewrite <- list_elem_of_In. by rewrite He, str_eqb_refl.
Qed.

Lemma merge_owners_fold new old acc o :
  o ∈ fold_left (fun merged o => if ownerSliceContains old o then merged else (merged ++ [o])%list) new acc <->
  o ∈ acc \/ (o ∈ new /\ ownerSliceContains old o = false).
Proof.
  revert acc. induction new as [|x new IH]; intros acc; simpl.
  - rewrite elem_of_nil. tauto.
  - rewrite IH, elem_of_cons. destruct (ownerSliceContains old x) eqn:E.
    + split; intros [?|[? ?]]; auto. destruct H as [->|?]; [congruence|auto].
    + rewrite elem_of_app, list_elem_of_singleton. split; [intros [[?| ->]|[? ?]]; auto|].
      intros [?|[[->|?] ?]]; auto.
Qed.

(** The owners are the old ones and the new ones with other identifiers. *)
Lemma mergeOwnerReferences_spec new old o :
  o ∈ mergeOwnerReferences new old <-> o ∈ old \/ (o ∈ new /\ forall o', o' ∈ old -> or_UID o' <> or_UID o).
Proof.
  unfold mergeOwnerReferences. rewrite merge_owners_fold. split; intros [Ho|[Ho Hc]]; auto; right; split; auto.
  - intros o' Hin He. assert (ownerSliceContains old o = true) by (apply ownerSliceContains_spec; eauto). congruence.
  - destruct (ownerSliceContains old o) eqn:E; [|done]. apply ownerSliceContains_spec in E as (o' & Hin & He).
    by apply Hc in He.
Qed.

(** What a desired object looks like once it is in the cluster. *)
Definition applied {S} (desired : object S) (before : option (object S)) (content : S) (after : object S) : Prop :=
  ob_Content after = content /\ fm_Key (ob_Meta after) = fm_Key (ob_Meta desired) /\
  default ∅ (fm_Labels (ob_Meta desired)) ⊆ default ∅ (fm_Labels (ob_Meta after)) /\
  default ∅ (fm_Annotations (ob_Meta desired)) ⊆ default ∅ (fm_Annotations (ob_Meta after)) /\
  (forall o, o ∈ fm_OwnerReferences (ob_Meta desired) ->
     exists o', o' ∈ fm_OwnerReferences (ob_Meta after) /\ or_UID o' = or_UID o) /\
  (forall b, before = Some b ->
     (forall k v, default ∅ (fm_Labels (ob_Meta b)) !! k = Some v ->
        default ∅ (fm_Labels (ob_Meta desired)) !! k = None -> default ∅ (fm_Labels (ob_Meta after)) !! k = Some v) /\
     (forall k v, default ∅ (fm_Annotations (ob_Meta b)) !! k = Some v ->
        default ∅ (fm_Annotations (ob_Meta desired)) !! k = None ->
        default ∅ (fm_Annotations (ob_Meta after)) !! k = Some v) /\
     (forall o, o ∈ fm_OwnerReferences (ob_Meta b) -> o ∈ fm_OwnerReferences (ob_Meta after))).

(** The metadata a write of a merged object leaves. *)
Lemma applied_merged {S} (desired b : object S) content v :
  let m := mergeMetadata (ob_Meta desired) (ob_Meta b) in
  applied desired (Some b) content
    (mkObject (mkFullMeta (fm_Key m) v (fm_Labels m) (fm_Annotations m) (fm_OwnerReferences m)) content).
Proof.
  intros m. unfold applied; cbn. split_and!; try done; try apply mergeMaps_new.
  - intros o Ho. destruct (ownerSliceContains (fm_OwnerReferences (ob_Meta b)) o) eqn:E.
    + apply ownerSliceContains_spec in E as (o' & Hin & He). exists o'. rewrite mergeOwnerReferences_spec. auto.
    + exists o. rewrite mergeOwnerReferences_spec. split; [|done]. right. split; [done|]. intros o' Hin He.
      assert (ownerSliceContains (fm_OwnerReferences (ob_Meta b)) o = true) by (apply ownerSliceContains_spec; eauto).
      congruence.
  - intros b' [= <-]. split_and!; intros.
    + by apply mergeMaps_old.
    + by apply mergeMaps_old.
    + rewrite mergeOwnerReferences_spec. auto.
Qed.

Lemma applied_created {S} (desired : object S) v :
  applied desired None (ob_Content desired)
    (mkObject (mkFullMeta (fm_Key (ob_Meta desired)) v (fm_Labels (ob_Meta desired)) (fm_Annotations (ob_Meta desired))
       (fm_OwnerReferences (ob_Meta desired))) (ob_Content desired)).
Proof. unfold applied; cbn. split_and!; try done. eauto. Qed.

Section Laws.
Context {W S : Type} `{ObjectLaws W S}.

(** What is in the cluster before a write. *)
Definition current (w : W) (k : NamespacedName) : option (object S) :=
  match obj_get w k with Ok o => Some o | Err _ => None end.

Lemma create_or_update_applies prepare (w w' : W) desired :
  create_or_update prepare w desired = (w', None) ->
  let key := fm_Key (ob_Meta desired) in
  exists after, obj_get w' key = Ok after /\
    applied desired (current w key)
      (match current w key with
       | Some b => prepare (ob_Content desired) (ob_Content b)
       | None => ob_Content desired
       end) after.
Proof.
  intros Hw key. subst key. unfold create_or_update in Hw. unfold current.
  destruct (obj_get w (fm_Key (ob_Meta desired))) as [b|e].
  - apply obj_update_ok in Hw as [v Hv]. cbn [ob_Meta ob_Content] in Hv. eexists. split; [exact Hv|].
    apply applied_merged.
  - destruct (negb (IsNotFound e)); [done|]. apply obj_create_ok in Hw as [v Hv].
    eexists. split; [exact Hv|]. apply applied_created.
Qed.

(** An equality test is sound when equal objects have the same key, content, labels,
    annotations and owners; nil and empty maps count as equal. *)
Definition sound_equality (eqb : object S -> object S -> bool) : Prop :=
  forall a b, eqb a b = true ->
    ob_Content a = ob_Content b /\ fm_Key (ob_Meta a) = fm_Key (ob_Meta b) /\
    default ∅ (fm_Labels (ob_Meta a)) = default ∅ (fm_Labels (ob_Meta b)) /\
    default ∅ (fm_Annotations (ob_Meta a)) = default ∅ (fm_Annotations (ob_Meta b)) /\
    fm_OwnerReferences (ob_Meta a) = fm_OwnerReferences (ob_Meta b).

(** Skipping the write of an equal object loses nothing. *)
Lemma create_or_update_if_changed_applies eqb (w w' : W) desired :
  sound_equality eqb -> create_or_update_if_changed eqb w desired = (w', None) ->
  let key := fm_Key (ob_Meta desired) in
  exists after, obj_get w' key = Ok after /\ applied desired (current w key) (ob_Content desired) after.
Proof.
  intros Heq Hw key. subst key. unfold create_or_update_if_changed in Hw. unfold current.
  destruct (obj_get w (fm_Key (ob_Meta desired))) as [b|e] eqn:Hg.
  - destruct (eqb b _) eqn:E.
    + simplify_eq. exists b. split; [done|]. apply Heq in E as (E1 & E2 & E3 & E4 & E5). cbn in *.
      destruct (applied_merged desired b (ob_Content desired) "") as (_ & _ & H1 & H2 & H3 & H4). cbn in *.
      unfold applied. rewrite E1, E2, E3, E4, E5. do 5 (split; [first [done | assumption]|]). assumption.
    + apply obj_update_ok in Hw as [v Hv]. cbn [ob_Meta ob_Content] in Hv. eexists. split; [exact Hv|].
      apply applied_merged.
  - destruct (negb (IsNotFound e)); [done|]. apply obj_create_ok in Hw as [v Hv].
    eexists. split; [exact Hv|]. apply applied_created.
Qed.

(** ** Deleting by label *)

(** When no object is missing, success means that every listed object was deleted. *)
Inductive deleted_all : list (object S) -> W -> W -> Prop :=
| deleted_nil w : deleted_all [] w w
| deleted_cons o rest w w1 w' :
    obj_delete w (fm_Key (ob_Meta o)) = (w1, None) -> deleted_all rest w1 w' -> deleted_all (o :: rest) w w'.

Lemma delete_items_gone (w w' : W) o rest :
  obj_delete w (fm_Key (ob_Meta o)) = (w', Some NotFound) -> delete_items (o :: rest) w = (w', None).
Proof. intros Hd. simpl. by rewrite Hd. Qed.

Lemma delete_items_all items (w w' : W) :
  delete_items items w = (w', None) ->
  deleted_all items w w' \/
  exists pre o post w1, items = (pre ++ o :: post)%list /\ deleted_all pre w w1 /\
    obj_delete w1 (fm_Key (ob_Meta o)) = (w', Some NotFound).
Proof.
  revert w. induction items as [|o rest IH]; intros w; simpl; [intros [= <-]; left; constructor|].
  destruct (obj_delete w (fm_Key (ob_Meta o))) as [w1 [e|]] eqn:Hd.
  - destruct e; try done. intros [= <-]. right. exists [], o, rest, w. split_and!; [done|constructor|done].
  - intros Hr. destruct (IH _ Hr) as [Ha|(pre & x & post & w2 & -> & Ha & Hx)].
    + left. by econstructor.
    + right. exists (o :: pre), x, post, w2. split_and!; [done|by econstructor|done].
Qed.

End Laws.

(** ** Pod annotations *)

Lemma mergeMapsByPrefix_lookup new old p k :
  mergeMapsByPrefix new old p !! k =
    match default ∅ new !! k with
    | Some v => Some v
    | None => if String.prefix p k then default ∅ old !! k else None
    end.
Proof.
  unfold mergeMapsByPrefix. rewrite lookup_union, map_lookup_filter.
  destruct (default ∅ new !! k), (default ∅ old !! k), (String.prefix p k) eqn:E; simpl; try done;
    rewrite ?option_guard_True, ?option_guard_False by (by rewrite ?E); done.
Qed.

(** Annotations of kubectl, the checksum and the restart of the Istio module survive. *)
Definition kept_annotation (k : string) : bool :=
  String.prefix "kubectl.kubernetes.io/" k || String.prefix AnnotationKeyChecksumConfig k
  || String.prefix "istio-operator.kyma-project.io/restartedAt" k.

Lemma mergePodAnnotations_lookup new old k :
  default ∅ (mergePodAnnotations new old) !! k =
    match default ∅ new !! k with
    | Some v => Some v
    | None => if kept_annotation k then default ∅ old !! k else None
    end.
Proof.
  unfold mergePodAnnotations, kept_annotation.
  assert (Hs : forall m : gmap string string, default ∅ (Some m) = m) by done.
  do 3 (rewrite Hs, mergeMapsByPrefix_lookup). generalize (default ∅ new !! k). intros [v|]; [done|].
  destruct (String.prefix "kubectl.kubernetes.io/" k), (String.prefix AnnotationKeyChecksumConfig k),
    (String.prefix "istio-operator.kyma-project.io/restartedAt" k); cbn [orb]; by destruct (default ∅ old !! k).
Qed.

(** ** The theorems *)

(** After a successful CreateOrUpdateDaemonSet the stored DaemonSet has the
    desired specification, labels, annotations and owners merged with those it
    had, and keeps from the previous Pod template exactly the restart
    annotations that the desired one does not set. *)
Theorem workload_write_applies {W S} `{ObjectLaws W (workload S)} (w w' : W) (desired : object (workload S)) :
  CreateOrUpdateDaemonSet w desired = (w', None) ->
  exists after, obj_get w' (fm_Key (ob_Meta desired)) = Ok after /\
    applied desired (current w (fm_Key (ob_Meta desired))) (ob_Content after) after /\
    wl_Rest (ob_Content after) = wl_Rest (ob_Content desired) /\
    default ∅ (wl_PodAnnotations (ob_Content desired)) ⊆ default ∅ (wl_PodAnnotations (ob_Content after)) /\
    (forall b k v, obj_get w (fm_Key (ob_Meta desired)) = Ok b ->
       default ∅ (wl_PodAnnotations (ob_Content b)) !! k = Some v -> kept_annotation k = true ->
       default ∅ (wl_PodAnnotations (ob_Content desired)) !! k = None ->
       default ∅ (wl_PodAnnotations (ob_Content after)) !! k = Some v).
Proof.
  intros Hw. destruct (create_or_update_applies _ _ _ _ Hw) as (after & Hg & Ha). exists after. split; [done|].
  pose proof Ha as (Hc & _). split; [by rewrite Hc|]. rewrite Hc. unfold current in *.
  destruct (obj_get w (fm_Key (ob_Meta desired))) as [b|e] eqn:Hb; [|split_and!; done]. cbn [merge_workload wl_Rest].
  split_and!; [done| |].
  - apply map_subseteq_spec. intros k v Hk. cbn [merge_workload wl_PodAnnotations].
    by rewrite mergePodAnnotations_lookup, Hk.
  - intros b' k v [= <-] Hk Hkept Hn. cbn [merge_workload wl_PodAnnotations]. by rewrite mergePodAnnotations_lookup, Hn, Hkept.
Qed.

(** DeleteObjectsByLabelSelector gives up at an object that is already gone:
    when the deletion of the first listed object answers NotFound, the call
    returns success without deleting the others. *)
Theorem delete_by_label_stops {W S} `{ObjectClient W S} (w w' : W) selector o rest :
  obj_list w selector = Ok (o :: rest) -> obj_delete w (fm_Key (ob_Meta o)) = (w', Some NotFound) ->
  DeleteObjectsByLabelSelector w selector = (w', None).
Proof. intros Hl Hd. unfold DeleteObjectsByLabelSelector. rewrite Hl. by apply delete_items_gone. Qed.

(** ** A store with a cache *)

Module ObjStore.
(** What the lists return, and what is stored. *)
Record store (S : Type) := mkStore { st_cache : list (object S); st_live : list (object S) }.
Arguments mkStore {S} _ _.
Arguments st_cache {S} _.
Arguments st_live {S} _.

Definition find {S} (k : NamespacedName) (l : list (object S)) : option (object S) :=
  List.find (fun o => bool_decide (fm_Key (ob_Meta o) = k)) l.
Definition written {S} (o : object S) : object S :=
  mkObject (mkFullMeta (fm_Key (ob_Meta o)) "1" (fm_Labels (ob_Meta o)) (fm_Annotations (ob_Meta o))
              (fm_OwnerReferences (ob_Meta o))) (ob_Content o).
Definition selected {S} (sel : gmap string string) (o : object S) : bool :=
  bool_decide (sel ⊆ default ∅ (fm_Labels (ob_Meta o))).

#[export] Instance client {S} : ObjectClient (store S) S := {|
  obj_get s k := match find k (st_live s) with Some o => Ok o | None => Err NotFound end;
  obj_list s sel := Ok (List.filter (selected sel) (st_cache s));
  obj_create s o := match find (fm_Key (ob_Meta o)) (st_live s) with
                    | Some _ => (s, Some AlreadyExists)
                    | None => (mkStore (st_cache s) (written o :: st_live s), None)
                    end;
  obj_update s o := match find (fm_Key (ob_Meta o)) (st_live s) with
                    | Some _ => (mkStore (st_cache s) (written o :: st_live s), None)
                    | None => (s, Some NotFound)
                    end;
  obj_delete s k := match find k (st_live s) with
                    | Some _ => (mkStore (st_cache s)
                                   (List.filter (fun o => negb (bool_decide (fm_Key (ob_Meta o) = k))) (st_live s)), None)
                    | None => (s, Some NotFound)
                    end
|}.

Lemma find_written {S} (o : object S) l : find (fm_Key (ob_Meta o)) (written o :: l) = Some (written o).
Proof. unfold find. cbn. by rewrite bool_decide_eq_true_2. Qed.

#[export] Instance laws {S} : ObjectLaws (store S) S.
Proof.
  split; cbn [obj_get obj_create obj_update client].
  - intros w k o. unfold find. destruct (List.find _ (st_live w)) as [x|] eqn:E; [|done].
    intros [= <-]. apply List.find_some in E as [_ E]. by apply bool_decide_eq_true in E.
  - intros w o w'. destruct (find _ (st_live w)); [done|]. intros [= <-]. exists "1". cbn [st_live].
    by rewrite find_written.
  - intros w o w'. destruct (find _ (st_live w)); [|done]. intros [= <-]. exists "1". cbn [st_live].
    by rewrite find_written.
Qed.

Definition labelled (n : string) : object nat :=
  mkObject (mkFullMeta (mkNN "kyma-system" n) "" (Some {["app" := "gw"]}) None []) 0%nat.
Definition daemonset (restarted : option string) : object (workload nat) :=
  mkObject (mkFullMeta (mkNN "kyma-system" "gw") "" (Some {["app" := "gw"]}) None [])
    (mkWorkload ((fun t => {["istio-operator.kyma-project.io/restartedAt" := t]}) <$> restarted) 7%nat).
End ObjStore.
#[local] Existing Instance ObjStore.client.
#[local] Existing Instance ObjStore.laws.

Lemma workload_write_applies_witness :
  exists after : object (workload nat),
    default ∅ (wl_PodAnnotations (ob_Content after)) !! "istio-operator.kyma-project.io/restartedAt" = Some "t".
Proof.
  set (w := ObjStore.mkStore [] [ObjStore.daemonset (Some "t")]).
  destruct (CreateOrUpdateDaemonSet w (ObjStore.daemonset None)) as [w' [e|]] eqn:Hw; [done|].
  destruct (workload_write_applies w w' (ObjStore.daemonset None) Hw) as (after & _ & _ & _ & _ & Hk).
  exists after. apply (Hk (ObjStore.daemonset (Some "t"))); reflexivity.
Defined.

Lemma delete_by_label_stops_witness :
  let w := ObjStore.mkStore [ObjStore.labelled "a"; ObjStore.labelled "b"] [ObjStore.labelled "b"] in
  DeleteObjectsByLabelSelector w {["app" := "gw"]} = (w, None) /\
  obj_get w (mkNN "kyma-system" "b") = Ok (ObjStore.labelled "b").
Proof.
  intros w. split; [|reflexivity].
  apply (delete_by_label_stops w w {["app" := "gw"]} (ObjStore.labelled "a") [ObjStore.labelled "b"]); vm_compute; reflexivity.
Defined.
