(* ===== verification/TelemetryUtils.v ===== *)
(** * Settings of the Telemetry resource (internal/utils/telemetry/utils.go and
    internal/utils/k8s/cluster_info_getter.go)

    The settings that the reconcilers read from the default Telemetry resource, the
    Gardener ConfigMap and the kube-system namespace, with their defaults. Durations are
    nanoseconds. *)
From stdpp Require Import base gmap strings list.
From S2P Require Import Prelude Kube GoErrors ApiOperator CollectorProcessors.
Local Open Scope string_scope.

(** [client.Get] on Telemetry resources and on the UIDs of namespaces. *)
Class TelemetryReader (W : Type) := {
  tel_get : W -> NamespacedName -> result Telemetry apierror;
  namespace_uid : W -> string -> result string apierror
}.

(** ** Collection intervals *)

Definition defaultCollectionInterval : Z := 30 * 1000000000.

Record MetricCollectionIntervals := mkIntervals { ci_Runtime : Z; ci_Prometheus : Z; ci_Istio : Z }.

Definition Max (mci : MetricCollectionIntervals) : Z :=
  Z.max (Z.max (ci_Runtime mci) (ci_Prometheus mci)) (ci_Istio mci).

Definition ResolveMetricCollectionIntervals (metricSpec : option MetricSpec) : MetricCollectionIntervals :=
  let globalInterval :=
    match metricSpec ≫= ms_CollectionInterval with
    | Some d => d
    | None => defaultCollectionInterval
    end in
  let interval (input : MetricSpec -> option MetricInputSpec) :=
    match metricSpec ≫= input with
    | Some i => match mis_CollectionInterval i with Some d => d | None => globalInterval end
    | None => globalInterval
    end in
  mkIntervals (interval ms_Runtime) (interval ms_Prometheus) (interval ms_Istio).

(** ** Cluster information *)

Definition defaultClusterName : string := "${KUBERNETES_SERVICE_HOST}".
Definition gardenerCloudProviderAttributeName : string := "provider".
Definition CloudProviderOpenStack : string := "openstack".
Definition CloudProviderSAPConvergedCloud : string := "sap".
Definition defaultGardenerShootInfoCM : NamespacedName := mkNN "kube-system" "shoot-info".

Record ClusterInfo := mkClusterInfo { ci_ClusterName : string; ci_CloudProvider : string }.

Definition DefaultTelemetry : string := "default".

Definition AnnotationKeyEnableVPA : string := "telemetry.kyma-project.io/enable-vpa".
Definition AnnotationValueFalse : string := "false".

Section Settings.
Context {W : Type} `{TelemetryReader W} `{ConfigMapClient W}.

Definition GetGardenerShootInfo (w : W) : ClusterInfo :=
  match cm_get w defaultGardenerShootInfoCM with
  | Err _ => mkClusterInfo defaultClusterName ""
  | Ok shootInfo =>
      let cloudProvider := default "" (default ∅ (cm_Data shootInfo) !! gardenerCloudProviderAttributeName) in
      let cloudProvider :=
        if str_eqb cloudProvider CloudProviderOpenStack then CloudProviderSAPConvergedCloud else cloudProvider in
      mkClusterInfo defaultClusterName cloudProvider
  end.

Definition GetClusterUID (w : W) : result string apierror := namespace_uid w "kube-system".

Definition GetDefaultTelemetryInstance (w : W) (namespace : string) : result Telemetry apierror :=
  tel_get w (mkNN namespace DefaultTelemetry).

Definition GetClusterNameFromTelemetry (w : W) (namespace : string) : string :=
  let defaultClusterName := ci_ClusterName (GetGardenerShootInfo w) in
  match GetDefaultTelemetryInstance w namespace with
  | Err _ => defaultClusterName
  | Ok telemetry =>
      match tes_Enrichments (tel_Spec telemetry) ≫= en_Cluster with
      | Some cluster => if negb (str_eqb (cl_Name cluster) "") then cl_Name cluster else defaultClusterName
      | None => defaultClusterName
      end
  end.

Definition GetServiceEnrichmentFromTelemetryOrDefault (w : W) (namespace : string) : string :=
  match GetDefaultTelemetryInstance w namespace with
  | Err _ => AnnotationValueTelemetryServiceEnrichmentDefault
  | Ok telemetry =>
      match default ∅ (om_Annotations (tel_ObjectMeta telemetry)) !! AnnotationKeyTelemetryServiceEnrichment with
      | Some value =>
          if str_eqb value AnnotationValueTelemetryServiceEnrichmentKymaLegacy
             || str_eqb value AnnotationValueTelemetryServiceEnrichmentOtel
          then value else AnnotationValueTelemetryServiceEnrichmentDefault
      | None => AnnotationValueTelemetryServiceEnrichmentDefault
      end
  end.

Definition IsVpaEnabledInTelemetry (w : W) (telemetryNamespace : string) : bool :=
  match GetDefaultTelemetryInstance w telemetryNamespace with
  | Err _ => true
  | Ok telemetry =>
      match default ∅ (om_Annotations (tel_ObjectMeta telemetry)) !! AnnotationKeyEnableVPA with
      | Some value => negb (str_eqb value AnnotationValueFalse)
      | None => true
      end
  end.

End Settings.

(** ** Properties *)

(** The interval of an input: its own, else the general one, else thirty seconds. *)
Lemma intervals_precedence spec :
  let ci := ResolveMetricCollectionIntervals spec in
  let general := default defaultCollectionInterval (spec ≫= ms_CollectionInterval) in
  ci_Runtime ci = default general ((spec ≫= ms_Runtime) ≫= mis_CollectionInterval) /\
  ci_Prometheus ci = default general ((spec ≫= ms_Prometheus) ≫= mis_CollectionInterval) /\
  ci_Istio ci = default general ((spec ≫= ms_Istio) ≫= mis_CollectionInterval).
Proof.
  destruct spec as [s|]; cbn; [|done].
  destruct (ms_Runtime s) as [r|], (ms_Prometheus s) as [p|], (ms_Istio s) as [i|]; cbn;
    repeat match goal with |- context [mis_CollectionInterval ?x] => destruct (mis_CollectionInterval x) end;
    cbn; destruct (ms_CollectionInterval s); done.
Qed.

(** The largest interval bounds each of them and is one of them. *)
Lemma Max_spec ci :
  (ci_Runtime ci <= Max ci /\ ci_Prometheus ci <= Max ci /\ ci_Istio ci <= Max ci)%Z /\
  (Max ci = ci_Runtime ci \/ Max ci = ci_Prometheus ci \/ Max ci = ci_Istio ci).
Proof. unfold Max. lia. Qed.
