(* ===== verification/MetricAgentConfig.v ===== *)
(** * The configuration of the metric agent (internal/otelcollector/config/metricagent)

    config_builder.go. The agent collects runtime, Prometheus and Istio metrics in one
    input pipeline each; a routing connector sends a metric either to the enrichment
    pipeline or, when it must not be enriched, directly to the output pipelines of the
    MetricPipelines that ask for the input. The enrichment pipeline ends in another
    routing connector. As in the gateway, the pipelines that belong to no MetricPipeline
    are built with a nil pointer. *)
From stdpp Require Import base gmap strings list pretty.
From S2P Require Import Prelude Kube GoErrors.
From S2P Require Import ApiV1beta1 ApiOperator SecretRef MetricInputs MetricAgentTypes.
From S2P Require Import CollectorTypes CollectorBuilder CollectorProcessors CollectorExporter.
From S2P Require Import GatewayConfig TelemetryUtils MetricAgentReceivers.
Local Open Scope string_scope.

Module MetricAgent.

Definition maxStalenessMultiplier : Z := 4.
Definition enrichmentServicePipelineID : string := "metrics/enrichment-conditional".
Definition diagnosticMetricNames : list string :=
  ["up"; "scrape_duration_seconds"; "scrape_samples_scraped"; "scrape_samples_post_metric_relabeling";
   "scrape_series_added"].

Record BuildOptions := mkBuildOptions {
  bo_Cluster : ClusterOptions;
  bo_IstioActive : bool;
  bo_IstioCertPath : string;
  bo_InstrumentationScopeVersion : string;
  bo_AgentNamespace : string;
  bo_Enrichments : option EnrichmentSpec;
  bo_ServiceEnrichment : string;
  bo_VpaActive : bool;
  bo_CollectionIntervals : MetricCollectionIntervals
}.

Record inputSources := mkInputSources {
  is_runtime : bool;
  is_runtimeResources : runtimeResourceSources;
  is_prometheus : bool;
  is_istio : bool;
  is_envoy : bool
}.

Definition otel_enrichment (opts : BuildOptions) : bool :=
  str_eqb (bo_ServiceEnrichment opts) AnnotationValueTelemetryServiceEnrichmentOtel.

Definition input_of (mp : MetricPipeline) : MetricPipelineInput := ms_Input (mp_Spec mp).

(** ** Identifiers *)

Definition formatOutputMetricServicePipelineID (mp : MetricPipeline) : string := "metrics/output-" +:+ metric_name mp.
Definition formatOutputPipelineIDs (pipelines : list MetricPipeline) : list string :=
  map (fun mp => "metrics/output-" +:+ metric_name mp) pipelines.
Definition formatOTLPExporterID : ComponentIDFunc MP :=
  fun mp => mp ← mp; o ← metric_output mp; Some (ComponentIDOTLPExporter (oo_Protocol o) (MetricPipelineRef mp)).
Definition formatNamespaceFilterID (pipelineName : string) (inputSourceType : InputSourceType) : ComponentID :=
  ComponentIDNamespacePerInputFilterProcessor pipelineName inputSourceType.
Definition formatUserDefinedTransformProcessorID : ComponentIDFunc MP :=
  fun mp => mp ← mp; Some (ComponentIDUserDefinedTransformProcessor (MetricPipelineRef mp)).
Definition formatUserDefinedFilterProcessorID : ComponentIDFunc MP :=
  fun mp => mp ← mp; Some (ComponentIDUserDefinedFilterProcessor (MetricPipelineRef mp)).

(** ** What is enabled *)

Definition getPipelinesWithRuntimeInput : list MetricPipeline -> list MetricPipeline :=
  List.filter (fun mp => IsRuntimeInputEnabled (input_of mp)).
Definition getPipelinesWithPrometheusInput : list MetricPipeline -> list MetricPipeline :=
  List.filter (fun mp => IsPrometheusInputEnabled (input_of mp)).
Definition getPipelinesWithIstioInput : list MetricPipeline -> list MetricPipeline :=
  List.filter (fun mp => IsIstioInputEnabled (input_of mp)).

(** [IsRuntimeInputEnabled(input) && f(input)], where [f] dereferences the runtime input. *)
Definition runtime_and (f : MetricPipelineRuntimeInput -> bool) (mp : MetricPipeline) : bool :=
  IsRuntimeInputEnabled (input_of mp) && match mi_Runtime (input_of mp) with Some r => f r | None => false end.

Definition shouldEnableRuntimeMetricsScraping : list MetricPipeline -> bool :=
  existsb (fun mp => IsRuntimeInputEnabled (input_of mp)).
Definition shouldEnableRuntimePodMetricsScraping := existsb (runtime_and IsRuntimePodInputEnabled).
Definition shouldEnableRuntimeContainerMetricsScraping := existsb (runtime_and IsRuntimeContainerInputEnabled).
Definition shouldEnableRuntimeNodeMetricsScraping := existsb (runtime_and IsRuntimeNodeInputEnabled).
Definition shouldEnableRuntimeVolumeMetricsScraping := existsb (runtime_and IsRuntimeVolumeInputEnabled).
Definition shouldEnableRuntimeStatefulSetMetricsScraping := existsb (runtime_and IsRuntimeStatefulSetInputEnabled).
Definition shouldEnableRuntimeDeploymentMetricsScraping := existsb (runtime_and IsRuntimeDeploymentInputEnabled).
Definition shouldEnableRuntimeDaemonSetMetricsScraping := existsb (runtime_and IsRuntimeDaemonSetInputEnabled).
Definition shouldEnableRuntimeJobMetricsScraping := existsb (runtime_and IsRuntimeJobInputEnabled).
Definition shouldEnablePrometheusMetricsScraping : list MetricPipeline -> bool :=
  existsb (fun mp => IsPrometheusInputEnabled (input_of mp)).
Definition shouldEnableIstioMetricsScraping : list MetricPipeline -> bool :=
  existsb (fun mp => IsIstioInputEnabled (input_of mp)).
Definition shouldEnableEnvoyMetricsScraping : list MetricPipeline -> bool :=
  existsb (fun mp => IsIstioInputEnabled (input_of mp)
                     && match mi_Istio (input_of mp) with Some i => IsEnvoyMetricsEnabled i | None => false end).

Definition input_sources (pipelines : list MetricPipeline) : inputSources :=
  mkInputSources (shouldEnableRuntimeMetricsScraping pipelines)
    (mkRuntimeResources (shouldEnableRuntimePodMetricsScraping pipelines)
       (shouldEnableRuntimeContainerMetricsScraping pipelines) (shouldEnableRuntimeNodeMetricsScraping pipelines)
       (shouldEnableRuntimeVolumeMetricsScraping pipelines) (shouldEnableRuntimeStatefulSetMetricsScraping pipelines)
       (shouldEnableRuntimeDeploymentMetricsScraping pipelines)
       (shouldEnableRuntimeDaemonSetMetricsScraping pipelines) (shouldEnableRuntimeJobMetricsScraping pipelines))
    (shouldEnablePrometheusMetricsScraping pipelines) (shouldEnableIstioMetricsScraping pipelines)
    (shouldEnableEnvoyMetricsScraping pipelines).

(** ** Conditions *)

Definition nameConditions (names : list string) : list string := map MetricNameAttributeEquals names.

Definition metricNameConditionsWithIsMatch (metrics : list string) : list string :=
  map (fun m => IsMatch "metric.name" ("^k8s." +:+ m +:+ ".*")) metrics.

Definition metric_filter (conditions : list string) : FilterProcessorConfig :=
  MetricFilterProcessor (Some [mkFilterSpec (Some conditions)]).

Definition dropServiceNameProcessor : TransformProcessorConfig :=
  MetricTransformProcessor
    [mkStatements (Some ["delete_key(resource.attributes, " +:+ quoted "service.name" +:+ ")"]) None].

Definition insertSkipEnrichmentAttributeProcessor : TransformProcessorConfig :=
  MetricTransformProcessor
    [mkStatements
       (Some ["set(resource.attributes[" +:+ quoted SkipEnrichmentAttribute +:+ "], " +:+ quoted "true" +:+ ")"])
       (Some (metricNameConditionsWithIsMatch ["node"; "statefulset"; "daemonset"; "deployment"; "job"]))].

Definition dropNonPVCVolumesMetricsProcessor : FilterProcessorConfig :=
  metric_filter
    [JoinWithAnd [ResourceAttributeIsNotNil "k8s.volume.name";
                  JoinWithOr [ResourceAttributeEquals "k8s.volume.type" "configMap";
                              ResourceAttributeEquals "k8s.volume.type" "downwardAPI";
                              ResourceAttributeEquals "k8s.volume.type" "emptyDir";
                              ResourceAttributeEquals "k8s.volume.type" "secret"]]].

Definition dropVirtualNetworkInterfacesProcessor : FilterProcessorConfig :=
  metric_filter
    [JoinWithAnd [IsMatch "metric.name" "^k8s.node.network.*";
                  Not (IsMatch ("datapoint.attributes[" +:+ quoted "interface" +:+ "]") "^(eth|en).*")]].

Definition dropDiagnosticMetricsFilterProcessor (inputSource : InputSourceType) : FilterProcessorConfig :=
  metric_filter [JoinWithAnd [KymaInputNameEquals inputSource; JoinWithOr (nameConditions diagnosticMetricNames)]].

Definition filterByNamespaceProcessor (s : NamespaceSelector) (inputSourceCondition : string) : FilterProcessorConfig :=
  let exclude :=
    if (0 <? slen (ns_Exclude s))%nat
    then [JoinWithAnd [inputSourceCondition; JoinWithOr (namespacesConditions (elems (ns_Exclude s)))]] else [] in
  let include :=
    if (0 <? slen (ns_Include s))%nat
    then [JoinWithAnd [inputSourceCondition; ResourceAttributeIsNotNil K8sNamespaceName;
                       Not (JoinWithOr (namespacesConditions (elems (ns_Include s))))]] else [] in
  MetricFilterProcessor (Some [mkFilterSpec (snil (Some (exclude ++ include)%list))]).

(** ** Routing *)

Definition enrichmentRoutingConnectorTableEntry (pipelines : list MetricPipeline) (routingCondition : string) :
    RoutingConnectorTableEntry :=
  mkRoutingEntry ("route() where " +:+ routingCondition) (formatOutputPipelineIDs pipelines) "metric".

Definition enrichment_entry (pipelines : list MetricPipeline) (inputSource : InputSourceType) :
    list RoutingConnectorTableEntry :=
  if (0 <? length pipelines)%nat
  then [enrichmentRoutingConnectorTableEntry pipelines (KymaInputNameEquals inputSource)] else [].

Definition enrichmentRoutingConnector (runtimePipelines prometheusPipelines istioPipelines : list MetricPipeline) :
    RoutingConnectorConfig :=
  mkRouting [] "ignore"
    (enrichment_entry runtimePipelines InputSourceRuntime
     ++ enrichment_entry prometheusPipelines InputSourcePrometheus
     ++ enrichment_entry istioPipelines InputSourceIstio)%list.

Definition skip_statement : string :=
  "route() where attributes[" +:+ quoted SkipEnrichmentAttribute +:+ "] == " +:+ quoted "true".

Definition inputRoutingConnector (outputPipelineIDs : list string) : RoutingConnectorConfig :=
  mkRouting [enrichmentServicePipelineID] "ignore" [mkRoutingEntry skip_statement outputPipelineIDs ""].

Section Builder.
Context `{SecretReader} `{URLOps}.

(** ** Receivers *)

Definition addK8sClusterReceiver (r : runtimeResourceSources) (additional : list string) (collectionInterval : Z) :
    BuildComponentFunc MP :=
  AddReceiver (StaticComponentID ComponentIDK8sClusterReceiver)
    (fun _ => c ← k8sClusterReceiver r additional collectionInterval; Some (Some (CK8sCluster c))).
Definition addKubeletStatsReceiver (r : runtimeResourceSources) (additional : list string) (collectionInterval : Z) :
    BuildComponentFunc MP :=
  AddReceiver (StaticComponentID ComponentIDKubeletStatsReceiver)
    (fun _ => c ← kubeletStatsReceiver r additional collectionInterval; Some (Some (CKubeletStats c))).
Definition addPrometheusAppPodsReceiver (collectionInterval : Z) : BuildComponentFunc MP :=
  AddReceiver (StaticComponentID ComponentIDPrometheusAppPodsReceiver)
    (const_config (Some (CPrometheus (prometheusPodsReceiverConfig collectionInterval)))).
Definition addPrometheusAppServicesReceiver (opts : BuildOptions) (collectionInterval : Z) : BuildComponentFunc MP :=
  AddReceiver (StaticComponentID ComponentIDPrometheusAppServicesReceiver)
    (const_config (Some (CPrometheus
       (prometheusServicesReceiverConfig (bo_IstioActive opts) (bo_IstioCertPath opts) collectionInterval)))).
Definition addPrometheusIstioReceiver (envoyMetricsEnabled : bool) (collectionInterval : Z) : BuildComponentFunc MP :=
  AddReceiver (StaticComponentID ComponentIDPrometheusIstioReceiver)
    (const_config (Some (CPrometheus (prometheusIstioReceiverConfig envoyMetricsEnabled collectionInterval)))).

(** ** Input processors *)

(** A processor that does not depend on the pipeline. *)
Definition static_processor (id : ComponentID) (c : option component) : BuildComponentFunc MP :=
  AddProcessor (StaticComponentID id) (const_config c).

Definition addMemoryLimiterProcessor : BuildComponentFunc MP :=
  static_processor ComponentIDMemoryLimiterProcessor (Some (CMemoryLimiter (mkMemoryLimiter "1s" 75 15))).
Definition addFilterDropNonPVCVolumesMetricsProcessor (r : runtimeResourceSources) : BuildComponentFunc MP :=
  static_processor ComponentIDFilterDropNonPVCVolumesMetricsProcessor
    (if negb (rrs_volume r) then None else Some (CFilter dropNonPVCVolumesMetricsProcessor)).
Definition addFilterDropVirtualNetworkInterfacesProcessor : BuildComponentFunc MP :=
  static_processor ComponentIDFilterDropVirtualNetworkInterfacesProcessor
    (Some (CFilter dropVirtualNetworkInterfacesProcessor)).
Definition addDropServiceNameProcessor : BuildComponentFunc MP :=
  static_processor ComponentIDDropServiceNameProcessor (Some (CTransform dropServiceNameProcessor)).
Definition addSetInstrumentationScopeToRuntimeProcessor (opts : BuildOptions) : BuildComponentFunc MP :=
  static_processor ComponentIDSetInstrumentationScopeRuntimeProcessor
    (Some (CTransform (InstrumentationScopeProcessor (bo_InstrumentationScopeVersion opts)
       [InputSourceRuntime; InputSourceK8sCluster]))).
Definition addSetInstrumentationScopeToPrometheusProcessor (opts : BuildOptions) : BuildComponentFunc MP :=
  static_processor ComponentIDSetInstrumentationScopePrometheusProcessor
    (Some (CTransform (InstrumentationScopeProcessor (bo_InstrumentationScopeVersion opts) [InputSourcePrometheus]))).
Definition addSetInstrumentationScopeToIstioProcessor (opts : BuildOptions) : BuildComponentFunc MP :=
  static_processor ComponentIDSetInstrumentationScopeIstioProcessor
    (Some (CTransform (InstrumentationScopeProcessor (bo_InstrumentationScopeVersion opts) [InputSourceIstio]))).
Definition addSetKymaInputNameProcessor (inputSource : InputSourceType) : BuildComponentFunc MP :=
  static_processor (lookup_text inputSource InputName)
    (Some (CTransform (MetricTransformProcessor (KymaInputNameProcessorStatements inputSource)))).
Definition addInsertSkipEnrichmentAttributeProcessor : BuildComponentFunc MP :=
  static_processor ComponentIDInsertSkipEnrichmentAttributeProcessor
    (Some (CTransform insertSkipEnrichmentAttributeProcessor)).
Definition addIstioNoiseFilterProcessor : BuildComponentFunc MP :=
  static_processor ComponentIDIstioNoiseFilterProcessor (Some (CIstioNoiseFilter mkIstioNoiseFilter)).

(** ** Enrichment processors *)

Definition addDropUnknownServiceNameProcessor (opts : BuildOptions) : BuildComponentFunc MP :=
  static_processor ComponentIDDropUnknownServiceNameProcessor
    (if negb (otel_enrichment opts) then None
     else Some (CTransform (MetricTransformProcessor DropUnknownServiceNameProcessorStatements))).
Definition addK8sAttributesProcessor (opts : BuildOptions) : BuildComponentFunc MP :=
  static_processor ComponentIDK8sAttributesProcessor
    (Some (CK8sAttributes (K8sAttributesProcessor (bo_Enrichments opts) (otel_enrichment opts)))).
Definition addRestoreOtelServiceAttrsProcessor (opts : BuildOptions) : BuildComponentFunc MP :=
  static_processor ComponentIDRestoreOtelServiceAttrsProcessor
    (if negb (otel_enrichment opts) then None
     else Some (CTransform (MetricTransformProcessor RestoreOtelServiceAnnotationsProcessorStatements))).
Definition addServiceEnrichmentProcessor (opts : BuildOptions) : BuildComponentFunc MP :=
  static_processor ComponentIDServiceEnrichmentProcessor
    (if otel_enrichment opts then None else Some (CServiceEnrichment ResolveServiceName)).

(** ** Resource processors *)

Definition addInsertClusterAttributesProcessor (opts : BuildOptions) : BuildComponentFunc MP :=
  static_processor ComponentIDInsertClusterAttributesProcessor
    (Some (CTransform (MetricTransformProcessor (InsertClusterAttributesProcessorStatements (bo_Cluster opts))))).
Definition addDropSkipEnrichmentAttributeProcessor : BuildComponentFunc MP :=
  static_processor ComponentIDDropSkipEnrichmentAttributeProcessor
    (Some (CTransform (MetricTransformProcessor
       [mkStatements (Some ["delete_key(resource.attributes, "
                              +:+ quoted "io.kyma-project.telemetry.skip_enrichment" +:+ ")"]) None]))).
Definition addDropKymaAttributesProcessor : BuildComponentFunc MP :=
  static_processor ComponentIDDropKymaAttributesProcessor
    (Some (CTransform (MetricTransformProcessor DropKymaAttributesProcessorStatements))).
Definition addUserDefinedTransformProcessor : BuildComponentFunc MP :=
  AddProcessor formatUserDefinedTransformProcessorID
    (fun mp => mp ← mp;
       let transforms := ms_Transforms (mp_Spec mp) in
       Some (if (slen transforms =? 0)%nat then None
             else Some (CTransform (MetricTransformProcessor (TransformSpecsToProcessorStatements transforms))))).
Definition addUserDefinedFilterProcessor : BuildComponentFunc MP :=
  AddProcessor formatUserDefinedFilterProcessorID
    (fun mp => mp ← mp;
       let filters := ms_Filters (mp_Spec mp) in
       Some (if is_nil filters then None else Some (CFilter (MetricFilterProcessor filters)))).

(** ** Namespace filters *)

(** The filter of one input; [namespaces] dereferences the input, which is enabled. *)
Definition namespace_filter (source : InputSourceType) (enabled : MetricPipelineInput -> bool)
    (namespaces : MetricPipelineInput -> option (option NamespaceSelector)) (condition : string) :
    BuildComponentFunc MP :=
  AddProcessor (fun mp => mp ← mp; Some (formatNamespaceFilterID (metric_name mp) source))
    (fun mp => mp ← mp;
       if negb (enabled (input_of mp)) then Some None
       else
         selector ← namespaces (input_of mp);
         Some (if negb (shouldFilterByNamespace selector) then None
               else (fun s => CFilter (filterByNamespaceProcessor s condition)) <$> selector)).

Definition addRuntimeNamespaceFilterProcessor : BuildComponentFunc MP :=
  namespace_filter InputSourceRuntime IsRuntimeInputEnabled (fun i => mri_Namespaces <$> mi_Runtime i)
    (KymaInputNameEquals InputSourceRuntime).
Definition addPrometheusNamespaceFilterProcessor : BuildComponentFunc MP :=
  namespace_filter InputSourcePrometheus IsPrometheusInputEnabled (fun i => pi_Namespaces <$> mi_Prometheus i)
    (ResourceAttributeEquals KymaInputNameAttribute KymaInputPrometheus).
Definition addIstioNamespaceFilterProcessor : BuildComponentFunc MP :=
  namespace_filter InputSourceIstio IsIstioInputEnabled (fun i => ii_Namespaces <$> mi_Istio i)
    (KymaInputNameEquals InputSourceIstio).

(** ** Runtime resource filters *)

Definition drop_resource_conditions (pattern : metricPattern) (runtime : MetricPipelineRuntimeInput) : list string :=
  let additional := getRuntimeAdditionalResourceMetrics (elems (mri_AdditionalMetrics runtime)) pattern in
  ([KymaInputNameEquals InputSourceRuntime; IsMatch "metric.name" (pt_Text pattern)]
   ++ (if (0 <? length additional)%nat then [Not (JoinWithOr (nameConditions additional))] else []))%list.

(** The common text of the eight processors. *)
Definition drop_runtime_metrics (id : ComponentID) (pattern : metricPattern)
    (enabled : MetricPipelineRuntimeInput -> bool) (pipelineName : string) : BuildComponentFunc MP :=
  AddProcessor (StaticComponentID (id +:+ "-" +:+ pipelineName))
    (fun mp => mp ← mp;
       if negb (IsRuntimeInputEnabled (input_of mp)) then Some None
       else
         runtime ← mi_Runtime (input_of mp);
         Some (if enabled runtime then None
               else Some (CFilter (metric_filter [JoinWithAnd (drop_resource_conditions pattern runtime)])))).

Definition addDropRuntimePodMetricsProcessor :=
  drop_runtime_metrics ComponentIDDropRuntimePodMetricsProcessor podMetricPattern IsRuntimePodInputEnabled.
Definition addDropRuntimeContainerMetricsProcessor :=
  drop_runtime_metrics ComponentIDDropRuntimeContainerMetricsProcessor containerMetricPattern
    IsRuntimeContainerInputEnabled.
Definition addDropRuntimeNodeMetricsProcessor :=
  drop_runtime_metrics ComponentIDDropRuntimeNodeMetricsProcessor nodeMetricPattern IsRuntimeNodeInputEnabled.
Definition addDropRuntimeVolumeMetricsProcessor :=
  drop_runtime_metrics ComponentIDDropRuntimeVolumeMetricsProcessor volumeMetricPattern IsRuntimeVolumeInputEnabled.
Definition addDropRuntimeDeploymentMetricsProcessor :=
  drop_runtime_metrics ComponentIDDropRuntimeDeploymentMetricsProcessor deploymentMetricPattern
    IsRuntimeDeploymentInputEnabled.
Definition addDropRuntimeDaemonSetMetricsProcessor :=
  drop_runtime_metrics ComponentIDDropRuntimeDaemonSetMetricsProcessor daemonsetMetricPattern
    IsRuntimeDaemonSetInputEnabled.
Definition addDropRuntimeStatefulSetMetricsProcessor :=
  drop_runtime_metrics ComponentIDDropRuntimeStatefulSetMetricsProcessor statefulsetMetricPattern
    IsRuntimeStatefulSetInputEnabled.
Definition addDropRuntimeJobMetricsProcessor :=
  drop_runtime_metrics ComponentIDDropRuntimeJobMetricsProcessor jobMetricPattern IsRuntimeJobInputEnabled.

Definition excluded_metrics (r : MetricPipelineRuntimeInput) : list string :=
  ((if IsRuntimePodInputEnabled r then k8sClusterReceiverPodMetrics ++ kubeletStatsReceiverPodMetrics else [])
   ++ (if IsRuntimeContainerInputEnabled r
       then k8sClusterReceiverContainerMetrics ++ kubeletStatsReceiverContainerMetrics else [])
   ++ (if IsRuntimeNodeInputEnabled r then kubeletStatsReceiverNodeMetrics else [])
   ++ (if IsRuntimeVolumeInputEnabled r then kubeletStatsReceiverVolumeMetrics else [])
   ++ (if IsRuntimeDeploymentInputEnabled r then k8sClusterReceiverDeploymentMetrics else [])
   ++ (if IsRuntimeDaemonSetInputEnabled r then k8sClusterReceiverDaemonSetMetrics else [])
   ++ (if IsRuntimeStatefulSetInputEnabled r then k8sClusterReceiverStatefulSetMetrics else [])
   ++ (if IsRuntimeJobInputEnabled r then k8sClusterReceiverJobMetrics else []))%list.

Definition additionalMetricsToDrop (allAdditionalMetrics pipelineAdditionalMetrics : list string)
    (r : MetricPipelineRuntimeInput) : list string :=
  let excludedMetrics := (pipelineAdditionalMetrics ++ excluded_metrics r)%list in
  List.filter (fun m => negb (contains excludedMetrics m)) allAdditionalMetrics.

Definition addDropAdditionalRuntimeMetricsProcessor (allAdditionalMetrics : list string) (pipelineName : string) :
    BuildComponentFunc MP :=
  AddProcessor (StaticComponentID (ComponentIDDropRuntimeAdditionalMetricsProcessor +:+ "-" +:+ pipelineName))
    (fun mp => mp ← mp;
       if negb (IsRuntimeInputEnabled (input_of mp)) || (length allAdditionalMetrics =? 0)%nat then Some None
       else
         runtime ← mi_Runtime (input_of mp);
         let toDrop := additionalMetricsToDrop allAdditionalMetrics (elems (mri_AdditionalMetrics runtime)) runtime in
         Some (if (length toDrop =? 0)%nat then None
               else Some (CFilter (metric_filter
                      [JoinWithAnd [KymaInputNameEquals InputSourceRuntime; JoinWithOr (nameConditions toDrop)]])))).

(** ** Diagnostic and Envoy metrics *)

Definition addDropPrometheusDiagnosticMetricsProcessor : BuildComponentFunc MP :=
  AddProcessor (StaticComponentID ComponentIDDropPrometheusDiagnosticMetricsProcessor)
    (fun mp => mp ← mp;
       if negb (IsPrometheusInputEnabled (input_of mp)) then Some None
       else
         prometheus ← mi_Prometheus (input_of mp);
         Some (if IsPrometheusDiagnosticInputEnabled prometheus then None
               else Some (CFilter (dropDiagnosticMetricsFilterProcessor InputSourcePrometheus)))).
Definition addDropIstioDiagnosticMetricsProcessor : BuildComponentFunc MP :=
  AddProcessor (StaticComponentID ComponentIDDropIstioDiagnosticMetricsProcessor)
    (fun mp => mp ← mp;
       if negb (IsIstioInputEnabled (input_of mp)) then Some None
       else
         istio ← mi_Istio (input_of mp);
         Some (if IsIstioDiagnosticInputEnabled istio then None
               else Some (CFilter (dropDiagnosticMetricsFilterProcessor InputSourceIstio)))).
Definition addDropEnvoyMetricsIfDisabledProcessor : BuildComponentFunc MP :=
  AddProcessor (StaticComponentID ComponentIDDropEnvoyMetricsIfDisabledProcessor)
    (fun mp => mp ← mp;
       Some (if IsIstioInputEnabled (input_of mp)
                && match mi_Istio (input_of mp) with Some i => IsEnvoyMetricsEnabled i | None => false end
             then None
             else Some (CFilter (metric_filter
                    [JoinWithAnd [IsMatch "metric.name" "^envoy_.*"; KymaInputNameEquals InputSourceIstio]])))).

Definition addCumulativeToDeltaProcessor (opts : BuildOptions) : BuildComponentFunc MP :=
  AddProcessor (StaticComponentID ComponentIDCumulativeToDeltaProcessor)
    (fun mp => mp ← mp; delta ← IsDeltaTemporality (ms_Output (mp_Spec mp));
       Some (if (delta : bool)
             then Some (CCumulativeToDelta
                          (mkCumulativeToDelta (maxStalenessMultiplier * Max (bo_CollectionIntervals opts)) "auto"))
             else None)).
Definition addBatchProcessor : BuildComponentFunc MP :=
  static_processor ComponentIDBatchProcessor (Some (CBatch (mkBatchProcessor 1024 "10s" 1024))).

(** ** Exporters and connectors *)

Definition addOTLPExporter (queueSize : Z) : BuildComponentFunc MP :=
  AddExporter formatOTLPExporterID
    (fun mp => mp ← mp; o ← metric_output mp;
       OTLPExporter o (MetricPipelineRef mp) (NewSendingQueue queueSize [])).

Definition addExporterForInputRouter (componentID : ComponentID) (outputPipelines : list MetricPipeline) :
    BuildComponentFunc MP :=
  AddExporter (StaticComponentID componentID)
    (fun _ => Some (Ok (Some (CRouting (inputRoutingConnector (formatOutputPipelineIDs outputPipelines))), ∅))).
Definition addReceiverForInputRouter (componentID : ComponentID) (outputPipelines : list MetricPipeline)
    (inputEnabled : bool) : BuildComponentFunc MP :=
  AddReceiver (StaticComponentID componentID)
    (const_config (if negb inputEnabled then None
                   else Some (CRouting (inputRoutingConnector (formatOutputPipelineIDs outputPipelines))))).
Definition addExporterForEnrichmentRouter (runtime prometheus istio : list MetricPipeline) : BuildComponentFunc MP :=
  AddExporter (StaticComponentID ComponentIDEnrichmentRoutingConnector)
    (fun _ => Some (Ok (Some (CRouting (enrichmentRoutingConnector runtime prometheus istio)), ∅))).
Definition addReceiverForEnrichmentRouter (runtime prometheus istio : list MetricPipeline) : BuildComponentFunc MP :=
  AddReceiver (StaticComponentID ComponentIDEnrichmentRoutingConnector)
    (const_config (if (length runtime =? 0)%nat && (length prometheus =? 0)%nat && (length istio =? 0)%nat then None
                   else Some (CRouting (enrichmentRoutingConnector runtime prometheus istio)))).

(** ** Extensions *)

Definition shouldEnableOAuth2 (mp : MetricPipeline) : option bool :=
  o ← metric_output mp; Some (bool_decide (is_Some (oo_Authentication o ≫= ao_OAuth2))).
Definition addOAuth2Extension (mp : MetricPipeline) (b : builder) : outcome :=
  output ← metric_output mp; o ← oo_Authentication output ≫= ao_OAuth2;
  add_oauth2_extension (metric_name mp) o (MetricPipelineRef mp) b.

(** ** Build *)

(** What [Build] computes before it adds pipelines. *)
Record plan := mkPlan {
  pl_inputs : inputSources;
  pl_runtime : list MetricPipeline; pl_prometheus : list MetricPipeline; pl_istio : list MetricPipeline;
  pl_cluster : list string; pl_kubelet : list string;
  pl_queue : Z
}.

Definition plan_of (pipelines : list MetricPipeline) : plan :=
  let '(k8sClusterAdditionalMetrics, kubeletStatsAdditionalMetrics) := getRuntimeAdditionalMetrics pipelines in
  mkPlan (input_sources pipelines) (getPipelinesWithRuntimeInput pipelines)
    (getPipelinesWithPrometheusInput pipelines) (getPipelinesWithIstioInput pipelines)
    k8sClusterAdditionalMetrics kubeletStatsAdditionalMetrics (queue_size pipelines).

Definition runtime_input (opts : BuildOptions) (p : plan) : list (BuildComponentFunc MP) :=
  let interval := ci_Runtime (bo_CollectionIntervals opts) in
  [addKubeletStatsReceiver (is_runtimeResources (pl_inputs p)) (pl_kubelet p) interval;
   addK8sClusterReceiver (is_runtimeResources (pl_inputs p)) (pl_cluster p) interval;
   addMemoryLimiterProcessor;
   addFilterDropNonPVCVolumesMetricsProcessor (is_runtimeResources (pl_inputs p));
   addFilterDropVirtualNetworkInterfacesProcessor;
   addDropServiceNameProcessor;
   addInsertSkipEnrichmentAttributeProcessor;
   addSetInstrumentationScopeToRuntimeProcessor opts;
   addSetKymaInputNameProcessor InputSourceRuntime;
   addExporterForInputRouter ComponentIDRuntimeInputRoutingConnector (pl_runtime p)].

Definition prometheus_input (opts : BuildOptions) (p : plan) : list (BuildComponentFunc MP) :=
  let interval := ci_Prometheus (bo_CollectionIntervals opts) in
  [addPrometheusAppPodsReceiver interval;
   addPrometheusAppServicesReceiver opts interval;
   addMemoryLimiterProcessor;
   addDropServiceNameProcessor;
   addSetInstrumentationScopeToPrometheusProcessor opts;
   addSetKymaInputNameProcessor InputSourcePrometheus;
   addExporterForInputRouter ComponentIDPrometheusInputRoutingConnector (pl_prometheus p)].

Definition istio_input (opts : BuildOptions) (p : plan) : list (BuildComponentFunc MP) :=
  [addPrometheusIstioReceiver (is_envoy (pl_inputs p)) (ci_Istio (bo_CollectionIntervals opts));
   addMemoryLimiterProcessor;
   addDropServiceNameProcessor;
   addIstioNoiseFilterProcessor;
   addSetInstrumentationScopeToIstioProcessor opts;
   addSetKymaInputNameProcessor InputSourceIstio;
   addExporterForInputRouter ComponentIDIstioInputRoutingConnector (pl_istio p)].

Definition enrichment (opts : BuildOptions) (p : plan) : list (BuildComponentFunc MP) :=
  [addReceiverForInputRouter ComponentIDRuntimeInputRoutingConnector (pl_runtime p) (is_runtime (pl_inputs p));
   addReceiverForInputRouter ComponentIDPrometheusInputRoutingConnector (pl_prometheus p) (is_prometheus (pl_inputs p));
   addReceiverForInputRouter ComponentIDIstioInputRoutingConnector (pl_istio p) (is_istio (pl_inputs p));
   addDropUnknownServiceNameProcessor opts;
   addK8sAttributesProcessor opts;
   addRestoreOtelServiceAttrsProcessor opts;
   addServiceEnrichmentProcessor opts;
   addExporterForEnrichmentRouter (pl_runtime p) (pl_prometheus p) (pl_istio p)].

Definition output_components (opts : BuildOptions) (p : plan) (mp : MetricPipeline) : list (BuildComponentFunc MP) :=
  let name := metric_name mp in
  [addReceiverForEnrichmentRouter (pl_runtime p) (pl_prometheus p) (pl_istio p);
   addReceiverForInputRouter ComponentIDRuntimeInputRoutingConnector (pl_runtime p)
     (IsRuntimeInputEnabled (input_of mp));
   addReceiverForInputRouter ComponentIDPrometheusInputRoutingConnector (pl_prometheus p)
     (IsPrometheusInputEnabled (input_of mp));
   addReceiverForInputRouter ComponentIDIstioInputRoutingConnector (pl_istio p) (IsIstioInputEnabled (input_of mp));
   addDropRuntimePodMetricsProcessor name;
   addDropRuntimeContainerMetricsProcessor name;
   addDropRuntimeNodeMetricsProcessor name;
   addDropRuntimeVolumeMetricsProcessor name;
   addDropRuntimeDeploymentMetricsProcessor name;
   addDropRuntimeDaemonSetMetricsProcessor name;
   addDropRuntimeStatefulSetMetricsProcessor name;
   addDropRuntimeJobMetricsProcessor name;
   addDropAdditionalRuntimeMetricsProcessor (pl_cluster p ++ pl_kubelet p)%list name;
   addDropPrometheusDiagnosticMetricsProcessor;
   addDropIstioDiagnosticMetricsProcessor;
   addDropEnvoyMetricsIfDisabledProcessor;
   addRuntimeNamespaceFilterProcessor;
   addPrometheusNamespaceFilterProcessor;
   addIstioNamespaceFilterProcessor;
   addInsertClusterAttributesProcessor opts;
   addDropSkipEnrichmentAttributeProcessor;
   addDropKymaAttributesProcessor;
   addUserDefinedTransformProcessor;
   addUserDefinedFilterProcessor;
   addCumulativeToDeltaProcessor opts;
   addBatchProcessor;
   addOTLPExporter (pl_queue p)].

(** A pipeline of no MetricPipeline, when its input is enabled. *)
Definition shared_pipeline (enabled : bool) (what id : string) (fs : list (BuildComponentFunc MP)) (b : builder) :
    outcome :=
  if enabled
  then wrap_err ("failed to add " +:+ what +:+ " service pipeline: ") (AddServicePipeline (None : MP) id fs b)
  else Some (Ok b).

Definition build_output (opts : BuildOptions) (p : plan) (mp : MetricPipeline) (b : builder) : outcome :=
  enable ← shouldEnableOAuth2 mp;
  andThen (if (enable : bool) then addOAuth2Extension mp b else Some (Ok b)) (fun b =>
  wrap_err "failed to add enrichment service pipeline: "
    (AddServicePipeline (Some mp) (formatOutputMetricServicePipelineID mp) (output_components opts p mp) b)).

Definition Build (pipelines : list MetricPipeline) (opts : BuildOptions) : outcome :=
  let pipelines := sort_by_name metric_name pipelines in
  let b := AddExtension ComponentIDK8sLeaderElectorExtension
             (CLeaderElector (mkLeaderElector "serviceAccount" K8sLeaderElectorK8sCluster (bo_AgentNamespace opts)))
             ∅ (mkBuilder NewConfig ∅) in
  let p := plan_of pipelines in
  andThen (shared_pipeline (is_runtime (pl_inputs p)) "runtime" "metrics/input-runtime" (runtime_input opts p) b)
    (fun b =>
  andThen (shared_pipeline (is_prometheus (pl_inputs p)) "prometheus" "metrics/input-prometheus"
             (prometheus_input opts p) b) (fun b =>
  andThen (shared_pipeline (is_istio (pl_inputs p)) "istio" "metrics/input-istio" (istio_input opts p) b) (fun b =>
  andThen (shared_pipeline true "enrichment" enrichmentServicePipelineID (enrichment opts p) b) (fun b =>
  for_each (build_output opts p) pipelines b)))).

End Builder.
End MetricAgent.
