(* ===== verification/MetricAgentProps.v ===== *)
(** * The service pipelines of the metric agent

    The configuration of the metric agent is closed, its service pipelines are one for
    each enabled input, the enrichment pipeline and one for each MetricPipeline, and its
    connectors are the four routers with the tables of the plan. *)
From stdpp Require Import base gmap strings list.
From S2P Require Import Prelude Kube GoErrors GoStrings.
From S2P Require Import ApiV1beta1 SecretRef MetricInputs.
From S2P Require Import CollectorTypes CollectorBuilder CollectorBuilderProps CollectorProcessors.
From S2P Require Import CollectorExporter GatewayConfig GatewayConfigProps.
From S2P Require Import TelemetryUtils MetricAgentReceivers MetricReceiverProps MetricAgentConfig.
Import MetricAgent.
Local Open Scope string_scope.

(** ** Components under a condition *)

Lemma receiver_when {T} idf cf (t : T) (on : bool) i :
  (forall x, cf t = Some x -> bool_decide (is_Some x) = on) -> idf t = Some i ->
  adds (AddReceiver idf cf) t (mkServicePipeline (when on i) [] []).
Proof.
  intros Hc Hi id b b' Hid Hb. pose proof Hb as Ha. apply AddReceiver_adds in Ha; [|done]. rewrite Ha.
  unfold AddReceiver in Hb. unfold on_component. destruct (cf t) as [x|]; [|done].
  rewrite Hi, <- (Hc x eq_refl). by destruct x.
Qed.

Lemma processor_when {T} idf cf (t : T) (on : bool) i :
  (forall x, cf t = Some x -> bool_decide (is_Some x) = on) -> idf t = Some i ->
  adds (AddProcessor idf cf) t (mkServicePipeline [] (when on i) []).
Proof.
  intros Hc Hi id b b' Hid Hb. pose proof Hb as Ha. apply AddProcessor_adds in Ha; [|done]. rewrite Ha.
  unfold AddProcessor in Hb. unfold on_component. destruct (cf t) as [x|]; [|done].
  rewrite Hi, <- (Hc x eq_refl). by destruct x.
Qed.

(** ** Connectors *)

Definition connectors_sat (K : string -> component -> Prop) (b : builder) : Prop :=
  map_Forall K (cf_Connectors (b_Config b)).

Lemma AddReceiver_connectors {T} K idf cf (t : T) id :
  (forall i c, idf t = Some i -> cf t = Some (Some c) -> isConnector i = true -> K i c) ->
  preserves (connectors_sat K) (AddReceiver idf cf t id).
Proof.
  intros Hk [c env] b' Hb. unfold AddReceiver. destruct (cf t) as [[x|]|]; simpl; [|by intros [= <-]|done].
  destruct (idf t) as [i|]; simpl; [|done]. intros [= <-]. unfold connectors_sat in *. cbn in *.
  destruct (isConnector i) eqn:Ei; cbn; [|done]. unfold add_if_absent.
  destruct (_ !! i); [done|]. apply map_Forall_insert_2; auto.
Qed.

Lemma AddProcessor_connectors {T} K idf cf (t : T) id : preserves (connectors_sat K) (AddProcessor idf cf t id).
Proof.
  intros [c env] b' Hb. unfold AddProcessor. destruct (cf t) as [[x|]|]; simpl; [|by intros [= <-]|done].
  destruct (idf t) as [i|]; simpl; [|done]. by intros [= <-].
Qed.

Lemma AddExporter_connectors {T} K idf cf (t : T) id :
  (forall i c env, idf t = Some i -> cf t = Some (Ok (Some c, env)) -> isConnector i = true -> K i c) ->
  preserves (connectors_sat K) (AddExporter idf cf t id).
Proof.
  intros Hk [c env] b' Hb. unfold AddExporter.
  destruct (cf t) as [[[[x|] vars]|]|] eqn:Hc; simpl; [|by intros [= <-]|done|done].
  destruct (idf t) as [i|] eqn:Hi; simpl; [|done]. intros [= <-]. unfold connectors_sat in *. cbn in *.
  destruct (isConnector i) eqn:Ei; cbn; [|done]. apply map_Forall_insert_2; [by eapply Hk|done].
Qed.

Lemma AddExtension_connectors K id x env b : connectors_sat K b -> connectors_sat K (AddExtension id x env b).
Proof. intros Hb. unfold AddExtension. by case_bool_decide. Qed.

(** ** The expected pipelines *)

Definition any_input (p : plan) : bool :=
  negb ((length (pl_runtime p) =? 0)%nat && (length (pl_prometheus p) =? 0)%nat && (length (pl_istio p) =? 0)%nat).

(** A condition on an enabled input of the pipeline. *)
Definition on_runtime (mp : MetricPipeline) (f : MetricPipelineRuntimeInput -> bool) : bool :=
  IsRuntimeInputEnabled (input_of mp) && match mi_Runtime (input_of mp) with Some r => f r | None => false end.
Definition on_prometheus (mp : MetricPipeline) (f : MetricPipelinePrometheusInput -> bool) : bool :=
  IsPrometheusInputEnabled (input_of mp) && match mi_Prometheus (input_of mp) with Some r => f r | None => false end.
Definition on_istio (mp : MetricPipeline) (f : MetricPipelineIstioInput -> bool) : bool :=
  IsIstioInputEnabled (input_of mp) && match mi_Istio (input_of mp) with Some r => f r | None => false end.

Definition resource_filter_id (R : resource) : ComponentID :=
  match R with
  | Pod => ComponentIDDropRuntimePodMetricsProcessor | Container => ComponentIDDropRuntimeContainerMetricsProcessor
  | Node => ComponentIDDropRuntimeNodeMetricsProcessor | Volume => ComponentIDDropRuntimeVolumeMetricsProcessor
  | Deployment => ComponentIDDropRuntimeDeploymentMetricsProcessor
  | DaemonSet => ComponentIDDropRuntimeDaemonSetMetricsProcessor
  | StatefulSet => ComponentIDDropRuntimeStatefulSetMetricsProcessor
  | Job => ComponentIDDropRuntimeJobMetricsProcessor
  end.

(** The resource is enabled in the runtime input. *)
Definition resource_wanted (r : MetricPipelineRuntimeInput) (R : resource) : bool :=
  match R with
  | Pod => IsRuntimePodInputEnabled r | Container => IsRuntimeContainerInputEnabled r
  | Node => IsRuntimeNodeInputEnabled r | Volume => IsRuntimeVolumeInputEnabled r
  | Deployment => IsRuntimeDeploymentInputEnabled r | DaemonSet => IsRuntimeDaemonSetInputEnabled r
  | StatefulSet => IsRuntimeStatefulSetInputEnabled r | Job => IsRuntimeJobInputEnabled r
  end.

Definition to_drop (p : plan) (r : MetricPipelineRuntimeInput) : list string :=
  additionalMetricsToDrop (pl_cluster p ++ pl_kubelet p)%list (elems (mri_AdditionalMetrics r)) r.

Definition runtime_pipeline (p : plan) : ServicePipeline :=
  mkServicePipeline [ComponentIDKubeletStatsReceiver; ComponentIDK8sClusterReceiver]
    ([ComponentIDMemoryLimiterProcessor]
     ++ when (rrs_volume (is_runtimeResources (pl_inputs p))) ComponentIDFilterDropNonPVCVolumesMetricsProcessor
     ++ [ComponentIDFilterDropVirtualNetworkInterfacesProcessor; ComponentIDDropServiceNameProcessor;
         ComponentIDInsertSkipEnrichmentAttributeProcessor; ComponentIDSetInstrumentationScopeRuntimeProcessor;
         ComponentIDSetKymaInputNameRuntimeProcessor])%list
    [ComponentIDRuntimeInputRoutingConnector].

Definition prometheus_pipeline : ServicePipeline :=
  mkServicePipeline [ComponentIDPrometheusAppPodsReceiver; ComponentIDPrometheusAppServicesReceiver]
    [ComponentIDMemoryLimiterProcessor; ComponentIDDropServiceNameProcessor;
     ComponentIDSetInstrumentationScopePrometheusProcessor; ComponentIDSetKymaInputNamePrometheusProcessor]
    [ComponentIDPrometheusInputRoutingConnector].

Definition istio_pipeline : ServicePipeline :=
  mkServicePipeline [ComponentIDPrometheusIstioReceiver]
    [ComponentIDMemoryLimiterProcessor; ComponentIDDropServiceNameProcessor; ComponentIDIstioNoiseFilterProcessor;
     ComponentIDSetInstrumentationScopeIstioProcessor; ComponentIDSetKymaInputNameIstioProcessor]
    [ComponentIDIstioInputRoutingConnector].

Definition pipeline_if (on : bool) (id : string) (sp : ServicePipeline) : list (string * ServicePipeline) :=
  if on then [(id, sp)] else [].

Definition input_pipelines (p : plan) : list (string * ServicePipeline) :=
  (pipeline_if (is_runtime (pl_inputs p)) "metrics/input-runtime" (runtime_pipeline p)
   ++ pipeline_if (is_prometheus (pl_inputs p)) "metrics/input-prometheus" prometheus_pipeline
   ++ pipeline_if (is_istio (pl_inputs p)) "metrics/input-istio" istio_pipeline)%list.

Definition enrichment_pipeline (opts : BuildOptions) (p : plan) : ServicePipeline :=
  let otel := otel_enrichment opts in
  mkServicePipeline
    (when (is_runtime (pl_inputs p)) ComponentIDRuntimeInputRoutingConnector
     ++ when (is_prometheus (pl_inputs p)) ComponentIDPrometheusInputRoutingConnector
     ++ when (is_istio (pl_inputs p)) ComponentIDIstioInputRoutingConnector)%list
    (when otel ComponentIDDropUnknownServiceNameProcessor
     ++ [ComponentIDK8sAttributesProcessor]
     ++ when otel ComponentIDRestoreOtelServiceAttrsProcessor
     ++ when (negb otel) ComponentIDServiceEnrichmentProcessor)%list
    [ComponentIDEnrichmentRoutingConnector].

(** The components of an output pipeline, one list for each component that may be
    skipped. *)
Definition output_receivers (p : plan) (mp : MetricPipeline) : list (list ComponentID) :=
  [when (any_input p) ComponentIDEnrichmentRoutingConnector;
   when (IsRuntimeInputEnabled (input_of mp)) ComponentIDRuntimeInputRoutingConnector;
   when (IsPrometheusInputEnabled (input_of mp)) ComponentIDPrometheusInputRoutingConnector;
   when (IsIstioInputEnabled (input_of mp)) ComponentIDIstioInputRoutingConnector].

Definition output_processors (p : plan) (mp : MetricPipeline) : list (list ComponentID) :=
  let name := metric_name mp in
  (map (fun R => when (on_runtime mp (fun r => negb (resource_wanted r R))) (resource_filter_id R +:+ "-" +:+ name))
     resources
   ++ [when (on_runtime mp (fun r => negb (length (to_drop p r) =? 0)%nat))
         (ComponentIDDropRuntimeAdditionalMetricsProcessor +:+ "-" +:+ name);
       when (on_prometheus mp (fun i => negb (IsPrometheusDiagnosticInputEnabled i)))
         ComponentIDDropPrometheusDiagnosticMetricsProcessor;
       when (on_istio mp (fun i => negb (IsIstioDiagnosticInputEnabled i)))
         ComponentIDDropIstioDiagnosticMetricsProcessor;
       when (negb (on_istio mp IsEnvoyMetricsEnabled)) ComponentIDDropEnvoyMetricsIfDisabledProcessor;
       when (on_runtime mp (fun i => shouldFilterByNamespace (mri_Namespaces i)))
         (ComponentIDNamespacePerInputFilterProcessor name InputSourceRuntime);
       when (on_prometheus mp (fun i => shouldFilterByNamespace (pi_Namespaces i)))
         (ComponentIDNamespacePerInputFilterProcessor name InputSourcePrometheus);
       when (on_istio mp (fun i => shouldFilterByNamespace (ii_Namespaces i)))
         (ComponentIDNamespacePerInputFilterProcessor name InputSourceIstio);
       [ComponentIDInsertClusterAttributesProcessor];
       [ComponentIDDropSkipEnrichmentAttributeProcessor];
       [ComponentIDDropKymaAttributesProcessor];
       when (negb (slen (ms_Transforms (mp_Spec mp)) =? 0)%nat)
         (ComponentIDUserDefinedTransformProcessor (MetricPipelineRef mp));
       when (negb (is_nil (ms_Filters (mp_Spec mp)))) (ComponentIDUserDefinedFilterProcessor (MetricPipelineRef mp));
       when (bool_decide (IsDeltaTemporality (ms_Output (mp_Spec mp)) = Some true))
         ComponentIDCumulativeToDeltaProcessor;
       [ComponentIDBatchProcessor]])%list.

Definition output_pipeline (p : plan) (mp : MetricPipeline) : ServicePipeline :=
  mkServicePipeline (concat (output_receivers p mp)) (concat (output_processors p mp))
    (exporter_ids (metric_output mp) (MetricPipelineRef mp)).

(** The pipelines of the agent for a list of MetricPipelines. *)
Definition metric_agent_pipelines (opts : BuildOptions) (ps : list MetricPipeline) : list (string * ServicePipeline) :=
  let p := plan_of ps in
  (input_pipelines p ++ [(enrichmentServicePipelineID, enrichment_pipeline opts p)]
   ++ map (fun mp => (formatOutputMetricServicePipelineID mp, output_pipeline p mp)) ps)%list.

(** ** The builders append them *)

Section Shapes.
Context `{SecretReader} `{URLOps}.

(** One step of a list of components under conditions. *)
Ltac step := apply Forall2_cons; split.

Lemma output_exporter_adds q mp :
  adds (addOTLPExporter q) (Some mp) (mkServicePipeline [] [] (exporter_ids (metric_output mp) (MetricPipelineRef mp))).
Proof.
  apply exporter_adds. intros c env. unfold formatOTLPExporterID, exporter_ids. simpl.
  destruct (metric_output mp) as [o|]; simpl; [|done]. intros Ho.
  destruct (otlp_exporter_some _ _ _ _ _ Ho) as [x ->]. eauto.
Qed.

Lemma static_adds i c : adds (static_processor i c) (None : MP) (mkServicePipeline [] (when (bool_decide (is_Some c)) i) []).
Proof. apply processor_when; [by intros x [= <-]|done]. Qed.

Lemma router_adds mp i ps (on : bool) :
  adds (addReceiverForInputRouter i ps on) mp (mkServicePipeline (when on i) [] []).
Proof. apply receiver_when; [|done]. intros x [= <-]. by destruct on. Qed.

Lemma drop_runtime_adds id pattern enabled name mp :
  adds (drop_runtime_metrics id pattern enabled name) (Some mp)
    (mkServicePipeline [] (when (on_runtime mp (fun r => negb (enabled r))) (id +:+ "-" +:+ name)) []).
Proof.
  apply processor_when; [|done]. intros x. unfold on_runtime. simpl.
  destruct (IsRuntimeInputEnabled _); simpl; [|by intros [= <-]].
  destruct (mi_Runtime _) as [r|]; simpl; [|done]. intros [= <-]. by destruct (enabled r).
Qed.

Lemma drop_additional_adds p name mp :
  adds (addDropAdditionalRuntimeMetricsProcessor (pl_cluster p ++ pl_kubelet p)%list name) (Some mp)
    (mkServicePipeline [] (when (on_runtime mp (fun r => negb (length (to_drop p r) =? 0)%nat))
       (ComponentIDDropRuntimeAdditionalMetricsProcessor +:+ "-" +:+ name)) []).
Proof.
  apply processor_when; [|done]. intros x. unfold on_runtime, to_drop. simpl.
  destruct (IsRuntimeInputEnabled _); simpl; [|by intros [= <-]].
  destruct (pl_cluster p ++ pl_kubelet p)%list as [|a l].
  { intros [= <-]. simpl. by destruct (mi_Runtime _). }
  cbn [length Nat.eqb]. destruct (mi_Runtime _) as [r|]; simpl; [|done]. intros [= <-].
  by destruct (length _ =? 0)%nat.
Qed.

Lemma namespace_adds source enabled namespaces condition mp on :
  on = enabled (input_of mp) && match namespaces (input_of mp) with Some s => shouldFilterByNamespace s | None => false end ->
  adds (namespace_filter source enabled namespaces condition) (Some mp)
    (mkServicePipeline [] (when on (ComponentIDNamespacePerInputFilterProcessor (metric_name mp) source)) []).
Proof.
  intros ->. apply processor_when; [|done]. intros x. simpl.
  destruct (enabled _); simpl; [|by intros [= <-]]. destruct (namespaces _) as [s|]; simpl; [|done].
  intros [= <-]. destruct s as [s|]; [|done]. by destruct (shouldFilterByNamespace _).
Qed.

Lemma pipe_concat_split (rs ps es : list (list ComponentID)) :
  pipe_concat (map (fun i => mkServicePipeline i [] []) rs ++ map (fun i => mkServicePipeline [] i []) ps
               ++ map (fun i => mkServicePipeline [] [] i) es) =
  mkServicePipeline (concat rs) (concat ps) (concat es).
Proof.
  unfold pipe_concat. induction rs as [|r rs IH]; cbn; [|by rewrite IH].
  induction ps as [|p ps IH]; cbn; [|by rewrite IH]. induction es as [|e es IH]; cbn; [done|]. by rewrite IH.
Qed.

Definition output_deltas (p : plan) (mp : MetricPipeline) : list ServicePipeline :=
  (map (fun i => mkServicePipeline i [] []) (output_receivers p mp)
   ++ map (fun i => mkServicePipeline [] i []) (output_processors p mp)
   ++ map (fun i => mkServicePipeline [] [] i) [exporter_ids (metric_output mp) (MetricPipelineRef mp)])%list.

Lemma output_deltas_concat p mp : pipe_concat (output_deltas p mp) = output_pipeline p mp.
Proof. unfold output_deltas. rewrite pipe_concat_split. cbn [concat]. by rewrite app_nil_r. Qed.

Lemma output_components_adds opts p mp :
  Forall2 (fun f d => adds f (Some mp) d) (output_components opts p mp) (output_deltas p mp).
Proof.
  unfold output_components, output_deltas, output_receivers, output_processors. cbn [map app resources].
  step; [apply receiver_when; [|done]; intros x [= <-]; unfold any_input; by destruct (_ && _)|].
  do 3 (step; [apply router_adds|]).
  do 8 (step; [apply drop_runtime_adds|]).
  step; [apply drop_additional_adds|].
  step.
  { apply processor_when; [|done]. intros x. unfold on_prometheus. simpl.
    destruct (IsPrometheusInputEnabled _); simpl; [|by intros [= <-]].
    destruct (mi_Prometheus _) as [i|]; simpl; [|done]. intros [= <-]. by destruct (IsPrometheusDiagnosticInputEnabled i). }
  step.
  { apply processor_when; [|done]. intros x. unfold on_istio. simpl.
    destruct (IsIstioInputEnabled _); simpl; [|by intros [= <-]].
    destruct (mi_Istio _) as [i|]; simpl; [|done]. intros [= <-]. by destruct (IsIstioDiagnosticInputEnabled i). }
  step; [apply processor_when; [|done]; intros x [= <-]; unfold on_istio; by destruct (_ && _)|].
  step; [apply namespace_adds; unfold on_runtime; by destruct (mi_Runtime _)|].
  step; [apply namespace_adds; unfold on_prometheus; by destruct (mi_Prometheus _)|].
  step; [apply namespace_adds; unfold on_istio; by destruct (mi_Istio _)|].
  do 3 (step; [apply (processor_when _ _ _ true); [by intros x [= <-]|done]|]).
  step; [apply processor_when; [|done]; intros x [= <-]; by destruct (_ =? _)%nat|].
  step; [apply processor_when; [|done]; intros x [= <-]; by destruct (is_nil _)|].
  step; [apply processor_when; [|done]; intros x; simpl; destruct (IsDeltaTemporality _) as [[]|]; by try intros [= <-]|].
  step; [apply (processor_when _ _ _ true); [by intros x [= <-]|done]|].
  step; [apply output_exporter_adds|]. apply Forall2_nil_2.
Qed.

(** The shared pipelines. *)
Lemma shared_pipeline_adds enabled what id fs sp b b' :
  (exists ds, Forall2 (fun f d => adds f (None : MP) d) fs ds /\ pipe_concat ds = sp) ->
  shared_pipeline enabled what id fs b = Some (Ok b') ->
  pipelines_of (b_Config b') = add_pipelines (pipelines_of (b_Config b)) (pipeline_if enabled id sp).
Proof.
  intros (ds & Hf & <-). unfold shared_pipeline. destruct enabled; [|by intros [= <-]].
  intros Hb%wrap_err_ok. exact (AddServicePipeline_adds _ _ _ _ _ _ Hf Hb).
Qed.

Ltac shared_list :=
  eexists; split;
  [repeat (apply Forall2_cons; split;
             [first [apply AddReceiver_adds | apply AddProcessor_adds | apply AddExporter_adds]|]);
   apply Forall2_nil_2|].

Lemma runtime_input_adds opts p :
  exists ds, Forall2 (fun f d => adds f None d) (runtime_input opts p) ds /\ pipe_concat ds = runtime_pipeline p.
Proof.
  shared_list. unfold runtime_pipeline, const_config.
  destruct (kubelet_receiver_total (is_runtimeResources (pl_inputs p)) (pl_kubelet p)
              (ci_Runtime (bo_CollectionIntervals opts))) as [c1 ->].
  destruct (cluster_receiver_total (is_runtimeResources (pl_inputs p)) (pl_cluster p)
              (ci_Runtime (bo_CollectionIntervals opts))) as [c2 ->].
  by destruct (rrs_volume _).
Qed.

Lemma prometheus_input_adds opts p :
  exists ds, Forall2 (fun f d => adds f None d) (prometheus_input opts p) ds /\ pipe_concat ds = prometheus_pipeline.
Proof. by shared_list. Qed.

Lemma istio_input_adds opts p :
  exists ds, Forall2 (fun f d => adds f None d) (istio_input opts p) ds /\ pipe_concat ds = istio_pipeline.
Proof. by shared_list. Qed.

Lemma enrichment_adds opts p :
  exists ds, Forall2 (fun f d => adds f None d) (enrichment opts p) ds /\ pipe_concat ds = enrichment_pipeline opts p.
Proof.
  shared_list. unfold enrichment_pipeline, const_config.
  by destruct (otel_enrichment opts), (is_runtime _), (is_prometheus _), (is_istio _).
Qed.

(** The OAuth2 step of the metric agent is the one of the gateway. *)
Lemma build_output_eq opts p mp b :
  build_output opts p mp b =
  andThen (addMetricOAuth2Extension mp b) (fun b => wrap_err "failed to add enrichment service pipeline: "
    (AddServicePipeline (Some mp) (formatOutputMetricServicePipelineID mp) (output_components opts p mp) b)).
Proof.
  unfold build_output, shouldEnableOAuth2, addOAuth2Extension, addMetricOAuth2Extension, oauth2_of.
  destruct (metric_output mp) as [o|]; [|done]. simpl. by destruct (oo_Authentication o ≫= ao_OAuth2).
Qed.

(** The steps of [Build]: the shared pipelines, then the outputs. *)
Lemma Build_steps ps opts b :
  Build ps opts = Some (Ok b) ->
  let qs := sort_by_name metric_name ps in
  let p := plan_of qs in
  let b0 := AddExtension ComponentIDK8sLeaderElectorExtension
              (CLeaderElector (mkLeaderElector "serviceAccount" K8sLeaderElectorK8sCluster (bo_AgentNamespace opts)))
              ∅ (mkBuilder NewConfig ∅) in
  exists b1 b2 b3 b4,
    shared_pipeline (is_runtime (pl_inputs p)) "runtime" "metrics/input-runtime" (runtime_input opts p) b0 = Some (Ok b1) /\
    shared_pipeline (is_prometheus (pl_inputs p)) "prometheus" "metrics/input-prometheus" (prometheus_input opts p) b1
      = Some (Ok b2) /\
    shared_pipeline (is_istio (pl_inputs p)) "istio" "metrics/input-istio" (istio_input opts p) b2 = Some (Ok b3) /\
    shared_pipeline true "enrichment" enrichmentServicePipelineID (enrichment opts p) b3 = Some (Ok b4) /\
    for_each (build_output opts p) qs b4 = Some (Ok b).
Proof.
  unfold Build. cbv zeta. intros (b1 & H1 & H2)%andThen_ok. apply andThen_ok in H2 as (b2 & H2 & H3).
  apply andThen_ok in H3 as (b3 & H3 & H4). apply andThen_ok in H4 as (b4 & H4 & H5). by exists b1, b2, b3, b4.
Qed.

Lemma agent_pipelines_added ps opts b :
  Build ps opts = Some (Ok b) ->
  pipelines_of (b_Config b) = add_pipelines ∅ (metric_agent_pipelines opts (sort_by_name metric_name ps)).
Proof.
  intros (b1 & b2 & b3 & b4 & H1 & H2 & H3 & H4 & H5)%Build_steps.
  set (qs := sort_by_name metric_name ps) in *. set (p := plan_of qs) in *.
  apply (shared_pipeline_adds _ _ _ _ _ _ _ (runtime_input_adds opts p)) in H1.
  apply (shared_pipeline_adds _ _ _ _ _ _ _ (prometheus_input_adds opts p)) in H2.
  apply (shared_pipeline_adds _ _ _ _ _ _ _ (istio_input_adds opts p)) in H3.
  apply (shared_pipeline_adds _ _ _ _ _ _ _ (enrichment_adds opts p)) in H4.
  apply (for_each_pipelines _ (fun mp => (formatOutputMetricServicePipelineID mp, output_pipeline p mp))) in H5.
  - rewrite H5, H4, H3, H2, H1. unfold metric_agent_pipelines, input_pipelines. fold p.
    by rewrite <- !app_assoc, !add_pipelines_app.
  - clear. intros mp b b'. rewrite build_output_eq. intros (b1 & H1 & H2%wrap_err_ok)%andThen_ok.
    rewrite (AddServicePipeline_adds _ _ _ _ _ _ (output_components_adds opts p mp) H2), output_deltas_concat.
    cbn [fst snd]. f_equal. by eapply oauth2_pipelines.
Qed.

(** An invariant of every step holds of the result. *)
Lemma Build_preserves (I : builder -> Prop) ps opts b :
  let p := plan_of (sort_by_name metric_name ps) in
  (forall id b, I b -> I (mkBuilder (set_pipeline (b_Config b) id empty_pipeline) (b_EnvVars b))) ->
  (forall id x env b, I b -> I (AddExtension id x env b)) -> I (mkBuilder NewConfig ∅) ->
  (forall id, Forall (fun f => preserves I (f None id))
     (runtime_input opts p ++ prometheus_input opts p ++ istio_input opts p ++ enrichment opts p)) ->
  (forall mp id, mp ∈ ps -> Forall (fun f => preserves I (f (Some mp) id)) (output_components opts p mp)) ->
  Build ps opts = Some (Ok b) -> I b.
Proof.
  intros p Hp Hx Hstart Hs Ho (b1 & b2 & b3 & b4 & H1 & H2 & H3 & H4 & H5)%Build_steps. fold p in H1, H2, H3, H4, H5.
  assert (Hsh : forall on what id fs, Forall (fun f => preserves I (f None id)) fs ->
    preserves I (shared_pipeline on what id fs)).
  { intros on what id fs Hf. unfold shared_pipeline. destruct on; [|by intros ? ? ? [= <-]].
    apply preserves_wrap, preserves_pipeline; auto. }
  assert (Hs' : forall id, Forall (fun f => preserves I (f None id)) (runtime_input opts p) /\
    Forall (fun f => preserves I (f None id)) (prometheus_input opts p) /\
    Forall (fun f => preserves I (f None id)) (istio_input opts p) /\
    Forall (fun f => preserves I (f None id)) (enrichment opts p)) by (intros id; by rewrite <- !Forall_app).
  apply Hsh in H1; [|by apply Hs'|by apply Hx]. apply Hsh in H2; [|by apply Hs'|done].
  apply Hsh in H3; [|by apply Hs'|done]. apply Hsh in H4; [|by apply Hs'|done].
  revert H5. apply for_each_preserves; [|done]. intros mp Hmp%elem_of_sort b0 b' Hb0. rewrite build_output_eq.
  apply preserves_andThen; [|by apply preserves_wrap, preserves_pipeline; auto|done].
  apply oauth2_preserves. auto.
Qed.

End Shapes.
