(* ===== verification/MetricAgentTheorems.v ===== *)
(** * Theorems about the metric agent configuration

    The configuration is closed and has the expected service pipelines; following the
    routing connectors, a metric of an input reaches the exporters of exactly those
    MetricPipelines that enable the input. The reconciler deploys the agent with the
    service pipelines of exactly the MetricPipelines that need it. *)
From stdpp Require Import base gmap strings list.
From S2P Require Import Prelude Kube GoErrors GoStrings.
From S2P Require Import ApiV1beta1 SecretRef MetricInputs.
From S2P Require Import Validators Reconcile SampleCluster MetricReconciler MetricReconcilerProps.
From S2P Require Import CollectorTypes CollectorBuilder CollectorBuilderProps CollectorProcessors.
From S2P Require Import CollectorExporter CollectorExporterProps GatewayConfig GatewayConfigProps.
From S2P Require Import TelemetryUtils MetricAgentReceivers MetricReceiverProps MetricAgentConfig MetricAgentProps.
Import MetricAgent.
Local Open Scope string_scope.

(** ** Names *)

Lemma shared_id_not_output opts p mp i :
  i ∈ (input_pipelines p ++ [(enrichmentServicePipelineID, enrichment_pipeline opts p)])%list.*1 ->
  formatOutputMetricServicePipelineID mp <> i.
Proof.
  unfold input_pipelines. destruct (is_runtime _), (is_prometheus _), (is_istio _); cbn;
    rewrite ?elem_of_cons, elem_of_nil; naive_solver.
Qed.

Lemma agent_ids opts ps : NoDup (map metric_name ps) -> NoDup (metric_agent_pipelines opts ps).*1.
Proof.
  intros Hn. change (NoDup (map fst (metric_agent_pipelines opts ps))). unfold metric_agent_pipelines.
  set (p := plan_of ps). rewrite (app_assoc (input_pipelines p)), map_app, NoDup_app. split_and!.
  - unfold input_pipelines. destruct (is_runtime _), (is_prometheus _), (is_istio _); by apply (bool_decide_unpack _).
  - intros i Hi Hj. rewrite map_map in Hj. apply list_elem_of_In, in_map_iff in Hj as (mp & Hj & _).
    by eapply (shared_id_not_output opts p mp i).
  - rewrite map_map. eapply (NoDup_map_inj metric_name _ (fun s => "metrics/output-" +:+ s)); [done| |done].
    intros s t. apply append_cancel.
Qed.

Lemma NoDup_sorted ps : NoDup (map metric_name ps) -> NoDup (map metric_name (sort_by_name metric_name ps)).
Proof. by rewrite (Permutation_map _ (sort_by_name_perm metric_name ps)). Qed.

Lemma metric_agent_closed `{SecretReader} `{URLOps} ps opts b :
  Build ps opts = Some (Ok b) -> closed (b_Config b).
Proof.
  apply (Build_preserves closed_builder).
  - intros id b0 Hb. by apply closed_set_pipeline.
  - intros. by apply AddExtension_closed.
  - apply NewConfig_closed.
  - intros id. unfold runtime_input, prometheus_input, istio_input, enrichment. cbn [app].
    split_forall; first [apply AddReceiver_closed | apply AddProcessor_closed | apply AddExporter_closed].
  - intros mp id _. unfold output_components. cbv zeta.
    split_forall; first [apply AddReceiver_closed | apply AddProcessor_closed | apply AddExporter_closed].
Qed.

Lemma metric_agent_services `{SecretReader} `{URLOps} ps opts b :
  NoDup (map metric_name ps) -> Build ps opts = Some (Ok b) ->
  pipelines_of (b_Config b) = list_to_map (metric_agent_pipelines opts (sort_by_name metric_name ps)).
Proof.
  intros Hn Hb. rewrite (agent_pipelines_added _ _ _ Hb), add_pipelines_list; [by rewrite (right_id_L ∅ (∪))|].
  by apply agent_ids, NoDup_sorted.
Qed.

(** C8. The configuration of the metric agent is closed, and its service
    pipelines are exactly: an input pipeline for each input that some pipeline
    enables, the enrichment pipeline, and one output pipeline per MetricPipeline
    with the receivers, filters and exporter that its specification asks for, in
    the order of the code. *)
Theorem metric_agent_config `{SecretReader} `{URLOps} ps opts b :
  NoDup (map metric_name ps) -> Build ps opts = Some (Ok b) ->
  closed (b_Config b) /\
  svc_Pipelines (cf_Service (b_Config b)) =
    list_to_map (metric_agent_pipelines opts (sort_by_name metric_name ps)).
Proof. intros Hn Hb. split; [by eapply metric_agent_closed|by apply metric_agent_services]. Qed.

(** ** Following a metric through the routers *)

Inductive source := Runtime | Prometheus | Istio.

Definition source_name (s : source) : InputSourceType :=
  match s with Runtime => InputSourceRuntime | Prometheus => InputSourcePrometheus | Istio => InputSourceIstio end.
Definition source_enabled (s : source) (mp : MetricPipeline) : bool :=
  match s with
  | Runtime => IsRuntimeInputEnabled (input_of mp)
  | Prometheus => IsPrometheusInputEnabled (input_of mp)
  | Istio => IsIstioInputEnabled (input_of mp)
  end.
Definition input_id (s : source) : string :=
  match s with
  | Runtime => "metrics/input-runtime" | Prometheus => "metrics/input-prometheus" | Istio => "metrics/input-istio"
  end.
Definition router_id (s : source) : ComponentID :=
  match s with
  | Runtime => ComponentIDRuntimeInputRoutingConnector | Prometheus => ComponentIDPrometheusInputRoutingConnector
  | Istio => ComponentIDIstioInputRoutingConnector
  end.

(** What the routers look at: the input that set the input name, and the attribute that
    skips the enrichment. *)
Record flow := mkFlow { fl_input : InputSourceType; fl_skip : bool }.

(** Whether the statement of a routing table applies, as the collector evaluates it. *)
Class RouteEval := route_holds : string -> flow -> bool.
Class RouteEvalLaws `{RouteEval} := {
  route_skip_law f : route_holds skip_statement f = fl_skip f;
  route_input_law s f : route_holds ("route() where " +:+ KymaInputNameEquals s) f = str_eqb s (fl_input f)
}.

(** A routing connector sends to the pipelines of the first entry that applies, or to
    its default pipelines. *)
Definition route `{RouteEval} (rc : RoutingConnectorConfig) (f : flow) : list string :=
  match List.find (fun e => route_holds (rt_Statement e) f) (ro_Table rc) with
  | Some e => rt_Pipelines e
  | None => ro_DefaultPipelines rc
  end.

(** The exporters that are reached from a service pipeline, each with the pipeline it is
    reached through; at most [fuel] pipelines are visited in a row. *)
Fixpoint deliveries `{RouteEval} (fuel : nat) (c : Config) (f : flow) (id : string) : list (string * ComponentID) :=
  match fuel with
  | O => []
  | S fuel =>
      concat (map (fun e =>
        match cf_Connectors c !! e with
        | Some (CRouting rc) => concat (map (deliveries fuel c f) (route rc f))
        | Some _ => []
        | None => [(id, e)]
        end) (sp_Exporters (pipeline_of c id)))
  end.

(** ** The routers of the configuration *)

Definition routers (p : plan) : list (ComponentID * RoutingConnectorConfig) :=
  [(ComponentIDRuntimeInputRoutingConnector, inputRoutingConnector (formatOutputPipelineIDs (pl_runtime p)));
   (ComponentIDPrometheusInputRoutingConnector, inputRoutingConnector (formatOutputPipelineIDs (pl_prometheus p)));
   (ComponentIDIstioInputRoutingConnector, inputRoutingConnector (formatOutputPipelineIDs (pl_istio p)));
   (ComponentIDEnrichmentRoutingConnector,
     enrichmentRoutingConnector (pl_runtime p) (pl_prometheus p) (pl_istio p))].

Definition is_router (p : plan) (i : string) (c : component) : Prop :=
  exists rc, c = CRouting rc /\ (i, rc) ∈ routers p.

Lemma is_router_unique p i rc rc' : is_router p i (CRouting rc) -> (i, rc') ∈ routers p -> rc = rc'.
Proof.
  intros (x & [= <-] & Hx). unfold routers in *. rewrite !elem_of_cons, elem_of_nil in *.
  destruct Hx as [[= -> ->]|[[= -> ->]|[[= -> ->]|[[= -> ->]|[]]]]]; naive_solver.
Qed.

Lemma plain_receiver {T} K i cf (t : T) id :
  isConnector i = false -> preserves (connectors_sat K) (AddReceiver (StaticComponentID i) cf t id).
Proof. intros Hi. apply AddReceiver_connectors. intros j c [= <-] _. congruence. Qed.

Lemma router_receiver {T} p i rc (on : bool) (t : T) id :
  (i, rc) ∈ routers p ->
  preserves (connectors_sat (is_router p))
    (AddReceiver (StaticComponentID i) (const_config (if on then None else Some (CRouting rc))) t id).
Proof.
  intros Hi. apply AddReceiver_connectors. intros j c [= <-] Hc _. unfold const_config in Hc.
  destruct on; simplify_eq. by exists rc.
Qed.

Lemma router_exporter {T} p i rc (t : T) id :
  (i, rc) ∈ routers p ->
  preserves (connectors_sat (is_router p))
    (AddExporter (StaticComponentID i) (fun _ => Some (Ok (Some (CRouting rc), ∅))) t id).
Proof. intros Hi. apply AddExporter_connectors. intros j c env [= <-] [= <- _] _. by exists rc. Qed.

Lemma exporter_not_connector o r : isConnector (ComponentIDOTLPExporter o r) = false.
Proof. unfold ComponentIDOTLPExporter. by destruct (str_eqb _ _). Qed.

Section Routing.
Context `{SecretReader} `{URLOps} (ps : list MetricPipeline) (opts : BuildOptions) (b : builder).
Hypothesis Hnames : NoDup (map metric_name ps).
Hypothesis Hbuilt : Build ps opts = Some (Ok b).
Let qs := sort_by_name metric_name ps.
Let p := plan_of qs.

Lemma otlp_exporter_connectors q mp id K : preserves (connectors_sat K) (addOTLPExporter q (Some mp) id).
Proof.
  apply AddExporter_connectors. intros i c env Hi _ Hc. unfold formatOTLPExporterID in Hi. simpl in Hi.
  destruct (metric_output mp) as [o|]; simplify_eq/=. by rewrite exporter_not_connector in Hc.
Qed.

Ltac in_routers := unfold routers; rewrite !elem_of_cons; tauto.

Lemma built_connectors : connectors_sat (is_router p) b.
Proof.
  revert Hbuilt. apply (Build_preserves (connectors_sat (is_router p))).
  - done.
  - intros. by apply AddExtension_connectors.
  - apply map_Forall_empty.
  - intros id. unfold runtime_input, prometheus_input, istio_input, enrichment. cbn [app].
    split_forall; first [apply AddProcessor_connectors | by apply plain_receiver
                        | apply router_receiver; in_routers | apply router_exporter; in_routers].
  - intros mp id _. unfold output_components. cbv zeta.
    split_forall; first [apply AddProcessor_connectors | apply otlp_exporter_connectors
                        | apply router_receiver; in_routers].
Qed.

Lemma built_pipeline id sp : (id, sp) ∈ metric_agent_pipelines opts qs -> pipeline_of (b_Config b) id = sp.
Proof.
  intros Hin. unfold pipeline_of. rewrite (metric_agent_services _ _ _ Hnames Hbuilt).
  rewrite (elem_of_list_to_map_1 _ id sp); [done|by apply agent_ids, NoDup_sorted|done].
Qed.

(** A connector that a pipeline exports to is the router of the plan. *)
Lemma built_router id sp e rc :
  (id, sp) ∈ metric_agent_pipelines opts qs -> e ∈ sp_Exporters sp -> (e, rc) ∈ routers p ->
  cf_Connectors (b_Config b) !! e = Some (CRouting rc).
Proof.
  intros Hin He Hr. pose proof (closed_pipeline_of _ id (metric_agent_closed _ _ _ Hbuilt)) as (_ & _ & Hx).
  rewrite (built_pipeline _ _ Hin), Forall_forall in Hx. specialize (Hx e He). unfold exporter_defined in Hx.
  assert (isConnector e = true) as Hc.
  { clear -Hr. unfold routers in Hr. rewrite !elem_of_cons, elem_of_nil in Hr. naive_solver. }
  rewrite Hc in Hx. destruct Hx as [c Hl]. pose proof (built_connectors e c Hl) as (rc' & -> & Hr').
  rewrite Hl. do 2 f_equal. eapply is_router_unique; [|done]. by exists rc'.
Qed.

Lemma exporter_no_router mp e :
  e ∈ exporter_ids (metric_output mp) (MetricPipelineRef mp) -> cf_Connectors (b_Config b) !! e = None.
Proof.
  intros He. destruct (_ !! e) as [c|] eqn:Hl; [exfalso|done].
  pose proof (built_connectors e c Hl) as (rc & _ & Hr). unfold exporter_ids in He.
  destruct (metric_output mp) as [o|]; [|by apply elem_of_nil in He]. apply list_elem_of_singleton in He as ->.
  unfold routers in Hr. rewrite !elem_of_cons, elem_of_nil in Hr.
  pose proof (exporter_not_connector (oo_Protocol o) (MetricPipelineRef mp)) as Hn.
  destruct Hr as [[= He _]|[[= He _]|[[= He _]|[[= He _]|[]]]]]; by rewrite He in Hn.
Qed.

(** What an output pipeline delivers to. *)
Definition delivered_by (mp : MetricPipeline) : list (string * ComponentID) :=
  map (pair (formatOutputMetricServicePipelineID mp)) (exporter_ids (metric_output mp) (MetricPipelineRef mp)).

Lemma output_deliveries `{RouteEval} n f mp :
  mp ∈ qs -> deliveries (S n) (b_Config b) f (formatOutputMetricServicePipelineID mp) = delivered_by mp.
Proof.
  intros Hmp. cbn [deliveries]. rewrite (built_pipeline _ (output_pipeline p mp)).
  2:{ unfold metric_agent_pipelines. rewrite !elem_of_app. right. right. apply list_elem_of_fmap. by exists mp. }
  unfold delivered_by. cbn [output_pipeline sp_Exporters]. pose proof (exporter_no_router mp) as Hno.
  revert Hno. generalize (exporter_ids (metric_output mp) (MetricPipelineRef mp)). intros l.
  induction l as [|e l IH]; intros Hno; cbn; [done|]. rewrite (Hno e) by by left. cbn. f_equal. apply IH.
  intros e' He'. apply Hno. by right.
Qed.

Lemma outputs_deliveries `{RouteEval} n f l :
  (forall mp, mp ∈ l -> mp ∈ qs) ->
  concat (map (deliveries (S n) (b_Config b) f) (formatOutputPipelineIDs l)) = concat (map delivered_by l).
Proof.
  intros Hl. unfold formatOutputPipelineIDs. rewrite map_map. f_equal. apply map_ext_in. intros mp Hmp.
  apply output_deliveries. by apply Hl, list_elem_of_In.
Qed.

Definition source_list (s : source) : list MetricPipeline := List.filter (source_enabled s) qs.

Lemma source_list_qs s mp : mp ∈ source_list s -> mp ∈ qs.
Proof. unfold source_list. rewrite !list_elem_of_In, filter_In. tauto. Qed.

Lemma plan_sources :
  pl_runtime p = source_list Runtime /\ pl_prometheus p = source_list Prometheus /\ pl_istio p = source_list Istio.
Proof. unfold p, plan_of. by destruct (getRuntimeAdditionalMetrics qs). Qed.

Lemma existsb_filter {A} (f : A -> bool) l : existsb f l = negb (length (List.filter f l) =? 0)%nat.
Proof. induction l as [|x l IH]; cbn; [done|]. by destruct (f x). Qed.

Lemma source_on s :
  match s with
  | Runtime => is_runtime (pl_inputs p) | Prometheus => is_prometheus (pl_inputs p) | Istio => is_istio (pl_inputs p)
  end = negb (length (source_list s) =? 0)%nat.
Proof.
  unfold source_list. rewrite <- existsb_filter. unfold p, plan_of.
  by destruct (getRuntimeAdditionalMetrics qs), s.
Qed.

Lemma find_entry `{RouteEvalLaws} l src rest f :
  List.find (fun e => route_holds (rt_Statement e) f) (enrichment_entry l src ++ rest) =
  if negb (length l =? 0)%nat && str_eqb src (fl_input f)
  then Some (enrichmentRoutingConnectorTableEntry l (KymaInputNameEquals src))
  else List.find (fun e => route_holds (rt_Statement e) f) rest.
Proof.
  unfold enrichment_entry. destruct l as [|mp l]; [done|]. cbn [length Nat.ltb Nat.leb Nat.eqb negb andb app List.find].
  cbn [rt_Statement enrichmentRoutingConnectorTableEntry]. by rewrite route_input_law.
Qed.

(** The enrichment router sends a metric of an enabled source to the outputs of the
    pipelines that enable the source. *)
Lemma enrichment_route `{RouteEvalLaws} s f :
  fl_input f = source_name s -> source_list s <> [] ->
  route (enrichmentRoutingConnector (source_list Runtime) (source_list Prometheus) (source_list Istio)) f
    = formatOutputPipelineIDs (source_list s).
Proof.
  intros Hf Hs. assert (Hon : negb (length (source_list s) =? 0)%nat = true) by by destruct (source_list s).
  unfold route, enrichmentRoutingConnector. cbn [ro_Table ro_DefaultPipelines].
  rewrite <- (app_nil_r (enrichment_entry (source_list Istio) _)), !find_entry, Hf.
  by destruct s; rewrite Hon, ?andb_false_r.
Qed.

Lemma enrichment_deliveries `{RouteEvalLaws} n s f :
  fl_input f = source_name s -> source_list s <> [] ->
  deliveries (S (S n)) (b_Config b) f enrichmentServicePipelineID = concat (map delivered_by (source_list s)).
Proof.
  intros Hf Hs. cbn [deliveries].
  assert (Hin : (enrichmentServicePipelineID, enrichment_pipeline opts p) ∈ metric_agent_pipelines opts qs).
  { unfold metric_agent_pipelines. rewrite !elem_of_app. right. left. by left. }
  rewrite (built_pipeline _ _ Hin). cbn [enrichment_pipeline sp_Exporters map concat].
  rewrite (built_router _ _ ComponentIDEnrichmentRoutingConnector
             (enrichmentRoutingConnector (pl_runtime p) (pl_prometheus p) (pl_istio p)) Hin);
    [|by left|unfold routers; do 3 right; by left].
  destruct plan_sources as (-> & -> & ->). rewrite app_nil_r, (enrichment_route s f Hf Hs).
  apply (outputs_deliveries n). apply source_list_qs.
Qed.

Lemma input_router s :
  (router_id s, inputRoutingConnector (formatOutputPipelineIDs (source_list s))) ∈ routers p.
Proof.
  destruct plan_sources as (E1 & E2 & E3). unfold routers. rewrite E1, E2, E3, !elem_of_cons.
  destruct s; cbn [router_id]; tauto.
Qed.

Lemma input_pipeline_built s :
  source_list s <> [] -> exists sp, (input_id s, sp) ∈ metric_agent_pipelines opts qs /\ sp_Exporters sp = [router_id s].
Proof.
  intros Hs. assert (Hon : negb (length (source_list s) =? 0)%nat = true) by by destruct (source_list s).
  rewrite <- source_on in Hon. unfold metric_agent_pipelines, input_pipelines. fold p.
  destruct s; cbv beta iota in Hon; rewrite Hon; cbn [pipeline_if].
  - eexists. split; [rewrite !elem_of_app; left; left; by left|done].
  - eexists. split; [rewrite !elem_of_app; left; right; left; by left|done].
  - eexists. split; [rewrite !elem_of_app; left; right; right; by left|done].
Qed.

Lemma no_input_pipeline s : source_list s = [] -> pipeline_of (b_Config b) (input_id s) = empty_pipeline.
Proof.
  intros Hs. unfold pipeline_of. rewrite (metric_agent_services _ _ _ Hnames Hbuilt). fold qs.
  rewrite not_elem_of_list_to_map_1; [done|]. pose proof (source_on s) as Hon. rewrite Hs in Hon.
  change (input_id s ∉ map fst (metric_agent_pipelines opts qs)). unfold metric_agent_pipelines. fold p.
  rewrite !map_app, map_map, !not_elem_of_app. split_and!.
  - unfold input_pipelines. destruct s; cbv beta iota in Hon; rewrite Hon; cbn [length Nat.eqb negb];
      destruct (is_runtime _), (is_prometheus _), (is_istio _); by apply (bool_decide_unpack _).
  - destruct s; by apply (bool_decide_unpack _).
  - intros Hin. apply list_elem_of_In, in_map_iff in Hin as (mp & He & _). by destruct s.
Qed.

Lemma input_deliveries `{RouteEvalLaws} n s f :
  fl_input f = source_name s ->
  deliveries (S (S (S n))) (b_Config b) f (input_id s) = concat (map delivered_by (source_list s)).
Proof.
  intros Hf. destruct (source_list s) as [|mp l] eqn:Hs.
  { cbn [deliveries]. by rewrite (no_input_pipeline s Hs). }
  rewrite <- Hs. assert (Hne : source_list s <> []) by congruence.
  destruct (input_pipeline_built s Hne) as (sp & Hin & He).
  change (deliveries (S (S (S n))) (b_Config b) f (input_id s)) with
    (concat (map (fun e => match cf_Connectors (b_Config b) !! e with
        | Some (CRouting rc) => concat (map (deliveries (S (S n)) (b_Config b) f) (route rc f))
        | Some _ => [] | None => [(input_id s, e)] end) (sp_Exporters (pipeline_of (b_Config b) (input_id s))))).
  rewrite (built_pipeline _ _ Hin), He. cbn [map concat].
  rewrite (built_router _ _ (router_id s) _ Hin (ltac:(rewrite He; by left)) (input_router s)).
  rewrite app_nil_r. unfold route, inputRoutingConnector. cbn [ro_Table ro_DefaultPipelines List.find rt_Statement].
  rewrite route_skip_law. destruct (fl_skip f); cbn [rt_Pipelines].
  - apply outputs_deliveries, source_list_qs.
  - cbn [map concat]. rewrite app_nil_r. by apply enrichment_deliveries.
Qed.

End Routing.

(** C7. Following the routing connectors of the metric agent's configuration, a
    metric that an input collects is delivered to the exporter of exactly those
    MetricPipelines that enable this input, once each, whether or not it skips
    the enrichment; three pipelines in a row are enough, so no metric
    circulates. *)
Theorem metric_agent_delivery `{SecretReader} `{URLOps} `{RouteEvalLaws} ps opts b n s f :
  NoDup (map metric_name ps) -> Build ps opts = Some (Ok b) -> fl_input f = source_name s ->
  deliveries (3 + n) (b_Config b) f (input_id s) =
    concat (map delivered_by (List.filter (source_enabled s) (sort_by_name metric_name ps))).
Proof. intros Hn Hb Hf. by apply (input_deliveries ps opts b Hn Hb). Qed.

(** ** A sample *)

Module MetricAgentSample.
#[export] Instance reader : SecretReader := fun _ => Err NotFound.
#[export] Instance urls : URLOps := {|
  url_t := string; url_Parse s := Ok s; url_Path s := s; url_RawQuery _ := "";
  url_with _ p _ := p; url_String s := s; path_Join a b := a +:+ b |}.
Definition metric (name : string) (runtime : option MetricPipelineRuntimeInput) (prometheus istio : bool) :
    MetricPipeline :=
  mkMetricPipeline (mkMeta name "" 1 None false)
    (mkMetricSpec (mkMetricInput (Some (mkPrometheusInput (Some prometheus) None None)) runtime
                     (Some (mkIstioInput (Some istio) None None None)) None)
       (mkMetricOutput (Some (mkMetricOTLPOutput (mkOTLPOutput OTLPProtocolGRPC (mkValueType "https://b:4317" None) ""
                                                    None None None "") (Some "cumulative")))) None None)
    (mkMetricStatus []).
(** Runtime metrics of nodes and one more, but no metrics of pods. *)
Definition runtime : MetricPipelineRuntimeInput :=
  mkMetricRuntimeInput (Some true) None
    (Some (ApiV1beta1.mkRuntimeResources (Some (mkRuntimeResource (Some false))) None None None None None None None))
    (Some ["k8s.pod.cpu.time"]).
Definition opts : BuildOptions :=
  mkBuildOptions (mkClusterOptions "c" "u" "") true "/etc/certs" "1.0.0" "kyma-system" None "" false
    (mkIntervals 30000000000 30000000000 30000000000).
Definition ps : list MetricPipeline := [metric "b" (Some runtime) false true; metric "a" None true true].
Definition result : builder :=
  match Build ps opts with Some (Ok b) => b | _ => mkBuilder NewConfig ∅ end.
Lemma metric_agent_succeeds : (match Build ps opts with Some (Ok _) => true | _ => false end) = true.
Proof. by vm_compute. Qed.
Lemma metric_agent_built : Build ps opts = Some (Ok result).
Proof. generalize metric_agent_succeeds. unfold result. by destruct (Build ps opts) as [[b|e]|]. Qed.

(** The statements of the routers, compared as texts. *)
#[export] Instance eval : RouteEval := fun statement f =>
  if str_eqb statement skip_statement then fl_skip f
  else str_eqb statement ("route() where " +:+ KymaInputNameEquals (fl_input f)).
#[export] Instance eval_laws : RouteEvalLaws.
Proof.
  split; [intros f; unfold route_holds, eval; by rewrite str_eqb_refl|]. intros s f. unfold route_holds, eval.
  assert (Hs : forall t, str_eqb ("route() where " +:+ KymaInputNameEquals t) skip_statement = false) by done.
  rewrite Hs. apply eq_true_iff_eq. split; intros He%str_eqb_true.
  - apply append_cancel in He. unfold KymaInputNameEquals, ResourceAttributeEquals, quoted in He.
    do 3 apply append_cancel in He. apply append_cancel_r in He as ->. apply str_eqb_refl.
  - rewrite He. apply str_eqb_refl.
Qed.
End MetricAgentSample.
#[local] Existing Instance MetricAgentSample.reader.
#[local] Existing Instance MetricAgentSample.urls.
#[local] Existing Instance MetricAgentSample.eval.
#[local] Existing Instance MetricAgentSample.eval_laws.

Lemma metric_agent_config_witness : closed (b_Config MetricAgentSample.result).
Proof.
  destruct (metric_agent_config MetricAgentSample.ps MetricAgentSample.opts MetricAgentSample.result) as [Hc _].
  - by apply (bool_decide_unpack _).
  - apply MetricAgentSample.metric_agent_built.
  - exact Hc.
Defined.

Lemma metric_agent_delivery_witness :
  deliveries 3 (b_Config MetricAgentSample.result) (mkFlow "istio" false) "metrics/input-istio" =
    [("metrics/output-a", "otlp_grpc/metricpipeline-a"); ("metrics/output-b", "otlp_grpc/metricpipeline-b")].
Proof.
  rewrite (metric_agent_delivery MetricAgentSample.ps MetricAgentSample.opts MetricAgentSample.result 0 Istio
             (mkFlow "istio" false)).
  - by vm_compute.
  - by apply (bool_decide_unpack _).
  - apply MetricAgentSample.metric_agent_built.
  - reflexivity.
Defined.

(** ** The agent that the reconciler deploys *)

(** What the reconciler is given for its configuration builder (metricpipeline_controller.go): [Builder.Build] over
    the cluster's Secrets, with the options read from the cluster; [yaml.Marshal] is a parameter. *)
Class MetricAgentWiring (W : Type) `{MetricAgents W} `{URLOps} := {
  wired_secrets : W -> SecretReader;
  wired_options : W -> bool -> string -> bool -> BuildOptions;
  yaml_marshal : Config -> result string goerror;
  wired_flags (w : W) istio uid vpa :
    bo_IstioActive (wired_options w istio uid vpa) = istio /\
    co_ClusterUID (bo_Cluster (wired_options w istio uid vpa)) = uid /\
    bo_VpaActive (wired_options w istio uid vpa) = vpa;
  wired_build (w : W) ps istio uid vpa yaml env :
    AgentConfigBuilder_Build w ps istio uid vpa = Ok (yaml, env) ->
    exists b, @Build (wired_secrets w) _ ps (wired_options w istio uid vpa) = Some (Ok b) /\
      yaml_marshal (b_Config b) = Ok yaml /\ b_EnvVars b = env
}.

Section Deployed.
Context {W : Type} `{PipelineValidators W MetricPipeline} `{MetricAgentWiring W}.

Lemma NoDup_map_filter {A} (f : A -> string) (keep : A -> bool) l :
  NoDup (map f l) -> NoDup (map f (List.filter keep l)).
Proof.
  induction l as [|x l IH]; [done|]. cbn. rewrite NoDup_cons. intros [Hx Hl]. destruct (keep x); [|by apply IH].
  cbn. apply NoDup_cons. split; [|by apply IH]. intros Hf. apply Hx. apply list_elem_of_In, in_map_iff in Hf as (y & Hy & Hf).
  apply list_elem_of_In, in_map_iff. exists y. split; [done|]. by apply filter_In in Hf as [Hf _].
Qed.

(** C34. When reconciling the metric agents for pipelines of different names
    succeeds, the pipelines served are exactly those not in deletion that pass
    validation (or whose certificate is only about to expire) and enable the
    runtime, the Prometheus or the Istio input explicitly: if there is none, the
    agent was deleted; otherwise the agent was applied with the Istio status,
    VPA status and ports of the cluster and with the text of a closed
    configuration, built with these flags and the cluster's UID, whose service
    pipelines are exactly the ones for these pipelines. *)
Theorem metric_agents_exact (w : W) p all w' :
  NoDup (map metric_name all) ->
  reconcile_agents w p all = (w', None) ->
  let enabled := MetricReconciler.IsVpaEnabledInTelemetry w in
  match List.filter (needs_agent w) all with
  | [] => exists vpa, VpaCRDExists w = Ok vpa /\ DeleteResources w vpa = (w', None)
  | wanted =>
      exists istio uid vpa b yaml ports,
        let opts := wired_options w istio uid (vpa && enabled) in
        IsIstioActive w = Ok istio /\ MetricReconciler.GetClusterUID w = Ok uid /\ VpaCRDExists w = Ok vpa /\
        @Build (wired_secrets w) _ wanted opts = Some (Ok b) /\
        closed (b_Config b) /\
        pipelines_of (b_Config b) = list_to_map (metric_agent_pipelines opts (sort_by_name metric_name wanted)) /\
        yaml_marshal (b_Config b) = Ok yaml /\ OTLPOutputPorts w wanted = Ok ports /\
        ApplyResources w p (mkAgentApplyOptions istio vpa enabled (VPAMaxAllowedMemory w) yaml (b_EnvVars b) ports)
          = (w', None)
  end.
Proof.
  intros Hn Hr%agents_reconciled enabled. pose proof (NoDup_map_filter metric_name (needs_agent w) all Hn) as Hw.
  destruct (List.filter (needs_agent w) all) as [|q qs]; [done|].
  destruct Hr as (istio & uid & vpa & yaml & env & ports & Hi & Hu & Hv & Hb & Hp & Ha).
  apply wired_build in Hb as (b & Hb & Hy & <-).
  exists istio, uid, vpa, b, yaml, ports. split_and!; try done.
  - exact (@metric_agent_closed (wired_secrets w) _ _ _ _ Hb).
  - exact (@metric_agent_services (wired_secrets w) _ _ _ _ Hw Hb).
Qed.

End Deployed.

Module DeployedSample.
Import MetricAgentSample.
Abbreviation world := MetricReconcilerProps.Sample.world.
Definition options (istio : bool) (uid : string) (vpa : bool) : BuildOptions :=
  mkBuildOptions (mkClusterOptions "c" uid "") istio "/etc/certs" "1.0.0" "kyma-system" None "" vpa
    (mkIntervals 30000000000 30000000000 30000000000).
#[export] Instance agents : MetricAgents world := {|
  VpaCRDExists _ := Ok false;
  IsIstioActive _ := Ok true;
  MetricReconciler.GetClusterUID _ := Ok "u";
  MetricReconciler.IsVpaEnabledInTelemetry _ := false;
  AgentConfigBuilder_Build _ ps istio uid vpa :=
    match Build ps (options istio uid vpa) with
    | Some (Ok b) => Ok ("config", b_EnvVars b)
    | _ => Err (NewError "failed")
    end;
  OTLPOutputPorts _ _ := Ok ["4317"];
  VPAMaxAllowedMemory _ := 0%Z;
  ApplyResources w _ _ := (w, None);
  DeleteResources w _ := (w, None)
|}.
#[export] Instance wiring : MetricAgentWiring world.
Proof.
  refine {| wired_secrets _ := reader; yaml_marshal c := Ok "config";
            wired_options _ := options |}; [done|].
  intros w ps istio uid vpa yaml env. unfold AgentConfigBuilder_Build, agents.
  destruct (Build ps _) as [[b|]|] eqn:Hb; [|done..]. intros [= <- <-]. by exists b.
Defined.
(** One pipeline is in deletion, one enables no input of the agent. *)
Definition gone : MetricPipeline :=
  let m := metric "c" (Some runtime) true true in
  mkMetricPipeline (mkMeta "c" "" 1 None true) (mp_Spec m) (mp_Status m).
Definition all : list MetricPipeline := [metric "b" (Some runtime) false true; gone; metric "d" None false false].
Definition world0 : world := mkCluster [] all.
End DeployedSample.

Lemma metric_agents_witness : exists yaml env,
  @ApplyResources _ DeployedSample.agents DeployedSample.world0 DeployedSample.gone
    (mkAgentApplyOptions true false false 0 yaml env ["4317"]) = (DeployedSample.world0, None).
Proof.
  pose proof (@metric_agents_exact _ MetricReconcilerProps.Sample.accepting DeployedSample.agents _ DeployedSample.wiring
    DeployedSample.world0 DeployedSample.gone DeployedSample.all DeployedSample.world0) as H.
  specialize (H ltac:(by apply (bool_decide_unpack _)) ltac:(by vm_compute)).
  destruct H as (istio & uid & vpa & b & yaml & ports & [= <-] & _ & [= <-] & _ & _ & _ & _ & [= <-] & Ha).
  exists yaml, (b_EnvVars b). exact Ha.
Defined.
