(* ===== verification/MetricRuntimeExact.v ===== *)
(** * A MetricPipeline receives exactly the runtime metrics it asks for

    The two runtime receivers collect what any pipeline needs; the nine runtime filters
    of an output pipeline remove what this pipeline did not ask for. The conditions of
    the filters are texts of the collector's condition language; [cond] is the fragment
    the filters use, [print] its rendering by the helpers of the code and [holds] its
    meaning. *)
From stdpp Require Import base gmap strings list.
From S2P Require Import Prelude Kube GoErrors GoStrings.
From S2P Require Import ApiV1beta1 SecretRef Coordination MetricInputs MetricAgentTypes.
From S2P Require Import CollectorTypes CollectorBuilder CollectorBuilderProps CollectorProcessors.
From S2P Require Import CollectorExporter CollectorExporterProps GatewayConfig GatewayConfigProps GatewayIsolation.
From S2P Require Import TelemetryUtils MetricAgentReceivers MetricReceiverProps MetricAgentConfig MetricAgentProps.
From S2P Require Import MetricAgentTheorems.
Import MetricAgent.
Local Open Scope string_scope.

(** ** Conditions *)

Inductive cond :=
| KInput (s : InputSourceType)
| KName (n : string)
| KPattern (R : resource)
| KNot (c : cond)
| KAny (l : list cond)
| KAll (l : list cond).

Fixpoint print (c : cond) : string :=
  match c with
  | KInput s => KymaInputNameEquals s
  | KName n => MetricNameAttributeEquals n
  | KPattern R => IsMatch "metric.name" (pt_Text (pattern_of R))
  | KNot c => Not (print c)
  | KAny l => JoinWithOr (map print l)
  | KAll l => JoinWithAnd (map print l)
  end.

(** The metric of an input. *)
Fixpoint holds (input : InputSourceType) (name : string) (c : cond) : bool :=
  match c with
  | KInput s => str_eqb s input
  | KName n => str_eqb n name
  | KPattern R => pattern_matches (pattern_of R) name
  | KNot c => negb (holds input name c)
  | KAny l => existsb (holds input name) l
  | KAll l => forallb (holds input name) l
  end.

Lemma holds_names input name l : existsb (holds input name) (map KName l) = contains l name.
Proof.
  apply eq_true_iff_eq. rewrite contains_spec, existsb_exists, list_elem_of_In. split.
  - intros (c & Hc & Hh). apply in_map_iff in Hc as (n & <- & Hn). cbn in Hh. apply str_eqb_true in Hh. by subst.
  - intros Hn. exists (KName name). split; [apply in_map_iff; by exists name|]. cbn. apply str_eqb_refl.
Qed.

(** ** The filters of a pipeline *)

Definition resource_cond (R : resource) (r : MetricPipelineRuntimeInput) : cond :=
  let additional := getRuntimeAdditionalResourceMetrics (elems (mri_AdditionalMetrics r)) (pattern_of R) in
  KAll ([KInput InputSourceRuntime; KPattern R]
        ++ (if (0 <? length additional)%nat then [KNot (KAny (map KName additional))] else []))%list.

Definition additional_cond (toDrop : list string) : cond :=
  KAll [KInput InputSourceRuntime; KAny (map KName toDrop)].

Definition resource_filter (mp : MetricPipeline) (R : resource) : ComponentID :=
  resource_filter_id R +:+ "-" +:+ metric_name mp.
Definition additional_filter (mp : MetricPipeline) : ComponentID :=
  ComponentIDDropRuntimeAdditionalMetricsProcessor +:+ "-" +:+ metric_name mp.

Definition filter_conds (p : plan) (mp : MetricPipeline) (r : MetricPipelineRuntimeInput) :
    list (ComponentID * cond) :=
  (concat (map (fun R => if resource_wanted r R then [] else [(resource_filter mp R, resource_cond R r)]) resources)
   ++ (if (length (to_drop p r) =? 0)%nat then [] else [(additional_filter mp, additional_cond (to_drop p r))]))%list.

Lemma print_resource_cond R r :
  print (resource_cond R r) = JoinWithAnd (drop_resource_conditions (pattern_of R) r).
Proof.
  unfold resource_cond, drop_resource_conditions. cbn [print]. f_equal. rewrite map_app. f_equal.
  destruct (0 <? _)%nat; [|done]. cbn [map print]. unfold nameConditions. by rewrite map_map.
Qed.

Lemma print_additional_cond l :
  print (additional_cond l) = JoinWithAnd [KymaInputNameEquals InputSourceRuntime; JoinWithOr (nameConditions l)].
Proof. unfold additional_cond, nameConditions. cbn [print map]. by rewrite map_map. Qed.

Lemma holds_resource_cond R r m :
  holds InputSourceRuntime m (resource_cond R r) =
  pattern_matches (pattern_of R) m && negb (contains (elems (mri_AdditionalMetrics r)) m).
Proof.
  unfold resource_cond. set (l := getRuntimeAdditionalResourceMetrics _ _).
  assert (Hl : pattern_matches (pattern_of R) m = true -> contains l m = contains (elems (mri_AdditionalMetrics r)) m).
  { intros Hp. apply eq_true_iff_eq. rewrite !contains_spec. unfold l, getRuntimeAdditionalResourceMetrics.
    rewrite !list_elem_of_In, filter_In. tauto. }
  destruct (0 <? length l)%nat eqn:Hn.
  - cbn [app holds forallb]. rewrite holds_names, str_eqb_refl, andb_true_r. cbn [andb].
    destruct (pattern_matches _ m); [by rewrite Hl|done].
  - assert (l = []) as E by (apply Nat.ltb_ge in Hn; destruct l; [done|cbn in Hn; lia]).
    cbn [app holds forallb]. rewrite str_eqb_refl, andb_true_r. cbn [andb].
    destruct (pattern_matches _ m); [|done]. by rewrite <- (Hl eq_refl), E.
Qed.

Lemma holds_additional_cond l m : holds InputSourceRuntime m (additional_cond l) = contains l m.
Proof. unfold additional_cond. cbn [holds forallb]. by rewrite holds_names, str_eqb_refl, andb_true_r. Qed.

(** ** What a pipeline asks for *)

Definition defaults (R : resource) : list string := (cluster_defaults R ++ kubelet_defaults R)%list.

(** An additional metric of the pipeline, or a metric of a resource that is enabled. *)
Definition asked (r : MetricPipelineRuntimeInput) (m : string) : Prop :=
  m ∈ elems (mri_AdditionalMetrics r) \/ exists R, resource_wanted r R = true /\ m ∈ defaults R.

(** The metrics of a resource match the pattern of this resource only. *)
Lemma defaults_pattern R R' m : m ∈ defaults R -> pattern_matches (pattern_of R') m = bool_decide (R' = R).
Proof.
  intros Hm. apply Bool.eqb_prop.
  assert (Hc : forallb (fun R => forallb (fun m => forallb (fun R' =>
    Bool.eqb (pattern_matches (pattern_of R') m) (bool_decide (R' = R))) resources) (defaults R)) resources = true)
    by by vm_compute.
  pose proof (forallb_elem _ _ R Hc (elem_of_resources R)) as H1. cbv beta in H1.
  pose proof (forallb_elem _ _ m H1 Hm) as H2. cbv beta in H2.
  exact (forallb_elem _ _ R' H2 (elem_of_resources R')).
Qed.

Lemma cluster_defaults_known R m : m ∈ cluster_defaults R -> m ∈ K8sClusterReceiverMetrics.
Proof.
  intros Hm. apply contains_spec.
  assert (Hc : forallb (fun R => forallb (contains K8sClusterReceiverMetrics) (cluster_defaults R)) resources = true)
    by by vm_compute.
  exact (forallb_elem _ _ m (forallb_elem _ _ R Hc (elem_of_resources R)) Hm).
Qed.

Lemma kubelet_defaults_known R m : m ∈ kubelet_defaults R -> m ∈ KubeletStatsReceiverMetrics.
Proof.
  intros Hm. apply contains_spec.
  assert (Hc : forallb (fun R => forallb (contains KubeletStatsReceiverMetrics) (kubelet_defaults R)) resources = true)
    by by vm_compute.
  exact (forallb_elem _ _ m (forallb_elem _ _ R Hc (elem_of_resources R)) Hm).
Qed.

Lemma elem_of_if {A} (b : bool) (l : list A) x : x ∈ (if b then l else []) <-> b = true /\ x ∈ l.
Proof. destruct b; [tauto|]. rewrite elem_of_nil. split; [done|by intros [? _]]. Qed.

Lemma elem_of_excluded r m :
  m ∈ excluded_metrics r <-> exists R, resource_wanted r R = true /\ m ∈ defaults R.
Proof.
  unfold excluded_metrics, defaults. rewrite !elem_of_app, !elem_of_if, !elem_of_app. split.
  - intros [[Hw Hm]|[[Hw Hm]|[[Hw Hm]|[[Hw Hm]|[[Hw Hm]|[[Hw Hm]|[[Hw Hm]|[Hw Hm]]]]]]]];
      [exists Pod|exists Container|exists Node|exists Volume|exists Deployment|exists DaemonSet|exists StatefulSet|exists Job];
      split; try done; rewrite elem_of_app; cbn; tauto.
  - intros (R & Hw & Hm). rewrite elem_of_app in Hm.
    destruct R; cbn in Hw, Hm; rewrite ?elem_of_nil in Hm; tauto.
Qed.

(** The filters let a metric pass unless it belongs to a disabled resource or is an
    additional metric of other pipelines. *)
Definition passes (p : plan) (mp : MetricPipeline) (r : MetricPipelineRuntimeInput) (m : string) : bool :=
  forallb (fun f => negb (holds InputSourceRuntime m f.2)) (filter_conds p mp r).

Lemma passes_spec p mp r m :
  passes p mp r m = true <->
  (forall R, resource_wanted r R = false -> pattern_matches (pattern_of R) m = true ->
     m ∈ elems (mri_AdditionalMetrics r)) /\
  (m ∈ pl_cluster p \/ m ∈ pl_kubelet p -> asked r m).
Proof.
  unfold passes, filter_conds. rewrite forallb_app, andb_true_iff. apply Morphisms_Prop.and_iff_morphism.
  - rewrite forallb_forall. split.
    + intros Hf R Hw Hp. specialize (Hf (resource_filter mp R, resource_cond R r)). cbn [snd] in Hf.
      rewrite holds_resource_cond, Hp in Hf. cbn [andb] in Hf. rewrite negb_involutive in Hf.
      apply contains_spec, Hf, in_concat. eexists. split.
      * apply in_map_iff. exists R. split; [done|]. apply list_elem_of_In, elem_of_resources.
      * rewrite Hw. by left.
    + intros Hf f Hin. apply in_concat in Hin as (l & Hl & Hin). apply in_map_iff in Hl as (R & <- & _).
      destruct (resource_wanted r R) eqn:Hw; [done|]. destruct Hin as [<-|[]]. cbn [snd].
      rewrite holds_resource_cond. destruct (pattern_matches _ m) eqn:Hp; [|done]. cbn [andb].
      rewrite negb_involutive. apply contains_spec. by apply (Hf R).
  - assert (Hd : contains (to_drop p r) m = false <-> (m ∈ pl_cluster p \/ m ∈ pl_kubelet p -> asked r m)).
    { rewrite <- not_true_iff_false, contains_spec. unfold to_drop, additionalMetricsToDrop.
      rewrite list_elem_of_In, filter_In, <- list_elem_of_In, elem_of_app, negb_true_iff, <- not_true_iff_false,
        contains_spec, elem_of_app, elem_of_excluded. unfold asked. destruct (decide (m ∈ elems (mri_AdditionalMetrics r)));
        destruct (decide (m ∈ excluded_metrics r)) as [Hx|Hx]; rewrite elem_of_excluded in Hx; tauto. }
    rewrite <- Hd. destruct (length (to_drop p r) =? 0)%nat eqn:Hl.
    + apply Nat.eqb_eq in Hl. destruct (to_drop p r); done.
    + cbn [forallb snd]. rewrite holds_additional_cond, andb_true_r. apply negb_true_iff.
Qed.

(** ** What the plan collects *)

Lemma runtime_requested mp r :
  IsRuntimeInputEnabled (input_of mp) = true -> mi_Runtime (input_of mp) = Some r ->
  pipeline_metrics mp = elems (mri_AdditionalMetrics r).
Proof. intros He Hr. unfold pipeline_metrics. unfold input_of in *. by rewrite He, Hr. Qed.

Lemma plan_additional qs m :
  (m ∈ pl_cluster (plan_of qs) <-> m ∈ requested qs /\ m ∈ K8sClusterReceiverMetrics) /\
  (m ∈ pl_kubelet (plan_of qs) <-> m ∈ requested qs /\ m ∈ KubeletStatsReceiverMetrics).
Proof.
  destruct (collect_pipelines_ok qs _ _ collected_ok_empty) as [(_ & Hl1 & _) (_ & Hl2 & _)].
  rewrite app_nil_l in Hl1, Hl2. unfold plan_of, getRuntimeAdditionalMetrics. cbn [pl_cluster pl_kubelet].
  by rewrite Hl1, Hl2.
Qed.

Lemma elem_of_requested qs mp m : mp ∈ qs -> m ∈ pipeline_metrics mp -> m ∈ requested qs.
Proof.
  intros Hmp Hm. unfold requested. rewrite list_elem_of_In, in_concat. exists (pipeline_metrics mp).
  rewrite <- !list_elem_of_In. split; [|done]. apply list_elem_of_fmap. by exists mp.
Qed.

(** A resource that one pipeline enables is collected. *)
Lemma plan_resource qs mp r R :
  mp ∈ qs -> IsRuntimeInputEnabled (input_of mp) = true -> mi_Runtime (input_of mp) = Some r ->
  resource_wanted r R = true -> resource_on (is_runtimeResources (pl_inputs (plan_of qs))) R = true.
Proof.
  intros Hmp He Hr Hw. unfold plan_of. destruct (getRuntimeAdditionalMetrics qs) as [x y].
  assert (Hx : existsb (runtime_and (fun r => resource_wanted r R)) qs = true).
  { apply existsb_exists. exists mp. split; [by apply list_elem_of_In|]. unfold runtime_and. by rewrite He, Hr. }
  by destruct R.
Qed.

(** What the receivers emit together: each of them its own metrics. *)
Definition emits `{RuntimeReceivers} (kubelet : KubeletStatsReceiverConfig) (cluster : K8sClusterReceiverConfig)
    (m : string) : bool :=
  contains KubeletStatsReceiverMetrics m && kubelet_collects kubelet m
  || contains K8sClusterReceiverMetrics m && cluster_collects cluster m.

Lemma wanted_by_spec on d m : wanted_by on d m = true <-> exists R, on R = true /\ m ∈ d R.
Proof.
  unfold wanted_by. rewrite existsb_exists. split.
  - intros (R & _ & [Ho Hc]%andb_prop). exists R. by rewrite <- contains_spec.
  - intros (R & Ho & Hm). exists R. split; [apply list_elem_of_In, elem_of_resources|].
    rewrite Ho. by apply contains_spec.
Qed.

(** Emitted and passed by the filters of a pipeline: exactly what the pipeline asks for. *)
Lemma runtime_filters_exact `{RuntimeReceiversLaws} qs mp r interval kubelet cluster m :
  let p := plan_of qs in
  mp ∈ qs -> IsRuntimeInputEnabled (input_of mp) = true -> mi_Runtime (input_of mp) = Some r ->
  kubeletStatsReceiver (is_runtimeResources (pl_inputs p)) (pl_kubelet p) interval = Some kubelet ->
  k8sClusterReceiver (is_runtimeResources (pl_inputs p)) (pl_cluster p) interval = Some cluster ->
  emits kubelet cluster m && passes p mp r m = true <-> m ∈ validRuntimeMetrics /\ asked r m.
Proof.
  intros p Hmp He Hr Hk Hc. destruct (plan_additional qs m) as [Pc Pk]. fold p in Pc, Pk.
  assert (Ek : contains KubeletStatsReceiverMetrics m && kubelet_collects kubelet m = true <->
    m ∈ KubeletStatsReceiverMetrics /\
    (m ∈ pl_kubelet p \/ exists R, resource_on (is_runtimeResources (pl_inputs p)) R = true /\ m ∈ kubelet_defaults R)).
  { rewrite andb_true_iff, contains_spec. destruct (decide (m ∈ KubeletStatsReceiverMetrics)) as [Hm|]; [|tauto].
    by rewrite (kubelet_collects_exactly _ _ _ _ _ Hk Hm), orb_true_iff, bool_decide_eq_true, wanted_by_spec. }
  assert (Ec : contains K8sClusterReceiverMetrics m && cluster_collects cluster m = true <->
    m ∈ K8sClusterReceiverMetrics /\
    (m ∈ pl_cluster p \/ exists R, resource_on (is_runtimeResources (pl_inputs p)) R = true /\ m ∈ cluster_defaults R)).
  { rewrite andb_true_iff, contains_spec. destruct (decide (m ∈ K8sClusterReceiverMetrics)) as [Hm|]; [|tauto].
    by rewrite (cluster_collects_exactly _ _ _ _ _ Hc Hm), orb_true_iff, bool_decide_eq_true, wanted_by_spec. }
  unfold emits. rewrite andb_true_iff, orb_true_iff, Ek, Ec, passes_spec. unfold validRuntimeMetrics. rewrite elem_of_app.
  split.
  - intros [Hem [Hf Ha]]. split; [tauto|].
    assert (Hd : forall R, m ∈ defaults R -> asked r m).
    { intros R Hm. destruct (resource_wanted r R) eqn:Hw; [right; eauto|]. left. apply (Hf R Hw).
      rewrite (defaults_pattern R R m Hm). by apply bool_decide_eq_true_2. }
    destruct Hem as [[_ [Hm|(R & _ & Hm)]]|[_ [Hm|(R & _ & Hm)]]]; [tauto| |tauto|];
      apply (Hd R); unfold defaults; rewrite elem_of_app; tauto.
  - intros [Hv Ha]. split; [|split; [|done]].
    + destruct Ha as [Ha|(R & Hw & Hm)].
      * assert (m ∈ requested qs) by (apply (elem_of_requested qs mp); [done|by rewrite (runtime_requested mp r)]).
        rewrite Pc, Pk. tauto.
      * pose proof (plan_resource qs mp r R Hmp He Hr Hw) as Hon. fold p in Hon.
        unfold defaults in Hm. apply elem_of_app in Hm as [Hm|Hm]; [right|left]; split; eauto.
        -- by eapply cluster_defaults_known.
        -- by eapply kubelet_defaults_known.
    + intros R Hw Hp. destruct Ha as [Ha|(R' & Hw' & Hm)]; [done|].
      rewrite (defaults_pattern R' R m Hm) in Hp. apply bool_decide_eq_true in Hp as ->. congruence.
Qed.

(** ** The filters are in the configuration *)

Definition receivers_sat (K : string -> component -> Prop) (b : builder) : Prop :=
  map_Forall K (cf_Receivers (b_Config b)).

Lemma AddReceiver_receivers {T} K idf cf (t : T) id :
  (forall i c, idf t = Some i -> cf t = Some (Some c) -> isConnector i = false -> K i c) ->
  preserves (receivers_sat K) (AddReceiver idf cf t id).
Proof.
  intros Hk [c env] b' Hb. unfold AddReceiver. destruct (cf t) as [[x|]|]; simpl; [|by intros [= <-]|done].
  destruct (idf t) as [i|]; simpl; [|done]. intros [= <-]. unfold receivers_sat in *. cbn in *.
  destruct (isConnector i) eqn:Ei; cbn; [done|]. unfold add_if_absent.
  destruct (_ !! i); [done|]. apply map_Forall_insert_2; auto.
Qed.

Lemma AddProcessor_receivers {T} K idf cf (t : T) id : preserves (receivers_sat K) (AddProcessor idf cf t id).
Proof.
  intros [c env] b' Hb. unfold AddProcessor. destruct (cf t) as [[x|]|]; simpl; [|by intros [= <-]|done].
  destruct (idf t) as [i|]; simpl; [|done]. by intros [= <-].
Qed.

Lemma AddExporter_receivers {T} K idf cf (t : T) id : preserves (receivers_sat K) (AddExporter idf cf t id).
Proof.
  intros [c env] b' Hb. unfold AddExporter.
  destruct (cf t) as [[[[x|] vars]|]|]; simpl; [|by intros [= <-]|done|done].
  destruct (idf t) as [i|]; simpl; [|done]. intros [= <-]. by destruct (isConnector i).
Qed.

Lemma AddExtension_receivers K id x env b : receivers_sat K b -> receivers_sat K (AddExtension id x env b).
Proof. intros Hb. unfold AddExtension. by case_bool_decide. Qed.

(** The two runtime receivers are those of the plan. *)
Definition is_runtime_receiver (opts : BuildOptions) (p : plan) (i : string) (c : component) : Prop :=
  let interval := ci_Runtime (bo_CollectionIntervals opts) in
  let r := is_runtimeResources (pl_inputs p) in
  (i = ComponentIDKubeletStatsReceiver ->
     exists k, kubeletStatsReceiver r (pl_kubelet p) interval = Some k /\ c = CKubeletStats k) /\
  (i = ComponentIDK8sClusterReceiver ->
     exists k, k8sClusterReceiver r (pl_cluster p) interval = Some k /\ c = CK8sCluster k).

(** A processor of an identifier that no runtime filter has. *)
Lemma other_filter p mp r i x : (i, x) ∈ filter_conds p mp r -> String.prefix "filter/drop-runtime-" i = true.
Proof.
  unfold filter_conds. rewrite elem_of_app. intros [Hi|Hi].
  - rewrite list_elem_of_In, in_concat in Hi. destruct Hi as (l & Hl & Hi). apply in_map_iff in Hl as (R & <- & _).
    destruct (resource_wanted r R); [done|]. destruct Hi as [[= <- _]|[]]. by destruct R; cbn.
  - destruct (_ =? _)%nat; [by apply elem_of_nil in Hi|]. apply list_elem_of_singleton in Hi as [= -> _]. by cbn.
Qed.

Lemma filter_conds_resource p mp mp' r R x :
  (resource_filter mp R, x) ∈ filter_conds p mp' r -> metric_name mp = metric_name mp' /\ x = resource_cond R r.
Proof.
  unfold filter_conds. rewrite elem_of_app. intros [Hi|Hi].
  - rewrite list_elem_of_In, in_concat in Hi. destruct Hi as (l & Hl & Hi). apply in_map_iff in Hl as (R' & <- & _).
    destruct (resource_wanted r R'); [done|]. destruct Hi as [[= He <-]|[]].
    unfold resource_filter in He. destruct R, R'; try discriminate He; by apply append_cancel, append_cancel in He.
  - destruct (_ =? _)%nat; [by apply elem_of_nil in Hi|]. apply list_elem_of_singleton in Hi as [= He _].
    by destruct R.
Qed.

Lemma filter_conds_additional p mp mp' r x :
  (additional_filter mp, x) ∈ filter_conds p mp' r ->
  metric_name mp = metric_name mp' /\ x = additional_cond (to_drop p r).
Proof.
  unfold filter_conds. rewrite elem_of_app. intros [Hi|Hi].
  - rewrite list_elem_of_In, in_concat in Hi. destruct Hi as (l & Hl & Hi). apply in_map_iff in Hl as (R' & <- & _).
    destruct (resource_wanted r R'); [done|]. destruct Hi as [[= He _]|[]]. by destruct R'.
  - destruct (_ =? _)%nat; [by apply elem_of_nil in Hi|]. apply list_elem_of_singleton in Hi as [= He ->].
    by split.
Qed.

(** The identifiers of processors are built from the names of pipelines, so that two pipelines
    whose names look like parts of these identifiers share one. *)
Lemma processor_ids_coincide :
  ComponentIDNamespacePerInputFilterProcessor "metricpipeline-user-defined-x" InputSourceRuntime =
  ComponentIDUserDefinedFilterProcessor (mkPipelineRef "x-filter-by-namespace-runtime-input" SignalTypeMetric) /\
  ComponentIDNamespacePerInputFilterProcessor "drop-runtime-pod-metrics-x" InputSourceRuntime =
  ComponentIDDropRuntimePodMetricsProcessor +:+ "-" +:+ "x-filter-by-namespace-runtime-input".
Proof. done. Qed.

(** No namespace filter is taken for a runtime filter when no pipeline has a name that begins
    like the identifier of one. *)
Definition plain_name (n : string) : Prop := String.prefix "drop-runtime" n = false.

Lemma namespace_filter_not_runtime n s :
  plain_name n -> String.prefix "filter/drop-runtime-" (ComponentIDNamespacePerInputFilterProcessor n s) = false.
Proof.
  unfold plain_name. intros Hn. apply (prefix_app_false "drop-runtime" n ("-filter-by-namespace-" +:+ s +:+ "-input")) in Hn; [|done].
  revert Hn. unfold ComponentIDNamespacePerInputFilterProcessor. cbn [String.append].
  set (x := n +:+ _). change (String.prefix "drop-runtime" x = false -> String.prefix "drop-runtime-" x = false).
  clearbody x. change "drop-runtime-" with ("drop-runtime" +:+ "-"). generalize "drop-runtime". intros q.
  revert x. induction q as [|c q IH]; intros [|d x]; try done. change (String c q +:+ "-") with (String c (q +:+ "-")).
  cbn [String.prefix]. destruct (Ascii.ascii_dec c d); [apply IH|done].
Qed.

(** The processors with the identifiers of runtime filters are these filters. *)
Definition is_runtime_filter (p : plan) (qs : list MetricPipeline) (i : string) (c : component) : Prop :=
  forall mp r x, mp ∈ qs -> IsRuntimeInputEnabled (input_of mp) = true -> mi_Runtime (input_of mp) = Some r ->
    (i, x) ∈ filter_conds p mp r -> c = CFilter (metric_filter [print x]).

Section Configured.
Context `{SecretReader} `{URLOps} (ps : list MetricPipeline) (opts : BuildOptions) (b : builder).
Hypothesis Hnames : NoDup (map metric_name ps).
Hypothesis Hplain : Forall plain_name (map metric_name ps).
Hypothesis Hbuilt : Build ps opts = Some (Ok b).
Let qs := sort_by_name metric_name ps.
Let p := plan_of qs.

Lemma built_receivers : receivers_sat (is_runtime_receiver opts p) b.
Proof.
  revert Hbuilt. apply (Build_preserves (receivers_sat (is_runtime_receiver opts p))).
  - done.
  - intros. by apply AddExtension_receivers.
  - apply map_Forall_empty.
  - intros id. unfold runtime_input, prometheus_input, istio_input, enrichment. cbn [app].
    split_forall; first [apply AddProcessor_receivers | apply AddExporter_receivers | apply AddReceiver_receivers];
      intros i c [= <-] Hc Hn; try done; split; intros Hi; try done.
    + fold qs p in Hc. destruct (kubeletStatsReceiver _ _ _) as [k|]; [|done]. injection Hc as <-. by exists k.
    + fold qs p in Hc. destruct (k8sClusterReceiver _ _ _) as [k|]; [|done]. injection Hc as <-. by exists k.
  - intros mp id _. unfold output_components. cbv zeta.
    split_forall; first [apply AddProcessor_receivers | apply AddExporter_receivers | apply AddReceiver_receivers];
      by intros i c [= <-] _ Hn.
Qed.

Lemma names_unique mp mp' : mp ∈ qs -> mp' ∈ qs -> metric_name mp = metric_name mp' -> mp = mp'.
Proof. intros Hm Hm'. apply (NoDup_map_eq metric_name qs); [by apply NoDup_sorted|done..]. Qed.

Lemma static_filter {T} i cf (t : T) id :
  String.prefix "filter/drop-runtime-" i = false ->
  preserves (registered (is_runtime_filter p qs)) (AddProcessor (StaticComponentID i) cf t id).
Proof.
  intros Hi. apply AddProcessor_registers. intros j c [= <-] _ mp r x _ _ _ Hx. apply other_filter in Hx. congruence.
Qed.

Lemma resource_filter_registered R mp id :
  mp ∈ qs ->
  preserves (registered (is_runtime_filter p qs))
    (drop_runtime_metrics (resource_filter_id R) (pattern_of R) (fun r => resource_wanted r R) (metric_name mp)
       (Some mp) id).
Proof.
  intros Hmp. apply AddProcessor_registers. intros i c [= <-] Hc mp' r x Hmp' He' Hr' Hx.
  apply filter_conds_resource in Hx as [Hn ->]. apply names_unique in Hn as <-; [|done..].
  simpl in Hc. rewrite He', Hr' in Hc. simpl in Hc. destruct (resource_wanted r R); simplify_eq.
  by rewrite print_resource_cond.
Qed.

Lemma additional_filter_registered mp id :
  mp ∈ qs ->
  preserves (registered (is_runtime_filter p qs))
    (addDropAdditionalRuntimeMetricsProcessor (pl_cluster p ++ pl_kubelet p)%list (metric_name mp) (Some mp) id).
Proof.
  intros Hmp. apply AddProcessor_registers. intros i c [= <-] Hc mp' r x Hmp' He' Hr' Hx.
  apply filter_conds_additional in Hx as [Hn ->]. apply names_unique in Hn as <-; [|done..].
  rewrite print_additional_cond. cbn [mbind option_bind] in Hc. rewrite He', Hr' in Hc.
  cbn [mbind option_bind negb orb] in Hc. fold (to_drop p r) in Hc.
  destruct (length (pl_cluster p ++ pl_kubelet p)%list =? 0)%nat; [discriminate Hc|].
  destruct (_ =? _)%nat; by simplify_eq.
Qed.

Lemma namespace_filter_registered mp s enabled namespaces condition id :
  mp ∈ qs ->
  preserves (registered (is_runtime_filter p qs))
    (namespace_filter (source_name s) enabled namespaces condition (Some mp) id).
Proof.
  intros Hmp%elem_of_sort. apply AddProcessor_registers. intros i c [= <-] _ mp' r x _ _ _ Hx%other_filter.
  rewrite namespace_filter_not_runtime in Hx; [done|]. rewrite Forall_forall in Hplain.
  apply Hplain, list_elem_of_In, in_map, list_elem_of_In, Hmp.
Qed.

Lemma user_filter_registered mp cf id :
  preserves (registered (is_runtime_filter p qs)) (AddProcessor formatUserDefinedFilterProcessorID cf (Some mp) id).
Proof. apply AddProcessor_registers. intros i c [= <-] _ mp' r x _ _ _ Hx. by apply other_filter in Hx. Qed.

Lemma user_transform_registered mp cf id :
  preserves (registered (is_runtime_filter p qs)) (AddProcessor formatUserDefinedTransformProcessorID cf (Some mp) id).
Proof. apply AddProcessor_registers. intros i c [= <-] _ mp' r x _ _ _ Hx. by apply other_filter in Hx. Qed.

Lemma built_filters : registered (is_runtime_filter p qs) b.
Proof.
  revert Hbuilt. apply (Build_preserves (registered (is_runtime_filter p qs))).
  - done.
  - intros. by apply AddExtension_registered.
  - apply map_Forall_empty.
  - intros id. unfold runtime_input, prometheus_input, istio_input, enrichment. cbn [app].
    split_forall; first [apply AddReceiver_registers | apply AddExporter_registers | by apply static_filter].
  - intros mp id Hmp. assert (Hq : mp ∈ qs) by by apply elem_of_sort. unfold output_components. cbv zeta.
    split_forall; first
      [apply AddReceiver_registers | apply AddExporter_registers
      | exact (resource_filter_registered Pod mp id Hq) | exact (resource_filter_registered Container mp id Hq)
      | exact (resource_filter_registered Node mp id Hq) | exact (resource_filter_registered Volume mp id Hq)
      | exact (resource_filter_registered Deployment mp id Hq) | exact (resource_filter_registered DaemonSet mp id Hq)
      | exact (resource_filter_registered StatefulSet mp id Hq) | exact (resource_filter_registered Job mp id Hq)
      | exact (additional_filter_registered mp id Hq)
      | exact (namespace_filter_registered mp Runtime _ _ _ id Hq)
      | exact (namespace_filter_registered mp Prometheus _ _ _ id Hq)
      | exact (namespace_filter_registered mp Istio _ _ _ id Hq)
      | apply user_filter_registered | apply user_transform_registered | by apply static_filter].
Qed.

(** The runtime filters are the first processors of an output pipeline. *)
Lemma first_processors mp r :
  IsRuntimeInputEnabled (input_of mp) = true -> mi_Runtime (input_of mp) = Some r ->
  concat (output_processors p mp) = (map fst (filter_conds p mp r) ++ concat (drop 9 (output_processors p mp)))%list.
Proof.
  intros He Hr. rewrite <- (take_drop 9 (output_processors p mp)) at 1. rewrite concat_app. f_equal.
  change (take 9 (output_processors p mp)) with
    (map (fun R => when (on_runtime mp (fun r => negb (resource_wanted r R))) (resource_filter mp R)) resources
     ++ [when (on_runtime mp (fun r => negb (length (to_drop p r) =? 0)%nat)) (additional_filter mp)])%list.
  unfold filter_conds, on_runtime. rewrite He, Hr. cbn [andb]. rewrite concat_app, map_app. f_equal.
  - rewrite List.concat_map, map_map. f_equal. apply map_ext. intros R. by destruct (resource_wanted r R).
  - cbn [concat]. rewrite app_nil_r. by destruct (_ =? _)%nat.
Qed.

Lemma output_built mp :
  mp ∈ ps -> pipeline_of (b_Config b) (formatOutputMetricServicePipelineID mp) = output_pipeline p mp.
Proof.
  intros Hmp%(elem_of_sort metric_name). apply (built_pipeline ps opts b Hnames Hbuilt).
  unfold metric_agent_pipelines. rewrite !elem_of_app. right; right. apply list_elem_of_fmap. by exists mp.
Qed.

Lemma filters_built mp r :
  mp ∈ ps -> IsRuntimeInputEnabled (input_of mp) = true -> mi_Runtime (input_of mp) = Some r ->
  Forall (fun f => cf_Processors (b_Config b) !! f.1 = Some (CFilter (metric_filter [print f.2])))
    (filter_conds p mp r).
Proof.
  intros Hmp He Hr. apply Forall_forall. intros [i x] Hx. cbn [fst snd].
  pose proof (closed_pipeline_of _ (formatOutputMetricServicePipelineID mp) (metric_agent_closed _ _ _ Hbuilt))
    as (_ & Hp & _).
  rewrite (output_built mp Hmp), Forall_forall in Hp. destruct (Hp i) as [c Hc].
  { cbn [output_pipeline sp_Processors]. rewrite (first_processors mp r He Hr). apply elem_of_app. left.
    apply list_elem_of_fmap. by exists (i, x). }
  rewrite Hc. f_equal. apply (built_filters i c Hc mp r x); [|done..]. by apply elem_of_sort.
Qed.

(** When some pipeline has the runtime input, both receivers are there. *)
Lemma runtime_receivers_built mp :
  mp ∈ ps -> IsRuntimeInputEnabled (input_of mp) = true ->
  let interval := ci_Runtime (bo_CollectionIntervals opts) in
  exists kubelet cluster,
    kubeletStatsReceiver (is_runtimeResources (pl_inputs p)) (pl_kubelet p) interval = Some kubelet /\
    k8sClusterReceiver (is_runtimeResources (pl_inputs p)) (pl_cluster p) interval = Some cluster /\
    cf_Receivers (b_Config b) !! ComponentIDKubeletStatsReceiver = Some (CKubeletStats kubelet) /\
    cf_Receivers (b_Config b) !! ComponentIDK8sClusterReceiver = Some (CK8sCluster cluster).
Proof.
  intros Hmp He interval.
  assert (Hin : ("metrics/input-runtime", runtime_pipeline p) ∈ metric_agent_pipelines opts qs).
  { unfold metric_agent_pipelines, input_pipelines. fold p. rewrite !elem_of_app. left; left.
    assert (is_runtime (pl_inputs p) = true) as ->; [|by left]. pose proof (source_on ps Runtime) as Hon.
    cbv beta iota in Hon. fold qs p in Hon. rewrite Hon. apply negb_true_iff, Nat.eqb_neq.
    assert (In mp (source_list ps Runtime)) as Hs; [|by destruct (source_list ps Runtime)].
    apply filter_In. split; [by apply list_elem_of_In, elem_of_sort|done]. }
  pose proof (closed_pipeline_of _ "metrics/input-runtime" (metric_agent_closed _ _ _ Hbuilt)) as (Hr & _).
  rewrite (built_pipeline ps opts b Hnames Hbuilt _ _ Hin) in Hr. cbn [runtime_pipeline sp_Receivers] in Hr.
  apply Forall_cons in Hr as [[c1 H1] Hr]. apply Forall_cons in Hr as [[c2 H2] _]. cbn in H1, H2.
  destruct (proj1 (built_receivers _ _ H1) eq_refl) as (kubelet & Hk & ->).
  destruct (proj2 (built_receivers _ _ H2) eq_refl) as (cluster & Hc & ->).
  by exists kubelet, cluster.
Qed.

End Configured.

(** C6. When the MetricPipelines have different names, none of which begins with
    drop-runtime, a MetricPipeline with the runtime input receives exactly the
    runtime metrics it asks for: of the metrics the two configured runtime
    receivers emit for all pipelines together, the runtime filters of its output
    pipeline let pass exactly those that the pipeline lists as additional
    metrics or that belong to a resource it enables. *)
Theorem metric_agent_runtime_exact `{SecretReader} `{URLOps} `{RuntimeReceiversLaws} ps opts b mp r :
  NoDup (map metric_name ps) -> Forall plain_name (map metric_name ps) -> Build ps opts = Some (Ok b) ->
  mp ∈ ps -> IsRuntimeInputEnabled (input_of mp) = true -> mi_Runtime (input_of mp) = Some r ->
  let c := b_Config b in
  exists kubelet cluster filters rest,
    cf_Receivers c !! ComponentIDKubeletStatsReceiver = Some (CKubeletStats kubelet) /\
    cf_Receivers c !! ComponentIDK8sClusterReceiver = Some (CK8sCluster cluster) /\
    sp_Processors (pipeline_of c (formatOutputMetricServicePipelineID mp)) = (map fst filters ++ rest)%list /\
    Forall (fun f => cf_Processors c !! f.1 = Some (CFilter (metric_filter [print f.2]))) filters /\
    forall m, emits kubelet cluster m && forallb (fun f => negb (holds InputSourceRuntime m f.2)) filters = true <->
      m ∈ validRuntimeMetrics /\ asked r m.
Proof.
  intros Hn Ha Hb Hmp He Hr c. set (qs := sort_by_name metric_name ps). set (p := plan_of qs).
  assert (Hq : mp ∈ qs) by by apply elem_of_sort.
  destruct (runtime_receivers_built ps opts b Hn Hb mp Hmp He) as (kubelet & cluster & Hk & Hc & Ek & Ec).
  exists kubelet, cluster, (filter_conds p mp r), (concat (drop 9 (output_processors p mp))). split_and!; try done.
  - unfold c. rewrite (output_built ps opts b Hn Hb mp Hmp). apply first_processors; done.
  - apply (filters_built ps opts b Hn Ha Hb); done.
  - intros m. by apply (runtime_filters_exact qs mp r (ci_Runtime (bo_CollectionIntervals opts))).
Qed.

(** ** The receivers and a sample *)

Module RuntimeSample.
#[export] Instance receivers : RuntimeReceivers := {|
  cluster_default_on m := negb (contains (optional_keys K8sClusterOptionalMetrics) m);
  kubelet_default_on m := negb (contains (optional_keys KubeletStatsOptionalMetrics) m);
  kubelet_group m :=
    if pattern_matches podMetricPattern m then MetricGroupTypePod
    else if pattern_matches containerMetricPattern m then MetricGroupTypeContainer
    else if pattern_matches nodeMetricPattern m then MetricGroupTypeNode
    else MetricGroupTypeVolume |}.

Definition group_agrees (m : string) (R : resource) : bool :=
  match group_name R with
  | Some g => negb (pattern_matches (pattern_of R) m) || str_eqb (kubelet_group m) g
  | None => true
  end.

#[export] Instance receivers_laws : RuntimeReceiversLaws.
Proof.
  split; [done..|]. intros R g m Hg Hm Hp.
  assert (Hc : forallb (fun m => forallb (group_agrees m) resources) KubeletStatsReceiverMetrics = true) by by vm_compute.
  pose proof (forallb_elem _ _ R (forallb_elem _ _ m Hc Hm) (elem_of_resources R)) as Ha.
  unfold group_agrees in Ha. rewrite Hg, Hp in Ha. by apply str_eqb_true in Ha.
Qed.
End RuntimeSample.
#[local] Existing Instance RuntimeSample.receivers.
#[local] Existing Instance RuntimeSample.receivers_laws.
#[local] Existing Instance MetricAgentSample.reader.
#[local] Existing Instance MetricAgentSample.urls.

Lemma metric_agent_runtime_exact_witness :
  exists kubelet cluster (filters : list (ComponentID * cond)),
    forall m, emits kubelet cluster m && forallb (fun f => negb (holds InputSourceRuntime m f.2)) filters = true <->
      m ∈ validRuntimeMetrics /\ asked MetricAgentSample.runtime m.
Proof.
  destruct (metric_agent_runtime_exact MetricAgentSample.ps MetricAgentSample.opts MetricAgentSample.result
              (MetricAgentSample.metric "b" (Some MetricAgentSample.runtime) false true) MetricAgentSample.runtime)
    as (kubelet & cluster & filters & rest & _ & _ & _ & _ & Hm).
  - by apply (bool_decide_unpack _).
  - by repeat constructor.
  - apply MetricAgentSample.metric_agent_built.
  - left.
  - reflexivity.
  - reflexivity.
  - by exists kubelet, cluster, filters.
Defined.
