(* ===== verification/OtlpGatewayReconciler.v ===== *)
(** * The OTLP gateway reconciler (internal/reconciler/otlpgateway/reconciler.go)

    It reads the references that the pipeline reconcilers have written to the
    coordination ConfigMap, fetches the pipelines that are still the ones referred to,
    and applies the gateway with their configuration, or deletes the gateway when there
    are none. The clean-up of the gateways of earlier versions
    (internal/resources/otelcollector) is part of it.

    [None] as a result is a panic. Logging is left out. *)
From stdpp Require Import base gmap strings list.
From S2P Require Import Prelude Kube GoErrors.
From S2P Require Import ApiV1beta1 ApiOperator SecretRef Coordination.
From S2P Require Import CollectorTypes CollectorBuilder CollectorProcessors CollectorExporter GatewayConfig.
From S2P Require Import K8sUtils TelemetryUtils.
From S2P Require Import CoordinationProps GatewayConfigProps.
Local Open Scope string_scope.

(** ** Interfaces *)

(** The kinds of objects that are cleaned up. Deleting needs no content. *)
Inductive kind :=
| KClusterRoleBinding | KClusterRole | KRoleBinding | KRole | KServiceAccount | KService
| KDeployment | KSecret | KConfigMap | KNetworkPolicy | KPeerAuthentication.

Class KindClient (W : Type) := kind_client : kind -> ObjectClient W unit.

(** [otelcollector.GatewayApplyOptions]; memory in bytes. *)
Record GatewayApplyOptions := mkGatewayApplyOptions {
  ga_CollectorConfigYAML : string;
  ga_CollectorEnvVars : EnvVars;
  ga_IstioEnabled : bool;
  ga_Replicas : Z;
  ga_ResourceRequirementsMultiplier : Z;
  ga_VpaCRDExists : bool;
  ga_VpaEnabled : bool;
  ga_VPAMaxAllowedMemory : Z
}.

(** The dependencies of the reconciler; [gw_overrides] is [None] without an overrides
    handler and otherwise tells whether the gateway is paused. *)
Class GatewayDependencies (W : Type) := {
  gw_get_trace : W -> string -> result TracePipeline apierror;
  gw_get_log : W -> string -> result LogPipeline apierror;
  gw_get_metric : W -> string -> result MetricPipeline apierror;
  gw_secrets : W -> SecretReader;
  gw_overrides : option (W -> result bool goerror);
  IsIstioActive : W -> result bool goerror;
  VpaCRDExists : W -> result bool goerror;
  VPAMaxAllowedMemory : W -> Z;
  marshal_config : Config -> result string goerror;
  ApplyResources : W -> GatewayApplyOptions -> W * option goerror;
  DeleteResources : W -> bool -> bool -> W * option goerror
}.

(** [config.Global] *)
Record Global := mkGlobal {
  gl_TargetNamespace : string; gl_DefaultTelemetryNamespace : string; gl_Version : string
}.

(** ** Gateways of earlier versions *)

Definition TraceGateway : string := "telemetry-trace-gateway".
Definition MetricGateway : string := "telemetry-metric-gateway".
Definition LogGateway : string := "telemetry-log-gateway".
Definition MetricsServiceName (componentName : string) : string := componentName +:+ "-metrics".
Definition LabelKeyK8sName : string := "app.kubernetes.io/name".

Section Cleanup.
Context {W : Type} `{KindClient W}.

(** [if err := DeleteObject(...); err != nil { allErrors = errors.Join(allErrors, wrapped) }] *)
Definition delete_and_join (message : string) (k : kind) (key : NamespacedName) (s : W * option goerror) :
    W * option goerror :=
  let '(w, allErrors) := s in
  let '(w, err) := DeleteObject (H := kind_client k) w key in
  (w, match err with
      | Some e => errors_join allErrors (Wrapf message (ApiError e) "")
      | None => allErrors
      end).

Definition deleteCommonResources (w : W) (name : NamespacedName) : W * option goerror :=
  let s := (w, None) in
  let s := delete_and_join "failed to delete cluster role binding: " KClusterRoleBinding name s in
  let s := delete_and_join "failed to delete cluster role: " KClusterRole name s in
  let s := delete_and_join "failed to delete role binding: " KRoleBinding name s in
  let s := delete_and_join "failed to delete role: " KRole name s in
  let s := delete_and_join "failed to delete service account: " KServiceAccount name s in
  delete_and_join "failed to delete metrics service: " KService
    (mkNN (nn_Namespace name) (MetricsServiceName (nn_Name name))) s.

Definition DeleteLegacyGatewayResources (w : W) (namespace gatewayName : string) (isIstioActive : bool) :
    W * option goerror :=
  let name := mkNN namespace gatewayName in
  let '(w, err) := deleteCommonResources w name in
  let s := (w, match err with Some e => errors_join None e | None => None end) in
  let s := delete_and_join ("failed to delete legacy gateway deployment " +:+ gatewayName +:+ ": ")
             KDeployment name s in
  let s := delete_and_join ("failed to delete legacy gateway secret " +:+ gatewayName +:+ ": ") KSecret name s in
  let s := delete_and_join ("failed to delete legacy gateway configmap " +:+ gatewayName +:+ ": ")
             KConfigMap name s in
  let '(w, allErrors) := s in
  let '(w, err) := DeleteObjectsByLabelSelector (H := kind_client KNetworkPolicy) w
                     {[LabelKeyK8sName := gatewayName]} in
  let s := (w, match err with
               | Some e => errors_join allErrors
                   (Wrapf ("failed to delete legacy gateway network policies " +:+ gatewayName +:+ ": ") (ApiError e) "")
               | None => allErrors
               end) in
  if isIstioActive
  then delete_and_join ("failed to delete legacy gateway peer authentication " +:+ gatewayName +:+ ": ")
         KPeerAuthentication name s
  else s.

Fixpoint delete_gateways (gateways : list string) (namespace : string) (isIstioActive : bool) (w : W) :
    W * option goerror :=
  match gateways with
  | [] => (w, None)
  | gatewayName :: rest =>
      match DeleteLegacyGatewayResources w namespace gatewayName isIstioActive with
      | (w, Some err) => (w, Some (Wrapf ("failed to delete legacy gateway " +:+ gatewayName +:+ ": ") err ""))
      | (w, None) => delete_gateways rest namespace isIstioActive w
      end
  end.

End Cleanup.

(** ** Fetching pipelines *)

(** The loop of the three fetch functions; [what] is the text of the error. *)
Fixpoint fetch_pipelines {P} (what : string) (get : string -> result P apierror) (meta : P -> ObjectMeta)
    (refs : list PipelineReference) : result (list P) goerror :=
  match refs with
  | [] => Ok []
  | ref :: rest =>
      match get (ref_Name ref) with
      | Err e =>
          if IsNotFound e then fetch_pipelines what get meta rest
          else Err (Wrapf (what +:+ ref_Name ref +:+ ": ") (ApiError e) "")
      | Ok pipeline =>
          if om_Deleted (meta pipeline) then fetch_pipelines what get meta rest
          else if negb (om_Generation (meta pipeline) =? ref_Generation ref)%Z
          then fetch_pipelines what get meta rest
          else match fetch_pipelines what get meta rest with
               | Ok pipelines => Ok (pipeline :: pipelines)
               | Err e => Err e
               end
      end
  end.

Section Reconciler.
Context {W : Type} `{ConfigMapClient W} `{TelemetryReader W} `{KindClient W} `{GatewayDependencies W}.
Context `{GatewayYAML} `{URLOps} (globals : Global).

Definition cleanupLegacyGateways (w : W) : W * option goerror :=
  match IsIstioActive w with
  | Err err => (w, Some (Wrapf "failed to check Istio status: " err ""))
  | Ok isIstioActive =>
      delete_gateways [TraceGateway; MetricGateway; LogGateway] (gl_TargetNamespace globals) isIstioActive w
  end.

Definition fetchTracePipelines (w : W) (refs : list PipelineReference) : result (list TracePipeline) goerror :=
  fetch_pipelines "failed to get pipeline " (gw_get_trace w) tp_ObjectMeta refs.
Definition fetchLogPipelines (w : W) (refs : list PipelineReference) : result (list LogPipeline) goerror :=
  fetch_pipelines "failed to get log pipeline " (gw_get_log w) lp_ObjectMeta refs.
Definition fetchMetricPipelines (w : W) (refs : list PipelineReference) : result (list MetricPipeline) goerror :=
  fetch_pipelines "failed to get metric pipeline " (gw_get_metric w) mp_ObjectMeta refs.

(** The options the configuration is built with. *)
Definition build_options (w : W) (clusterUID : string) (vpaCRDExists : bool) (tracePipelines : list TracePipeline)
    (logPipelines : list LogPipeline) (metricPipelines : list MetricPipeline) : BuildOptions :=
  let namespace := gl_DefaultTelemetryNamespace globals in
  let enrichments :=
    match GetDefaultTelemetryInstance w namespace with
    | Ok t => tes_Enrichments (tel_Spec t)
    | Err _ => None
    end in
  mkBuildOptions logPipelines tracePipelines metricPipelines
    (mkClusterOptions (GetClusterNameFromTelemetry w namespace) clusterUID
       (ci_CloudProvider (GetGardenerShootInfo w)))
    enrichments (GetServiceEnrichmentFromTelemetryOrDefault w namespace)
    (gl_Version globals) (gl_TargetNamespace globals)
    (vpaCRDExists && IsVpaEnabledInTelemetry w namespace).

Definition buildCollectorConfig (w : W) (tracePipelines : list TracePipeline) (logPipelines : list LogPipeline)
    (metricPipelines : list MetricPipeline) : outcome :=
  match GetClusterUID w with
  | Err err => Some (Err (Wrapf "failed to get cluster uid: " (ApiError err) ""))
  | Ok clusterUID =>
      match VpaCRDExists w with
      | Err err => Some (Err (Wrapf "failed to get VPA CRD: " err ""))
      | Ok vpaCRDExists =>
          Build (H := gw_secrets w)
            (build_options w clusterUID vpaCRDExists tracePipelines logPipelines metricPipelines)
      end
  end.

Definition processConfigAndBuildResources (w : W) (tracePipelines : list TracePipeline)
    (logPipelines : list LogPipeline) (metricPipelines : list MetricPipeline) : option (W * option goerror) :=
  match buildCollectorConfig w tracePipelines logPipelines metricPipelines with
  | None => None
  | Some (Err err) => Some (w, Some (Wrapf "failed to build config: " err ""))
  | Some (Ok b) =>
      match marshal_config (b_Config b) with
      | Err err => Some (w, Some (Wrapf "failed to marshal config: " err ""))
      | Ok collectorConfigYAML =>
          match IsIstioActive w with
          | Err err => Some (w, Some (Wrapf "failed to check Istio status: " err ""))
          | Ok isIstioActive =>
              match VpaCRDExists w with
              | Err err => Some (w, Some (Wrapf "failed to check VPA CRD: " err ""))
              | Ok vpaCRDExists =>
                  Some (ApplyResources w (mkGatewayApplyOptions collectorConfigYAML (b_EnvVars b) isIstioActive 0
                          (Z.of_nat (length tracePipelines + length logPipelines + length metricPipelines))
                          vpaCRDExists (IsVpaEnabledInTelemetry w (gl_DefaultTelemetryNamespace globals))
                          (VPAMaxAllowedMemory w)))
              end
          end
      end
  end.

(** The branch without pipelines. *)
Definition delete_gateway (w : W) : W * option goerror :=
  match IsIstioActive w with
  | Err err => (w, Some (Wrapf "failed to check Istio status: " err ""))
  | Ok isIstioActive =>
      match VpaCRDExists w with
      | Err err => (w, Some (Wrapf "failed to check VPA CRD: " err ""))
      | Ok vpaCRDExists =>
          match DeleteResources w isIstioActive vpaCRDExists with
          | (w, Some err) => (w, Some (Wrapf "failed to delete gateway: " err ""))
          | (w, None) => (w, None)
          end
      end
  end.

Definition doReconcile (w : W) : option (W * option goerror) :=
  match cleanupLegacyGateways w with
  | (w, Some err) => Some (w, Some (Wrapf "failed to clean up legacy gateways: " err ""))
  | (w, None) =>
      match ReadOTLPGatewayConfig w (gl_TargetNamespace globals) with
      | Err err => Some (w, Some (Wrapf "failed to read configmap: " err ""))
      | Ok config =>
          match fetchTracePipelines w (elems (gw_Trace config)) with
          | Err err => Some (w, Some (Wrapf "failed to fetch trace pipelines: " err ""))
          | Ok tracePipelines =>
              match fetchLogPipelines w (elems (gw_Log config)) with
              | Err err => Some (w, Some (Wrapf "failed to fetch log pipelines: " err ""))
              | Ok logPipelines =>
                  match fetchMetricPipelines w (elems (gw_Metric config)) with
                  | Err err => Some (w, Some (Wrapf "failed to fetch metric pipelines: " err ""))
                  | Ok metricPipelines =>
                      if (length tracePipelines =? 0)%nat && (length logPipelines =? 0)%nat
                         && (length metricPipelines =? 0)%nat
                      then Some (delete_gateway w)
                      else processConfigAndBuildResources w tracePipelines logPipelines metricPipelines
                  end
              end
          end
      end
  end.

Definition Reconcile (w : W) : option (W * option goerror) :=
  match gw_overrides with
  | None => doReconcile w
  | Some loadOverrides =>
      match loadOverrides w with
      | Err err => Some (w, Some err)
      | Ok paused => if (paused : bool) then Some (w, None) else doReconcile w
      end
  end.

End Reconciler.

(** ** Properties of the OTLP gateway reconciler

    The gateway is applied with the configuration of exactly the pipelines that are
    referenced at their present generation, and deleted when there are none; together
    with the TracePipeline reconciler, a pipeline that was accepted is served. *)

(** ** Fetching *)

(** The pipeline a reference stands for, if it is still the one referred to. *)
Definition current_pipeline {P} (get : string -> result P apierror) (meta : P -> ObjectMeta)
    (ref : PipelineReference) : option P :=
  match get (ref_Name ref) with
  | Ok p => if negb (om_Deleted (meta p)) && (om_Generation (meta p) =? ref_Generation ref)%Z then Some p else None
  | Err _ => None
  end.

Lemma fetch_pipelines_ok {P} what (get : string -> result P apierror) meta (refs : list PipelineReference) ps :
  fetch_pipelines what get meta refs = Ok ps -> ps = omap (current_pipeline get meta) refs.
Proof.
  revert ps. induction refs as [|ref refs IH]; intros ps; simpl; [congruence|].
  unfold current_pipeline at 1. destruct (get (ref_Name ref)) as [p|e].
  - destruct (om_Deleted (meta p)); simpl; [apply IH|].
    destruct (om_Generation (meta p) =? ref_Generation ref)%Z; simpl; [|apply IH].
    destruct (fetch_pipelines what get meta refs) as [qs|]; [|done]. intros [= <-]. f_equal. by apply IH.
  - destruct (IsNotFound e); [apply IH|done].
Qed.

Lemma elem_of_current {P} (get : string -> result P apierror) meta (refs : list PipelineReference) p :
  p ∈ omap (current_pipeline get meta) refs <->
  exists ref, ref ∈ refs /\ get (ref_Name ref) = Ok p /\ om_Deleted (meta p) = false /\
    om_Generation (meta p) = ref_Generation ref.
Proof.
  rewrite list_elem_of_omap. unfold current_pipeline. split.
  - intros (ref & Hr & Hp). exists ref. destruct (get (ref_Name ref)) as [q|]; [|done].
    destruct (om_Deleted (meta q)) eqn:Hd; simpl in Hp; [done|].
    destruct (_ =? _)%Z eqn:Hg; [|done]. simplify_eq. apply Z.eqb_eq in Hg. done.
  - intros (ref & Hr & Hg & Hd & Hge). exists ref. split; [done|]. rewrite Hg, Hd, Hge, Z.eqb_refl. done.
Qed.

(** Distinct references stand for pipelines of distinct names. *)
Lemma current_distinct {P} (get : string -> result P apierror) meta (refs : list PipelineReference) :
  (forall n p, get n = Ok p -> om_Name (meta p) = n) -> NoDup (ref_Name <$> refs) ->
  NoDup (map (fun p => om_Name (meta p)) (omap (current_pipeline get meta) refs)).
Proof.
  intros Hn. induction refs as [|ref refs IH]; csimpl; [constructor|]. intros [Hr Hd]%NoDup_cons.
  specialize (IH Hd). destruct (current_pipeline get meta ref) as [p|] eqn:Hc; [|done]. cbn [map].
  apply NoDup_cons. split; [|done]. intros (q & Hq & Hin)%list_elem_of_fmap.
  apply elem_of_current in Hin as (ref' & Hr' & Hg & _ & _). apply Hn in Hg. apply Hr.
  unfold current_pipeline in Hc. destruct (get (ref_Name ref)) as [p'|] eqn:Hp; [|done].
  destruct (_ && _); [|done]. simplify_eq. apply Hn in Hp.
  apply list_elem_of_fmap. exists ref'. split; [|done]. cbn in Hq. congruence.
Qed.

(** ** Reconciling *)

Section Reconcile.
Context {W : Type} `{ConfigMapClient W} `{TelemetryReader W} `{KindClient W} `{GatewayDependencies W}.
Context `{GatewayYAML} `{URLOps} (globals : Global).

(** A read returns the pipeline of that name. *)
Class GatewayReadLaws := {
  gw_trace_name (w : W) n p : gw_get_trace w n = Ok p -> trace_name p = n;
  gw_log_name (w : W) n p : gw_get_log w n = Ok p -> log_name p = n;
  gw_metric_name (w : W) n p : gw_get_metric w n = Ok p -> metric_name p = n
}.

Definition current_traces (w : W) (c : OTLPGatewayConfigMap) : list TracePipeline :=
  omap (current_pipeline (gw_get_trace w) tp_ObjectMeta) (references c SignalTypeTrace).
Definition current_logs (w : W) (c : OTLPGatewayConfigMap) : list LogPipeline :=
  omap (current_pipeline (gw_get_log w) lp_ObjectMeta) (references c SignalTypeLog).
Definition current_metrics (w : W) (c : OTLPGatewayConfigMap) : list MetricPipeline :=
  omap (current_pipeline (gw_get_metric w) mp_ObjectMeta) (references c SignalTypeMetric).

(** The gateway was applied with the configuration [b], built for the current pipelines. *)
Definition applied_gateway (w : W) (c : OTLPGatewayConfigMap) (opts : BuildOptions) (b : builder) (w' : W) : Prop :=
  bo_TracePipelines opts = current_traces w c /\ bo_LogPipelines opts = current_logs w c /\
  bo_MetricPipelines opts = current_metrics w c /\
  Build (H := gw_secrets w) opts = Some (Ok b) /\
  exists apply, marshal_config (b_Config b) = Ok (ga_CollectorConfigYAML apply) /\
    ga_CollectorEnvVars apply = b_EnvVars b /\
    ga_ResourceRequirementsMultiplier apply =
      Z.of_nat (length (current_traces w c) + length (current_logs w c) + length (current_metrics w c)) /\
    ApplyResources w apply = (w', None).

Definition no_pipelines (w : W) (c : OTLPGatewayConfigMap) : Prop :=
  current_traces w c = [] /\ current_logs w c = [] /\ current_metrics w c = [].

Lemma process_applies (w w' : W) ts ls ms :
  processConfigAndBuildResources globals w ts ls ms = Some (w', None) ->
  exists opts b apply, bo_TracePipelines opts = ts /\ bo_LogPipelines opts = ls /\ bo_MetricPipelines opts = ms /\
    Build (H := gw_secrets w) opts = Some (Ok b) /\ marshal_config (b_Config b) = Ok (ga_CollectorConfigYAML apply) /\
    ga_CollectorEnvVars apply = b_EnvVars b /\
    ga_ResourceRequirementsMultiplier apply = Z.of_nat (length ts + length ls + length ms) /\
    ApplyResources w apply = (w', None).
Proof.
  unfold processConfigAndBuildResources, buildCollectorConfig.
  destruct (GetClusterUID w) as [uid|]; [|done]. destruct (VpaCRDExists w) as [vpa|] eqn:Hv; [|done].
  destruct (Build _) as [[b|]|] eqn:Hb; [|done..]. destruct (marshal_config (b_Config b)) as [yaml|] eqn:Hm; [|done].
  destruct (IsIstioActive w) as [istio|]; [|done]. intros [= Ha].
  eexists _, b, _. split_and!; [..|exact Ha]; [| | |exact Hb|exact Hm|done|done]; done.
Qed.

Lemma gateway_doReconcile_cases (w w' : W) :
  doReconcile globals w = Some (w', None) ->
  exists w1 c, cleanupLegacyGateways globals w = (w1, None) /\
    ReadOTLPGatewayConfig w1 (gl_TargetNamespace globals) = Ok c /\
    ((no_pipelines w1 c /\ exists istio vpa, DeleteResources w1 istio vpa = (w', None)) \/
     (~ no_pipelines w1 c /\ exists opts b, applied_gateway w1 c opts b w')).
Proof.
  unfold doReconcile. destruct (cleanupLegacyGateways globals w) as [w1 [e|]]; [done|].
  destruct (ReadOTLPGatewayConfig w1 _) as [c|] eqn:Hc; [|done].
  destruct (fetchTracePipelines w1 _) as [ts|] eqn:Ht; [|done].
  destruct (fetchLogPipelines w1 _) as [ls|] eqn:Hl; [|done].
  destruct (fetchMetricPipelines w1 _) as [ms|] eqn:Hm; [|done].
  apply fetch_pipelines_ok in Ht as ->. apply fetch_pipelines_ok in Hl as ->. apply fetch_pipelines_ok in Hm as ->.
  change (omap _ (elems (gw_Trace c))) with (current_traces w1 c).
  change (omap _ (elems (gw_Log c))) with (current_logs w1 c).
  change (omap _ (elems (gw_Metric c))) with (current_metrics w1 c).
  intros Hr. exists w1, c. split_and!; [done..|]. destruct (_ && _) eqn:He.
  - left. apply andb_prop in He as [[He1 He2]%andb_prop He3]. apply Nat.eqb_eq in He1, He2, He3. split.
    { split; [by apply length_zero_iff_nil|]. split; by apply length_zero_iff_nil. }
    injection Hr as Hr. unfold delete_gateway in Hr. destruct (IsIstioActive w1) as [istio|]; [|done].
    destruct (VpaCRDExists w1) as [vpa|]; [|done].
    destruct (DeleteResources w1 istio vpa) as [w2 [e|]] eqn:Hd; simplify_eq. eauto.
  - right. split.
    { intros (E1 & E2 & E3). by rewrite E1, E2, E3 in He. }
    apply process_applies in Hr as (opts & b & apply & Ht & Hl & Hm & Hb & Hy & He' & Hx & Ha).
    exists opts, b. unfold applied_gateway. split_and!; [done..|]. exists apply. split_and!; done.
Qed.

(** The names of the pipelines of a configuration are distinct. *)
Lemma applied_distinct `{!GatewayReadLaws} w c opts b w' :
  config_wf c -> applied_gateway w c opts b w' -> distinct_names opts.
Proof.
  intros Hwf (Ht & Hl & Hm & _). unfold distinct_names. rewrite Ht, Hl, Hm. split_and!.
  - apply (current_distinct (gw_get_trace w) tp_ObjectMeta); [apply gw_trace_name|apply Hwf].
  - apply (current_distinct (gw_get_log w) lp_ObjectMeta); [apply gw_log_name|apply Hwf].
  - apply (current_distinct (gw_get_metric w) mp_ObjectMeta); [apply gw_metric_name|apply Hwf].
Qed.

End Reconcile.

(** ** The clean-up leaves the rest of the cluster alone *)

(** Documented behaviour of the API server: deleting an object does not change other
    ConfigMaps or the pipelines. *)
Class CleanupLaws (W : Type) `{ConfigMapClient W} `{KindClient W} `{GatewayDependencies W} := {
  kind_delete_cm (w : W) k key w' e key' :
    obj_delete (ObjectClient := kind_client k) w key = (w', e) -> (k = KConfigMap -> key <> key') ->
    cm_get w' key' = cm_get w key';
  kind_delete_trace (w : W) k key w' e n :
    obj_delete (ObjectClient := kind_client k) w key = (w', e) -> gw_get_trace w' n = gw_get_trace w n;
  kind_delete_log (w : W) k key w' e n :
    obj_delete (ObjectClient := kind_client k) w key = (w', e) -> gw_get_log w' n = gw_get_log w n;
  kind_delete_metric (w : W) k key w' e n :
    obj_delete (ObjectClient := kind_client k) w key = (w', e) -> gw_get_metric w' n = gw_get_metric w n
}.

Section Cleanup.
Context {W : Type} `{CleanupLaws W}.

(** The ConfigMap [key] and the pipelines are the same in both states. *)
Definition same_view (key : NamespacedName) (w w' : W) : Prop :=
  cm_get w' key = cm_get w key /\ (forall n, gw_get_trace w' n = gw_get_trace w n) /\
  (forall n, gw_get_log w' n = gw_get_log w n) /\ (forall n, gw_get_metric w' n = gw_get_metric w n).

#[export] Instance same_view_refl key : Reflexive (same_view key).
Proof. intros w. by split_and!. Qed.

#[export] Instance same_view_trans key : Transitive (same_view key).
Proof.
  intros w1 w2 w3 (A1 & A2 & A3 & A4) (B1 & B2 & B3 & B4). split_and!; [congruence|..]; intros n;
    [by rewrite B2|by rewrite B3|by rewrite B4].
Qed.

Lemma obj_delete_view key w k name w' e :
  obj_delete (ObjectClient := kind_client k) w name = (w', e) -> (k = KConfigMap -> name <> key) -> same_view key w w'.
Proof.
  intros Hd Hk. split_and!; [by eapply kind_delete_cm|..]; intros n;
    [by eapply kind_delete_trace|by eapply kind_delete_log|by eapply kind_delete_metric].
Qed.

Lemma delete_and_join_view key message k name (s s' : W * option goerror) :
  delete_and_join message k name s = s' -> (k = KConfigMap -> name <> key) -> same_view key s.1 s'.1.
Proof.
  intros <- Hk. unfold delete_and_join, DeleteObject. destruct s as [w err].
  destruct (obj_delete w name) as [w1 e1] eqn:Hd. by eapply obj_delete_view.
Qed.

Lemma delete_items_view key k items w w' e :
  k <> KConfigMap -> delete_items (H := kind_client k) items w = (w', e) -> same_view key w w'.
Proof.
  intros Hk. revert w. induction items as [|o items IH]; intros w; simpl; [by intros [= <- _]|].
  destruct (obj_delete w _) as [w1 [e1|]] eqn:Hd.
  - intros [= <- _]. by eapply obj_delete_view.
  - intros Hi. etrans; [by eapply obj_delete_view|]. by apply IH.
Qed.

Lemma deleteCommonResources_view key w name w' e :
  deleteCommonResources w name = (w', e) -> same_view key w w'.
Proof.
  unfold deleteCommonResources.
  set (s1 := delete_and_join _ KClusterRoleBinding _ _). set (s2 := delete_and_join _ KClusterRole _ _).
  set (s3 := delete_and_join _ KRoleBinding _ _). set (s4 := delete_and_join _ KRole _ _).
  set (s5 := delete_and_join _ KServiceAccount _ _). intros Hs.
  trans s1.1; [by apply (delete_and_join_view key _ _ _ _ s1 eq_refl)|].
  trans s2.1; [by apply (delete_and_join_view key _ _ _ _ s2 eq_refl)|].
  trans s3.1; [by apply (delete_and_join_view key _ _ _ _ s3 eq_refl)|].
  trans s4.1; [by apply (delete_and_join_view key _ _ _ _ s4 eq_refl)|].
  trans s5.1; [by apply (delete_and_join_view key _ _ _ _ s5 eq_refl)|].
  by apply (delete_and_join_view key _ _ _ _ (w', e) Hs).
Qed.

Lemma DeleteLegacy_view key w namespace gateway istio w' e :
  mkNN namespace gateway <> key -> DeleteLegacyGatewayResources w namespace gateway istio = (w', e) ->
  same_view key w w'.
Proof.
  intros Hk. unfold DeleteLegacyGatewayResources. destruct (deleteCommonResources w _) as [w1 e1] eqn:Hcommon.
  set (s1 := delete_and_join _ KDeployment _ _). set (s2 := delete_and_join _ KSecret _ _).
  set (s3 := delete_and_join _ KConfigMap _ _). intros Hs.
  trans w1; [by eapply deleteCommonResources_view|].
  trans s1.1; [by apply (delete_and_join_view key _ _ _ _ s1 eq_refl)|].
  trans s2.1; [by apply (delete_and_join_view key _ _ _ _ s2 eq_refl)|].
  trans s3.1; [by apply (delete_and_join_view key _ _ _ _ s3 eq_refl)|].
  destruct s3 as [w2 e2]. cbn [fst].
  destruct (DeleteObjectsByLabelSelector w2 _) as [w3 e3] eqn:Hsel.
  assert (Hv : same_view key w2 w3).
  { unfold DeleteObjectsByLabelSelector in Hsel. destruct (obj_list w2 _); [|by simplify_eq].
    by apply (delete_items_view key KNetworkPolicy _ _ _ _ ltac:(discriminate) Hsel). }
  trans w3; [done|]. destruct istio; [|by simplify_eq].
  by apply (delete_and_join_view key _ _ _ _ (w', e) Hs).
Qed.

Lemma cleanup_view globals w w' e :
  cleanupLegacyGateways globals w = (w', e) -> same_view (coordination_key (gl_TargetNamespace globals)) w w'.
Proof.
  unfold cleanupLegacyGateways. destruct (IsIstioActive w) as [istio|]; [|by intros [= <- _]].
  assert (Hg : Forall (fun g => mkNN (gl_TargetNamespace globals) g <> coordination_key (gl_TargetNamespace globals))
                 [TraceGateway; MetricGateway; LogGateway]).
  { repeat (apply Forall_cons; split; [intros He; discriminate He|]). constructor. }
  revert w. induction Hg as [|g gs Hg _ IH]; intros w; cbn [delete_gateways]; [by intros [= <- _]|].
  destruct (DeleteLegacyGatewayResources w _ g istio) as [w1 [e1|]] eqn:Hd.
  - intros [= <- _]. by eapply DeleteLegacy_view.
  - intros Hr. etrans; [by eapply DeleteLegacy_view|]. by apply IH.
Qed.

End Cleanup.
