(* ===== verification/GatewayEndToEnd.v ===== *)
(** * From an accepted pipeline to the gateway

    The TracePipeline reconciler writes the reference of an accepted pipeline to the
    coordination ConfigMap; the OTLP gateway reconciler reads it and applies the gateway.
    The theorems of this file compose the two. *)
From stdpp Require Import base gmap strings list.
From S2P Require Import Prelude Kube GoErrors.
From S2P Require Import ApiV1beta1 ApiOperator SecretRef Coordination CoordinationProps Lock Validators Reconcile.
From S2P Require Import CollectorTypes CollectorBuilder CollectorBuilderProps CollectorProcessors CollectorExporter.
From S2P Require Import GatewayConfig GatewayConfigProps K8sUtils TelemetryUtils.
From S2P Require Import OtlpGatewayReconciler SampleCluster.
From S2P Require TraceReconciler TraceReconcilerProps.
Local Open Scope string_scope.

(** A registered pipeline is among the references. *)
Lemma registry_reference c t n g v :
  registry_of c t !! n = Some (g, v) -> exists ref, ref ∈ references c t /\ ref_Name ref = n /\ ref_Generation ref = g.
Proof.
  unfold registry_of. intros Hl. apply elem_of_list_to_map_2 in Hl.
  apply list_elem_of_fmap in Hl as (ref & He & Hr). exists ref. unfold entry_of in He. by simplify_eq.
Qed.

Lemma current_ext {P} (get get' : string -> result P apierror) meta (refs : list PipelineReference) :
  (forall n, get n = get' n) -> omap (current_pipeline get meta) refs = omap (current_pipeline get' meta) refs.
Proof.
  intros He. induction refs as [|ref refs IH]; csimpl; [done|].
  assert (Hc : current_pipeline get meta ref = current_pipeline get' meta ref)
    by (unfold current_pipeline; by rewrite He).
  by rewrite Hc, IH.
Qed.

Section EndToEnd.
Context {W : Type} `{CleanupLaws W} `{TelemetryReader W} `{!GatewayReadLaws (W:=W)}.
Context `{GatewayYAML} `{URLOps} (globals : Global).

(** What a successful reconciliation has done. *)
Lemma gateway_reconciliation (w w' : W) c :
  ReadOTLPGatewayConfig w (gl_TargetNamespace globals) = Ok c -> config_wf c ->
  doReconcile globals w = Some (w', None) ->
  exists w1, cleanupLegacyGateways globals w = (w1, None) /\
    ((no_pipelines w c /\ exists istio vpa, DeleteResources w1 istio vpa = (w', None)) \/
     (~ no_pipelines w c /\ exists opts b, applied_gateway w1 c opts b w' /\
        bo_TracePipelines opts = current_traces w c /\ bo_LogPipelines opts = current_logs w c /\
        bo_MetricPipelines opts = current_metrics w c /\
        closed (b_Config b) /\
        svc_Pipelines (cf_Service (b_Config b)) = list_to_map (gateway_pipelines opts))).
Proof.
  intros Hc Hwf Hr. destruct (gateway_doReconcile_cases globals w w' Hr) as (w1 & c1 & Hclean & Hread & Hcase).
  exists w1. split; [done|]. destruct (cleanup_view globals w w1 None Hclean) as (V1 & V2 & V3 & V4).
  assert (c1 = c) as ->.
  { rewrite (ReadOTLPGatewayConfig_frame w w1) in Hread by done. congruence. }
  assert (Ht : current_traces w1 c = current_traces w c).
  { by apply current_ext. }
  assert (Hl : current_logs w1 c = current_logs w c).
  { by apply current_ext. }
  assert (Hm : current_metrics w1 c = current_metrics w c).
  { by apply current_ext. }
  destruct Hcase as [[Hno Hd]|[Hno (opts & b & Ha)]].
  - left. split; [|done]. unfold no_pipelines in *. by rewrite <- Ht, <- Hl, <- Hm.
  - right. split. { unfold no_pipelines in *. by rewrite <- Ht, <- Hl, <- Hm. }
    exists opts, b. split; [done|]. pose proof Ha as (A1 & A2 & A3 & Hb & _).
    split_and!; [congruence|congruence|congruence|by eapply Build_closed|].
    eapply Build_service_pipelines; [by eapply applied_distinct|exact Hb].
Qed.

(** C4. A successful reconciliation of the OTLP gateway either deletes it,
    exactly when no referenced pipeline is current, or applies the configuration
    of exactly the pipelines of the coordination ConfigMap that exist, are not
    in deletion and still have the generation recorded there; that configuration
    is closed and has one service pipeline per signal pipeline. *)
Theorem gateway_serves_current_pipelines (w w' : W) c :
  ReadOTLPGatewayConfig w (gl_TargetNamespace globals) = Ok c -> config_wf c ->
  doReconcile globals w = Some (w', None) ->
  exists w1, cleanupLegacyGateways globals w = (w1, None) /\
    ((no_pipelines w c /\ exists istio vpa, DeleteResources w1 istio vpa = (w', None)) \/
     (~ no_pipelines w c /\ exists opts b, applied_gateway w1 c opts b w' /\
        bo_TracePipelines opts = current_traces w c /\ bo_LogPipelines opts = current_logs w c /\
        bo_MetricPipelines opts = current_metrics w c /\
        closed (b_Config b) /\
        svc_Pipelines (cf_Service (b_Config b)) = list_to_map (gateway_pipelines opts))).
Proof. apply gateway_reconciliation. Qed.

End EndToEnd.

(** ** Composition with the TracePipeline reconciler *)

Section TraceToGateway.
Context {W : Type} `{PipelineValidators W TracePipeline} `{PipelineCluster W TracePipeline}.
Context `{ConfigMapLaws W} `{GatewayYAMLLaws} `{OwnerSetterLaws} `{StatusSetter}.
Context `{TelemetryReader W} `{KindClient W} `{GatewayDependencies W} `{!CleanupLaws W} `{!GatewayReadLaws (W:=W)}.
Context `{URLOps}.

(** C3. End to end: when the TracePipeline reconciler succeeds for a pipeline it
    accepted and the OTLP gateway reconciler then succeeds, the gateway was
    applied with the configuration and environment variables that Build produced
    from options containing that pipeline, and this configuration has the
    service pipeline of the pipeline with its own processors and exporter. *)
Theorem accepted_trace_pipeline_is_served r globals (w w1 w' w'' : W) p c :
  gl_TargetNamespace globals = rc_TargetNamespace r ->
  ck_lockName (rc_pipelineLock r) <> coordination_key (rc_TargetNamespace r) ->
  ReadOTLPGatewayConfig w (rc_TargetNamespace r) = Ok c -> config_wf c ->
  TraceReconciler.doReconcile r w p = Some (w', None) ->
  TryAcquireLock (rc_pipelineLock r) w (owner_of (tp_ObjectMeta p)) = (w1, None) ->
  TraceReconciler.isReconcilable w1 p = Ok true ->
  gw_get_trace w' (om_Name (tp_ObjectMeta p)) = Ok p -> om_Deleted (tp_ObjectMeta p) = false ->
  doReconcile globals w' = Some (w'', None) ->
  exists opts b w2 apply, p ∈ bo_TracePipelines opts /\ Build (H := gw_secrets w2) opts = Some (Ok b) /\
    marshal_config (b_Config b) = Ok (ga_CollectorConfigYAML apply) /\ ga_CollectorEnvVars apply = b_EnvVars b /\
    ApplyResources w2 apply = (w'', None) /\
    svc_Pipelines (cf_Service (b_Config b)) !! formatTraceServicePipelineID p = Some (trace_service_pipeline opts p).
Proof.
  intros Hns Hlock Hc Hwf Htrace Hacq Hrec Hget Hdel Hgw.
  pose proof (TraceReconcilerProps.trace_reconciliation_publishes r w p w' c Hlock Hc Hwf Htrace) as Hp.
  rewrite Hacq in Hp. destruct Hp as (rec & x & c' & Hrec' & Hread & Hwf' & [Hreg _] & Hx).
  rewrite Hrec in Hrec'. injection Hrec' as <-. destruct Hx as (refs & versions & _ & _ & ->).
  rewrite <- Hns in Hread. destruct (gateway_reconciliation globals w' w'' c' Hread Hwf' Hgw) as (w2 & _ & Hcase).
  apply registry_reference in Hreg as (ref & Hin & Hname & Hgen).
  assert (Hcur : p ∈ current_traces w' c').
  { apply elem_of_current. exists ref. rewrite Hname. split_and!; [exact Hin|exact Hget|exact Hdel|by symmetry]. }
  destruct Hcase as [[(Hno & _) _]|(_ & opts & b & Hgate & Ht & _ & _ & _ & Hs)].
  { rewrite Hno in Hcur. by apply not_elem_of_nil in Hcur. }
  pose proof (applied_distinct w2 c' opts b w'' Hwf' Hgate) as Hd.
  destruct Hgate as (_ & _ & _ & Hb & apply & Hy & He & _ & Ha).
  exists opts, b, w2, apply. split_and!; [by rewrite Ht|done..|]. rewrite Hs.
  apply elem_of_list_to_map_1; [by apply gateway_ids|]. unfold gateway_pipelines. rewrite elem_of_app. left.
  apply list_elem_of_fmap. exists p. by rewrite Ht.
Qed.

End TraceToGateway.

(** ** A concrete run *)

Module GatewaySample.
Abbreviation world := (cluster TracePipeline).

(** A cluster without objects of earlier gateways, Telemetry resources and other
    pipelines. *)
#[export] Instance telemetry : TelemetryReader world := {|
  tel_get _ _ := Err NotFound; namespace_uid _ _ := Ok "uid" |}.
#[export] Instance kinds : KindClient world := fun _ => {|
  obj_get _ _ := Err NotFound; obj_list _ _ := Ok [];
  obj_create w _ := (w, None); obj_update w _ := (w, Some NotFound); obj_delete w _ := (w, Some NotFound) |}.
#[export] Instance dependencies : GatewayDependencies world := {|
  gw_get_trace w n := pl_get w n;
  gw_get_log _ _ := Err NotFound;
  gw_get_metric _ _ := Err NotFound;
  gw_secrets _ := fun _ => Err NotFound;
  gw_overrides := None;
  IsIstioActive _ := Ok true;
  VpaCRDExists _ := Ok false;
  VPAMaxAllowedMemory _ := 0%Z;
  marshal_config _ := Ok "config";
  ApplyResources w _ := (w, None);
  DeleteResources w _ _ := (w, None)
|}.
#[export] Instance cleanup_laws : CleanupLaws world.
Proof. split; by intros w k key w' e ? [= <- _]. Qed.
#[export] Instance read_laws : GatewayReadLaws (W := world).
Proof.
  split; [|done..]. intros w n p. cbn. unfold find_pipeline. destruct (List.find _ _) as [q|] eqn:Hf; [|done].
  intros [= <-]. apply List.find_some in Hf as [_ Hf]. by apply str_eqb_true in Hf.
Qed.
#[export] Instance urls : URLOps := {|
  url_t := string; url_Parse s := Ok s; url_Path s := s; url_RawQuery _ := "";
  url_with _ p _ := p; url_String s := s; path_Join a b := a +:+ b |}.

Definition globals : Global := mkGlobal "kyma-system" "kyma-system" "1.0.0".

(** The cluster after the TracePipeline reconciler. *)
Definition published : world :=
  match TraceReconciler.doReconcile TraceReconcilerProps.Sample.config TraceReconcilerProps.Sample.world0
          TraceReconcilerProps.Sample.pipeline with
  | Some (w, None) => w
  | _ => TraceReconcilerProps.Sample.world0
  end.
Definition locked : world :=
  (TryAcquireLock (rc_pipelineLock TraceReconcilerProps.Sample.config) TraceReconcilerProps.Sample.world0
     (owner_of (tp_ObjectMeta TraceReconcilerProps.Sample.pipeline))).1.
End GatewaySample.
#[local] Existing Instances GatewaySample.telemetry GatewaySample.kinds GatewaySample.dependencies
  GatewaySample.cleanup_laws GatewaySample.read_laws GatewaySample.urls.

Lemma accepted_trace_pipeline_is_served_witness :
  exists opts b, TraceReconcilerProps.Sample.pipeline ∈ bo_TracePipelines opts /\
    svc_Pipelines (cf_Service (b_Config b)) !! "traces/backend" =
      Some (trace_service_pipeline opts TraceReconcilerProps.Sample.pipeline).
Proof.
  destruct (accepted_trace_pipeline_is_served TraceReconcilerProps.Sample.config GatewaySample.globals
              TraceReconcilerProps.Sample.world0 GatewaySample.locked GatewaySample.published GatewaySample.published
              TraceReconcilerProps.Sample.pipeline empty_config)
    as (opts & b & _ & _ & Hp & _ & _ & _ & _ & Hs).
  - reflexivity.
  - vm_compute. discriminate.
  - vm_compute. reflexivity.
  - intros []; constructor.
  - vm_compute. reflexivity.
  - vm_compute. reflexivity.
  - vm_compute. reflexivity.
  - vm_compute. reflexivity.
  - reflexivity.
  - vm_compute. reflexivity.
  - exists opts, b. split; [exact Hp|exact Hs].
Defined.

Lemma gateway_serves_current_pipelines_witness :
  exists opts b, bo_TracePipelines opts = [TraceReconcilerProps.Sample.pipeline] /\ closed (b_Config b).
Proof.
  destruct (ReadOTLPGatewayConfig GatewaySample.published "kyma-system") as [c|] eqn:Hc; [|by vm_compute in Hc].
  destruct (gateway_serves_current_pipelines GatewaySample.globals GatewaySample.published GatewaySample.published c)
    as (w1 & _ & [[(Hno & _) _]|(_ & opts & b & _ & Ht & _ & _ & Hcl & _)]).
  - exact Hc.
  - vm_compute in Hc. injection Hc as <-. intros []; repeat constructor; set_solver.
  - vm_compute. reflexivity.
  - exfalso. vm_compute in Hc. injection Hc as <-. vm_compute in Hno. discriminate Hno.
  - exists opts, b. split; [|exact Hcl]. rewrite Ht. vm_compute in Hc. injection Hc as <-. vm_compute. reflexivity.
Defined.
