(* ===== verification/SecretWatch.v ===== *)
(** * The secret watcher (internal/secretwatch)

    client.go keeps one watcher for each Secret that some pipeline refers to;
    watcher.go follows the Secret and routes an event for every linked pipeline when it
    changes. The goroutine of a watcher is in [cl_running] from its start to the call of
    its cancel function. The Prometheus gauges are part of the state. A map is walked in
    the order of its list of keys; no result depends on the order. *)
From stdpp Require Import base gmap strings list.
From S2P Require Import Prelude Kube GoErrors.
Local Open Scope string_scope.

(** [schema.GroupVersionKind] *)
Record GroupVersionKind := mkGVK { gvk_Group : string; gvk_Version : string; gvk_Kind : string }.

#[export] Instance GVK_eq_dec : EqDecision GroupVersionKind.
Proof. solve_decision. Defined.

(** [client.Object], what the code reads of it. *)
Record Object := mkObj { o_Name : string; o_GVK : GroupVersionKind }.

#[export] Instance Object_eq_dec : EqDecision Object.
Proof. solve_decision. Defined.

(** ** watcher.go *)

Record watcher := mkWatcher { wa_secret : NamespacedName; wa_linked : list Object }.

Definition newWatcher (secret : NamespacedName) (pipeline : Object) : watcher := mkWatcher secret [pipeline].

Definition samePipeline (a b : Object) : bool :=
  str_eqb (o_Name a) (o_Name b) && bool_decide (o_GVK a = o_GVK b).

Definition link (w : watcher) (pipeline : Object) : watcher * bool :=
  if existsb (fun p => samePipeline p pipeline) (wa_linked w) then (w, false)
  else (mkWatcher (wa_secret w) (wa_linked w ++ [pipeline]), true).

Definition is_pipeline (name : string) (gvk : GroupVersionKind) (p : Object) : bool :=
  str_eqb (o_Name p) name && bool_decide (o_GVK p = gvk).

Definition isLinked (w : watcher) (name : string) (gvk : GroupVersionKind) : bool :=
  existsb (is_pipeline name gvk) (wa_linked w).

Definition unlink (w : watcher) (name : string) (gvk : GroupVersionKind) : watcher * bool :=
  let linked := List.filter (fun p => negb (is_pipeline name gvk p)) (wa_linked w) in
  (mkWatcher (wa_secret w) linked, (0 <? length linked)%nat).

Definition getLinkedPipelines (w : watcher) : list Object := wa_linked w.

Definition secretNameFieldSelector (secret : NamespacedName) : string := "metadata.name=" +:+ nn_Name secret.

(** [watch.Event]: an error, a Secret with its resource version, or another object. *)
Inductive watch_event := WatchError | WatchSecret (version : string) | WatchOther.

(** [w.processEventLoop(ctx, watcher)], the loop over the events of one watch. The linked pipelines can change while it
    runs, so every event comes with the watcher as it is when the event arrives. The result are the pipelines passed to
    the event router, in order, and the increments of [metrics.SecretWatchEventsTotal]. *)
Fixpoint processEventLoop (events : list (watcher * watch_event)) : list Object * nat :=
  match events with
  | [] => ([], 0%nat)
  | (_, WatchError) :: _ => ([], 0%nat)
  | (_, WatchOther) :: rest => processEventLoop rest
  | (w, WatchSecret _) :: rest =>
      let '(routed, total) := processEventLoop rest in ((getLinkedPipelines w ++ routed)%list, S total)
  end.

(** What the API server and the context answer in one round of [start]: the list and the watch, for every field selector
    and resource version the code may ask for, and whether the context is done in the delay that ends the round. *)
Record round := mkRound {
  rd_list : string -> result string apierror;
  rd_watch : string -> string -> result (list (watcher * watch_event)) apierror;
  rd_done : bool
}.

Definition fetchLatestResourceVersion (secret : NamespacedName) (r : round) : string :=
  match rd_list r (secretNameFieldSelector secret) with Err _ => "" | Ok resourceVersion => resourceVersion end.

(** What the goroutine did: the routed pipelines, [metrics.SecretWatchEventsTotal] and
    [metrics.SecretWatcherReconnectsTotal]. *)
Record followed := mkFollowed { fo_routed : list Object; fo_events : nat; fo_reconnects : nat }.

(** [w.start(ctx)]: the loop without end, run on the answers of its first rounds. *)
Fixpoint start (secret : NamespacedName) (rounds : list round) : followed :=
  match rounds with
  | [] => mkFollowed [] 0 0
  | r :: rest =>
      let resourceVersion := fetchLatestResourceVersion secret r in
      match rd_watch r (secretNameFieldSelector secret) resourceVersion with
      | Err _ => if rd_done r then mkFollowed [] 0 0 else start secret rest
      | Ok events =>
          let '(routed, total) := processEventLoop events in
          if rd_done r then mkFollowed routed total 0
          else
            let later := start secret rest in
            mkFollowed (routed ++ fo_routed later) (total + fo_events later) (S (fo_reconnects later))
      end
  end.

(** The channel of an event (the event router of [NewClient]); the kind stands for the
    Go type. [None]: the event is dropped. *)
Inductive channel := TraceEvents | MetricEvents | LogEvents.

#[export] Instance channel_eq_dec : EqDecision channel.
Proof. solve_decision. Defined.

Definition eventRouter (pipeline : Object) : option channel :=
  let k := gvk_Kind (o_GVK pipeline) in
  if str_eqb k "TracePipeline" then Some TraceEvents
  else if str_eqb k "MetricPipeline" then Some MetricEvents
  else if str_eqb k "LogPipeline" then Some LogEvents
  else None.

(** ** client.go *)

Record Client := mkClient {
  cl_watchers : gmap NamespacedName watcher;
  cl_stopped : bool;
  cl_running : gset NamespacedName;
  cl_active : gmap NamespacedName Z;               (* metrics.SecretWatchersActive *)
  cl_linked : gmap (NamespacedName * string) Z     (* metrics.SecretWatchersLinkedPipelines *)
}.

Definition NewClient : Client := mkClient ∅ false ∅ ∅ ∅.

Definition ErrClientStopped : goerror := NewError "secret watcher client has been stopped".

Definition gauge {K} `{Countable K} (m : gmap K Z) (k : K) : Z := default 0%Z (m !! k).

Definition set_watcher (c : Client) (secret : NamespacedName) (w : watcher) : Client :=
  mkClient (<[secret := w]> (cl_watchers c)) (cl_stopped c) (cl_running c) (cl_active c) (cl_linked c).

Definition add_linked (c : Client) (secret : NamespacedName) (kind : string) (d : Z) : Client :=
  mkClient (cl_watchers c) (cl_stopped c) (cl_running c) (cl_active c)
    (<[(secret, kind) := (gauge (cl_linked c) (secret, kind) + d)%Z]> (cl_linked c)).

Definition set_active (c : Client) (secret : NamespacedName) (v : Z) : Client :=
  mkClient (cl_watchers c) (cl_stopped c) (cl_running c) (<[secret := v]> (cl_active c)) (cl_linked c).

(** [c.startWatcher(ctx, w)]; the goroutine runs [start]. *)
Definition startWatcher (c : Client) (w : watcher) : Client :=
  mkClient (cl_watchers c) (cl_stopped c) ({[wa_secret w]} ∪ cl_running c) (cl_active c) (cl_linked c).

(** [w.cancel()] *)
Definition cancel_watcher (c : Client) (secret : NamespacedName) : Client :=
  mkClient (cl_watchers c) (cl_stopped c) (cl_running c ∖ {[secret]}) (cl_active c) (cl_linked c).

Definition delete_watcher (c : Client) (secret : NamespacedName) : Client :=
  mkClient (delete secret (cl_watchers c)) (cl_stopped c) (cl_running c) (cl_active c) (cl_linked c).

(** One round of the first loop of [SyncWatchers]. *)
Definition sync_secret (pipeline : Object) (c : Client) (secret : NamespacedName) : Client :=
  let pipelineKind := gvk_Kind (o_GVK pipeline) in
  match cl_watchers c !! secret with
  | Some w =>
      let '(w, added) := link w pipeline in
      let c := set_watcher c secret w in
      if added then add_linked c secret pipelineKind 1 else c
  | None =>
      let w := newWatcher secret pipeline in
      let c := startWatcher c w in
      let c := set_watcher c secret w in
      let c := set_active c secret (gauge (cl_active c) secret + 1) in
      add_linked c secret pipelineKind 1
  end.

(** One round of the loop of [unlinkPipelineFromWatchers]. *)
Definition unlink_secret (name : string) (gvk : GroupVersionKind) (excludeSet : option (gset NamespacedName))
    (c : Client) (watchedSecret : NamespacedName) : Client :=
  match cl_watchers c !! watchedSecret with
  | None => c
  | Some w =>
      if match excludeSet with Some s => bool_decide (watchedSecret ∈ s) | None => false end then c
      else if negb (isLinked w name gvk) then c
      else
        let '(w, hasPipelines) := unlink w name gvk in
        let c := set_watcher c watchedSecret w in
        let c := add_linked c watchedSecret (gvk_Kind gvk) (-1) in
        if negb hasPipelines then
          set_active (delete_watcher (cancel_watcher c watchedSecret) watchedSecret) watchedSecret 0
        else c
  end.

Definition unlinkPipelineFromWatchers (c : Client) (name : string) (gvk : GroupVersionKind)
    (excludeSet : option (gset NamespacedName)) : Client :=
  fold_left (unlink_secret name gvk excludeSet) (map_to_list (cl_watchers c)).*1 c.

Definition SyncWatchers (c : Client) (pipeline : Object) (secrets : list NamespacedName) : Client * option goerror :=
  if cl_stopped c then (c, Some ErrClientStopped)
  else
    let secretSet : gset NamespacedName := list_to_set secrets in
    let c := fold_left (sync_secret pipeline) (elements secretSet) c in
    (unlinkPipelineFromWatchers c (o_Name pipeline) (o_GVK pipeline) (Some secretSet), None).

Definition RemoveFromWatchers (c : Client) (name : string) (gvk : GroupVersionKind) : Client * option goerror :=
  if cl_stopped c then (c, Some ErrClientStopped)
  else (unlinkPipelineFromWatchers c name gvk None, None).

(** [Stop]: every watcher is cancelled; waiting for the goroutines does not change the
    client. *)
Definition Stop (c : Client) : Client :=
  mkClient (cl_watchers c) true (cl_running c ∖ dom (cl_watchers c)) (cl_active c) (cl_linked c).

(** ** Properties of the secret watcher

    The client implements a relation between Secrets and pipelines: [SyncWatchers]
    replaces the Secrets of one pipeline, [RemoveFromWatchers] drops them. There is a
    running watcher exactly for the Secrets with a pipeline, the gauges count the
    watchers and the links, and an event reaches exactly the pipelines of its Secret. A
    change of a Secret while its watcher reconnects is lost. *)

(** ** Objects and lists *)

Lemma samePipeline_eq a b : samePipeline a b = true <-> a = b.
Proof.
  unfold samePipeline. rewrite andb_true_iff, str_eqb_true, bool_decide_eq_true.
  destruct a, b; cbn. split; [intros [-> ->]|intros [= -> ->]]; done.
Qed.

Lemma is_pipeline_eq n g p : is_pipeline n g p = true <-> p = mkObj n g.
Proof.
  unfold is_pipeline. rewrite andb_true_iff, str_eqb_true, bool_decide_eq_true.
  destruct p; cbn. split; [intros [-> ->]|intros [= -> ->]]; done.
Qed.

Lemma is_pipeline_self p q : is_pipeline (o_Name p) (o_GVK p) q = true <-> q = p.
Proof. rewrite is_pipeline_eq. by destruct p. Qed.

Lemma link_spec w p :
  link w p = if bool_decide (p ∈ wa_linked w) then (w, false)
             else (mkWatcher (wa_secret w) (wa_linked w ++ [p]), true).
Proof.
  unfold link. case_bool_decide as Hp.
  - assert (existsb (fun q => samePipeline q p) (wa_linked w) = true) as ->; [|done].
    apply existsb_exists. exists p. rewrite <- list_elem_of_In, samePipeline_eq. done.
  - destruct (existsb _ _) eqn:E; [|done]. apply existsb_exists in E as (q & Hq & He).
    apply samePipeline_eq in He as ->. by apply list_elem_of_In in Hq.
Qed.

Lemma isLinked_spec w n g : isLinked w n g = bool_decide (mkObj n g ∈ wa_linked w).
Proof.
  unfold isLinked. symmetry. case_bool_decide as Hp.
  - symmetry. apply existsb_exists. exists (mkObj n g). by rewrite <- list_elem_of_In, is_pipeline_eq.
  - destruct (existsb _ _) eqn:E; [|done]. apply existsb_exists in E as (q & Hq & He).
    apply is_pipeline_eq in He as ->. by apply list_elem_of_In in Hq.
Qed.

Definition remaining (n : string) (g : GroupVersionKind) (l : list Object) : list Object :=
  List.filter (fun p => negb (is_pipeline n g p)) l.

Lemma elem_of_remaining n g l q : q ∈ remaining n g l <-> q ∈ l /\ q <> mkObj n g.
Proof.
  unfold remaining. rewrite !list_elem_of_In, filter_In, negb_true_iff, <- not_true_iff_false, is_pipeline_eq. done.
Qed.

Lemma remaining_NoDup n g l : NoDup l -> NoDup (remaining n g l).
Proof. rewrite !NoDup_ListNoDup. apply List.NoDup_filter. Qed.

(** The number of pipelines of a kind. *)
Definition count_kind (k : string) (l : list Object) : Z :=
  Z.of_nat (length (List.filter (fun p => str_eqb (gvk_Kind (o_GVK p)) k) l)).

Lemma count_kind_snoc k l p :
  count_kind k (l ++ [p]) = (count_kind k l + if str_eqb (gvk_Kind (o_GVK p)) k then 1 else 0)%Z.
Proof.
  unfold count_kind. rewrite List.filter_app, length_app. simpl. destruct (str_eqb _ _); simpl; lia.
Qed.

Lemma count_kind_remaining k n g l :
  NoDup l -> mkObj n g ∈ l ->
  count_kind k (remaining n g l) = (count_kind k l - if str_eqb (gvk_Kind g) k then 1 else 0)%Z.
Proof.
  induction 1 as [|q l Hq Hn IH]; [by intros ?%not_elem_of_nil|]. intros [Hp|Hp]%elem_of_cons.
  - subst q. unfold remaining. cbn [List.filter].
    rewrite (proj2 (is_pipeline_eq n g (mkObj n g)) eq_refl). cbn [negb].
    assert (Hr : List.filter (fun p => negb (is_pipeline n g p)) l = l).
    { apply forallb_filter_id, forallb_forall. intros x Hx. apply negb_true_iff, not_true_iff_false.
      rewrite is_pipeline_eq. intros ->. by apply list_elem_of_In in Hx. }
    rewrite Hr. unfold count_kind. cbn [List.filter o_GVK]. destruct (str_eqb (gvk_Kind g) k); cbn [length]; lia.
  - specialize (IH Hp). unfold remaining in *. cbn [List.filter].
    destruct (is_pipeline n g q) eqn:E; [apply is_pipeline_eq in E as ->; done|]. cbn [negb].
    unfold count_kind in *. cbn [List.filter]. destruct (str_eqb (gvk_Kind (o_GVK q)) k); cbn [length]; lia.
Qed.

(** ** The invariant *)

Definition linked_at (c : Client) (s : NamespacedName) : list Object :=
  match cl_watchers c !! s with Some w => wa_linked w | None => [] end.

(** A pipeline is linked to a Secret. *)
Definition depends (c : Client) (s : NamespacedName) (p : Object) : Prop := p ∈ linked_at c s.

Record wf (c : Client) : Prop := {
  wf_watcher : forall s w, cl_watchers c !! s = Some w -> wa_secret w = s /\ wa_linked w <> [] /\ NoDup (wa_linked w);
  wf_active : forall s, gauge (cl_active c) s = if bool_decide (is_Some (cl_watchers c !! s)) then 1%Z else 0%Z;
  wf_linked : forall s k, gauge (cl_linked c) (s, k) = count_kind k (linked_at c s);
  wf_running : cl_stopped c = false -> cl_running c = dom (cl_watchers c)
}.

Lemma NewClient_wf : wf NewClient.
Proof.
  split; cbn.
  - intros s w. by rewrite lookup_empty.
  - intros s. unfold gauge. rewrite !lookup_empty. by rewrite bool_decide_false by (intros [x Hx]; done).
  - intros s k. unfold gauge, linked_at. cbn. by rewrite !lookup_empty.
  - intros _. by rewrite dom_empty_L.
Qed.

Lemma linked_at_set c s w s' :
  linked_at (set_watcher c s w) s' = if bool_decide (s = s') then wa_linked w else linked_at c s'.
Proof.
  unfold linked_at, set_watcher. cbn. case_bool_decide as Hs; [subst; by rewrite lookup_insert_eq|].
  by rewrite lookup_insert_ne.
Qed.

Lemma gauge_insert {K} `{Countable K} (m : gmap K Z) k k' v :
  gauge (<[k := v]> m) k' = if bool_decide (k = k') then v else gauge m k'.
Proof.
  unfold gauge. case_bool_decide as Hs; [subst; by rewrite lookup_insert_eq|]. by rewrite lookup_insert_ne.
Qed.

Lemma str_eqb_decide a b : str_eqb a b = bool_decide (a = b).
Proof. done. Qed.

(** ** One round of [SyncWatchers] *)

(** The pipelines linked to a Secret after linking one more. *)
Definition with_link (p : Object) (l : list Object) : list Object := if bool_decide (p ∈ l) then l else (l ++ [p])%list.

Lemma sync_secret_linked p c s s' :
  linked_at (sync_secret p c s) s' = if bool_decide (s = s') then with_link p (linked_at c s') else linked_at c s'.
Proof.
  unfold sync_secret, with_link. destruct (cl_watchers c !! s) as [w|] eqn:Hw.
  - rewrite link_spec. case_bool_decide as Hp.
    + rewrite linked_at_set. case_bool_decide as Hs; [|done]. subst. unfold linked_at. rewrite Hw.
      by rewrite bool_decide_true.
    + trans (linked_at (set_watcher c s (mkWatcher (wa_secret w) (wa_linked w ++ [p]))) s'); [done|].
      rewrite linked_at_set. case_bool_decide as Hs; [|done]. subst. unfold linked_at. rewrite Hw. by rewrite bool_decide_false.
  - trans (linked_at (set_watcher c s (newWatcher s p)) s'); [done|].
    rewrite linked_at_set. case_bool_decide as Hs; [|done]. subst. unfold linked_at. rewrite Hw.
    rewrite bool_decide_false by apply not_elem_of_nil. done.
Qed.

Lemma count_kind_with_link k p l :
  p ∉ l -> count_kind k (with_link p l) = (count_kind k l + if str_eqb (gvk_Kind (o_GVK p)) k then 1 else 0)%Z.
Proof. intros Hp. unfold with_link. rewrite bool_decide_false by done. apply count_kind_snoc. Qed.

Lemma sync_secret_stopped p c s : cl_stopped (sync_secret p c s) = cl_stopped c.
Proof. unfold sync_secret. destruct (cl_watchers c !! s); [|done]. destruct (link w p) as [? []]; done. Qed.

Lemma sync_secret_watchers p c s :
  wf c -> cl_watchers (sync_secret p c s) = <[s := mkWatcher s (with_link p (linked_at c s))]> (cl_watchers c).
Proof.
  intros Hc. unfold sync_secret, with_link, linked_at. destruct (cl_watchers c !! s) as [w|] eqn:Hw.
  - destruct (wf_watcher c Hc s w Hw) as [Hs _]. rewrite link_spec. case_bool_decide; cbn; [|by rewrite Hs].
    f_equal. destruct w; cbn in *. by subst.
  - cbn. by rewrite bool_decide_false by apply not_elem_of_nil.
Qed.

Lemma sync_secret_active p c s s' :
  gauge (cl_active (sync_secret p c s)) s' =
    (gauge (cl_active c) s' + if bool_decide (s = s' /\ cl_watchers c !! s = None) then 1 else 0)%Z.
Proof.
  unfold sync_secret. destruct (cl_watchers c !! s) as [w|] eqn:Hw.
  - rewrite bool_decide_false by naive_solver. destruct (link w p) as [? []]; cbn; lia.
  - cbn. rewrite gauge_insert. case_bool_decide as Hs.
    + subst. rewrite bool_decide_true by done. done.
    + rewrite bool_decide_false by naive_solver. lia.
Qed.

Lemma sync_secret_gauge p c s s' k :
  gauge (cl_linked (sync_secret p c s)) (s', k) =
    (gauge (cl_linked c) (s', k) +
     if bool_decide (s = s' /\ p ∉ linked_at c s /\ gvk_Kind (o_GVK p) = k) then 1 else 0)%Z.
Proof.
  unfold sync_secret, linked_at. destruct (cl_watchers c !! s) as [w|] eqn:Hw.
  - rewrite link_spec. case_bool_decide as Hp; cbn.
    + rewrite bool_decide_false by naive_solver. lia.
    + rewrite gauge_insert. case_bool_decide as Hs.
      * simplify_eq. rewrite bool_decide_true by done. done.
      * rewrite bool_decide_false by naive_solver. lia.
  - cbn. rewrite gauge_insert. case_bool_decide as Hs.
    + simplify_eq. rewrite bool_decide_true by (split_and!; [done|apply not_elem_of_nil|done]). done.
    + rewrite bool_decide_false by naive_solver. lia.
Qed.

Lemma sync_secret_running p c s :
  cl_running (sync_secret p c s) = match cl_watchers c !! s with Some _ => cl_running c | None => {[s]} ∪ cl_running c end.
Proof. unfold sync_secret. destruct (cl_watchers c !! s); [|done]. by destruct (link w p) as [? []]. Qed.

Lemma with_link_NoDup p l : NoDup l -> NoDup (with_link p l).
Proof.
  intros Hl. unfold with_link. case_bool_decide as Hp; [done|]. apply NoDup_app. split_and!; [done| |repeat constructor; set_solver].
  intros x Hx ->%list_elem_of_singleton. done.
Qed.

Lemma with_link_nonempty p l : with_link p l <> [].
Proof. unfold with_link. case_bool_decide as Hp; [by intros ->; apply not_elem_of_nil in Hp|]. by destruct l. Qed.

Lemma linked_at_NoDup c s : wf c -> NoDup (linked_at c s).
Proof.
  intros Hc. unfold linked_at. destruct (_ !! s) as [w|] eqn:Hw; [|constructor]. by apply (wf_watcher c Hc s w).
Qed.

Lemma sync_secret_wf p c s : wf c -> wf (sync_secret p c s).
Proof.
  intros Hc. pose proof (sync_secret_watchers p c s Hc) as Hw. split.
  - intros s' w. rewrite Hw. intros [[<- <-]|[_ Hl]]%lookup_insert_Some; [|by apply Hc].
    cbn. split_and!; [done|apply with_link_nonempty|by apply with_link_NoDup, linked_at_NoDup].
  - intros s'. rewrite sync_secret_active, (wf_active c Hc), Hw. destruct (decide (s = s')) as [->|Hne].
    + rewrite lookup_insert_eq, (bool_decide_true (is_Some (Some _))) by eauto.
      destruct (cl_watchers c !! s') as [w|] eqn:E.
      * rewrite bool_decide_true by eauto. by rewrite bool_decide_false by naive_solver.
      * rewrite bool_decide_false by (intros [? [=]]). by rewrite bool_decide_true.
    + rewrite lookup_insert_ne by done. rewrite (bool_decide_false (s = s' /\ _)) by naive_solver. lia.
  - intros s' k. rewrite sync_secret_gauge, (wf_linked c Hc), sync_secret_linked.
    destruct (decide (s = s')) as [->|Hne].
    + rewrite (bool_decide_true (s' = s')) by done. destruct (decide (p ∈ linked_at c s')) as [Hp|Hp].
      * unfold with_link. rewrite (bool_decide_true (p ∈ _)) by done. rewrite bool_decide_false by naive_solver. lia.
      * rewrite count_kind_with_link by done. rewrite str_eqb_decide.
        destruct (decide (gvk_Kind (o_GVK p) = k)); [rewrite !bool_decide_true by done|rewrite !bool_decide_false by naive_solver]; done.
    + rewrite (bool_decide_false (s = s')) by done. rewrite bool_decide_false by naive_solver. lia.
  - rewrite sync_secret_stopped, sync_secret_running, Hw, dom_insert_L. intros Hs.
    rewrite (wf_running c Hc Hs). destruct (cl_watchers c !! s) eqn:E; [|done].
    apply elem_of_dom_2 in E. set_solver.
Qed.

(** ** One round of the unlinking *)

Definition excluded (x : option (gset NamespacedName)) (s : NamespacedName) : bool :=
  match x with Some m => bool_decide (s ∈ m) | None => false end.

(** The round does something. *)
Definition unlinks (n : string) (g : GroupVersionKind) (x : option (gset NamespacedName)) (c : Client)
    (s : NamespacedName) : bool :=
  negb (excluded x s) && bool_decide (mkObj n g ∈ linked_at c s).

Lemma unlink_secret_skip n g x c s : unlinks n g x c s = false -> unlink_secret n g x c s = c.
Proof.
  unfold unlinks, unlink_secret, linked_at. destruct (cl_watchers c !! s) as [w|]; [|done].
  rewrite isLinked_spec. change (match x with Some m => bool_decide (s ∈ m) | None => false end) with (excluded x s).
  destruct (excluded x s); [done|]. cbn. by intros ->.
Qed.

Lemma unlink_secret_do n g x c s :
  unlinks n g x c s = true ->
  let l := remaining n g (linked_at c s) in
  unlink_secret n g x c s =
    mkClient (if bool_decide (l = []) then delete s (cl_watchers c)
              else <[s := mkWatcher (default s (wa_secret <$> cl_watchers c !! s)) l]> (cl_watchers c))
      (cl_stopped c) (if bool_decide (l = []) then cl_running c ∖ {[s]} else cl_running c)
      (if bool_decide (l = []) then <[s := 0%Z]> (cl_active c) else cl_active c)
      (<[(s, gvk_Kind g) := (gauge (cl_linked c) (s, gvk_Kind g) - 1)%Z]> (cl_linked c)).
Proof.
  intros Hu l. unfold unlinks in Hu. apply andb_prop in Hu as [Hx Hin]. unfold unlink_secret.
  change (match x with Some m => bool_decide (s ∈ m) | None => false end) with (excluded x s).
  subst l. unfold linked_at in *. destruct (cl_watchers c !! s) as [w|] eqn:Hw.
  2:{ by rewrite bool_decide_false in Hin by apply not_elem_of_nil. }
  rewrite isLinked_spec, Hin. apply negb_true_iff in Hx. rewrite Hx. cbn.
  fold (remaining n g (wa_linked w)). destruct (remaining n g (wa_linked w)) as [|q l] eqn:El; cbn.
  - unfold set_active, delete_watcher, cancel_watcher, add_linked, set_watcher. cbn. by rewrite delete_insert_eq.
  - done.
Qed.

Lemma unlink_secret_linked n g x c s s' :
  linked_at (unlink_secret n g x c s) s' =
    if bool_decide (s = s') && unlinks n g x c s then remaining n g (linked_at c s') else linked_at c s'.
Proof.
  destruct (unlinks n g x c s) eqn:Hu; [|rewrite unlink_secret_skip by done; by rewrite andb_false_r].
  rewrite unlink_secret_do by done. unfold linked_at at 1. cbn [cl_watchers]. rewrite andb_true_r.
  destruct (decide (s = s')) as [->|Hne].
  - rewrite (bool_decide_true (s' = s')) by done. case_bool_decide as Hl.
    + by rewrite lookup_delete_eq, Hl.
    + by rewrite lookup_insert_eq.
  - rewrite (bool_decide_false (s = s')) by done. unfold linked_at.
    case_bool_decide; [by rewrite lookup_delete_ne|by rewrite lookup_insert_ne].
Qed.

Lemma unlinks_watcher n g x c s :
  unlinks n g x c s = true -> exists w, cl_watchers c !! s = Some w /\ mkObj n g ∈ wa_linked w.
Proof.
  unfold unlinks, linked_at. intros [_ Hin%bool_decide_eq_true]%andb_prop. destruct (cl_watchers c !! s); [eauto|].
  by apply not_elem_of_nil in Hin.
Qed.

Lemma unlink_secret_wf n g x c s : wf c -> wf (unlink_secret n g x c s).
Proof.
  intros Hc. destruct (unlinks n g x c s) eqn:Hu; [|by rewrite unlink_secret_skip].
  destruct (unlinks_watcher _ _ _ _ _ Hu) as (w & Hw & Hin). destruct (wf_watcher c Hc s w Hw) as (Hsec & Hne & Hnd).
  assert (Hl : linked_at c s = wa_linked w) by (unfold linked_at; by rewrite Hw).
  split.
  - intros s' v. rewrite unlink_secret_do by done. cbn. case_bool_decide as He.
    + intros [_ Hv]%lookup_delete_Some. by apply Hc.
    + rewrite Hw. intros [[<- <-]|[_ Hv]]%lookup_insert_Some; [|by apply Hc]. cbn.
      split_and!; [done|done|]. rewrite Hl. by apply remaining_NoDup.
  - intros s'. rewrite unlink_secret_do by done. cbn. case_bool_decide as He.
    + rewrite gauge_insert. destruct (decide (s = s')) as [->|Hne'].
      * rewrite (bool_decide_true (s' = s')) by done. rewrite lookup_delete_eq.
        by rewrite bool_decide_false by (intros [? [=]]).
      * rewrite (bool_decide_false (s = s')) by done. rewrite lookup_delete_ne by done. apply (wf_active c Hc).
    + rewrite (wf_active c Hc). destruct (decide (s = s')) as [->|Hne'].
      * rewrite Hw, lookup_insert_eq. by rewrite !bool_decide_true by eauto.
      * by rewrite lookup_insert_ne.
  - intros s' k. rewrite unlink_secret_linked, Hu, andb_true_r. rewrite unlink_secret_do by done. cbn [cl_linked].
    rewrite gauge_insert. destruct (decide (s = s')) as [<-|Hne'].
    + rewrite (bool_decide_true (s = s)) by done. rewrite Hl, count_kind_remaining by done. rewrite str_eqb_decide.
      destruct (decide (gvk_Kind g = k)) as [<-|Hk].
      * rewrite !bool_decide_true by done. by rewrite (wf_linked c Hc), Hl.
      * rewrite !bool_decide_false by naive_solver. rewrite (wf_linked c Hc), Hl. lia.
    + rewrite (bool_decide_false (s = s')) by done. rewrite bool_decide_false by naive_solver. apply (wf_linked c Hc).
  - rewrite unlink_secret_do by done. cbn. intros Hs. rewrite (wf_running c Hc Hs). case_bool_decide.
    + by rewrite dom_delete_L.
    + rewrite dom_insert_L. apply elem_of_dom_2 in Hw. set_solver.
Qed.

(** ** The loops *)

Lemma sync_fold p l : forall c, wf c -> let c' := fold_left (sync_secret p) l c in
  wf c' /\ cl_stopped c' = cl_stopped c /\
  forall s q, depends c' s q <-> depends c s q \/ (s ∈ l /\ q = p).
Proof.
  induction l as [|s l IH]; intros c Hc; cbn.
  - split_and!; [done..|]. intros s q. rewrite elem_of_nil. tauto.
  - destruct (IH (sync_secret p c s) (sync_secret_wf p c s Hc)) as (Hw & Hs & Hd).
    split_and!; [done|by rewrite Hs, sync_secret_stopped|]. intros s' q. rewrite Hd, elem_of_cons.
    unfold depends. rewrite sync_secret_linked. case_bool_decide as He.
    + subst s'. unfold with_link. case_bool_decide as Hp; [naive_solver|].
      rewrite elem_of_app, list_elem_of_singleton. naive_solver.
    + naive_solver.
Qed.

Lemma unlink_fold n g x l : forall c, wf c -> let c' := fold_left (unlink_secret n g x) l c in
  wf c' /\ cl_stopped c' = cl_stopped c /\
  forall s q, depends c' s q <-> depends c s q /\ ~ (s ∈ l /\ excluded x s = false /\ q = mkObj n g).
Proof.
  induction l as [|s l IH]; intros c Hc; cbn.
  - split_and!; [done..|]. intros s q. rewrite elem_of_nil. tauto.
  - destruct (IH (unlink_secret n g x c s) (unlink_secret_wf n g x c s Hc)) as (Hw & Hs & Hd).
    split_and!; [done| |].
    { rewrite Hs. destruct (unlinks n g x c s) eqn:Hu; [by rewrite unlink_secret_do|by rewrite unlink_secret_skip]. }
    intros s' q. rewrite Hd, elem_of_cons. unfold depends. rewrite unlink_secret_linked.
    destruct (decide (s = s')) as [<-|Hne].
    + rewrite (bool_decide_true (s = s)) by done. cbn. unfold unlinks.
      destruct (excluded x s) eqn:Hx; cbn; [naive_solver|]. case_bool_decide as Hin.
      * rewrite elem_of_remaining. naive_solver.
      * split; [|naive_solver]. intros [Hq Hn]. split; [done|]. intros (_ & _ & ->). done.
    + rewrite (bool_decide_false (s = s')) by done. cbn. naive_solver.
Qed.

(** The keys that are walked are those of all watchers. *)
Lemma depends_key c s q : depends c s q -> s ∈ (map_to_list (cl_watchers c)).*1.
Proof.
  unfold depends, linked_at. destruct (cl_watchers c !! s) as [w|] eqn:Hw; [|by intros ?%not_elem_of_nil].
  intros _. apply list_elem_of_fmap. exists (s, w). split; [done|]. by apply elem_of_map_to_list.
Qed.

Lemma unlinkPipelineFromWatchers_spec c n g x :
  wf c -> let c' := unlinkPipelineFromWatchers c n g x in
  wf c' /\ cl_stopped c' = cl_stopped c /\
  forall s q, depends c' s q <-> depends c s q /\ ~ (excluded x s = false /\ q = mkObj n g).
Proof.
  intros Hc. destruct (unlink_fold n g x (map_to_list (cl_watchers c)).*1 c Hc) as (Hw & Hs & Hd).
  split_and!; [done..|]. intros s q. rewrite Hd. split; intros [H1 H2]; split; try done.
  - intros [H3 H4]. apply H2. split_and!; [by eapply depends_key|done|done].
  - naive_solver.
Qed.

Lemma SyncWatchers_spec c p secrets c' e :
  wf c -> SyncWatchers c p secrets = (c', e) ->
  wf c' /\ cl_stopped c' = cl_stopped c /\
  (if cl_stopped c then c' = c /\ e = Some ErrClientStopped
   else e = None /\ forall s q, depends c' s q <-> (if decide (q = p) then s ∈ secrets else depends c s q)).
Proof.
  intros Hc. unfold SyncWatchers. destruct (cl_stopped c) eqn:Hst; [by intros [= <- <-]|]. intros [= <- <-].
  destruct (sync_fold p (elements (list_to_set secrets : gset NamespacedName)) c Hc) as (Hw & Hs & Hd).
  destruct (unlinkPipelineFromWatchers_spec _ (o_Name p) (o_GVK p) (Some (list_to_set secrets)) Hw) as (Hw' & Hs' & Hd').
  split_and!; [done|by rewrite Hs', Hs|done|]. intros s q. rewrite Hd', Hd. cbn.
  assert (Hp : mkObj (o_Name p) (o_GVK p) = p) by (by destruct p). rewrite Hp.
  rewrite bool_decide_eq_false, elem_of_elements, !elem_of_list_to_set.
  destruct (decide (q = p)) as [->|Hne].
  - destruct (decide (s ∈ secrets)); naive_solver.
  - naive_solver.
Qed.

Lemma RemoveFromWatchers_spec c n g c' e :
  wf c -> RemoveFromWatchers c n g = (c', e) ->
  wf c' /\ cl_stopped c' = cl_stopped c /\
  (if cl_stopped c then c' = c /\ e = Some ErrClientStopped
   else e = None /\ forall s q, depends c' s q <-> depends c s q /\ q <> mkObj n g).
Proof.
  intros Hc. unfold RemoveFromWatchers. destruct (cl_stopped c) eqn:Hst; [by intros [= <- <-]|]. intros [= <- <-].
  destruct (unlinkPipelineFromWatchers_spec c n g None Hc) as (Hw & Hs & Hd).
  split_and!; [done|congruence|done|]. intros s q. rewrite Hd. cbn. naive_solver.
Qed.

Lemma Stop_wf c : wf c -> wf (Stop c).
Proof. intros [H1 H2 H3 H4]. by split. Qed.

(** ** Refinement of a relation *)

Inductive op := OSync (p : Object) (secrets : list NamespacedName) | ORemove (n : string) (g : GroupVersionKind) | OStop.

Definition run_op (c : Client) (o : op) : Client * option goerror :=
  match o with
  | OSync p secrets => SyncWatchers c p secrets
  | ORemove n g => RemoveFromWatchers c n g
  | OStop => (Stop c, None)
  end.

Fixpoint run_ops (c : Client) (os : list op) : Client * list (option goerror) :=
  match os with
  | [] => (c, [])
  | o :: rest =>
      let '(c, e) := run_op c o in
      let '(c, es) := run_ops c rest in
      (c, e :: es)
  end.

(** What the client promises: a relation between Secrets and pipelines. *)
Record spec := mkSpec { sp_stopped : bool; sp_deps : NamespacedName -> Object -> Prop }.

Definition spec_step (a : spec) (o : op) : spec * option goerror :=
  match o with
  | OStop => (mkSpec true (sp_deps a), None)
  | OSync p secrets =>
      if sp_stopped a then (a, Some ErrClientStopped)
      else (mkSpec false (fun s q => if decide (q = p) then s ∈ secrets else sp_deps a s q), None)
  | ORemove n g =>
      if sp_stopped a then (a, Some ErrClientStopped)
      else (mkSpec false (fun s q => sp_deps a s q /\ q <> mkObj n g), None)
  end.

Fixpoint spec_steps (a : spec) (os : list op) : spec * list (option goerror) :=
  match os with
  | [] => (a, [])
  | o :: rest =>
      let '(a, e) := spec_step a o in
      let '(a, es) := spec_steps a rest in
      (a, e :: es)
  end.

Definition refines (c : Client) (a : spec) : Prop :=
  wf c /\ cl_stopped c = sp_stopped a /\ (forall s q, depends c s q <-> sp_deps a s q) /\
  (cl_stopped c = true -> cl_running c = ∅).

Lemma run_op_simulates c a o : refines c a -> 
  refines (run_op c o).1 (spec_step a o).1 /\ (run_op c o).2 = (spec_step a o).2.
Proof.
  intros (Hw & Hs & Hd & Hr). destruct o as [p secrets|n g|]; cbn [run_op spec_step].
  - destruct (SyncWatchers c p secrets) as [c' e] eqn:Hc. pose proof Hc as Hc0.
    apply SyncWatchers_spec in Hc as (Hw' & Hs' & Hd'); [|done]. rewrite <- Hs.
    destruct (cl_stopped c) eqn:Hst; [destruct Hd' as [-> ->]; split; [|done]; unfold refines; cbn; split_and!; [done|congruence|done|auto]|]. destruct Hd' as [-> Hd'].
    split; [|done]. unfold refines. split_and!; [done|done| |by cbn; rewrite Hs'].
    intros s q. cbn. rewrite Hd'. destruct (decide (q = p)); [done|apply Hd].
  - destruct (RemoveFromWatchers c n g) as [c' e] eqn:Hc.
    apply RemoveFromWatchers_spec in Hc as (Hw' & Hs' & Hd'); [|done]. rewrite <- Hs.
    destruct (cl_stopped c) eqn:Hst; [destruct Hd' as [-> ->]; split; [|done]; unfold refines; cbn; split_and!; [done|congruence|done|auto]|]. destruct Hd' as [-> Hd'].
    split; [|done]. unfold refines. split_and!; [done|done| |by cbn; rewrite Hs'].
    intros s q. cbn. by rewrite Hd', Hd.
  - split; [|done]. unfold refines. split_and!; [by apply Stop_wf|done|apply Hd|]. intros _. cbn.
    destruct (cl_stopped c) eqn:Hst; [rewrite Hr by done; set_solver|]. rewrite (wf_running c Hw Hst). set_solver.
Qed.

Lemma run_ops_simulates os : forall c a, refines c a ->
  refines (run_ops c os).1 (spec_steps a os).1 /\ (run_ops c os).2 = (spec_steps a os).2.
Proof.
  induction os as [|o os IH]; intros c a Hr; [done|]. cbn.
  destruct (run_op_simulates c a o Hr) as [Hr' He]. destruct (run_op c o) as [c1 e1], (spec_step a o) as [a1 f1].
  cbn in *. destruct (IH c1 a1 Hr') as [Hr'' Hes]. destruct (run_ops c1 os), (spec_steps a1 os). cbn in *.
  split; [done|congruence].
Qed.

Lemma NewClient_refines : refines NewClient (mkSpec false (fun _ _ => False)).
Proof.
  unfold refines. split_and!; [apply NewClient_wf|done| |done]. intros s q. unfold depends, linked_at. cbn.
  rewrite lookup_empty, elem_of_nil. done.
Qed.

Lemma watcher_has_pipeline c s : wf c -> is_Some (cl_watchers c !! s) <-> exists q, depends c s q.
Proof.
  intros Hc. unfold depends, linked_at. split.
  - intros [w Hw]. rewrite Hw. destruct (wf_watcher c Hc s w Hw) as (_ & Hne & _).
    destruct (wa_linked w) as [|q l]; [done|]. exists q. by left.
  - intros [q Hq]. destruct (cl_watchers c !! s); [eauto|]. by apply not_elem_of_nil in Hq.
Qed.

(** C10. The secret watcher client implements an abstract relation between
    Secrets and pipelines: after any sequence of SyncWatchers,
    RemoveFromWatchers and Stop calls the links are exactly that relation, the
    errors are the same, a goroutine runs for exactly the Secrets somebody
    depends on (none after Stop), and the two gauges show the relation. *)
Theorem secret_watch_refines_relation os :
  let '(c, es) := run_ops NewClient os in
  let '(a, fs) := spec_steps (mkSpec false (fun _ _ => False)) os in
  es = fs /\ (forall s q, depends c s q <-> sp_deps a s q) /\
  (sp_stopped a = false -> forall s, s ∈ cl_running c <-> exists q, sp_deps a s q) /\
  (sp_stopped a = true -> cl_running c = ∅) /\
  (forall s, gauge (cl_active c) s = 1%Z <-> exists q, sp_deps a s q) /\
  (forall s k, gauge (cl_linked c) (s, k) = count_kind k (linked_at c s) /\ NoDup (linked_at c s)).
Proof.
  destruct (run_ops_simulates os NewClient _ NewClient_refines) as [(Hw & Hs & Hd & Hr) He].
  destruct (run_ops NewClient os) as [c es], (spec_steps _ os) as [a fs]. cbn in *.
  assert (Hx : forall s, is_Some (cl_watchers c !! s) <-> exists q, sp_deps a s q).
  { intros s. rewrite watcher_has_pipeline by done. split; intros [q Hq]; exists q; by apply Hd. }
  split_and!; [done|done| | | |].
  - intros Hst s. rewrite (wf_running c Hw) by congruence. by rewrite elem_of_dom.
  - intros Hst. apply Hr. congruence.
  - intros s. rewrite (wf_active c Hw), <- Hx. by case_bool_decide.
  - intros s k. split; [apply (wf_linked c Hw)|by apply linked_at_NoDup].
Qed.

(** ** Idempotence *)

Lemma sync_secret_noop p c s : depends c s p -> sync_secret p c s = c.
Proof.
  unfold depends, linked_at, sync_secret. destruct (cl_watchers c !! s) as [w|] eqn:Hw; [|by intros ?%not_elem_of_nil].
  intros Hp. rewrite link_spec, bool_decide_true by done. unfold set_watcher. rewrite insert_id by done. by destruct c.
Qed.

Lemma sync_fold_noop p l c : Forall (fun s => depends c s p) l -> fold_left (sync_secret p) l c = c.
Proof. induction 1 as [|s l Hs _ IH]; cbn; [done|]. by rewrite sync_secret_noop. Qed.

Lemma unlink_fold_noop n g x l c :
  Forall (fun s => unlinks n g x c s = false) l -> fold_left (unlink_secret n g x) l c = c.
Proof. induction 1 as [|s l Hs _ IH]; cbn; [done|]. by rewrite unlink_secret_skip. Qed.

Lemma SyncWatchers_settled c p secrets :
  cl_stopped c = false -> (forall s, depends c s p <-> s ∈ secrets) -> SyncWatchers c p secrets = (c, None).
Proof.
  intros Hs Hd. unfold SyncWatchers. rewrite Hs, sync_fold_noop.
  - unfold unlinkPipelineFromWatchers. rewrite unlink_fold_noop; [done|]. apply Forall_forall. intros s _.
    unfold unlinks. cbn. destruct (decide (s ∈ secrets)) as [Hin|Hin].
    + by rewrite bool_decide_true by (by rewrite elem_of_list_to_set).
    + rewrite (bool_decide_false (s ∈ _)) by (by rewrite elem_of_list_to_set). cbn.
      apply bool_decide_eq_false. intros Hp. apply Hin, Hd. unfold depends. by destruct p.
  - apply Forall_forall. intros s Hin. apply Hd. by rewrite elem_of_elements, elem_of_list_to_set in Hin.
Qed.

(** SyncWatchers is idempotent, as its comment says: repeating a successful call
    changes nothing, neither watchers nor goroutines nor gauges, in every state
    the client can reach. *)
Theorem SyncWatchers_idempotent os p secrets c' :
  SyncWatchers (run_ops NewClient os).1 p secrets = (c', None) -> SyncWatchers c' p secrets = (c', None).
Proof.
  destruct (run_ops_simulates os NewClient _ NewClient_refines) as [(Hw & _) _].
  intros Hc. apply SyncWatchers_spec in Hc as (_ & Hs & Hd); [|done].
  destruct (cl_stopped (run_ops NewClient os).1) eqn:Hst; [by destruct Hd as [_ Hd]|]. destruct Hd as [_ Hd].
  apply SyncWatchers_settled; [by rewrite Hs|]. intros s. rewrite Hd. by rewrite decide_True.
Qed.

(** ** Routing of events *)

#[export] Instance depends_dec c s p : Decision (depends c s p).
Proof. unfold depends. apply _. Defined.

(** The versions of the Secret that the loop sees: those before an error. *)
Fixpoint versions_seen (events : list watch_event) : list string :=
  match events with
  | [] | WatchError :: _ => []
  | WatchOther :: rest => versions_seen rest
  | WatchSecret v :: rest => v :: versions_seen rest
  end.

(** A pipeline is linked to the watcher of a Secret, or not, all the time: in every event the watcher is one that calls
    of the client built, or one without pipelines that is about to end. *)
Definition linking (s : NamespacedName) (q : Object) (linked : bool) (e : watcher * watch_event) : Prop :=
  (wa_linked e.1 = [] \/ exists os, cl_watchers (run_ops NewClient os).1 !! s = Some e.1) /\
  (q ∈ wa_linked e.1 <-> linked = true).

Lemma linking_NoDup s q linked e : linking s q linked e -> NoDup (wa_linked e.1).
Proof.
  intros [[->|[os Hw]] _]; [constructor|].
  destruct (run_ops_simulates os NewClient _ NewClient_refines) as [(Hwf & _) _].
  by destruct (wf_watcher _ Hwf s _ Hw) as (_ & _ & Hn).
Qed.

Lemma linked_count w q linked :
  NoDup (wa_linked w) -> (q ∈ wa_linked w <-> linked = true) ->
  count_occ Object_eq_dec (getLinkedPipelines w) q = if linked then 1%nat else 0%nat.
Proof.
  unfold getLinkedPipelines. rewrite NoDup_ListNoDup, list_elem_of_In. intros Hn Hq. destruct linked.
  - rewrite (NoDup_count_occ' Object_eq_dec) in Hn. by apply Hn, Hq.
  - apply (count_occ_not_In Object_eq_dec). intros Hi%Hq. done.
Qed.

Lemma processEventLoop_count s q linked events :
  Forall (linking s q linked) events ->
  let n := length (versions_seen (map snd events)) in
  count_occ Object_eq_dec (processEventLoop events).1 q = (if linked then n else 0%nat) /\ (processEventLoop events).2 = n.
Proof.
  induction 1 as [|[w e] events Hl _ IH]; [by destruct linked|]. pose proof (linking_NoDup _ _ _ _ Hl) as Hn.
  destruct Hl as [_ Hl]. cbn in Hn, Hl. destruct e as [|v|]; [by destruct linked| |exact IH].
  cbn [processEventLoop map snd versions_seen length]. destruct (processEventLoop events) as [routed total].
  cbn [fst snd] in *. rewrite count_occ_app, (linked_count _ _ _ Hn Hl). destruct linked, IH as [-> ->]; split; lia.
Qed.

(** Every change of a Secret seen by its watcher is routed once to each pipeline
    that depends on the Secret and to no other: a pipeline receives as many
    events as there were changes, however the links were built up. *)
Theorem secret_event_reaches_dependents os s w events q :
  let c := (run_ops NewClient os).1 in
  cl_watchers c !! s = Some w ->
  count_occ Object_eq_dec (processEventLoop (map (pair w) events)).1 q =
    (if bool_decide (depends c s q) then length (versions_seen events) else 0%nat).
Proof.
  intros c Hw. destruct (processEventLoop_count s q (bool_decide (depends c s q)) (map (pair w) events)) as [-> _].
  - apply Forall_map, Forall_forall. intros e _. split; [right; by exists os|].
    rewrite bool_decide_eq_true. unfold depends, linked_at. cbn. by rewrite Hw.
  - by rewrite map_map, map_id.
Qed.

(** ** What a watcher sees of the history of the Secrets *)

(** The changes of the Secrets of a namespace, in the order of the API server; a change is a deletion or leaves the
    Secret with a resource version. *)
Record change := mkChange { ch_Name : string; ch_version : string; ch_deletion : bool }.

(** The moments of a round, as numbers of changes before them: the list, the begin and the end of the watch; and whether
    the list and the watch are answered and the context ends. *)
Record span := mkSpan {
  sp_listed : nat; sp_opened : nat; sp_closed : nat; sp_list_ok : bool; sp_watch_ok : bool; sp_done : bool
}.

Section History.
(** Field selectors, by the text of the selector and the name of the object. *)
Context (selects : string -> string -> bool).

Definition between (from to : nat) (history : list change) : list change := drop from (take to history).
Definition selected (selector : string) : list change -> list change :=
  List.filter (fun c => selects selector (ch_Name c)).

(** The selected objects that exist after some changes, by the change that made each. *)
Definition existing (selector : string) (history : list change) : list change :=
  fold_left (fun cs c => List.filter (fun d => negb (str_eqb (ch_Name d) (ch_Name c))) cs
                         ++ if ch_deletion c then [] else [c])%list (selected selector history) [].

(** A watch delivers changes: their events in order, possibly among others such as bookmarks, up to the end of the
    connection or an error. *)
Definition delivers (events : list watch_event) (cs : list change) : Prop :=
  exists sent rest, events = (sent ++ rest)%list /\ WatchError ∉ sent /\ versions_seen sent = map ch_version cs /\
    (rest = [] \/ exists more, rest = WatchError :: more).

(** The documented answers of the API server in a round: a watch from the resource version of a list delivers the
    changes after the list; a watch without a resource version first delivers the existing objects. *)
Record serves (history : list change) (r : round) (sp : span) : Prop := {
  serves_order : (sp_listed sp <= sp_opened sp <= sp_closed sp)%nat;
  serves_list sel : (exists v, rd_list r sel = Ok v) <-> sp_list_ok sp = true;
  serves_watch sel v : (exists es, rd_watch r sel v = Ok es) <-> sp_watch_ok sp = true;
  serves_version sel v : rd_list r sel = Ok v -> v <> "";
  serves_from sel sel' v es : rd_list r sel = Ok v -> rd_watch r sel' v = Ok es ->
    delivers (map snd es) (selected sel' (between (sp_listed sp) (sp_closed sp) history));
  serves_all sel es : rd_watch r sel "" = Ok es ->
    delivers (map snd es) (existing sel (take (sp_opened sp) history) ++
                           selected sel (between (sp_opened sp) (sp_closed sp) history));
  serves_done : rd_done r = sp_done sp
}.

(** The changes of a Secret that its watcher should see in a round: with a list, the changes between the list and the
    end of the watch; without one, the Secret as it is at the begin of the watch and the changes since then. *)
Definition changes_of (name : string) : list change -> list change :=
  List.filter (fun c => str_eqb name (ch_Name c)).
Definition last_state (name : string) (history : list change) : list change :=
  match last (changes_of name history) with Some c => if ch_deletion c then [] else [c] | None => [] end.
Definition observed (name : string) (history : list change) (sp : span) : list change :=
  if sp_watch_ok sp then
    if sp_list_ok sp then changes_of name (between (sp_listed sp) (sp_closed sp) history)
    else (last_state name (take (sp_opened sp) history) ++
          changes_of name (between (sp_opened sp) (sp_closed sp) history))%list
  else [].

(** The rounds up to the one in which the context ends. *)
Fixpoint live (spans : list span) : list span :=
  match spans with [] => [] | sp :: rest => sp :: if sp_done sp then [] else live rest end.

(** The law of field selectors for a name. *)
Definition selects_name (name : string) : Prop := forall n, selects ("metadata.name=" +:+ name) n = str_eqb name n.

Lemma delivers_seen events cs : delivers events cs -> versions_seen events = map ch_version cs.
Proof.
  intros (sent & rest & -> & Hn & <- & Hr). assert (He : versions_seen rest = []) by (by destruct Hr as [->|[more ->]]).
  clear Hr. induction sent as [|e sent IH]; [done|]. apply not_elem_of_cons in Hn as [He' Hn]. specialize (IH Hn).
  destruct e; cbn; [done|by rewrite IH|exact IH].
Qed.

Lemma selected_name name h : selects_name name -> selected ("metadata.name=" +:+ name) h = changes_of name h.
Proof. intros Hs. apply List.filter_ext. intros c. by rewrite Hs. Qed.

Lemma list_filter_none {A} (p : A -> bool) l : Forall (fun x => p x = false) l -> List.filter p l = [].
Proof. by induction 1 as [|x l Hx _ IH]; simpl; [|rewrite Hx, IH]. Qed.

Lemma existing_last name h : selects_name name -> existing ("metadata.name=" +:+ name) h = last_state name h.
Proof.
  intros Hs. unfold existing, last_state. rewrite (selected_name _ _ Hs).
  assert (Hn : Forall (fun c => str_eqb name (ch_Name c) = true) (changes_of name h)).
  { apply Forall_forall. intros c Hc. apply list_elem_of_In, filter_In in Hc. by destruct Hc. }
  set (f := fun (cs : list change) (c : change) => _).
  enough (He : Forall (fun c => str_eqb name (ch_Name c) = true) (fold_left f (changes_of name h) []) /\
    fold_left f (changes_of name h) [] =
      match last (changes_of name h) with Some c => if ch_deletion c then [] else [c] | None => [] end) by apply He.
  induction (changes_of name h) as [|c cs IH] using rev_ind; [done|].
  apply Forall_app in Hn as [Hcs Hc]. rewrite Forall_singleton in Hc. destruct (IH Hcs) as [Ha _].
  rewrite fold_left_app, last_snoc. cbn [fold_left]. subst f. cbn beta.
  rewrite list_filter_none.
  - destruct (ch_deletion c); cbn [app]; split; try done. by constructor.
  - eapply Forall_impl; [exact Ha|]. cbn. intros d Hd. apply str_eqb_true in Hc, Hd. by rewrite <- Hc, <- Hd, str_eqb_refl.
Qed.

(** One round. *)
Lemma round_observed secret history r sp :
  selects_name (nn_Name secret) -> serves history r sp ->
  match rd_watch r (secretNameFieldSelector secret) (fetchLatestResourceVersion secret r) with
  | Ok events => sp_watch_ok sp = true /\
      versions_seen (map snd events) = map ch_version (observed (nn_Name secret) history sp)
  | Err _ => observed (nn_Name secret) history sp = [] /\ sp_watch_ok sp = false
  end.
Proof.
  intros Hs Hr. unfold fetchLatestResourceVersion, secretNameFieldSelector, observed.
  destruct (rd_watch r _ _) as [events|e] eqn:Hw.
  - assert (Hok : sp_watch_ok sp = true) by (eapply serves_watch; eauto). rewrite Hok. split; [done|].
    apply delivers_seen. rewrite <- (existing_last _ _ Hs), <- !(selected_name _ _ Hs).
    destruct (rd_list r _) as [v|] eqn:Hl.
    + assert (sp_list_ok sp = true) as -> by (eapply serves_list; eauto). by eapply serves_from.
    + destruct (sp_list_ok sp) eqn:Ho; [|by apply (serves_all _ _ _ Hr)].
      apply (serves_list _ _ _ Hr ("metadata.name=" +:+ nn_Name secret)) in Ho as [v Hv]. congruence.
  - destruct (sp_watch_ok sp) eqn:Ho; [|done].
    eapply (serves_watch _ _ _ Hr) in Ho as [es Hes]. rewrite Hes in Hw. done.
Qed.

(** C37. The goroutine of a watcher follows its Secret: against an API server
    that answers lists and watches as documented, a pipeline that is linked
    throughout is routed once for every change of this Secret (and of no other)
    between the list and the end of the watch of a round, and when the list
    failed for the Secret as it is and every later change; a pipeline that is
    never linked is routed for none; the counters of events and reconnections
    say just this; and nothing happens after the context ended. Changes between
    the end of a watch and the next list are not seen. (Field selectors select
    the name of the Secret, as they do for names without special characters.) *)
Theorem watcher_follows_secret secret q linked history rounds spans :
  selects_name (nn_Name secret) ->
  Forall2 (serves history) rounds spans ->
  Forall (fun r => forall sel v es, rd_watch r sel v = Ok es -> Forall (linking secret q linked) es) rounds ->
  let seen := flat_map (observed (nn_Name secret) history) (live spans) in
  let f := start secret rounds in
  count_occ Object_eq_dec (fo_routed f) q = (if linked then length seen else 0%nat) /\
  fo_events f = length seen /\
  fo_reconnects f = length (List.filter (fun sp => sp_watch_ok sp && negb (sp_done sp)) (live spans)).
Proof.
  intros Hs Hr. induction Hr as [|r sp rounds spans Hsv _ IH]; intros Hl; [by destruct linked|].
  apply Forall_cons in Hl as [Hl Hls]. specialize (IH Hls). cbv zeta in *. cbn [start live flat_map List.filter].
  pose proof (round_observed secret history r sp Hs Hsv) as Ho. rewrite (serves_done _ _ _ Hsv).
  destruct (rd_watch r _ _) as [events|e] eqn:Hw.
  - destruct Ho as [Hok Ho]. rewrite Hok.
    destruct (processEventLoop_count secret q linked events (Hl _ _ _ Hw)) as [Hc Ht].
    rewrite Ho, length_map in Hc, Ht. destruct (processEventLoop events) as [routed total]. cbn [fst snd] in *.
    destruct (sp_done sp); cbn [fo_routed fo_events fo_reconnects flat_map andb negb List.filter length].
    + rewrite app_nil_r. by split_and!.
    + destruct IH as (H1 & H2 & H3). rewrite count_occ_app, length_app, Hc, Ht, H1, H2, H3. by destruct linked.
  - destruct Ho as [-> ->]. destruct (sp_done sp); [by destruct linked|]. exact IH.
Qed.

End History.

(** ** Concrete runs *)

Definition sample_secret : NamespacedName := mkNN "default" "credentials".
Definition sample_pipeline : Object := mkObj "backend" (mkGVK "telemetry.kyma-project.io" "v1beta1" "TracePipeline").
Definition sample_ops : list op := [OSync sample_pipeline [sample_secret]].

Lemma SyncWatchers_idempotent_witness :
  exists c', SyncWatchers c' sample_pipeline [sample_secret] = (c', None).
Proof.
  assert (He : (SyncWatchers (run_ops NewClient sample_ops).1 sample_pipeline [sample_secret]).2 = None)
    by (vm_compute; reflexivity).
  destruct (SyncWatchers (run_ops NewClient sample_ops).1 sample_pipeline [sample_secret]) as [c' e] eqn:Hc.
  cbn in He. subst e. exists c'. exact (SyncWatchers_idempotent sample_ops sample_pipeline [sample_secret] c' Hc).
Defined.

Lemma secret_event_reaches_dependents_witness :
  exists w, count_occ Object_eq_dec (processEventLoop (map (pair w) [WatchSecret "1"; WatchSecret "2"])).1 sample_pipeline = 2%nat.
Proof.
  exists (newWatcher sample_secret sample_pipeline).
  rewrite (secret_event_reaches_dependents sample_ops sample_secret (newWatcher sample_secret sample_pipeline)
             [WatchSecret "1"; WatchSecret "2"] sample_pipeline).
  - vm_compute. reflexivity.
  - vm_compute. reflexivity.
Defined.

(** A history of three changes of one Secret and one of another. An API server that answers from it: in the first round
    the watch ends after the second change, then the Secret changes, and the next round starts with a list. *)
Definition sample_history : list change :=
  [mkChange "credentials" "1" false; mkChange "other" "2" false; mkChange "credentials" "3" false;
   mkChange "credentials" "4" false; mkChange "credentials" "5" false].
Definition sample_selects (selector n : string) : bool := str_eqb selector ("metadata.name=" +:+ n).
Definition sample_watcher : watcher := newWatcher sample_secret sample_pipeline.
Definition sample_events (cs : list change) : list (watcher * watch_event) :=
  (sample_watcher, WatchOther) :: map (fun c => (sample_watcher, WatchSecret (ch_version c))) cs.
Definition sample_round (sp : span) : round :=
  mkRound (fun _ => if sp_list_ok sp then Ok "0" else Err NotFound)
    (fun sel v => if sp_watch_ok sp then
        Ok (sample_events (if str_eqb v "" then
                             existing sample_selects sel (take (sp_opened sp) sample_history) ++
                             selected sample_selects sel (between (sp_opened sp) (sp_closed sp) sample_history)
                           else selected sample_selects sel (between (sp_listed sp) (sp_closed sp) sample_history))%list)
      else Err NotFound) (sp_done sp).
Definition sample_spans : list span := [mkSpan 1 1 3 true true false; mkSpan 4 4 4 true false false; mkSpan 4 4 5 true true true].

Lemma sample_events_deliver cs : delivers (map snd (sample_events cs)) cs.
Proof.
  exists (map snd (sample_events cs)), []. rewrite app_nil_r. split_and!; [done| | |by left]; unfold sample_events; cbn [map snd].
  - apply not_elem_of_cons. split; [done|]. rewrite map_map. cbn. intros Hi%list_elem_of_In%in_map_iff. by destruct Hi as (? & ? & _).
  - cbn [versions_seen]. rewrite map_map. cbn. induction cs as [|c cs IH]; [done|]. cbn. by rewrite IH.
Qed.

Lemma sample_serves sp :
  (sp_listed sp <= sp_opened sp <= sp_closed sp)%nat -> serves sample_selects sample_history (sample_round sp) sp.
Proof.
  intros Ho. constructor; cbn; try done.
  - intros _. destruct (sp_list_ok sp); split; [done|by eexists|by intros [v Hv]|done].
  - intros sel v. destruct (sp_watch_ok sp); split; [done|by eexists|by intros [es Hv]|done].
  - intros _ v. destruct (sp_list_ok sp); [|done]. by intros [= <-].
  - intros _ sel v es. destruct (sp_list_ok sp), (sp_watch_ok sp); try done. intros [= <-] [= <-]. apply sample_events_deliver.
  - intros sel es. destruct (sp_watch_ok sp); [|done]. intros [= <-]. apply sample_events_deliver.
Qed.

Lemma sample_linking sp sel v es :
  rd_watch (sample_round sp) sel v = Ok es -> Forall (linking sample_secret sample_pipeline true) es.
Proof.
  cbn. destruct (sp_watch_ok sp); [|done]. intros [= <-].
  assert (Hl : forall e, linking sample_secret sample_pipeline true (sample_watcher, e)).
  { intros e. split; [right; exists sample_ops; by vm_compute|]. cbn. by rewrite list_elem_of_singleton. }
  constructor; [apply Hl|]. apply Forall_map, Forall_forall. intros c _. apply Hl.
Qed.

Lemma sample_selects_name name : selects_name sample_selects name.
Proof.
  intros n. unfold sample_selects. apply eq_true_iff_eq. rewrite !str_eqb_true. split; [apply append_cancel|by intros ->].
Qed.

Lemma watcher_follows_secret_witness :
  count_occ Object_eq_dec (fo_routed (start sample_secret (map sample_round sample_spans))) sample_pipeline = 2%nat.
Proof.
  destruct (watcher_follows_secret sample_selects sample_secret sample_pipeline true sample_history
              (map sample_round sample_spans) sample_spans) as (Hc & _ & _).
  - apply sample_selects_name.
  - repeat constructor; apply sample_serves; cbn; lia.
  - repeat constructor; intros sel v es; apply sample_linking.
  - rewrite Hc. vm_compute. reflexivity.
Defined.

(** A change of the Secret between the end of a watch and the next list is lost:
    there is an execution of the watcher that is connected again and up to date
    with the version, but never routed the change, and no further step routes
    it. *)
Theorem reconnecting_watch_misses_update :
  Forall2 (serves sample_selects sample_history) (map sample_round sample_spans) sample_spans /\
  map ch_version (changes_of "credentials" (between 1 5 sample_history)) = ["3"; "4"; "5"] /\
  flat_map (fun r => match rd_watch r "metadata.name=credentials" (fetchLatestResourceVersion sample_secret r) with
                     | Ok es => versions_seen (map snd es)
                     | Err _ => []
                     end) (map sample_round sample_spans) = ["3"; "5"] /\
  fo_routed (start sample_secret (map sample_round sample_spans)) = [sample_pipeline; sample_pipeline].
Proof. split_and!; [repeat constructor; apply sample_serves; cbn; lia|by vm_compute..]. Qed.
