(* ===== verification/TelemetryReconciler.v ===== *)
(** * The Telemetry reconciler (internal/reconciler/telemetry)

    reconciler.go, status.go, status_utils.go and the three component checkers: the
    finalizer of the Telemetry resource, the webhook, the self monitor, and the status
    that summarises all pipelines. Logging is left out.

    The Telemetry resource is passed by pointer and mutated; the functions that do so
    return it. A successful update replaces it by what the API server returns. *)
From stdpp Require Import base gmap strings list sorting pretty.
From S2P Require Import Prelude Kube GoErrors.
From S2P Require Import ApiV1beta1 ApiOperator Conditions Lock K8sUtils TelemetryUtils.
From S2P Require Import CollectorBuilder CollectorProcessors GatewayConfig.
Local Open Scope string_scope.

(** ** Component checkers *)

(** What a checker reads of a pipeline of any kind. *)
Record PipelineView := mkView { pv_Name : string; pv_Conditions : list Condition }.

Definition view_log (p : LogPipeline) : PipelineView :=
  mkView (om_Name (lp_ObjectMeta p)) (lst_Conditions (lp_Status p)).
Definition view_metric (p : MetricPipeline) : PipelineView :=
  mkView (om_Name (mp_ObjectMeta p)) (mst_Conditions (mp_Status p)).
Definition view_trace (p : TracePipeline) : PipelineView :=
  mkView (om_Name (tp_ObjectMeta p)) (tst_Conditions (tp_Status p)).

(** [slices.Sort] on texts. *)
Definition sort_texts (l : list string) : list string := sort_by_name (fun s => s) l.

Definition generateDeletionBlockedMessage (resources : list (string * list string)) : string :=
  let resourcesDesc :=
    map (fun res => res.1 +:+ " (" +:+ String.concat "," (sort_texts res.2) +:+ ")")
      (List.filter (fun res => (0 <? length res.2)%nat) resources) in
  "The deletion of the module is blocked. To unblock the deletion, delete the following resources: "
    +:+ String.concat ", " resourcesDesc.

(** The order defines the priority. *)
Definition condTypes : list string :=
  [TypeConfigurationGenerated; TypeGatewayHealthy; TypeAgentHealthy; TypeFlowHealthy].

(** The first pipeline whose condition of a type satisfies [f]. *)
Fixpoint first_condition (f : Condition -> bool) (condType : string) (pipelines : list PipelineView) :
    option Condition :=
  match pipelines with
  | [] => None
  | p :: rest =>
      match find_condition condType (pv_Conditions p) with
      | Some cond => if f cond then Some cond else first_condition f condType rest
      | None => first_condition f condType rest
      end
  end.

Section Checker.
(** The condition type, the messages and the resource type of a kind of pipelines. *)
Context (type : string) (message : string -> string) (resourceType : string).

(** A condition of the component with the status of a pipeline's condition. *)
Definition component_condition (cond : Condition) : Condition :=
  mkCondition type (c_Status cond) (c_Reason cond) (c_Message cond) 0.

Definition checkForFirstAboutToExpirePipelineCondition (pipelines : list PipelineView) : option Condition :=
  component_condition <$>
    first_condition (fun c => str_eqb (c_Reason c) ReasonTLSCertificateAboutToExpire)
      TypeConfigurationGenerated pipelines.

Definition is_false (c : Condition) : bool := bool_decide (c_Status c = ConditionFalse).

Fixpoint first_unhealthy (types : list string) (pipelines : list PipelineView) : option Condition :=
  match types with
  | [] => None
  | t :: rest =>
      match first_condition is_false t pipelines with
      | Some cond => Some cond
      | None => first_unhealthy rest pipelines
      end
  end.

Definition checkForFirstUnhealthyPipelineCondition (pipelines : list PipelineView) : option Condition :=
  component_condition <$> first_unhealthy condTypes pipelines.

Definition checkForNoPipelineDeployedCondition (pipelines : list PipelineView) : option Condition :=
  if (length pipelines =? 0)%nat
  then Some (mkCondition type ConditionTrue ReasonNoPipelineDeployed (message ReasonNoPipelineDeployed) 0)
  else None.

Definition checkForResourceBlocksDeletionCondition (pipelines : list PipelineView) (telemetryInDeletion : bool) :
    option Condition :=
  if telemetryInDeletion && negb (length pipelines =? 0)%nat
  then Some (mkCondition type ConditionFalse ReasonResourceBlocksDeletion
               (generateDeletionBlockedMessage [(resourceType, map pv_Name pipelines)]) 0)
  else None.

(** [Check] after the list of pipelines was read. *)
Definition check_pipelines (pipelines : list PipelineView) (telemetryInDeletion : bool) : Condition :=
  match checkForResourceBlocksDeletionCondition pipelines telemetryInDeletion with
  | Some result => result
  | None =>
      match checkForNoPipelineDeployedCondition pipelines with
      | Some result => result
      | None =>
          match checkForFirstUnhealthyPipelineCondition pipelines with
          | Some result => result
          | None =>
              match checkForFirstAboutToExpirePipelineCondition pipelines with
              | Some result => result
              | None => mkCondition type ConditionTrue ReasonComponentsRunning (message ReasonComponentsRunning) 0
              end
          end
      end
  end.
End Checker.

(** ** Interfaces *)

(** [selfmonitor.ApplyOptions] *)
Record SelfMonitorApplyOptions := mkSelfMonitorApplyOptions {
  sm_AlertRulesFileName : string; sm_AlertRulesYAML : string;
  sm_PrometheusConfigFileName : string; sm_PrometheusConfigPath : string; sm_PrometheusConfigYAML : string;
  sm_LogLevel : string
}.

(** The contents of the webhook's Secret and of its configuration, and the kind of VPAs. *)
Record WebhookSecret := mkWebhookSecret { ws_Data : gmap string string }.
Record WebhookConfiguration := mkWebhookConfiguration { wc_Rules : list string }.
Record VPA := mkVPA {}.

(** The dependencies of the reconciler. [load_overrides] gives the pause flag and the
    log level; [NoKindMatch] is [errors.Is(err, &meta.NoKindMatchError{})]; an update of
    the Telemetry resource returns the object of the API server. *)
Class TelemetryDependencies (W : Type) := {
  load_overrides : W -> result (bool * string) goerror;
  tel_update : W -> Telemetry -> W * result Telemetry apierror;
  tel_status_update : W -> Telemetry -> W * result Telemetry apierror;
  list_logs : W -> result (list LogPipeline) apierror;
  list_metrics : W -> result (list MetricPipeline) apierror;
  list_traces : W -> result (list TracePipeline) apierror;
  NoKindMatch : apierror -> bool;
  service_get : W -> NamespacedName -> option apierror;
  vpa_list : W -> option apierror;
  EnsureCertificate : W -> W * option goerror;
  secret_equal : object WebhookSecret -> object WebhookSecret -> bool;
  prometheus_config_yaml : string -> string -> result string goerror;
  alert_rules_yaml : result string goerror;
  sm_apply : W -> SelfMonitorApplyOptions -> W * option goerror;
  sm_delete : W -> W * option goerror;
  set_strategy_gauge : W -> string -> Z -> W
}.

(** [telemetry.Config] *)
Record TelemetryConfig := mkTelemetryConfig {
  tc_TargetNamespace : string;
  tc_DefaultTelemetryNamespace : string;
  tc_CASecretName : NamespacedName;
  tc_ValidatingWebhookName : NamespacedName;
  tc_SelfMonitorAlertmanagerWebhookURL : string
}.

Definition finalizer : string := "telemetry.kyma-project.io/finalizer".
Definition selfMonitorConfigPath : string := "/etc/prometheus/".
Definition selfMonitorConfigFileName : string := "prometheus.yml".
Definition selfMonitorAlertRuleFileName : string := "alerting_rules.yml".
Definition names_SelfMonitor : string := "telemetry-self-monitor".
Definition OTLPMetricsService : string := "telemetry-otlp-metrics".
Definition OTLPTracesService : string := "telemetry-otlp-traces".
Definition OTLPLogsService : string := "telemetry-otlp-logs".
Definition OTLPService : string := "telemetry-otlp".

(** Assignments to the object. *)
Definition set_finalizers (t : Telemetry) (fs : list string) : Telemetry :=
  mkTelemetry (tel_ObjectMeta t) fs (tel_Spec t) (tel_Status t).
Definition set_status (t : Telemetry) (s : TelemetryStatus) : Telemetry :=
  mkTelemetry (tel_ObjectMeta t) (tel_Finalizers t) (tel_Spec t) s.

(** [controllerutil.ContainsFinalizer] and its companions. *)
Definition ContainsFinalizer (t : Telemetry) (f : string) : bool := existsb (str_eqb f) (tel_Finalizers t).
Definition AddFinalizer (t : Telemetry) (f : string) : Telemetry :=
  if ContainsFinalizer t f then t else set_finalizers t (tel_Finalizers t ++ [f]).
Definition RemoveFinalizer (t : Telemetry) (f : string) : Telemetry :=
  set_finalizers t (List.filter (fun g => negb (str_eqb f g)) (tel_Finalizers t)).

Definition in_deletion (t : Telemetry) : bool := om_Deleted (tel_ObjectMeta t).

Section Reconciler.
Context {W : Type} `{TelemetryReader W} `{ConfigMapClient W} `{TelemetryDependencies W}.
Context `{ObjectClient W WebhookSecret} `{ObjectClient W WebhookConfiguration} `{ObjectClient W VPA}.
Context `{OwnerSetter} `{StatusSetter} (config : TelemetryConfig).

(** ** status.go *)

(** [resourcesExist] for one of the lists. *)
Definition resourcesExist {P} (list : result (list P) apierror) : bool :=
  match list with
  | Err err => NoKindMatch err
  | Ok items => (0 <? length items)%nat
  end.

Definition dependentCRsFound (w : W) : bool :=
  resourcesExist (list_logs w) || resourcesExist (list_metrics w) || resourcesExist (list_traces w).

(** The three checkers. *)
Definition log_check (w : W) (telemetryInDeletion : bool) : result Condition goerror :=
  match list_logs w with
  | Err e => Err (Wrapf "failed to get list of LogPipelines: " (ApiError e) "")
  | Ok ps => Ok (check_pipelines TypeLogComponentsHealthy MessageForFluentBitLogPipeline "LogPipelines"
                   (map view_log ps) telemetryInDeletion)
  end.
Definition metric_check (w : W) (telemetryInDeletion : bool) : result Condition goerror :=
  match list_metrics w with
  | Err e => Err (Wrapf "failed to get list of MetricPipelines: " (ApiError e) "")
  | Ok ps => Ok (check_pipelines TypeMetricComponentsHealthy MessageForMetricPipeline "MetricPipelines"
                   (map view_metric ps) telemetryInDeletion)
  end.
Definition trace_check (w : W) (telemetryInDeletion : bool) : result Condition goerror :=
  match list_traces w with
  | Err e => Err (Wrapf "failed to get list of TracePipelines: " (ApiError e) "")
  | Ok ps => Ok (check_pipelines TypeTraceComponentsHealthy MessageForTracePipeline "TracePipelines"
                   (map view_trace ps) telemetryInDeletion)
  end.

Definition enabledHealthCheckers : list (W -> bool -> result Condition goerror) :=
  [log_check; metric_check; trace_check].

Definition updateComponentCondition (checker : W -> bool -> result Condition goerror) (w : W) (t : Telemetry)
    (telemetryInDeletion : bool) : Telemetry * option goerror :=
  match checker w telemetryInDeletion with
  | Err err => (t, Some (Wrapf "unable to check component: " err ""))
  | Ok c =>
      let c := mkCondition (c_Type c) (c_Status c) (c_Reason c) (c_Message c) (om_Generation (tel_ObjectMeta t)) in
      let s := tel_Status t in
      (set_status t (mkTelemetryStatus (test_State s) (SetStatusCondition (test_Conditions s) c) (test_Endpoints s)),
       None)
  end.

Fixpoint update_conditions (checkers : list (W -> bool -> result Condition goerror)) (w : W) (t : Telemetry)
    (telemetryInDeletion : bool) : Telemetry * option goerror :=
  match checkers with
  | [] => (t, None)
  | checker :: rest =>
      match updateComponentCondition checker w t telemetryInDeletion with
      | (t, Some err) => (t, Some (Wrapf "failed to update component condition: " err ""))
      | (t, None) => update_conditions rest w t telemetryInDeletion
      end
  end.

Definition set_state (t : Telemetry) (state : State) : Telemetry :=
  set_status t (mkTelemetryStatus state (test_Conditions (tel_Status t)) (test_Endpoints (tel_Status t))).

Definition updateOverallState (w : W) (t : Telemetry) (telemetryInDeletion : bool) : Telemetry :=
  if telemetryInDeletion then set_state t (if dependentCRsFound w then StateWarning else StateDeleting)
  else if existsb (fun cond => bool_decide (c_Status cond = ConditionFalse)
                               || str_eqb (c_Reason cond) ReasonTLSCertificateAboutToExpire)
            (test_Conditions (tel_Status t))
  then set_state t StateWarning
  else set_state t StateReady.

Definition makeOTLPEndpoints (serviceName namespace : string) : OTLPEndpoints :=
  mkOTLPEndpoints ("http://" +:+ serviceName +:+ "." +:+ namespace +:+ ":" +:+ pretty OTLPGRPC)
    ("http://" +:+ serviceName +:+ "." +:+ namespace +:+ ":" +:+ pretty OTLPHTTP).

Definition checkServiceExists (w : W) (svcName : NamespacedName) : result bool goerror :=
  match service_get w svcName with
  | Some err =>
      match IgnoreNotFound err with
      | Some err => Err (Wrapf "failed to get log-otlp service: " (ApiError err) "")
      | None => Ok false
      end
  | None => Ok true
  end.

(** [logEndpoints], [traceEndpoints], [metricEndpoints] and [otlpEndpoints]. *)
Definition service_endpoints (what service : string) (w : W) : result (option OTLPEndpoints) goerror :=
  match checkServiceExists w (mkNN (tc_TargetNamespace config) service) with
  | Err err => Err (Wrapf ("failed to check if " +:+ what +:+ " service endpoints exist: ") err "")
  | Ok svcExists => Ok (if (svcExists : bool) then Some (makeOTLPEndpoints service (tc_TargetNamespace config)) else None)
  end.
Definition logEndpoints := service_endpoints "log" OTLPLogsService.
Definition traceEndpoints := service_endpoints "trace" OTLPTracesService.
Definition metricEndpoints := service_endpoints "metric" OTLPMetricsService.
Definition otlpEndpoints := service_endpoints "OTLP" OTLPService.

Definition updateGatewayEndpoints (w : W) (t : Telemetry) : Telemetry * option goerror :=
  match logEndpoints w with
  | Err err => (t, Some (Wrapf "failed to get log endpoints: " err ""))
  | Ok logs =>
      match traceEndpoints w with
      | Err err => (t, Some (Wrapf "failed to get trace endpoints: " err ""))
      | Ok traces =>
          match metricEndpoints w with
          | Err err => (t, Some (Wrapf "failed to get metric endpoints: " err ""))
          | Ok metrics =>
              match otlpEndpoints w with
              | Err err => (t, Some (Wrapf "failed to get OTLP endpoints: " err ""))
              | Ok otlp =>
                  let s := tel_Status t in
                  (set_status t (mkTelemetryStatus (test_State s) (test_Conditions s)
                                   (mkGatewayEndpoints logs traces metrics otlp)), None)
              end
          end
      end
  end.

Definition updateStatus (w : W) (t : Telemetry) : W * Telemetry * option goerror :=
  let telemetryInDeletion := in_deletion t in
  match update_conditions enabledHealthCheckers w t telemetryInDeletion with
  | (t, Some err) => (w, t, Some err)
  | (t, None) =>
      let t := updateOverallState w t telemetryInDeletion in
      match updateGatewayEndpoints w t with
      | (t, Some err) => (w, t, Some (Wrapf "failed to update gateway endpoints: " err ""))
      | (t, None) =>
          match tel_status_update w t with
          | (w, Err err) => (w, t, Some (Wrapf "failed to update status: " (ApiError err) ""))
          | (w, Ok t) => (w, t, None)
          end
      end
  end.

(** ** reconciler.go *)

Definition trackServiceAttributesEnrichmentStrategy (w : W) : W :=
  let enrichmentStrategy := GetServiceEnrichmentFromTelemetryOrDefault w (tc_DefaultTelemetryNamespace config) in
  let w := set_strategy_gauge w AnnotationValueTelemetryServiceEnrichmentOtel 0 in
  let w := set_strategy_gauge w AnnotationValueTelemetryServiceEnrichmentKymaLegacy 0 in
  set_strategy_gauge w enrichmentStrategy 1.

Definition update_telemetry (w : W) (t : Telemetry) : W * Telemetry * option goerror :=
  match tel_update w t with
  | (w, Err err) => (w, t, Some (Wrapf "failed to update telemetry: " (ApiError err) ""))
  | (w, Ok t) => (w, t, None)
  end.

Definition handleFinalizer (w : W) (t : Telemetry) : W * Telemetry * option goerror :=
  if negb (in_deletion t) then
    if negb (ContainsFinalizer t finalizer) then update_telemetry w (AddFinalizer t finalizer) else (w, t, None)
  else if ContainsFinalizer t finalizer then
    if dependentCRsFound w then (w, t, None)
    else update_telemetry w (RemoveFinalizer t finalizer)
  else (w, t, None).

Definition vpaCRDExists (w : W) : result bool apierror :=
  match vpa_list w with
  | Some err => if IsNotFound err then Ok false else Err err
  | None => Ok true
  end.

Definition cleanupSelfMonitorVPA (w : W) : W * option goerror :=
  match vpaCRDExists w with
  | Err err => (w, Some (Wrapf "failed to check VPA CRD existence: " (ApiError err) ""))
  | Ok false => (w, None)
  | Ok true =>
      match DeleteObject (S := VPA) w (mkNN (tc_TargetNamespace config) names_SelfMonitor) with
      | (w, Some err) => (w, Some (Wrapf "failed to delete self-monitor VPA: " (ApiError err) ""))
      | (w, None) => (w, None)
      end
  end.

Definition reconcileWebhook (w : W) (t : Telemetry) : W * option goerror :=
  if in_deletion t && negb (dependentCRsFound w) then (w, None)
  else
    match EnsureCertificate w with
    | (w, Some err) => (w, Some (Wrapf "failed to reconcile webhook: " err ""))
    | (w, None) =>
        match obj_get (S := WebhookSecret) w (tc_CASecretName config) with
        | Err err => (w, Some (Wrapf "failed to get secret: " (ApiError err) ""))
        | Ok secret =>
            let m := ob_Meta secret in
            match SetOwnerReference (mkOwnerRef (om_Name (tel_ObjectMeta t)) (om_UID (tel_ObjectMeta t)))
                    (fm_OwnerReferences m) with
            | Err err => (w, Some (Wrapf "failed to set owner reference for secret: " err ""))
            | Ok owners =>
                let secret := mkObject (mkFullMeta (fm_Key m) (fm_ResourceVersion m) (fm_Labels m) (fm_Annotations m)
                                          owners) (ob_Content secret) in
                match CreateOrUpdateSecret secret_equal w secret with
                | (w, Some err) => (w, Some (Wrapf "failed to update secret: " (ApiError err) ""))
                | (w, None) =>
                    match obj_get (S := WebhookConfiguration) w (tc_ValidatingWebhookName config) with
                    | Err err => (w, Some (Wrapf "failed to get webhook: " (ApiError err) ""))
                    | Ok webhook =>
                        match CreateOrUpdateValidatingWebhookConfiguration w webhook with
                        | (w, Some err) => (w, Some (Wrapf "failed to update webhook: " (ApiError err) ""))
                        | (w, None) => (w, None)
                        end
                    end
                end
            end
        end
    end.

Definition checkPipelineExist (w : W) : result bool goerror :=
  match list_logs w with
  | Err err => Err (Wrapf "failed to get all log pipelines: " (ApiError err) "")
  | Ok ls =>
      if (0 <? length ls)%nat then Ok true
      else
        match list_traces w with
        | Err err => Err (Wrapf "failed to get all trace pipelines: " (ApiError err) "")
        | Ok ts =>
            if (0 <? length ts)%nat then Ok true
            else
              match list_metrics w with
              | Err err => Err (Wrapf "failed to get all metric pipelines: " (ApiError err) "")
              | Ok ms => Ok (0 <? length ms)%nat
              end
        end
  end.

Definition reconcileSelfMonitor (w : W) (t : Telemetry) (logLevel : string) : W * option goerror :=
  match checkPipelineExist w with
  | Err err => (w, Some err)
  | Ok false =>
      match sm_delete w with
      | (w, Some err) => (w, Some (Wrapf "failed to delete self-monitor resources: " err ""))
      | (w, None) => (w, None)
      end
  | Ok true =>
      match prometheus_config_yaml (tc_TargetNamespace config) (tc_SelfMonitorAlertmanagerWebhookURL config) with
      | Err err => (w, Some (Wrapf "failed to marshal selfmonitor config: " err ""))
      | Ok prometheusConfigYAML =>
          match alert_rules_yaml with
          | Err err => (w, Some (Wrapf "failed to marshal rules: " err ""))
          | Ok alertRulesYAML =>
              match sm_apply w (mkSelfMonitorApplyOptions selfMonitorAlertRuleFileName alertRulesYAML
                      selfMonitorConfigFileName selfMonitorConfigPath prometheusConfigYAML logLevel) with
              | (w, Some err) => (w, Some (Wrapf "failed to apply self-monitor resources: " err ""))
              | (w, None) => (w, None)
              end
          end
      end
  end.

Definition doReconcile (w : W) (t : Telemetry) (logLevel : string) : W * Telemetry * option goerror :=
  let w := trackServiceAttributesEnrichmentStrategy w in
  match handleFinalizer w t with
  | (w, t, Some err) => (w, t, Some (Wrapf "failed to manage finalizer: " err ""))
  | (w, t, None) =>
      (* a failed clean-up is only logged *)
      let '(w, _) := cleanupSelfMonitorVPA w in
      match reconcileWebhook w t with
      | (w, Some err) => (w, t, Some (Wrapf "failed to reconcile webhook: " err ""))
      | (w, None) =>
          match reconcileSelfMonitor w t logLevel with
          | (w, Some err) => (w, t, Some (Wrapf "failed to reconcile self-monitor deployment: " err ""))
          | (w, None) => (w, t, None)
          end
      end
  end.

(** [fmt.Errorf("...%w: %w", a, b)], an error with two causes. *)
Definition wrap_two (prefix : string) (a b : goerror) : goerror := Wrapf prefix (Join2 a b) "".

(** [Reconcile]; both results are [ctrl.Result{}]. *)
Definition Reconcile (w : W) (req : NamespacedName) : W * option goerror :=
  match load_overrides w with
  | Err err => (w, Some err)
  | Ok (true, _) => (w, None)
  | Ok (false, logLevel) =>
      match tel_get w req with
      | Err err => (w, ApiError <$> IgnoreNotFound err)
      | Ok telemetry =>
          let '(w, t, err) := doReconcile w telemetry logLevel in
          match updateStatus w t with
          | (w, _, None) => (w, err)
          | (w, _, Some statusErr) =>
              (w, Some (match err with
                        | Some err => wrap_two "failed while updating status: " statusErr err
                        | None => Wrapf "failed to update status: " statusErr ""
                        end))
          end
      end
  end.

End Reconciler.
