(* ===== verification/TelemetryReconcilerProps.v ===== *)
(** * Properties of the Telemetry reconciler

    The status of the Telemetry resource summarises the conditions of all pipelines by
    their priority, [Ready] means that every pipeline is healthy, and the finalizer
    guards the pipelines. *)
From stdpp Require Import base gmap strings list.
From S2P Require Import Prelude Kube GoErrors.
From S2P Require Import ApiV1beta1 ApiOperator Conditions Lock K8sUtils TelemetryUtils TelemetryReconciler.
Local Open Scope list_scope.

(** ** Searching conditions *)

Lemma first_condition_some f ty ps c :
  first_condition f ty ps = Some c ->
  exists before p after, ps = before ++ p :: after /\ find_condition ty (pv_Conditions p) = Some c /\ f c = true /\
    forall q d, q ∈ before -> find_condition ty (pv_Conditions q) = Some d -> f d = false.
Proof.
  induction ps as [|p ps IH]; simpl; [done|]. intros H.
  destruct (find_condition ty (pv_Conditions p)) as [d|] eqn:Hd; [destruct (f d) eqn:Hf|].
  - simplify_eq. exists [], p, ps. split_and!; try done. intros q e Hq. by apply elem_of_nil in Hq.
  - destruct (IH H) as (before & q & after & -> & Hq & Hc & Hb). exists (p :: before), q, after.
    split_and!; try done. intros r e [->|Hr]%elem_of_cons He; [congruence|by eapply Hb].
  - destruct (IH H) as (before & q & after & -> & Hq & Hc & Hb). exists (p :: before), q, after.
    split_and!; try done. intros r e [->|Hr]%elem_of_cons He; [congruence|by eapply Hb].
Qed.

Lemma first_condition_none f ty ps :
  first_condition f ty ps = None <->
  forall p c, p ∈ ps -> find_condition ty (pv_Conditions p) = Some c -> f c = false.
Proof.
  induction ps as [|p ps IH]; simpl.
  - split; [|done]. intros _ p c Hp. by apply elem_of_nil in Hp.
  - split.
    + intros H q c [->|Hq]%elem_of_cons Hc.
      * rewrite Hc in H. by destruct (f c).
      * apply (proj1 IH) with (p := q); try done.
        destruct (find_condition ty (pv_Conditions p)) as [d|]; [by destruct (f d)|done].
    + intros H. assert (Hps : first_condition f ty ps = None).
      { apply IH. intros q c Hq. apply H. by apply elem_of_cons; right. }
      destruct (find_condition ty (pv_Conditions p)) as [d|] eqn:Hd; [|done].
      by rewrite (H p d (list_elem_of_here _ _) Hd).
Qed.

Lemma first_unhealthy_none types ps :
  first_unhealthy types ps = None <->
  forall ty p c, ty ∈ types -> p ∈ ps -> find_condition ty (pv_Conditions p) = Some c -> c_Status c <> ConditionFalse.
Proof.
  induction types as [|ty types IH]; simpl.
  - split; [|done]. intros _ ty p c Ht. by apply elem_of_nil in Ht.
  - destruct (first_condition is_false ty ps) as [c|] eqn:Hf.
    + split; [done|]. intros H. exfalso.
      apply first_condition_some in Hf as (b & p & a & -> & Hp & Hc & _).
      apply (H ty p c); [by apply elem_of_cons; left| |done|].
      * by apply elem_of_app; right; apply elem_of_cons; left.
      * by apply bool_decide_eq_true in Hc.
    + pose proof (proj1 (first_condition_none _ _ _) Hf) as Hn. rewrite IH. split.
      * intros H ty' p c [->|Ht]%elem_of_cons Hp Hc; [|by eapply H].
        specialize (Hn p c Hp Hc). by apply bool_decide_eq_false in Hn.
      * intros H ty' p c Ht. apply H. by apply elem_of_cons; right.
Qed.

(** The first type of the priority order with an unhealthy pipeline decides. *)
Lemma first_unhealthy_some types ps c :
  first_unhealthy types ps = Some c ->
  exists above ty below before p after,
    types = above ++ ty :: below /\ ps = before ++ p :: after /\
    find_condition ty (pv_Conditions p) = Some c /\ c_Status c = ConditionFalse /\
    (forall ty' q d, ty' ∈ above -> q ∈ ps -> find_condition ty' (pv_Conditions q) = Some d ->
       c_Status d <> ConditionFalse) /\
    (forall q d, q ∈ before -> find_condition ty (pv_Conditions q) = Some d -> c_Status d <> ConditionFalse).
Proof.
  induction types as [|ty types IH]; simpl; [done|].
  destruct (first_condition is_false ty ps) as [d|] eqn:Hf.
  - intros [= ->]. apply first_condition_some in Hf as (b & p & a & -> & Hp & Hc & Hb).
    exists [], ty, types, b, p, a. split_and!; try done.
    + by apply bool_decide_eq_true in Hc.
    + intros ty' q d Ht. by apply elem_of_nil in Ht.
    + intros q d Hq Hd. specialize (Hb q d Hq Hd). by apply bool_decide_eq_false in Hb.
  - pose proof (proj1 (first_condition_none _ _ _) Hf) as Hn.
    intros (ab & t & be & b & p & a & -> & Hps & Hp & Hc & Hab & Hb)%IH.
    exists (ty :: ab), t, be, b, p, a. split_and!; try done.
    intros ty' q d [->|Ht]%elem_of_cons Hq Hd; [|by eapply Hab].
    specialize (Hn q d Hq Hd). by apply bool_decide_eq_false in Hn.
Qed.

(** ** Component conditions *)

(** What a healthy component means for its pipelines: none of its four conditions is false. *)
Definition pipeline_healthy (p : PipelineView) : Prop :=
  (forall ty c, ty = TypeGatewayHealthy \/ ty = TypeAgentHealthy \/ ty = TypeConfigurationGenerated \/ ty = TypeFlowHealthy -> find_condition ty (pv_Conditions p) = Some c -> c_Status c <> ConditionFalse) /\
  (forall c, find_condition TypeConfigurationGenerated (pv_Conditions p) = Some c ->
     c_Reason c <> ReasonTLSCertificateAboutToExpire).

Lemma condTypes_all ty :
  ty ∈ condTypes <->
  ty = TypeGatewayHealthy \/ ty = TypeAgentHealthy \/ ty = TypeConfigurationGenerated \/ ty = TypeFlowHealthy.
Proof. unfold condTypes. rewrite !elem_of_cons, elem_of_nil. tauto. Qed.

Definition alarming (c : Condition) : bool :=
  bool_decide (c_Status c = ConditionFalse) || str_eqb (c_Reason c) ReasonTLSCertificateAboutToExpire.

Lemma check_pipelines_type ty msg res ps del : c_Type (check_pipelines ty msg res ps del) = ty.
Proof.
  unfold check_pipelines, checkForResourceBlocksDeletionCondition, checkForNoPipelineDeployedCondition,
    checkForFirstUnhealthyPipelineCondition, checkForFirstAboutToExpirePipelineCondition.
  destruct (del && _); [done|]. destruct (_ =? _)%nat; [done|].
  destruct (first_unhealthy _ _); [done|]. by destruct (first_condition _ _ _).
Qed.

Lemma check_pipelines_live ty msg res ps :
  alarming (check_pipelines ty msg res ps false) = false <-> forall p, p ∈ ps -> pipeline_healthy p.
Proof.
  unfold check_pipelines, checkForNoPipelineDeployedCondition, checkForFirstUnhealthyPipelineCondition,
    checkForFirstAboutToExpirePipelineCondition. cbn [checkForResourceBlocksDeletionCondition andb].
  destruct ps as [|p0 ps']; cbn [length Nat.eqb].
  { split; [|done]. intros _ p Hp. by apply elem_of_nil in Hp. }
  set (ps := p0 :: ps'). unfold alarming, pipeline_healthy.
  destruct (first_unhealthy condTypes ps) as [c|] eqn:Hu; cbn [fmap option_fmap option_map].
  - apply first_unhealthy_some in Hu as (ab & t & be & b & p & a & Ht & Hps & Hp & Hc & _).
    cbn [component_condition c_Status c_Reason]. rewrite (bool_decide_eq_true_2 _ Hc). cbn [orb].
    split; [done|]. intros H. exfalso. destruct (H p) as [H1 _].
    { rewrite Hps. by apply elem_of_app; right; apply elem_of_cons; left. }
    eapply H1; [|exact Hp|exact Hc]. apply condTypes_all. rewrite Ht. by apply elem_of_app; right; apply elem_of_cons; left.
  - pose proof (proj1 (first_unhealthy_none _ _) Hu) as Hn.
    destruct (first_condition _ TypeConfigurationGenerated ps) as [c|] eqn:He; cbn [fmap option_fmap option_map].
    + apply first_condition_some in He as (b & p & a & Hps & Hp & Hc & _).
      cbn [component_condition c_Status c_Reason]. rewrite Hc, orb_true_r. split; [done|].
      intros H. exfalso. destruct (H p) as [_ H2].
      { rewrite Hps. by apply elem_of_app; right; apply elem_of_cons; left. }
      apply (H2 c Hp). by apply str_eqb_true in Hc.
    + pose proof (proj1 (first_condition_none _ _ _) He) as Hx. split; [|done]. intros _ p Hp. split.
      * intros t c Ht%condTypes_all Hc. by eapply Hn.
      * intros c Hc Hr. specialize (Hx p c Hp Hc). cbn beta in Hx. by rewrite Hr, str_eqb_refl in Hx.
Qed.

(** ** The status *)

Section Status.
Context {W : Type} `{TelemetryReader W} `{ConfigMapClient W} `{TelemetryDependencies W}.
Context `{ObjectClient W WebhookSecret} `{ObjectClient W WebhookConfiguration} `{ObjectClient W VPA}.
Context `{OwnerSetter} `{StatusSetterLaws} (config : TelemetryConfig).

Definition observed (g : Z) (c : Condition) : Condition :=
  mkCondition (c_Type c) (c_Status c) (c_Reason c) (c_Message c) g.

(** A checker whose conditions are of type [ty]. *)
Definition checks (ty : string) (checker : W -> bool -> result Condition goerror) : Prop :=
  forall w del c, checker w del = Ok c -> c_Type c = ty.

Lemma log_check_type : checks TypeLogComponentsHealthy log_check.
Proof. intros w del c. unfold log_check. destruct (list_logs w); [|done]. intros [= <-]. apply check_pipelines_type. Qed.
Lemma metric_check_type : checks TypeMetricComponentsHealthy metric_check.
Proof. intros w del c. unfold metric_check. destruct (list_metrics w); [|done]. intros [= <-]. apply check_pipelines_type. Qed.
Lemma trace_check_type : checks TypeTraceComponentsHealthy trace_check.
Proof. intros w del c. unfold trace_check. destruct (list_traces w); [|done]. intros [= <-]. apply check_pipelines_type. Qed.

(** One checker: its condition is set, the other types keep theirs. *)
Lemma updateComponentCondition_ok ty checker w t del t' :
  checks ty checker -> updateComponentCondition checker w t del = (t', None) ->
  exists c, checker w del = Ok c /\ tel_ObjectMeta t' = tel_ObjectMeta t /\ tel_Finalizers t' = tel_Finalizers t /\
    find_condition ty (test_Conditions (tel_Status t')) = Some (observed (om_Generation (tel_ObjectMeta t)) c) /\
    forall ty', ty' <> ty ->
      find_condition ty' (test_Conditions (tel_Status t')) = find_condition ty' (test_Conditions (tel_Status t)).
Proof.
  intros Hty. unfold updateComponentCondition. destruct (checker w del) as [c|e] eqn:Hc; [|done].
  intros [= <-]. exists c. pose proof (Hty _ _ _ Hc) as <-.
  split_and!; try done; cbn.
  - exact (set_condition_same _ (observed _ c)).
  - intros ty' Ht. by apply (set_condition_other _ (observed _ c)).
Qed.

Lemma update_conditions_cons checker rest (w : W) t del t' :
  update_conditions (checker :: rest) w t del = (t', None) ->
  exists t1, updateComponentCondition checker w t del = (t1, None) /\ update_conditions rest w t1 del = (t', None).
Proof.
  cbn. destruct (updateComponentCondition checker w t del) as [t1 [e|]]; [done|]. eauto.
Qed.

(** All three: each type has the condition of its checker. *)
Lemma update_conditions_ok w t del t' :
  update_conditions enabledHealthCheckers w t del = (t', None) ->
  exists ls ms ts, list_logs w = Ok ls /\ list_metrics w = Ok ms /\ list_traces w = Ok ts /\
    let g := om_Generation (tel_ObjectMeta t) in
    let cs := test_Conditions (tel_Status t') in
    tel_ObjectMeta t' = tel_ObjectMeta t /\ tel_Finalizers t' = tel_Finalizers t /\
    find_condition TypeLogComponentsHealthy cs =
      Some (observed g (check_pipelines TypeLogComponentsHealthy MessageForFluentBitLogPipeline "LogPipelines"
                          (map view_log ls) del)) /\
    find_condition TypeMetricComponentsHealthy cs =
      Some (observed g (check_pipelines TypeMetricComponentsHealthy MessageForMetricPipeline "MetricPipelines"
                          (map view_metric ms) del)) /\
    find_condition TypeTraceComponentsHealthy cs =
      Some (observed g (check_pipelines TypeTraceComponentsHealthy MessageForTracePipeline "TracePipelines"
                          (map view_trace ts) del)).
Proof.
  unfold enabledHealthCheckers.
  intros (t1 & U1 & (t2 & U2 & (t3 & U3 & [= <-])%update_conditions_cons)%update_conditions_cons)%update_conditions_cons.
  apply (updateComponentCondition_ok _ _ _ _ _ _ log_check_type) in U1 as (c1 & E1 & M1 & F1 & S1 & O1).
  apply (updateComponentCondition_ok _ _ _ _ _ _ metric_check_type) in U2 as (c2 & E2 & M2 & F2 & S2 & O2).
  apply (updateComponentCondition_ok _ _ _ _ _ _ trace_check_type) in U3 as (c3 & E3 & M3 & F3 & S3 & O3).
  unfold log_check in E1. unfold metric_check in E2. unfold trace_check in E3.
  destruct (list_logs w) as [ls|]; [|done]. destruct (list_metrics w) as [ms|]; [|done].
  destruct (list_traces w) as [ts|]; [|done]. injection E1 as <-; injection E2 as <-; injection E3 as <-.
  exists ls, ms, ts. rewrite M2, M1 in S3. rewrite M1 in S2. split_and!; try congruence.
  - rewrite O3, O2; done.
  - by rewrite O3.
Qed.

Lemma updateOverallState_live w t :
  updateOverallState w t false =
  set_state t (if existsb alarming (test_Conditions (tel_Status t)) then StateWarning else StateReady).
Proof. unfold updateOverallState, alarming. by destruct (existsb _ _). Qed.

(** The endpoints of a service: those of the service when it exists. *)
Definition endpoints_of (w : W) (service : string) : option OTLPEndpoints :=
  match service_get w (mkNN (tc_TargetNamespace config) service) with
  | None => Some (makeOTLPEndpoints service (tc_TargetNamespace config))
  | Some _ => None
  end.

Lemma service_endpoints_ok what service w e :
  service_endpoints config what service w = Ok e -> e = endpoints_of w service.
Proof.
  unfold service_endpoints, checkServiceExists, endpoints_of.
  destruct (service_get w _) as [err|]; [|congruence]. destruct (IgnoreNotFound err); [done|congruence].
Qed.

Lemma updateGatewayEndpoints_ok w t t' :
  updateGatewayEndpoints config w t = (t', None) ->
  t' = set_status t (mkTelemetryStatus (test_State (tel_Status t)) (test_Conditions (tel_Status t))
    (mkGatewayEndpoints (endpoints_of w OTLPLogsService) (endpoints_of w OTLPTracesService)
       (endpoints_of w OTLPMetricsService) (endpoints_of w OTLPService))).
Proof.
  unfold updateGatewayEndpoints.
  destruct (logEndpoints config w) as [l|] eqn:E1; [|done]. destruct (traceEndpoints config w) as [tr|] eqn:E2; [|done].
  destruct (metricEndpoints config w) as [m|] eqn:E3; [|done]. destruct (otlpEndpoints config w) as [o|] eqn:E4; [|done].
  apply service_endpoints_ok in E1 as ->. apply service_endpoints_ok in E2 as ->.
  apply service_endpoints_ok in E3 as ->. apply service_endpoints_ok in E4 as ->. by intros [= <-].
Qed.

(** A successful update has sent a status computed from the three lists. *)
Lemma updateStatus_ok w t w' t' :
  updateStatus config w t = (w', t', None) ->
  exists checked, update_conditions enabledHealthCheckers w t (in_deletion t) = (checked, None) /\
    let overall := updateOverallState w checked (in_deletion t) in
    tel_status_update w (set_status overall
      (mkTelemetryStatus (test_State (tel_Status overall)) (test_Conditions (tel_Status overall))
         (mkGatewayEndpoints (endpoints_of w OTLPLogsService) (endpoints_of w OTLPTracesService)
            (endpoints_of w OTLPMetricsService) (endpoints_of w OTLPService)))) = (w', Ok t').
Proof.
  unfold updateStatus. destruct (update_conditions _ w t _) as [checked [e|]]; [done|].
  destruct (updateGatewayEndpoints config w _) as [sent [e|]] eqn:E; [done|].
  apply updateGatewayEndpoints_ok in E as ->.
  destruct (tel_status_update w _) as [w1 [t1|e]] eqn:Hu; [|done]. intros [= <- <-]. eauto.
Qed.

Lemma alarming_observed g c : alarming (observed g c) = alarming c.
Proof. done. Qed.

Lemma not_alarming ty cs c : existsb alarming cs = false -> find_condition ty cs = Some c -> alarming c = false.
Proof.
  intros Hx [Hin _]%find_some. destruct (alarming c) eqn:Ha; [|done].
  rewrite <- Hx. symmetry. apply existsb_exists. eauto.
Qed.

(** C11. The Telemetry resource is Ready only when everything is: a successful
    updateStatus outside of deletion sends a state that is Ready or Warning;
    with Ready no log, metric or trace pipeline has a False configuration,
    gateway, agent or flow condition or a certificate about to expire; and the
    endpoints are those of the services that exist. *)
Theorem telemetry_ready_means_healthy w t w' t' :
  in_deletion t = false -> updateStatus config w t = (w', t', None) ->
  exists sent ls ms ts,
    tel_status_update w sent = (w', Ok t') /\
    list_logs w = Ok ls /\ list_metrics w = Ok ms /\ list_traces w = Ok ts /\
    test_State (tel_Status sent) ∈ [StateReady; StateWarning] /\
    (test_State (tel_Status sent) = StateReady ->
       forall p, p ∈ map view_log ls ++ map view_metric ms ++ map view_trace ts -> pipeline_healthy p) /\
    test_Endpoints (tel_Status sent) =
      mkGatewayEndpoints (endpoints_of w OTLPLogsService) (endpoints_of w OTLPTracesService)
        (endpoints_of w OTLPMetricsService) (endpoints_of w OTLPService).
Proof.
  intros Hd (checked & Hc & Hu)%updateStatus_ok. rewrite Hd in Hc, Hu. rewrite updateOverallState_live in Hu.
  apply update_conditions_ok in Hc as (ls & ms & ts & El & Em & Et & _ & _ & Cl & Cm & Ct).
  eexists _, ls, ms, ts. split_and!; [exact Hu|done..| | |done]; cbn.
  - destruct (existsb _ _); set_solver.
  - destruct (existsb alarming (test_Conditions (tel_Status checked))) eqn:Hx; [done|]. intros _ p.
    pose proof (not_alarming _ _ _ Hx Cl) as Al. pose proof (not_alarming _ _ _ Hx Cm) as Am.
    pose proof (not_alarming _ _ _ Hx Ct) as At. rewrite alarming_observed, check_pipelines_live in Al, Am, At.
    rewrite !elem_of_app. naive_solver.
Qed.

(** ** The finalizer *)

Lemma resourcesExist_ok {P} (ps : list P) : resourcesExist (Ok ps) = negb (bool_decide (ps = [])).
Proof. by destruct ps. Qed.

(** A dependent resource is seen when one of the lists returns it. *)
Lemma dependentCRsFound_seen w :
  (exists p ls, list_logs w = Ok (p :: ls)) \/ (exists p ms, list_metrics w = Ok (p :: ms)) \/
  (exists p ts, list_traces w = Ok (p :: ts)) -> dependentCRsFound w = true.
Proof.
  unfold dependentCRsFound. intros [(p & l & ->)|[(p & l & ->)|(p & l & ->)]]; cbn; rewrite ?orb_true_r; done.
Qed.

(** C36. The finalizer of the Telemetry resource: it is added once while the
    resource lives, kept while a list shows a pipeline of any kind, and removed,
    with all other finalizers kept, when the three lists are empty. *)
Theorem telemetry_finalizer_guards_pipelines w t :
  (in_deletion t = false ->
     handleFinalizer w t =
       if ContainsFinalizer t finalizer then (w, t, None)
       else update_telemetry w (set_finalizers t (tel_Finalizers t ++ [finalizer]))) /\
  (in_deletion t = true ->
     (exists p ls, list_logs w = Ok (p :: ls)) \/ (exists p ms, list_metrics w = Ok (p :: ms)) \/
     (exists p ts, list_traces w = Ok (p :: ts)) -> handleFinalizer w t = (w, t, None)) /\
  (in_deletion t = true -> ContainsFinalizer t finalizer = true ->
     list_logs w = Ok [] -> list_metrics w = Ok [] -> list_traces w = Ok [] ->
     exists fs, handleFinalizer w t = update_telemetry w (set_finalizers t fs) /\
       forall f, f ∈ fs <-> f ∈ tel_Finalizers t /\ f <> finalizer).
Proof.
  unfold handleFinalizer. split_and!.
  - intros ->. cbn [negb]. unfold AddFinalizer. by destruct (ContainsFinalizer t finalizer) eqn:E; rewrite ?E.
  - intros -> Hs. cbn [negb]. rewrite (dependentCRsFound_seen _ Hs). by destruct (ContainsFinalizer _ _).
  - intros -> -> El Em Et. unfold dependentCRsFound. rewrite El, Em, Et. cbn.
    eexists. split; [done|]. intros f.
    rewrite !list_elem_of_In, filter_In, negb_true_iff, str_eqb_false. naive_solver.
Qed.

(** C39. A failure to list the pipelines is taken for their absence: when the
    three lists fail with any error but an unknown kind, handleFinalizer removes
    the finalizer of a Telemetry resource in deletion although pipelines may
    exist. *)
Theorem telemetry_finalizer_lost_on_list_error w t el em et :
  in_deletion t = true -> ContainsFinalizer t finalizer = true ->
  list_logs w = Err el -> list_metrics w = Err em -> list_traces w = Err et ->
  NoKindMatch el = false -> NoKindMatch em = false -> NoKindMatch et = false ->
  handleFinalizer w t = update_telemetry w (RemoveFinalizer t finalizer).
Proof.
  intros Hd Hf El Em Et Nl Nm Nt. unfold handleFinalizer, dependentCRsFound.
  rewrite Hd, Hf, El, Em, Et. cbn. by rewrite Nl, Nm, Nt.
Qed.

End Status.

(** ** A sample world *)

(** The stored Telemetry resource, the trace pipelines, and whether the API server
    answers lists. *)
Module SampleTelemetry.

Record world := mkWorld { tw_Telemetry : Telemetry; tw_Traces : list TracePipeline; tw_Up : bool }.

Definition listing {P} (w : world) (ps : list P) : result (list P) apierror :=
  if tw_Up w then Ok ps else Err (OtherApiError "etcdserver: request timed out").
Definition store (w : world) (t : Telemetry) : world := mkWorld t (tw_Traces w) (tw_Up w).

#[export] Instance reader : TelemetryReader world := {|
  tel_get w _ := Ok (tw_Telemetry w); namespace_uid _ _ := Ok "uid" |}.
#[export] Instance config_maps : ConfigMapClient world := {|
  cm_get _ _ := Err NotFound; cm_create w _ := (w, None); cm_update w _ := (w, Some NotFound) |}.
#[export] Instance dependencies : TelemetryDependencies world := {|
  load_overrides _ := Ok (false, "info");
  tel_update w t := (store w t, Ok t);
  tel_status_update w t := (store w t, Ok t);
  list_logs w := listing w []; list_metrics w := listing w []; list_traces w := listing w (tw_Traces w);
  NoKindMatch e := match e with OtherApiError m => str_eqb m "no matches for kind" | _ => false end;
  service_get _ nn := if str_eqb (nn_Name nn) OTLPService then None else Some NotFound;
  vpa_list _ := Some NotFound;
  EnsureCertificate w := (w, None);
  secret_equal _ _ := true;
  prometheus_config_yaml _ _ := Ok "";
  alert_rules_yaml := Ok "";
  sm_apply w _ := (w, None);
  sm_delete w := (w, None);
  set_strategy_gauge w _ _ := w
|}.

Definition config : TelemetryConfig :=
  mkTelemetryConfig "kyma-system" "kyma-system" (mkNN "kyma-system" "telemetry-webhook-cert")
    (mkNN "" "telemetry-validating-webhook") "http://self-monitor".

Definition telemetry (deleted : bool) : Telemetry :=
  mkTelemetry (mkMeta "default" "uid" 3 None deleted) [finalizer] (mkTelemetrySpec None None None None)
    (mkTelemetryStatus "" [] (mkGatewayEndpoints None None None None)).

(** A trace pipeline with a gateway condition. *)
Definition trace (status : ConditionStatus) : TracePipeline :=
  mkTracePipeline (mkMeta "t1" "uid-t1" 1 None false)
    (mkTraceSpec (mkTraceOutput None) None None)
    (mkTraceStatus [mkCondition TypeGatewayHealthy status "reason" "message" 1]).

End SampleTelemetry.
#[local] Existing Instance SampleTelemetry.reader.
#[local] Existing Instance SampleTelemetry.config_maps.
#[local] Existing Instance SampleTelemetry.dependencies.

Definition sample_world (deleted : bool) (status : ConditionStatus) (up : bool) : SampleTelemetry.world :=
  SampleTelemetry.mkWorld (SampleTelemetry.telemetry deleted) [SampleTelemetry.trace status] up.

(** A healthy trace pipeline, and a failing one: the states differ. *)
Example sample_states :
  test_State (tel_Status (updateStatus SampleTelemetry.config (sample_world false ConditionTrue true)
    (SampleTelemetry.telemetry false)).1.2) = StateReady /\
  test_State (tel_Status (updateStatus SampleTelemetry.config (sample_world false ConditionFalse true)
    (SampleTelemetry.telemetry false)).1.2) = StateWarning /\
  test_State (tel_Status (updateStatus SampleTelemetry.config (sample_world true ConditionTrue true)
    (SampleTelemetry.telemetry true)).1.2) = StateWarning.
Proof. by vm_compute. Qed.

Lemma telemetry_ready_means_healthy_witness :
  exists w' t', updateStatus SampleTelemetry.config (sample_world false ConditionTrue true)
    (SampleTelemetry.telemetry false) = (w', t', None) /\
  exists sent ls ms ts,
    tel_status_update (sample_world false ConditionTrue true) sent = (w', Ok t') /\
    list_logs (sample_world false ConditionTrue true) = Ok ls /\
    list_metrics (sample_world false ConditionTrue true) = Ok ms /\
    list_traces (sample_world false ConditionTrue true) = Ok ts /\
    test_State (tel_Status sent) ∈ [StateReady; StateWarning] /\
    (test_State (tel_Status sent) = StateReady ->
       forall p, p ∈ map view_log ls ++ map view_metric ms ++ map view_trace ts -> pipeline_healthy p) /\
    test_Endpoints (tel_Status sent) =
      mkGatewayEndpoints (endpoints_of SampleTelemetry.config (sample_world false ConditionTrue true) OTLPLogsService)
        (endpoints_of SampleTelemetry.config (sample_world false ConditionTrue true) OTLPTracesService)
        (endpoints_of SampleTelemetry.config (sample_world false ConditionTrue true) OTLPMetricsService)
        (endpoints_of SampleTelemetry.config (sample_world false ConditionTrue true) OTLPService).
Proof.
  eexists _, _. split; [vm_compute; reflexivity|].
  apply (telemetry_ready_means_healthy SampleTelemetry.config (sample_world false ConditionTrue true)
    (SampleTelemetry.telemetry false)); [reflexivity|vm_compute; reflexivity].
Defined.

Lemma telemetry_finalizer_guards_pipelines_witness :
  handleFinalizer (sample_world true ConditionTrue true) (SampleTelemetry.telemetry true) =
  (sample_world true ConditionTrue true, SampleTelemetry.telemetry true, None).
Proof.
  apply (telemetry_finalizer_guards_pipelines (sample_world true ConditionTrue true) (SampleTelemetry.telemetry true));
    [reflexivity|]. right; right. exists (SampleTelemetry.trace ConditionTrue), []. reflexivity.
Defined.

(** The pipeline still exists, but no list is answered. *)
Lemma telemetry_finalizer_lost_on_list_error_witness :
  SampleTelemetry.tw_Traces (sample_world true ConditionTrue false) = [SampleTelemetry.trace ConditionTrue] /\
  exists w' t', handleFinalizer (sample_world true ConditionTrue false) (SampleTelemetry.telemetry true) = (w', t', None) /\
    tel_Finalizers (SampleTelemetry.tw_Telemetry w') = [].
Proof.
  split; [reflexivity|]. eexists _, _. split.
  - refine (eq_trans (telemetry_finalizer_lost_on_list_error (sample_world true ConditionTrue false)
      (SampleTelemetry.telemetry true) _ _ _ _ _ _ _ _ _ _ _) _); reflexivity.
  - reflexivity.
Defined.
