(* ===== verification/WebhookCert.v ===== *)
(** * Webhook certificates (internal/webhookcert)

    The manager keeps a certificate authority in a Secret and a server certificate in
    two files, renews both before they expire, and publishes the authority in the
    webhook configurations and in the conversion sections of the CRDs. A []byte is a
    [string]. PEM, X.509 and RSA are the class [CertLib]; the random source, the files
    and the stores of the four kinds of objects are parts of the state; a reading of
    the clock is a step of it. *)
From stdpp Require Import base gmap strings list pretty.
From S2P Require Import Prelude Kube GoErrors GoFormat K8sUtils.
Local Open Scope string_scope.

(** ** Certificates *)

(** [pem.Block]; the code reads and sets no headers but for the certificate pool, that
    skips blocks with headers. *)
Record Block := mkBlock { pb_Type : string; pb_Headers : list (string * string); pb_Bytes : string }.

Inductive ExtKeyUsage := ExtKeyUsageServerAuth | ExtKeyUsageOther.

(** [x509.KeyUsage] *)
Definition KeyUsageDigitalSignature : Z := Z.shiftl 1 0.
Definition KeyUsageKeyEncipherment : Z := Z.shiftl 1 2.
Definition KeyUsageCertSign : Z := Z.shiftl 1 5.

Inductive SignatureAlgorithm := UnknownSignatureAlgorithm | SHA256WithRSA.
Inductive PublicKeyAlgorithm := UnknownPublicKeyAlgorithm | RSA.

(** [x509.Certificate], the fields the package reads or sets. *)
Record Certificate (PK : Type) := mkCertificate {
  c_Raw : string;
  c_SerialNumber : Z;
  c_Organization : list string;
  c_CommonName : string;
  c_NotBefore : Z;
  c_NotAfter : Z;
  c_KeyUsage : Z;
  c_ExtKeyUsage : list ExtKeyUsage;
  c_BasicConstraintsValid : bool;
  c_IsCA : bool;
  c_SignatureAlgorithm : SignatureAlgorithm;
  c_PublicKeyAlgorithm : PublicKeyAlgorithm;
  c_SubjectKeyId : string;
  c_DNSNames : list string;
  c_PublicKey : option PK
}.
Arguments mkCertificate {PK} _ _ _ _ _ _ _ _ _ _ _ _ _ _ _.
Arguments c_Raw {PK} _.
Arguments c_SerialNumber {PK} _.
Arguments c_Organization {PK} _.
Arguments c_CommonName {PK} _.
Arguments c_NotBefore {PK} _.
Arguments c_NotAfter {PK} _.
Arguments c_KeyUsage {PK} _.
Arguments c_ExtKeyUsage {PK} _.
Arguments c_BasicConstraintsValid {PK} _.
Arguments c_IsCA {PK} _.
Arguments c_SignatureAlgorithm {PK} _.
Arguments c_PublicKeyAlgorithm {PK} _.
Arguments c_SubjectKeyId {PK} _.
Arguments c_DNSNames {PK} _.
Arguments c_PublicKey {PK} _.

(** encoding/pem, crypto/x509, crypto/rsa and crypto/sha256 over a random source [R]
    with public keys [PK] and private keys [SK]. [pem_Decode] returns the first block
    and the rest of the input; [Verify] takes the current time and the roots of
    [x509.VerifyOptions]. *)
Class CertLib (R PK SK : Type) := {
  pem_Decode : string -> option (Block * string);
  pem_Encode : Block -> result string goerror;
  Public : SK -> PK;
  N_BitLen : SK -> Z;
  GenerateKey : R -> Z -> R * result SK goerror;
  crand_Int : R -> Z -> R * result Z goerror;
  MarshalPKCS1PrivateKey : SK -> string;
  ParsePKCS1PrivateKey : string -> result SK goerror;
  MarshalPKIXPublicKey : PK -> result string goerror;
  Sum256 : string -> string;
  CreateCertificate : R -> Certificate PK -> Certificate PK -> PK -> SK -> R * result string goerror;
  ParseCertificate : string -> result (Certificate PK) goerror;
  Verify : Z -> Certificate PK -> list (Certificate PK) -> result (list (list (Certificate PK))) goerror
}.

(** [os.ReadFile] and [os.WriteFile] *)
Class Files (F : Type) := {
  ReadFile : F -> string -> result string goerror;
  WriteFile : F -> string -> string -> Z -> F * option goerror
}.

(** ** The clock *)

(** The readings of the clock, and how many were made. *)
Record clock := mkClock { clk_reads : nat -> Z; clk_made : nat }.

Definition now (c : clock) : clock * Z := (mkClock (clk_reads c) (S (clk_made c)), clk_reads c (clk_made c)).

(** ** Objects *)

(** The data of a Secret. *)
Record CASecret := mkCASecret { cs_Data : gmap string string }.

(** A webhook of a validating or mutating configuration; [wh_Rest] is what the code
    leaves alone. *)
Record webhook (X : Type) := mkWebhook { wh_CABundle : string; wh_Rest : X }.
Arguments mkWebhook {X} _ _.
Arguments wh_CABundle {X} _.
Arguments wh_Rest {X} _.

Record ServiceReference := mkServiceReference {
  sr_Namespace : string; sr_Name : string; sr_Path : option string; sr_Port : option Z }.
Record WebhookClientConfig := mkClientConfig { cc_Service : option ServiceReference; cc_CABundle : string }.
Record WebhookConversion := mkWebhookConversion {
  wv_ClientConfig : option WebhookClientConfig; wv_ConversionReviewVersions : list string }.
Record CustomResourceConversion := mkConversion { cv_Strategy : string; cv_Webhook : option WebhookConversion }.

(** A custom resource definition. *)
Record CRD (X : Type) := mkCRD { crd_Conversion : option CustomResourceConversion; crd_Rest : X }.
Arguments mkCRD {X} _ _.
Arguments crd_Conversion {X} _.
Arguments crd_Rest {X} _.

(** ** Configuration *)

Definition rsaKeySize : Z := 4096.
Definition duration365d : Z := (hour * 24 * 365)%Z.
Definition caCertMaxAge : Z := duration365d.
Definition duration30d : Z := (30 * 24 * hour)%Z.
Definition duration1w : Z := (hour * 24 * 7)%Z.
Definition serverCertMaxAge : Z := duration1w.
Definition duration1d : Z := (24 * hour)%Z.
Definition caCertFile : string := "ca.crt".
Definition caKeyFile : string := "ca.key".
Definition certFile : string := "tls.crt".
Definition keyFile : string := "tls.key".
Definition pemBlockTypeCert : string := "CERTIFICATE".
Definition pemBlockTypeKey : string := "RSA PRIVATE KEY".
Definition webhookServicePort : Z := 443.
Definition LogPipelineCRD : string := "logpipelines.telemetry.kyma-project.io".
Definition MetricPipelineCRD : string := "metricpipelines.telemetry.kyma-project.io".

Definition ErrInvalidPrivateKey : goerror := NewError "not a private key".
Definition ErrInvalidCert : goerror := NewError "not a cert".
Definition ErrCAParsingFailed : goerror := NewError "failed to parse root certificate".

(** [webhookcert.Config] *)
Record Config := mkConfig {
  cfg_rsaKeySize : Z;
  cfg_CertDir : string;
  cfg_ServiceName : NamespacedName;
  cfg_CASecretName : NamespacedName;
  cfg_ValidatingWebhookName : NamespacedName;
  cfg_MutatingWebhookName : NamespacedName
}.

Record ConfigOptions := mkConfigOptions {
  co_CertDir : string;
  co_ServiceName : NamespacedName;
  co_CASecretName : NamespacedName;
  co_ValidatingWebhookName : NamespacedName;
  co_MutatingWebhookName : NamespacedName
}.

Definition NewWebhookCertConfig (opts : ConfigOptions) : Config :=
  mkConfig rsaKeySize (co_CertDir opts) (co_ServiceName opts) (co_CASecretName opts) (co_ValidatingWebhookName opts)
    (co_MutatingWebhookName opts).

Definition dnsNames (webhookService : NamespacedName) : string * list string :=
  let host := nn_Name webhookService +:+ "." +:+ nn_Namespace webhookService +:+ ".svc" in
  (host, [nn_Name webhookService; nn_Name webhookService +:+ "." +:+ nn_Namespace webhookService;
          host +:+ ".cluster.local"]).

Record serverCertConfig := mkServerCertConfig {
  sc_host : string; sc_alternativeDNSNames : list string; sc_caCertPEM : string; sc_caKeyPEM : string }.

Section Certificates.
Context {R PK SK : Type} `{!CertLib R PK SK}.

(** ** PEM *)

Definition encodeCertPEM (certDER : string) : result string goerror := pem_Encode (mkBlock pemBlockTypeCert [] certDER).
Definition encodeKeyPEM (key : SK) : result string goerror :=
  pem_Encode (mkBlock pemBlockTypeKey [] (MarshalPKCS1PrivateKey key)).

Definition parseCertPEM (certPEM : string) : result (Certificate PK) goerror :=
  match pem_Decode certPEM with
  | None => Err ErrInvalidCert
  | Some (block, _) =>
      if negb (str_eqb (pb_Type block) pemBlockTypeCert) then Err ErrInvalidCert else ParseCertificate (pb_Bytes block)
  end.

Definition parseKeyPEM (keyPEM : string) : result SK goerror :=
  match pem_Decode keyPEM with
  | None => Err ErrInvalidPrivateKey
  | Some (block, _) =>
      if negb (str_eqb (pb_Type block) pemBlockTypeKey) then Err ErrInvalidPrivateKey
      else ParsePKCS1PrivateKey (pb_Bytes block)
  end.

(** [CertPool.AppendCertsFromPEM]: the certificates of all blocks without headers. The
    loop shortens the input: its length is enough fuel. *)
Fixpoint append_certs (fuel : nat) (pemCerts : string) : list (Certificate PK) :=
  match fuel with
  | O => []
  | S fuel =>
      match pem_Decode pemCerts with
      | None => []
      | Some (block, rest) =>
          match str_eqb (pb_Type block) pemBlockTypeCert, pb_Headers block, ParseCertificate (pb_Bytes block) with
          | true, [], Ok cert => cert :: append_certs fuel rest
          | _, _, _ => append_certs fuel rest
          end
      end
  end.

Definition AppendCertsFromPEM (pemCerts : string) : list (Certificate PK) := append_certs (String.length pemCerts) pemCerts.

(** ** Checks *)

Definition checkExpiry (softExpiryOffset : Z) (c : clock) (certPEM : string) : clock * result bool goerror :=
  match parseCertPEM certPEM with
  | Err err => (c, Err err)
  | Ok cert =>
      let '(c, nowTime) := now c in
      let hardExpiryTime := c_NotAfter cert in
      let softExpiryTime := (hardExpiryTime + -1 * softExpiryOffset)%Z in
      (c, Ok (nowTime <? softExpiryTime)%Z)
  end.

Definition checkKeyLength (expectedKeySize : Z) (keyPEM : string) : result bool goerror :=
  match parseKeyPEM keyPEM with
  | Err err => Err (Wrapf "failed to parse key PEM: " err "")
  | Ok key => Ok (N_BitLen key =? expectedKeySize)%Z
  end.

Definition checkRoot (c : clock) (serverCertPEM caCertPEM : string) : clock * result bool goerror :=
  match AppendCertsFromPEM caCertPEM with
  | [] => (c, Err ErrCAParsingFailed)
  | roots =>
      match parseCertPEM serverCertPEM with
      | Err err => (c, Err (Wrapf "failed to parse x509 cert: " err ""))
      | Ok serverCert =>
          let '(c, t) := now c in
          match Verify t serverCert roots with
          | Err err => (c, Err (Wrapf "failed to verify x509 cert: " err ""))
          | Ok chains => (c, Ok (0 <? length chains)%nat)
          end
      end
  end.

(** ** Generators *)

Definition caCertTemplate (validFrom validTo : Z) (subjectKeyId : string) : Certificate PK :=
  mkCertificate "" 0 ["kyma-project.io"] "" validFrom validTo
    (Z.lor (Z.lor KeyUsageKeyEncipherment KeyUsageDigitalSignature) KeyUsageCertSign) [] true true SHA256WithRSA RSA
    subjectKeyId [] None.

Definition key_size (keySize : Z) : Z := if (keySize =? 0)%Z then rsaKeySize else keySize.

(** [caCertGeneratorImpl.generateCertInternal] *)
Definition generateCACertInternal (keySize : Z) (r : R) (c : clock) : R * clock * result (Certificate PK * SK) goerror :=
  match GenerateKey r (key_size keySize) with
  | (r, Err err) => (r, c, Err (Wrapf "failed to generateCert rsa private key: " err ""))
  | (r, Ok caKey) =>
      let '(c, t) := now c in
      let validFrom := (t + - hour)%Z in
      let validTo := (validFrom + caCertMaxAge)%Z in
      match MarshalPKIXPublicKey (Public caKey) with
      | Err err => (r, c, Err (Wrapf "failed to marshal public key: " err ""))
      | Ok publicKey =>
          let template := caCertTemplate validFrom validTo (Sum256 publicKey) in
          match CreateCertificate r template template (Public caKey) caKey with
          | (r, Err err) => (r, c, Err (Wrapf "failed to create x509 cert: " err ""))
          | (r, Ok certDERBytes) =>
              match ParseCertificate certDERBytes with
              | Err err => (r, c, Err (Wrapf "failed to parse x509 cert: " err ""))
              | Ok caCert => (r, c, Ok (caCert, caKey))
              end
          end
      end
  end.

(** [caCertGeneratorImpl.generateCert] *)
Definition generateCACert (keySize : Z) (r : R) (c : clock) : R * clock * result (string * string) goerror :=
  match generateCACertInternal keySize r c with
  | (r, c, Err err) => (r, c, Err err)
  | (r, c, Ok (caCert, caKey)) =>
      match encodeCertPEM (c_Raw caCert) with
      | Err err => (r, c, Err (Wrapf "failed to pem encode cert: " err ""))
      | Ok caCertPEM =>
          match encodeKeyPEM caKey with
          | Err err => (r, c, Err (Wrapf "failed to pem encode key: " err ""))
          | Ok caKeyPEM => (r, c, Ok (caCertPEM, caKeyPEM))
          end
      end
  end.

Definition max_int64 : Z := (2 ^ 63 - 1)%Z.

Definition certTemplate (serial unix validFrom validTo : Z) (host : string) (alternativeDNSNames : list string) :
    Certificate PK :=
  mkCertificate "" serial [] (host +:+ "@" +:+ pretty unix) validFrom validTo
    (Z.lor KeyUsageKeyEncipherment KeyUsageDigitalSignature) [ExtKeyUsageServerAuth] true false
    UnknownSignatureAlgorithm UnknownPublicKeyAlgorithm "" (host :: alternativeDNSNames) None.

(** [serverCertGeneratorImpl.generateCertInternal] *)
Definition generateServerCertInternal (keySize : Z) (r : R) (c : clock) (host : string) (alternativeDNSNames : list string)
    (caCert : Certificate PK) (caKey : SK) : R * clock * result (string * string) goerror :=
  match crand_Int r (max_int64 - 1) with
  | (r, Err err) => (r, c, Err (Wrapf "failed to generateCert serial number: " err ""))
  | (r, Ok serial) =>
      let '(c, t) := now c in
      let validFrom := (t + - hour)%Z in
      let validTo := (validFrom + serverCertMaxAge)%Z in
      let '(c, t) := now c in
      let template := certTemplate serial (t / second)%Z validFrom validTo host alternativeDNSNames in
      match GenerateKey r (key_size keySize) with
      | (r, Err err) => (r, c, Err (Wrapf "failed to generateCert rsa private key: " err ""))
      | (r, Ok key) =>
          match CreateCertificate r template caCert (Public key) caKey with
          | (r, Err err) => (r, c, Err (Wrapf "failed to create x509 cert: " err ""))
          | (r, Ok certBytes) =>
              match encodeCertPEM certBytes with
              | Err err => (r, c, Err (Wrapf "failed to pem encode cert: " err ""))
              | Ok certPEM =>
                  match encodeKeyPEM key with
                  | Err err => (r, c, Err (Wrapf "failed to pem encode key: " err ""))
                  | Ok keyPEM => (r, c, Ok (certPEM, keyPEM))
                  end
              end
          end
      end
  end.

(** [serverCertGeneratorImpl.generateCert] *)
Definition generateServerCert (keySize : Z) (r : R) (c : clock) (config : serverCertConfig) :
    R * clock * result (string * string) goerror :=
  match parseCertPEM (sc_caCertPEM config) with
  | Err err => (r, c, Err (Wrapf "failed to parse ca cert: " err ""))
  | Ok caCert =>
      match parseKeyPEM (sc_caKeyPEM config) with
      | Err err => (r, c, Err (Wrapf "failed to parse ca key: " err ""))
      | Ok caKey =>
          generateServerCertInternal keySize r c (sc_host config) (sc_alternativeDNSNames config) caCert caKey
      end
  end.

End Certificates.

(** ** The files of the server certificate *)

Section Storage.
Context {F : Type} `{!Files F}.

Definition certFilePath (certDir : string) : string := filepath_Join [certDir; certFile].
Definition keyFilePath (certDir : string) : string := filepath_Join [certDir; keyFile].
Definition permUserRW : Z := 384.

Definition load (certDir : string) (f : F) : result (string * string) goerror :=
  match ReadFile f (certFilePath certDir) with
  | Err err => Err (Wrapf "failed to load cert: " err "")
  | Ok certPEM =>
      match ReadFile f (keyFilePath certDir) with
      | Err err => Err (Wrapf "failed to load key: " err "")
      | Ok keyPEM => Ok (certPEM, keyPEM)
      end
  end.

Definition save (certDir : string) (f : F) (certPEM keyPEM : string) : F * option goerror :=
  match WriteFile f (certFilePath certDir) certPEM permUserRW with
  | (f, Some err) => (f, Some (Wrapf "failed to save cert: " err ""))
  | (f, None) =>
      match WriteFile f (keyFilePath certDir) keyPEM permUserRW with
      | (f, Some err) => (f, Some (Wrapf "failed to save key: " err ""))
      | (f, None) => (f, None)
      end
  end.

End Storage.

(** ** The authority in its Secret *)

Section CAProvider.
Context {R PK SK : Type} `{!CertLib R PK SK}.
Context {SS : Type} `{!ObjectClient SS CASecret} (secret_equal : object CASecret -> object CASecret -> bool).

Definition fetchCACertAndKey (caSecret : object CASecret) : result (string * string) goerror :=
  match cs_Data (ob_Content caSecret) !! caCertFile with
  | None => Err (NewError ("ca cert not found: " +:+ caCertFile))
  | Some caCertPEM =>
      match cs_Data (ob_Content caSecret) !! caKeyFile with
      | None => Err (NewError ("ca key not found: " +:+ caKeyFile))
      | Some caKeyPEM => Ok (caCertPEM, caKeyPEM)
      end
  end.

Definition is_ok_true (r : result bool goerror) : bool := match r with Ok b => b | Err _ => false end.

Definition checkCASecret (keySize : Z) (c : clock) (caSecret : object CASecret) : clock * bool :=
  match fetchCACertAndKey caSecret with
  | Err _ => (c, false)
  | Ok (caCertPEM, caKeyPEM) =>
      let '(c, certNotExpired) := checkExpiry duration30d c caCertPEM in
      let keyLengthValid := checkKeyLength keySize caKeyPEM in
      (c, is_ok_true certNotExpired && is_ok_true keyLengthValid)
  end.

Definition makeCASecret (certificate key : string) (name : NamespacedName) : object CASecret :=
  mkObject (mkFullMeta name "" None None []) (mkCASecret {[caCertFile := certificate; caKeyFile := key]}).

(** The branch of [provideCert] that makes a new authority. *)
Definition create_ca (keySize : Z) (r : R) (c : clock) (s : SS) (caSecretName : NamespacedName) :
    R * clock * SS * result (string * string) goerror :=
  match generateCACert keySize r c with
  | (r, c, Err err) => (r, c, s, Err (Wrapf "failed to generateCert ca cert: " err ""))
  | (r, c, Ok (caCertPEM, caKeyPEM)) =>
      match CreateOrUpdateSecret secret_equal s (makeCASecret caCertPEM caKeyPEM caSecretName) with
      | (s, Some err) => (r, c, s, Err (Wrapf "failed to create ca cert caSecretName: " (ApiError err) ""))
      | (s, None) => (r, c, s, Ok (caCertPEM, caKeyPEM))
      end
  end.

(** [caCertProviderImpl.provideCert] of [newCACertProvider] *)
Definition provideCACert (keySize : Z) (r : R) (c : clock) (s : SS) (caSecretName : NamespacedName) :
    R * clock * SS * result (string * string) goerror :=
  match obj_get s caSecretName with
  | Err err =>
      if negb (IsNotFound err) then (r, c, s, Err (Wrapf "failed to find ca cert caSecretName: " (ApiError err) ""))
      else create_ca keySize r c s caSecretName
  | Ok caSecret =>
      let '(c, ok) := checkCASecret keySize c caSecret in
      if ok then
        (r, c, s, Ok (default "" (cs_Data (ob_Content caSecret) !! caCertFile),
                      default "" (cs_Data (ob_Content caSecret) !! caKeyFile)))
      else create_ca keySize r c s caSecretName
  end.

End CAProvider.

(** ** The server certificate *)

Section ServerProvider.
Context {R PK SK : Type} `{!CertLib R PK SK}.
Context {F : Type} `{!Files F}.

Definition checkServerCert (c : clock) (serverCertPEM caCertPEM : string) : clock * bool :=
  let '(c, certValid) := checkExpiry duration1d c serverCertPEM in
  if negb (is_ok_true certValid) then (c, false)
  else let '(c, certValid) := checkRoot c serverCertPEM caCertPEM in (c, is_ok_true certValid).

(** The branch of [provideCert] that makes a new certificate. *)
Definition create_server_cert (certDir : string) (keySize : Z) (r : R) (c : clock) (f : F) (config : serverCertConfig) :
    R * clock * F * result (string * string) goerror :=
  match generateServerCert keySize r c config with
  | (r, c, Err err) => (r, c, f, Err (Wrapf "failed to generate cert: " err ""))
  | (r, c, Ok (serverCertPEM, serverKeyPEM)) =>
      match save certDir f serverCertPEM serverKeyPEM with
      | (f, Some err) => (r, c, f, Err (Wrapf "failed to save server cert: " err ""))
      | (f, None) => (r, c, f, Ok (serverCertPEM, serverKeyPEM))
      end
  end.

(** [serverCertProviderImpl.provideCert] of [newServerCertProvider] *)
Definition provideServerCert (certDir : string) (keySize : Z) (r : R) (c : clock) (f : F) (config : serverCertConfig) :
    R * clock * F * result (string * string) goerror :=
  match load certDir f with
  | Err _ => create_server_cert certDir keySize r c f config
  | Ok (serverCertPEM, serverKeyPEM) =>
      if str_eqb serverCertPEM "" || str_eqb serverKeyPEM "" then create_server_cert certDir keySize r c f config
      else
        let '(c, ok) := checkServerCert c serverCertPEM (sc_caCertPEM config) in
        if ok then (r, c, f, Ok (serverCertPEM, serverKeyPEM)) else create_server_cert certDir keySize r c f config
  end.

End ServerProvider.

(** ** The webhook configurations and the CRDs *)

Section Resources.
Context {X : Type}.

Definition set_ca_bundle (caBundle : string) (webhooks : list (webhook X)) : list (webhook X) :=
  map (fun h => mkWebhook caBundle (wh_Rest h)) webhooks.

Definition update_webhook_config {V} `{!ObjectClient V (list (webhook X))} (what caBundle : string)
    (name : NamespacedName) (v : V) : V * option goerror :=
  match obj_get v name with
  | Err err => (v, Some (Wrapf what (ApiError err) ""))
  | Ok config =>
      let '(v, err) := obj_update v (mkObject (ob_Meta config) (set_ca_bundle caBundle (ob_Content config))) in
      (v, ApiError <$> err)
  end.

Definition updateValidatingWebhookConfig {V} `{!ObjectClient V (list (webhook X))} (v : V) (caBundle : string)
    (config : Config) : V * option goerror :=
  update_webhook_config "failed to get validating webhook configuration: " caBundle (cfg_ValidatingWebhookName config) v.

Definition updateMutatingWebhookConfig {V} `{!ObjectClient V (list (webhook X))} (v : V) (caBundle : string)
    (config : Config) : V * option goerror :=
  update_webhook_config "failed to get mutating webhook: " caBundle (cfg_MutatingWebhookName config) v.

Definition makeConversionWebhookConfig (caBundle : string) (config : Config) : CustomResourceConversion :=
  mkConversion "Webhook"
    (Some (mkWebhookConversion
       (Some (mkClientConfig
          (Some (mkServiceReference (nn_Namespace (cfg_ServiceName config)) (nn_Name (cfg_ServiceName config))
             (Some "/convert") (Some webhookServicePort)))
          caBundle))
       ["v1"])).

Definition updatePipelineCRDWithConversionWebhookConfig {C} `{!ObjectClient C (CRD X)} (c : C)
    (pipelineType : NamespacedName) (conversion : CustomResourceConversion) : C * option goerror :=
  match obj_get c pipelineType with
  | Err err =>
      (c, Some (Wrapf ("failed to get CRD " +:+ nn_Namespace pipelineType +:+ "/" +:+ nn_Name pipelineType +:+ ": ")
                  (ApiError err) ""))
  | Ok crd =>
      let '(c, err) := obj_update c (mkObject (ob_Meta crd) (mkCRD (Some conversion) (crd_Rest (ob_Content crd)))) in
      (c, ApiError <$> err)
  end.

End Resources.

(** ** The whole *)

(** The random source, the clock, the files and the stores of the four kinds of objects. *)
Record world (R F SS VS MS CS : Type) := mkWorld {
  w_random : R; w_clock : clock; w_files : F; w_secrets : SS; w_validating : VS; w_mutating : MS; w_crds : CS }.
Arguments mkWorld {R F SS VS MS CS} _ _ _ _ _ _ _.
Arguments w_random {R F SS VS MS CS} _.
Arguments w_clock {R F SS VS MS CS} _.
Arguments w_files {R F SS VS MS CS} _.
Arguments w_secrets {R F SS VS MS CS} _.
Arguments w_validating {R F SS VS MS CS} _.
Arguments w_mutating {R F SS VS MS CS} _.
Arguments w_crds {R F SS VS MS CS} _.

Section Ensure.
Context {R PK SK : Type} `{!CertLib R PK SK} {F : Type} `{!Files F}.
Context {SS VS MS CS X : Type} `{!ObjectClient SS CASecret} `{!ObjectClient VS (list (webhook X))}
  `{!ObjectClient MS (list (webhook X))} `{!ObjectClient CS (CRD X)}.
Context (secret_equal : object CASecret -> object CASecret -> bool).

Definition applyWebhookConfigResources (caBundle : string) (config : Config) (v : VS) (m : MS) (cs : CS) :
    VS * MS * CS * option goerror :=
  match updateValidatingWebhookConfig v caBundle config with
  | (v, Some err) => (v, m, cs, Some (Wrapf "failed to update validating webhook with CA bundle: " err ""))
  | (v, None) =>
      match updateMutatingWebhookConfig m caBundle config with
      | (m, Some err) => (v, m, cs, Some (Wrapf "failed to update mutating webhook with CA bundle: " err ""))
      | (m, None) =>
          let conversion := makeConversionWebhookConfig caBundle config in
          match updatePipelineCRDWithConversionWebhookConfig cs (mkNN "" LogPipelineCRD) conversion with
          | (cs, Some err) =>
              (v, m, cs, Some (Wrapf "failed to update LogPipeline CRD with conversion webhook configuration: " err ""))
          | (cs, None) =>
              match updatePipelineCRDWithConversionWebhookConfig cs (mkNN "" MetricPipelineCRD) conversion with
              | (cs, Some err) =>
                  (v, m, cs,
                   Some (Wrapf "failed to update MetricPipeline CRD with conversion webhook configuration: " err ""))
              | (cs, None) => (v, m, cs, None)
              end
          end
      end
  end.

Definition EnsureCertificate (config : Config) (w : world R F SS VS MS CS) : world R F SS VS MS CS * option goerror :=
  let '(mkWorld r c f s v m cs) := w in
  match provideCACert secret_equal (cfg_rsaKeySize config) r c s (cfg_CASecretName config) with
  | (r, c, s, Err err) => (mkWorld r c f s v m cs, Some (Wrapf "failed to provide ca cert/key: " err ""))
  | (r, c, s, Ok (caCertPEM, caKeyPEM)) =>
      let '(host, alternativeDNSNames) := dnsNames (cfg_ServiceName config) in
      match provideServerCert (cfg_CertDir config) (cfg_rsaKeySize config) r c f
              (mkServerCertConfig host alternativeDNSNames caCertPEM caKeyPEM) with
      | (r, c, f, Err err) => (mkWorld r c f s v m cs, Some (Wrapf "failed to provide server cert/key: " err ""))
      | (r, c, f, Ok _) =>
          let '(v, m, cs, err) := applyWebhookConfigResources caCertPEM config v m cs in
          (mkWorld r c f s v m cs, err)
      end
  end.

End Ensure.
