(* ===== verification/WebhookCertProps.v ===== *)
(** * Properties of the webhook certificates

    A successful run leaves an authority in the Secret and a server certificate in the
    files that do not expire soon, and the authority in all webhook configurations and
    conversion sections; the certificate verifies against an authority that was made here,
    and later runs keep both until they come near their expiry. *)
From Stdlib Require Import Ascii.
From stdpp Require Import base gmap strings list pretty.
From S2P Require Import Prelude Kube GoErrors GoFormat K8sUtils WebhookCert.
Local Open Scope string_scope.

(** ** What the libraries promise *)

Definition valid_at {PK} (t : Z) (c : Certificate PK) : Prop := (c_NotBefore c <= t <= c_NotAfter c)%Z.

(** Certificates have a resolution of one second. *)
Definition in_seconds (t : Z) : Z := (t - t mod second)%Z.

(** The certificate [c] was made from the template [t] for the key [pub]. *)
Record describes {PK} (c t : Certificate PK) (pub : PK) : Prop := {
  d_NotBefore : c_NotBefore c = in_seconds (c_NotBefore t);
  d_NotAfter : c_NotAfter c = in_seconds (c_NotAfter t);
  d_SerialNumber : c_SerialNumber c = c_SerialNumber t;
  d_CommonName : c_CommonName c = c_CommonName t;
  d_ExtKeyUsage : c_ExtKeyUsage c = c_ExtKeyUsage t;
  d_IsCA : c_IsCA c = c_IsCA t;
  d_DNSNames : c_DNSNames c = c_DNSNames t;
  d_PublicKey : c_PublicKey c = Some pub
}.

(** A self-signed certificate of the template of the authority. *)
Definition made_ca {R PK SK} `{CertLib R PK SK} (ca : Certificate PK) : Prop :=
  exists (r r' : R) from to id (k : SK) der,
    CreateCertificate r (caCertTemplate from to id) (caCertTemplate from to id) (Public k) k = (r', Ok der) /\
    ParseCertificate (R := R) (SK := SK) der = Ok ca.

(** Documented behaviour of encoding/pem, crypto/rsa and crypto/x509: decoding inverts
    encoding; a generated key has the size asked for; a created certificate parses to
    what its template describes and is signed by its parent; chains lead from the
    certificate to a root, all certificates of a chain are valid at the time of the
    check, and the time is used for nothing else. *)
Class CertLaws (R PK SK : Type) `{CertLib R PK SK} := {
  issued_by : Certificate PK -> Certificate PK -> Prop;
  pem_decode_empty : pem_Decode "" = None;
  pem_decode_encode b s : pem_Encode b = Ok s -> pem_Decode s = Some (b, "");
  parse_marshal_key (k : SK) : ParsePKCS1PrivateKey (MarshalPKCS1PrivateKey k) = Ok k;
  generated_key_size (r r' : R) n k : GenerateKey r n = (r', Ok k) -> N_BitLen k = n;
  parse_raw der c : ParseCertificate der = Ok c -> c_Raw c = der;
  created_parses (r r' : R) t p pub (k : SK) der :
    CreateCertificate r t p pub k = (r', Ok der) -> exists c, ParseCertificate der = Ok c /\ describes c t pub;
  created_issued (r r' : R) t p pub (k : SK) der c :
    CreateCertificate r t p pub k = (r', Ok der) -> ParseCertificate der = Ok c -> c_PublicKey p <> None ->
    issued_by c p;
  verify_issued (r r' : R) t ca pub (k : SK) der c roots time :
    made_ca ca -> CreateCertificate r t ca pub k = (r', Ok der) -> ParseCertificate der = Ok c ->
    ExtKeyUsageServerAuth ∈ c_ExtKeyUsage t -> ca ∈ roots -> valid_at time c -> valid_at time ca ->
    exists chain chains, Verify time c roots = Ok (chain :: chains);
  verify_sound time c roots chains chain :
    Verify time c roots = Ok chains -> chain ∈ chains ->
    exists rest, chain = c :: rest /\ Forall (.∈ roots) rest /\ Forall (valid_at time) chain /\
      match rest with [] => c ∈ roots | parent :: _ => issued_by c parent end;
  verify_later time time' c roots chain chains :
    Verify time c roots = Ok (chain :: chains) -> Forall (valid_at time') chain ->
    exists chain' chains', Verify time' c roots = Ok (chain' :: chains')
}.

(** Of files: a file that was written holds what was written, and the others are as
    they were. *)
Class FileLaws (F : Type) `{Files F} := {
  write_read (f f' : F) p d m : WriteFile f p d m = (f', None) -> ReadFile f' p = Ok d;
  write_other (f f' : F) p d m q e : WriteFile f p d m = (f', e) -> q <> p -> ReadFile f' q = ReadFile f q
}.

(** Of the API server: an update concerns one object. *)
Class ObjectFrame (W S : Type) `{ObjectClient W S} :=
  update_other (w w' : W) (o : object S) e k :
    obj_update w o = (w', e) -> k <> fm_Key (ob_Meta o) -> obj_get w' k = obj_get w k.

(** ** The clock *)

Definition monotone (c : clock) : Prop :=
  forall i j, (clk_made c <= i)%nat -> (i <= j)%nat -> (clk_reads c i <= clk_reads c j)%Z.

(** The next reading. *)
Definition next (c : clock) : Z := clk_reads c (clk_made c).

(** [c'] is [c] after some readings. *)
Definition after (c c' : clock) : Prop := clk_reads c' = clk_reads c /\ (clk_made c <= clk_made c')%nat.

#[export] Instance after_preorder : PreOrder after.
Proof.
  split; [intros c; by split|]. intros a b c [H1 H2] [H3 H4]. split; [by rewrite H3|lia].
Qed.

Lemma after_now c c' t : now c = (c', t) -> after c c' /\ t = next c.
Proof. intros [= <- <-]. split; [split; simpl; [done|lia]|done]. Qed.

Lemma next_le c c' : monotone c -> after c c' -> (next c <= next c')%Z.
Proof. intros Hm [Hr Hn]. unfold next. rewrite Hr. by apply Hm. Qed.

Lemma monotone_after c c' : monotone c -> after c c' -> monotone c'.
Proof. intros Hm [Hr Hn] i j Hi Hj. rewrite Hr. apply Hm; lia. Qed.

(** Every coming reading satisfies [P]. *)
Definition readings (P : Z -> Prop) (c : clock) : Prop := forall i, (clk_made c <= i)%nat -> P (clk_reads c i).

Lemma readings_next P c : readings P c -> P (next c).
Proof. intros Hp. by apply Hp. Qed.

Lemma readings_after (P : Z -> Prop) c c' : readings P c -> after c c' -> readings P c'.
Proof. intros Hp [Hr Hn] i Hi. rewrite Hr. apply Hp. lia. Qed.

(** ** Times *)

Lemma in_seconds_bounds t : (t - second < in_seconds t <= t)%Z.
Proof.
  unfold in_seconds. pose proof (Z.mod_pos_bound t second). unfold second, nanosecond in *. lia.
Qed.

Ltac time_bounds :=
  repeat match goal with
  | H : context [in_seconds ?t] |- _ =>
      lazymatch goal with _ : (t - second < in_seconds t)%Z |- _ => fail | _ => destruct (in_seconds_bounds t) end
  | |- context [in_seconds ?t] =>
      lazymatch goal with _ : (t - second < in_seconds t)%Z |- _ => fail | _ => destruct (in_seconds_bounds t) end
  end;
  unfold caCertMaxAge, serverCertMaxAge, duration365d, duration30d, duration1w, duration1d, hour, second, nanosecond in *;
  lia.

(** ** PEM *)

Section Library.
Context {R PK SK : Type} `{CertLaws R PK SK}.

Lemma parse_encoded_cert der s : encodeCertPEM der = Ok s -> parseCertPEM s = ParseCertificate der.
Proof. intros He%pem_decode_encode. unfold parseCertPEM. by rewrite He. Qed.

Lemma parse_encoded_key k s : encodeKeyPEM k = Ok s -> parseKeyPEM s = Ok k.
Proof. intros He%pem_decode_encode. unfold parseKeyPEM. rewrite He. simpl. apply parse_marshal_key. Qed.

Lemma encoded_not_empty b s : pem_Encode b = Ok s -> s <> "".
Proof. intros He%pem_decode_encode ->. by rewrite pem_decode_empty in He. Qed.

Lemma encoded_pool der c s : encodeCertPEM der = Ok s -> ParseCertificate der = Ok c -> AppendCertsFromPEM s = [c].
Proof.
  intros He Hp. pose proof (encoded_not_empty _ _ He) as Hne. apply pem_decode_encode in He.
  unfold AppendCertsFromPEM. destruct s as [|a s]; [done|]. cbn [String.length append_certs]. rewrite He. cbn.
  rewrite Hp. f_equal. destruct (String.length s); [done|]. cbn. by rewrite pem_decode_empty.
Qed.

(** ** The checks *)

Lemma checkExpiry_spec off c pem c' b :
  checkExpiry off c pem = (c', Ok b) ->
  exists cert, parseCertPEM pem = Ok cert /\ after c c' /\ b = bool_decide (next c + off < c_NotAfter cert)%Z.
Proof.
  unfold checkExpiry. destruct (parseCertPEM pem) as [cert|e]; [|done]. cbn. intros [= <- <-].
  exists cert. split_and!; [done|split; cbn; [done|lia]|]. unfold next.
  apply eq_bool_prop_intro. rewrite !Is_true_true, Z.ltb_lt, bool_decide_eq_true. lia.
Qed.

Lemma checkExpiry_after off c pem c' b : checkExpiry off c pem = (c', b) -> after c c'.
Proof.
  unfold checkExpiry. destruct (parseCertPEM pem) as [cert|e]; cbn; intros [= <- <-]; [|done]. split; cbn; [done|lia].
Qed.

Lemma checkExpiry_ok off c pem cert :
  parseCertPEM pem = Ok cert -> (next c + off < c_NotAfter cert)%Z ->
  exists c', after c c' /\ checkExpiry off c pem = (c', Ok true).
Proof.
  intros Hp Ht. unfold checkExpiry. rewrite Hp. cbn. eexists. split; [|f_equal; f_equal; apply Z.ltb_lt].
  - split; cbn; [done|lia].
  - unfold next in Ht. lia.
Qed.

Lemma checkKeyLength_true n pem :
  checkKeyLength n pem = Ok true <-> exists k, parseKeyPEM pem = Ok k /\ N_BitLen k = n.
Proof.
  unfold checkKeyLength. destruct (parseKeyPEM pem) as [k|e].
  - split; [intros [= Hn%Z.eqb_eq]; eauto|]. intros (k' & [= <-] & ->). by rewrite Z.eqb_refl.
  - split; [done|]. by intros (k & ? & ?).
Qed.

Lemma is_ok_true_spec r : is_ok_true r = true <-> r = Ok true.
Proof. destruct r as [[]|]; naive_solver. Qed.

(** A certificate that is trusted by a pool. *)
Definition trusted (c : Certificate PK) (roots : list (Certificate PK)) : Prop :=
  c ∈ roots \/ exists root, root ∈ roots /\ issued_by c root.

Lemma verified_trusted t c roots chain chains : Verify t c roots = Ok (chain :: chains) -> trusted c roots.
Proof.
  intros Hv. destruct (verify_sound _ _ _ _ chain Hv) as (rest & -> & Hr & _ & Hi); [by left|].
  destruct rest as [|p rest]; [by left|]. right. exists p. apply Forall_cons in Hr as [Hp _]. by split.
Qed.

(** A chain that was found is found as long as the certificate and the roots are valid. *)
Lemma verified_again t t' c roots chain chains :
  Verify t c roots = Ok (chain :: chains) -> valid_at t' c -> Forall (valid_at t') roots ->
  exists chain' chains', Verify t' c roots = Ok (chain' :: chains').
Proof.
  intros Hv Hc Hr. destruct (verify_sound _ _ _ _ chain Hv) as (rest & -> & Hin & _); [by left|].
  eapply verify_later; [done|]. constructor; [done|]. rewrite Forall_forall in Hr, Hin |- *. eauto.
Qed.

Lemma checkRoot_true c crt ca c' :
  checkRoot c crt ca = (c', Ok true) ->
  after c c' /\ exists server chain chains, parseCertPEM crt = Ok server /\
    Verify (next c) server (AppendCertsFromPEM ca) = Ok (chain :: chains).
Proof.
  unfold checkRoot. destruct (AppendCertsFromPEM ca) as [|x xs]; [done|].
  destruct (parseCertPEM crt) as [server|e]; [|done]. cbn [now].
  destruct (Verify _ server (x :: xs)) as [[|chain chains]|e] eqn:Hv; [done| |done].
  intros [= <-]. split; [split; cbn; [done|lia]|]. by eexists _, _, _.
Qed.

Lemma checkRoot_ok c crt ca server chain chains :
  parseCertPEM crt = Ok server -> AppendCertsFromPEM ca <> [] ->
  Verify (next c) server (AppendCertsFromPEM ca) = Ok (chain :: chains) ->
  exists c', after c c' /\ checkRoot c crt ca = (c', Ok true).
Proof.
  intros Hp Hr Hv. unfold checkRoot. destruct (AppendCertsFromPEM ca) as [|x xs]; [done|]. rewrite Hp. cbn [now].
  unfold next in Hv. rewrite Hv. eexists. split; [|done]. split; cbn; [done|lia].
Qed.

(** ** The generators *)

(** The text is the encoding of an authority made here. *)
Definition own_pem (pem : string) (ca : Certificate PK) : Prop := made_ca ca /\ encodeCertPEM (c_Raw ca) = Ok pem.

Lemma own_pem_parse pem ca : own_pem pem ca -> parseCertPEM pem = Ok ca /\ AppendCertsFromPEM pem = [ca].
Proof.
  intros [(r & r' & from & to & id & k & der & Hc & Hp) He]. pose proof (parse_raw _ _ Hp) as Hraw. rewrite Hraw in He.
  split; [by rewrite (parse_encoded_cert _ _ He)|by eapply encoded_pool].
Qed.

Lemma own_pem_has_key pem ca : own_pem pem ca -> c_PublicKey ca <> None.
Proof.
  intros [(r & r' & from & to & id & k & der & Hc & Hp) _]. destruct (created_parses _ _ _ _ _ _ _ Hc) as (c & Hp' & Hd).
  rewrite Hp in Hp'. apply Ok_inj in Hp' as <-. by rewrite (d_PublicKey _ _ _ Hd).
Qed.

Lemma generateCACert_spec n r c r' c' crt key :
  generateCACert n r c = (r', c', Ok (crt, key)) ->
  after c c' /\ exists ca k, own_pem crt ca /\ parseKeyPEM key = Ok k /\ N_BitLen k = key_size n /\
    c_NotBefore ca = in_seconds (next c - hour) /\ c_NotAfter ca = in_seconds (next c - hour + caCertMaxAge).
Proof.
  unfold generateCACert, generateCACertInternal. destruct (GenerateKey r (key_size n)) as [r1 [k|e]] eqn:Hg; [|done].
  cbn [now]. fold (next c). destruct (MarshalPKIXPublicKey (Public k)) as [pk|e]; [|done].
  destruct (CreateCertificate r1 _ _ (Public k) k) as [r2 [der|e]] eqn:Hc; [|done].
  destruct (ParseCertificate der) as [ca|e] eqn:Hp; [|done].
  destruct (encodeCertPEM (c_Raw ca)) as [crt'|e] eqn:He; [|done].
  destruct (encodeKeyPEM k) as [key'|e] eqn:Hk; [|done]. intros [= <- <- <- <-].
  split; [split; cbn; [done|lia]|]. destruct (created_parses _ _ _ _ _ _ _ Hc) as (c2 & Hp2 & Hd).
  rewrite Hp in Hp2. apply Ok_inj in Hp2 as <-. exists ca, k. split_and!.
  - split; [|done]. repeat eexists; eassumption.
  - by apply parse_encoded_key.
  - by eapply generated_key_size.
  - by rewrite (d_NotBefore _ _ _ Hd).
  - by rewrite (d_NotAfter _ _ _ Hd).
Qed.

(** What a new server certificate is: the certificate of the template for the host
    names, for the key that is returned with it, made with the key of the authority. *)
Definition new_server_cert (config : serverCertConfig) (n t : Z) (crt key : string) (server : Certificate PK) : Prop :=
  parseCertPEM crt = Ok server /\ c_DNSNames server = sc_host config :: sc_alternativeDNSNames config /\
  c_NotBefore server = in_seconds (t - hour) /\ c_NotAfter server = in_seconds (t - hour + serverCertMaxAge) /\
  exists k, parseKeyPEM key = Ok k /\ N_BitLen k = key_size n /\ c_PublicKey server = Some (Public k).

(** The certificate is found to be good against the roots whenever it and the roots are valid. *)
Definition verifies (server : Certificate PK) (roots : list (Certificate PK)) : Prop :=
  forall time, valid_at time server -> Forall (valid_at time) roots ->
    exists chain chains, Verify time server roots = Ok (chain :: chains).

Lemma generateServerCert_spec n r c r' c' config crt key :
  generateServerCert n r c config = (r', c', Ok (crt, key)) ->
  after c c' /\ crt <> "" /\ key <> "" /\ exists server, new_server_cert config n (next c) crt key server /\
    forall ca, own_pem (sc_caCertPEM config) ca -> issued_by server ca /\ verifies server [ca].
Proof.
  unfold generateServerCert. destruct (parseCertPEM (sc_caCertPEM config)) as [ca|e] eqn:Hca; [|done].
  destruct (parseKeyPEM (sc_caKeyPEM config)) as [cak|e]; [|done]. unfold generateServerCertInternal.
  destruct (crand_Int r _) as [r1 [serial|e]]; [|done]. cbn [now]. fold (next c).
  destruct (GenerateKey r1 _) as [r2 [k|e]] eqn:Hg; [|done].
  destruct (CreateCertificate r2 _ ca (Public k) cak) as [r3 [der|e]] eqn:Hc; [|done].
  destruct (encodeCertPEM der) as [crt'|e] eqn:He; [|done].
  destruct (encodeKeyPEM k) as [key'|e] eqn:Hk; [|done]. intros [= <- <- <- <-].
  destruct (created_parses _ _ _ _ _ _ _ Hc) as (server & Hp & Hd).
  split; [split; cbn; [done|lia]|]. split; [by eapply encoded_not_empty|]. split; [by eapply encoded_not_empty|].
  exists server. split.
  - split; [by rewrite (parse_encoded_cert _ _ He)|]. rewrite (d_DNSNames _ _ _ Hd), (d_NotBefore _ _ _ Hd), (d_NotAfter _ _ _ Hd).
    split_and!; [done..|]. exists k. rewrite (d_PublicKey _ _ _ Hd). split_and!; [by apply parse_encoded_key| |done].
    by eapply generated_key_size.
  - intros ca' Hown. destruct (own_pem_parse _ _ Hown) as [Hca' _]. rewrite Hca in Hca'. apply Ok_inj in Hca' as <-.
    pose proof (own_pem_has_key _ _ Hown) as Hpub. split; [by eapply created_issued|]. destruct Hown as [Hmade _].
    intros time Hs Hv. rewrite Forall_singleton in Hv. eapply verify_issued; try eassumption; by left.
Qed.

End Library.

(** ** The paths of the two files *)

Lemma split_path_app acc d f :
  (forall a, split_path a f = [a +:+ f]) -> split_path acc (d +:+ "/" +:+ f) = (split_path acc d ++ [f])%list.
Proof.
  intros Hf. revert acc. induction d as [|a d IH]; intros acc; simpl.
  - exact (f_equal (cons acc) (Hf "")).
  - destruct (Ascii.eqb a slash); [simpl; by rewrite IH|apply IH].
Qed.

Lemma concat_snoc l : exists p, forall f, String.concat "/" (l ++ [f]) = p +:+ f.
Proof.
  induction l as [|x l (p & IH)]; [by exists ""|]. destruct l as [|y l].
  - exists (x +:+ "/"). intros f. cbn [app String.concat]. by rewrite append_assoc.
  - exists (x +:+ "/" +:+ p). intros f. specialize (IH f). cbn [app] in *.
    change (String.concat "/" (x :: y :: (l ++ [f])%list)) with (x +:+ "/" +:+ String.concat "/" (y :: (l ++ [f])%list)).
    rewrite IH, !append_assoc. done.
Qed.

Lemma file_name_last rooted dir f :
  f = certFile \/ f = keyFile ->
  reverse (fold_left (clean_element rooted) (split_path "" (dir +:+ "/" +:+ f)) []) =
    (reverse (fold_left (clean_element rooted) (split_path "" dir) []) ++ [f])%list.
Proof.
  intros Hf. rewrite split_path_app by (intros a; destruct Hf as [->| ->]; cbn; by rewrite ?append_assoc).
  rewrite fold_left_app. cbn [fold_left]. by destruct Hf as [->| ->]; rewrite <- reverse_cons.
Qed.

Lemma joined_path dir :
  exists p, forall f, f = certFile \/ f = keyFile -> filepath_Join [dir; f] = p +:+ f.
Proof.
  destruct dir as [|a d]; [exists ""; by intros f [->| ->]|].
  set (rooted := String.prefix "/" (String a d)).
  destruct (concat_snoc (reverse (fold_left (clean_element rooted) (split_path "" (String a d)) []))) as [p Hp].
  exists ((if rooted then "/" else "") +:+ p). intros f Hf.
  assert (Hj : filepath_Join [String a d; f] = filepath_Clean (String a d +:+ "/" +:+ f)) by by destruct Hf as [->| ->].
  rewrite Hj. unfold filepath_Clean.
  assert (Hr : String.prefix "/" (String a d +:+ "/" +:+ f) = rooted) by by destruct d.
  rewrite Hr, file_name_last, Hp, append_assoc by done.
  destruct (str_eqb _ "") eqn:E; [|done]. apply str_eqb_true in E.
  apply append_nil_inv in E as [_ E]. apply append_nil_inv in E as [_ E]. by destruct Hf as [->| ->].
Qed.

Lemma file_paths_differ certDir : certFilePath certDir <> keyFilePath certDir.
Proof.
  unfold certFilePath, keyFilePath. destruct (joined_path certDir) as [p Hp].
  rewrite !Hp by auto. intros He%append_cancel. done.
Qed.

Section Files.
Context {F : Type} `{FileLaws F}.

Lemma save_load certDir (f f' : F) crt key : save certDir f crt key = (f', None) -> load certDir f' = Ok (crt, key).
Proof.
  unfold save, load. destruct (WriteFile f _ crt _) as [f1 [e|]] eqn:H1; [done|].
  destruct (WriteFile f1 _ key _) as [f2 [e|]] eqn:H2; [done|]. intros [= <-].
  rewrite (write_read _ _ _ _ _ H2). rewrite (write_other _ _ _ _ _ _ _ H2), (write_read _ _ _ _ _ H1); [done|].
  apply file_paths_differ.
Qed.

(** A save that fails at the second file leaves the new certificate with the old key. *)
Lemma interrupted_save certDir (f f1 f' : F) crt key oldkey e :
  WriteFile f (certFilePath certDir) crt permUserRW = (f1, None) ->
  WriteFile f1 (keyFilePath certDir) key permUserRW = (f', Some e) ->
  ReadFile f (keyFilePath certDir) = Ok oldkey ->
  (ReadFile f' (keyFilePath certDir) = ReadFile f1 (keyFilePath certDir)) ->
  load certDir f' = Ok (crt, oldkey).
Proof.
  intros H1 H2 Hold Hkeep. unfold load. pose proof (file_paths_differ certDir) as Hd.
  rewrite (write_other _ _ _ _ _ _ _ H2), (write_read _ _ _ _ _ H1) by done.
  by rewrite Hkeep, (write_other _ _ _ _ _ _ _ H1), Hold by done.
Qed.

End Files.

(** ** The authority *)

Section Authority.
Context {R PK SK : Type} `{CertLaws R PK SK}.
Context {SS : Type} `{ObjectLaws SS CASecret} (secret_equal : object CASecret -> object CASecret -> bool).

(** The Secret holds this authority and its key. *)
Definition holds (s : SS) (name : NamespacedName) (crt key : string) : Prop :=
  exists secret, obj_get s name = Ok secret /\ cs_Data (ob_Content secret) !! caCertFile = Some crt /\
    cs_Data (ob_Content secret) !! caKeyFile = Some key.

(** An authority that is good for thirty days from [t], with a key of the right size. *)
Definition good_ca (n t : Z) (crt key : string) (ca : Certificate PK) : Prop :=
  parseCertPEM crt = Ok ca /\ (t + duration30d < c_NotAfter ca)%Z /\ exists k, parseKeyPEM key = Ok k /\ N_BitLen k = n.

Lemma checkCASecret_spec n c secret c' b :
  checkCASecret n c secret = (c', b) ->
  after c c' /\
  (b = true -> exists crt key ca k, fetchCACertAndKey secret = Ok (crt, key) /\ parseCertPEM crt = Ok ca /\
     parseKeyPEM key = Ok k /\ N_BitLen k = n /\ (next c + duration30d < c_NotAfter ca)%Z).
Proof.
  unfold checkCASecret. destruct (fetchCACertAndKey secret) as [[crt key]|e]; [|by intros [= <- <-]].
  destruct (checkExpiry duration30d c crt) as [c1 r] eqn:He. intros [= <- <-].
  split; [by eapply checkExpiry_after|]. rewrite andb_true_iff, !is_ok_true_spec. intros [-> (k & Hk & Hn)%checkKeyLength_true].
  destruct (checkExpiry_spec _ _ _ _ _ He) as (ca & Hp & _ & Hb). symmetry in Hb. apply bool_decide_eq_true in Hb.
  exists crt, key, ca, k. done.
Qed.

Lemma fetched secret crt key :
  fetchCACertAndKey secret = Ok (crt, key) <->
  cs_Data (ob_Content secret) !! caCertFile = Some crt /\ cs_Data (ob_Content secret) !! caKeyFile = Some key.
Proof.
  unfold fetchCACertAndKey. destruct (cs_Data (ob_Content secret) !! caCertFile); [|naive_solver].
  destruct (cs_Data (ob_Content secret) !! caKeyFile); naive_solver.
Qed.

Lemma create_ca_spec n r c s name r' c' s' crt key :
  sound_equality secret_equal -> n <> 0%Z ->
  create_ca secret_equal n r c s name = (r', c', s', Ok (crt, key)) ->
  after c c' /\ holds s' name crt key /\ exists ca, good_ca n (next c) crt key ca /\ own_pem crt ca.
Proof.
  intros Heq Hn. unfold create_ca. destruct (generateCACert n r c) as [[r1 c1] [[crt1 key1]|e]] eqn:Hg; [|done].
  destruct (CreateOrUpdateSecret _ s _) as [s1 [e|]] eqn:Hw; [done|]. intros [= <- <- <- <- <-].
  destruct (generateCACert_spec _ _ _ _ _ _ _ Hg) as (Ha & ca & k & Hown & Hk & Hs & Hb & He).
  split; [done|]. split.
  - destruct (create_or_update_if_changed_applies _ _ _ _ Heq Hw) as (o & Ho & Hc & _). exists o. rewrite Hc. done.
  - exists ca. split; [|done]. split; [by apply own_pem_parse|]. split; [rewrite He; time_bounds|].
    exists k. split; [done|]. rewrite Hs. unfold key_size. by apply Z.eqb_neq in Hn as ->.
Qed.

(** The authority was in the Secret and is left there, or it was made in this run. *)
Lemma provideCACert_spec n r c s name r' c' s' crt key :
  sound_equality secret_equal -> n <> 0%Z -> monotone c ->
  provideCACert secret_equal n r c s name = (r', c', s', Ok (crt, key)) ->
  after c c' /\ holds s' name crt key /\ exists ca, good_ca n (next c) crt key ca /\ (s' = s \/ own_pem crt ca).
Proof.
  intros Heq Hn Hm. unfold provideCACert. destruct (obj_get s name) as [secret|e] eqn:Hs.
  2: { destruct (negb (IsNotFound e)); [done|]. intros Hcr.
       destruct (create_ca_spec _ _ _ _ _ _ _ _ _ _ Heq Hn Hcr) as (Ha & Hh & ca & Hg & Ho). eauto 8. }
  destruct (checkCASecret n c secret) as [c1 b] eqn:Hc. apply checkCASecret_spec in Hc as [Ha Hb]. destruct b.
  - intros [= <- <- <- <- <-]. split; [done|].
    destruct (Hb eq_refl) as (crt & key & ca & k & Hf & Hp & Hk & Hsz & Ht). apply fetched in Hf as [Hc Hd].
    rewrite Hc, Hd. cbn. split; [by exists secret|]. exists ca. split; [|by left]. split_and!; [done..|by exists k].
  - intros Hcr. destruct (create_ca_spec _ _ _ _ _ _ _ _ _ _ Heq Hn Hcr) as (Ha' & Hh & ca & (Hp & Ht & Hk) & Ho).
    split; [by etrans|]. split; [done|]. exists ca. split; [|by right]. split_and!; [done| |done].
    pose proof (next_le _ _ Hm Ha). lia.
Qed.

(** An authority that is still good is kept. *)
Lemma provideCACert_keeps n r c s name crt key ca :
  holds s name crt key -> good_ca n (next c) crt key ca ->
  exists c', after c c' /\ provideCACert secret_equal n r c s name = (r, c', s, Ok (crt, key)).
Proof.
  intros (secret & Hs & Hc & Hd) (Hp & Ht & k & Hk & Hn). unfold provideCACert. rewrite Hs.
  destruct (checkExpiry_ok duration30d c crt ca Hp Ht) as (c' & Ha & He).
  exists c'. split; [done|]. unfold checkCASecret.
  rewrite (proj2 (fetched secret crt key)), He by done.
  rewrite (proj2 (checkKeyLength_true n key)) by eauto. cbn. by rewrite Hc, Hd.
Qed.

End Authority.

(** ** The server certificate *)

Section Server.
Context {R PK SK : Type} `{CertLaws R PK SK}.
Context {F : Type} `{FileLaws F}.

(** A server certificate in the files that is good for a day from [t]. *)
Definition good_server (certDir : string) (t : Z) (f : F) (server : Certificate PK) : Prop :=
  exists crt key, load certDir f = Ok (crt, key) /\ crt <> "" /\ key <> "" /\ parseCertPEM crt = Ok server /\
    (t + duration1d < c_NotAfter server)%Z.

(** A pool that has certificates, one of which is the certificate or issued it, and that verifies it. *)
Definition rooted (server : Certificate PK) (roots : list (Certificate PK)) : Prop :=
  roots <> [] /\ trusted server roots /\ verifies server roots.

Lemma checkServerCert_spec c crt caPEM c' b :
  checkServerCert c crt caPEM = (c', b) ->
  after c c' /\
  (b = true -> exists server, parseCertPEM crt = Ok server /\ (next c + duration1d < c_NotAfter server)%Z /\
     rooted server (AppendCertsFromPEM caPEM)).
Proof.
  unfold checkServerCert.
  destruct (checkExpiry duration1d c crt) as [c1 r1] eqn:He. pose proof (checkExpiry_after _ _ _ _ _ He) as Ha.
  destruct (is_ok_true r1) eqn:Hr; cbn [negb]; [|by intros [= <- <-]]. apply is_ok_true_spec in Hr as ->.
  destruct (checkExpiry_spec _ _ _ _ _ He) as (server & Hp & _ & Ht). symmetry in Ht. apply bool_decide_eq_true in Ht.
  destruct (checkRoot c1 crt caPEM) as [c2 r2] eqn:Hc. intros [= <- <-]. split.
  - etrans; [done|]. revert Hc. unfold checkRoot. destruct (AppendCertsFromPEM caPEM); [by intros [= <- _]|].
    rewrite Hp. cbn [now]. destruct (Verify _ _ _); intros [= <- _]; split; cbn; [done|lia|done|lia].
  - rewrite is_ok_true_spec. intros ->. destruct (checkRoot_true _ _ _ _ Hc) as (_ & server' & chain & chains & Hp' & Hv).
    rewrite Hp in Hp'. apply Ok_inj in Hp' as <-. exists server. split_and!; [done..|]. split_and!.
    + intros Hn. revert Hc. unfold checkRoot. by rewrite Hn.
    + by eapply verified_trusted.
    + intros time Hs Hca. by eapply verified_again.
Qed.

(** What a run leaves in the files: the certificate that was there, checked against the authority, or a new one for the
    host names, that the authority verifies when it was made here. *)
Definition provided (certDir : string) (n t : Z) (config : serverCertConfig) (f f' : F) (server : Certificate PK) : Prop :=
  good_server certDir t f' server /\
  (f' = f /\ rooted server (AppendCertsFromPEM (sc_caCertPEM config)) \/
   (exists crt key t', load certDir f' = Ok (crt, key) /\ (t <= t')%Z /\ new_server_cert config n t' crt key server) /\
   forall ca, own_pem (sc_caCertPEM config) ca -> rooted server (AppendCertsFromPEM (sc_caCertPEM config))).

Lemma create_server_cert_spec certDir n r c f config r' c' f' x t :
  (t <= next c)%Z -> create_server_cert certDir n r c f config = (r', c', f', Ok x) ->
  after c c' /\ exists server, provided certDir n t config f f' server.
Proof.
  intros Hle. unfold create_server_cert. destruct (generateServerCert n r c config) as [[r1 c1] [[crt key]|e]] eqn:Hg; [|done].
  destruct (save certDir f crt key) as [f1 [e|]] eqn:Hs; [done|]. intros [= <- <- <- <-].
  destruct (generateServerCert_spec _ _ _ _ _ _ _ _ Hg) as (Ha & Hc & Hk & server & Hn & Hv). apply save_load in Hs.
  split; [done|]. exists server. split.
  - destruct Hn as (Hp & _ & _ & He & _). exists crt, key. split_and!; [done..|]. rewrite He. time_bounds.
  - right. split; [by exists crt, key, (next c)|]. intros ca Hown. destruct (own_pem_parse _ _ Hown) as [_ ->].
    destruct (Hv ca Hown) as [Hi Hver]. split_and!; [done| |done]. right. exists ca. by split; [left|].
Qed.

Lemma provideServerCert_spec certDir n r c f config r' c' f' x t :
  monotone c -> (t <= next c)%Z -> provideServerCert certDir n r c f config = (r', c', f', Ok x) ->
  after c c' /\ exists server, provided certDir n t config f f' server.
Proof.
  intros Hm Hle. unfold provideServerCert. destruct (load certDir f) as [[crt key]|e] eqn:Hl.
  2: { by apply create_server_cert_spec. }
  destruct (str_eqb crt "" || str_eqb key "") eqn:Hne; [by apply create_server_cert_spec|].
  apply orb_false_iff in Hne as [Hne1%str_eqb_false Hne2%str_eqb_false].
  destruct (checkServerCert c crt (sc_caCertPEM config)) as [c1 b] eqn:Hc.
  destruct (checkServerCert_spec _ _ _ _ _ Hc) as [Ha Hb]. destruct b.
  - intros [= <- <- <- <-]. split; [done|]. destruct (Hb eq_refl) as (server & Hp & Ht & Hroot).
    exists server. split; [exists crt, key; split_and!; try done; lia|]. by left.
  - intros Hcr. assert (Ht : (t <= next c1)%Z) by (pose proof (next_le _ _ Hm Ha); lia).
    destruct (create_server_cert_spec certDir n _ _ _ _ _ _ _ _ t Ht Hcr) as (Ha' & Hs). split; [by etrans|done].
Qed.

(** A certificate that is still good is kept. *)
Lemma provideServerCert_keeps certDir n r c f config server :
  good_server certDir (next c) f server -> rooted server (AppendCertsFromPEM (sc_caCertPEM config)) ->
  readings (fun t => valid_at t server /\ Forall (valid_at t) (AppendCertsFromPEM (sc_caCertPEM config))) c ->
  exists c' x, after c c' /\ provideServerCert certDir n r c f config = (r, c', f, Ok x).
Proof.
  intros (crt & key & Hl & Hc & Hk & Hp & Ht) (Hne & _ & Hv) Hr.
  unfold provideServerCert. rewrite Hl. apply str_eqb_false in Hc as ->, Hk as ->. cbn [orb].
  destruct (checkExpiry_ok duration1d c crt server Hp Ht) as (c1 & Ha & He). unfold checkServerCert. rewrite He. cbn [is_ok_true negb].
  destruct (readings_next _ _ (readings_after _ _ _ Hr Ha)) as [Hs Hca]. destruct (Hv _ Hs Hca) as (chain & chains & Hver).
  destruct (checkRoot_ok c1 crt (sc_caCertPEM config) server chain chains) as (c2 & Ha2 & ->); [done..|].
  exists c2, (crt, key). split; [by etrans|done].
Qed.

End Server.

(** ** Publishing the authority *)

(** The webhooks carry the bundle and are otherwise as before. *)
Definition bundled {X} (caPEM : string) (before after : list (webhook X)) : Prop :=
  Forall2 (fun b a => wh_CABundle a = caPEM /\ wh_Rest a = wh_Rest b) before after.

Lemma set_ca_bundle_bundled {X} caPEM (hs : list (webhook X)) : bundled caPEM hs (set_ca_bundle caPEM hs).
Proof. unfold bundled, set_ca_bundle. induction hs; simpl; by constructor. Qed.

Lemma update_webhook_config_spec {V X} `{ObjectLaws V (list (webhook X))} what caPEM name (v v' : V) :
  update_webhook_config what caPEM name v = (v', None) ->
  exists b a, obj_get v name = Ok b /\ obj_get v' name = Ok a /\ bundled caPEM (ob_Content b) (ob_Content a).
Proof.
  unfold update_webhook_config. destruct (obj_get v name) as [b|e] eqn:Hb; [|done].
  destruct (obj_update v _) as [v1 [e|]] eqn:Hu; [done|]. intros [= <-].
  destruct (obj_update_ok _ _ _ Hu) as [x Hx]. cbn in Hx. rewrite (obj_get_key _ _ _ Hb) in Hx.
  eexists b, _. split; [done|]. split; [exact Hx|]. apply set_ca_bundle_bundled.
Qed.

(** The conversion section of a CRD, and nothing else of it, was set. *)
Definition converted {C X} `{ObjectClient C (CRD X)} (conversion : CustomResourceConversion) (c c' : C)
    (name : NamespacedName) : Prop :=
  exists b a, obj_get c name = Ok b /\ obj_get c' name = Ok a /\
    ob_Content a = mkCRD (Some conversion) (crd_Rest (ob_Content b)).

Lemma update_crd_spec {C X} `{ObjectLaws C (CRD X)} (c c' : C) name conversion :
  updatePipelineCRDWithConversionWebhookConfig c name conversion = (c', None) -> converted conversion c c' name.
Proof.
  unfold updatePipelineCRDWithConversionWebhookConfig. destruct (obj_get c name) as [b|e] eqn:Hb; [|done].
  destruct (obj_update c _) as [c1 [e|]] eqn:Hu; [done|]. intros [= <-].
  destruct (obj_update_ok _ _ _ Hu) as [x Hx]. cbn in Hx. rewrite (obj_get_key _ _ _ Hb) in Hx.
  eexists b, _. split; [done|]. split; [exact Hx|done].
Qed.

Lemma update_crd_other {C X} `{ObjectLaws C (CRD X)} `{!ObjectFrame C (CRD X)} (c c' : C) name conversion e k :
  updatePipelineCRDWithConversionWebhookConfig c name conversion = (c', e) -> k <> name ->
  obj_get c' k = obj_get c k.
Proof.
  unfold updatePipelineCRDWithConversionWebhookConfig. destruct (obj_get c name) as [b|er] eqn:Hb; [|by intros [= <- _]].
  destruct (obj_update c _) as [c1 er] eqn:Hu. intros [= <- _] Hk.
  eapply update_other; [exact Hu|]. cbn. by rewrite (obj_get_key _ _ _ Hb).
Qed.

Section Ensure.
Context {R PK SK : Type} `{CertLaws R PK SK} {F : Type} `{FileLaws F}.
Context {SS VS MS CS X : Type} `{ObjectLaws SS CASecret} `{ObjectLaws VS (list (webhook X))}
  `{ObjectLaws MS (list (webhook X))} `{ObjectLaws CS (CRD X)} `{!ObjectFrame CS (CRD X)}.
Context (secret_equal : object CASecret -> object CASecret -> bool).

(** The authority is in both webhook configurations and in both CRDs. *)
Definition published (config : Config) (caPEM : string) (w w' : world R F SS VS MS CS) : Prop :=
  (exists b a, obj_get (w_validating w) (cfg_ValidatingWebhookName config) = Ok b /\
     obj_get (w_validating w') (cfg_ValidatingWebhookName config) = Ok a /\
     bundled caPEM (ob_Content b) (ob_Content a)) /\
  (exists b a, obj_get (w_mutating w) (cfg_MutatingWebhookName config) = Ok b /\
     obj_get (w_mutating w') (cfg_MutatingWebhookName config) = Ok a /\
     bundled caPEM (ob_Content b) (ob_Content a)) /\
  converted (makeConversionWebhookConfig caPEM config) (w_crds w) (w_crds w') (mkNN "" LogPipelineCRD) /\
  converted (makeConversionWebhookConfig caPEM config) (w_crds w) (w_crds w') (mkNN "" MetricPipelineCRD).

Lemma apply_publishes config caPEM r c f s v m cs r' c' f' s' v' m' cs' :
  applyWebhookConfigResources caPEM config v m cs = (v', m', cs', None) ->
  published config caPEM (mkWorld r c f s v m cs) (mkWorld r' c' f' s' v' m' cs').
Proof.
  unfold applyWebhookConfigResources.
  destruct (updateValidatingWebhookConfig v caPEM config) as [v1 [e|]] eqn:Hv; [done|].
  destruct (updateMutatingWebhookConfig m caPEM config) as [m1 [e|]] eqn:Hm; [done|].
  destruct (updatePipelineCRDWithConversionWebhookConfig cs _ _) as [c1 [e|]] eqn:Hl; [done|].
  destruct (updatePipelineCRDWithConversionWebhookConfig c1 _ _) as [c2 [e|]] eqn:Hc; [done|]. intros [= <- <- <-].
  assert (Hne : mkNN "" LogPipelineCRD <> mkNN "" MetricPipelineCRD) by done.
  split; [by apply update_webhook_config_spec in Hv|]. split; [by apply update_webhook_config_spec in Hm|]. cbn.
  pose proof (update_crd_other _ _ _ _ _ (mkNN "" LogPipelineCRD) Hc ltac:(done)) as Hlog.
  pose proof (update_crd_other _ _ _ _ _ (mkNN "" MetricPipelineCRD) Hl ltac:(done)) as Hmet.
  apply update_crd_spec in Hl as (b & a & Hb & Ha & Hab), Hc as (b' & a' & Hb' & Ha' & Hab'). split.
  - exists b, a. by rewrite Hlog.
  - exists b', a'. by rewrite <- Hmet.
Qed.

(** The state of a run that succeeded, seen from the time [t]; [crt] is the text of the authority. *)
Definition certificates_in_order (config : Config) (t : Z) (w w' : world R F SS VS MS CS)
    (crt : string) (ca server : Certificate PK) : Prop :=
  exists key, holds (w_secrets w') (cfg_CASecretName config) crt key /\
    good_ca (cfg_rsaKeySize config) t crt key ca /\ (w_secrets w' = w_secrets w \/ own_pem crt ca) /\
    (let '(host, alternativeDNSNames) := dnsNames (cfg_ServiceName config) in
     provided (cfg_CertDir config) (cfg_rsaKeySize config) t (mkServerCertConfig host alternativeDNSNames crt key)
       (w_files w) (w_files w') server) /\
    published config crt w w'.

Lemma EnsureCertificate_in_order config w w' :
  cfg_rsaKeySize config <> 0%Z -> sound_equality secret_equal -> monotone (w_clock w) ->
  EnsureCertificate secret_equal config w = (w', None) ->
  exists crt ca server, certificates_in_order config (next (w_clock w)) w w' crt ca server.
Proof.
  intros Hn Heq Hm. destruct w as [r c f s v m cs]. cbn in Hm. unfold EnsureCertificate.
  destruct (provideCACert _ _ r c s _) as [[[r1 c1] s1] [[crt key]|e]] eqn:Hca; [|done].
  destruct (provideCACert_spec _ _ _ _ _ _ _ _ _ _ _ Heq Hn Hm Hca) as (Ha & Hh & ca & Hgood & Hown).
  cbn [dnsNames]. destruct (provideServerCert _ _ r1 c1 f _) as [[[r2 c2] f1] [x|e]] eqn:Hs; [|done].
  destruct (applyWebhookConfigResources crt config v m cs) as [[[v1 m1] cs1] err] eqn:Hap. intros [= <- ->].
  destruct (provideServerCert_spec _ _ _ _ _ _ _ _ _ _ (next c) (monotone_after _ _ Hm Ha) (next_le _ _ Hm Ha) Hs)
    as (_ & server & Hp).
  exists crt, ca, server, key. split_and!; try done. by apply apply_publishes.
Qed.

(** Readings at which the certificates need no renewal. *)
Definition fresh_at (roots : list (Certificate PK)) (ca server : Certificate PK) (t : Z) : Prop :=
  Forall (valid_at t) roots /\ valid_at t server /\ (t + duration30d < c_NotAfter ca)%Z /\
  (t + duration1d < c_NotAfter server)%Z.

Lemma EnsureCertificate_keeps config t w0 w1 w crt ca server w' e :
  certificates_in_order config t w0 w1 crt ca server -> rooted server (AppendCertsFromPEM crt) ->
  w_secrets w = w_secrets w1 -> w_files w = w_files w1 ->
  readings (fresh_at (AppendCertsFromPEM crt) ca server) (w_clock w) ->
  EnsureCertificate secret_equal config w = (w', e) ->
  w_secrets w' = w_secrets w /\ w_files w' = w_files w /\ w_random w' = w_random w.
Proof.
  intros (key & Hh & (Hp & _ & Hk) & _ & [(c1 & k1 & Hl & Hc1 & Hk1 & Hs1 & _) _] & _) Hroot Hs Hf Hr.
  destruct w as [r c f s v m cs]. cbn in Hs, Hf, Hr. subst s f. unfold EnsureCertificate.
  pose proof (readings_next _ _ Hr) as (_ & _ & Ht & _).
  destruct (provideCACert_keeps secret_equal (cfg_rsaKeySize config) r c (w_secrets w1) _ crt key ca Hh) as (c2 & Ha & ->);
    [by split|]. cbn [dnsNames].
  pose proof (readings_after _ _ _ Hr Ha) as Hr2. pose proof (readings_next _ _ Hr2) as (_ & _ & _ & Ht2).
  edestruct (fun cfg => provideServerCert_keeps (cfg_CertDir config) (cfg_rsaKeySize config) r c2 (w_files w1) cfg server)
    as (c3 & x & _ & ->).
  - by exists c1, k1.
  - exact Hroot.
  - intros i Hi. destruct (Hr2 i Hi) as (? & ? & _). done.
  - destruct (applyWebhookConfigResources crt config v m cs) as [[[v1 m1] cs1] err]. by intros [= <- _].
Qed.

(** An authority that was made here verifies the server certificate. *)
Lemma own_authority_verifies config t w w' crt ca server :
  certificates_in_order config t w w' crt ca server -> own_pem crt ca -> rooted server (AppendCertsFromPEM crt).
Proof.
  intros (key & _ & _ & _ & Hp & _) Hown. destruct Hp as [_ [[_ Hr]|[_ Hr]]]; [exact Hr|by apply (Hr ca)].
Qed.

End Ensure.

(** C40. After a successful EnsureCertificate, when the clock does not go back,
    the Secret holds an authority that is good for more than 30 days, with a key
    of 4096 bits: one that was there before, whoever made it, or one made in
    this run; the two files hold a server certificate that is good for more than
    a day: the one that was there, checked against the authority, or a new one
    for the names of the service; it verifies against the authority if the
    authority was made here; both webhook configurations and both CRDs carry the
    authority and are otherwise unchanged; and a later run on certificates that
    verify, as long as none is near its expiry, replaces neither of them and
    uses no randomness. *)
Theorem webhook_certificates_maintained {R PK SK} `{CertLaws R PK SK} {F} `{FileLaws F} {SS VS MS CS X : Type}
    `{ObjectLaws SS CASecret} `{ObjectLaws VS (list (webhook X))} `{ObjectLaws MS (list (webhook X))}
    `{ObjectLaws CS (CRD X)} `{!ObjectFrame CS (CRD X)} secret_equal opts (w w1 : world R F SS VS MS CS) :
  let config := NewWebhookCertConfig opts in
  sound_equality secret_equal -> monotone (w_clock w) ->
  EnsureCertificate secret_equal config w = (w1, None) ->
  exists crt ca server, certificates_in_order config (next (w_clock w)) w w1 crt ca server /\
    (own_pem crt ca -> rooted server (AppendCertsFromPEM crt)) /\
    (rooted server (AppendCertsFromPEM crt) ->
     forall w2 w3 e, w_secrets w2 = w_secrets w1 -> w_files w2 = w_files w1 ->
      readings (fresh_at (AppendCertsFromPEM crt) ca server) (w_clock w2) ->
      EnsureCertificate secret_equal config w2 = (w3, e) ->
      w_secrets w3 = w_secrets w1 /\ w_files w3 = w_files w1 /\ w_random w3 = w_random w2).
Proof.
  intros config Heq Hm Hr. assert (Hn : cfg_rsaKeySize config <> 0%Z) by (cbn; unfold rsaKeySize; lia).
  destruct (EnsureCertificate_in_order secret_equal config w w1 Hn Heq Hm Hr) as (crt & ca & server & Ho).
  exists crt, ca, server. split; [done|]. split; [by apply (own_authority_verifies config _ _ _ _ _ _ Ho)|].
  intros Hroot w2 w3 e Hs Hf Hrd He. rewrite <- Hs, <- Hf.
  exact (EnsureCertificate_keeps secret_equal config _ w w1 w2 crt ca server w3 e Ho Hroot Hs Hf Hrd He).
Qed.

(** ** Two gaps *)

Section Gaps.
Context {R PK SK : Type} `{CertLaws R PK SK} {F : Type} `{FileLaws F}.

(** The serial number is the random number itself: zero is possible, although the
    comment on it says that one is added. *)
Theorem server_serial_is_random n r r1 r' c c' host alt ca cak serial crt key :
  crand_Int r (max_int64 - 1) = (r1, Ok serial) ->
  generateServerCertInternal n r c host alt ca cak = (r', c', Ok (crt, key)) ->
  exists server, parseCertPEM crt = Ok server /\ c_SerialNumber server = serial.
Proof.
  intros Hr. unfold generateServerCertInternal. rewrite Hr. cbn [now].
  destruct (GenerateKey r1 _) as [r2 [k|e]]; [|done].
  destruct (CreateCertificate r2 _ ca (Public k) cak) as [r3 [der|e]] eqn:Hc; [|done].
  destruct (encodeCertPEM der) as [crt'|e] eqn:He; [|done]. destruct (encodeKeyPEM k) as [key'|e]; [|done].
  intros [= <- <- <- <-]. destruct (created_parses _ _ _ _ _ _ _ Hc) as (server & Hp & Hd). exists server.
  rewrite (parse_encoded_cert _ _ He). split; [done|]. apply (d_SerialNumber _ _ _ Hd).
Qed.

(** When the key file cannot be written after the certificate file was, the next run
    accepts the new certificate with the old key: the check reads the certificate only. *)
Theorem mismatched_pair_is_accepted certDir n r c (f f1 f' : F) config ca server crt key oldkey e :
  own_pem (sc_caCertPEM config) ca -> parseCertPEM crt = Ok server -> crt <> "" -> oldkey <> "" ->
  WriteFile f (certFilePath certDir) crt permUserRW = (f1, None) ->
  WriteFile f1 (keyFilePath certDir) key permUserRW = (f', Some e) ->
  ReadFile f (keyFilePath certDir) = Ok oldkey ->
  ReadFile f' (keyFilePath certDir) = ReadFile f1 (keyFilePath certDir) ->
  (forall t, valid_at t server -> valid_at t ca -> exists chain chains, Verify t server [ca] = Ok (chain :: chains)) ->
  readings (fresh_at [ca] ca server) c ->
  exists c', provideServerCert certDir n r c f' config = (r, c', f', Ok (crt, oldkey)).
Proof.
  intros Hown Hp Hc Hk Hw1 Hw2 Hold Hkeep Hv Hr. pose proof (interrupted_save _ _ _ _ _ _ _ _ Hw1 Hw2 Hold Hkeep) as Hl.
  destruct (own_pem_parse _ _ Hown) as [_ Hroots]. unfold provideServerCert. rewrite Hl.
  apply str_eqb_false in Hc as ->, Hk as ->. cbn [orb]. pose proof (readings_next _ _ Hr) as (_ & _ & _ & Ht).
  destruct (checkExpiry_ok duration1d c crt server Hp Ht) as (c1 & Ha & He). unfold checkServerCert. rewrite He. cbn [is_ok_true negb].
  destruct (readings_next _ _ (readings_after _ _ _ Hr Ha)) as (Hca & Hs & _). rewrite Forall_singleton in Hca. destruct (Hv _ Hs Hca) as (chain & chains & Hver).
  rewrite <- Hroots in Hver. destruct (checkRoot_ok c1 crt (sc_caCertPEM config) server chain chains) as (c2 & Ha2 & ->);
    [done|by rewrite Hroots|done|]. by exists c2.
Qed.

End Gaps.

(** ** A toy library and cluster *)

Module SampleCerts.
Import ObjStore.

(** Positive numbers as texts of binary digits. *)
Fixpoint digits (p : positive) : string :=
  match p with xH => "" | xO p => String "0"%char (digits p) | xI p => String "1"%char (digits p) end.
Fixpoint undigits (s : string) : option positive :=
  match s with
  | EmptyString => Some xH
  | String c s => if Ascii.eqb c "0"%char then xO <$> undigits s else if Ascii.eqb c "1"%char then xI <$> undigits s else None
  end.

Lemma undigits_digits p : undigits (digits p) = Some p.
Proof. induction p as [p IH|p IH|]; simpl; by rewrite ?IH. Qed.

Definition write {A} `{Countable A} (a : A) : string := digits (encode a).
Definition read {A} `{Countable A} (s : string) : option A := undigits s ≫= decode.

Lemma read_write {A} `{Countable A} (a : A) : read (write a) = Some a.
Proof. unfold read, write. rewrite undigits_digits. apply decode_encode. Qed.

(** Lists of texts as texts: a dot before each character, a semicolon after each text. *)
Fixpoint text (s rest : string) : string :=
  match s with EmptyString => String ";"%char rest | String c s => String "."%char (String c (text s rest)) end.
Definition texts (l : list string) : string := fold_right text "" l.

Fixpoint untexts (acc : string -> string) (s : string) : option (list string) :=
  match s with
  | EmptyString => Some []
  | String ";"%char s => (fun l => acc "" :: l) <$> untexts (fun t => t) s
  | String "."%char (String c s) => untexts (fun t => acc (String c t)) s
  | _ => None
  end.

Lemma untexts_text acc s rest :
  untexts acc (text s rest) = (fun l => acc s :: l) <$> untexts (fun t => t) rest.
Proof. revert acc. induction s as [|c s IH]; intros acc; [done|]. exact (IH (fun t => acc (String c t))). Qed.

Definition read_texts (s : string) : option (list string) := untexts (fun t => t) s.

Lemma read_texts_texts l : read_texts (texts l) = Some l.
Proof.
  unfold read_texts, texts. induction l as [|x l IH]; [done|]. cbn [fold_right]. by rewrite untexts_text, IH.
Qed.

(** A key is its number and its size; the public key is its number. *)
Definition usage_of (b : bool) : ExtKeyUsage := if b then ExtKeyUsageServerAuth else ExtKeyUsageOther.
Definition is_server_auth (u : ExtKeyUsage) : bool := match u with ExtKeyUsageServerAuth => true | _ => false end.

Definition der_of (t : Certificate nat) (pub signer : nat) : string :=
  texts [write (c_SerialNumber t); texts (c_Organization t); c_CommonName t; write (in_seconds (c_NotBefore t));
         write (in_seconds (c_NotAfter t)); write (c_KeyUsage t); write (is_server_auth <$> c_ExtKeyUsage t);
         write (c_BasicConstraintsValid t); write (c_IsCA t); c_SubjectKeyId t; texts (c_DNSNames t); write pub;
         write signer].

(** The certificate of a text and its signer. *)
Definition parse_text (der : string) : option (Certificate nat * nat) :=
  match read_texts der with
  | Some [serial; org; cn; nb; na; ku; eku; bcv; ca; skid; dns; pub; signer] =>
      serial ← read serial; org ← read_texts org; nb ← read nb; na ← read na; ku ← read ku;
      eku ← read (A := list bool) eku; bcv ← read bcv; ca ← read ca; dns ← read_texts dns; pub ← read pub;
      signer ← read signer;
      Some (mkCertificate der serial org cn nb na ku (usage_of <$> eku) bcv ca SHA256WithRSA RSA skid dns (Some pub), signer)
  | _ => None
  end.

Lemma parse_text_der t pub signer :
  parse_text (der_of t pub signer) =
    Some (mkCertificate (der_of t pub signer) (c_SerialNumber t) (c_Organization t) (c_CommonName t)
            (in_seconds (c_NotBefore t)) (in_seconds (c_NotAfter t)) (c_KeyUsage t)
            (usage_of <$> (is_server_auth <$> c_ExtKeyUsage t)) (c_BasicConstraintsValid t) (c_IsCA t) SHA256WithRSA RSA
            (c_SubjectKeyId t) (c_DNSNames t) (Some pub), signer).
Proof.
  unfold parse_text. unfold der_of at 1. rewrite read_texts_texts.
  by repeat (rewrite ?read_write, ?read_texts_texts; cbn [mbind option_bind]).
Qed.

Lemma parse_text_raw der c k : parse_text der = Some (c, k) -> c_Raw c = der.
Proof.
  unfold parse_text. destruct (read_texts der) as [l|]; [|done].
  do 14 (destruct l as [|? l]; try done). intros Hb.
  repeat match type of Hb with (?o ≫= _) = Some _ => apply bind_Some in Hb as (? & _ & Hb) end. by simplify_eq.
Qed.

Definition parse_der (der : string) : result (Certificate nat) goerror :=
  match parse_text der with Some (c, _) => Ok c | None => Err (NewError "malformed certificate") end.

(** Who signed a certificate. *)
Definition signer_of (c : Certificate nat) : option nat := snd <$> parse_text (c_Raw c).

Definition valid_b (t : Z) (c : Certificate nat) : bool := ((c_NotBefore c <=? t) && (t <=? c_NotAfter c))%Z.
Definition signs (root c : Certificate nat) : bool :=
  match signer_of c, c_PublicKey root with Some a, Some b => (a =? b)%nat | _, _ => false end.

Definition chains_of (t : Z) (c : Certificate nat) (roots : list (Certificate nat)) : list (list (Certificate nat)) :=
  map (fun r => [c; r]) (List.filter (fun r => signs r c && valid_b t c && valid_b t r) roots).

#[export] Instance lib : CertLib nat nat (nat * Z) := {|
  pem_Decode s := match s with
                  | String "P"%char s =>
                      match read_texts s with
                      | Some [ty; hs; b] => (fun hs => (mkBlock ty hs b, "")) <$> read hs
                      | _ => None
                      end
                  | _ => None
                  end;
  pem_Encode b := Ok (String "P"%char (texts [pb_Type b; write (pb_Headers b); pb_Bytes b]));
  Public k := k.1;
  N_BitLen k := k.2;
  GenerateKey r n := (S r, Ok (r, n));
  crand_Int r _ := (S r, Ok (Z.of_nat r));
  MarshalPKCS1PrivateKey k := write k;
  ParsePKCS1PrivateKey s := match read s with Some k => Ok k | None => Err (NewError "malformed key") end;
  MarshalPKIXPublicKey p := Ok (write p);
  Sum256 s := s;
  CreateCertificate r t p pub k :=
    match c_PublicKey p with
    | Some q => if (q =? k.1)%nat then (r, Ok (der_of t pub k.1)) else (r, Err (NewError "key mismatch"))
    | None => (r, Ok (der_of t pub k.1))
    end;
  ParseCertificate := parse_der;
  Verify t c roots := match chains_of t c roots with
                      | [] => Err (NewError "unknown authority")
                      | chains => Ok chains
                      end
|}.

Lemma usage_roundtrip (us : list ExtKeyUsage) : usage_of <$> (is_server_auth <$> us) = us.
Proof. induction us as [|u us IH]; [done|]. rewrite !fmap_cons, IH. by destruct u. Qed.

Lemma created r t p pub k r' der :
  CreateCertificate r t p pub k = (r', Ok der) ->
  der = der_of t pub k.1 /\ (forall q, c_PublicKey p = Some q -> q = k.1).
Proof.
  cbn. destruct (c_PublicKey p) as [q|]; [|by intros [= <- <-]].
  destruct (q =? k.1)%nat eqn:E; intros [= <- <-]. apply Nat.eqb_eq in E. split; [done|]. by intros ? [= <-].
Qed.

Lemma parse_der_raw der c : parse_der der = Ok c -> c_Raw c = der.
Proof.
  unfold parse_der. destruct (parse_text der) as [[c' k]|] eqn:Hp; [|done]. intros <-%Ok_inj. by eapply parse_text_raw.
Qed.

Lemma valid_b_true t c : valid_b t c = true <-> valid_at t c.
Proof. unfold valid_b, valid_at. rewrite andb_true_iff, !Z.leb_le. done. Qed.

Lemma signs_true root c : signs root c = true <-> exists k, signer_of c = Some k /\ c_PublicKey root = Some k.
Proof.
  unfold signs. destruct (signer_of c) as [a|], (c_PublicKey root) as [b|]; rewrite ?Nat.eqb_eq; naive_solver.
Qed.

Lemma chain_in t c roots chain :
  chain ∈ chains_of t c roots <->
  exists root, chain = [c; root] /\ root ∈ roots /\ signs root c = true /\ valid_at t c /\ valid_at t root.
Proof.
  unfold chains_of. rewrite list_elem_of_In, in_map_iff. split.
  - intros (root & <- & [Hr Hb]%filter_In). apply andb_true_iff in Hb as [Hb Hv%valid_b_true].
    apply andb_true_iff in Hb as [Hs Hc%valid_b_true]. apply list_elem_of_In in Hr. by exists root.
  - intros (root & -> & Hr & Hs & Hc & Hv). exists root. split; [done|]. apply filter_In.
    apply list_elem_of_In in Hr. apply valid_b_true in Hc, Hv. by rewrite Hs, Hc, Hv.
Qed.

Lemma verify_chain t c roots root :
  root ∈ roots -> signs root c = true -> valid_at t c -> valid_at t root ->
  exists chain chains, Verify t c roots = Ok (chain :: chains).
Proof.
  intros Hr Hs Hc Ht. assert (Hin : [c; root] ∈ chains_of t c roots) by (apply chain_in; eauto 6).
  cbn. destruct (chains_of t c roots) as [|x xs]; [by apply elem_of_nil in Hin|eauto].
Qed.

Lemma created_signer r t p pub k r' der c :
  CreateCertificate r t p pub k = (r', Ok der) -> ParseCertificate (R := nat) (SK := nat * Z) der = Ok c ->
  signer_of c = Some k.1 /\ (forall q, c_PublicKey p = Some q -> signs p c = true).
Proof.
  intros [-> Hk]%created Hp. assert (Hs : signer_of c = Some k.1).
  { unfold signer_of. by rewrite (parse_der_raw _ _ Hp), parse_text_der. }
  split; [done|]. intros q Hq. apply signs_true. exists k.1. rewrite Hq. split; [done|]. f_equal. by apply Hk.
Qed.

#[export] Instance laws : CertLaws nat nat (nat * Z).
Proof.
  refine {| issued_by c p := signs p c = true |}.
  - done.
  - intros [ty hs b] s. cbn [pem_Encode lib]. intros <-%Ok_inj. cbn [pem_Decode lib].
    by rewrite read_texts_texts, read_write.
  - intros k. cbn [ParsePKCS1PrivateKey MarshalPKCS1PrivateKey lib]. by rewrite read_write.
  - by intros r r' n k [= <- <-].
  - apply parse_der_raw.
  - intros r r' t p pub k der [-> _]%created. eexists.
    split; [cbn [ParseCertificate lib]; unfold parse_der; by rewrite parse_text_der|].
    split; try done. apply usage_roundtrip.
  - intros r r' t p pub k der c Hc Hp Hpub. destruct (c_PublicKey p) as [q|] eqn:Hq; [|done].
    destruct (created_signer _ _ _ _ _ _ _ _ Hc Hp) as [_ Hs]. by apply (Hs q).
  - intros r r' t ca pub k der c roots time (r0 & r1 & from & to & id & k0 & der0 & Hc0 & Hp0) Hc Hp _ Hin Hv Hva.
    apply created in Hc0 as [-> _]. cbn [ParseCertificate lib] in Hp0. unfold parse_der in Hp0.
    rewrite parse_text_der in Hp0. apply Ok_inj in Hp0.
    destruct (created_signer _ _ _ _ _ _ _ _ Hc Hp) as [_ Hs]. eapply verify_chain; [done| |done..].
    apply (Hs k0.1). by rewrite <- Hp0.
  - intros time c roots chains chain. cbn. destruct (chains_of time c roots) as [|x xs] eqn:Hx; [done|].
    intros <-%Ok_inj Hin. rewrite <- Hx in Hin. apply chain_in in Hin as (root & -> & Hr & Hs & Hc & Hv).
    exists [root]. split; [done|]. rewrite Forall_singleton, Forall_cons, Forall_singleton. done.
  - intros time time' c roots chain chains. cbn [Verify lib]. destruct (chains_of time c roots) as [|x xs] eqn:Hx; [done|].
    intros [= -> ->] Hv. assert (Hin : chain ∈ chains_of time c roots) by (rewrite Hx; by left).
    apply chain_in in Hin as (root & -> & Hr & Hs & _). rewrite Forall_cons, Forall_singleton in Hv. destruct Hv.
    by eapply verify_chain.
Qed.

(** Files by path. *)
#[export] Instance files : Files (gmap string string) := {|
  ReadFile f p := match f !! p with Some d => Ok d | None => Err (NewError "no such file") end;
  WriteFile f p d _ := (<[p := d]> f, None)
|}.

#[export] Instance file_laws : FileLaws (gmap string string).
Proof.
  split; cbn.
  - intros f f' p d m [= <-]. by rewrite lookup_insert_eq.
  - intros f f' p d m q e [= <- _] Hq. by rewrite lookup_insert_ne.
Qed.

#[export] Instance store_frame {S} : ObjectFrame (ObjStore.store S) S.
Proof.
  intros w w' o e k. cbn. unfold ObjStore.find at 1. destruct (List.find _ _); intros [= <- _] Hk; [|done].
  cbn. unfold ObjStore.find. cbn. by rewrite bool_decide_eq_false_2 by done.
Qed.

Definition opts : ConfigOptions :=
  mkConfigOptions "/tmp/certs" (mkNN "kyma-system" "telemetry-manager-webhook") (mkNN "kyma-system" "telemetry-webhook-cert")
    (mkNN "" "telemetry-validating-webhook.kyma-project.io") (mkNN "" "telemetry-mutating-webhook.kyma-project.io").

Definition stored {S} (l : list (NamespacedName * S)) : ObjStore.store S :=
  let os := (fun x => mkObject (mkFullMeta x.1 "1" None None []) x.2) <$> l in ObjStore.mkStore os os.

Definition sample_world : Type :=
  world nat (gmap string string) (store CASecret) (store (list (webhook unit))) (store (list (webhook unit)))
    (store (CRD unit)).

(** A new cluster: no Secret and no files. *)
Definition cluster : sample_world :=
  mkWorld 1%nat (mkClock (fun i => (1000000 * hour + Z.of_nat i * second)%Z) 0) ∅ (stored [])
    (stored [(co_ValidatingWebhookName opts, [mkWebhook "" tt; mkWebhook "old" tt])])
    (stored [(co_MutatingWebhookName opts, [mkWebhook "" tt])])
    (stored [(mkNN "" LogPipelineCRD, mkCRD None tt); (mkNN "" MetricPipelineCRD, mkCRD None tt)]).

Definition never_equal (a b : object CASecret) : bool := false.

End SampleCerts.
Import ObjStore SampleCerts.

Lemma without_error {A E} (x : A * option E) : x.2 = None -> x = (x.1, None).
Proof. destruct x. cbn. by intros ->. Qed.

Lemma cluster_monotone : monotone (w_clock cluster).
Proof. intros i j _ Hj. cbn. unfold second, nanosecond. lia. Qed.

(** The first run makes both certificates, the second one keeps them. *)
Example two_runs :
  let run := EnsureCertificate never_equal (NewWebhookCertConfig opts) in
  let w1 := run cluster in
  let w2 := run w1.1 in
  let data w := (fun o => cs_Data (ob_Content o)) <$> st_live (w_secrets w) in
  bool_decide (w1.2 = None) && bool_decide (w2.2 = None) && bool_decide (w_random w2.1 = w_random w1.1)
  && bool_decide (w_files w2.1 = w_files w1.1) && bool_decide (data w2.1 = data w1.1) = true.
Proof. vm_compute. reflexivity. Qed.

Lemma webhook_certificates_maintained_witness :
  let config := NewWebhookCertConfig opts in
  let w1 := (EnsureCertificate never_equal config cluster).1 in
  exists crt ca server, certificates_in_order config (next (w_clock cluster)) cluster w1 crt ca server /\
    own_pem crt ca /\
    forall (w2 w3 : sample_world) e, w_secrets w2 = w_secrets w1 -> w_files w2 = w_files w1 ->
      readings (fresh_at (AppendCertsFromPEM crt) ca server) (w_clock w2) ->
      EnsureCertificate never_equal config w2 = (w3, e) ->
      w_secrets w3 = w_secrets w1 /\ w_files w3 = w_files w1 /\ w_random w3 = w_random w2.
Proof.
  destruct (webhook_certificates_maintained never_equal opts cluster
              (EnsureCertificate never_equal (NewWebhookCertConfig opts) cluster).1) as (crt & ca & server & Ho & Hv & Hk).
  - by intros a b.
  - apply cluster_monotone.
  - apply without_error. vm_compute. reflexivity.
  - exists crt, ca, server. split; [exact Ho|].
    assert (Hown : own_pem crt ca).
    { destruct Ho as (key & Hh & _ & [Hs|Hown] & _); [|exact Hown]. rewrite Hs in Hh. by destruct Hh as (x & Hx & _). }
    split; [exact Hown|]. exact (Hk (Hv Hown)).
Defined.
