(* ===== verification/SelfMonitorRules.v ===== *)
(** * The self monitor's configuration (internal/selfmonitor/config)

    The Prometheus configuration (config.go, config_builder.go), the alert rules
    (rules.go, otelcol_rule_builder.go, fluent_bit_rule_builder.go) and the builder of
    their expressions (expr_builder.go). The YAML tags are left out. Evaluation of the
    expressions belongs to Prometheus: it is an argument of the theorems, which relate
    what the probers of [SelfMonitor] report to the samples the rules are about. *)
From Stdlib Require Import Ascii String.
From stdpp Require Import base gmap strings list pretty.
From S2P Require Import Prelude Kube GoErrors Regex ApiV1beta1 Coordination CollectorBuilder SelfMonitor.
Local Open Scope string_scope.

(** ** The configuration *)

Inductive RelabelAction := Keep | Drop | Replace | LabelDrop.

Record RelabelConfig := mkRelabel {
  rl_SourceLabels : list string; rl_Separator : string; rl_Regex : string; rl_Modulus : Z;
  rl_TargetLabel : string; rl_Replacement : string; rl_Action : RelabelAction
}.
Record GlobalConfig := mkGlobalConfig { gc_ScraperInterval : Z; gc_EvaluationInterval : Z }.
Record TLSConfig := mkTLSConfig { tls_InsecureSkipVerify : bool }.
Record AlertManagerStaticConfig := mkStaticConfig { am_Targets : list string }.
Record AlertManagerConfig := mkAlertManager {
  am_Scheme : string; am_PathPrefix : string; am_StaticConfigs : list AlertManagerStaticConfig; am_TLSConfig : TLSConfig }.
Record AlertingConfig := mkAlerting { ac_AlertManagers : list AlertManagerConfig }.
Record Names := mkNames { ns_Name : list string }.
Definition RoleEndpoints : string := "endpoints".
Record KubernetesDiscoveryConfig := mkDiscovery { kd_Role : string; kd_Namespaces : Names }.
Record ScrapeConfig := mkScrape {
  sc_JobName : string; sc_SampleLimit : Z; sc_ScrapeInterval : Z; sc_MetricsPath : string;
  sc_RelabelConfigs : list RelabelConfig; sc_MetricRelabelConfigs : list RelabelConfig;
  sc_KubernetesDiscoveryConfigs : list KubernetesDiscoveryConfig
}.
Record Config := mkConfig {
  pc_GlobalConfig : GlobalConfig; pc_AlertingConfig : AlertingConfig; pc_RuleFiles : list string;
  pc_ScrapeConfigs : list ScrapeConfig }.

Definition defaultInterval : Z := (30 * second)%Z.

Record BuilderConfig := mkBuilderConfig {
  bc_ScrapeNamespace : string; bc_AlertmanagerWebhookURL : string; bc_ConfigPath : string; bc_AlertRuleFileName : string }.

Definition makeGlobalConfig : GlobalConfig := mkGlobalConfig defaultInterval defaultInterval.

Definition makeAlertConfig (webhookURL : string) : AlertingConfig :=
  mkAlerting [mkAlertManager "https" "" [mkStaticConfig [webhookURL]] (mkTLSConfig true)].

(** Names of the metrics (fluent_bit_rule_builder.go, otelcol_rule_builder.go). *)
Definition fluentBitOutputProcBytesTotal : string := "fluentbit_output_proc_bytes_total".
Definition fluentBitInputBytesTotal : string := "fluentbit_input_bytes_total".
Definition fluentBitOutputDroppedRecordsTotal : string := "fluentbit_output_dropped_records_total".
Definition fluentBitInputStorageChunksDown : string := "fluentbit_input_storage_chunks_down".
Definition inputStorageChunksDown300Chunks : Z := 300.
Definition otelExporterSent : string := "otelcol_exporter_sent".
Definition otelExporterSendFailed : string := "otelcol_exporter_send_failed".
Definition otelExporterEnqueueFailed : string := "otelcol_exporter_enqueue_failed".
Definition otelReceiverRefused : string := "otelcol_receiver_refused".

Definition otelCollectorMetrics : list string :=
  map (fun m => m +:+ "_.*") [otelExporterSent; otelExporterSendFailed; otelExporterEnqueueFailed; otelReceiverRefused].

Definition scrapableMetricsRegex : string :=
  let fluentBitMetrics :=
    [fluentBitOutputProcBytesTotal; fluentBitOutputDroppedRecordsTotal; fluentBitInputBytesTotal;
     fluentBitInputStorageChunksDown] in
  String.concat "|" (fluentBitMetrics ++ otelCollectorMetrics).

(** The fields that are set; the others have their zero value. *)
Definition keep (source regex : string) : RelabelConfig := mkRelabel [source] "" regex 0 "" "" Keep.
Definition replace (sources : list string) (target regex replacement : string) : RelabelConfig :=
  mkRelabel sources "" regex 0 target replacement Replace.

Definition backslash : string := String (ascii_of_nat 92) "".

Definition makeScrapeConfig (scrapeNamespace : string) : list ScrapeConfig :=
  [mkScrape "kubernetes-service-endpoints" 0 0 ""
     [keep "__meta_kubernetes_namespace" scrapeNamespace;
      keep "__meta_kubernetes_service_annotation_prometheus_io_scrape" "true";
      keep "__meta_kubernetes_endpoints_label_telemetry_kyma_project_io_self_monitor" "enabled";
      replace ["__meta_kubernetes_service_annotation_prometheus_io_path"] "__metrics_path__" "(.+)" "";
      replace ["__address__"; "__meta_kubernetes_service_annotation_prometheus_io_port"] "__address__"
        ("(.+?)(?::" +:+ backslash +:+ "d+)?;(" +:+ backslash +:+ "d+)") "$1:$2";
      replace ["__meta_kubernetes_namespace"] "namespace" "" "";
      replace ["__meta_kubernetes_service_name"] "service" "" "";
      replace ["__meta_kubernetes_pod_node_name"] "node" "" ""]
     [keep "__name__" scrapableMetricsRegex;
      replace ["__name__"; "name"] "pipeline_name" "fluentbit_.+;([a-zA-Z0-9-]+)" "";
      replace ["__name__"; "name"] "pipeline_type" "fluentbit_.+;([a-zA-Z0-9-]+)" "logpipeline";
      replace ["__name__"; "exporter"] "pipeline_name"
        "otelcol_.+;.+/(?:(?:metric|trace|log)pipeline-)?([a-zA-Z0-9-]+)" "";
      replace ["__name__"; "exporter"] "pipeline_type" "otelcol_.+;.+/((metric|trace|log)pipeline)-.+" "$1"]
     [mkDiscovery RoleEndpoints (mkNames [scrapeNamespace])]].

Definition MakeConfig (builderCfg : BuilderConfig) : Config :=
  mkConfig makeGlobalConfig (makeAlertConfig (bc_AlertmanagerWebhookURL builderCfg))
    [bc_ConfigPath builderCfg +:+ bc_AlertRuleFileName builderCfg] (makeScrapeConfig (bc_ScrapeNamespace builderCfg)).

(** ** Expressions *)

Definition dquote : string := String (ascii_of_nat 34) "".
Definition labelService : string := "service".
Definition labelReceiver : string := "receiver".
Definition defaultRateDuration : string := "5m".

Definition labelSelector : Type := string -> string.

Definition selectService (serviceName : string) : labelSelector := fun metric =>
  metric +:+ "{" +:+ labelService +:+ "=" +:+ dquote +:+ serviceName +:+ dquote +:+ "}".

(** An [exprBuilder] is its text. *)
Definition instant (metric : string) (selectors : list labelSelector) : string := fold_left (fun m s => s m) selectors metric.
Definition rate (metric : string) (selectors : list labelSelector) : string :=
  "rate(" +:+ fold_left (fun m s => s m) selectors metric +:+ "[" +:+ defaultRateDuration +:+ "])".

Definition sumBy (labels : list string) (eb : string) : string :=
  "sum by (" +:+ String.concat "," labels +:+ ") (" +:+ eb +:+ ")".
Definition maxBy (labels : list string) (eb : string) : string :=
  "max by (" +:+ String.concat "," labels +:+ ") (" +:+ eb +:+ ")".

(** [strconv.FormatFloat(value, 'f', -1, 64)] of a whole number. *)
Definition greaterThan (value : Z) (eb : string) : string := eb +:+ " > " +:+ pretty value.
Definition equal (value : Z) (eb : string) : string := eb +:+ " == " +:+ pretty value.

Definition wrapInParentheses (input : list string) : list string := map (fun s => "(" +:+ s +:+ ")") input.
Definition expr_and (exprs : list string) : string := String.concat " and " (wrapInParentheses exprs).
Definition expr_or (exprs : list string) : string := String.concat " or " (wrapInParentheses exprs).
Definition unless (exprs : list string) : string := String.concat " unless " (wrapInParentheses exprs).

(** ** Rules *)

Record Rule := mkRule {
  ru_Alert : string; ru_Expr : string; ru_For : Z; ru_Labels : option (gmap string string);
  ru_Annotations : option (gmap string string) }.
Record RuleGroup := mkRuleGroup { rg_Name : string; rg_Rules : list Rule }.
Record RuleGroups := mkRuleGroups { rgs_Groups : list RuleGroup }.

Definition alertWaitTime : Z := (60 * second)%Z.

Definition ruleDataType (t : pipelineType) : string :=
  let dataTypeSuffix :=
    match t with
    | typeMetricPipeline => "metric_points"
    | typeTracePipeline => "spans"
    | typeLogPipeline => "log_records"
    end in
  dataTypeSuffix +:+ "_total".

Record otelCollectorRuleBuilder := mkOtelRules { rb_serviceName : string; rb_dataType : string; rb_namePrefix : string }.

Section OtelRules.
Context (rb : otelCollectorRuleBuilder).

Definition appendDataType (baseMetricName : string) : string := baseMetricName +:+ "_" +:+ rb_dataType rb.

Definition rate_above_zero (baseMetricName label : string) : string :=
  greaterThan 0 (sumBy [label] (rate (appendDataType baseMetricName) [selectService (rb_serviceName rb)])).

Definition exporterSentExpr : string := rate_above_zero otelExporterSent labelPipelineName.
Definition exporterDroppedExpr : string := rate_above_zero otelExporterSendFailed labelPipelineName.
Definition exporterEnqueueFailedExpr : string := rate_above_zero otelExporterEnqueueFailed labelPipelineName.
Definition throttlingExpr : string := rate_above_zero otelReceiverRefused labelReceiver.

Definition allDataDroppedExpr : string :=
  unless [expr_or [exporterEnqueueFailedExpr; exporterDroppedExpr]; exporterSentExpr].
Definition someDataDroppedExpr : string :=
  expr_and [expr_or [exporterEnqueueFailedExpr; exporterDroppedExpr]; exporterSentExpr].

Definition makeRule (baseName expr : string) : Rule := mkRule (rb_namePrefix rb +:+ baseName) expr alertWaitTime None None.

Definition gatewayRules : list Rule :=
  [makeRule RuleNameGatewayAllDataDropped allDataDroppedExpr;
   makeRule RuleNameGatewaySomeDataDropped someDataDroppedExpr;
   makeRule RuleNameGatewayThrottling throttlingExpr].

Definition agentRules : list Rule :=
  [makeRule RuleNameAgentAllDataDropped allDataDroppedExpr;
   makeRule RuleNameAgentSomeDataDropped someDataDroppedExpr].

End OtelRules.

(** The methods of [fluentBitRuleBuilder]. *)
Definition FluentBitMetricsService : string := "telemetry-fluent-bit-metrics".

Definition fluentBit_exporterDroppedExpr : string :=
  greaterThan 0 (sumBy [labelPipelineName]
    (rate fluentBitOutputDroppedRecordsTotal [selectService FluentBitMetricsService])).
Definition fluentBit_exporterSentExpr : string :=
  greaterThan 0 (sumBy [labelPipelineName] (rate fluentBitOutputProcBytesTotal [selectService FluentBitMetricsService])).
Definition fluentBit_allDataDroppedExpr : string := unless [fluentBit_exporterDroppedExpr; fluentBit_exporterSentExpr].
Definition fluentBit_someDataDroppedExpr : string := expr_and [fluentBit_exporterDroppedExpr; fluentBit_exporterSentExpr].
Definition fluentBit_bufferInUseExpr : string :=
  greaterThan inputStorageChunksDown300Chunks
    (maxBy [labelPipelineName] (instant fluentBitInputStorageChunksDown [selectService FluentBitMetricsService])).
Definition fluentBit_noLogsDeliveredExpr : string :=
  let receiverReadExpr :=
    greaterThan 0 (sumBy [labelPipelineName] (rate fluentBitInputBytesTotal [selectService FluentBitMetricsService])) in
  let exporterNotSentExpr :=
    equal 0 (sumBy [labelPipelineName] (rate fluentBitOutputProcBytesTotal [selectService FluentBitMetricsService])) in
  expr_and [receiverReadExpr; exporterNotSentExpr].

Definition fluentBit_makeRule (baseName expr : string) : Rule :=
  mkRule (ruleNamePrefix typeLogPipeline +:+ baseName) expr alertWaitTime None None.

Definition fluentBit_rules : list Rule :=
  [fluentBit_makeRule RuleNameLogFluentBitAllDataDropped fluentBit_allDataDroppedExpr;
   fluentBit_makeRule RuleNameLogFluentBitSomeDataDropped fluentBit_someDataDroppedExpr;
   fluentBit_makeRule RuleNameLogFluentBitBufferInUse fluentBit_bufferInUseExpr;
   fluentBit_makeRule RuleNameLogFluentBitNoLogsDelivered fluentBit_noLogsDeliveredExpr].

Definition OTLPGatewayMetricsService : string := "telemetry-otlp-gateway-metrics".
Definition MetricAgentMetricsService : string := "telemetry-metric-agent-metrics".
Definition LogAgentMetricsService : string := "telemetry-log-agent-metrics".

Definition rule_builder (serviceName : string) (t : pipelineType) : otelCollectorRuleBuilder :=
  mkOtelRules serviceName (ruleDataType t) (ruleNamePrefix t).

Definition MakeRules : RuleGroups :=
  mkRuleGroups [mkRuleGroup "default"
    (gatewayRules (rule_builder OTLPGatewayMetricsService typeMetricPipeline)
     ++ agentRules (rule_builder MetricAgentMetricsService typeMetricPipeline)
     ++ gatewayRules (rule_builder OTLPGatewayMetricsService typeTracePipeline)
     ++ gatewayRules (rule_builder OTLPGatewayMetricsService typeLogPipeline)
     ++ agentRules (rule_builder LogAgentMetricsService typeLogPipeline)
     ++ fluentBit_rules)%list].

(** ** What the expressions mean

    A series has a metric, labels, the rate of its increase over the last five minutes
    and its last value. *)

Record series := mkSeries { se_metric : string; se_labels : labels; se_rate : Z; se_value : Z }.

(** The queries that the builder writes. *)
Inductive query :=
| QRate (metric service : string)
| QInstant (metric service : string)
| QSumBy (label : string) (q : query)
| QMaxBy (label : string) (q : query)
| QGreater (value : Z) (q : query)
| QEqual (value : Z) (q : query)
| QAnd (a b : query)
| QOr (a b : query)
| QUnless (a b : query).

Fixpoint query_text (q : query) : string :=
  match q with
  | QRate m s => rate m [selectService s]
  | QInstant m s => instant m [selectService s]
  | QSumBy l q => sumBy [l] (query_text q)
  | QMaxBy l q => maxBy [l] (query_text q)
  | QGreater v q => greaterThan v (query_text q)
  | QEqual v q => equal v (query_text q)
  | QAnd a b => expr_and [query_text a; query_text b]
  | QOr a b => expr_or [query_text a; query_text b]
  | QUnless a b => unless [query_text a; query_text b]
  end.

Abbreviation vector := (list (labels * Z)).

Definition of_service (ss : list series) (metric service : string) : list series :=
  List.filter (fun s => str_eqb (se_metric s) metric && bool_decide (se_labels s !! labelService = Some service)) ss.

Definition label_group (l : string) (k : option string) : labels := match k with Some v => {[l := v]} | None => ∅ end.
Definition in_group (l : string) (k : option string) (v : vector) : list Z :=
  snd <$> List.filter (fun x => bool_decide (x.1 !! l = k)) v.
Definition aggregate (agg : list Z -> Z) (l : string) (v : vector) : vector :=
  (fun k => (label_group l k, agg (in_group l k v))) <$> remove_dups ((fun x => x.1 !! l) <$> v).

Definition sum (l : list Z) : Z := fold_right Z.add 0%Z l.
Definition maximum (l : list Z) : Z := match l with [] => 0%Z | x :: l => fold_right Z.max x l end.

Definition has_labels (v : vector) (x : labels * Z) : bool := existsb (fun y => bool_decide (y.1 = x.1)) v.

(** The documented meaning of the operators: an aggregation by a label has one element
    per value of the label, a comparison filters, and the set operators compare label
    sets. *)
Fixpoint meaning (ss : list series) (q : query) : vector :=
  match q with
  | QRate m s => (fun x => (se_labels x, se_rate x)) <$> of_service ss m s
  | QInstant m s => (fun x => (se_labels x, se_value x)) <$> of_service ss m s
  | QSumBy l q => aggregate sum l (meaning ss q)
  | QMaxBy l q => aggregate maximum l (meaning ss q)
  | QGreater v q => List.filter (fun x => (v <? x.2)%Z) (meaning ss q)
  | QEqual v q => List.filter (fun x => (x.2 =? v)%Z) (meaning ss q)
  | QAnd a b => List.filter (has_labels (meaning ss b)) (meaning ss a)
  | QOr a b => (meaning ss a ++ List.filter (fun x => negb (has_labels (meaning ss a) x)) (meaning ss b))%list
  | QUnless a b => List.filter (fun x => negb (has_labels (meaning ss b) x)) (meaning ss a)
  end.

(** ** The queries of the rules *)

Definition above_zero (metric service label : string) : query := QGreater 0 (QSumBy label (QRate metric service)).

Definition otel_metric (base : string) (t : pipelineType) : string := base +:+ "_" +:+ ruleDataType t.
Definition q_sent (service : string) (t : pipelineType) : query :=
  above_zero (otel_metric otelExporterSent t) service labelPipelineName.
Definition q_dropped (service : string) (t : pipelineType) : query :=
  QOr (above_zero (otel_metric otelExporterEnqueueFailed t) service labelPipelineName)
      (above_zero (otel_metric otelExporterSendFailed t) service labelPipelineName).
Definition q_refused (service : string) (t : pipelineType) : query :=
  above_zero (otel_metric otelReceiverRefused t) service labelReceiver.

Definition fb_above_zero (metric : string) : query := above_zero metric FluentBitMetricsService labelPipelineName.
Definition fb_queries : list query :=
  [QUnless (fb_above_zero fluentBitOutputDroppedRecordsTotal) (fb_above_zero fluentBitOutputProcBytesTotal);
   QAnd (fb_above_zero fluentBitOutputDroppedRecordsTotal) (fb_above_zero fluentBitOutputProcBytesTotal);
   QGreater inputStorageChunksDown300Chunks
     (QMaxBy labelPipelineName (QInstant fluentBitInputStorageChunksDown FluentBitMetricsService));
   QAnd (fb_above_zero fluentBitInputBytesTotal)
     (QEqual 0 (QSumBy labelPipelineName (QRate fluentBitOutputProcBytesTotal FluentBitMetricsService)))].

Definition all_rules : list Rule := rgs_Groups MakeRules ≫= rg_Rules.

Lemma alert_names_distinct : NoDup (ru_Alert <$> all_rules).
Proof. apply (bool_decide_unpack _). vm_compute. exact I. Qed.

Lemma NoDup_fmap_inj {A B} (f : A -> B) (l : list A) x y : NoDup (f <$> l) -> x ∈ l -> y ∈ l -> f x = f y -> x = y.
Proof.
  induction l as [|a l IH]; [intros _ Hx; by apply elem_of_nil in Hx|]. rewrite fmap_cons, NoDup_cons, !elem_of_cons.
  intros [Hn Hd] [->|Hx] [->|Hy] Hf; [done| | |by apply IH]; destruct Hn; [rewrite Hf|rewrite <- Hf]; by apply list_elem_of_fmap_2.
Qed.

(** ** The alerts of Prometheus *)

Section Prometheus.
Context (prometheus : string -> vector) (ss : list series).

(** The answer of Prometheus: the alerts that are still pending, whatever they are, and those whose expression has had
    an element for their waiting time, which fire. *)
Definition active_alerts (pending : list labels) : list Alert :=
  ((fun l => mkAlert l false) <$> pending) ++ all_rules ≫= (fun r => (fun x => mkAlert (<[AlertNameLabel := ru_Alert r]> x.1) true) <$> prometheus (ru_Expr r)).

(** An element that concerns the pipeline. *)
Definition concerns (n : string) (l : labels) : Prop :=
  l !! labelPipelineType = None /\ (l !! labelPipelineName = None \/ l !! labelPipelineName = Some n).

Lemma matchesRule_exact t base n (l : labels) alert :
  base <> RulesAny -> l !! labelPipelineType = None ->
  matchesRule (<[AlertNameLabel := alert]> l) base n t = true <->
  alert = ruleNamePrefix t +:+ base /\ (l !! labelPipelineName = None \/ l !! labelPipelineName = Some n).
Proof.
  intros Hb Hty. unfold matchesRule, matchesRuleName. rewrite lookup_insert_eq, !lookup_insert_ne by done.
  apply str_eqb_false in Hb as Hb'. rewrite Hb', Hty. cbn [negb andb].
  destruct (str_eqb alert (ruleNamePrefix t +:+ base)) eqn:Ha.
  - apply str_eqb_true in Ha as ->. assert (Hp : HasPrefix (ruleNamePrefix t +:+ base) (ruleNamePrefix t) = true)
      by (destruct t; cbn; by destruct base).
    rewrite Hp. cbn. destruct (l !! labelPipelineName) as [m|]; [|naive_solver]. rewrite str_eqb_true. naive_solver.
  - apply str_eqb_false in Ha. cbn. destruct (HasPrefix alert (ruleNamePrefix t)); naive_solver.
Qed.

(** An alert of a rule fires for a pipeline exactly when an element of its expression
    concerns it. *)
Lemma firing_exact pending t base n r :
  r ∈ all_rules -> ru_Alert r = ruleNamePrefix t +:+ base -> base <> RulesAny ->
  (forall r' x, r' ∈ all_rules -> x ∈ prometheus (ru_Expr r') -> x.1 !! labelPipelineType = None) ->
  isFiringWithMatcher (active_alerts pending) base n (fun l b n => matchesRule l b n t) = true <->
  exists x, x ∈ prometheus (ru_Expr r) /\ concerns n x.1.
Proof.
  intros Hr Ha Hb Hty. rewrite isFiring_spec. unfold active_alerts. split.
  - intros (a & Hin & Hf & Hm). apply elem_of_app in Hin as [(l & -> & _)%list_elem_of_fmap|Hin]; [done|].
    apply list_elem_of_bind in Hin as (r' & Hx & Hr').
    apply list_elem_of_fmap in Hx as (x & -> & Hx). cbn in Hm. pose proof (Hty _ _ Hr' Hx) as Ht.
    apply matchesRule_exact in Hm as [He Hn]; [|done..]. exists x. split; [|done].
    by rewrite (NoDup_fmap_inj ru_Alert all_rules r r' alert_names_distinct Hr Hr') by congruence.
  - intros (x & Hx & Ht & Hn). exists (mkAlert (<[AlertNameLabel := ru_Alert r]> x.1) true). split_and!; [|done|].
    + apply elem_of_app. right. apply list_elem_of_bind. exists r. split; [|done]. apply list_elem_of_fmap. by exists x.
    + apply matchesRule_exact; [done..|]. done.
Qed.

End Prometheus.

(** ** Label sets of the results *)

Section Labels.
Context (ss : list series).

(** The expression has an element with these labels. *)
Definition yields (q : query) (l : labels) : Prop := exists v, (l, v) ∈ meaning ss q.

Lemma has_labels_spec v x : has_labels v x = true <-> exists y, (x.1, y) ∈ v.
Proof.
  unfold has_labels. rewrite existsb_exists. split.
  - intros ([l y] & Hin & He%bool_decide_eq_true). cbn in He. subst l. exists y. by apply list_elem_of_In.
  - intros [y Hy]. exists (x.1, y). split; [by apply list_elem_of_In|by apply bool_decide_eq_true].
Qed.

Lemma in_filter {A} (P : A -> bool) (x : A) l : x ∈ List.filter P l <-> x ∈ l /\ P x = true.
Proof. by rewrite !list_elem_of_In, filter_In. Qed.

Lemma yields_and a b l : yields (QAnd a b) l <-> yields a l /\ yields b l.
Proof.
  unfold yields. cbn [meaning]. split.
  - intros [v Hv]. apply in_filter in Hv as [Hv Hb%has_labels_spec]. eauto.
  - intros [[v Hv] Hb]. exists v. apply in_filter. split; [done|]. by apply has_labels_spec.
Qed.

Lemma yields_unless a b l : yields (QUnless a b) l <-> yields a l /\ ~ yields b l.
Proof.
  unfold yields. cbn [meaning]. split.
  - intros [v Hv]. apply in_filter in Hv as [Hv Hb%negb_true_iff]. split; [eauto|]. intros Hy.
    apply (has_labels_spec _ (l, v)) in Hy. congruence.
  - intros [[v Hv] Hb]. exists v. apply in_filter. split; [done|]. apply negb_true_iff.
    destruct (has_labels (meaning ss b) (l, v)) eqn:E; [|done]. apply has_labels_spec in E. by destruct Hb.
Qed.

Lemma yields_or a b l : yields (QOr a b) l <-> yields a l \/ yields b l.
Proof.
  unfold yields. cbn [meaning]. setoid_rewrite elem_of_app. setoid_rewrite in_filter. split; [naive_solver|].
  intros [[v Hv]|[v Hv]]; [by exists v; left|].
  destruct (has_labels (meaning ss a) (l, v)) eqn:E.
  - apply has_labels_spec in E as [y Hy]. exists y. by left.
  - exists v. right. by rewrite E.
Qed.

Lemma group_key l k (v : vector) : k ∈ ((fun x : labels * Z => x.1 !! l) <$> v) <-> in_group l k v <> [].
Proof.
  unfold in_group. induction v as [|x v IH]; [cbn; rewrite elem_of_nil; naive_solver|].
  rewrite fmap_cons, elem_of_cons, IH. cbn. case_bool_decide; cbn; [|naive_solver]. split; [done|]. by left.
Qed.

(** One element per group that satisfies the condition. *)
Lemma aggregate_filtered agg l v P L :
  (exists x, (L, x) ∈ List.filter P (aggregate agg l v)) <->
  exists k, L = label_group l k /\ in_group l k v <> [] /\ P (L, agg (in_group l k v)) = true.
Proof.
  unfold aggregate. split.
  - intros [x Hx]. apply in_filter in Hx as [Hx HP]. apply list_elem_of_fmap in Hx as (k & [= -> ->] & Hk).
    exists k. by rewrite elem_of_remove_dups, group_key in Hk.
  - intros (k & -> & Hk & HP). exists (agg (in_group l k v)). apply in_filter. split; [|done].
    apply list_elem_of_fmap. exists k. split; [done|]. by rewrite elem_of_remove_dups, group_key.
Qed.

(** The series of a metric, a service and a value of a label. *)
Definition group_of (metric service l : string) (k : option string) : list series :=
  List.filter (fun s => bool_decide (se_labels s !! l = k)) (of_service ss metric service).

Lemma in_group_map (f : series -> Z) l k xs :
  in_group l k ((fun x => (se_labels x, f x)) <$> xs) = f <$> List.filter (fun s => bool_decide (se_labels s !! l = k)) xs.
Proof.
  unfold in_group. induction xs as [|x xs IH]; [done|]. cbn. case_bool_decide; cbn; by rewrite IH.
Qed.

Definition total (metric service l : string) (k : option string) : Z := sum (se_rate <$> group_of metric service l k).

Lemma yields_above_zero m s l L :
  yields (above_zero m s l) L <-> exists k, L = label_group l k /\ (0 < total m s l k)%Z.
Proof.
  unfold yields, above_zero. cbn [meaning]. rewrite aggregate_filtered. setoid_rewrite in_group_map.
  setoid_rewrite Z.ltb_lt. cbn [snd]. unfold total, group_of. split; [naive_solver|].
  intros (k & -> & Hk). exists k. split_and!; [done| |done]. intros He. by rewrite He in Hk.
Qed.

Lemma label_group_inj l : Inj (=) (=) (label_group l).
Proof.
  intros [a|] [b|] He; cbn in He; [|exfalso|exfalso|done].
  - f_equal. assert (Hl : ({[l := a]} : labels) !! l = ({[l := b]} : labels) !! l) by by rewrite He.
    rewrite !lookup_singleton_eq in Hl. by injection Hl.
  - assert (Hl : ({[l := a]} : labels) !! l = (∅ : labels) !! l) by by rewrite He.
    by rewrite lookup_singleton_eq in Hl.
  - assert (Hl : ({[l := b]} : labels) !! l = (∅ : labels) !! l) by by rewrite <- He.
    by rewrite lookup_singleton_eq in Hl.
Qed.

Lemma concerns_pipeline n k : concerns n (label_group labelPipelineName k) <-> k = None \/ k = Some n.
Proof.
  unfold concerns. destruct k as [m|]; cbn [label_group]; [|rewrite !lookup_empty; naive_solver].
  rewrite lookup_singleton_eq, lookup_singleton_ne by done. naive_solver.
Qed.

Lemma concerns_receiver n k : concerns n (label_group labelReceiver k).
Proof. unfold concerns. destruct k as [m|]; cbn [label_group]; [|rewrite !lookup_empty; auto]. rewrite !lookup_singleton_ne by done. auto. Qed.

(** ** What a pipeline's series say *)

(** Every series but those of receivers names a pipeline. *)
Definition pipelines_named : Prop :=
  forall x, x ∈ ss -> HasPrefix (se_metric x) otelReceiverRefused = false -> se_labels x !! labelPipelineName <> None.

Definition rates_nonnegative : Prop := forall x, x ∈ ss -> (0 <= se_rate x)%Z.

Lemma unnamed_group_empty m s :
  pipelines_named -> HasPrefix m otelReceiverRefused = false -> group_of m s labelPipelineName None = [].
Proof.
  intros Hn Hm. destruct (group_of m s labelPipelineName None) as [|x xs] eqn:E; [done|].
  assert (Hx : x ∈ group_of m s labelPipelineName None) by (rewrite E; by left). unfold group_of, of_service in Hx.
  apply in_filter in Hx as [Hx Hl%bool_decide_eq_true]. apply in_filter in Hx as [Hx He].
  apply andb_true_iff in He as [He%str_eqb_true _]. by destruct (Hn x Hx); [rewrite He|].
Qed.

Definition rate_of (metric service n : string) : Z := total metric service labelPipelineName (Some n).
Definition sending (service : string) (t : pipelineType) (n : string) : bool :=
  (0 <? rate_of (otel_metric otelExporterSent t) service n)%Z.
Definition dropping (service : string) (t : pipelineType) (n : string) : bool :=
  ((0 <? rate_of (otel_metric otelExporterEnqueueFailed t) service n)
   || (0 <? rate_of (otel_metric otelExporterSendFailed t) service n))%Z.
Definition refusing (service : string) (t : pipelineType) : bool :=
  existsb (fun x => 0 <? se_rate x)%Z (of_service ss (otel_metric otelReceiverRefused t) service).

(** The pipelines of an expression over named series. *)
Definition by_pipeline (q : query) (P : string -> bool) : Prop :=
  forall L, yields q L <-> exists n, L = {[labelPipelineName := n]} /\ P n = true.

Lemma above_zero_by_pipeline m s :
  pipelines_named -> HasPrefix m otelReceiverRefused = false ->
  by_pipeline (above_zero m s labelPipelineName) (fun n => 0 <? rate_of m s n)%Z.
Proof.
  intros Hn Hm L. rewrite yields_above_zero. setoid_rewrite Z.ltb_lt. split.
  - intros ([n|] & -> & Hk); [by exists n|]. unfold total in Hk. by rewrite (unnamed_group_empty m s Hn Hm) in Hk.
  - intros (n & -> & Hk). by exists (Some n).
Qed.

Lemma singleton_name_inj (a b : string) : ({[labelPipelineName := a]} : labels) = {[labelPipelineName := b]} -> a = b.
Proof. intros He. by injection (label_group_inj labelPipelineName (Some a) (Some b) He). Qed.

Lemma and_by_pipeline a b P Q :
  by_pipeline a P -> by_pipeline b Q -> by_pipeline (QAnd a b) (fun n => P n && Q n).
Proof.
  intros Ha Hb L. rewrite yields_and, (Ha L), (Hb L). setoid_rewrite andb_true_iff. split.
  - intros [(n & -> & Hp) (m & He & Hq)]. apply singleton_name_inj in He as ->. eauto.
  - naive_solver.
Qed.

Lemma or_by_pipeline a b P Q : by_pipeline a P -> by_pipeline b Q -> by_pipeline (QOr a b) (fun n => P n || Q n).
Proof. intros Ha Hb L. rewrite yields_or, (Ha L), (Hb L). setoid_rewrite orb_true_iff. naive_solver. Qed.

Lemma unless_by_pipeline a b P Q :
  by_pipeline a P -> by_pipeline b Q -> by_pipeline (QUnless a b) (fun n => P n && negb (Q n)).
Proof.
  intros Ha Hb L. rewrite yields_unless, (Ha L), (Hb L). setoid_rewrite andb_true_iff. setoid_rewrite negb_true_iff. split.
  - intros [(n & -> & Hp) Hq]. exists n. split_and!; [done..|]. destruct (Q n) eqn:E; [|done]. destruct Hq. by exists n.
  - intros (n & -> & Hp & Hq). split; [by exists n|]. intros (m & He & Hm). apply singleton_name_inj in He as ->. congruence.
Qed.

Lemma by_pipeline_concerns q P n :
  by_pipeline q P -> (exists x, x ∈ meaning ss q /\ concerns n x.1) <-> P n = true.
Proof.
  intros Hq. split.
  - intros ([L v] & Hx & Hc). destruct (proj1 (Hq L)) as (m & -> & Hm); [by exists v|].
    apply (concerns_pipeline n (Some m)) in Hc as [?|[= ->]]; done.
  - intros Hn. destruct (proj2 (Hq {[labelPipelineName := n]})) as [v Hv]; [by exists n|].
    exists ({[labelPipelineName := n]}, v). split; [done|]. apply (concerns_pipeline n (Some n)). by right.
Qed.

End Labels.

(** ** The verdicts of the probers *)

(** The alerts and the queries of the rules. *)
Definition dropped_table (base_all base_some service : string) (t : pipelineType) : list (string * query) :=
  [(ruleNamePrefix t +:+ base_all, QUnless (q_dropped service t) (q_sent service t));
   (ruleNamePrefix t +:+ base_some, QAnd (q_dropped service t) (q_sent service t))].
Definition gateway_table (service : string) (t : pipelineType) : list (string * query) :=
  (dropped_table RuleNameGatewayAllDataDropped RuleNameGatewaySomeDataDropped service t
   ++ [(ruleNamePrefix t +:+ RuleNameGatewayThrottling, q_refused service t)])%list.
Definition agent_table (service : string) (t : pipelineType) : list (string * query) :=
  dropped_table RuleNameAgentAllDataDropped RuleNameAgentSomeDataDropped service t.
Definition fb_table : list (string * query) :=
  zip ((fun n => "Log" +:+ n) <$> [RuleNameLogFluentBitAllDataDropped; RuleNameLogFluentBitSomeDataDropped;
                                   RuleNameLogFluentBitBufferInUse; RuleNameLogFluentBitNoLogsDelivered]) fb_queries.
Definition rule_table : list (string * query) :=
  (gateway_table OTLPGatewayMetricsService typeMetricPipeline ++ agent_table MetricAgentMetricsService typeMetricPipeline
   ++ gateway_table OTLPGatewayMetricsService typeTracePipeline ++ gateway_table OTLPGatewayMetricsService typeLogPipeline
   ++ agent_table LogAgentMetricsService typeLogPipeline ++ fb_table)%list.

Lemma rules_are_table :
  (fun r => (ru_Alert r, ru_Expr r)) <$> all_rules = (fun x => (x.1, query_text x.2)) <$> rule_table.
Proof. vm_compute. reflexivity. Qed.

Lemma table_rule alert q : (alert, q) ∈ rule_table -> exists r, r ∈ all_rules /\ ru_Alert r = alert /\ ru_Expr r = query_text q.
Proof.
  intros Hin. assert (Hm : (alert, query_text q) ∈ (fun r => (ru_Alert r, ru_Expr r)) <$> all_rules).
  { rewrite rules_are_table. apply list_elem_of_fmap. by exists (alert, q). }
  apply list_elem_of_fmap in Hm as (r & [= -> Hq] & Hr). eauto.
Qed.

Lemma rule_in_table r : r ∈ all_rules -> exists q, (ru_Alert r, q) ∈ rule_table /\ ru_Expr r = query_text q.
Proof.
  intros Hr. assert (Hm : (ru_Alert r, ru_Expr r) ∈ (fun x => (x.1, query_text x.2)) <$> rule_table).
  { rewrite <- rules_are_table. apply list_elem_of_fmap. by exists r. }
  apply list_elem_of_fmap in Hm as ([a q] & [= -> Hq] & Hx). eauto.
Qed.

(** Results of a query that is aggregated by one label have that label only. *)
Fixpoint grouped_by (l : string) (q : query) : bool :=
  match q with
  | QRate _ _ | QInstant _ _ => false
  | QSumBy l' _ | QMaxBy l' _ => str_eqb l l'
  | QGreater _ q | QEqual _ q => grouped_by l q
  | QAnd a _ | QUnless a _ => grouped_by l a
  | QOr a b => grouped_by l a && grouped_by l b
  end.

Lemma aggregate_grouped agg l v x : x ∈ aggregate agg l v -> exists k, x.1 = label_group l k.
Proof. intros (k & -> & _)%list_elem_of_fmap. by exists k. Qed.

Lemma grouped_labels ss l q x : grouped_by l q = true -> x ∈ meaning ss q -> exists k, x.1 = label_group l k.
Proof.
  induction q; cbn [grouped_by meaning]; try done.
  - intros <-%str_eqb_true. apply aggregate_grouped.
  - intros <-%str_eqb_true. apply aggregate_grouped.
  - intros Hg [Hx _]%in_filter. auto.
  - intros Hg [Hx _]%in_filter. auto.
  - intros Hg [Hx _]%in_filter. auto.
  - intros [Ha Hb]%andb_true_iff [Hx|[Hx _]%in_filter]%elem_of_app; auto.
  - intros Hg [Hx _]%in_filter. auto.
Qed.

Lemma table_grouped alert q :
  (alert, q) ∈ rule_table -> grouped_by labelPipelineName q = true \/ grouped_by labelReceiver q = true.
Proof.
  assert (Hall : forallb (fun x => grouped_by labelPipelineName x.2 || grouped_by labelReceiver x.2) rule_table = true)
    by by vm_compute.
  rewrite forallb_forall in Hall. intros Hin%list_elem_of_In. apply Hall in Hin. by apply orb_true_iff in Hin.
Qed.

Section Verdicts.
Context (prometheus : string -> vector) (ss : list series).

(** Prometheus gives the queries of the rules their meaning. *)
Definition evaluates : Prop := forall alert q, (alert, q) ∈ rule_table -> prometheus (query_text q) = meaning ss q.

Context (Heval : evaluates).

Lemma no_pipeline_type r x : r ∈ all_rules -> x ∈ prometheus (ru_Expr r) -> x.1 !! labelPipelineType = None.
Proof.
  intros Hr Hx. destruct (rule_in_table r Hr) as (q & Hq & He). rewrite He, (Heval _ _ Hq) in Hx.
  destruct (table_grouped _ _ Hq) as [Hg|Hg]; destruct (grouped_labels _ _ _ _ Hg Hx) as [k ->].
  - destruct k; [by apply lookup_singleton_ne|done].
  - destruct k; [by apply lookup_singleton_ne|done].
Qed.

Lemma firing_query pending t base n q :
  (ruleNamePrefix t +:+ base, q) ∈ rule_table -> base <> RulesAny ->
  isFiringWithMatcher (active_alerts prometheus pending) base n (fun l b n => matchesRule l b n t) = true <->
  exists x, x ∈ meaning ss q /\ concerns n x.1.
Proof.
  intros Hin Hb. destruct (table_rule _ _ Hin) as (r & Hr & Ha & He). rewrite <- (Heval _ _ Hin), <- He.
  apply firing_exact; [done..|]. apply no_pipeline_type.
Qed.

Lemma firing_by_pipeline pending t base n q P :
  (ruleNamePrefix t +:+ base, q) ∈ rule_table -> base <> RulesAny -> by_pipeline ss q P ->
  isFiringWithMatcher (active_alerts prometheus pending) base n (fun l b n => matchesRule l b n t) = P n.
Proof.
  intros Hin Hb Hq. apply eq_bool_prop_intro. rewrite !Is_true_true, (firing_query _ _ _ _ _ Hin Hb).
  by apply by_pipeline_concerns.
Qed.

Context (Hnamed : pipelines_named ss).

Lemma sent_by_pipeline s t : by_pipeline ss (q_sent s t) (sending ss s t).
Proof. apply (above_zero_by_pipeline ss _ _ Hnamed). by destruct t. Qed.

Lemma dropped_by_pipeline s t : by_pipeline ss (q_dropped s t) (dropping ss s t).
Proof. apply or_by_pipeline; apply (above_zero_by_pipeline ss _ _ Hnamed); by destruct t. Qed.

Lemma all_dropped_by_pipeline s t :
  by_pipeline ss (QUnless (q_dropped s t) (q_sent s t)) (fun n => dropping ss s t n && negb (sending ss s t n)).
Proof. apply unless_by_pipeline; [apply dropped_by_pipeline|apply sent_by_pipeline]. Qed.

Lemma some_dropped_by_pipeline s t :
  by_pipeline ss (QAnd (q_dropped s t) (q_sent s t)) (fun n => dropping ss s t n && sending ss s t n).
Proof. apply and_by_pipeline; [apply dropped_by_pipeline|apply sent_by_pipeline]. Qed.

Context (Hrates : rates_nonnegative ss).

Lemma sum_positive (xs : list series) :
  (forall x, x ∈ xs -> (0 <= se_rate x)%Z) ->
  (0 <= sum (se_rate <$> xs))%Z /\ ((0 < sum (se_rate <$> xs))%Z <-> exists x, x ∈ xs /\ (0 < se_rate x)%Z).
Proof.
  induction xs as [|x xs IH]; intros Hx.
  - split; [done|]. split; [done|]. by intros (y & Hy%elem_of_nil & _).
  - destruct IH as [H1 H2]; [intros y Hy; apply Hx; by right|]. assert (Hp : (0 <= se_rate x)%Z) by (apply Hx; by left).
    change (sum (se_rate <$> x :: xs)) with (se_rate x + sum (se_rate <$> xs))%Z. split; [lia|].
    setoid_rewrite elem_of_cons. split.
    + intros Hs. destruct (Z.lt_ge_cases 0 (se_rate x)) as [Hl|Hl]; [by exists x; auto|].
      destruct (proj1 H2) as (y & Hy & Hp'); [lia|]. exists y. auto.
    + intros (y & [->|Hy] & Hy'); [lia|]. assert (0 < sum (se_rate <$> xs))%Z by (apply H2; eauto). lia.
Qed.

Lemma refused_concerns s t n :
  (exists x, x ∈ meaning ss (q_refused s t) /\ concerns n x.1) <-> refusing ss s t = true.
Proof.
  set (m := otel_metric otelReceiverRefused t). unfold refusing. fold m. rewrite existsb_exists.
  assert (Hg : forall k, (0 < total ss m s labelReceiver k)%Z <->
    exists x, x ∈ group_of ss m s labelReceiver k /\ (0 < se_rate x)%Z).
  { intros k. apply sum_positive. intros x Hx. apply in_filter in Hx as [Hx _]. apply in_filter in Hx as [Hx _]. by apply Hrates. }
  split.
  - intros ([L v] & Hx & _). destruct (proj1 (yields_above_zero ss m s labelReceiver L)) as (k & _ & Hk); [by exists v|].
    apply Hg in Hk as (x & [Hin _]%in_filter & Hp). exists x. rewrite <- list_elem_of_In. split; [done|by apply Z.ltb_lt].
  - intros (x & Hin%list_elem_of_In & Hp%Z.ltb_lt).
    destruct (proj2 (yields_above_zero ss m s labelReceiver (label_group labelReceiver (se_labels x !! labelReceiver)))) as [v Hv].
    + exists (se_labels x !! labelReceiver). split; [done|]. apply Hg. exists x. split; [|done]. apply in_filter.
      split; [done|by apply bool_decide_eq_true].
    + eexists. split; [exact Hv|]. apply concerns_receiver.
Qed.

End Verdicts.

(** ** Fluent Bit *)

Section FluentBit.
Context (ss : list series).
Let fb := FluentBitMetricsService.

Definition fb_sending (n : string) : bool := (0 <? rate_of ss fluentBitOutputProcBytesTotal FluentBitMetricsService n)%Z.
Definition fb_dropping (n : string) : bool := (0 <? rate_of ss fluentBitOutputDroppedRecordsTotal FluentBitMetricsService n)%Z.
Definition fb_reading (n : string) : bool := (0 <? rate_of ss fluentBitInputBytesTotal FluentBitMetricsService n)%Z.

(** The pipeline has an output that sends nothing. *)
Definition fb_silent (n : string) : bool :=
  negb (length (group_of ss fluentBitOutputProcBytesTotal FluentBitMetricsService labelPipelineName (Some n)) =? 0)%nat
  && (rate_of ss fluentBitOutputProcBytesTotal FluentBitMetricsService n =? 0)%Z.
Definition fb_buffering (n : string) : bool :=
  (inputStorageChunksDown300Chunks <?
   maximum (se_value <$> group_of ss fluentBitInputStorageChunksDown FluentBitMetricsService labelPipelineName (Some n)))%Z.

Context (Hnamed : pipelines_named ss).

Lemma grouped_by_pipeline (f : series -> Z) agg P m s q (test : string -> bool) :
  HasPrefix m otelReceiverRefused = false ->
  meaning ss q = List.filter P (aggregate agg labelPipelineName ((fun x => (se_labels x, f x)) <$> of_service ss m s)) ->
  (forall L n, test n = true <-> group_of ss m s labelPipelineName (Some n) <> [] /\
     P (L, agg (f <$> group_of ss m s labelPipelineName (Some n))) = true) ->
  by_pipeline ss q test.
Proof.
  intros Hm Hq Ht L. unfold yields. rewrite Hq, aggregate_filtered. setoid_rewrite in_group_map. split.
  - intros ([n|] & -> & Hk & HP).
    + exists n. split; [done|]. apply (Ht (label_group labelPipelineName (Some n))). split; [|done].
      intros He. unfold group_of in He. by rewrite He in Hk.
    + pose proof (unnamed_group_empty ss m s Hnamed Hm) as He. unfold group_of in He. by rewrite He in Hk.
  - intros (n & -> & [Hk HP]%(Ht ({[labelPipelineName := n]}))). exists (Some n). split_and!; [done| |done].
    intros He%fmap_nil_inv. by apply Hk.
Qed.

Lemma buffering_by_pipeline :
  by_pipeline ss (QGreater inputStorageChunksDown300Chunks
    (QMaxBy labelPipelineName (QInstant fluentBitInputStorageChunksDown fb))) fb_buffering.
Proof.
  eapply (grouped_by_pipeline se_value maximum); [|done|]; [done|]. intros L n. unfold fb_buffering. cbn [snd]. fold fb.
  destruct (group_of ss fluentBitInputStorageChunksDown fb labelPipelineName (Some n)) as [|x xs].
  - split; [intros Hd; vm_compute in Hd; done|by intros [? _]].
  - split; [done|by intros [_ ?]].
Qed.

Lemma silent_by_pipeline :
  by_pipeline ss (QEqual 0 (QSumBy labelPipelineName (QRate fluentBitOutputProcBytesTotal fb))) fb_silent.
Proof.
  eapply (grouped_by_pipeline se_rate sum); [|done|]; [done|]. intros L n. unfold fb_silent, rate_of, total. cbn [snd]. fold fb.
  destruct (group_of ss fluentBitOutputProcBytesTotal fb labelPipelineName (Some n)) as [|x xs]; cbn [length Nat.eqb negb andb]; naive_solver.
Qed.

Lemma fb_above_by_pipeline m :
  HasPrefix m otelReceiverRefused = false -> by_pipeline ss (fb_above_zero m) (fun n => 0 <? rate_of ss m fb n)%Z.
Proof. intros Hm. by apply above_zero_by_pipeline. Qed.

End FluentBit.

Lemma gateway_in_table t e : e ∈ gateway_table OTLPGatewayMetricsService t -> e ∈ rule_table.
Proof. unfold rule_table. rewrite !elem_of_app. destruct t; tauto. Qed.

Definition agent_service (t : pipelineType) : option string :=
  match t with
  | typeMetricPipeline => Some MetricAgentMetricsService
  | typeLogPipeline => Some LogAgentMetricsService
  | typeTracePipeline => None
  end.

Lemma agent_in_table t s e : agent_service t = Some s -> e ∈ agent_table s t -> e ∈ rule_table.
Proof. unfold rule_table. rewrite !elem_of_app. destruct t; intros [= <-]; tauto. Qed.

Lemma fb_in_table e : e ∈ fb_table -> e ∈ rule_table.
Proof. unfold rule_table. rewrite !elem_of_app. tauto. Qed.

Ltac in_table := cbn; repeat first [left | right].

Section Probes.
Context (prometheus : string -> vector) (ss : list series).
Context (Hev : evaluates prometheus ss) (Hn : pipelines_named ss) (Hr : rates_nonnegative ss) (pending : list labels).

(** Both rules about dropped data, for any pair of rule names. *)
Lemma dropped_firing all some service t n :
  (forall e, e ∈ dropped_table all some service t -> e ∈ rule_table) -> all <> RulesAny -> some <> RulesAny ->
  let firing b := isFiringWithMatcher (active_alerts prometheus pending) b n (fun l b n => matchesRule l b n t) in
  firing all = dropping ss service t n && negb (sending ss service t n) /\
  firing some = dropping ss service t n && sending ss service t n.
Proof.
  intros Hin Ha Hs firing. unfold firing. split.
  - apply (firing_by_pipeline prometheus ss Hev pending t all n (QUnless (q_dropped service t) (q_sent service t))
             (fun n => dropping ss service t n && negb (sending ss service t n))); [apply Hin; in_table|done|].
    by apply all_dropped_by_pipeline.
  - apply (firing_by_pipeline prometheus ss Hev pending t some n (QAnd (q_dropped service t) (q_sent service t))
             (fun n => dropping ss service t n && sending ss service t n)); [apply Hin; in_table|done|].
    by apply some_dropped_by_pipeline.
Qed.

Lemma gateway_verdict t n (gw := OTLPGatewayMetricsService) :
  OTelGatewayProber_Probe (fun l b n => matchesRule l b n t) (Ok (active_alerts prometheus pending)) n =
    Ok (mkGatewayProbe
      (mkProbeResult (dropping ss gw t n && negb (sending ss gw t n)) (dropping ss gw t n && sending ss gw t n)
         (negb (dropping ss gw t n) && negb (refusing ss gw t)))
      (refusing ss gw t)).
Proof.
  destruct (dropped_firing RuleNameGatewayAllDataDropped RuleNameGatewaySomeDataDropped gw t n) as [Ha Hs]; [|done..|].
  { intros e He. apply (gateway_in_table t). apply elem_of_app. by left. }
  assert (Ht : isFiringWithMatcher (active_alerts prometheus pending) RuleNameGatewayThrottling n
                 (fun l b n => matchesRule l b n t) = refusing ss gw t).
  { apply eq_bool_prop_intro. rewrite !Is_true_true.
    rewrite (firing_query prometheus ss Hev pending t RuleNameGatewayThrottling n (q_refused gw t));
      [by apply refused_concerns|apply (gateway_in_table t); in_table|done]. }
  unfold OTelGatewayProber_Probe. cbn [retrieveAlerts rmap_err]. rewrite Ha, Hs, Ht.
  by destruct (dropping ss gw t n), (sending ss gw t n), (refusing ss gw t).
Qed.

Lemma agent_verdict t s n :
  agent_service t = Some s ->
  OTelAgentProber_Probe (fun l b n => matchesRule l b n t) (Ok (active_alerts prometheus pending)) n =
    Ok (mkAgentProbe (mkProbeResult (dropping ss s t n && negb (sending ss s t n)) (dropping ss s t n && sending ss s t n)
          (negb (dropping ss s t n)))).
Proof.
  intros Hs. destruct (dropped_firing RuleNameAgentAllDataDropped RuleNameAgentSomeDataDropped s t n) as [Ha Hb]; [|done..|].
  { intros e He. by apply (agent_in_table t s). }
  unfold OTelAgentProber_Probe. cbn [retrieveAlerts rmap_err]. rewrite Ha, Hb.
  by destruct (dropping ss s t n), (sending ss s t n).
Qed.

Lemma fb_firing base q P n :
  ("Log" +:+ base, q) ∈ fb_table -> base <> RulesAny -> by_pipeline ss q P ->
  isFiringWithMatcher (active_alerts prometheus pending) base n MatchesLogPipelineRule = P n.
Proof. intros Hin Hb Hq. apply (firing_by_pipeline prometheus ss Hev pending typeLogPipeline base n q); [by apply fb_in_table|done..]. Qed.

Lemma fb_verdict n :
  FluentBitProber_Probe (Ok (active_alerts prometheus pending)) n =
    Ok (mkFluentBitProbe
      (mkProbeResult (fb_dropping ss n && negb (fb_sending ss n)) (fb_dropping ss n && fb_sending ss n)
         (negb (fb_dropping ss n) && negb (fb_buffering ss n) && negb (fb_reading ss n && fb_silent ss n)))
      (fb_reading ss n && fb_silent ss n) (fb_buffering ss n)).
Proof.
  assert (Hd : by_pipeline ss (fb_above_zero fluentBitOutputDroppedRecordsTotal) (fb_dropping ss)) by by apply fb_above_by_pipeline.
  assert (Hs : by_pipeline ss (fb_above_zero fluentBitOutputProcBytesTotal) (fb_sending ss)) by by apply fb_above_by_pipeline.
  assert (Hi : by_pipeline ss (fb_above_zero fluentBitInputBytesTotal) (fb_reading ss)) by by apply fb_above_by_pipeline.
  unfold FluentBitProber_Probe. cbn [retrieveAlerts rmap_err].
  rewrite (fb_firing RuleNameLogFluentBitAllDataDropped _ (fun n => fb_dropping ss n && negb (fb_sending ss n)) n
             ltac:(in_table) ltac:(done) (unless_by_pipeline ss _ _ _ _ Hd Hs)).
  rewrite (fb_firing RuleNameLogFluentBitSomeDataDropped _ (fun n => fb_dropping ss n && fb_sending ss n) n
             ltac:(in_table) ltac:(done) (and_by_pipeline ss _ _ _ _ Hd Hs)).
  rewrite (fb_firing RuleNameLogFluentBitBufferInUse _ (fb_buffering ss) n
             ltac:(in_table) ltac:(done) (buffering_by_pipeline ss Hn)).
  rewrite (fb_firing RuleNameLogFluentBitNoLogsDelivered _ (fun n => fb_reading ss n && fb_silent ss n) n
             ltac:(in_table) ltac:(done) (and_by_pipeline ss _ _ _ _ Hi (silent_by_pipeline ss Hn))).
  by destruct (fb_dropping ss n), (fb_sending ss n), (fb_buffering ss n), (fb_reading ss n && fb_silent ss n).
Qed.

End Probes.

(** C35. When Prometheus gives the expressions of MakeRules their documented
    meaning and every series of an exporter carries the name of its pipeline,
    the probers report exactly what the series have said for the waiting time of
    the rules: all data dropped when the exporters of the pipeline drop and send
    nothing, some when they drop and send, throttling when a receiver of the
    signal refuses data, and for Fluent Bit also a full buffer and logs that are
    read but not delivered; alerts of other pipelines, signals or agents and
    alerts that are still pending never count. *)
Theorem self_monitor_verdicts_exact prometheus ss pending t n :
  evaluates prometheus ss -> pipelines_named ss -> rates_nonnegative ss ->
  let alerts := Ok (active_alerts prometheus pending) in
  let gw := OTLPGatewayMetricsService in
  OTelGatewayProber_Probe (fun l b n => matchesRule l b n t) alerts n =
    Ok (mkGatewayProbe
      (mkProbeResult (dropping ss gw t n && negb (sending ss gw t n)) (dropping ss gw t n && sending ss gw t n)
         (negb (dropping ss gw t n) && negb (refusing ss gw t)))
      (refusing ss gw t)) /\
  (forall s, agent_service t = Some s ->
     OTelAgentProber_Probe (fun l b n => matchesRule l b n t) alerts n =
       Ok (mkAgentProbe (mkProbeResult (dropping ss s t n && negb (sending ss s t n)) (dropping ss s t n && sending ss s t n)
             (negb (dropping ss s t n))))) /\
  FluentBitProber_Probe alerts n =
    Ok (mkFluentBitProbe
      (mkProbeResult (fb_dropping ss n && negb (fb_sending ss n)) (fb_dropping ss n && fb_sending ss n)
         (negb (fb_dropping ss n) && negb (fb_buffering ss n) && negb (fb_reading ss n && fb_silent ss n)))
      (fb_reading ss n && fb_silent ss n) (fb_buffering ss n)).
Proof.
  intros Hev Hn Hr alerts gw. split; [by apply gateway_verdict|]. split; [|by apply fb_verdict].
  intros s Hs. by apply agent_verdict.
Qed.

(** ** The relabelling of exporters

    The pattern of the rule that sets pipeline_name on the metrics of the collectors:
    it recognises the identifier of an exporter exactly when the name of the pipeline
    has letters, digits and dashes only. *)

Definition re_text (s : string) : re :=
  fold_right (fun c r => RSeq (RClass (Ascii.eqb c)) r) REps (list_ascii_of_string s).
Definition re_plus (r : re) : re := RSeq r (RStar r).
Definition any_char : re := RClass (fun _ => true).
Definition name_char (c : ascii) : bool := in_range 97 122 c || in_range 65 90 c || in_range 48 57 c || Ascii.eqb c "-"%char.

Definition pipelineNameRegex : re :=
  RSeq (re_text "otelcol_") (RSeq (re_plus any_char) (RSeq (re_text ";") (RSeq (re_plus any_char) (RSeq (re_text "/")
    (RSeq (ROpt (RSeq (RAlt (re_text "metric") (RAlt (re_text "trace") (re_text "log"))) (re_text "pipeline-")))
       (re_plus (RClass name_char))))))).

Lemma matches_seq r1 r2 s : matches (RSeq r1 r2) s <-> exists a b, s = (a ++ b)%list /\ matches r1 a /\ matches r2 b.
Proof. split; [inversion 1; subst; eauto|]. intros (a & b & -> & Ha & Hb). by constructor. Qed.

Lemma matches_text t s : matches (re_text t) s <-> s = list_ascii_of_string t.
Proof.
  unfold re_text. revert s. induction (list_ascii_of_string t) as [|c l IH]; intros s; cbn [fold_right].
  - split; [by inversion 1|]. intros ->. constructor.
  - rewrite matches_seq. split.
    + intros (a & b & -> & Ha & ->%IH). inversion Ha as [|p x Hx| | | | |]; subst. by apply Ascii.eqb_eq in Hx as <-.
    + intros ->. exists [c], l. split_and!; [done|constructor; by apply Ascii.eqb_eq|by apply IH].
Qed.

Lemma matches_plus p s : matches (re_plus (RClass p)) s <-> s <> [] /\ Forall (fun c => p c = true) s.
Proof.
  unfold re_plus. rewrite matches_seq. setoid_rewrite matches_class_star. split.
  - intros (a & b & -> & Ha & Hb). inversion Ha; subst. split; [done|]. by constructor.
  - intros [Hne Hs]. destruct s as [|c s]; [done|]. apply Forall_cons in Hs as [Hc Hs].
    exists [c], s. split_and!; [done|by constructor|done].
Qed.

Lemma last_slash (a b a' b' : list ascii) :
  (a ++ "/"%char :: b)%list = (a' ++ "/"%char :: b')%list -> "/"%char ∉ b -> "/"%char ∉ b' -> b = b'.
Proof.
  revert a'. induction a as [|x a IH]; intros [|x' a'] He Hb Hb'; cbn in He.
  - by injection He.
  - injection He as Hx He. destruct Hb. rewrite He. apply elem_of_app. right. by left.
  - injection He as Hx He. destruct Hb'. rewrite <- He. apply elem_of_app. right. by left.
  - injection He as Hx He. by apply (IH a').
Qed.

(** What follows the last slash of a text that matches. *)
Lemma recognised_tail s :
  matches pipelineNameRegex s ->
  exists a b, s = (a ++ "/"%char :: b)%list /\ b <> [] /\ Forall (fun c => name_char c = true) b.
Proof.
  unfold pipelineNameRegex. intros (x1 & y1 & -> & _ & H1)%matches_seq. apply matches_seq in H1 as (x2 & y2 & -> & _ & H2).
  apply matches_seq in H2 as (x3 & y3 & -> & _ & H3). apply matches_seq in H3 as (x4 & y4 & -> & _ & H4).
  apply matches_seq in H4 as (x5 & y5 & -> & ->%matches_text & H5). apply matches_seq in H5 as (o & n & -> & Ho & [Hne Hn]%matches_plus).
  exists (x1 ++ x2 ++ x3 ++ x4)%list, (o ++ n)%list. rewrite <- !app_assoc. split; [done|]. split; [by destruct o|].
  apply Forall_app. split; [|done]. unfold ROpt in Ho. inversion Ho as [| | |? ? ? Hs|? ? ? Hs| |]; subst; [|by inversion Hs].
  apply matches_seq in Hs as (k & d & -> & Hk & ->%matches_text). apply Forall_app. split; [|by vm_compute; repeat constructor].
  inversion Hk as [| | |? ? ? Ht|? ? ? Ht| |]; subst; [apply matches_text in Ht as ->; by repeat constructor|].
  inversion Ht as [| | |? ? ? Ht'|? ? ? Ht'| |]; subst; apply matches_text in Ht' as ->; by repeat constructor.
Qed.

Lemma list_of_append a b : list_ascii_of_string (a +:+ b) = (list_ascii_of_string a ++ list_ascii_of_string b)%list.
Proof. induction a as [|c a IH]; [done|]. exact (f_equal (cons c) IH). Qed.

Definition plain_name (n : string) : bool := forallb name_char (list_ascii_of_string n).

Lemma name_char_not_slash c : name_char c = true -> c <> "/"%char.
Proof. intros Hc ->. by vm_compute in Hc. Qed.

Lemma plain_no_slash l : Forall (fun c => name_char c = true) l -> "/"%char ∉ l.
Proof. rewrite Forall_forall. intros Hl Hin. by apply Hl, name_char_not_slash in Hin. Qed.

(** The names that the relabelling sees. *)
Theorem exporter_recognised_iff metric protocol r :
  metric <> "" -> pref_name r <> "" -> pref_signalType r <> SignalTypeLogFluentBit -> "/"%char ∉ list_ascii_of_string (pref_name r) ->
  MatchString pipelineNameRegex ("otelcol_" +:+ metric +:+ ";" +:+ ComponentIDOTLPExporter protocol r) = true <->
  plain_name (pref_name r) = true.
Proof.
  intros Hm Hn Ht Hs. unfold MatchString. rewrite re_match_spec. unfold plain_name. rewrite forallb_forall.
  assert (Hid : exists kind sig, kind <> "" /\ (sig = "metric" \/ sig = "trace" \/ sig = "log") /\
    ComponentIDOTLPExporter protocol r = kind +:+ "/" +:+ sig +:+ "pipeline-" +:+ pref_name r).
  { unfold ComponentIDOTLPExporter, QualifiedName, TypePrefix.
    destruct r as [n sig]. exists (if str_eqb protocol OTLPProtocolHTTP then "otlp_http" else "otlp_grpc"), (signal_text sig).
    split_and!; [by destruct (str_eqb protocol _)|destruct sig; cbn in *; auto; done|].
    by destruct (str_eqb protocol OTLPProtocolHTTP), sig. }
  destruct Hid as (kind & sig & Hk & Hsig & ->). rewrite !list_of_append. split.
  - intros (a & b & He & _ & Hb)%recognised_tail c Hc%list_elem_of_In.
    rewrite Forall_forall in Hb. apply Hb.
    assert (Htail : (list_ascii_of_string sig ++ list_ascii_of_string "pipeline-" ++ list_ascii_of_string (pref_name r))%list = b).
    { eapply (last_slash (list_ascii_of_string "otelcol_" ++ list_ascii_of_string metric ++ list_ascii_of_string ";"
                 ++ list_ascii_of_string kind)%list _ a b).
      - rewrite <- He, <- !app_assoc. done.
      - rewrite !not_elem_of_app. split_and!; [|by apply (bool_decide_unpack _)|done].
        by destruct Hsig as [->|[->| ->]]; apply (bool_decide_unpack _).
      - by apply plain_no_slash, Forall_forall. }
    rewrite <- Htail, !elem_of_app. auto.
  - intros Hp. assert (Hne : forall t, t <> "" -> list_ascii_of_string t <> []) by (by intros [|? ?]).
    unfold pipelineNameRegex. apply matches_seq. eexists _, _. split; [done|]. split; [by apply matches_text|].
    apply matches_seq. eexists _, _. split; [done|]. split; [apply matches_plus; split; [by apply Hne|by apply Forall_true]|].
    apply matches_seq. eexists _, _. split; [done|]. split; [by apply matches_text|].
    apply matches_seq. eexists _, _. split; [done|]. split; [apply matches_plus; split; [by apply Hne|by apply Forall_true]|].
    apply matches_seq. eexists _, _. split; [done|]. split; [by apply matches_text|].
    apply matches_seq. exists (list_ascii_of_string sig ++ list_ascii_of_string "pipeline-")%list, (list_ascii_of_string (pref_name r)).
    split; [by rewrite <- app_assoc|]. split.
    + apply m_alt_l, matches_seq. eexists _, _. split; [done|]. split; [|by apply matches_text].
      destruct Hsig as [->|[->| ->]]; [apply m_alt_l|apply m_alt_r, m_alt_l|apply m_alt_r, m_alt_r]; by apply matches_text.
    + apply matches_plus. split; [by apply Hne|]. apply Forall_forall. intros c Hc. apply Hp. by apply list_elem_of_In.
Qed.

(** A series without that label is an alarm for every pipeline of its type: when the
    data of a pipeline whose name is not recognised is dropped, all pipelines are
    reported to drop all data. *)
Theorem unnamed_series_alarms_all prometheus ss pending t n :
  evaluates prometheus ss ->
  let gw := OTLPGatewayMetricsService in
  (0 < total ss (otel_metric otelExporterSendFailed t) gw labelPipelineName None)%Z ->
  (total ss (otel_metric otelExporterSent t) gw labelPipelineName None <= 0)%Z ->
  isFiringWithMatcher (active_alerts prometheus pending) RuleNameGatewayAllDataDropped n (fun l b n => matchesRule l b n t) = true.
Proof.
  intros Hev gw Hd Hs. apply (firing_query prometheus ss Hev pending t RuleNameGatewayAllDataDropped n
    (QUnless (q_dropped gw t) (q_sent gw t))); [apply (gateway_in_table t); in_table|done|].
  assert (Hy : yields ss (QUnless (q_dropped gw t) (q_sent gw t)) (label_group labelPipelineName None)).
  { apply yields_unless. split.
    - apply yields_or. right. apply yields_above_zero. by exists None.
    - intros (k & Hk & Hp)%yields_above_zero. apply label_group_inj in Hk as <-. lia. }
  destruct Hy as [v Hv]. eexists. split; [exact Hv|]. apply concerns_pipeline. by left.
Qed.

(** ** A sample *)

Module SampleSeries.
Definition of_exporter (metric service n : string) (r : Z) : series :=
  mkSeries metric (<[labelService := service]> {[labelPipelineName := n]}) r 0.

(** The trace pipelines a and b of the gateway: a sends and drops, b drops everything. *)
Definition samples : list series :=
  [of_exporter "otelcol_exporter_sent_spans_total" OTLPGatewayMetricsService "a" 7;
   of_exporter "otelcol_exporter_send_failed_spans_total" OTLPGatewayMetricsService "a" 1;
   of_exporter "otelcol_exporter_send_failed_spans_total" OTLPGatewayMetricsService "b" 3;
   mkSeries "otelcol_receiver_refused_spans_total" {[labelService := OTLPGatewayMetricsService]} 0 0].

(** The answers for the texts of the rules. *)
Definition prometheus (text : string) : vector :=
  match List.find (fun x => str_eqb (query_text x.2) text) rule_table with Some x => meaning samples x.2 | None => [] end.

Lemma prometheus_evaluates : evaluates prometheus samples.
Proof.
  intros alert q Hin. unfold rule_table, gateway_table, agent_table, dropped_table, fb_table in Hin. cbn [app fmap list_fmap zip zip_with fb_queries] in Hin.
  repeat (apply elem_of_cons in Hin as [[= -> ->]|Hin]; [vm_compute; reflexivity|]). by apply elem_of_nil in Hin.
Qed.

(** An alert about the pipeline a that does not fire yet. *)
Definition pending : list labels :=
  [<[AlertNameLabel := "Trace" +:+ RuleNameGatewayAllDataDropped]> {[labelPipelineName := "a"]}].
End SampleSeries.
Import SampleSeries.

Lemma self_monitor_verdicts_exact_witness :
  OTelGatewayProber_Probe MatchesTracePipelineRule (Ok (active_alerts prometheus SampleSeries.pending)) "a" =
    Ok (mkGatewayProbe (mkProbeResult false true false) false) /\
  OTelGatewayProber_Probe MatchesTracePipelineRule (Ok (active_alerts prometheus SampleSeries.pending)) "b" =
    Ok (mkGatewayProbe (mkProbeResult true false false) false).
Proof.
  assert (Hn : pipelines_named samples).
  { intros x Hx. repeat (apply elem_of_cons in Hx as [->|Hx]; [done|]). by apply elem_of_nil in Hx. }
  assert (Hr : rates_nonnegative samples).
  { intros x Hx. repeat (apply elem_of_cons in Hx as [->|Hx]; [done|]). by apply elem_of_nil in Hx. }
  split.
  - etrans; [apply (proj1 (self_monitor_verdicts_exact prometheus samples SampleSeries.pending typeTracePipeline "a" prometheus_evaluates Hn Hr))|].
    vm_compute. reflexivity.
  - etrans; [apply (proj1 (self_monitor_verdicts_exact prometheus samples SampleSeries.pending typeTracePipeline "b" prometheus_evaluates Hn Hr))|].
    vm_compute. reflexivity.
Defined.
