(* ===== verification/Resources.v ===== *)
(** * Parts of Kubernetes objects (internal/resources/common, internal/config,
    internal/configchecksum, internal/k8sclients)

    The settings of the manager, labels, Pod specifications with their options, network
    policies with theirs, the client that stamps labels, and the checksum of the
    configuration. A quantity is the number of bytes or millicores. Fields that no
    builder sets are left out. *)
From Stdlib Require Import Ascii String.
From stdpp Require Import base gmap strings list pretty sorting.
From S2P Require Import Prelude Kube GoErrors Regex K8sUtils.
Local Open Scope string_scope.

Abbreviation labels := (gmap string string).

(** ** The settings of the manager (config/global.go) *)

Record Global := mkGlobal {
  g_managerNamespace : string;
  g_targetNamespace : string;
  g_operateInFIPSMode : bool;
  g_version : string;
  g_imagePullSecretName : string;
  g_clusterTrustBundleName : string;
  g_additionalWorkloadLabels : labels;
  g_additionalWorkloadAnnotations : labels;
  g_additionalWorkloadPodLabels : labels;
  g_additionalWorkloadPodAnnotations : labels;
  g_unlimitedPipelines : bool
}.

(** The options, and [NewGlobal], that applies them to the zero value. *)
Inductive GlobalOption :=
| WithManagerNamespace (namespace : string)
| WithTargetNamespace (namespace : string)
| WithOperateInFIPSMode (enable : bool)
| WithVersion (version : string)
| WithGlobalImagePullSecretName (secretName : string)
| WithClusterTrustBundleName (name : string)
| WithAdditionalWorkloadLabels (l : labels)
| WithAdditionalWorkloadAnnotations (l : labels)
| WithAdditionalWorkloadPodLabels (l : labels)
| WithAdditionalWorkloadPodAnnotations (l : labels)
| WithUnlimitedPipelines (enable : bool).

Definition apply_global_option (g : Global) (o : GlobalOption) : Global :=
  let '(mkGlobal mn tn fips v ips ctb wl wa pl pa up) := g in
  match o with
  | WithManagerNamespace x => mkGlobal x tn fips v ips ctb wl wa pl pa up
  | WithTargetNamespace x => mkGlobal mn x fips v ips ctb wl wa pl pa up
  | WithOperateInFIPSMode x => mkGlobal mn tn x v ips ctb wl wa pl pa up
  | WithVersion x => mkGlobal mn tn fips x ips ctb wl wa pl pa up
  | WithGlobalImagePullSecretName x => mkGlobal mn tn fips v x ctb wl wa pl pa up
  | WithClusterTrustBundleName x => mkGlobal mn tn fips v ips x wl wa pl pa up
  | WithAdditionalWorkloadLabels x => mkGlobal mn tn fips v ips ctb x wa pl pa up
  | WithAdditionalWorkloadAnnotations x => mkGlobal mn tn fips v ips ctb wl x pl pa up
  | WithAdditionalWorkloadPodLabels x => mkGlobal mn tn fips v ips ctb wl wa x pa up
  | WithAdditionalWorkloadPodAnnotations x => mkGlobal mn tn fips v ips ctb wl wa pl x up
  | WithUnlimitedPipelines x => mkGlobal mn tn fips v ips ctb wl wa pl pa x
  end.

Definition NewGlobal (opts : list GlobalOption) : Global :=
  fold_left apply_global_option opts (mkGlobal "" "" false "" "" "" ∅ ∅ ∅ ∅ false).

Definition TargetNamespace (g : Global) : string := g_targetNamespace g.
Definition ManagerNamespace (g : Global) : string := g_managerNamespace g.
Definition DefaultTelemetryNamespace (g : Global) : string := g_targetNamespace g.

Record ValidationError := mkValidationError { ve_Field : string; ve_Value : string; ve_Message : string }.

Definition ValidationError_Error (e : ValidationError) : string :=
  "validation failed for field '" +:+ ve_Field e +:+ "' with value '" +:+ ve_Value e +:+ "': " +:+ ve_Message e.

(** [strings.Trim(s, " ")] is empty. *)
Fixpoint only_spaces (s : string) : bool :=
  match s with EmptyString => true | String c s => Ascii.eqb c " "%char && only_spaces s end.

Definition Global_Validate (g : Global) : option ValidationError :=
  if negb (MatchString ValidNameRegexp (g_targetNamespace g)) then
    Some (mkValidationError "target_namespace" (g_targetNamespace g) "must be a valid Kubernetes namespace name")
  else if negb (MatchString ValidNameRegexp (g_managerNamespace g)) then
    Some (mkValidationError "manager_namespace" (g_managerNamespace g) "must be a valid Kubernetes namespace name")
  else if only_spaces (g_version g) then
    Some (mkValidationError "version" (g_version g) "cannot be empty or whitespace only")
  else None.

(** ** Labels and annotations (labels.go, annotations.go) *)

Definition LabelValueTrue : string := "true".
Definition LabelValueFalse : string := "false".
Definition LabelKeyKymaModule : string := "kyma-project.io/module".
Definition LabelValueKymaModule : string := "telemetry".
Definition LabelKeyK8sName : string := "app.kubernetes.io/name".
Definition LabelKeyK8sPartOf : string := "app.kubernetes.io/part-of".
Definition LabelValueK8sPartOf : string := "telemetry".
Definition LabelKeyK8sManagedBy : string := "app.kubernetes.io/managed-by".
Definition LabelValueK8sManagedBy : string := "telemetry-manager".
Definition LabelKeyK8sComponent : string := "app.kubernetes.io/component".
Definition LabelValueK8sComponentController : string := "controller".
Definition LabelValueK8sComponentAgent : string := "agent".
Definition LabelValueK8sComponentGateway : string := "gateway".
Definition LabelValueK8sComponentMonitor : string := "monitor".
Definition LabelKeyK8sInstance : string := "app.kubernetes.io/instance".
Definition LabelValueK8sInstance : string := "telemetry".
Definition LabelKeyK8sHostname : string := "kubernetes.io/hostname".
Definition LabelKeyK8sZone : string := "topology.kubernetes.io/zone".
Definition LabelKeyIstioInject : string := "sidecar.istio.io/inject".
Definition LabelKeyTelemetrySelfMonitor : string := "telemetry.kyma-project.io/self-monitor".
Definition LabelValueTelemetrySelfMonitor : string := "enabled".
Definition LabelKeyTelemetryLogIngest : string := "telemetry.kyma-project.io/log-ingest".
Definition LabelKeyTelemetryLogExport : string := "telemetry.kyma-project.io/log-export".
Definition LabelKeyTelemetryTraceIngest : string := "telemetry.kyma-project.io/trace-ingest".
Definition LabelKeyTelemetryTraceExport : string := "telemetry.kyma-project.io/trace-export".
Definition LabelKeyTelemetryMetricIngest : string := "telemetry.kyma-project.io/metric-ingest".
Definition LabelKeyTelemetryMetricExport : string := "telemetry.kyma-project.io/metric-export".
Definition LabelKeyTelemetryMetricScrape : string := "telemetry.kyma-project.io/metric-scrape".
Definition LabelKeyTelemetryMetricsScraping : string := "networking.kyma-project.io/metrics-scraping".
Definition LabelValueTelemetryMetricsScraping : string := "allowed".

Definition AnnotationKeyIstioIncludeInboundPorts : string := "traffic.sidecar.istio.io/includeInboundPorts".
Definition AnnotationKeyIstioExcludeInboundPorts : string := "traffic.sidecar.istio.io/excludeInboundPorts".
Definition AnnotationKeyIstioIncludeOutboundPorts : string := "traffic.sidecar.istio.io/includeOutboundPorts".
Definition AnnotationKeyIstioIncludeOutboundIPRanges : string := "traffic.sidecar.istio.io/includeOutboundIPRanges".
Definition AnnotationKeyIstioUserVolumeMount : string := "sidecar.istio.io/userVolumeMount".
Definition AnnotationKeyIstioInterceptionMode : string := "sidecar.istio.io/interceptionMode".
Definition AnnotationValueIstioInterceptionModeTProxy : string := "TPROXY".
Definition AnnotationKeyIstioProxyConfig : string := "proxy.istio.io/config".
Definition AnnotationKeyPrometheusScrape : string := "prometheus.io/scrape".
Definition AnnotationKeyPrometheusPort : string := "prometheus.io/port".
Definition AnnotationKeyPrometheusScheme : string := "prometheus.io/scheme".
Definition AnnotationKeyPrometheusPath : string := "prometheus.io/path".

Definition ModuleLabels : labels :=
  {[LabelKeyKymaModule := LabelValueKymaModule; LabelKeyK8sPartOf := LabelValueK8sPartOf;
    LabelKeyK8sManagedBy := LabelValueK8sManagedBy]}.

Definition DefaultLabels (componentBaseName componentType : string) : labels :=
  <[LabelKeyK8sComponent := componentType]> (<[LabelKeyK8sName := componentBaseName]> ModuleLabels).

Definition DefaultSelector (componentBaseName : string) : labels := {[LabelKeyK8sName := componentBaseName]}.

(** [maps.Copy(dst, src)]: the source wins. *)
Definition maps_Copy (dst src : labels) : labels := src ∪ dst.

(** ** Names (names.go, resources.go) *)

Definition MetricsServiceName (componentName : string) : string := componentName +:+ "-metrics".
Definition NetworkPolicyPrefix : string := "kyma-project.io--".
Definition ClusterTrustBundleVolumeName : string := "custom-ca-bundle".
Definition ClusterTrustBundleFileName : string := "ca-certificates.crt".
Definition ClusterTrustBundleVolumePath : string := "/etc/ssl/certs".

(** ** Pods (pod_spec.go) *)

Inductive IntOrString := FromInt (n : Z) | FromString (s : string).

Record Capabilities := mkCapabilities { cap_Add : list string; cap_Drop : list string }.
Record SecurityContext := mkSecurityContext {
  sctx_Privileged : option bool; sctx_RunAsNonRoot : option bool; sctx_ReadOnlyRootFilesystem : option bool;
  sctx_AllowPrivilegeEscalation : option bool; sctx_SeccompProfile : option string;
  sctx_Capabilities : Capabilities; sctx_RunAsUser : option Z; sctx_RunAsGroup : option Z
}.
Record PodSecurityContext := mkPodSecurityContext {
  psc_RunAsNonRoot : option bool; psc_RunAsUser : option Z; psc_SeccompProfile : option string }.

Record EnvVar := mkEnvVar { ev_Name : string; ev_Value : string; ev_FieldPath : option string }.
Record EnvFromSource := mkEnvFrom { ef_SecretName : string; ef_Optional : bool }.
Record ContainerPort := mkContainerPort { cp_Name : string; cp_ContainerPort : Z }.
Record ResourceRequirements := mkResources { rr_Limits : gmap string Z; rr_Requests : gmap string Z }.
Record VolumeMount := mkMount { vm_Name : string; vm_MountPath : string; vm_SubPath : string; vm_ReadOnly : bool }.

Inductive ProbeHandler := HTTPGet (path : string) (port : IntOrString) | TCPSocket (port : IntOrString).
Record Probe := mkProbe {
  pb_Handler : ProbeHandler; pb_FailureThreshold : Z; pb_PeriodSeconds : Z; pb_TimeoutSeconds : Z; pb_SuccessThreshold : Z }.

Inductive VolumeSource :=
| ConfigMapVolume (name : string) (items : list (string * string)) (optional : bool) (defaultMode : option Z)
| HostPathVolume (path : string) (type : option string)
| EmptyDirVolume (sizeLimit : option Z)
| SecretVolume (name : string)
| TrustBundleVolume (name path : string).
Record Volume := mkVolume { vol_Name : string; vol_Source : VolumeSource }.

Record Container := mkContainer {
  ct_Name : string; ct_Image : string; ct_Command : list string; ct_Args : list string; ct_Ports : list ContainerPort;
  ct_Env : list EnvVar; ct_EnvFrom : list EnvFromSource; ct_Resources : ResourceRequirements;
  ct_VolumeMounts : list VolumeMount; ct_LivenessProbe : option Probe; ct_ReadinessProbe : option Probe;
  ct_SecurityContext : SecurityContext
}.

Record Toleration := mkToleration { tol_Effect : string; tol_Operator : string }.
Record AffinityTerm := mkAffinityTerm { at_Weight : Z; at_TopologyKey : string; at_MatchLabels : labels }.
Record Affinity := mkAffinity { af_PodAntiAffinity : list AffinityTerm }.

Record PodSpec := mkPodSpec {
  ps_ServiceAccountName : string; ps_SecurityContext : PodSecurityContext; ps_Containers : list Container;
  ps_InitContainers : list Container; ps_Volumes : list Volume; ps_Tolerations : list Toleration;
  ps_Affinity : option Affinity; ps_PriorityClassName : string; ps_TerminationGracePeriodSeconds : option Z;
  ps_ImagePullSecrets : list string
}.

Definition UserDefault : Z := 10001.
Definition GroupRoot : Z := 0.

Definition hardenedSecurityContext : SecurityContext :=
  mkSecurityContext (Some false) (Some true) (Some true) (Some false) (Some "RuntimeDefault") (mkCapabilities [] ["ALL"]) None None.
Definition hardenedPodSecurityContext : PodSecurityContext := mkPodSecurityContext (Some true) None (Some "RuntimeDefault").

Definition CriticalDaemonSetTolerations : list Toleration :=
  [mkToleration "NoExecute" "Exists"; mkToleration "NoSchedule" "Exists"].

Definition PodSpecOption : Type := PodSpec -> PodSpec.
Definition ContainerOption : Type := Container -> Container.

Definition new_container (name image : string) (opts : list ContainerOption) : Container :=
  fold_left (fun c opt => opt c) opts
    (mkContainer name image [] [] [] [] [] (mkResources ∅ ∅) [] None None hardenedSecurityContext).

Section Options.
Local Open Scope list_scope.

Definition WithAffinity (affinity : Affinity) : PodSpecOption := fun p =>
  let '(mkPodSpec sa sc cs ics vs ts _ pc tg ips) := p in mkPodSpec sa sc cs ics vs ts (Some affinity) pc tg ips.
Definition WithContainer (name image : string) (opts : list ContainerOption) : PodSpecOption := fun p =>
  let '(mkPodSpec sa sc cs ics vs ts af pc tg ips) := p in
  mkPodSpec sa sc (cs ++ [new_container name image opts]) ics vs ts af pc tg ips.
Definition WithInitContainer (name image : string) (opts : list ContainerOption) : PodSpecOption := fun p =>
  let '(mkPodSpec sa sc cs ics vs ts af pc tg ips) := p in
  mkPodSpec sa sc cs (ics ++ [new_container name image opts]) vs ts af pc tg ips.
Definition WithVolumes (volumes : list Volume) : PodSpecOption := fun p =>
  let '(mkPodSpec sa sc cs ics vs ts af pc tg ips) := p in mkPodSpec sa sc cs ics (vs ++ volumes) ts af pc tg ips.
Definition WithPodRunAsUser (userID : Z) : PodSpecOption := fun p =>
  let '(mkPodSpec sa (mkPodSecurityContext nr _ sp) cs ics vs ts af pc tg ips) := p in
  mkPodSpec sa (mkPodSecurityContext nr (Some userID) sp) cs ics vs ts af pc tg ips.
Definition WithPriorityClass (priorityClassName : string) : PodSpecOption := fun p =>
  let '(mkPodSpec sa sc cs ics vs ts af _ tg ips) := p in mkPodSpec sa sc cs ics vs ts af priorityClassName tg ips.
Definition WithTerminationGracePeriodSeconds (seconds : Z) : PodSpecOption := fun p =>
  let '(mkPodSpec sa sc cs ics vs ts af pc _ ips) := p in mkPodSpec sa sc cs ics vs ts af pc (Some seconds) ips.
Definition WithTolerations (tolerations : list Toleration) : PodSpecOption := fun p =>
  let '(mkPodSpec sa sc cs ics vs ts af pc tg ips) := p in mkPodSpec sa sc cs ics vs (ts ++ tolerations) af pc tg ips.
Definition WithImagePullSecretName (name : string) : PodSpecOption := fun p =>
  let '(mkPodSpec sa sc cs ics vs ts af pc tg ips) := p in
  if str_eqb name "" then p else mkPodSpec sa sc cs ics vs ts af pc tg (ips ++ [name]).
Definition WithClusterTrustBundleVolume (clusterTrustBundleName : string) : PodSpecOption := fun p =>
  if str_eqb clusterTrustBundleName "" then p
  else WithVolumes [mkVolume ClusterTrustBundleVolumeName
                      (TrustBundleVolume clusterTrustBundleName ClusterTrustBundleFileName)] p.

Definition WithCommand (command : list string) : ContainerOption := fun c =>
  let '(mkContainer n i _ ar po ev ef re vm lp rp sc) := c in mkContainer n i command ar po ev ef re vm lp rp sc.
Definition WithArgs (args : list string) : ContainerOption := fun c =>
  let '(mkContainer n i cm _ po ev ef re vm lp rp sc) := c in mkContainer n i cm args po ev ef re vm lp rp sc.
Definition WithPort (name : string) (port : Z) : ContainerOption := fun c =>
  let '(mkContainer n i cm ar po ev ef re vm lp rp sc) := c in
  mkContainer n i cm ar (po ++ [mkContainerPort name port]) ev ef re vm lp rp sc.
Definition add_env (v : EnvVar) : ContainerOption := fun c =>
  let '(mkContainer n i cm ar po ev ef re vm lp rp sc) := c in mkContainer n i cm ar po (ev ++ [v]) ef re vm lp rp sc.
Definition WithEnvVarFromField (envVarName fieldPath : string) : ContainerOption :=
  add_env (mkEnvVar envVarName "" (Some fieldPath)).
Definition WithEnvVarsFromSecret (secretName : string) : ContainerOption := fun c =>
  let '(mkContainer n i cm ar po ev ef re vm lp rp sc) := c in
  mkContainer n i cm ar po ev (ef ++ [mkEnvFrom secretName true]) re vm lp rp sc.
Definition WithGoMemLimitEnvVar (memory : Z) : ContainerOption :=
  add_env (mkEnvVar "GOMEMLIMIT" (pretty (Z.quot memory 100 * 80)%Z) None).
Definition WithFIPSGoDebugEnvVar (enableFIPSMode : bool) : ContainerOption :=
  add_env (mkEnvVar "GODEBUG" (if enableFIPSMode then "fips140=only,tlsmlkem=0" else "fips140=off")%string None).
Definition WithResources (resources : ResourceRequirements) : ContainerOption := fun c =>
  let '(mkContainer n i cm ar po ev ef _ vm lp rp sc) := c in mkContainer n i cm ar po ev ef resources vm lp rp sc.
Definition WithVolumeMounts (volumeMounts : list VolumeMount) : ContainerOption := fun c =>
  let '(mkContainer n i cm ar po ev ef re vm lp rp sc) := c in
  mkContainer n i cm ar po ev ef re (vm ++ volumeMounts) lp rp sc.
Definition WithProbes (liveness readiness : option Probe) : ContainerOption := fun c =>
  let '(mkContainer n i cm ar po ev ef re vm lp rp sc) := c in
  mkContainer n i cm ar po ev ef re vm (match liveness with Some _ => liveness | None => lp end)
    (match readiness with Some _ => readiness | None => rp end) sc.
Definition with_security (f : SecurityContext -> SecurityContext) : ContainerOption := fun c =>
  let '(mkContainer n i cm ar po ev ef re vm lp rp sc) := c in mkContainer n i cm ar po ev ef re vm lp rp (f sc).
Definition WithCapabilities (capabilities : list string) : ContainerOption :=
  with_security (fun '(mkSecurityContext pr nr ro pe sp (mkCapabilities ad dr) u g) =>
    mkSecurityContext pr nr ro pe sp (mkCapabilities (ad ++ capabilities) dr) u g).
Definition WithRunAsRoot : ContainerOption :=
  with_security (fun '(mkSecurityContext pr _ ro pe sp cap u g) => mkSecurityContext pr (Some false) ro pe sp cap u g).
Definition WithRunAsGroup (groupID : Z) : ContainerOption :=
  with_security (fun '(mkSecurityContext pr nr ro pe sp cap u _) => mkSecurityContext pr nr ro pe sp cap u (Some groupID)).
Definition WithRunAsUser (userID : Z) : ContainerOption :=
  with_security (fun '(mkSecurityContext pr nr ro pe sp cap _ g) => mkSecurityContext pr nr ro pe sp cap (Some userID) g).
Definition WithClusterTrustBundleVolumeMount (clusterTrustBundleName : string) : ContainerOption := fun c =>
  if str_eqb clusterTrustBundleName "" then c
  else WithVolumeMounts [mkMount ClusterTrustBundleVolumeName ClusterTrustBundleVolumePath "" true] c.

End Options.

Definition MakePodSpec (baseName : string) (opts : list PodSpecOption) : PodSpec :=
  fold_left (fun p opt => opt p) opts (mkPodSpec baseName hardenedPodSecurityContext [] [] [] [] None "" None []).

Definition MakeResourceRequirements (memoryLimit memoryRequest cpuRequest : Z) : ResourceRequirements :=
  mkResources {["memory" := memoryLimit]} {["cpu" := cpuRequest; "memory" := memoryRequest]}.

(** Mebibytes. *)
Definition Mi (n : Z) : Z := (n * 1024 * 1024)%Z.

Definition WithChownInitContainerOpts (checkpointVolumePath : string) (volumeMounts : list VolumeMount) : list ContainerOption :=
  [WithCommand ["/chown"; pretty UserDefault +:+ ":" +:+ pretty GroupRoot; checkpointVolumePath];
   WithRunAsRoot; WithRunAsUser 0; WithCapabilities ["CHOWN"]; WithVolumeMounts volumeMounts;
   WithResources (MakeResourceRequirements (Mi 50) (Mi 10) 10)].

(** ** Network policies (networkpolicy.go) *)

(** A selector: the labels it asks for; the empty one selects everything. *)
Record NetworkPolicyPeer := mkPeer { pe_PodSelector : labels; pe_NamespaceSelector : option labels }.
Record NetworkPolicyRule := mkNPRule { npr_Peers : list NetworkPolicyPeer; npr_Ports : list Z }.
Record NetworkPolicySpec := mkNPSpec {
  np_PodSelector : labels; np_Ingress : list NetworkPolicyRule; np_Egress : list NetworkPolicyRule; np_PolicyTypes : list string }.

Definition NetworkPolicyOption : Type := object NetworkPolicySpec -> object NetworkPolicySpec.

Definition plain_meta (name : NamespacedName) : FullMeta := mkFullMeta name "" None None [].

Definition np_spec (f : NetworkPolicySpec -> NetworkPolicySpec) : NetworkPolicyOption := fun np =>
  mkObject (ob_Meta np) (f (ob_Content np)).
Definition add_ingress (r : NetworkPolicyRule) : NetworkPolicyOption :=
  np_spec (fun '(mkNPSpec s i e t) => mkNPSpec s (i ++ [r])%list e t).
Definition add_egress (r : NetworkPolicyRule) : NetworkPolicyOption :=
  np_spec (fun '(mkNPSpec s i e t) => mkNPSpec s i (e ++ [r])%list t).

(** All ports are TCP. *)
Definition makeNetworkPolicyPorts (ports : list Z) : list Z := ports.

Definition WithNameSuffix (suffix : string) : NetworkPolicyOption := fun np =>
  let m := ob_Meta np in
  mkObject (mkFullMeta (mkNN (nn_Namespace (fm_Key m)) (nn_Name (fm_Key m) +:+ "-" +:+ suffix)) (fm_ResourceVersion m)
              (fm_Labels m) (fm_Annotations m) (fm_OwnerReferences m)) (ob_Content np).
Definition WithIngressFromAny (ports : list Z) : NetworkPolicyOption := add_ingress (mkNPRule [] (makeNetworkPolicyPorts ports)).
Definition WithIngressFromPods (selector : labels) (ports : list Z) : NetworkPolicyOption :=
  add_ingress (mkNPRule [mkPeer selector None] (makeNetworkPolicyPorts ports)).
Definition WithIngressFromPodsInAllNamespaces (selector : labels) (ports : list Z) : NetworkPolicyOption :=
  add_ingress (mkNPRule [mkPeer selector (Some ∅)] (makeNetworkPolicyPorts ports)).
Definition in_namespace (namespace : string) : labels := {["kubernetes.io/metadata.name" := namespace]}.
Definition WithIngressFromPodsInNamespace (namespace : string) (selector : labels) (ports : list Z) : NetworkPolicyOption :=
  add_ingress (mkNPRule [mkPeer selector (Some (in_namespace namespace))] (makeNetworkPolicyPorts ports)).
Definition WithEgressToAny : NetworkPolicyOption := add_egress (mkNPRule [] []).
Definition WithEgressToPods (selector : labels) (ports : list Z) : NetworkPolicyOption :=
  add_egress (mkNPRule [mkPeer selector None] (makeNetworkPolicyPorts ports)).
Definition WithEgressToPodsInAllNamespaces (selector : labels) (ports : list Z) : NetworkPolicyOption :=
  add_egress (mkNPRule [mkPeer selector (Some ∅)] (makeNetworkPolicyPorts ports)).
Definition WithEgressToPodsInNamespace (namespace : string) (selector : labels) (ports : list Z) : NetworkPolicyOption :=
  add_egress (mkNPRule [mkPeer selector (Some (in_namespace namespace))] (makeNetworkPolicyPorts ports)).
Definition WithIngressRule (rule : NetworkPolicyRule) : NetworkPolicyOption := add_ingress rule.
Definition WithEgressRule (rule : NetworkPolicyRule) : NetworkPolicyOption := add_egress rule.

Definition MakeNetworkPolicy (name : NamespacedName) (selectorLabels : labels) (opts : list NetworkPolicyOption) :
    object NetworkPolicySpec :=
  let np := fold_left (fun np opt => opt np) opts
    (mkObject (plain_meta (mkNN (nn_Namespace name) (NetworkPolicyPrefix +:+ nn_Name name))) (mkNPSpec selectorLabels [] [] [])) in
  np_spec (fun '(mkNPSpec s i e t) =>
    let t := match i with [] => t | _ => (t ++ ["Ingress"])%list end in
    let t := match e with [] => t | _ => (t ++ ["Egress"])%list end in
    mkNPSpec s i e t) np.

Definition CleanupOldNetworkPolicy {W} `{ObjectClient W NetworkPolicySpec} (w : W) (name : NamespacedName) :
    W * option apierror :=
  match obj_delete (S := NetworkPolicySpec) w name with
  | (w, Some err) => if IsNotFound err then (w, None) else (w, Some err)
  | (w, None) => (w, None)
  end.

(** ** The labelling client (k8sclients/labeler.go) *)

Definition ensureLabels {S} (defaultLabels : labels) (o : object S) : object S :=
  let m := ob_Meta o in
  mkObject (mkFullMeta (fm_Key m) (fm_ResourceVersion m) (Some (maps_Copy (default ∅ (fm_Labels m)) defaultLabels))
              (fm_Annotations m) (fm_OwnerReferences m)) (ob_Content o).

Definition NewLabeler {W S} (l : labels) (inner : ObjectClient W S) : ObjectClient W S := {|
  obj_get := obj_get;
  obj_list := obj_list;
  obj_create w o := obj_create w (ensureLabels l o);
  obj_update w o := obj_update w (ensureLabels l o);
  obj_delete := obj_delete
|}.

(** ** Checksums (configchecksum/checksum.go) *)

Record ConfigMapData := mkConfigMapData { cmd_Data : gmap string string }.
Record SecretData := mkSecretData { sd_Data : gmap string string }.


Definition key_le (a b : string) : Prop := String.leb a b = true.
#[export] Instance key_le_dec : RelDecision key_le.
Proof. intros a b. unfold key_le. apply _. Defined.

Definition sortKeys (m : gmap string string) : list string := merge_sort key_le (map_to_list m).*1.

Definition less (x y : FullMeta) : bool :=
  if negb (str_eqb (nn_Namespace (fm_Key x)) (nn_Namespace (fm_Key y))) then
    String.ltb (nn_Namespace (fm_Key x)) (nn_Namespace (fm_Key y))
  else String.ltb (nn_Name (fm_Key x)) (nn_Name (fm_Key y)).

Definition object_le {S} (x y : object S) : Prop := less (ob_Meta y) (ob_Meta x) = false.
#[export] Instance object_le_dec {S} : RelDecision (@object_le S).
Proof. intros a b. unfold object_le. apply _. Defined.

(** [sortConfigMaps] and [sortSecrets] *)
Definition sort_objects {S} (unsorted : list (object S)) : list (object S) := merge_sort object_le unsorted.

(** What is written to the hash for a map. *)
Definition add_map (m : gmap string string) : string :=
  String.concat "" (map (fun k => k +:+ default "" (m !! k)) (sortKeys m)).

Definition checksum_input (configMaps : list (object ConfigMapData)) (secrets : list (object SecretData)) : string :=
  String.concat "" (map (fun cm => add_map (cmd_Data (ob_Content cm))) (sort_objects configMaps)) +:+
  String.concat "" (map (fun s => add_map (sd_Data (ob_Content s))) (sort_objects secrets)).

(** [sha256] and its hexadecimal text are one parameter. *)
Definition Calculate (sha256 : string -> string) (configMaps : list (object ConfigMapData)) (secrets : list (object SecretData)) :
    string := sha256 (checksum_input configMaps secrets).
