(* ===== verification/OtelResources.v ===== *)
(** * Resources of the OTLP gateway and of the agents (internal/resources/otelcollector)

    The builders of all objects of the gateway, the log agent and the metric agent, and
    the sequences of writes and deletions that apply and remove them. *)
From Stdlib Require Import Ascii.
From stdpp Require Import base gmap strings list pretty.
From S2P Require Import Prelude Kube GoErrors K8sUtils Resources.
Local Open Scope string_scope.

(** ** Objects *)

Record ServiceAccount := mkServiceAccount {}.
Record PolicyRule := mkPolicyRule {
  pr_APIGroups : list string; pr_Resources : list string; pr_Verbs : list string; pr_NonResourceURLs : list string }.
Record ClusterRole := mkClusterRole { cr_Rules : list PolicyRule }.
Record Role := mkRole { ro_Rules : list PolicyRule }.
Record Subject := mkSubject { su_Kind : string; su_Name : string; su_Namespace : string }.
Record RoleRef := mkRoleRef { rf_APIGroup : string; rf_Kind : string; rf_Name : string }.
Record ClusterRoleBinding := mkClusterRoleBinding { crb_Subjects : list Subject; crb_RoleRef : RoleRef }.
Record RoleBinding := mkRoleBinding { rb_Subjects : list Subject; rb_RoleRef : RoleRef }.
Record ServicePort := mkServicePort { sp_Name : string; sp_Protocol : string; sp_Port : Z; sp_TargetPort : IntOrString }.
Record ServiceSpec := mkServiceSpec {
  ss_Ports : list ServicePort; ss_Selector : labels; ss_Type : string; ss_InternalTrafficPolicy : option string }.
(** The Pod annotations are a part of [workload]. *)
Record DaemonSetSpec := mkDaemonSetSpec {
  ds_Selector : labels; ds_PodLabels : labels; ds_PodSpec : PodSpec; ds_RollingUpdate : option (Z * Z) }.
Record DeploymentSpec := mkDeploymentSpec {
  dp_Replicas : Z; dp_Selector : labels; dp_PodLabels : labels; dp_PodSpec : PodSpec }.
Record VPASpec := mkVPASpec {
  vpa_TargetKind : string; vpa_TargetName : string; vpa_UpdateMode : string; vpa_ContainerName : string;
  vpa_ControlledResources : list string; vpa_MinAllowedMemory : Z; vpa_MaxAllowedMemory : Z; vpa_ControlledValues : string }.
Record DestinationRuleSpec := mkDestinationRule { dr_Host : string; dr_TLSMode : string }.
Record PeerAuthenticationSpec := mkPeerAuthentication { pa_Selector : labels; pa_MTLSMode : string }.

(** The client, by kind. *)
Class Cluster (W : Type) := {
  cl_sa :: ObjectClient W ServiceAccount;
  cl_cr :: ObjectClient W ClusterRole;
  cl_crb :: ObjectClient W ClusterRoleBinding;
  cl_role :: ObjectClient W Role;
  cl_rb :: ObjectClient W RoleBinding;
  cl_svc :: ObjectClient W (service ServiceSpec);
  cl_np :: ObjectClient W NetworkPolicySpec;
  cl_secret :: ObjectClient W SecretData;
  cl_cm :: ObjectClient W ConfigMapData;
  cl_ds :: ObjectClient W (workload DaemonSetSpec);
  cl_dep :: ObjectClient W (workload DeploymentSpec);
  cl_vpa :: ObjectClient W VPASpec;
  cl_dr :: ObjectClient W DestinationRuleSpec;
  cl_pa :: ObjectClient W PeerAuthenticationSpec
}.

Definition new_service (ports : list ServicePort) (selector : labels) (policy : option string) : service ServiceSpec :=
  mkService [] None "" [] (mkServiceSpec ports selector "ClusterIP" policy).

(** ** Names and ports *)

Definition names_LogAgent : string := "telemetry-log-agent".
Definition names_MetricAgent : string := "telemetry-metric-agent".
Definition names_OTLPGateway : string := "telemetry-otlp-gateway".
Definition names_OTLPService : string := "telemetry-otlp".
Definition names_OTLPLogsService : string := "telemetry-otlp-logs".
Definition names_OTLPTracesService : string := "telemetry-otlp-traces".
Definition names_OTLPMetricsService : string := "telemetry-otlp-metrics".
Definition ports_OTLPHTTP : Z := 4318.
Definition ports_OTLPGRPC : Z := 4317.
Definition ports_Metrics : Z := 8888.
Definition ports_HealthCheck : Z := 13133.
Definition ports_IstioEnvoyTelemetry : Z := 15090.
Definition configFileName : string := "relay.conf".
Definition containerName : string := "collector".
Definition fieldPathPodIP : string := "status.podIP".
Definition fieldPathNodeName : string := "spec.nodeName".
Definition EnvVarCurrentPodIP : string := "MY_POD_IP".
Definition EnvVarCurrentNodeName : string := "MY_NODE_NAME".

(** ** Permissions (rbac.go) *)

Record rbac := mkRbac {
  rbac_clusterRole : option (object ClusterRole);
  rbac_clusterRoleBinding : option (object ClusterRoleBinding);
  rbac_role : option (object Role);
  rbac_roleBinding : option (object RoleBinding);
  rbac_component : string
}.

Definition RBACOption : Type := rbac -> NamespacedName -> rbac.
Definition ClusterRoleOption : Type := list PolicyRule -> list PolicyRule.
Definition RoleOption : Type := list PolicyRule -> list PolicyRule.

Definition newRBAC (name : NamespacedName) (componentType : string) (options : list RBACOption) : rbac :=
  fold_left (fun r option => option r name) options (mkRbac None None None None componentType).

Definition withClusterRole (options : list ClusterRoleOption) : RBACOption := fun r name =>
  mkRbac (Some (mkObject (plain_meta name) (mkClusterRole (fold_left (fun rules o => o rules) options []))))
    (rbac_clusterRoleBinding r) (rbac_role r) (rbac_roleBinding r) (rbac_component r).
Definition service_account_of (name : NamespacedName) : Subject := mkSubject "ServiceAccount" (nn_Name name) (nn_Namespace name).
Definition withClusterRoleBinding : RBACOption := fun r name =>
  mkRbac (rbac_clusterRole r)
    (Some (mkObject (plain_meta name) (mkClusterRoleBinding [service_account_of name]
       (mkRoleRef "rbac.authorization.k8s.io" "ClusterRole" (nn_Name name)))))
    (rbac_role r) (rbac_roleBinding r) (rbac_component r).
Definition withRole (options : list RoleOption) : RBACOption := fun r name =>
  mkRbac (rbac_clusterRole r) (rbac_clusterRoleBinding r)
    (Some (mkObject (plain_meta name) (mkRole (fold_left (fun rules o => o rules) options []))))
    (rbac_roleBinding r) (rbac_component r).
Definition withRoleBinding : RBACOption := fun r name =>
  mkRbac (rbac_clusterRole r) (rbac_clusterRoleBinding r) (rbac_role r)
    (Some (mkObject (plain_meta name) (mkRoleBinding [service_account_of name]
       (mkRoleRef "rbac.authorization.k8s.io" "Role" (nn_Name name)))))
    (rbac_component r).

Definition reads : list string := ["get"; "list"; "watch"].
Definition may_read (group : string) (resources : list string) : PolicyRule := mkPolicyRule [group] resources reads [].
Definition append_rules (rules : list PolicyRule) : list PolicyRule -> list PolicyRule := fun rs => (rs ++ rules)%list.

Definition withLeaderElectionRules : RoleOption :=
  append_rules [mkPolicyRule ["coordination.k8s.io"] ["leases"]
                  ["get"; "list"; "watch"; "create"; "update"; "patch"; "delete"] []].
Definition withK8sClusterRules : ClusterRoleOption :=
  append_rules
    [may_read "" ["events"; "namespaces"; "namespaces/status"; "nodes"; "nodes/spec"; "persistentvolumes";
                  "persistentvolumeclaims"; "pods"; "pods/status"; "replicationcontrollers";
                  "replicationcontrollers/status"; "resourcequotas"; "services"];
     may_read "discovery.k8s.io" ["endpointslices"];
     may_read "apps" ["daemonsets"; "deployments"; "replicasets"; "statefulsets"];
     may_read "extensions" ["daemonsets"; "deployments"; "replicasets"];
     may_read "batch" ["jobs"; "cronjobs"];
     may_read "autoscaling" ["horizontalpodautoscalers"]].
Definition withKubeletStatsRules : ClusterRoleOption :=
  append_rules [may_read "" ["nodes"; "nodes/stats"; "nodes/proxy"; "nodes/pods"; "persistentvolumeclaims"; "persistentvolumes"]].
Definition withPrometheusRules : ClusterRoleOption :=
  append_rules [may_read "" ["nodes"; "nodes/metrics"; "services"; "endpoints"; "pods"];
                mkPolicyRule [] [] ["get"] ["/metrics"; "/metrics/cadvisor"]].
Definition withK8sAttributeRules : ClusterRoleOption :=
  append_rules [may_read "" ["namespaces"; "pods"; "nodes"]; may_read "apps" ["replicasets"]].
Definition withKymaStatsRules : ClusterRoleOption :=
  append_rules [may_read "operator.kyma-project.io" ["telemetries"]; may_read "telemetry.kyma-project.io" ["metricpipelines"];
                may_read "telemetry.kyma-project.io" ["tracepipelines"]; may_read "telemetry.kyma-project.io" ["logpipelines"]].

Definition makeMetricAgentRBAC (namespace : string) : rbac :=
  newRBAC (mkNN namespace names_MetricAgent) LabelValueK8sComponentAgent
    [withClusterRole [withKubeletStatsRules; withPrometheusRules; withK8sClusterRules]; withClusterRoleBinding;
     withRole [withLeaderElectionRules]; withRoleBinding].
Definition makeLogAgentRBAC (namespace : string) : rbac :=
  newRBAC (mkNN namespace names_LogAgent) LabelValueK8sComponentAgent
    [withClusterRole [withK8sAttributeRules]; withClusterRoleBinding].
Definition makeOTLPGatewayRBAC (namespace : string) : rbac :=
  newRBAC (mkNN namespace names_OTLPGateway) LabelValueK8sComponentGateway
    [withClusterRole [withK8sAttributeRules; withKymaStatsRules]; withClusterRoleBinding;
     withRole [withLeaderElectionRules]; withRoleBinding].

(** ** Common objects (core.go, core_pod_spec.go, workload.go) *)

Definition makeServiceAccount (name : NamespacedName) : object ServiceAccount := mkObject (plain_meta name) mkServiceAccount.
Definition makeConfigMap (name : NamespacedName) (collectorConfigYAML : string) : object ConfigMapData :=
  mkObject (plain_meta name) (mkConfigMapData {[configFileName := collectorConfigYAML]}).
Definition makeSecret (name : NamespacedName) (secretData : gmap string string) : object SecretData :=
  mkObject (plain_meta name) (mkSecretData secretData).

Definition makeMetricsService (name : NamespacedName) : object (service ServiceSpec) :=
  mkObject
    (mkFullMeta (mkNN (nn_Namespace name) (MetricsServiceName (nn_Name name))) ""
       (Some {[LabelKeyTelemetrySelfMonitor := LabelValueTelemetrySelfMonitor]})
       (Some {[AnnotationKeyPrometheusScrape := "true"; AnnotationKeyPrometheusPort := pretty ports_Metrics;
               AnnotationKeyPrometheusScheme := "http"]}) [])
    (new_service [mkServicePort "http-metrics" "TCP" ports_Metrics (FromInt ports_Metrics)] (DefaultSelector (nn_Name name)) None).

Definition makeVPA (name : NamespacedName) (minAllowedMemory maxAllowedMemory : Z) : object VPASpec :=
  let maxAllowedMemory := if (maxAllowedMemory <? minAllowedMemory)%Z then minAllowedMemory else maxAllowedMemory in
  mkObject (plain_meta name)
    (mkVPASpec "DaemonSet" (nn_Name name) "InPlaceOrRecreate" containerName ["memory"] minAllowedMemory maxAllowedMemory
       "RequestsAndLimits").

Record WorkloadMetadata := mkWorkloadMetadata {
  wm_ResourceLabels : labels; wm_ResourceAnnotations : labels; wm_PodLabels : labels; wm_PodAnnotations : labels }.

Definition MakeWorkloadMetadata (globals : Global) (baseName componentType : string) (extraPodLabels extraPodAnnotations : labels) :
    WorkloadMetadata :=
  mkWorkloadMetadata
    (maps_Copy ∅ (g_additionalWorkloadLabels globals))
    (maps_Copy ∅ (g_additionalWorkloadAnnotations globals))
    (maps_Copy (maps_Copy (maps_Copy ∅ (DefaultLabels baseName componentType)) (g_additionalWorkloadPodLabels globals)) extraPodLabels)
    (maps_Copy (maps_Copy ∅ (g_additionalWorkloadPodAnnotations globals)) extraPodAnnotations).

Definition daemon_set (baseName namespace : string) (metadata : WorkloadMetadata) (podSpec : PodSpec)
    (rollingUpdate : option (Z * Z)) : object (workload DaemonSetSpec) :=
  mkObject
    (mkFullMeta (mkNN namespace baseName) "" (Some (wm_ResourceLabels metadata)) (Some (wm_ResourceAnnotations metadata)) [])
    (mkWorkload (Some (wm_PodAnnotations metadata))
       (mkDaemonSetSpec (DefaultSelector baseName) (wm_PodLabels metadata) podSpec rollingUpdate)).
Definition makeDaemonSet (baseName namespace : string) (metadata : WorkloadMetadata) (podSpec : PodSpec) :
    object (workload DaemonSetSpec) := daemon_set baseName namespace metadata podSpec None.
(** With the update strategy maxUnavailable 0, maxSurge 1. *)
Definition makeGatewayDaemonSet (baseName namespace : string) (metadata : WorkloadMetadata) (podSpec : PodSpec) :
    object (workload DaemonSetSpec) := daemon_set baseName namespace metadata podSpec (Some (0, 1)%Z).
Definition makeDeployment (baseName namespace : string) (replicas : Z) (metadata : WorkloadMetadata) (podSpec : PodSpec) :
    object (workload DeploymentSpec) :=
  mkObject
    (mkFullMeta (mkNN namespace baseName) "" (Some (wm_ResourceLabels metadata)) (Some (wm_ResourceAnnotations metadata)) [])
    (mkWorkload (Some (wm_PodAnnotations metadata))
       (mkDeploymentSpec replicas (DefaultSelector baseName) (wm_PodLabels metadata) podSpec)).

Definition makePodSpec (baseName image : string) (podOpts : list PodSpecOption) (containerOpts : list ContainerOption) : PodSpec :=
  let volumes := [mkVolume "config" (ConfigMapVolume baseName [(configFileName, configFileName)] false None)] in
  let volumeMounts := [mkMount "config" "/conf" "" false] in
  let healthProbe := Some (mkProbe (HTTPGet "/" (FromInt ports_HealthCheck)) 0 0 0 0) in
  let defaultContainerOpts :=
    [WithArgs ["--config=/conf/" +:+ configFileName]; WithEnvVarsFromSecret baseName; WithProbes healthProbe healthProbe;
     WithRunAsUser UserDefault; WithVolumeMounts volumeMounts] in
  let defaultPodOpts :=
    [WithContainer containerName image (defaultContainerOpts ++ containerOpts)%list; WithPodRunAsUser UserDefault;
     WithVolumes volumes] in
  MakePodSpec baseName (defaultPodOpts ++ podOpts)%list.

(** ** Sequences of writes and deletions *)

Section Steps.
Context {W : Type}.

(** A call with the text that its error is wrapped in, the empty text for an error that is
    returned as it is. *)
Definition step : Type := string * (W -> W * option apierror).

Definition step_error (what : string) (err : apierror) : goerror :=
  if str_eqb what "" then ApiError err else Wrapf what (ApiError err) "".

(** The first error ends the sequence. *)
Fixpoint run_steps (steps : list step) (w : W) : W * option goerror :=
  match steps with
  | [] => (w, None)
  | (what, f) :: rest =>
      match f w with
      | (w, Some err) => (w, Some (step_error what err))
      | (w, None) => run_steps rest w
      end
  end.

(** All calls are made, and their errors are joined. *)
Fixpoint run_all (steps : list step) (w : W) (allErrors : option goerror) : W * option goerror :=
  match steps with
  | [] => (w, allErrors)
  | (what, f) :: rest =>
      match f w with
      | (w, Some err) => run_all rest w (errors_join allErrors (step_error what err))
      | (w, None) => run_all rest w allErrors
      end
  end.

End Steps.
Arguments step : clear implicits.

Section Apply.
Context {W : Type} `{Cluster W}.
Context (DeepEqual : forall S, object S -> object S -> bool) (sha256 : string -> string).

(** The writes through a client that stamps labels. *)
Section Labelled.
Context (l : labels).

Definition w_service_account (o : object ServiceAccount) (w : W) :=
  @CreateOrUpdateServiceAccount W _ (NewLabeler l _) (DeepEqual _) w o.
Definition w_cluster_role (o : object ClusterRole) (w : W) := @CreateOrUpdateClusterRole W _ (NewLabeler l _) (DeepEqual _) w o.
Definition w_cluster_role_binding (o : object ClusterRoleBinding) (w : W) :=
  @CreateOrUpdateClusterRoleBinding W _ (NewLabeler l _) (DeepEqual _) w o.
Definition w_role (o : object Role) (w : W) := @CreateOrUpdateRole W _ (NewLabeler l _) (DeepEqual _) w o.
Definition w_role_binding (o : object RoleBinding) (w : W) := @CreateOrUpdateRoleBinding W _ (NewLabeler l _) (DeepEqual _) w o.
Definition w_service (o : object (service ServiceSpec)) (w : W) := @CreateOrUpdateService W _ (NewLabeler l _) w o.
Definition w_network_policy (o : object NetworkPolicySpec) (w : W) :=
  @CreateOrUpdateNetworkPolicy W _ (NewLabeler l _) (DeepEqual _) w o.
Definition w_secret (o : object SecretData) (w : W) := @CreateOrUpdateSecret W _ (NewLabeler l _) (DeepEqual _) w o.
Definition w_config_map (o : object ConfigMapData) (w : W) := @CreateOrUpdateConfigMap W _ (NewLabeler l _) (DeepEqual _) w o.
Definition w_daemon_set (o : object (workload DaemonSetSpec)) (w : W) := @CreateOrUpdateDaemonSet W _ (NewLabeler l _) w o.
Definition w_deployment (o : object (workload DeploymentSpec)) (w : W) := @CreateOrUpdateDeployment W _ (NewLabeler l _) w o.
Definition w_vpa (o : object VPASpec) (w : W) := @CreateOrUpdateVPA W _ (NewLabeler l _) w o.
Definition w_destination_rule (o : object DestinationRuleSpec) (w : W) := @CreateOrUpdateDestinationRule W _ (NewLabeler l _) w o.
Definition w_peer_authentication (o : object PeerAuthenticationSpec) (w : W) :=
  @CreateOrUpdatePeerAuthentication W _ (NewLabeler l _) w o.

Definition optional_step {S} (what : string) (f : object S -> W -> W * option apierror) (o : option (object S)) : list (step W) :=
  match o with Some o => [(what, f o)] | None => [] end.

Definition applyCommonResources (name : NamespacedName) (r : rbac) : list (step W) :=
  ([("failed to create service account: ", w_service_account (makeServiceAccount name))]
   ++ optional_step "failed to create cluster role: " w_cluster_role (rbac_clusterRole r)
   ++ optional_step "failed to create cluster role binding: " w_cluster_role_binding (rbac_clusterRoleBinding r)
   ++ optional_step "failed to create role: " w_role (rbac_role r)
   ++ optional_step "failed to create role binding: " w_role_binding (rbac_roleBinding r)
   ++ [("failed to create metrics service: ", w_service (makeMetricsService name));
       ("failed to cleanup old network policy: ", fun w => CleanupOldNetworkPolicy w name)])%list.

End Labelled.

(** The deletions of [deleteCommonResources]; a service keeps its error, which
    [DeleteObject] never returns for an object that is gone. *)
Definition delete_of (S : Type) `{ObjectClient W S} (key : NamespacedName) : W -> W * option apierror :=
  fun w => DeleteObject (S := S) w key.
Definition unless_gone (f : W -> W * option apierror) : W -> W * option apierror := fun w =>
  let '(w, err) := f w in (w, match err with Some e => if IsNotFound e then None else Some e | None => None end).

Definition deleteCommonResources (name : NamespacedName) : list (step W) :=
  [("failed to delete cluster role binding: ", unless_gone (delete_of ClusterRoleBinding name));
   ("failed to delete cluster role: ", unless_gone (delete_of ClusterRole name));
   ("failed to delete role binding: ", unless_gone (delete_of RoleBinding name));
   ("failed to delete role: ", unless_gone (delete_of Role name));
   ("failed to delete service account: ", unless_gone (delete_of ServiceAccount name));
   ("failed to delete metrics service: ",
      delete_of (service ServiceSpec) (mkNN (nn_Namespace name) (MetricsServiceName (nn_Name name))))].

(** [allErrors = errors.Join(allErrors, err)] for the joined error of a sequence. *)
Definition join_group (steps : list (step W)) (w : W) : W * option goerror :=
  let '(w, err) := run_all steps w None in
  (w, match err with Some e => errors_join None e | None => None end).

Definition delete_by_labels (selector : labels) : W -> W * option apierror :=
  fun w => DeleteObjectsByLabelSelector (S := NetworkPolicySpec) w selector.

(** ** The OTLP gateway (otlp_gateway.go) *)

Record GatewayApplyOptions := mkGatewayApplyOptions {
  go_CollectorConfigYAML : string;
  go_CollectorEnvVars : gmap string string;
  go_IstioEnabled : bool;
  go_Replicas : Z;
  go_ResourceRequirementsMultiplier : Z;
  go_VpaCRDExists : bool;
  go_VpaEnabled : bool;
  go_VPAMaxAllowedMemory : Z
}.

Record OTLPGatewayApplierDeleter := mkGatewayApplier {
  ga_globals : Global;
  ga_baseName : string;
  ga_extraPodLabels : labels;
  ga_image : string;
  ga_otlpServiceName : string;
  ga_rbac : rbac;
  ga_baseMemoryLimit : Z;
  ga_dynamicMemoryLimit : Z;
  ga_baseCPURequest : Z;
  ga_baseMemoryRequest : Z;
  ga_podOpts : list PodSpecOption;
  ga_containerOpts : list ContainerOption
}.

Definition otlpGatewayBaseMemoryLimit : Z := Mi 750.
Definition otlpGatewayDynamicMemoryLimit : Z := Mi 1000.
Definition otlpGatewayBaseCPURequest : Z := 100.
Definition otlpGatewayBaseMemoryRequest : Z := Mi 128.

Definition makePodAffinity (l : labels) : Affinity :=
  mkAffinity [mkAffinityTerm 100 LabelKeyK8sHostname l; mkAffinityTerm 100 LabelKeyK8sZone l].

Definition gateway_labels : labels :=
  {[LabelKeyTelemetryTraceIngest := LabelValueTrue; LabelKeyTelemetryTraceExport := LabelValueTrue;
    LabelKeyTelemetryLogIngest := LabelValueTrue; LabelKeyTelemetryLogExport := LabelValueTrue;
    LabelKeyTelemetryMetricIngest := LabelValueTrue; LabelKeyTelemetryMetricExport := LabelValueTrue;
    LabelKeyIstioInject := LabelValueTrue]}.

Definition NewOTLPGatewayApplierDeleter (globals : Global) (image priorityClassName : string) : OTLPGatewayApplierDeleter :=
  mkGatewayApplier globals names_OTLPGateway gateway_labels image names_OTLPService
    (makeOTLPGatewayRBAC (TargetNamespace globals))
    otlpGatewayBaseMemoryLimit otlpGatewayDynamicMemoryLimit otlpGatewayBaseCPURequest otlpGatewayBaseMemoryRequest
    [WithPriorityClass priorityClassName; WithAffinity (makePodAffinity (DefaultSelector names_OTLPGateway))]
    [WithEnvVarFromField EnvVarCurrentPodIP fieldPathPodIP; WithEnvVarFromField EnvVarCurrentNodeName fieldPathNodeName;
     WithFIPSGoDebugEnvVar (g_operateInFIPSMode globals)].

Definition gatewayIngressOTLPPorts : list Z := [ports_OTLPHTTP; ports_OTLPGRPC].
Definition gatewayIngressMetricsPorts (istioEnabled : bool) : list Z :=
  if istioEnabled then [ports_Metrics; ports_IstioEnvoyTelemetry] else [ports_Metrics].

Definition scraping_labels : labels := {[LabelKeyTelemetryMetricsScraping := LabelValueTelemetryMetricsScraping]}.

Definition makeGatewayNetworkPolicies (name : NamespacedName) (istioEnabled : bool) : list (object NetworkPolicySpec) :=
  [MakeNetworkPolicy name (DefaultSelector (nn_Name name))
     [WithNameSuffix "metrics"; WithIngressFromPodsInAllNamespaces scraping_labels (gatewayIngressMetricsPorts istioEnabled)];
   MakeNetworkPolicy name (DefaultSelector (nn_Name name)) [WithIngressFromAny gatewayIngressOTLPPorts; WithEgressToAny]].

Section Gateway.
Context (o : OTLPGatewayApplierDeleter).
Let namespace : string := TargetNamespace (ga_globals o).

Definition makeDestinationRule (name : string) : object DestinationRuleSpec :=
  mkObject (plain_meta (mkNN namespace name)) (mkDestinationRule (name +:+ "." +:+ namespace +:+ ".svc.cluster.local") "DISABLE").
Definition makePeerAuthentication : object PeerAuthenticationSpec :=
  mkObject (plain_meta (mkNN namespace (ga_baseName o))) (mkPeerAuthentication (DefaultSelector (ga_baseName o)) "PERMISSIVE").

Definition otlp_service (name : string) : object (service ServiceSpec) :=
  mkObject (plain_meta (mkNN namespace name))
    (new_service [mkServicePort "grpc-collector" "TCP" ports_OTLPGRPC (FromInt ports_OTLPGRPC);
                  mkServicePort "http-collector" "TCP" ports_OTLPHTTP (FromInt ports_OTLPHTTP)]
       (DefaultSelector (ga_baseName o)) (Some "Local")).
Definition makeOTLPService : object (service ServiceSpec) := otlp_service (ga_otlpServiceName o).
Definition makeLegacyOTLPService (legacyServiceName : string) : object (service ServiceSpec) := otlp_service legacyServiceName.

(** [for range n] adds [n] times, for a negative [n] never. *)
Definition makeGatewayResourceRequirements (opts : GatewayApplyOptions) : ResourceRequirements :=
  let memoryRequest := ga_baseMemoryRequest o in
  let cpuRequest := ga_baseCPURequest o in
  let memoryLimit := Nat.iter (Z.to_nat (go_ResourceRequirementsMultiplier opts))
                       (fun m => m + ga_dynamicMemoryLimit o)%Z (ga_baseMemoryLimit o) in
  let memoryLimit :=
    if negb (go_VPAMaxAllowedMemory opts =? 0)%Z then
      let maxMemoryCap := (go_VPAMaxAllowedMemory opts + go_VPAMaxAllowedMemory opts)%Z in
      if (maxMemoryCap <? memoryLimit)%Z then maxMemoryCap else memoryLimit
    else memoryLimit in
  let '(memoryRequest, memoryLimit) :=
    if go_VpaCRDExists opts && go_VpaEnabled opts then
      let memoryRequest := ga_baseMemoryRequest o in (memoryRequest, (ga_baseMemoryRequest o + memoryRequest)%Z)
    else (memoryRequest, memoryLimit) in
  mkResources {["memory" := memoryLimit]} {["cpu" := cpuRequest; "memory" := memoryRequest]}.

Definition makeAnnotations (configChecksum : string) (opts : GatewayApplyOptions) : labels :=
  let annotations : labels := {[AnnotationKeyChecksumConfig := configChecksum]} in
  if go_IstioEnabled opts then
    <[AnnotationKeyIstioInterceptionMode := AnnotationValueIstioInterceptionModeTProxy]>
      (<[AnnotationKeyIstioIncludeInboundPorts := ""]> annotations)
  else annotations.

Definition makeGatewayMetadata (configChecksum : string) (opts : GatewayApplyOptions) : WorkloadMetadata :=
  MakeWorkloadMetadata (ga_globals o) (ga_baseName o) LabelValueK8sComponentGateway (ga_extraPodLabels o)
    (makeAnnotations configChecksum opts).

Definition makeGatewayPodSpec (opts : GatewayApplyOptions) : PodSpec :=
  makePodSpec (ga_baseName o) (ga_image o)
    (ga_podOpts o
     ++ [WithTolerations CriticalDaemonSetTolerations; WithImagePullSecretName (g_imagePullSecretName (ga_globals o));
         WithClusterTrustBundleVolume (g_clusterTrustBundleName (ga_globals o))])%list
    (ga_containerOpts o
     ++ [WithResources (makeGatewayResourceRequirements opts);
         WithClusterTrustBundleVolumeMount (g_clusterTrustBundleName (ga_globals o))])%list.

(** The method [makeGatewayDaemonSet]. *)
Definition gateway_daemon_set (configChecksum : string) (opts : GatewayApplyOptions) : object (workload DaemonSetSpec) :=
  makeGatewayDaemonSet (ga_baseName o) namespace (makeGatewayMetadata configChecksum opts) (makeGatewayPodSpec opts).

(** [applyVPA]; the deletion goes to the plain client. *)
Definition applyVPA (l : labels) (name : NamespacedName) (opts : GatewayApplyOptions) : list (step W) :=
  if negb (go_VpaCRDExists opts) then []
  else if go_VpaEnabled opts then
    [("failed to create VPA: ", w_vpa l (makeVPA name (ga_baseMemoryRequest o) (go_VPAMaxAllowedMemory opts)))]
  else [("failed to delete VPA: ", delete_of VPASpec name)].

Definition mesh_services : list string :=
  [names_OTLPLogsService; names_OTLPTracesService; names_OTLPMetricsService; names_OTLPService].

Definition gateway_steps (opts : GatewayApplyOptions) : list (step W) :=
  let name := mkNN namespace (ga_baseName o) in
  let l := DefaultLabels (ga_baseName o) LabelValueK8sComponentGateway in
  let secret := makeSecret name (go_CollectorEnvVars opts) in
  let configMap := makeConfigMap name (go_CollectorConfigYAML opts) in
  let configChecksum := Calculate sha256 [configMap] [secret] in
  ([("failed to create env secret: ", w_secret l secret); ("failed to create configmap: ", w_config_map l configMap)]
   ++ map (fun np => ("failed to create agent network policies: ", w_network_policy l np))
        (makeGatewayNetworkPolicies name (go_IstioEnabled opts))
   ++ [("failed to create daemonset: ", w_daemon_set l (gateway_daemon_set configChecksum opts))]
   ++ applyVPA l name opts
   ++ [("failed to create otlp service: ", w_service l makeOTLPService);
       ("failed to create legacy log otlp service: ", w_service l (makeLegacyOTLPService names_OTLPLogsService));
       ("failed to create legacy trace otlp service: ", w_service l (makeLegacyOTLPService names_OTLPTracesService));
       ("failed to create legacy metric otlp service: ", w_service l (makeLegacyOTLPService names_OTLPMetricsService))]
   ++ (if go_IstioEnabled opts then
         map (fun svcName => ("failed to create destinationrule: ", w_destination_rule l (makeDestinationRule svcName))) mesh_services
         ++ [("failed to create peerauthentication: ", w_peer_authentication l makePeerAuthentication)]
       else []))%list.

(** [ApplyResources] of the gateway. *)
Definition gateway_ApplyResources (opts : GatewayApplyOptions) (w : W) : W * option goerror :=
  let name := mkNN namespace (ga_baseName o) in
  let l := DefaultLabels (ga_baseName o) LabelValueK8sComponentGateway in
  match run_steps (applyCommonResources l name (ga_rbac o)) w with
  | (w, Some err) => (w, Some (Wrapf "failed to create common resource: " err ""))
  | (w, None) => run_steps (gateway_steps opts) w
  end.

Definition gateway_delete_steps (isIstioActive vpaCRDExists : bool) : list (step W) :=
  let name := mkNN namespace (ga_baseName o) in
  ([("failed to delete env secret: ", delete_of SecretData name); ("failed to delete configmap: ", delete_of ConfigMapData name);
    ("failed to delete network policy: ", delete_by_labels {[LabelKeyK8sName := ga_baseName o]});
    ("failed to delete daemonset: ", delete_of (workload DaemonSetSpec) name)]
   ++ (if vpaCRDExists then [("failed to delete VPA: ", delete_of VPASpec name)] else [])
   ++ [("failed to delete otlp service: ", delete_of (service ServiceSpec) (mkNN namespace (ga_otlpServiceName o)));
       ("failed to delete legacy log otlp service: ", delete_of (service ServiceSpec) (mkNN namespace names_OTLPLogsService));
       ("failed to delete legacy trace otlp service: ", delete_of (service ServiceSpec) (mkNN namespace names_OTLPTracesService));
       ("failed to delete legacy metric otlp service: ", delete_of (service ServiceSpec) (mkNN namespace names_OTLPMetricsService))]
   ++ (if isIstioActive then
         map (fun svcName => ("failed to delete destinationrule: ", delete_of DestinationRuleSpec (mkNN namespace svcName)))
           mesh_services
         ++ [("failed to delete peerauthentication: ", delete_of PeerAuthenticationSpec name)]
       else []))%list.

(** [DeleteResources] of the gateway. *)
Definition gateway_DeleteResources (isIstioActive vpaCRDExists : bool) (w : W) : W * option goerror :=
  let '(w, allErrors) := join_group (deleteCommonResources (mkNN namespace (ga_baseName o))) w in
  run_all (gateway_delete_steps isIstioActive vpaCRDExists) w allErrors.

End Gateway.

(** ** The agents (agent.go) *)

Record AgentApplyOptions := mkAgentApplyOptions {
  ao_IstioEnabled : bool;
  ao_VpaCRDExists : bool;
  ao_VpaEnabled : bool;
  ao_VPAMaxAllowedMemory : Z;
  ao_CollectorConfigYAML : string;
  ao_CollectorEnvVars : option (gmap string string);
  ao_BackendPorts : list string
}.

Record AgentApplierDeleter := mkAgentApplier {
  aa_globals : Global;
  aa_baseName : string;
  aa_extraPodLabels : labels;
  aa_makeAnnotationsFunc : string -> AgentApplyOptions -> labels;
  aa_image : string;
  aa_rbac : rbac;
  aa_podOpts : list PodSpecOption;
  aa_containerOpts : list ContainerOption
}.

Definition IstioCertPath : string := "/etc/istio-output-certs".
Definition istioCertVolumeName : string := "istio-certs".
Definition checkpointVolumeName : string := "tmp".
Definition CheckpointVolumePath : string := "/tmp".
Definition logVolumeName : string := "varlogpods".
Definition logVolumePath : string := "/var/log/pods".
Definition agentCPURequest : Z := 15.
Definition agentMemoryRequest : Z := Mi 64.
Definition agentMemoryLimit : Z := Mi 1200.

Definition makeIstioCertVolume : Volume := mkVolume istioCertVolumeName (EmptyDirVolume None).
Definition makeIstioCertVolumeMount : VolumeMount := mkMount istioCertVolumeName IstioCertPath "" true.
Definition makePodLogsVolume : Volume := mkVolume logVolumeName (HostPathVolume logVolumePath None).
Definition makePodLogsVolumeMount : VolumeMount := mkMount logVolumeName logVolumePath "" true.
Definition makeFileLogCheckpointVolume : Volume :=
  mkVolume checkpointVolumeName (HostPathVolume CheckpointVolumePath (Some "DirectoryOrCreate")).
Definition makeFileLogCheckPointVolumeMount : VolumeMount := mkMount checkpointVolumeName CheckpointVolumePath "" false.

Definition makeLogAgentAnnotations (configChecksum : string) (opts : AgentApplyOptions) : labels :=
  let annotations : labels := {[AnnotationKeyChecksumConfig := configChecksum]} in
  if ao_IstioEnabled opts then <[AnnotationKeyIstioExcludeInboundPorts := pretty ports_Metrics]> annotations else annotations.

Definition dquote : string := String (ascii_of_nat 34) "".
Definition newline : string := String (ascii_of_nat 10) "".

Definition makeMetricAgentAnnotations (configChecksum : string) (opts : AgentApplyOptions) : labels :=
  let annotations : labels := {[AnnotationKeyChecksumConfig := configChecksum]} in
  if ao_IstioEnabled opts then
    <[AnnotationKeyIstioIncludeOutboundPorts := String.concat "," (ao_BackendPorts opts)]>
    (<[AnnotationKeyIstioIncludeOutboundIPRanges := ""]>
    (<[AnnotationKeyIstioUserVolumeMount :=
         "[{" +:+ dquote +:+ "name" +:+ dquote +:+ ": " +:+ dquote +:+ istioCertVolumeName +:+ dquote +:+ ", " +:+ dquote
         +:+ "mountPath" +:+ dquote +:+ ": " +:+ dquote +:+ IstioCertPath +:+ dquote +:+ "}]"]>
    (<[AnnotationKeyIstioProxyConfig :=
         "# configure an env variable OUTPUT_CERTS to write certificates to the given folder" +:+ newline
         +:+ "proxyMetadata:" +:+ newline +:+ "  OUTPUT_CERTS: " +:+ IstioCertPath +:+ newline]>
    (<[AnnotationKeyIstioExcludeInboundPorts := pretty ports_Metrics]> annotations))))
  else annotations.

Definition NewLogAgentApplierDeleter (globals : Global) (collectorImage priorityClassName : string) : AgentApplierDeleter :=
  mkAgentApplier globals names_LogAgent {[LabelKeyIstioInject := LabelValueTrue]} makeLogAgentAnnotations collectorImage
    (makeLogAgentRBAC (TargetNamespace globals))
    [WithPriorityClass priorityClassName; WithVolumes [makePodLogsVolume; makeFileLogCheckpointVolume]]
    [WithResources (MakeResourceRequirements agentMemoryLimit agentMemoryRequest agentCPURequest);
     WithEnvVarFromField EnvVarCurrentPodIP fieldPathPodIP; WithEnvVarFromField EnvVarCurrentNodeName fieldPathNodeName;
     WithFIPSGoDebugEnvVar (g_operateInFIPSMode globals);
     WithVolumeMounts [makePodLogsVolumeMount; makeFileLogCheckPointVolumeMount];
     WithRunAsGroup GroupRoot; WithRunAsUser UserDefault].

Definition NewMetricAgentApplierDeleter (globals : Global) (image priorityClassName : string) : AgentApplierDeleter :=
  mkAgentApplier globals names_MetricAgent
    {[LabelKeyTelemetryMetricScrape := LabelValueTrue; LabelKeyTelemetryMetricExport := LabelValueTrue;
      LabelKeyIstioInject := LabelValueTrue; LabelKeyTelemetryMetricsScraping := LabelValueTelemetryMetricsScraping]}
    makeMetricAgentAnnotations image (makeMetricAgentRBAC (TargetNamespace globals))
    [WithPriorityClass priorityClassName; WithVolumes [makeIstioCertVolume]]
    [WithEnvVarFromField EnvVarCurrentPodIP fieldPathPodIP; WithEnvVarFromField EnvVarCurrentNodeName fieldPathNodeName;
     WithFIPSGoDebugEnvVar (g_operateInFIPSMode globals);
     WithResources (MakeResourceRequirements agentMemoryLimit agentMemoryRequest agentCPURequest);
     WithVolumeMounts [makeIstioCertVolumeMount]].

Definition agentIngressMetricsPorts (istioEnabled : bool) : list Z :=
  if istioEnabled then [ports_Metrics; ports_IstioEnvoyTelemetry] else [ports_Metrics].

Definition makeAgentNetworkPolicies (name : NamespacedName) (istioEnabled : bool) : list (object NetworkPolicySpec) :=
  [MakeNetworkPolicy name (DefaultSelector (nn_Name name))
     [WithNameSuffix "metrics"; WithIngressFromPodsInAllNamespaces scraping_labels (agentIngressMetricsPorts istioEnabled)];
   MakeNetworkPolicy name (DefaultSelector (nn_Name name)) [WithEgressToAny]].

Section Agent.
Context (aad : AgentApplierDeleter).
Let namespace : string := TargetNamespace (aa_globals aad).

Definition makeAgentPodSpec (opts : AgentApplyOptions) : PodSpec :=
  makePodSpec (aa_baseName aad) (aa_image aad)
    (aa_podOpts aad
     ++ [WithTolerations CriticalDaemonSetTolerations; WithImagePullSecretName (g_imagePullSecretName (aa_globals aad));
         WithClusterTrustBundleVolume (g_clusterTrustBundleName (aa_globals aad))])%list
    (aa_containerOpts aad ++ [WithClusterTrustBundleVolumeMount (g_clusterTrustBundleName (aa_globals aad))]
     ++ (if ao_VpaCRDExists opts && ao_VpaEnabled opts then
           [WithResources (MakeResourceRequirements (agentMemoryRequest + agentMemoryRequest)%Z agentMemoryRequest agentCPURequest)]
         else []))%list.

Definition makeAgentDaemonSet (configChecksum : string) (opts : AgentApplyOptions) : object (workload DaemonSetSpec) :=
  makeDaemonSet (aa_baseName aad) namespace
    (MakeWorkloadMetadata (aa_globals aad) (aa_baseName aad) LabelValueK8sComponentAgent (aa_extraPodLabels aad)
       (aa_makeAnnotationsFunc aad configChecksum opts))
    (makeAgentPodSpec opts).

Definition agent_steps (opts : AgentApplyOptions) : list (step W) :=
  let name := mkNN namespace (aa_baseName aad) in
  let l := DefaultLabels (aa_baseName aad) LabelValueK8sComponentAgent in
  let secrets := match ao_CollectorEnvVars opts with Some env => [makeSecret name env] | None => [] end in
  let configMap := makeConfigMap name (ao_CollectorConfigYAML opts) in
  let configChecksum := Calculate sha256 [configMap] secrets in
  (map (fun secret => ("failed to create env secret: ", w_secret l secret)) secrets
   ++ [("failed to create configmap: ", w_config_map l configMap)]
   ++ map (fun np => ("failed to create agent network policies: ", w_network_policy l np))
        (makeAgentNetworkPolicies name (ao_IstioEnabled opts))
   ++ [("failed to create daemonset: ", w_daemon_set l (makeAgentDaemonSet configChecksum opts))]
   ++ (if ao_VpaCRDExists opts then
         if ao_VpaEnabled opts then
           [("failed to create VPA: ", w_vpa l (makeVPA name agentMemoryRequest (ao_VPAMaxAllowedMemory opts)))]
         else [("failed to delete VPA: ", delete_of VPASpec name)]
       else []))%list.

(** [ApplyResources] of an agent. *)
Definition agent_ApplyResources (opts : AgentApplyOptions) (w : W) : W * option goerror :=
  let name := mkNN namespace (aa_baseName aad) in
  let l := DefaultLabels (aa_baseName aad) LabelValueK8sComponentAgent in
  match run_steps (applyCommonResources l name (aa_rbac aad)) w with
  | (w, Some err) => (w, Some (Wrapf "failed to create common resource: " err ""))
  | (w, None) => run_steps (agent_steps opts) w
  end.

Definition agent_delete_steps (vpaCRDExists : bool) : list (step W) :=
  let name := mkNN namespace (aa_baseName aad) in
  ([("failed to delete network policy: ", delete_by_labels {[LabelKeyK8sName := aa_baseName aad]});
    ("failed to delete configmap: ", delete_of ConfigMapData name);
    ("failed to delete daemonset: ", delete_of (workload DaemonSetSpec) name)]
   ++ (if vpaCRDExists then [("failed to delete VPA: ", delete_of VPASpec name)] else []))%list.

(** [DeleteResources] of an agent. *)
Definition agent_DeleteResources (vpaCRDExists : bool) (w : W) : W * option goerror :=
  let '(w, allErrors) := join_group (deleteCommonResources (mkNN namespace (aa_baseName aad))) w in
  run_all (agent_delete_steps vpaCRDExists) w allErrors.

End Agent.

End Apply.
