(* ===== verification/FluentBitResources.v ===== *)
(** * Resources of Fluent Bit and of the self-monitor (internal/resources/fluentbit,
    internal/resources/selfmonitor)

    The builders of all objects, and the sequences of writes and deletions that apply and
    remove them. Definitions of the second package start with [sm_] where both packages
    use one name. *)
From Stdlib Require Import Ascii.
From stdpp Require Import base gmap strings list pretty.
From S2P Require Import Prelude Kube GoErrors GoStrings Conversion TLSCert FluentBitConfigBuilder K8sUtils Resources OtelResources.
Local Open Scope string_scope.

(** ** Names and ports *)

Definition names_FluentBit : string := "telemetry-fluent-bit".
Definition names_FluentBitMetricsService : string := names_FluentBit +:+ "-metrics".
Definition names_FluentBitExporterMetricsService : string := names_FluentBit +:+ "-exporter-metrics".
Definition names_FluentBitSectionsConfigMap : string := names_FluentBit +:+ "-sections".
Definition names_FluentBitFilesConfigMap : string := names_FluentBit +:+ "-files".
Definition names_FluentBitLuaScriptsConfigMap : string := names_FluentBit +:+ "-luascripts".
Definition names_FluentBitEnvSecret : string := names_FluentBit +:+ "-env".
Definition names_FluentBitTLSConfigSecret : string := names_FluentBit +:+ "-output-tls-config".
Definition names_SelfMonitor : string := "telemetry-self-monitor".
Definition names_SelfMonitorContainerName : string := "self-monitor".

Definition fbports_HTTP : Z := 2020.
Definition fbports_ExporterMetrics : Z := 2021.
Definition fbports_IstioEnvoyTelemetry : Z := 15090.
Definition mgrports_Webhook : Z := 9443.
Definition selfmonports_PrometheusPort : Z := 9090.

Definition MakeServiceAccount (name : NamespacedName) : object ServiceAccount := mkObject (plain_meta name) mkServiceAccount.
Definition MakeClusterRoleBinding (name : NamespacedName) : object ClusterRoleBinding :=
  mkObject (plain_meta name)
    (mkClusterRoleBinding [service_account_of name] (mkRoleRef "rbac.authorization.k8s.io" "ClusterRole" (nn_Name name))).

(** ** Fluent Bit (fluentbit/resources.go) *)

Definition exporterContainerName : string := "exporter".
Definition chownInitContainerName : string := "checkpoint-dir-ownership-modifier".
Definition configVolumeName : string := "config".
Definition luaScriptsVolumeName : string := "luascripts".
Definition varLogVolumeName : string := "varlog".
Definition sharedFluentBitConfigVolumeName : string := "shared-fluent-bit-config".
Definition dynamicConfigVolumeName : string := "dynamic-config".
Definition dynamicFilesVolumeName : string := "dynamic-files".
Definition varFluentBitVolumeName : string := "varfluentbit".
Definition outputTLSConfigVolumeName : string := "output-tls-config".
Definition configVolumeFluentBitMountPath : string := "/fluent-bit/etc/fluent-bit.conf".
Definition luaScriptsVolumeMountPath : string := "/fluent-bit/scripts/filter-script.lua".
Definition varLogVolumeMountPath : string := "/var/log".
Definition sharedFluentBitConfigVolumeMountPath : string := "/fluent-bit/etc".
Definition dynamicConfigVolumeMountPath : string := "/fluent-bit/etc/dynamic/".
Definition dynamicFilesVolumeMountPath : string := "/files".
Definition varFluentBitVolumeMountPath : string := "/data".
Definition outputTLSConfigVolumeMountPath : string := "/fluent-bit/etc/output-tls-config/".

Definition fbContainerCPURequest : Z := 100.
Definition fbContainerMemoryRequest : Z := Mi 50.
Definition fbContainerMemoryLimit : Z := Mi 1536.
Definition exporterContainerCPURequest : Z := 1.
Definition exporterContainerMemoryRequest : Z := Mi 5.
Definition exporterContainerMemoryLimit : Z := Mi 50.

Record fluentbit_AgentApplyOptions := mkFluentBitApplyOptions {
  fo_IstioEnabled : bool;
  fo_FluentBitConfig : FluentBitConfig
}.

Record fluentbit_AgentApplierDeleter := mkFluentBitApplier {
  fa_fluentBitImage : string;
  fa_exporterImage : string;
  fa_chownInitContainerImage : string;
  fa_priorityClassName : string;
  fa_namespace : string;
  fa_daemonSetName : NamespacedName;
  fa_luaConfigMapName : NamespacedName;
  fa_filesConfigMapName : NamespacedName;
  fa_sectionsConfigMapName : NamespacedName;
  fa_envConfigSecretName : NamespacedName;
  fa_tlsFileConfigSecretName : NamespacedName;
  fa_globals : Global
}.

Definition NewFluentBitApplierDeleter (global : Global)
    (namespace fbImage exporterImage chownInitContainerImage priorityClassName : string) : fluentbit_AgentApplierDeleter :=
  mkFluentBitApplier fbImage exporterImage chownInitContainerImage priorityClassName namespace
    (mkNN namespace names_FluentBit) (mkNN namespace names_FluentBitLuaScriptsConfigMap)
    (mkNN namespace names_FluentBitFilesConfigMap) (mkNN namespace names_FluentBitSectionsConfigMap)
    (mkNN namespace names_FluentBitEnvSecret) (mkNN namespace names_FluentBitTLSConfigSecret) global.

Definition defaultFluentBitLabels : labels :=
  <[LabelKeyK8sInstance := LabelValueK8sInstance]> (DefaultLabels "fluent-bit" LabelValueK8sComponentAgent).
Definition defaultFluentBitSelector : labels :=
  <[LabelKeyK8sInstance := LabelValueK8sInstance]> (DefaultSelector "fluent-bit").
Definition makeFluentBitMetricsPorts (istioEnabled : bool) : list Z :=
  ([fbports_HTTP; fbports_ExporterMetrics] ++ if istioEnabled then [fbports_IstioEnvoyTelemetry] else [])%list.

Definition fluentBitLivenessProbe : Probe := mkProbe (TCPSocket (FromString "http")) 0 0 0 0.
Definition fluentBitReadinessProbe : Probe := mkProbe (TCPSocket (FromString "http")) 0 0 0 0.

Definition fluentBitVolumeMounts : list VolumeMount :=
  [mkMount sharedFluentBitConfigVolumeName sharedFluentBitConfigVolumeMountPath "" false;
   mkMount configVolumeName configVolumeFluentBitMountPath "fluent-bit.conf" false;
   mkMount configVolumeName "/fluent-bit/etc/parsers.conf" "parsers.conf" false;
   mkMount dynamicConfigVolumeName dynamicConfigVolumeMountPath "" false;
   mkMount luaScriptsVolumeName luaScriptsVolumeMountPath "filter-script.lua" false;
   mkMount varLogVolumeName varLogVolumeMountPath "" true;
   mkMount varFluentBitVolumeName varFluentBitVolumeMountPath "" false;
   mkMount dynamicFilesVolumeName dynamicFilesVolumeMountPath "" false;
   mkMount outputTLSConfigVolumeName outputTLSConfigVolumeMountPath "" true].
Definition exporterVolumeMounts : list VolumeMount := [mkMount varFluentBitVolumeName varFluentBitVolumeMountPath "" false].
Definition chownInitContainerVolumeMounts : list VolumeMount :=
  [mkMount varFluentBitVolumeName varFluentBitVolumeMountPath "" false].

Definition fluentBitVolumes : list Volume :=
  [mkVolume configVolumeName (ConfigMapVolume names_FluentBit [] false None);
   mkVolume luaScriptsVolumeName (ConfigMapVolume names_FluentBitLuaScriptsConfigMap [] false None);
   mkVolume varLogVolumeName (HostPathVolume "/var/log" None);
   mkVolume sharedFluentBitConfigVolumeName (EmptyDirVolume None);
   mkVolume dynamicConfigVolumeName (ConfigMapVolume names_FluentBitSectionsConfigMap [] true None);
   mkVolume dynamicFilesVolumeName (ConfigMapVolume names_FluentBitFilesConfigMap [] true None);
   mkVolume varFluentBitVolumeName (HostPathVolume ("/var/" +:+ names_FluentBit) None);
   mkVolume outputTLSConfigVolumeName (SecretVolume names_FluentBitTLSConfigSecret)].

Definition makeClusterRole (name : NamespacedName) : object ClusterRole :=
  mkObject (plain_meta name) (mkClusterRole [may_read "" ["namespaces"; "pods"]]).

Definition scrape_annotations (port : Z) : labels :=
  {[AnnotationKeyPrometheusScrape := "true"; AnnotationKeyPrometheusPort := pretty port;
    AnnotationKeyPrometheusScheme := "http"]}.

Definition fb_makeMetricsService (name : NamespacedName) : object (service ServiceSpec) :=
  mkObject
    (mkFullMeta (mkNN (nn_Namespace name) (MetricsServiceName (nn_Name name))) ""
       (Some {[LabelKeyTelemetrySelfMonitor := LabelValueTelemetrySelfMonitor]})
       (Some (<[AnnotationKeyPrometheusPath := "/api/v2/metrics/prometheus"]> (scrape_annotations fbports_HTTP))) [])
    (new_service [mkServicePort "http" "TCP" fbports_HTTP (FromString "http")] defaultFluentBitSelector None).

Definition makeExporterMetricsService (name : NamespacedName) : object (service ServiceSpec) :=
  mkObject
    (mkFullMeta (mkNN (nn_Namespace name) names_FluentBitExporterMetricsService) "" None
       (Some (scrape_annotations fbports_ExporterMetrics)) [])
    (new_service [mkServicePort "http-metrics" "TCP" fbports_ExporterMetrics (FromString "http-metrics")]
       defaultFluentBitSelector None).

(** [strings.Replace(s, old, new, 1)] for a non-empty [old]. *)
Fixpoint Replace1 (old new s : string) : string :=
  if String.prefix old s then new +:+ String.substring (String.length old) (String.length s - String.length old) s
  else match s with EmptyString => EmptyString | String c s' => String c (Replace1 old new s') end.

(** The values of a map as strings. *)
Definition texts (m : gmap string bytes) : gmap string string := fmap (M:=gmap string) of_bytes m.

(** The lines of a raw string literal. *)
Definition text_of (lines : list string) : string := String.concat newline lines.

Definition fluentBitConfig_text : string :=
  text_of
    ["";
     "[SERVICE]";
     "    Daemon Off";
     "    Flush 1";
     "    Log_Level warn";
     "    HTTP_Server On";
     "    HTTP_Listen 0.0.0.0";
     "    HTTP_Port {{ HTTP_PORT }}";
     "    storage.path /data/flb-storage/";
     "    storage.metrics on";
     "    Parsers_File /fluent-bit/etc/parsers.conf";
     "";
     "@INCLUDE dynamic/*.conf";
     ""].

Definition parsersConfig_text : string :=
  text_of
    ["";
     "[PARSER]";
     "    Name   k8s-pods";
     "    Format regex";
     "    Regex  ^(?<namespace_name>[^_]+)_(?<pod_name>[a-z0-9](?:[-a-z0-9]*[a-z0-9])?(?:\.[a-z0-9]([-a-z0-9]*[a-z0-9])?)*)_[a-f0-9\-]{36}\.(?<container_name>[^\.]+)\.\d+\.log$";
     ""].

Definition luaFilter_text : string :=
  text_of
    ["";
     "function enrich_app_name(tag, timestamp, record)";
     "  if record.kubernetes == nil then";
     "    return 0";
     "  end";
     "  enrich_app_name_internal(record.kubernetes)";
     "  return 2, timestamp, record";
     "end";
     "function dedot_and_enrich_app_name(tag, timestamp, record)";
     "  if record.kubernetes == nil then";
     "    return 0";
     "  end";
     "  enrich_app_name_internal(record.kubernetes)";
     "  map_keys(record.kubernetes.annotations)";
     "  map_keys(record.kubernetes.labels)";
     "  return 2, timestamp, record";
     "end";
     "function enrich_app_name_internal(table)";
     "  if table.labels == nil then";
     "    return 0";
     "  end";
     "  table[" +:+ dquote +:+ "app_name" +:+ dquote +:+ "] = table.labels[" +:+ dquote +:+ "app.kubernetes.io/name" +:+ dquote +:+ "] or table.labels[" +:+ dquote +:+ "app" +:+ dquote +:+ "]";
     "end";
     "function map_keys(table)";
     "  if table == nil then";
     "    return";
     "  end";
     "  local new_table = {}";
     "  local changed_keys = {}";
     "  for key, val in pairs(table) do";
     "    local mapped_key = string.gsub(key, " +:+ dquote +:+ "[%/%.]" +:+ dquote +:+ ", " +:+ dquote +:+ "_" +:+ dquote +:+ ")";
     "    if mapped_key ~= key then";
     "      new_table[mapped_key] = val";
     "      changed_keys[key] = true";
     "    end";
     "  end";
     "  for key in pairs(changed_keys) do";
     "    table[key] = nil";
     "  end";
     "  for key, val in pairs(new_table) do";
     "    table[key] = val";
     "  end";
     "end";
     ""].

Definition fb_makeConfigMap (name : NamespacedName) : object ConfigMapData :=
  let fluentBitConfig := Replace1 "{{ HTTP_PORT }}" (pretty fbports_HTTP) fluentBitConfig_text in
  mkObject (plain_meta name) (mkConfigMapData {["fluent-bit.conf" := fluentBitConfig; "parsers.conf" := parsersConfig_text]}).
Definition makeSectionsConfigMap (name : NamespacedName) (sectionsConfig : gmap string string) : object ConfigMapData :=
  mkObject (plain_meta name) (mkConfigMapData sectionsConfig).
Definition makeFilesConfigMap (name : NamespacedName) (filesConfig : gmap string string) : object ConfigMapData :=
  mkObject (plain_meta name) (mkConfigMapData filesConfig).
Definition makeLuaConfigMap (name : NamespacedName) : object ConfigMapData :=
  mkObject (plain_meta name) (mkConfigMapData {["filter-script.lua" := luaFilter_text]}).
Definition makeEnvConfigSecret (name : NamespacedName) (envConfigSecret : gmap string string) : object SecretData :=
  mkObject (plain_meta name) (mkSecretData envConfigSecret).
Definition makeTLSFileConfigSecret (name : NamespacedName) (tlsFileConfigSecret : gmap string string) : object SecretData :=
  mkObject (plain_meta name) (mkSecretData tlsFileConfigSecret).

Definition fb_makeNetworkPolicies (name : NamespacedName) (istioEnabled : bool) : list (object NetworkPolicySpec) :=
  [MakeNetworkPolicy name defaultFluentBitSelector
     [WithNameSuffix "metrics"; WithIngressFromPodsInAllNamespaces scraping_labels (makeFluentBitMetricsPorts istioEnabled)];
   MakeNetworkPolicy name defaultFluentBitSelector [WithEgressToAny]].

Section FluentBit.
Context (aad : fluentbit_AgentApplierDeleter).

Definition fb_pod_labels : labels :=
  <[LabelKeyTelemetryLogExport := LabelValueTrue]> (<[LabelKeyIstioInject := LabelValueTrue]>
    (maps_Copy (maps_Copy ∅ defaultFluentBitLabels) (g_additionalWorkloadPodLabels (fa_globals aad)))).
Definition fb_pod_annotations (checksum : string) : labels :=
  <[AnnotationKeyIstioExcludeInboundPorts := pretty fbports_HTTP +:+ "," +:+ pretty fbports_ExporterMetrics]>
    (<[AnnotationKeyChecksumConfig := checksum]> (maps_Copy ∅ (g_additionalWorkloadPodAnnotations (fa_globals aad)))).

Definition fb_pod_spec : PodSpec :=
  MakePodSpec names_FluentBit
    [WithPriorityClass (fa_priorityClassName aad);
     WithTolerations CriticalDaemonSetTolerations;
     WithVolumes fluentBitVolumes;
     WithClusterTrustBundleVolume (g_clusterTrustBundleName (fa_globals aad));
     WithImagePullSecretName (g_imagePullSecretName (fa_globals aad));
     WithContainer "fluent-bit" (fa_fluentBitImage aad)
       [WithEnvVarsFromSecret names_FluentBitEnvSecret; WithRunAsGroup GroupRoot; WithRunAsUser UserDefault;
        WithPort "http" fbports_HTTP; WithProbes (Some fluentBitLivenessProbe) (Some fluentBitReadinessProbe);
        WithResources (MakeResourceRequirements fbContainerMemoryLimit fbContainerMemoryRequest fbContainerCPURequest);
        WithVolumeMounts fluentBitVolumeMounts;
        WithClusterTrustBundleVolumeMount (g_clusterTrustBundleName (fa_globals aad))];
     WithContainer exporterContainerName (fa_exporterImage aad)
       [WithArgs ["--storage-path=/data/flb-storage/"; "--metric-name=telemetry_fsbuffer_usage_bytes"];
        WithPort "http-metrics" fbports_ExporterMetrics;
        WithResources (MakeResourceRequirements exporterContainerMemoryLimit exporterContainerMemoryRequest
                         exporterContainerCPURequest);
        WithVolumeMounts exporterVolumeMounts];
     WithInitContainer chownInitContainerName (fa_chownInitContainerImage aad)
       (WithChownInitContainerOpts varFluentBitVolumeMountPath chownInitContainerVolumeMounts)].

Definition fb_makeDaemonSet (namespace checksum : string) : object (workload DaemonSetSpec) :=
  mkObject
    (mkFullMeta (mkNN namespace names_FluentBit) "" (Some (maps_Copy ∅ (g_additionalWorkloadLabels (fa_globals aad))))
       (Some (maps_Copy ∅ (g_additionalWorkloadAnnotations (fa_globals aad)))) [])
    (mkWorkload (Some (fb_pod_annotations checksum))
       (mkDaemonSetSpec defaultFluentBitSelector fb_pod_labels fb_pod_spec None)).

End FluentBit.

(** ** The self-monitor (selfmonitor/resources.go) *)

Definition retentionTime : string := "2h".
Definition retentionSize : string := "50MB".
Definition logFormat : string := "json".
Definition configFileMountName : string := "prometheus-config-volume".
Definition storageMountName : string := "prometheus-storage-volume".
Definition storagePath : string := "/prometheus/".
Definition storageVolumeSize : Z := Mi 1000.
Definition cpuRequest : Z := 10.
Definition memoryRequest : Z := Mi 50.
Definition memoryLimit : Z := Mi 512.

(** [ApplierDeleter], that holds a [Config]. *)
Record SelfMonitorConfig := mkSelfMonitorConfig { sm_Global : Global; sm_Image : string; sm_PriorityClassName : string }.

Record sm_ApplyOptions := mkSelfMonitorApplyOptions {
  so_AlertRulesFileName : string;
  so_AlertRulesYAML : string;
  so_PrometheusConfigFileName : string;
  so_PrometheusConfigPath : string;
  so_PrometheusConfigYAML : string;
  so_LogLevel : string
}.

Section SelfMonitor.
Context (ad : SelfMonitorConfig).

Definition selfMonitorName : NamespacedName := mkNN (TargetNamespace (sm_Global ad)) names_SelfMonitor.
Definition sm_makeServiceAccount : object ServiceAccount := mkObject (plain_meta selfMonitorName) mkServiceAccount.
Definition sm_makeRole : object Role :=
  mkObject (plain_meta selfMonitorName) (mkRole [may_read "" ["services"; "endpoints"; "pods"]]).
Definition sm_makeRoleBinding : object RoleBinding :=
  mkObject (plain_meta selfMonitorName)
    (mkRoleBinding [service_account_of selfMonitorName] (mkRoleRef "rbac.authorization.k8s.io" "Role" names_SelfMonitor)).
(** A map literal with two computed keys: when they coincide, the later one stays. *)
Definition sm_makeConfigMap (prometheusConfigFileName prometheusConfigYAML alertRulesFileName alertRulesYAML : string) :
    object ConfigMapData :=
  mkObject (plain_meta selfMonitorName)
    (mkConfigMapData (<[alertRulesFileName := alertRulesYAML]> {[prometheusConfigFileName := prometheusConfigYAML]})).

Definition sm_pod_labels : labels :=
  <[LabelKeyTelemetryMetricsScraping := LabelValueTelemetryMetricsScraping]> (<[LabelKeyIstioInject := LabelValueFalse]>
    (maps_Copy (maps_Copy ∅ (DefaultLabels names_SelfMonitor LabelValueK8sComponentMonitor))
       (g_additionalWorkloadPodLabels (sm_Global ad)))).

Definition sm_makePodSpec (image configPath configFile logLevel : string) : PodSpec :=
  let logLevel := if str_eqb logLevel "" then "warn" else logLevel in
  let args := ["--storage.tsdb.retention.time=" +:+ retentionTime; "--storage.tsdb.retention.size=" +:+ retentionSize;
               "--config.file=" +:+ configPath +:+ configFile; "--storage.tsdb.path=" +:+ storagePath;
               "--log.format=" +:+ logFormat; "--log.level=" +:+ logLevel] in
  let volumes := [mkVolume configFileMountName (ConfigMapVolume names_SelfMonitor [] false (Some 420%Z));
                  mkVolume storageMountName (EmptyDirVolume (Some storageVolumeSize))] in
  let volumeMounts := [mkMount configFileMountName configPath "" false; mkMount storageMountName storagePath "" false] in
  let liveness := mkProbe (HTTPGet "/-/healthy" (FromInt selfmonports_PrometheusPort)) 5 5 3 1 in
  let readiness := mkProbe (HTTPGet "/-/ready" (FromInt selfmonports_PrometheusPort)) 3 5 3 1 in
  MakePodSpec names_SelfMonitor
    [WithVolumes volumes; WithPodRunAsUser UserDefault; WithPriorityClass (sm_PriorityClassName ad);
     WithTerminationGracePeriodSeconds 300; WithImagePullSecretName (g_imagePullSecretName (sm_Global ad));
     WithContainer names_SelfMonitorContainerName image
       [WithArgs args; WithPort "http-web" selfmonports_PrometheusPort; WithVolumeMounts volumeMounts;
        WithProbes (Some liveness) (Some readiness);
        WithResources (MakeResourceRequirements memoryLimit memoryRequest cpuRequest);
        WithRunAsUser UserDefault; WithGoMemLimitEnvVar memoryLimit]].

Definition sm_makeDeployment (configChecksum configPath configFile logLevel : string) : object (workload DeploymentSpec) :=
  mkObject
    (mkFullMeta selfMonitorName "" (Some (maps_Copy ∅ (g_additionalWorkloadLabels (sm_Global ad))))
       (Some (maps_Copy ∅ (g_additionalWorkloadAnnotations (sm_Global ad)))) [])
    (mkWorkload
       (Some (<[AnnotationKeyChecksumConfig := configChecksum]> (maps_Copy ∅ (g_additionalWorkloadPodAnnotations (sm_Global ad)))))
       (mkDeploymentSpec 1 (DefaultSelector names_SelfMonitor) sm_pod_labels
          (sm_makePodSpec (sm_Image ad) configPath configFile logLevel))).

Definition sm_makeService (port : Z) : object (service ServiceSpec) :=
  mkObject (plain_meta selfMonitorName)
    (new_service [mkServicePort "http" "TCP" port (FromInt port)] (DefaultSelector names_SelfMonitor) None).

Definition sm_makeNetworkPolicies : list (object NetworkPolicySpec) :=
  [MakeNetworkPolicy selfMonitorName (DefaultSelector names_SelfMonitor)
     [WithEgressToPods {[LabelKeyK8sName := "fluent-bit"]} [fbports_HTTP];
      WithEgressToPods {[LabelKeyK8sName := "telemetry-metric-agent"]} [ports_Metrics];
      WithEgressToPods {[LabelKeyK8sName := "telemetry-log-agent"]} [ports_Metrics];
      WithEgressToPods {[LabelKeyK8sComponent := LabelValueK8sComponentGateway]} [ports_Metrics];
      WithEgressToPods {[LabelKeyK8sName := "manager"]} [mgrports_Webhook]];
   MakeNetworkPolicy selfMonitorName (DefaultSelector names_SelfMonitor)
     [WithNameSuffix "metrics";
      WithIngressFromPods {[LabelKeyK8sName := "manager"]} [selfmonports_PrometheusPort];
      WithIngressFromPodsInAllNamespaces scraping_labels [selfmonports_PrometheusPort]]].

End SelfMonitor.

(** ** Applying and deleting *)

Section Apply.
Context {W : Type} `{Cluster W}.
Context (DeepEqual : forall S, object S -> object S -> bool) (sha256 : string -> string).

Section FluentBit.
Context (aad : fluentbit_AgentApplierDeleter).

Definition fb_steps (opts : fluentbit_AgentApplyOptions) : list (step W) :=
  let l := defaultFluentBitLabels in
  let config := fo_FluentBitConfig opts in
  let cm := fb_makeConfigMap (fa_daemonSetName aad) in
  let luaCm := makeLuaConfigMap (fa_luaConfigMapName aad) in
  let sectionsCm := makeSectionsConfigMap (fa_sectionsConfigMapName aad) (texts (SectionsConfig config)) in
  let filesCm := makeFilesConfigMap (fa_filesConfigMapName aad) (FilesConfig config) in
  let envConfigSecret := makeEnvConfigSecret (fa_envConfigSecretName aad) (EnvConfigSecret config) in
  let tlsFileConfigSecret := makeTLSFileConfigSecret (fa_tlsFileConfigSecretName aad) (TLSConfigSecret config) in
  let checksum := Calculate sha256 [cm; luaCm; sectionsCm; filesCm] [envConfigSecret; tlsFileConfigSecret] in
  ([("failed to create fluent bit service account: ",
       w_service_account DeepEqual l (MakeServiceAccount (fa_daemonSetName aad)));
    ("failed to create fluent bit cluster role: ", w_cluster_role DeepEqual l (makeClusterRole (fa_daemonSetName aad)));
    ("failed to create fluent bit cluster role Binding: ",
       w_cluster_role_binding DeepEqual l (MakeClusterRoleBinding (fa_daemonSetName aad)));
    ("failed to reconcile exporter metrics service: ", w_service l (makeExporterMetricsService (fa_daemonSetName aad)));
    ("failed to reconcile fluent bit metrics service: ", w_service l (fb_makeMetricsService (fa_daemonSetName aad)));
    ("failed to reconcile fluent bit configmap: ", w_config_map DeepEqual l cm);
    ("failed to reconcile fluent bit lua configmap: ", w_config_map DeepEqual l luaCm);
    ("failed to reconcile fluent bit sections configmap: ", w_config_map DeepEqual l sectionsCm);
    ("failed to reconcile fluent bit files configmap: ", w_config_map DeepEqual l filesCm);
    ("failed to reconcile fluent bit env config secret: ", w_secret DeepEqual l envConfigSecret);
    ("failed to reconcile fluent bit tls config secret: ", w_secret DeepEqual l tlsFileConfigSecret);
    ("", w_daemon_set l (fb_makeDaemonSet aad (nn_Namespace (fa_daemonSetName aad)) checksum))]
   ++ map (fun np => ("failed to create fluent bit network policies: ", w_network_policy DeepEqual l np))
        (fb_makeNetworkPolicies (fa_daemonSetName aad) (fo_IstioEnabled opts))
   ++ [("failed to cleanup old fluentbit network policy: ", fun w => CleanupOldNetworkPolicy w (fa_daemonSetName aad))])%list.

(** [ApplyResources] of Fluent Bit. *)
Definition fb_ApplyResources (opts : fluentbit_AgentApplyOptions) (w : W) : W * option goerror := run_steps (fb_steps opts) w.

Definition fb_delete_steps : list (step W) :=
  let key name := mkNN (fa_namespace aad) name in
  [("failed to delete serviceaccount: ", delete_of ServiceAccount (key names_FluentBit));
   ("failed to delete clusterole: ", delete_of ClusterRole (key names_FluentBit));
   ("failed to delete clusterolebinding: ", delete_of ClusterRoleBinding (key names_FluentBit));
   ("failed to delete exporter metric service: ",
      delete_of (service ServiceSpec) (key names_FluentBitExporterMetricsService));
   ("failed to delete metric service: ", delete_of (service ServiceSpec) (key names_FluentBitMetricsService));
   ("failed to delete configmap: ", delete_of ConfigMapData (key names_FluentBit));
   ("failed to delete lua configmap: ", delete_of ConfigMapData (key names_FluentBitLuaScriptsConfigMap));
   ("failed to delete section configmap: ", delete_of ConfigMapData (key names_FluentBitSectionsConfigMap));
   ("failed to delete files configmap: ", delete_of ConfigMapData (key names_FluentBitFilesConfigMap));
   ("failed to delete daemonset: ", delete_of (workload DaemonSetSpec) (key names_FluentBit));
   ("failed to delete networkpolicy: ", delete_by_labels {[LabelKeyK8sName := "fluent-bit"]});
   ("failed to delete env config secret: ", delete_of SecretData (key names_FluentBitEnvSecret));
   ("failed to delete tls file config secret: ", delete_of SecretData (key names_FluentBitTLSConfigSecret))].

(** [DeleteResources] of Fluent Bit. *)
Definition fb_DeleteResources (w : W) : W * option goerror := run_all fb_delete_steps w None.

End FluentBit.

Section SelfMonitor.
Context (ad : SelfMonitorConfig).

Definition sm_steps (opts : sm_ApplyOptions) : list (step W) :=
  let l := DefaultLabels names_SelfMonitor LabelValueK8sComponentMonitor in
  let configMap := sm_makeConfigMap ad (so_PrometheusConfigFileName opts) (so_PrometheusConfigYAML opts)
                     (so_AlertRulesFileName opts) (so_AlertRulesYAML opts) in
  let checksum := Calculate sha256 [configMap] [] in
  ([("failed to create self-monitor service account: ", w_service_account DeepEqual l (sm_makeServiceAccount ad));
    ("failed to create self-monitor role: ", w_role DeepEqual l (sm_makeRole ad));
    ("failed to create self-monitor role binding: ", w_role_binding DeepEqual l (sm_makeRoleBinding ad))]
   ++ map (fun np => ("failed to create self monitor network policies: ", w_network_policy DeepEqual l np))
        (sm_makeNetworkPolicies ad)
   ++ [("failed to create self-monitor configmap: ", w_config_map DeepEqual l configMap);
       ("failed to create sel-monitor deployment: ",
          w_deployment l (sm_makeDeployment ad checksum (so_PrometheusConfigPath opts) (so_PrometheusConfigFileName opts)
                            (so_LogLevel opts)));
       ("failed to create self-monitor service: ", w_service l (sm_makeService ad selfmonports_PrometheusPort));
       ("failed to cleanup old network policy: ", fun w => CleanupOldNetworkPolicy w (selfMonitorName ad))])%list.

(** [ApplyResources] of the self-monitor. *)
Definition sm_ApplyResources (opts : sm_ApplyOptions) (w : W) : W * option goerror := run_steps (sm_steps opts) w.

(** [DeleteResources] of the self-monitor: the first error ends it. *)
Definition sm_delete_steps : list (step W) :=
  [("", delete_of (workload DeploymentSpec) (selfMonitorName ad));
   ("", delete_of ConfigMapData (selfMonitorName ad));
   ("failed to delete network policy: ", delete_by_labels {[LabelKeyK8sName := names_SelfMonitor]});
   ("", delete_of RoleBinding (selfMonitorName ad));
   ("", delete_of Role (selfMonitorName ad));
   ("", delete_of ServiceAccount (selfMonitorName ad));
   ("", delete_of (service ServiceSpec) (selfMonitorName ad))].
Definition sm_DeleteResources (w : W) : W * option goerror := run_steps sm_delete_steps w.

End SelfMonitor.

End Apply.
