(* ===== verification/ResourcesProps.v ===== *)
(** * Properties of the Kubernetes resources

    The kinds of objects joined into one store, with the laws of the API server and a server
    that keeps them. What a component applies successfully is in place, with the checksum of
    its configuration in the Pod template, and is removed again when the component is deleted. *)
From stdpp Require Import base gmap strings list pretty sorting.
From S2P Require Import Prelude Kube GoErrors GoStrings FluentBitConfigBuilder K8sUtils Resources OtelResources FluentBitResources.
Local Open Scope string_scope.

(** ** The API server, by kind *)

Inductive Kind :=
| KServiceAccount | KClusterRole | KClusterRoleBinding | KRole | KRoleBinding | KService | KNetworkPolicy | KSecret
| KConfigMap | KDaemonSet | KDeployment | KVPA | KDestinationRule | KPeerAuthentication.

#[export] Instance Kind_eq_dec : EqDecision Kind.
Proof. solve_decision. Defined.

Definition spec_of (k : Kind) : Type :=
  match k with
  | KServiceAccount => ServiceAccount | KClusterRole => ClusterRole | KClusterRoleBinding => ClusterRoleBinding
  | KRole => Role | KRoleBinding => RoleBinding | KService => service ServiceSpec | KNetworkPolicy => NetworkPolicySpec
  | KSecret => SecretData | KConfigMap => ConfigMapData | KDaemonSet => workload DaemonSetSpec
  | KDeployment => workload DeploymentSpec | KVPA => VPASpec | KDestinationRule => DestinationRuleSpec
  | KPeerAuthentication => PeerAuthenticationSpec
  end.

Definition client_of {W} `{Cluster W} (k : Kind) : ObjectClient W (spec_of k) :=
  match k with
  | KServiceAccount => cl_sa | KClusterRole => cl_cr | KClusterRoleBinding => cl_crb | KRole => cl_role
  | KRoleBinding => cl_rb | KService => cl_svc | KNetworkPolicy => cl_np | KSecret => cl_secret | KConfigMap => cl_cm
  | KDaemonSet => cl_ds | KDeployment => cl_dep | KVPA => cl_vpa | KDestinationRule => cl_dr | KPeerAuthentication => cl_pa
  end.

Definition set_version {S} (v : string) (o : object S) : object S :=
  mkObject (mkFullMeta (fm_Key (ob_Meta o)) v (fm_Labels (ob_Meta o)) (fm_Annotations (ob_Meta o))
              (fm_OwnerReferences (ob_Meta o))) (ob_Content o).

Definition item_keys {S} (items : list (object S)) : list NamespacedName := (fun o => fm_Key (ob_Meta o)) <$> items.

(** Documented behaviour of the API server. Requests may fail at any time; a write that
    answers with an error may have been done or not. A write or a deletion touches its own
    object only, and an answer that all went well, or that there is nothing to delete, is true.
    Nothing is said about what reads and lists return: they are answered by the cache of the
    manager, which may be behind. *)
Class ClusterLaws (W : Type) `{Cluster W} := {
  stored : W -> forall k : Kind, NamespacedName -> option (object (spec_of k));
  create_own w k o : let w' := (@obj_create _ _ (client_of k) w o).1 in
    stored w' k (fm_Key (ob_Meta o)) = stored w k (fm_Key (ob_Meta o)) \/
    exists v, stored w' k (fm_Key (ob_Meta o)) = Some (set_version v o);
  create_frame w k o k' key : (k', key) <> (k, fm_Key (ob_Meta o)) ->
    stored (@obj_create _ _ (client_of k) w o).1 k' key = stored w k' key;
  update_own w k o : let w' := (@obj_update _ _ (client_of k) w o).1 in
    stored w' k (fm_Key (ob_Meta o)) = stored w k (fm_Key (ob_Meta o)) \/
    exists v, stored w' k (fm_Key (ob_Meta o)) = Some (set_version v o);
  update_frame w k o k' key : (k', key) <> (k, fm_Key (ob_Meta o)) ->
    stored (@obj_update _ _ (client_of k) w o).1 k' key = stored w k' key;
  delete_own w k key : let w' := (@obj_delete _ _ (client_of k) w key).1 in
    stored w' k key = stored w k key \/ stored w' k key = None;
  delete_frame w k key k' key' : (k', key') <> (k, key) ->
    stored (@obj_delete _ _ (client_of k) w key).1 k' key' = stored w k' key';
  delete_done w k key w' r : @obj_delete _ _ (client_of k) w key = (w', r) -> r = None \/ r = Some NotFound ->
    stored w' k key = None;
  delete_found w k key w' : @obj_delete _ _ (client_of k) w key = (w', Some NotFound) -> stored w k key = None;
  list_known w k sel : @obj_list _ _ (client_of k) w sel <> Err NotFound
}.

(** The lists of network policies are current: what they return is stored, and all of it is returned. *)
Definition lists_current (W : Type) `{ClusterLaws W} : Prop :=
  forall w sel items, @obj_list _ _ (client_of KNetworkPolicy) w sel = Ok items ->
    NoDup (item_keys items) /\
    (forall o, o ∈ items -> stored w KNetworkPolicy (fm_Key (ob_Meta o)) = Some o) /\
    (forall key o, stored w KNetworkPolicy key = Some o -> sel ⊆ default ∅ (fm_Labels (ob_Meta o)) ->
       key ∈ item_keys items).

(** The reads of ConfigMaps and Secrets are current: they answer with the stored object. *)
Definition reads_current (W : Type) `{ClusterLaws W} : Prop :=
  forall w k key o, k = KConfigMap \/ k = KSecret -> @obj_get _ _ (client_of k) w key = Ok o -> stored w k key = Some o.

Section Cleanup.
Context {W : Type} `{ClusterLaws W}.
Context (DeepEqual : forall S, object S -> object S -> bool) (sha256 : string -> string).

(** ** What a sequence of writes may leave behind

    [inv] are the objects that are written by key; a network policy carries the label. *)
Section Inventory.
Context (inv : list (Kind * NamespacedName)) (sel : labels).

Definition tracked (w : W) (k : Kind) (key : NamespacedName) : Prop :=
  (k, key) ∈ inv \/
  exists o : object NetworkPolicySpec, k = KNetworkPolicy /\ stored w KNetworkPolicy key = Some o /\
    sel ⊆ default ∅ (fm_Labels (ob_Meta o)).

(** Every object that was not there in [w0] is tracked. *)
Definition covered (w0 w : W) : Prop :=
  forall k key, stored w0 k key = None -> stored w k key <> None -> tracked w k key.

Definition covers (f : W -> W * option apierror) : Prop := forall w0 w, covered w0 w -> covered w0 (f w).1.
Definition shrinks (f : W -> W * option apierror) : Prop :=
  forall w k key, stored (f w).1 k key = stored w k key \/ stored (f w).1 k key = None.

Lemma covered_refl w : covered w w.
Proof. intros k key Hn Hs. done. Qed.

Lemma shrinks_covers f : shrinks f -> covers f.
Proof.
  intros Hf w0 w Hc k key Hn Hs. destruct (Hf w k key) as [He|He]; [|congruence].
  rewrite He in Hs. destruct (Hc k key Hn Hs) as [?|(o & -> & Ho & Hl)]; [by left|].
  right. exists o. by rewrite He.
Qed.

(** A change of one object to a labelled one. *)
Lemma one_write_covered w0 w w' k (o : object (spec_of k)) :
  (k, fm_Key (ob_Meta o)) ∈ inv \/ k = KNetworkPolicy /\ sel ⊆ default ∅ (fm_Labels (ob_Meta o)) ->
  stored w' k (fm_Key (ob_Meta o)) = stored w k (fm_Key (ob_Meta o)) \/
    (exists v, stored w' k (fm_Key (ob_Meta o)) = Some (set_version v o)) ->
  (forall k' key, (k', key) <> (k, fm_Key (ob_Meta o)) -> stored w' k' key = stored w k' key) ->
  covered w0 w -> covered w0 w'.
Proof.
  intros Hin Hown Hframe Hc k' key Hn Hs. destruct (decide ((k', key) = (k, fm_Key (ob_Meta o)))) as [[= -> ->]|Hne].
  - destruct Hin as [Hin|[-> Hl]]; [by left|]. destruct Hown as [He|[v He]].
    + rewrite He in Hs. destruct (Hc _ _ Hn Hs) as [?|(o' & _ & Ho & Hl')]; [by left|]. right. exists o'. by rewrite He.
    + right. by exists (set_version v o).
  - rewrite (Hframe _ _ Hne) in Hs. destruct (Hc _ _ Hn Hs) as [?|(o' & -> & Ho & Hl')]; [by left|].
    right. exists o'. by rewrite (Hframe _ _ Hne).
Qed.

Lemma ensureLabels_labels {S} l (o : object S) : l ⊆ default ∅ (fm_Labels (ob_Meta (ensureLabels l o))).
Proof. cbn. apply map_union_subseteq_l. Qed.

Lemma create_covers k l (o : object (spec_of k)) :
  (k, fm_Key (ob_Meta o)) ∈ inv \/ k = KNetworkPolicy /\ sel ⊆ l ->
  covers (fun w => @obj_create W _ (NewLabeler l (client_of k)) w o).
Proof.
  intros Hin w0 w. apply (one_write_covered w0 w _ k (ensureLabels l o)).
  - destruct Hin as [?|[? Hl]]; [by left|right]. split; [done|]. etrans; [exact Hl|apply ensureLabels_labels].
  - apply create_own.
  - intros k' key. apply create_frame.
Qed.

Lemma update_covers k l (o : object (spec_of k)) :
  (k, fm_Key (ob_Meta o)) ∈ inv \/ k = KNetworkPolicy /\ sel ⊆ l ->
  covers (fun w => @obj_update W _ (NewLabeler l (client_of k)) w o).
Proof.
  intros Hin w0 w. apply (one_write_covered w0 w _ k (ensureLabels l o)).
  - destruct Hin as [?|[? Hl]]; [by left|right]. split; [done|]. etrans; [exact Hl|apply ensureLabels_labels].
  - apply update_own.
  - intros k' key. apply update_frame.
Qed.

Lemma write_covers k l prepare (o : object (spec_of k)) :
  (k, fm_Key (ob_Meta o)) ∈ inv \/ k = KNetworkPolicy /\ sel ⊆ l ->
  covers (fun w => @create_or_update W _ (NewLabeler l (client_of k)) prepare w o).
Proof.
  intros Hin w0 w Hc. unfold create_or_update. destruct (@obj_get _ _ _ w _) as [ex|e].
  - by apply (update_covers k l (mkObject (mergeMetadata (ob_Meta o) (ob_Meta ex)) _)).
  - destruct (negb (IsNotFound e)); [done|]. by apply create_covers.
Qed.

Lemma write_if_changed_covers k l (o : object (spec_of k)) :
  (k, fm_Key (ob_Meta o)) ∈ inv \/ k = KNetworkPolicy /\ sel ⊆ l ->
  covers (fun w => @create_or_update_if_changed W _ (NewLabeler l (client_of k)) (DeepEqual _) w o).
Proof.
  intros Hin w0 w Hc. unfold create_or_update_if_changed. destruct (@obj_get _ _ _ w _) as [ex|e].
  - destruct (DeepEqual _ _ _); [done|].
    by apply (update_covers k l (mkObject (mergeMetadata (ob_Meta o) (ob_Meta ex)) _)).
  - destruct (negb (IsNotFound e)); [done|]. by apply create_covers.
Qed.

Lemma run_steps_covers steps :
  Forall (fun s : step W => covers s.2) steps -> forall w0 w, covered w0 w -> covered w0 (run_steps steps w).1.
Proof.
  induction 1 as [|[what f] rest Hf _ IH]; intros w0 w Hc; [done|]. simpl. specialize (Hf w0 w Hc). simpl in Hf.
  destruct (f w) as [w1 [e|]]; [done|]. by apply IH.
Qed.

End Inventory.

(** ** Deletions *)

Lemma delete_shrinks k key : shrinks (fun w => @DeleteObject W _ (client_of k) w key).
Proof.
  intros w k' key'. unfold DeleteObject. pose proof (delete_own w k key) as Ho.
  pose proof (delete_frame w k key k' key') as Hf. destruct (obj_delete w key) as [w1 r] eqn:E. cbn in *.
  destruct (decide ((k', key') = (k, key))) as [[= -> ->]|Hne]; [done|]. left. by apply Hf.
Qed.

Lemma delete_gone k key w w' : @DeleteObject W _ (client_of k) w key = (w', None) -> stored w' k key = None.
Proof.
  unfold DeleteObject. destruct (obj_delete w key) as [w1 r] eqn:E. intros [= <- Hr].
  apply (delete_done _ _ _ _ _ E). destruct r as [e|]; [right|by left]. by destruct e.
Qed.

(** The objects [ks] are gone and, if lists are current, so is every network policy with one of the labels [ls]. *)
Definition wiped (ks : list (Kind * NamespacedName)) (ls : list labels) (w : W) : Prop :=
  (forall k key, (k, key) ∈ ks -> stored w k key = None) /\
  (lists_current W -> forall sel key (o : object NetworkPolicySpec), sel ∈ ls -> stored w KNetworkPolicy key = Some o ->
     ~ sel ⊆ default ∅ (fm_Labels (ob_Meta o))).

(** [w'] holds a part of the objects of [w]. *)
Definition part_of (w' w : W) : Prop := forall k key, stored w' k key = stored w k key \/ stored w' k key = None.

Lemma part_of_trans w1 w2 w3 : part_of w3 w2 -> part_of w2 w1 -> part_of w3 w1.
Proof.
  intros Ha Hb k key. destruct (Ha k key) as [Hx|Hx]; rewrite Hx; [apply Hb|by right].
Qed.

Lemma wiped_part ks ls w w' : part_of w' w -> wiped ks ls w -> wiped ks ls w'.
Proof.
  intros Hp [Hk Hl]. split.
  - intros k key Hin. destruct (Hp k key) as [->|]; [by apply Hk|done].
  - intros Hcur sel key o Hin Ho. destruct (Hp KNetworkPolicy key) as [He|He]; [|congruence].
    apply (Hl Hcur sel key o Hin). congruence.
Qed.

Lemma wiped_app ks ks' ls ls' w : wiped ks ls w -> wiped ks' ls' w -> wiped (ks ++ ks') (ls ++ ls') w.
Proof.
  intros [Hk Hl] [Hk' Hl']. split; [intros k key|intros Hcur sel key o]; rewrite elem_of_app; intros [Hin|Hin]; eauto.
Qed.

Definition cleans (ks : list (Kind * NamespacedName)) (ls : list labels) (f : W -> W * option apierror) : Prop :=
  shrinks f /\ forall w w', f w = (w', None) -> wiped ks ls w'.

Lemma delete_cleans k key : cleans [(k, key)] [] (fun w => @DeleteObject W _ (client_of k) w key).
Proof.
  split; [apply delete_shrinks|]. intros w w' Hd. split; [|intros ???? Hin; set_solver].
  intros k' key' Hin. apply list_elem_of_singleton in Hin. injection Hin as -> ->. by apply delete_gone in Hd.
Qed.

Lemma unless_gone_cleans ks ls f :
  (forall w w', f w <> (w', Some NotFound)) -> cleans ks ls f -> cleans ks ls (unless_gone f).
Proof.
  intros Hn [Hs Hc]. unfold unless_gone. split.
  - intros w k key. specialize (Hs w k key). by destruct (f w).
  - intros w w'. specialize (Hn w). specialize (Hc w). destruct (f w) as [w1 [e|]]; intros Hd; simplify_eq.
    + destruct e; try done. by destruct (Hn w').
    + by apply Hc.
Qed.

Lemma DeleteObject_not_notfound k key w w' : @DeleteObject W _ (client_of k) w key <> (w', Some NotFound).
Proof. unfold DeleteObject. destruct (obj_delete w key) as [w1 [[]|]]; intros [=]. Qed.

(** The listed network policies are deleted one after the other. *)
Lemma delete_items_wipes (items : list (object NetworkPolicySpec)) w w' r :
  delete_items items w = (w', r) ->
  part_of w' w /\
  (NoDup (item_keys items) -> (forall o, o ∈ items -> stored w KNetworkPolicy (fm_Key (ob_Meta o)) <> None) -> r = None -> forall key, key ∈ item_keys items -> stored w' KNetworkPolicy key = None).
Proof.
  revert w. induction items as [|o rest IH]; intros w; cbn [delete_items].
  { intros [= <- <-]. split; [by left|]. intros _ _ _ key Hin. set_solver. }
  unfold item_keys in *. rewrite fmap_cons in *.
  pose proof (delete_own w KNetworkPolicy (fm_Key (ob_Meta o))) as Ho.
  pose proof (fun k' => delete_frame w KNetworkPolicy (fm_Key (ob_Meta o)) k') as Hf. cbn [client_of] in Ho, Hf.
  destruct (obj_delete w (fm_Key (ob_Meta o))) as [w1 r1] eqn:E. cbn [fst] in Ho, Hf.
  assert (Hp : part_of w1 w).
  { intros k' key'. destruct (decide ((k', key') = (KNetworkPolicy, fm_Key (ob_Meta o)))) as [[= -> ->]|Hne]; [done|].
    left. by apply Hf. }
  destruct r1 as [e|].
  - intros [= <- <-]. split; [done|]. intros _ Hst Hi. destruct e; try done.
    exfalso. apply (Hst o); [by left|]. by apply (delete_found _ _ _ w1).
  - intros Hd. destruct (IH w1 Hd) as [Hp' Hr]. split; [by eapply part_of_trans|].
    intros Hnd Hst -> key Hin. apply NoDup_cons in Hnd as [Hnin Hnd]. apply elem_of_cons in Hin as [->|Hin].
    + destruct (Hp' KNetworkPolicy (fm_Key (ob_Meta o))) as [He|He]; [|done]. rewrite He.
      apply (delete_done _ _ _ _ None E). by left.
    + apply Hr; try done. intros o' Ho'. rewrite (Hf KNetworkPolicy); [apply Hst; by right|]. intros [= He]. apply Hnin.
      rewrite <- He. by apply (list_elem_of_fmap_2 (fun o : object NetworkPolicySpec => fm_Key (ob_Meta o))).
Qed.

Lemma delete_by_labels_cleans sel : cleans [] [sel] (delete_by_labels sel).
Proof.
  assert (Hboth : forall w w' r, delete_by_labels sel w = (w', r) ->
                    part_of w' w /\ (r = None -> wiped [] [sel] w')).
  { intros w w' r. unfold delete_by_labels, DeleteObjectsByLabelSelector.
    pose proof (list_known w KNetworkPolicy sel) as Hk. cbn [client_of] in Hk.
    destruct (obj_list w sel) as [items|e] eqn:El.
    - intros Hd. destruct (delete_items_wipes items w w' r Hd) as [Hp Hr].
      split; [done|]. intros ->. split; [intros k key Hin; set_solver|]. intros Hcur sel' key o Hin Ho Hsub.
      destruct (Hcur w sel items El) as (Hnd & Hst & Hall).
      apply list_elem_of_singleton in Hin as ->. cbn [spec_of] in *.
      destruct (Hp KNetworkPolicy key) as [He|He]; cbn [spec_of] in He; rewrite He in Ho; [|done].
      pose proof (Hall key o Ho Hsub) as Hk'. rewrite (Hr Hnd) in He; [by rewrite <- He in Ho| |done|done].
      intros o' Hin' Hn. pose proof (Hst o' Hin') as Hx. congruence.
    - intros [= <- <-]. split; [by left|]. by destruct e. }
  split; [intros w|intros w w' Hd]; [destruct (delete_by_labels sel w) as [w' r] eqn:E|].
  - intros k key. by apply Hboth in E as [Hp _].
  - apply Hboth in Hd as [_ Hw]. by apply Hw.
Qed.

Inductive steps_clean : list (step W) -> list (Kind * NamespacedName) -> list labels -> Prop :=
| clean_nil : steps_clean [] [] []
| clean_cons what f ks ls rest ks' ls' :
    cleans ks ls f -> steps_clean rest ks' ls' -> steps_clean ((what, f) :: rest) (ks ++ ks') (ls ++ ls').

Lemma clean_app a b ka kb la lb :
  steps_clean a ka la -> steps_clean b kb lb -> steps_clean (a ++ b) (ka ++ kb) (la ++ lb).
Proof.
  induction 1 as [|what f ks ls rest ks' ls' Hf Hr IH]; intros Hb; [done|]. cbn. rewrite <- !app_assoc.
  constructor; auto.
Qed.

Lemma clean_as steps ks ls ks' ls' : steps_clean steps ks' ls' -> ks' = ks -> ls' = ls -> steps_clean steps ks ls.
Proof. by intros ? -> ->. Qed.

Lemma run_all_wipes steps ks ls w acc w' r :
  steps_clean steps ks ls -> run_all steps w acc = (w', r) ->
  part_of w' w /\ (r = None -> acc = None /\ wiped ks ls w').
Proof.
  intros Hs. revert w acc. induction Hs as [|what f ks ls rest ks' ls' [Hf Hc] Hr IH]; intros w acc; cbn [run_all].
  { intros [= <- <-]. split; [by left|]. intros ->. split; [done|]. split; intros *; intros Hin; set_solver. }
  specialize (Hf w). specialize (Hc w). destruct (f w) as [w1 [e|]]; cbn [fst] in Hf; intros Hd; apply IH in Hd as [Hp Hn].
  - split; [by eapply part_of_trans|]. intros ->. destruct Hn as [Hj _]; [done|]. by destruct acc.
  - split; [by eapply part_of_trans|]. intros ->. destruct Hn as [-> Hw]; [done|]. split; [done|].
    apply wiped_app; [|done]. eapply wiped_part; [exact Hp|]. by apply Hc.
Qed.

Lemma run_steps_wipes steps ks ls w w' r :
  steps_clean steps ks ls -> run_steps steps w = (w', r) -> part_of w' w /\ (r = None -> wiped ks ls w').
Proof.
  intros Hs. revert w. induction Hs as [|what f ks ls rest ks' ls' [Hf Hc] Hr IH]; intros w; cbn [run_steps].
  { intros [= <- <-]. split; [by left|]. intros _. split; intros *; intros Hin; set_solver. }
  specialize (Hf w). specialize (Hc w). destruct (f w) as [w1 [e|]]; cbn [fst] in Hf.
  - by intros [= <- <-].
  - intros Hd. apply IH in Hd as [Hp Hn]. split; [by eapply part_of_trans|]. intros ->.
    apply wiped_app; [|by apply Hn]. eapply wiped_part; [exact Hp|]. by apply Hc.
Qed.

(** What was written is gone when all of it was deleted. *)
Lemma covered_wiped inv sel ks ls w0 w w' :
  covered inv sel w0 w -> part_of w' w -> wiped ks ls w' -> (forall x, x ∈ inv -> x ∈ ks) -> sel ∈ ls ->
  forall k key, (k = KNetworkPolicy -> lists_current W) -> stored w0 k key = None -> stored w' k key = None.
Proof.
  intros Hc Hp [Hk Hl] Hsub Hsel k key Hcur Hn. destruct (Hp k key) as [He|He]; [|done].
  destruct (stored w' k key) eqn:Hs; [|done]. exfalso.
  destruct (Hc k key Hn) as [Hin|(o' & -> & Ho & Hlab)]; [congruence| |].
  - rewrite (Hk k key) in Hs; [done|by apply Hsub].
  - apply (Hl (Hcur eq_refl) sel key o' Hsel); [|done]. congruence.
Qed.

Lemma cleanup_shrinks name : shrinks (fun w => CleanupOldNetworkPolicy w name).
Proof.
  intros w k key. pose proof (delete_own w KNetworkPolicy name) as Ho.
  pose proof (delete_frame w KNetworkPolicy name k key) as Hf. cbn [client_of] in Ho, Hf. unfold CleanupOldNetworkPolicy.
  destruct (obj_delete w name) as [w1 r]. cbn [fst] in Ho, Hf.
  assert (Hg : stored w1 k key = stored w k key \/ stored w1 k key = None).
  { destruct (decide ((k, key) = (KNetworkPolicy, name))) as [[= -> ->]|Hne]; [done|]. left. by apply Hf. }
  destruct r as [e|]; [|done]. by destruct (IsNotFound e).
Qed.

End Cleanup.

Lemma name_label base c : {[LabelKeyK8sName := base]} ⊆ DefaultLabels base c.
Proof.
  apply map_singleton_subseteq_l. unfold DefaultLabels. rewrite lookup_insert_ne by done. by rewrite lookup_insert_eq.
Qed.

Lemma fluentbit_label : {[LabelKeyK8sName := "fluent-bit"]} ⊆ defaultFluentBitLabels.
Proof. apply map_singleton_subseteq_l. reflexivity. Qed.

(** Membership in a list that is known up to its entries. *)
Ltac in_list := solve [repeat first [solve [apply list_elem_of_here] | apply list_elem_of_further]].

(** One write of a sequence, by its kind. *)
Ltac covers_key := left; cbn; in_list.
Ltac covers_step :=
  cbn [snd];
  lazymatch goal with
  | |- covers _ _ (w_secret _ _ _) => refine (write_if_changed_covers _ _ _ KSecret _ _ _); covers_key
  | |- covers _ _ (w_config_map _ _ _) => refine (write_if_changed_covers _ _ _ KConfigMap _ _ _); covers_key
  | |- covers _ _ (w_service_account _ _ _) => refine (write_if_changed_covers _ _ _ KServiceAccount _ _ _); covers_key
  | |- covers _ _ (w_cluster_role _ _ _) => refine (write_if_changed_covers _ _ _ KClusterRole _ _ _); covers_key
  | |- covers _ _ (w_cluster_role_binding _ _ _) => refine (write_if_changed_covers _ _ _ KClusterRoleBinding _ _ _); covers_key
  | |- covers _ _ (w_role _ _ _) => refine (write_if_changed_covers _ _ _ KRole _ _ _); covers_key
  | |- covers _ _ (w_role_binding _ _ _) => refine (write_if_changed_covers _ _ _ KRoleBinding _ _ _); covers_key
  | |- covers _ _ (w_service _ _) => refine (write_covers _ _ KService _ _ _ _); covers_key
  | |- covers _ _ (w_daemon_set _ _) => refine (write_covers _ _ KDaemonSet _ _ _ _); covers_key
  | |- covers _ _ (w_deployment _ _) => refine (write_covers _ _ KDeployment _ _ _ _); covers_key
  | |- covers _ _ (w_vpa _ _) => refine (write_covers _ _ KVPA _ _ _ _); covers_key
  | |- covers _ _ (w_destination_rule _ _) => refine (write_covers _ _ KDestinationRule _ _ _ _); covers_key
  | |- covers _ _ (w_peer_authentication _ _) => refine (write_covers _ _ KPeerAuthentication _ _ _ _); covers_key
  | |- covers _ _ (w_network_policy _ _ _) =>
      refine (write_if_changed_covers _ _ _ KNetworkPolicy _ _ _); right; split; [done|first [exact (name_label _ _) | exact fluentbit_label]]
  | |- covers _ _ (delete_of VPASpec _) => refine (shrinks_covers _ _ _ (delete_shrinks KVPA _))
  | |- covers _ _ (fun w => CleanupOldNetworkPolicy w _) => refine (shrinks_covers _ _ _ (cleanup_shrinks _))
  end.
Ltac covers_steps := repeat first [apply Forall_app; split | apply Forall_cons; split | apply Forall_nil; exact I | covers_step].

(** One deletion of a sequence. *)
Ltac clean_step :=
  first
    [ refine (delete_by_labels_cleans _)
    | match goal with |- cleans _ _ (unless_gone _) =>
        apply unless_gone_cleans; [intros ??; first
          [ refine (DeleteObject_not_notfound KClusterRoleBinding _ _ _) | refine (DeleteObject_not_notfound KClusterRole _ _ _)
          | refine (DeleteObject_not_notfound KRoleBinding _ _ _) | refine (DeleteObject_not_notfound KRole _ _ _)
          | refine (DeleteObject_not_notfound KServiceAccount _ _ _) ] |] end; clean_step
    | refine (delete_cleans KClusterRoleBinding _) | refine (delete_cleans KClusterRole _) | refine (delete_cleans KRoleBinding _)
    | refine (delete_cleans KRole _) | refine (delete_cleans KServiceAccount _) | refine (delete_cleans KService _)
    | refine (delete_cleans KSecret _) | refine (delete_cleans KConfigMap _) | refine (delete_cleans KDaemonSet _)
    | refine (delete_cleans KDeployment _) | refine (delete_cleans KVPA _) | refine (delete_cleans KDestinationRule _)
    | refine (delete_cleans KPeerAuthentication _) ].
Ltac clean_steps := repeat first [apply clean_nil | eapply clean_cons; [clean_step|] | eapply clean_app].

Section Removal.
Context {W : Type} `{ClusterLaws W}.
Context (DeepEqual : forall S, object S -> object S -> bool) (sha256 : string -> string).

(** Nothing is in [w'] that was not in [w]; for network policies when their lists are current. *)
Definition leaves_nothing (w w' : W) : Prop :=
  forall k key, (k = KNetworkPolicy -> lists_current W) -> stored w k key = None -> stored w' k key = None.

(** ** The gateway *)

Definition common_inventory (name : NamespacedName) : list (Kind * NamespacedName) :=
  [(KClusterRoleBinding, name); (KClusterRole, name); (KRoleBinding, name); (KRole, name); (KServiceAccount, name);
   (KService, mkNN (nn_Namespace name) (MetricsServiceName (nn_Name name)))].

Lemma common_clean name : steps_clean (deleteCommonResources name) (common_inventory name) [].
Proof. eapply clean_as; [unfold deleteCommonResources; clean_steps|reflexivity|reflexivity]. Qed.

(** The agents and the gateway delete the common resources first. *)
Lemma delete_after_common name steps ks ls w w1 err w' r :
  steps_clean steps ks ls -> join_group (deleteCommonResources name) w = (w1, err) -> run_all steps w1 err = (w', r) ->
  part_of w' w /\ (r = None -> wiped (common_inventory name ++ ks) ls w').
Proof.
  intros Hs Hj Hr. unfold join_group in Hj. destruct (run_all (deleteCommonResources name) w None) as [w2 e2] eqn:E.
  injection Hj as <- He. apply (run_all_wipes _ _ _ _ _ _ _ (common_clean name)) in E as [Hp Hw].
  apply (run_all_wipes _ _ _ _ _ _ _ Hs) in Hr as [Hp' Hw']. split; [by eapply part_of_trans|]. intros ->.
  destruct Hw' as [Hn Hw2]; [done|]. destruct e2 as [e2|]; [congruence|]. destruct Hw as [_ Hw]; [done|].
  apply (wiped_app _ _ []); [|done]. by eapply wiped_part.
Qed.

Section Gateway.
Context (globals : Global) (image priorityClassName : string).
Let o := NewOTLPGatewayApplierDeleter globals image priorityClassName.
Let in_ns (name : string) : NamespacedName := mkNN (TargetNamespace globals) name.

Definition gateway_inventory (istio vpa : bool) : list (Kind * NamespacedName) :=
  let name := in_ns names_OTLPGateway in
  (common_inventory name
   ++ [(KSecret, name); (KConfigMap, name); (KDaemonSet, name)]
   ++ (if vpa then [(KVPA, name)] else [])
   ++ map (fun n => (KService, in_ns n)) [names_OTLPService; names_OTLPLogsService; names_OTLPTracesService; names_OTLPMetricsService]
   ++ (if istio then map (fun n => (KDestinationRule, in_ns n)) mesh_services ++ [(KPeerAuthentication, name)] else []))%list.

Lemma gateway_delete_clean istio vpa :
  steps_clean (gateway_delete_steps o istio vpa) (drop 6 (gateway_inventory istio vpa))
    [{[LabelKeyK8sName := names_OTLPGateway]}].
Proof.
  destruct istio, vpa; (eapply clean_as; [cbv [gateway_delete_steps mesh_services app map]; clean_steps|reflexivity|reflexivity]).
Qed.

Lemma gateway_apply_covers opts istio vpa w0 w :
  (go_IstioEnabled opts = true -> istio = true) -> (go_VpaCRDExists opts = true -> vpa = true) ->
  let inv := gateway_inventory istio vpa in
  let sel := {[LabelKeyK8sName := names_OTLPGateway]} in
  covered inv sel w0 w -> covered inv sel w0 (gateway_ApplyResources DeepEqual sha256 o opts w).1.
Proof.
  intros Hi Hv inv sel Hc. unfold gateway_ApplyResources.
  match goal with |- context [run_steps ?s w] => assert (Hcom : covered inv sel w0 (run_steps s w).1) end.
  { apply run_steps_covers; [|done]. cbv [applyCommonResources optional_step].
    cbn [ga_rbac rbac_clusterRole rbac_role rbac_clusterRoleBinding rbac_roleBinding o NewOTLPGatewayApplierDeleter
         makeOTLPGatewayRBAC newRBAC fold_left app]. covers_steps. }
  destruct (run_steps _ w) as [w1 [e|]]; [done|]. apply run_steps_covers; [|done].
  cbv [gateway_steps applyVPA makeGatewayNetworkPolicies mesh_services].
  destruct istio, vpa, (go_IstioEnabled opts), (go_VpaCRDExists opts); try (by specialize (Hi eq_refl)); try (by specialize (Hv eq_refl));
    destruct (go_VpaEnabled opts); cbn [map app negb]; covers_steps.
Qed.

Lemma gateway_removed opts istio vpa w w1 r w2 :
  (go_IstioEnabled opts = true -> istio = true) -> (go_VpaCRDExists opts = true -> vpa = true) ->
  gateway_ApplyResources DeepEqual sha256 o opts w = (w1, r) -> gateway_DeleteResources o istio vpa w1 = (w2, None) ->
  leaves_nothing w w2.
Proof.
  intros Hi Hv Ha Hd k key. pose proof (gateway_apply_covers opts istio vpa w w Hi Hv (covered_refl _ _ w)) as Hc.
  rewrite Ha in Hc. unfold gateway_DeleteResources in Hd.
  destruct (join_group _ w1) as [w3 e3] eqn:Ej.
  destruct (delete_after_common _ _ _ _ _ _ _ _ _ (gateway_delete_clean istio vpa) Ej Hd) as [Hp Hw].
  apply (covered_wiped _ _ _ _ _ _ _ Hc Hp (Hw eq_refl)); [done|set_solver].
Qed.
End Gateway.

(** ** Fluent Bit *)

Section FluentBit.
Context (globals : Global) (namespace fbImage exporterImage chownInitContainerImage priorityClassName : string).
Let aad := NewFluentBitApplierDeleter globals namespace fbImage exporterImage chownInitContainerImage priorityClassName.
Let in_ns (name : string) : NamespacedName := mkNN namespace name.

Definition fluentbit_inventory : list (Kind * NamespacedName) :=
  [(KServiceAccount, in_ns names_FluentBit); (KClusterRole, in_ns names_FluentBit); (KClusterRoleBinding, in_ns names_FluentBit);
   (KService, in_ns names_FluentBitExporterMetricsService); (KService, in_ns names_FluentBitMetricsService);
   (KConfigMap, in_ns names_FluentBit); (KConfigMap, in_ns names_FluentBitLuaScriptsConfigMap);
   (KConfigMap, in_ns names_FluentBitSectionsConfigMap); (KConfigMap, in_ns names_FluentBitFilesConfigMap);
   (KDaemonSet, in_ns names_FluentBit); (KSecret, in_ns names_FluentBitEnvSecret); (KSecret, in_ns names_FluentBitTLSConfigSecret)].

Lemma fluentbit_delete_clean :
  steps_clean (fb_delete_steps aad) fluentbit_inventory [{[LabelKeyK8sName := "fluent-bit"]}].
Proof. eapply clean_as; [unfold fb_delete_steps; clean_steps|reflexivity|reflexivity]. Qed.

Lemma fluentbit_apply_covers opts w0 w :
  let sel := {[LabelKeyK8sName := "fluent-bit"]} in
  covered fluentbit_inventory sel w0 w ->
  covered fluentbit_inventory sel w0 (fb_ApplyResources DeepEqual sha256 aad opts w).1.
Proof.
  intros sel Hc. apply run_steps_covers; [|done]. cbv [fb_steps fb_makeNetworkPolicies]. cbn [map app]. covers_steps.
Qed.

Lemma fluentbit_removed opts w w1 r w2 :
  fb_ApplyResources DeepEqual sha256 aad opts w = (w1, r) -> fb_DeleteResources aad w1 = (w2, None) -> leaves_nothing w w2.
Proof.
  intros Ha Hd k key. pose proof (fluentbit_apply_covers opts w w (covered_refl _ _ w)) as Hc. rewrite Ha in Hc.
  destruct (run_all_wipes _ _ _ _ _ _ _ fluentbit_delete_clean Hd) as [Hp Hw].
  apply (covered_wiped _ _ _ _ _ _ _ Hc Hp (proj2 (Hw eq_refl))); [done|set_solver].
Qed.
End FluentBit.

(** ** The self-monitor *)

Section SelfMonitor.
Context (ad : SelfMonitorConfig).

Definition self_monitor_inventory : list (Kind * NamespacedName) :=
  (fun k => (k, selfMonitorName ad)) <$> [KDeployment; KConfigMap; KRoleBinding; KRole; KServiceAccount; KService].

Lemma self_monitor_delete_clean :
  steps_clean (sm_delete_steps ad) self_monitor_inventory [{[LabelKeyK8sName := names_SelfMonitor]}].
Proof. eapply clean_as; [unfold sm_delete_steps; clean_steps|reflexivity|reflexivity]. Qed.

Lemma self_monitor_apply_covers opts w0 w :
  let sel := {[LabelKeyK8sName := names_SelfMonitor]} in
  covered self_monitor_inventory sel w0 w ->
  covered self_monitor_inventory sel w0 (sm_ApplyResources DeepEqual sha256 ad opts w).1.
Proof.
  intros sel Hc. apply run_steps_covers; [|done]. cbv [sm_steps sm_makeNetworkPolicies]. cbn [map app]. covers_steps.
Qed.

Lemma self_monitor_removed opts w w1 r w2 :
  sm_ApplyResources DeepEqual sha256 ad opts w = (w1, r) -> sm_DeleteResources ad w1 = (w2, None) -> leaves_nothing w w2.
Proof.
  intros Ha Hd k key. pose proof (self_monitor_apply_covers opts w w (covered_refl _ _ w)) as Hc. rewrite Ha in Hc.
  destruct (run_steps_wipes _ _ _ _ _ _ self_monitor_delete_clean Hd) as [Hp Hw].
  apply (covered_wiped _ _ _ _ _ _ _ Hc Hp (Hw eq_refl)); [done|set_solver].
Qed.
End SelfMonitor.

(** ** The agents *)

Section Agent.
Context (aad : AgentApplierDeleter).
Let name : NamespacedName := mkNN (TargetNamespace (aa_globals aad)) (aa_baseName aad).

Definition agent_deleted (vpa : bool) : list (Kind * NamespacedName) :=
  (common_inventory name ++ [(KConfigMap, name); (KDaemonSet, name)] ++ if vpa then [(KVPA, name)] else [])%list.

Lemma agent_delete_clean vpa :
  steps_clean (agent_delete_steps aad vpa) (drop 6 (agent_deleted vpa)) [{[LabelKeyK8sName := aa_baseName aad]}].
Proof. destruct vpa; (eapply clean_as; [cbv [agent_delete_steps app]; clean_steps|reflexivity|reflexivity]). Qed.

Definition agent_inventory (vpa env : bool) : list (Kind * NamespacedName) :=
  ((if env then [(KSecret, name)] else []) ++ agent_deleted vpa)%list.

Lemma agent_steps_cover opts vpa w0 w :
  (ao_VpaCRDExists opts = true -> vpa = true) ->
  let inv := agent_inventory vpa (bool_decide (is_Some (ao_CollectorEnvVars opts))) in
  let sel := {[LabelKeyK8sName := aa_baseName aad]} in
  covered inv sel w0 w -> covered inv sel w0 (run_steps (agent_steps DeepEqual sha256 aad opts) w).1.
Proof.
  intros Hv inv sel Hc. apply run_steps_covers; [|done]. subst inv. cbv [agent_steps makeAgentNetworkPolicies].
  destruct (ao_CollectorEnvVars opts), vpa, (ao_VpaCRDExists opts); try (by specialize (Hv eq_refl));
    [rewrite bool_decide_eq_true_2 by done|rewrite bool_decide_eq_true_2 by done|rewrite bool_decide_eq_true_2 by done
    |rewrite bool_decide_eq_false_2 by (by intros [??])|rewrite bool_decide_eq_false_2 by (by intros [??])
    |rewrite bool_decide_eq_false_2 by (by intros [??])];
    destruct (ao_VpaEnabled opts); cbn [map app]; covers_steps.
Qed.

(** A deletion leaves the kind [k] alone. *)
Definition keeps (k : Kind) (f : W -> W * option apierror) : Prop := forall w key, stored (f w).1 k key = stored w k key.

Lemma delete_keeps k k' key : k' <> k -> keeps k' (fun w => @DeleteObject W _ (client_of k) w key).
Proof.
  intros Hne w key'. unfold DeleteObject. pose proof (delete_frame w k key k' key') as Hf.
  destruct (obj_delete w key) as [w1 r]. apply Hf. congruence.
Qed.

Lemma delete_by_labels_keeps k sel : k <> KNetworkPolicy -> keeps k (delete_by_labels sel).
Proof.
  intros Hne w key. unfold delete_by_labels, DeleteObjectsByLabelSelector. destruct (obj_list w sel) as [items|e]; [|done].
  revert w. induction items as [|o rest IH]; intros w; [done|]. cbn [delete_items].
  pose proof (delete_frame w KNetworkPolicy (fm_Key (ob_Meta o)) k key) as Hf. cbn [client_of] in Hf.
  destruct (obj_delete w (fm_Key (ob_Meta o))) as [w1 [e|]]; cbn [fst] in *; [|rewrite IH]; apply Hf; congruence.
Qed.

Lemma unless_gone_keeps k f : keeps k f -> keeps k (unless_gone f).
Proof. intros Hf w key. specialize (Hf w key). unfold unless_gone. by destruct (f w). Qed.

Lemma run_all_keeps k (steps : list (step W)) w acc key :
  Forall (fun s => keeps k s.2) steps -> stored (run_all steps w acc).1 k key = stored w k key.
Proof.
  intros Hs. revert w acc. induction Hs as [|[what f] rest Hf _ IH]; intros w acc; [done|]. cbn [run_all].
  specialize (Hf w key). cbn [snd] in Hf. destruct (f w) as [w1 [e|]]; rewrite IH; done.
Qed.

(** Deleting the resources of an agent never touches a Secret. *)
Lemma agent_delete_keeps_secrets vpa w key :
  stored (agent_DeleteResources aad vpa w).1 KSecret key = stored w KSecret key.
Proof.
  unfold agent_DeleteResources, join_group.
  change (mkNN (TargetNamespace (aa_globals aad)) (aa_baseName aad)) with name.
  pose proof (run_all_keeps KSecret (deleteCommonResources name) w None key) as Hcom.
  destruct (run_all (deleteCommonResources name) w None) as [w1 e]. cbn [fst] in Hcom. rewrite run_all_keeps.
  - apply Hcom. cbv [deleteCommonResources]. repeat constructor; cbn [snd];
      lazymatch goal with |- keeps _ (unless_gone _) => apply unless_gone_keeps | _ => idtac end.
    + by refine (delete_keeps KClusterRoleBinding _ _ _).
    + by refine (delete_keeps KClusterRole _ _ _).
    + by refine (delete_keeps KRoleBinding _ _ _).
    + by refine (delete_keeps KRole _ _ _).
    + by refine (delete_keeps KServiceAccount _ _ _).
    + by refine (delete_keeps KService _ _ _).
  - cbv [agent_delete_steps]. apply Forall_app. split; [|destruct vpa]; repeat constructor; cbn [snd].
    + by apply delete_by_labels_keeps.
    + by refine (delete_keeps KConfigMap _ _ _).
    + by refine (delete_keeps KDaemonSet _ _ _).
    + by refine (delete_keeps KVPA _ _ _).
Qed.

End Agent.

(** The two agents. *)
Inductive is_agent (globals : Global) : AgentApplierDeleter -> Prop :=
| log_agent image prio : is_agent globals (NewLogAgentApplierDeleter globals image prio)
| metric_agent image prio : is_agent globals (NewMetricAgentApplierDeleter globals image prio).

Lemma agent_apply_covers globals aad opts vpa w0 w :
  is_agent globals aad -> (ao_VpaCRDExists opts = true -> vpa = true) ->
  let inv := agent_inventory aad vpa (bool_decide (is_Some (ao_CollectorEnvVars opts))) in
  let sel := {[LabelKeyK8sName := aa_baseName aad]} in
  covered inv sel w0 w -> covered inv sel w0 (agent_ApplyResources DeepEqual sha256 aad opts w).1.
Proof.
  intros Ha Hv inv sel Hc. unfold agent_ApplyResources.
  match goal with |- context [run_steps ?s w] => assert (Hcom : covered inv sel w0 (run_steps s w).1) end.
  { apply run_steps_covers; [|done]. cbv [applyCommonResources optional_step]. subst inv.
    destruct (bool_decide _), Ha;
    cbn [aa_rbac aa_baseName rbac_clusterRole rbac_role rbac_clusterRoleBinding rbac_roleBinding NewLogAgentApplierDeleter NewMetricAgentApplierDeleter
         makeLogAgentRBAC makeMetricAgentRBAC newRBAC fold_left app]; covers_steps. }
  destruct (run_steps _ w) as [w1 [e|]]; [done|]. by apply agent_steps_cover.
Qed.

Lemma agent_removed globals aad opts vpa w w1 r w2 :
  is_agent globals aad -> (ao_VpaCRDExists opts = true -> vpa = true) ->
  agent_ApplyResources DeepEqual sha256 aad opts w = (w1, r) -> agent_DeleteResources aad vpa w1 = (w2, None) ->
  forall k key, (k = KNetworkPolicy -> lists_current W) -> stored w k key = None ->
    stored w2 k key = None \/
    is_Some (ao_CollectorEnvVars opts) /\ k = KSecret /\ key = mkNN (TargetNamespace globals) (aa_baseName aad).
Proof.
  intros Hag Hv Ha Hd k key Hcur Hn.
  pose proof (agent_apply_covers globals aad opts vpa w w Hag Hv (covered_refl _ _ w)) as Hc. rewrite Ha in Hc.
  unfold agent_DeleteResources in Hd. destruct (join_group _ w1) as [w3 e3] eqn:Ej.
  destruct (delete_after_common _ _ _ _ _ _ _ _ _ (agent_delete_clean aad vpa) Ej Hd) as [Hp Hw].
  destruct (Hw eq_refl) as [Hk Hl]. destruct (Hp k key) as [He|He]; [|by left].
  destruct (stored w2 k key) eqn:Hs; [|by left].
  destruct (Hc k key Hn) as [Hin|(o' & -> & Ho & Hlab)]; [cbn [fst]; congruence| |].
  - apply elem_of_app in Hin as [Hin|Hin]; [|by rewrite (Hk k key Hin) in Hs].
    right. destruct (bool_decide_reflect (is_Some (ao_CollectorEnvVars opts))); [|set_solver].
    apply list_elem_of_singleton in Hin. split; [done|]. destruct Hag; by simplify_eq.
  - exfalso. apply (Hl (Hcur eq_refl) {[LabelKeyK8sName := aa_baseName aad]} key o'); [set_solver| |done]. cbn in *. congruence.
Qed.

End Removal.

(** ** What is applied is in place

    Documented behaviour of the API server beyond [ClusterLaws]: a write that answers without
    an error is done. *)
Class WriteLaws (W : Type) `{ClusterLaws W} := {
  create_stores w k o w' : @obj_create _ _ (client_of k) w o = (w', None) ->
    exists v, stored w' k (fm_Key (ob_Meta o)) = Some (set_version v o);
  update_stores w k o w' : @obj_update _ _ (client_of k) w o = (w', None) ->
    exists v, stored w' k (fm_Key (ob_Meta o)) = Some (set_version v o)
}.

Section Rollout.
Context {W : Type} `{WriteLaws W}.
Context (DeepEqual : forall S, object S -> object S -> bool) (sha256 : string -> string).
Context (DeepEqual_content : forall S (a b : object S), DeepEqual S a b = true -> ob_Content a = ob_Content b).

Section Target.
Context (k : Kind) (key : NamespacedName) (P : spec_of k -> Prop).

(** The object is stored, and its content is as it should be. *)
Definition holds (w : W) : Prop := exists o, stored w k key = Some o /\ P (ob_Content o).
Definition sets (f : W -> W * option apierror) : Prop := forall w w', f w = (w', None) -> holds w'.
Definition spares (f : W -> W * option apierror) : Prop := forall w, stored (f w).1 k key = stored w k key.

(** A step of the sequence sets the object, and the steps after it do not touch it. *)
Inductive sets_in : list (step W) -> Prop :=
| set_here what f rest : sets f -> Forall (fun s : step W => spares s.2) rest -> sets_in ((what, f) :: rest)
| set_later s rest : sets_in rest -> sets_in (s :: rest)
| set_left a b : sets_in a -> Forall (fun s : step W => spares s.2) b -> sets_in (a ++ b)
| set_right a b : sets_in b -> sets_in (a ++ b).

Lemma run_spares steps : Forall (fun s : step W => spares s.2) steps -> forall w, stored (run_steps steps w).1 k key = stored w k key.
Proof.
  induction 1 as [|[what f] rest Hf _ IH]; intros w; [done|]. cbn [run_steps]. specialize (Hf w). cbn [snd] in Hf.
  destruct (f w) as [w1 [e|]]; [done|]. by rewrite IH.
Qed.

Lemma run_app (a b : list (step W)) w w' : run_steps (a ++ b) w = (w', None) -> exists w1, run_steps a w = (w1, None) /\ run_steps b w1 = (w', None).
Proof.
  revert w. induction a as [|[what f] rest IH]; intros w; cbn [run_steps app]; [by exists w|].
  destruct (f w) as [w1 [e|]]; [done|]. apply IH.
Qed.

Lemma holds_same w w' : stored w' k key = stored w k key -> holds w -> holds w'.
Proof. intros He (o & Ho & Hp). exists o. by rewrite He. Qed.

Lemma run_sets steps : sets_in steps -> forall w w', run_steps steps w = (w', None) -> holds w'.
Proof.
  induction 1 as [what f rest Hf Hr|[what f] rest _ IH|a b _ IH Hb|a b _ IH]; intros w w' Hw.
  - cbn [run_steps] in Hw. destruct (f w) as [w1 [e|]] eqn:Ef; [done|]. apply (holds_same w1); [|by eapply Hf].
    pose proof (run_spares rest Hr w1) as Hs. by rewrite Hw in Hs.
  - cbn [run_steps] in Hw. destruct (f w) as [w1 [e|]]; [done|]. by eapply IH.
  - apply run_app in Hw as (w1 & Ha & Hw). apply (holds_same w1); [|by eapply IH].
    pose proof (run_spares b Hb w1) as Hs. by rewrite Hw in Hs.
  - apply run_app in Hw as (w1 & _ & Hw). by eapply IH.
Qed.

Lemma write_spares k' l prepare (o : object (spec_of k')) :
  (k, key) <> (k', fm_Key (ob_Meta o)) -> spares (fun w => @create_or_update W _ (NewLabeler l (client_of k')) prepare w o).
Proof.
  intros Hne w. unfold create_or_update. destruct (@obj_get _ _ _ w _) as [ex|e].
  - by apply (update_frame w k' (ensureLabels l (mkObject (mergeMetadata (ob_Meta o) (ob_Meta ex)) _)) k key).
  - destruct (negb (IsNotFound e)); [done|]. by apply (create_frame w k' (ensureLabels l o)).
Qed.

Lemma write_if_changed_spares k' l (o : object (spec_of k')) :
  (k, key) <> (k', fm_Key (ob_Meta o)) ->
  spares (fun w => @create_or_update_if_changed W _ (NewLabeler l (client_of k')) (DeepEqual _) w o).
Proof.
  intros Hne w. unfold create_or_update_if_changed. destruct (@obj_get _ _ _ w _) as [ex|e].
  - destruct (DeepEqual _ _ _); [done|].
    by apply (update_frame w k' (ensureLabels l (mkObject (mergeMetadata (ob_Meta o) (ob_Meta ex)) _)) k key).
  - destruct (negb (IsNotFound e)); [done|]. by apply (create_frame w k' (ensureLabels l o)).
Qed.

Lemma delete_spares k' key' : (k, key) <> (k', key') -> spares (fun w => @DeleteObject W _ (client_of k') w key').
Proof.
  intros Hne w. unfold DeleteObject. pose proof (delete_frame w k' key' k key Hne) as Hf. by destruct (obj_delete w key').
Qed.

Lemma cleanup_spares key' : k <> KNetworkPolicy -> spares (fun w => CleanupOldNetworkPolicy w key').
Proof.
  intros Hne w. unfold CleanupOldNetworkPolicy. pose proof (delete_frame w KNetworkPolicy key' k key) as Hf. cbn [client_of] in Hf.
  destruct (obj_delete w key') as [w1 r]. cbn [fst] in Hf. destruct r as [e|]; [destruct (IsNotFound e)|]; apply Hf; congruence.
Qed.

End Target.

(** A write leaves the content that was asked for. *)
Lemma write_if_changed_sets k l (o : object (spec_of k)) :
  reads_current W -> k = KConfigMap \/ k = KSecret ->
  sets k (fm_Key (ob_Meta o)) (fun c => c = ob_Content o)
    (fun w => @create_or_update_if_changed W _ (NewLabeler l (client_of k)) (DeepEqual _) w o).
Proof.
  intros Hcur Hk w w'. unfold create_or_update_if_changed. destruct (@obj_get _ _ _ w _) as [ex|e] eqn:Eg.
  - pose proof (Hcur _ _ _ _ Hk Eg) as Hs. destruct (DeepEqual _ ex _) eqn:Ed.
    + intros [= <-]. exists ex. split; [done|]. by apply DeepEqual_content in Ed.
    + intros Hu. apply (update_stores w k (ensureLabels l _)) in Hu as [v Hv]. eexists. split; [exact Hv|done].
  - destruct (negb (IsNotFound e)); [done|]. intros Hc. apply (create_stores w k (ensureLabels l o)) in Hc as [v Hv].
    eexists. split; [exact Hv|done].
Qed.

(** The content of a workload that carries the annotations of [o]. *)
Definition workload_of {S} (o c : workload S) : Prop :=
  wl_Rest c = wl_Rest o /\ default ∅ (wl_PodAnnotations o) ⊆ default ∅ (wl_PodAnnotations c).

Lemma merged_workload {S} (o ex : workload S) : workload_of o (merge_workload o ex).
Proof.
  split; [done|]. apply map_subseteq_spec. intros x v Hx. cbn [merge_workload wl_PodAnnotations].
  by rewrite mergePodAnnotations_lookup, Hx.
Qed.

Lemma daemon_set_sets l (o : object (workload DaemonSetSpec)) :
  sets KDaemonSet (fm_Key (ob_Meta o)) (workload_of (ob_Content o)) (w_daemon_set l o).
Proof.
  intros w w'. unfold w_daemon_set, CreateOrUpdateDaemonSet, create_or_update. destruct (@obj_get _ _ _ w _) as [ex|e].
  - intros Hu. apply (update_stores w KDaemonSet (ensureLabels l _)) in Hu as [v Hv]. eexists. split; [exact Hv|]. apply merged_workload.
  - destruct (negb (IsNotFound e)); [done|]. intros Hc. apply (create_stores w KDaemonSet (ensureLabels l o)) in Hc as [v Hv].
    eexists. split; [exact Hv|done].
Qed.
Lemma deployment_sets l (o : object (workload DeploymentSpec)) :
  sets KDeployment (fm_Key (ob_Meta o)) (workload_of (ob_Content o)) (w_deployment l o).
Proof.
  intros w w'. unfold w_deployment, CreateOrUpdateDeployment, create_or_update. destruct (@obj_get _ _ _ w _) as [ex|e].
  - intros Hu. apply (update_stores w KDeployment (ensureLabels l _)) in Hu as [v Hv]. eexists. split; [exact Hv|]. apply merged_workload.
  - destruct (negb (IsNotFound e)); [done|]. intros Hc. apply (create_stores w KDeployment (ensureLabels l o)) in Hc as [v Hv].
    eexists. split; [exact Hv|done].
Qed.

End Rollout.

(** One step of a sequence that leaves an object alone, by its kind. *)
Ltac other_object := let Hne := fresh in intros Hne; cbv in Hne; discriminate Hne.
Ltac spare_step :=
  cbn [snd];
  lazymatch goal with
  | |- spares _ _ (w_secret _ _ _) => refine (write_if_changed_spares _ _ _ KSecret _ _ _); other_object
  | |- spares _ _ (w_config_map _ _ _) => refine (write_if_changed_spares _ _ _ KConfigMap _ _ _); other_object
  | |- spares _ _ (w_network_policy _ _ _) => refine (write_if_changed_spares _ _ _ KNetworkPolicy _ _ _); discriminate
  | |- spares _ _ (w_service _ _) => refine (write_spares _ _ KService _ _ _ _); discriminate
  | |- spares _ _ (w_daemon_set _ _) => refine (write_spares _ _ KDaemonSet _ _ _ _); discriminate
  | |- spares _ _ (w_deployment _ _) => refine (write_spares _ _ KDeployment _ _ _ _); discriminate
  | |- spares _ _ (w_vpa _ _) => refine (write_spares _ _ KVPA _ _ _ _); discriminate
  | |- spares _ _ (w_destination_rule _ _) => refine (write_spares _ _ KDestinationRule _ _ _ _); discriminate
  | |- spares _ _ (w_peer_authentication _ _) => refine (write_spares _ _ KPeerAuthentication _ _ _ _); discriminate
  | |- spares _ _ (delete_of VPASpec _) => refine (delete_spares _ _ KVPA _ _); discriminate
  | |- spares _ _ (fun w => CleanupOldNetworkPolicy w _) => refine (cleanup_spares _ _ _ _); discriminate
  end.
Ltac spare_steps := repeat first [apply Forall_app; split | apply Forall_cons; split | apply Forall_nil; exact I | spare_step].

(** The step that sets the object, found from the left. *)
Ltac set_step Hd :=
  lazymatch goal with
  | |- sets KSecret _ _ (w_secret _ _ _) => refine (write_if_changed_sets _ Hd KSecret _ _ _ (or_intror eq_refl)); assumption
  | |- sets KConfigMap _ _ (w_config_map _ _ _) => refine (write_if_changed_sets _ Hd KConfigMap _ _ _ (or_introl eq_refl)); assumption
  | |- sets KDaemonSet _ _ (w_daemon_set _ _) => exact (daemon_set_sets _ _)
  | |- sets KDeployment _ _ (w_deployment _ _) => exact (deployment_sets _ _)
  end.
Ltac find_set Hd :=
  lazymatch goal with
  | |- sets_in _ _ _ (_ :: _) => first [apply set_here; [set_step Hd|solve [spare_steps]] | apply set_later; find_set Hd]
  | |- sets_in _ _ _ (_ ++ _) => first [apply set_left; [solve [find_set Hd]|solve [spare_steps]] | apply set_right; find_set Hd]
  end.

Ltac gateway_set opts Hd :=
  unfold gateway_steps, applyVPA; destruct (go_VpaCRDExists opts), (go_VpaEnabled opts), (go_IstioEnabled opts); cbn [negb map];
  find_set Hd.
Ltac agent_set opts Hd :=
  unfold agent_steps; repeat match goal with E : ao_CollectorEnvVars _ = _ |- _ => rewrite E; clear E end;
  try (destruct (ao_CollectorEnvVars opts)); destruct (ao_VpaCRDExists opts), (ao_VpaEnabled opts); cbn [map makeAgentNetworkPolicies]; find_set Hd.

Section RolledOut.
Context {W : Type} `{WriteLaws W}.
Context (DeepEqual : forall S, object S -> object S -> bool) (sha256 : string -> string).
Context (DeepEqual_content : forall S (a b : object S), DeepEqual S a b = true -> ob_Content a = ob_Content b).

#[local] Instance key_le_total : Total key_le.
Proof. intros a b. unfold key_le. apply String.leb_total. Qed.

Lemma compare_swap a b : String.compare b a = CompOpp (String.compare a b).
Proof. apply String.compare_antisym. Qed.

Lemma less_cases {S} (x y : object S) :
  less (ob_Meta y) (ob_Meta x) = false <->
  let kx := fm_Key (ob_Meta x) in
  let ky := fm_Key (ob_Meta y) in
  String.ltb (nn_Namespace kx) (nn_Namespace ky) = true \/
  nn_Namespace kx = nn_Namespace ky /\ String.leb (nn_Name kx) (nn_Name ky) = true.
Proof.
  unfold less, String.ltb, String.leb. cbn zeta. set (kx := fm_Key (ob_Meta x)). set (ky := fm_Key (ob_Meta y)).
  rewrite (compare_swap (nn_Namespace kx) (nn_Namespace ky)), (compare_swap (nn_Name kx) (nn_Name ky)).
  assert (Hn : String.compare (nn_Namespace kx) (nn_Namespace ky) = Eq <-> nn_Namespace kx = nn_Namespace ky).
  { split; [apply String.compare_eq_iff|]. intros ->. pose proof (compare_swap (nn_Namespace ky) (nn_Namespace ky)) as Hs.
    by destruct (String.compare (nn_Namespace ky) (nn_Namespace ky)). }
  destruct (str_eqb (nn_Namespace ky) (nn_Namespace kx)) eqn:He; cbn [negb].
  - apply str_eqb_true, eq_sym in He. rewrite (proj2 Hn He). rewrite He. destruct (String.compare (nn_Name kx) (nn_Name ky)); naive_solver.
  - apply str_eqb_false, not_eq_sym in He. destruct (String.compare (nn_Namespace kx) (nn_Namespace ky)); naive_solver.
Qed.

#[local] Instance object_le_total {S} : Total (@object_le S).
Proof.
  intros x y. unfold object_le. rewrite !less_cases. cbn zeta. unfold String.ltb, String.leb.
  set (kx := fm_Key (ob_Meta x)). set (ky := fm_Key (ob_Meta y)).
  rewrite (compare_swap (nn_Namespace kx) (nn_Namespace ky)), (compare_swap (nn_Name kx) (nn_Name ky)).
  pose proof (String.compare_eq_iff (nn_Namespace kx) (nn_Namespace ky)).
  destruct (String.compare (nn_Namespace kx) (nn_Namespace ky)), (String.compare (nn_Name kx) (nn_Name ky)); naive_solver.
Qed.

(** The text that is hashed for a map: its entries, by key, without anything between them. *)
Definition entries_text (m : gmap string string) (t : string) : Prop :=
  exists kvs, kvs ≡ₚ map_to_list m /\ Sorted (fun a b => String.leb a.1 b.1 = true) kvs /\
    t = String.concat "" (map (fun kv => kv.1 +:+ kv.2) kvs).

(** Objects by namespace and name. *)
Definition by_name {S} (a b : object S) : Prop :=
  let ka := fm_Key (ob_Meta a) in
  let kb := fm_Key (ob_Meta b) in
  String.ltb (nn_Namespace ka) (nn_Namespace kb) = true \/
  nn_Namespace ka = nn_Namespace kb /\ String.leb (nn_Name ka) (nn_Name kb) = true.
Definition objects_text {S} (data : S -> gmap string string) (os : list (object S)) (t : string) : Prop :=
  exists sorted ts, sorted ≡ₚ os /\ Sorted by_name sorted /\
    Forall2 (fun o t => entries_text (data (ob_Content o)) t) sorted ts /\ t = String.concat "" ts.

(** The checksum of ConfigMaps and Secrets: the hash of all their data, the ConfigMaps first. *)
Definition checksum_of (cms : list (object ConfigMapData)) (secrets : list (object SecretData)) (c : string) : Prop :=
  exists t t', objects_text cmd_Data cms t /\ objects_text sd_Data secrets t' /\ c = sha256 (t +:+ t').

(** The ConfigMaps and Secrets are stored as they should be (the step that writes one is skipped when
    the one that is read equals it), and the annotations of the Pod template carry their checksum. *)
Definition rolled_out (w : W) (cms : list (object ConfigMapData)) (secrets : list (object SecretData)) (annotations : option labels) : Prop :=
  (reads_current W -> Forall (fun cm => holds KConfigMap (fm_Key (ob_Meta cm)) (fun c => c = ob_Content cm) w) cms) /\
  (reads_current W -> Forall (fun s => holds KSecret (fm_Key (ob_Meta s)) (fun c => c = ob_Content s) w) secrets) /\
  exists c, default ∅ annotations !! AnnotationKeyChecksumConfig = Some c /\ checksum_of cms secrets c.

Lemma entries_text_add_map m : entries_text m (add_map m).
Proof.
  exists (map (fun k => (k, default "" (m !! k))) (sortKeys m)). split_and!.
  - unfold sortKeys. rewrite (merge_sort_Permutation key_le). rewrite map_map.
    rewrite <- (map_id (map_to_list m)) at 2. apply Permutation_refl', map_ext_in. intros [k v] Hin. cbn.
    apply list_elem_of_In, elem_of_map_to_list in Hin. by rewrite Hin.
  - pose proof (Sorted_merge_sort key_le (map_to_list m).*1) as Hs. fold (sortKeys m) in Hs.
    induction Hs as [|k ks Hs IH Hk]; cbn; constructor; [done|]. destruct Hk; by constructor.
  - unfold add_map. f_equal. by rewrite map_map.
Qed.

Lemma objects_text_sorted {S} (data : S -> gmap string string) os :
  objects_text data os (String.concat "" (map (fun o => add_map (data (ob_Content o))) (sort_objects os))).
Proof.
  exists (sort_objects os), (map (fun o => add_map (data (ob_Content o))) (sort_objects os)). split_and!; [| | |done].
  - apply (merge_sort_Permutation object_le).
  - pose proof (Sorted_merge_sort object_le os) as Hs. fold (sort_objects os) in Hs.
    induction Hs as [|k ks Hs IH Hk]; constructor; [done|]. destruct Hk as [|x xs Hk]; constructor. by apply less_cases.
  - induction (sort_objects os) as [|o l IH]; constructor; [apply entries_text_add_map|done].
Qed.

Lemma Calculate_checksum cms secrets : checksum_of cms secrets (Calculate sha256 cms secrets).
Proof.
  eexists _, _. split; [apply (objects_text_sorted cmd_Data)|]. split; [apply (objects_text_sorted sd_Data)|done].
Qed.

Lemma checksum_kept {S} (o c : workload S) checksum :
  workload_of o c -> default ∅ (wl_PodAnnotations o) !! AnnotationKeyChecksumConfig = Some checksum ->
  default ∅ (wl_PodAnnotations c) !! AnnotationKeyChecksumConfig = Some checksum.
Proof. intros [_ Hs] Hc. by eapply lookup_weaken. Qed.

Lemma gateway_rolled_out globals image prio opts w w' :
  let o := NewOTLPGatewayApplierDeleter globals image prio in
  let name := mkNN (TargetNamespace globals) names_OTLPGateway in
  gateway_ApplyResources DeepEqual sha256 o opts w = (w', None) ->
  exists ds : object (workload DaemonSetSpec), stored w' KDaemonSet name = Some ds /\ ds_PodSpec (wl_Rest (ob_Content ds)) = makeGatewayPodSpec o opts /\
    rolled_out w' [makeConfigMap name (go_CollectorConfigYAML opts)] [makeSecret name (go_CollectorEnvVars opts)] (wl_PodAnnotations (ob_Content ds)).
Proof.
  intros o name Hw. unfold gateway_ApplyResources in Hw. destruct (run_steps (applyCommonResources _ _ _ _) w) as [w1 [e|]]; [done|].
  assert (Hin : forall k key P, sets_in k key P (gateway_steps DeepEqual sha256 o opts) -> holds k key P w')
    by (intros; by eapply run_sets).
  destruct (Hin KDaemonSet name (workload_of (ob_Content (gateway_daemon_set o
    (Calculate sha256 [makeConfigMap name (go_CollectorConfigYAML opts)] [makeSecret name (go_CollectorEnvVars opts)]) opts))))
    as (ds & Hs & Hof); [gateway_set opts DeepEqual_content|].
  exists ds. split; [done|]. split; [exact (f_equal ds_PodSpec (proj1 Hof))|]. split; [|split].
  - constructor; [|done]. apply Hin. gateway_set opts DeepEqual_content.
  - constructor; [|done]. apply Hin. gateway_set opts DeepEqual_content.
  - eexists. split; [|apply Calculate_checksum]. eapply checksum_kept; [exact Hof|]. apply lookup_union_Some_l. cbn. unfold makeAnnotations. by destruct (go_IstioEnabled opts).
Qed.

Lemma agent_rolled_out globals aad opts w w' :
  is_agent globals aad -> 
  let name := mkNN (TargetNamespace globals) (aa_baseName aad) in
  let secrets := match ao_CollectorEnvVars opts with Some env => [makeSecret name env] | None => [] end in
  agent_ApplyResources DeepEqual sha256 aad opts w = (w', None) ->
  exists ds : object (workload DaemonSetSpec), stored w' KDaemonSet name = Some ds /\ ds_PodSpec (wl_Rest (ob_Content ds)) = makeAgentPodSpec aad opts /\
    rolled_out w' [makeConfigMap name (ao_CollectorConfigYAML opts)] secrets (wl_PodAnnotations (ob_Content ds)).
Proof.
  intros Hag name secrets Hw. unfold agent_ApplyResources in Hw. destruct (run_steps (applyCommonResources _ _ _ _) w) as [w1 [e|]]; [done|].
  assert (Hin : forall k key P, sets_in k key P (agent_steps DeepEqual sha256 aad opts) -> holds k key P w')
    by (intros; by eapply run_sets).
  assert (Hname : mkNN (TargetNamespace (aa_globals aad)) (aa_baseName aad) = name) by (by destruct Hag).
  destruct (Hin KDaemonSet name (workload_of (ob_Content (makeAgentDaemonSet aad
    (Calculate sha256 [makeConfigMap name (ao_CollectorConfigYAML opts)] secrets) opts)))) as (ds & Hs & Hof);
    [subst secrets name; destruct Hag; agent_set opts DeepEqual_content|].
  exists ds. split; [done|]. split; [exact (f_equal ds_PodSpec (proj1 Hof))|]. split; [|split].
  - constructor; [|done]. apply Hin. subst secrets name. destruct Hag; agent_set opts DeepEqual_content.
  - subst secrets. destruct (ao_CollectorEnvVars opts) as [env|] eqn:Ee; constructor; [|done]. apply Hin. subst name.
    destruct Hag; agent_set opts DeepEqual_content.
  - eexists. split; [|apply Calculate_checksum]. eapply checksum_kept; [exact Hof|]. apply lookup_union_Some_l.
    destruct Hag; cbn; unfold makeLogAgentAnnotations, makeMetricAgentAnnotations; destruct (ao_IstioEnabled opts);
      by rewrite ?lookup_insert_ne, ?lookup_singleton_eq.
Qed.

Lemma fluentbit_rolled_out globals namespace fb exporter chown prio opts w w' :
  let aad := NewFluentBitApplierDeleter globals namespace fb exporter chown prio in
  let key name := mkNN namespace name in
  let config := fo_FluentBitConfig opts in
  fb_ApplyResources DeepEqual sha256 aad opts w = (w', None) ->
  exists ds : object (workload DaemonSetSpec), stored w' KDaemonSet (key names_FluentBit) = Some ds /\
    ds_PodSpec (wl_Rest (ob_Content ds)) = fb_pod_spec aad /\
    rolled_out w'
      [fb_makeConfigMap (key names_FluentBit); makeLuaConfigMap (key names_FluentBitLuaScriptsConfigMap);
       makeSectionsConfigMap (key names_FluentBitSectionsConfigMap) (texts (SectionsConfig config));
       makeFilesConfigMap (key names_FluentBitFilesConfigMap) (FilesConfig config)]
      [makeEnvConfigSecret (key names_FluentBitEnvSecret) (EnvConfigSecret config);
       makeTLSFileConfigSecret (key names_FluentBitTLSConfigSecret) (TLSConfigSecret config)]
      (wl_PodAnnotations (ob_Content ds)).
Proof.
  intros aad key config Hw. unfold fb_ApplyResources in Hw.
  assert (Hin : forall k key P, sets_in k key P (fb_steps DeepEqual sha256 aad opts) -> holds k key P w')
    by (intros; by eapply run_sets).
  match goal with |- exists ds, _ /\ _ /\ rolled_out _ ?cms ?secrets _ =>
    destruct (Hin KDaemonSet (key names_FluentBit) (workload_of (ob_Content (fb_makeDaemonSet aad namespace (Calculate sha256 cms secrets)))))
      as (ds & Hs & Hof); [unfold fb_steps; cbn [map fb_makeNetworkPolicies]; find_set DeepEqual_content|] end.
  exists ds. split; [done|]. split; [exact (f_equal ds_PodSpec (proj1 Hof))|]. split; [|split].
  - repeat (constructor; [apply Hin; unfold fb_steps; cbn [map fb_makeNetworkPolicies]; find_set DeepEqual_content|]). done.
  - repeat (constructor; [apply Hin; unfold fb_steps; cbn [map fb_makeNetworkPolicies]; find_set DeepEqual_content|]). done.
  - eexists. split; [|apply Calculate_checksum]. eapply checksum_kept; [exact Hof|]. cbn [fb_makeDaemonSet ob_Content wl_PodAnnotations from_option]. unfold id, fb_pod_annotations.
    rewrite lookup_insert_ne by done. apply lookup_insert_eq.
Qed.

Lemma self_monitor_rolled_out globals image prio opts w w' :
  let ad := mkSelfMonitorConfig globals image prio in
  sm_ApplyResources DeepEqual sha256 ad opts w = (w', None) ->
  exists d : object (workload DeploymentSpec), stored w' KDeployment (selfMonitorName ad) = Some d /\
    dp_PodSpec (wl_Rest (ob_Content d)) = sm_makePodSpec ad image (so_PrometheusConfigPath opts) (so_PrometheusConfigFileName opts) (so_LogLevel opts) /\
    rolled_out w'
      [sm_makeConfigMap ad (so_PrometheusConfigFileName opts) (so_PrometheusConfigYAML opts) (so_AlertRulesFileName opts) (so_AlertRulesYAML opts)] []
      (wl_PodAnnotations (ob_Content d)).
Proof.
  intros ad Hw. unfold sm_ApplyResources in Hw.
  assert (Hin : forall k key P, sets_in k key P (sm_steps DeepEqual sha256 ad opts) -> holds k key P w')
    by (intros; by eapply run_sets).
  match goal with |- exists d, _ /\ _ /\ rolled_out _ ?cms ?secrets _ =>
    destruct (Hin KDeployment (selfMonitorName ad) (workload_of (ob_Content (sm_makeDeployment ad (Calculate sha256 cms secrets)
      (so_PrometheusConfigPath opts) (so_PrometheusConfigFileName opts) (so_LogLevel opts)))))
      as (d & Hs & Hof); [unfold sm_steps; cbn [map sm_makeNetworkPolicies]; find_set DeepEqual_content|] end.
  exists d. split; [done|]. split; [exact (f_equal dp_PodSpec (proj1 Hof))|]. split; [|split; [done|]].
  - constructor; [|done]. apply Hin. unfold sm_steps. cbn [map sm_makeNetworkPolicies]. find_set DeepEqual_content.
  - eexists. split; [|apply Calculate_checksum]. eapply checksum_kept; [exact Hof|]. apply lookup_insert_eq.
Qed.

End RolledOut.

(** ** An API server that keeps the laws *)

Module Api.
Definition set_key {S} (key : NamespacedName) (o : object S) : object S :=
  mkObject (mkFullMeta key (fm_ResourceVersion (ob_Meta o)) (fm_Labels (ob_Meta o)) (fm_Annotations (ob_Meta o))
              (fm_OwnerReferences (ob_Meta o))) (ob_Content o).

(** The objects by kind; [refused] answers every write to a key with an error. *)
Record world := mkWorld {
  objects : forall k : Kind, gmap NamespacedName (object (spec_of k));
  refused : NamespacedName -> bool
}.

Definition put (w : world) (k : Kind) (m : gmap NamespacedName (object (spec_of k))) : world :=
  mkWorld (fun k' => match decide (k = k') with
                     | left e => eq_rect k (fun k => gmap NamespacedName (object (spec_of k))) m k' e
                     | right _ => objects w k'
                     end) (refused w).

Lemma put_same w k m : objects (put w k m) k = m.
Proof. unfold put. cbn. destruct (decide (k = k)) as [e|]; [|done]. by rewrite (proof_irrel e eq_refl). Qed.
Lemma put_other w k k' m : k' <> k -> objects (put w k m) k' = objects w k'.
Proof. intros Hne. unfold put. cbn. destruct (decide (k = k')); [congruence|done]. Qed.

Definition lookup (w : world) (k : Kind) (key : NamespacedName) : option (object (spec_of k)) :=
  set_key key <$> objects w k !! key.

Definition client (k : Kind) : ObjectClient world (spec_of k) := {|
  obj_get w key := match lookup w k key with Some o => Ok o | None => Err NotFound end;
  obj_list w sel :=
    Ok (List.filter (fun o => bool_decide (sel ⊆ default ∅ (fm_Labels (ob_Meta o))))
          (map (fun e => set_key e.1 e.2) (map_to_list (objects w k))));
  obj_create w o :=
    let key := fm_Key (ob_Meta o) in
    if refused w key then (w, Some (OtherApiError "refused"))
    else match objects w k !! key with
    | Some _ => (w, Some AlreadyExists)
    | None => (put w k (<[key := set_version "1" o]> (objects w k)), None)
    end;
  obj_update w o :=
    let key := fm_Key (ob_Meta o) in
    if refused w key then (w, Some (OtherApiError "refused"))
    else match objects w k !! key with
    | Some _ => (put w k (<[key := set_version "2" o]> (objects w k)), None)
    | None => (w, Some NotFound)
    end;
  obj_delete w key :=
    match objects w k !! key with
    | Some _ => (put w k (delete key (objects w k)), None)
    | None => (w, Some NotFound)
    end
|}.

#[export] Instance cluster : Cluster world := {|
  cl_sa := client KServiceAccount; cl_cr := client KClusterRole; cl_crb := client KClusterRoleBinding; cl_role := client KRole;
  cl_rb := client KRoleBinding; cl_svc := client KService; cl_np := client KNetworkPolicy; cl_secret := client KSecret;
  cl_cm := client KConfigMap; cl_ds := client KDaemonSet; cl_dep := client KDeployment; cl_vpa := client KVPA;
  cl_dr := client KDestinationRule; cl_pa := client KPeerAuthentication
|}.

Lemma client_eq k : client_of k = client k.
Proof. by destruct k. Qed.

Lemma lookup_put_own w k m key : lookup (put w k m) k key = set_key key <$> m !! key.
Proof. unfold lookup. by rewrite put_same. Qed.
Lemma lookup_put_frame w k k' m key :
  (k' = k -> m !! key = objects w k !! key) -> lookup (put w k m) k' key = lookup w k' key.
Proof.
  intros Hm. unfold lookup. destruct (decide (k' = k)) as [->|Hne]; [|by rewrite put_other].
  by rewrite put_same, Hm.
Qed.
Lemma set_key_same {S} (o : object S) : set_key (fm_Key (ob_Meta o)) o = o.
Proof. by destruct o as [[] ?]. Qed.

Lemma insert_own w k (o : object (spec_of k)) v :
  exists v', lookup (put w k (<[fm_Key (ob_Meta o) := set_version v o]> (objects w k))) k (fm_Key (ob_Meta o)) = Some (set_version v' o).
Proof. exists v. rewrite lookup_put_own, lookup_insert_eq. by destruct o as [[] ?]. Qed.
Lemma insert_frame w k (o x : object (spec_of k)) k' key :
  (k', key) <> (k, fm_Key (ob_Meta o)) ->
  lookup (put w k (<[fm_Key (ob_Meta o) := x]> (objects w k))) k' key = lookup w k' key.
Proof. intros Hne. apply lookup_put_frame. intros ->. apply lookup_insert_ne. congruence. Qed.

Lemma listed w k : item_keys (map (fun e => set_key e.1 e.2) (map_to_list (objects w k))) = (map_to_list (objects w k)).*1.
Proof. unfold item_keys. induction (map_to_list (objects w k)) as [|e l IH]; [done|]. cbn. by f_equal. Qed.

Lemma keys_filter {S} (f : object S -> bool) l : sublist (item_keys (List.filter f l)) (item_keys l).
Proof. unfold item_keys. induction l as [|x l IH]; [done|]. cbn. destruct (f x); cbn; by constructor. Qed.

#[export] Program Instance laws : ClusterLaws world := {| stored := lookup |}.
Next Obligation.
  intros w k o. rewrite client_eq. cbn. destruct (refused w _); [by left|]. destruct (objects w k !! _); [by left|].
  right. apply insert_own.
Qed.
Next Obligation.
  intros w k o k' key Hne. rewrite client_eq. cbn. destruct (refused w _); [done|]. destruct (objects w k !! _); [done|].
  by apply insert_frame.
Qed.
Next Obligation.
  intros w k o. rewrite client_eq. cbn. destruct (refused w _); [by left|]. destruct (objects w k !! _); [|by left].
  right. apply insert_own.
Qed.
Next Obligation.
  intros w k o k' key Hne. rewrite client_eq. cbn. destruct (refused w _); [done|]. destruct (objects w k !! _); [|done].
  by apply insert_frame.
Qed.
Next Obligation.
  intros w k key. rewrite client_eq. cbn. destruct (objects w k !! key); [|by left]. right.
  cbn [fst]. by rewrite lookup_put_own, lookup_delete_eq.
Qed.
Next Obligation.
  intros w k key k' key' Hne. rewrite client_eq. cbn. destruct (objects w k !! key); [|done].
  apply lookup_put_frame. intros ->. apply lookup_delete_ne. congruence.
Qed.
Next Obligation.
  intros w k key w' r. rewrite client_eq. cbn. destruct (objects w k !! key) eqn:E; intros [= <- <-] _.
  - by rewrite lookup_put_own, lookup_delete_eq.
  - unfold lookup. by rewrite E.
Qed.
Next Obligation.
  intros w k key w'. rewrite client_eq. cbn. destruct (objects w k !! key) eqn:E; [done|]. intros _. unfold lookup. by rewrite E.
Qed.
Next Obligation. intros w k sel. by rewrite client_eq. Qed.

Lemma list_exact w k sel items :
  @obj_list _ _ (client_of k) w sel = Ok items ->
  NoDup (item_keys items) /\
  (forall o, o ∈ items -> lookup w k (fm_Key (ob_Meta o)) = Some o) /\
  (forall key o, lookup w k key = Some o -> sel ⊆ default ∅ (fm_Labels (ob_Meta o)) -> key ∈ item_keys items).
Proof.
  rewrite client_eq. cbn. intros [= <-]. split_and!.
  - eapply sublist_NoDup; [|apply keys_filter]. rewrite listed. apply NoDup_fst_map_to_list.
  - intros o Hin. apply list_elem_of_In, List.filter_In in Hin as [Hin _]. apply list_elem_of_In in Hin.
    apply list_elem_of_fmap in Hin as ([key x] & -> & Hin). apply elem_of_map_to_list in Hin. unfold lookup. cbn. by rewrite Hin.
  - intros key o. unfold lookup. intros (x & Hx & ->)%fmap_Some Hsel. unfold item_keys.
    apply list_elem_of_fmap. exists (set_key key x). split; [done|].
    apply list_elem_of_In, List.filter_In. split; [|by apply bool_decide_eq_true].
    apply list_elem_of_In, list_elem_of_fmap. exists (key, x). split; [done|]. by apply elem_of_map_to_list.
Qed.

Lemma lists : lists_current world.
Proof. intros w sel items. apply list_exact. Qed.

Lemma reads : reads_current world.
Proof. intros w k key o _. rewrite client_eq. cbn [client obj_get]. destruct (lookup w k key) eqn:El; [|done]. intros [= <-]. exact El. Qed.

#[export] Program Instance write_laws : WriteLaws world.
Next Obligation.
  intros w k o w'. rewrite client_eq. cbn [client obj_create]. destruct (refused w _); [done|]. destruct (objects w k !! _); [done|].
  intros [= <-]. apply insert_own.
Qed.
Next Obligation.
  intros w k o w'. rewrite client_eq. cbn [client obj_update]. destruct (refused w _); [done|]. destruct (objects w k !! _); [|done].
  intros [= <-]. apply insert_own.
Qed.

Definition empty (refused : NamespacedName -> bool) : world := mkWorld (fun _ => ∅) refused.
End Api.

(** ** Everything that is applied is removed *)

(** C25. Deleting a component removes what applying it created: after
    ApplyResources, successful or not, and a successful DeleteResources with the
    same names, every object that was not there before is gone again, for the
    OTLP gateway (when deletion is told of Istio and VPA if applying was), for
    Fluent Bit and for the self-monitor; for the two agents the same holds but
    for the Secret with their environment variables. Network policies are
    deleted by a list, so for them the client's lists must be up to date. *)
Theorem applied_resources_are_removed {W} `{ClusterLaws W} (DeepEqual : forall S, object S -> object S -> bool)
    (sha256 : string -> string) (globals : Global) :
  (forall image prio opts istio vpa w w1 r w2,
     (go_IstioEnabled opts = true -> istio = true) -> (go_VpaCRDExists opts = true -> vpa = true) ->
     gateway_ApplyResources DeepEqual sha256 (NewOTLPGatewayApplierDeleter globals image prio) opts w = (w1, r) ->
     gateway_DeleteResources (NewOTLPGatewayApplierDeleter globals image prio) istio vpa w1 = (w2, None) ->
     leaves_nothing w w2) /\
  (forall namespace fb exporter chown prio opts w w1 r w2,
     fb_ApplyResources DeepEqual sha256 (NewFluentBitApplierDeleter globals namespace fb exporter chown prio) opts w = (w1, r) ->
     fb_DeleteResources (NewFluentBitApplierDeleter globals namespace fb exporter chown prio) w1 = (w2, None) ->
     leaves_nothing w w2) /\
  (forall image prio opts w w1 r w2,
     sm_ApplyResources DeepEqual sha256 (mkSelfMonitorConfig globals image prio) opts w = (w1, r) ->
     sm_DeleteResources (mkSelfMonitorConfig globals image prio) w1 = (w2, None) -> leaves_nothing w w2) /\
  (forall aad opts vpa w w1 r w2,
     is_agent globals aad -> (ao_VpaCRDExists opts = true -> vpa = true) ->
     agent_ApplyResources DeepEqual sha256 aad opts w = (w1, r) -> agent_DeleteResources aad vpa w1 = (w2, None) ->
     forall k key, (k = KNetworkPolicy -> lists_current W) -> stored w k key = None ->
       stored w2 k key = None \/
       is_Some (ao_CollectorEnvVars opts) /\ k = KSecret /\ key = mkNN (TargetNamespace globals) (aa_baseName aad)).
Proof.
  split; [|split; [|split]].
  - intros *. apply gateway_removed.
  - intros *. apply fluentbit_removed.
  - intros *. apply self_monitor_removed.
  - intros *. apply agent_removed.
Qed.

(** C24. A successful ApplyResources puts the configuration in place: for the
    gateway, the two agents, Fluent Bit and the self-monitor the stored workload
    has the desired Pod specification, and its Pod template carries, whatever
    annotations users add, the SHA-256 of the entries, sorted by key, of just
    these ConfigMaps and Secrets, in the order of namespace and name; and when
    the client's reads are up to date, the stored ConfigMaps and Secrets have
    exactly the desired content at the end, later steps included. *)
Theorem applied_configuration_is_rolled_out {W} `{WriteLaws W} (DeepEqual : forall S, object S -> object S -> bool)
    (sha256 : string -> string) (globals : Global) (w w' : W) :
  (forall S (a b : object S), DeepEqual S a b = true -> ob_Content a = ob_Content b) ->
  (forall image prio opts,
     let o := NewOTLPGatewayApplierDeleter globals image prio in
     let name := mkNN (TargetNamespace globals) names_OTLPGateway in
     gateway_ApplyResources DeepEqual sha256 o opts w = (w', None) ->
     exists ds : object (workload DaemonSetSpec), stored w' KDaemonSet name = Some ds /\
       ds_PodSpec (wl_Rest (ob_Content ds)) = makeGatewayPodSpec o opts /\
       rolled_out sha256 w' [makeConfigMap name (go_CollectorConfigYAML opts)] [makeSecret name (go_CollectorEnvVars opts)]
         (wl_PodAnnotations (ob_Content ds))) /\
  (forall aad opts,
     is_agent globals aad ->
     let name := mkNN (TargetNamespace globals) (aa_baseName aad) in
     agent_ApplyResources DeepEqual sha256 aad opts w = (w', None) ->
     exists ds : object (workload DaemonSetSpec), stored w' KDaemonSet name = Some ds /\
       ds_PodSpec (wl_Rest (ob_Content ds)) = makeAgentPodSpec aad opts /\
       rolled_out sha256 w' [makeConfigMap name (ao_CollectorConfigYAML opts)]
         (match ao_CollectorEnvVars opts with Some env => [makeSecret name env] | None => [] end)
         (wl_PodAnnotations (ob_Content ds))) /\
  (forall namespace fb exporter chown prio opts,
     let aad := NewFluentBitApplierDeleter globals namespace fb exporter chown prio in
     let config := fo_FluentBitConfig opts in
     fb_ApplyResources DeepEqual sha256 aad opts w = (w', None) ->
     exists ds : object (workload DaemonSetSpec), stored w' KDaemonSet (mkNN namespace names_FluentBit) = Some ds /\
       ds_PodSpec (wl_Rest (ob_Content ds)) = fb_pod_spec aad /\
       rolled_out sha256 w'
         [fb_makeConfigMap (mkNN namespace names_FluentBit); makeLuaConfigMap (mkNN namespace names_FluentBitLuaScriptsConfigMap);
          makeSectionsConfigMap (mkNN namespace names_FluentBitSectionsConfigMap) (texts (SectionsConfig config));
          makeFilesConfigMap (mkNN namespace names_FluentBitFilesConfigMap) (FilesConfig config)]
         [makeEnvConfigSecret (mkNN namespace names_FluentBitEnvSecret) (EnvConfigSecret config);
          makeTLSFileConfigSecret (mkNN namespace names_FluentBitTLSConfigSecret) (TLSConfigSecret config)]
         (wl_PodAnnotations (ob_Content ds))) /\
  (forall image prio opts,
     let ad := mkSelfMonitorConfig globals image prio in
     sm_ApplyResources DeepEqual sha256 ad opts w = (w', None) ->
     exists d : object (workload DeploymentSpec), stored w' KDeployment (selfMonitorName ad) = Some d /\
       dp_PodSpec (wl_Rest (ob_Content d)) =
         sm_makePodSpec ad image (so_PrometheusConfigPath opts) (so_PrometheusConfigFileName opts) (so_LogLevel opts) /\
       rolled_out sha256 w'
         [sm_makeConfigMap ad (so_PrometheusConfigFileName opts) (so_PrometheusConfigYAML opts) (so_AlertRulesFileName opts) (so_AlertRulesYAML opts)]
         [] (wl_PodAnnotations (ob_Content d))).
Proof.
  intros Hd. split; [|split; [|split]].
  - intros *. by apply gateway_rolled_out.
  - intros aad opts Hag *. by apply agent_rolled_out.
  - intros *. by apply fluentbit_rolled_out.
  - intros *. by apply self_monitor_rolled_out.
Qed.

(** The environment Secret of an agent survives the deletion of its resources. *)
Theorem agent_secret_survives {W} `{ClusterLaws W} (aad : AgentApplierDeleter) vpa (w : W) key :
  stored (agent_DeleteResources aad vpa w).1 KSecret key = stored w KSecret key.
Proof. apply agent_delete_keeps_secrets. Qed.

#[local] Existing Instance Api.cluster.
#[local] Existing Instance Api.laws.
#[local] Existing Instance Api.write_laws.

Module ResourcesSample.
Definition present (w : Api.world) (k : Kind) (key : NamespacedName) : bool :=
  match stored w k key with Some _ => true | None => false end.
Definition globals : Global := NewGlobal [WithTargetNamespace "kyma-system"].
Definition gateway : OTLPGatewayApplierDeleter := NewOTLPGatewayApplierDeleter globals "image" "prio".
Definition gateway_options : GatewayApplyOptions := mkGatewayApplyOptions "config" ∅ true 1 0 true true 0.
(** The server refuses the OTLP service, so that applying stops half way. *)
Definition half_way : Api.world :=
  (gateway_ApplyResources (fun _ _ _ => false) (fun s => s) gateway gateway_options
     (Api.empty (fun key => str_eqb (nn_Name key) names_OTLPService))).1.
Definition agent : AgentApplierDeleter := NewLogAgentApplierDeleter globals "image" "prio".
Definition agent_options : AgentApplyOptions := mkAgentApplyOptions false false false 0 "config" (Some {["TOKEN" := "secret"]}) [].
Definition agent_gone : Api.world * option goerror :=
  agent_DeleteResources agent false
    (agent_ApplyResources (fun _ _ _ => false) (fun s => s) agent agent_options (Api.empty (fun _ => false))).1.
End ResourcesSample.

Lemma with_second {A B} (p : A * B) b : p.2 = b -> p = (p.1, b).
Proof. by destruct p as [x y]; intros <-. Qed.

Lemma applied_resources_are_removed_witness :
  ResourcesSample.present ResourcesSample.half_way KDaemonSet (mkNN "kyma-system" names_OTLPGateway) = true /\
  forall k key, stored (Api.empty (fun key => str_eqb (nn_Name key) names_OTLPService)) k key = None ->
    stored (gateway_DeleteResources ResourcesSample.gateway true true ResourcesSample.half_way).1 k key = None.
Proof.
  split; [vm_compute; reflexivity|]. intros k key.
  destruct (applied_resources_are_removed (W := Api.world) (fun _ _ _ => false) (fun s => s) ResourcesSample.globals) as [Hg _].
  refine (Hg "image" "prio" ResourcesSample.gateway_options true true _ ResourcesSample.half_way _ _ (fun _ => eq_refl) (fun _ => eq_refl)
            (surjective_pairing _) (with_second _ None _) k key (fun _ => Api.lists)).
  vm_compute. reflexivity.
Defined.

Lemma applied_configuration_is_rolled_out_witness :
  let w' := (gateway_ApplyResources (fun _ _ _ => false) (fun s => s) ResourcesSample.gateway ResourcesSample.gateway_options
               (Api.empty (fun _ => false))).1 in
  let name := mkNN "kyma-system" names_OTLPGateway in
  exists (ds : object (workload DaemonSetSpec)) (cm : object ConfigMapData) c,
    stored w' KDaemonSet name = Some ds /\ stored w' KConfigMap name = Some cm /\
    cmd_Data (ob_Content cm) = {["relay.conf" := "config"]} /\
    default ∅ (wl_PodAnnotations (ob_Content ds)) !! AnnotationKeyChecksumConfig = Some c /\
    checksum_of (fun s => s) [makeConfigMap name "config"] [makeSecret name ∅] c.
Proof.
  intros w' name.
  destruct (applied_configuration_is_rolled_out (fun _ _ _ => false) (fun s => s) ResourcesSample.globals (Api.empty (fun _ => false)) w')
    as [Hg _].
  - intros S a b Hf. discriminate Hf.
  - destruct (Hg "image" "prio" ResourcesSample.gateway_options) as (ds & Hs & _ & Hcm & _ & (c & Hc & Hk)).
    + apply with_second. vm_compute. reflexivity.
    + pose proof (Forall_inv (Hcm Api.reads)) as (cm & Hm & He).
      exists ds, cm, c. split; [exact Hs|]. split; [exact Hm|]. split; [exact (f_equal cmd_Data He)|]. split; [exact Hc|exact Hk].
Defined.

(** After applying and deleting the log agent its Secret is still there. *)
Example agent_secret_left_behind :
  ResourcesSample.agent_gone.2 = None /\
  ResourcesSample.present ResourcesSample.agent_gone.1 KSecret (mkNN "kyma-system" names_LogAgent) = true /\
  ResourcesSample.present ResourcesSample.agent_gone.1 KDaemonSet (mkNN "kyma-system" names_LogAgent) = false.
Proof. split_and!; vm_compute; reflexivity. Qed.

(** Keys and values are hashed without separators: two different ConfigMaps have the same
    checksum, whatever the hash function. *)
Example checksum_ambiguous :
  forall sha256 meta,
    Calculate sha256 [mkObject meta (mkConfigMapData {["a" := "bc"]})] [] =
    Calculate sha256 [mkObject meta (mkConfigMapData {["ab" := "c"]})] [].
Proof. intros sha256 meta. unfold Calculate. f_equal. Qed.
