(* ===== verification/NetworkPolicies.v ===== *)
(** * Network policies of the components

    What the network policies of the self-monitor, the gateway, the agents and Fluent Bit
    allow together, and that the self-monitor reaches the metrics of the others. *)
From stdpp Require Import base gmap strings list.
From S2P Require Import Prelude Kube GoErrors K8sUtils Resources OtelResources FluentBitResources.
Local Open Scope string_scope.

(** ** The meaning of network policies

    The meaning of the policies of a cluster, as documented: a Pod that no policy of a
    direction selects may do everything in that direction, others only what a rule of a
    policy that selects them allows; an empty list of peers or ports stands for all. *)

Record Pod := mkPod { pod_Namespace : string; pod_Labels : labels }.

Section Network.
Context (namespace_labels : string -> labels).

Definition selects (selector l : labels) : bool := bool_decide (selector ⊆ l).

Definition peer_matches (policy_namespace : string) (p : Pod) (peer : NetworkPolicyPeer) : bool :=
  selects (pe_PodSelector peer) (pod_Labels p) &&
  match pe_NamespaceSelector peer with
  | None => bool_decide (pod_Namespace p = policy_namespace)
  | Some s => selects s (namespace_labels (pod_Namespace p))
  end.

Definition rule_allows (policy_namespace : string) (p : Pod) (port : Z) (r : NetworkPolicyRule) : bool :=
  match npr_Peers r with [] => true | peers => existsb (peer_matches policy_namespace p) peers end &&
  match npr_Ports r with [] => true | ports => existsb (Z.eqb port) ports end.

Definition np_namespace (np : object NetworkPolicySpec) : string := nn_Namespace (fm_Key (ob_Meta np)).
Definition governs (direction : string) (p : Pod) (np : object NetworkPolicySpec) : bool :=
  bool_decide (np_namespace np = pod_Namespace p) && selects (np_PodSelector (ob_Content np)) (pod_Labels p) &&
  existsb (String.eqb direction) (np_PolicyTypes (ob_Content np)).

Definition ingress_allowed (nps : list (object NetworkPolicySpec)) (src dst : Pod) (port : Z) : bool :=
  match List.filter (governs "Ingress" dst) nps with
  | [] => true
  | own => existsb (fun np => existsb (rule_allows (np_namespace np) src port) (np_Ingress (ob_Content np))) own
  end.
Definition egress_allowed (nps : list (object NetworkPolicySpec)) (src dst : Pod) (port : Z) : bool :=
  match List.filter (governs "Egress" src) nps with
  | [] => true
  | own => existsb (fun np => existsb (rule_allows (np_namespace np) dst port) (np_Egress (ob_Content np))) own
  end.
Definition connects (nps : list (object NetworkPolicySpec)) (src dst : Pod) (port : Z) : bool :=
  egress_allowed nps src dst port && ingress_allowed nps src dst port.

(** All policies of the components. *)
Definition telemetry_policies (globals : Global) (istio : bool) : list (object NetworkPolicySpec) :=
  let ns := TargetNamespace globals in
  (sm_makeNetworkPolicies (mkSelfMonitorConfig globals "" "")
   ++ makeGatewayNetworkPolicies (mkNN ns names_OTLPGateway) istio
   ++ makeAgentNetworkPolicies (mkNN ns names_LogAgent) istio
   ++ makeAgentNetworkPolicies (mkNN ns names_MetricAgent) istio
   ++ fb_makeNetworkPolicies (mkNN ns names_FluentBit) istio)%list.

Definition named (p : Pod) (name : string) : Prop := pod_Labels p !! LabelKeyK8sName = Some name.
Definition scrapes (p : Pod) : Prop := pod_Labels p !! LabelKeyTelemetryMetricsScraping = Some LabelValueTelemetryMetricsScraping.

Lemma selects_one k v l : selects {[k := v]} l = bool_decide (l !! k = Some v).
Proof. unfold selects. apply bool_decide_ext. apply map_singleton_subseteq_l. Qed.
Lemma selects_all l : selects ∅ l = true.
Proof. apply bool_decide_eq_true_2. apply map_empty_subseteq. Qed.
Lemma selects_fluentbit l :
  selects defaultFluentBitSelector l =
    bool_decide (l !! LabelKeyK8sInstance = Some LabelValueK8sInstance) && bool_decide (l !! LabelKeyK8sName = Some "fluent-bit").
Proof.
  unfold selects, defaultFluentBitSelector, DefaultSelector. rewrite <- bool_decide_and. apply bool_decide_ext. split.
  - intros Hs. split; eapply lookup_weaken; [|exact Hs| |exact Hs]; reflexivity.
  - intros [Hi Hn]. apply insert_subseteq_l; [done|]. by apply map_singleton_subseteq_l.
Qed.

(** The policies that govern a Pod of a component, by its position in the list. *)
Definition picked (positions : list nat) (nps : list (object NetworkPolicySpec)) : list (object NetworkPolicySpec) :=
  omap (fun i => nps !! i) positions.

(** A policy for another component, or for the other direction, does not govern. *)
Lemma governs_other direction p np x y :
  np_PodSelector (ob_Content np) = DefaultSelector x -> named p y -> x <> y -> governs direction p np = false.
Proof.
  intros Hs Hn Hne. unfold governs. rewrite Hs. unfold DefaultSelector. rewrite selects_one, (bool_decide_eq_false_2 (_ !! LabelKeyK8sName = _)).
  - by rewrite andb_false_r, andb_false_l.
  - unfold named in Hn. rewrite Hn. congruence.
Qed.
Lemma governs_not_fluentbit direction p np y :
  np_PodSelector (ob_Content np) = defaultFluentBitSelector -> named p y -> "fluent-bit" <> y -> governs direction p np = false.
Proof.
  intros Hs Hn Hne. unfold governs. rewrite Hs, selects_fluentbit, (bool_decide_eq_false_2 (_ !! LabelKeyK8sName = _)).
  - by rewrite !andb_false_r, andb_false_l.
  - unfold named in Hn. rewrite Hn. congruence.
Qed.
Lemma governs_direction direction p np :
  existsb (String.eqb direction) (np_PolicyTypes (ob_Content np)) = false -> governs direction p np = false.
Proof. intros Hd. unfold governs. by rewrite Hd, andb_false_r. Qed.
Lemma governs_own direction p np x :
  np_PodSelector (ob_Content np) = DefaultSelector x -> named p x -> np_namespace np = pod_Namespace p ->
  existsb (String.eqb direction) (np_PolicyTypes (ob_Content np)) = true -> governs direction p np = true.
Proof.
  intros Hs Hn Hns Hd. unfold governs. rewrite Hs, Hd. unfold DefaultSelector. rewrite selects_one.
  by rewrite !bool_decide_eq_true_2.
Qed.

Lemma governs_fluentbit direction p np :
  np_PodSelector (ob_Content np) = defaultFluentBitSelector -> named p "fluent-bit" ->
  pod_Labels p !! LabelKeyK8sInstance = Some LabelValueK8sInstance -> np_namespace np = pod_Namespace p ->
  existsb (String.eqb direction) (np_PolicyTypes (ob_Content np)) = true -> governs direction p np = true.
Proof.
  intros Hs Hn Hi Hns Hd. unfold governs. rewrite Hs, Hd, selects_fluentbit. unfold named in Hn. rewrite Hn, Hi.
  by rewrite !bool_decide_eq_true_2.
Qed.

Lemma filter_skip (f : object NetworkPolicySpec -> bool) x l : f x = false -> List.filter f (x :: l) = List.filter f l.
Proof. intros Hf. simpl. by rewrite Hf. Qed.
Lemma filter_take (f : object NetworkPolicySpec -> bool) x l l' :
  f x = true -> List.filter f l = l' -> List.filter f (x :: l) = x :: l'.
Proof. intros Hf <-. simpl. by rewrite Hf. Qed.

Ltac which_govern Hns Hn :=
  cbv [telemetry_policies app sm_makeNetworkPolicies makeGatewayNetworkPolicies makeAgentNetworkPolicies fb_makeNetworkPolicies
       nn_Name];
  eapply eq_trans; [repeat lazymatch goal with
  | |- List.filter _ [] = _ => reflexivity
  | |- List.filter _ (MakeNetworkPolicy _ (DefaultSelector ?x) _ :: _) = _ =>
      first
        [ rewrite filter_skip by (eapply (governs_other _ _ _ x); [reflexivity|exact Hn|discriminate])
        | rewrite filter_skip by (apply governs_direction; reflexivity)
        | refine (filter_take _ _ _ _ _ _); [apply (governs_own _ _ _ x); [reflexivity|exact Hn|symmetry; exact Hns|reflexivity]|] ]
  | |- List.filter _ (MakeNetworkPolicy _ defaultFluentBitSelector _ :: _) = _ =>
      first
        [ rewrite filter_skip by (eapply governs_not_fluentbit; [reflexivity|exact Hn|discriminate])
        | rewrite filter_skip by (apply governs_direction; reflexivity)
        | refine (filter_take _ _ _ _ _ _); [apply governs_fluentbit; [reflexivity|exact Hn|assumption|symmetry; exact Hns|reflexivity]|] ]
  end|reflexivity].

Section Governed.
Context (globals : Global) (istio : bool) (p : Pod) (Hns : pod_Namespace p = TargetNamespace globals).
Let P := telemetry_policies globals istio.

Lemma governed_self_monitor : named p names_SelfMonitor ->
  List.filter (governs "Ingress" p) P = picked [1] P /\ List.filter (governs "Egress" p) P = picked [0] P.
Proof. intros Hn. subst P. split; which_govern Hns Hn. Qed.
Lemma governed_gateway : named p names_OTLPGateway -> List.filter (governs "Ingress" p) P = picked [2; 3] P.
Proof. intros Hn. subst P. which_govern Hns Hn. Qed.
Lemma governed_log_agent : named p names_LogAgent -> List.filter (governs "Ingress" p) P = picked [4] P.
Proof. intros Hn. subst P. which_govern Hns Hn. Qed.
Lemma governed_metric_agent : named p names_MetricAgent -> List.filter (governs "Ingress" p) P = picked [6] P.
Proof. intros Hn. subst P. which_govern Hns Hn. Qed.
Lemma governed_fluentbit : named p "fluent-bit" -> pod_Labels p !! LabelKeyK8sInstance = Some LabelValueK8sInstance ->
  List.filter (governs "Ingress" p) P = picked [8] P.
Proof.
  intros Hn Hi. subst P. which_govern Hns Hn.
Qed.
End Governed.

(** What one rule allows. *)
Lemma allows_scrapers ns src port first_port ports :
  rule_allows ns src port (mkNPRule [mkPeer scraping_labels (Some ∅)] (first_port :: ports)) = true <->
  scrapes src /\ port ∈ first_port :: ports.
Proof.
  unfold rule_allows, peer_matches, scraping_labels. cbn [npr_Peers npr_Ports existsb pe_PodSelector pe_NamespaceSelector].
  rewrite selects_one, selects_all, andb_true_r, orb_false_r, andb_true_iff, bool_decide_eq_true.
  change ((port =? first_port)%Z || existsb (Z.eqb port) ports) with (existsb (Z.eqb port) (first_port :: ports)).
  rewrite existsb_exists. unfold scrapes. setoid_rewrite Z.eqb_eq. setoid_rewrite <- list_elem_of_In. naive_solver.
Qed.

Lemma allows_pods ns p port k v only_port :
  rule_allows ns p port (mkNPRule [mkPeer {[k := v]} None] [only_port]) = true <->
  (pod_Labels p !! k = Some v /\ pod_Namespace p = ns) /\ port = only_port.
Proof.
  unfold rule_allows, peer_matches. cbn [npr_Peers npr_Ports existsb pe_PodSelector pe_NamespaceSelector].
  rewrite selects_one, !orb_false_r, !andb_true_iff, !bool_decide_eq_true, Z.eqb_eq. done.
Qed.

Definition metrics_port (istio : bool) (port : Z) : Prop :=
  port = ports_Metrics \/ istio = true /\ port = ports_IstioEnvoyTelemetry.

Lemma ingress_of nps own src dst port :
  List.filter (governs "Ingress" dst) nps = own ->
  ingress_allowed nps src dst port =
  match own with
  | [] => true
  | own => existsb (fun np => existsb (rule_allows (np_namespace np) src port) (np_Ingress (ob_Content np))) own
  end.
Proof. unfold ingress_allowed. intros <-. by destruct (List.filter _ _). Qed.

Lemma allows_any ns p port first_port ports :
  rule_allows ns p port (mkNPRule [] (first_port :: ports)) = true <-> port ∈ first_port :: ports.
Proof.
  unfold rule_allows. cbn [npr_Peers npr_Ports andb]. rewrite existsb_exists.
  split; [intros (x & Hin & ->%Z.eqb_eq)|intros Hin; exists port]; rewrite <- ?list_elem_of_In in *; [done|].
  split; [done|apply Z.eqb_refl].
Qed.

Ltac rules :=
  cbn [existsb]; rewrite ?orb_false_r, ?orb_true_iff, ?allows_scrapers, ?allows_pods, ?allows_any, ?list_elem_of_singleton.

Section Exact.
Context (globals : Global) (istio : bool) (src dst : Pod) (port : Z).
Let P := telemetry_policies globals istio.
Let ns := TargetNamespace globals.

Lemma ingress_self_monitor_iff : pod_Namespace dst = ns -> named dst names_SelfMonitor ->
  ingress_allowed P src dst port = true <->
  (pod_Namespace src = ns /\ named src "manager" \/ scrapes src) /\ port = selfmonports_PrometheusPort.
Proof.
  intros Hns Hn. rewrite (ingress_of _ _ _ _ _ (proj1 (governed_self_monitor globals istio dst Hns Hn))).
  change (existsb (rule_allows ns src port)
            [mkNPRule [mkPeer {[LabelKeyK8sName := "manager"]} None] [selfmonports_PrometheusPort];
             mkNPRule [mkPeer scraping_labels (Some ∅)] [selfmonports_PrometheusPort]] || false = true <->
          (pod_Namespace src = ns /\ named src "manager" \/ scrapes src) /\ port = selfmonports_PrometheusPort).
  rules. unfold named. naive_solver.
Qed.

Lemma ingress_gateway_iff : pod_Namespace dst = ns -> named dst names_OTLPGateway ->
  ingress_allowed P src dst port = true <->
  port = ports_OTLPHTTP \/ port = ports_OTLPGRPC \/ scrapes src /\ metrics_port istio port.
Proof.
  intros Hns Hn. rewrite (ingress_of _ _ _ _ _ (governed_gateway globals istio dst Hns Hn)).
  change (existsb (rule_allows ns src port)
            [mkNPRule [mkPeer scraping_labels (Some ∅)] (gatewayIngressMetricsPorts istio)] ||
          (existsb (rule_allows ns src port) [mkNPRule [] [ports_OTLPHTTP; ports_OTLPGRPC]] || false) = true <->
          port = ports_OTLPHTTP \/ port = ports_OTLPGRPC \/ scrapes src /\ metrics_port istio port).
  unfold gatewayIngressMetricsPorts, metrics_port. destruct istio; rules; rewrite ?elem_of_cons, ?elem_of_nil; naive_solver.
Qed.

Lemma ingress_agent_iff : pod_Namespace dst = ns -> named dst names_LogAgent \/ named dst names_MetricAgent ->
  ingress_allowed P src dst port = true <-> scrapes src /\ metrics_port istio port.
Proof.
  intros Hns Hn.
  assert (Hi : ingress_allowed P src dst port =
    existsb (rule_allows ns src port) [mkNPRule [mkPeer scraping_labels (Some ∅)] (agentIngressMetricsPorts istio)] || false).
  { destruct Hn as [Hn|Hn];
      [rewrite (ingress_of _ _ _ _ _ (governed_log_agent globals istio dst Hns Hn))
      |rewrite (ingress_of _ _ _ _ _ (governed_metric_agent globals istio dst Hns Hn))]; reflexivity. }
  rewrite Hi. unfold agentIngressMetricsPorts, metrics_port.
  destruct istio; rules; rewrite ?elem_of_cons, ?elem_of_nil; naive_solver.
Qed.

Lemma ingress_fluentbit_iff : pod_Namespace dst = ns -> named dst "fluent-bit" ->
  pod_Labels dst !! LabelKeyK8sInstance = Some LabelValueK8sInstance ->
  ingress_allowed P src dst port = true <->
  scrapes src /\ (port = fbports_HTTP \/ port = fbports_ExporterMetrics \/ istio = true /\ port = fbports_IstioEnvoyTelemetry).
Proof.
  intros Hns Hn Hi. rewrite (ingress_of _ _ _ _ _ (governed_fluentbit globals istio dst Hns Hn Hi)).
  change (existsb (rule_allows ns src port)
            [mkNPRule [mkPeer scraping_labels (Some ∅)] (makeFluentBitMetricsPorts istio)] || false = true <->
    scrapes src /\ (port = fbports_HTTP \/ port = fbports_ExporterMetrics \/ istio = true /\ port = fbports_IstioEnvoyTelemetry)).
  unfold makeFluentBitMetricsPorts. destruct istio; cbn [app]; rules; rewrite ?elem_of_cons, ?elem_of_nil; naive_solver.
Qed.

Lemma egress_self_monitor_iff : pod_Namespace src = ns -> named src names_SelfMonitor ->
  egress_allowed P src dst port = true <->
  pod_Namespace dst = ns /\
  (named dst "fluent-bit" /\ port = fbports_HTTP \/
   (named dst names_LogAgent \/ named dst names_MetricAgent \/
    pod_Labels dst !! LabelKeyK8sComponent = Some LabelValueK8sComponentGateway) /\ port = ports_Metrics \/
   named dst "manager" /\ port = mgrports_Webhook).
Proof.
  intros Hns Hn. unfold egress_allowed. subst P. rewrite (proj2 (governed_self_monitor globals istio src Hns Hn)).
  change (existsb (rule_allows ns dst port)
            [mkNPRule [mkPeer {[LabelKeyK8sName := "fluent-bit"]} None] [fbports_HTTP];
             mkNPRule [mkPeer {[LabelKeyK8sName := names_MetricAgent]} None] [ports_Metrics];
             mkNPRule [mkPeer {[LabelKeyK8sName := names_LogAgent]} None] [ports_Metrics];
             mkNPRule [mkPeer {[LabelKeyK8sComponent := LabelValueK8sComponentGateway]} None] [ports_Metrics];
             mkNPRule [mkPeer {[LabelKeyK8sName := "manager"]} None] [mgrports_Webhook]] || false = true <->
    pod_Namespace dst = ns /\
    (named dst "fluent-bit" /\ port = fbports_HTTP \/
     (named dst names_LogAgent \/ named dst names_MetricAgent \/
      pod_Labels dst !! LabelKeyK8sComponent = Some LabelValueK8sComponentGateway) /\ port = ports_Metrics \/
     named dst "manager" /\ port = mgrports_Webhook)).
  rules. unfold named. tauto.
Qed.
End Exact.

(** C27. With the documented meaning of network policies, the policies of all
    components together let into a Pod of the self-monitor, the gateway, the
    agents or Fluent Bit exactly the intended connections (the OTLP ports of the
    gateway from everywhere, the metrics ports from Pods that carry the scraping
    label, the Prometheus port of the self-monitor also from the manager), and
    let the self-monitor connect exactly to the metrics ports of the components
    and to the webhook of the manager. *)
Theorem network_policies_exact globals istio src dst port :
  let P := telemetry_policies globals istio in
  let ns := TargetNamespace globals in
  (pod_Namespace dst = ns ->
     (named dst names_SelfMonitor ->
        ingress_allowed P src dst port = true <->
        (pod_Namespace src = ns /\ named src "manager" \/ scrapes src) /\ port = selfmonports_PrometheusPort) /\
     (named dst names_OTLPGateway ->
        ingress_allowed P src dst port = true <->
        port = ports_OTLPHTTP \/ port = ports_OTLPGRPC \/ scrapes src /\ metrics_port istio port) /\
     (named dst names_LogAgent \/ named dst names_MetricAgent ->
        ingress_allowed P src dst port = true <-> scrapes src /\ metrics_port istio port) /\
     (named dst "fluent-bit" -> pod_Labels dst !! LabelKeyK8sInstance = Some LabelValueK8sInstance ->
        ingress_allowed P src dst port = true <->
        scrapes src /\ (port = fbports_HTTP \/ port = fbports_ExporterMetrics \/ istio = true /\ port = fbports_IstioEnvoyTelemetry))) /\
  (pod_Namespace src = ns -> named src names_SelfMonitor ->
     egress_allowed P src dst port = true <->
     pod_Namespace dst = ns /\
     (named dst "fluent-bit" /\ port = fbports_HTTP \/
      (named dst names_LogAgent \/ named dst names_MetricAgent \/
       pod_Labels dst !! LabelKeyK8sComponent = Some LabelValueK8sComponentGateway) /\ port = ports_Metrics \/
      named dst "manager" /\ port = mgrports_Webhook)).
Proof.
  cbv zeta. split.
  - intros Hns. split_and!; [by apply ingress_self_monitor_iff|by apply ingress_gateway_iff|by apply ingress_agent_iff|].
    by apply ingress_fluentbit_iff.
  - by apply egress_self_monitor_iff.
Qed.

(** Policies only ever add permissions to a Pod that is governed already. *)
Lemma ingress_mono nps nps' src dst port :
  List.filter (governs "Ingress" dst) nps <> [] -> (forall np, In np nps -> In np nps') ->
  ingress_allowed nps src dst port = true -> ingress_allowed nps' src dst port = true.
Proof.
  intros Hne Hsub. unfold ingress_allowed.
  destruct (List.filter (governs "Ingress" dst) nps) as [|x xs] eqn:E; [done|]. intros (np & Hin & Hr)%existsb_exists.
  destruct (List.filter (governs "Ingress" dst) nps') as [|y ys] eqn:E'; [done|]. apply existsb_exists. exists np.
  split; [|done]. rewrite <- E in Hin. rewrite <- E'. apply List.filter_In in Hin as [Hin Hg]. apply List.filter_In. auto.
Qed.
Lemma egress_mono nps nps' src dst port :
  List.filter (governs "Egress" src) nps <> [] -> (forall np, In np nps -> In np nps') ->
  egress_allowed nps src dst port = true -> egress_allowed nps' src dst port = true.
Proof.
  intros Hne Hsub. unfold egress_allowed.
  destruct (List.filter (governs "Egress" src) nps) as [|x xs] eqn:E; [done|]. intros (np & Hin & Hr)%existsb_exists.
  destruct (List.filter (governs "Egress" src) nps') as [|y ys] eqn:E'; [done|]. apply existsb_exists. exists np.
  split; [|done]. rewrite <- E in Hin. rewrite <- E'. apply List.filter_In in Hin as [Hin Hg]. apply List.filter_In. auto.
Qed.

(** ** The Pods of the components *)

Section Pods.
Context (globals : Global).
Let ns := TargetNamespace globals.
Let extra := g_additionalWorkloadPodLabels globals.

(** The labels of the Pods of a workload. *)
Definition daemon_pod (ds : object (workload DaemonSetSpec)) : Pod :=
  mkPod (nn_Namespace (fm_Key (ob_Meta ds))) (ds_PodLabels (wl_Rest (ob_Content ds))).
Definition deployment_pod (dp : object (workload DeploymentSpec)) : Pod :=
  mkPod (nn_Namespace (fm_Key (ob_Meta dp))) (dp_PodLabels (wl_Rest (ob_Content dp))).

Definition gateway_pod (checksum : string) (opts : GatewayApplyOptions) : Pod :=
  daemon_pod (gateway_daemon_set (NewOTLPGatewayApplierDeleter globals "" "") checksum opts).
Definition log_agent_pod (checksum : string) (opts : AgentApplyOptions) : Pod :=
  daemon_pod (makeAgentDaemonSet (NewLogAgentApplierDeleter globals "" "") checksum opts).
Definition metric_agent_pod (checksum : string) (opts : AgentApplyOptions) : Pod :=
  daemon_pod (makeAgentDaemonSet (NewMetricAgentApplierDeleter globals "" "") checksum opts).
Definition fluentbit_pod (checksum : string) : Pod :=
  daemon_pod (fb_makeDaemonSet (NewFluentBitApplierDeleter globals ns "" "" "" "") ns checksum).
Definition self_monitor_pod (checksum path file level : string) : Pod :=
  deployment_pod (sm_makeDeployment (mkSelfMonitorConfig globals "" "") checksum path file level).

(** The labels of the settings do not replace the labels that the selectors use. *)
Definition keeps_identity : Prop :=
  extra !! LabelKeyK8sName = None /\ extra !! LabelKeyK8sComponent = None /\ extra !! LabelKeyK8sInstance = None.

Lemma copied_label (first last : labels) k v :
  extra !! k = None -> last !! k = None -> first !! k = Some v ->
  maps_Copy (maps_Copy (maps_Copy ∅ first) extra) last !! k = Some v.
Proof.
  intros He Hl Hf. unfold maps_Copy. rewrite lookup_union_r by done. rewrite lookup_union_r by done. by rewrite map_union_empty.
Qed.

Lemma gateway_named checksum opts : keeps_identity ->
  named (gateway_pod checksum opts) names_OTLPGateway /\
  pod_Labels (gateway_pod checksum opts) !! LabelKeyK8sComponent = Some LabelValueK8sComponentGateway.
Proof. intros (Hn & Hc & _). split; (apply copied_label; [done|reflexivity..]). Qed.
Lemma log_agent_named checksum opts : keeps_identity -> named (log_agent_pod checksum opts) names_LogAgent.
Proof. intros (Hn & _). apply copied_label; [done|reflexivity..]. Qed.
Lemma metric_agent_named checksum opts : keeps_identity -> named (metric_agent_pod checksum opts) names_MetricAgent.
Proof. intros (Hn & _). apply copied_label; [done|reflexivity..]. Qed.
Lemma fluentbit_named checksum : keeps_identity ->
  named (fluentbit_pod checksum) "fluent-bit" /\
  pod_Labels (fluentbit_pod checksum) !! LabelKeyK8sInstance = Some LabelValueK8sInstance.
Proof.
  intros (Hn & _ & Hi). split; unfold named, fluentbit_pod, daemon_pod; cbn [pod_Labels fb_makeDaemonSet wl_Rest ob_Content ds_PodLabels];
    unfold fb_pod_labels; rewrite !lookup_insert_ne by done; unfold maps_Copy; (rewrite lookup_union_r; [reflexivity|done]).
Qed.
Lemma self_monitor_named checksum path file level :
  scrapes (self_monitor_pod checksum path file level) /\
  (keeps_identity -> named (self_monitor_pod checksum path file level) names_SelfMonitor).
Proof.
  split; [by apply lookup_insert_eq|]. intros (Hn & _).
  unfold named, self_monitor_pod, deployment_pod; cbn [pod_Labels sm_makeDeployment wl_Rest ob_Content dp_PodLabels].
  unfold sm_pod_labels. rewrite !lookup_insert_ne by done. unfold maps_Copy. rewrite lookup_union_r; [reflexivity|done].
Qed.

Lemma connects_mono nps nps' src dst port :
  List.filter (governs "Ingress" dst) nps <> [] -> List.filter (governs "Egress" src) nps <> [] ->
  (forall np, In np nps -> In np nps') ->
  egress_allowed nps src dst port = true -> ingress_allowed nps src dst port = true -> connects nps' src dst port = true.
Proof. intros. unfold connects. apply andb_true_iff. split; [eapply egress_mono|eapply ingress_mono]; eauto. Qed.

(** C30. The Pods that the workloads of the components create (labels of the Pod
    templates, user-defined labels included as long as they do not override the
    identifying ones) are reachable for the self-monitor on their metrics port
    under the policies of the components, whatever further policies exist. *)
Theorem self_monitor_scrapes_components istio nps checksum path file level opts aopts :
  keeps_identity -> (forall np, In np (telemetry_policies globals istio) -> In np nps) ->
  let monitor := self_monitor_pod checksum path file level in
  connects nps monitor (gateway_pod checksum opts) ports_Metrics = true /\
  connects nps monitor (log_agent_pod checksum aopts) ports_Metrics = true /\
  connects nps monitor (metric_agent_pod checksum aopts) ports_Metrics = true /\
  connects nps monitor (fluentbit_pod checksum) fbports_HTTP = true.
Proof.
  intros Hk Hsub monitor.
  destruct (self_monitor_named checksum path file level) as [Hsc Hmn]. specialize (Hmn Hk). fold monitor in Hsc, Hmn.
  destruct (gateway_named checksum opts Hk) as [Hgn Hgc]. destruct (fluentbit_named checksum Hk) as [Hfn Hfi].
  pose proof (log_agent_named checksum aopts Hk) as Hln. pose proof (metric_agent_named checksum aopts Hk) as Hmm.
  destruct (governed_self_monitor globals istio monitor eq_refl Hmn) as [_ He].
  assert (Hen : List.filter (governs "Egress" monitor) (telemetry_policies globals istio) <> []) by (rewrite He; done).
  split_and!; (eapply connects_mono; [|exact Hen|exact Hsub|apply egress_self_monitor_iff; [done..|split; [done|tauto]]|]).
  - rewrite (governed_gateway globals istio (gateway_pod checksum opts) eq_refl Hgn). done.
  - apply ingress_gateway_iff; [done..|]. right; right. split; [done|by left].
  - rewrite (governed_log_agent globals istio (log_agent_pod checksum aopts) eq_refl Hln). done.
  - apply ingress_agent_iff; [done|by left|]. split; [done|by left].
  - rewrite (governed_metric_agent globals istio (metric_agent_pod checksum aopts) eq_refl Hmm). done.
  - apply ingress_agent_iff; [done|by right|]. split; [done|by left].
  - rewrite (governed_fluentbit globals istio (fluentbit_pod checksum) eq_refl Hfn Hfi). done.
  - apply ingress_fluentbit_iff; [done..|]. split; [done|by left].
Qed.
End Pods.
End Network.

(** ** Witnesses *)

Module NetworkSample.
Definition globals : Global :=
  NewGlobal [WithTargetNamespace "kyma-system"; WithAdditionalWorkloadPodLabels {["team" := "observability"]}].
Definition gateway_options : GatewayApplyOptions := mkGatewayApplyOptions "config" ∅ true 1 0 true true 0.
Definition agent_options : AgentApplyOptions := mkAgentApplyOptions false false false 0 "config" None [].
End NetworkSample.

Lemma self_monitor_scrapes_components_witness :
  connects (fun _ => ∅) (telemetry_policies NetworkSample.globals true)
    (self_monitor_pod NetworkSample.globals "1" "/etc/" "prometheus.yml" "") (fluentbit_pod NetworkSample.globals "1") fbports_HTTP = true.
Proof.
  destruct (self_monitor_scrapes_components (fun _ => ∅) NetworkSample.globals true (telemetry_policies NetworkSample.globals true)
              "1" "/etc/" "prometheus.yml" "" NetworkSample.gateway_options NetworkSample.agent_options) as (_ & _ & _ & Hf).
  - split_and!; vm_compute; reflexivity.
  - auto.
  - exact Hf.
Defined.

Lemma network_policies_exact_witness :
  ingress_allowed (fun _ => ∅) (telemetry_policies NetworkSample.globals false) (mkPod "default" ∅)
    (mkPod "kyma-system" (DefaultLabels names_LogAgent LabelValueK8sComponentAgent)) ports_Metrics <> true.
Proof.
  destruct (network_policies_exact (fun _ => ∅) NetworkSample.globals false (mkPod "default" ∅)
              (mkPod "kyma-system" (DefaultLabels names_LogAgent LabelValueK8sComponentAgent)) ports_Metrics) as [Hi _].
  destruct (Hi eq_refl) as (_ & _ & Ha & _). intros H. apply Ha in H; [|left; reflexivity].
  destruct H as [H _]. vm_compute in H. discriminate.
Defined.
