(* ===== verification/Maintenance.v ===== *)
(** * Background work of the manager (internal/overrides, internal/nodesize,
    internal/storagemigration, internal/labelupdater, internal/istiostatus,
    internal/vpastatus, internal/cliflags, internal/featureflags)

    The overrides of the log level, the tracker of the smallest node, the migration of the
    storage version, the update of old objects, and the checks for Istio and VPA. *)
From Stdlib Require Import Ascii.
From stdpp Require Import base gmap strings list.
From S2P Require Import Prelude Kube GoErrors GoStrings K8sUtils Resources.
Local Open Scope string_scope.

(** ** The smallest node (nodesize/tracker.go) *)

(** A node: its allocatable memory in bytes, if it is known. *)
Record Node := mkNode { nd_AllocatableMemory : option Z }.

(** The loop of [computeSmallestAllocatableMemory]. *)
Fixpoint smallest_of (smallest : option Z) (nodes : list Node) : option Z :=
  match nodes with
  | [] => smallest
  | n :: rest =>
      match nd_AllocatableMemory n with
      | None => smallest_of smallest rest
      | Some allocatable =>
          match smallest with
          | None => smallest_of (Some allocatable) rest
          | Some s => smallest_of (if (allocatable <? s)%Z then Some allocatable else smallest) rest
          end
      end
  end.

Definition computeSmallestAllocatableMemory (nodes : list Node) : Z := default 0%Z (smallest_of None nodes).

Record Tracker := mkTracker { tr_smallestMemory : option Z }.
Definition NewTracker : Tracker := mkTracker None.

Definition UpdateSmallestMemory (nodeList : result (list Node) apierror) (t : Tracker) : Tracker * result bool goerror :=
  match nodeList with
  | Err err => (t, Err (Wrapf "failed to list nodes: " (ApiError err) ""))
  | Ok items =>
      let newSmallest := computeSmallestAllocatableMemory items in
      if match tr_smallestMemory t with Some s => (s =? newSmallest)%Z | None => false end then (t, Ok false)
      else (mkTracker (Some newSmallest), Ok true)
  end.

Definition SmallestMemory (t : Tracker) : Z := default 0%Z (tr_smallestMemory t).

(** [float64]: a non-negative number is an integer times a power of two; the nearest one
    with 53 significant bits, ties to even. [0.15] is [5404319552844595 * 2^-55]. *)
Definition round_half_even (n d : Z) : Z :=
  let q := (n / d)%Z in
  let r := (n mod d)%Z in
  match Z.compare (2 * r) d with Lt => q | Gt => (q + 1)%Z | Eq => if Z.even q then q else (q + 1)%Z end.

(** The bits that are dropped. *)
Definition excess (n : Z) : Z := Z.max 0 (Z.log2 n + 1 - 53).
Definition float64 (n : Z) : Z := (round_half_even n (2 ^ excess n) * 2 ^ excess n)%Z.

Definition vpaMaxAllowedMemoryFraction : Z * Z := (5404319552844595, 55)%Z.

(** [int64(math.Round(float64(v) * f))]; [math.Round] takes halves away from zero. *)
Definition round_product (v : Z) (f : Z * Z) : Z :=
  let '(m, e) := f in ((2 * float64 (float64 v * m) + 2 ^ e) / 2 ^ (e + 1))%Z.

Definition VPAMaxAllowedMemory (t : Tracker) : Z :=
  let fifteenPercent := round_product (SmallestMemory t) vpaMaxAllowedMemoryFraction in
  (Z.quot fifteenPercent 1024 * 1024)%Z.

Example vpa_16Gi : VPAMaxAllowedMemory (mkTracker (Some 17179869184%Z)) = 2576979968%Z.
Proof. vm_compute. reflexivity. Qed.

(** ** Overrides (overrides/config.go, handler.go) *)

Record OverridesConfig := mkOverridesConfig {
  oc_LogLevel : string;
  oc_TracingPaused : bool;
  oc_LoggingPaused : bool;
  oc_CollectAgentLogs : bool;
  oc_MetricsPaused : bool;
  oc_TelemetryPaused : bool;
  oc_OTLPGatewayPaused : bool
}.
Definition no_overrides : OverridesConfig := mkOverridesConfig "" false false false false false false.

(** The handler: its default level; the level of the logger is shared state. *)
Record Handler := mkHandler { h_globals : Global; h_defaultLevel : Z }.

Section Overrides.
Context (Unmarshal : string -> result OverridesConfig goerror) (ParseLevel : string -> result Z goerror).

Definition configKey : string := "overrides".
Definition names_OverrideConfigMap : string := "telemetry-overrides".

(** [New], without options: the level of the logger at that time is the default. *)
Definition overrides_New (globals : Global) (atomicLevel : Z) : Handler := mkHandler globals atomicLevel.

Definition readConfigMapOrEmpty (get : NamespacedName -> result (gmap string string) apierror) (h : Handler) :
    result string goerror :=
  match get (mkNN (TargetNamespace (h_globals h)) names_OverrideConfigMap) with
  | Err err => if IsNotFound err then Ok "" else Err (Wrapf "failed to get overrides configmap: " (ApiError err) "")
  | Ok data => match data !! configKey with Some d => Ok d | None => Ok "" end
  end.

Definition loadOverridesConfig (get : NamespacedName -> result (gmap string string) apierror) (h : Handler) :
    result OverridesConfig goerror :=
  match readConfigMapOrEmpty get h with
  | Err err => Err err
  | Ok config => if str_eqb config "" then Ok no_overrides else Unmarshal config
  end.

(** The new level, or an error. *)
Definition syncLogLevel (h : Handler) (logLevel : string) : result Z goerror :=
  if str_eqb logLevel "" then Ok (h_defaultLevel h)
  else match ParseLevel logLevel with
       | Ok level => Ok level
       | Err err => Err (Wrapf "failed to parse zap level: " err "")
       end.

Definition LoadOverrides (get : NamespacedName -> result (gmap string string) apierror) (h : Handler) (atomicLevel : Z) :
    Z * result OverridesConfig goerror :=
  match loadOverridesConfig get h with
  | Err err => (atomicLevel, Err (Wrapf "failed to load overrides config: " err ""))
  | Ok overrideConfig =>
      match syncLogLevel h (oc_LogLevel overrideConfig) with
      | Err err => (atomicLevel, Err (Wrapf "failed to sync log level: " err ""))
      | Ok level => (level, Ok overrideConfig)
      end
  end.

End Overrides.

(** ** Istio and VPA (istio_status_checker.go, vpa_status_checker.go) *)

(** [strings.Contains] *)
Fixpoint Contains (s sub : string) : bool :=
  String.prefix sub s || match s with EmptyString => false | String _ s' => Contains s' sub end.

Definition IsIstioActive (groups : result (list string) goerror) : result bool goerror :=
  match groups with Err err => Err err | Ok groups => Ok (existsb (fun name => Contains name ".istio.io") groups) end.

Definition names_VpaKind : string := "VerticalPodAutoscaler".

Definition VpaCRDExists (discoveryClient : option goerror) (kinds : result (list string) apierror) : result bool goerror :=
  match discoveryClient with
  | Some err => Err (Wrapf "failed to create discovery client: " err "")
  | None =>
      match kinds with
      | Err err =>
          if IsNotFound err then Ok false
          else Err (Wrapf "failed to get server resources for group version autoscaling.k8s.io/v1: " (ApiError err) "")
      | Ok kinds => Ok (existsb (str_eqb names_VpaKind) kinds)
      end
  end.

(** ** Flags (cliflags/map.go, featureflags.go) *)

(** [strings.SplitN(s, "=", 2)]: what is before the first equals sign and what is after. *)
Fixpoint split_at_equals (s : string) : option (string * string) :=
  match s with
  | EmptyString => None
  | String c s' =>
      if Ascii.eqb c "="%char then Some ("", s')
      else match split_at_equals s' with Some (k, v) => Some (String c k, v) | None => None end
  end.

(** [strings.TrimSpace] on ASCII text. *)
Definition is_space (c : ascii) : bool :=
  existsb (Ascii.eqb c) [" "; "009"; "010"; "011"; "012"; "013"]%char.
Fixpoint trim_left (s : string) : string :=
  match s with EmptyString => "" | String c s' => if is_space c then trim_left s' else s end.
Definition reverse (s : string) : string := String.string_of_list_ascii (rev (String.list_ascii_of_string s)).
Definition TrimSpace (s : string) : string := reverse (trim_left (reverse (trim_left s))).

Definition Map_Set (m : gmap string string) (s : string) : result (gmap string string) string :=
  match split_at_equals s with
  | None => Err ("invalid format " +:+ s +:+ ", expected key=value")
  | Some (key, val) =>
      if str_eqb (TrimSpace key) "" then Err ("empty key in " +:+ s)
      else Ok (<[TrimSpace key := TrimSpace val]> m)
  end.

Inductive FeatureFlag := placeholder | UnlimitedPipelineCount.
#[export] Instance FeatureFlag_eq_dec : EqDecision FeatureFlag.
Proof. solve_decision. Defined.

Definition flags : Type := list (FeatureFlag * bool).
Definition Set_flag (flag : FeatureFlag) (enabled : bool) (f : flags) : flags :=
  (flag, enabled) :: List.filter (fun e => negb (bool_decide (e.1 = flag))) f.
Definition IsEnabled (flag : FeatureFlag) (f : flags) : bool :=
  match List.find (fun e => bool_decide (e.1 = flag)) f with Some e => e.2 | None => false end.
Definition Enable (flag : FeatureFlag) : flags -> flags := Set_flag flag true.
Definition Disable (flag : FeatureFlag) : flags -> flags := Set_flag flag false.
Definition EnabledFlags (f : flags) : list FeatureFlag := map fst (List.filter snd f).

(** ** Retrying (Start of both runnables)

    [attempt] is one run; between two runs the cluster may change by [meanwhile]; the
    context may be cancelled after run [i]. [None] means that it is still running. *)
Fixpoint Start {W} (attempt : W -> W * option goerror) (meanwhile : nat -> W -> W) (cancelled : nat -> bool) (fuel i : nat)
    (w : W) : option W :=
  match fuel with
  | O => None
  | S fuel =>
      match attempt w with
      | (w, None) => Some w
      | (w, Some _) => if cancelled i then Some w else Start attempt meanwhile cancelled fuel (S i) (meanwhile i w)
      end
  end.

(** ** The storage version (storagemigration/migrator.go) *)

Definition oldVersion : string := "v1alpha1".

Inductive MigratedKind := LogPipelineKind | MetricPipelineKind | TracePipelineKind | TelemetryKind.
#[export] Instance MigratedKind_eq_dec : EqDecision MigratedKind.
Proof. solve_decision. Defined.

Definition telemetryCRD : string := "telemetries.operator.kyma-project.io".
Definition pipelineCRDs : list string :=
  ["logpipelines.telemetry.kyma-project.io"; "metricpipelines.telemetry.kyma-project.io";
   "tracepipelines.telemetry.kyma-project.io"].
Definition allCRDs : list string := (pipelineCRDs ++ [telemetryCRD])%list.

(** The client, and the gauge [MigratorInfo]. An update writes an object back as it was read. *)
Class MigrationClient (W : Type) := {
  mc_get_crd : W -> string -> result (list string) apierror;
  mc_patch_crd : W -> string -> list string -> W * option apierror;
  mc_list : W -> MigratedKind -> result (list NamespacedName) apierror;
  mc_update : W -> MigratedKind -> NamespacedName -> W * option apierror;
  mc_set_info : W -> string -> string -> Z -> W
}.

Section Migration.
Context {W : Type} `{MigrationClient W}.

Definition wrapped (what : string) (err : apierror) : goerror := Wrapf what (ApiError err) "".

Definition set_all_info (crdName : string) (versions : list string) (w : W) : W :=
  fold_left (fun w version => mc_set_info w crdName version 1) versions w.

Definition needsMigration (crdName : string) (w : W) : W * result bool goerror :=
  match mc_get_crd w crdName with
  | Err err => (w, Err (wrapped ("failed to get CRD " +:+ crdName +:+ ": ") err))
  | Ok storedVersions => (set_all_info crdName storedVersions w, Ok (existsb (str_eqb oldVersion) storedVersions))
  end.

(** The first loop of [migratePipelinesIfNeeded]. *)
Fixpoint check_all (crds : list string) (needed : bool) (w : W) : W * result bool goerror :=
  match crds with
  | [] => (w, Ok needed)
  | crdName :: rest =>
      match needsMigration crdName w with
      | (w, Err err) => (w, Err (Wrapf ("failed to check migration status for " +:+ crdName +:+ ": ") err ""))
      | (w, Ok n) => check_all rest (needed || n) w
      end
  end.

(** The loop of the four [migrate] functions. *)
Fixpoint update_all (k : MigratedKind) (items : list NamespacedName) (w : W) : W * option goerror :=
  match items with
  | [] => (w, None)
  | n :: rest =>
      match mc_update w k n with
      | (w, Some err) =>
          if IsNotFound err then update_all k rest w
          else (w, Some (match k with
                         | LogPipelineKind => wrapped ("failed to migrate LogPipeline " +:+ nn_Name n +:+ ": ") err
                         | MetricPipelineKind => wrapped ("failed to migrate MetricPipeline " +:+ nn_Name n +:+ ": ") err
                         | TracePipelineKind => wrapped ("failed to migrate TracePipeline " +:+ nn_Name n +:+ ": ") err
                         | TelemetryKind =>
                             wrapped ("failed to migrate Telemetry " +:+ nn_Namespace n +:+ "/" +:+ nn_Name n +:+ ": ") err
                         end))
      | (w, None) => update_all k rest w
      end
  end.

Definition migrate (k : MigratedKind) (plural : string) (w : W) : W * option goerror :=
  match mc_list w k with
  | Err err => (w, Some (wrapped ("failed to list " +:+ plural +:+ ": ") err))
  | Ok items => update_all k items w
  end.
Definition migrateLogPipelines : W -> W * option goerror := migrate LogPipelineKind "LogPipelines".
Definition migrateMetricPipelines : W -> W * option goerror := migrate MetricPipelineKind "MetricPipelines".
Definition migrateTracePipelines : W -> W * option goerror := migrate TracePipelineKind "TracePipelines".
Definition migrateTelemetries : W -> W * option goerror := migrate TelemetryKind "Telemetries".

Definition clearStoredVersion (crdName : string) (w : W) : W * option goerror :=
  match mc_get_crd w crdName with
  | Err err => (w, Some (wrapped ("failed to get CRD " +:+ crdName +:+ ": ") err))
  | Ok storedVersions =>
      let newStoredVersions := List.filter (fun version => negb (str_eqb version oldVersion)) storedVersions in
      if Nat.eqb (length newStoredVersions) (length storedVersions) then (w, None)
      else match mc_patch_crd w crdName newStoredVersions with
           | (w, Some err) => (w, Some (wrapped ("failed to patch CRD status for " +:+ crdName +:+ ": ") err))
           | (w, None) => (set_all_info crdName newStoredVersions (mc_set_info w crdName oldVersion 0), None)
           end
  end.

Fixpoint clear_all (crds : list string) (w : W) : W * option goerror :=
  match crds with
  | [] => (w, None)
  | crdName :: rest =>
      match clearStoredVersion crdName w with
      | (w, Some err) => (w, Some (Wrapf ("failed to clear stored version for " +:+ crdName +:+ ": ") err ""))
      | (w, None) => clear_all rest w
      end
  end.

(** The calls of the four [migrate] functions. *)
Fixpoint migrate_each (steps : list (string * (W -> W * option goerror))) (w : W) : W * option goerror :=
  match steps with
  | [] => (w, None)
  | (plural, f) :: rest =>
      match f w with
      | (w, Some err) => (w, Some (Wrapf ("failed to migrate " +:+ plural +:+ ": ") err ""))
      | (w, None) => migrate_each rest w
      end
  end.

Definition migratePipelinesIfNeeded (w : W) : W * option goerror :=
  match check_all allCRDs false w with
  | (w, Err err) => (w, Some err)
  | (w, Ok false) => (w, None)
  | (w, Ok true) =>
      match migrate_each [("LogPipelines", migrateLogPipelines); ("MetricPipelines", migrateMetricPipelines);
                          ("TracePipelines", migrateTracePipelines); ("Telemetries", migrateTelemetries)] w with
      | (w, Some err) => (w, Some err)
      | (w, None) => clear_all allCRDs w
      end
  end.

End Migration.

(** ** The module label on old objects (labelupdater/updater.go) *)

Inductive Updatable := UServiceAccount | UClusterRoleBinding.
#[export] Instance Updatable_eq_dec : EqDecision Updatable.
Proof. solve_decision. Defined.

Class LabelClient (W : Type) := {
  lc_get : W -> Updatable -> NamespacedName -> result (option labels) apierror;
  lc_patch : W -> Updatable -> NamespacedName -> labels -> W * option apierror
}.

Section Labels.
Context {W : Type} `{LabelClient W}.

Definition hasModuleLabel (l : option labels) : bool :=
  match l with None => false | Some l => bool_decide (is_Some (l !! LabelKeyKymaModule)) end.

Definition patchModuleLabel (k : Updatable) (key : NamespacedName) (l : option labels) (w : W) : W * option apierror :=
  lc_patch w k key (<[LabelKeyKymaModule := LabelValueKymaModule]> (default ∅ l)).

Definition type_name (k : Updatable) : string :=
  match k with UServiceAccount => "*v1.ServiceAccount" | UClusterRoleBinding => "*v1.ClusterRoleBinding" end.
Definition key_text (key : NamespacedName) : string := nn_Namespace key +:+ "/" +:+ nn_Name key.

Definition ensureLabelOnResource (k : Updatable) (key : NamespacedName) (w : W) : W * option goerror :=
  match lc_get w k key with
  | Err err =>
      if IsNotFound err then (w, None)
      else (w, Some (Wrapf ("failed to get " +:+ type_name k +:+ " " +:+ key_text key +:+ ": ") (ApiError err) ""))
  | Ok l =>
      if hasModuleLabel l then (w, None)
      else match patchModuleLabel k key l w with
           | (w, Some err) =>
               (w, Some (Wrapf ("failed to patch label on " +:+ type_name k +:+ " " +:+ key_text key +:+ ": ") (ApiError err) ""))
           | (w, None) => (w, None)
           end
  end.

Definition fluent_bit_name : string := "telemetry-fluent-bit".
Definition resources_to_label (namespace : string) : list (Updatable * NamespacedName) :=
  [(UServiceAccount, mkNN namespace fluent_bit_name); (UClusterRoleBinding, mkNN "" fluent_bit_name)].

Fixpoint label_each (resources : list (Updatable * NamespacedName)) (w : W) : W * option goerror :=
  match resources with
  | [] => (w, None)
  | (k, key) :: rest =>
      match ensureLabelOnResource k key w with (w, Some err) => (w, Some err) | (w, None) => label_each rest w end
  end.

Definition updater_ensureLabels (namespace : string) (w : W) : W * option goerror := label_each (resources_to_label namespace) w.

End Labels.

(** ** The directory size exporter (dependencies/directory-size-exporter) *)

(** An entry of a directory, as [os.ReadDir] shows it: a link, a directory that may be
    unreadable, or anything else with its [Info] (whether it is a regular file, and its size). *)
Inductive Entry :=
| Symlink
| Directory (unreadable : bool) (entries : list (string * Entry))
| Other (info : option (bool * Z)).

(** Addition of [int64]. *)
Definition int64 (n : Z) : Z := ((n + 2 ^ 63) mod 2 ^ 64 - 2 ^ 63)%Z.

(** [None] is an error; both callers drop its value. *)
Fixpoint dirSize (dir : Entry) : option Z :=
  match dir with
  | Directory false entries =>
      Some ((fix loop (size : Z) (entries : list (string * Entry)) : Z :=
        match entries with
        | [] => size
        | (_, entry) :: rest =>
            match entry with
            | Symlink => loop size rest
            | Directory _ _ => match dirSize entry with None => loop size rest | Some subSize => loop (int64 (size + subSize)) rest end
            | Other None => loop size rest
            | Other (Some (regular, n)) => if regular : bool then loop (int64 (size + n)) rest else loop size rest
            end
        end) 0%Z entries)
  | _ => None
  end.

(** The loop of [listDirs]. *)
Fixpoint list_entries (files : list (string * Entry)) : list (string * Z) :=
  match files with
  | [] => []
  | (name, file) :: rest =>
      match file with
      | Directory _ _ => match dirSize file with None => list_entries rest | Some size => (name, size) :: list_entries rest end
      | _ => list_entries rest
      end
  end.
Definition listDirs (path : Entry) : list (string * Z) * bool :=
  match path with Directory false files => (list_entries files, false) | _ => ([], true) end.

(** [float64] of an [int64], and the gauge by its label. *)
Definition float64_of_int (n : Z) : Z := if (n <? 0)%Z then (- float64 (- n))%Z else float64 n.
Definition recordingIteration (logPath : Entry) (gauge : gmap string Z) : gmap string Z :=
  fold_left (fun g d => <[d.1 := float64_of_int d.2]> g) (listDirs logPath).1 gauge.

Record exporter_flags := mkExporterFlags {
  ef_storagePath : string; ef_metricName : string; ef_logFormat : string; ef_logLevel : string
}.
Definition validateFlags (f : exporter_flags) : option string :=
  if str_eqb (ef_storagePath f) "" then Some "--storage-path flag is required"
  else if str_eqb (ef_metricName f) "" then Some "--metric-name flag is required"
  else if negb (str_eqb (ef_logFormat f) "json") && negb (str_eqb (ef_logFormat f) "text")
  then Some "--log-format flag should be either 'json' or 'text'"
  else if negb (str_eqb (ef_logLevel f) "debug") && negb (str_eqb (ef_logLevel f) "info") && negb (str_eqb (ef_logLevel f) "warn")
          && negb (str_eqb (ef_logLevel f) "error")
  then Some "--log-level flag should be either 'debug', 'info', 'warn' or 'error'"
  else None.
