(* ===== verification/MaintenanceProps.v ===== *)
(** * Properties of the background work

    The memory the tracker allows is fifteen percent of the smallest node, and the limits
    of the gateway follow it; the migration removes the old version only after all objects
    were rewritten; the updater labels what it finds; overrides change the level only as a
    whole. *)
From Stdlib Require Import Ascii.
From stdpp Require Import base gmap strings list.
From S2P Require Import Prelude Kube GoErrors GoStrings K8sUtils Resources OtelResources Maintenance.
Local Open Scope string_scope.

(** ** Rounding *)

Section Rounding.
Local Open Scope Z_scope.

Lemma round_half_even_bounds n d :
  0 < d -> 2 * n - d <= 2 * (round_half_even n d * d) <= 2 * n + d.
Proof.
  intros Hd. unfold round_half_even. pose proof (Z.div_mod n d) as Hn. pose proof (Z.mod_pos_bound n d) as Hr.
  destruct (Z.compare_spec (2 * (n mod d)) d); [destruct (Z.even (n / d))|..]; nia.
Qed.

Lemma round_by_one n : round_half_even n 1 = n.
Proof.
  pose proof (round_half_even_bounds n 1). lia.
Qed.

Lemma float64_bounds n : 0 <= n -> 2 ^ 53 * Z.abs (float64 n - n) <= n.
Proof.
  intros Hn. unfold float64. destruct (Z.eq_dec (excess n) 0) as [He|He].
  - rewrite He. change (2 ^ 0) with 1. rewrite round_by_one. lia.
  - assert (Hx : 0 < excess n /\ Z.log2 n = excess n + 52) by (unfold excess in *; lia). destruct Hx as [Hp Hl].
    assert (Hn0 : 0 < n) by (destruct (Z.eq_dec n 0) as [->|]; [cbn in Hl|]; lia).
    destruct (Z.log2_spec n Hn0) as [Hlow _]. rewrite Hl in Hlow.
    pose proof (round_half_even_bounds n (2 ^ excess n) ltac:(apply Z.pow_pos_nonneg; lia)) as Hb.
    replace (excess n + 52) with ((excess n) + 52) in Hlow by lia. rewrite Z.pow_add_r in Hlow by lia.
    change (2 ^ 52) with 4503599627370496 in Hlow. change (2 ^ 53) with 9007199254740992.
    set (d := 2 ^ excess n) in *. set (q := round_half_even n d) in *. lia.
Qed.

Lemma float64_exact n : 0 <= n < 2 ^ 53 -> float64 n = n.
Proof.
  intros [Hn Hlt]. pose proof (float64_bounds n Hn). change (2 ^ 53) with 9007199254740992 in *. lia.
Qed.

Lemma fifteen_percent v : 0 <= v < 2 ^ 53 ->
  let r := round_product v vpaMaxAllowedMemoryFraction in 0 <= r /\ 3 * v - 14 <= 20 * r <= 3 * v + 13.
Proof.
  intros Hv r. subst r. unfold round_product, vpaMaxAllowedMemoryFraction. rewrite (float64_exact v Hv).
  pose proof (float64_bounds (v * 5404319552844595) ltac:(lia)) as Hf.
  set (F := float64 (v * 5404319552844595)) in *.
  pose proof (Z.div_mod (2 * F + 2 ^ 55) (2 ^ (55 + 1))) as Hd. pose proof (Z.mod_pos_bound (2 * F + 2 ^ 55) (2 ^ (55 + 1))) as Hm.
  set (R := (2 * F + 2 ^ 55) / 2 ^ (55 + 1)) in *. set (M := (2 * F + 2 ^ 55) mod 2 ^ (55 + 1)) in *.
  change (2 ^ (55 + 1)) with 72057594037927936 in *. change (2 ^ 55) with 36028797018963968 in *.
  change (2 ^ 53) with 9007199254740992 in *. lia.
Qed.

Lemma vpa_max_bounds t : 0 <= SmallestMemory t < 2 ^ 53 ->
  let m := VPAMaxAllowedMemory t in
  0 <= m /\ m mod 1024 = 0 /\ 20 * m <= 3 * SmallestMemory t + 13 /\ 3 * SmallestMemory t - 14 <= 20 * (m + 1023).
Proof.
  intros Hv m. subst m. unfold VPAMaxAllowedMemory. destruct (fifteen_percent _ Hv) as (Hr & Hlo & Hhi).
  set (r := round_product _ _) in *. rewrite Z.quot_div_nonneg by lia.
  pose proof (Z.div_mod r 1024) as Hd. pose proof (Z.mod_pos_bound r 1024) as Hm. rewrite Z.mod_mul by lia. lia.
Qed.

End Rounding.

(** The smallest node is one of the nodes, and no node is smaller. *)
Lemma smallest_of_spec s nodes :
  match smallest_of s nodes with
  | None => s = None /\ Forall (fun n => nd_AllocatableMemory n = None) nodes
  | Some m =>
      (s = Some m \/ exists n, n ∈ nodes /\ nd_AllocatableMemory n = Some m) /\
      (forall x, s = Some x -> (m <= x)%Z) /\
      forall n x, n ∈ nodes -> nd_AllocatableMemory n = Some x -> (m <= x)%Z
  end.
Proof.
  revert s. induction nodes as [|n rest IH]; intros s.
  - cbn. destruct s as [x|]; [|done]. split; [by left|]. split; [intros y [= <-]; lia|]. intros n y Hin. set_solver.
  - cbn [smallest_of]. destruct (nd_AllocatableMemory n) as [a|] eqn:Ha.
    + destruct s as [x|].
      * specialize (IH (if (a <? x)%Z then Some a else Some x)). destruct (smallest_of _ rest) as [m|].
        -- destruct IH as (Hw & Hs & Hr).
           assert (Hmin : (m <= a)%Z /\ (m <= x)%Z) by (destruct (Z.ltb_spec a x); specialize (Hs _ eq_refl); lia).
           split_and!.
           ++ destruct Hw as [Hw|(n' & Hin & Hn')]; [|right; set_solver].
              destruct (a <? x)%Z; injection Hw as <-; [right; exists n; set_solver|by left].
           ++ intros y [= <-]. lia.
           ++ intros n' y Hin Hy. apply elem_of_cons in Hin as [->|Hin]; [rewrite Ha in Hy; injection Hy as <-; lia|by eapply Hr].
        -- destruct IH as [IH _]. by destruct (a <? x)%Z.
      * specialize (IH (Some a)). destruct (smallest_of _ rest) as [m|]; [|by destruct IH].
        destruct IH as (Hw & Hs & Hr). split_and!; [|done|].
        -- right. destruct Hw as [[= ->]|(n' & Hin & Hn')]; [exists n; set_solver|exists n'; set_solver].
        -- intros n' y Hin Hy. apply elem_of_cons in Hin as [->|Hin]; [rewrite Ha in Hy; injection Hy as <-; by apply Hs|by eapply Hr].
    + specialize (IH s). destruct (smallest_of s rest) as [m|].
      * destruct IH as (Hw & Hs & Hr). split_and!; [|done|].
        -- destruct Hw as [|(n' & Hin & Hn')]; [by left|right; exists n'; set_solver].
        -- intros n' y Hin Hy. apply elem_of_cons in Hin as [->|Hin]; [congruence|by eapply Hr].
      * destruct IH as [-> Hall]. split; [done|]. by constructor.
Qed.

(** ** The memory of the gateway *)

Definition memory_of (m : gmap string Z) : Z := default 0%Z (m !! "memory").

Section GatewayMemory.
Context (globals : Global) (image prio : string) (opts : GatewayApplyOptions).
Let o := NewOTLPGatewayApplierDeleter globals image prio.
Let r := makeGatewayResourceRequirements o opts.
Let vpa := go_VpaCRDExists opts && go_VpaEnabled opts.

(** The limit without VPA: more memory for each pipeline, at most twice what VPA would allow. *)
Definition plain_limit : Z :=
  let wanted := (Mi 750 + Z.max 0 (go_ResourceRequirementsMultiplier opts) * Mi 1000)%Z in
  if (go_VPAMaxAllowedMemory opts =? 0)%Z then wanted else Z.min wanted (2 * go_VPAMaxAllowedMemory opts)%Z.

Lemma iter_add n a b : Nat.iter n (fun m => m + a)%Z b = (b + Z.of_nat n * a)%Z.
Proof. induction n as [|n IH]; [cbn; lia|]. rewrite Nat.iter_succ, IH. lia. Qed.

Lemma gateway_memory :
  memory_of (rr_Requests r) = Mi 128 /\ memory_of (rr_Limits r) = (if vpa then Mi 256 else plain_limit).
Proof.
  subst r vpa. unfold makeGatewayResourceRequirements. rewrite iter_add.
  destruct (go_VpaCRDExists opts && go_VpaEnabled opts); (split; [reflexivity|]); [reflexivity|].
  unfold plain_limit, memory_of. cbn [rr_Limits]. rewrite lookup_singleton_eq. cbn [default].
  cbn [o NewOTLPGatewayApplierDeleter ga_baseMemoryLimit ga_dynamicMemoryLimit].
  unfold otlpGatewayBaseMemoryLimit, otlpGatewayDynamicMemoryLimit, Mi, id.
  destruct (go_VPAMaxAllowedMemory opts =? 0)%Z; cbn [negb]; [lia|].
  match goal with |- context [(?a <? ?b)%Z] => destruct (Z.ltb_spec a b) end; lia.
Qed.

(** C29. The memory of the gateway follows the smallest node: the request is 128
    Mi, and does not exceed the limit when the smallest node is unknown or has
    at least 450 Mi; without VPA the limit is at most thirty percent of the
    smallest node, up to rounding (unless that node has less than 6827 bytes,
    which is taken for unknown), and with at least one pipeline and a node of at
    least 6000 Mi it is at least 1750 Mi; with VPA it is 256 Mi (the document
    the code refers to, ADR 033, has 64 Mi and 128 Mi). The computation in
    float64 is exact enough up to 2^53 bytes. *)
Theorem gateway_memory_limits (t : Tracker) :
  go_VPAMaxAllowedMemory opts = VPAMaxAllowedMemory t -> (0 <= SmallestMemory t < 2 ^ 53)%Z ->
  let request := memory_of (rr_Requests r) in
  let limit := memory_of (rr_Limits r) in
  request = Mi 128 /\
  (SmallestMemory t = 0 \/ Mi 450 <= SmallestMemory t -> request <= limit)%Z /\
  (vpa = false -> 20 * limit <= 6 * SmallestMemory t + 26 \/ SmallestMemory t < 6827)%Z /\
  (vpa = false -> 1 <= go_ResourceRequirementsMultiplier opts -> Mi 6000 <= SmallestMemory t -> Mi 1750 <= limit)%Z /\
  (vpa = true -> limit = Mi 256).
Proof.
  intros Hv Hs request limit. subst request limit. destruct gateway_memory as [-> ->]. split; [done|].
  destruct (vpa_max_bounds t Hs) as (Hp & Hmod & Hhi & Hlo). unfold plain_limit. rewrite Hv.
  pose proof (Z.div_mod (VPAMaxAllowedMemory t) 1024) as Hd. rewrite Hmod in Hd.
  set (V := VPAMaxAllowedMemory t) in *. unfold Mi in *.
  destruct vpa; split_and!; try done; try lia; destruct (Z.eqb_spec V 0) as [E|E]; intros; try lia.
Qed.

End GatewayMemory.

(** ** The storage version *)

Definition crd_of (k : MigratedKind) : string :=
  match k with
  | LogPipelineKind => "logpipelines.telemetry.kyma-project.io"
  | MetricPipelineKind => "metricpipelines.telemetry.kyma-project.io"
  | TracePipelineKind => "tracepipelines.telemetry.kyma-project.io"
  | TelemetryKind => telemetryCRD
  end.

(** What the cache of the manager holds of the four kinds: all pipelines, but the Telemetry
    resources of the target namespace only ([cacheOptions] in main.go). *)
Definition in_cache_scope (ns : string) (k : MigratedKind) (n : NamespacedName) : Prop :=
  k = TelemetryKind -> nn_Namespace n = ns.

(** Documented behaviour of the API server and of the manager's client, which reads from the
    cache. [stale w k n]: the object is stored in the old version. Such an object is older than
    the cache, so that a list returns it if it is in the scope of the cache; an update stores
    the object in the current version; an object that is not found is not stored; nothing is
    stored in the old version anew. The stored versions of a CRD change by a patch of its status
    only, a patch that fails may have been done, and a CRD that is read may be behind: it may
    still list the old version. *)
Class MigrationLaws (W : Type) (ns : string) `{MigrationClient W} := {
  stale : W -> MigratedKind -> NamespacedName -> Prop;
  versions : W -> string -> list string;
  get_crd_old w crd vs : mc_get_crd w crd = Ok vs -> oldVersion ∈ versions w crd -> oldVersion ∈ vs;
  list_stale w k items n : mc_list w k = Ok items -> stale w k n -> in_cache_scope ns k n -> n ∈ items;
  update_done w k n w' r : mc_update w k n = (w', r) -> r = None \/ r = Some NotFound -> ~ stale w' k n;
  update_stale w k n k' n' : stale (mc_update w k n).1 k' n' -> stale w k' n';
  update_versions w k n crd : versions (mc_update w k n).1 crd = versions w crd;
  patch_stale w crd vs k n : stale (mc_patch_crd w crd vs).1 k n -> stale w k n;
  patch_done w crd vs w' : mc_patch_crd w crd vs = (w', None) -> versions w' crd = vs;
  patch_versions w crd vs crd' : let w' := (mc_patch_crd w crd vs).1 in
    versions w' crd' = versions w crd' \/ crd' = crd /\ versions w' crd' = vs;
  info_stale w crd v x k n : stale (mc_set_info w crd v x) k n -> stale w k n;
  info_versions w crd v x crd' : versions (mc_set_info w crd v x) crd' = versions w crd'
}.

Section MigrationProps.
Context {W : Type} (ns : string) `{MigrationLaws W ns}.

(** What the API server relies on: without the old version in its list, a CRD has no object
    that is stored in it; here for the objects in the scope of the cache. *)
Definition consistent (w : W) : Prop :=
  forall k, oldVersion ∉ versions w (crd_of k) -> forall n, in_cache_scope ns k n -> ~ stale w k n.
Definition nothing_stale (w : W) : Prop := forall k n, in_cache_scope ns k n -> ~ stale w k n.

(** [w'] has no new object in the old version, and the same stored versions. *)
Definition no_worse (w w' : W) : Prop :=
  (forall k n, stale w' k n -> stale w k n) /\ forall crd, versions w' crd = versions w crd.

#[local] Instance no_worse_refl : Reflexive no_worse.
Proof. by split. Qed.
#[local] Instance no_worse_trans : Transitive no_worse.
Proof. intros a b c [Hs Hv] [Hs' Hv']. split; [auto|]. intros crd. by rewrite Hv'. Qed.

Lemma no_worse_consistent w w' : no_worse w w' -> consistent w -> consistent w'.
Proof. intros [Hs Hv] Hc k Ho n Hi Hn. rewrite Hv in Ho. eapply Hc; eauto. Qed.

Lemma set_all_info_no_worse crd vs w : no_worse w (set_all_info crd vs w).
Proof.
  unfold set_all_info. revert w. induction vs as [|v vs IH]; intros w; cbn; [done|].
  etrans; [|apply IH]. split; [intros k n; apply info_stale|intros c; apply info_versions].
Qed.

Lemma check_all_no_worse crds needed w : no_worse w (check_all crds needed w).1.
Proof.
  revert needed w. induction crds as [|crd rest IH]; intros needed w; [done|]. cbn [check_all]. unfold needsMigration.
  destruct (mc_get_crd w crd) as [vs|e]; [|done]. etrans; [apply set_all_info_no_worse|apply IH].
Qed.

Lemma old_contained vs : existsb (str_eqb oldVersion) vs = true <-> oldVersion ∈ vs.
Proof.
  rewrite existsb_exists. setoid_rewrite <- list_elem_of_In. split.
  - intros (x & Hx & He). apply str_eqb_true in He as <-. done.
  - intros Hin. exists oldVersion. split; [done|]. by apply str_eqb_true.
Qed.

Lemma check_all_false crds needed w w' :
  check_all crds needed w = (w', Ok false) -> needed = false /\ forall crd, crd ∈ crds -> oldVersion ∉ versions w crd.
Proof.
  revert needed w. induction crds as [|crd rest IH]; intros needed w; cbn [check_all].
  { intros [= _ ->]. split; [done|]. set_solver. }
  unfold needsMigration. destruct (mc_get_crd w crd) as [vs|e] eqn:Eg; [|done]. intros Hc.
  apply IH in Hc as [Hn Hr]. apply orb_false_iff in Hn as [-> Hn]. split; [done|]. intros crd' Hin.
  apply elem_of_cons in Hin as [->|Hin].
  - intros Ho%(get_crd_old _ _ _ Eg)%old_contained. congruence.
  - rewrite <- (proj2 (set_all_info_no_worse crd vs w)). by apply Hr.
Qed.

Lemma update_all_spec k items w w' r :
  update_all k items w = (w', r) -> no_worse w w' /\ (r = None -> forall n, n ∈ items -> ~ stale w' k n).
Proof.
  revert w. induction items as [|n rest IH]; intros w; cbn [update_all].
  { intros [= <- <-]. split; [done|]. intros _ n Hin. set_solver. }
  assert (Hw : no_worse w (mc_update w k n).1) by (split; [intros ??; apply update_stale|intros ?; apply update_versions]).
  destruct (mc_update w k n) as [w1 [e|]] eqn:Eu; cbn [fst] in Hw.
  - destruct (IsNotFound e) eqn:Ee.
    + intros Hr. apply IH in Hr as [Hn Hd]. split; [by etrans|]. intros -> n' Hin.
      apply elem_of_cons in Hin as [->|Hin]; [|by apply Hd].
      intros Hs%(proj1 Hn). eapply update_done; [exact Eu| |exact Hs]. right. by destruct e.
    + by intros [= <- <-].
  - intros Hr. apply IH in Hr as [Hn Hd]. split; [by etrans|]. intros -> n' Hin.
    apply elem_of_cons in Hin as [->|Hin]; [|by apply Hd].
    intros Hs%(proj1 Hn). eapply update_done; [exact Eu| |exact Hs]. by left.
Qed.

Lemma migrate_spec k plural w w' r :
  migrate k plural w = (w', r) -> no_worse w w' /\ (r = None -> forall n, in_cache_scope ns k n -> ~ stale w' k n).
Proof.
  unfold migrate. destruct (mc_list w k) as [items|e] eqn:El; [|by intros [= <- <-]]. intros Hu.
  apply update_all_spec in Hu as [Hn Hd]. split; [done|]. intros -> n Hi Hs. apply (Hd eq_refl n); [|done].
  eapply list_stale; [exact El| |done]. by apply Hn.
Qed.

Lemma migrate_each_spec steps w w' r :
  Forall (fun s : string * (W -> W * option goerror) => exists k plural, s.2 = migrate k plural) steps ->
  migrate_each steps w = (w', r) ->
  no_worse w w' /\
  (r = None -> forall k n, (exists s, s ∈ steps /\ exists plural, s.2 = migrate k plural) -> in_cache_scope ns k n -> ~ stale w' k n).
Proof.
  intros Hs. revert w. induction Hs as [|[plural f] rest (k & plural' & Hf) _ IH]; intros w; cbn [migrate_each].
  { intros [= <- <-]. split; [done|]. intros _ k n (s & Hin & _). set_solver. }
  cbn [snd] in Hf. destruct (f w) as [w1 [e|]] eqn:Ef.
  - rewrite Hf in Ef. apply migrate_spec in Ef as [Hn _]. by intros [= <- <-].
  - intros Hr. apply IH in Hr as [Hn Hd]. assert (Hm := Ef). rewrite Hf in Hm. apply migrate_spec in Hm as [Hn' Hd'].
    split; [by etrans|]. intros -> k' n (s & Hin & plural'' & Hs') Hi. apply elem_of_cons in Hin as [->|Hin].
    + cbn [snd] in Hs'. rewrite Hs' in Ef. apply migrate_spec in Ef as [_ Hd''].
      intros Hst%(proj1 Hn). by eapply Hd''.
    + apply Hd; [done| |done]. eauto.
Qed.

Lemma cleared_length vs :
  length (List.filter (fun v => negb (str_eqb v oldVersion)) vs) = length vs -> oldVersion ∉ vs.
Proof.
  induction vs as [|v vs IH]; cbn; [set_solver|].
  pose proof (List.filter_length_le (fun v => negb (str_eqb v oldVersion)) vs) as Hle.
  destruct (str_eqb v oldVersion) eqn:E; cbn; intros Hl; [lia|].
  apply not_elem_of_cons. split; [|apply IH; lia]. intros <-. by rewrite str_eqb_refl in E.
Qed.

Lemma cleared_old vs : oldVersion ∉ List.filter (fun v => negb (str_eqb v oldVersion)) vs.
Proof.
  intros Hin. apply list_elem_of_In, List.filter_In in Hin as [_ Hf]. by rewrite str_eqb_refl in Hf.
Qed.

(** Clearing keeps every object, and never brings the old version back. *)
Definition clears (w w' : W) : Prop :=
  (forall k n, stale w' k n -> stale w k n) /\
  forall crd, oldVersion ∈ versions w' crd -> oldVersion ∈ versions w crd.

Lemma no_worse_clears w w' : no_worse w w' -> clears w w'.
Proof. intros [Hs Hv]. split; [done|]. intros crd. by rewrite Hv. Qed.
#[local] Instance clears_trans : Transitive clears.
Proof. intros a b c [Hs Hv] [Hs' Hv']. split; auto. Qed.

Lemma clear_spec crd w w' r :
  clearStoredVersion crd w = (w', r) -> clears w w' /\ (r = None -> oldVersion ∉ versions w' crd).
Proof.
  unfold clearStoredVersion. destruct (mc_get_crd w crd) as [vs|e] eqn:Eg.
  2: { intros [= <- <-]. split; [by apply no_worse_clears|done]. }
  set (new := List.filter _ vs). destruct (Nat.eqb_spec (length new) (length vs)) as [El|El].
  - intros [= <- <-]. split; [by apply no_worse_clears|]. intros _ Ho%(get_crd_old _ _ _ Eg). by apply cleared_length in El.
  - assert (Hp : clears w (mc_patch_crd w crd new).1).
    { split; [intros k n; apply patch_stale|]. intros crd' Ho. destruct (patch_versions w crd new crd') as [Hv|[-> Hv]].
      - by rewrite Hv in Ho.
      - rewrite Hv in Ho. by apply cleared_old in Ho. }
    destruct (mc_patch_crd w crd new) as [w1 [e|]] eqn:Ep; cbn [fst] in Hp; intros [= <- <-]; [done|].
    assert (Hi : no_worse w1 (set_all_info crd new (mc_set_info w1 crd oldVersion 0))).
    { etrans; [|apply set_all_info_no_worse]. split; [intros k n; apply info_stale|intros c; apply info_versions]. }
    split; [etrans; [exact Hp|by apply no_worse_clears]|]. intros _. rewrite (proj2 Hi), (patch_done _ _ _ _ Ep).
    apply cleared_old.
Qed.

Lemma clear_all_spec crds w w' r :
  clear_all crds w = (w', r) -> clears w w' /\ (r = None -> forall crd, crd ∈ crds -> oldVersion ∉ versions w' crd).
Proof.
  revert w. induction crds as [|crd rest IH]; intros w; cbn [clear_all].
  { intros [= <- <-]. split; [by apply no_worse_clears|]. intros _ crd Hin. set_solver. }
  destruct (clearStoredVersion crd w) as [w1 [e|]] eqn:Ec; apply clear_spec in Ec as [Hc Ho].
  - by intros [= <- <-].
  - intros Hr. apply IH in Hr as [Hc' Ho']. split; [by etrans|]. intros -> crd' Hin.
    apply elem_of_cons in Hin as [->|Hin]; [|by apply Ho']. intros Hx%(proj2 Hc'). by apply Ho.
Qed.

Lemma crd_listed k : crd_of k ∈ allCRDs.
Proof. destruct k; cbn; set_solver. Qed.

(** C28. Storage migration keeps the cluster consistent at every outcome,
    failures included: a CRD stops listing the old version only when no object
    of its kind in the scope of the manager's cache (pipelines anywhere,
    Telemetry resources in the target namespace) is stored in it; and after a
    successful run no such object of the four kinds is stored in the old version
    and no CRD lists it. *)
Theorem storage_migration_safe (w w' : W) r :
  consistent w -> migratePipelinesIfNeeded w = (w', r) ->
  consistent w' /\
  (r = None -> nothing_stale w' /\ forall k, oldVersion ∉ versions w' (crd_of k)).
Proof.
  intros Hc. unfold migratePipelinesIfNeeded. pose proof (check_all_no_worse allCRDs false w) as Hn.
  destruct (check_all allCRDs false w) as [w1 [[]|e]] eqn:Ek; cbn [fst] in Hn.
  - destruct (migrate_each _ w1) as [w2 [e|]] eqn:Em.
    + intros [= <- <-]. apply migrate_each_spec in Em as [Hn' _]; [|repeat constructor; eauto].
      split; [|done]. eapply no_worse_consistent; [etrans; [exact Hn|exact Hn']|done].
    + apply migrate_each_spec in Em as [Hn' Hd]; [|repeat constructor; eauto].
      assert (Hnone : nothing_stale w2).
      { intros k n Hi. apply Hd; [done| |done]. destruct k;
          [exists ("LogPipelines", migrateLogPipelines)|exists ("MetricPipelines", migrateMetricPipelines)
          |exists ("TracePipelines", migrateTracePipelines)|exists ("Telemetries", migrateTelemetries)];
          (split; [set_solver|eexists; reflexivity]). }
      intros Hcl. apply clear_all_spec in Hcl as [[Hs Hv] Ho].
      assert (Hnone' : nothing_stale w') by (intros k n Hi Hst%Hs; by eapply Hnone).
      split; [intros k _; apply Hnone'|]. intros ->. split; [done|]. intros k. apply Ho; [done|]. apply crd_listed.
  - intros [= <- <-]. assert (Hc' : consistent w1) by (by eapply no_worse_consistent).
    split; [done|]. intros _. apply check_all_false in Ek as [_ Ho].
    assert (Ho' : forall k, oldVersion ∉ versions w1 (crd_of k)).
    { intros k. rewrite (proj2 Hn). apply Ho. apply crd_listed. }
    split; [|done]. intros k. apply Hc'. apply Ho'.
  - intros [= <- <-]. split; [|done]. by eapply no_worse_consistent.
Qed.

End MigrationProps.

(** A run that succeeds ends the retries, whatever failed before. *)
Lemma Start_returns {W} (attempt : W -> W * option goerror) meanwhile cancelled i j w :
  let fix after n w := match n with O => w | S n => meanwhile (j + n)%nat (attempt (after n w)).1 end in
  (attempt (after i w)).2 = None \/ cancelled (j + i)%nat = true ->
  is_Some (Start attempt meanwhile cancelled (S i) j w).
Proof.
  cbv zeta. revert j w. induction i as [|i IH]; intros j w Hi.
  - cbn in *. rewrite Nat.add_0_r in Hi. destruct (attempt w) as [w1 [e|]]; [|by eexists].
    destruct Hi as [Hi|Hi]; [done|]. rewrite Hi. by eexists.
  - cbn [Start]. destruct (attempt w) as [w1 [e|]] eqn:Ea; [|by eexists]. destruct (cancelled j) eqn:Ec; [by eexists|].
    apply IH. rewrite Nat.add_succ_comm. clear IH.
    assert (Hshift : forall n,
      (fix after n w := match n with O => w | S n => meanwhile (S j + n)%nat (attempt (after n w)).1 end) n (meanwhile j w1) =
      (fix after n w := match n with O => w | S n => meanwhile (j + n)%nat (attempt (after n w)).1 end) (S n) w).
    { induction n as [|n IHn]; [cbn; by rewrite Nat.add_0_r, Ea|]. cbn in *. rewrite IHn. by rewrite <- Nat.add_succ_r. }
    by rewrite Hshift.
Qed.

(** ** The module label *)

Class LabelLaws (W : Type) `{LabelClient W} := {
  labels_of : W -> Updatable -> NamespacedName -> option (option labels);
  lc_get_found w k key l : lc_get w k key = Ok l -> labels_of w k key = Some l;
  lc_get_missing w k key : lc_get w k key = Err NotFound -> labels_of w k key = None;
  lc_patch_done w k key l w' : lc_patch w k key l = (w', None) -> labels_of w' k key = Some (Some l);
  lc_patch_frame w k key l k' key' : (k', key') <> (k, key) -> labels_of (lc_patch w k key l).1 k' key' = labels_of w k' key'
}.

Section LabelProps.
Context {W : Type} `{LabelLaws W}.

Definition visible (l : option (option labels)) : Prop :=
  match l with None => True | Some l => is_Some (default ∅ l !! LabelKeyKymaModule) end.

Lemma ensure_label_spec k key w w' r :
  ensureLabelOnResource k key w = (w', r) ->
  (r = None -> visible (labels_of w' k key)) /\
  (forall k' key', (k', key') <> (k, key) -> labels_of w' k' key' = labels_of w k' key').
Proof.
  unfold ensureLabelOnResource. destruct (lc_get w k key) as [l|e] eqn:Eg.
  - destruct (hasModuleLabel l) eqn:El.
    + intros [= <- <-]. split; [|done]. intros _. rewrite (lc_get_found _ _ _ _ Eg). cbn.
      destruct l as [l|]; [|done]. by apply bool_decide_eq_true in El.
    + unfold patchModuleLabel. pose proof (lc_patch_frame w k key (<[LabelKeyKymaModule := LabelValueKymaModule]> (default ∅ l))) as Hf.
      destruct (lc_patch w k key _) as [w1 [e|]] eqn:Ep; intros [= <- <-]; (split; [|exact Hf]); [done|].
      intros _. rewrite (lc_patch_done _ _ _ _ _ Ep). cbn. by rewrite lookup_insert_eq.
  - destruct (IsNotFound e) eqn:Ee; intros [= <- <-]; (split; [|done]); [|done]. intros _. destruct e; try done.
    by rewrite (lc_get_missing _ _ _ Eg).
Qed.

Lemma ensure_labels_spec namespace w w' :
  updater_ensureLabels namespace w = (w', None) ->
  forall k key, (k, key) ∈ resources_to_label namespace -> visible (labels_of w' k key).
Proof.
  unfold updater_ensureLabels, resources_to_label. cbn [label_each].
  destruct (ensureLabelOnResource UServiceAccount _ w) as [w1 [e|]] eqn:E1; [done|].
  destruct (ensureLabelOnResource UClusterRoleBinding _ w1) as [w2 [e|]] eqn:E2; intros [= <-].
  apply ensure_label_spec in E1 as [V1 _]. apply ensure_label_spec in E2 as [V2 F2].
  intros k key [[= -> ->]|[[= -> ->]|Hx%elem_of_nil]%elem_of_cons]%elem_of_cons; [|by apply V2|done].
  rewrite F2 by done. by apply V1.
Qed.

(** The updater looks for the key only: an object that has it with another value, which the
    label selector of the cache does not select, is left as it is. *)
Lemma foreign_module_label_stays k key w l v :
  lc_get w k key = Ok (Some l) -> l !! LabelKeyKymaModule = Some v -> ensureLabelOnResource k key w = (w, None).
Proof.
  intros Hg Hl. unfold ensureLabelOnResource. rewrite Hg. unfold hasModuleLabel. by rewrite Hl, bool_decide_eq_true_2.
Qed.

End LabelProps.

(** ** Overrides *)

Lemma overrides_level Unmarshal ParseLevel get h level level' r :
  LoadOverrides Unmarshal ParseLevel get h level = (level', r) ->
  match r with
  | Err _ => level' = level
  | Ok c =>
      (oc_LogLevel c = "" -> level' = h_defaultLevel h) /\ (oc_LogLevel c <> "" -> ParseLevel (oc_LogLevel c) = Ok level')
  end.
Proof.
  unfold LoadOverrides. destruct (loadOverridesConfig Unmarshal get h) as [c|e]; [|by intros [= <- <-]].
  unfold syncLogLevel. destruct (str_eqb (oc_LogLevel c) "") eqn:E.
  - intros [= <- <-]. apply str_eqb_true in E. by rewrite E.
  - apply str_eqb_false in E. destruct (ParseLevel (oc_LogLevel c)) as [l|e] eqn:Ep; intros [= <- <-]; [|done]. done.
Qed.

(** Without the ConfigMap nothing is overridden. *)
Lemma no_configmap_no_overrides Unmarshal ParseLevel get h level :
  get (mkNN (TargetNamespace (h_globals h)) names_OverrideConfigMap) = Err NotFound ->
  LoadOverrides Unmarshal ParseLevel get h level = (h_defaultLevel h, Ok no_overrides).
Proof. intros Hg. unfold LoadOverrides, loadOverridesConfig, readConfigMapOrEmpty. by rewrite Hg. Qed.

(** ** Flags *)

Lemma split_at_equals_spec k v :
  split_at_equals k = None -> split_at_equals (k +:+ String "="%char v) = Some (k, v).
Proof.
  induction k as [|c k IH]; [done|]. change (String c k +:+ String "="%char v) with (String c (k +:+ String "="%char v)).
  cbn [split_at_equals]. destruct (Ascii.eqb c "="%char); [done|].
  destruct (split_at_equals k) as [[]|] eqn:E; [done|]. intros _. by rewrite (IH eq_refl).
Qed.

(** A flag [key=value] sets the key; the value may contain equals signs. *)
Lemma Map_Set_spec m k v :
  split_at_equals k = None -> TrimSpace k <> "" -> Map_Set m (k +:+ String "="%char v) = Ok (<[TrimSpace k := TrimSpace v]> m).
Proof. intros Hk Ht. unfold Map_Set. rewrite split_at_equals_spec by done. apply str_eqb_false in Ht. by rewrite Ht. Qed.

Lemma Set_flag_IsEnabled flag flag' enabled f :
  IsEnabled flag' (Set_flag flag enabled f) = if bool_decide (flag = flag') then enabled else IsEnabled flag' f.
Proof.
  unfold IsEnabled, Set_flag. cbn. destruct (bool_decide_reflect (flag = flag')) as [->|Hne]; [done|].
  induction f as [|[g b] f IH]; [done|]. cbn. destruct (bool_decide_reflect (g = flag)) as [->|]; cbn.
  - rewrite IH. by rewrite bool_decide_eq_false_2.
  - destruct (bool_decide (g = flag')); [done|]. exact IH.
Qed.

(** ** The directory size exporter *)

Section Exporter.
Local Open Scope Z_scope.

(** Reference: the sizes of the regular files below an entry, without following links and
    without entering what cannot be read. *)
Fixpoint regular_files (e : Entry) : list Z :=
  match e with
  | Directory false entries => concat (map (fun x => regular_files x.2) entries)
  | Other (Some (true, n)) => [n]
  | _ => []
  end.
Definition total (l : list Z) : Z := fold_right Z.add 0 l.

Lemma total_app l1 l2 : total (l1 ++ l2) = total l1 + total l2.
Proof. unfold total. induction l1 as [|x l1 IH]; [done|]. simpl. rewrite IH. lia. Qed.

Lemma int64_add a b : int64 (int64 a + b) = int64 (a + b).
Proof.
  unfold int64. f_equal.
  replace ((a + 2 ^ 63) mod 2 ^ 64 - 2 ^ 63 + b + 2 ^ 63) with ((a + 2 ^ 63) mod 2 ^ 64 + b) by lia.
  rewrite Zplus_mod_idemp_l. f_equal. lia.
Qed.
Lemma int64_small n : - 2 ^ 63 <= n < 2 ^ 63 -> int64 n = n.
Proof. intros Hn. unfold int64. rewrite Z.mod_small by lia. lia. Qed.

(** The loop of [dirSize]. *)
Fixpoint size_loop (size : Z) (entries : list (string * Entry)) : Z :=
  match entries with
  | [] => size
  | (_, entry) :: rest =>
      match entry with
      | Symlink => size_loop size rest
      | Directory _ _ =>
          match dirSize entry with None => size_loop size rest | Some subSize => size_loop (int64 (size + subSize)) rest end
      | Other None => size_loop size rest
      | Other (Some (regular, n)) => if regular : bool then size_loop (int64 (size + n)) rest else size_loop size rest
      end
  end.

Lemma size_loop_total entries :
  Forall (fun x : string * Entry => forall s, dirSize x.2 = Some s -> s = int64 (total (regular_files x.2))) entries ->
  forall size, size_loop (int64 size) entries = int64 (size + total (concat (map (fun x => regular_files x.2) entries))).
Proof.
  induction 1 as [|[name e] rest He _ IH]; intros size; [cbn; f_equal; lia|].
  cbn [map concat snd]. rewrite total_app, Z.add_assoc. cbn [snd] in He.
  assert (Hz : forall n, int64 (size + n) = int64 (size + 0 + n)) by (intros n; f_equal; lia).
  destruct e as [|[] es|[[[] n]|]]; cbn [size_loop]; try (rewrite IH; apply Hz).
  - destruct (dirSize (Directory false es)) as [s|] eqn:Es; [|done]. rewrite (He s eq_refl), int64_add, Z.add_comm, int64_add, Z.add_comm.
    by rewrite IH.
  - rewrite int64_add, IH. do 2 f_equal. unfold total. cbn. lia.
Qed.

Fixpoint dirSize_total (e : Entry) : forall s, dirSize e = Some s -> s = int64 (total (regular_files e)).
Proof.
  destruct e as [|[] entries|]; try done. intros s Hs. change (Some (size_loop (int64 0) entries) = Some s) in Hs. injection Hs as <-.
  rewrite size_loop_total; [done|]. induction entries as [|x rest IH]; constructor; [apply dirSize_total|exact IH].
Qed.

(** The gauge after the loop. *)
Lemma gauge_other dirs g name : name ∉ dirs.*1 -> fold_left (fun (g : gmap string Z) d => <[d.1 := float64_of_int d.2]> g) dirs g !! name = g !! name.
Proof.
  revert g. induction dirs as [|d dirs IH]; intros g Hn; [done|]. cbn [fold_left]. rewrite IH by set_solver.
  apply lookup_insert_ne. set_solver.
Qed.
Lemma gauge_set dirs g name s :
  NoDup dirs.*1 -> (name, s) ∈ dirs ->
  fold_left (fun (g : gmap string Z) d => <[d.1 := float64_of_int d.2]> g) dirs g !! name = Some (float64_of_int s).
Proof.
  revert g. induction dirs as [|d dirs IH]; intros g Hd Hin; [set_solver|]. apply NoDup_cons in Hd as [Hd1 Hd2].
  cbn [fold_left]. apply elem_of_cons in Hin as [<-|Hin]; [|by apply IH]. rewrite gauge_other by exact Hd1. apply lookup_insert_eq.
Qed.

Lemma list_entries_names files name : name ∈ (list_entries files).*1 -> exists es, (name, Directory false es) ∈ files.
Proof.
  induction files as [|[n e] rest IH]; cbn [list_entries]; [set_solver|]. intros Hin.
  assert (Hr : name ∈ (list_entries rest).*1 -> exists es, (name, Directory false es) ∈ ((n, e) :: rest)).
  { intros Hx. destruct (IH Hx) as [es Hes]. exists es. by right. }
  destruct e as [|[] es|]; try (by apply Hr). change (dirSize (Directory false es)) with (Some (size_loop 0 es)) in Hin.
  cbn in Hin. apply elem_of_cons in Hin as [->|Hin]; [|by apply Hr]. exists es. left.
Qed.
Lemma list_entries_nodup files : NoDup files.*1 -> NoDup (list_entries files).*1.
Proof.
  induction files as [|[n e] rest IH]; cbn; [done|]. intros Hd. apply NoDup_cons in Hd as [Hn Hd].
  destruct e as [|[] es|]; cbn; try by apply IH. constructor; [|by apply IH].
  intros Hin. destruct (list_entries_names _ _ Hin) as [es' Hes]. apply Hn. by apply (list_elem_of_fmap_2 fst) in Hes.
Qed.
Lemma list_entries_in files name es : (name, Directory false es) ∈ files -> (name, size_loop 0 es) ∈ list_entries files.
Proof.
  induction files as [|[n e] rest IH]; [set_solver|]. intros Hin. apply elem_of_cons in Hin as [[= <- <-]|Hin].
  - left.
  - destruct e as [|[] es'|]; cbn; try by apply IH. right. by apply IH.
Qed.

Lemma float64_small n : 0 <= n < 2 ^ 53 -> float64_of_int n = n.
Proof.
  intros Hn. unfold float64_of_int. destruct (Z.ltb_spec n 0); [lia|]. unfold float64, excess.
  assert (Hl : Z.log2 n < 53) by (destruct (Z.eq_dec n 0) as [->|]; [cbn; lia|apply Z.log2_lt_pow2; lia]).
  replace (Z.max 0 (Z.log2 n + 1 - 53)) with 0 by lia. rewrite Z.pow_0_r, Z.mul_1_r. unfold round_half_even.
  rewrite Z.div_1_r, Z.mod_1_r. done.
Qed.

(** An iteration of the directory size exporter over a readable path reports for
    each readable subdirectory the total size of the regular files below it,
    links left aside, and leaves every other label alone. *)
Theorem exporter_reports_sizes files gauge :
  NoDup files.*1 ->
  let gauge' := recordingIteration (Directory false files) gauge in
  (forall name es, (name, Directory false es) ∈ files -> 0 <= total (regular_files (Directory false es)) < 2 ^ 53 ->
     gauge' !! name = Some (total (regular_files (Directory false es)))) /\
  (forall name, (forall es, (name, Directory false es) ∉ files) -> gauge' !! name = gauge !! name).
Proof.
  intros Hd gauge'. unfold gauge', recordingIteration. cbn [listDirs fst]. split.
  - intros name es Hin Ht. rewrite (gauge_set _ _ _ (size_loop 0 es)) by (by apply list_entries_nodup || by apply list_entries_in).
    assert (Hs : size_loop 0 es = int64 (total (regular_files (Directory false es)))) by (apply dirSize_total; reflexivity).
    rewrite Hs, int64_small, float64_small by lia. done.
  - intros name Hn. apply gauge_other. intros Hin. destruct (list_entries_names _ _ Hin) as [es Hes]. by apply (Hn es).
Qed.

(** The value of a directory that is gone, or of a path that cannot be read, stays. *)
Lemma stale_directory_stays name size gauge files :
  (forall es, (name, Directory false es) ∉ files) -> gauge !! name = Some size ->
  recordingIteration (Directory false files) gauge !! name = Some size.
Proof.
  intros Hn Hg. unfold recordingIteration. cbn [listDirs fst]. rewrite gauge_other; [done|].
  intros Hin. destruct (list_entries_names _ _ Hin) as [es Hes]. by apply (Hn es).
Qed.

End Exporter.

(** ** Witnesses *)

Module Sample.
(** The stored versions, and the objects that are stored in the old one. *)
Record world := mkWorld { w_versions : gmap string (list string); w_old : list (MigratedKind * NamespacedName) }.

#[export] Instance client : MigrationClient world := {|
  mc_get_crd w crd := match w_versions w !! crd with Some vs => Ok vs | None => Err NotFound end;
  mc_patch_crd w crd vs := (mkWorld (<[crd := vs]> (w_versions w)) (w_old w), None);
  mc_list w k := Ok (map snd (List.filter (fun e => bool_decide (e.1 = k) &&
                      (negb (bool_decide (k = TelemetryKind)) || bool_decide (nn_Namespace e.2 = "kyma-system"))) (w_old w)));
  mc_update w k n := (mkWorld (w_versions w) (List.filter (fun e => negb (bool_decide (e = (k, n)))) (w_old w)), None);
  mc_set_info w _ _ _ := w
|}.

#[export] Program Instance laws : MigrationLaws world "kyma-system" := {|
  stale w k n := (k, n) ∈ w_old w;
  versions w crd := default [] (w_versions w !! crd)
|}.
Next Obligation. intros w crd vs. cbn. destruct (w_versions w !! crd); [|done]. by intros [= <-]. Qed.
Next Obligation.
  intros w k items n. cbn. intros [= <-] Hin Hi. apply list_elem_of_fmap. exists (k, n). split; [done|].
  apply list_elem_of_In, List.filter_In. split; [by apply list_elem_of_In|]. cbn [fst snd].
  rewrite bool_decide_eq_true_2 by done. case_bool_decide as Hk; [|done]. cbn. apply bool_decide_eq_true. by apply Hi.
Qed.
Next Obligation.
  intros w k n w' r [= <- <-] _. cbn. intros Hin. apply list_elem_of_In, List.filter_In in Hin as [_ Hf].
  by rewrite bool_decide_eq_true_2 in Hf.
Qed.
Next Obligation.
  intros w k n k' n'. cbn. intros Hin. apply list_elem_of_In, List.filter_In in Hin as [Hin _]. by apply list_elem_of_In.
Qed.
Next Obligation. done. Qed.
Next Obligation. done. Qed.
Next Obligation. intros w crd vs w' [= <-]. cbn. by rewrite lookup_insert_eq. Qed.
Next Obligation.
  intros w crd vs crd'. cbn. destruct (decide (crd' = crd)) as [->|Hne].
  - right. by rewrite lookup_insert_eq.
  - left. by rewrite lookup_insert_ne.
Qed.
Next Obligation. done. Qed.
Next Obligation. done. Qed.

Definition start : world :=
  mkWorld (list_to_map (map (fun crd => (crd, ["v1alpha1"; "v1beta1"])) allCRDs))
    [(LogPipelineKind, mkNN "" "a"); (TelemetryKind, mkNN "kyma-system" "default")].
Definition options : GatewayApplyOptions :=
  mkGatewayApplyOptions "" ∅ false 1 2 false false (VPAMaxAllowedMemory (mkTracker (Some (Mi 8192)))).
End Sample.
#[local] Existing Instance Sample.client.
#[local] Existing Instance Sample.laws.

Lemma storage_migration_safe_witness :
  nothing_stale "kyma-system" (migratePipelinesIfNeeded Sample.start).1 /\ (migratePipelinesIfNeeded Sample.start).2 = None.
Proof.
  assert (Hr : (migratePipelinesIfNeeded Sample.start).2 = None) by (vm_compute; reflexivity).
  split; [|exact Hr].
  destruct (storage_migration_safe "kyma-system" Sample.start (migratePipelinesIfNeeded Sample.start).1 (migratePipelinesIfNeeded Sample.start).2) as [_ Hs].
  - intros k Ho. exfalso. apply Ho. destruct k; apply list_elem_of_here.
  - apply surjective_pairing.
  - exact (proj1 (Hs Hr)).
Defined.

(** A Telemetry resource in another namespace is not listed: the migration succeeds, its CRD stops listing the old
    version, and the resource is still stored in it. *)
Example telemetry_elsewhere_not_migrated :
  let w := Sample.mkWorld (Sample.w_versions Sample.start) [(TelemetryKind, mkNN "default" "mine")] in
  let w' := (migratePipelinesIfNeeded w).1 in
  (migratePipelinesIfNeeded w).2 = None /\ Sample.w_old w' = [(TelemetryKind, mkNN "default" "mine")] /\
  versions w' (crd_of TelemetryKind) = ["v1beta1"].
Proof. split_and!; vm_compute; reflexivity. Qed.

Lemma gateway_memory_limits_witness :
  let r := makeGatewayResourceRequirements (NewOTLPGatewayApplierDeleter (NewGlobal []) "" "") Sample.options in
  (memory_of (rr_Requests r) <= memory_of (rr_Limits r))%Z.
Proof.
  destruct (gateway_memory_limits (NewGlobal []) "" "" Sample.options (mkTracker (Some (Mi 8192)))) as (_ & Hl & _).
  - reflexivity.
  - split; vm_compute; [discriminate|reflexivity].
  - apply Hl. right. vm_compute. discriminate.
Defined.
