(* ===== verification/Controllers.v ===== *)
(** * Controllers and setup (controllers/operator, controllers/telemetry, main.go,
    internal/utils/predicate)

    The events each controller watches, the functions that map an event to requests, the
    locks of the controllers, the scopes of the cache, and the settings that the manager
    derives from its environment. *)
From stdpp Require Import base gmap strings list pretty.
From S2P Require Import Prelude Kube GoErrors ApiV1beta1 Lock WebhookCert.
From S2P Require Import K8sUtils Resources OtelResources FluentBitResources ResourcesProps Maintenance.
Local Open Scope string_scope.

(** ** Objects and events *)

(** [client.Object]: what the functions read of it. *)
Inductive client_Object :=
| Written (k : Kind) (key : NamespacedName)
| PodObject (key : NamespacedName)
| NodeObject (key : NamespacedName)
| TelemetryObject (key : NamespacedName)
| LogPipelineObject (p : LogPipeline)
| MetricPipelineObject (p : MetricPipeline)
| TracePipelineObject (p : TracePipeline)
| ValidatingWebhookObject (key : NamespacedName)
| MutatingWebhookObject (key : NamespacedName)
| CRDObject (key : NamespacedName).

Inductive ObjectType :=
| TWritten (k : Kind) | TPod | TNode | TTelemetry | TLogPipeline | TMetricPipeline | TTracePipeline
| TValidatingWebhook | TMutatingWebhook | TCRD.
#[export] Instance ObjectType_eq_dec : EqDecision ObjectType.
Proof. solve_decision. Defined.

Definition type_of (o : client_Object) : ObjectType :=
  match o with
  | Written k _ => TWritten k | PodObject _ => TPod | NodeObject _ => TNode | TelemetryObject _ => TTelemetry
  | LogPipelineObject _ => TLogPipeline | MetricPipelineObject _ => TMetricPipeline | TracePipelineObject _ => TTracePipeline
  | ValidatingWebhookObject _ => TValidatingWebhook | MutatingWebhookObject _ => TMutatingWebhook | CRDObject _ => TCRD
  end.

Definition object_key (o : client_Object) : NamespacedName :=
  match o with
  | Written _ key | PodObject key | NodeObject key | TelemetryObject key | ValidatingWebhookObject key
  | MutatingWebhookObject key | CRDObject key => key
  | LogPipelineObject p => mkNN "" (om_Name (lp_ObjectMeta p))
  | MetricPipelineObject p => mkNN "" (om_Name (mp_ObjectMeta p))
  | TracePipelineObject p => mkNN "" (om_Name (tp_ObjectMeta p))
  end.

Inductive event := Create (o : client_Object) | Update (old new : client_Object) | Delete (o : client_Object) | Generic (o : client_Object).

Definition predicate : Type := event -> bool.

(** The predicates of the library. *)
Class PredicateLib := {
  GenerationChangedPredicate : predicate;
  AnnotationChangedPredicate : predicate;
  ResourceVersionChangedPredicate : predicate
}.

Definition NewPredicateFuncs (f : client_Object -> bool) : predicate := fun e =>
  match e with Create o | Delete o | Generic o => f o | Update _ new => f new end.

(** ** Predicates (utils/predicate) *)

Definition UpdateOrDelete : predicate := fun e => match e with Update _ _ | Delete _ => true | _ => false end.
Definition OwnedResourceChanged `{PredicateLib} : predicate := fun e => ResourceVersionChangedPredicate e && UpdateOrDelete e.

(** ** Reading, mapping and watching *)

(** What the mapping functions read. *)
Record reads := mkReads {
  rd_logs : result (list LogPipeline) apierror;
  rd_metrics : result (list MetricPipeline) apierror;
  rd_traces : result (list TracePipeline) apierror;
  rd_telemetries : result (list NamespacedName) apierror;
  rd_nodes : result (list Node) apierror
}.

(** A mapping function; the tracker of node sizes is shared by the controllers. *)
Definition MapFunc : Type := reads -> Tracker -> client_Object -> Tracker * list NamespacedName.

Inductive handler :=
| EnqueueRequestForObject
| EnqueueRequestForOwner (owner : ObjectType)
| EnqueueRequestsFromMapFunc (f : MapFunc).

(** One call of [For] or [Watches]; the channel of triggers, which enqueues what is sent to it,
    is left out of the tables. *)
Record watch := mkWatch { wt_type : ObjectType; wt_handler : handler; wt_predicate : predicate }.

Definition always : predicate := fun _ => true.

Definition pure (f : reads -> client_Object -> list NamespacedName) : MapFunc := fun r t o => (t, f r o).

Definition isPodFrom (podName : string) (workloadNames : list string) : bool :=
  existsb (fun name => String.prefix name podName) workloadNames.

Definition telemetry_changed `{PredicateLib} : predicate := fun e => GenerationChangedPredicate e || AnnotationChangedPredicate e.
Definition named_object (name namespace : string) : predicate :=
  NewPredicateFuncs (fun o => str_eqb (nn_Name (object_key o)) name && str_eqb (nn_Namespace (object_key o)) namespace).

(** The requests for all listed pipelines, none when the list fails. *)
Definition enqueue_all {P} (name_of : P -> string) (l : result (list P) apierror) : list NamespacedName :=
  match l with Err _ => [] | Ok items => map (fun p => mkNN "" (name_of p)) items end.

(** A change of the nodes: requests only when the tracker reports a change. *)
Definition map_nodes (enqueue : reads -> list NamespacedName) : MapFunc := fun r t _ =>
  match UpdateSmallestMemory (rd_nodes r) t with
  | (t, Err _) => (t, [])
  | (t, Ok changed) => if negb changed then (t, []) else (t, enqueue r)
  end.

(** Both flags are read before the watches are set up. *)
Definition with_flags {A} (discoveryClient : option goerror) (isIstioActive vpaCRDExists : result bool goerror) (f : bool -> bool -> A) :
    result A goerror :=
  match discoveryClient with
  | Some err => Err (Wrapf "failed to create discovery client: " err "")
  | None =>
      match isIstioActive with
      | Err err => Err (Wrapf "failed to check Istio status: " err "")
      | Ok istio =>
          match vpaCRDExists with
          | Err err => Err (Wrapf "failed to check VPA status: " err "")
          | Ok vpa => Ok (f istio vpa)
          end
      end
  end.

Definition owned_watches `{PredicateLib} (owner : ObjectType) (kinds : list Kind) : list watch :=
  map (fun k => mkWatch (TWritten k) (EnqueueRequestForOwner owner) OwnedResourceChanged) kinds.

Definition names_LogPipelineLock : string := "telemetry-logpipeline-lock".
Definition names_LogPipelineSync : string := "telemetry-logpipeline-sync".
Definition names_MetricPipelineLock : string := "telemetry-metricpipeline-lock".
Definition names_MetricPipelineSync : string := "telemetry-metricpipeline-sync".
Definition names_TracePipelineLock : string := "telemetry-tracepipeline-lock".
Definition names_TracePipelineSync : string := "telemetry-tracepipeline-sync".
Definition names_OTLPGatewayCoordinationConfigMap : string := "telemetry-otlp-gateway-coordination".

Definition pipeline_count (globals : Global) : Z :=
  if g_unlimitedPipelines globals then Lock.UnlimitedPipelineCount else MaxPipelineCount.

(** ** Traces (tracepipeline_controller.go) *)

Record PipelineController := mkPipelineController {
  pc_globals : Global;
  pc_locks : list Checker;
  pc_syncer : NamespacedName;
  pc_lockName : NamespacedName
}.

Definition NewTracePipelineController (config : Global) : PipelineController :=
  let ns := TargetNamespace config in
  mkPipelineController config [NewLocker (mkNN ns names_TracePipelineLock) (pipeline_count config)]
    (mkNN ns names_TracePipelineSync) (mkNN ns names_TracePipelineLock).

Definition trace_enqueueAllPipelines (r : reads) : list NamespacedName :=
  enqueue_all (fun p => om_Name (tp_ObjectMeta p)) (rd_traces r).
Definition trace_mapLockConfigMapChanges (r : reads) (_ : client_Object) : list NamespacedName := trace_enqueueAllPipelines r.
Definition trace_mapOTLPGatewayChanges (r : reads) (_ : client_Object) : list NamespacedName := trace_enqueueAllPipelines r.
Definition trace_mapPodChanges (r : reads) (object : client_Object) : list NamespacedName :=
  match object with
  | PodObject key => if negb (isPodFrom (nn_Name key) [names_OTLPGateway]) then [] else trace_enqueueAllPipelines r
  | _ => []
  end.

Definition trace_SetupWithManager (c : PipelineController) : list watch :=
  let ns := nn_Namespace (pc_lockName c) in
  [mkWatch TTracePipeline EnqueueRequestForObject always;
   mkWatch (TWritten KDaemonSet) (EnqueueRequestsFromMapFunc (pure trace_mapOTLPGatewayChanges)) (named_object names_OTLPGateway ns);
   mkWatch (TWritten KConfigMap) (EnqueueRequestsFromMapFunc (pure trace_mapLockConfigMapChanges))
     (named_object (nn_Name (pc_lockName c)) ns);
   mkWatch TPod (EnqueueRequestsFromMapFunc (pure trace_mapPodChanges)) UpdateOrDelete].

(** ** Metrics (metricpipeline_controller.go) *)

Definition NewMetricPipelineController (config : Global) : PipelineController :=
  let ns := TargetNamespace config in
  mkPipelineController config [NewLocker (mkNN ns names_MetricPipelineLock) (pipeline_count config)]
    (mkNN ns names_MetricPipelineSync) (mkNN ns names_MetricPipelineLock).

Definition metricPipelineOwnedResourceTypes (isIstioActive vpaCRDExists : bool) : list Kind :=
  ([KDaemonSet; KDeployment; KConfigMap; KSecret; KService; KServiceAccount; KClusterRole; KClusterRoleBinding; KRole;
    KRoleBinding; KNetworkPolicy]
   ++ (if isIstioActive then [KPeerAuthentication] else []) ++ (if vpaCRDExists then [KVPA] else []))%list.

Definition metric_enqueueAllPipelines (r : reads) : list NamespacedName :=
  enqueue_all (fun p => om_Name (mp_ObjectMeta p)) (rd_metrics r).
Definition metric_mapLockConfigMapChanges (r : reads) (_ : client_Object) : list NamespacedName := metric_enqueueAllPipelines r.
Definition metric_mapOTLPGatewayChanges (r : reads) (_ : client_Object) : list NamespacedName := metric_enqueueAllPipelines r.
Definition metric_mapTelemetryChanges (r : reads) (object : client_Object) : list NamespacedName :=
  match object with TelemetryObject _ => metric_enqueueAllPipelines r | _ => [] end.
Definition metric_mapPodChanges (r : reads) (object : client_Object) : list NamespacedName :=
  match object with
  | PodObject key =>
      if negb (isPodFrom (nn_Name key) [names_OTLPGateway; names_MetricAgent]) then [] else metric_enqueueAllPipelines r
  | _ => []
  end.
Definition metric_mapNodeChanges : MapFunc := map_nodes metric_enqueueAllPipelines.

Section Setup.
Context `{PredicateLib}.

Definition metric_SetupWithManager (c : PipelineController) (discoveryClient : option goerror) (isIstioActive vpaCRDExists : result bool goerror) :
    result (list watch) goerror :=
  with_flags discoveryClient isIstioActive vpaCRDExists (fun istio vpa =>
    let ns := nn_Namespace (pc_lockName c) in
    ([mkWatch TMetricPipeline EnqueueRequestForObject always]
     ++ owned_watches TMetricPipeline (metricPipelineOwnedResourceTypes istio vpa)
     ++ [mkWatch (TWritten KDaemonSet) (EnqueueRequestsFromMapFunc (pure metric_mapOTLPGatewayChanges))
           (named_object names_OTLPGateway ns);
         mkWatch (TWritten KConfigMap) (EnqueueRequestsFromMapFunc (pure metric_mapLockConfigMapChanges))
           (named_object (nn_Name (pc_lockName c)) ns);
         mkWatch TTelemetry (EnqueueRequestsFromMapFunc (pure metric_mapTelemetryChanges)) telemetry_changed;
         mkWatch TPod (EnqueueRequestsFromMapFunc (pure metric_mapPodChanges)) UpdateOrDelete;
         mkWatch TNode (EnqueueRequestsFromMapFunc metric_mapNodeChanges) always])%list).

(** ** Logs (logpipeline_controller.go) *)

(** The lock of the OTel mode and the lock of the Fluent Bit mode share a ConfigMap. *)
Definition NewLogPipelineController (config : Global) : PipelineController :=
  let ns := TargetNamespace config in
  mkPipelineController config
    [NewLocker (mkNN ns names_LogPipelineLock) (pipeline_count config); NewLocker (mkNN ns names_LogPipelineLock) MaxPipelineCount]
    (mkNN ns names_LogPipelineSync) (mkNN ns names_LogPipelineLock).

Definition logPipelineOwnedResourceTypes (isIstioActive vpaCRDExists : bool) : list Kind :=
  ([KDaemonSet; KDeployment; KConfigMap; KSecret; KService; KServiceAccount; KClusterRole; KClusterRoleBinding; KNetworkPolicy]
   ++ (if isIstioActive then [KPeerAuthentication] else []) ++ (if vpaCRDExists then [KVPA] else []))%list.

Definition log_enqueueAllPipelines (r : reads) : list NamespacedName :=
  enqueue_all (fun p => om_Name (lp_ObjectMeta p)) (rd_logs r).
Definition log_mapLockConfigMapChanges (r : reads) (_ : client_Object) : list NamespacedName := log_enqueueAllPipelines r.
Definition log_mapOTLPGatewayChanges (r : reads) (_ : client_Object) : list NamespacedName :=
  match rd_logs r with
  | Err _ => []
  | Ok items =>
      map (fun p => mkNN "" (om_Name (lp_ObjectMeta p)))
        (List.filter (fun p => match li_OTLP (ls_Input (lp_Spec p)) with Some _ => true | None => false end) items)
  end.
Definition log_mapTelemetryChanges (r : reads) (object : client_Object) : list NamespacedName :=
  match object with TelemetryObject _ => log_enqueueAllPipelines r | _ => [] end.
Definition log_mapPodChanges (r : reads) (object : client_Object) : list NamespacedName :=
  match object with
  | PodObject key =>
      if negb (isPodFrom (nn_Name key) [names_FluentBit; names_LogAgent; names_OTLPGateway]) then []
      else log_enqueueAllPipelines r
  | _ => []
  end.
Definition log_mapNodeChanges : MapFunc := map_nodes log_enqueueAllPipelines.

Definition log_SetupWithManager (c : PipelineController) (discoveryClient : option goerror) (isIstioActive vpaCRDExists : result bool goerror) :
    result (list watch) goerror :=
  with_flags discoveryClient isIstioActive vpaCRDExists (fun istio vpa =>
    let ns := nn_Namespace (pc_lockName c) in
    ([mkWatch TLogPipeline EnqueueRequestForObject always]
     ++ owned_watches TLogPipeline (logPipelineOwnedResourceTypes istio vpa)
     ++ [mkWatch TTelemetry (EnqueueRequestsFromMapFunc (pure log_mapTelemetryChanges)) telemetry_changed;
         mkWatch TPod (EnqueueRequestsFromMapFunc (pure log_mapPodChanges)) UpdateOrDelete;
         mkWatch TNode (EnqueueRequestsFromMapFunc log_mapNodeChanges) always;
         mkWatch (TWritten KDaemonSet) (EnqueueRequestsFromMapFunc (pure log_mapOTLPGatewayChanges))
           (named_object names_OTLPGateway ns);
         mkWatch (TWritten KConfigMap) (EnqueueRequestsFromMapFunc (pure log_mapLockConfigMapChanges))
           (named_object (nn_Name (pc_lockName c)) ns)])%list).

(** ** The gateway (otlpgateway_controller.go) *)

Definition otlpGatewayOwnedResourceTypes (isIstioActive vpaCRDExists : bool) : list Kind :=
  ([KDaemonSet; KConfigMap; KSecret; KService; KServiceAccount; KClusterRole; KClusterRoleBinding; KRole; KRoleBinding;
    KNetworkPolicy]
   ++ (if isIstioActive then [KPeerAuthentication; KDestinationRule] else []) ++ (if vpaCRDExists then [KVPA] else []))%list.

Definition enqueueConfigMap (globals : Global) : list NamespacedName :=
  [mkNN (TargetNamespace globals) names_OTLPGatewayCoordinationConfigMap].
Definition gateway_mapTelemetryChanges (globals : Global) (r : reads) (object : client_Object) : list NamespacedName :=
  match object with TelemetryObject _ => enqueueConfigMap globals | _ => [] end.
Definition mapOwnedResourceChanges (globals : Global) (r : reads) (_ : client_Object) : list NamespacedName := enqueueConfigMap globals.
Definition gateway_mapNodeChanges (globals : Global) : MapFunc := map_nodes (fun _ => enqueueConfigMap globals).

(** The predicate of the primary watch. *)
Definition coordination_configmap : predicate :=
  NewPredicateFuncs (fun o => str_eqb (nn_Name (object_key o)) names_OTLPGatewayCoordinationConfigMap).

Definition gateway_SetupWithManager (globals : Global) (discoveryClient : option goerror) (isIstioActive vpaCRDExists : result bool goerror) :
    result (list watch) goerror :=
  with_flags discoveryClient isIstioActive vpaCRDExists (fun istio vpa =>
    ([mkWatch (TWritten KConfigMap) EnqueueRequestForObject coordination_configmap]
     ++ map (fun k => mkWatch (TWritten k) (EnqueueRequestsFromMapFunc (pure (mapOwnedResourceChanges globals))) OwnedResourceChanged)
       (otlpGatewayOwnedResourceTypes istio vpa)
     ++ [mkWatch TTelemetry (EnqueueRequestsFromMapFunc (pure (gateway_mapTelemetryChanges globals))) telemetry_changed;
         mkWatch TNode (EnqueueRequestsFromMapFunc (gateway_mapNodeChanges globals)) always])%list).

(** ** Telemetry (telemetry_controller.go) *)

Record TelemetryControllerConfig := mkTelemetryControllerConfig {
  tcc_Global : Global;
  tcc_SelfMonitorAlertmanagerWebhookURL : string;
  tcc_SelfMonitorImage : string;
  tcc_SelfMonitorPriorityClassName : string;
  tcc_WebhookCert : Config
}.

(** The resources of the self-monitor that [NewTelemetryController] sets up. *)
Definition NewTelemetryController (config : TelemetryControllerConfig) : SelfMonitorConfig :=
  mkSelfMonitorConfig (tcc_Global config) (tcc_SelfMonitorImage config) (tcc_SelfMonitorPriorityClassName config).

Definition telemetryOwnedResourceTypes : list Kind :=
  [KDeployment; KConfigMap; KSecret; KService; KServiceAccount; KRole; KRoleBinding; KNetworkPolicy].

Definition createTelemetryRequests (r : reads) : list NamespacedName :=
  match rd_telemetries r with Err _ => [] | Ok items => items end.

Definition names_LogPipelineCRD : string := "logpipelines.telemetry.kyma-project.io".
Definition names_MetricPipelineCRD : string := "metricpipelines.telemetry.kyma-project.io".

Section TelemetryMaps.
Context (config : TelemetryControllerConfig).

Definition mapValidatingWebhook (r : reads) (object : client_Object) : list NamespacedName :=
  match object with
  | ValidatingWebhookObject key =>
      if negb (str_eqb (nn_Name key) (nn_Name (cfg_ValidatingWebhookName (tcc_WebhookCert config)))) then []
      else createTelemetryRequests r
  | _ => []
  end.
Definition mapMutatingWebhook (r : reads) (object : client_Object) : list NamespacedName :=
  match object with
  | MutatingWebhookObject key =>
      if negb (str_eqb (nn_Name key) (nn_Name (cfg_MutatingWebhookName (tcc_WebhookCert config)))) then []
      else createTelemetryRequests r
  | _ => []
  end.
Definition mapPipelineCRD (r : reads) (object : client_Object) : list NamespacedName :=
  match object with
  | CRDObject key =>
      if negb (str_eqb (nn_Name key) names_LogPipelineCRD) && negb (str_eqb (nn_Name key) names_MetricPipelineCRD) then []
      else createTelemetryRequests r
  | _ => []
  end.
Definition mapLogPipeline (r : reads) (object : client_Object) : list NamespacedName :=
  match object with
  | LogPipelineObject p => match lst_Conditions (lp_Status p) with [] => [] | _ => createTelemetryRequests r end
  | _ => []
  end.
Definition mapTracePipeline (r : reads) (object : client_Object) : list NamespacedName :=
  match object with
  | TracePipelineObject p => match tst_Conditions (tp_Status p) with [] => [] | _ => createTelemetryRequests r end
  | _ => []
  end.
Definition mapMetricPipeline (r : reads) (object : client_Object) : list NamespacedName :=
  match object with
  | MetricPipelineObject p => match mst_Conditions (mp_Status p) with [] => [] | _ => createTelemetryRequests r end
  | _ => []
  end.

Definition telemetry_SetupWithManager : list watch :=
  ([mkWatch TTelemetry EnqueueRequestForObject always]
   ++ owned_watches TTelemetry telemetryOwnedResourceTypes
   ++ [mkWatch TValidatingWebhook (EnqueueRequestsFromMapFunc (pure mapValidatingWebhook)) always;
       mkWatch TMutatingWebhook (EnqueueRequestsFromMapFunc (pure mapMutatingWebhook)) always;
       mkWatch TCRD (EnqueueRequestsFromMapFunc (pure mapPipelineCRD)) always;
       mkWatch TLogPipeline (EnqueueRequestsFromMapFunc (pure mapLogPipeline)) always;
       mkWatch TTracePipeline (EnqueueRequestsFromMapFunc (pure mapTracePipeline)) always;
       mkWatch TMetricPipeline (EnqueueRequestsFromMapFunc (pure mapMetricPipeline)) always])%list.

End TelemetryMaps.
End Setup.

(** ** The manager (main.go) *)

Record envConfig := mkEnvConfig {
  ec_FluentBitExporterImage : string;
  ec_FluentBitImage : string;
  ec_OTelCollectorImage : string;
  ec_SelfMonitorImage : string;
  ec_SelfMonitorFIPSImage : string;
  ec_ChownImage : string;
  ec_ImagePullSecret : string;
  ec_ManagerNamespace : string;
  ec_TargetNamespace : string;
  ec_OperateInFIPSMode : bool
}.

(** The command line. *)
Record cli := mkCli {
  cl_certDir : string;
  cl_highPriorityClassName : string;
  cl_normalPriorityClassName : string;
  cl_clusterTrustBundleName : string;
  cl_imagePullSecretName : string;
  cl_additionalWorkloadLabels : labels;
  cl_additionalWorkloadAnnotations : labels;
  cl_additionalWorkloadPodLabels : labels;
  cl_additionalWorkloadPodAnnotations : labels;
  cl_unlimitedPipelines : bool
}.

(** [initializeFeatureFlags], on the flags of a new process. *)
Definition initializeFeatureFlags (c : cli) : flags := Set_flag UnlimitedPipelineCount (cl_unlimitedPipelines c) [].

(** The settings that [run] builds and checks. *)
Definition run_globals (c : cli) (envCfg : envConfig) (gitTag : string) : result Global ValidationError :=
  let globals := NewGlobal
    [WithManagerNamespace (ec_ManagerNamespace envCfg); WithTargetNamespace (ec_TargetNamespace envCfg);
     WithOperateInFIPSMode (ec_OperateInFIPSMode envCfg); WithVersion gitTag;
     WithGlobalImagePullSecretName (cl_imagePullSecretName c); WithClusterTrustBundleName (cl_clusterTrustBundleName c);
     WithAdditionalWorkloadLabels (cl_additionalWorkloadLabels c);
     WithAdditionalWorkloadAnnotations (cl_additionalWorkloadAnnotations c);
     WithAdditionalWorkloadPodLabels (cl_additionalWorkloadPodLabels c);
     WithAdditionalWorkloadPodAnnotations (cl_additionalWorkloadPodAnnotations c);
     WithUnlimitedPipelines (IsEnabled UnlimitedPipelineCount (initializeFeatureFlags c))] in
  match Global_Validate globals with Some err => Err err | None => Ok globals end.

Definition webhookServiceName : string := "telemetry-manager-webhook".
Definition names_ManagerWebhookCertSecret : string := "telemetry-webhook-cert".
Definition names_ValidatingWebhookConfig : string := "telemetry-validating-webhook.kyma-project.io".
Definition names_MutatingWebhookConfig : string := "telemetry-mutating-webhook.kyma-project.io".

Definition createWebhookConfig (c : cli) (globals : Global) : Config :=
  NewWebhookCertConfig
    (mkConfigOptions (cl_certDir c) (mkNN (ManagerNamespace globals) webhookServiceName)
       (mkNN (TargetNamespace globals) names_ManagerWebhookCertSecret) (mkNN "" names_ValidatingWebhookConfig)
       (mkNN "" names_MutatingWebhookConfig)).

Definition setupTelemetryController (c : cli) (globals : Global) (cfg : envConfig) (webhookCertConfig : Config) :
    TelemetryControllerConfig :=
  mkTelemetryControllerConfig globals (webhookServiceName +:+ "." +:+ ManagerNamespace globals +:+ ".svc")
    (if g_operateInFIPSMode globals then ec_SelfMonitorFIPSImage cfg else ec_SelfMonitorImage cfg)
    (cl_normalPriorityClassName c) webhookCertConfig.

(** [cache.ByObject]: a namespace (as a field selector), labels, or a selection by namespace, each
    with an optional name. *)
Record ByObject := mkByObject {
  bo_Field : option string;
  bo_Label : option labels;
  bo_Namespaces : list (string * option string)
}.

Definition moduleLabelSelector : labels := {[LabelKeyKymaModule := LabelValueKymaModule]}.
Definition scopedByNamespace (globals : Global) : ByObject := mkByObject (Some (TargetNamespace globals)) None [].
Definition scopedByNamespaceAndLabel (globals : Global) : ByObject :=
  mkByObject (Some (TargetNamespace globals)) (Some moduleLabelSelector) [].
Definition scopedByLabel : ByObject := mkByObject None (Some moduleLabelSelector) [].

(** The [cacheOptions] of [setupManager]; ReplicaSets are of no kind here. *)
Definition cacheOptions (globals : Global) (isIstioActive vpaCRDExists : bool) : list (ObjectType * ByObject) :=
  (map (fun k => (TWritten k, scopedByNamespaceAndLabel globals)) [KDeployment; KDaemonSet]
   ++ [(TNode, mkByObject None None [])]
   ++ [(TPod, scopedByNamespaceAndLabel globals)]
   ++ map (fun k => (TWritten k, scopedByNamespaceAndLabel globals))
        [KSecret; KService; KServiceAccount; KNetworkPolicy; KRole; KRoleBinding]
   ++ [(TTelemetry, scopedByNamespace globals);
       (TWritten KClusterRole, scopedByLabel); (TWritten KClusterRoleBinding, scopedByLabel); (TCRD, scopedByLabel);
       (TValidatingWebhook, scopedByLabel); (TMutatingWebhook, scopedByLabel);
       (TWritten KConfigMap, mkByObject None None [("kube-system", Some "shoot-info"); (TargetNamespace globals, None)])]
   ++ (if isIstioActive then
         [(TWritten KPeerAuthentication, scopedByNamespaceAndLabel globals); (TWritten KDestinationRule, scopedByNamespaceAndLabel globals)]
       else [])
   ++ (if vpaCRDExists then [(TWritten KVPA, scopedByNamespaceAndLabel globals)] else []))%list.
