(* ===== verification/ControllersProps.v ===== *)
(** * Properties of the controllers

    Every object that is written is of a watched kind and in the scope of the cache; a
    change of a lock wakes all pipelines; a change of the nodes reaches one controller
    only. *)
From stdpp Require Import base gmap strings list.
From S2P Require Import Prelude Kube GoErrors ApiV1beta1 Lock K8sUtils Resources OtelResources FluentBitResources ResourcesProps.
From S2P Require Import Maintenance Controllers.
Local Open Scope string_scope.

(** ** What is written, by kind and labels *)

Section Accounting.
Context {W : Type} `{ClusterLaws W}.
Context (DeepEqual : forall S, object S -> object S -> bool) (sha256 : string -> string).

Section Invariant.
Context (kinds : list Kind) (l : labels) (ns : string).

(** An object is as it was, or it is of one of the kinds and is gone, or has the labels and
    is in the namespace. *)
Definition accounted (w0 w : W) : Prop :=
  forall k key, stored w k key = stored w0 k key \/
    k ∈ kinds /\ (stored w k key = None \/
                  exists o, stored w k key = Some o /\ l ⊆ default ∅ (fm_Labels (ob_Meta o)) /\ nn_Namespace key = ns).

Definition accounts (f : W -> W * option apierror) : Prop := forall w0 w, accounted w0 w -> accounted w0 (f w).1.

Lemma accounted_refl w : accounted w w.
Proof. by left. Qed.

Lemma one_write_accounted w0 w w' k (o : object (spec_of k)) :
  k ∈ kinds -> nn_Namespace (fm_Key (ob_Meta o)) = ns -> l ⊆ default ∅ (fm_Labels (ob_Meta o)) ->
  stored w' k (fm_Key (ob_Meta o)) = stored w k (fm_Key (ob_Meta o)) \/
    (exists v, stored w' k (fm_Key (ob_Meta o)) = Some (set_version v o)) ->
  (forall k' key, (k', key) <> (k, fm_Key (ob_Meta o)) -> stored w' k' key = stored w k' key) ->
  accounted w0 w -> accounted w0 w'.
Proof.
  intros Hk Hns Hl Hown Hframe Ha k' key. destruct (decide ((k', key) = (k, fm_Key (ob_Meta o)))) as [[= -> ->]|Hne].
  - destruct Hown as [He|[v He]]; rewrite He; [apply Ha|]. right. split; [done|]. right. by exists (set_version v o).
  - rewrite (Hframe _ _ Hne). apply Ha.
Qed.

Lemma create_accounts k (o : object (spec_of k)) :
  k ∈ kinds -> nn_Namespace (fm_Key (ob_Meta o)) = ns -> accounts (fun w => @obj_create W _ (NewLabeler l (client_of k)) w o).
Proof.
  intros Hk Hns w0 w. apply (one_write_accounted w0 w _ k (ensureLabels l o)); [done|done|apply ensureLabels_labels|..].
  - apply create_own.
  - intros k' key. apply create_frame.
Qed.

Lemma update_accounts k (o : object (spec_of k)) :
  k ∈ kinds -> nn_Namespace (fm_Key (ob_Meta o)) = ns -> accounts (fun w => @obj_update W _ (NewLabeler l (client_of k)) w o).
Proof.
  intros Hk Hns w0 w. apply (one_write_accounted w0 w _ k (ensureLabels l o)); [done|done|apply ensureLabels_labels|..].
  - apply update_own.
  - intros k' key. apply update_frame.
Qed.

Lemma write_accounts k prepare (o : object (spec_of k)) :
  k ∈ kinds -> nn_Namespace (fm_Key (ob_Meta o)) = ns ->
  accounts (fun w => @create_or_update W _ (NewLabeler l (client_of k)) prepare w o).
Proof.
  intros Hk Hns w0 w Ha. unfold create_or_update. destruct (@obj_get _ _ _ w _) as [ex|e].
  - by apply (update_accounts k (mkObject (mergeMetadata (ob_Meta o) (ob_Meta ex)) _)).
  - destruct (negb (IsNotFound e)); [done|]. by apply create_accounts.
Qed.

Lemma write_if_changed_accounts k (o : object (spec_of k)) :
  k ∈ kinds -> nn_Namespace (fm_Key (ob_Meta o)) = ns ->
  accounts (fun w => @create_or_update_if_changed W _ (NewLabeler l (client_of k)) (DeepEqual _) w o).
Proof.
  intros Hk Hns w0 w Ha. unfold create_or_update_if_changed. destruct (@obj_get _ _ _ w _) as [ex|e].
  - destruct (DeepEqual _ _ _); [done|].
    by apply (update_accounts k (mkObject (mergeMetadata (ob_Meta o) (ob_Meta ex)) _)).
  - destruct (negb (IsNotFound e)); [done|]. by apply create_accounts.
Qed.

(** A deletion of an object of one of the kinds. *)
Lemma shrink_accounts k f :
  k ∈ kinds -> shrinks f -> (forall k', k' <> k -> keeps k' f) -> accounts f.
Proof.
  intros Hk Hs Hkeep w0 w Ha k' key. destruct (decide (k' = k)) as [->|Hne].
  - destruct (Hs w k key) as [He|He]; rewrite He; [apply Ha|]. right. split; [done|]. by left.
  - pose proof (Hkeep k' Hne w key) as He. rewrite He. apply Ha.
Qed.

Lemma delete_accounts k key : k ∈ kinds -> accounts (fun w => @DeleteObject W _ (client_of k) w key).
Proof. intros Hk. apply (shrink_accounts k); [done|apply delete_shrinks|]. intros k' Hne. by apply delete_keeps. Qed.

Lemma cleanup_keeps name k : k <> KNetworkPolicy -> keeps k (fun w => CleanupOldNetworkPolicy w name).
Proof.
  intros Hne w key. pose proof (delete_frame w KNetworkPolicy name k key) as Hf. cbn [client_of] in Hf.
  unfold CleanupOldNetworkPolicy. destruct (obj_delete w name) as [w1 [e|]]; cbn [fst] in *; [destruct (IsNotFound e)|]; apply Hf; congruence.
Qed.

Lemma cleanup_accounts name : KNetworkPolicy ∈ kinds -> accounts (fun w => CleanupOldNetworkPolicy w name).
Proof. intros Hk. apply (shrink_accounts KNetworkPolicy); [done|apply cleanup_shrinks|]. intros k. apply cleanup_keeps. Qed.

Lemma run_steps_accounts steps :
  Forall (fun s : step W => accounts s.2) steps -> forall w0 w, accounted w0 w -> accounted w0 (run_steps steps w).1.
Proof.
  induction 1 as [|[what f] rest Hf _ IH]; intros w0 w Ha; [done|]. simpl. specialize (Hf w0 w Ha). simpl in Hf.
  destruct (f w) as [w1 [e|]]; [done|]. by apply IH.
Qed.

End Invariant.
End Accounting.

Ltac account_write k := first [refine (write_if_changed_accounts _ _ _ _ k _ _ _) | refine (write_accounts _ _ _ k _ _ _ _)];
  [cbn; in_list|reflexivity].
Ltac account_step :=
  cbn [snd];
  lazymatch goal with
  | |- accounts _ _ _ (w_secret _ _ _) => account_write KSecret
  | |- accounts _ _ _ (w_config_map _ _ _) => account_write KConfigMap
  | |- accounts _ _ _ (w_service_account _ _ _) => account_write KServiceAccount
  | |- accounts _ _ _ (w_cluster_role _ _ _) => account_write KClusterRole
  | |- accounts _ _ _ (w_cluster_role_binding _ _ _) => account_write KClusterRoleBinding
  | |- accounts _ _ _ (w_role _ _ _) => account_write KRole
  | |- accounts _ _ _ (w_role_binding _ _ _) => account_write KRoleBinding
  | |- accounts _ _ _ (w_service _ _) => account_write KService
  | |- accounts _ _ _ (w_daemon_set _ _) => account_write KDaemonSet
  | |- accounts _ _ _ (w_deployment _ _) => account_write KDeployment
  | |- accounts _ _ _ (w_vpa _ _) => account_write KVPA
  | |- accounts _ _ _ (w_destination_rule _ _) => account_write KDestinationRule
  | |- accounts _ _ _ (w_peer_authentication _ _) => account_write KPeerAuthentication
  | |- accounts _ _ _ (w_network_policy _ _ _) => account_write KNetworkPolicy
  | |- accounts _ _ _ (delete_of VPASpec _) => refine (delete_accounts _ _ _ KVPA _ _); cbn; in_list
  | |- accounts _ _ _ (fun w => CleanupOldNetworkPolicy w _) => refine (cleanup_accounts _ _ _ _ _); cbn; in_list
  end.
Ltac account_steps := repeat first [apply Forall_app; split | apply Forall_cons; split | apply Forall_nil; exact I | account_step].

Section Components.
Context {W : Type} `{ClusterLaws W}.
Context (DeepEqual : forall S, object S -> object S -> bool) (sha256 : string -> string) (globals : Global).
Let ns := TargetNamespace globals.

Lemma gateway_accounted image prio opts w :
  let o := NewOTLPGatewayApplierDeleter globals image prio in
  accounted (otlpGatewayOwnedResourceTypes (go_IstioEnabled opts) (go_VpaCRDExists opts))
    (DefaultLabels names_OTLPGateway LabelValueK8sComponentGateway) ns w (gateway_ApplyResources DeepEqual sha256 o opts w).1.
Proof.
  intros o. unfold gateway_ApplyResources.
  match goal with |- accounted ?K ?L ?N _ _ => set (kinds := K) in *; set (l := L) in * end.
  match goal with |- context [run_steps ?s w] => assert (Hcom : accounted kinds l ns w (run_steps s w).1) end.
  { apply run_steps_accounts; [|apply accounted_refl]. cbv [applyCommonResources optional_step].
    cbn [ga_rbac rbac_clusterRole rbac_role rbac_clusterRoleBinding rbac_roleBinding o NewOTLPGatewayApplierDeleter
         makeOTLPGatewayRBAC newRBAC fold_left app]. account_steps. }
  destruct (run_steps _ w) as [w1 [e|]]; [done|]. apply run_steps_accounts; [|done]. subst kinds l.
  cbv [gateway_steps applyVPA makeGatewayNetworkPolicies mesh_services].
  destruct (go_IstioEnabled opts), (go_VpaCRDExists opts), (go_VpaEnabled opts); cbn [map app negb]; account_steps.
Qed.

Lemma fluentbit_accounted fb exporter chown prio opts istio vpa w :
  let aad := NewFluentBitApplierDeleter globals ns fb exporter chown prio in
  accounted (logPipelineOwnedResourceTypes istio vpa) defaultFluentBitLabels ns w (fb_ApplyResources DeepEqual sha256 aad opts w).1.
Proof.
  intros aad. apply run_steps_accounts; [|apply accounted_refl]. cbv [fb_steps fb_makeNetworkPolicies]. cbn [map app]. account_steps.
Qed.

Lemma self_monitor_accounted image prio opts w :
  accounted telemetryOwnedResourceTypes (DefaultLabels names_SelfMonitor LabelValueK8sComponentMonitor) ns w
    (sm_ApplyResources DeepEqual sha256 (mkSelfMonitorConfig globals image prio) opts w).1.
Proof.
  apply run_steps_accounts; [|apply accounted_refl]. cbv [sm_steps sm_makeNetworkPolicies]. cbn [map app]. account_steps.
Qed.

Lemma log_agent_accounted image prio opts istio w :
  let aad := NewLogAgentApplierDeleter globals image prio in
  accounted (logPipelineOwnedResourceTypes istio (ao_VpaCRDExists opts))
    (DefaultLabels names_LogAgent LabelValueK8sComponentAgent) ns w (agent_ApplyResources DeepEqual sha256 aad opts w).1.
Proof.
  intros aad. unfold agent_ApplyResources.
  match goal with |- accounted ?K ?L ?N _ _ => set (kinds := K) in *; set (l := L) in * end.
  match goal with |- context [run_steps ?s w] => assert (Hcom : accounted kinds l ns w (run_steps s w).1) end.
  { apply run_steps_accounts; [|apply accounted_refl]. cbv [applyCommonResources optional_step].
    cbn [aa_rbac aa_baseName rbac_clusterRole rbac_role rbac_clusterRoleBinding rbac_roleBinding aad NewLogAgentApplierDeleter
         makeLogAgentRBAC newRBAC fold_left app]. account_steps. }
  destruct (run_steps _ w) as [w1 [e|]]; [done|]. apply run_steps_accounts; [|done]. subst kinds l.
  cbv [agent_steps makeAgentNetworkPolicies].
  destruct (ao_CollectorEnvVars opts), (ao_VpaCRDExists opts), (ao_VpaEnabled opts), istio; cbn [map app]; account_steps.
Qed.

Lemma metric_agent_accounted image prio opts istio w :
  let aad := NewMetricAgentApplierDeleter globals image prio in
  accounted (metricPipelineOwnedResourceTypes istio (ao_VpaCRDExists opts))
    (DefaultLabels names_MetricAgent LabelValueK8sComponentAgent) ns w (agent_ApplyResources DeepEqual sha256 aad opts w).1.
Proof.
  intros aad. unfold agent_ApplyResources.
  match goal with |- accounted ?K ?L ?N _ _ => set (kinds := K) in *; set (l := L) in * end.
  match goal with |- context [run_steps ?s w] => assert (Hcom : accounted kinds l ns w (run_steps s w).1) end.
  { apply run_steps_accounts; [|apply accounted_refl]. cbv [applyCommonResources optional_step].
    cbn [aa_rbac aa_baseName rbac_clusterRole rbac_role rbac_clusterRoleBinding rbac_roleBinding aad NewMetricAgentApplierDeleter
         makeMetricAgentRBAC newRBAC fold_left app]. account_steps. }
  destruct (run_steps _ w) as [w1 [e|]]; [done|]. apply run_steps_accounts; [|done]. subst kinds l.
  cbv [agent_steps makeAgentNetworkPolicies].
  destruct (ao_CollectorEnvVars opts), (ao_VpaCRDExists opts), (ao_VpaEnabled opts), istio; cbn [map app]; account_steps.
Qed.

(** ** The scope of the cache

    As documented: an object type without an entry is cached as a whole; otherwise an object
    is cached when it has the labels and is in the namespace of the field selector, or in one
    of the listed namespaces. *)
Definition in_scope (b : ByObject) (key : NamespacedName) (l : labels) : bool :=
  match bo_Field b with Some n => bool_decide (nn_Namespace key = n) | None => true end &&
  match bo_Label b with Some sel => bool_decide (sel ⊆ l) | None => true end &&
  match bo_Namespaces b with
  | [] => true
  | nss => existsb (fun e => bool_decide (nn_Namespace key = e.1) &&
                             match e.2 with Some name => bool_decide (nn_Name key = name) | None => true end) nss
  end.

Definition cached (options : list (ObjectType * ByObject)) (t : ObjectType) (key : NamespacedName) (l : labels) : bool :=
  match List.find (fun e => bool_decide (e.1 = t)) options with Some e => in_scope e.2 key l | None => true end.

Lemma in_cache istio vpa k key l :
  nn_Namespace key = ns -> moduleLabelSelector ⊆ l -> cached (cacheOptions globals istio vpa) (TWritten k) key l = true.
Proof.
  intros Hns Hl.
  assert (Hb : forall b, b ∈ [scopedByNamespaceAndLabel globals; scopedByLabel;
                             mkByObject None None [("kube-system", Some "shoot-info"); (ns, None)]] -> in_scope b key l = true).
  { intros b Hb. unfold in_scope. repeat (apply elem_of_cons in Hb as [->|Hb]); [..|by apply elem_of_nil in Hb];
      cbn [bo_Field bo_Label bo_Namespaces scopedByNamespaceAndLabel scopedByLabel existsb fst snd];
      rewrite ?(bool_decide_eq_true_2 (moduleLabelSelector ⊆ l)), ?(bool_decide_eq_true_2 (nn_Namespace key = ns)),
        ?(bool_decide_eq_true_2 (nn_Namespace key = TargetNamespace globals)) by done; try reflexivity.
    cbn. by rewrite orb_true_r. }
  unfold cached. destruct istio, vpa, k; cbn -[in_scope scopedByNamespaceAndLabel scopedByLabel]; try reflexivity;
    apply Hb; in_list.
Qed.

(** The kinds of Istio and VPA that were not there when the watches were set up ([istio0], [vpa0]) but are there when
    the resources are applied ([istio], [vpa]). *)
Definition appeared (istio0 vpa0 istio vpa : bool) : list Kind :=
  ((if negb istio0 && istio then [KPeerAuthentication; KDestinationRule] else []) ++ (if negb vpa0 && vpa then [KVPA] else []))%list.

(** A changed object is of a kind that is watched, or of one that appeared later, and when it is there it is cached, whatever
    the manager found ([istioc], [vpac]) when it set up the cache. *)
Definition observed (owned unwatched : list Kind) (w w' : W) : Prop :=
  forall k key, stored w' k key <> stored w k key ->
    (k ∈ owned \/ k ∈ unwatched) /\
    forall o istioc vpac, stored w' k key = Some o ->
      cached (cacheOptions globals istioc vpac) (TWritten k) key (default ∅ (fm_Labels (ob_Meta o))) = true.

Lemma accounted_observed (kinds owned unwatched : list Kind) l w w' :
  moduleLabelSelector ⊆ l -> accounted kinds l ns w w' -> (forall k, k ∈ kinds -> k ∈ owned \/ k ∈ unwatched) ->
  observed owned unwatched w w'.
Proof.
  intros Hl Ha Hsub k key Hne. destruct (Ha k key) as [He|[Hk Hcase]]; [done|]. split; [by apply Hsub|]. intros o istioc vpac Ho.
  destruct Hcase as [Hn|(o' & Ho' & Hns' & Hns)]; [congruence|]. rewrite Ho in Ho'. injection Ho' as <-.
  apply in_cache; [done|]. by etrans.
Qed.

Lemma owned_or_appeared (base istio_kinds : list Kind) (istio0 vpa0 istio vpa : bool) (k : Kind) :
  (forall j : Kind, j ∈ istio_kinds -> j ∈ [KPeerAuthentication; KDestinationRule]) ->
  k ∈ (base ++ (if istio then istio_kinds else []) ++ (if vpa then [KVPA] else []))%list ->
  k ∈ (base ++ (if istio0 then istio_kinds else []) ++ (if vpa0 then [KVPA] else []))%list \/ k ∈ appeared istio0 vpa0 istio vpa.
Proof.
  intros Hi. specialize (Hi k). unfold appeared. rewrite !elem_of_app.
  destruct istio0, vpa0, istio, vpa; cbn [negb andb]; rewrite ?elem_of_nil; naive_solver.
Qed.

Lemma module_label base c : moduleLabelSelector ⊆ DefaultLabels base c.
Proof.
  apply map_singleton_subseteq_l. unfold DefaultLabels. rewrite !lookup_insert_ne by done. reflexivity.
Qed.


End Components.

(** ** Events

    As documented: a watch handles the events of its type that pass its predicate; a mapping
    function is applied to the object, for an update to the old and to the new one. *)

Section Events.
Context `{PredicateLib} (owners : ObjectType -> client_Object -> list NamespacedName).

Definition event_object (e : event) : client_Object :=
  match e with Create o | Update _ o | Delete o | Generic o => o end.

Definition map_event (f : MapFunc) (r : reads) (t : Tracker) (e : event) : Tracker * list NamespacedName :=
  match e with
  | Create o | Delete o | Generic o => f r t o
  | Update old new => let '(t, a) := f r t old in let '(t, b) := f r t new in (t, (a ++ b)%list)
  end.

Definition handle (w : watch) (r : reads) (t : Tracker) (e : event) : Tracker * list NamespacedName :=
  if bool_decide (wt_type w = type_of (event_object e)) && wt_predicate w e then
    match wt_handler w with
    | EnqueueRequestForObject => (t, [object_key (event_object e)])
    | EnqueueRequestForOwner owner => (t, owners owner (event_object e))
    | EnqueueRequestsFromMapFunc f => map_event f r t e
    end
  else (t, []).

Fixpoint handle_all (ws : list watch) (r : reads) (t : Tracker) (e : event) : Tracker * list NamespacedName :=
  match ws with
  | [] => (t, [])
  | w :: rest =>
      let '(t, a) := handle w r t e in let '(t, b) := handle_all rest r t e in (t, (a ++ b)%list)
  end.

Lemma handle_all_in ws w r t e q :
  w ∈ ws -> (forall t, q ∈ (handle w r t e).2) -> q ∈ (handle_all ws r t e).2.
Proof.
  intros Hin Hq. revert t. induction ws as [|x ws IH]; intros t; [set_solver|]. cbn [handle_all].
  apply elem_of_cons in Hin as [<-|Hin].
  - specialize (Hq t). destruct (handle w r t e) as [t1 a]. destruct (handle_all ws r t1 e) as [t2 b]. cbn in *. set_solver.
  - destruct (handle x r t e) as [t1 a]. specialize (IH Hin t1). destruct (handle_all ws r t1 e) as [t2 b]. cbn in *. set_solver.
Qed.

(** A change of the ConfigMap of one of the locks that the controller hands to its reconcilers. *)
Definition lock_event (c : PipelineController) (e : event) : Prop :=
  exists l, l ∈ pc_locks c /\ event_object e = Written KConfigMap (ck_lockName l).

Lemma lock_event_name c e :
  Forall (fun l => ck_lockName l = pc_lockName c) (pc_locks c) -> lock_event c e ->
  event_object e = Written KConfigMap (pc_lockName c).
Proof. rewrite Forall_forall. intros Hl (l & Hin & He). by rewrite He, (Hl l Hin). Qed.

Lemma lock_watch_enqueues c f r t e q :
  event_object e = Written KConfigMap (pc_lockName c) -> (forall o, q ∈ f r o) ->
  q ∈ (handle (mkWatch (TWritten KConfigMap) (EnqueueRequestsFromMapFunc (pure f))
                 (named_object (nn_Name (pc_lockName c)) (nn_Namespace (pc_lockName c)))) r t e).2.
Proof.
  intros He Hq. unfold handle. cbn [wt_type wt_predicate wt_handler]. rewrite He. cbn [type_of].
  rewrite bool_decide_eq_true_2 by done. unfold named_object, NewPredicateFuncs.
  assert (Hp : str_eqb (nn_Name (object_key (event_object e))) (nn_Name (pc_lockName c)) &&
               str_eqb (nn_Namespace (object_key (event_object e))) (nn_Namespace (pc_lockName c)) = true).
  { rewrite He. cbn [object_key]. by rewrite !str_eqb_refl. }
  destruct e as [o|old o|o|o]; cbn [event_object] in Hp; rewrite Hp; cbn; [apply Hq| |apply Hq|apply Hq].
  apply elem_of_app. left. apply Hq.
Qed.

(** C31. When the ConfigMap of a lock that the controller of trace, metric or
    log pipelines hands to its reconcilers is created, changed or deleted, the
    watches of that controller enqueue every pipeline of its kind that a list
    returns, so that a pipeline that was rejected for the limit is reconciled
    when a slot becomes free. *)
Theorem lock_change_wakes_all_pipelines globals istio vpa r t e :
  (forall traces, rd_traces r = Ok traces -> lock_event (NewTracePipelineController globals) e ->
     forall p, p ∈ traces ->
       mkNN "" (om_Name (tp_ObjectMeta p)) ∈ (handle_all (trace_SetupWithManager (NewTracePipelineController globals)) r t e).2) /\
  (forall metrics ws, rd_metrics r = Ok metrics -> lock_event (NewMetricPipelineController globals) e ->
     metric_SetupWithManager (NewMetricPipelineController globals) None (Ok istio) (Ok vpa) = Ok ws ->
     forall p, p ∈ metrics -> mkNN "" (om_Name (mp_ObjectMeta p)) ∈ (handle_all ws r t e).2) /\
  (forall logs ws, rd_logs r = Ok logs -> lock_event (NewLogPipelineController globals) e ->
     log_SetupWithManager (NewLogPipelineController globals) None (Ok istio) (Ok vpa) = Ok ws ->
     forall p, p ∈ logs -> mkNN "" (om_Name (lp_ObjectMeta p)) ∈ (handle_all ws r t e).2).
Proof.
  split; [|split].
  - intros traces Hr He p Hp. eapply handle_all_in; [|intros t'; apply (lock_watch_enqueues (NewTracePipelineController globals) trace_mapLockConfigMapChanges); [apply lock_event_name; [by repeat constructor|exact He]|]].
    + unfold trace_SetupWithManager. in_list.
    + intros o. unfold trace_mapLockConfigMapChanges, trace_enqueueAllPipelines, enqueue_all. rewrite Hr.
      by apply (list_elem_of_fmap_2 (fun p => mkNN "" (om_Name (tp_ObjectMeta p)))).
  - intros metrics ws Hr He Hw p Hp. injection Hw as <-.
    eapply handle_all_in; [|intros t'; apply (lock_watch_enqueues (NewMetricPipelineController globals) metric_mapLockConfigMapChanges); [apply lock_event_name; [by repeat constructor|exact He]|]].
    + destruct istio, vpa; in_list.
    + intros o. unfold metric_mapLockConfigMapChanges, metric_enqueueAllPipelines, enqueue_all. rewrite Hr.
      by apply (list_elem_of_fmap_2 (fun p => mkNN "" (om_Name (mp_ObjectMeta p)))).
  - intros logs ws Hr He Hw p Hp. injection Hw as <-.
    eapply handle_all_in; [|intros t'; apply (lock_watch_enqueues (NewLogPipelineController globals) log_mapLockConfigMapChanges); [apply lock_event_name; [by repeat constructor|exact He]|]].
    + destruct istio, vpa; in_list.
    + intros o. unfold log_mapLockConfigMapChanges, log_enqueueAllPipelines, enqueue_all. rewrite Hr.
      by apply (list_elem_of_fmap_2 (fun p => mkNN "" (om_Name (lp_ObjectMeta p)))).
Qed.

End Events.

(** ** Changes of nodes *)

(** The mapping functions of the controllers that handle a change of a node, one after the
    other, on the shared tracker. *)
Fixpoint run_maps (fs : list MapFunc) (r : reads) (t : Tracker) (o : client_Object) : Tracker * list (list NamespacedName) :=
  match fs with
  | [] => (t, [])
  | f :: rest => let '(t, a) := f r t o in let '(t, bs) := run_maps rest r t o in (t, a :: bs)
  end.

Definition node_maps (globals : Global) : list MapFunc :=
  [gateway_mapNodeChanges globals; metric_mapNodeChanges; log_mapNodeChanges].

Lemma node_map_settled enqueue r t nodes o :
  rd_nodes r = Ok nodes -> tr_smallestMemory t = Some (computeSmallestAllocatableMemory nodes) -> map_nodes enqueue r t o = (t, []).
Proof. intros Hn Ht. unfold map_nodes, UpdateSmallestMemory. by rewrite Hn, Ht, Z.eqb_refl. Qed.

Lemma node_map_settles enqueue r t nodes o :
  rd_nodes r = Ok nodes ->
  tr_smallestMemory (map_nodes enqueue r t o).1 = Some (computeSmallestAllocatableMemory nodes).
Proof.
  intros Hn. unfold map_nodes, UpdateSmallestMemory. rewrite Hn.
  destruct (tr_smallestMemory t) as [s|] eqn:Et; [|done].
  destruct (Z.eqb_spec s (computeSmallestAllocatableMemory nodes)) as [->|]; done.
Qed.

Lemma settled_maps fs r t nodes o :
  Forall (fun f => exists enqueue, f = map_nodes enqueue) fs -> rd_nodes r = Ok nodes ->
  tr_smallestMemory t = Some (computeSmallestAllocatableMemory nodes) -> run_maps fs r t o = (t, replicate (length fs) []).
Proof.
  intros Hf Hn Ht. induction Hf as [|f fs [enqueue ->] _ IH]; [done|]. cbn [run_maps].
  rewrite (node_map_settled _ _ _ _ _ Hn Ht), IH. done.
Qed.

(** A change of the smallest node reaches one controller only: the three
    controllers share the tracker, so in whatever order their mapping functions
    run on the same list of nodes, the first one may enqueue requests and the
    other two enqueue none. *)
Theorem node_change_reaches_one_controller globals fs r t nodes o :
  Permutation fs (node_maps globals) -> rd_nodes r = Ok nodes ->
  exists f rest, fs = f :: rest /\ length rest = 2%nat /\ (run_maps fs r t o).2 = [(f r t o).2; []; []].
Proof.
  intros Hp Hn.
  assert (Hf : Forall (fun f => exists enqueue, f = map_nodes enqueue) fs).
  { rewrite Hp. unfold node_maps. repeat constructor; eexists; reflexivity. }
  pose proof (Permutation_length Hp) as Hl. destruct fs as [|f rest]; [done|]. exists f, rest.
  cbn in Hl. split; [done|]. split; [lia|]. apply Forall_cons in Hf as [[enqueue ->] Hrest]. cbn [run_maps].
  pose proof (node_map_settles enqueue r t nodes o Hn) as Hs.
  destruct (map_nodes enqueue r t o) as [t1 a]. cbn [fst snd] in *.
  rewrite (settled_maps rest r t1 nodes o Hrest Hn Hs). replace (length rest) with 2%nat by lia. done.
Qed.

(** ** Witnesses *)

Module ControllersSample.
#[export] Instance predicates : PredicateLib := Build_PredicateLib (fun _ => true) (fun _ => true) (fun _ => true).
Definition pipeline : TracePipeline :=
  mkTracePipeline (mkMeta "backend" "uid-1" 2 None false) (mkTraceSpec (mkTraceOutput None) None None) (mkTraceStatus []).
Definition cluster_reads : reads :=
  mkReads (Ok []) (Ok []) (Ok [pipeline]) (Ok []) (Ok [mkNode (Some 8589934592%Z); mkNode (Some 4294967296%Z)]).
Definition globals : Global := NewGlobal [WithTargetNamespace "kyma-system"].
Definition lock_deleted : event := Delete (Written KConfigMap (mkNN "kyma-system" names_TracePipelineLock)).
End ControllersSample.
#[local] Existing Instance ControllersSample.predicates.
#[local] Existing Instance Api.cluster.
#[local] Existing Instance Api.laws.

Lemma lock_change_wakes_all_pipelines_witness :
  mkNN "" "backend" ∈ (handle_all (fun _ _ => []) (trace_SetupWithManager (NewTracePipelineController ControllersSample.globals))
                         ControllersSample.cluster_reads NewTracker ControllersSample.lock_deleted).2.
Proof.
  destruct (lock_change_wakes_all_pipelines (fun _ _ => []) ControllersSample.globals false false
              ControllersSample.cluster_reads NewTracker ControllersSample.lock_deleted) as [Ht _].
  refine (Ht [ControllersSample.pipeline] eq_refl _ ControllersSample.pipeline _); [|apply list_elem_of_here].
  eexists. split; [apply list_elem_of_here|reflexivity].
Defined.

Lemma node_change_reaches_one_controller_witness :
  exists f : MapFunc, (run_maps (node_maps ControllersSample.globals) ControllersSample.cluster_reads NewTracker (NodeObject (mkNN "" "node-1"))).2 =
    [(f ControllersSample.cluster_reads NewTracker (NodeObject (mkNN "" "node-1"))).2; []; []].
Proof.
  destruct (node_change_reaches_one_controller ControllersSample.globals (node_maps ControllersSample.globals)
              ControllersSample.cluster_reads NewTracker
              [mkNode (Some 8589934592%Z); mkNode (Some 4294967296%Z)] (NodeObject (mkNN "" "node-1"))) as (f & rest & _ & _ & He).
  - apply Permutation_refl.
  - reflexivity.
  - exists f. exact He.
Defined.


(** When Istio is installed after the start, the gateway writes a PeerAuthentication that its controller does not watch. *)
Example later_istio_is_not_watched :
  let w' := (gateway_ApplyResources (fun _ _ _ => false) (fun s => s) ResourcesSample.gateway ResourcesSample.gateway_options
               (Api.empty (fun _ => false))).1 in
  go_IstioEnabled ResourcesSample.gateway_options = true /\
  ResourcesSample.present w' KPeerAuthentication (mkNN "kyma-system" names_OTLPGateway) = true /\
  bool_decide (KPeerAuthentication ∈ otlpGatewayOwnedResourceTypes false true) = false.
Proof. split_and!; vm_compute; reflexivity. Qed.
